(* ===== verification/_CoqProject ===== *)
-Q . S2P
Prelude.v
Errors.v
Address.v
Apdu.v
Telegram.v
Cemi.v
KnxIp.v
Crypto.v
SecureSession.v
DataSecure.v
Router.v
AddressRegistry.v
Heartbeat.v
ReceiveLimiter.v
Connection.v
FrameTransport.v
Text.v
Logging.v
Float.v
Queue.v
TunnelCore.v
AddressProbe.v
Tunnel.v
Server.v
ServerBehaviour.v
SecureServer.v
SecureServerBehaviour.v
Dpt.v
DptNumeric.v
DptComposite.v
Datapoints.v
DptTypes.v
DptViews.v
DptText.v
DptFloat.v
Aliases.v
DptRegistry.v
DptEquivalence.v
GroupRegistry.v
Callbacks.v
Client.v
HeartbeatTask.v
Delivery.v
GroupValues.v
Reception.v
Keyring.v
Config.v
ConfigFile.v
EtsCsv.v
Lifecycle.v
SecureTunnel.v
Routing.v
Discovery.v
Memory.v
Services.v
Pacing.v
