(* ===== verification/Prelude.v ===== *)
(** * A verification of knust, a KNX/IP library in Rust

    knust talks to a KNX installation over IP.  An application builds
    telegrams; a telegram becomes a group-value service (APCI/TPCI), a CEMI
    frame, a KNXnet/IP frame, and travels over a UDP or TCP transport to a
    gateway, with which the client keeps a tunnel: a channel with sequence
    numbers, acknowledgements, a heartbeat and, optionally, an individual
    address.  The same library can be the gateway: its tunnelling server
    answers connect requests, demultiplexes clients by channel and exchanges
    telegrams with them.  Payloads are datapoint values, written and read by
    static types or by runtime types looked up by number; tunnels and group
    payloads can be secured.  The development models these parts from the
    addresses up to the server and the application.  The tunnel and the server
    are modelled as built without the [secure] feature, and again with it, the
    secure handlers around the plain ones.

    ** How the model reads

    Rust functions are Rocq functions of the same name, methods
    [Type_method].  Integers are [Z] with their width written out ([as_u8],
    [shl16], [add16], [checked32]); a byte string is a [list Z].  A fallible function
    returns an [outcome]: [Ok], [Err] with the source's error value, or
    [Panic] for a failed index, slice, [debug_assert!] or checked addition.
    The class [Profile] says whether debug checks are on; theorems hold for
    both builds unless they name one.  Stateful code is written in the [eff]
    monad, state passing with [outcome]; a failed or panicking computation
    keeps the state changes made before it.  Sockets are scripts: a transport
    carries the list of what its reads and writes will meet (data, faults,
    silence), so a theorem over all scripts covers every behaviour of the
    network.  Clocks are [Z] nanoseconds handed in.  The calls of the
    log macros and the timing of hot paths are left out of the components that
    make them; what they call is in [Logging] and [Memory].

    ** Files

    - [Prelude]: outcomes, the [eff] monad, machine integers, slices, text,
      shared lemmas, hint databases and tactics.
    - [Errors] ([error.rs]): the error enums, their messages and categories.
    - [Address] ([protocol/address.rs]): group and individual addresses.
    - [Apdu] ([protocol/tpci.rs], [apci.rs], [management.rs]): TPCI frames,
      group-value and device-descriptor services.
    - [Telegram] ([protocol/telegram.rs]): telegrams and the priority order.
    - [Cemi] ([protocol/cemi.rs]): CEMI frames, parsed in the stages the
      source's one function goes through.
    - [KnxIp] ([protocol/knxip.rs]): KNXnet/IP frames and every message body;
      the class [BodyCodecLaws] is the contract of a body codec, [message] the
      sum of the bodies.
    - [Crypto], [SecureSession], [DataSecure] ([security/]): the constructions
      over AES, SHA-256, PBKDF2 and X25519, which the class [CryptoOps] stands
      for and [CryptoLaws] says what is relied on (with an instance of both);
      the secure session; the key ring and group payloads.
    - [Router] ([transport/router.rs]): responses matched to waiters.
    - [AddressRegistry] ([transport/address_registry.rs]).
    - [Heartbeat], [HeartbeatTask] ([transport/heartbeat.rs],
      [Tunnel::start_heartbeat] and its handle in [tunnel.rs]): the monitor and
      the decisions of its loop; the task over the tunnel and the router, and its
      meeting with the server.
    - [ReceiveLimiter] ([transport/receive_limiter.rs]): the throttle per group
      address and its channel, and what it lets through.
    - [Connection] ([transport/connection.rs], [health.rs]).
    - [FrameTransport] ([transport/frame_transport.rs]): the UDP and TCP
      transports behind the class [FrameTransport]; [FiniteInput] and
      [SafeInput] are what the tunnel needs of a transport.
    - [Queue] ([transport/queue.rs]): the telegram queue, its specification
      as lanes, and the consumer-producer interleaving.
    - [TunnelCore], [AddressProbe], [Tunnel] ([transport/tunnel.rs],
      [address_probe.rs]): the client, over any transport.
    - [Server], [ServerBehaviour] ([transport/server.rs]): the server's model
      and invariant; what it does.
    - [SecureServer], [SecureServerBehaviour] ([transport/server.rs], feature
      [secure]): the server with its secure sessions around [Server]; what it
      does and how it mirrors the plain one.
    - [Dpt], [DptNumeric], [DptComposite] ([protocol/dpt/]): the [DptValue]
      trait, the [Dpt] wrapper, the aliases and the datapoint types; the class
      [DptLaws] is the contract of a datapoint, with an instance for each.
    - [Datapoints]: datapoint values over the bus, for any type with
      [DptLaws].
    - [Text], [Float]: number printing and reading, and IEEE 754 arithmetic as
      Rust has it, on [SpecFloat].
    - [DptTypes], [DptViews], [DptText] ([dpt_type.rs], [unit.rs], [view.rs],
      [payload.rs], [decode.rs]): the runtime types, decoding and encoding,
      formatting and parsing.
    - [DptFloat], [Aliases] ([dpt8.rs], [dpt9.rs], [dpt14.rs], and the aliases
      of every file): the floating-point datapoints; each alias.
    - [DptRegistry] ([dpt/mod.rs], [value_range] of every file): the registry of
      datapoints by number with its type-erased decoders; the value ranges.
    - [DptEquivalence]: the static and the runtime decoders compared.
    - [GroupRegistry] ([group_registry.rs], the refresh task of
      [application/knx.rs]): datapoint types bound to group addresses.
    - [Callbacks] ([application/callbacks.rs]): the event handler.
    - [Client] ([application/knx.rs]): the handlers of received frames, the
      receiving task, the task that drains the limiter and the passes of the
      sending task.
    - [Delivery], [Reception] ([application/knx.rs]): the sending and the
      processing task, and the way of a telegram from one application to the
      server and from a gateway to the callbacks of another, there with the
      receiving, draining and processing tasks in any interleaving.
    - [Services] ([application/knx.rs]): the methods of the application object
      that hand on to its parts.
    - [GroupValues] ([application/knx.rs], [telegram.rs], [dpt/mod.rs]): values
      to write, typed group addresses, reading a value, the processing task.
    - [Keyring], [Config] ([config/keyring.rs], [mod.rs], [validation.rs]): the
      keyring file with its escaping, its validation, configurations.
    - [ConfigFile] ([config/mod.rs], [keyring.rs]): configurations and keyrings
      read from files, chosen by their extension.
    - [EtsCsv] ([config/ets_csv.rs]): the export of group addresses.
    - [Lifecycle] ([application/knx.rs], [transport/mod.rs]): building,
      connecting, starting, reconnecting and stopping, over any connections
      (class [Connections]).
    - [SecureTunnel] ([transport/tunnel.rs], feature [secure]): a tunnel through
      a secure session, and its meeting with [SecureServer].
    - [Routing] ([transport/routing.rs]): the multicast connection, and the
      client on it.
    - [Discovery] ([transport/discovery.rs]): the gateway scanner.
    - [Memory] ([memory.rs]): the memory monitor and the connection pool.
    - [Logging] ([logging.rs]): levels, the configuration, messages and dumps.
    - [Pacing] ([transport/rate_limit.rs], [backoff.rs], [health.rs]): the send
      limiter, the backoff and the health score, in [f64].

    ** What the theorems show

    - Codecs: addresses, TPCI, APCI, CEMI and KNXnet/IP frames and bodies read
      back what they write (but for the extended connect request); whatever the CEMI and frame parsers accept is
      exactly what was on the wire; which inputs panic is characterised.
    - Transport: TCP reassembly returns the frames sent, however they are cut.
    - Client: requests are processed exactly once under retransmission;
      connect and disconnect end in the promised states with the registry
      consistent; tunnels sharing a registry never share an address; the
      probe's verdict is right; the heartbeat declares a loss exactly after
      the configured number of failures in a row, wakes who waits for that, and
      keeps the session of a client alive on the server.
    - Queue and limiter: the queue refines priority lanes and stays within its
      bounds, with [priority_processing] on or off; the limiter bounds the rate
      per address, accounts for every telegram and stops nothing of traffic below
      its limit.
    - Router: a response reaches the oldest live waiter of its service.
    - Server: sessions stay consistent in every execution; connecting,
      disconnecting, eviction, sending, broadcasting and receiving behave as
      the protocol asks, exactly once under retransmission.
    - Datapoints: every type decodes without panicking, refuses a wrong
      length, and reads back the values it writes; a value written by the
      server is the value its client decodes.
    - Runtime datapoints: numbers identify the types, up to the overflow of their
      [u32]; decoding accepts exactly the right lengths; encoding inverts it where
      it can; which texts parse back and which do not; static and runtime decoders
      agree but for DPT 9, 16 and 235; the loops of the 2-byte floats end.
    - Registry: every registered type answers under its own number and no other,
      its numbers are those of the runtime types, and values survive decoding
      and encoding; decoded values lie in the declared ranges.
    - Security: encrypted streams decrypt in order whatever is lost, the
      handshake agrees on a key, positive numbers are never accepted twice,
      and a group payload is accepted exactly if it was made with the key.
    - Secure tunnelling: without the password nothing opens a channel, moves a
      sequence number or publishes a telegram; what a secure client says is what
      the plain server hears, and is answered the same; telegrams arrive exactly
      once; the client of [SecureTunnel] and the server connect; without
      security settings the secure build is the plain server.
    - Application: the client acknowledges every transmission and offers each
      telegram to its limiter exactly once, the registry
      refines a map and refreshes fairly, a telegram reaches exactly the
      callbacks registered for it, and typed and runtime reading agree.
    - End to end: the telegrams an application sends are published by the server
      by urgency and in order, as [arrived] says what the wire keeps of them, and
      what a gateway sends and the limiter lets through reaches the callbacks of
      the application and the last known values, exactly once.
    - Life cycle: the state, the connection and what the callbacks were told
      stay consistent whatever is called; reconnecting ends within its bounds,
      unless they are [u32::MAX] attempts.
    - Configuration: keyrings (less their signature) and address exports read back
      what they are written from, also through files; validation reports exactly
      the offending entries, each with its category, message and context.
    - Routing and discovery: what one client sends over multicast another one
      receives, as [arrived] says; search responses are parsed exactly, and a scan returns what
      answered.
    - Memory, pacing, logging: the monitor keeps its books, a pooled connection
      is lent once at a time, the send limiter is a token bucket, and a message is
      logged exactly at the levels set.
    - A few theorems state behaviour that is not what the code means to do
      (truncated one-byte writes, a panic on a short length field, a lost
      wake-up, telegrams lost or changed by the server, responses sent as
      writes, a read answered by another device's read, a client that cannot
      be restarted and reconnects once, routing messages other devices do not
      understand, allocations that are never taken back, replies of a secure
      server in the clear, acknowledgements it cannot hear, a client that is deaf
      to refusals after one lost datagram, an idle client that loses its session).

    ** Fuel and bounds

    The additional-info loop of the CEMI parser runs on one more pass than
    the declared length, which suffices because each pass consumes at least
    two bytes; [cemi_parse_no_panic] shows it never runs out.  The receive
    loops of the probe and of disconnect run on one more pass than their
    transport has input ([pending_input]); every received frame consumes
    input, so the fuel is never exhausted ([recv_until_signal_enough],
    [disconnect_wait_safe]); the probe through a secure session likewise.  The shifting loops of the 2-byte float
    encoders have [SHIFT_FUEL] (21) and [HALVE_FUEL] (15) passes; the first
    is enough by [encode_float2_terminates], the second because the loop
    stops at exponent 15.  [chunks] cuts a list with its length as fuel.  The loop
    over the elements of a keyring has one more pass than the text has characters
    ([keyring_reader_terminates]), the reconnection loop one more than the
    configured attempts, which is enough for less than [u32::MAX] of them and in
    general not ([reconnection_outcome]), the loops over the blocks of a
    search response and over the families of a block as many as the datagram and
    the block have bytes, of which each pass consumes two
    ([discovery_parse_exact]).  A task of the application, and the wait for a send
    token, is run for a given list or number of passes.  All other recursion is
    structural.

    ** Not modelled

    Methods that only return or clone a field or repeat a conversion; the
    interleaving of the tasks of one client with each other inside a pass, beyond
    the queue, the callbacks and the pool, where it matters; the overflow of the
    window counter of the limiter (a [u32], after 2^32 telegrams to one address
    within a second); the locks inside [get_connection] of the pool; the utilities
    of the tests and the example programs.  What the system or another crate
    provides (sockets, timers, random numbers, cryptographic
    primitives, [f64::powi]) is an argument of the definitions that use it. *)
From stdpp Require Export base tactics decidable option list numbers strings pretty gmap.
From Stdlib Require Export ZArith Ascii Lia.

#[global] Open Scope string_scope.
#[global] Open Scope list_scope.
#[global] Open Scope Z_scope.

(** * Outcomes of Rust code

    A call returns a value, returns an error through [Result], or panics
    (an index or a slice out of range, an arithmetic overflow in a build
    with overflow checks).  [Panic] is kept apart from [Err] because no
    caller of the crate can recover from it with [?]. *)
Inductive outcome (E A : Type) : Type :=
| Ok (a : A)
| Err (e : E)
| Panic.
Arguments Ok {E A} a.
Arguments Err {E A} e.
Arguments Panic {E A}.

#[global] Instance outcome_ret E : MRet (outcome E) := λ A a, Ok a.
#[global] Instance outcome_bind E : MBind (outcome E) := λ A B f m,
  match m with Ok a => f a | Err e => Err e | Panic => Panic end.
#[global] Instance outcome_fmap E : FMap (outcome E) := λ A B f m,
  match m with Ok a => Ok (f a) | Err e => Err e | Panic => Panic end.
#[global] Instance outcome_eq_dec E A `{EqDecision E, EqDecision A} :
  EqDecision (outcome E A).
Proof. solve_decision. Defined.

(** [Result::map_err]. *)
Definition map_err {E F A} (f : E → F) (m : outcome E A) : outcome F A :=
  match m with Ok a => Ok a | Err e => Err (f e) | Panic => Panic end.

(** [Option::ok_or]. *)
Definition ok_or {E A} (o : option A) (e : E) : outcome E A :=
  match o with Some a => Ok a | None => Err e end.

Definition is_ok {E A} (m : outcome E A) : bool :=
  match m with Ok _ => true | _ => false end.
Definition is_err {E A} (m : outcome E A) : bool :=
  match m with Err _ => true | _ => false end.
(** [Result::ok]; meaningful only on a value that is not [Panic]. *)
Definition result_ok {E A} (m : outcome E A) : option A :=
  match m with Ok a => Some a | _ => None end.

Section outcome_laws.
Context {E A B C : Type}.

Lemma outcome_bind_Ok (m : outcome E A) (f : A → outcome E B) b :
  m ≫= f = Ok b ↔ ∃ a, m = Ok a ∧ f a = Ok b.
Proof.
  split; [|by intros (a & -> & ?)].
  destruct m; simpl; intros ?; [by eexists|done..].
Qed.

Lemma outcome_bind_assoc (m : outcome E A) (f : A → outcome E B) (g : B → outcome E C) :
  (m ≫= f) ≫= g = m ≫= λ a, f a ≫= g.
Proof. by destruct m. Qed.

Lemma outcome_bind_no_panic (m : outcome E A) (f : A → outcome E B) :
  m ≠ Panic → (∀ a, m = Ok a → f a ≠ Panic) → m ≫= f ≠ Panic.
Proof. destruct m; simpl; auto. Qed.

Lemma map_err_no_panic {F} (f : E → F) (m : outcome E A) :
  m ≠ Panic → map_err f m ≠ Panic.
Proof. by destruct m. Qed.
End outcome_laws.

(** * Effects

    Code that threads a state of type [S] and can fail: the state survives an
    error, as the fields of a Rust object do. *)
Definition eff (S E A : Type) : Type := S → outcome E A * S.

#[global] Instance eff_ret S E : MRet (eff S E) := λ A a s, (Ok a, s).
#[global] Instance eff_bind S E : MBind (eff S E) := λ A B f m s,
  match m s with
  | (Ok a, s) => f a s
  | (Err e, s) => (Err e, s)
  | (Panic, s) => (Panic, s)
  end.

Definition gets {S E A} (f : S → A) : eff S E A := λ s, (Ok (f s), s).
Definition modify {S E} (f : S → S) : eff S E unit := λ s, (Ok tt, f s).
Definition lift {S E A} (m : outcome E A) : eff S E A := λ s, (m, s).
Definition throw {S E A} (e : E) : eff S E A := λ s, (Err e, s).
(** A [Result] inspected instead of propagated with [?]; a panic still unwinds. *)
Definition attempt {S E A} (m : eff S E A) : eff S E (A + E) := λ s,
  match m s with
  | (Ok a, s) => (Ok (inl a), s)
  | (Err e, s) => (Ok (inr e), s)
  | (Panic, s) => (Panic, s)
  end.

Lemma eff_bind_run {S E A B} (m : eff S E A) (f : A → eff S E B) s :
  (m ≫= f) s = match m s with
               | (Ok a, s) => f a s
               | (Err e, s) => (Err e, s)
               | (Panic, s) => (Panic, s)
               end.
Proof. done. Qed.

Lemma eff_bind_Ok {S E A B} (m : eff S E A) (f : A → eff S E B) s b s' :
  (m ≫= f) s = (Ok b, s') ↔ ∃ a s1, m s = (Ok a, s1) ∧ f a s1 = (Ok b, s').
Proof.
  rewrite eff_bind_run. split.
  - destruct (m s) as [[a|e|] s1]; [|done..]. intros Hf. by exists a, s1.
  - by intros (a & s1 & -> & Hf).
Qed.

(** A computation that changes the state only when it succeeds. *)
Definition fails_clean {S E A} (m : eff S E A) : Prop := ∀ s, is_ok (m s).1 = false → (m s).2 = s.
Section fails_clean.
Context {S E : Type}.
Lemma fails_clean_lift {A B} (m : outcome E A) (f : A → eff S E B) :
  (∀ a, fails_clean (f a)) → fails_clean (lift m ≫= f).
Proof. intros Hf s. rewrite eff_bind_run. cbn [lift]. destruct m; [apply Hf|done..]. Qed.
Lemma fails_clean_gets {A B} (g : S → A) (f : A → eff S E B) :
  (∀ a, fails_clean (f a)) → fails_clean (gets g ≫= f).
Proof. intros Hf s. apply Hf. Qed.
Lemma fails_clean_throw {A} (e : E) : fails_clean (throw e : eff S E A).
Proof. by intros s. Qed.
Lemma fails_clean_modify {A} (g : S → S) (a : A) : fails_clean (modify g ≫= λ _, mret a : eff S E A).
Proof. by intros s. Qed.
Lemma fails_clean_ret {A} (a : A) : fails_clean (mret a : eff S E A).
Proof. by intros s. Qed.
End fails_clean.

(** A computation that relates its start and end states by [R], whether it
    succeeds, fails or panics. *)
Definition preserves {S E A} (R : relation S) (m : eff S E A) : Prop := ∀ s, R s (m s).2.

Section preserves.
Context {S E : Type} (R : relation S) `{!PreOrder R}.

Lemma preserves_bind {A B} (m : eff S E A) (f : A → eff S E B) :
  preserves R m → (∀ a, preserves R (f a)) → preserves R (m ≫= f).
Proof.
  intros Hm Hf s. unfold mbind, eff_bind. specialize (Hm s).
  destruct (m s) as [[a|e|] s']; [|done..]. etrans; [exact Hm|apply Hf].
Qed.
Lemma preserves_attempt {A} (m : eff S E A) : preserves R m → preserves R (attempt m).
Proof. intros Hm s. unfold attempt. specialize (Hm s). by destruct (m s) as [[]]. Qed.
Lemma preserves_ret {A} (a : A) : preserves R (mret a : eff S E A).
Proof. intros s. reflexivity. Qed.
Lemma preserves_gets {A} (f : S → A) : preserves R (gets f : eff S E A).
Proof. intros s. reflexivity. Qed.
Lemma preserves_lift {A} (m : outcome E A) : preserves R (lift m).
Proof. intros s. reflexivity. Qed.
Lemma preserves_throw {A} (e : E) : preserves R (throw e : eff S E A).
Proof. intros s. reflexivity. Qed.
Lemma preserves_mono {A} (R' : relation S) (m : eff S E A) :
  (∀ s s', R s s' → R' s s') → preserves R m → preserves R' m.
Proof. intros HR Hm s. apply HR, Hm. Qed.
End preserves.

(** * Machine integers

    An integer of width [w] is the [Z] in its range; an operation that can
    leave the range is written with the wrap the language performs. *)
Definition u8_ok (z : Z) : Prop := 0 ≤ z < 256.
Definition u16_ok (z : Z) : Prop := 0 ≤ z < 65536.
Definition bytes_ok (l : list Z) : Prop := Forall u8_ok l.

#[global] Instance u8_ok_dec z : Decision (u8_ok z).
Proof. unfold u8_ok; apply _. Defined.
#[global] Instance u16_ok_dec z : Decision (u16_ok z).
Proof. unfold u16_ok; apply _. Defined.
#[global] Instance bytes_ok_dec l : Decision (bytes_ok l).
Proof. unfold bytes_ok; apply _. Defined.

(** [x as u8], [x as u16] for a wider unsigned [x]. *)
Definition as_u8 (z : Z) : Z := z mod 256.
Definition as_u16 (z : Z) : Z := z mod 65536.
(** [x << n] on [u8] and [u16]: bits shifted out are lost. *)
Definition shl8 (z n : Z) : Z := as_u8 (Z.shiftl z n).
Definition shl16 (z n : Z) : Z := as_u16 (Z.shiftl z n).
(** [u16::from_be_bytes] and [u16::to_be_bytes]. *)
Definition from_be16 (hi lo : Z) : Z := hi * 256 + lo.
Definition to_be16 (z : Z) : list Z := [z / 256; z mod 256].

(** [(byte & mask) != 0] and [u8::from(bool)]. *)
Definition bit_set (byte mask : Z) : bool := negb (Z.land byte mask =? 0).
Definition bool_u8 (b : bool) : Z := if b then 1 else 0.

(** The build profile: [debug_assert!] and arithmetic overflow checks are on
    in a debug build and off in a release build.  Theorems hold for both
    unless they name one. *)
Class Profile := { debug_build : bool }.

(** [a + b] on [u16]: a panic in a debug build, a wrap in a release build. *)
Definition add16 `{Profile} {E} (a b : Z) : outcome E Z :=
  if 65536 <=? a + b then (if debug_build then Panic else Ok (as_u16 (a + b)))
  else Ok (a + b).
(** A [u32] result of an addition or a product: an overflow panics in a debug
    build and wraps in a release build. *)
Definition checked32 `{Profile} {E} (z : Z) : outcome E Z :=
  if 2 ^ 32 <=? z then (if debug_build then Panic else Ok (z mod 2 ^ 32)) else Ok z.

#[global] Arguments shl8 : simpl never.
#[global] Arguments shl16 : simpl never.
#[global] Arguments as_u8 : simpl never.
#[global] Arguments as_u16 : simpl never.
#[global] Arguments from_be16 : simpl never.

(** * Slices *)

(** [data[i]]. *)
Definition idx {E} (l : list Z) (i : nat) : outcome E Z :=
  match l !! i with Some b => Ok b | None => Panic end.
(** [&data[a..b]]. *)
Definition slice {E} (l : list Z) (a b : nat) : outcome E (list Z) :=
  if (a <=? b)%nat && (b <=? length l)%nat then Ok (take (b - a) (drop a l)) else Panic.
(** [&data[a..]]. *)
Definition slice_from {E} (l : list Z) (a : nat) : outcome E (list Z) :=
  if (a <=? length l)%nat then Ok (drop a l) else Panic.
(** A byte used as a length ([b as usize]). *)
Definition usize (z : Z) : nat := Z.to_nat z.
(** [data.len() as u8], [data.len() as u16]. *)
Definition len_u8 {A} (l : list A) : Z := as_u8 (Z.of_nat (length l)).
Definition len_u16 {A} (l : list A) : Z := as_u16 (Z.of_nat (length l)).

(** * Text produced by [format!] *)

(** [{}] of an unsigned integer. *)
Definition dec (z : Z) : string := pretty z.
Definition dec_nat (n : nat) : string := pretty (Z.of_nat n).
Definition hex_digit (d : Z) : string :=
  match String.get (Z.to_nat d) "0123456789ABCDEF" with
  | Some c => String c EmptyString
  | None => EmptyString
  end.
(** [{:02X}] of a [u8] and [{:04X}] of a [u16]. *)
Definition hex02 (z : Z) : string := hex_digit (z / 16) +:+ hex_digit (z mod 16).
Definition hex04 (z : Z) : string := hex02 (z / 256) +:+ hex02 (z mod 256).

#[global] Arguments dec : simpl never.
#[global] Arguments dec_nat : simpl never.
#[global] Arguments hex02 : simpl never.
#[global] Arguments hex04 : simpl never.

(** [char] patterns of [str::contains] and [str::split]: a Rust [str] is its
    UTF-8 bytes, and an ASCII pattern matches at byte granularity. *)
Fixpoint str_contains (c : ascii) (s : string) : bool :=
  match s with
  | EmptyString => false
  | String d t => Ascii.eqb d c || str_contains c t
  end.
Fixpoint str_split (c : ascii) (s : string) : list string :=
  match s with
  | EmptyString => [EmptyString]
  | String d t =>
      if Ascii.eqb d c then EmptyString :: str_split c t
      else match str_split c t with
           | p :: ps => String d p :: ps
           | [] => [String d EmptyString]
           end
  end.
Lemma str_split_nonempty c s : str_split c s ≠ [].
Proof. destruct s as [|d s]; [done|]. cbn. destruct (Ascii.eqb d c); [done|]. by destruct (str_split c s). Qed.

(** [str::parse::<u8>]: an optional [+], then one or more decimal digits,
    failing on anything else and on a value above 255. *)
Definition ascii_digit (c : ascii) : option Z :=
  let n := Z.of_nat (nat_of_ascii c) in
  if (48 <=? n) && (n <=? 57) then Some (n - 48) else None.
Fixpoint parse_digits (s : string) (acc : Z) : option Z :=
  match s with
  | EmptyString => Some acc
  | String c t =>
      match ascii_digit c with
      | None => None
      | Some d =>
          let acc' := acc * 10 + d in
          if 255 <? acc' then None else parse_digits t acc'
      end
  end.
Definition parse_u8 (s : string) : option Z :=
  match s with
  | EmptyString => None
  | String c t =>
      if Ascii.eqb c "+" then
        match t with EmptyString => None | _ => parse_digits t 0 end
      else parse_digits s 0
  end.

(** * Exhaustive checks over a range of machine integers *)
Definition check_below (n : positive) (P : Z → bool) : bool :=
  snd (Pos.iter (λ st : Z * bool, (st.1 + 1, st.2 && P st.1)) (0, true) n).

Lemma check_below_sound n P :
  check_below n P = true → ∀ z, 0 ≤ z < Zpos n → P z = true.
Proof.
  assert (∀ st, Pos.iter (λ st : Z * bool, (st.1 + 1, st.2 && P st.1)) (0, true) n = st →
    st.1 = Zpos n ∧ (st.2 = true → ∀ z, 0 ≤ z < Zpos n → P z = true)) as H.
  { induction n as [|n IH] using Pos.peano_ind; intros st <-.
    - simpl. split; [done|]. intros Hp z Hz. by replace z with 0 by lia.
    - rewrite Pos.iter_succ.
      destruct (IH _ eq_refl) as [E1 E2]. simpl. split; [lia|].
      intros [Hs Hp]%andb_prop z Hz. rewrite E1 in Hp.
      destruct (decide (z = Zpos n)) as [->|]; [done|]. apply E2; [done|lia]. }
  intros Hc. by apply (H _ eq_refl).
Qed.

Lemma check_below_decide n (P : Z → Prop) `{∀ z, Decision (P z)} :
  check_below n (λ z, bool_decide (P z)) = true → ∀ z, 0 ≤ z < Zpos n → P z.
Proof.
  intros Hc z Hz. by apply (bool_decide_eq_true_1 (P z)), (check_below_sound _ _ Hc).
Qed.

Lemma u8_decide (P : Z → Prop) `{∀ z, Decision (P z)} :
  check_below 256 (λ z, bool_decide (P z)) = true → ∀ b, u8_ok b → P b.
Proof. apply check_below_decide. Qed.

Lemma u16_decide (P : Z → Prop) `{∀ z, Decision (P z)} :
  check_below 65536 (λ z, bool_decide (P z)) = true → ∀ b, u16_ok b → P b.
Proof. apply check_below_decide. Qed.

(** Proves [P b] for a [b] bounded by [H] by evaluating [P] on the whole range. *)
Tactic Notation "exhaust" constr(n) constr(P) constr(b) constr(H) :=
  refine (check_below_decide n P _ b H); vm_compute; reflexivity.

(** * Lemmas shared by the components *)
Section integers.

Lemma as_u8_small z : u8_ok z → as_u8 z = z.
Proof. intros. by apply Z.mod_small. Qed.
Lemma as_u8_ok z : u8_ok (as_u8 z).
Proof. by apply Z.mod_pos_bound. Qed.
Lemma as_u16_small z : u16_ok z → as_u16 z = z.
Proof. intros. by apply Z.mod_small. Qed.
Lemma as_u16_ok z : u16_ok (as_u16 z).
Proof. by apply Z.mod_pos_bound. Qed.

Lemma lor_shiftl_add a b n :
  0 ≤ n → 0 ≤ b < 2 ^ n → Z.lor (Z.shiftl a n) b = a * 2 ^ n + b.
Proof.
  intros Hn Hb. rewrite <-Z.shiftl_mul_pow2 by done.
  assert (Z.land (Z.shiftl a n) b = 0) as Hd.
  { apply Z.bits_inj'. intros i Hi. rewrite Z.land_spec, Z.bits_0.
    destruct (Z.lt_ge_cases i n).
    - by rewrite Z.shiftl_spec_low.
    - rewrite <-(Z.mod_small b (2 ^ n)), Z.mod_pow2_bits_high by lia. apply andb_false_r. }
  rewrite <-Z.lxor_lor by done. by rewrite Z.add_nocarry_lxor.
Qed.
Lemma land_low x n : 0 ≤ n → Z.land x (2 ^ n - 1) = x mod 2 ^ n.
Proof. intros. by rewrite <-Z.land_ones, Z.ones_equiv by done. Qed.
Lemma land_255 x : Z.land x 255 = x mod 256.
Proof. by apply (land_low x 8). Qed.
Lemma land_127 x : Z.land x 127 = x mod 128.
Proof. by apply (land_low x 7). Qed.
Lemma land_63 x : Z.land x 63 = x mod 64.
Proof. by apply (land_low x 6). Qed.
Lemma land_31 x : Z.land x 31 = x mod 32.
Proof. by apply (land_low x 5). Qed.
Lemma land_15 x : Z.land x 15 = x mod 16.
Proof. by apply (land_low x 4). Qed.
Lemma land_7 x : Z.land x 7 = x mod 8.
Proof. by apply (land_low x 3). Qed.
Lemma land_3 x : Z.land x 3 = x mod 4.
Proof. by apply (land_low x 2). Qed.
Lemma shiftr_2 x : Z.shiftr x 2 = x / 4.
Proof. by apply Z.shiftr_div_pow2. Qed.
Lemma shiftr_8 x : Z.shiftr x 8 = x / 256.
Proof. by apply Z.shiftr_div_pow2. Qed.
Lemma shiftr_11 x : Z.shiftr x 11 = x / 2048.
Proof. by apply Z.shiftr_div_pow2. Qed.
Lemma shiftr_12 x : Z.shiftr x 12 = x / 4096.
Proof. by apply Z.shiftr_div_pow2. Qed.

Lemma from_be16_ok hi lo : u8_ok hi → u8_ok lo → u16_ok (from_be16 hi lo).
Proof. unfold u8_ok, u16_ok, from_be16. lia. Qed.
Lemma from_to_be16 z : from_be16 (z / 256) (z mod 256) = z.
Proof. unfold from_be16. rewrite (Z.div_mod z 256) at 3 by done. lia. Qed.
Lemma to_from_be16 hi lo : u8_ok lo → to_be16 (from_be16 hi lo) = [hi; lo].
Proof.
  intros Hlo. unfold to_be16, from_be16.
  rewrite Z.div_add_l by done. rewrite (Z.div_small lo) by exact Hlo.
  rewrite Z.add_0_r, Z.add_comm, Z.mod_add by done. by rewrite (Z.mod_small lo) by exact Hlo.
Qed.
Lemma to_be16_bytes z : u16_ok z → bytes_ok (to_be16 z).
Proof.
  intros Hz. repeat constructor; try apply Z.mod_pos_bound; try done.
  - apply Z.div_pos; [apply Hz|done].
  - apply Z.div_lt_upper_bound; [done|]. apply Hz.
Qed.

Lemma len_u8_small {A} (l : list A) : Z.of_nat (length l) < 256 → len_u8 l = Z.of_nat (length l).
Proof. intros. apply as_u8_small. unfold u8_ok. lia. Qed.
Lemma len_u16_small {A} (l : list A) : Z.of_nat (length l) < 65536 → len_u16 l = Z.of_nat (length l).
Proof. intros. apply as_u16_small. unfold u16_ok. lia. Qed.
Lemma usize_len_u8 {A} (l : list A) : Z.of_nat (length l) < 256 → usize (len_u8 l) = length l.
Proof. intros. rewrite len_u8_small by done. apply Nat2Z.id. Qed.
End integers.

Section slices.
Context {E : Type}.
Implicit Types l : list Z.

Lemma idx_lt l i : (i < length l)%nat → ∃ b, l !! i = Some b ∧ idx (E:=E) l i = Ok b.
Proof.
  intros [b Hb]%lookup_lt_is_Some_2. exists b. unfold idx. by rewrite Hb.
Qed.
Lemma idx_Ok l i b : idx (E:=E) l i = Ok b ↔ l !! i = Some b.
Proof. unfold idx. destruct (l !! i); naive_solver. Qed.
Lemma idx_ok_byte l i b : bytes_ok l → idx (E:=E) l i = Ok b → u8_ok b.
Proof. intros Hl Hi%idx_Ok. by eapply Forall_lookup_1. Qed.
Lemma idx_no_panic l i : (i < length l)%nat → idx (E:=E) l i ≠ Panic.
Proof. intros (b & _ & ->)%idx_lt. done. Qed.
Lemma idx_app_r l k i : idx (E:=E) (l ++ k) (length l + i) = idx k i.
Proof.
  unfold idx. rewrite lookup_app_r by lia.
  by replace (length l + i - length l)%nat with i by lia.
Qed.

Lemma idx_app_0 l x k : idx (E:=E) (l ++ x :: k) (length l) = Ok x.
Proof. unfold idx. by rewrite list_lookup_middle. Qed.
Lemma idx_app_1 l x y k : idx (E:=E) (l ++ x :: y :: k) (length l + 1) = Ok y.
Proof. by rewrite idx_app_r. Qed.

Lemma slice_no_panic l a b :
  (a ≤ b)%nat → (b ≤ length l)%nat → slice (E:=E) l a b ≠ Panic.
Proof.
  intros Ha Hb. unfold slice.
  by rewrite (proj2 (Nat.leb_le _ _) Ha), (proj2 (Nat.leb_le _ _) Hb).
Qed.
Lemma slice_Ok l a b k :
  slice (E:=E) l a b = Ok k ↔ (a ≤ b ≤ length l)%nat ∧ k = take (b - a) (drop a l).
Proof.
  unfold slice. destruct (Nat.leb_spec a b), (Nat.leb_spec b (length l)); simpl;
    (split; [intros; simplify_eq; try (split; [lia|done])|intros [? ->]; try done; lia]).
Qed.
Lemma slice_app l k m :
  slice (E:=E) (l ++ k ++ m) (length l) (length l + length k) = Ok k.
Proof.
  apply slice_Ok. rewrite !length_app. split; [lia|].
  rewrite drop_app_length. replace (_ - _)%nat with (length k) by lia.
  by rewrite take_app_length.
Qed.
Lemma slice_from_no_panic l a : (a ≤ length l)%nat → slice_from (E:=E) l a ≠ Panic.
Proof. intros Ha. unfold slice_from. by rewrite (proj2 (Nat.leb_le _ _) Ha). Qed.
Lemma slice_from_app l k n : n = length l → slice_from (E:=E) (l ++ k) n = Ok k.
Proof.
  intros ->. unfold slice_from. rewrite length_app, (proj2 (Nat.leb_le _ _)) by lia.
  by rewrite drop_app_length.
Qed.
Lemma slice_from_0 l : slice_from (E:=E) l 0 = Ok l.
Proof. done. Qed.
Lemma slice_app_at l k m a b :
  a = length l → b = (length l + length k)%nat → slice (E:=E) (l ++ k ++ m) a b = Ok k.
Proof. intros -> ->. apply slice_app. Qed.
Lemma bytes_ok_app l k : bytes_ok (l ++ k) ↔ bytes_ok l ∧ bytes_ok k.
Proof. apply Forall_app. Qed.
End slices.

(** * Automation *)
Create HintDb knx.
Create HintDb preserves.
#[export] Hint Resolve preserves_attempt preserves_ret preserves_gets preserves_lift
  preserves_throw : preserves.
#[export] Hint Resolve as_u8_ok as_u16_ok to_be16_bytes from_be16_ok : knx.
#[export] Hint Resolve Forall_nil_2 Forall_cons_2 Forall_take Forall_drop : knx.
#[export] Hint Extern 1 (u8_ok _) => (unfold u8_ok; lia) : knx.
#[export] Hint Extern 1 (u16_ok _) => (unfold u16_ok; lia) : knx.

(** Splits a hypothesis or a goal on the conditions and matches it is stuck on. *)
Ltac split_if :=
  match goal with
  | H : context [if ?b then _ else _] |- _ => destruct b eqn:?
  | |- context [if ?b then _ else _] => destruct b eqn:?
  end.

(** Turns the boolean comparisons in the context into arithmetic facts. *)
Ltac to_arith :=
  repeat match goal with
  | H : (_ <? _)%nat = true |- _ => apply Nat.ltb_lt in H
  | H : (_ <? _)%nat = false |- _ => apply Nat.ltb_ge in H
  | H : (_ <=? _)%nat = true |- _ => apply Nat.leb_le in H
  | H : (_ <=? _)%nat = false |- _ => apply Nat.leb_gt in H
  | H : (_ <? _)%Z = true |- _ => apply Z.ltb_lt in H
  | H : (_ <? _)%Z = false |- _ => apply Z.ltb_ge in H
  | H : (_ <=? _)%Z = true |- _ => apply Z.leb_le in H
  | H : (_ <=? _)%Z = false |- _ => apply Z.leb_gt in H
  | H : (_ =? _)%Z = true |- _ => apply Z.eqb_eq in H
  | H : (_ =? _)%Z = false |- _ => apply Z.eqb_neq in H
  | H : negb _ = true |- _ => apply negb_true_iff in H
  | H : negb _ = false |- _ => apply negb_false_iff in H
  | H : _ && _ = true |- _ => apply andb_prop in H as [? ?]
  end.

(** Inverts a successful chain of binds in a hypothesis. *)
Ltac inv_binds :=
  repeat match goal with
  | H : _ ≫= _ = Ok _ |- _ => apply outcome_bind_Ok in H as (? & ? & H)
  | H : Ok _ = Ok _ |- _ => injection H as H
  | H : Err _ = Ok _ |- _ => discriminate H
  | H : Panic = Ok _ |- _ => discriminate H
  end.

(** The same for a stateful computation, through the steps that only read. *)
Ltac inv_eff :=
  repeat match goal with
  | H : (_ ≫= _) _ = (Ok _, _) |- _ => apply eff_bind_Ok in H as (? & ? & ? & H)
  | H : lift _ _ = (Ok _, _) |- _ => unfold lift in H; injection H as H ?; subst
  | H : gets _ _ = (Ok _, _) |- _ => unfold gets in H; injection H as ? ?; subst
  | H : modify _ _ = (Ok _, _) |- _ => unfold modify in H; injection H as ? ?; subst
  | H : throw _ _ = (Ok _, _) |- _ => discriminate H
  | H : mret _ _ = (Ok _, _) |- _ => unfold mret, eff_ret in H; injection H as ? ?; subst
  | H : (if ?b then _ else _) _ = (Ok _, _) |- _ => destruct b eqn:?
  | H : (let (_, _) := ?p in _) _ = (Ok _, _) |- _ => destruct p
  end.
(** A computation that fails without a trace. *)
Ltac fails_clean :=
  repeat match goal with
  | |- fails_clean (gets _ ≫= _) => apply fails_clean_gets; intros ?
  | |- fails_clean (lift _ ≫= _) => apply fails_clean_lift; intros ?
  | |- fails_clean (throw _) => apply fails_clean_throw
  | |- fails_clean (mret _) => apply fails_clean_ret
  | |- fails_clean (modify _ ≫= _) => apply fails_clean_modify
  | |- fails_clean (if ?b then _ else _) => destruct b eqn:?
  | |- fails_clean (let (_, _) := ?p in _) => destruct p
  end.

(** [lia] after eliminating division and remainder by constants. *)
Ltac zlia := Z.to_euclidean_division_equations; lia.

(** Bit operations with literal masks and shifts, as arithmetic. *)
Create Rewrite HintDb bits.
#[export] Hint Rewrite land_255 land_127 land_63 land_31 land_15 land_7 land_3
  shiftr_2 shiftr_8 shiftr_11 shiftr_12 : bits.
Ltac bits_to_arith := autorewrite with bits.

(** One step of a proof that a computation does not panic: index and slice
    goals become bounds, binds and conditions are split. *)
Ltac no_panic_step :=
  match goal with
  | |- idx _ _ ≠ Panic => apply idx_no_panic; lia
  | |- slice _ _ _ ≠ Panic => apply slice_no_panic; lia
  | |- slice_from _ _ ≠ Panic => apply slice_from_no_panic; lia
  | |- map_err _ _ ≠ Panic => apply map_err_no_panic
  | |- (_ ≫= _) ≠ Panic => apply outcome_bind_no_panic; [|intros ? ?]
  | |- (if ?b then _ else _) ≠ Panic => destruct b eqn:?; to_arith
  | |- (let (_, _) := ?p in _) ≠ Panic => destruct p
  | |- Ok _ ≠ Panic => done
  | |- Err _ ≠ Panic => done
  | |- _ => solve [auto with knx]
  end.
Ltac no_panic := cbn zeta; repeat no_panic_step.

(** Closes a preservation goal with the hints of the components. *)
Ltac by_preserves := solve [auto with preserves typeclass_instances].

(** One step of a proof that a computation preserves a relation. *)
Ltac preserves_step :=
  match goal with
  | |- preserves _ (_ ≫= _) => apply preserves_bind; [apply _| |intros ?]
  | |- preserves _ (attempt _) => apply preserves_attempt
  | |- preserves _ (if ?b then _ else _) => destruct b
  | |- preserves _ (match ?x with _ => _ end) => destruct x
  | |- _ => by_preserves
  end.

(** * Big-endian integers *)

(** [to_be_bytes] of an integer of [n] bytes, [from_be_bytes], and the signed
    reading of an unsigned value. *)
Fixpoint to_be (n : nat) (z : Z) : list Z :=
  match n with
  | O => []
  | S n => (z / 256 ^ Z.of_nat n) mod 256 :: to_be n z
  end.
Definition from_be (l : list Z) : Z := foldl (λ a b, a * 256 + b) 0 l.
Definition as_signed (bits z : Z) : Z :=
  if z <? 2 ^ (bits - 1) then z else z - 2 ^ bits.

Section big_endian.
Implicit Types l : list Z.

Lemma length_to_be n z : length (to_be n z) = n.
Proof. induction n as [|n IH]; cbn; congruence. Qed.
Lemma to_be_bytes n z : bytes_ok (to_be n z).
Proof. induction n as [|n IH]; constructor; [by apply Z.mod_pos_bound|exact IH]. Qed.

Lemma foldl_be l a : foldl (λ a b, a * 256 + b) a l = a * 256 ^ Z.of_nat (length l) + from_be l.
Proof.
  unfold from_be. revert a. induction l as [|b l IH]; intros a; cbn [foldl length]; [lia|].
  rewrite IH, (IH (0 * 256 + b)), Nat2Z.inj_succ, Z.pow_succ_r by lia. lia.
Qed.
Lemma from_be_cons b l : from_be (b :: l) = b * 256 ^ Z.of_nat (length l) + from_be l.
Proof. unfold from_be at 1. cbn [foldl]. by rewrite foldl_be, Z.add_0_l. Qed.
Lemma from_be_bound l : bytes_ok l → 0 ≤ from_be l < 256 ^ Z.of_nat (length l).
Proof.
  induction l as [|b l IH]; [done|]. intros [Hb Hl]%Forall_cons. rewrite from_be_cons.
  cbn [length]. rewrite Nat2Z.inj_succ, Z.pow_succ_r by lia. specialize (IH Hl). unfold u8_ok in Hb. nia.
Qed.

Lemma from_be_to_be n z : from_be (to_be n z) = z mod 256 ^ Z.of_nat n.
Proof.
  induction n as [|n IH]; [by rewrite Z.mod_1_r|]. cbn [to_be]. rewrite from_be_cons, length_to_be, IH.
  rewrite Nat2Z.inj_succ, Z.pow_succ_r by lia. set (p := 256 ^ Z.of_nat n).
  assert (0 < p) by (apply Z.pow_pos_nonneg; lia).
  rewrite (Z.mul_comm 256 p), Z.rem_mul_r by lia. lia.
Qed.
Lemma to_be_add n z m k : (n ≤ k)%nat → to_be n (z + m * 256 ^ Z.of_nat k) = to_be n z.
Proof.
  intros Hk. induction n as [|n IH]; [done|]. cbn [to_be]. rewrite IH by lia. f_equal.
  replace (Z.of_nat k) with (Z.of_nat (k - n - 1) + 1 + Z.of_nat n) by lia.
  rewrite !Z.pow_add_r, Z.pow_1_r, Z.mul_assoc, Z.div_add by lia.
  by rewrite Z.mul_assoc, Z.mod_add.
Qed.
Lemma to_be_from_be l : bytes_ok l → to_be (length l) (from_be l) = l.
Proof.
  induction l as [|b l IH]; [done|]. intros [Hb Hl]%Forall_cons. cbn [length to_be].
  pose proof (from_be_bound l Hl) as Hf. rewrite from_be_cons. f_equal.
  - rewrite Z.div_add_l, (Z.div_small (from_be l)), Z.add_0_r by lia. by apply Z.mod_small.
  - rewrite Z.add_comm, to_be_add by done. by apply IH.
Qed.

(** A signed value and its two's-complement bytes. *)
Lemma as_signed_mod bits z :
  1 ≤ bits → - 2 ^ (bits - 1) ≤ z < 2 ^ (bits - 1) → as_signed bits (z mod 2 ^ bits) = z.
Proof.
  intros Hb Hz. assert (2 ^ bits = 2 * 2 ^ (bits - 1)) as E
    by (rewrite <-Z.pow_succ_r by lia; f_equal; lia).
  unfold as_signed. rewrite E in *. destruct (Z.lt_ge_cases z 0).
  - rewrite <-(Z.mod_add z 1), Z.mod_small by lia. destruct (Z.ltb_spec (z + 1 * (2 * 2 ^ (bits - 1))) (2 ^ (bits - 1))); lia.
  - rewrite Z.mod_small by lia. destruct (Z.ltb_spec z (2 ^ (bits - 1))); lia.
Qed.
Lemma as_signed_bound bits z :
  1 ≤ bits → 0 ≤ z < 2 ^ bits → - 2 ^ (bits - 1) ≤ as_signed bits z < 2 ^ (bits - 1).
Proof.
  intros Hb Hz. assert (2 ^ bits = 2 * 2 ^ (bits - 1)) as E
    by (rewrite <-Z.pow_succ_r by lia; f_equal; lia).
  unfold as_signed. destruct (Z.ltb_spec z (2 ^ (bits - 1))); lia.
Qed.
End big_endian.
