(* ===== verification/Errors.v ===== *)
(** The error hierarchy of the crate ([src/src/error.rs]) and the address
    errors it wraps ([AddressError] of [src/src/protocol/address.rs]).  Every
    fallible function of the development returns [result], so a theorem can
    say which error a rejected input produces.  [Display] texts are the
    [#[error(...)]] attributes of the source. *)
From S2P Require Import Prelude.

(** [std::io::Error], seen through its kind and its [Display] text. *)
Inductive io_error_kind := ConnectionRefused | WouldBlock | TimedOut | OtherKind (code : Z).
Record io_error := IoError { io_kind : io_error_kind; io_text : string }.

Inductive AddressError :=
| InvalidRange (component : string) (value max : Z)
| InvalidFormat (input expected : string).

Definition AddressError_display (e : AddressError) : string :=
  match e with
  | InvalidRange component value max =>
      "Invalid " +:+ component +:+ " value: " +:+ dec value +:+ " (max: " +:+ dec max +:+ ")"
  | InvalidFormat input expected =>
      "Invalid address format: '" +:+ input +:+ "' (expected: " +:+ expected +:+ ")"
  end.

Inductive TransportError :=
| ConnectionFailed (address : string) (source : io_error)
| SocketError (operation : string) (source : io_error)
| Timeout (timeout_ms : Z)
| ConnectionClosed
| TransportInvalidConfiguration (details : string)
| QueueFull
| QueueClosed
| QueueTimeout (timeout_ms : Z).

Definition TransportError_display (e : TransportError) : string :=
  match e with
  | ConnectionFailed address source =>
      "Connection failed to " +:+ address +:+ ": " +:+ io_text source
  | SocketError operation source =>
      "Socket operation failed: " +:+ operation +:+ " - " +:+ io_text source
  | Timeout timeout_ms => "Connection timeout after " +:+ dec timeout_ms +:+ "ms"
  | ConnectionClosed => "Connection closed unexpectedly"
  | TransportInvalidConfiguration details => "Invalid connection configuration: " +:+ details
  | QueueFull => "Queue is full, cannot enqueue more telegrams"
  | QueueClosed => "Queue is closed, no more operations allowed"
  | QueueTimeout timeout_ms => "Queue processing timeout after " +:+ dec timeout_ms +:+ "ms"
  end.

Inductive ProtocolError :=
| ParseError (offset : nat) (reason : string)
| InvalidFrame (details : string)
| UnsupportedVersion (version : Z)
| CemiError (message : string)
| DptError (dpt_type details : string)
| InvalidAddress (address reason : string)
| NotATelegram (service_type : string).

Definition ProtocolError_display (e : ProtocolError) : string :=
  match e with
  | ParseError offset reason =>
      "Frame parsing failed at offset " +:+ dec_nat offset +:+ ": " +:+ reason
  | InvalidFrame details => "Invalid frame format: " +:+ details
  | UnsupportedVersion version => "Unsupported protocol version: " +:+ dec version
  | CemiError message => "CEMI error: " +:+ message
  | DptError dpt_type details => "DPT error: " +:+ dpt_type +:+ " - " +:+ details
  | InvalidAddress address reason =>
      "Invalid address format: " +:+ address +:+ " - " +:+ reason
  | NotATelegram service_type => "Frame is not a telegram: " +:+ service_type
  end.

Inductive DeviceError :=
| CommunicationTimeout (device : string) (timeout_ms : Z).

Definition DeviceError_display (e : DeviceError) : string :=
  match e with
  | CommunicationTimeout device timeout_ms =>
      "Communication timeout for " +:+ device +:+ " after " +:+ dec timeout_ms +:+ "ms"
  end.

Inductive SecurityError :=
| AuthenticationFailed (reason : string)
| InvalidCredentials (details : string)
| CryptographicError (operation reason : string)
| SessionExpired
| SecurityInvalidConfiguration (details : string).

Definition SecurityError_display (e : SecurityError) : string :=
  match e with
  | AuthenticationFailed reason => "Authentication failed: " +:+ reason
  | InvalidCredentials details => "Invalid security credentials: " +:+ details
  | CryptographicError operation reason =>
      "Cryptographic operation failed: " +:+ operation +:+ " - " +:+ reason
  | SessionExpired => "Security session expired"
  | SecurityInvalidConfiguration details => "Invalid security configuration: " +:+ details
  end.

Inductive ConfigurationError :=
| MissingParameter (parameter : string)
| InvalidValue (parameter value reason : string)
| ConfigurationParseError (file reason : string)
| ValidationError (details : string).

Definition ConfigurationError_display (e : ConfigurationError) : string :=
  match e with
  | MissingParameter parameter =>
      "Missing required configuration parameter: " +:+ parameter
  | InvalidValue parameter value reason =>
      "Invalid configuration value for " +:+ parameter +:+ ": " +:+ value +:+ " - " +:+ reason
  | ConfigurationParseError file reason =>
      "Configuration file parsing failed: " +:+ file +:+ " - " +:+ reason
  | ValidationError details => "Configuration validation failed: " +:+ details
  end.

Inductive DiscoveryError :=
| NoGatewaysFound
| DiscoveryTimeout (timeout_ms : Z)
| InvalidResponse (addr reason : string)
| NetworkError (source : io_error).

Definition DiscoveryError_display (e : DiscoveryError) : string :=
  match e with
  | NoGatewaysFound => "No gateways found during discovery"
  | DiscoveryTimeout timeout_ms => "Discovery timeout after " +:+ dec timeout_ms +:+ "ms"
  | InvalidResponse addr reason =>
      "Invalid discovery response from " +:+ addr +:+ ": " +:+ reason
  | NetworkError source => "Network error during discovery: " +:+ io_text source
  end.

Inductive KnxError :=
| Transport (e : TransportError)
| Protocol (e : ProtocolError)
| Device (e : DeviceError)
| Security (e : SecurityError)
| Configuration (e : ConfigurationError)
| Discovery (e : DiscoveryError)
| AddressErr (e : AddressError).

(** [Result<T, KnxError>], extended with [Panic]. *)
Abbreviation result := (outcome KnxError).

(** [?] on a [Result<_, ProtocolError>] and friends: the [From] conversions. *)
Abbreviation perr e := (Err (Protocol e)).
Abbreviation terr e := (Err (Transport e)).

Definition KnxError_display (e : KnxError) : string :=
  match e with
  | Transport e => "Transport error: " +:+ TransportError_display e
  | Protocol e => "Protocol error: " +:+ ProtocolError_display e
  | Device e => "Device error: " +:+ DeviceError_display e
  | Security e => "Security error: " +:+ SecurityError_display e
  | Configuration e => "Configuration error: " +:+ ConfigurationError_display e
  | Discovery e => "Discovery error: " +:+ DiscoveryError_display e
  | AddressErr e => "Address error: " +:+ AddressError_display e
  end.

Definition is_recoverable (e : KnxError) : bool :=
  match e with
  | Transport (Timeout _) | Transport ConnectionClosed
  | Discovery (DiscoveryTimeout _)
  | Security SessionExpired => true
  | _ => false
  end.

Definition category (e : KnxError) : string :=
  match e with
  | Transport _ => "transport"
  | Protocol _ => "protocol"
  | Device _ => "device"
  | Security _ => "security"
  | Configuration _ => "configuration"
  | Discovery _ => "discovery"
  | AddressErr _ => "address"
  end.

Definition context (e : KnxError) : string :=
  match e with
  | Transport e => "Transport layer: " +:+ TransportError_display e
  | Protocol e => "Protocol layer: " +:+ ProtocolError_display e
  | Device e => "Device layer: " +:+ DeviceError_display e
  | Security e => "Security layer: " +:+ SecurityError_display e
  | Configuration e => "Configuration: " +:+ ConfigurationError_display e
  | Discovery e => "Discovery: " +:+ DiscoveryError_display e
  | AddressErr e => "Address: " +:+ AddressError_display e
  end.

#[global] Instance io_error_kind_eq_dec : EqDecision io_error_kind.
Proof. solve_decision. Defined.
#[global] Instance io_error_eq_dec : EqDecision io_error.
Proof. solve_decision. Defined.
#[global] Instance AddressError_eq_dec : EqDecision AddressError.
Proof. solve_decision. Defined.
#[global] Instance TransportError_eq_dec : EqDecision TransportError.
Proof. solve_decision. Defined.
#[global] Instance ProtocolError_eq_dec : EqDecision ProtocolError.
Proof. solve_decision. Defined.
#[global] Instance DeviceError_eq_dec : EqDecision DeviceError.
Proof. solve_decision. Defined.
#[global] Instance SecurityError_eq_dec : EqDecision SecurityError.
Proof. solve_decision. Defined.
#[global] Instance ConfigurationError_eq_dec : EqDecision ConfigurationError.
Proof. solve_decision. Defined.
#[global] Instance DiscoveryError_eq_dec : EqDecision DiscoveryError.
Proof. solve_decision. Defined.
#[global] Instance KnxError_eq_dec : EqDecision KnxError.
Proof. solve_decision. Defined.
