(* ===== verification/Address.v ===== *)
(** KNX addresses ([src/src/protocol/address.rs]): group and individual
    addresses as 16-bit newtypes, their packing and unpacking, their textual
    form and its parser.  [GroupAddress] is meant to hold 15 bits
    (main 4, middle 3, sub 8); [GroupAddress_valid] is that invariant, and
    every checked constructor establishes it. *)
From S2P Require Import Prelude Errors.

(** * Data *)
Record MainGroup := MkMainGroup { main_get : Z }.
Record MiddleGroup := MkMiddleGroup { middle_get : Z }.
Record GroupAddress := MkGroupAddress { ga_raw : Z }.
Record IndividualAddress := MkIndividualAddress { ia_raw : Z }.
Inductive Address :=
| Group (addr : GroupAddress)
| Individual (addr : IndividualAddress).

#[global] Instance GroupAddress_eq_dec : EqDecision GroupAddress.
Proof. solve_decision. Defined.
#[global] Instance IndividualAddress_eq_dec : EqDecision IndividualAddress.
Proof. solve_decision. Defined.
#[global] Instance Address_eq_dec : EqDecision Address.
Proof. solve_decision. Defined.
#[global] Program Instance GroupAddress_countable : Countable GroupAddress :=
  inj_countable' ga_raw MkGroupAddress _.
Next Obligation. by intros []. Qed.
#[global] Program Instance IndividualAddress_countable : Countable IndividualAddress :=
  inj_countable' ia_raw MkIndividualAddress _.
Next Obligation. by intros []. Qed.

(** * Components of a group address *)
Definition MainGroup_MAX : Z := 15.
Definition MiddleGroup_MAX : Z := 7.

(** [assert!] is active in every build. *)
Definition MainGroup_new {E} (value : Z) : outcome E MainGroup :=
  if value <=? MainGroup_MAX then Ok (MkMainGroup value) else Panic.
Definition MiddleGroup_new {E} (value : Z) : outcome E MiddleGroup :=
  if value <=? MiddleGroup_MAX then Ok (MkMiddleGroup value) else Panic.

(** * Group addresses *)
Definition GroupAddress_MAX_MAIN : Z := 15.
Definition GroupAddress_MAX_MIDDLE : Z := 7.
Definition GroupAddress_MAX_RAW : Z := 0x7FFF.

Definition GroupAddress_new (main : MainGroup) (middle : MiddleGroup) (sub : Z) : GroupAddress :=
  MkGroupAddress
    (Z.lor (Z.lor (shl16 (main_get main) 11) (shl16 (middle_get middle) 8)) sub).

Definition GroupAddress_try_new (main middle sub : Z) : outcome AddressError GroupAddress :=
  if GroupAddress_MAX_MAIN <? main then Err (InvalidRange "main" main GroupAddress_MAX_MAIN)
  else if GroupAddress_MAX_MIDDLE <? middle
  then Err (InvalidRange "middle" middle GroupAddress_MAX_MIDDLE)
  else Ok (MkGroupAddress (Z.lor (Z.lor (shl16 main 11) (shl16 middle 8)) sub)).

Definition GroupAddress_try_from_raw (raw : Z) : outcome AddressError GroupAddress :=
  if GroupAddress_MAX_RAW <? raw then Err (InvalidRange "raw" raw GroupAddress_MAX_RAW)
  else Ok (MkGroupAddress raw).

Definition GroupAddress_from_raw_unchecked (raw : Z) : GroupAddress := MkGroupAddress raw.
Definition GroupAddress_from_parts := GroupAddress_try_new.

Definition GroupAddress_main (a : GroupAddress) : Z :=
  as_u8 (Z.land (Z.shiftr (ga_raw a) 11) 0x0F).
Definition GroupAddress_middle (a : GroupAddress) : Z :=
  as_u8 (Z.land (Z.shiftr (ga_raw a) 8) 0x07).
Definition GroupAddress_sub (a : GroupAddress) : Z := as_u8 (Z.land (ga_raw a) 0xFF).
Definition GroupAddress_parts (a : GroupAddress) : Z * Z * Z :=
  (GroupAddress_main a, GroupAddress_middle a, GroupAddress_sub a).
Definition GroupAddress_is_broadcast (a : GroupAddress) : bool := ga_raw a =? 0.
Definition GroupAddress_broadcast : GroupAddress := MkGroupAddress 0.

Definition GroupAddress_display (a : GroupAddress) : string :=
  dec (GroupAddress_main a) +:+ "/" +:+ dec (GroupAddress_middle a) +:+ "/"
    +:+ dec (GroupAddress_sub a).

Definition GroupAddress_from_str (s : string) : result GroupAddress :=
  match str_split "/"%char s with
  | [p0; p1; p2] =>
      main ← ok_or (parse_u8 p0) (Protocol (InvalidAddress s "Invalid main group number"));
      middle ← ok_or (parse_u8 p1) (Protocol (InvalidAddress s "Invalid middle group number"));
      sub ← ok_or (parse_u8 p2) (Protocol (InvalidAddress s "Invalid sub group number"));
      map_err (λ e, Protocol (InvalidAddress s (AddressError_display e)))
        (GroupAddress_try_new main middle sub)
  | _ => perr (InvalidAddress s "Group address must have format main/middle/sub")
  end.

(** * Individual addresses *)
Definition IndividualAddress_MAX_AREA : Z := 15.
Definition IndividualAddress_MAX_LINE : Z := 15.

Definition IndividualAddress_pack (area line device : Z) : IndividualAddress :=
  MkIndividualAddress (Z.lor (Z.lor (shl16 area 12) (shl16 line 8)) device).

(** [debug_assert!] panics in a debug build only. *)
Definition IndividualAddress_new `{Profile} {E} (area line device : Z)
    : outcome E IndividualAddress :=
  if debug_build && negb (area <=? IndividualAddress_MAX_AREA) then Panic
  else if debug_build && negb (line <=? IndividualAddress_MAX_LINE) then Panic
  else Ok (IndividualAddress_pack area line device).

Definition IndividualAddress_try_new (area line device : Z)
    : outcome AddressError IndividualAddress :=
  if IndividualAddress_MAX_AREA <? area
  then Err (InvalidRange "area" area IndividualAddress_MAX_AREA)
  else if IndividualAddress_MAX_LINE <? line
  then Err (InvalidRange "line" line IndividualAddress_MAX_LINE)
  else Ok (IndividualAddress_pack area line device).

Definition IndividualAddress_from_raw (raw : Z) : IndividualAddress := MkIndividualAddress raw.
Definition IndividualAddress_from_parts_unchecked := IndividualAddress_pack.
Definition IndividualAddress_area (a : IndividualAddress) : Z :=
  as_u8 (Z.land (Z.shiftr (ia_raw a) 12) 0x0F).
Definition IndividualAddress_line (a : IndividualAddress) : Z :=
  as_u8 (Z.land (Z.shiftr (ia_raw a) 8) 0x0F).
Definition IndividualAddress_device (a : IndividualAddress) : Z :=
  as_u8 (Z.land (ia_raw a) 0xFF).
Definition IndividualAddress_parts (a : IndividualAddress) : Z * Z * Z :=
  (IndividualAddress_area a, IndividualAddress_line a, IndividualAddress_device a).
Definition IndividualAddress_is_broadcast (a : IndividualAddress) : bool := ia_raw a =? 0.
Definition IndividualAddress_broadcast : IndividualAddress := MkIndividualAddress 0.
Definition IndividualAddress_default : IndividualAddress := IndividualAddress_broadcast.

Definition IndividualAddress_display (a : IndividualAddress) : string :=
  dec (IndividualAddress_area a) +:+ "." +:+ dec (IndividualAddress_line a) +:+ "."
    +:+ dec (IndividualAddress_device a).

Definition IndividualAddress_from_str (s : string) : result IndividualAddress :=
  match str_split "."%char s with
  | [p0; p1; p2] =>
      area ← ok_or (parse_u8 p0) (Protocol (InvalidAddress s "Invalid area number"));
      line ← ok_or (parse_u8 p1) (Protocol (InvalidAddress s "Invalid line number"));
      device ← ok_or (parse_u8 p2) (Protocol (InvalidAddress s "Invalid device number"));
      map_err (λ e, Protocol (InvalidAddress s (AddressError_display e)))
        (IndividualAddress_try_new area line device)
  | _ => perr (InvalidAddress s "Individual address must have format area.line.device")
  end.

(** * Either kind *)
Definition Address_display (a : Address) : string :=
  match a with
  | Group addr => GroupAddress_display addr
  | Individual addr => IndividualAddress_display addr
  end.

Definition Address_try_from (s : string) : result Address :=
  if str_contains "/"%char s then a ← GroupAddress_from_str s; Ok (Group a)
  else if str_contains "."%char s then a ← IndividualAddress_from_str s; Ok (Individual a)
  else perr (InvalidAddress s
         "Address must contain either '/' (group) or '.' (individual)").

(** * Invariants *)
Definition GroupAddress_valid (a : GroupAddress) : Prop := 0 ≤ ga_raw a ≤ GroupAddress_MAX_RAW.
Definition IndividualAddress_valid (a : IndividualAddress) : Prop := u16_ok (ia_raw a).
Definition Address_valid (a : Address) : Prop :=
  match a with
  | Group g => GroupAddress_valid g
  | Individual i => IndividualAddress_valid i
  end.

(** * Packing as arithmetic *)
Section packing.

Lemma shl16_small z n : 0 ≤ n → 0 ≤ z * 2 ^ n < 65536 → shl16 z n = Z.shiftl z n.
Proof.
  intros Hn Hz. unfold shl16. apply as_u16_small. by rewrite Z.shiftl_mul_pow2.
Qed.

Lemma group_pack_arith main middle sub :
  0 ≤ main ≤ 15 → 0 ≤ middle ≤ 7 → u8_ok sub →
  Z.lor (Z.lor (shl16 main 11) (shl16 middle 8)) sub = main * 2048 + middle * 256 + sub.
Proof.
  intros Hm Hmi Hs. rewrite !shl16_small by lia.
  replace 11 with (3 + 8) at 1 by done. rewrite <-Z.shiftl_shiftl, <-Z.shiftl_lor by lia.
  rewrite !lor_shiftl_add by (unfold u8_ok in *; lia). lia.
Qed.

Lemma individual_pack_arith area line device :
  0 ≤ area ≤ 15 → 0 ≤ line ≤ 15 → u8_ok device →
  ia_raw (IndividualAddress_pack area line device) = area * 4096 + line * 256 + device.
Proof.
  intros Ha Hl Hd. unfold IndividualAddress_pack. simpl. rewrite !shl16_small by lia.
  replace 12 with (4 + 8) at 1 by done. rewrite <-Z.shiftl_shiftl, <-Z.shiftl_lor by lia.
  rewrite !lor_shiftl_add by (unfold u8_ok in *; lia). lia.
Qed.

Lemma group_parts_arith a :
  GroupAddress_parts a =
    (ga_raw a / 2048 mod 16, ga_raw a / 256 mod 8, ga_raw a mod 256).
Proof.
  unfold GroupAddress_parts, GroupAddress_main, GroupAddress_middle, GroupAddress_sub.
  bits_to_arith. unfold as_u8. f_equal; [f_equal|]; zlia.
Qed.

Lemma individual_parts_arith a :
  IndividualAddress_parts a =
    (ia_raw a / 4096 mod 16, ia_raw a / 256 mod 16, ia_raw a mod 256).
Proof.
  unfold IndividualAddress_parts, IndividualAddress_area, IndividualAddress_line,
    IndividualAddress_device.
  bits_to_arith. unfold as_u8. f_equal; [f_equal|]; zlia.
Qed.

Lemma group_try_new_Ok main middle sub :
  0 ≤ main ≤ 15 → 0 ≤ middle ≤ 7 → u8_ok sub →
  GroupAddress_try_new main middle sub =
    Ok (MkGroupAddress (main * 2048 + middle * 256 + sub)).
Proof.
  intros Hm Hmi Hs. unfold GroupAddress_try_new, GroupAddress_MAX_MAIN, GroupAddress_MAX_MIDDLE.
  rewrite (proj2 (Z.ltb_ge _ _)), (proj2 (Z.ltb_ge _ _)) by lia.
  by rewrite group_pack_arith.
Qed.

Lemma individual_try_new_Ok area line device :
  0 ≤ area ≤ 15 → 0 ≤ line ≤ 15 → u8_ok device →
  IndividualAddress_try_new area line device =
    Ok (MkIndividualAddress (area * 4096 + line * 256 + device)).
Proof.
  intros Ha Hl Hd. unfold IndividualAddress_try_new, IndividualAddress_MAX_AREA,
    IndividualAddress_MAX_LINE.
  rewrite (proj2 (Z.ltb_ge _ _)), (proj2 (Z.ltb_ge _ _)) by lia.
  rewrite <-individual_pack_arith by done. done.
Qed.

Lemma group_try_new_inv main middle sub a :
  u8_ok main → u8_ok middle → u8_ok sub →
  GroupAddress_try_new main middle sub = Ok a →
  main ≤ 15 ∧ middle ≤ 7 ∧ ga_raw a = main * 2048 + middle * 256 + sub.
Proof.
  unfold u8_ok. intros Hm Hmi Hs H.
  assert (main ≤ 15 ∧ middle ≤ 7) as [? ?].
  { unfold GroupAddress_try_new in H. repeat case_match; to_arith; done. }
  rewrite group_try_new_Ok in H by (unfold u8_ok; lia). by simplify_eq.
Qed.

Lemma group_reparse a :
  GroupAddress_valid a →
  GroupAddress_try_new (GroupAddress_main a) (GroupAddress_middle a) (GroupAddress_sub a) = Ok a.
Proof.
  intros Ha. unfold GroupAddress_valid, GroupAddress_MAX_RAW in Ha.
  pose proof (group_parts_arith a) as [= -> -> ->].
  rewrite group_try_new_Ok by (unfold u8_ok; zlia).
  destruct a as [r]; simpl in *. do 2 f_equal. zlia.
Qed.

Lemma individual_reparse a :
  IndividualAddress_valid a →
  IndividualAddress_try_new (IndividualAddress_area a) (IndividualAddress_line a)
    (IndividualAddress_device a) = Ok a.
Proof.
  intros Ha. unfold IndividualAddress_valid, u16_ok in Ha.
  pose proof (individual_parts_arith a) as [= -> -> ->].
  rewrite individual_try_new_Ok by (unfold u8_ok; zlia).
  destruct a as [r]; simpl in *. do 2 f_equal. zlia.
Qed.
End packing.

(** * The textual form *)
Section text.

Lemma str_split_app c p q :
  str_contains c p = false →
  str_split c (p +:+ (String c EmptyString +:+ q)) = p :: str_split c q.
Proof.
  induction p as [|d p IH]; simpl; intros H.
  - by rewrite Ascii.eqb_refl.
  - apply orb_false_elim in H as [-> H]. by rewrite IH.
Qed.

Lemma str_split_none c p : str_contains c p = false → str_split c p = [p].
Proof.
  induction p as [|d p IH]; simpl; intros H; [done|].
  apply orb_false_elim in H as [-> H]. by rewrite IH.
Qed.

Lemma str_contains_app c p q : str_contains c (p +:+ q) = str_contains c p || str_contains c q.
Proof. induction p as [|d p IH]; simpl; [done|]. by rewrite IH, orb_assoc. Qed.

Lemma dec_no_slash n : u8_ok n → str_contains "/" (dec n) = false.
Proof.
  intros Hn. exhaust 256%positive (λ n, str_contains "/" (dec n) = false) n Hn.
Qed.

Lemma dec_no_dot n : u8_ok n → str_contains "." (dec n) = false.
Proof.
  intros Hn. exhaust 256%positive (λ n, str_contains "." (dec n) = false) n Hn.
Qed.

Lemma parse_u8_dec n : u8_ok n → parse_u8 (dec n) = Some n.
Proof.
  intros Hn. exhaust 256%positive (λ n, parse_u8 (dec n) = Some n) n Hn.
Qed.

Lemma parse_digits_range s acc n : 0 ≤ acc ≤ 255 → parse_digits s acc = Some n → u8_ok n.
Proof.
  revert acc. induction s as [|c s IH]; simpl; intros acc Hacc H.
  - simplify_eq. unfold u8_ok. lia.
  - unfold ascii_digit in H. repeat case_match; simplify_eq; to_arith.
    eapply IH; [|done]. lia.
Qed.

Lemma parse_u8_range s n : parse_u8 s = Some n → u8_ok n.
Proof.
  unfold parse_u8. intros H.
  repeat case_match; simplify_eq; by eapply parse_digits_range; [|done].
Qed.

Lemma group_component_ok a :
  u8_ok (GroupAddress_main a) ∧ u8_ok (GroupAddress_middle a) ∧ u8_ok (GroupAddress_sub a).
Proof. repeat split; apply as_u8_ok. Qed.

Lemma individual_component_ok a :
  u8_ok (IndividualAddress_area a) ∧ u8_ok (IndividualAddress_line a) ∧
  u8_ok (IndividualAddress_device a).
Proof. repeat split; apply as_u8_ok. Qed.

Lemma group_display_split a :
  str_split "/" (GroupAddress_display a) =
    [dec (GroupAddress_main a); dec (GroupAddress_middle a); dec (GroupAddress_sub a)].
Proof.
  destruct (group_component_ok a) as (? & ? & ?). unfold GroupAddress_display.
  rewrite str_split_app by by apply dec_no_slash.
  rewrite str_split_app by by apply dec_no_slash.
  by rewrite str_split_none by by apply dec_no_slash.
Qed.

Lemma individual_display_split a :
  str_split "." (IndividualAddress_display a) =
    [dec (IndividualAddress_area a); dec (IndividualAddress_line a);
     dec (IndividualAddress_device a)].
Proof.
  destruct (individual_component_ok a) as (? & ? & ?). unfold IndividualAddress_display.
  rewrite str_split_app by by apply dec_no_dot.
  rewrite str_split_app by by apply dec_no_dot.
  by rewrite str_split_none by by apply dec_no_dot.
Qed.

Lemma group_display_contains a : str_contains "/" (GroupAddress_display a) = true.
Proof. unfold GroupAddress_display. rewrite str_contains_app. simpl. apply orb_true_r. Qed.

Lemma individual_display_contains a :
  str_contains "/" (IndividualAddress_display a) = false ∧
  str_contains "." (IndividualAddress_display a) = true.
Proof.
  destruct (individual_component_ok a) as (? & ? & ?). unfold IndividualAddress_display.
  repeat rewrite ?str_contains_app, ?dec_no_slash by done. simpl.
  repeat rewrite ?str_contains_app, ?dec_no_slash by done. simpl. by rewrite orb_true_r.
Qed.

Lemma group_text_roundtrip a :
  GroupAddress_valid a → GroupAddress_from_str (GroupAddress_display a) = Ok a.
Proof.
  intros Ha. destruct (group_component_ok a) as (? & ? & ?).
  unfold GroupAddress_from_str. rewrite group_display_split, !parse_u8_dec by done.
  simpl. by rewrite group_reparse.
Qed.

Lemma individual_text_roundtrip a :
  IndividualAddress_valid a → IndividualAddress_from_str (IndividualAddress_display a) = Ok a.
Proof.
  intros Ha. destruct (individual_component_ok a) as (? & ? & ?).
  unfold IndividualAddress_from_str. rewrite individual_display_split, !parse_u8_dec by done.
  simpl. by rewrite individual_reparse.
Qed.
End text.

(** * Properties *)

(** Printing a valid address and parsing the text back, through the
    dispatching [TryFrom<&str> for Address], returns the same address, for
    group and individual addresses alike. *)
Theorem address_text_roundtrip a :
  Address_valid a → Address_try_from (Address_display a) = Ok a.
Proof.
  intros Ha. unfold Address_try_from. destruct a as [g|i]; cbn [Address_display].
  - by rewrite group_display_contains, group_text_roundtrip.
  - destruct (individual_display_contains i) as [-> ->].
    by rewrite individual_text_roundtrip.
Qed.

Lemma address_text_roundtrip_witness :
  Address_valid (Group (MkGroupAddress 0x0A03)) ∧
  Address_try_from (Address_display (Group (MkGroupAddress 0x0A03))) =
    Ok (Group (MkGroupAddress 0x0A03)).
Proof.
  assert (Address_valid (Group (MkGroupAddress 0x0A03))) as H by (split; vm_compute; done).
  split; [exact H|]. apply (address_text_roundtrip _ H).
Defined.

Section parser_totality.
Context (s : string).

Lemma group_from_str_total :
  (∃ a, GroupAddress_from_str s = Ok a ∧ GroupAddress_valid a) ∨
  (∃ reason, GroupAddress_from_str s = Err (Protocol (InvalidAddress s reason))).
Proof.
  unfold GroupAddress_from_str.
  destruct (str_split "/" s) as [|p0 [|p1 [|p2 [|]]]]; try (right; by eexists).
  destruct (parse_u8 p0) as [m|] eqn:Em; simpl; [|right; by eexists].
  destruct (parse_u8 p1) as [mi|] eqn:Emi; simpl; [|right; by eexists].
  destruct (parse_u8 p2) as [su|] eqn:Esu; simpl; [|right; by eexists].
  apply parse_u8_range in Em, Emi, Esu.
  destruct (GroupAddress_try_new m mi su) as [a|e|] eqn:E; simpl.
  - left. exists a. split; [done|]. apply group_try_new_inv in E; try done.
    unfold GroupAddress_valid, GroupAddress_MAX_RAW, u8_ok in *. lia.
  - right. by eexists.
  - unfold GroupAddress_try_new in E. repeat case_match; done.
Qed.

Lemma individual_from_str_total :
  (∃ a, IndividualAddress_from_str s = Ok a ∧ IndividualAddress_valid a) ∨
  (∃ reason, IndividualAddress_from_str s = Err (Protocol (InvalidAddress s reason))).
Proof.
  unfold IndividualAddress_from_str.
  destruct (str_split "." s) as [|p0 [|p1 [|p2 [|]]]]; try (right; by eexists).
  destruct (parse_u8 p0) as [ar|] eqn:Ea; simpl; [|right; by eexists].
  destruct (parse_u8 p1) as [li|] eqn:El; simpl; [|right; by eexists].
  destruct (parse_u8 p2) as [de|] eqn:Ed; simpl; [|right; by eexists].
  apply parse_u8_range in Ea, El, Ed.
  destruct (IndividualAddress_try_new ar li de) as [a|e|] eqn:E; simpl.
  - left. exists a. split; [done|].
    unfold IndividualAddress_try_new, IndividualAddress_MAX_AREA, IndividualAddress_MAX_LINE in E.
    repeat case_match; simplify_eq; to_arith.
    unfold IndividualAddress_valid. rewrite individual_pack_arith by (unfold u8_ok in *; lia).
    unfold u8_ok, u16_ok in *. lia.
  - right. by eexists.
  - unfold IndividualAddress_try_new in E. repeat case_match; done.
Qed.
End parser_totality.

(** Parsing an address never panics on any text: it yields a valid
    address (15 bits for a group, 16 for an individual one) or an
    [InvalidAddress] error that carries the rejected text. *)
Theorem address_parse_total s :
  (∃ a, Address_try_from s = Ok a ∧ Address_valid a) ∨
  (∃ reason, Address_try_from s = Err (Protocol (InvalidAddress s reason))).
Proof.
  unfold Address_try_from. case_match; [|case_match].
  - destruct (group_from_str_total s) as [(a & -> & ?)|(r & ->)]; simpl;
      [left; by eexists|right; by eexists].
  - destruct (individual_from_str_total s) as [(a & -> & ?)|(r & ->)]; simpl;
      [left; by eexists|right; by eexists].
  - right. by eexists.
Qed.

(** [GroupAddress::try_new] on three bytes packs exactly the in-range
    triples, the components read back unchanged, and an out-of-range triple
    is refused with the first offending component, its value and the limit. *)
Theorem group_try_new_spec main middle sub :
  u8_ok main → u8_ok middle → u8_ok sub →
  match GroupAddress_try_new main middle sub with
  | Ok a => main ≤ 15 ∧ middle ≤ 7 ∧ GroupAddress_valid a ∧
            GroupAddress_parts a = (main, middle, sub)
  | Err e => (15 < main ∧ e = InvalidRange "main" main 15) ∨
             (main ≤ 15 ∧ 7 < middle ∧ e = InvalidRange "middle" middle 7)
  | Panic => False
  end.
Proof.
  intros Hm Hmi Hs. destruct (GroupAddress_try_new main middle sub) as [a|e|] eqn:E.
  - apply group_try_new_inv in E as (? & ? & Hr); try done. rewrite group_parts_arith, Hr.
    unfold u8_ok, GroupAddress_valid, GroupAddress_MAX_RAW in *.
    split_and!; try lia. f_equal; [f_equal|]; zlia.
  - unfold GroupAddress_try_new, GroupAddress_MAX_MAIN, GroupAddress_MAX_MIDDLE in E.
    repeat case_match; simplify_eq; to_arith; [by left|by right].
  - unfold GroupAddress_try_new in E. repeat case_match; done.
Qed.

Lemma group_try_new_spec_witness :
  match GroupAddress_try_new 1 2 3 with
  | Ok a => 1 ≤ 15 ∧ 2 ≤ 7 ∧ GroupAddress_valid a ∧ GroupAddress_parts a = (1, 2, 3)
  | Err e => (15 < 1 ∧ e = InvalidRange "main" 1 15) ∨
             (1 ≤ 15 ∧ 7 < 2 ∧ e = InvalidRange "middle" 2 7)
  | Panic => False
  end.
Proof. apply (group_try_new_spec 1 2 3); unfold u8_ok; lia. Defined.

(** In a release build [IndividualAddress::new] does not wrap an
    out-of-range line within its own field: its high bits are or-ed into the
    area of the resulting address; in a debug build it panics. *)
Theorem individual_new_out_of_range (P : Profile) area line device :
  u8_ok area → u8_ok line → u8_ok device → (15 < area ∨ 15 < line) →
  IndividualAddress_new (E:=KnxError) area line device =
    if debug_build then Panic
    else Ok (MkIndividualAddress
      (Z.lor (area mod 16) (line / 16) * 4096 + line mod 16 * 256 + device)).
Proof.
  intros Ha Hl Hd Hout. unfold IndividualAddress_new, IndividualAddress_MAX_AREA,
    IndividualAddress_MAX_LINE.
  destruct debug_build; simpl.
  { repeat case_match; to_arith; try done. lia. }
  f_equal. unfold IndividualAddress_pack. f_equal.
  assert (shl16 area 12 = Z.shiftl (area mod 16) 12) as ->.
  { unfold shl16, as_u16. rewrite !Z.shiftl_mul_pow2 by lia. change (2 ^ 12) with 4096.
    change 65536 with (16 * 4096). by rewrite Z.mul_mod_distr_r. }
  rewrite (shl16_small line) by (unfold u8_ok in Hl; lia).
  replace line with (Z.lor (Z.shiftl (line / 16) 4) (line mod 16)) at 1.
  2: { rewrite lor_shiftl_add by zlia. zlia. }
  replace 12 with (4 + 8) at 1 by done.
  rewrite <-Z.shiftl_shiftl, <-Z.shiftl_lor, Z.lor_assoc, <-Z.shiftl_lor by lia.
  rewrite !lor_shiftl_add by (unfold u8_ok in *; zlia). lia.
Qed.

Lemma individual_new_out_of_range_witness :
  IndividualAddress_new (H:={| debug_build := false |}) (E:=KnxError) 0 17 5 =
    Ok (MkIndividualAddress (1 * 4096 + 1 * 256 + 5)).
Proof.
  apply (individual_new_out_of_range {| debug_build := false |} 0 17 5);
    unfold u8_ok; lia.
Defined.
