(* ===== verification/Apdu.v ===== *)
(** Transport- and application-layer control information carried by a CEMI
    frame: TPCI bytes ([src/src/protocol/tpci.rs]), group-value services
    ([src/src/protocol/apci.rs]) and the device-descriptor services
    ([src/src/protocol/management.rs]). *)
From S2P Require Import Prelude Errors.

(** * TPCI *)
Definition T_CONNECT : Z := 0x80.
Definition T_DISCONNECT : Z := 0x81.
Definition T_DATA_CONNECTED : Z := 0x40.
Definition T_ACK : Z := 0xC2.
Definition T_NAK : Z := 0xC3.

Inductive TpciFrame :=
| Connect
| Disconnect
| DataConnected (sequence : Z)
| Ack (sequence : Z)
| Nak (sequence : Z).

#[global] Instance TpciFrame_eq_dec : EqDecision TpciFrame.
Proof. solve_decision. Defined.

Definition TpciFrame_encode (f : TpciFrame) : Z :=
  match f with
  | Connect => T_CONNECT
  | Disconnect => T_DISCONNECT
  | DataConnected sequence => Z.lor T_DATA_CONNECTED (shl8 (Z.land sequence 0x0F) 2)
  | Ack sequence => Z.lor T_ACK (shl8 (Z.land sequence 0x0F) 2)
  | Nak sequence => Z.lor T_NAK (shl8 (Z.land sequence 0x0F) 2)
  end.

Definition TpciFrame_decode (byte : Z) : TpciFrame :=
  let sequence := Z.land (Z.shiftr byte 2) 0x0F in
  if byte =? T_CONNECT then Connect
  else if byte =? T_DISCONNECT then Disconnect
  else if Z.land byte 0xC3 =? T_ACK then Ack sequence
  else if Z.land byte 0xC3 =? T_NAK then Nak sequence
  else if Z.land byte 0xC3 =? T_DATA_CONNECTED then DataConnected sequence
  else DataConnected sequence.

(** The bytes the decoder recognises without falling through to its last arm. *)
Definition tpci_recognised (byte : Z) : bool :=
  (byte =? T_CONNECT) || (byte =? T_DISCONNECT) || (Z.land byte 0xC3 =? T_ACK)
  || (Z.land byte 0xC3 =? T_NAK) || (Z.land byte 0xC3 =? T_DATA_CONNECTED).

(** * Group-value services *)
Inductive GroupValueService :=
| Read
| Response (payload : list Z)
| Write (payload : list Z).

#[global] Instance GroupValueService_eq_dec : EqDecision GroupValueService.
Proof. solve_decision. Defined.

Definition encode_payload (service_bits : Z) (payload : list Z) : list Z :=
  if (length payload <=? 1)%nat
  then [Z.lor service_bits (Z.land (default 0 (head payload)) 0x3F)]
  else service_bits :: payload.

Definition decode_payload (first_apci : Z) (apci_data : list Z) : result (list Z) :=
  if (length apci_data =? 1)%nat then Ok [Z.land first_apci 0x3F]
  else slice_from apci_data 1.

Definition GroupValueService_encode (s : GroupValueService) : list Z :=
  match s with
  | Read => [0x00]
  | Response payload => encode_payload 0x40 payload
  | Write payload => encode_payload 0x80 payload
  end.

Definition GroupValueService_decode (tpci : Z) (apci_data : list Z) : result GroupValueService :=
  first_apci ← ok_or (head apci_data) (Protocol (DptError "APCI" "Missing APCI data"));
  let service := Z.lor (shl16 (Z.land tpci 0x03) 8) (Z.land first_apci 0xC0) in
  if service =? 0x0000 then Ok Read
  else if service =? 0x0040 then p ← decode_payload first_apci apci_data; Ok (Response p)
  else if service =? 0x0080 then p ← decode_payload first_apci apci_data; Ok (Write p)
  else perr (DptError "APCI"
         ("Unsupported group value APCI service: 0x" +:+ hex04 service)).

Definition GroupValueService_payload (s : GroupValueService) : option (list Z) :=
  match s with
  | Read => None
  | Response payload | Write payload => Some payload
  end.

(** * Device-descriptor services *)
Definition APCI_DEVICE_DESCRIPTOR_READ : Z := 0x0300.
Definition APCI_DEVICE_DESCRIPTOR_RESPONSE : Z := 0x0340.
Definition APCI_SERVICE_MASK : Z := 0x03C0.
Definition DESCRIPTOR_MASK : Z := 0x3F.
Definition APCI_HIGH_BYTE : Z := 0x03.
Definition RESPONSE_BYTE_BITS : Z := 0x40.

Record DeviceDescriptorRead := MkDeviceDescriptorRead { ddread_descriptor : Z }.
Record DeviceDescriptorResponse := MkDeviceDescriptorResponse {
  ddresp_descriptor : Z;
  ddresp_data : list Z;
}.

Definition DeviceDescriptorRead_encode (r : DeviceDescriptorRead) : list Z :=
  [as_u8 (Z.land (Z.shiftr APCI_DEVICE_DESCRIPTOR_READ 8) 0x03);
   Z.lor (as_u8 APCI_DEVICE_DESCRIPTOR_READ) (Z.land (ddread_descriptor r) DESCRIPTOR_MASK)].

Definition DeviceDescriptorResponse_encode (r : DeviceDescriptorResponse) : list Z :=
  APCI_HIGH_BYTE
  :: Z.lor RESPONSE_BYTE_BITS (Z.land (ddresp_descriptor r) DESCRIPTOR_MASK)
  :: ddresp_data r.

Definition DeviceDescriptorResponse_decode (apci_bytes : list Z)
    : result DeviceDescriptorResponse :=
  if (length apci_bytes <? 2)%nat
  then perr (InvalidFrame ("DeviceDescriptorResponse needs at least 2 APCI bytes, got "
                           +:+ dec_nat (length apci_bytes)))
  else
    byte0 ← idx apci_bytes 0;
    byte1 ← idx apci_bytes 1;
    let apci := Z.lor (shl16 (Z.land byte0 0x03) 8) byte1 in
    if negb (Z.land apci APCI_SERVICE_MASK =? APCI_DEVICE_DESCRIPTOR_RESPONSE)
    then perr (InvalidFrame ("Expected DeviceDescriptorResponse APCI 0x"
                 +:+ hex04 APCI_DEVICE_DESCRIPTOR_RESPONSE +:+ ", got 0x" +:+ hex04 apci))
    else
      data ← slice_from apci_bytes 2;
      Ok (MkDeviceDescriptorResponse (Z.land byte1 DESCRIPTOR_MASK) data).

(** * Lemmas *)

(** Frames whose sequence number fits its 4-bit field. *)
Definition tpci_wf (f : TpciFrame) : Prop :=
  match f with
  | Connect | Disconnect => True
  | DataConnected s | Ack s | Nak s => 0 ≤ s < 16
  end.

(** A group service survives the wire: its payload is not lost by the
    6-bit compact form used for payloads of at most one byte. *)
Definition service_wire_safe (s : GroupValueService) : Prop :=
  match s with
  | Read => True
  | Response p | Write p =>
      bytes_ok p ∧ p ≠ [] ∧ (length p = 1%nat → Forall (λ b, b < 64) p)
  end.

Lemma encode_decode_payload bits p :
  bits = 0x40 ∨ bits = 0x80 → bytes_ok p → p ≠ [] → (length p = 1%nat → Forall (λ b, b < 64) p) →
  ∃ first rest,
    encode_payload bits p = first :: rest ∧
    Z.land first 0xC0 = bits ∧
    decode_payload first (first :: rest) = Ok p.
Proof.
  intros Hbits Hp Hne Hlen. unfold encode_payload, decode_payload.
  destruct p as [|b [|c p]]; [done|..]; simpl.
  - specialize (Hlen eq_refl). apply Forall_cons in Hp as [Hb _], Hlen as [Hb6 _].
    rewrite land_63, (Z.mod_small b 64) by (unfold u8_ok in Hb; lia).
    eexists _, []. split; [done|].
    assert (Z.land (Z.lor bits b) 0xC0 = bits ∧ Z.land (Z.lor bits b) 0x3F = b) as [? ->].
    2: by simpl.
    assert (0 ≤ b < 64) as Hb' by (unfold u8_ok in Hb; lia).
    destruct Hbits as [-> | ->];
      [exhaust 64%positive
         (λ b, Z.land (Z.lor 0x40 b) 0xC0 = 0x40 ∧ Z.land (Z.lor 0x40 b) 0x3F = b) b Hb'
      |exhaust 64%positive
         (λ b, Z.land (Z.lor 0x80 b) 0xC0 = 0x80 ∧ Z.land (Z.lor 0x80 b) 0x3F = b) b Hb'].
  - exists bits, (b :: c :: p). split_and!; [done| |done].
    by destruct Hbits as [-> | ->].
Qed.

Lemma decode_service_bits first rest bits :
  bits = 0x40 ∨ bits = 0x80 → Z.land first 0xC0 = bits →
  GroupValueService_decode 0 (first :: rest) =
    (p ← decode_payload first (first :: rest);
     Ok (if bits =? 0x40 then Response p else Write p)).
Proof.
  intros Hbits Hf. unfold GroupValueService_decode. simpl. rewrite Hf.
  by destruct Hbits as [-> | ->].
Qed.

Lemma encode_payload_one bits b : encode_payload bits [b] = [Z.lor bits (b mod 64)].
Proof. unfold encode_payload. simpl. by rewrite land_63. Qed.

Lemma compact_write_decodes b :
  0 ≤ b < 64 → GroupValueService_decode 0 [Z.lor 0x80 b] = Ok (Write [b]).
Proof.
  intros Hb.
  exhaust 64%positive (λ b, GroupValueService_decode 0 [Z.lor 0x80 b] = Ok (Write [b])) b Hb.
Qed.

Lemma compact_u8 bits b : bits = 0x40 ∨ bits = 0x80 → 0 ≤ b < 64 → u8_ok (Z.lor bits b).
Proof.
  intros Hbits Hb. destruct Hbits as [-> | ->];
    [exhaust 64%positive (λ b, u8_ok (Z.lor 0x40 b)) b Hb
    |exhaust 64%positive (λ b, u8_ok (Z.lor 0x80 b)) b Hb].
Qed.
Lemma encode_payload_wire bits p :
  bits = 0x40 ∨ bits = 0x80 → bytes_ok p →
  bytes_ok (encode_payload bits p) ∧ (length (encode_payload bits p) ≤ 1 + length p)%nat.
Proof.
  intros Hbits Hp. unfold encode_payload. destruct (_ <=? _)%nat eqn:E; cbn [length].
  - split; [|lia]. rewrite land_63. constructor; [|constructor].
    apply compact_u8; [done|]. by apply Z.mod_pos_bound.
  - split; [|done]. constructor; [|done]. by destruct Hbits as [-> | ->]; unfold u8_ok.
Qed.
(** The encoded bytes of a service, and how many there are. *)
Lemma encode_wire s :
  service_wire_safe s →
  bytes_ok (GroupValueService_encode s) ∧
  (length (GroupValueService_encode s) ≤ 1 + length (default [] (GroupValueService_payload s)))%nat.
Proof.
  destruct s as [|p|p]; cbn; [|intros (Hp & _); apply encode_payload_wire; auto..].
  split; [|lia]. by repeat constructor.
Qed.

(** Payloads of one byte travel in six bits. *)
Definition on_the_wire (bytes : list Z) : list Z :=
  if (length bytes =? 1)%nat then (λ b, b mod 64) <$> bytes else bytes.
Lemma on_the_wire_safe bytes : bytes ≠ [] → bytes_ok bytes → service_wire_safe (Write (on_the_wire bytes)).
Proof.
  intros Hne Hb. unfold on_the_wire. destruct bytes as [|b [|c l]]; [done| |done]. cbn.
  assert (0 ≤ b mod 64 < 64) by by apply Z.mod_pos_bound.
  split_and!; [|done|]; [|intros _]; apply Forall_cons_2; try apply Forall_nil_2; unfold u8_ok; lia.
Qed.
Lemma on_the_wire_encode bytes :
  GroupValueService_encode (Write (on_the_wire bytes)) = GroupValueService_encode (Write bytes).
Proof.
  destruct bytes as [|b [|c l]]; [done| |done]. cbn [on_the_wire length Nat.eqb fmap list_fmap].
  cbn [GroupValueService_encode]. by rewrite !encode_payload_one, Z.mod_mod.
Qed.
Lemma length_on_the_wire bytes : length (on_the_wire bytes) = length bytes.
Proof. unfold on_the_wire. case_match; [apply length_fmap|done]. Qed.
Lemma on_the_wire_small bytes :
  bytes_ok bytes → length bytes ≠ 1%nat ∨ Forall (λ b, b < 64) bytes → on_the_wire bytes = bytes.
Proof.
  intros Hb Hs. unfold on_the_wire. destruct (Nat.eqb_spec (length bytes) 1) as [E|]; [|done].
  destruct Hs as [|Hs]; [done|]. destruct bytes as [|b [|c l]]; [done| |done].
  apply Forall_cons in Hs as [Hs _], Hb as [Hb _]. cbn. by rewrite Z.mod_small by (unfold u8_ok in Hb; lia).
Qed.

(** * Properties *)

(** The TPCI codec.  Every frame whose sequence number fits 4 bits
    decodes from its own encoding; conversely a recognised control byte is
    reproduced by decoding and re-encoding it, and every other byte is read
    as numbered data with the 4-bit sequence found in bits 2 to 5. *)
Theorem tpci_codec :
  (∀ f, tpci_wf f → TpciFrame_decode (TpciFrame_encode f) = f) ∧
  (∀ b, u8_ok b →
     if tpci_recognised b then TpciFrame_encode (TpciFrame_decode b) = b
     else TpciFrame_decode b = DataConnected (b / 4 mod 16)).
Proof.
  split.
  - intros f Hf. destruct f as [| |s|s|s]; [done|done|..]; simpl in Hf;
      [exhaust 16%positive (λ s, TpciFrame_decode (TpciFrame_encode (DataConnected s)) =
                                 DataConnected s) s Hf
      |exhaust 16%positive (λ s, TpciFrame_decode (TpciFrame_encode (Ack s)) = Ack s) s Hf
      |exhaust 16%positive (λ s, TpciFrame_decode (TpciFrame_encode (Nak s)) = Nak s) s Hf].
  - intros b Hb.
    assert ((tpci_recognised b = true → TpciFrame_encode (TpciFrame_decode b) = b) ∧
            (tpci_recognised b = false → TpciFrame_decode b = DataConnected (b / 4 mod 16)))
      as [H1 H2].
    { exhaust 256%positive (λ b,
        (tpci_recognised b = true → TpciFrame_encode (TpciFrame_decode b) = b) ∧
        (tpci_recognised b = false → TpciFrame_decode b = DataConnected (b / 4 mod 16))) b Hb. }
    destruct (tpci_recognised b); auto.
Qed.

Lemma group_service_wire s :
  service_wire_safe s →
  GroupValueService_decode 0 (GroupValueService_encode s) = Ok s.
Proof.
  destruct s as [|p|p]; simpl; [done|intros (Hp & Hne & Hl)..].
  - destruct (encode_decode_payload 0x40 p) as (f & r & -> & Hf & Hd); auto.
    rewrite (decode_service_bits _ _ 0x40), Hd by auto. done.
  - destruct (encode_decode_payload 0x80 p) as (f & r & -> & Hf & Hd); auto.
    rewrite (decode_service_bits _ _ 0x80), Hd by auto. done.
Qed.

(** A group-value service read back from its CEMI bytes is the service
    that was encoded, for every read, and for every response or write whose
    payload is non-empty and, when it is a single byte, below 64. *)
Theorem group_service_roundtrip s :
  service_wire_safe s →
  GroupValueService_decode 0 (GroupValueService_encode s) = Ok s.
Proof. apply group_service_wire. Qed.

Lemma group_service_roundtrip_witness :
  service_wire_safe (Response [0x0C; 0x3F]) ∧
  GroupValueService_decode 0 (GroupValueService_encode (Response [0x0C; 0x3F])) =
    Ok (Response [0x0C; 0x3F]).
Proof.
  assert (service_wire_safe (Response [0x0C; 0x3F])) as H.
  { split_and!; [repeat constructor; lia|done|done]. }
  split; [exact H|]. apply (group_service_roundtrip _ H).
Defined.

(** A one-byte write is always sent in the compact 6-bit form, so the
    value the receiver decodes is the payload modulo 64: a one-byte datapoint
    of 64 or more (a percentage, a scene, a counter) arrives changed. *)
Theorem one_byte_write_truncated b :
  u8_ok b →
  GroupValueService_decode 0 (GroupValueService_encode (Write [b])) = Ok (Write [b mod 64]).
Proof.
  intros Hb. cbn [GroupValueService_encode]. rewrite encode_payload_one.
  apply compact_write_decodes. by apply Z.mod_pos_bound.
Qed.

Lemma one_byte_write_truncated_witness :
  GroupValueService_decode 0 (GroupValueService_encode (Write [200])) = Ok (Write [8]).
Proof. apply (one_byte_write_truncated 200). unfold u8_ok. lia. Defined.

(** A device-descriptor response decodes from its own encoding when the
    descriptor fits 6 bits, and decoding never panics: whatever it refuses is
    an [InvalidFrame] error. *)
Theorem descriptor_response_codec :
  (∀ r, 0 ≤ ddresp_descriptor r < 64 →
     DeviceDescriptorResponse_decode (DeviceDescriptorResponse_encode r) = Ok r) ∧
  (∀ data, (∃ r, DeviceDescriptorResponse_decode data = Ok r) ∨
     (∃ details, DeviceDescriptorResponse_decode data = Err (Protocol (InvalidFrame details)))).
Proof.
  split.
  - intros [d data] Hd. simpl in Hd.
    unfold DeviceDescriptorResponse_decode, DeviceDescriptorResponse_encode,
      APCI_HIGH_BYTE, RESPONSE_BYTE_BITS, DESCRIPTOR_MASK. cbn -[Z.land Z.lor].
    assert (Z.land (Z.lor (shl16 (Z.land 3 3) 8) (Z.lor 64 (Z.land d 63)))
              APCI_SERVICE_MASK = APCI_DEVICE_DESCRIPTOR_RESPONSE ∧
            Z.land (Z.lor 64 (Z.land d 63)) 63 = d) as [-> ->].
    { exhaust 64%positive (λ d,
        Z.land (Z.lor (shl16 (Z.land 3 3) 8) (Z.lor 64 (Z.land d 63)))
          APCI_SERVICE_MASK = APCI_DEVICE_DESCRIPTOR_RESPONSE ∧
        Z.land (Z.lor 64 (Z.land d 63)) 63 = d) d Hd. }
    simpl. by rewrite drop_0.
  - intros data. unfold DeviceDescriptorResponse_decode.
    destruct data as [|b0 [|b1 data]]; simpl; [right; by eexists..|].
    case_match; [right|left]; by eexists.
Qed.
