(* ===== verification/Telegram.v ===== *)
(** Telegrams ([src/src/protocol/telegram.rs]): the application-level message
    every other component passes around, its priority order and its
    constructors.  [SystemTime] is a count of nanoseconds; a constructor that
    reads the clock takes the current time [now] as an argument. *)
From S2P Require Import Prelude Errors Address.

Inductive TelegramType := GroupValueRead | GroupValueResponse | GroupValueWrite.
Inductive Priority := System | Normal | Urgent | Low.
Inductive Direction := Incoming | Outgoing.

#[global] Instance TelegramType_eq_dec : EqDecision TelegramType.
Proof. solve_decision. Defined.
#[global] Instance Priority_eq_dec : EqDecision Priority.
Proof. solve_decision. Defined.
#[global] Instance Direction_eq_dec : EqDecision Direction.
Proof. solve_decision. Defined.

Definition TelegramType_display (t : TelegramType) : string :=
  match t with
  | GroupValueRead => "GroupValueRead"
  | GroupValueResponse => "GroupValueResponse"
  | GroupValueWrite => "GroupValueWrite"
  end.
Definition Direction_display (d : Direction) : string :=
  match d with Incoming => "incoming" | Outgoing => "outgoing" end.

Record Telegram := MkTelegram {
  source : IndividualAddress;
  destination : Address;
  payload : list Z;
  priority : Priority;
  direction : Direction;
  telegram_type : TelegramType;
  timestamp : Z;
}.

#[global] Instance Telegram_eq_dec : EqDecision Telegram.
Proof. solve_decision. Defined.

Definition Priority_default : Priority := Normal.

Definition Telegram_group_read (now : Z) (dest : GroupAddress) : Telegram :=
  {| source := IndividualAddress_default; destination := Group dest; payload := [];
     priority := Normal; direction := Outgoing; telegram_type := GroupValueRead;
     timestamp := now |}.

Definition Telegram_group_write (now : Z) (dest : GroupAddress) (pl : list Z) : Telegram :=
  {| source := IndividualAddress_default; destination := Group dest; payload := pl;
     priority := Normal; direction := Outgoing; telegram_type := GroupValueWrite;
     timestamp := now |}.

Definition Telegram_received (now : Z) (src : IndividualAddress) (dest : GroupAddress)
    (ty : TelegramType) (pl : list Z) : Telegram :=
  {| source := src; destination := Group dest; payload := pl;
     priority := Normal; direction := Incoming; telegram_type := ty; timestamp := now |}.

Definition is_group_telegram (t : Telegram) : bool :=
  match destination t with Group _ => true | Individual _ => false end.
Definition is_individual_telegram (t : Telegram) : bool :=
  match destination t with Individual _ => true | Group _ => false end.
Definition payload_len (t : Telegram) : nat := length (payload t).
Definition telegram_is_empty (t : Telegram) : bool :=
  match payload t with [] => true | _ => false end.

(** [SystemTime::elapsed] fails when the timestamp lies in the future. *)
Definition is_older_than (now : Z) (t : Telegram) (max_age : Z) : bool :=
  if now <? timestamp t then true else max_age <? now - timestamp t.

(** The order [Ord for Priority] defines, through its ranking. *)
Definition priority_rank (p : Priority) : Z :=
  match p with System => 0 | Urgent => 1 | Normal => 2 | Low => 3 end.
Definition Priority_cmp (a b : Priority) : comparison :=
  Z.compare (priority_rank a) (priority_rank b).

(** [Priority as u8], the discriminants of the declaration. *)
Definition Priority_to_u8 (p : Priority) : Z :=
  match p with System => 0 | Normal => 1 | Urgent => 2 | Low => 3 end.
Definition Priority_from_u8 (value : Z) : Priority :=
  let v := Z.land value 0x03 in
  if v =? 0 then System else if v =? 2 then Urgent else if v =? 3 then Low else Normal.

(** * Lemmas *)
Lemma priority_rank_inj : Inj (=) (=) priority_rank.
Proof. by intros [] []. Qed.

Lemma Priority_cmp_eq a b : Priority_cmp a b = Eq ↔ a = b.
Proof.
  unfold Priority_cmp. rewrite Z.compare_eq_iff. split; [apply priority_rank_inj|by intros ->].
Qed.

Lemma priority_u8_roundtrip p : Priority_from_u8 (Priority_to_u8 p) = p.
Proof. by destruct p. Qed.

(** * Properties *)

(** The priority order is a total order with [System] most urgent, then
    [Urgent], [Normal] and [Low]; it is not the order of the wire codes,
    which rank [Normal] (1) before [Urgent] (2). *)
Theorem priority_order :
  (∀ a b, Priority_cmp a b = Eq ↔ a = b) ∧
  (∀ a b, Priority_cmp a b = CompOpp (Priority_cmp b a)) ∧
  (∀ a b c, Priority_cmp a b = Lt → Priority_cmp b c = Lt → Priority_cmp a c = Lt) ∧
  Priority_cmp System Urgent = Lt ∧ Priority_cmp Urgent Normal = Lt ∧
  Priority_cmp Normal Low = Lt ∧ Priority_to_u8 Normal < Priority_to_u8 Urgent.
Proof.
  split_and!; try done.
  - apply Priority_cmp_eq.
  - intros a b. apply Z.compare_antisym.
  - intros [] [] []; done.
Qed.
