(* ===== verification/Cemi.v ===== *)
(** CEMI frames ([src/src/protocol/cemi.rs]): the parser, the serializer and
    the control-field codecs.  [CemiFrame_parse] is the source's [parse] cut
    at its loop and at the phases of the main header; every early return of
    the source is an [if] in the same order, and every index or slice of the
    source is [idx] or [slice], so a missing bound check would show as
    [Panic]. *)
From S2P Require Import Prelude Errors Address.

(** * Data *)
Inductive MessageCode :=
| LDataReq | LDataCon | LDataInd | LBusmonInd | LRawReq | LRawInd | LRawCon
| MPropReadReq | MPropReadCon | MPropWriteReq | MPropWriteCon.
Inductive FrameType := Extended | Standard.
Inductive AddressType := IndividualType | GroupType.
Inductive CemiPriority := CemiSystem | CemiNormal | CemiUrgent | CemiLow.

Record ControlField := MkControlField {
  frame_type : FrameType;
  repeat_flag : bool;
  system_broadcast : bool;
  cf_priority : CemiPriority;
  ack_request : bool;
  confirm : bool;
  destination_address_type : AddressType;
  hop_count : Z;
}.

Record ExtendedControlField := MkExtendedControlField {
  ext_destination_address_type : AddressType;
  ext_hop_count : Z;
  extended_frame_format : Z;
}.

Record AdditionalInfo := MkAdditionalInfo { info_type : Z; info_data : list Z }.

Record CemiFrame := MkCemiFrame {
  message_code : MessageCode;
  additional_info : list AdditionalInfo;
  control_field : ControlField;
  extended_control_field : option ExtendedControlField;
  source_addr : IndividualAddress;
  dest_addr : Address;
  data_length : Z;
  tpci : Z;
  apci_data : list Z;
}.

#[global] Instance MessageCode_eq_dec : EqDecision MessageCode.
Proof. solve_decision. Defined.
#[global] Instance FrameType_eq_dec : EqDecision FrameType.
Proof. solve_decision. Defined.
#[global] Instance AddressType_eq_dec : EqDecision AddressType.
Proof. solve_decision. Defined.
#[global] Instance CemiPriority_eq_dec : EqDecision CemiPriority.
Proof. solve_decision. Defined.
#[global] Instance ControlField_eq_dec : EqDecision ControlField.
Proof. solve_decision. Defined.
#[global] Instance ExtendedControlField_eq_dec : EqDecision ExtendedControlField.
Proof. solve_decision. Defined.
#[global] Instance AdditionalInfo_eq_dec : EqDecision AdditionalInfo.
Proof. solve_decision. Defined.
#[global] Instance CemiFrame_eq_dec : EqDecision CemiFrame.
Proof. solve_decision. Defined.

(** * Message codes *)
Definition MessageCode_to_u8 (c : MessageCode) : Z :=
  match c with
  | LDataReq => 0x11
  | LDataCon => 0x2E
  | LDataInd => 0x29
  | LBusmonInd => 0x2B
  | LRawReq => 0x10
  | LRawInd => 0x2D
  | LRawCon => 0x2F
  | MPropReadReq => 0xFC
  | MPropReadCon => 0xFB
  | MPropWriteReq => 0xF6
  | MPropWriteCon => 0xF5
  end.

Definition MessageCode_from_u8 (value : Z) : result MessageCode :=
  if value =? 0x11 then Ok LDataReq
  else if value =? 0x2E then Ok LDataCon
  else if value =? 0x29 then Ok LDataInd
  else if value =? 0x2B then Ok LBusmonInd
  else if value =? 0x10 then Ok LRawReq
  else if value =? 0x2D then Ok LRawInd
  else if value =? 0x2F then Ok LRawCon
  else if value =? 0xFC then Ok MPropReadReq
  else if value =? 0xFB then Ok MPropReadCon
  else if value =? 0xF6 then Ok MPropWriteReq
  else if value =? 0xF5 then Ok MPropWriteCon
  else perr (CemiError ("Unknown message code: 0x" +:+ hex02 value)).

(** * Control fields *)
Definition priority_of_bits (v : Z) : CemiPriority :=
  if v =? 0 then CemiSystem else if v =? 1 then CemiNormal
  else if v =? 2 then CemiUrgent else CemiLow.
Definition priority_bits (p : CemiPriority) : Z :=
  match p with CemiSystem => 0 | CemiNormal => 1 | CemiUrgent => 2 | CemiLow => 3 end.

Definition ControlField_from_flags (flags : Z) : ControlField :=
  let high_byte := as_u8 (Z.shiftr flags 8) in
  let low_byte := as_u8 flags in
  {| frame_type := if bit_set high_byte 0x80 then Standard else Extended;
     repeat_flag := Z.land high_byte 0x20 =? 0;
     system_broadcast := Z.land high_byte 0x10 =? 0;
     cf_priority := priority_of_bits (Z.land (Z.shiftr high_byte 2) 0x03);
     ack_request := bit_set high_byte 0x02;
     confirm := bit_set high_byte 0x01;
     destination_address_type := if bit_set low_byte 0x80 then GroupType else IndividualType;
     hop_count := Z.land (Z.shiftr low_byte 4) 0x07 |}.

(** [if cond { byte |= mask }]. *)
Definition or_if (cond : bool) (mask byte : Z) : Z := if cond then Z.lor byte mask else byte.

Definition ControlField_high_byte (c : ControlField) : Z :=
  or_if (confirm c) 0x01
    (or_if (ack_request c) 0x02
      (Z.lor
        (or_if (negb (system_broadcast c)) 0x10
          (or_if (negb (repeat_flag c)) 0x20
            (or_if (bool_decide (frame_type c = Standard)) 0x80 0)))
        (shl8 (priority_bits (cf_priority c)) 2))).

Definition ControlField_low_byte (c : ControlField) : Z :=
  Z.lor (or_if (bool_decide (destination_address_type c = GroupType)) 0x80 0)
        (shl8 (Z.land (hop_count c) 0x07) 4).

Definition ControlField_to_flags (c : ControlField) : Z :=
  Z.lor (shl16 (ControlField_high_byte c) 8) (ControlField_low_byte c).

Definition ExtendedControlField_from_u8 (value : Z) : ExtendedControlField :=
  {| ext_destination_address_type := if bit_set value 0x80 then GroupType else IndividualType;
     ext_hop_count := Z.land (Z.shiftr value 4) 0x07;
     extended_frame_format := Z.land value 0x0F |}.

Definition ExtendedControlField_to_u8 (c : ExtendedControlField) : Z :=
  Z.lor
    (Z.lor (or_if (bool_decide (ext_destination_address_type c = GroupType)) 0x80 0)
           (shl8 (Z.land (ext_hop_count c) 0x07) 4))
    (Z.land (extended_frame_format c) 0x0F).

Definition AdditionalInfo_new (ty : Z) (data : list Z) : AdditionalInfo := MkAdditionalInfo ty data.
Definition AdditionalInfo_total_length (i : AdditionalInfo) : nat := 2 + length (info_data i).

(** * Parsing *)

(** The [while offset < additional_info_end] loop.  [None] is running out of
    fuel, which [CemiFrame_parse] rules out by its choice of fuel. *)
Fixpoint parse_additional_info (fuel : nat) (data : list Z) (offset info_end : nat)
    (infos : list AdditionalInfo) : option (result (nat * list AdditionalInfo)) :=
  match fuel with
  | O => None
  | S fuel =>
      if (offset <? info_end)%nat then
        if (length data <=? offset + 1)%nat
        then Some (perr (ParseError offset "Incomplete additional info field"))
        else
          match idx (E:=KnxError) data offset, idx (E:=KnxError) data (offset + 1) with
          | Ok ty, Ok len =>
              let info_len := usize len in
              if (info_end <? offset + 2 + info_len)%nat
              then Some (perr (ParseError (offset + 1)
                     "Additional info field extends beyond declared length"))
              else
                match slice (E:=KnxError) data (offset + 2) (offset + 2 + info_len) with
                | Ok d =>
                    parse_additional_info fuel data (offset + (2 + info_len)) info_end
                      (infos ++ [MkAdditionalInfo ty d])
                | _ => Some Panic
                end
          | _, _ => Some Panic
          end
      else Some (Ok (offset, infos))
  end.

(** The 2-byte control field and, for an extended frame, the byte after it. *)
Definition parse_control (data : list Z) (offset : nat)
    : result (nat * ControlField * option ExtendedControlField) :=
  b0 ← idx data offset;
  b1 ← idx data (offset + 1);
  let cf := ControlField_from_flags (from_be16 b0 b1) in
  let offset := (offset + 2)%nat in
  if bool_decide (frame_type cf = Extended) then
    if (length data <=? offset)%nat
    then perr (ParseError offset "Missing extended control field")
    else
      b ← idx data offset;
      let ext := ExtendedControlField_from_u8 b in
      Ok ((offset + 1)%nat,
          {| frame_type := frame_type cf; repeat_flag := repeat_flag cf;
             system_broadcast := system_broadcast cf; cf_priority := cf_priority cf;
             ack_request := ack_request cf; confirm := confirm cf;
             destination_address_type := ext_destination_address_type ext;
             hop_count := ext_hop_count ext |},
          Some ext)
  else Ok (offset, cf, None).

Definition parse_source (data : list Z) (offset : nat) : result (nat * IndividualAddress) :=
  if (length data <=? offset + 1)%nat
  then perr (ParseError offset "Missing source address")
  else
    b0 ← idx data offset;
    b1 ← idx data (offset + 1);
    Ok ((offset + 2)%nat, IndividualAddress_from_raw (from_be16 b0 b1)).

Definition parse_destination (ty : AddressType) (data : list Z) (offset : nat)
    : result (nat * Address) :=
  if (length data <=? offset + 1)%nat
  then perr (ParseError offset "Missing destination address")
  else
    b0 ← idx data offset;
    b1 ← idx data (offset + 1);
    let dest_raw := from_be16 b0 b1 in
    if bool_decide (ty = GroupType) then
      g ← map_err (λ e, Protocol (InvalidAddress ("0x" +:+ hex04 dest_raw)
                                    (AddressError_display e)))
            (GroupAddress_try_from_raw dest_raw);
      Ok ((offset + 2)%nat, Group g)
    else Ok ((offset + 2)%nat, Individual (IndividualAddress_from_raw dest_raw)).

(** Data length, TPCI and APCI data: [(data_length, tpci, apci_data)]. *)
Definition parse_npdu (data : list Z) (offset : nat) : result (Z * Z * list Z) :=
  if (length data <=? offset)%nat
  then perr (ParseError offset "Missing data length field")
  else
    dlen ← idx data offset;
    let offset := (offset + 1)%nat in
    let tpdu_length := if dlen =? 0 then 0%nat else (usize dlen + 1)%nat in
    if (length data <? offset + tpdu_length)%nat
    then perr (ParseError offset ("Not enough data for payload (need "
           +:+ dec_nat tpdu_length +:+ ", have " +:+ dec_nat (length data - offset) +:+ ")"))
    else if 0 <? dlen then
      t ← idx data offset;
      d ← slice data (offset + 1) (offset + 1 + usize dlen);
      Ok (dlen, t, d)
    else Ok (dlen, 0, []).

(** The main header, the addresses and the payload, after the additional info. *)
Definition parse_main (code : MessageCode) (infos : list AdditionalInfo) (data : list Z)
    (offset : nat) : result CemiFrame :=
  if (length data <? offset + 7)%nat
  then perr (ParseError offset "Not enough data for CEMI frame header")
  else
    '(offset, cf, ext) ← parse_control data offset;
    '(offset, src) ← parse_source data offset;
    '(offset, dst) ← parse_destination (destination_address_type cf) data offset;
    '(dlen, t, apci) ← parse_npdu data offset;
    Ok {| message_code := code; additional_info := infos; control_field := cf;
          extended_control_field := ext; source_addr := src; dest_addr := dst;
          data_length := dlen; tpci := t; apci_data := apci |}.

Definition CemiFrame_parse (data : list Z) : result CemiFrame :=
  if (length data =? 0)%nat then perr (ParseError 0 "Empty CEMI frame")
  else if (length data <? 2)%nat
  then perr (ParseError 0 "CEMI frame too short (minimum 2 bytes)")
  else
    b0 ← idx data 0;
    code ← MessageCode_from_u8 b0;
    b1 ← idx data 1;
    let additional_info_len := usize b1 in
    if (length data <? 2 + additional_info_len)%nat
    then perr (ParseError 1 ("Not enough data for additional info (need "
           +:+ dec_nat additional_info_len +:+ ", have " +:+ dec_nat (length data - 2) +:+ ")"))
    else
      '(offset, infos) ←
        default Panic (parse_additional_info (S additional_info_len) data 2
                         (2 + additional_info_len) []);
      parse_main code infos data offset.

(** * Serialization *)
Definition info_bytes (i : AdditionalInfo) : list Z :=
  info_type i :: len_u8 (info_data i) :: info_data i.

Definition address_raw (a : Address) : Z :=
  match a with Group g => ga_raw g | Individual i => ia_raw i end.

Definition CemiFrame_serialize (f : CemiFrame) : list Z :=
  let additional_info_data := concat (info_bytes <$> additional_info f) in
  [MessageCode_to_u8 (message_code f)]
  ++ [len_u8 additional_info_data]
  ++ additional_info_data
  ++ to_be16 (ControlField_to_flags (control_field f))
  ++ match extended_control_field f with
     | Some ext => [ExtendedControlField_to_u8 ext]
     | None => []
     end
  ++ to_be16 (ia_raw (source_addr f))
  ++ to_be16 (address_raw (dest_addr f))
  ++ [data_length f]
  ++ (if 0 <? data_length f then tpci f :: apci_data f else []).

Definition CemiFrame_new (code : MessageCode) (src : IndividualAddress) (dst : Address)
    (data : list Z) : CemiFrame :=
  {| message_code := code;
     additional_info := [];
     control_field :=
       {| frame_type := Standard; repeat_flag := false; system_broadcast := false;
          cf_priority := CemiNormal; ack_request := false; confirm := false;
          destination_address_type :=
            match dst with Group _ => GroupType | Individual _ => IndividualType end;
          hop_count := 6 |};
     extended_control_field := None;
     source_addr := src;
     dest_addr := dst;
     data_length := len_u8 data;
     tpci := 0;
     apci_data := data |}.

(** * Safety of the parser *)
Section safety.
Context (data : list Z).

Lemma MessageCode_from_u8_no_panic v : MessageCode_from_u8 v ≠ Panic.
Proof. unfold MessageCode_from_u8. repeat no_panic_step. Qed.

(** The additional-info loop stops within its fuel, never panics and, when it
    succeeds, leaves the offset exactly at the declared end. *)
Lemma parse_additional_info_safe fuel offset info_end infos :
  (info_end ≤ length data)%nat → (offset ≤ info_end)%nat → (info_end - offset < fuel)%nat →
  match parse_additional_info fuel data offset info_end infos with
  | Some (Ok (o, _)) => o = info_end
  | Some (Err _) => True
  | Some Panic | None => False
  end.
Proof.
  revert offset infos. induction fuel as [|fuel IH]; intros offset infos Hlen Hoff Hfuel; [lia|].
  simpl. destruct (Nat.ltb_spec offset info_end) as [Hlt|]; [|lia].
  destruct (Nat.leb_spec (length data) (offset + 1)) as [|Hin]; [done|].
  destruct (idx_lt (E:=KnxError) data offset) as (ty & _ & ->); [lia|].
  destruct (idx_lt (E:=KnxError) data (offset + 1)) as (len & _ & ->); [lia|].
  destruct (Nat.ltb_spec info_end (offset + 2 + usize len)); [done|].
  destruct (slice _ _ _) as [d|e|] eqn:Es.
  - apply IH; lia.
  - unfold slice in Es. by case_match.
  - by apply slice_no_panic in Es; [|lia..].
Qed.

Lemma parse_control_Ok offset o cf ext :
  parse_control data offset = Ok (o, cf, ext) →
  o = (offset + 2 + match ext with Some _ => 1 | None => 0 end)%nat ∧
  (frame_type cf = Extended ↔ is_Some ext).
Proof.
  unfold parse_control. intros H. inv_binds. case_bool_decide as Hx.
  - case_match; [done|]. inv_binds. simplify_eq. simpl. split; [lia|]. split; [eauto|done].
  - simplify_eq. split; [lia|]. split; [done|intros []; done].
Qed.

Lemma parse_control_no_panic offset :
  (offset + 2 ≤ length data)%nat → parse_control data offset ≠ Panic.
Proof. intros Hl. unfold parse_control. cbn zeta. repeat no_panic_step. Qed.

Lemma parse_source_no_panic offset : parse_source data offset ≠ Panic.
Proof. unfold parse_source. repeat no_panic_step. Qed.

Lemma parse_destination_no_panic ty offset : parse_destination ty data offset ≠ Panic.
Proof.
  unfold parse_destination. cbn zeta. repeat no_panic_step.
  unfold GroupAddress_try_from_raw. by case_match.
Qed.

Lemma parse_npdu_no_panic offset : parse_npdu data offset ≠ Panic.
Proof.
  unfold parse_npdu. cbn zeta. repeat no_panic_step;
    rewrite (proj2 (Z.eqb_neq _ _)) in * by lia; no_panic_step.
Qed.
End safety.

(** * Well-formed frames *)
Definition info_wf (i : AdditionalInfo) : Prop :=
  u8_ok (info_type i) ∧ bytes_ok (info_data i).

Definition address_type_of (a : Address) : AddressType :=
  match a with Group _ => GroupType | Individual _ => IndividualType end.

(** The frames the wire format can carry: fields within their bit widths, the
    extended control field present exactly on extended frames and agreeing
    with the control field, lengths that fit their length bytes. *)
Record cemi_wf (f : CemiFrame) : Prop := {
  wf_infos : Forall info_wf (additional_info f);
  wf_infos_len : Z.of_nat (length (concat (info_bytes <$> additional_info f))) < 256;
  wf_hop : 0 ≤ hop_count (control_field f) < 8;
  wf_ext :
    match extended_control_field f with
    | Some e => frame_type (control_field f) = Extended ∧
                ext_hop_count e = hop_count (control_field f) ∧
                ext_destination_address_type e = destination_address_type (control_field f) ∧
                0 ≤ extended_frame_format e < 16
    | None => frame_type (control_field f) = Standard
    end;
  wf_source : IndividualAddress_valid (source_addr f);
  wf_dest : Address_valid (dest_addr f);
  wf_dest_type : destination_address_type (control_field f) = address_type_of (dest_addr f);
  wf_length : data_length f = Z.of_nat (length (apci_data f)) ∧ data_length f < 256;
  wf_tpci : u8_ok (tpci f) ∧ (data_length f = 0 → tpci f = 0);
  wf_apci : bytes_ok (apci_data f);
}.

(** * Codecs *)
Section codecs.

Lemma MessageCode_roundtrip c : MessageCode_from_u8 (MessageCode_to_u8 c) = Ok c.
Proof. by destruct c. Qed.

Lemma MessageCode_u8 c : u8_ok (MessageCode_to_u8 c).
Proof. destruct c; unfold u8_ok; simpl; lia. Qed.

Lemma ControlField_flags_roundtrip c :
  0 ≤ hop_count c < 8 →
  ControlField_from_flags (ControlField_to_flags c) = c ∧ u16_ok (ControlField_to_flags c).
Proof.
  destruct c as [ft r sb p a co d h]. intros Hh. simpl in Hh.
  destruct ft, r, sb, p, a, co, d;
    match goal with
    | |- ControlField_from_flags (ControlField_to_flags (MkControlField ?ft ?r ?sb ?p ?a ?co ?d _))
         = _ ∧ _ =>
        exhaust 8%positive (λ h,
          ControlField_from_flags (ControlField_to_flags (MkControlField ft r sb p a co d h)) =
            MkControlField ft r sb p a co d h ∧
          u16_ok (ControlField_to_flags (MkControlField ft r sb p a co d h))) h Hh
    end.
Qed.

Lemma ExtendedControlField_roundtrip e :
  0 ≤ ext_hop_count e < 8 → 0 ≤ extended_frame_format e < 16 →
  ExtendedControlField_from_u8 (ExtendedControlField_to_u8 e) = e ∧
  u8_ok (ExtendedControlField_to_u8 e).
Proof.
  destruct e as [d h x]. simpl. intros Hh Hx.
  assert (0 ≤ h * 16 + x < 128) as Hz by lia.
  replace h with ((h * 16 + x) / 16) by zlia. replace x with ((h * 16 + x) mod 16) at 2 4 6 by zlia.
  revert Hz. generalize (h * 16 + x). intros z Hz.
  destruct d;
    match goal with
    | |- ExtendedControlField_from_u8 (ExtendedControlField_to_u8 (MkExtendedControlField ?d _ _))
         = _ ∧ _ =>
        exhaust 128%positive (λ z,
          ExtendedControlField_from_u8
            (ExtendedControlField_to_u8 (MkExtendedControlField d (z / 16) (z mod 16))) =
            MkExtendedControlField d (z / 16) (z mod 16) ∧
          u8_ok (ExtendedControlField_to_u8 (MkExtendedControlField d (z / 16) (z mod 16)))) z Hz
    end.
Qed.

Lemma from_flags_hop flags : 0 ≤ hop_count (ControlField_from_flags flags) < 8.
Proof. simpl. rewrite land_7. by apply Z.mod_pos_bound. Qed.

Lemma ext_from_u8_wf v :
  0 ≤ ext_hop_count (ExtendedControlField_from_u8 v) < 8 ∧
  0 ≤ extended_frame_format (ExtendedControlField_from_u8 v) < 16.
Proof. simpl. rewrite land_7, land_15. split; by apply Z.mod_pos_bound. Qed.
End codecs.

(** * Parsing what was serialized

    Each phase of the parser, started at the end of a prefix [pre], reads back
    the bytes its field was serialized to and stops at their end. *)
Section phases.
Implicit Types pre rest : list Z.

Lemma length_info_bytes i : length (info_bytes i) = (2 + length (info_data i))%nat.
Proof. done. Qed.

Lemma parse_infos_serialized pre infos rest acc fuel :
  (length (concat (info_bytes <$> infos)) < fuel)%nat →
  Z.of_nat (length (concat (info_bytes <$> infos))) < 256 →
  parse_additional_info fuel (pre ++ concat (info_bytes <$> infos) ++ rest) (length pre)
    (length pre + length (concat (info_bytes <$> infos))) acc =
  Some (Ok ((length pre + length (concat (info_bytes <$> infos)))%nat, acc ++ infos)).
Proof.
  revert pre acc fuel. induction infos as [|i infos IH]; intros pre acc [|fuel] Hfuel Hlen;
    [simpl in *; lia| |simpl in *; lia|].
  - cbn [concat fmap list_fmap length parse_additional_info].
    rewrite Nat.add_0_r, Nat.ltb_irrefl, app_nil_r. done.
  - cbn [fmap list_fmap concat] in *. rewrite length_app, length_info_bytes in *.
    set (tl := concat (info_bytes <$> infos)) in *.
    assert (pre ++ (info_bytes i ++ tl) ++ rest =
      pre ++ info_type i :: len_u8 (info_data i) :: info_data i ++ tl ++ rest) as Hdata
      by (unfold info_bytes; cbn [app]; by rewrite <-app_assoc).
    rewrite Hdata. cbn [parse_additional_info].
    rewrite (proj2 (Nat.ltb_lt _ _)) by lia.
    rewrite (proj2 (Nat.leb_gt _ _)) by (rewrite length_app; simpl; lia).
    rewrite idx_app_0, idx_app_1, usize_len_u8 by lia.
    rewrite (proj2 (Nat.ltb_ge _ _)) by lia.
    replace (pre ++ info_type i :: len_u8 (info_data i) :: info_data i ++ tl ++ rest)
      with ((pre ++ [info_type i; len_u8 (info_data i)]) ++ info_data i ++ tl ++ rest)
      by by rewrite <-!app_assoc.
    replace (length pre + 2)%nat with (length (pre ++ [info_type i; len_u8 (info_data i)]))
      by (rewrite length_app; done).
    rewrite slice_app.
    replace (MkAdditionalInfo (info_type i) (info_data i)) with i by by destruct i.
    specialize (IH (pre ++ info_bytes i) (acc ++ [i]) fuel ltac:(lia) ltac:(lia)).
    rewrite length_app, length_info_bytes in IH. unfold info_bytes in IH at 1.
    rewrite <-!app_assoc in *. cbn [app] in *. rewrite <-!Nat.add_assoc in *. exact IH.
Qed.

Lemma parse_control_serialized pre rest f :
  cemi_wf f →
  let ext_bytes := match extended_control_field f with
                   | Some ext => [ExtendedControlField_to_u8 ext]
                   | None => []
                   end in
  let bytes := to_be16 (ControlField_to_flags (control_field f)) ++ ext_bytes in
  parse_control (pre ++ bytes ++ rest) (length pre) =
    Ok (length (pre ++ bytes), control_field f, extended_control_field f).
Proof.
  intros Hwf ext_bytes bytes.
  destruct (ControlField_flags_roundtrip (control_field f)) as [Hrt Hu]; [apply Hwf|].
  unfold parse_control, bytes, to_be16. cbn [app].
  rewrite idx_app_0, idx_app_1. cbn [mbind outcome_bind]. rewrite from_to_be16, Hrt.
  pose proof (wf_ext f Hwf) as Hext. unfold ext_bytes.
  destruct (extended_control_field f) as [e|].
  - destruct Hext as (Hft & Hh & Hd & Hx).
    rewrite bool_decide_eq_true_2 by done.
    rewrite (proj2 (Nat.leb_gt _ _)) by (rewrite length_app; simpl; lia).
    cbn [app]. replace (length pre + 2)%nat
      with (length (pre ++ [ControlField_to_flags (control_field f) / 256;
                            ControlField_to_flags (control_field f) mod 256]))
      by (rewrite length_app; done).
    replace (pre ++ _ :: _ :: _ :: rest)
      with ((pre ++ [ControlField_to_flags (control_field f) / 256;
                     ControlField_to_flags (control_field f) mod 256])
            ++ ExtendedControlField_to_u8 e :: rest) by by rewrite <-app_assoc.
    rewrite idx_app_0. cbn [mbind outcome_bind].
    destruct (ExtendedControlField_roundtrip e) as [-> _]; [rewrite Hh; apply Hwf|done|].
    rewrite Hd, Hh. rewrite !length_app. simpl.
    f_equal. f_equal. f_equal; [lia|by destruct (control_field f)].
  - rewrite bool_decide_eq_false_2 by congruence. by rewrite length_app.
Qed.

Lemma parse_source_serialized pre rest a :
  IndividualAddress_valid a →
  parse_source (pre ++ to_be16 (ia_raw a) ++ rest) (length pre) =
    Ok (length (pre ++ to_be16 (ia_raw a)), a).
Proof.
  intros Ha. unfold parse_source, to_be16. cbn [app].
  rewrite (proj2 (Nat.leb_gt _ _)) by (rewrite length_app; simpl; lia).
  rewrite idx_app_0, idx_app_1. cbn [mbind outcome_bind].
  rewrite from_to_be16, length_app. by destruct a.
Qed.

Lemma parse_destination_serialized pre rest a :
  Address_valid a →
  parse_destination (address_type_of a) (pre ++ to_be16 (address_raw a) ++ rest) (length pre) =
    Ok (length (pre ++ to_be16 (address_raw a)), a).
Proof.
  intros Ha. unfold parse_destination, to_be16. cbn [app].
  rewrite (proj2 (Nat.leb_gt _ _)) by (rewrite length_app; simpl; lia).
  rewrite idx_app_0, idx_app_1. cbn [mbind outcome_bind]. cbn zeta.
  rewrite from_to_be16, length_app. destruct a as [[g]|[i]]; simpl in *; [|done].
  unfold GroupAddress_try_from_raw. unfold GroupAddress_valid in Ha. simpl in Ha.
  by rewrite (proj2 (Z.ltb_ge _ _)) by lia.
Qed.

Lemma parse_npdu_serialized pre rest f :
  cemi_wf f →
  parse_npdu (pre ++ (data_length f :: if 0 <? data_length f then tpci f :: apci_data f else [])
              ++ rest) (length pre) =
    Ok (data_length f, tpci f, apci_data f).
Proof.
  intros Hwf. destruct (wf_length f Hwf) as [Hlen Hlt]. destruct (wf_tpci f Hwf) as [_ Ht].
  unfold parse_npdu. cbn [app].
  rewrite (proj2 (Nat.leb_gt _ _)) by (rewrite length_app; simpl; lia).
  rewrite idx_app_0. cbn [mbind outcome_bind].
  assert (usize (data_length f) = length (apci_data f)) as Hu by (unfold usize; lia).
  destruct (Z.ltb_spec 0 (data_length f)) as [Hpos|Hz].
  - rewrite (proj2 (Z.eqb_neq _ _)) by lia. rewrite Hu.
    rewrite (proj2 (Nat.ltb_ge _ _)) by (rewrite !length_app; simpl; rewrite length_app; lia).
    cbn [app]. rewrite idx_app_1. cbn [mbind outcome_bind].
    replace (pre ++ _ :: _ :: apci_data f ++ rest)
      with ((pre ++ [data_length f; tpci f]) ++ apci_data f ++ rest) by by rewrite <-app_assoc.
    replace (length pre + 1 + 1)%nat with (length (pre ++ [data_length f; tpci f]))
      by (rewrite length_app; simpl; lia).
    by rewrite slice_app.
  - assert (data_length f = 0) as Hd0 by lia. rewrite Hd0, Ht by done. simpl.
    rewrite (proj2 (Nat.ltb_ge _ _)) by (rewrite length_app; simpl; lia).
    by rewrite (nil_length_inv (apci_data f)) by lia.
Qed.
End phases.

(** * What the parser accepts is well-formed *)
Section parsed_wf.
Context (data : list Z) (Hdata : bytes_ok data).

Lemma slice_bytes a b k : slice (E:=KnxError) data a b = Ok k →
  bytes_ok k ∧ length k = (b - a)%nat ∧ (b ≤ length data)%nat.
Proof.
  intros [? ->]%slice_Ok. split_and!; [by apply Forall_take, Forall_drop| |lia].
  rewrite length_take, length_drop. lia.
Qed.

Lemma parse_additional_info_wf fuel offset info_end acc o infos :
  (offset ≤ info_end)%nat →
  parse_additional_info fuel data offset info_end acc = Some (Ok (o, infos)) →
  o = info_end ∧ ∃ new, infos = acc ++ new ∧ Forall info_wf new ∧
    length (concat (info_bytes <$> new)) = (info_end - offset)%nat.
Proof.
  revert offset acc. induction fuel as [|fuel IH]; intros offset acc Hoff; [done|].
  cbn [parse_additional_info]. intros H.
  destruct (Nat.ltb_spec offset info_end) as [Hlt|].
  2: { simplify_eq. assert (o = info_end) by lia. split; [done|].
       exists []. rewrite app_nil_r. split_and!; [done|done|simpl; lia]. }
  destruct (length data <=? offset + 1)%nat; [done|].
  destruct (idx data offset) as [ty|e|] eqn:Ety; [|done..].
  destruct (idx data (offset + 1)) as [len|e|] eqn:Elen; [|done..].
  destruct (Nat.ltb_spec info_end (offset + 2 + usize len)); [done|].
  destruct (slice data _ _) as [d|e|] eqn:Ed; [|done..].
  apply IH in H as [-> (new & -> & Hnew & Hlen)]; [|lia]. split; [done|].
  apply slice_bytes in Ed as (Hd & Hld & _).
  exists (MkAdditionalInfo ty d :: new). rewrite <-app_assoc. split_and!; [done| |].
  - constructor; [|done]. split; [eauto using idx_ok_byte|done].
  - cbn [fmap list_fmap concat]. rewrite length_app, length_info_bytes. simpl. lia.
Qed.

Lemma parse_control_wf offset o cf ext :
  parse_control data offset = Ok (o, cf, ext) →
  0 ≤ hop_count cf < 8 ∧
  match ext with
  | Some e => frame_type cf = Extended ∧ ext_hop_count e = hop_count cf ∧
              ext_destination_address_type e = destination_address_type cf ∧
              0 ≤ extended_frame_format e < 16
  | None => frame_type cf = Standard
  end.
Proof.
  unfold parse_control. intros H. inv_binds. case_bool_decide as Hx.
  - case_match; [done|]. inv_binds. simplify_eq. simpl.
    pose proof (ext_from_u8_wf x1) as [? ?]. done.
  - simplify_eq. split; [apply from_flags_hop|].
    by destruct (frame_type _).
Qed.

Lemma idx_pair_u16 offset b0 b1 :
  idx (E:=KnxError) data offset = Ok b0 → idx (E:=KnxError) data (offset + 1) = Ok b1 →
  u16_ok (from_be16 b0 b1).
Proof. intros H0 H1. apply from_be16_ok; eauto using idx_ok_byte. Qed.

Lemma parse_source_wf offset o a :
  parse_source data offset = Ok (o, a) → IndividualAddress_valid a.
Proof.
  unfold parse_source. destruct (_ <=? _)%nat; [done|]. intros HP. inv_binds. simplify_eq.
  unfold IndividualAddress_valid. simpl. eauto using idx_pair_u16.
Qed.

Lemma parse_destination_wf ty offset o a :
  parse_destination ty data offset = Ok (o, a) → Address_valid a ∧ ty = address_type_of a.
Proof.
  unfold parse_destination. destruct (_ <=? _)%nat; [done|]. intros HP.
  apply outcome_bind_Ok in HP as (b0 & Hb0 & HP). apply outcome_bind_Ok in HP as (b1 & Hb1 & HP).
  pose proof (idx_pair_u16 _ _ _ Hb0 Hb1) as Hu. case_bool_decide.
  - apply outcome_bind_Ok in HP as (g & Hg & HP). simplify_eq.
    unfold GroupAddress_try_from_raw in Hg.
    destruct (Z.ltb_spec GroupAddress_MAX_RAW (from_be16 b0 b1)); simpl in *; simplify_eq.
    unfold u16_ok in Hu. split; [|done]. split; simpl; [lia|done].
  - simplify_eq. split; [exact Hu|]. by destruct ty.
Qed.

Lemma parse_npdu_wf offset dlen t apci :
  parse_npdu data offset = Ok (dlen, t, apci) →
  (dlen = Z.of_nat (length apci) ∧ dlen < 256) ∧ (u8_ok t ∧ (dlen = 0 → t = 0)) ∧ bytes_ok apci.
Proof.
  unfold parse_npdu. destruct (_ <=? _)%nat; [done|]. intros HP.
  apply outcome_bind_Ok in HP as (b & Hb & HP).
  pose proof (idx_ok_byte _ _ _ Hdata Hb) as Hx. unfold u8_ok in Hx.
  destruct (length data <? _)%nat; [done|]. destruct (Z.ltb_spec 0 b).
  - apply outcome_bind_Ok in HP as (b' & Hb' & HP).
    apply outcome_bind_Ok in HP as (d & Hd & HP). simplify_eq.
    apply slice_bytes in Hd as (Hby & Hl & _).
    pose proof (idx_ok_byte _ _ _ Hdata Hb'). unfold usize in *.
    split_and!; try done; lia.
  - simplify_eq. split_and!; try done; simpl; try lia. constructor.
Qed.

Lemma cemi_parse_wf f : CemiFrame_parse data = Ok f → cemi_wf f.
Proof.
  unfold CemiFrame_parse. destruct (_ =? _)%nat; [done|]. destruct (_ <? 2)%nat; [done|].
  intros HP. apply outcome_bind_Ok in HP as (b0 & _ & HP).
  apply outcome_bind_Ok in HP as (code & _ & HP).
  apply outcome_bind_Ok in HP as (b1 & Hb1 & HP). destruct (length data <? _)%nat; [done|].
  apply outcome_bind_Ok in HP as ([o infos] & Hi & HP). unfold parse_main in HP. destruct (length data <? _)%nat; [done|].
  apply outcome_bind_Ok in HP as ([[o1 cf] ext] & Hc & HP).
  apply outcome_bind_Ok in HP as ([o2 src] & Hs & HP).
  apply outcome_bind_Ok in HP as ([o3 dst] & Hds & HP).
  apply outcome_bind_Ok in HP as ([[dlen t] apci] & Hn & HP). simplify_eq.
  destruct (parse_additional_info _ _ _ _ _) as [r|] eqn:Ei in Hi; [|done].
  cbn in Hi. subst r. apply parse_additional_info_wf in Ei as [-> (new & -> & Hnew & Hlen)]; [|lia].
  pose proof (idx_ok_byte _ _ _ Hdata Hb1) as Hb. unfold u8_ok, usize in *.
  apply parse_control_wf in Hc as [Hh Hext]. apply parse_source_wf in Hs.
  apply parse_destination_wf in Hds as [Hd Hty]. apply parse_npdu_wf in Hn as (? & ? & ?).
  constructor; simpl in *; try done. rewrite Hlen. lia.
Qed.
End parsed_wf.

(** * The frame *)
Section frame.

(** The bytes after the additional info. *)
Definition main_bytes (f : CemiFrame) : list Z :=
  (to_be16 (ControlField_to_flags (control_field f))
   ++ match extended_control_field f with
      | Some ext => [ExtendedControlField_to_u8 ext]
      | None => []
      end)
  ++ to_be16 (ia_raw (source_addr f)) ++ to_be16 (address_raw (dest_addr f))
  ++ (data_length f :: if 0 <? data_length f then tpci f :: apci_data f else []).

Lemma parse_main_serialized pre f rest :
  cemi_wf f →
  parse_main (message_code f) (additional_info f) (pre ++ main_bytes f ++ rest) (length pre) = Ok f.
Proof.
  intros Hwf. unfold parse_main.
  rewrite (proj2 (Nat.ltb_ge _ _))
    by (rewrite !length_app; unfold main_bytes; rewrite !length_app; simpl; lia).
  unfold main_bytes. rewrite <-(app_assoc (_ ++ _)), parse_control_serialized by done.
  cbn [mbind outcome_bind]. set (ctl := to_be16 (ControlField_to_flags _) ++ _).
  rewrite (app_assoc pre), <-(app_assoc (to_be16 (ia_raw _))).
  rewrite parse_source_serialized by apply Hwf. cbn [mbind outcome_bind].
  rewrite (app_assoc (pre ++ ctl)), <-(app_assoc (to_be16 (address_raw _))), (wf_dest_type f Hwf).
  rewrite parse_destination_serialized by apply Hwf. cbn [mbind outcome_bind].
  rewrite (app_assoc _ (to_be16 (address_raw _))).
  rewrite (parse_npdu_serialized _ rest f Hwf). by destruct f.
Qed.

Lemma serialize_split f :
  CemiFrame_serialize f =
  [MessageCode_to_u8 (message_code f); len_u8 (concat (info_bytes <$> additional_info f))]
  ++ concat (info_bytes <$> additional_info f) ++ main_bytes f.
Proof. unfold CemiFrame_serialize, main_bytes. by rewrite <-!app_assoc. Qed.

Lemma CemiFrame_parse_serialized f rest :
  cemi_wf f → CemiFrame_parse (CemiFrame_serialize f ++ rest) = Ok f.
Proof.
  intros Hwf. pose proof (wf_infos_len f Hwf) as Hlen. rewrite serialize_split.
  set (infos := concat (info_bytes <$> additional_info f)) in *.
  set (hd := [MessageCode_to_u8 (message_code f); len_u8 infos]).
  rewrite <-!app_assoc. set (data := hd ++ _).
  assert (2 + length infos ≤ length data)%nat
    by (unfold data; rewrite !length_app; simpl; lia).
  unfold CemiFrame_parse.
  rewrite (proj2 (Nat.eqb_neq _ _)) by lia. rewrite (proj2 (Nat.ltb_ge _ _)) by lia.
  replace (idx data 0) with (Ok (E:=KnxError) (MessageCode_to_u8 (message_code f))) by done.
  cbn [mbind outcome_bind]. rewrite MessageCode_roundtrip.
  replace (idx data 1) with (Ok (E:=KnxError) (len_u8 infos)) by done.
  cbn [mbind outcome_bind]. cbn zeta. rewrite usize_len_u8 by done.
  rewrite (proj2 (Nat.ltb_ge _ _)) by lia.
  pose proof (parse_infos_serialized hd (additional_info f) (main_bytes f ++ rest) []
    (S (length infos)) ltac:(fold infos; lia) Hlen) as Hi. fold infos data in Hi.
  change (length hd) with 2%nat in Hi. rewrite Hi. cbn [default mbind outcome_bind app].
  pose proof (parse_main_serialized (hd ++ infos) f rest Hwf) as Hm.
  rewrite length_app, <-app_assoc in Hm. exact Hm.
Qed.

Lemma CemiFrame_new_wf code src dst data :
  IndividualAddress_valid src → Address_valid dst → bytes_ok data →
  Z.of_nat (length data) < 256 → cemi_wf (CemiFrame_new code src dst data).
Proof.
  intros Hs Hd Hb Hl. constructor; simpl; try done; try lia.
  rewrite len_u8_small by done. lia.
Qed.

Lemma CemiFrame_parse_total (data : list Z) : CemiFrame_parse data ≠ Panic.
Proof.
  unfold CemiFrame_parse. destruct (Nat.eqb_spec (length data) 0); [done|].
  destruct (Nat.ltb_spec (length data) 2); [done|].
  apply outcome_bind_no_panic; [apply idx_no_panic; lia|intros b0 _].
  apply outcome_bind_no_panic; [apply MessageCode_from_u8_no_panic|intros code _].
  apply outcome_bind_no_panic; [apply idx_no_panic; lia|intros b1 _]. cbn zeta.
  destruct (Nat.ltb_spec (length data) (2 + usize b1)); [done|].
  pose proof (parse_additional_info_safe data (S (usize b1)) 2 (2 + usize b1) []
    ltac:(lia) ltac:(lia) ltac:(lia)) as Hs.
  destruct (parse_additional_info _ _ _ _ _) as [[[o infos]|e|]|]; simpl; try done.
  unfold parse_main. destruct (Nat.ltb_spec (length data) (o + 7)); [done|].
  apply outcome_bind_no_panic; [apply parse_control_no_panic; lia|intros [[o1 cf] ext] _].
  apply outcome_bind_no_panic; [apply parse_source_no_panic|intros [o2 src] _].
  apply outcome_bind_no_panic; [apply parse_destination_no_panic|intros [o3 dst] _].
  apply outcome_bind_no_panic; [apply parse_npdu_no_panic|by intros [[dlen t] apci] _].
Qed.

(** The CEMI parser is total: on every byte sequence it returns a frame or
    an error, its additional-info loop terminates, and no index or slice of
    it is out of range. *)
Theorem cemi_parse_no_panic (data : list Z) : CemiFrame_parse data ≠ Panic.
Proof. apply CemiFrame_parse_total. Qed.

(** Parsing is a left inverse of serialization: a well-formed frame
    (fields within their wire widths, extended control field consistent),
    serialized and followed by any trailing bytes, parses back to itself. *)
Theorem cemi_roundtrip (f : CemiFrame) (rest : list Z) :
  cemi_wf f → CemiFrame_parse (CemiFrame_serialize f ++ rest) = Ok f.
Proof. apply CemiFrame_parse_serialized. Qed.

(** C4: Whatever bytes the parser accepts, the frame it returns is well-formed
    and survives re-serialization: parsing its serialization gives the same
    frame again. *)
Theorem cemi_reparse (data : list Z) (f : CemiFrame) :
  bytes_ok data → CemiFrame_parse data = Ok f →
  cemi_wf f ∧ CemiFrame_parse (CemiFrame_serialize f) = Ok f.
Proof.
  intros Hb HP. pose proof (cemi_parse_wf data Hb f HP) as Hwf. split; [done|].
  rewrite <-(app_nil_r (CemiFrame_serialize f)). by apply CemiFrame_parse_serialized.
Qed.

(** A frame built with [CemiFrame::new] from valid addresses and at most 255
    payload bytes reaches the receiver with its message code, its addresses
    and its payload unchanged. *)
Theorem cemi_new_transmits code src dst data :
  IndividualAddress_valid src → Address_valid dst → bytes_ok data →
  Z.of_nat (length data) < 256 →
  ∃ f, CemiFrame_parse (CemiFrame_serialize (CemiFrame_new code src dst data)) = Ok f ∧
    message_code f = code ∧ source_addr f = src ∧ dest_addr f = dst ∧ apci_data f = data.
Proof.
  intros Hs Hd Hb Hl. exists (CemiFrame_new code src dst data). split; [|done].
  rewrite <-(app_nil_r (CemiFrame_serialize _)).
  by apply CemiFrame_parse_serialized, CemiFrame_new_wf.
Qed.
End frame.

(** An extended frame with an additional-info field. *)
Definition sample_cemi : CemiFrame :=
  {| message_code := LDataInd;
     additional_info := [MkAdditionalInfo 3 [1; 2]];
     control_field :=
       {| frame_type := Extended; repeat_flag := true; system_broadcast := true;
          cf_priority := CemiLow; ack_request := false; confirm := false;
          destination_address_type := GroupType; hop_count := 5 |};
     extended_control_field := Some (MkExtendedControlField GroupType 5 0);
     source_addr := MkIndividualAddress 0x1105;
     dest_addr := Group (MkGroupAddress 0x0A03);
     data_length := 2; tpci := 0; apci_data := [0x80; 0x2A] |}.

Lemma sample_cemi_wf : cemi_wf sample_cemi.
Proof.
  constructor; simpl;
    try (by repeat constructor); try (unfold IndividualAddress_valid, GroupAddress_valid, u16_ok, u8_ok; simpl; lia).
Qed.

Lemma cemi_roundtrip_witness :
  CemiFrame_parse (CemiFrame_serialize sample_cemi ++ [0xFF]) = Ok sample_cemi.
Proof. apply (cemi_roundtrip sample_cemi [0xFF]), sample_cemi_wf. Defined.

Lemma cemi_reparse_witness :
  cemi_wf sample_cemi ∧ CemiFrame_parse (CemiFrame_serialize sample_cemi) = Ok sample_cemi.
Proof.
  apply (cemi_reparse [0x29; 4; 3; 2; 1; 2; 0x0C; 0xD0; 0xD0; 0x11; 0x05; 0x0A; 0x03; 2; 0; 0x80; 0x2A]).
  - apply (bool_decide_unpack _). by vm_compute.
  - vm_compute; reflexivity.
Defined.

Lemma cemi_new_transmits_witness :
  ∃ f, CemiFrame_parse (CemiFrame_serialize
         (CemiFrame_new LDataReq (MkIndividualAddress 0x1101) (Group (MkGroupAddress 1)) [0; 0x81])) = Ok f ∧
    message_code f = LDataReq ∧ source_addr f = MkIndividualAddress 0x1101 ∧
    dest_addr f = Group (MkGroupAddress 1) ∧ apci_data f = [0; 0x81].
Proof.
  apply cemi_new_transmits.
  - by apply (bool_decide_unpack (u16_ok _)).
  - by apply (bool_decide_unpack (_ ≤ _ ≤ _)).
  - by apply (bool_decide_unpack (bytes_ok _)).
  - done.
Defined.
