(* ===== verification/KnxIp.v ===== *)
(** KNX/IP messages ([src/src/protocol/knxip.rs]): the frame header, the frame
    and the message bodies of connection set-up, session set-up, heartbeat and
    tunnelling.  Every body type is an instance of [BodyCodec], the contract
    its users rely on: its parser never panics and reads back what its
    serializer writes. *)
From S2P Require Import Prelude Errors Address.

(** * Service types *)
Module ServiceType.
Inductive ServiceType :=
| SearchRequest | SearchResponse | DescriptionRequest | DescriptionResponse
| ConnectRequest | ConnectResponse | ConnectionstateRequest | ConnectionstateResponse
| DisconnectRequest | DisconnectResponse | DeviceConfigurationRequest | DeviceConfigurationAck
| TunnellingRequest | TunnellingAck | RoutingIndication | RoutingLostMessage | RoutingBusy
| SecureWrapper | SessionRequest | SessionResponse | SessionAuthenticate | SessionStatus.

#[global] Instance ServiceType_eq_dec : EqDecision ServiceType.
Proof. solve_decision. Defined.
End ServiceType.

(** [service_type as u16]. *)
Definition ServiceType_as_u16 (s : ServiceType.ServiceType) : Z :=
  match s with
  | ServiceType.SearchRequest => 0x0201
  | ServiceType.SearchResponse => 0x0202
  | ServiceType.DescriptionRequest => 0x0203
  | ServiceType.DescriptionResponse => 0x0204
  | ServiceType.ConnectRequest => 0x0205
  | ServiceType.ConnectResponse => 0x0206
  | ServiceType.ConnectionstateRequest => 0x0207
  | ServiceType.ConnectionstateResponse => 0x0208
  | ServiceType.DisconnectRequest => 0x0209
  | ServiceType.DisconnectResponse => 0x020A
  | ServiceType.DeviceConfigurationRequest => 0x0310
  | ServiceType.DeviceConfigurationAck => 0x0311
  | ServiceType.TunnellingRequest => 0x0420
  | ServiceType.TunnellingAck => 0x0421
  | ServiceType.RoutingIndication => 0x0530
  | ServiceType.RoutingLostMessage => 0x0531
  | ServiceType.RoutingBusy => 0x0532
  | ServiceType.SecureWrapper => 0x0950
  | ServiceType.SessionRequest => 0x0951
  | ServiceType.SessionResponse => 0x0952
  | ServiceType.SessionAuthenticate => 0x0953
  | ServiceType.SessionStatus => 0x0954
  end.

Definition ServiceType_from_u16 (value : Z) : option ServiceType.ServiceType :=
  if value =? 0x0201 then Some ServiceType.SearchRequest
  else if value =? 0x0202 then Some ServiceType.SearchResponse
  else if value =? 0x0203 then Some ServiceType.DescriptionRequest
  else if value =? 0x0204 then Some ServiceType.DescriptionResponse
  else if value =? 0x0205 then Some ServiceType.ConnectRequest
  else if value =? 0x0206 then Some ServiceType.ConnectResponse
  else if value =? 0x0207 then Some ServiceType.ConnectionstateRequest
  else if value =? 0x0208 then Some ServiceType.ConnectionstateResponse
  else if value =? 0x0209 then Some ServiceType.DisconnectRequest
  else if value =? 0x020A then Some ServiceType.DisconnectResponse
  else if value =? 0x0310 then Some ServiceType.DeviceConfigurationRequest
  else if value =? 0x0311 then Some ServiceType.DeviceConfigurationAck
  else if value =? 0x0420 then Some ServiceType.TunnellingRequest
  else if value =? 0x0421 then Some ServiceType.TunnellingAck
  else if value =? 0x0530 then Some ServiceType.RoutingIndication
  else if value =? 0x0531 then Some ServiceType.RoutingLostMessage
  else if value =? 0x0532 then Some ServiceType.RoutingBusy
  else if value =? 0x0950 then Some ServiceType.SecureWrapper
  else if value =? 0x0951 then Some ServiceType.SessionRequest
  else if value =? 0x0952 then Some ServiceType.SessionResponse
  else if value =? 0x0953 then Some ServiceType.SessionAuthenticate
  else if value =? 0x0954 then Some ServiceType.SessionStatus
  else None.

(** The derived [Debug] text, used in error messages. *)
Definition ServiceType_debug (s : ServiceType.ServiceType) : string :=
  match s with
  | ServiceType.SearchRequest => "SearchRequest"
  | ServiceType.SearchResponse => "SearchResponse"
  | ServiceType.DescriptionRequest => "DescriptionRequest"
  | ServiceType.DescriptionResponse => "DescriptionResponse"
  | ServiceType.ConnectRequest => "ConnectRequest"
  | ServiceType.ConnectResponse => "ConnectResponse"
  | ServiceType.ConnectionstateRequest => "ConnectionstateRequest"
  | ServiceType.ConnectionstateResponse => "ConnectionstateResponse"
  | ServiceType.DisconnectRequest => "DisconnectRequest"
  | ServiceType.DisconnectResponse => "DisconnectResponse"
  | ServiceType.DeviceConfigurationRequest => "DeviceConfigurationRequest"
  | ServiceType.DeviceConfigurationAck => "DeviceConfigurationAck"
  | ServiceType.TunnellingRequest => "TunnellingRequest"
  | ServiceType.TunnellingAck => "TunnellingAck"
  | ServiceType.RoutingIndication => "RoutingIndication"
  | ServiceType.RoutingLostMessage => "RoutingLostMessage"
  | ServiceType.RoutingBusy => "RoutingBusy"
  | ServiceType.SecureWrapper => "SecureWrapper"
  | ServiceType.SessionRequest => "SessionRequest"
  | ServiceType.SessionResponse => "SessionResponse"
  | ServiceType.SessionAuthenticate => "SessionAuthenticate"
  | ServiceType.SessionStatus => "SessionStatus"
  end.

(** * Header *)
Record KnxIpHeader := MkKnxIpHeader {
  header_length : Z;
  protocol_version : Z;
  service_type : ServiceType.ServiceType;
  total_length : Z;
}.

Definition KnxIpHeader_LENGTH : nat := 6.

(** [LENGTH as u16 + body_length] is a checked addition in a debug build. *)
Definition KnxIpHeader_new `{Profile} (service : ServiceType.ServiceType) (body_length : Z)
    : result KnxIpHeader :=
  total ← add16 6 body_length;
  Ok {| header_length := 6; protocol_version := 0x10; service_type := service;
        total_length := total |}.

Definition KnxIpHeader_parse (data : list Z) : result KnxIpHeader :=
  if (length data <? KnxIpHeader_LENGTH)%nat
  then perr (ParseError 0 ("Header too short: " +:+ dec_nat (length data) +:+ " bytes"))
  else
    hlen ← idx data 0;
    version ← idx data 1;
    s0 ← idx data 2;
    s1 ← idx data 3;
    let service_type_raw := from_be16 s0 s1 in
    t0 ← idx data 4;
    t1 ← idx data 5;
    let total := from_be16 t0 t1 in
    if negb (hlen =? 6) then perr (ParseError 0 ("Invalid header length: " +:+ dec hlen))
    else if negb (version =? 0x10) then perr (UnsupportedVersion version)
    else
      match ServiceType_from_u16 service_type_raw with
      | None => perr (ParseError 2 ("Unknown service type: 0x" +:+ hex04 service_type_raw))
      | Some service =>
          Ok {| header_length := hlen; protocol_version := version;
                service_type := service; total_length := total |}
      end.

Definition KnxIpHeader_serialize (h : KnxIpHeader) : list Z :=
  [header_length h; protocol_version h]
  ++ to_be16 (ServiceType_as_u16 (service_type h)) ++ to_be16 (total_length h).

(** * Frame *)
Record KnxIpFrame := MkKnxIpFrame { header : KnxIpHeader; body : list Z }.

Definition KnxIpFrame_new `{Profile} (service : ServiceType.ServiceType) (b : list Z)
    : result KnxIpFrame :=
  h ← KnxIpHeader_new service (len_u16 b);
  Ok {| header := h; body := b |}.

Definition KnxIpFrame_parse (data : list Z) : result KnxIpFrame :=
  h ← KnxIpHeader_parse data;
  if (length data <? usize (total_length h))%nat
  then perr (ParseError 0 ("Frame too short: expected " +:+ dec (total_length h)
         +:+ " bytes, got " +:+ dec_nat (length data)))
  else
    b ← slice data KnxIpHeader_LENGTH (usize (total_length h));
    Ok {| header := h; body := b |}.

Definition KnxIpFrame_serialize (f : KnxIpFrame) : list Z :=
  KnxIpHeader_serialize (header f) ++ body f.

(** * Host protocol address information

    [std::net] addresses; a [SocketAddrV6]'s flow information and scope are
    never read and are left out. *)
Inductive IpAddr := V4 (a b c d : Z) | V6 (octets : list Z).
Record SocketAddr := MkSocketAddr { ip : IpAddr; port : Z }.

#[global] Instance IpAddr_eq_dec : EqDecision IpAddr.
Proof. solve_decision. Defined.
#[global] Instance SocketAddr_eq_dec : EqDecision SocketAddr.
Proof. solve_decision. Defined.
#[global] Instance IpAddr_countable : Countable IpAddr :=
  inj_countable'
    (λ i, match i with V4 a b c d => inl (a, b, c, d) | V6 o => inr o end)
    (λ s, match s with inl (a, b, c, d) => V4 a b c d | inr o => V6 o end)
    ltac:(abstract by intros []).
#[global] Instance SocketAddr_countable : Countable SocketAddr :=
  inj_countable' (λ s, (ip s, port s)) (λ p, MkSocketAddr p.1 p.2) ltac:(abstract by intros []).

Record Hpai := MkHpai { host_protocol_code : Z; ip_addr : IpAddr; hpai_port : Z }.

Definition Hpai_LENGTH : nat := 8.
Definition PROTOCOL_UDP : Z := 0x01.
Definition PROTOCOL_TCP : Z := 0x02.

Definition Hpai_new (addr : SocketAddr) : Hpai :=
  {| host_protocol_code := PROTOCOL_UDP; ip_addr := ip addr; hpai_port := port addr |}.
Definition Hpai_route_back : Hpai :=
  {| host_protocol_code := PROTOCOL_UDP; ip_addr := V4 0 0 0 0; hpai_port := 0 |}.
Definition Hpai_new_tcp_route_back : Hpai :=
  {| host_protocol_code := PROTOCOL_TCP; ip_addr := V4 0 0 0 0; hpai_port := 0 |}.

Definition Hpai_parse (data : list Z) : result Hpai :=
  if (length data <? Hpai_LENGTH)%nat
  then perr (ParseError 0 ("HPAI too short: " +:+ dec_nat (length data) +:+ " bytes"))
  else
    structure_length ← idx data 0;
    code ← idx data 1;
    a ← idx data 2;
    b ← idx data 3;
    c ← idx data 4;
    d ← idx data 5;
    p0 ← idx data 6;
    p1 ← idx data 7;
    if negb (structure_length =? 8)
    then perr (ParseError 0 ("Invalid HPAI length: " +:+ dec structure_length))
    else Ok {| host_protocol_code := code; ip_addr := V4 a b c d; hpai_port := from_be16 p0 p1 |}.

Definition Hpai_serialize (h : Hpai) : list Z :=
  [8; host_protocol_code h]
  ++ match ip_addr h with V4 a b c d => [a; b; c; d] | V6 _ => [0; 0; 0; 0] end
  ++ to_be16 (hpai_port h).

Definition Hpai_socket_addr (h : Hpai) : SocketAddr := MkSocketAddr (ip_addr h) (hpai_port h).

(** * Connection request information *)
Record ConnectionRequestInfo := MkConnectionRequestInfo {
  connection_type : Z;
  knx_layer : Z;
  reserved : Z;
  individual_address : option IndividualAddress;
}.

Definition CRI_LENGTH : nat := 4.
Definition TUNNEL_CONNECTION : Z := 0x04.
Definition TUNNEL_LINKLAYER : Z := 0x02.

Definition ConnectionRequestInfo_new_tunnel : ConnectionRequestInfo :=
  {| connection_type := TUNNEL_CONNECTION; knx_layer := TUNNEL_LINKLAYER; reserved := 0;
     individual_address := None |}.

Definition ConnectionRequestInfo_parse (data : list Z) : result ConnectionRequestInfo :=
  if (length data <? CRI_LENGTH)%nat
  then perr (ParseError 0 ("CRI too short: " +:+ dec_nat (length data) +:+ " bytes"))
  else
    structure_length ← idx data 0;
    ty ← idx data 1;
    layer ← idx data 2;
    r ← idx data 3;
    if negb (structure_length =? 4)
    then perr (ParseError 0 ("Invalid CRI length: " +:+ dec structure_length))
    else Ok {| connection_type := ty; knx_layer := layer; reserved := r;
               individual_address := None |}.

Definition ConnectionRequestInfo_serialize (c : ConnectionRequestInfo) : list Z :=
  match individual_address c with
  | Some addr => [6; connection_type c; knx_layer c; reserved c] ++ to_be16 (ia_raw addr)
  | None => [4; connection_type c; knx_layer c; reserved c]
  end.

(** * Connect request and response *)
Record ConnectRequest := MkConnectRequest {
  creq_control_endpoint : Hpai;
  creq_data_endpoint : Hpai;
  cri : ConnectionRequestInfo;
}.

Definition ConnectRequest_new (control_addr data_addr : SocketAddr) : ConnectRequest :=
  MkConnectRequest (Hpai_new control_addr) (Hpai_new data_addr) ConnectionRequestInfo_new_tunnel.
Definition ConnectRequest_new_tcp_route_back : ConnectRequest :=
  MkConnectRequest Hpai_new_tcp_route_back Hpai_new_tcp_route_back ConnectionRequestInfo_new_tunnel.
Definition ConnectRequest_new_route_back : ConnectRequest :=
  MkConnectRequest Hpai_route_back Hpai_route_back ConnectionRequestInfo_new_tunnel.

Definition ConnectRequest_parse (data : list Z) : result ConnectRequest :=
  d0 ← slice_from data 0;
  control ← Hpai_parse d0;
  d1 ← slice_from data Hpai_LENGTH;
  data_endpoint ← Hpai_parse d1;
  d2 ← slice_from data (Hpai_LENGTH + Hpai_LENGTH);
  c ← ConnectionRequestInfo_parse d2;
  Ok (MkConnectRequest control data_endpoint c).

Definition ConnectRequest_serialize (r : ConnectRequest) : list Z :=
  Hpai_serialize (creq_control_endpoint r) ++ Hpai_serialize (creq_data_endpoint r)
  ++ ConnectionRequestInfo_serialize (cri r).

Record ConnectResponse := MkConnectResponse {
  channel_id : Z;
  cresp_status : Z;
  cresp_data_endpoint : Hpai;
  crd : list Z;
  assigned_address : option IndividualAddress;
}.

Definition CONNECT_STATUS_OK : Z := 0x00.
Definition STATUS_ERROR_NO_MORE_CONNECTIONS : Z := 0x24.

Definition ConnectResponse_status_description (status : Z) : string :=
  if status =? 0x00 then "OK"
  else if status =? 0x01 then "Host protocol type not supported"
  else if status =? 0x02 then "Version not supported"
  else if status =? 0x04 then "Sequence number error"
  else if status =? 0x0F then "General error"
  else if status =? 0x21 then "Connection ID error"
  else if status =? 0x22 then "Connection type not supported"
  else if status =? 0x23 then "Connection option not supported"
  else if status =? 0x24 then "No more connections available"
  else if status =? 0x25 then "No more unique connections available"
  else if status =? 0x26 then "Data connection error"
  else if status =? 0x27 then "KNX connection error"
  else if status =? 0x28 then "Authorization error"
  else if status =? 0x29 then "Tunnelling layer not supported"
  else if status =? 0x2D then "No tunnelling address available"
  else if status =? 0x2E then "Connection address already in use"
  else "Unknown error".

Definition ConnectResponse_error_message (r : ConnectResponse) : option string :=
  if cresp_status r =? CONNECT_STATUS_OK then None
  else Some ("Gateway rejected connection: "
             +:+ ConnectResponse_status_description (cresp_status r)
             +:+ " (0x" +:+ hex02 (cresp_status r) +:+ ")").

Definition parse_assigned_address (d : list Z) : result (option IndividualAddress) :=
  if (4 <=? length d)%nat then
    t ← idx d 1;
    if t =? TUNNEL_CONNECTION then
      hi ← idx d 2;
      lo ← idx d 3;
      Ok (Some (IndividualAddress_from_raw (from_be16 hi lo)))
    else Ok None
  else Ok None.

Definition ConnectResponse_parse (data : list Z) : result ConnectResponse :=
  if (length data <? 2)%nat then perr (ParseError 0 "Connect response too short")
  else
    channel ← idx data 0;
    status ← idx data 1;
    '(endpoint, c) ←
      (if status =? CONNECT_STATUS_OK then
         if (2 <? length data)%nat then
           d ← slice_from data 2;
           hpai ← Hpai_parse d;
           if (2 + Hpai_LENGTH <? length data)%nat
           then (c ← slice_from data (2 + Hpai_LENGTH); Ok (hpai, c))
           else Ok (hpai, [])
         else perr (ParseError 2 "Missing data endpoint in connect response")
       else Ok (MkHpai PROTOCOL_UDP (V4 0 0 0 0) 0, []));
    assigned ← parse_assigned_address c;
    Ok {| channel_id := channel; cresp_status := status; cresp_data_endpoint := endpoint;
          crd := c; assigned_address := assigned |}.

Definition ConnectResponse_serialize (r : ConnectResponse) : list Z :=
  [channel_id r; cresp_status r] ++ Hpai_serialize (cresp_data_endpoint r) ++ crd r.

Definition ConnectResponse_is_success (r : ConnectResponse) : bool :=
  cresp_status r =? CONNECT_STATUS_OK.

(** * Session set-up *)
Record SessionRequest := MkSessionRequest {
  sreq_control_endpoint : Hpai;
  sreq_public_key : list Z;
}.

Definition SessionRequest_LENGTH : nat := 40.

Definition SessionRequest_parse (data : list Z) : result SessionRequest :=
  if (length data <? SessionRequest_LENGTH)%nat
  then perr (ParseError 0 ("SessionRequest too short: " +:+ dec_nat (length data) +:+ " bytes"))
  else
    control ← Hpai_parse data;
    key ← slice data Hpai_LENGTH SessionRequest_LENGTH;
    Ok (MkSessionRequest control key).

Definition SessionRequest_serialize (r : SessionRequest) : list Z :=
  Hpai_serialize (sreq_control_endpoint r) ++ sreq_public_key r.

Record SessionResponse := MkSessionResponse {
  sresp_session_id : Z;
  sresp_public_key : list Z;
  sresp_mac : list Z;
}.

Definition SessionResponse_LENGTH : nat := 50.

Definition SessionResponse_parse (data : list Z) : result SessionResponse :=
  if (length data <? SessionResponse_LENGTH)%nat
  then perr (ParseError 0 ("SessionResponse too short: " +:+ dec_nat (length data) +:+ " bytes"))
  else
    i0 ← idx data 0;
    i1 ← idx data 1;
    key ← slice data 2 34;
    mac ← slice data 34 50;
    Ok (MkSessionResponse (from_be16 i0 i1) key mac).

Definition SessionResponse_serialize (r : SessionResponse) : list Z :=
  to_be16 (sresp_session_id r) ++ sresp_public_key r ++ sresp_mac r.

Record SessionAuthenticate := MkSessionAuthenticate { user_id : Z; sauth_mac : list Z }.

Definition SessionAuthenticate_LENGTH : nat := 18.

Definition SessionAuthenticate_parse (data : list Z) : result SessionAuthenticate :=
  if (length data <? SessionAuthenticate_LENGTH)%nat
  then perr (ParseError 0 ("SessionAuthenticate too short: " +:+ dec_nat (length data) +:+ " bytes"))
  else
    u ← idx data 1;
    mac ← slice data 2 18;
    Ok (MkSessionAuthenticate u mac).

Definition SessionAuthenticate_serialize (r : SessionAuthenticate) : list Z :=
  [0x00; user_id r] ++ sauth_mac r.

Record SessionStatus := MkSessionStatus { sstat_status : Z }.

Definition SESSION_STATUS_OK : Z := 0x00.
Definition STATUS_AUTH_FAILED : Z := 0x01.

Definition SessionStatus_parse (data : list Z) : result SessionStatus :=
  if (length data <? 2)%nat
  then perr (ParseError 0 ("SessionStatus too short: " +:+ dec_nat (length data) +:+ " bytes"))
  else s ← idx data 1; Ok (MkSessionStatus s).

Definition SessionStatus_serialize (s : SessionStatus) : list Z := [0x00; sstat_status s].
Definition SessionStatus_is_success (s : SessionStatus) : bool := sstat_status s =? SESSION_STATUS_OK.

(** * Heartbeat and disconnect *)
Record ConnectionstateRequest := MkConnectionstateRequest {
  csreq_channel_id : Z;
  csreq_control_endpoint : Hpai;
}.

Definition ConnectionstateRequest_LENGTH : nat := 10.
Definition ConnectionstateRequest_new (channel : Z) (control : Hpai) : ConnectionstateRequest :=
  MkConnectionstateRequest channel control.

Definition ConnectionstateRequest_parse (data : list Z) : result ConnectionstateRequest :=
  if (length data <? ConnectionstateRequest_LENGTH)%nat
  then perr (ParseError 0
         ("Connectionstate request too short: " +:+ dec_nat (length data) +:+ " bytes"))
  else
    channel ← idx data 0;
    d ← slice_from data 2;
    control ← Hpai_parse d;
    Ok (MkConnectionstateRequest channel control).

Definition ConnectionstateRequest_serialize (r : ConnectionstateRequest) : list Z :=
  [csreq_channel_id r; 0x00] ++ Hpai_serialize (csreq_control_endpoint r).

Record ConnectionstateResponse := MkConnectionstateResponse {
  csresp_channel_id : Z;
  csresp_status : Z;
}.

Definition CONNECTIONSTATE_STATUS_OK : Z := 0x00.
Definition ConnectionstateResponse_new (channel status : Z) : ConnectionstateResponse :=
  MkConnectionstateResponse channel status.

Definition ConnectionstateResponse_parse (data : list Z) : result ConnectionstateResponse :=
  if (length data <? 2)%nat
  then perr (ParseError 0
         ("Connectionstate response too short: " +:+ dec_nat (length data) +:+ " bytes"))
  else
    channel ← idx data 0;
    status ← idx data 1;
    Ok (MkConnectionstateResponse channel status).

Definition ConnectionstateResponse_serialize (r : ConnectionstateResponse) : list Z :=
  [csresp_channel_id r; csresp_status r].
Definition ConnectionstateResponse_is_success (r : ConnectionstateResponse) : bool :=
  csresp_status r =? CONNECTIONSTATE_STATUS_OK.

Record DisconnectRequest := MkDisconnectRequest {
  dreq_channel_id : Z;
  dreq_control_endpoint : Hpai;
}.

Definition DisconnectRequest_LENGTH : nat := 10.
Definition DisconnectRequest_new (channel : Z) (control : Hpai) : DisconnectRequest :=
  MkDisconnectRequest channel control.

Definition DisconnectRequest_parse (data : list Z) : result DisconnectRequest :=
  if (length data <? DisconnectRequest_LENGTH)%nat
  then perr (ParseError 0
         ("Disconnect request too short: " +:+ dec_nat (length data) +:+ " bytes"))
  else
    channel ← idx data 0;
    d ← slice_from data 2;
    control ← Hpai_parse d;
    Ok (MkDisconnectRequest channel control).

Definition DisconnectRequest_serialize (r : DisconnectRequest) : list Z :=
  [dreq_channel_id r; 0x00] ++ Hpai_serialize (dreq_control_endpoint r).

Record DisconnectResponse := MkDisconnectResponse {
  dresp_channel_id : Z;
  dresp_status : Z;
}.

Definition DISCONNECT_STATUS_OK : Z := 0x00.
Definition DisconnectResponse_new (channel status : Z) : DisconnectResponse :=
  MkDisconnectResponse channel status.

Definition DisconnectResponse_parse (data : list Z) : result DisconnectResponse :=
  if (length data <? 2)%nat
  then perr (ParseError 0
         ("Disconnect response too short: " +:+ dec_nat (length data) +:+ " bytes"))
  else
    channel ← idx data 0;
    status ← idx data 1;
    Ok (MkDisconnectResponse channel status).

Definition DisconnectResponse_serialize (r : DisconnectResponse) : list Z :=
  [dresp_channel_id r; dresp_status r].
Definition DisconnectResponse_is_success (r : DisconnectResponse) : bool :=
  dresp_status r =? DISCONNECT_STATUS_OK.

(** * Tunnelling *)
Record TunnellingRequest := MkTunnellingRequest {
  treq_channel_id : Z;
  treq_sequence_counter : Z;
  raw_cemi : list Z;
}.

Definition TUNNELLING_HEADER_LENGTH : nat := 4.
Definition TunnellingRequest_new (channel sequence : Z) (cemi : list Z) : TunnellingRequest :=
  MkTunnellingRequest channel sequence cemi.

Definition TunnellingRequest_parse (data : list Z) : result TunnellingRequest :=
  if (length data <? TUNNELLING_HEADER_LENGTH)%nat
  then perr (ParseError 0
         ("Tunnelling request too short: " +:+ dec_nat (length data) +:+ " bytes"))
  else
    structure_length ← idx data 0;
    if negb (structure_length =? 4)
    then perr (ParseError 0
           ("Invalid tunnelling request header length: " +:+ dec structure_length))
    else
      channel ← idx data 1;
      sequence ← idx data 2;
      cemi ← slice_from data TUNNELLING_HEADER_LENGTH;
      Ok (MkTunnellingRequest channel sequence cemi).

Definition TunnellingRequest_serialize (r : TunnellingRequest) : list Z :=
  [4; treq_channel_id r; treq_sequence_counter r; 0x00] ++ raw_cemi r.

Record TunnellingAck := MkTunnellingAck {
  ack_channel_id : Z;
  ack_sequence_counter : Z;
  ack_status_code : Z;
}.

Definition TUNNELLING_ACK_BODY_LENGTH : nat := 4.
Definition ACK_STATUS_OK : Z := 0x00.
Definition ACK_STATUS_ERROR_SEQUENCE_NUMBER : Z := 0x04.
Definition TunnellingAck_new (channel sequence status : Z) : TunnellingAck :=
  MkTunnellingAck channel sequence status.
Definition TunnellingAck_new_ok (channel sequence : Z) : TunnellingAck :=
  TunnellingAck_new channel sequence ACK_STATUS_OK.
Definition TunnellingAck_new_sequence_error (channel sequence : Z) : TunnellingAck :=
  TunnellingAck_new channel sequence ACK_STATUS_ERROR_SEQUENCE_NUMBER.

Definition TunnellingAck_parse (data : list Z) : result TunnellingAck :=
  if (length data <? TUNNELLING_ACK_BODY_LENGTH)%nat
  then perr (ParseError 0 ("Tunnelling ack too short: " +:+ dec_nat (length data) +:+ " bytes"))
  else
    structure_length ← idx data 0;
    if negb (structure_length =? 4)
    then perr (ParseError 0 ("Invalid tunnelling ack body length: " +:+ dec structure_length))
    else
      channel ← idx data 1;
      sequence ← idx data 2;
      status ← idx data 3;
      Ok (MkTunnellingAck channel sequence status).

Definition TunnellingAck_serialize (a : TunnellingAck) : list Z :=
  [4; ack_channel_id a; ack_sequence_counter a; ack_status_code a].
Definition TunnellingAck_is_success (a : TunnellingAck) : bool := ack_status_code a =? ACK_STATUS_OK.

Definition TunnellingAck_status_description (a : TunnellingAck) : string :=
  let status := ack_status_code a in
  if status =? 0x00 then "OK"
  else if status =? 0x01 then "Host protocol type not supported"
  else if status =? 0x02 then "Version not supported"
  else if status =? 0x04 then "Sequence number error"
  else if status =? 0x21 then "Connection ID error"
  else if status =? 0x22 then "Connection type not supported"
  else if status =? 0x23 then "Connection option not supported"
  else if status =? 0x24 then "No more connections available"
  else "Unknown error".

(** * The contract of a message body *)
Class BodyCodec (A : Type) := {
  body_parse : list Z → result A;
  body_serialize : A → list Z;
  (** The values the wire format can carry. *)
  body_wf : A → Prop;
}.
Class BodyCodecLaws (A : Type) `{BodyCodec A} : Prop := {
  body_parse_total : ∀ data, body_parse data ≠ Panic;
  body_roundtrip : ∀ a, body_wf a → body_parse (body_serialize a) = Ok a;
}.

Definition Hpai_wf (h : Hpai) : Prop := match ip_addr h with V4 _ _ _ _ => True | V6 _ => False end.

(** A rejected connection carries no endpoint and no response data. *)
Definition ConnectResponse_wf (r : ConnectResponse) : Prop :=
  Hpai_wf (cresp_data_endpoint r) ∧
  parse_assigned_address (crd r) = Ok (assigned_address r) ∧
  (cresp_status r ≠ CONNECT_STATUS_OK → cresp_data_endpoint r = Hpai_route_back ∧ crd r = []).

Section hpai.
Implicit Types data rest : list Z.

Lemma Hpai_parse_no_panic data : Hpai_parse data ≠ Panic.
Proof. unfold Hpai_parse, Hpai_LENGTH. no_panic. Qed.
Lemma Hpai_parse_length data h : Hpai_parse data = Ok h → (8 ≤ length data)%nat.
Proof. unfold Hpai_parse, Hpai_LENGTH. destruct (Nat.ltb_spec (length data) 8); [done|lia]. Qed.
Lemma Hpai_parse_serialized h rest : Hpai_wf h → Hpai_parse (Hpai_serialize h ++ rest) = Ok h.
Proof.
  destruct h as [code [a b c d|o] p]; [intros _|done].
  unfold Hpai_parse. rewrite (proj2 (Nat.ltb_ge _ _)) by (unfold Hpai_LENGTH; simpl; lia).
  cbn [Hpai_serialize host_protocol_code ip_addr hpai_port app to_be16 idx lookup list_lookup
       mbind outcome_bind]. by rewrite from_to_be16.
Qed.
Lemma length_Hpai_serialize h : length (Hpai_serialize h) = 8%nat.
Proof. by destruct h as [? [] ?]. Qed.
End hpai.
#[export] Hint Resolve Hpai_parse_no_panic : knx.

Section bodies.
Implicit Types data rest : list Z.

Lemma CRI_parse_no_panic data : ConnectionRequestInfo_parse data ≠ Panic.
Proof. unfold ConnectionRequestInfo_parse, CRI_LENGTH. no_panic. Qed.
#[local] Hint Resolve CRI_parse_no_panic : knx.

Lemma ConnectRequest_parse_no_panic data : ConnectRequest_parse data ≠ Panic.
Proof.
  unfold ConnectRequest_parse, Hpai_LENGTH.
  apply outcome_bind_no_panic; [no_panic|]. unfold slice_from at 1. simpl. intros d0 [= <-].
  apply outcome_bind_no_panic; [no_panic|]. intros c Hc%Hpai_parse_length. rewrite drop_0 in Hc.
  apply outcome_bind_no_panic; [no_panic|]. unfold slice_from at 1.
  rewrite (proj2 (Nat.leb_le _ _)) by lia. intros d1 [= <-].
  apply outcome_bind_no_panic; [no_panic|]. intros d Hd%Hpai_parse_length.
  rewrite length_drop in Hd. no_panic.
Qed.

Lemma ConnectRequest_roundtrip r :
  Hpai_wf (creq_control_endpoint r) → Hpai_wf (creq_data_endpoint r) →
  individual_address (cri r) = None →
  ConnectRequest_parse (ConnectRequest_serialize r) = Ok r.
Proof.
  destruct r as [h1 h2 [ty la re ia]]. simpl. intros Hh1 Hh2 ->.
  unfold ConnectRequest_parse, ConnectRequest_serialize.
  cbn [creq_control_endpoint creq_data_endpoint cri].
  rewrite slice_from_0. cbn [mbind outcome_bind].
  rewrite Hpai_parse_serialized by done. cbn [mbind outcome_bind].
  rewrite (slice_from_app (Hpai_serialize h1) _ Hpai_LENGTH) by by rewrite length_Hpai_serialize.
  cbn [mbind outcome_bind].
  rewrite Hpai_parse_serialized by done. cbn [mbind outcome_bind].
  rewrite app_assoc, slice_from_app by by rewrite length_app, !length_Hpai_serialize.
  done.
Qed.

Lemma parse_assigned_no_panic d : parse_assigned_address d ≠ Panic.
Proof. unfold parse_assigned_address. no_panic. Qed.
#[local] Hint Resolve parse_assigned_no_panic : knx.

Lemma ConnectResponse_parse_no_panic data : ConnectResponse_parse data ≠ Panic.
Proof.
  unfold ConnectResponse_parse, Hpai_LENGTH. no_panic.
Qed.

Lemma ConnectResponse_roundtrip r :
  ConnectResponse_wf r → ConnectResponse_parse (ConnectResponse_serialize r) = Ok r.
Proof.
  destruct r as [ch st h c aa]. unfold ConnectResponse_wf.
  cbn [cresp_data_endpoint crd assigned_address cresp_status]. intros (Hh & Haa & Hrej). unfold ConnectResponse_parse, ConnectResponse_serialize.
  cbn [channel_id cresp_status cresp_data_endpoint crd].
  pose proof (length_Hpai_serialize h) as Hl.
  rewrite (proj2 (Nat.ltb_ge _ _)) by (simpl; lia). cbn [idx lookup list_lookup app mbind outcome_bind].
  destruct (Z.eqb_spec st CONNECT_STATUS_OK) as [->|Hst].
  - rewrite (proj2 (Nat.ltb_lt _ _)) by (simpl; rewrite length_app; lia).
    change (slice_from (ch :: _ :: ?t) 2) with (Ok (E:=KnxError) t). cbn [mbind outcome_bind].
    rewrite Hpai_parse_serialized by done. cbn [mbind outcome_bind].
    destruct (Nat.ltb_spec (2 + Hpai_LENGTH) (length (ch :: CONNECT_STATUS_OK :: Hpai_serialize h ++ c)))
      as [Hlt|Hge].
    + pose proof (slice_from_app (E:=KnxError) (ch :: CONNECT_STATUS_OK :: Hpai_serialize h) c
        (2 + Hpai_LENGTH) ltac:(cbn [length]; by rewrite Hl)) as Hs. cbn [app] in Hs. rewrite Hs.
      cbn [mbind outcome_bind]. by rewrite Haa.
    + cbn [length] in Hge. rewrite length_app, Hl in Hge. unfold Hpai_LENGTH in Hge.
      destruct c; [|cbn [length] in Hge; lia].
      cbn [mbind outcome_bind]. by rewrite Haa.
  - destruct (Hrej Hst) as [-> ->]. cbn [mbind outcome_bind]. by rewrite Haa.
Qed.

Lemma SessionRequest_parse_no_panic data : SessionRequest_parse data ≠ Panic.
Proof. unfold SessionRequest_parse, SessionRequest_LENGTH, Hpai_LENGTH. no_panic. Qed.
Lemma SessionRequest_roundtrip r :
  Hpai_wf (sreq_control_endpoint r) → length (sreq_public_key r) = 32%nat →
  SessionRequest_parse (SessionRequest_serialize r) = Ok r.
Proof.
  destruct r as [h k]. intros Hh Hk. cbn in *|-. unfold SessionRequest_parse, SessionRequest_serialize.
  cbn [sreq_control_endpoint sreq_public_key]. pose proof (length_Hpai_serialize h) as Hl.
  rewrite (proj2 (Nat.ltb_ge _ _)) by (rewrite length_app, Hl, Hk; done).
  rewrite Hpai_parse_serialized by done. cbn [mbind outcome_bind].
  rewrite <-(app_nil_r k) at 1. by rewrite slice_app_at by (rewrite Hl, ?Hk; done).
Qed.

Lemma SessionResponse_parse_no_panic data : SessionResponse_parse data ≠ Panic.
Proof. unfold SessionResponse_parse, SessionResponse_LENGTH. no_panic. Qed.
Lemma SessionResponse_roundtrip r :
  length (sresp_public_key r) = 32%nat → length (sresp_mac r) = 16%nat →
  SessionResponse_parse (SessionResponse_serialize r) = Ok r.
Proof.
  destruct r as [i k m]. intros Hk Hm. cbn in *|-. unfold SessionResponse_parse, SessionResponse_serialize.
  cbn [sresp_session_id sresp_public_key sresp_mac].
  rewrite (proj2 (Nat.ltb_ge _ _)) by (rewrite !length_app, Hk, Hm; done).
  replace (idx (to_be16 i ++ k ++ m) 0) with (Ok (E:=KnxError) (i / 256)) by done.
  replace (idx (to_be16 i ++ k ++ m) 1) with (Ok (E:=KnxError) (i mod 256)) by done.
  cbn [mbind outcome_bind]. rewrite (slice_app_at _ k _ 2 34) by (rewrite ?Hk; done). cbn [mbind outcome_bind].
  rewrite app_assoc. rewrite <-(app_nil_r m) at 1.
  rewrite slice_app_at by (rewrite length_app, ?Hk, ?Hm; done).
  cbn [mbind outcome_bind]. by rewrite from_to_be16.
Qed.

Lemma SessionAuthenticate_parse_no_panic data : SessionAuthenticate_parse data ≠ Panic.
Proof. unfold SessionAuthenticate_parse, SessionAuthenticate_LENGTH. no_panic. Qed.
Lemma SessionAuthenticate_roundtrip r :
  length (sauth_mac r) = 16%nat → SessionAuthenticate_parse (SessionAuthenticate_serialize r) = Ok r.
Proof.
  destruct r as [u m]. intros Hm. cbn in *|-. unfold SessionAuthenticate_parse, SessionAuthenticate_serialize.
  cbn [user_id sauth_mac]. rewrite (proj2 (Nat.ltb_ge _ _)) by (rewrite !length_app, Hm; done).
  replace (idx ([0; u] ++ m) 1) with (Ok (E:=KnxError) u) by done. cbn [mbind outcome_bind].
  rewrite <-(app_nil_r m) at 1. by rewrite slice_app_at by (rewrite ?Hm; done).
Qed.

Lemma SessionStatus_parse_no_panic data : SessionStatus_parse data ≠ Panic.
Proof. unfold SessionStatus_parse. no_panic. Qed.

Lemma ConnectionstateRequest_parse_no_panic data : ConnectionstateRequest_parse data ≠ Panic.
Proof. unfold ConnectionstateRequest_parse, ConnectionstateRequest_LENGTH. no_panic. Qed.
Lemma ConnectionstateRequest_roundtrip r :
  Hpai_wf (csreq_control_endpoint r) →
  ConnectionstateRequest_parse (ConnectionstateRequest_serialize r) = Ok r.
Proof.
  destruct r as [c h]. intros Hh. cbn in *|-.
  unfold ConnectionstateRequest_parse, ConnectionstateRequest_serialize.
  cbn [csreq_channel_id csreq_control_endpoint].
  rewrite (proj2 (Nat.ltb_ge _ _)) by (rewrite length_app, length_Hpai_serialize; done).
  replace (idx ([c; 0] ++ Hpai_serialize h) 0) with (Ok (E:=KnxError) c) by done.
  cbn [mbind outcome_bind]. rewrite slice_from_app by done. cbn [mbind outcome_bind].
  rewrite <-(app_nil_r (Hpai_serialize h)). by rewrite Hpai_parse_serialized.
Qed.

Lemma ConnectionstateResponse_parse_no_panic data : ConnectionstateResponse_parse data ≠ Panic.
Proof. unfold ConnectionstateResponse_parse. no_panic. Qed.

Lemma DisconnectRequest_parse_no_panic data : DisconnectRequest_parse data ≠ Panic.
Proof. unfold DisconnectRequest_parse, DisconnectRequest_LENGTH. no_panic. Qed.
Lemma DisconnectRequest_roundtrip r :
  Hpai_wf (dreq_control_endpoint r) →
  DisconnectRequest_parse (DisconnectRequest_serialize r) = Ok r.
Proof.
  destruct r as [c h]. intros Hh. cbn in *|-.
  unfold DisconnectRequest_parse, DisconnectRequest_serialize.
  cbn [dreq_channel_id dreq_control_endpoint].
  rewrite (proj2 (Nat.ltb_ge _ _)) by (rewrite length_app, length_Hpai_serialize; done).
  replace (idx ([c; 0] ++ Hpai_serialize h) 0) with (Ok (E:=KnxError) c) by done.
  cbn [mbind outcome_bind]. rewrite slice_from_app by done. cbn [mbind outcome_bind].
  rewrite <-(app_nil_r (Hpai_serialize h)). by rewrite Hpai_parse_serialized.
Qed.

Lemma DisconnectResponse_parse_no_panic data : DisconnectResponse_parse data ≠ Panic.
Proof. unfold DisconnectResponse_parse. no_panic. Qed.

Lemma TunnellingRequest_parse_no_panic data : TunnellingRequest_parse data ≠ Panic.
Proof. unfold TunnellingRequest_parse, TUNNELLING_HEADER_LENGTH. no_panic. Qed.
Lemma TunnellingRequest_roundtrip r :
  TunnellingRequest_parse (TunnellingRequest_serialize r) = Ok r.
Proof. destruct r as [c s d]. unfold TunnellingRequest_parse. simpl. by rewrite drop_0. Qed.

Lemma TunnellingAck_parse_no_panic data : TunnellingAck_parse data ≠ Panic.
Proof. unfold TunnellingAck_parse, TUNNELLING_ACK_BODY_LENGTH. no_panic. Qed.
End bodies.
#[export] Hint Resolve ConnectRequest_parse_no_panic ConnectResponse_parse_no_panic
  SessionRequest_parse_no_panic SessionResponse_parse_no_panic
  SessionAuthenticate_parse_no_panic SessionStatus_parse_no_panic
  ConnectionstateRequest_parse_no_panic ConnectionstateResponse_parse_no_panic
  DisconnectRequest_parse_no_panic DisconnectResponse_parse_no_panic
  TunnellingRequest_parse_no_panic TunnellingAck_parse_no_panic : knx.

#[global] Instance ConnectRequest_codec : BodyCodec ConnectRequest := {
  body_parse := ConnectRequest_parse; body_serialize := ConnectRequest_serialize;
  body_wf r := Hpai_wf (creq_control_endpoint r) ∧ Hpai_wf (creq_data_endpoint r) ∧
               individual_address (cri r) = None }.
#[global] Instance ConnectRequest_laws : BodyCodecLaws ConnectRequest.
Proof.
  split; [exact ConnectRequest_parse_no_panic|intros r (?&?&?); by apply ConnectRequest_roundtrip].
Qed.
#[global] Instance ConnectResponse_codec : BodyCodec ConnectResponse := {
  body_parse := ConnectResponse_parse; body_serialize := ConnectResponse_serialize;
  body_wf := ConnectResponse_wf }.
#[global] Instance ConnectResponse_laws : BodyCodecLaws ConnectResponse.
Proof. split; [exact ConnectResponse_parse_no_panic|exact ConnectResponse_roundtrip]. Qed.
#[global] Instance SessionRequest_codec : BodyCodec SessionRequest := {
  body_parse := SessionRequest_parse; body_serialize := SessionRequest_serialize;
  body_wf r := Hpai_wf (sreq_control_endpoint r) ∧ length (sreq_public_key r) = 32%nat }.
#[global] Instance SessionRequest_laws : BodyCodecLaws SessionRequest.
Proof.
  split; [exact SessionRequest_parse_no_panic|intros r [? ?]; by apply SessionRequest_roundtrip].
Qed.
#[global] Instance SessionResponse_codec : BodyCodec SessionResponse := {
  body_parse := SessionResponse_parse; body_serialize := SessionResponse_serialize;
  body_wf r := length (sresp_public_key r) = 32%nat ∧ length (sresp_mac r) = 16%nat }.
#[global] Instance SessionResponse_laws : BodyCodecLaws SessionResponse.
Proof.
  split; [exact SessionResponse_parse_no_panic|intros r [? ?]; by apply SessionResponse_roundtrip].
Qed.
#[global] Instance SessionAuthenticate_codec : BodyCodec SessionAuthenticate := {
  body_parse := SessionAuthenticate_parse; body_serialize := SessionAuthenticate_serialize;
  body_wf r := length (sauth_mac r) = 16%nat }.
#[global] Instance SessionAuthenticate_laws : BodyCodecLaws SessionAuthenticate.
Proof. split; [exact SessionAuthenticate_parse_no_panic|exact SessionAuthenticate_roundtrip]. Qed.
#[global] Instance SessionStatus_codec : BodyCodec SessionStatus := {
  body_parse := SessionStatus_parse; body_serialize := SessionStatus_serialize;
  body_wf _ := True }.
#[global] Instance SessionStatus_laws : BodyCodecLaws SessionStatus.
Proof. split; [exact SessionStatus_parse_no_panic|by intros []]. Qed.
#[global] Instance ConnectionstateRequest_codec : BodyCodec ConnectionstateRequest := {
  body_parse := ConnectionstateRequest_parse; body_serialize := ConnectionstateRequest_serialize;
  body_wf r := Hpai_wf (csreq_control_endpoint r) }.
#[global] Instance ConnectionstateRequest_laws : BodyCodecLaws ConnectionstateRequest.
Proof. split; [exact ConnectionstateRequest_parse_no_panic|exact ConnectionstateRequest_roundtrip]. Qed.
#[global] Instance ConnectionstateResponse_codec : BodyCodec ConnectionstateResponse := {
  body_parse := ConnectionstateResponse_parse; body_serialize := ConnectionstateResponse_serialize;
  body_wf _ := True }.
#[global] Instance ConnectionstateResponse_laws : BodyCodecLaws ConnectionstateResponse.
Proof. split; [exact ConnectionstateResponse_parse_no_panic|by intros []]. Qed.
#[global] Instance DisconnectRequest_codec : BodyCodec DisconnectRequest := {
  body_parse := DisconnectRequest_parse; body_serialize := DisconnectRequest_serialize;
  body_wf r := Hpai_wf (dreq_control_endpoint r) }.
#[global] Instance DisconnectRequest_laws : BodyCodecLaws DisconnectRequest.
Proof. split; [exact DisconnectRequest_parse_no_panic|exact DisconnectRequest_roundtrip]. Qed.
#[global] Instance DisconnectResponse_codec : BodyCodec DisconnectResponse := {
  body_parse := DisconnectResponse_parse; body_serialize := DisconnectResponse_serialize;
  body_wf _ := True }.
#[global] Instance DisconnectResponse_laws : BodyCodecLaws DisconnectResponse.
Proof. split; [exact DisconnectResponse_parse_no_panic|by intros []]. Qed.
#[global] Instance TunnellingRequest_codec : BodyCodec TunnellingRequest := {
  body_parse := TunnellingRequest_parse; body_serialize := TunnellingRequest_serialize;
  body_wf _ := True }.
#[global] Instance TunnellingRequest_laws : BodyCodecLaws TunnellingRequest.
Proof. split; [exact TunnellingRequest_parse_no_panic|intros r _; apply TunnellingRequest_roundtrip]. Qed.
#[global] Instance TunnellingAck_codec : BodyCodec TunnellingAck := {
  body_parse := TunnellingAck_parse; body_serialize := TunnellingAck_serialize;
  body_wf _ := True }.
#[global] Instance TunnellingAck_laws : BodyCodecLaws TunnellingAck.
Proof. split; [exact TunnellingAck_parse_no_panic|by intros []]. Qed.

(** * Messages

    The twelve kinds of body with the service each travels under; as bytes, and
    as the receiver of a service parses them. *)
Inductive message :=
| MessageConnectRequest (r : ConnectRequest)
| MessageConnectResponse (r : ConnectResponse)
| MessageSessionRequest (r : SessionRequest)
| MessageSessionResponse (r : SessionResponse)
| MessageSessionAuthenticate (r : SessionAuthenticate)
| MessageSessionStatus (r : SessionStatus)
| MessageConnectionstateRequest (r : ConnectionstateRequest)
| MessageConnectionstateResponse (r : ConnectionstateResponse)
| MessageDisconnectRequest (r : DisconnectRequest)
| MessageDisconnectResponse (r : DisconnectResponse)
| MessageTunnellingRequest (r : TunnellingRequest)
| MessageTunnellingAck (r : TunnellingAck).
Definition message_service (m : message) : ServiceType.ServiceType :=
  match m with
  | MessageConnectRequest _ => ServiceType.ConnectRequest
  | MessageConnectResponse _ => ServiceType.ConnectResponse
  | MessageSessionRequest _ => ServiceType.SessionRequest
  | MessageSessionResponse _ => ServiceType.SessionResponse
  | MessageSessionAuthenticate _ => ServiceType.SessionAuthenticate
  | MessageSessionStatus _ => ServiceType.SessionStatus
  | MessageConnectionstateRequest _ => ServiceType.ConnectionstateRequest
  | MessageConnectionstateResponse _ => ServiceType.ConnectionstateResponse
  | MessageDisconnectRequest _ => ServiceType.DisconnectRequest
  | MessageDisconnectResponse _ => ServiceType.DisconnectResponse
  | MessageTunnellingRequest _ => ServiceType.TunnellingRequest
  | MessageTunnellingAck _ => ServiceType.TunnellingAck
  end.
Definition message_serialize (m : message) : list Z :=
  match m with
  | MessageConnectRequest r => ConnectRequest_serialize r
  | MessageConnectResponse r => ConnectResponse_serialize r
  | MessageSessionRequest r => SessionRequest_serialize r
  | MessageSessionResponse r => SessionResponse_serialize r
  | MessageSessionAuthenticate r => SessionAuthenticate_serialize r
  | MessageSessionStatus r => SessionStatus_serialize r
  | MessageConnectionstateRequest r => ConnectionstateRequest_serialize r
  | MessageConnectionstateResponse r => ConnectionstateResponse_serialize r
  | MessageDisconnectRequest r => DisconnectRequest_serialize r
  | MessageDisconnectResponse r => DisconnectResponse_serialize r
  | MessageTunnellingRequest r => TunnellingRequest_serialize r
  | MessageTunnellingAck r => TunnellingAck_serialize r
  end.
Definition message_parse (s : ServiceType.ServiceType) (data : list Z) : option (result message) :=
  match s with
  | ServiceType.ConnectRequest => Some (r ← ConnectRequest_parse data; Ok (MessageConnectRequest r))
  | ServiceType.ConnectResponse => Some (r ← ConnectResponse_parse data; Ok (MessageConnectResponse r))
  | ServiceType.SessionRequest => Some (r ← SessionRequest_parse data; Ok (MessageSessionRequest r))
  | ServiceType.SessionResponse => Some (r ← SessionResponse_parse data; Ok (MessageSessionResponse r))
  | ServiceType.SessionAuthenticate => Some (r ← SessionAuthenticate_parse data; Ok (MessageSessionAuthenticate r))
  | ServiceType.SessionStatus => Some (r ← SessionStatus_parse data; Ok (MessageSessionStatus r))
  | ServiceType.ConnectionstateRequest => Some (r ← ConnectionstateRequest_parse data; Ok (MessageConnectionstateRequest r))
  | ServiceType.ConnectionstateResponse => Some (r ← ConnectionstateResponse_parse data; Ok (MessageConnectionstateResponse r))
  | ServiceType.DisconnectRequest => Some (r ← DisconnectRequest_parse data; Ok (MessageDisconnectRequest r))
  | ServiceType.DisconnectResponse => Some (r ← DisconnectResponse_parse data; Ok (MessageDisconnectResponse r))
  | ServiceType.TunnellingRequest => Some (r ← TunnellingRequest_parse data; Ok (MessageTunnellingRequest r))
  | ServiceType.TunnellingAck => Some (r ← TunnellingAck_parse data; Ok (MessageTunnellingAck r))
  | _ => None
  end.
(** What the wire formats can carry: IPv4 endpoints, no request for an individual
    address, keys and codes of their lengths, and for a connect response its
    [ConnectResponse_wf]. *)
Definition message_wf (m : message) : Prop :=
  match m with
  | MessageConnectRequest r => Hpai_wf (creq_control_endpoint r) ∧ Hpai_wf (creq_data_endpoint r) ∧ individual_address (cri r) = None
  | MessageConnectResponse r => ConnectResponse_wf r
  | MessageSessionRequest r => Hpai_wf (sreq_control_endpoint r) ∧ length (sreq_public_key r) = 32%nat
  | MessageSessionResponse r => length (sresp_public_key r) = 32%nat ∧ length (sresp_mac r) = 16%nat
  | MessageSessionAuthenticate r => length (sauth_mac r) = 16%nat
  | MessageConnectionstateRequest r => Hpai_wf (csreq_control_endpoint r)
  | MessageDisconnectRequest r => Hpai_wf (dreq_control_endpoint r)
  | MessageSessionStatus _ | MessageConnectionstateResponse _ | MessageDisconnectResponse _
  | MessageTunnellingRequest _ | MessageTunnellingAck _ => True
  end.
Lemma message_roundtrip m : message_wf m → message_parse (message_service m) (message_serialize m) = Some (Ok m).
Proof.
  assert (∀ {A} `{BodyCodecLaws A} (c : A → message) a, body_wf a → (r ← body_parse (body_serialize a); Ok (c r)) = Ok (E:=KnxError) (c a)) as Hr.
  { intros A ? ? c a Ha. by rewrite body_roundtrip. }
  destruct m as [r|r|r|r|r|r|r|r|r|r|r|r]; cbn [message_wf message_parse message_service message_serialize]; intros Hm; f_equal.
  - by apply (Hr ConnectRequest ConnectRequest_codec ConnectRequest_laws MessageConnectRequest r).
  - by apply (Hr ConnectResponse ConnectResponse_codec ConnectResponse_laws MessageConnectResponse r).
  - by apply (Hr SessionRequest SessionRequest_codec SessionRequest_laws MessageSessionRequest r).
  - by apply (Hr SessionResponse SessionResponse_codec SessionResponse_laws MessageSessionResponse r).
  - by apply (Hr SessionAuthenticate SessionAuthenticate_codec SessionAuthenticate_laws MessageSessionAuthenticate r).
  - by apply (Hr SessionStatus SessionStatus_codec SessionStatus_laws MessageSessionStatus r).
  - by apply (Hr ConnectionstateRequest ConnectionstateRequest_codec ConnectionstateRequest_laws MessageConnectionstateRequest r).
  - by apply (Hr ConnectionstateResponse ConnectionstateResponse_codec ConnectionstateResponse_laws MessageConnectionstateResponse r).
  - by apply (Hr DisconnectRequest DisconnectRequest_codec DisconnectRequest_laws MessageDisconnectRequest r).
  - by apply (Hr DisconnectResponse DisconnectResponse_codec DisconnectResponse_laws MessageDisconnectResponse r).
  - by apply (Hr TunnellingRequest TunnellingRequest_codec TunnellingRequest_laws MessageTunnellingRequest r).
  - by apply (Hr TunnellingAck TunnellingAck_codec TunnellingAck_laws MessageTunnellingAck r).
Qed.
Lemma message_parse_total s data : message_parse s data ≠ Some Panic.
Proof.
  assert (∀ {A} `{BodyCodecLaws A} (c : A → message), (r ← body_parse data; Ok (c r)) ≠ Panic) as Hr.
  { intros A ? ? c. pose proof (body_parse_total data). by destruct (body_parse data). }
  destruct s; cbn [message_parse]; try done; intros [= E]; revert E.
  - apply (Hr ConnectRequest ConnectRequest_codec ConnectRequest_laws MessageConnectRequest).
  - apply (Hr ConnectResponse ConnectResponse_codec ConnectResponse_laws MessageConnectResponse).
  - apply (Hr ConnectionstateRequest ConnectionstateRequest_codec ConnectionstateRequest_laws MessageConnectionstateRequest).
  - apply (Hr ConnectionstateResponse ConnectionstateResponse_codec ConnectionstateResponse_laws MessageConnectionstateResponse).
  - apply (Hr DisconnectRequest DisconnectRequest_codec DisconnectRequest_laws MessageDisconnectRequest).
  - apply (Hr DisconnectResponse DisconnectResponse_codec DisconnectResponse_laws MessageDisconnectResponse).
  - apply (Hr TunnellingRequest TunnellingRequest_codec TunnellingRequest_laws MessageTunnellingRequest).
  - apply (Hr TunnellingAck TunnellingAck_codec TunnellingAck_laws MessageTunnellingAck).
  - apply (Hr SessionRequest SessionRequest_codec SessionRequest_laws MessageSessionRequest).
  - apply (Hr SessionResponse SessionResponse_codec SessionResponse_laws MessageSessionResponse).
  - apply (Hr SessionAuthenticate SessionAuthenticate_codec SessionAuthenticate_laws MessageSessionAuthenticate).
  - apply (Hr SessionStatus SessionStatus_codec SessionStatus_laws MessageSessionStatus).
Qed.
(** The extended form of a connect request. *)
Lemma extended_cri_refused (r : ConnectRequest) (a : IndividualAddress) :
  Hpai_wf (creq_control_endpoint r) → Hpai_wf (creq_data_endpoint r) →
  individual_address (cri r) = Some a →
  ConnectRequest_parse (ConnectRequest_serialize r) =
    perr (ParseError 0 "Invalid CRI length: 6").
Proof.
  destruct r as [h1 h2 [ty la re ia]]. intros Hh1 Hh2 Hia. cbn in Hh1, Hh2, Hia. subst ia.
  unfold ConnectRequest_parse, ConnectRequest_serialize.
  cbn [creq_control_endpoint creq_data_endpoint cri].
  rewrite slice_from_0. cbn [mbind outcome_bind].
  rewrite Hpai_parse_serialized by done. cbn [mbind outcome_bind].
  rewrite (slice_from_app (Hpai_serialize h1) _ Hpai_LENGTH) by by rewrite length_Hpai_serialize.
  cbn [mbind outcome_bind]. rewrite Hpai_parse_serialized by done. cbn [mbind outcome_bind].
  rewrite app_assoc, slice_from_app by by rewrite length_app, !length_Hpai_serialize.
  done.
Qed.

(** * Header and frame *)
Section frames.
Implicit Types data rest : list Z.

Lemma ServiceType_roundtrip s : ServiceType_from_u16 (ServiceType_as_u16 s) = Some s.
Proof. by destruct s. Qed.
Lemma ServiceType_from_u16_Some v s : ServiceType_from_u16 v = Some s → v = ServiceType_as_u16 s.
Proof.
  unfold ServiceType_from_u16.
  repeat match goal with
  | |- (if v =? ?k then _ else _) = _ → _ =>
      destruct (Z.eqb_spec v k) as [->|_]; [intros [= <-]; reflexivity|]
  end. done.
Qed.

Lemma KnxIpHeader_parse_no_panic data : KnxIpHeader_parse data ≠ Panic.
Proof. unfold KnxIpHeader_parse, KnxIpHeader_LENGTH. no_panic. by case_match. Qed.

Lemma KnxIpHeader_parse_serialized h rest :
  header_length h = 6 → protocol_version h = 0x10 →
  KnxIpHeader_parse (KnxIpHeader_serialize h ++ rest) = Ok h.
Proof.
  destruct h as [hl v s t]. intros Hhl Hv. cbn in Hhl, Hv. subst. unfold KnxIpHeader_parse.
  rewrite (proj2 (Nat.ltb_ge _ _)) by (unfold KnxIpHeader_LENGTH; simpl; lia).
  cbn [KnxIpHeader_serialize header_length protocol_version service_type total_length app to_be16
       idx lookup list_lookup mbind outcome_bind].
  rewrite !from_to_be16. cbn [negb Z.eqb Pos.eqb]. by rewrite ServiceType_roundtrip.
Qed.

(** What the header parser accepts is what it would have written. *)
Lemma KnxIpHeader_parse_inv data h :
  bytes_ok data → KnxIpHeader_parse data = Ok h →
  (6 ≤ length data)%nat ∧ header_length h = 6 ∧ protocol_version h = 0x10 ∧
  u16_ok (total_length h) ∧ data = KnxIpHeader_serialize h ++ drop 6 data.
Proof.
  intros Hb. unfold KnxIpHeader_parse, KnxIpHeader_LENGTH.
  destruct (Nat.ltb_spec (length data) 6) as [|Hl]; [done|].
  destruct data as [|a0 [|a1 [|a2 [|a3 [|a4 [|a5 tl]]]]]]; try (simpl in Hl; lia).
  cbn [idx lookup list_lookup mbind outcome_bind].
  destruct (Z.eqb_spec a0 6) as [->|]; [|done]. destruct (Z.eqb_spec a1 0x10) as [->|]; [|done].
  cbn [negb]. destruct (ServiceType_from_u16 _) as [s|] eqn:Es; [|done].
  intros [= <-]. apply ServiceType_from_u16_Some in Es.
  unfold bytes_ok in Hb. rewrite !Forall_cons in Hb. destruct Hb as (_ & _ & ? & ? & ? & ? & _).
  split_and!; [lia|done|done|by apply from_be16_ok|].
  unfold KnxIpHeader_serialize. cbn [header_length protocol_version service_type total_length].
  rewrite <-Es, !to_from_be16 by done. done.
Qed.

Lemma KnxIpFrame_new_Ok `{Profile} s b :
  Z.of_nat (length b) ≤ 65529 →
  KnxIpFrame_new s b = Ok (MkKnxIpFrame (MkKnxIpHeader 6 0x10 s (6 + Z.of_nat (length b))) b).
Proof.
  intros Hb. unfold KnxIpFrame_new, KnxIpHeader_new, add16. rewrite len_u16_small by lia.
  by rewrite (proj2 (Z.leb_gt _ _)) by lia.
Qed.

Lemma KnxIpFrame_parse_serialized s b rest :
  Z.of_nat (length b) ≤ 65529 →
  KnxIpFrame_parse (KnxIpFrame_serialize
    (MkKnxIpFrame (MkKnxIpHeader 6 0x10 s (6 + Z.of_nat (length b))) b) ++ rest) =
  Ok (MkKnxIpFrame (MkKnxIpHeader 6 0x10 s (6 + Z.of_nat (length b))) b).
Proof.
  intros Hb. unfold KnxIpFrame_parse, KnxIpFrame_serialize. cbn [header body].
  rewrite <-app_assoc, KnxIpHeader_parse_serialized by done.
  cbn [mbind outcome_bind total_length]. unfold usize.
  rewrite (proj2 (Nat.ltb_ge _ _)) by (rewrite !length_app; simpl; lia).
  by rewrite slice_app_at by (simpl; unfold KnxIpHeader_LENGTH; lia).
Qed.

(** A declared length below the header's own makes the body slice panic. *)
Lemma short_length_panics data h :
  bytes_ok data → KnxIpHeader_parse data = Ok h → total_length h < 6 →
  KnxIpFrame_parse data = Panic.
Proof.
  intros Hb Eh Hlt. unfold KnxIpFrame_parse. rewrite Eh.
  apply KnxIpHeader_parse_inv in Eh as (Hl & _ & _ & Ht & _); [|done].
  cbn [mbind outcome_bind]. unfold usize, slice, KnxIpHeader_LENGTH, u16_ok in *.
  rewrite (proj2 (Nat.ltb_ge _ _)) by lia. by rewrite (proj2 (Nat.leb_gt _ _)) by lia.
Qed.
End frames.

Section properties.
Context `{Profile}.

(** A frame built around a body of at most 65529 bytes is delivered: the
    receiver's parser, given its bytes followed by anything, returns exactly
    that frame. *)
Theorem knxip_frame_roundtrip (s : ServiceType.ServiceType) (b rest : list Z) :
  Z.of_nat (length b) ≤ 65529 →
  ∃ f, KnxIpFrame_new s b = Ok f ∧ service_type (header f) = s ∧ body f = b ∧
    KnxIpFrame_parse (KnxIpFrame_serialize f ++ rest) = Ok f.
Proof.
  intros Hb. eexists. split; [by apply KnxIpFrame_new_Ok|]. split_and!; [done..|].
  by apply KnxIpFrame_parse_serialized.
Qed.

(** Whatever frame the parser returns, its serialization is exactly the
    prefix of the input the frame declared: nothing is lost or invented. *)
Theorem knxip_frame_parse_exact (data : list Z) (f : KnxIpFrame) :
  bytes_ok data → KnxIpFrame_parse data = Ok f →
  data = KnxIpFrame_serialize f ++ drop (usize (total_length (header f))) data ∧
  total_length (header f) = 6 + Z.of_nat (length (body f)).
Proof.
  intros Hb. unfold KnxIpFrame_parse. intros (h & Hh & HP)%outcome_bind_Ok.
  destruct (Nat.ltb_spec (length data) (usize (total_length h))); [done|].
  apply outcome_bind_Ok in HP as (b & Hs%slice_Ok & [= <-]). destruct Hs as [Hle ->].
  apply KnxIpHeader_parse_inv in Hh as (Hl & _ & _ & Ht & Hd); [|done].
  unfold usize, KnxIpHeader_LENGTH, u16_ok in *. cbn [header body total_length].
  split; [|rewrite length_take, length_drop; lia].
  unfold KnxIpFrame_serialize. cbn [header body]. rewrite Hd at 1. rewrite <-app_assoc. f_equal.
  rewrite <-(take_drop (Z.to_nat (total_length h) - 6) (drop 6 data)) at 1.
  rewrite drop_drop. f_equal. f_equal. lia.
Qed.

(** The only input on which the frame parser panics is a valid header whose
    declared total length is below the header's own 6 bytes; every other input
    yields a frame or an error. *)
Theorem knxip_frame_parse_panics_iff (data : list Z) :
  bytes_ok data →
  KnxIpFrame_parse data = Panic ↔ ∃ h, KnxIpHeader_parse data = Ok h ∧ total_length h < 6.
Proof.
  intros Hb. unfold KnxIpFrame_parse. pose proof (KnxIpHeader_parse_no_panic data) as Hnp.
  destruct (KnxIpHeader_parse data) as [h|e|] eqn:Eh; [|naive_solver..].
  apply KnxIpHeader_parse_inv in Eh as (Hl & _ & _ & Ht & _); [|done].
  cbn [mbind outcome_bind]. unfold usize, slice, KnxIpHeader_LENGTH, u16_ok in *.
  destruct (Nat.ltb_spec (length data) (Z.to_nat (total_length h))).
  - split; [done|]. intros (? & [= <-] & ?). lia.
  - destruct (Nat.leb_spec 6 (Z.to_nat (total_length h))) as [Hle|Hlt]; cbn [andb].
    + rewrite (proj2 (Nat.leb_le _ _)) by lia. split; [done|]. intros (? & [= <-] & ?). lia.
    + cbn. split; [|done]. intros _. exists h. split; [done|lia].
Qed.

(** A body of 65530 to 65535 bytes overflows the 16-bit length: a debug
    build panics in [KnxIpHeader::new], a release build emits a frame whose
    total length wrapped below 6, on which the receiver's parser panics. *)
Theorem knxip_frame_new_overflow (s : ServiceType.ServiceType) (b rest : list Z) :
  65530 ≤ Z.of_nat (length b) ≤ 65535 →
  if debug_build then KnxIpFrame_new s b = Panic
  else ∃ f, KnxIpFrame_new s b = Ok f ∧ total_length (header f) = Z.of_nat (length b) - 65530 ∧
       KnxIpFrame_parse (KnxIpFrame_serialize f ++ rest) = Panic.
Proof.
  intros Hb. unfold KnxIpFrame_new, KnxIpHeader_new, add16. rewrite len_u16_small by lia.
  rewrite (proj2 (Z.leb_le _ _)) by lia. destruct debug_build; [done|].
  cbn [mbind outcome_bind]. unfold as_u16.
  replace ((6 + Z.of_nat (length b)) mod 65536) with (Z.of_nat (length b) - 65530) by zlia.
  eexists. split_and!; [done..|]. unfold KnxIpFrame_parse, KnxIpFrame_serialize. cbn [header body].
  rewrite <-app_assoc, KnxIpHeader_parse_serialized by done. cbn [mbind outcome_bind total_length].
  unfold usize, slice, KnxIpHeader_LENGTH. rewrite !length_app.
  rewrite (proj2 (Nat.ltb_ge _ _)) by (simpl; lia). by rewrite (proj2 (Nat.leb_gt _ _)) by lia.
Qed.


(** No body parser panics, whatever bytes a peer sends in a frame body. *)
Theorem knxip_bodies_parse_total (data : list Z) :
  Hpai_parse data ≠ Panic ∧ ConnectRequest_parse data ≠ Panic ∧
  ConnectResponse_parse data ≠ Panic ∧ SessionRequest_parse data ≠ Panic ∧
  SessionResponse_parse data ≠ Panic ∧ SessionAuthenticate_parse data ≠ Panic ∧
  SessionStatus_parse data ≠ Panic ∧ ConnectionstateRequest_parse data ≠ Panic ∧
  ConnectionstateResponse_parse data ≠ Panic ∧ DisconnectRequest_parse data ≠ Panic ∧
  DisconnectResponse_parse data ≠ Panic ∧ TunnellingRequest_parse data ≠ Panic ∧
  TunnellingAck_parse data ≠ Panic.
Proof. split_and!; auto with knx. Qed.
End properties.

(** * Witnesses *)
Section witnesses.
#[local] Instance release : Profile := {| debug_build := false |}.

Lemma knxip_frame_roundtrip_witness :
  ∃ f, KnxIpFrame_new ServiceType.TunnellingAck [4; 1; 0; 0] = Ok f ∧
    service_type (header f) = ServiceType.TunnellingAck ∧ body f = [4; 1; 0; 0] ∧
    KnxIpFrame_parse (KnxIpFrame_serialize f ++ [0xAA]) = Ok f.
Proof. apply knxip_frame_roundtrip. simpl. lia. Defined.

Lemma knxip_frame_parse_exact_witness :
  let f := MkKnxIpFrame (MkKnxIpHeader 6 0x10 ServiceType.DisconnectResponse 8) [1; 0] in
  [6; 0x10; 2; 0x0A; 0; 8; 1; 0; 9] =
    KnxIpFrame_serialize f ++ drop (usize (total_length (header f))) [6; 0x10; 2; 0x0A; 0; 8; 1; 0; 9] ∧
  total_length (header f) = 6 + Z.of_nat (length (body f)).
Proof.
  apply knxip_frame_parse_exact; [|reflexivity].
  by apply (bool_decide_unpack (bytes_ok _)).
Defined.

Lemma knxip_frame_parse_panics_iff_witness :
  KnxIpFrame_parse [6; 0x10; 4; 0x20; 0; 0] = Panic.
Proof.
  apply knxip_frame_parse_panics_iff; [by apply (bool_decide_unpack (bytes_ok _))|].
  eexists. split; [reflexivity|]. vm_compute. reflexivity.
Defined.

Lemma knxip_frame_new_overflow_witness :
  if debug_build then
    KnxIpFrame_new ServiceType.TunnellingRequest (replicate (Z.to_nat 65530) 0) = Panic
  else ∃ f, KnxIpFrame_new ServiceType.TunnellingRequest (replicate (Z.to_nat 65530) 0) = Ok f ∧
       total_length (header f) = Z.of_nat (length (replicate (Z.to_nat 65530) 0)) - 65530 ∧
       KnxIpFrame_parse (KnxIpFrame_serialize f ++ []) = Panic.
Proof. apply knxip_frame_new_overflow. rewrite length_replicate. lia. Defined.

End witnesses.
