(* ===== verification/Crypto.v ===== *)
(** Cryptographic primitives of KNX Secure ([src/src/security/primitives.rs]).
    The block cipher, the key stream of counter mode, the hash, the password
    derivation and the Diffie-Hellman function come from external crates: they
    are the operations of the class [CryptoOps], and what the sources rely on
    are the laws of [CryptoLaws].  A password is the list of its UTF-8 bytes. *)
From S2P Require Import Prelude Errors.

(** What the crates [aes], [ctr], [sha2], [pbkdf2] and [x25519_dalek] compute:
    one block under a key; the byte at a position of the stream for a key and an
    initial counter; a digest; a 16-byte key from password, salt and number of
    rounds; the public key of a secret, and the shared secret. *)
Class CryptoOps := {
  aes_block : list Z → list Z → list Z;
  ctr_byte : list Z → list Z → nat → Z;
  sha256 : list Z → list Z;
  pbkdf2 : list Z → list Z → Z → list Z;
  x25519_public : list Z → list Z;
  x25519_shared : list Z → list Z → list Z;
}.
Class CryptoLaws `{CryptoOps} := {
  aes_block_length : ∀ key b, length b = 16%nat → length (aes_block key b) = 16%nat;
  sha256_length : ∀ m, length (sha256 m) = 32%nat;
  pbkdf2_length : ∀ p salt n, length (pbkdf2 p salt n) = 16%nat;
  x25519_public_length : ∀ a, length (x25519_public a) = 32%nat;
  x25519_agree : ∀ a b, x25519_shared a (x25519_public b) = x25519_shared b (x25519_public a);
}.

Abbreviation serr e := (Err (Security e)).

(** The bytes of an ASCII literal. *)
Fixpoint ascii_bytes (s : string) : list Z :=
  match s with
  | EmptyString => []
  | String c s => Z.of_nat (nat_of_ascii c) :: ascii_bytes s
  end.
Definition DEVICE_AUTH_SALT : list Z := ascii_bytes "device-authentication-code.1.secure.ip.knx.org".
Definition USER_PASSWORD_SALT : list Z := ascii_bytes "user-password.1.secure.ip.knx.org".
Definition PBKDF2_ITERATIONS : Z := 65536.
Definition KEY_LENGTH : nat := 16.

Definition byte_pad (data : list Z) (block_size : nat) : list Z :=
  let remainder := (length data mod block_size)%nat in
  if (remainder =? 0)%nat then data
  else data ++ replicate (block_size - remainder) 0.

Definition bytes_xor (a b : list Z) : result (list Z) :=
  if negb (length a =? length b)%nat
  then serr (CryptographicError "XOR"
         ("Length mismatch: " +:+ dec_nat (length a) +:+ " vs " +:+ dec_nat (length b)))
  else Ok (zip_with Z.lxor a b).

(** [slice::chunks]; the length is fuel enough for any positive chunk size. *)
Fixpoint chunks_fuel (fuel n : nat) (l : list Z) : list (list Z) :=
  match fuel, l with
  | S fuel, _ :: _ => take n l :: chunks_fuel fuel n (drop n l)
  | _, _ => []
  end.
Definition chunks (n : nat) (l : list Z) : list (list Z) := chunks_fuel (length l) n l.

(** [y[i] ^= byte] over the bytes of a chunk. *)
Fixpoint xor_into (y chunk : list Z) : list Z :=
  match y, chunk with
  | a :: y, b :: chunk => Z.lxor a b :: xor_into y chunk
  | y, _ => y
  end.

Section primitives.
Context {crypto : CryptoOps}.

Definition sha256_hash (data : list Z) : list Z := sha256 data.

Definition calculate_mac_cbc (key additional_data payload block_0 : list Z) : result (list Z) :=
  if negb (length key =? KEY_LENGTH)%nat
  then serr (InvalidCredentials ("Key must be " +:+ dec_nat KEY_LENGTH +:+ " bytes, got "
         +:+ dec_nat (length key)))
  else if negb (length block_0 =? 16)%nat
  then serr (CryptographicError "MAC calculation"
         ("Block 0 must be 16 bytes, got " +:+ dec_nat (length block_0)))
  else
    let ad_len := to_be16 (len_u16 additional_data) in
    let padded := byte_pad (block_0 ++ ad_len ++ additional_data ++ payload) 16 in
    Ok (foldl (λ y chunk, aes_block key (xor_into y chunk)) (replicate 16 0) (chunks 16 padded)).

(** [apply_keystream] on a cipher that has produced [pos] bytes already. *)
Definition apply_keystream (key counter_0 : list Z) (pos : nat) (data : list Z) : list Z :=
  imap (λ i b, Z.lxor b (ctr_byte key counter_0 (pos + i))) data.

(** [encrypt_ctr] and [decrypt_ctr] differ in the operation their errors name. *)
Definition ctr_both (operation : string) (key counter_0 mac payload : list Z)
    : result (list Z * list Z) :=
  if negb (length key =? KEY_LENGTH)%nat
  then serr (InvalidCredentials ("Key must be " +:+ dec_nat KEY_LENGTH +:+ " bytes, got "
         +:+ dec_nat (length key)))
  else if negb (length counter_0 =? 16)%nat
  then serr (CryptographicError operation
         ("Counter must be 16 bytes, got " +:+ dec_nat (length counter_0)))
  else Ok (apply_keystream key counter_0 (length mac) payload, apply_keystream key counter_0 0 mac).
Definition decrypt_ctr := ctr_both "CTR decryption".
Definition encrypt_ctr := ctr_both "CTR encryption".

Definition derive_device_authentication_password (password : list Z) : list Z :=
  pbkdf2 password DEVICE_AUTH_SALT PBKDF2_ITERATIONS.
Definition derive_user_password (password : list Z) : list Z :=
  pbkdf2 password USER_PASSWORD_SALT PBKDF2_ITERATIONS.

Record EcdhKeyPair := MkEcdhKeyPair { private_key : list Z; public_key : list Z }.
(** [generate] draws the secret; the model is given it. *)
Definition EcdhKeyPair_generate (random : list Z) : EcdhKeyPair :=
  MkEcdhKeyPair random (x25519_public random).
Definition EcdhKeyPair_exchange (k : EcdhKeyPair) (peer_public_key : list Z) : list Z :=
  x25519_shared (private_key k) peer_public_key.
End primitives.

(** * Lemmas *)
Section primitive_lemmas.
Context {crypto : CryptoOps} {laws : CryptoLaws}.

Lemma chunks_fuel_concat fuel n l :
  (0 < n)%nat → (length l ≤ fuel)%nat → concat (chunks_fuel fuel n l) = l.
Proof.
  intros Hn. revert l. induction fuel as [|fuel IH]; intros [|b l] Hl; cbn in *; [done|lia|done|].
  rewrite IH; [apply take_drop|]. rewrite length_drop. cbn. lia.
Qed.
(** The chunks are the data, none longer than the chunk size. *)
Lemma chunks_concat n l : (0 < n)%nat → concat (chunks n l) = l.
Proof. intros Hn. by apply chunks_fuel_concat. Qed.
Lemma chunks_fuel_le fuel n l : Forall (λ c, length c ≤ n)%nat (chunks_fuel fuel n l).
Proof.
  revert l. induction fuel as [|fuel IH]; intros [|b l]; cbn; constructor; [|apply IH].
  rewrite length_take. lia.
Qed.
Lemma byte_pad_length data n : (0 < n)%nat → (length (byte_pad data n) mod n = 0)%nat.
Proof.
  intros Hn. unfold byte_pad. pose proof (Nat.mod_upper_bound (length data) n).
  destruct (Nat.eqb_spec (length data mod n) 0) as [E|E]; [done|].
  rewrite length_app, length_replicate, (Nat.div_mod_eq (length data) n) at 1.
  replace (n * (length data / n) + length data mod n + (n - length data mod n))%nat
    with (n * (length data / n) + n)%nat by lia.
  rewrite (Nat.mul_comm n), Nat.add_comm, Nat.Div0.mod_add. apply Nat.Div0.mod_same.
Qed.

Lemma length_xor_into y c : length (xor_into y c) = length y.
Proof. revert c. induction y as [|a y IH]; intros [|b c]; cbn; auto. Qed.
Lemma cbc_length key y cs :
  length y = 16%nat → length (foldl (λ y chunk, aes_block key (xor_into y chunk)) y cs) = 16%nat.
Proof.
  revert y. induction cs as [|c cs IH]; intros y Hy; cbn; [done|].
  apply IH, aes_block_length. by rewrite length_xor_into.
Qed.
Lemma mac_Ok key ad p b0 : length key = 16%nat → length b0 = 16%nat →
  ∃ mac, calculate_mac_cbc key ad p b0 = Ok mac ∧ length mac = 16%nat.
Proof.
  intros Hk Hb. unfold calculate_mac_cbc, KEY_LENGTH. rewrite Hk, Hb. cbn [Nat.eqb negb].
  eexists. split; [done|]. by apply cbc_length.
Qed.

Lemma length_apply_keystream key c pos data : length (apply_keystream key c pos data) = length data.
Proof. apply length_imap. Qed.
(** The key stream undoes itself. *)
Lemma apply_keystream_twice key c pos data :
  apply_keystream key c pos (apply_keystream key c pos data) = data.
Proof.
  apply list_eq. intros i. unfold apply_keystream. rewrite !list_lookup_imap.
  destruct (data !! i); cbn; [|done]. by rewrite Z.lxor_assoc, Z.lxor_nilpotent, Z.lxor_0_r.
Qed.
Lemma take_apply_keystream key c pos n data :
  take n (apply_keystream key c pos data) = apply_keystream key c pos (take n data).
Proof.
  apply list_eq. intros i. unfold apply_keystream. rewrite list_lookup_imap.
  destruct (decide (i < n)%nat).
  - by rewrite !lookup_take_lt, list_lookup_imap by done.
  - by rewrite !lookup_take_ge by lia.
Qed.

(** Decryption inverts encryption under the same key and counter. *)
Lemma ctr_Ok op key c mac p : length key = 16%nat → length c = 16%nat →
  ctr_both op key c mac p = Ok (apply_keystream key c (length mac) p, apply_keystream key c 0 mac).
Proof. intros Hk Hc. unfold ctr_both, KEY_LENGTH. by rewrite Hk, Hc. Qed.
Lemma decrypt_encrypt key c mac p ep em :
  encrypt_ctr key c mac p = Ok (ep, em) → decrypt_ctr key c em ep = Ok (p, mac).
Proof.
  unfold encrypt_ctr, decrypt_ctr, ctr_both. repeat case_match; try done. intros [= <- <-].
  by rewrite length_apply_keystream, !apply_keystream_twice.
Qed.
Lemma bytes_xor_Ok a b : length a = length b → bytes_xor a b = Ok (zip_with Z.lxor a b).
Proof. intros E. unfold bytes_xor. by rewrite E, Nat.eqb_refl. Qed.
Lemma bytes_xor_comm a b : length a = length b → bytes_xor a b = bytes_xor b a.
Proof.
  intros E. rewrite !bytes_xor_Ok by done. f_equal. clear -a. revert b.
  induction a as [|x a IH]; intros [|y b]; cbn; [done..|]. by rewrite Z.lxor_comm, IH.
Qed.
End primitive_lemmas.

(** A concrete choice of the primitives that satisfies the laws, on which the
    definitions evaluate. *)
Definition pad_to (n : nat) (l : list Z) : list Z := take n (l ++ replicate n 0).
#[local] Instance toy_crypto : CryptoOps := {
  aes_block key b := imap (λ i x, Z.lxor x (nth i key 0)) b;
  ctr_byte key counter pos := Z.lxor (nth (pos mod 16) key 0) (nth (pos mod 16) counter 0);
  sha256 m := pad_to 32 m;
  pbkdf2 p salt n := pad_to 16 (p ++ salt);
  x25519_public a := pad_to 32 a;
  x25519_shared a p := zip_with Z.lxor (pad_to 32 a) p;
}.
Lemma length_pad_to n l : length (pad_to n l) = n.
Proof. unfold pad_to. rewrite length_take, length_app, length_replicate. lia. Qed.
#[local] Instance toy_crypto_laws : CryptoLaws.
Proof.
  split; cbn.
  - intros key b Hb. by rewrite length_imap.
  - intros m. apply length_pad_to.
  - intros p salt n. apply length_pad_to.
  - intros a. apply length_pad_to.
  - intros a b. pose proof (bytes_xor_comm (pad_to 32 a) (pad_to 32 b)) as E.
    rewrite !bytes_xor_Ok in E by (by rewrite !length_pad_to). rewrite !length_pad_to in E.
    by injection (E eq_refl).
Qed.
