(* ===== verification/SecureSession.v ===== *)
(** KNX IP Secure sessions ([src/src/security/session.rs]): the handshake of
    client and server, and the encryption, authentication and numbering of the
    frames exchanged afterwards. *)
From Stdlib Require Import Sorting.Sorted.
From S2P Require Import Prelude Errors Crypto.

Definition COUNTER_0_HANDSHAKE : list Z := replicate 14 0 ++ [0xFF; 0x00].
Definition MESSAGE_TAG_TUNNELLING : list Z := [0; 0].
Definition DEVICE_SERIAL_NUMBER : list Z := [0; 0; 0; 0; 0; 0].

Record SessionConfig := MkSessionConfig {
  cfg_user_id : Z;
  cfg_user_password : list Z;
  cfg_device_auth_password : option (list Z);
  keepalive_interval : Z;
}.
Definition SessionConfig_default : SessionConfig := MkSessionConfig 1 [] None 60.

Inductive SecureSessionState := Uninitialized | Handshaking | Authenticated | SessionClosed | SessionError.
#[global] Instance SecureSessionState_eq_dec : EqDecision SecureSessionState.
Proof. solve_decision. Defined.

Record SessionKey := MkSessionKey { sk_key : list Z; initialized : bool }.
Definition SessionKey_default : SessionKey := MkSessionKey (replicate 16 0) false.

Record SecureSession := MkSecureSession {
  ss_session_id : Z;
  ss_session_key : SessionKey;
  ss_sequence_number : Z;
  ss_sequence_number_received : Z;
  ss_state : SecureSessionState;
  ss_key_pair : option EcdhKeyPair;
  ss_device_auth_code : option (list Z);
  ss_user_password : list Z;
  ss_user_id : Z;
}.

Definition set_session_id (id : Z) (s : SecureSession) : SecureSession :=
  MkSecureSession id (ss_session_key s) (ss_sequence_number s) (ss_sequence_number_received s)
    (ss_state s) (ss_key_pair s) (ss_device_auth_code s) (ss_user_password s) (ss_user_id s).
Definition set_session_key (k : SessionKey) (s : SecureSession) : SecureSession :=
  MkSecureSession (ss_session_id s) k (ss_sequence_number s) (ss_sequence_number_received s)
    (ss_state s) (ss_key_pair s) (ss_device_auth_code s) (ss_user_password s) (ss_user_id s).
Definition set_sequence (n : Z) (s : SecureSession) : SecureSession :=
  MkSecureSession (ss_session_id s) (ss_session_key s) n (ss_sequence_number_received s)
    (ss_state s) (ss_key_pair s) (ss_device_auth_code s) (ss_user_password s) (ss_user_id s).
Definition set_received (n : Z) (s : SecureSession) : SecureSession :=
  MkSecureSession (ss_session_id s) (ss_session_key s) (ss_sequence_number s) n
    (ss_state s) (ss_key_pair s) (ss_device_auth_code s) (ss_user_password s) (ss_user_id s).
Definition set_session_state (st : SecureSessionState) (s : SecureSession) : SecureSession :=
  MkSecureSession (ss_session_id s) (ss_session_key s) (ss_sequence_number s)
    (ss_sequence_number_received s) st (ss_key_pair s) (ss_device_auth_code s)
    (ss_user_password s) (ss_user_id s).
Definition set_key_pair (k : EcdhKeyPair) (s : SecureSession) : SecureSession :=
  MkSecureSession (ss_session_id s) (ss_session_key s) (ss_sequence_number s)
    (ss_sequence_number_received s) (ss_state s) (Some k) (ss_device_auth_code s)
    (ss_user_password s) (ss_user_id s).

Section session.
Context {crypto : CryptoOps}.
Abbreviation M := (eff SecureSession KnxError).

Definition SecureSession_new (config : SessionConfig) : SecureSession :=
  MkSecureSession 0 SessionKey_default 0 0 Uninitialized None
    (derive_device_authentication_password <$> cfg_device_auth_password config)
    (derive_user_password (cfg_user_password config)) (cfg_user_id config).

(** [random] is the secret the key pair is generated from. *)
Definition SecureSession_initialize (random : list Z) : M (list Z) :=
  let key_pair := EcdhKeyPair_generate random in
  _ ← modify (set_key_pair key_pair);
  _ ← modify (set_session_state Handshaking);
  _ ← modify (set_sequence 0);
  _ ← modify (set_received 0);
  mret (public_key key_pair).

Definition not_initialized : KnxError := Security (SecurityInvalidConfiguration "Session not initialized").

(** The data the two handshake messages authenticate. *)
Definition response_data (session_id : Z) (pub_keys_xor : list Z) : list Z :=
  [0x06; 0x10; 0x09; 0x52; 0x00; 0x38] ++ to_be16 session_id ++ pub_keys_xor.
Definition authenticate_data (user_id : Z) (pub_keys_xor : list Z) : list Z :=
  [0x06; 0x10; 0x09; 0x53; 0x00; 0x18] ++ [0x00] ++ [user_id] ++ pub_keys_xor.

Definition generate_authenticate_mac (s : SecureSession) (server_public_key : list Z)
    : result (list Z) :=
  key_pair ← ok_or (ss_key_pair s) not_initialized;
  pub_keys_xor ← bytes_xor (public_key key_pair) server_public_key;
  mac_cbc ← calculate_mac_cbc (ss_user_password s) (authenticate_data (ss_user_id s) pub_keys_xor)
              [] (replicate 16 0);
  '(_, mac) ← encrypt_ctr (ss_user_password s) COUNTER_0_HANDSHAKE mac_cbc [];
  Ok mac.

(** Installs the session key both sides compute. *)
Definition install_key (key_pair : EcdhKeyPair) (peer_public_key : list Z) : M unit :=
  let session_key_full := sha256_hash (EcdhKeyPair_exchange key_pair peer_public_key) in
  k ← lift (slice session_key_full 0 16);
  modify (set_session_key (MkSessionKey k true)).

Definition process_session_response (session_id : Z) (server_public_key server_mac : list Z)
    : M (list Z) :=
  s ← gets id;
  key_pair ← lift (ok_or (ss_key_pair s) not_initialized);
  _ ← match ss_device_auth_code s with
      | None => mret tt
      | Some device_auth =>
          pub_keys_xor ← lift (bytes_xor (public_key key_pair) server_public_key);
          mac_cbc ← lift (calculate_mac_cbc device_auth (response_data session_id pub_keys_xor)
                            [] (replicate 16 0));
          '(_, mac_tr) ← lift (decrypt_ctr device_auth COUNTER_0_HANDSHAKE server_mac []);
          if decide (mac_cbc = mac_tr) then mret tt
          else throw (Security (AuthenticationFailed "SessionResponse MAC verification failed"))
      end;
  _ ← modify (set_session_id session_id);
  _ ← install_key key_pair server_public_key;
  s ← gets id;
  lift (generate_authenticate_mac s server_public_key).

Definition process_session_request (client_public_key : list Z) (session_id : Z) : M (list Z) :=
  s ← gets id;
  key_pair ← lift (ok_or (ss_key_pair s) not_initialized);
  _ ← modify (set_session_id session_id);
  _ ← install_key key_pair client_public_key;
  match ss_device_auth_code s with
  | None => mret (replicate 16 0)
  | Some device_auth =>
      pub_keys_xor ← lift (bytes_xor (public_key key_pair) client_public_key);
      mac_cbc ← lift (calculate_mac_cbc device_auth (response_data session_id pub_keys_xor)
                        [] (replicate 16 0));
      '(_, mac) ← lift (encrypt_ctr device_auth COUNTER_0_HANDSHAKE mac_cbc []);
      mret mac
  end.

Definition verify_authenticate_mac (client_public_key : list Z) (received_user_id : Z)
    (received_mac : list Z) : M bool :=
  s ← gets id;
  if negb (received_user_id =? ss_user_id s) then mret false
  else
    key_pair ← lift (ok_or (ss_key_pair s) not_initialized);
    pub_keys_xor ← lift (bytes_xor (public_key key_pair) client_public_key);
    mac_cbc ← lift (calculate_mac_cbc (ss_user_password s)
                      (authenticate_data received_user_id pub_keys_xor) [] (replicate 16 0));
    '(_, mac_tr) ← lift (decrypt_ctr (ss_user_password s) COUNTER_0_HANDSHAKE received_mac []);
    if decide (mac_cbc = mac_tr)
    then (_ ← modify (set_session_state Authenticated); mret true)
    else mret false.

Definition complete_authentication (status_code : Z) : M unit :=
  if negb (status_code =? 0x00)
  then (_ ← modify (set_session_state SessionError);
        throw (Security (AuthenticationFailed
          ("Authentication failed with status code: 0x" +:+ hex02 status_code))))
  else modify (set_session_state Authenticated).

(** [fetch_add] on an [AtomicU64], of which the low 48 bits are sent. *)
Definition get_next_sequence_number : M (list Z) :=
  seq ← gets ss_sequence_number;
  _ ← modify (set_sequence ((seq + 1) mod 2 ^ 64));
  mret (to_be 6 seq).

Definition key_not_initialized : KnxError :=
  Security (SecurityInvalidConfiguration "Session key not initialized").

(** The blocks both directions build from a frame's fields. *)
Definition frame_block_0 (sequence_info serial_number message_tag : list Z) (len : nat) : list Z :=
  sequence_info ++ serial_number ++ message_tag ++ to_be16 (as_u16 (Z.of_nat len)).
Definition frame_counter_0 (sequence_info serial_number message_tag : list Z) : list Z :=
  sequence_info ++ serial_number ++ message_tag ++ [0xFF; 0x00].

Definition encrypt_frame (plain_frame : list Z) : M (list Z) :=
  s ← gets id;
  if negb (initialized (ss_session_key s)) then throw key_not_initialized
  else
    sequence_info ← get_next_sequence_number;
    let key := sk_key (ss_session_key s) in
    let message_tag := MESSAGE_TAG_TUNNELLING in
    let payload_length := length plain_frame in
    let total_length := (38 + payload_length)%nat in
    let wrapper_header := [0x06; 0x10; 0x09; 0x50] ++ to_be16 (as_u16 (Z.of_nat total_length)) in
    let block_0 := frame_block_0 sequence_info DEVICE_SERIAL_NUMBER message_tag payload_length in
    let additional_data := wrapper_header ++ to_be16 (ss_session_id s) in
    mac_cbc ← lift (calculate_mac_cbc key additional_data plain_frame block_0);
    let counter_0 := frame_counter_0 sequence_info DEVICE_SERIAL_NUMBER message_tag in
    '(encrypted_data, encrypted_mac) ← lift (encrypt_ctr key counter_0 mac_cbc plain_frame);
    mret (wrapper_header ++ to_be16 (ss_session_id s) ++ sequence_info ++ DEVICE_SERIAL_NUMBER
          ++ message_tag ++ encrypted_data ++ encrypted_mac).

Definition decrypt_error (reason : string) : KnxError := Security (CryptographicError "decrypt" reason).

Definition decrypt_frame (encrypted_frame : list Z) : M (list Z) :=
  s ← gets id;
  let key := sk_key (ss_session_key s) in
  let len := length encrypted_frame in
  if negb (initialized (ss_session_key s)) then throw key_not_initialized
  else if (len <? 38)%nat then throw (decrypt_error "Frame too short for SecureWrapper")
  else
    hi ← lift (idx encrypted_frame 6);
    lo ← lift (idx encrypted_frame 7);
    let frame_session_id := from_be16 hi lo in
    if negb (frame_session_id =? ss_session_id s)
    then throw (decrypt_error ("Session ID mismatch: expected " +:+ dec (ss_session_id s)
                 +:+ ", got " +:+ dec frame_session_id))
    else
      sequence_info ← lift (slice encrypted_frame 8 14);
      serial_number ← lift (slice encrypted_frame 14 20);
      message_tag ← lift (slice encrypted_frame 20 22);
      encrypted_data ← lift (slice encrypted_frame 22 (len - 16));
      mac ← lift (slice_from encrypted_frame (len - 16));
      let received_seq := from_be sequence_info in
      let last_seq := ss_sequence_number_received s in
      if (received_seq <=? last_seq) && negb (last_seq =? 0)
      then throw (decrypt_error ("Invalid sequence number: " +:+ dec received_seq +:+ " <= " +:+ dec last_seq))
      else
        let counter_0 := frame_counter_0 sequence_info serial_number message_tag in
        '(decrypted_data, mac_tr) ← lift (decrypt_ctr key counter_0 mac encrypted_data);
        wrapper_header ← lift (slice encrypted_frame 0 6);
        let additional_data := wrapper_header ++ to_be16 (ss_session_id s) in
        let block_0 := frame_block_0 sequence_info serial_number message_tag (length decrypted_data) in
        mac_cbc ← lift (calculate_mac_cbc key additional_data decrypted_data block_0);
        if negb (bool_decide (mac_cbc = mac_tr)) then throw (decrypt_error "MAC verification failed")
        else
          _ ← modify (set_received received_seq);
          mret decrypted_data.

Definition SecureSession_close : M unit :=
  _ ← modify (set_session_state SessionClosed);
  modify (λ s, set_session_key (MkSessionKey (replicate 16 0) false) s).
Definition is_authenticated (s : SecureSession) : bool := bool_decide (ss_state s = Authenticated).
End session.

(** * Lemmas *)
Section session_lemmas.
Context {crypto : CryptoOps} {laws : CryptoLaws}.
Implicit Types s : SecureSession.

(** A session that can exchange frames. *)
Definition session_ready s : Prop :=
  initialized (ss_session_key s) = true ∧ length (sk_key (ss_session_key s)) = 16%nat ∧
  u16_ok (ss_session_id s).

(** The sequence number a secure frame carries. *)
Definition wire_sequence (f : list Z) : Z := from_be (take 6 (drop 8 f)).
(** The replay check of [decrypt_frame]. *)
Definition fresh (seq last : Z) : Prop := last < seq ∨ last = 0.

(** The bytes of a secure frame. *)
Definition wrapper (header : list Z) (id : Z) (sq sn tag d m : list Z) : list Z :=
  header ++ to_be16 id ++ sq ++ sn ++ tag ++ d ++ m.

Lemma decrypt_frame_accepts f s p s' :
  decrypt_frame f s = (Ok p, s') →
  s' = set_received (wire_sequence f) s ∧ fresh (wire_sequence f) (ss_sequence_number_received s).
Proof.
  unfold decrypt_frame. intros Hf. inv_eff.
  match goal with Hs : slice _ 8%nat 14%nat = Ok _ |- _ => apply slice_Ok in Hs as [_ ->] end.
  split; [done|]. unfold fresh, wire_sequence. change (14 - 8)%nat with 6%nat in *.
  match goal with Hs : _ && _ = false |- _ => apply andb_false_iff in Hs as [?|?] end; to_arith; lia.
Qed.
(** A frame that is refused changes nothing. *)
Lemma decrypt_frame_clean f : fails_clean (decrypt_frame f).
Proof. unfold decrypt_frame. fails_clean. Qed.

(** The frame [encrypt_frame] makes, and the one step it takes. *)
Definition encrypted s (p : list Z) : list Z :=
  let key := sk_key (ss_session_key s) in
  let sq := to_be 6 (ss_sequence_number s) in
  let header := [0x06; 0x10; 0x09; 0x50] ++ to_be16 (as_u16 (Z.of_nat (38 + length p))) in
  let mac := default [] (result_ok (calculate_mac_cbc key (header ++ to_be16 (ss_session_id s)) p
               (frame_block_0 sq DEVICE_SERIAL_NUMBER MESSAGE_TAG_TUNNELLING (length p)))) in
  let counter := frame_counter_0 sq DEVICE_SERIAL_NUMBER MESSAGE_TAG_TUNNELLING in
  wrapper header (ss_session_id s) sq DEVICE_SERIAL_NUMBER MESSAGE_TAG_TUNNELLING
    (apply_keystream key counter 16 p) (apply_keystream key counter 0 mac).
Lemma length_block_0 sq n : length sq = 6%nat →
  length (frame_block_0 sq DEVICE_SERIAL_NUMBER MESSAGE_TAG_TUNNELLING n) = 16%nat.
Proof. intros Hs. unfold frame_block_0. rewrite !length_app, Hs. done. Qed.
Lemma length_counter_0 sq : length sq = 6%nat →
  length (frame_counter_0 sq DEVICE_SERIAL_NUMBER MESSAGE_TAG_TUNNELLING) = 16%nat.
Proof. intros Hs. unfold frame_counter_0. rewrite !length_app, Hs. done. Qed.
Lemma encrypt_frame_run p s :
  session_ready s →
  encrypt_frame p s = (Ok (encrypted s p), set_sequence ((ss_sequence_number s + 1) mod 2 ^ 64) s).
Proof.
  intros (Hi & Hk & _). unfold encrypt_frame. rewrite eff_bind_run. cbn [gets id]. rewrite Hi. cbn [negb].
  rewrite eff_bind_run. cbn [get_next_sequence_number].
  unfold get_next_sequence_number. rewrite !eff_bind_run. cbn [gets modify].
  unfold mret, eff_ret. cbv beta iota zeta. rewrite eff_bind_run. cbn [modify lift].
  unfold encrypted.
  edestruct (mac_Ok (sk_key (ss_session_key s))) as (mac & -> & Hm);
    [done|by apply length_block_0, length_to_be|].
  rewrite eff_bind_run. cbn [lift]. unfold encrypt_ctr.
  rewrite ctr_Ok by (done || by apply length_counter_0, length_to_be). rewrite Hm. done.
Qed.

(** The fields [decrypt_frame] finds in a secure frame. *)
Section fields.
Context (h sq sn tag d m : list Z) (id : Z).
Hypotheses (Hh : length h = 6%nat) (Hsq : length sq = 6%nat) (Hsn : length sn = 6%nat)
  (Htag : length tag = 2%nat) (Hm : length m = 16%nat).
Abbreviation f := (wrapper h id sq sn tag d m).

Lemma wrapper_length : length f = (38 + length d)%nat.
Proof. unfold wrapper. rewrite !length_app, Hh, Hsq, Hsn, Htag, Hm. cbn. lia. Qed.
Lemma wrapper_id : idx (E:=KnxError) f 6 = Ok (id / 256) ∧ idx (E:=KnxError) f 7 = Ok (id mod 256).
Proof.
  unfold wrapper. change 7%nat with (6 + 1)%nat. rewrite <-Hh. cbn [to_be16 app].
  split; [apply idx_app_0|apply idx_app_1].
Qed.
Lemma wrapper_slices :
  slice (E:=KnxError) f 0 6 = Ok h ∧ slice (E:=KnxError) f 8 14 = Ok sq ∧
  slice (E:=KnxError) f 14 20 = Ok sn ∧ slice (E:=KnxError) f 20 22 = Ok tag ∧
  slice (E:=KnxError) f 22 (length f - 16) = Ok d ∧ slice_from (E:=KnxError) f (length f - 16) = Ok m.
Proof.
  rewrite wrapper_length. unfold wrapper. split_and!.
  - apply (slice_app_at [] h); [done|cbn; lia].
  - rewrite app_assoc. apply slice_app_at; rewrite length_app, ?Hsq, Hh; done.
  - rewrite (app_assoc h), (app_assoc (h ++ _)). apply slice_app_at; rewrite !length_app, Hh, Hsq, ?Hsn; done.
  - rewrite (app_assoc h), (app_assoc (h ++ _)), (app_assoc ((h ++ _) ++ _)).
    apply slice_app_at; rewrite !length_app, Hh, Hsq, Hsn, ?Htag; done.
  - rewrite (app_assoc h), (app_assoc (h ++ _)), (app_assoc ((h ++ _) ++ _)), (app_assoc (((h ++ _) ++ _) ++ _)).
    apply slice_app_at; rewrite !length_app, Hh, Hsq, Hsn, Htag; cbn; lia.
  - rewrite !app_assoc. apply slice_from_app. rewrite !length_app, Hh, Hsq, Hsn, Htag. cbn. lia.
Qed.
Lemma wrapper_sequence : wire_sequence f = from_be sq.
Proof.
  destruct wrapper_slices as (_ & [_ E]%slice_Ok & _). unfold wire_sequence. f_equal. exact (eq_sym E).
Qed.
End fields.

(** Two sessions with the same key and number. *)
Definition paired s r : Prop :=
  session_ready s ∧ ss_session_key r = ss_session_key s ∧ ss_session_id r = ss_session_id s.

Lemma decrypt_encrypted p s r :
  paired s r → 0 ≤ ss_sequence_number s < 2 ^ 48 →
  fresh (ss_sequence_number s) (ss_sequence_number_received r) →
  decrypt_frame (encrypted s p) r = (Ok p, set_received (ss_sequence_number s) r).
Proof.
  intros ((Hi & Hk & Hid) & Ekey & Eid) Hn Hfr. unfold encrypted. cbv zeta.
  set (key := sk_key (ss_session_key s)). set (sq := to_be 6 (ss_sequence_number s)).
  set (header := [0x06; 0x10; 0x09; 0x50] ++ _).
  assert (length sq = 6%nat) as Hsq by apply length_to_be.
  assert (from_be sq = ss_sequence_number s) as Eseq.
  { subst sq. rewrite from_be_to_be. by apply Z.mod_small. }
  edestruct (mac_Ok key (header ++ to_be16 (ss_session_id s)) p) as (mac & Emac & Hmac);
    [done|apply (length_block_0 sq (length p)); done|].
  rewrite Emac. cbn [result_ok default]. set (counter := frame_counter_0 _ _ _).
  set (d := apply_keystream key counter 16 p). set (m := apply_keystream key counter 0 mac).
  assert (length m = 16%nat) as Hm by (subst m; by rewrite length_apply_keystream).
  destruct (wrapper_slices header sq DEVICE_SERIAL_NUMBER MESSAGE_TAG_TUNNELLING d m (ss_session_id s))
    as (E0 & E1 & E2 & E3 & E4 & E5); [done..|].
  destruct (wrapper_id header sq DEVICE_SERIAL_NUMBER MESSAGE_TAG_TUNNELLING d m (ss_session_id s))
    as [E6 E7]; [done..|].
  pose proof (wrapper_length header sq DEVICE_SERIAL_NUMBER MESSAGE_TAG_TUNNELLING d m (ss_session_id s)) as Hl.
  set (f := wrapper _ _ _ _ _ _ _) in *.
  unfold decrypt_frame. rewrite eff_bind_run. cbn [gets id]. rewrite Ekey, Hi. cbn [negb].
  rewrite (proj2 (Nat.ltb_ge _ _)) by (rewrite Hl by done; lia).
  rewrite eff_bind_run. cbn [lift]. rewrite E6, eff_bind_run. cbn [lift]. rewrite E7.
  rewrite from_to_be16, Eid, Z.eqb_refl. cbn [negb].
  rewrite eff_bind_run. cbn [lift]. rewrite E1, eff_bind_run. cbn [lift]. rewrite E2, eff_bind_run. cbn [lift].
  rewrite E3, eff_bind_run. cbn [lift]. rewrite E4, eff_bind_run. cbn [lift]. rewrite E5, Eseq.
  replace (_ && _) with false
    by (symmetry; apply andb_false_iff; unfold fresh in Hfr; rewrite Z.leb_gt, negb_false_iff, Z.eqb_eq; lia).
  rewrite eff_bind_run. cbn [lift]. fold counter key. unfold decrypt_ctr.
  rewrite ctr_Ok by (done || by apply length_counter_0). rewrite Hm. subst d m. rewrite !apply_keystream_twice.
  rewrite eff_bind_run. cbn [lift]. rewrite E0, eff_bind_run. cbn [lift]. rewrite Emac, bool_decide_eq_true_2 by done.
  done.
Qed.

(** A sender's frames for a list of payloads. *)
Definition encrypted_all s (ps : list (list Z)) : list (list Z) :=
  imap (λ i p, encrypted (set_sequence (ss_sequence_number s + Z.of_nat i) s) p) ps.
Lemma encrypted_all_cons s p ps :
  encrypted_all s (p :: ps) =
  encrypted s p :: encrypted_all (set_sequence (ss_sequence_number s + 1) s) ps.
Proof.
  unfold encrypted_all. cbn [imap]. f_equal.
  - rewrite Z.add_0_r. by destruct s.
  - apply imap_ext. intros i x _. unfold compose. rewrite Nat2Z.inj_succ.
    by replace (ss_sequence_number s + Z.succ (Z.of_nat i)) with (ss_sequence_number s + 1 + Z.of_nat i) by lia.
Qed.
Lemma encrypt_all_run ps s :
  session_ready s → 0 ≤ ss_sequence_number s → ss_sequence_number s + Z.of_nat (length ps) < 2 ^ 64 →
  (mapM encrypt_frame ps s).1 = Ok (encrypted_all s ps).
Proof.
  revert s. induction ps as [|p ps IH]; intros s Hs H0 Hn; [done|]. rewrite encrypted_all_cons.
  cbn [mapM length] in *. rewrite eff_bind_run, encrypt_frame_run by done. rewrite Z.mod_small by lia.
  rewrite eff_bind_run. specialize (IH (set_sequence (ss_sequence_number s + 1) s)).
  destruct (mapM encrypt_frame ps _) as [r s']. cbn in IH. by rewrite IH by (done || lia).
Qed.

Lemma paired_sent n s r : paired s r → paired (set_sequence n s) r.
Proof. done. Qed.
Lemma paired_received n s r : paired s r → paired s (set_received n r).
Proof. done. Qed.
Lemma sequence_set n s : ss_sequence_number (set_sequence n s) = n.
Proof. done. Qed.
Lemma decrypt_sublist ps sub s r :
  paired s r → 0 ≤ ss_sequence_number s → ss_sequence_number s + Z.of_nat (length ps) ≤ 2 ^ 48 →
  fresh (ss_sequence_number s) (ss_sequence_number_received r) →
  sublist sub (zip ps (encrypted_all s ps)) → (mapM decrypt_frame sub.*2 r).1 = Ok sub.*1.
Proof.
  revert sub s r. induction ps as [|p ps IH]; intros sub s r Hp H0 Hn Hf Hsub.
  { apply sublist_nil_r in Hsub as ->. done. }
  rewrite encrypted_all_cons in Hsub. cbn [zip zip_with length] in *.
  assert (0 ≤ ss_sequence_number s < 2 ^ 48) as Hb by lia.
  apply sublist_cons_r in Hsub as [Hsub|(sub' & -> & Hsub)].
  - apply (IH _ (set_sequence (ss_sequence_number s + 1) s)); [done|rewrite ?sequence_set; lia..| |done].
    unfold fresh in *. rewrite sequence_set. lia.
  - cbn [fmap list_fmap mapM fst snd]. rewrite eff_bind_run, decrypt_encrypted by done. rewrite eff_bind_run.
    pose proof (IH sub' (set_sequence (ss_sequence_number s + 1) s) (set_received (ss_sequence_number s) r)) as IH'.
    destruct (mapM decrypt_frame _ _) as [o r']. cbn [fst] in IH'. unfold fresh in IH'. rewrite sequence_set in IH'.
    rewrite IH'; [done|done|lia|lia|left; cbn [ss_sequence_number_received set_received]; lia|done].
Qed.

(** The sequence numbers a receiver accepts, in order. *)
Fixpoint accepted (fs : list (list Z)) r : list Z :=
  match fs with
  | [] => []
  | f :: fs =>
      match decrypt_frame f r with
      | (Ok _, r) => wire_sequence f :: accepted fs r
      | (_, r) => accepted fs r
      end
  end.
Lemma accepted_cons f fs r :
  (accepted (f :: fs) r = accepted fs r) ∨
  (fresh (wire_sequence f) (ss_sequence_number_received r) ∧
   accepted (f :: fs) r = wire_sequence f :: accepted fs (set_received (wire_sequence f) r)).
Proof.
  cbn [accepted]. pose proof (decrypt_frame_clean f r) as Hc. pose proof (decrypt_frame_accepts f r) as Ha.
  destruct (decrypt_frame f r) as [[p|e|] r']; cbn in Hc.
  - right. by destruct (Ha p r' eq_refl) as [-> Hf].
  - left. by rewrite Hc.
  - left. by rewrite Hc.
Qed.
Lemma accepted_above fs r :
  0 < ss_sequence_number_received r →
  Forall (λ n, ss_sequence_number_received r < n) (accepted fs r) ∧ StronglySorted Z.lt (accepted fs r).
Proof.
  revert r. induction fs as [|f fs IH]; intros r Hr; [by repeat constructor|].
  destruct (accepted_cons f fs r) as [->|[Hf ->]]; [by apply IH|].
  destruct Hf as [Hf|]; [|lia].
  destruct (IH (set_received (wire_sequence f) r)) as [Hab Hs]; [cbn; lia|]. cbn in Hab.
  split; constructor; [done| |done|done].
  eapply Forall_impl; [exact Hab|]. cbn. lia.
Qed.
(** What each side of the handshake holds: the session it started, with the
    key it agreed on. *)
Definition started (cfg : SessionConfig) (random : list Z) : SecureSession :=
  set_session_state Handshaking (set_key_pair (EcdhKeyPair_generate random) (SecureSession_new cfg)).
Definition agreed_key (a b : list Z) : SessionKey :=
  MkSessionKey (take 16 (sha256 (x25519_shared a (x25519_public b)))) true.
Lemma agreed_key_comm a b : agreed_key a b = agreed_key b a.
Proof. unfold agreed_key. by rewrite x25519_agree. Qed.
Lemma agreed_key_length a b : length (sk_key (agreed_key a b)) = 16%nat.
Proof. cbn. rewrite length_take, sha256_length. done. Qed.

Lemma initialize_run cfg random :
  SecureSession_initialize random (SecureSession_new cfg) = (Ok (x25519_public random), started cfg random).
Proof. done. Qed.
Lemma install_key_run a b s :
  install_key (EcdhKeyPair_generate a) (x25519_public b) s = (Ok tt, set_session_key (agreed_key a b) s).
Proof.
  unfold install_key. rewrite eff_bind_run. unfold EcdhKeyPair_exchange, sha256_hash.
  cbn [private_key EcdhKeyPair_generate lift].
  by rewrite (proj2 (slice_Ok (sha256 _) 0 16 _)) by (rewrite sha256_length; split; [lia|done]).
Qed.
Lemma public_xor a b :
  bytes_xor (x25519_public a) (x25519_public b) = Ok (zip_with Z.lxor (x25519_public a) (x25519_public b)).
Proof. apply bytes_xor_Ok. by rewrite !x25519_public_length. Qed.
Lemma public_xor_comm a b :
  zip_with Z.lxor (x25519_public a) (x25519_public b) = zip_with Z.lxor (x25519_public b) (x25519_public a).
Proof.
  pose proof (bytes_xor_comm (x25519_public a) (x25519_public b)) as E.
  rewrite !public_xor, !x25519_public_length in E. by injection (E eq_refl).
Qed.

(** The code that authenticates data under a password in the handshake. *)
Definition handshake_mac (key data : list Z) : list Z :=
  default [] (result_ok (calculate_mac_cbc key data [] (replicate 16 0))).
Definition handshake_code (key data : list Z) : list Z :=
  apply_keystream key COUNTER_0_HANDSHAKE 0 (handshake_mac key data).
Lemma handshake_mac_run key data : length key = 16%nat →
  calculate_mac_cbc key data [] (replicate 16 0) = Ok (handshake_mac key data).
Proof.
  intros Hk. unfold handshake_mac. destruct (mac_Ok key data [] (replicate 16 0)) as (m & -> & _); done.
Qed.
Lemma handshake_encrypt key data : length key = 16%nat →
  encrypt_ctr key COUNTER_0_HANDSHAKE (handshake_mac key data) [] = Ok ([], handshake_code key data).
Proof. intros Hk. unfold encrypt_ctr. by rewrite ctr_Ok. Qed.
Lemma handshake_decrypt key m : length key = 16%nat →
  decrypt_ctr key COUNTER_0_HANDSHAKE m [] = Ok ([], apply_keystream key COUNTER_0_HANDSHAKE 0 m).
Proof. intros Hk. unfold decrypt_ctr. by rewrite ctr_Ok. Qed.
(** Exactly one code passes the comparison after decryption. *)
Lemma handshake_code_spec key data m :
  handshake_mac key data = apply_keystream key COUNTER_0_HANDSHAKE 0 m ↔ m = handshake_code key data.
Proof.
  unfold handshake_code. split; [intros ->|intros ->]; by rewrite apply_keystream_twice.
Qed.

Section handshake.
Context (cc cs : SessionConfig) (a b : list Z) (id : Z).
(** The server with the agreed key, and the client with it. *)
Definition server_keyed : SecureSession :=
  set_session_key (agreed_key b a) (set_session_id id (started cs b)).
Definition client_keyed : SecureSession :=
  set_session_key (agreed_key a b) (set_session_id id (started cc a)).
Definition keys_xor : list Z := zip_with Z.lxor (x25519_public a) (x25519_public b).
Definition response_code : list Z :=
  match cfg_device_auth_password cs with
  | None => replicate 16 0
  | Some p => handshake_code (derive_device_authentication_password p) (response_data id keys_xor)
  end.
Definition authenticate_code (cfg : SessionConfig) : list Z :=
  handshake_code (derive_user_password (cfg_user_password cfg)) (authenticate_data (cfg_user_id cfg) keys_xor).

Lemma request_run :
  process_session_request (x25519_public a) id (started cs b) = (Ok response_code, server_keyed).
Proof.
  unfold process_session_request. rewrite eff_bind_run. cbn [gets Datatypes.id]. rewrite eff_bind_run.
  cbn [lift ok_or ss_key_pair started set_session_state set_key_pair]. rewrite eff_bind_run. cbn [modify].
  rewrite eff_bind_run, install_key_run. unfold response_code.
  cbn [ss_device_auth_code Datatypes.id set_session_state set_key_pair SecureSession_new started].
  destruct (cfg_device_auth_password cs) as [p|]; cbn [fmap option_fmap option_map]; [|done].
  rewrite eff_bind_run. cbn [public_key EcdhKeyPair_generate lift]. rewrite public_xor, public_xor_comm.
  rewrite eff_bind_run. cbn [lift]. rewrite handshake_mac_run by apply pbkdf2_length.
  rewrite eff_bind_run. cbn [lift]. by rewrite handshake_encrypt by apply pbkdf2_length.
Qed.

Lemma generate_run : generate_authenticate_mac client_keyed (x25519_public b) = Ok (authenticate_code cc).
Proof.
  unfold generate_authenticate_mac.
  change (ss_key_pair client_keyed) with (Some (EcdhKeyPair_generate a)).
  change (ss_user_password client_keyed) with (derive_user_password (cfg_user_password cc)).
  cbn [ok_or mbind outcome_bind public_key EcdhKeyPair_generate]. rewrite public_xor. cbn [mbind outcome_bind].
  rewrite handshake_mac_run by apply pbkdf2_length. cbn [mbind outcome_bind].
  by rewrite handshake_encrypt by apply pbkdf2_length.
Qed.

Lemma response_tail_run :
  (_ ← modify (set_session_id id);
   _ ← install_key (EcdhKeyPair_generate a) (x25519_public b);
   s ← gets Datatypes.id;
   lift (generate_authenticate_mac s (x25519_public b))) (started cc a)
  = (Ok (authenticate_code cc), client_keyed).
Proof.
  rewrite eff_bind_run. cbn [modify]. rewrite eff_bind_run, install_key_run, eff_bind_run.
  cbn [gets Datatypes.id lift]. f_equal. apply generate_run.
Qed.

Lemma response_run :
  cfg_device_auth_password cc = None ∨ cfg_device_auth_password cc = cfg_device_auth_password cs →
  process_session_response id (x25519_public b) response_code (started cc a)
  = (Ok (authenticate_code cc), client_keyed).
Proof.
  intros Hd. unfold process_session_response. rewrite eff_bind_run. cbn [gets Datatypes.id].
  change (ss_key_pair (started cc a)) with (Some (EcdhKeyPair_generate a)).
  change (ss_device_auth_code (started cc a))
    with (derive_device_authentication_password <$> cfg_device_auth_password cc).
  rewrite eff_bind_run. cbn [lift ok_or]. rewrite eff_bind_run.
  destruct (cfg_device_auth_password cc) as [p|] eqn:Ep; cbn [fmap option_fmap option_map]; cycle 1.
  { apply response_tail_run. }
  destruct Hd as [|Hd]; [done|]. unfold response_code. rewrite <-Hd.
  rewrite eff_bind_run. cbn [public_key EcdhKeyPair_generate lift]. rewrite public_xor, eff_bind_run.
  cbn [lift]. rewrite handshake_mac_run by apply pbkdf2_length. rewrite eff_bind_run. cbn [lift].
  rewrite handshake_decrypt by apply pbkdf2_length. rewrite decide_True by by apply handshake_code_spec.
  apply response_tail_run.
Qed.

Lemma verify_run m :
  verify_authenticate_mac (x25519_public a) (cfg_user_id cs) m server_keyed =
  if decide (m = authenticate_code cs) then (Ok true, set_session_state Authenticated server_keyed)
  else (Ok false, server_keyed).
Proof.
  unfold verify_authenticate_mac. rewrite eff_bind_run. cbn [gets Datatypes.id].
  change (ss_user_id server_keyed) with (cfg_user_id cs). rewrite Z.eqb_refl. cbn [negb].
  change (ss_key_pair server_keyed) with (Some (EcdhKeyPair_generate b)).
  change (ss_user_password server_keyed) with (derive_user_password (cfg_user_password cs)).
  rewrite eff_bind_run. cbn [lift ok_or]. rewrite eff_bind_run. cbn [public_key EcdhKeyPair_generate lift].
  rewrite public_xor, public_xor_comm. rewrite eff_bind_run. cbn [lift].
  rewrite handshake_mac_run by apply pbkdf2_length. rewrite eff_bind_run. cbn [lift].
  rewrite handshake_decrypt by apply pbkdf2_length.
  destruct (decide (m = _)) as [E|E].
  - by rewrite decide_True by by apply handshake_code_spec.
  - rewrite decide_False; [done|]. intros Hm. by apply E, handshake_code_spec.
Qed.
End handshake.
End session_lemmas.

(** * Properties *)
Section session_properties.
Context {crypto : CryptoOps} {laws : CryptoLaws}.

(** C9: Frames encrypted by one side of a session decrypt on the other, in
    order and whichever of them are lost on the way: every subsequence of the
    sender's frames gives the payloads of that subsequence. *)
Theorem secure_stream_delivery s r ps :
  paired s r → 0 ≤ ss_sequence_number s → ss_sequence_number s + Z.of_nat (length ps) ≤ 2 ^ 48 →
  fresh (ss_sequence_number s) (ss_sequence_number_received r) →
  ∃ fs, (mapM encrypt_frame ps s).1 = Ok fs ∧ length fs = length ps ∧
    ∀ sub, sublist sub (zip ps fs) → (mapM decrypt_frame sub.*2 r).1 = Ok sub.*1.
Proof.
  intros Hp H0 Hn Hf. exists (encrypted_all s ps). split_and!.
  - apply encrypt_all_run; [apply Hp|done|lia].
  - apply length_imap.
  - intros sub. by apply decrypt_sublist.
Qed.

(** Replay protection, whatever frames arrive: the positive sequence numbers
    a session accepts are strictly increasing, so no frame with a positive
    number is accepted twice, and a session that has accepted a positive number
    accepts only larger ones. *)
Theorem secure_no_replay fs r :
  StronglySorted Z.lt (filter (λ n, 0 < n) (accepted fs r)) ∧
  (0 < ss_sequence_number_received r → Forall (λ n, ss_sequence_number_received r < n) (accepted fs r)).
Proof.
  split; [|intros Hr; by apply accepted_above].
  revert r. induction fs as [|f fs IH]; intros r; [constructor|].
  destruct (accepted_cons f fs r) as [->|[Hf ->]]; [apply IH|].
  destruct (decide (0 < wire_sequence f)) as [Hpos|Hneg].
  - rewrite filter_cons_True by done. constructor; [apply IH|].
    destruct (accepted_above fs (set_received (wire_sequence f) r)) as [Ha _]; [done|].
    rewrite Forall_forall in Ha |- *. intros n [_ Hn]%list_elem_of_filter. by apply Ha.
  - rewrite filter_cons_False by done. apply IH.
Qed.

(** The first frame of a session carries the number 0, and as long as no
    other has been accepted it is accepted again every time it is replayed. *)
Theorem secure_first_frame_replayable s r p k :
  paired s r → ss_sequence_number s = 0 → ss_sequence_number_received r = 0 →
  (encrypt_frame p s).1 = Ok (encrypted s p) ∧
  accepted (replicate k (encrypted s p)) r = replicate k 0.
Proof.
  intros Hp H0 Hr. split; [by rewrite encrypt_frame_run by apply Hp|].
  revert r Hp Hr. induction k as [|k IH]; intros r Hp Hr; [done|]. cbn [replicate accepted].
  pose proof (decrypt_encrypted p s r Hp) as Hd. rewrite H0 in Hd.
  rewrite Hd by (lia || right; done). rewrite IH by done. f_equal.
  pose proof (decrypt_frame_accepts (encrypted s p) r p (set_received 0 r)) as Ha.
  destruct Ha as [E _]; [apply Hd; [lia|by right]|].
  by apply (f_equal ss_sequence_number_received) in E.
Qed.
(** The handshake of a client and a server with the same user and password,
    whose device authentication codes agree where the client checks one: every
    step succeeds, the server accepts the client's code and no other, and both
    end authenticated with the same session key and number and with their
    counters at 0, so that frames flow both ways. *)
Theorem secure_handshake cc cs a b id :
  cfg_user_id cc = cfg_user_id cs → cfg_user_password cc = cfg_user_password cs →
  cfg_device_auth_password cc = None ∨ cfg_device_auth_password cc = cfg_device_auth_password cs →
  u16_ok id →
  ∃ pc c1 ps s1 ms s2 mc c2 s3 c3,
    SecureSession_initialize a (SecureSession_new cc) = (Ok pc, c1) ∧
    SecureSession_initialize b (SecureSession_new cs) = (Ok ps, s1) ∧
    process_session_request pc id s1 = (Ok ms, s2) ∧
    process_session_response id ps ms c1 = (Ok mc, c2) ∧
    (∀ m, verify_authenticate_mac pc (cfg_user_id cc) m s2
          = if decide (m = mc) then (Ok true, s3) else (Ok false, s2)) ∧
    complete_authentication 0 c2 = (Ok tt, c3) ∧
    is_authenticated c3 = true ∧ is_authenticated s3 = true ∧ is_authenticated s2 = false ∧
    paired c3 s3 ∧ paired s3 c3 ∧
    ss_sequence_number c3 = 0 ∧ ss_sequence_number s3 = 0 ∧
    ss_sequence_number_received c3 = 0 ∧ ss_sequence_number_received s3 = 0.
Proof.
  intros Hu Hp Hd Hid.
  eexists _, _, _, _, _, _, _, _, (set_session_state Authenticated (server_keyed cs a b id)),
    (set_session_state Authenticated (client_keyed cc a b id)).
  do 2 (split; [apply initialize_run|]). split; [apply request_run|]. split; [by apply response_run|].
  split. { intros m. rewrite Hu, verify_run. unfold authenticate_code. by rewrite Hu, Hp. }
  split; [done|]. split; [done|]. split; [done|]. split; [done|].
  split_and!; try done.
  - split; [split_and!; [done|apply (agreed_key_length a b)|done]|].
    split; [apply (agreed_key_comm b a)|done].
  - split; [split_and!; [done|apply (agreed_key_length b a)|done]|].
    split; [apply (agreed_key_comm a b)|done].
Qed.
End session_properties.

(** ** Witnesses *)
Section session_witnesses.
Existing Instances toy_crypto toy_crypto_laws.
Definition toy_session : SecureSession :=
  MkSecureSession 7 (MkSessionKey (map Z.of_nat (seq 1 16)) true) 0 0 Authenticated None None [] 1.
Lemma toy_paired : paired toy_session toy_session.
Proof. split_and!; [|done|done]. split_and!; [done|done|]. vm_compute. split; congruence. Qed.

Lemma secure_handshake_witness : ∃ ms s2 mc c2,
  process_session_request (x25519_public [3]) 7 (started (MkSessionConfig 1 [65; 66] (Some [67]) 60) [5]) = (Ok ms, s2) ∧
  process_session_response 7 (x25519_public [5]) ms (started (MkSessionConfig 1 [65; 66] (Some [67]) 30) [3]) = (Ok mc, c2).
Proof.
  destruct (secure_handshake (MkSessionConfig 1 [65; 66] (Some [67]) 30) (MkSessionConfig 1 [65; 66] (Some [67]) 60)
    [3] [5] 7) as (pc & c1 & ps & s1 & ms & s2 & mc & c2 & s3 & c3 & H1 & H2 & H3 & H4 & _);
    [reflexivity|reflexivity|right; reflexivity|vm_compute; split; congruence|].
  exists ms, s2, mc, c2. injection H1 as <- <-. injection H2 as <- <-. exact (conj H3 H4).
Defined.
Lemma secure_stream_delivery_witness : ∃ fs,
  (mapM encrypt_frame [[1; 2; 3]; []; [4]] toy_session).1 = Ok fs ∧ length fs = 3%nat.
Proof.
  destruct (secure_stream_delivery toy_session toy_session [[1; 2; 3]; []; [4]] toy_paired)
    as (fs & H1 & H2 & _); [done|vm_compute; congruence|right; reflexivity|].
  exists fs. exact (conj H1 H2).
Defined.
Lemma secure_no_replay_witness :
  Forall (λ n, 5 < n) (accepted [encrypted toy_session [9]] (set_received 5 toy_session)).
Proof. apply (secure_no_replay [encrypted toy_session [9]] (set_received 5 toy_session)). done. Defined.
Lemma secure_first_frame_replayable_witness :
  accepted (replicate 3 (encrypted toy_session [9])) toy_session = [0; 0; 0].
Proof. apply (secure_first_frame_replayable toy_session toy_session [9] 3 toy_paired); reflexivity. Defined.
End session_witnesses.
