(* ===== verification/DataSecure.v ===== *)
(** KNX Data Secure for group telegrams: the key ring
    ([src/src/security/keys.rs]) and the encryption of group payloads
    ([src/src/security/group.rs]). *)
From Stdlib Require Import Sorting.Sorted.
From S2P Require Import Prelude Errors Address Crypto.

(** * Keys *)
Record SecurityKey := MkSecurityKey { key_bytes : list Z }.
Definition SecurityKey_new (key : list Z) : SecurityKey := MkSecurityKey key.
Definition SecurityKey_as_bytes (k : SecurityKey) : list Z := key_bytes k.
Definition SecurityKey_len (k : SecurityKey) : nat := length (key_bytes k).
Definition SecurityKey_is_empty (k : SecurityKey) : bool := (length (key_bytes k) =? 0)%nat.

(** [hex.replace([' ', ':'], "")]. *)
Fixpoint strip_separators (s : string) : string :=
  match s with
  | EmptyString => EmptyString
  | String c s =>
      if (c =? " ")%char || (c =? ":")%char then strip_separators s
      else String c (strip_separators s)
  end.
(** [hex_decode] is [hex::decode] of the crate [hex], with its error's text. *)
Definition SecurityKey_from_hex (hex_decode : string → outcome string (list Z)) (hex : string)
    : result SecurityKey :=
  match hex_decode (strip_separators hex) with
  | Ok key => Ok (SecurityKey_new key)
  | Err e => serr (InvalidCredentials ("Invalid hex key: " +:+ e))
  | Panic => Panic
  end.

Record SecurityCredentials := MkSecurityCredentials {
  sc_user_id : Z;
  sc_user_password : SecurityKey;
  device_auth : option SecurityKey;
  backbone_key : option SecurityKey;
}.
Definition SecurityCredentials_new (user_id : Z) (user_password : SecurityKey) : SecurityCredentials :=
  MkSecurityCredentials user_id user_password None None.
Definition with_device_auth (c : SecurityCredentials) (k : SecurityKey) : SecurityCredentials :=
  MkSecurityCredentials (sc_user_id c) (sc_user_password c) (Some k) (backbone_key c).
Definition with_backbone_key (c : SecurityCredentials) (k : SecurityKey) : SecurityCredentials :=
  MkSecurityCredentials (sc_user_id c) (sc_user_password c) (device_auth c) (Some k).

Record KeyRing := MkKeyRing {
  group_keys : gmap GroupAddress SecurityKey;
  sequence_numbers : gmap IndividualAddress Z;
  tunnel_credentials : gmap string SecurityCredentials;
}.
Definition KeyRing_new : KeyRing := MkKeyRing ∅ ∅ ∅.
Definition add_group_key (r : KeyRing) (address : GroupAddress) (key : SecurityKey) : KeyRing :=
  MkKeyRing (<[address := key]> (group_keys r)) (sequence_numbers r) (tunnel_credentials r).
Definition get_group_key (r : KeyRing) (address : GroupAddress) : option SecurityKey :=
  group_keys r !! address.
Definition is_group_secured (r : KeyRing) (address : GroupAddress) : bool :=
  bool_decide (is_Some (group_keys r !! address)).
Definition secured_groups (r : KeyRing) : gset GroupAddress := dom (group_keys r).
Definition set_sequence_number (r : KeyRing) (address : IndividualAddress) (seq : Z) : KeyRing :=
  MkKeyRing (group_keys r) (<[address := seq]> (sequence_numbers r)) (tunnel_credentials r).
Definition get_sequence_number (r : KeyRing) (address : IndividualAddress) : option Z :=
  sequence_numbers r !! address.
Definition validate_sequence (address : IndividualAddress) (seq : Z) : eff KeyRing KnxError unit :=
  r ← gets id;
  let insert := modify (λ r, set_sequence_number r address seq) in
  match sequence_numbers r !! address with
  | Some last_seq =>
      if seq <=? last_seq
      then throw (Security (CryptographicError "sequence validation"
             ("Sequence number " +:+ dec seq +:+ " not greater than last valid " +:+ dec last_seq)))
      else insert
  | None => insert
  end.
Definition add_tunnel_credentials (r : KeyRing) (host : string) (c : SecurityCredentials) : KeyRing :=
  MkKeyRing (group_keys r) (sequence_numbers r) (<[host := c]> (tunnel_credentials r)).
Definition get_tunnel_credentials (r : KeyRing) (host : string) : option SecurityCredentials :=
  tunnel_credentials r !! host.
Definition group_key_count (r : KeyRing) : nat := size (group_keys r).
Definition sender_count (r : KeyRing) : nat := size (sequence_numbers r).

(** * Group payloads *)
Definition MAC_LENGTH : nat := 4.
Definition SEQ_LENGTH : nat := 6.

Definition build_counter_0 (seq_bytes : list Z) : list Z := [0x01] ++ seq_bytes ++ replicate 9 0.
Definition build_block_0 (seq_bytes : list Z) (payload_len : nat) : list Z :=
  [0x49] ++ seq_bytes ++ replicate 7 0 ++ to_be16 (as_u16 (Z.of_nat payload_len)).
Definition seq_to_bytes (sequence_number : Z) : list Z := drop 2 (to_be 8 sequence_number).

Section group.
Context {crypto : CryptoOps}.

Definition no_group_key (destination : GroupAddress) : KnxError :=
  Security (InvalidCredentials ("No group key for " +:+ GroupAddress_display destination)).

Definition encrypt_group_payload (keyring : KeyRing) (destination : GroupAddress)
    (payload : list Z) (sequence_number : Z) : result (list Z) :=
  key ← ok_or (get_group_key keyring destination) (no_group_key destination);
  let seq_bytes := seq_to_bytes sequence_number in
  let block_0 := build_block_0 seq_bytes (length payload) in
  let counter_0 := build_counter_0 seq_bytes in
  mac_full ← calculate_mac_cbc (SecurityKey_as_bytes key) seq_bytes payload block_0;
  '(encrypted_payload, encrypted_mac) ←
    encrypt_ctr (SecurityKey_as_bytes key) counter_0 mac_full payload;
  mac ← slice encrypted_mac 0 MAC_LENGTH;
  Ok (seq_bytes ++ encrypted_payload ++ mac).

Definition group_decrypt_error (reason : string) : KnxError :=
  Security (CryptographicError "group decrypt" reason).

Definition decrypt_group_payload (keyring : KeyRing) (destination : GroupAddress)
    (secured_payload : list Z) : result (list Z) :=
  let min_len := (SEQ_LENGTH + MAC_LENGTH)%nat in
  let len := length secured_payload in
  if (len <? min_len)%nat
  then Err (group_decrypt_error ("Secured payload too short: " +:+ dec_nat len
         +:+ " bytes (minimum " +:+ dec_nat min_len +:+ ")"))
  else
    key ← ok_or (get_group_key keyring destination) (no_group_key destination);
    seq_bytes ← slice secured_payload 0 SEQ_LENGTH;
    encrypted_data ← slice secured_payload SEQ_LENGTH (len - MAC_LENGTH);
    encrypted_mac ← slice_from secured_payload (len - MAC_LENGTH);
    let counter_0 := build_counter_0 seq_bytes in
    let mac_padded := encrypted_mac ++ replicate 12 0 in
    '(decrypted_payload, decrypted_mac_full) ←
      decrypt_ctr (SecurityKey_as_bytes key) counter_0 mac_padded encrypted_data;
    let block_0 := build_block_0 seq_bytes (length decrypted_payload) in
    expected_mac ← calculate_mac_cbc (SecurityKey_as_bytes key) seq_bytes decrypted_payload block_0;
    expected ← slice expected_mac 0 MAC_LENGTH;
    decrypted ← slice decrypted_mac_full 0 MAC_LENGTH;
    if negb (bool_decide (expected = decrypted)) then Err (group_decrypt_error "MAC verification failed")
    else Ok decrypted_payload.
End group.

(** * Lemmas *)
Section group_lemmas.
Context {crypto : CryptoOps} {laws : CryptoLaws}.

Lemma length_counter sq : length sq = 6%nat → length (build_counter_0 sq) = 16%nat.
Proof. intros E. unfold build_counter_0. by rewrite !length_app, E. Qed.
Lemma length_block sq n : length sq = 6%nat → length (build_block_0 sq n) = 16%nat.
Proof. intros E. unfold build_block_0. by rewrite !length_app, E. Qed.

(** The code of a payload under a key and a sequence number, and the secured
    payload that carries it. *)
Definition group_mac (key sq p : list Z) : list Z :=
  default [] (result_ok (calculate_mac_cbc key sq p (build_block_0 sq (length p)))).
Definition secured (key sq p : list Z) : list Z :=
  sq ++ apply_keystream key (build_counter_0 sq) 16 p
     ++ apply_keystream key (build_counter_0 sq) 0 (take 4 (group_mac key sq p)).
Lemma group_mac_run key sq p : length key = 16%nat → length sq = 6%nat →
  calculate_mac_cbc key sq p (build_block_0 sq (length p)) = Ok (group_mac key sq p) ∧
  length (group_mac key sq p) = 16%nat.
Proof.
  intros Hk Hs. unfold group_mac.
  by destruct (mac_Ok key sq p (build_block_0 sq (length p))) as (m & -> & ?); [done|by apply length_block|].
Qed.

Lemma encrypt_secured r dst key p n :
  get_group_key r dst = Some key → length (key_bytes key) = 16%nat →
  encrypt_group_payload r dst p n = Ok (secured (key_bytes key) (to_be 6 n) p).
Proof.
  intros Hg Hk. unfold encrypt_group_payload. rewrite Hg. cbn [ok_or mbind outcome_bind]. cbv zeta.
  change (seq_to_bytes n) with (to_be 6 n). assert (length (to_be 6 n) = 6%nat) as Hs by apply length_to_be.
  destruct (group_mac_run (key_bytes key) (to_be 6 n) p) as [E Hm]; [done..|].
  unfold SecurityKey_as_bytes. rewrite E. cbn [mbind outcome_bind]. unfold encrypt_ctr.
  rewrite ctr_Ok by (done || by apply length_counter). cbn [mbind outcome_bind].
  rewrite (proj2 (slice_Ok _ 0 MAC_LENGTH _))
    by (rewrite length_apply_keystream, Hm; unfold MAC_LENGTH; split; [lia|done]).
  cbn [mbind outcome_bind]. unfold secured. rewrite Hm. unfold MAC_LENGTH. cbn [Nat.sub].
  by rewrite drop_0, take_apply_keystream.
Qed.

(** A payload long enough for both fields, taken apart. *)
Lemma secured_split (f : list Z) :
  (10 ≤ length f)%nat → ∃ sq d m, f = sq ++ d ++ m ∧ length sq = 6%nat ∧ length m = 4%nat.
Proof.
  intros Hl. exists (take 6 f), (take (length f - 10) (drop 6 f)), (drop (length f - 4) f).
  replace (length f - 4)%nat with (6 + (length f - 10))%nat by lia. rewrite <-drop_drop, !take_drop.
  rewrite length_take, !length_drop. split; [done|lia].
Qed.
Lemma decrypt_secured r dst key sq d m :
  get_group_key r dst = Some key → length (key_bytes key) = 16%nat →
  length sq = 6%nat → length m = 4%nat →
  let p := apply_keystream (key_bytes key) (build_counter_0 sq) 16 d in
  decrypt_group_payload r dst (sq ++ d ++ m) =
  if bool_decide (take 4 (group_mac (key_bytes key) sq p)
                  = apply_keystream (key_bytes key) (build_counter_0 sq) 0 m)
  then Ok p else Err (group_decrypt_error "MAC verification failed").
Proof.
  intros Hg Hk Hs Hm p. unfold decrypt_group_payload. cbv zeta. unfold MAC_LENGTH, SEQ_LENGTH.
  rewrite !length_app, (proj2 (Nat.ltb_ge _ _)) by lia. rewrite Hg. cbn [ok_or mbind outcome_bind].
  rewrite (slice_app_at [] sq (d ++ m) 0 6) by (cbn; lia). cbn [mbind outcome_bind].
  rewrite (slice_app_at sq d) by lia. cbn [mbind outcome_bind].
  rewrite app_assoc, slice_from_app by (rewrite length_app; lia). cbn [mbind outcome_bind].
  unfold SecurityKey_as_bytes, decrypt_ctr. rewrite ctr_Ok by (done || by apply length_counter).
  rewrite length_app, length_replicate, Hm. cbn [Nat.add mbind outcome_bind]. fold p.
  destruct (group_mac_run (key_bytes key) sq p) as [E Hl]; [done..|]. rewrite E. cbn [mbind outcome_bind].
  rewrite (proj2 (slice_Ok (group_mac _ _ _) 0 4 _)) by (rewrite Hl; split; [lia|done]). cbn [mbind outcome_bind Nat.sub].
  rewrite (proj2 (slice_Ok (apply_keystream _ _ _ _) 0 4 _))
    by (rewrite length_apply_keystream, length_app, Hm; split; [cbn; lia|done]).
  cbn [mbind outcome_bind Nat.sub]. rewrite !drop_0, take_apply_keystream, take_app_length' by done.
  by destruct (bool_decide _).
Qed.

(** The sequence numbers a key ring accepts from one sender, in order. *)
Fixpoint accepted_from (a : IndividualAddress) (es : list (IndividualAddress * Z)) (r : KeyRing)
    : list Z :=
  match es with
  | [] => []
  | (b, n) :: es =>
      match validate_sequence b n r with
      | (Ok _, r) => (if decide (b = a) then [n] else []) ++ accepted_from a es r
      | (_, r) => accepted_from a es r
      end
  end.
Lemma validate_sequence_run b n r :
  validate_sequence b n r =
  if match get_sequence_number r b with Some l => n <=? l | None => false end
  then (Err (Security (CryptographicError "sequence validation"
          ("Sequence number " +:+ dec n +:+ " not greater than last valid "
           +:+ dec (default 0 (get_sequence_number r b))))), r)
  else (Ok tt, set_sequence_number r b n).
Proof.
  unfold validate_sequence, get_sequence_number. rewrite eff_bind_run. cbn [gets id].
  destruct (sequence_numbers r !! b) as [l|]; [|done]. by destruct (n <=? l).
Qed.
Lemma accepted_from_above a es r :
  StronglySorted Z.lt (accepted_from a es r) ∧
  (∀ l, get_sequence_number r a = Some l → Forall (λ n, l < n) (accepted_from a es r)).
Proof.
  revert r. induction es as [|[b n] es IH]; intros r; [by repeat constructor|]. cbn [accepted_from].
  rewrite validate_sequence_run. destruct (match get_sequence_number r b with Some l => n <=? l | None => false end) eqn:Hv; [apply IH|].
  destruct (IH (set_sequence_number r b n)) as [Hs Ha]. unfold get_sequence_number in *.
  cbn [set_sequence_number sequence_numbers] in Ha. destruct (decide (b = a)) as [->|Hne]; cbn [app].
  - rewrite lookup_insert_eq in Ha. specialize (Ha n eq_refl). split; [by constructor|].
    intros l El. rewrite El in Hv. apply Z.leb_gt in Hv. constructor; [done|].
    eapply Forall_impl; [exact Ha|]. cbn. lia.
  - rewrite lookup_insert_ne in Ha by done. done.
Qed.
End group_lemmas.

(** * Properties *)
Section group_properties.
Context {crypto : CryptoOps} {laws : CryptoLaws}.

(** With a 16-byte key for the group, [decrypt_group_payload] accepts
    exactly what [encrypt_group_payload] makes with that key, and returns the
    payload that was encrypted: the round trip, and that no other 10 bytes or
    more pass; without a key for the group both refuse. *)
Theorem group_payload_exact r dst f p :
  bytes_ok f → (∀ key, get_group_key r dst = Some key → SecurityKey_len key = 16%nat) →
  decrypt_group_payload r dst f = Ok p ↔
  ∃ n, 0 ≤ n < 2 ^ 48 ∧ encrypt_group_payload r dst p n = Ok f.
Proof.
  intros Hb Hkey. destruct (get_group_key r dst) as [key|] eqn:Hg; cycle 1.
  { unfold decrypt_group_payload, encrypt_group_payload. rewrite Hg.
    split; [by case_match|by intros (? & _ & ?)]. }
  pose proof (Hkey key eq_refl) as Hk. unfold SecurityKey_len in Hk. split.
  - intros Hd. assert (10 ≤ length f)%nat as Hl.
    { unfold decrypt_group_payload in Hd. case_match eqn:E; [done|]. by apply Nat.ltb_ge in E. }
    destruct (secured_split f Hl) as (sq & d & m & -> & Hs & Hm).
    rewrite (decrypt_secured r dst key) in Hd by done. case_bool_decide as E; [|done]. injection Hd as <-.
    apply bytes_ok_app in Hb as [Hb _]. exists (from_be sq). split.
    { pose proof (from_be_bound sq Hb) as Hn. by rewrite Hs in Hn. }
    rewrite (encrypt_secured r dst key) by done.
    replace (to_be 6 (from_be sq)) with sq by (by rewrite <-Hs, to_be_from_be).
    unfold secured. by rewrite E, !apply_keystream_twice.
  - intros (n & Hn & He). rewrite (encrypt_secured r dst key) in He by done.
    pose proof (length_to_be 6 n) as Hs. generalize dependent (to_be 6 n). intros sq [= <-] Hs.
    destruct (group_mac_run (key_bytes key) sq p) as [_ Hm]; [done..|].
    unfold secured. rewrite (decrypt_secured r dst key);
      [|done|done|done|rewrite length_apply_keystream, length_take; lia].
    by rewrite !apply_keystream_twice, bool_decide_eq_true_2.
Qed.

(** [validate_sequence] over any sequence of senders and numbers: what each
    sender's numbers that are accepted form is strictly increasing, above the
    number stored before, whatever the other senders do. *)
Theorem validate_sequence_increasing a es r :
  StronglySorted Z.lt (accepted_from a es r) ∧
  (∀ l, get_sequence_number r a = Some l → Forall (λ n, l < n) (accepted_from a es r)).
Proof. apply accepted_from_above. Qed.
End group_properties.

(** ** Witnesses *)
Section group_witnesses.
Existing Instances toy_crypto toy_crypto_laws.
Definition toy_ring : KeyRing :=
  add_group_key KeyRing_new (MkGroupAddress 0x0A03) (SecurityKey_new (map Z.of_nat (seq 1 16))).
Definition toy_secured : list Z :=
  default [] (result_ok (encrypt_group_payload toy_ring (MkGroupAddress 0x0A03) [1; 0x80] 300)).
Lemma group_payload_exact_witness :
  decrypt_group_payload toy_ring (MkGroupAddress 0x0A03) toy_secured = Ok [1; 0x80].
Proof.
  apply (group_payload_exact toy_ring (MkGroupAddress 0x0A03) toy_secured [1; 0x80]).
  - apply (bool_decide_unpack (Forall (λ b, 0 ≤ b < 256) toy_secured)). vm_compute. exact I.
  - intros key E. apply (f_equal (fmap SecurityKey_len)) in E. revert E. vm_compute. congruence.
  - exists 300. split; [lia|]. vm_compute. reflexivity.
Defined.
Lemma validate_sequence_increasing_witness :
  Forall (λ n, 5 < n) (accepted_from (MkIndividualAddress 1)
    [(MkIndividualAddress 1, 5); (MkIndividualAddress 1, 6)] (set_sequence_number toy_ring (MkIndividualAddress 1) 5)).
Proof. apply (validate_sequence_increasing (MkIndividualAddress 1)). reflexivity. Defined.
End group_witnesses.
