(* ===== verification/Router.v ===== *)
(** The frame router of the receive loop ([src/src/transport/router.rs]).

    A [tokio::sync::oneshot] channel is an identifier: [channels] records how
    many were created, which receivers are still alive, and which frame each
    was sent.  [FrameRouter] holds the senders.  The lock makes [register] and
    [dispatch] atomic, so an execution is a sequence of steps. *)
From Stdlib Require Import Sorting.Sorted.
From S2P Require Import Prelude Errors Address KnxIp.

(** * One-shot channels *)
Record channels := MkChannels {
  next_chan : nat;
  rx_live : gset nat;
  delivered : gmap nat KnxIpFrame;
}.

Definition oneshot_channel (ch : channels) : nat * channels :=
  (next_chan ch,
   MkChannels (S (next_chan ch)) ({[next_chan ch]} ∪ rx_live ch) (delivered ch)).

(** [tx.send(frame)]: fails, giving the frame back, when the receiver is gone. *)
Definition oneshot_send (tx : nat) (frame : KnxIpFrame) (ch : channels)
    : channels * option KnxIpFrame :=
  if decide (tx ∈ rx_live ch)
  then (MkChannels (next_chan ch) (rx_live ch) (<[tx := frame]> (delivered ch)), None)
  else (ch, Some frame).

(** Dropping a receiver (a caller's timeout). *)
Definition drop_rx (rx : nat) (ch : channels) : channels :=
  MkChannels (next_chan ch) (rx_live ch ∖ {[rx]}) (delivered ch).

(** * The router *)
Record FrameRouter := MkFrameRouter { waiters : gmap Z (list nat) }.

Definition FrameRouter_new : FrameRouter := MkFrameRouter ∅.

Definition FrameRouter_register (r : FrameRouter) (ch : channels) (s : ServiceType.ServiceType)
    : nat * FrameRouter * channels :=
  let '(tx, ch) := oneshot_channel ch in
  let key := ServiceType_as_u16 s in
  (tx, MkFrameRouter (<[key := default [] (waiters r !! key) ++ [tx]]> (waiters r)), ch).

(** The [while !queue.is_empty()] loop: the rest of the queue and, when every
    sender failed, the frame. *)
Fixpoint dispatch_queue (queue : list nat) (frame : KnxIpFrame) (ch : channels)
    : list nat * channels * option KnxIpFrame :=
  match queue with
  | [] => ([], ch, Some frame)
  | tx :: queue =>
      match oneshot_send tx frame ch with
      | (ch, None) => (queue, ch, None)
      | (ch, Some returned) => dispatch_queue queue returned ch
      end
  end.

Definition FrameRouter_dispatch (r : FrameRouter) (ch : channels) (frame : KnxIpFrame)
    : option KnxIpFrame * FrameRouter * channels :=
  let key := ServiceType_as_u16 (service_type (header frame)) in
  match waiters r !! key with
  | None => (Some frame, r, ch)
  | Some queue =>
      match dispatch_queue queue frame ch with
      | (queue, ch, None) =>
          (None,
           MkFrameRouter (match queue with
                          | [] => delete key (waiters r)
                          | _ => <[key := queue]> (waiters r)
                          end), ch)
      | (_, ch, Some frame) => (Some frame, MkFrameRouter (delete key (waiters r)), ch)
      end
  end.

(** * Executions *)
Inductive router_op :=
| OpRegister (s : ServiceType.ServiceType)
| OpDrop (rx : nat)
| OpDispatch (frame : KnxIpFrame).

Definition router_step (op : router_op) (st : FrameRouter * channels) : FrameRouter * channels :=
  match op with
  | OpRegister s => let '(_, r, ch) := FrameRouter_register st.1 st.2 s in (r, ch)
  | OpDrop rx => (st.1, drop_rx rx st.2)
  | OpDispatch f => let '(_, r, ch) := FrameRouter_dispatch st.1 st.2 f in (r, ch)
  end.

Definition router_init : FrameRouter * channels := (FrameRouter_new, MkChannels 0 ∅ ∅).

Definition router_run (ops : list router_op) : FrameRouter * channels :=
  foldl (flip router_step) router_init ops.

(** The service each waiter registered for, by waiter identifier. *)
Definition registrations (ops : list router_op) : list ServiceType.ServiceType :=
  omap (λ op, match op with OpRegister s => Some s | _ => None end) ops.

(** * Dispatch on one queue *)
Section dispatch.
Implicit Types (q : list nat) (f : KnxIpFrame) (ch : channels).

Lemma oneshot_send_live tx f ch :
  tx ∈ rx_live ch →
  oneshot_send tx f ch =
    (MkChannels (next_chan ch) (rx_live ch) (<[tx := f]> (delivered ch)), None).
Proof. intros. unfold oneshot_send. by rewrite decide_True. Qed.
Lemma oneshot_send_dead tx f ch : tx ∉ rx_live ch → oneshot_send tx f ch = (ch, Some f).
Proof. intros. unfold oneshot_send. by rewrite decide_False. Qed.

(** The oldest live waiter gets the frame; the dead ones before it are gone. *)
Lemma dispatch_queue_spec q f ch :
  (∃ dead w rest, q = dead ++ w :: rest ∧ Forall (λ x, x ∉ rx_live ch) dead ∧ w ∈ rx_live ch ∧
     dispatch_queue q f ch =
       (rest, MkChannels (next_chan ch) (rx_live ch) (<[w := f]> (delivered ch)), None)) ∨
  (Forall (λ x, x ∉ rx_live ch) q ∧ dispatch_queue q f ch = ([], ch, Some f)).
Proof.
  induction q as [|w q IH]; [by right|]. cbn [dispatch_queue].
  destruct (decide (w ∈ rx_live ch)) as [Hw|Hw].
  - left. exists [], w, q. rewrite oneshot_send_live by done. by split_and!.
  - rewrite oneshot_send_dead by done.
    destruct IH as [(dead & w' & rest & -> & Hd & Hw' & ->)|[Hq ->]].
    + left. exists (w :: dead), w', rest. split_and!; [done| |done|done]. by constructor.
    + right. split; [by constructor|done].
Qed.
End dispatch.

(** * The invariant

    Identifiers are the registration numbers; a queued waiter has not been
    served, is queued under the service it registered for, and queues are in
    registration order; a served waiter got a frame of its service. *)
Record router_inv (regs : list ServiceType.ServiceType) (st : FrameRouter * channels) : Prop := {
  inv_next : next_chan st.2 = length regs;
  inv_queue : ∀ k q i, waiters st.1 !! k = Some q → i ∈ q →
    delivered st.2 !! i = None ∧ ∃ s, regs !! i = Some s ∧ ServiceType_as_u16 s = k;
  inv_order : ∀ k q, waiters st.1 !! k = Some q → StronglySorted lt q;
  inv_delivered : ∀ i f, delivered st.2 !! i = Some f → regs !! i = Some (service_type (header f));
}.

Lemma ServiceType_as_u16_inj s t : ServiceType_as_u16 s = ServiceType_as_u16 t → s = t.
Proof.
  intros Hst. pose proof (ServiceType_roundtrip s) as H1. rewrite Hst, ServiceType_roundtrip in H1.
  congruence.
Qed.

Lemma StronglySorted_snoc (q : list nat) n :
  StronglySorted lt q → Forall (λ i, (i < n)%nat) q → StronglySorted lt (q ++ [n]).
Proof.
  induction 1 as [|a q Hs IH Ha]; intros Hf; [repeat constructor|].
  apply Forall_cons in Hf as [Hfa Hf]. cbn. constructor; [by apply IH|].
  apply Forall_app. split; [done|by repeat constructor].
Qed.
Lemma StronglySorted_suffix (a b : list nat) : StronglySorted lt (a ++ b) → StronglySorted lt b.
Proof. induction a as [|x a IH]; [done|]. intros [? _]%StronglySorted_inv. auto. Qed.
Lemma StronglySorted_head_notin (w : nat) rest : StronglySorted lt (w :: rest) → w ∉ rest.
Proof.
  intros [_ Hf]%StronglySorted_inv Hin. rewrite Forall_forall in Hf. specialize (Hf _ Hin). lia.
Qed.

Lemma register_inv regs r ch s :
  router_inv regs (r, ch) →
  router_inv (regs ++ [s]) (router_step (OpRegister s) (r, ch)).
Proof.
  intros [Hn Hq Ho Hd]. cbn in *. assert (∀ k q i, waiters r !! k = Some q → i ∈ q →
    (i < length regs)%nat) as Hlt.
  { intros k q i Hk Hi. destruct (Hq _ _ _ Hk Hi) as (_ & t & Ht & _). by eapply lookup_lt_Some. }
  assert (delivered ch !! length regs = None) as Hfresh.
  { destruct (delivered ch !! length regs) eqn:E; [|done].
    apply Hd, lookup_lt_Some in E. lia. }
  assert (∀ i t, regs !! i = Some t → (regs ++ [s]) !! i = Some t) as Hext
    by (intros; by apply lookup_app_l_Some).
  split; cbn; [rewrite length_app; simpl; lia| | |eauto].
  - intros k q i. rewrite lookup_insert_Some. intros [[<- <-]|[_ Hk]] Hi.
    + apply elem_of_app in Hi as [Hi|Hi%list_elem_of_singleton].
      * destruct (waiters r !! ServiceType_as_u16 s) as [q0|] eqn:Ek; cbn in Hi; [|by inv Hi].
        destruct (Hq _ _ _ Ek Hi) as (? & t & ? & ?). eauto.
      * subst i. rewrite Hn. split; [done|]. exists s. by rewrite list_lookup_middle.
    + destruct (Hq _ _ _ Hk Hi) as (? & t & ? & ?). eauto.
  - intros k q. rewrite lookup_insert_Some. intros [[<- <-]|[_ Hk]]; [|eauto].
    destruct (waiters r !! ServiceType_as_u16 s) as [q0|] eqn:Ek; cbn; [|repeat constructor].
    apply StronglySorted_snoc; [eauto|]. apply Forall_forall. rewrite Hn. eauto.
Qed.

(** What a dispatch does to the state, in one statement. *)
Lemma dispatch_spec r ch f :
  let key := ServiceType_as_u16 (service_type (header f)) in
  let q := default [] (waiters r !! key) in
  (∃ dead w rest, q = dead ++ w :: rest ∧ Forall (λ x, x ∉ rx_live ch) dead ∧ w ∈ rx_live ch ∧
     FrameRouter_dispatch r ch f =
       (None,
        MkFrameRouter (match rest with [] => delete key (waiters r)
                                     | _ => <[key := rest]> (waiters r) end),
        MkChannels (next_chan ch) (rx_live ch) (<[w := f]> (delivered ch)))) ∨
  (Forall (λ x, x ∉ rx_live ch) q ∧
     FrameRouter_dispatch r ch f = (Some f, MkFrameRouter (delete key (waiters r)), ch)).
Proof.
  cbn zeta. unfold FrameRouter_dispatch. destruct (waiters r !! _) as [q|] eqn:Eq; cbn [default].
  - destruct (dispatch_queue_spec q f ch) as [(dead & w & rest & -> & Hd & Hw & ->)|[Hq ->]].
    + left. exists dead, w, rest. done.
    + right. done.
  - right. split; [done|]. rewrite delete_id by done. by destruct r.
Qed.

Lemma dispatch_inv regs r ch f :
  router_inv regs (r, ch) → router_inv regs (router_step (OpDispatch f) (r, ch)).
Proof.
  intros [Hn Hq Ho Hd]. cbn in *.
  pose proof (dispatch_spec r ch f) as Hspec. cbn zeta in Hspec.
  set (key := ServiceType_as_u16 (service_type (header f))) in Hspec.
  destruct Hspec as [(dead & w & rest & Eq & _ & _ & ->)|[_ ->]].
  - destruct (waiters r !! key) as [q|] eqn:Ek; cbn in Eq; [subst q|by destruct dead].
    pose proof (Ho _ _ Ek) as Hs. apply StronglySorted_suffix in Hs.
    destruct (Hq _ _ w Ek) as (Hw & s & Hs1 & Hs2); [set_solver|].
    apply ServiceType_as_u16_inj in Hs2 as ->.
    assert (∀ k q, match rest with [] => delete key (waiters r)
                   | _ => <[key := rest]> (waiters r) end !! k = Some q →
              k = key ∧ q = rest ∨ k ≠ key ∧ waiters r !! k = Some q) as Hlk.
    { intros k q. destruct rest.
      - rewrite lookup_delete_Some. naive_solver.
      - rewrite lookup_insert_Some. naive_solver. }
    split; cbn; [done| | |].
    + intros k q i [[-> ->]|[Hk Hkq]]%Hlk Hi.
      * rewrite lookup_insert_ne.
        { apply (Hq _ _ i Ek). set_solver. }
        intros ->. by apply (StronglySorted_head_notin _ _ Hs).
      * destruct (Hq _ _ _ Hkq Hi) as (Hi1 & s & Hi2 & Hi3). rewrite lookup_insert_ne; [eauto|].
        intros ->. rewrite Hs1 in Hi2. injection Hi2 as <-. done.
    + intros k q [[-> ->]|[Hk Hkq]]%Hlk; [|eauto]. by apply StronglySorted_inv in Hs as [? _].
    + intros i g. rewrite lookup_insert_Some. intros [[<- <-]|[_ Hg]]; eauto.
  - split; cbn; [done| | |done].
    + intros k q i [_ Hk]%lookup_delete_Some. eauto.
    + intros k q [_ Hk]%lookup_delete_Some. eauto.
Qed.

Lemma router_run_snoc ops op : router_run (ops ++ [op]) = router_step op (router_run ops).
Proof. unfold router_run. by rewrite foldl_snoc. Qed.
Lemma registrations_snoc ops op :
  registrations (ops ++ [op]) =
    registrations ops ++ match op with OpRegister s => [s] | _ => [] end.
Proof. unfold registrations. rewrite omap_app. by destruct op. Qed.

Lemma router_run_inv ops : router_inv (registrations ops) (router_run ops).
Proof.
  induction ops as [|op ops IH] using rev_ind; [split; cbn; intros *; by rewrite ?lookup_empty|].
  rewrite router_run_snoc, registrations_snoc. destruct (router_run ops) as [r ch].
  destruct op as [s|rx|f].
  - by apply register_inv.
  - rewrite app_nil_r. by destruct IH.
  - rewrite app_nil_r. by apply dispatch_inv.
Qed.

(** C29: Response correlation.  In every execution of registrations, receiver
    drops and dispatches, a waiter that received a frame had registered for
    exactly that frame's service type, and it is no longer queued anywhere, so
    no waiter is ever served twice. *)
Theorem router_correlates (ops : list router_op) (i : nat) (f : KnxIpFrame) :
  delivered (router_run ops).2 !! i = Some f →
  registrations ops !! i = Some (service_type (header f)) ∧
  ∀ k q, waiters (router_run ops).1 !! k = Some q → i ∉ q.
Proof.
  destruct (router_run_inv ops) as [_ Hq _ Hd]. intros Hi. split; [by apply Hd|].
  intros k q Hk Hin. destruct (Hq _ _ _ Hk Hin) as [? _]. congruence.
Qed.

(** Dispatch order and conservation of frames.  After any execution, a frame
    goes to the oldest registered waiter of its service that is still alive,
    and to no other; only when there is none is it handed back to the caller,
    and then nobody receives it. *)
Theorem router_dispatch_oldest_live (ops : list router_op) (f : KnxIpFrame) :
  let '(r, ch) := router_run ops in
  let queue := default [] (waiters r !! ServiceType_as_u16 (service_type (header f))) in
  let '(back, _, ch') := FrameRouter_dispatch r ch f in
  match back with
  | None => ∃ w, w ∈ queue ∧ w ∈ rx_live ch ∧ (∀ v, v ∈ queue → v ∈ rx_live ch → (w ≤ v)%nat) ∧
                 delivered ch' = <[w := f]> (delivered ch)
  | Some g => g = f ∧ (∀ v, v ∈ queue → v ∉ rx_live ch) ∧ ch' = ch
  end.
Proof.
  destruct (router_run_inv ops) as [_ _ Ho _]. destruct (router_run ops) as [r ch]. cbn in Ho |- *.
  destruct (dispatch_spec r ch f) as [(dead & w & rest & Eq & Hd & Hw & ->)|[Hq ->]].
  - rewrite Eq. exists w. split_and!; [set_solver|done| |done].
    destruct (waiters r !! _) as [q|] eqn:Ek; cbn in Eq; [subst q|by destruct dead].
    apply Ho, StronglySorted_suffix, StronglySorted_inv in Ek as [_ Hle].
    rewrite Forall_forall in Hle, Hd. intros v [Hv|[->|Hv]%elem_of_cons]%elem_of_app Hlive; [|lia|].
    + by destruct (Hd v Hv).
    + specialize (Hle v Hv). lia.
  - rewrite Forall_forall in Hq. done.
Qed.

Definition sample_frame (s : ServiceType.ServiceType) : KnxIpFrame :=
  MkKnxIpFrame (MkKnxIpHeader 6 0x10 s 8) [0; 0].

Lemma router_correlates_witness :
  registrations [OpRegister ServiceType.ConnectResponse; OpRegister ServiceType.ConnectResponse;
                 OpDrop 0; OpDispatch (sample_frame ServiceType.ConnectResponse)] !! 1%nat =
    Some ServiceType.ConnectResponse ∧
  ∀ k q, waiters (router_run
      [OpRegister ServiceType.ConnectResponse; OpRegister ServiceType.ConnectResponse;
       OpDrop 0; OpDispatch (sample_frame ServiceType.ConnectResponse)]).1 !! k = Some q → 1%nat ∉ q.
Proof.
  apply (router_correlates _ 1 (sample_frame ServiceType.ConnectResponse)).
  vm_compute. reflexivity.
Defined.
