(* ===== verification/AddressRegistry.v ===== *)
(** The individual-address registry ([src/src/transport/address_registry.rs]).
    Clones share their sets through [Arc], so one value of [AddressRegistry]
    is the state every holder sees; the locks make each operation atomic. *)
From S2P Require Import Prelude Errors Address.

Record AddressRegistry := MkAddressRegistry {
  claimed : gset IndividualAddress;
  known_occupied : gset IndividualAddress;
}.

Definition AddressRegistry_new : AddressRegistry := MkAddressRegistry ∅ ∅.

Definition AddressRegistry_claim (addr : IndividualAddress) (r : AddressRegistry)
    : result unit * AddressRegistry :=
  if decide (addr ∈ claimed r)
  then (terr (TransportInvalidConfiguration
          ("Address " +:+ IndividualAddress_display addr +:+ " already claimed")), r)
  else (Ok tt, MkAddressRegistry ({[addr]} ∪ claimed r) (known_occupied r)).

Definition AddressRegistry_release (addr : IndividualAddress) (r : AddressRegistry)
    : AddressRegistry :=
  MkAddressRegistry (claimed r ∖ {[addr]}) (known_occupied r).

Definition AddressRegistry_is_claimed (addr : IndividualAddress) (r : AddressRegistry) : bool :=
  bool_decide (addr ∈ claimed r).

Definition AddressRegistry_add_known_occupied (addr : IndividualAddress) (r : AddressRegistry)
    : AddressRegistry :=
  MkAddressRegistry (claimed r) ({[addr]} ∪ known_occupied r).

Definition AddressRegistry_is_available (addr : IndividualAddress) (r : AddressRegistry) : bool :=
  if bool_decide (addr ∈ claimed r) then false else negb (bool_decide (addr ∈ known_occupied r)).

(** * Executions *)
Inductive registry_op :=
| Claim (addr : IndividualAddress)
| Release (addr : IndividualAddress)
| AddKnownOccupied (addr : IndividualAddress).

#[global] Instance registry_op_eq_dec : EqDecision registry_op.
Proof. solve_decision. Defined.

Definition registry_step (op : registry_op) (r : AddressRegistry) : AddressRegistry :=
  match op with
  | Claim a => (AddressRegistry_claim a r).2
  | Release a => AddressRegistry_release a r
  | AddKnownOccupied a => AddressRegistry_add_known_occupied a r
  end.
Definition registry_run (ops : list registry_op) (r : AddressRegistry) : AddressRegistry :=
  foldl (flip registry_step) r ops.

Section registry.
Implicit Types (r : AddressRegistry) (a b : IndividualAddress).

Lemma claim_Ok a r :
  a ∉ claimed r →
  AddressRegistry_claim a r = (Ok tt, MkAddressRegistry ({[a]} ∪ claimed r) (known_occupied r)).
Proof. intros. unfold AddressRegistry_claim. by rewrite decide_False. Qed.
Lemma claim_is_ok a r : is_ok (AddressRegistry_claim a r).1 = true ↔ a ∉ claimed r.
Proof. unfold AddressRegistry_claim. by case_decide. Qed.
Lemma claim_claimed a b r :
  b ∈ claimed (AddressRegistry_claim a r).2 ↔ b = a ∨ b ∈ claimed r.
Proof. unfold AddressRegistry_claim. case_decide; set_solver. Qed.
Lemma is_available_spec a r :
  AddressRegistry_is_available a r = true ↔ (a ∉ claimed r) ∧ a ∉ known_occupied r.
Proof.
  unfold AddressRegistry_is_available. repeat case_bool_decide; simpl; naive_solver.
Qed.

Lemma run_keeps_claimed ops a r :
  a ∈ claimed r → Release a ∉ ops → a ∈ claimed (registry_run ops r).
Proof.
  revert r. induction ops as [|op ops IH]; intros r Ha Hr; [done|].
  apply not_elem_of_cons in Hr as [Hne Hr]. simpl. apply IH; [|done].
  destruct op as [b|b|b]; simpl.
  - apply claim_claimed. by right.
  - apply elem_of_difference. split; [done|]. apply not_elem_of_singleton. by intros ->.
  - done.
Qed.

(** Mutual exclusion.  In any execution starting with a successful claim
    of an address, a later claim of the same address can only succeed when the
    address was released in between. *)
Theorem registry_mutual_exclusion (a : IndividualAddress) (r : AddressRegistry)
    (ops : list registry_op) :
  is_ok (AddressRegistry_claim a r).1 = true →
  is_ok (AddressRegistry_claim a (registry_run ops (AddressRegistry_claim a r).2)).1 = true →
  Release a ∈ ops.
Proof.
  intros _ H2%claim_is_ok. destruct (decide (Release a ∈ ops)) as [|Hn]; [done|].
  destruct H2. apply run_keeps_claimed; [|done]. apply claim_claimed. by left.
Qed.

(** The registry's answers.  An address is available exactly when it is
    neither claimed nor known-occupied; claiming succeeds exactly when the
    address is unclaimed (known-occupied does not block a claim) and leaves
    every other address as it was; releasing makes it claimable again. *)
Theorem registry_functional (a b : IndividualAddress) (r : AddressRegistry) :
  (AddressRegistry_is_available a r = true ↔ (a ∉ claimed r) ∧ a ∉ known_occupied r) ∧
  (is_ok (AddressRegistry_claim a r).1 = true ↔ a ∉ claimed r) ∧
  (b ∈ claimed (AddressRegistry_claim a r).2 ↔ b = a ∨ b ∈ claimed r) ∧
  is_ok (AddressRegistry_claim a (AddressRegistry_release a r)).1 = true ∧
  (b ∈ claimed (AddressRegistry_release a r) ↔ b ≠ a ∧ b ∈ claimed r).
Proof.
  split_and!; [apply is_available_spec|apply claim_is_ok|apply claim_claimed| |].
  - apply claim_is_ok. simpl. set_solver.
  - simpl. set_solver.
Qed.
End registry.

Lemma registry_mutual_exclusion_witness :
  Release (MkIndividualAddress 0x1101) ∈ [Release (MkIndividualAddress 0x1101)].
Proof.
  apply (registry_mutual_exclusion _ AddressRegistry_new); vm_compute; reflexivity.
Defined.
