(* ===== verification/Heartbeat.v ===== *)
(** The heartbeat monitor ([src/src/transport/heartbeat.rs]) and, at the end,
    the part of the loop of [Tunnel::start_heartbeat]
    ([src/src/transport/tunnel.rs]) that feeds it the outcome of each cycle; the
    task itself, with its requests and responses, is in [HeartbeatTask].
    Instants are nanosecond counts. *)
From S2P Require Import Prelude Errors.

Record HeartbeatConfig := MkHeartbeatConfig {
  interval : Z;
  hb_timeout : Z;
  max_failures : Z;
}.

Definition HeartbeatConfig_default : HeartbeatConfig :=
  {| interval := 60000000000; hb_timeout := 10000000000; max_failures := 3 |}.

Record HeartbeatEvent := MkHeartbeatEvent { ok : bool; latency_ms : option Z }.

Record HeartbeatMonitor := MkHeartbeatMonitor {
  config : HeartbeatConfig;
  hb_channel_id : Z;
  label : string;
  consecutive_failures : Z;
  tunnel_lost : bool;
  last_success : option Z;
}.

Definition HeartbeatMonitor_new (c : HeartbeatConfig) (channel : Z) (l : string)
    : HeartbeatMonitor :=
  {| config := c; hb_channel_id := channel; label := l; consecutive_failures := 0;
     tunnel_lost := false; last_success := None |}.

Definition HeartbeatMonitor_is_tunnel_lost (m : HeartbeatMonitor) : bool := tunnel_lost m.

Definition HeartbeatMonitor_record_success (now : Z) (m : HeartbeatMonitor) : HeartbeatMonitor :=
  {| config := config m; hb_channel_id := hb_channel_id m; label := label m;
     consecutive_failures := 0; tunnel_lost := tunnel_lost m; last_success := Some now |}.

(** [fetch_add] wraps the stored counter; the [+ 1] on the value it returns is
    a checked addition in a debug build. *)
Definition HeartbeatMonitor_record_failure `{Profile} (m : HeartbeatMonitor)
    : result (bool * HeartbeatMonitor) :=
  let old := consecutive_failures m in
  if debug_build && (255 <=? old) then Panic
  else
    let failures := as_u8 (old + 1) in
    let lost := max_failures (config m) <=? failures in
    Ok (lost,
        {| config := config m; hb_channel_id := hb_channel_id m; label := label m;
           consecutive_failures := failures;
           tunnel_lost := if lost then true else tunnel_lost m;
           last_success := last_success m |}).

(** * The loop

    One cycle's outcome: the request could not be sent, no valid OK response
    arrived in time, or one did (at a time, with a latency). *)
Inductive cycle := SendFailed | NoResponse | Answered (now latency : Z).

(** [loop { ... }] of the heartbeat task on the outcomes of its cycles: the
    events it emits, the final monitor, and whether it broke out declaring the
    tunnel lost. *)
Fixpoint heartbeat_loop `{Profile} (cycles : list cycle) (m : HeartbeatMonitor)
    : result (bool * list HeartbeatEvent * HeartbeatMonitor) :=
  match cycles with
  | [] => Ok (false, [], m)
  | c :: cycles =>
      match c with
      | Answered now latency =>
          '(lost, events, m) ← heartbeat_loop cycles (HeartbeatMonitor_record_success now m);
          Ok (lost, MkHeartbeatEvent true (Some latency) :: events, m)
      | SendFailed | NoResponse =>
          '(dead, m) ← HeartbeatMonitor_record_failure m;
          if dead : bool then Ok (true, [MkHeartbeatEvent false None], m)
          else
            '(lost, events, m) ← heartbeat_loop cycles m;
            Ok (lost, MkHeartbeatEvent false None :: events, m)
      end
  end.

(** * Specification *)
Definition failed (c : cycle) : bool := match c with Answered _ _ => false | _ => true end.

(** The tunnel is lost at the first cycle that completes [n] failures in a
    row; [k] failures have been seen already. *)
Fixpoint lost_spec (n k : nat) (cycles : list cycle) : bool :=
  match cycles with
  | [] => false
  | c :: cycles =>
      if failed c then (n <=? S k)%nat || lost_spec n (S k) cycles else lost_spec n 0 cycles
  end.

Section heartbeat.
Context `{Profile}.

Lemma record_failure_Ok m :
  0 ≤ consecutive_failures m < 255 →
  HeartbeatMonitor_record_failure m =
    Ok (max_failures (config m) <=? consecutive_failures m + 1,
        {| config := config m; hb_channel_id := hb_channel_id m; label := label m;
           consecutive_failures := consecutive_failures m + 1;
           tunnel_lost := if max_failures (config m) <=? consecutive_failures m + 1
                          then true else tunnel_lost m;
           last_success := last_success m |}).
Proof.
  intros Hf. unfold HeartbeatMonitor_record_failure.
  rewrite (proj2 (Z.leb_gt _ _)) by lia. rewrite andb_false_r.
  by rewrite as_u8_small by (unfold u8_ok; lia).
Qed.

Lemma heartbeat_loop_spec cycles m n :
  max_failures (config m) = Z.of_nat n → (1 ≤ n ≤ 255)%nat →
  0 ≤ consecutive_failures m → consecutive_failures m < Z.of_nat n →
  ∃ events m', heartbeat_loop cycles m =
      Ok (lost_spec n (Z.to_nat (consecutive_failures m)) cycles, events, m') ∧
    tunnel_lost m' = tunnel_lost m || lost_spec n (Z.to_nat (consecutive_failures m)) cycles.
Proof.
  revert m. induction cycles as [|c cycles IH]; intros m Hmax Hn H0 Hlt.
  { exists [], m. split; [done|]. by rewrite orb_false_r. }
  assert (failed c = true → ∃ events m',
    heartbeat_loop (c :: cycles) m =
      Ok (lost_spec n (Z.to_nat (consecutive_failures m)) (c :: cycles), events, m') ∧
    tunnel_lost m' =
      tunnel_lost m || lost_spec n (Z.to_nat (consecutive_failures m)) (c :: cycles)) as Hfail.
  { intros Hc. assert (heartbeat_loop (c :: cycles) m =
      '(dead, m) ← HeartbeatMonitor_record_failure m;
      if dead : bool then Ok (true, [MkHeartbeatEvent false None], m)
      else '(lost, events, m) ← heartbeat_loop cycles m;
           Ok (lost, MkHeartbeatEvent false None :: events, m)) as -> by by destruct c.
    rewrite record_failure_Ok by lia. cbn [mbind outcome_bind lost_spec]. rewrite Hc, Hmax.
    destruct (Z.leb_spec (Z.of_nat n) (consecutive_failures m + 1)) as [Hle|Hgt].
    - rewrite (proj2 (Nat.leb_le _ _)) by lia. eexists _, _. split; [done|].
      cbn. by rewrite orb_true_r.
    - rewrite (proj2 (Nat.leb_gt _ _)) by lia. cbn [orb].
      edestruct IH as (ev & m' & Hl & Ht).
      5: { rewrite Hl. cbn [mbind outcome_bind consecutive_failures] in *.
           rewrite Z2Nat.inj_add in * by lia. rewrite Nat.add_1_r in *.
           eexists _, m'. split; [done|]. exact Ht. }
      all: cbn; lia. }
  destruct c as [| |now lat]; [by apply Hfail..|]. clear Hfail.
  cbn [heartbeat_loop lost_spec failed].
  edestruct IH as (ev & m' & Hl & Ht).
  5: { rewrite Hl. cbn [mbind outcome_bind] in *. eexists _, m'. split; [done|]. exact Ht. }
  all: cbn; lia.
Qed.

(** [n] failures in a row, somewhere in the outcomes. *)
Definition failure_run (n : nat) (outcomes : list bool) : Prop :=
  ∃ pre post, outcomes = pre ++ replicate n true ++ post.

Lemma failure_run_skip n k bs :
  (k < n)%nat → failure_run n (replicate k true ++ false :: bs) ↔ failure_run n bs.
Proof.
  intros Hk. split.
  - intros (pre & post & E).
    assert (k < length pre)%nat as Hp.
    { assert ((pre ++ replicate n true ++ post) !! k = Some false) as Hl
        by (rewrite <-E; apply list_lookup_middle; by rewrite length_replicate).
      destruct (decide (k < length pre)%nat) as [|Hge]; [done|].
      rewrite lookup_app_r in Hl by lia.
      rewrite lookup_app_l in Hl by (rewrite length_replicate; lia).
      apply lookup_replicate in Hl as [? _]. done. }
    exists (drop (S k) pre), post. apply (f_equal (drop (S k))) in E.
    rewrite (drop_app_le pre) in E by lia.
    rewrite <-E, drop_app_ge, length_replicate by (rewrite length_replicate; lia).
    by replace (S k - k)%nat with 1%nat by lia.
  - intros (pre & post & ->). exists (replicate k true ++ false :: pre), post.
    by rewrite <-app_assoc.
Qed.

Lemma lost_spec_run n k cycles :
  (k < n)%nat →
  lost_spec n k cycles = true ↔ failure_run n (replicate k true ++ (failed <$> cycles)).
Proof.
  revert k. induction cycles as [|c cycles IH]; intros k Hk; cbn [lost_spec fmap list_fmap].
  - split; [done|]. intros (pre & post & E). apply (f_equal length) in E.
    rewrite !length_app, !length_replicate in E. simpl in E. lia.
  - destruct (failed c).
    + rewrite orb_true_iff.
      replace (replicate k true ++ true :: (failed <$> cycles))
        with (replicate (S k) true ++ (failed <$> cycles))
        by (by rewrite replicate_S_end, <-app_assoc).
      destruct (Nat.leb_spec n (S k)).
      * replace n with (S k) by lia. split; [|by left]. intros _. by exists [], (failed <$> cycles).
      * rewrite IH by lia. naive_solver.
    + rewrite IH by lia. rewrite failure_run_skip by done. done.
Qed.

(** The heartbeat declares the tunnel lost exactly when [max_failures]
    consecutive cycles failed (send error, timeout or bad response), never
    earlier and never later, whatever cycles succeed in between; the failure
    counter stays in its byte. *)
Theorem heartbeat_lost_iff (c : HeartbeatConfig) (channel : Z) (l : string)
    (cycles : list cycle) :
  1 ≤ max_failures c ≤ 255 →
  ∃ lost events m', heartbeat_loop cycles (HeartbeatMonitor_new c channel l) = Ok (lost, events, m') ∧
    HeartbeatMonitor_is_tunnel_lost m' = lost ∧
    (lost = true ↔ failure_run (Z.to_nat (max_failures c)) (failed <$> cycles)).
Proof.
  intros Hm. destruct (heartbeat_loop_spec cycles (HeartbeatMonitor_new c channel l)
    (Z.to_nat (max_failures c))) as (ev & m' & Hl & Ht); [cbn; lia..|].
  eexists _, ev, m'. split; [exact Hl|]. split; [exact Ht|].
  apply (lost_spec_run _ 0). lia.
Qed.

(** In a debug build a 256th consecutive failure overflows the [u8] counter
    and panics; in a release build it wraps to zero and is not reported as
    lost.  (The loop stops at [max_failures], so only a caller that keeps
    recording failures reaches it.) *)
Theorem heartbeat_counter_overflow (m : HeartbeatMonitor) :
  consecutive_failures m = 255 → 1 ≤ max_failures (config m) →
  if debug_build then HeartbeatMonitor_record_failure m = Panic
  else ∃ m', HeartbeatMonitor_record_failure m = Ok (false, m') ∧ consecutive_failures m' = 0.
Proof.
  intros Hf Hm. unfold HeartbeatMonitor_record_failure. rewrite Hf.
  destruct debug_build; [done|]. change (as_u8 (255 + 1)) with 0. cbn [andb] in *|-*.
  rewrite (proj2 (Z.leb_gt _ _)) by lia. by eexists.
Qed.
End heartbeat.

Section witnesses.
#[local] Instance heartbeat_release : Profile := {| debug_build := false |}.

Lemma heartbeat_lost_iff_witness :
  ∃ lost events m',
    heartbeat_loop [SendFailed; NoResponse; NoResponse]
      (HeartbeatMonitor_new HeartbeatConfig_default 1 "t") = Ok (lost, events, m') ∧
    HeartbeatMonitor_is_tunnel_lost m' = lost ∧
    (lost = true ↔ failure_run (Z.to_nat (max_failures HeartbeatConfig_default))
                     (failed <$> [SendFailed; NoResponse; NoResponse])).
Proof. apply heartbeat_lost_iff. simpl. lia. Defined.

Lemma heartbeat_counter_overflow_witness :
  ∃ m', HeartbeatMonitor_record_failure
      (MkHeartbeatMonitor HeartbeatConfig_default 1 "t" 255 true None) = Ok (false, m') ∧
    consecutive_failures m' = 0.
Proof.
  exact (heartbeat_counter_overflow
    (MkHeartbeatMonitor HeartbeatConfig_default 1 "t" 255 true None) eq_refl ltac:(simpl; lia)).
Defined.
End witnesses.
