(* ===== verification/ReceiveLimiter.v ===== *)
(** The receive-path limiter ([src/src/transport/receive_limiter.rs]): a
    per-address fixed-window throttle in front of a bounded channel.

    [Instant::now()] is the argument [now], in nanoseconds.  The
    [tokio::sync::mpsc] channel is its buffer, its capacity and whether the
    receiver is gone.  The window counter (a [u32] reset every second) and the
    [u64] statistics are kept as unbounded integers: reaching their limits
    takes 2^32 telegrams within one second or 2^64 in total. *)
From Stdlib Require Import Sorting.Sorted.
From S2P Require Import Prelude Errors Address Telegram.

Record ReceiveLimitConfig := MkReceiveLimitConfig {
  queue_size : nat;
  per_address_max_per_sec : Z;
}.

Definition ReceiveLimitConfig_default : ReceiveLimitConfig :=
  {| queue_size := 1000; per_address_max_per_sec := 10 |}.

Inductive ReceiveResult :=
| Sent
| DroppedQueueFull
| DroppedThrottled (ga : GroupAddress).

#[global] Instance ReceiveResult_eq_dec : EqDecision ReceiveResult.
Proof. solve_decision. Defined.

Record AddressState := MkAddressState { count : Z; window_start : Z }.

Record ReceiveStats := MkReceiveStats {
  total_received : Z;
  total_sent : Z;
  dropped_queue_full : Z;
  dropped_throttled : Z;
}.

(** [tokio::sync::mpsc] with a bound. *)
Record mpsc := MkMpsc { buffer : list Telegram; capacity : nat; rx_closed : bool }.

Inductive try_send_error := Full | Closed.
Definition mpsc_try_send (t : Telegram) (c : mpsc) : option try_send_error * mpsc :=
  if rx_closed c then (Some Closed, c)
  else if (length (buffer c) <? capacity c)%nat
  then (None, MkMpsc (buffer c ++ [t]) (capacity c) (rx_closed c))
  else (Some Full, c).
Definition mpsc_recv (c : mpsc) : option Telegram * mpsc :=
  match buffer c with
  | [] => (None, c)
  | t :: b => (Some t, MkMpsc b (capacity c) (rx_closed c))
  end.

Record ReceiveRateLimiter := MkReceiveRateLimiter {
  limit_config : ReceiveLimitConfig;
  tx : mpsc;
  per_address : gmap GroupAddress AddressState;
  receive_stats : ReceiveStats;
}.

(** [mpsc::channel] panics on a zero capacity. *)
Definition ReceiveRateLimiter_new (c : ReceiveLimitConfig) : result ReceiveRateLimiter :=
  if (queue_size c =? 0)%nat then Panic
  else Ok {| limit_config := c; tx := MkMpsc [] (queue_size c) false; per_address := ∅;
             receive_stats := MkReceiveStats 0 0 0 0 |}.

Definition NANOS : Z := 1000000000.

(** [now.duration_since(earlier)], zero when [earlier] is later. *)
Definition duration_since (now earlier : Z) : Z := Z.max 0 (now - earlier).

Definition is_throttled (max now : Z) (ga : GroupAddress) (m : gmap GroupAddress AddressState)
    : bool * gmap GroupAddress AddressState :=
  let st := default (MkAddressState 0 now) (m !! ga) in
  if 1 <=? duration_since now (window_start st) / NANOS
  then (false, <[ga := MkAddressState 1 now]> m)
  else
    let count := count st + 1 in
    (max <? count, <[ga := MkAddressState count (window_start st)]> m).

Definition ReceiveRateLimiter_try_send (now : Z) (t : Telegram) (l : ReceiveRateLimiter)
    : ReceiveResult * ReceiveRateLimiter :=
  let max := per_address_max_per_sec (limit_config l) in
  let s := receive_stats l in
  let received := total_received s + 1 in
  let '(throttled, map) :=
    match destination t with
    | Group ga =>
        let '(b, m) := is_throttled max now ga (per_address l) in
        (if b then Some ga else None, m)
    | Individual _ => (None, per_address l)
    end in
  match throttled with
  | Some ga =>
      (DroppedThrottled ga,
       {| limit_config := limit_config l; tx := tx l; per_address := map;
          receive_stats := MkReceiveStats received (total_sent s) (dropped_queue_full s)
                             (dropped_throttled s + 1) |})
  | None =>
      let '(error, c) := mpsc_try_send t (tx l) in
      let '(r, sent, full) :=
        match error with
        | None => (Sent, total_sent s + 1, dropped_queue_full s)
        | Some Full => (DroppedQueueFull, total_sent s, dropped_queue_full s + 1)
        | Some Closed => (DroppedQueueFull, total_sent s, dropped_queue_full s)
        end in
      (r, {| limit_config := limit_config l; tx := c; per_address := map;
             receive_stats := MkReceiveStats received sent full (dropped_throttled s) |})
  end.

(** * Executions: sends by the limiter, receives and the end of the receiver *)
Inductive limiter_op := TrySend (now : Z) (t : Telegram) | Recv | CloseRx.

Definition limiter_step (op : limiter_op) (l : ReceiveRateLimiter)
    : option ReceiveResult * ReceiveRateLimiter :=
  match op with
  | TrySend now t => let '(r, l) := ReceiveRateLimiter_try_send now t l in (Some r, l)
  | Recv => (None, {| limit_config := limit_config l; tx := (mpsc_recv (tx l)).2;
                      per_address := per_address l; receive_stats := receive_stats l |})
  | CloseRx => (None, {| limit_config := limit_config l;
                         tx := MkMpsc (buffer (tx l)) (capacity (tx l)) true;
                         per_address := per_address l; receive_stats := receive_stats l |})
  end.

Fixpoint limiter_run (ops : list limiter_op) (l : ReceiveRateLimiter)
    : list (option ReceiveResult) * ReceiveRateLimiter :=
  match ops with
  | [] => ([], l)
  | op :: ops =>
      let '(r, l) := limiter_step op l in
      let '(rs, l) := limiter_run ops l in
      (r :: rs, l)
  end.

(** How many of the sends to [ga] got past the throttle. *)
Fixpoint passed (ga : GroupAddress) (ops : list limiter_op) (rs : list (option ReceiveResult)) : Z :=
  match ops, rs with
  | TrySend _ t :: ops, Some r :: rs =>
      (if bool_decide (destination t = Group ga) && bool_decide (r ≠ DroppedThrottled ga)
       then 1 else 0) + passed ga ops rs
  | _ :: ops, _ :: rs => passed ga ops rs
  | _, _ => 0
  end.

(** The sends of [ops] fall within one second starting at [from]. *)
Definition within_second (from : Z) (ops : list limiter_op) : Prop :=
  Forall (λ op, match op with TrySend now _ => from ≤ now < from + NANOS | _ => True end) ops.

(** * Invariants *)
Record limiter_inv (l : ReceiveRateLimiter) : Prop := {
  inv_capacity : (length (buffer (tx l)) ≤ capacity (tx l))%nat;
  inv_config_capacity : capacity (tx l) = queue_size (limit_config l);
  inv_counts : ∀ ga st, per_address l !! ga = Some st → 0 ≤ count st;
  inv_stats : total_sent (receive_stats l) + dropped_queue_full (receive_stats l)
              + dropped_throttled (receive_stats l) ≤ total_received (receive_stats l);
  inv_stats_open : rx_closed (tx l) = false →
    total_received (receive_stats l) = total_sent (receive_stats l)
      + dropped_queue_full (receive_stats l) + dropped_throttled (receive_stats l);
}.

Abbreviation limit l := (per_address_max_per_sec (limit_config l)).

Section limiter.
Implicit Types (l : ReceiveRateLimiter) (ga : GroupAddress) (t : Telegram).

Lemma is_throttled_counts max now ga m :
  (∀ g st, m !! g = Some st → 0 ≤ count st) →
  ∀ g st, (is_throttled max now ga m).2 !! g = Some st → 0 ≤ count st.
Proof.
  intros Hm g st. unfold is_throttled. destruct (1 <=? _); cbn; rewrite lookup_insert_Some;
    intros [[<- <-]|[_ Hg]]; cbn; eauto; [lia|].
  destruct (m !! ga) as [s|] eqn:E; cbn; [apply Hm in E|]; lia.
Qed.

Lemma try_send_inv now t l : limiter_inv l → limiter_inv (ReceiveRateLimiter_try_send now t l).2.
Proof.
  intros [Hc Hcc Hn Hs Ho]. unfold ReceiveRateLimiter_try_send.
  set (p := match destination t with Group _ => _ | Individual _ => _ end).
  assert (∀ g st, p.2 !! g = Some st → 0 ≤ count st) as Hp.
  { unfold p. destruct (destination t) as [ga|]; [|done].
    pose proof (is_throttled_counts (per_address_max_per_sec (limit_config l)) now ga _ Hn) as Hp.
    destruct (is_throttled _ _ _ _) as [b m]. exact Hp. }
  destruct p as [[ga|] m]; cbn in Hp.
  - split; cbn; try done; intros; try specialize (Ho ltac:(done)); lia.
  - unfold mpsc_try_send. destruct (rx_closed (tx l)) eqn:Ecl; [|destruct (Nat.ltb_spec (length (buffer (tx l))) (capacity (tx l)))];
      split; cbn; rewrite ?length_app, ?Ecl; try done; intros; cbn; try specialize (Ho ltac:(done)); lia.
Qed.

Lemma limiter_step_inv op l : limiter_inv l → limiter_inv (limiter_step op l).2.
Proof.
  intros Hl. destruct op as [now t| |]; cbn.
  - pose proof (try_send_inv now t l Hl) as H. by destruct (ReceiveRateLimiter_try_send now t l).
  - destruct Hl as [Hc Hcc Hn Hs Ho]. unfold mpsc_recv.
    destruct (buffer (tx l)) eqn:Eb; split; cbn in *; try done; rewrite ?Eb; cbn; try done; lia.
  - destruct Hl as [Hc Hcc Hn Hs Ho]. by split.
Qed.

Lemma limiter_run_inv ops l : limiter_inv l → limiter_inv (limiter_run ops l).2.
Proof.
  revert l. induction ops as [|op ops IH]; intros l Hl; [done|]. cbn.
  pose proof (limiter_step_inv op l Hl) as Hs. destruct (limiter_step op l) as [r l'].
  specialize (IH l' Hs). by destruct (limiter_run ops l').
Qed.

Lemma limiter_new_inv c l : ReceiveRateLimiter_new c = Ok l → limiter_inv l.
Proof.
  unfold ReceiveRateLimiter_new. destruct (_ =? 0)%nat; [done|]. intros [= <-].
  split; cbn; try done; lia.
Qed.

(** ** The throttle *)

(** Within a second of its start, a window lets at most [max] sends pass. *)
Definition budget (max : Z) (st : AddressState) : Z := Z.max 0 (max - count st).

Lemma is_throttled_other max now ga g m :
  g ≠ ga → (is_throttled max now ga m).2 !! g = m !! g.
Proof.
  intros. unfold is_throttled. destruct (1 <=? _); cbn; by rewrite lookup_insert_ne.
Qed.

Lemma is_throttled_window max now ga m from st :
  m !! ga = Some st → from ≤ window_start st → from ≤ now < from + NANOS →
  is_throttled max now ga m =
    (max <? count st + 1, <[ga := MkAddressState (count st + 1) (window_start st)]> m).
Proof.
  intros Hst Hw Hnow. unfold is_throttled. rewrite Hst. cbn [default].
  unfold duration_since, id. rewrite Z.div_small by (unfold NANOS in *; lia). done.
Qed.

(** The first send of an interval either opens a window or continues one. *)
Lemma is_throttled_first max now ga m :
  (∀ st, m !! ga = Some st → 0 ≤ count st) →
  let '(b, m') := is_throttled max now ga m in
  (b = false ∧ m' !! ga = Some (MkAddressState 1 now)) ∨
  ∃ c w, 0 ≤ c ∧ b = (max <? c + 1) ∧ m' !! ga = Some (MkAddressState (c + 1) w) ∧
         (m !! ga = None → c = 0 ∧ w = now) ∧
         (∀ st, m !! ga = Some st → c = count st ∧ w = window_start st).
Proof.
  intros Hm. unfold is_throttled. destruct (1 <=? _) eqn:E.
  - left. by rewrite lookup_insert_eq.
  - right. destruct (m !! ga) as [[c w]|] eqn:Em; cbn [default count window_start].
    + exists c, w. rewrite lookup_insert_eq. specialize (Hm _ eq_refl). cbn in Hm.
      split_and!; [done..| |]; [done|]. by intros ? [= <-].
    + exists 0, now. rewrite lookup_insert_eq. by split_and!.
Qed.

(** A send to [ga] is refused by the throttle exactly when [is_throttled] says so. *)
Lemma try_send_to ga now t l :
  destination t = Group ga →
  let '(b, m) := is_throttled (per_address_max_per_sec (limit_config l)) now ga (per_address l) in
  let '(r, l') := ReceiveRateLimiter_try_send now t l in
  per_address l' = m ∧ limit_config l' = limit_config l ∧ (r = DroppedThrottled ga ↔ b = true).
Proof.
  intros Hd. unfold ReceiveRateLimiter_try_send. rewrite Hd.
  destruct (is_throttled _ _ _ _) as [[] m]; cbn; [by split_and!|].
  destruct (mpsc_try_send t (tx l)) as [[[]|] c]; by split_and!.
Qed.
Lemma try_send_elsewhere ga now t l :
  destination t ≠ Group ga →
  let '(_, l') := ReceiveRateLimiter_try_send now t l in
  per_address l' !! ga = per_address l !! ga ∧ limit_config l' = limit_config l.
Proof.
  intros Hd. unfold ReceiveRateLimiter_try_send.
  destruct (destination t) as [g|a].
  - pose proof (is_throttled_other (per_address_max_per_sec (limit_config l)) now g ga
      (per_address l) ltac:(congruence)) as Ho.
    destruct (is_throttled _ _ _ _) as [[] m]; cbn in *; [done|].
    by destruct (mpsc_try_send t (tx l)) as [[[]|] c].
  - by destruct (mpsc_try_send t (tx l)) as [[[]|] c].
Qed.

Lemma limiter_other_op ga op l :
  match op with TrySend _ t => destination t ≠ Group ga | _ => True end →
  let '(_, l') := limiter_step op l in
  per_address l' !! ga = per_address l !! ga ∧ limit_config l' = limit_config l.
Proof.
  destruct op as [now t| |]; [|done..]. intros Hd. cbn.
  pose proof (try_send_elsewhere ga now t l Hd). by destruct (ReceiveRateLimiter_try_send now t l).
Qed.

Lemma passed_cons_other ga op ops r rs :
  match op with TrySend _ t => destination t ≠ Group ga | _ => True end →
  passed ga (op :: ops) (r :: rs) = passed ga ops rs.
Proof.
  destruct op as [now t| |]; [|done..]. intros Hd. cbn. destruct r; [|done].
  by rewrite bool_decide_eq_false_2.
Qed.

(** An operation concerns [ga] when it sends to it. *)
Lemma op_cases ga op :
  (∃ now t, op = TrySend now t ∧ destination t = Group ga) ∨
  match op with TrySend _ t => destination t ≠ Group ga | _ => True end.
Proof. destruct op as [now t| |]; [|by right..]. destruct (decide (destination t = Group ga)); eauto. Qed.

Lemma window_bound ga ops from l st :
  per_address l !! ga = Some st → from ≤ window_start st → within_second from ops →
  passed ga ops (limiter_run ops l).1 ≤ budget (per_address_max_per_sec (limit_config l)) st.
Proof.
  revert l st. induction ops as [|op ops IH]; intros l st Hst Hw Hops; [cbn; unfold budget; lia|].
  apply Forall_cons in Hops as [Hop Hops]. cbn [limiter_run].
  destruct (op_cases ga op) as [(now & t & -> & Hd)|Hother].
  - cbn [limiter_step]. pose proof (try_send_to ga now t l Hd) as Hs.
    rewrite (is_throttled_window _ _ _ _ from st) in Hs by done.
    destruct (ReceiveRateLimiter_try_send now t l) as [r l']. destruct Hs as (Hm & Hc & Hr).
    specialize (IH l' (MkAddressState (count st + 1) (window_start st))).
    rewrite Hm, Hc, lookup_insert_eq in IH. specialize (IH eq_refl Hw Hops).
    destruct (limiter_run ops l') as [rs l'']. cbn [fst passed] in *.
    rewrite bool_decide_eq_true_2 by done. unfold budget in *. cbn [count andb] in *.
    case_bool_decide as Hb; [|lia].
    assert (max_ok : ¬ per_address_max_per_sec (limit_config l) < count st + 1).
    { rewrite <-Z.ltb_lt. tauto. }
    lia.
  - pose proof (limiter_other_op ga op l Hother) as Hs.
    destruct (limiter_step op l) as [r l']. destruct Hs as [Hm Hc].
    specialize (IH l' st). rewrite Hm, Hc in IH. specialize (IH Hst Hw Hops).
    destruct (limiter_run ops l') as [rs l'']. cbn [fst] in *. by rewrite passed_cons_other.
Qed.

Lemma budget_le max st : 0 ≤ max → 0 ≤ count st → budget max st ≤ max.
Proof. unfold budget. lia. Qed.

(** Any one-second interval meets at most two windows. *)
Lemma interval_bound ga ops from l :
  0 ≤ per_address_max_per_sec (limit_config l) →
  (∀ st, per_address l !! ga = Some st → 0 ≤ count st) → within_second from ops →
  passed ga ops (limiter_run ops l).1 ≤
    match per_address l !! ga with
    | Some st => budget (per_address_max_per_sec (limit_config l)) st
    | None => 0
    end + Z.max 1 (per_address_max_per_sec (limit_config l)).
Proof.
  revert l. induction ops as [|op ops IH]; intros l Hmax Hcount Hops.
  { cbn. case_match; unfold budget; lia. }
  pose proof Hops as Hall. apply Forall_cons in Hops as [Hop Hops]. cbn [limiter_run].
  destruct (op_cases ga op) as [(now & t & -> & Hd)|Hother].
  - cbn [limiter_step]. pose proof (try_send_to ga now t l Hd) as Hs.
    pose proof (is_throttled_first (per_address_max_per_sec (limit_config l)) now ga
      (per_address l) Hcount) as Hf.
    destruct (is_throttled _ _ _ _) as [b m].
    destruct (ReceiveRateLimiter_try_send now t l) as [r l']. destruct Hs as (Hm & Hc & Hr).
    destruct Hf as [[-> Hst]|(c & w & Hc0 & -> & Hst & Hnone & Hsome)]; rewrite <-Hm in Hst.
    + pose proof (window_bound ga ops from l' _ Hst ltac:(cbn; lia) Hops) as Hb.
      destruct (limiter_run ops l') as [rs l'']. cbn [fst passed] in *. rewrite Hc in Hb.
      unfold budget in *. cbn [count] in Hb. destruct (_ && _), (per_address l !! ga); lia.
    + specialize (IH l'). rewrite Hc, Hst in IH. specialize (IH Hmax).
      assert (∀ st, Some (MkAddressState (c + 1) w) = Some st → 0 ≤ count st) as Hcn
        by (intros ? [= <-]; cbn; lia).
      destruct (per_address l !! ga) as [st|] eqn:Est.
      * specialize (IH Hcn Hops). destruct (limiter_run ops l') as [rs l''].
        cbn [fst passed] in *. rewrite bool_decide_eq_true_2 by done. cbn [andb].
        destruct (Hsome _ eq_refl) as [-> ->]. unfold budget in *. cbn [count] in IH.
        case_bool_decide as Hb; [|lia].
        assert (¬ per_address_max_per_sec (limit_config l) < count st + 1)
          by (rewrite <-Z.ltb_lt; tauto). lia.
      * destruct (Hnone eq_refl) as [-> ->].
        pose proof (window_bound ga ops from l' _ Hst ltac:(cbn; lia) Hops) as Hb.
        destruct (limiter_run ops l') as [rs l'']. cbn [fst passed] in *. rewrite Hc in Hb.
        unfold budget in *. cbn [count] in Hb. destruct (_ && _); lia.
  - pose proof (limiter_other_op ga op l Hother) as Hs.
    destruct (limiter_step op l) as [r l']. destruct Hs as [Hm Hc].
    specialize (IH l'). rewrite Hm, Hc in IH. specialize (IH Hmax Hcount Hops).
    destruct (limiter_run ops l') as [rs l'']. cbn [fst] in *. by rewrite passed_cons_other.
Qed.

Lemma limiter_step_config op l : limit_config (limiter_step op l).2 = limit_config l.
Proof.
  destruct op as [now t| |]; [|done..]. cbn. unfold ReceiveRateLimiter_try_send.
  destruct (match destination t with Group _ => _ | Individual _ => _ end) as [[] m]; [done|].
  by destruct (mpsc_try_send t (tx l)) as [[[]|] c].
Qed.
Lemma limiter_run_config ops l : limit_config (limiter_run ops l).2 = limit_config l.
Proof.
  revert l. induction ops as [|op ops IH]; intros l; [done|]. cbn.
  pose proof (limiter_step_config op l) as Hs. destruct (limiter_step op l) as [r l'].
  specialize (IH l'). destruct (limiter_run ops l'). cbn in *. congruence.
Qed.

(** ** What the throttle lets through *)

(** Telegrams offered one after the other, each with its time; and, of them, the
    ones past the throttle. *)
Definition offer_all (offers : list (Z * Telegram)) l : ReceiveRateLimiter :=
  foldl (λ l o, (ReceiveRateLimiter_try_send o.1 o.2 l).2) l offers.
Fixpoint let_through (max : Z) (m : gmap GroupAddress AddressState) (offers : list (Z * Telegram)) : list Telegram :=
  match offers with
  | [] => []
  | (at_, t) :: offers =>
      match destination t with
      | Group ga => let '(throttled, m) := is_throttled max at_ ga m in
          (if throttled then [] else [t]) ++ let_through max m offers
      | Individual _ => t :: let_through max m offers
      end
  end.
(** The offers to one address after a time; traffic of which no address gets more
    than [max] within a second; windows that are over by a time. *)
Definition offered_to ga (since : Z) (offers : list (Z * Telegram)) : list (Z * Telegram) :=
  filter (λ o, destination o.2 = Group ga ∧ since < o.1) offers.
Definition slow (max : Z) (offers : list (Z * Telegram)) : Prop := ∀ pre at_ t post ga,
  offers = pre ++ (at_, t) :: post → destination t = Group ga →
  Z.of_nat (length (offered_to ga (at_ - NANOS) (pre ++ [(at_, t)]))) ≤ max.
Definition expired l (offers : list (Z * Telegram)) : Prop := ∀ ga st, per_address l !! ga = Some st →
  Forall (λ o, window_start st + NANOS ≤ o.1) offers.

(** One offer to a channel that has room. *)
Lemma offer_run at_ t l : rx_closed (tx l) = false → (length (buffer (tx l)) < capacity (tx l))%nat →
  let l' := (ReceiveRateLimiter_try_send at_ t l).2 in
  let out := let_through (limit l) (per_address l) [(at_, t)] in
  tx l' = MkMpsc (buffer (tx l) ++ out) (capacity (tx l)) false ∧ limit_config l' = limit_config l ∧ (length out ≤ 1)%nat ∧
  ∀ offers, let_through (limit l) (per_address l) ((at_, t) :: offers) = out ++ let_through (limit l) (per_address l') offers.
Proof.
  intros Ho Hl. cbv zeta. unfold ReceiveRateLimiter_try_send. cbn [let_through].
  assert (mpsc_try_send t (tx l) = (None, MkMpsc (buffer (tx l) ++ [t]) (capacity (tx l)) false)) as E.
  { unfold mpsc_try_send. by rewrite Ho, (proj2 (Nat.ltb_lt _ _)). }
  destruct (destination t) as [ga|ia].
  - destruct (is_throttled (limit l) at_ ga (per_address l)) as [[] m]; cbn -[mpsc_try_send].
    + rewrite app_nil_r. split; [rewrite <-Ho; by destruct (tx l)|]. split_and!; [done|lia|done].
    + rewrite E. cbn. split_and!; [done|done|lia|done].
  - rewrite E. cbn. split_and!; [done|done|lia|done].
Qed.
Lemma offer_all_run offers l : rx_closed (tx l) = false → (length (buffer (tx l)) + length offers ≤ capacity (tx l))%nat →
  tx (offer_all offers l) = MkMpsc (buffer (tx l) ++ let_through (limit l) (per_address l) offers) (capacity (tx l)) false.
Proof.
  revert l. induction offers as [|[at_ t] offers IH]; intros l Ho Hl.
  { cbn. rewrite app_nil_r, <-Ho. by destruct (tx l). }
  cbn [length] in Hl. destruct (offer_run at_ t l Ho) as (Et & Ec & Hle & ->); [lia|]. cbv zeta in Et, Hle.
  unfold offer_all in *. cbn [foldl fst snd]. rewrite IH; rewrite Et; cbn [buffer capacity rx_closed].
  - by rewrite Ec, <-app_assoc.
  - done.
  - rewrite length_app. lia.
Qed.
(** A window is over for all that is still offered, or its count is at most
    what was offered ([pre]) since it began. *)
Definition counted (pre offers : list (Z * Telegram)) ga st : Prop :=
  Forall (λ o, window_start st + NANOS ≤ o.1) offers ∨
  Forall (λ o, window_start st ≤ o.1) offers ∧ count st ≤ Z.of_nat (length (offered_to ga (window_start st - 1) pre)).
Lemma counted_step pre o offers ga st : counted pre (o :: offers) ga st → counted (pre ++ [o]) offers ga st.
Proof.
  intros [[_ Hf]%Forall_cons|[[_ Hf]%Forall_cons Hc]]; [by left|right]. split; [done|].
  unfold offered_to in *. rewrite filter_app, length_app. lia.
Qed.
Lemma offered_to_snoc ga since pre at_ t : destination t = Group ga → since < at_ →
  length (offered_to ga since (pre ++ [(at_, t)])) = S (length (offered_to ga since pre)).
Proof. intros Hd Hs. unfold offered_to. rewrite filter_app, filter_cons_True, length_app by done. cbn. lia. Qed.
Lemma offered_to_mono ga s1 s2 pre : s2 ≤ s1 → (length (offered_to ga s1 pre) ≤ length (offered_to ga s2 pre))%nat.
Proof.
  intros Hs. unfold offered_to. induction pre as [|o pre IH]; [done|]. rewrite !filter_cons.
  repeat destruct (decide _); cbn; try lia. exfalso. naive_solver lia.
Qed.
(** The window an offer falls into. *)
Lemma open_window pre offers at_ t ga (m : gmap GroupAddress AddressState) : (∀ st, m !! ga = Some st → counted pre ((at_, t) :: offers) ga st) →
  Forall (λ o : Z * Telegram, at_ ≤ o.1) offers →
  (1 <=? duration_since at_ (window_start (default (MkAddressState 0 at_) (m !! ga))) / NANOS) = false →
  ∃ c w, default (MkAddressState 0 at_) (m !! ga) = MkAddressState c w ∧ w ≤ at_ ∧ at_ - w < NANOS ∧
    Forall (λ o, w ≤ o.1) offers ∧ c ≤ Z.of_nat (length (offered_to ga (w - 1) pre)).
Proof.
  intros Hm Hl Ew%Z.leb_gt. destruct (m !! ga) as [[c w]|]; cbn [default id window_start] in *.
  2: { exists 0, at_. unfold NANOS. split_and!; [done|lia|lia|done|lia]. }
  assert (at_ - w < NANOS) as Hd.
  { destruct (Z.lt_ge_cases (at_ - w) NANOS) as [|Hge]; [done|exfalso]. unfold duration_since, NANOS in *.
    pose proof (Z.div_le_lower_bound (Z.max 0 (at_ - w)) 1000000000 1). lia. }
  exists c, w. split; [done|]. destruct (Hm _ eq_refl) as [[Hf _]%Forall_cons|[[Hw Hf]%Forall_cons Hc]]; cbn in *; [lia|by split_and!].
Qed.
(** Slow traffic passes undiminished. *)
Lemma slow_passes max pre offers (m : gmap GroupAddress AddressState) :
  slow max (pre ++ offers) → StronglySorted Z.le offers.*1 → (∀ ga st, m !! ga = Some st → counted pre offers ga st) →
  let_through max m offers = offers.*2.
Proof.
  revert pre m. induction offers as [|[at_ t] offers IH]; intros pre m Hs Ht Hm; [done|].
  cbn [fmap list_fmap fst] in Ht. apply StronglySorted_inv in Ht as [Ht Hlater].
  assert (Forall (λ o : Z * Telegram, at_ ≤ o.1) offers) as Hl.
  { apply Forall_forall. intros o Ho. rewrite Forall_forall in Hlater. apply Hlater. by apply list_elem_of_fmap_2. }
  assert (slow max ((pre ++ [(at_, t)]) ++ offers)) as Hs' by by rewrite <-app_assoc.
  cbn [let_through fmap list_fmap snd]. destruct (destination t) as [ga|ia] eqn:Ed.
  2: { f_equal. apply (IH (pre ++ [(at_, t)])); [done|done|]. intros g st Hg. by apply counted_step, Hm. }
  assert (∀ c w, w ≤ at_ → Forall (λ o, w ≤ o.1) offers → c ≤ Z.of_nat (length (offered_to ga (w - 1) pre)) →
    ∀ g st, <[ga := MkAddressState (c + 1) w]> m !! g = Some st → counted (pre ++ [(at_, t)]) offers g st) as Hnext.
  { intros c w Hw Hf Hc g st [[<- <-]|[_ Hg]]%lookup_insert_Some; [|by apply counted_step, Hm].
    right. split; [done|]. cbn [count window_start]. rewrite offered_to_snoc by (done || lia). lia. }
  unfold is_throttled. destruct (1 <=? _) eqn:Ew.
  - cbn [app]. f_equal. apply (IH (pre ++ [(at_, t)])); [done|done|]. apply (Hnext 0); [lia|done|lia].
  - destruct (open_window pre offers at_ t ga m (Hm ga) Hl Ew) as (c & w & -> & Hw & Hd & Hf & Hc). cbn [count window_start].
    assert (Z.of_nat (length (offered_to ga (at_ - NANOS) (pre ++ [(at_, t)]))) ≤ max) as Hmax by by eapply Hs.
    rewrite offered_to_snoc in Hmax by (done || unfold NANOS; lia). pose proof (offered_to_mono ga (w - 1) (at_ - NANOS) pre ltac:(lia)).
    rewrite (proj2 (Z.ltb_ge _ _)) by lia. cbn [app]. f_equal. apply (IH (pre ++ [(at_, t)])); [done|done|]. by apply Hnext.
Qed.
(** If no address gets more than the limit within a second, all pass. *)
Lemma slow_let_through offers l : expired l offers → StronglySorted Z.le offers.*1 → slow (limit l) offers →
  let_through (limit l) (per_address l) offers = offers.*2.
Proof. intros He Ht Hs. apply (slow_passes _ []); [done|done|]. intros ga st Hst. left. by eapply He. Qed.

(** C28: Rate bound.  Whatever happened before, within any one-second interval
    at most [2 * max(1, per_address_max_per_sec)] telegrams to one group
    address get past the throttle (the fixed windows can meet in the middle of
    the interval), however traffic to other addresses interleaves. *)
Theorem receive_rate_bound (ga : GroupAddress) (c : ReceiveLimitConfig) (l : ReceiveRateLimiter)
    (before ops : list limiter_op) (from : Z) :
  0 ≤ per_address_max_per_sec c → ReceiveRateLimiter_new c = Ok l →
  within_second from ops →
  let l' := (limiter_run before l).2 in
  passed ga ops (limiter_run ops l').1 ≤ 2 * Z.max 1 (per_address_max_per_sec c).
Proof.
  intros Hmax Hl Hops l'. assert (limit_config l' = c) as Hc.
  { unfold l'. rewrite limiter_run_config. unfold ReceiveRateLimiter_new in Hl.
    destruct (_ =? 0)%nat; [done|]. by injection Hl as <-. }
  pose proof (limiter_run_inv before l (limiter_new_inv c l Hl)) as Hinv.
  fold l' in Hinv. pose proof (interval_bound ga ops from l') as Hb. rewrite Hc in Hb.
  specialize (Hb Hmax (inv_counts _ Hinv ga) Hops).
  destruct (per_address l' !! ga) as [st|] eqn:Est; [|lia].
  pose proof (budget_le _ st Hmax (inv_counts _ Hinv ga st Est)). lia.
Qed.

(** Backpressure and accounting.  After any execution the channel holds at
    most [queue_size] telegrams, and, as long as the receiver is alive, every
    telegram offered was counted exactly once: sent, dropped on a full queue or
    throttled.  (Drops on a closed channel are not counted.) *)
Theorem receive_limiter_accounting (c : ReceiveLimitConfig) (l : ReceiveRateLimiter)
    (ops : list limiter_op) :
  ReceiveRateLimiter_new c = Ok l →
  let l' := (limiter_run ops l).2 in
  let s := receive_stats l' in
  (length (buffer (tx l')) ≤ queue_size c)%nat ∧
  (rx_closed (tx l') = false →
     total_received s = total_sent s + dropped_queue_full s + dropped_throttled s) ∧
  total_sent s + dropped_queue_full s + dropped_throttled s ≤ total_received s.
Proof.
  intros Hl l' s. pose proof (limiter_run_inv ops l (limiter_new_inv c l Hl)) as [Hc Hcc _ Hs Ho].
  split_and!; [|exact Ho|exact Hs]. rewrite limiter_run_config in Hcc.
  unfold ReceiveRateLimiter_new in Hl. destruct (_ =? 0)%nat; [done|]. injection Hl as <-.
  rewrite Hcc in Hc. exact Hc.
Qed.
End limiter.

Definition sample_telegram (now raw : Z) : Telegram :=
  Telegram_received now (MkIndividualAddress 0x1105) (MkGroupAddress raw) GroupValueWrite [1].
Definition sample_limiter : ReceiveRateLimiter :=
  MkReceiveRateLimiter (MkReceiveLimitConfig 2 1) (MkMpsc [] 2 false) ∅ (MkReceiveStats 0 0 0 0).

Lemma receive_rate_bound_witness :
  passed (MkGroupAddress 1)
    [TrySend 999999999 (sample_telegram 999999999 1); TrySend 1000000001 (sample_telegram 1000000001 1)]
    (limiter_run
       [TrySend 999999999 (sample_telegram 999999999 1); TrySend 1000000001 (sample_telegram 1000000001 1)]
       (limiter_run [TrySend 0 (sample_telegram 0 2)] sample_limiter).2).1 ≤ 2 * Z.max 1 1.
Proof.
  apply (receive_rate_bound _ (MkReceiveLimitConfig 2 1) sample_limiter
    [TrySend 0 (sample_telegram 0 2)] _ 999999999).
  - done.
  - reflexivity.
  - unfold within_second, NANOS. repeat constructor; lia.
Defined.

Lemma receive_limiter_accounting_witness :
  let l' := (limiter_run [TrySend 0 (sample_telegram 0 1); Recv] sample_limiter).2 in
  let s := receive_stats l' in
  (length (buffer (tx l')) ≤ 2)%nat ∧
  (rx_closed (tx l') = false →
     total_received s = total_sent s + dropped_queue_full s + dropped_throttled s) ∧
  total_sent s + dropped_queue_full s + dropped_throttled s ≤ total_received s.
Proof. apply (receive_limiter_accounting (MkReceiveLimitConfig 2 1)). reflexivity. Defined.
