(* ===== verification/Connection.v ===== *)
(** Connection state, statistics ([src/src/transport/connection.rs]) and the
    health snapshot ([src/src/transport/health.rs], without [score], whose
    value is an [f64]).  Instants are nanosecond counts since the clock's
    origin; the [u64] counters are unbounded except where the source
    saturates. *)
From S2P Require Import Prelude Errors.

Inductive ConnectionState := Connecting | Connected | Disconnecting | Disconnected | Failed.
#[global] Instance ConnectionState_eq_dec : EqDecision ConnectionState.
Proof. solve_decision. Defined.

Definition ConnectionState_display (s : ConnectionState) : string :=
  match s with
  | Connecting => "connecting"
  | Connected => "connected"
  | Disconnecting => "disconnecting"
  | Disconnected => "disconnected"
  | Failed => "failed"
  end.

Record ConnectionStats := MkConnectionStats {
  frames_sent : Z;
  frames_received : Z;
  send_errors : Z;
  recv_errors : Z;
  connection_errors : Z;
  uptime_seconds : Z;
  last_error : option string;
  last_error_at : option Z;
}.

Definition ConnectionStats_default : ConnectionStats := MkConnectionStats 0 0 0 0 0 0 None None.

Definition ConnectionStats_record_error (now : Z) (text : string) (s : ConnectionStats)
    : ConnectionStats :=
  MkConnectionStats (frames_sent s) (frames_received s) (send_errors s) (recv_errors s)
    (connection_errors s) (uptime_seconds s) (Some text) (Some now).
Definition ConnectionStats_record_connection_error (now : Z) (text : string) (s : ConnectionStats) :=
  ConnectionStats_record_error now text
    (MkConnectionStats (frames_sent s) (frames_received s) (send_errors s) (recv_errors s)
       (connection_errors s + 1) (uptime_seconds s) (last_error s) (last_error_at s)).
Definition ConnectionStats_record_send_error (now : Z) (text : string) (s : ConnectionStats) :=
  ConnectionStats_record_error now text
    (MkConnectionStats (frames_sent s) (frames_received s) (send_errors s + 1) (recv_errors s)
       (connection_errors s) (uptime_seconds s) (last_error s) (last_error_at s)).
Definition ConnectionStats_record_receive_error (now : Z) (text : string) (s : ConnectionStats) :=
  ConnectionStats_record_error now text
    (MkConnectionStats (frames_sent s) (frames_received s) (send_errors s) (recv_errors s + 1)
       (connection_errors s) (uptime_seconds s) (last_error s) (last_error_at s)).

(** [stats.frames_sent += 1] and [stats.frames_received += 1] of the tunnel. *)
Definition count_sent (s : ConnectionStats) : ConnectionStats :=
  MkConnectionStats (frames_sent s + 1) (frames_received s) (send_errors s) (recv_errors s)
    (connection_errors s) (uptime_seconds s) (last_error s) (last_error_at s).
Definition count_received (s : ConnectionStats) : ConnectionStats :=
  MkConnectionStats (frames_sent s) (frames_received s + 1) (send_errors s) (recv_errors s)
    (connection_errors s) (uptime_seconds s) (last_error s) (last_error_at s).
Definition with_uptime (seconds : Z) (s : ConnectionStats) : ConnectionStats :=
  MkConnectionStats (frames_sent s) (frames_received s) (send_errors s) (recv_errors s)
    (connection_errors s) seconds (last_error s) (last_error_at s).

(** * Health *)
Record ConnectionHealth := MkConnectionHealth {
  health_state : ConnectionState;
  health_frames_sent : Z;
  health_frames_received : Z;
  health_connection_errors : Z;
  health_send_errors : Z;
  health_recv_errors : Z;
  observed_at : Z;
  connected_since : option Z;
  health_last_error : option string;
  health_last_error_at : option Z;
}.

Definition u64_MAX : Z := 18446744073709551615.
Definition saturating_add64 (a b : Z) : Z := Z.min u64_MAX (a + b).

(** [checked_sub] fails when the result would precede the clock's origin. *)
Definition ConnectionHealth_from_state_and_stats (now : Z) (st : ConnectionState)
    (s : ConnectionStats) : ConnectionHealth :=
  let since := now - uptime_seconds s * 1000000000 in
  {| health_state := st;
     health_frames_sent := frames_sent s; health_frames_received := frames_received s;
     health_connection_errors := connection_errors s; health_send_errors := send_errors s;
     health_recv_errors := recv_errors s;
     observed_at := now;
     connected_since :=
       if bool_decide (st = Connected) then (if since <? 0 then None else Some since) else None;
     health_last_error := last_error s; health_last_error_at := last_error_at s |}.

Definition ConnectionHealth_uptime (h : ConnectionHealth) : option Z :=
  (λ since, Z.max 0 (observed_at h - since)) <$> connected_since h.

Definition ConnectionHealth_total_errors (h : ConnectionHealth) : Z :=
  saturating_add64 (saturating_add64 (health_connection_errors h) (health_send_errors h))
    (health_recv_errors h).

(** A health snapshot reports an uptime exactly when the connection is
    connected (and the clock reaches back far enough), and then it is the
    connection's own uptime; the error total is the sum of the three error
    counters, saturated at the width of the counters. *)
Theorem health_snapshot (now : Z) (st : ConnectionState) (s : ConnectionStats) :
  0 ≤ uptime_seconds s → 0 ≤ connection_errors s → 0 ≤ send_errors s → 0 ≤ recv_errors s →
  let h := ConnectionHealth_from_state_and_stats now st s in
  (ConnectionHealth_uptime h =
     if bool_decide (st = Connected ∧ uptime_seconds s * 1000000000 ≤ now)
     then Some (uptime_seconds s * 1000000000) else None) ∧
  ConnectionHealth_total_errors h =
    Z.min u64_MAX (connection_errors s + send_errors s + recv_errors s).
Proof.
  intros Hu Hc Hs Hr. cbn zeta. split.
  - unfold ConnectionHealth_uptime, ConnectionHealth_from_state_and_stats. cbn.
    case_bool_decide as Hst; cbn.
    + destruct (Z.ltb_spec (now - uptime_seconds s * 1000000000) 0); cbn.
      * rewrite bool_decide_eq_false_2; [done|]. lia.
      * rewrite bool_decide_eq_true_2 by (split; [done|lia]). f_equal. lia.
    + rewrite bool_decide_eq_false_2; [done|]. tauto.
  - unfold ConnectionHealth_total_errors, saturating_add64. cbn. lia.
Qed.

Lemma health_snapshot_witness :
  let s := MkConnectionStats 8 1 1 0 0 2 None None in
  let h := ConnectionHealth_from_state_and_stats 5000000000 Connected s in
  (ConnectionHealth_uptime h =
     if bool_decide (Connected = Connected ∧ uptime_seconds s * 1000000000 ≤ 5000000000)
     then Some (uptime_seconds s * 1000000000) else None) ∧
  ConnectionHealth_total_errors h =
    Z.min u64_MAX (connection_errors s + send_errors s + recv_errors s).
Proof. apply health_snapshot; cbn; lia. Defined.
