(* ===== verification/FrameTransport.v ===== *)
(** Byte transports for whole KNX/IP frames
    ([src/src/transport/frame_transport.rs]).

    A socket is the script of what it will do: [io_event]s for its reads and
    [write_event]s for its writes, plus what was written to it.  [Stall] is a
    read that is still pending when the caller stops waiting; [recv_frame]
    then returns [None] and keeps its buffer, as dropping the future does. *)
From S2P Require Import Prelude Errors Address KnxIp.

Inductive io_event :=
| Data (bytes : list Z)        (** the bytes of one read: a chunk, or a datagram *)
| Fault (e : io_error)
| Stall.
Inductive write_event :=
| WOk
| WFault (written : nat) (e : io_error).   (** a failure after some bytes *)

(** The next write outcome; writes past the end of the script succeed. *)
Definition pop_write (l : list write_event) : write_event * list write_event :=
  match l with [] => (WOk, []) | w :: l => (w, l) end.

Inductive TransportKind := Udp | Tcp.
#[global] Instance TransportKind_eq_dec : EqDecision TransportKind.
Proof. solve_decision. Defined.

(** The trait [FrameTransport]. *)
Class FrameTransport (T : Type) := {
  send_frame : list Z → T → result unit * T;
  recv_frame : T → option (result (list Z)) * T;
  transport_kind : T → TransportKind;
}.

Definition try_extract_frame (buf : list Z) : result (option (list Z)) * list Z :=
  if (length buf <? 6)%nat then (Ok None, buf)
  else
    match idx (E:=KnxError) buf 4, idx (E:=KnxError) buf 5 with
    | Ok b4, Ok b5 =>
        let total_length := usize (from_be16 b4 b5) in
        if (total_length <? 6)%nat
        then (terr (TransportInvalidConfiguration
                ("Invalid KNX/IP frame length: " +:+ dec_nat total_length)), buf)
        else if (length buf <? total_length)%nat then (Ok None, buf)
        else (Ok (Some (take total_length buf)), drop total_length buf)
    | _, _ => (Panic, buf)
    end.

(** * UDP *)
Record UdpFrameTransport := MkUdp {
  udp_reads : list io_event;
  udp_writes : list write_event;
  udp_sent : list (list Z);
}.

(** [bind], [connect] and [local_addr] are the operating system's answers. *)
Definition UdpFrameTransport_connect (bind connect : option io_error) (local : SocketAddr + io_error)
    (socket : UdpFrameTransport) : result (UdpFrameTransport * SocketAddr) :=
  match bind with
  | Some e => terr (SocketError "bind" e)
  | None =>
      match connect with
      | Some e => terr (SocketError "connect" e)
      | None =>
          match local with
          | inr e => terr (SocketError "get_local_addr" e)
          | inl a => Ok (socket, a)
          end
      end
  end.

Definition UdpFrameTransport_send_frame (frame : list Z) (t : UdpFrameTransport)
    : result unit * UdpFrameTransport :=
  let '(w, ws) := pop_write (udp_writes t) in
  match w with
  | WOk => (Ok tt, MkUdp (udp_reads t) ws (udp_sent t ++ [frame]))
  | WFault _ e => (terr (SocketError "send" e), MkUdp (udp_reads t) ws (udp_sent t))
  end.

(** The datagram is read into a 1024-byte buffer; the rest of a longer one is
    lost. *)
Definition UdpFrameTransport_recv_frame (t : UdpFrameTransport)
    : option (result (list Z)) * UdpFrameTransport :=
  match udp_reads t with
  | [] => (None, t)
  | e :: reads =>
      let t := MkUdp reads (udp_writes t) (udp_sent t) in
      match e with
      | Data d => (Some (Ok (take 1024 d)), t)
      | Fault err => (Some (terr (SocketError "recv" err)), t)
      | Stall => (None, t)
      end
  end.

#[global] Instance Udp_transport : FrameTransport UdpFrameTransport := {
  send_frame := UdpFrameTransport_send_frame;
  recv_frame := UdpFrameTransport_recv_frame;
  transport_kind _ := Udp;
}.

(** * TCP *)
Record TcpFrameTransport := MkTcp {
  tcp_buf : list Z;
  tcp_reads : list io_event;
  tcp_writes : list write_event;
  tcp_written : list Z;
}.

(** [dial] is the outcome of the connect: [None] when the timeout elapsed. *)
Definition TcpFrameTransport_connect (gateway : string) (timeout_ms : Z)
    (dial : option (option io_error)) (local : SocketAddr + io_error)
    (reads : list io_event) (writes : list write_event)
    : result (TcpFrameTransport * SocketAddr) :=
  match dial with
  | None => terr (Timeout timeout_ms)
  | Some (Some e) => terr (ConnectionFailed gateway e)
  | Some None =>
      match local with
      | inr e => terr (SocketError "get_local_addr" e)
      | inl a => Ok (MkTcp [] reads writes [], a)
      end
  end.

Definition TcpFrameTransport_from_accepted_stream (reads : list io_event)
    (writes : list write_event) : TcpFrameTransport := MkTcp [] reads writes [].

Definition TcpFrameTransport_send_frame (frame : list Z) (t : TcpFrameTransport)
    : result unit * TcpFrameTransport :=
  let '(w, ws) := pop_write (tcp_writes t) in
  match w with
  | WFault n e =>
      (terr (SocketError "tcp_write" e),
       MkTcp (tcp_buf t) (tcp_reads t) ws (tcp_written t ++ take n frame))
  | WOk =>
      let '(fl, ws) := pop_write ws in
      let t := MkTcp (tcp_buf t) (tcp_reads t) ws (tcp_written t ++ frame) in
      match fl with
      | WFault _ e => (terr (SocketError "tcp_flush" e), t)
      | WOk => (Ok tt, t)
      end
  end.

(** The loop of [recv_frame]: the buffer and the reads left. *)
Fixpoint tcp_recv_loop (buf : list Z) (reads : list io_event)
    : option (result (list Z)) * list Z * list io_event :=
  match try_extract_frame buf with
  | (Ok (Some frame), buf) => (Some (Ok frame), buf, reads)
  | (Err e, buf) => (Some (Err e), buf, reads)
  | (Panic, buf) => (Some Panic, buf, reads)
  | (Ok None, buf) =>
      match reads with
      | [] => (None, buf, [])
      | Stall :: reads => (None, buf, reads)
      | Fault e :: reads => (Some (terr (SocketError "tcp_read" e)), buf, reads)
      | Data [] :: reads => (Some (terr ConnectionClosed), buf, reads)
      | Data d :: reads => tcp_recv_loop (buf ++ d) reads
      end
  end.

Definition TcpFrameTransport_recv_frame (t : TcpFrameTransport)
    : option (result (list Z)) * TcpFrameTransport :=
  let '(r, buf, reads) := tcp_recv_loop (tcp_buf t) (tcp_reads t) in
  (r, MkTcp buf reads (tcp_writes t) (tcp_written t)).

#[global] Instance Tcp_transport : FrameTransport TcpFrameTransport := {
  send_frame := TcpFrameTransport_send_frame;
  recv_frame := TcpFrameTransport_recv_frame;
  transport_kind _ := Tcp;
}.

(** * Framing *)

(** A byte sequence whose length field is its length. *)
Definition framed (f : list Z) : Prop :=
  (6 ≤ length f)%nat ∧ ∃ b4 b5, f !! 4%nat = Some b4 ∧ f !! 5%nat = Some b5 ∧
  usize (from_be16 b4 b5) = length f.

(** [n] calls of [recv_frame] in a row; [None] if one does not return a frame. *)
Fixpoint recv_frames {T} `{FrameTransport T} (n : nat) (t : T) : option (list (list Z)) * T :=
  match n with
  | O => (Some [], t)
  | S n =>
      match recv_frame t with
      | (Some (Ok f), t) =>
          let '(fs, t) := recv_frames n t in (cons f <$> fs, t)
      | (_, t) => (None, t)
      end
  end.

Section framing.
Implicit Types buf f rest k : list Z.

Lemma try_extract_complete f rest : framed f → try_extract_frame (f ++ rest) = (Ok (Some f), rest).
Proof.
  intros (Hl & b4 & b5 & H4 & H5 & Ht). unfold try_extract_frame.
  rewrite length_app, (proj2 (Nat.ltb_ge _ _)) by lia.
  unfold idx. rewrite (lookup_app_l_Some _ _ _ _ H4), (lookup_app_l_Some _ _ _ _ H5).
  cbn zeta. rewrite Ht, !(proj2 (Nat.ltb_ge _ _)) by lia.
  by rewrite take_app_length, drop_app_length.
Qed.

Lemma try_extract_partial buf k f rest :
  framed f → buf ++ k = f ++ rest → (length buf < length f)%nat →
  try_extract_frame buf = (Ok None, buf).
Proof.
  intros (Hl & b4 & b5 & H4 & H5 & Ht) E Hlt. unfold try_extract_frame.
  destruct (Nat.ltb_spec (length buf) 6); [done|].
  assert (∀ i, (i < length buf)%nat → buf !! i = f !! i) as Hsame.
  { intros i Hi. rewrite <-(lookup_app_l buf k) by done. rewrite E. apply lookup_app_l. lia. }
  unfold idx. rewrite !Hsame, H4, H5 by lia. cbn zeta.
  rewrite Ht, (proj2 (Nat.ltb_ge _ _)), (proj2 (Nat.ltb_lt _ _)) by lia. done.
Qed.

(** One call of [recv_frame] returns the first frame of the stream, however
    the stream was cut into reads. *)
Lemma tcp_recv_first buf chunks f rest :
  framed f → Forall (λ d, d ≠ []) chunks → buf ++ concat chunks = f ++ rest →
  ∃ buf' chunks', tcp_recv_loop buf (Data <$> chunks) = (Some (Ok f), buf', Data <$> chunks') ∧
    Forall (λ d, d ≠ []) chunks' ∧ buf' ++ concat chunks' = rest.
Proof.
  intros Hf. revert buf. induction chunks as [|d chunks IH]; intros buf Hne E.
  - cbn in E. rewrite app_nil_r in E. subst buf. cbn. rewrite try_extract_complete by done.
    exists rest, []. cbn. by rewrite app_nil_r.
  - apply Forall_cons in Hne as [Hd Hne].
    destruct (decide (length f ≤ length buf)%nat) as [Hge|Hlt].
    + assert (∃ more, buf = f ++ more) as [more ->].
      { exists (drop (length f) buf). rewrite <-(take_drop (length f) buf) at 1. f_equal.
        rewrite <-(take_app_le buf (concat (d :: chunks))) by lia. rewrite E. by apply take_app_length'. }
      cbn [fmap list_fmap tcp_recv_loop]. rewrite try_extract_complete by done.
      exists more, (d :: chunks). split_and!; [done|by constructor|].
      rewrite <-app_assoc in E. by apply app_inv_head in E.
    + cbn [fmap list_fmap tcp_recv_loop].
      rewrite (try_extract_partial buf (concat (d :: chunks)) f rest) by (done || lia).
      destruct d as [|x d]; [done|]. apply IH; [done|]. rewrite <-app_assoc. exact E.
Qed.

Lemma tcp_recv_all buf chunks fs :
  Forall framed fs → Forall (λ d, d ≠ []) chunks → buf ++ concat chunks = concat fs →
  ∀ ws wr, recv_frames (length fs) (MkTcp buf (Data <$> chunks) ws wr) = (Some fs, MkTcp [] [] ws wr).
Proof.
  intros Hfs. revert buf chunks. induction Hfs as [|f fs Hf Hfs IH]; intros buf chunks Hne E ws wr.
  - cbn in E. apply app_eq_nil in E as [-> E]. destruct chunks as [|d chunks]; [done|].
    apply Forall_cons in Hne as [Hd _]. cbn in E. by apply app_eq_nil in E as [-> _].
  - destruct (tcp_recv_first buf chunks f (concat fs) Hf Hne E) as (buf' & chunks' & Hr & Hne' & E').
    cbn [length recv_frames recv_frame Tcp_transport]. unfold TcpFrameTransport_recv_frame.
    cbn [tcp_buf tcp_reads tcp_writes tcp_written]. rewrite Hr. by rewrite (IH _ _ Hne' E').
Qed.

Lemma frame_new_framed `{Profile} s b g :
  Z.of_nat (length b) ≤ 65529 → KnxIpFrame_new s b = Ok g → framed (KnxIpFrame_serialize g).
Proof.
  intros Hb Hf. rewrite KnxIpFrame_new_Ok in Hf by done. injection Hf as <-.
  split; [cbn; lia|]. eexists _, _. split_and!; [done..|].
  rewrite from_to_be16. unfold usize. cbn. lia.
Qed.

(** A frame the reassembly yields has its declared length, at least a header. *)
Lemma try_extract_framed buf f rest :
  try_extract_frame buf = (Ok (Some f), rest) → framed f ∧ buf = f ++ rest.
Proof.
  unfold try_extract_frame. destruct (Nat.ltb_spec (length buf) 6); [done|].
  unfold idx. destruct (buf !! 4%nat) as [b4|] eqn:E4; [|done].
  destruct (buf !! 5%nat) as [b5|] eqn:E5; [|done].
  destruct (Nat.ltb_spec (usize (from_be16 b4 b5)) 6) as [|Hge]; [done|].
  destruct (Nat.ltb_spec (length buf) (usize (from_be16 b4 b5))); [done|].
  intros [= <- <-]. split; [|by rewrite take_drop].
  assert (length (take (usize (from_be16 b4 b5)) buf) = usize (from_be16 b4 b5)) as Hl
    by (rewrite length_take; lia).
  split; [lia|]. exists b4, b5. rewrite !lookup_take by lia.
  split_and!; [by rewrite decide_True by lia..|by rewrite Hl].
Qed.

Lemma tcp_recv_framed buf reads f buf' reads' :
  tcp_recv_loop buf reads = (Some (Ok f), buf', reads') → framed f.
Proof.
  revert buf. induction reads as [|r reads IH]; intros buf; cbn [tcp_recv_loop];
    destruct (try_extract_frame buf) as [[[g|]|e|] b] eqn:E; try done.
  - intros [= <- <- <-]. by apply try_extract_framed in E as [? _].
  - intros [= <- <- <-]. by apply try_extract_framed in E as [? _].
  - destruct r as [[|x d]|e|]; try done. apply IH.
Qed.

Lemma framed_parse_no_panic f : framed f → KnxIpFrame_parse f ≠ Panic.
Proof.
  intros (Hl & b4 & b5 & H4 & H5 & Ht). unfold KnxIpFrame_parse.
  apply outcome_bind_no_panic; [apply KnxIpHeader_parse_no_panic|]. intros h Hh.
  assert (total_length h = from_be16 b4 b5) as Hth.
  { unfold KnxIpHeader_parse in Hh. destruct (_ <? _)%nat; [done|].
    unfold idx in Hh. rewrite H4, H5 in Hh. inv_binds. cbn zeta in Hh.
    repeat case_match; try done. by simplify_eq/=. }
  rewrite Hth, Ht, Nat.ltb_irrefl. unfold KnxIpHeader_LENGTH. no_panic.
Qed.
End framing.

(** * What the tunnel needs of a transport

    A receive that returns a frame uses up input, and sending leaves the input
    alone; [pending_input] bounds the receive loops of the tunnel. *)
Class FiniteInput (T : Type) `{FrameTransport T} := {
  pending_input : T → nat;
  recv_consumes : ∀ t f t', recv_frame t = (Some (Ok f), t') → (pending_input t' < pending_input t)%nat;
  send_keeps : ∀ d t, pending_input (send_frame d t).2 = pending_input t;
}.

Definition event_size (e : io_event) : nat :=
  match e with Data d => S (length d) | _ => 1 end.
Definition events_size (l : list io_event) : nat := sum_list_with event_size l.

#[global] Program Instance Udp_finite : FiniteInput UdpFrameTransport := {
  pending_input t := length (udp_reads t);
}.
Next Obligation.
  intros t f t'. cbn. unfold UdpFrameTransport_recv_frame.
  destruct (udp_reads t) as [|[d|e|] reads]; intros [=]. subst. cbn. lia.
Qed.
Next Obligation.
  intros d t. cbn. unfold UdpFrameTransport_send_frame.
  by destruct (pop_write (udp_writes t)) as [[] ws].
Qed.

Lemma tcp_recv_loop_consumes buf reads f buf' reads' :
  tcp_recv_loop buf reads = (Some (Ok f), buf', reads') →
  (length buf' + events_size reads' < length buf + events_size reads)%nat.
Proof.
  assert (∀ b g b', try_extract_frame b = (Ok (Some g), b') → (length b' < length b)%nat) as Hex.
  { intros b g b' [[Hl _] ->]%try_extract_framed. rewrite length_app. lia. }
  revert buf. induction reads as [|r reads IH]; intros buf; cbn [tcp_recv_loop];
    destruct (try_extract_frame buf) as [[[g|]|e|] b] eqn:E; try done.
  - intros [= <- <- <-]. apply Hex in E. cbn. lia.
  - intros [= <- <- <-]. apply Hex in E. cbn. lia.
  - destruct r as [[|x d]|e|]; try done. intros Hr%IH.
    assert (b = buf) as ->.
    { unfold try_extract_frame in E. repeat (case_match; simplify_eq); done. }
    rewrite length_app in Hr. unfold events_size in *. cbn in *. lia.
Qed.

#[global] Program Instance Tcp_finite : FiniteInput TcpFrameTransport := {
  pending_input t := (length (tcp_buf t) + events_size (tcp_reads t))%nat;
}.
Next Obligation.
  intros t f t'. cbn. unfold TcpFrameTransport_recv_frame.
  destruct (tcp_recv_loop (tcp_buf t) (tcp_reads t)) as [[r buf] reads] eqn:E.
  intros [= -> <-]. by apply tcp_recv_loop_consumes in E.
Qed.
Next Obligation.
  intros d t. cbn. unfold TcpFrameTransport_send_frame.
  destruct (pop_write (tcp_writes t)) as [[] ws]; [|done]. by destruct (pop_write ws) as [[] ws'].
Qed.

(** A transport whose frames the frame parser can take: always so over TCP,
    over UDP as long as no datagram carries the short length on which the
    parser panics. *)
Class SafeInput (T : Type) `{FrameTransport T} := {
  input_safe : T → Prop;
  recv_safe : ∀ t, input_safe t →
    input_safe (recv_frame t).2 ∧ (recv_frame t).1 ≠ Some Panic ∧
    ∀ f, (recv_frame t).1 = Some (Ok f) → KnxIpFrame_parse f ≠ Panic;
  send_safe : ∀ d t, input_safe t → input_safe (send_frame d t).2 ∧ (send_frame d t).1 ≠ Panic;
}.

Definition event_safe (e : io_event) : Prop :=
  match e with Data d => KnxIpFrame_parse (take 1024 d) ≠ Panic | _ => True end.
#[global] Program Instance Udp_safe : SafeInput UdpFrameTransport := {
  input_safe t := Forall event_safe (udp_reads t);
}.
Next Obligation.
  intros [[|e reads] ws sent]; cbn [recv_frame Udp_transport];
    unfold UdpFrameTransport_recv_frame; cbn [udp_reads].
  { intros _. split_and!; [constructor|done..]. }
  intros [He Hr]%Forall_cons. destruct e; cbn; (split_and!; [done..|]); intros f [= <-]; done.
Qed.
Next Obligation.
  intros d t Ht. cbn. unfold UdpFrameTransport_send_frame.
  by destruct (pop_write (udp_writes t)) as [[] ws].
Qed.

Lemma tcp_recv_no_panic buf reads : (tcp_recv_loop buf reads).1.1 ≠ Some Panic.
Proof.
  assert (∀ b, (try_extract_frame b).1 ≠ Panic) as Hex.
  { intros b. unfold try_extract_frame. destruct (Nat.ltb_spec (length b) 6); [done|].
    destruct (idx_lt (E:=KnxError) b 4) as (b4 & _ & ->); [lia|].
    destruct (idx_lt (E:=KnxError) b 5) as (b5 & _ & ->); [lia|]. cbn zeta.
    by repeat case_match. }
  revert buf. induction reads as [|r reads IH]; intros buf; cbn [tcp_recv_loop];
    specialize (Hex buf); destruct (try_extract_frame buf) as [[[g|]|e|] b]; try done.
  by destruct r as [[|x d]|e|].
Qed.
#[global] Program Instance Tcp_safe : SafeInput TcpFrameTransport := { input_safe _ := True }.
Next Obligation.
  intros t _. cbn. unfold TcpFrameTransport_recv_frame.
  pose proof (tcp_recv_no_panic (tcp_buf t) (tcp_reads t)) as Hnp.
  destruct (tcp_recv_loop (tcp_buf t) (tcp_reads t)) as [[r buf] reads] eqn:E.
  split_and!; [done..|]. cbn. intros f ->. apply framed_parse_no_panic. by eapply tcp_recv_framed.
Qed.
Next Obligation.
  intros d t _. cbn. unfold TcpFrameTransport_send_frame.
  destruct (pop_write (tcp_writes t)) as [[] ws]; [|done]. by destruct (pop_write ws) as [[] ws'].
Qed.

Section properties.
Context `{Profile}.

(** Stream reassembly.  However TCP cuts a sequence of KNX/IP frames into
    reads (several frames in one read, one frame over many), successive
    [recv_frame] calls return exactly those frames, in order, and leave the
    buffer empty. *)
Theorem tcp_reassembly (fs chunks : list (list Z)) (ws : list write_event) (wr : list Z) :
  Forall framed fs → Forall (λ d, d ≠ []) chunks → concat chunks = concat fs →
  recv_frames (length fs) (MkTcp [] (Data <$> chunks) ws wr) = (Some fs, MkTcp [] [] ws wr).
Proof. intros Hfs Hne E. by apply tcp_recv_all. Qed.

(** A frame returned by a TCP transport is always safe to parse: the
    reassembly only yields frames whose declared length is at least a header,
    so [KnxIpFrame::parse] cannot panic on it (it can on a UDP datagram). *)
Theorem tcp_frames_parse_safe (t t' : TcpFrameTransport) (f : list Z) :
  recv_frame t = (Some (Ok f), t') → KnxIpFrame_parse f ≠ Panic.
Proof.
  cbn. unfold TcpFrameTransport_recv_frame.
  destruct (tcp_recv_loop (tcp_buf t) (tcp_reads t)) as [[r buf] reads] eqn:E.
  intros [= -> <-]. apply framed_parse_no_panic. by eapply tcp_recv_framed.
Qed.

(** C5: TCP delivery end to end.  Frames sent with [send_frame] on a healthy
    stream put their bytes on the wire in order, and a peer that reads those
    bytes in any chunks gets every frame back and parses it to the frame that
    was sent. *)
Theorem tcp_delivery (frames : list KnxIpFrame) (t : TcpFrameTransport)
    (chunks : list (list Z)) (msgs : list (ServiceType.ServiceType * list Z)) :
  tcp_writes t = [] → tcp_written t = [] →
  Forall2 (λ m f, Z.of_nat (length m.2) ≤ 65529 ∧ KnxIpFrame_new m.1 m.2 = Ok f) msgs frames →
  let t' := foldl (λ t f, (send_frame (KnxIpFrame_serialize f) t).2) t frames in
  Forall (λ d, d ≠ []) chunks → concat chunks = tcp_written t' →
  ∃ raw peer, recv_frames (length frames) (MkTcp [] (Data <$> chunks) [] []) = (Some raw, peer) ∧
    KnxIpFrame_parse <$> raw = Ok <$> frames.
Proof.
  intros Hw Hwr Hms t' Hne E.
  assert (∀ fs u, tcp_writes u = [] →
    tcp_written (foldl (λ t f, (send_frame (KnxIpFrame_serialize f) t).2) u fs) =
      tcp_written u ++ concat (KnxIpFrame_serialize <$> fs)) as Hwire.
  { induction fs as [|f fs IH]; intros u Hu; cbn [foldl fmap list_fmap concat];
      [by rewrite app_nil_r|].
    cbn [send_frame Tcp_transport]. unfold TcpFrameTransport_send_frame. rewrite Hu. cbn.
    rewrite IH by done. cbn. by rewrite <-app_assoc. }
  unfold t' in E. rewrite Hwire, Hwr in E by done. cbn [app] in E.
  exists (KnxIpFrame_serialize <$> frames), (MkTcp [] [] [] []). split.
  - rewrite <-(length_fmap KnxIpFrame_serialize frames). apply tcp_recv_all; [|done|done].
    clear -Hms H. induction Hms as [|m f ms fs [? ?] _ IH]; constructor; [|done].
    by eapply frame_new_framed.
  - clear -Hms H. induction Hms as [|m f ms fs [Hl Hf] _ IH]; [done|]. cbn [fmap list_fmap].
    f_equal; [|done]. rewrite KnxIpFrame_new_Ok in Hf by done. injection Hf as <-.
    rewrite <-(app_nil_r (KnxIpFrame_serialize _)). by apply KnxIpFrame_parse_serialized.
Qed.

(** A malformed length field on a TCP stream is an error, not a resync: the
    buffer keeps the bad header, so every later [recv_frame] returns the same
    error and consumes nothing. *)
Theorem tcp_bad_length_sticky (t : TcpFrameTransport) (b4 b5 : Z) :
  (6 ≤ length (tcp_buf t))%nat → tcp_buf t !! 4%nat = Some b4 → tcp_buf t !! 5%nat = Some b5 →
  from_be16 b4 b5 < 6 →
  recv_frame t = (Some (terr (TransportInvalidConfiguration
     ("Invalid KNX/IP frame length: " +:+ dec_nat (usize (from_be16 b4 b5))))), t).
Proof.
  intros Hl H4 H5 Hlt. cbn. unfold TcpFrameTransport_recv_frame.
  assert (try_extract_frame (tcp_buf t) = (terr (TransportInvalidConfiguration
    ("Invalid KNX/IP frame length: " +:+ dec_nat (usize (from_be16 b4 b5)))), tcp_buf t)) as E.
  { unfold try_extract_frame. rewrite (proj2 (Nat.ltb_ge _ _)) by lia. unfold idx. rewrite H4, H5.
    cbn zeta. rewrite (proj2 (Nat.ltb_lt _ _)) by (unfold usize; lia). done. }
  destruct t as [buf reads ws wr]. cbn [tcp_buf tcp_reads tcp_writes tcp_written] in *.
  destruct reads; cbn [tcp_recv_loop]; by rewrite E.
Qed.

(** A UDP datagram longer than the 1024-byte receive buffer is cut, so the
    frame it carries is rejected as too short. *)
Theorem udp_long_datagram_rejected (t : UdpFrameTransport) (s : ServiceType.ServiceType)
    (b : list Z) (f : KnxIpFrame) (reads : list io_event) :
  1018 < Z.of_nat (length b) ≤ 65529 → KnxIpFrame_new s b = Ok f →
  udp_reads t = Data (KnxIpFrame_serialize f) :: reads →
  ∃ d t', recv_frame t = (Some (Ok d), t') ∧ length d = 1024%nat ∧
    KnxIpFrame_parse d = perr (ParseError 0 ("Frame too short: expected "
      +:+ dec (6 + Z.of_nat (length b)) +:+ " bytes, got 1024")).
Proof.
  intros Hb Hf Hr. rewrite KnxIpFrame_new_Ok in Hf by lia. injection Hf as <-.
  cbn [recv_frame Udp_transport]. unfold UdpFrameTransport_recv_frame. rewrite Hr.
  eexists _, _. split; [done|]. set (h := MkKnxIpHeader 6 0x10 s (6 + Z.of_nat (length b))).
  unfold KnxIpFrame_serialize. cbn [header body].
  assert (1024 ≤ length (KnxIpHeader_serialize h ++ b))%nat by (rewrite length_app; cbn; lia).
  assert (length (take 1024 (KnxIpHeader_serialize h ++ b)) = 1024%nat) as Hl
    by (rewrite length_take; lia).
  split; [done|]. unfold KnxIpFrame_parse. rewrite Hl.
  rewrite take_app_ge by (cbn; lia). rewrite KnxIpHeader_parse_serialized by done.
  cbn [mbind outcome_bind total_length h]. unfold usize.
  by rewrite (proj2 (Nat.ltb_lt _ _)) by lia.
Qed.
End properties.

(** * Witnesses *)
Section witnesses.
#[local] Instance transport_release : Profile := {| debug_build := false |}.

Definition ack_bytes : list Z := [6; 0x10; 4; 0x21; 0; 10; 4; 1; 0; 0].
Definition state_bytes : list Z := [6; 0x10; 2; 8; 0; 8; 1; 0].

Lemma framed_ack : framed ack_bytes.
Proof. split; [cbn; lia|]. by exists 0, 10. Qed.
Lemma framed_state : framed state_bytes.
Proof. split; [cbn; lia|]. by exists 0, 8. Qed.

Lemma tcp_reassembly_witness :
  recv_frames 2 (MkTcp [] (Data <$> [[6; 0x10; 4]; [0x21; 0; 10; 4; 1; 0; 0; 6; 0x10]; [2; 8; 0; 8; 1; 0]])
                   [] []) = (Some [ack_bytes; state_bytes], MkTcp [] [] [] []).
Proof.
  apply (tcp_reassembly [ack_bytes; state_bytes]).
  - repeat constructor; [apply framed_ack|apply framed_state].
  - by repeat constructor.
  - reflexivity.
Defined.

Lemma tcp_frames_parse_safe_witness : KnxIpFrame_parse ack_bytes ≠ Panic.
Proof.
  apply (tcp_frames_parse_safe (MkTcp [] [Data ack_bytes] [] []) (MkTcp [] [] [] [])). reflexivity.
Defined.

Lemma tcp_delivery_witness :
  ∃ raw peer, recv_frames 1 (MkTcp [] (Data <$> [[6; 0x10; 4; 0x21]; [0; 10; 4; 1; 0; 0]]) [] [])
      = (Some raw, peer) ∧
    KnxIpFrame_parse <$> raw =
      Ok <$> [MkKnxIpFrame (MkKnxIpHeader 6 0x10 ServiceType.TunnellingAck 10) [4; 1; 0; 0]].
Proof.
  apply (tcp_delivery [MkKnxIpFrame (MkKnxIpHeader 6 0x10 ServiceType.TunnellingAck 10) [4; 1; 0; 0]]
    (MkTcp [] [] [] []) [[6; 0x10; 4; 0x21]; [0; 10; 4; 1; 0; 0]]
    [(ServiceType.TunnellingAck, [4; 1; 0; 0])]).
  - done.
  - done.
  - repeat constructor; cbn; lia.
  - by repeat constructor.
  - reflexivity.
Defined.

Lemma tcp_bad_length_sticky_witness :
  recv_frame (MkTcp [6; 0x10; 4; 0x21; 0; 3] [Data state_bytes] [] []) =
    (Some (terr (TransportInvalidConfiguration
       ("Invalid KNX/IP frame length: " +:+ dec_nat (usize (from_be16 0 3))))),
     MkTcp [6; 0x10; 4; 0x21; 0; 3] [Data state_bytes] [] []).
Proof. by apply tcp_bad_length_sticky. Defined.

Lemma udp_long_datagram_rejected_witness :
  let f := MkKnxIpFrame (MkKnxIpHeader 6 0x10 ServiceType.RoutingIndication 1026) (replicate 1020 0) in
  ∃ d t', recv_frame (MkUdp [Data (KnxIpFrame_serialize f)] [] []) = (Some (Ok d), t') ∧
    length d = 1024%nat ∧
    KnxIpFrame_parse d = perr (ParseError 0 ("Frame too short: expected "
      +:+ dec (6 + Z.of_nat (length (replicate 1020 0))) +:+ " bytes, got 1024")).
Proof.
  intros f. apply (udp_long_datagram_rejected _ ServiceType.RoutingIndication (replicate 1020 0) f []).
  - rewrite length_replicate. lia.
  - reflexivity.
  - reflexivity.
Defined.
End witnesses.
