(* ===== verification/Text.v ===== *)
(** The string functions of the Rust standard library the sources parse and
    print text with.  A [str] is the list of its UTF-8 bytes, a [string] of
    Rocq; what a function says of characters is said of their encodings. *)
From S2P Require Import Prelude.

(** * Printing *)

(** [{:0w}] of a non-negative number. *)
Fixpoint zeros (n : nat) : string := match n with O => EmptyString | S n => String "0" (zeros n) end.
Definition pad0 (w : nat) (z : Z) : string :=
  let s := dec z in zeros (w - String.length s) +:+ s.

(** * Splitting and trimming *)

(** [str::split_once] at an ASCII character. *)
Fixpoint split_once (c : ascii) (s : string) : option (string * string) :=
  match s with
  | EmptyString => None
  | String d t =>
      if Ascii.eqb d c then Some (EmptyString, t)
      else '(a, b) ← split_once c t; Some (String d a, b)
  end.
(** [str::splitn] with three pieces at most. *)
Definition splitn3 (c : ascii) (s : string) : list string :=
  match split_once c s with
  | None => [s]
  | Some (a, t) => match split_once c t with None => [a; t] | Some (b, u) => [a; b; u] end
  end.

Fixpoint strip_prefix (p s : string) : option string :=
  match p, s with
  | EmptyString, _ => Some s
  | String a p, String b s => if Ascii.eqb a b then strip_prefix p s else None
  | _, EmptyString => None
  end.
Fixpoint rev_append (s acc : string) : string :=
  match s with EmptyString => acc | String c s => rev_append s (String c acc) end.
Definition rev_string (s : string) : string := rev_append s EmptyString.
Definition strip_suffix (p s : string) : option string :=
  rev_string <$> strip_prefix (rev_string p) (rev_string s).

(** [as_bytes], and the text with given bytes. *)
Fixpoint str_bytes (s : string) : list Z :=
  match s with
  | EmptyString => []
  | String c s => Z.of_nat (nat_of_ascii c) :: str_bytes s
  end.
(** The encodings of the characters with the property [White_Space]. *)
Definition utf8 (l : list Z) : string :=
  foldr (λ b s, String (ascii_of_nat (Z.to_nat b)) s) EmptyString l.
Definition WHITESPACE : list string := Eval vm_compute in
  utf8 <$>
  ([[0x09]; [0x0A]; [0x0B]; [0x0C]; [0x0D]; [0x20]; [0xC2; 0x85]; [0xC2; 0xA0]; [0xE1; 0x9A; 0x80]]
   ++ map (λ i, [0xE2; 0x80; 0x80 + Z.of_nat i]) (seq 0 11)
   ++ [[0xE2; 0x80; 0xA8]; [0xE2; 0x80; 0xA9]; [0xE2; 0x80; 0xAF]; [0xE2; 0x81; 0x9F]; [0xE3; 0x80; 0x80]]).
Definition WHITESPACE_REV : list string := Eval vm_compute in rev_string <$> WHITESPACE.
(** The text after one of the prefixes, if it starts with one. *)
Fixpoint strip_any (ps : list string) (s : string) : option string :=
  match ps with
  | [] => None
  | p :: ps => match strip_prefix p s with Some t => Some t | None => strip_any ps s end
  end.
Fixpoint trim_while (ps : list string) (fuel : nat) (s : string) : string :=
  match fuel with
  | O => s
  | S fuel => match strip_any ps s with Some t => trim_while ps fuel t | None => s end
  end.
Definition trim_start (s : string) : string := trim_while WHITESPACE (String.length s) s.
Definition trim_end (s : string) : string :=
  rev_string (trim_while WHITESPACE_REV (String.length s) (rev_string s)).
(** [str::trim]. *)
Definition trim (s : string) : string := trim_end (trim_start s).
(** [str::split_once(char::is_whitespace)]. *)
Fixpoint split_once_whitespace (s : string) : option (string * string) :=
  match strip_any WHITESPACE s with
  | Some t => Some (EmptyString, t)
  | None =>
      match s with
      | EmptyString => None
      | String c t => '(a, b) ← split_once_whitespace t; Some (String c a, b)
      end
  end.

(** [str::find] and [str::rfind] of an ASCII character. *)
Fixpoint find (c : ascii) (s : string) : option nat :=
  match s with
  | EmptyString => None
  | String d t => if Ascii.eqb d c then Some O else S <$> find c t
  end.
Fixpoint rfind (c : ascii) (s : string) : option nat :=
  match s with
  | EmptyString => None
  | String d t =>
      match rfind c t with
      | Some i => Some (S i)
      | None => if Ascii.eqb d c then Some O else None
      end
  end.
(** [&s[a..]] and [&s[..b]] at positions inside the text. *)
Fixpoint str_drop (n : nat) (s : string) : string :=
  match n, s with S n, String _ s => str_drop n s | _, _ => s end.
Fixpoint str_take (n : nat) (s : string) : string :=
  match n, s with S n, String c s => String c (str_take n s) | _, _ => EmptyString end.

(** [to_ascii_lowercase]. *)
Definition lower_ascii (c : ascii) : ascii :=
  let n := Z.of_nat (nat_of_ascii c) in
  if (65 <=? n) && (n <=? 90) then ascii_of_nat (Z.to_nat (n + 32)) else c.
Fixpoint to_ascii_lowercase (s : string) : string :=
  match s with EmptyString => EmptyString | String c s => String (lower_ascii c) (to_ascii_lowercase s) end.

(** * Numbers *)

(** The value of a text of digits in a base; [None] when a character is none. *)
Fixpoint digits_value (digit : ascii → option Z) (base : Z) (s : string) (acc : Z) : option Z :=
  match s with
  | EmptyString => Some acc
  | String c t => d ← digit c; digits_value digit base t (acc * base + d)
  end.
(** One digit or more. *)
Definition number (digit : ascii → option Z) (base : Z) (s : string) : option Z :=
  match s with EmptyString => None | _ => digits_value digit base s 0 end.
Definition hex_value (c : ascii) : option Z :=
  let n := Z.of_nat (nat_of_ascii c) in
  if (48 <=? n) && (n <=? 57) then Some (n - 48)
  else if (65 <=? n) && (n <=? 70) then Some (n - 55)
  else if (97 <=? n) && (n <=? 102) then Some (n - 87)
  else None.
(** [from_str_radix] of an unsigned type, and [parse] of one. *)
Definition parse_unsigned (digit : ascii → option Z) (base max : Z) (s : string) : option Z :=
  let t := match s with String c t => if Ascii.eqb c "+" then t else s | _ => s end in
  n ← number digit base t; guard (n ≤ max);; Some n.
Definition parse_uint (max : Z) (s : string) : option Z := parse_unsigned ascii_digit 10 max s.
Definition parse_hex (max : Z) (s : string) : option Z := parse_unsigned hex_value 16 max s.
(** [parse] of a signed type. *)
Definition parse_int (min max : Z) (s : string) : option Z :=
  let signed (neg : bool) (t : string) :=
    n ← number ascii_digit 10 t; let n := if neg then - n else n in guard (min ≤ n ≤ max);; Some n in
  match s with
  | String c t => if Ascii.eqb c "+" then signed false t else if Ascii.eqb c "-" then signed true t else signed false s
  | EmptyString => None
  end.

(** * UTF-8 *)

(** [std::str::from_utf8] accepts: sequences of one to four bytes, without
    overlong forms, surrogates and numbers above U+10FFFF. *)
Fixpoint utf8_valid (l : list Z) : bool :=
  let cont b := (0x80 <=? b) && (b <=? 0xBF) in
  match l with
  | [] => true
  | b :: l =>
      if b <=? 0x7F then utf8_valid l
      else if (0xC2 <=? b) && (b <=? 0xDF) then
        match l with c :: l => cont c && utf8_valid l | _ => false end
      else if (0xE0 <=? b) && (b <=? 0xEF) then
        match l with
        | c :: d :: l =>
            ((if b =? 0xE0 then 0xA0 else 0x80) <=? c) && (c <=? (if b =? 0xED then 0x9F else 0xBF))
            && cont d && utf8_valid l
        | _ => false
        end
      else if (0xF0 <=? b) && (b <=? 0xF4) then
        match l with
        | c :: d :: e :: l =>
            ((if b =? 0xF0 then 0x90 else 0x80) <=? c) && (c <=? (if b =? 0xF4 then 0x8F else 0xBF))
            && cont d && cont e && utf8_valid l
        | _ => false
        end
      else false
  end.

(** * Lemmas *)

(** Every character satisfies a test. *)
Fixpoint str_all (p : ascii → bool) (s : string) : bool :=
  match s with EmptyString => true | String c s => p c && str_all p s end.
Definition is_digit (c : ascii) : bool := bool_decide (is_Some (ascii_digit c)).
(** A printable ASCII character other than the space. *)
Definition graphic (c : ascii) : bool :=
  let n := Z.of_nat (nat_of_ascii c) in (33 <=? n) && (n <=? 126).

Lemma append_cons c a b : String c a +:+ b = String c (a +:+ b).
Proof. done. Qed.
Lemma append_lit c s : String c EmptyString +:+ s = String c s.
Proof. done. Qed.
Lemma append_nil a : EmptyString +:+ a = a.
Proof. done. Qed.
Lemma append_nil_r a : a +:+ EmptyString = a.
Proof. induction a as [|c a IH]; [done|]. by rewrite append_cons, IH. Qed.
Lemma append_assoc a b c : (a +:+ b) +:+ c = a +:+ (b +:+ c).
Proof. induction a as [|d a IH]; [done|]. by rewrite !append_cons, IH. Qed.
Lemma str_all_app p a b : str_all p (a +:+ b) = str_all p a && str_all p b.
Proof.
  induction a as [|c a IH]; [done|]. rewrite append_cons. cbn [str_all]. by rewrite IH, andb_assoc.
Qed.
Lemma str_all_impl (p q : ascii → bool) s :
  (∀ c, p c = true → q c = true) → str_all p s = true → str_all q s = true.
Proof.
  intros Hpq. induction s as [|c s IH]; cbn; [done|]. intros [Hc Hs]%andb_prop. by rewrite Hpq, IH.
Qed.
(** A property of every character, by evaluation. *)
Lemma ascii_decide (p : ascii → bool) :
  forallb (λ n, p (ascii_of_nat n)) (seq 0 256) = true → ∀ c, p c = true.
Proof.
  intros Hp c. rewrite <-(ascii_nat_embedding c). rewrite forallb_forall in Hp. apply Hp, in_seq.
  pose proof (nat_ascii_bounded c). lia.
Qed.
Lemma digit_not (d : ascii) : is_digit d = false → ∀ c, is_digit c = true → negb (Ascii.eqb c d) = true.
Proof. intros Hd c Hc. destruct (Ascii.eqb_spec c d) as [->|]; [congruence|done]. Qed.

Lemma split_once_app c a b :
  str_all (λ d, negb (Ascii.eqb d c)) a = true → split_once c (a +:+ String c b) = Some (a, b).
Proof.
  induction a as [|d a IH]; intros Ha.
  { rewrite append_nil. cbn. by rewrite Ascii.eqb_refl. }
  rewrite append_cons. cbn [split_once str_all] in *. apply andb_prop in Ha as [Hd%negb_true_iff Ha].
  by rewrite Hd, IH.
Qed.
Lemma split_once_None c a : str_all (λ d, negb (Ascii.eqb d c)) a = true → split_once c a = None.
Proof.
  induction a as [|d a IH]; cbn; intros Ha; [done|]. apply andb_prop in Ha as [Hd%negb_true_iff Ha].
  by rewrite Hd, IH.
Qed.
Lemma split_once_spec c s a b :
  split_once c s = Some (a, b) ↔ s = a +:+ String c b ∧ str_all (λ d, negb (Ascii.eqb d c)) a = true.
Proof.
  split; [|intros [-> Ha]; by apply split_once_app].
  revert a b. induction s as [|d s IH]; intros a b; cbn; [done|].
  destruct (Ascii.eqb_spec d c) as [->|Hne]; [by intros [= <- <-]|].
  destruct (split_once c s) as [[a' b']|]; [|done]. cbn. intros [= <- <-].
  destruct (IH a' b' eq_refl) as [-> Ha]. split; [done|]. cbn.
  apply Ascii.eqb_neq in Hne. by rewrite Hne.
Qed.

(** The bytes of a text, and the text of bytes. *)
Lemma utf8_str_bytes s : utf8 (str_bytes s) = s.
Proof.
  induction s as [|c s IH]; cbn; [done|]. f_equal; [|done]. by rewrite Nat2Z.id, ascii_nat_embedding.
Qed.
Lemma str_bytes_utf8 l : bytes_ok l → str_bytes (utf8 l) = l.
Proof.
  induction 1 as [|b l Hb _ IH]; cbn; [done|]. f_equal; [|done]. unfold u8_ok in Hb.
  rewrite nat_ascii_embedding by lia. lia.
Qed.
Lemma str_bytes_ok s : bytes_ok (str_bytes s).
Proof.
  induction s as [|c s IH]; cbn; constructor; [|done]. pose proof (nat_ascii_bounded c). unfold u8_ok. lia.
Qed.

(** ** Numbers *)
Lemma digits_pretty_go x s acc :
  digits_value ascii_digit 10 (pretty_N_go x s) 0 = acc →
  digits_value ascii_digit 10 s (Z.of_N x) = acc.
Proof.
  intros <-. revert s. induction (N.lt_wf_0 x) as [x _ IH]; intros s.
  destruct (decide (x = 0%N)) as [->|Hx]; [done|].
  rewrite pretty_N_go_step by lia. rewrite <-(IH (x `div` 10)%N) by (apply N.div_lt; lia).
  cbn [digits_value].
  assert (∃ d, (x `mod` 10)%N = d ∧ (d < 10)%N) as (d & Ed & Hd) by (eexists; split; [done|by apply N.mod_lt]).
  rewrite Ed. replace (ascii_digit (pretty_N_char d)) with (Some (Z.of_N d)).
  - cbn. f_equal. rewrite N2Z.inj_div. pose proof (N.div_mod x 10). apply (f_equal Z.of_N) in Ed.
    rewrite N2Z.inj_mod in Ed. pose proof (Z.div_mod (Z.of_N x) 10). cbn in *. lia.
  - assert (d = 0 ∨ d = 1 ∨ d = 2 ∨ d = 3 ∨ d = 4 ∨ d = 5 ∨ d = 6 ∨ d = 7 ∨ d = 8 ∨ d = 9)%N as Hc by lia.
    clear -Hc. naive_solver.
Qed.
Lemma pretty_go_digits x s : str_all is_digit s = true → str_all is_digit (pretty_N_go x s) = true.
Proof.
  revert s. induction (N.lt_wf_0 x) as [x _ IH]; intros s Hs.
  destruct (decide (x = 0%N)) as [->|Hx]; [done|].
  rewrite pretty_N_go_step by lia. apply IH; [apply N.div_lt; lia|]. cbn [str_all]. rewrite Hs.
  unfold pretty_N_char. by repeat case_match.
Qed.
Lemma pretty_go_nonempty x s : s ≠ EmptyString ∨ (0 < x)%N → pretty_N_go x s ≠ EmptyString.
Proof.
  revert s. induction (N.lt_wf_0 x) as [x _ IH]; intros s Hs.
  destruct (decide (x = 0%N)) as [->|Hx]; [destruct Hs; [done|lia]|].
  rewrite pretty_N_go_step by lia. apply IH; [apply N.div_lt; lia|by left].
Qed.
Lemma dec_pos p : dec (Zpos p) = pretty_N_go (Npos p) EmptyString.
Proof. done. Qed.
Lemma dec_neg p : dec (Zneg p) = String "-" (dec (Zpos p)).
Proof. done. Qed.
(** The decimal text of a number: digits, at least one, with its value. *)
Lemma dec_digits n : 0 ≤ n → str_all is_digit (dec n) = true ∧ dec n ≠ EmptyString.
Proof.
  intros Hn. destruct n as [|p|p]; [done| |lia]. rewrite dec_pos. split; [by apply pretty_go_digits|apply pretty_go_nonempty; lia].
Qed.
Lemma dec_value n : 0 ≤ n → digits_value ascii_digit 10 (dec n) 0 = Some n.
Proof.
  intros Hn. destruct n as [|p|p]; [done| |lia]. rewrite dec_pos. symmetry. by apply (digits_pretty_go (Npos p) EmptyString).
Qed.
Lemma digits_zeros k s acc : digits_value ascii_digit 10 (zeros k +:+ s) 0 = acc → digits_value ascii_digit 10 s 0 = acc.
Proof. intros <-. induction k as [|k IH]; [done|]. cbn [zeros]. by rewrite append_cons. Qed.
Lemma zeros_digits k : str_all is_digit (zeros k) = true.
Proof. by induction k. Qed.
(** The same for a text padded with zeros. *)
Lemma pad0_digits w n : 0 ≤ n → str_all is_digit (pad0 w n) = true ∧ pad0 w n ≠ EmptyString.
Proof.
  intros Hn. destruct (dec_digits n Hn) as [Hd Hne]. unfold pad0. split.
  - by rewrite str_all_app, zeros_digits.
  - by destruct (zeros _).
Qed.
Lemma pad0_value w n : 0 ≤ n → digits_value ascii_digit 10 (pad0 w n) 0 = Some n.
Proof.
  intros Hn. unfold pad0. rewrite <-(dec_value n Hn). symmetry. by eapply digits_zeros.
Qed.

(** A text of digits is parsed as its value by every type that holds it. *)
Lemma parse_uint_digits max s n :
  str_all is_digit s = true → s ≠ EmptyString → digits_value ascii_digit 10 s 0 = Some n → n ≤ max →
  parse_uint max s = Some n.
Proof.
  intros Hd Hne Hv Hm. unfold parse_uint, parse_unsigned. destruct s as [|c s]; [done|].
  replace (Ascii.eqb c "+") with false.
  - unfold number. rewrite Hv. cbn. by rewrite option_guard_True.
  - cbn [str_all] in Hd. apply andb_prop in Hd as [Hc _]. destruct (Ascii.eqb_spec c "+") as [->|]; done.
Qed.
Lemma parse_uint_dec max n : 0 ≤ n ≤ max → parse_uint max (dec n) = Some n.
Proof. intros Hn. destruct (dec_digits n); [lia|]. apply parse_uint_digits; [done..|apply dec_value|]; lia. Qed.
Lemma parse_uint_pad0 max w n : 0 ≤ n ≤ max → parse_uint max (pad0 w n) = Some n.
Proof. intros Hn. destruct (pad0_digits w n); [lia|]. apply parse_uint_digits; [done..|apply pad0_value|]; lia. Qed.

Lemma digits_value_nonneg digit base s acc n :
  (∀ c d, digit c = Some d → 0 ≤ d) → 0 ≤ base → 0 ≤ acc → digits_value digit base s acc = Some n → 0 ≤ n.
Proof.
  intros Hd Hb. revert acc. induction s as [|c s IH]; intros acc Ha; cbn; [by intros [= <-]|].
  destruct (digit c) as [d|] eqn:Ec; [|done]. apply IH. apply Hd in Ec. nia.
Qed.
Lemma ascii_digit_nonneg c d : ascii_digit c = Some d → 0 ≤ d.
Proof. unfold ascii_digit. case_match eqn:E; [|done]. intros [= <-]. apply andb_prop in E as [E _]. to_arith. lia. Qed.
Lemma hex_value_nonneg c d : hex_value c = Some d → 0 ≤ d.
Proof.
  unfold hex_value.
  do 3 (case_match eqn:E; [intros [= <-]; apply andb_prop in E as [E _]; to_arith; lia|clear E]). done.
Qed.
Lemma parse_unsigned_range digit base max s n :
  (∀ c d, digit c = Some d → 0 ≤ d) → 0 ≤ base → parse_unsigned digit base max s = Some n → 0 ≤ n ≤ max.
Proof.
  intros Hd Hb. unfold parse_unsigned. intros (k & Hk & Hg)%bind_Some.
  case_guard; [|done]. injection Hg as <-. split; [|done]. unfold number in Hk. case_match; [done|].
  eapply digits_value_nonneg; [done|done| |done]. done.
Qed.
Lemma parse_uint_range max s n : parse_uint max s = Some n → 0 ≤ n ≤ max.
Proof. apply parse_unsigned_range; [apply ascii_digit_nonneg|done]. Qed.
Lemma parse_hex_range max s n : parse_hex max s = Some n → 0 ≤ n ≤ max.
Proof. apply parse_unsigned_range; [apply hex_value_nonneg|done]. Qed.

(** ** Trimming *)

(** No white space at the start, and none at the end. *)
Definition starts_clean (s : string) : Prop := strip_any WHITESPACE s = None.
Definition ends_clean (s : string) : Prop := strip_any WHITESPACE_REV (rev_string s) = None.

Lemma rev_append_app a b acc : rev_append (a +:+ b) acc = rev_append b (rev_append a acc).
Proof. revert acc. induction a as [|c a IH]; intros acc; [done|]. rewrite append_cons. apply IH. Qed.
Lemma rev_append_spec s acc : rev_append s acc = rev_string s +:+ acc.
Proof.
  unfold rev_string. revert acc. induction s as [|c s IH]; intros acc; [done|]. cbn [rev_append].
  rewrite IH, (IH (String c EmptyString)), append_assoc. done.
Qed.
Lemma rev_string_app a b : rev_string (a +:+ b) = rev_string b +:+ rev_string a.
Proof. unfold rev_string at 1. by rewrite rev_append_app, rev_append_spec. Qed.
Lemma rev_string_involutive s : rev_string (rev_string s) = s.
Proof.
  induction s as [|c s IH]; [done|]. change (String c s) with (String c EmptyString +:+ s).
  by rewrite !rev_string_app, IH.
Qed.
Lemma strip_prefix_app p s : strip_prefix p (p +:+ s) = Some s.
Proof. induction p as [|c p IH]; [by destruct s|]. rewrite append_cons. cbn. by rewrite Ascii.eqb_refl. Qed.
Lemma strip_suffix_app p s : strip_suffix p (s +:+ p) = Some s.
Proof. unfold strip_suffix. rewrite rev_string_app, strip_prefix_app. cbn. by rewrite rev_string_involutive. Qed.

Lemma trim_while_clean ps fuel s : strip_any ps s = None → trim_while ps fuel s = s.
Proof. intros Hs. destruct fuel; cbn; [done|]. by rewrite Hs. Qed.
Lemma trim_clean s : starts_clean s → ends_clean s → trim s = s.
Proof.
  intros Hs He. unfold trim, trim_end, trim_start. rewrite (trim_while_clean _ _ s) by done.
  rewrite trim_while_clean by done. apply rev_string_involutive.
Qed.
(** One space after a text that ends clean is removed. *)
Lemma trim_space s : starts_clean (s +:+ " ") → ends_clean s → trim (s +:+ " ") = s.
Proof.
  intros Hs He. unfold trim, trim_end, trim_start. rewrite (trim_while_clean _ _ _ Hs), rev_string_app.
  change (rev_string " " +:+ rev_string s) with (String " " (rev_string s)).
  replace (String.length (s +:+ " ")) with (S (String.length s)).
  - cbn [trim_while].
    assert (strip_any WHITESPACE_REV (String " " (rev_string s)) = Some (rev_string s)) as -> by by destruct (rev_string s).
    rewrite trim_while_clean by done. apply rev_string_involutive.
  - clear. induction s as [|c s IH]; [done|]. rewrite append_cons. cbn. by rewrite IH.
Qed.

Lemma strip_any_graphic ps c s :
  forallb (λ p, match p with String d _ => negb (graphic d) | EmptyString => false end) ps = true →
  graphic c = true → strip_any ps (String c s) = None.
Proof.
  induction ps as [|p ps IH]; intros Hp Hc; [done|]. cbn in Hp. apply andb_prop in Hp as [Hd Hp].
  destruct p as [|d p]; [done|]. cbn [strip_any strip_prefix]. destruct (Ascii.eqb_spec d c) as [->|_].
  - by rewrite Hc in Hd.
  - by apply IH.
Qed.
Lemma starts_clean_graphic c s : graphic c = true → starts_clean (String c s).
Proof. by apply strip_any_graphic. Qed.
Lemma ends_clean_graphic c s : graphic c = true → ends_clean (s +:+ String c EmptyString).
Proof.
  intros Hc. unfold ends_clean. rewrite rev_string_app.
  change (rev_string (String c EmptyString) +:+ rev_string s) with (String c (rev_string s)). by apply strip_any_graphic.
Qed.
(** A text made of graphic characters. *)
Lemma graphic_ends s : str_all graphic s = true → s ≠ EmptyString → starts_clean s ∧ ∀ t, ends_clean (t +:+ s).
Proof.
  intros Ha Hne. split.
  - destruct s as [|c s]; [done|]. cbn in Ha. apply andb_prop in Ha as [Hc _]. by apply starts_clean_graphic.
  - intros t. assert (∃ s' c, s = s' +:+ String c EmptyString ∧ graphic c = true) as (s' & c & -> & Hc).
    { clear t. induction s as [|c s IH]; [done|]. cbn in Ha. apply andb_prop in Ha as [Hc Ha].
      destruct s as [|d s]; [by exists EmptyString, c|]. destruct IH as (s' & e & -> & He); [done|done|].
      by exists (String c s'), e. }
    rewrite <-append_assoc. by apply ends_clean_graphic.
Qed.
Lemma digit_graphic c : is_digit c = true → graphic c = true.
Proof.
  intros Hc. assert (negb (is_digit c) || graphic c = true) as H by (revert c Hc; intros c _; revert c;
    apply ascii_decide; vm_compute; reflexivity). by rewrite Hc in H.
Qed.
Lemma digits_clean s : str_all is_digit s = true → s ≠ EmptyString → starts_clean s ∧ ∀ t, ends_clean (t +:+ s).
Proof. intros Hd. apply graphic_ends. eapply str_all_impl; [apply digit_graphic|done]. Qed.
Lemma starts_clean_app c s t : graphic c = true → starts_clean (String c s +:+ t).
Proof. intros Hc. rewrite append_cons. by apply starts_clean_graphic. Qed.
(** The decimal text of a number is clean, also with more text after it. *)
Lemma dec_clean z : (∀ t, starts_clean (dec z +:+ t)) ∧ ∀ t, ends_clean (t +:+ dec z).
Proof.
  assert (∀ n, 0 ≤ n → (∀ t, starts_clean (dec n +:+ t)) ∧ ∀ t, ends_clean (t +:+ dec n)) as Hpos.
  { intros n Hn. destruct (dec_digits n Hn) as [Hd Hne]. destruct (digits_clean (dec n) Hd Hne) as [_ He].
    split; [|done]. intros t. destruct (dec n) as [|c s]; [done|]. cbn in Hd. apply andb_prop in Hd as [Hc _].
    by apply starts_clean_app, digit_graphic. }
  destruct z as [|p|p]; [apply Hpos; lia|apply Hpos; lia|]. rewrite dec_neg. split.
  - intros t. by apply starts_clean_app.
  - intros t. change (String "-" (dec (Zpos p))) with ("-" +:+ dec (Zpos p)). rewrite <-append_assoc. by apply Hpos.
Qed.
Lemma starts_clean_nil s : (∀ t, starts_clean (s +:+ t)) → starts_clean s.
Proof. intros Hs. specialize (Hs EmptyString). by rewrite append_nil_r in Hs. Qed.
Lemma trim_dec z : trim (dec z) = dec z.
Proof.
  destruct (dec_clean z) as [Hs He]. specialize (Hs EmptyString). rewrite append_nil_r in Hs.
  apply trim_clean; [done|exact (He EmptyString)].
Qed.
Lemma pad0_clean w n : 0 ≤ n → (∀ t, starts_clean (pad0 w n +:+ t)) ∧ ∀ t, ends_clean (t +:+ pad0 w n).
Proof.
  intros Hn. destruct (pad0_digits w n Hn) as [Hd Hne]. destruct (digits_clean _ Hd Hne) as [_ He]. split; [|done].
  intros t. destruct (pad0 w n) as [|c s]; [done|]. cbn in Hd. apply andb_prop in Hd as [Hc _].
  by apply starts_clean_app, digit_graphic.
Qed.
Lemma trim_pad0 w n : 0 ≤ n → trim (pad0 w n) = pad0 w n.
Proof.
  intros Hn. destruct (pad0_clean w n Hn) as [Hs He]. specialize (Hs EmptyString). rewrite append_nil_r in Hs.
  apply trim_clean; [done|exact (He EmptyString)].
Qed.

(** ** Taking texts apart *)
Definition free_of (c : ascii) (s : string) : bool := str_all (λ d, negb (Ascii.eqb d c)) s.
Lemma free_of_app c a b : free_of c (a +:+ b) = free_of c a && free_of c b.
Proof. apply str_all_app. Qed.
Lemma pad0_free c w n : 0 ≤ n → is_digit c = false → free_of c (pad0 w n) = true.
Proof. intros Hn Hc. destruct (pad0_digits w n Hn) as [Hd _]. eapply str_all_impl; [by apply digit_not|done]. Qed.
Lemma dec_free c n : 0 ≤ n → is_digit c = false → free_of c (dec n) = true.
Proof. intros Hn Hc. destruct (dec_digits n Hn) as [Hd _]. eapply str_all_impl; [by apply digit_not|done]. Qed.
Lemma splitn3_three c a b d :
  free_of c a = true → free_of c b = true → splitn3 c (a +:+ String c (b +:+ String c d)) = [a; b; d].
Proof. intros Ha Hb. unfold splitn3. by rewrite !split_once_app. Qed.
Lemma rfind_none c s : free_of c s = true → rfind c s = None.
Proof.
  induction s as [|d s IH]; [done|]. cbn. intros [Hd%negb_true_iff Hs]%andb_prop. by rewrite IH, Hd.
Qed.
Lemma rfind_app c a b : free_of c b = true → rfind c (a +:+ String c b) = Some (String.length a).
Proof.
  intros Hb. induction a as [|d a IH].
  - rewrite append_nil. cbn. by rewrite rfind_none, Ascii.eqb_refl.
  - rewrite append_cons. cbn. by rewrite IH.
Qed.
Lemma str_drop_app a b : str_drop (String.length a) (a +:+ b) = b.
Proof. induction a as [|c a IH]; [by destruct b|]. by rewrite append_cons. Qed.
Lemma str_drop_app_S a c b : str_drop (String.length a + 1) (a +:+ String c b) = b.
Proof. induction a as [|d a IH]; [by destruct b|]. rewrite append_cons. exact IH. Qed.
Lemma str_take_app a b : str_take (String.length a) (a +:+ b) = a.
Proof. induction a as [|c a IH]; [by destruct b|]. rewrite append_cons. cbn. by rewrite IH. Qed.
Lemma str_split_free c a : free_of c a = true → str_split c a = [a].
Proof. induction a as [|d a IH]; [done|]. cbn. intros [Hd%negb_true_iff Ha]%andb_prop. by rewrite Hd, IH. Qed.
Lemma str_split_sep c a b : free_of c a = true → str_split c (a +:+ String c b) = a :: str_split c b.
Proof.
  induction a as [|d a IH]; intros Ha.
  - rewrite append_nil. cbn. by rewrite Ascii.eqb_refl.
  - rewrite append_cons. cbn in *. apply andb_prop in Ha as [Hd%negb_true_iff Ha]. by rewrite Hd, IH.
Qed.
(** A space before a text that starts clean is removed. *)
Lemma trim_lead s : starts_clean s → ends_clean (String " " s) → trim (String " " s) = s.
Proof.
  intros Hs He. unfold trim, trim_start. cbn [String.length trim_while].
  assert (strip_any WHITESPACE (String " " s) = Some s) as -> by by destruct s.
  rewrite (trim_while_clean _ _ s Hs). unfold trim_end. unfold ends_clean in He.
  rewrite trim_while_clean; [apply rev_string_involutive|].
  change (String " " s) with (" " +:+ s) in He. rewrite rev_string_app in He.
  clear Hs. revert He. generalize (rev_string s) WHITESPACE_REV. clear s. intros s ps.
  induction ps as [|p ps IH]; cbn; [done|]. destruct (strip_prefix p (s +:+ _)) eqn:E; [done|].
  intros Hn. rewrite (IH Hn). clear -E. revert s E.
  induction p as [|c p IHp]; intros [|d s]; try done. rewrite append_cons. cbn. case_match; [|done].
  intros Hs. specialize (IHp s Hs). by destruct (strip_prefix p s).
Qed.
