(* ===== verification/Logging.v ===== *)
(** Logging ([src/src/logging.rs]): the levels of the components, the global
    configuration, messages, hexadecimal dumps and timers.

    What reaches a logger is the list of records (target, level, text) handed to
    it.  The [log] crate is the class [LogFacade]: the greatest level it lets
    through, and whether the installed logger wants a level for a target.  The
    locks are never poisoned; [{:?}] of a [Duration] is an argument. *)
From S2P Require Import Prelude Address Text.

(** * Components and levels *)
Module Component.
Inductive Component := Transport | Protocol | Device | Security | Configuration | Discovery | Application | Queue.
End Component.
Abbreviation Component := Component.Component.
#[global] Instance Component_eq_dec : EqDecision Component.
Proof. solve_decision. Defined.
Definition Component_display (c : Component) : string :=
  match c with
  | Component.Transport => "transport"
  | Component.Protocol => "protocol"
  | Component.Device => "device"
  | Component.Security => "security"
  | Component.Configuration => "config"
  | Component.Discovery => "discovery"
  | Component.Application => "application"
  | Component.Queue => "queue"
  end.
Definition all_components : list Component :=
  [Component.Transport; Component.Protocol; Component.Device; Component.Security; Component.Configuration;
   Component.Discovery; Component.Application; Component.Queue].
#[global] Program Instance Component_finite : finite.Finite Component := {| finite.enum := all_components |}.
Next Obligation. apply (bool_decide_unpack _). vm_compute. exact I. Qed.
Next Obligation. intros c. apply (bool_decide_unpack _). by destruct c. Qed.

(** [log::Level], ordered from the most to the least important. *)
Module LogLevel.
Inductive LogLevel := Error | Warn | Info | Debug | Trace.
Definition as_usize (l : LogLevel) : Z :=
  match l with Error => 1 | Warn => 2 | Info => 3 | Debug => 4 | Trace => 5 end.
End LogLevel.
Abbreviation LogLevel := LogLevel.LogLevel.
#[global] Instance LogLevel_eq_dec : EqDecision LogLevel.
Proof. solve_decision. Defined.
Definition level_le (a b : LogLevel) : bool := LogLevel.as_usize a <=? LogLevel.as_usize b.

(** * The configuration *)
Record LoggingConfig := MkLoggingConfig {
  component_levels : gmap Component LogLevel;
  default_level : LogLevel;
  protocol_events : bool;
  hex_dump : bool;
  max_hex_dump_size : nat;
}.
Definition LoggingConfig_default : LoggingConfig := MkLoggingConfig ∅ LogLevel.Info false false 256.
Definition LoggingConfig_new : LoggingConfig := LoggingConfig_default.
Definition set_default_level (level : LogLevel) (c : LoggingConfig) : LoggingConfig :=
  MkLoggingConfig (component_levels c) level (protocol_events c) (hex_dump c) (max_hex_dump_size c).
Definition set_component_level (component : Component) (level : LogLevel) (c : LoggingConfig) : LoggingConfig :=
  MkLoggingConfig (<[component := level]> (component_levels c)) (default_level c) (protocol_events c) (hex_dump c)
    (max_hex_dump_size c).
Definition get_component_level (c : LoggingConfig) (component : Component) : LogLevel :=
  default (default_level c) (component_levels c !! component).
Definition set_protocol_events (enabled : bool) (c : LoggingConfig) : LoggingConfig :=
  MkLoggingConfig (component_levels c) (default_level c) enabled (hex_dump c) (max_hex_dump_size c).
Definition set_hex_dump (enabled : bool) (c : LoggingConfig) : LoggingConfig :=
  MkLoggingConfig (component_levels c) (default_level c) (protocol_events c) enabled (max_hex_dump_size c).
Definition set_max_hex_dump_size (size : nat) (c : LoggingConfig) : LoggingConfig :=
  MkLoggingConfig (component_levels c) (default_level c) (protocol_events c) (hex_dump c) size.

(** * The logger *)
Class LogFacade := {
  lets_through : LogLevel → bool;            (** [level <= log::max_level()] *)
  wants : string → LogLevel → bool;          (** [Log::enabled] of the installed logger *)
}.
Record log_record := MkRecord { record_target : string; record_level : LogLevel; record_text : string }.

Section logger.
Context `{LogFacade}.

(** [log_enabled!(level)], whose target is the path of the module it is in. *)
Definition log_enabled (level : LogLevel) : bool := lets_through level && wants "knust::logging" level.
(** [error!(target: ..)] to [trace!(target: ..)]: the logger gets the record. *)
Definition log_to (target : string) (level : LogLevel) (text : string) : list log_record :=
  if lets_through level then [MkRecord target level text] else [].

Definition LoggingConfig_is_enabled (c : LoggingConfig) (component : Component) (level : LogLevel) : bool :=
  let component_level := get_component_level c component in
  level_le level component_level && log_enabled level.

(** [LOGGING_CONFIG], a [OnceLock]. *)
Definition init_logging (config : LoggingConfig) (cell : option LoggingConfig) : option LoggingConfig :=
  match cell with Some c => Some c | None => Some config end.
Definition get_config (cell : option LoggingConfig) : LoggingConfig := default LoggingConfig_default cell.

Definition log_message (cell : option LoggingConfig) (component : Component) (level : LogLevel) (message : string)
    : list log_record :=
  let config := get_config cell in
  if LoggingConfig_is_enabled config component level then log_to (Component_display component) level message else [].

(** [{b:02x}]. *)
Definition hex_digit_lower (d : Z) : string :=
  match String.get (Z.to_nat d) "0123456789abcdef" with Some c => String c EmptyString | None => EmptyString end.
Definition hex02_lower (b : Z) : string := hex_digit_lower (b / 16) +:+ hex_digit_lower (b mod 16).
(** [join(" ")]. *)
Fixpoint join_spaces (l : list string) : string :=
  match l with
  | [] => EmptyString
  | [s] => s
  | s :: l => s +:+ (String " " EmptyString +:+ join_spaces l)
  end.
Definition dump_text (description : string) (data : list Z) (max_size : nat) : string :=
  let data_to_dump := if (max_size <? length data)%nat then take max_size data else data in
  let hex_string := join_spaces (hex02_lower <$> data_to_dump) in
  let truncated := if (max_size <? length data)%nat
                   then " (truncated from " +:+ dec_nat (length data) +:+ " bytes)" else EmptyString in
  description +:+ truncated +:+ ": " +:+ hex_string.
Definition log_hex_dump (target description : string) (data : list Z) (max_size : nat) : list log_record :=
  log_to target LogLevel.Debug (dump_text description data max_size).

(** * Timers *)
Record Timer := MkTimer { start : Z; timer_component : Component; operation : string }.
Definition Timer_start (now : Z) (component : Component) (operation : string) : Timer := MkTimer now component operation.
Context (show_duration : Z → string).
Definition Timer_finish (now : Z) (cell : option LoggingConfig) (t : Timer) : list log_record :=
  let duration := Z.max 0 (now - start t) in
  log_message cell (timer_component t) LogLevel.Debug
    ("Operation '" +:+ operation t +:+ "' completed in " +:+ show_duration duration).
Definition Timer_finish_with_message (now : Z) (cell : option LoggingConfig) (message : string) (t : Timer) : list log_record :=
  let duration := Z.max 0 (now - start t) in
  log_message cell (timer_component t) LogLevel.Debug (message +:+ " (took " +:+ show_duration duration +:+ ")").
End logger.

(** * Specification *)
Inductive config_op :=
| SetDefault (level : LogLevel)
| SetComponent (component : Component) (level : LogLevel)
| SetProtocolEvents (enabled : bool)
| SetHexDump (enabled : bool)
| SetMaxHexDumpSize (size : nat).
Definition config_step (op : config_op) : LoggingConfig → LoggingConfig :=
  match op with
  | SetDefault l => set_default_level l
  | SetComponent c l => set_component_level c l
  | SetProtocolEvents b => set_protocol_events b
  | SetHexDump b => set_hex_dump b
  | SetMaxHexDumpSize n => set_max_hex_dump_size n
  end.
Definition configured (ops : list config_op) : LoggingConfig := foldl (flip config_step) LoggingConfig_new ops.
(** What was set last. *)
Definition defaults_of (ops : list config_op) : list LogLevel :=
  omap (λ op, match op with SetDefault l => Some l | _ => None end) ops.
Definition levels_of (component : Component) (ops : list config_op) : list LogLevel :=
  omap (λ op, match op with SetComponent c l => if decide (c = component) then Some l else None | _ => None end) ops.

(** Reading a dump back. *)
Definition parse_dump (s : string) : option (list Z) :=
  match s with EmptyString => Some [] | _ => mapM (parse_hex 255) (str_split " "%char s) end.

Lemma configured_snoc ops op : configured (ops ++ [op]) = config_step op (configured ops).
Proof. unfold configured. by rewrite foldl_app. Qed.
Lemma configured_levels ops : default_level (configured ops) = default LogLevel.Info (last (defaults_of ops)) ∧
  ∀ c, component_levels (configured ops) !! c = last (levels_of c ops).
Proof.
  induction ops as [|op ops [Hd Hc]] using rev_ind; [by split|]. rewrite configured_snoc.
  unfold defaults_of, levels_of in *. split.
  - rewrite omap_app. destruct op; cbn; by rewrite ?app_nil_r, ?last_snoc.
  - intros c. rewrite omap_app. destruct op as [l|c' l| | |]; cbn; rewrite ?app_nil_r; [apply Hc| |apply Hc..].
    case_decide as E; cbn.
    + subst. by rewrite lookup_insert_eq, last_snoc.
    + by rewrite lookup_insert_ne, app_nil_r.
Qed.
Lemma hex02_lower_read b : u8_ok b → parse_hex 255 (hex02_lower b) = Some b ∧ str_contains " " (hex02_lower b) = false ∧
  hex02_lower b ≠ EmptyString.
Proof.
  intros Hb. assert (forallb (λ n, let b := Z.of_nat n in bool_decide (parse_hex 255 (hex02_lower b) = Some b) &&
    negb (str_contains " " (hex02_lower b)) && bool_decide (hex02_lower b ≠ EmptyString)) (seq 0 256) = true) as Hall
    by (vm_compute; reflexivity).
  rewrite forallb_forall in Hall. unfold u8_ok in Hb. specialize (Hall (Z.to_nat b) (proj2 (in_seq 256 0 (Z.to_nat b)) ltac:(lia))).
  cbv zeta in Hall. rewrite Z2Nat.id in Hall by lia.
  apply andb_prop in Hall as [[H1%bool_decide_eq_true H2%negb_true_iff]%andb_prop H3%bool_decide_eq_true]. by split_and!.
Qed.
Lemma split_join l : l ≠ [] → Forall (λ s, str_contains " " s = false) l → str_split " "%char (join_spaces l) = l.
Proof.
  induction l as [|s l IH]; [done|]. intros _ [Hs Hl]%Forall_cons. destruct l as [|s' l]; [by apply str_split_none|].
  change (join_spaces (s :: s' :: l)) with (s +:+ (String " " EmptyString +:+ join_spaces (s' :: l))).
  rewrite str_split_app by done. by rewrite IH.
Qed.
Lemma parse_dump_join data : bytes_ok data → parse_dump (join_spaces (hex02_lower <$> data)) = Some data.
Proof.
  intros Hb. destruct data as [|b data]; [done|]. set (l := hex02_lower <$> b :: data).
  assert (Forall (λ s, str_contains " " s = false) l ∧ mapM (parse_hex 255) l = Some (b :: data)) as [Hl Hm].
  { split; [apply Forall_fmap; eapply Forall_impl; [exact Hb|]; intros x Hx; by apply hex02_lower_read|].
    apply mapM_Some, Forall2_fmap_l, Forall_Forall2_diag. eapply Forall_impl; [exact Hb|]. intros x Hx. by apply hex02_lower_read. }
  unfold parse_dump. rewrite split_join, Hm by done. destruct (join_spaces l) eqn:E; [|done].
  apply Forall_cons in Hb as [Hb _]. destruct (hex02_lower_read b Hb) as (_ & _ & Hne). unfold l in E. cbn [fmap list_fmap] in E.
  exfalso. revert E Hne. destruct (hex02_lower b); [done|]. by destruct data.
Qed.

(** * Properties *)
Section properties.
Context `{LogFacade}.

(** What is logged.  The level of a component is the one set for it last, or the
    default set last, or Info; of several initialisations the first counts, and
    without one the defaults hold.  A message reaches the logger, under the name
    of its component and once, exactly if its level is at most that of the
    component and logging is enabled for it. *)
Theorem log_message_exact ops inits component level message :
  let cell := foldl (flip init_logging) None inits in
  get_component_level (configured ops) component =
    default (default LogLevel.Info (last (defaults_of ops))) (last (levels_of component ops)) ∧
  get_config cell = default LoggingConfig_default (head inits) ∧
  log_message cell component level message =
    if level_le level (get_component_level (get_config cell) component) && log_enabled level
    then [MkRecord (Component_display component) level message] else [].
Proof.
  cbv zeta. destruct (configured_levels ops) as [Hd Hc]. split_and!.
  - unfold get_component_level. by rewrite Hd, Hc.
  - destruct inits as [|c inits]; [done|]. cbn. induction inits as [|c' inits IH]; [done|exact IH].
  - unfold log_message, LoggingConfig_is_enabled, log_to, log_enabled.
    destruct (level_le _ _); [|done]. by destruct (lets_through level).
Qed.

(** A dump says what it shows: the bytes up to the limit read back from the text,
    and the note with the full length is there exactly if some were left out. *)
Theorem hex_dump_roundtrip description data max_size : bytes_ok data →
  ∃ note hex, dump_text description data max_size = description +:+ note +:+ ": " +:+ hex ∧
    parse_dump hex = Some (take max_size data) ∧
    note = if decide (max_size < length data)%nat then " (truncated from " +:+ dec_nat (length data) +:+ " bytes)" else EmptyString.
Proof.
  intros Hb. unfold dump_text. eexists _, _. split; [reflexivity|]. destruct (Nat.ltb_spec max_size (length data)) as [Hl|Hl].
  - rewrite decide_True by done. split; [|done]. apply parse_dump_join. by apply Forall_take.
  - rewrite decide_False by lia. split; [|done]. rewrite take_ge by lia. by apply parse_dump_join.
Qed.
End properties.

(** Whether logging is enabled is asked for the module of the logging functions
    and not for the component: a logger that is set up to show the debug messages
    of one component gets none of them. *)
Theorem component_target_ignored : ∃ F : LogFacade, ∃ config,
  lets_through LogLevel.Debug = true ∧ wants (Component_display Component.Transport) LogLevel.Debug = true ∧
  get_component_level config Component.Transport = LogLevel.Debug ∧
  ∀ message, log_message (init_logging config None) Component.Transport LogLevel.Debug message = [].
Proof.
  exists {| lets_through _ := true; wants t _ := String.eqb t "transport" |}.
  exists (set_component_level Component.Transport LogLevel.Debug LoggingConfig_new). done.
Qed.

Lemma hex_dump_roundtrip_witness : ∃ note hex,
  dump_text "frame" [6; 16; 255] 2 = "frame" +:+ note +:+ ": " +:+ hex ∧ parse_dump hex = Some [6; 16] ∧ note ≠ EmptyString.
Proof.
  destruct (hex_dump_roundtrip "frame" [6; 16; 255] 2 ltac:(by repeat constructor)) as (note & hex & E & Hp & Hn).
  exists note, hex. split; [exact E|]. split; [exact Hp|]. rewrite Hn. cbn. discriminate.
Defined.
