(* ===== verification/Float.v ===== *)
(** The floating-point numbers of the sources, [f32] and [f64]: IEEE 754
    numbers as the Standard Library specifies them ([SpecFloat]), every
    operation rounded to nearest, ties to even; the casts of Rust, the bit
    patterns, and reading and printing decimal text. *)
From Stdlib Require Export SpecFloat.
From S2P Require Import Prelude Text.

Abbreviation float := spec_float.

(** * Operations of both formats *)
Section format.
Context (prec emax : Z).

(** [z as fN] and [fN::from(z)]. *)
Definition float_of_Z (z : Z) : float := binary_normalize prec emax z 0 false.
(** The quotient of two positive integers, rounded once. *)
Definition float_of_ratio (s : bool) (n d : positive) : float :=
  let '(q, e, l) := SFdiv_core_binary prec emax (Zpos n) 0 (Zpos d) 0 in
  binary_round_aux prec emax s q e l.
(** The decimal number [n * 10 ^ e], rounded once. *)
Definition float_of_decimal (s : bool) (n e : Z) : float :=
  match n with
  | Zpos p =>
      if 0 <=? e then binary_round prec emax s (p * Z.to_pos (10 ^ e)) 0
      else float_of_ratio s p (Z.to_pos (10 ^ (- e)))
  | _ => S754_zero s
  end.
(** A conversion from another format, rounded where it has to be. *)
Definition float_convert (x : float) : float :=
  match x with
  | S754_finite s m e => binary_round prec emax s m e
  | x => x
  end.
End format.

Definition is_finite (x : float) : bool :=
  match x with S754_zero _ | S754_finite _ _ _ => true | _ => false end.
Definition is_nan (x : float) : bool := match x with S754_nan => true | _ => false end.

(** The integer part of the magnitude, and the rounding of the magnitude half
    up ([round] goes away from zero). *)
Definition mag_trunc (m : positive) (e : Z) : Z :=
  if 0 <=? e then Zpos m * 2 ^ e else Zpos m / 2 ^ (- e).
Definition mag_round (m : positive) (e : Z) : Z :=
  if 0 <=? e then Zpos m * 2 ^ e else (Zpos m + 2 ^ (- e - 1)) / 2 ^ (- e).
(** [x as iN]: towards zero, saturating, NaN as 0. *)
Definition float_as_int (lo hi : Z) (x : float) : Z :=
  match x with
  | S754_zero _ | S754_nan => 0
  | S754_infinity s => if s then lo else hi
  | S754_finite s m e => lo `max` (cond_Zopp s (mag_trunc m e) `min` hi)
  end.
Definition as_i16 := float_as_int (- 2 ^ 15) (2 ^ 15 - 1).
Definition as_i32 := float_as_int (- 2 ^ 31) (2 ^ 31 - 1).
Definition as_i64 := float_as_int (- 2 ^ 63) (2 ^ 63 - 1).
Definition float_as_u16 := float_as_int 0 (2 ^ 16 - 1).
Definition float_as_u64 := float_as_int 0 (2 ^ 64 - 1).

(** [round] and [floor], of which the results are integers the format has. *)
Definition float_round (prec emax : Z) (x : float) : float :=
  match x with
  | S754_finite s m e =>
      if 0 <=? e then x
      else match mag_round m e with
           | Zpos p => binary_round prec emax s p 0
           | _ => S754_zero s
           end
  | x => x
  end.
Definition float_floor (prec emax : Z) (x : float) : float :=
  match x with
  | S754_finite s m e =>
      if 0 <=? e then x
      else
        let t := mag_trunc m e in
        let n := if negb s || (Zpos m mod 2 ^ (- e) =? 0) then t else t + 1 in
        match n with
        | Zpos p => binary_round prec emax s p 0
        | _ => S754_zero s
        end
  | x => x
  end.
(** [(lo..=hi).contains(&x)]. *)
Definition contains (lo hi x : float) : bool := SFleb lo x && SFleb x hi.

(** * [f32] and [f64] *)
Definition f32_of_Z := float_of_Z 24 128.
Definition f64_of_Z := float_of_Z 53 1024.
Definition f32_mul := SFmul 24 128.
Definition f32_div := SFdiv 24 128.
Definition f64_add := SFadd 53 1024.
Definition f64_sub := SFsub 53 1024.
Definition f64_mul := SFmul 53 1024.
Definition f64_div := SFdiv 53 1024.
Definition f32_of_f64 := float_convert 24 128.
Definition f64_of_f32 := float_convert 53 1024.
Definition f32_round := float_round 24 128.
Definition f64_floor := float_floor 53 1024.
(** A literal [n / 10 ^ k]. *)
Definition f64_lit (n : Z) (k : Z) : float :=
  float_of_decimal 53 1024 (n <? 0) (Z.abs n) (- k).
Definition f32_lit (n : Z) (k : Z) : float :=
  float_of_decimal 24 128 (n <? 0) (Z.abs n) (- k).

(** ** Bits *)

(** [to_bits] and [from_bits] of [f32]; a NaN has the pattern of [f32::NAN]. *)
Definition f32_to_bits (x : float) : Z :=
  let sign (s : bool) := if s then 2 ^ 31 else 0 in
  match x with
  | S754_zero s => sign s
  | S754_infinity s => sign s + 255 * 2 ^ 23
  | S754_nan => 0x7FC00000
  | S754_finite s m e =>
      if Zpos m <? 2 ^ 23 then sign s + Zpos m
      else sign s + (e + 150) * 2 ^ 23 + (Zpos m - 2 ^ 23)
  end.
Definition f32_from_bits (b : Z) : float :=
  let s := 2 ^ 31 <=? b in
  let e := b / 2 ^ 23 mod 256 in
  let m := b mod 2 ^ 23 in
  if e =? 255 then (if m =? 0 then S754_infinity s else S754_nan)
  else if e =? 0 then match m with Zpos p => S754_finite s p (-149) | _ => S754_zero s end
  else match m + 2 ^ 23 with Zpos p => S754_finite s p (e - 150) | _ => S754_nan end.
Definition f32_to_be_bytes (x : float) : list Z := to_be 4 (f32_to_bits x).
Definition f32_from_be_bytes (l : list Z) : float := f32_from_bits (from_be l).

(** * Decimal text *)

(** The digits before anything else, with what follows. *)
Fixpoint span_digits (s : string) : string * string :=
  match s with
  | String c t =>
      if bool_decide (is_Some (ascii_digit c)) then let '(a, b) := span_digits t in (String c a, b)
      else (EmptyString, s)
  | EmptyString => (EmptyString, EmptyString)
  end.
(** [str::parse] of a float: a sign, then [inf], [infinity] or [nan] in any
    case, or digits with a point and an exponent; at least one digit. *)
Definition parse_exponent (s : string) : option Z :=
  match s with
  | EmptyString => Some 0
  | String c t =>
      if Ascii.eqb (lower_ascii c) "e" then
        match t with
        | String d u =>
            if Ascii.eqb d "+" then number ascii_digit 10 u
            else if Ascii.eqb d "-" then Z.opp <$> number ascii_digit 10 u
            else number ascii_digit 10 t
        | EmptyString => None
        end
      else None
  end.
Definition parse_unsigned_float (prec emax : Z) (neg : bool) (s : string) : option float :=
  let '(ip, r) := span_digits s in
  let '(fp, r) := match r with
                  | String c t => if Ascii.eqb c "." then span_digits t else (EmptyString, r)
                  | EmptyString => (EmptyString, r)
                  end in
  match number ascii_digit 10 (ip +:+ fp) with
  | Some n =>
      e ← parse_exponent r;
      Some (float_of_decimal prec emax neg n (e - Z.of_nat (String.length fp)))
  | None =>
      let l := to_ascii_lowercase s in
      if String.eqb l "inf" || String.eqb l "infinity" then Some (S754_infinity neg)
      else if String.eqb l "nan" then Some S754_nan
      else None
  end.
Definition parse_float (prec emax : Z) (s : string) : option float :=
  match s with
  | String c t =>
      if Ascii.eqb c "-" then parse_unsigned_float prec emax true t
      else if Ascii.eqb c "+" then parse_unsigned_float prec emax false t
      else parse_unsigned_float prec emax false s
  | EmptyString => None
  end.
Definition parse_f32 := parse_float 24 128.
Definition parse_f64 := parse_float 53 1024.

(** [n / d] to the nearest integer, ties to even. *)
Definition div_even (n d : Z) : Z :=
  let q := n / d in let r := n mod d in
  if 2 * r <? d then q else if d <? 2 * r then q + 1 else if Z.even q then q else q + 1.
(** [m * 2 ^ e * 10 ^ k] to the nearest integer. *)
Definition scaled (m : positive) (e k : Z) : Z :=
  div_even (Zpos m * 2 ^ (e `max` 0) * 10 ^ (k `max` 0)) (2 ^ ((- e) `max` 0) * 10 ^ ((- k) `max` 0)).
Definition sign_text (s : bool) : string := if s then "-" else EmptyString.
Definition float_text (finite : bool → option (positive * Z) → string) (x : float) : string :=
  match x with
  | S754_nan => "NaN"
  | S754_infinity s => sign_text s +:+ "inf"
  | S754_zero s => finite s None
  | S754_finite s m e => finite s (Some (m, e))
  end.
(** [{:.k}]. *)
Definition float_fixed (k : nat) : float → string := float_text (λ s m,
  let n := match m with Some (m, e) => scaled m e (Z.of_nat k) | None => 0 end in
  sign_text s +:+ dec (n / 10 ^ Z.of_nat k) +:+ "." +:+ pad0 k (n mod 10 ^ Z.of_nat k)).
(** [{}]: the fewest digits that read back as the same number. *)
Definition decimal_text (n k : Z) : string :=
  if 0 <=? k then dec (n * 10 ^ k)
  else dec (n / 10 ^ (- k)) +:+ "." +:+ pad0 (Z.to_nat (- k)) (n mod 10 ^ (- k)).
(** The greatest [k] with [10 ^ k] at most the number, from an upper bound. *)
Fixpoint log10_below (fuel : nat) (m : positive) (e k : Z) : Z :=
  match fuel with
  | O => k
  | S fuel =>
      if 10 ^ (k `max` 0) * 2 ^ ((- e) `max` 0) <=? Zpos m * 2 ^ (e `max` 0) * 10 ^ ((- k) `max` 0) then k
      else log10_below fuel m e (k - 1)
  end.
Fixpoint shortest (prec emax : Z) (fuel : nat) (s : bool) (m : positive) (e top n : Z) : string :=
  let k := top - n + 1 in
  let d := scaled m e (- k) in
  let '(d, k) := if d =? 10 ^ n then (d / 10, k + 1) else (d, k) in
  let done := bool_decide (SFeqb (float_of_decimal prec emax s d k) (S754_finite s m e) = true) in
  match fuel with
  | O => decimal_text d k
  | S fuel => if done then decimal_text d k else shortest prec emax fuel s m e top (n + 1)
  end.
Definition float_display (prec emax : Z) : float → string := float_text (λ s m,
  sign_text s +:+ match m with
                  | Some (m, e) => shortest prec emax 17 s m e (log10_below 700 m e 310) 1
                  | None => "0"
                  end).
Definition f32_display := float_display 24 128.
Definition f64_display := float_display 53 1024.

(** * Exact numbers *)

(** [m * 2 ^ k]. *)
Definition shl (m : positive) (k : nat) : positive := Nat.iter k xO m.
Lemma shl_S m k : shl m (S k) = xO (shl m k).
Proof. done. Qed.
Lemma Zpos_shl m k : Zpos (shl m k) = Zpos m * 2 ^ Z.of_nat k.
Proof.
  induction k as [|k IH]; [cbn; lia|]. rewrite shl_S, Pos2Z.inj_xO, IH, Nat2Z.inj_succ, Z.pow_succ_r by lia. lia.
Qed.
Lemma iter_pos_nat {A} (f : A → A) p x : SpecFloat.iter_pos f p x = Nat.iter (Pos.to_nat p) f x.
Proof.
  revert x. induction p as [p IH|p IH|]; intros x; cbn [SpecFloat.iter_pos]; [| |done].
  - rewrite !IH, Pos2Nat.inj_xI. replace (S (2 * Pos.to_nat p)) with (Pos.to_nat p + (Pos.to_nat p + 1))%nat by lia.
    by rewrite !Nat.iter_add.
  - rewrite !IH, Pos2Nat.inj_xO. replace (2 * Pos.to_nat p)%nat with (Pos.to_nat p + Pos.to_nat p)%nat by lia.
    by rewrite Nat.iter_add.
Qed.
Lemma Pos_iter_xO m p : Pos.iter xO m p = shl m (Pos.to_nat p).
Proof. unfold shl. by rewrite Pos2Nat.inj_iter. Qed.
Lemma digits_shl m k : Zpos (digits2_pos (shl m k)) = Zpos (digits2_pos m) + Z.of_nat k.
Proof.
  induction k as [|k IH]; [cbn; lia|]. rewrite shl_S. cbn [digits2_pos].
  rewrite Pos2Z.inj_succ, IH. lia.
Qed.
Lemma shr_shl m k :
  Nat.iter k shr_1 (Build_shr_record (Zpos (shl m k)) false false) = Build_shr_record (Zpos m) false false.
Proof.
  induction k as [|k IH]; [done|]. by rewrite Nat.iter_succ_r, shl_S.
Qed.

Section exact.
Context (prec emax : Z).

Lemma shr_fexp_canonical m e k :
  canonical_mantissa prec emax m e = true →
  shr_fexp prec emax (Zpos (shl m k)) (e - Z.of_nat k) loc_Exact
  = (Build_shr_record (Zpos m) false false, e).
Proof.
  unfold canonical_mantissa. intros Hc%Z.eqb_eq. unfold shr_fexp. cbn [shr_record_of_loc Zdigits2].
  rewrite digits_shl.
  replace (Zpos (digits2_pos m) + Z.of_nat k + (e - Z.of_nat k)) with (Zpos (digits2_pos m) + e) by lia.
  change Z.sub with (λ a b, a - b) in *. cbv beta. change Z.add with (λ a b, a + b) in Hc. cbv beta in Hc.
  rewrite Hc. replace (e - (e - Z.of_nat k)) with (Z.of_nat k) by lia. unfold shr.
  destruct (Z.of_nat k) as [|p|p] eqn:Ek; [|..]; [|  |lia].
  - assert (k = 0)%nat as -> by lia. cbn. f_equal. lia.
  - rewrite iter_pos_nat. assert (Pos.to_nat p = k) as -> by lia. rewrite shr_shl. f_equal. lia.
Qed.
(** Rounding a number the format has gives that number. *)
Lemma round_aux_exact s m e k :
  bounded prec emax m e = true →
  binary_round_aux prec emax s (Zpos (shl m k)) (e - Z.of_nat k) loc_Exact = S754_finite s m e.
Proof.
  unfold bounded. intros [Hc He]%andb_prop. unfold binary_round_aux.
  rewrite shr_fexp_canonical by done. cbn [shr_m loc_of_shr_record round_nearest_even].
  pose proof (shr_fexp_canonical m e 0 Hc) as E. change (shl m 0) with m in E.
  replace (e - Z.of_nat 0) with e in E by lia. rewrite E. cbn [shr_m]. by rewrite He.
Qed.
Lemma round_exact_down s m e k :
  bounded prec emax m e = true → binary_round prec emax s (shl m k) (e - Z.of_nat k) = S754_finite s m e.
Proof.
  intros Hb. pose proof Hb as [Hc _]%andb_prop. unfold canonical_mantissa in Hc. apply Z.eqb_eq in Hc.
  unfold binary_round, shl_align. rewrite digits_shl.
  replace (Z.add (Zpos (digits2_pos m) + Z.of_nat k) (e - Z.of_nat k)) with (Z.add (Zpos (digits2_pos m)) e) by lia.
  rewrite Hc. replace (Z.sub e (e - Z.of_nat k)) with (Z.of_nat k) by lia.
  destruct (Z.of_nat k) eqn:Ek; [..|lia]; rewrite <-Ek; by apply round_aux_exact.
Qed.
Lemma round_exact_up s m e k :
  bounded prec emax (shl m k) e = true → binary_round prec emax s m (e + Z.of_nat k) = S754_finite s (shl m k) e.
Proof.
  intros Hb. pose proof Hb as [Hc _]%andb_prop. unfold canonical_mantissa in Hc. apply Z.eqb_eq in Hc.
  rewrite digits_shl in Hc. unfold binary_round, shl_align.
  replace (Z.add (Zpos (digits2_pos m)) (e + Z.of_nat k)) with (Z.add (Zpos (digits2_pos m) + Z.of_nat k) e) by lia.
  rewrite Hc. replace (Z.sub e (e + Z.of_nat k)) with (- Z.of_nat k) by lia.
  destruct k as [|k].
  - cbn [Z.of_nat Z.opp]. rewrite Z.add_0_r. change m with (shl m 0) at 1.
    pose proof (round_aux_exact s m e 0 Hb) as E. by rewrite Z.sub_0_r in E.
  - change (- Z.of_nat (S k)) with (Zneg (Pos.of_succ_nat k)). cbv iota beta.
    rewrite Pos_iter_xO, SuccNat2Pos.id_succ.
    pose proof (round_aux_exact s (shl m (S k)) e 0 Hb) as E. by rewrite Z.sub_0_r in E.
Qed.
End exact.

Lemma digits2_bound m : 2 ^ (Zpos (digits2_pos m) - 1) ≤ Zpos m < 2 ^ Zpos (digits2_pos m).
Proof.
  induction m as [m IH|m IH|]; cbn [digits2_pos]; rewrite ?Pos2Z.inj_succ; [..|cbn; lia].
  all: assert (2 ^ Z.succ (Zpos (digits2_pos m)) = 2 * 2 ^ Zpos (digits2_pos m)) as E1 by (apply Z.pow_succ_r; lia).
  all: assert (2 ^ (Z.succ (Zpos (digits2_pos m)) - 1) = 2 * 2 ^ (Zpos (digits2_pos m) - 1)) as E2
    by (rewrite <-Z.pow_succ_r by lia; f_equal; lia).
  all: rewrite E1, E2; lia.
Qed.
Lemma digits2_le m n : 0 ≤ n → Zpos m < 2 ^ n → Zpos (digits2_pos m) ≤ n.
Proof.
  intros Hn Hm. destruct (digits2_bound m) as [Hl _].
  assert (Zpos (digits2_pos m) - 1 < n); [|lia]. apply (Z.pow_lt_mono_r_iff 2); lia.
Qed.
Lemma digits2_ge m n : 2 ^ n ≤ Zpos m → n < Zpos (digits2_pos m).
Proof.
  intros Hm. destruct (digits2_bound m) as [_ Hu]. destruct (Z.lt_ge_cases n 0); [lia|].
  apply (Z.pow_lt_mono_r_iff 2); lia.
Qed.

(** ** Integers *)
Section integers.
Context (prec emax : Z).
Hypotheses (Hprec : 0 < prec) (Hemax : prec ≤ emax) (H2 : 2 ≤ emax).

(** The shift that brings a number to the full precision. *)
Definition spare (p : positive) : nat := Z.to_nat (prec - Zpos (digits2_pos p)).
Lemma spare_bounded p : Zpos p < 2 ^ prec → bounded prec emax (shl p (spare p)) (- Z.of_nat (spare p)) = true.
Proof.
  intros Hp. apply digits2_le in Hp; [|lia]. unfold bounded, canonical_mantissa, spare. apply andb_true_intro.
  rewrite digits_shl, Z2Nat.id by lia. unfold fexp, emin. split; [apply Z.eqb_eq|apply Z.leb_le]; lia.
Qed.
Lemma round_integer s p :
  Zpos p < 2 ^ prec → binary_round prec emax s p 0 = S754_finite s (shl p (spare p)) (- Z.of_nat (spare p)).
Proof.
  intros Hp. pose proof (round_exact_up prec emax s p (- Z.of_nat (spare p)) (spare p) (spare_bounded p Hp)) as E.
  by rewrite Z.add_opp_diag_l in E.
Qed.
Lemma mag_trunc_shl p k : mag_trunc (shl p k) (- Z.of_nat k) = Zpos p.
Proof.
  unfold mag_trunc. rewrite Zpos_shl. destruct (Z.leb_spec 0 (- Z.of_nat k)).
  - assert (k = 0)%nat as -> by lia. cbn. lia.
  - rewrite Z.opp_involutive. apply Z.div_mul. apply Z.pow_nonzero; lia.
Qed.
(** An integer within the precision is converted exactly: the cast back gives
    it again, and it is its own floor. *)
Lemma float_of_Z_cast lo hi z :
  Z.abs z < 2 ^ prec → lo ≤ z ≤ hi → float_as_int lo hi (float_of_Z prec emax z) = z.
Proof.
  intros Hz Hr. unfold float_of_Z. destruct z as [|p|p]; [done|..]; cbn [binary_normalize];
    rewrite round_integer by (cbn in Hz; lia); cbn [float_as_int cond_Zopp]; rewrite mag_trunc_shl; lia.
Qed.
Lemma floor_round_integer s p :
  Zpos p < 2 ^ prec → float_floor prec emax (binary_round prec emax s p 0) = binary_round prec emax s p 0.
Proof.
  intros Hp. rewrite (round_integer s p Hp) at 1. cbn [float_floor].
  destruct (Z.leb_spec 0 (- Z.of_nat (spare p))) as [H0|H0]; [by rewrite round_integer|].
  rewrite mag_trunc_shl, Z.opp_involutive, Zpos_shl, Z.mod_mul by (apply Z.pow_nonzero; lia).
  by rewrite orb_true_r.
Qed.
Lemma float_of_Z_floor z :
  Z.abs z < 2 ^ prec → float_floor prec emax (float_of_Z prec emax z) = float_of_Z prec emax z.
Proof.
  intros Hz. unfold float_of_Z. destruct z as [|p|p]; [done|..]; cbn [binary_normalize];
    apply floor_round_integer; cbn in Hz; lia.
Qed.
End integers.

(** ** Bits of [f32] *)
Definition f32_valid (x : float) : Prop := valid_binary 24 128 x = true.
Lemma f32_finite_bounds s m e :
  f32_valid (S754_finite s m e) →
  (2 ^ 23 ≤ Zpos m < 2 ^ 24 ∧ -149 ≤ e ≤ 104) ∨ (Zpos m < 2 ^ 23 ∧ e = -149).
Proof.
  unfold f32_valid. cbn [valid_binary]. unfold bounded, canonical_mantissa, fexp, emin.
  intros [Hc%Z.eqb_eq He%Z.leb_le]%andb_prop. destruct (digits2_bound m) as [Hl Hu].
  destruct (Z.lt_ge_cases (Zpos m) (2 ^ 23)) as [Hm|Hm].
  - right. split; [done|]. apply digits2_le in Hm; lia.
  - left. pose proof (digits2_ge m 23 Hm). assert (Zpos (digits2_pos m) = 24) as E by lia. rewrite E in Hu.
    split; [done|lia].
Qed.
Lemma f32_bits_roundtrip x : f32_valid x → f32_from_bits (f32_to_bits x) = x.
Proof.
  intros Hv. destruct x as [s|s| |s m e]; [by destruct s|by destruct s|done|].
  destruct (f32_finite_bounds s m e Hv) as [[Hm He]|[Hm ->]]; unfold f32_to_bits, f32_from_bits.
  - rewrite (proj2 (Z.ltb_ge _ _)) by lia.
    set (b := _ + (e + 150) * 2 ^ 23 + (Zpos m - 2 ^ 23)).
    assert (b / 2 ^ 23 = (if s then 256 else 0) + (e + 150)) as Eq
      by (symmetry; apply Z.div_unique with (Zpos m - 2 ^ 23); [lia|destruct s; lia]).
    assert (b mod 2 ^ 23 = Zpos m - 2 ^ 23) as Er
      by (symmetry; apply Z.mod_unique with ((if s then 256 else 0) + (e + 150)); [lia|destruct s; lia]).
    rewrite Eq, Er. replace (((if s then 256 else 0) + (e + 150)) mod 256) with (e + 150)
      by (destruct s; [apply (Z.mod_unique _ _ 1); lia|by rewrite Z.mod_small by lia]).
    replace (2 ^ 31 <=? b) with s by (destruct s; symmetry; [apply Z.leb_le|apply Z.leb_gt]; lia).
    rewrite (proj2 (Z.eqb_neq _ _)), (proj2 (Z.eqb_neq _ _)) by lia.
    replace (Zpos m - 2 ^ 23 + 2 ^ 23) with (Zpos m) by lia. f_equal. lia.
  - rewrite (proj2 (Z.ltb_lt _ _)) by lia. set (b := _ + Zpos m).
    assert (b / 2 ^ 23 = if s then 256 else 0) as Eq
      by (symmetry; apply Z.div_unique with (Zpos m); [lia|destruct s; lia]).
    assert (b mod 2 ^ 23 = Zpos m) as Er
      by (symmetry; apply Z.mod_unique with (if s then 256 else 0); [lia|destruct s; lia]).
    rewrite Eq, Er. replace ((if s then 256 else 0) mod 256) with 0 by by destruct s.
    replace (2 ^ 31 <=? b) with s by (destruct s; symmetry; [apply Z.leb_le|apply Z.leb_gt]; lia). done.
Qed.
Lemma f32_to_bits_range x : f32_valid x → 0 ≤ f32_to_bits x < 2 ^ 32.
Proof.
  intros Hv. destruct x as [s|s| |s m e]; [by destruct s|by destruct s|done|]. unfold f32_to_bits.
  destruct (f32_finite_bounds s m e Hv) as [[Hm He]|[Hm ->]].
  - rewrite (proj2 (Z.ltb_ge _ _)) by lia. destruct s; lia.
  - rewrite (proj2 (Z.ltb_lt _ _)) by lia. destruct s; lia.
Qed.
Lemma f32_from_bits_valid b : f32_valid (f32_from_bits b).
Proof.
  unfold f32_valid, f32_from_bits. cbv zeta.
  assert (0 ≤ b / 2 ^ 23 mod 256 < 256) as He by by apply Z.mod_pos_bound.
  assert (0 ≤ b mod 2 ^ 23 < 2 ^ 23) as Hm by by apply Z.mod_pos_bound.
  set (e := _ mod 256) in *. set (m := b mod 2 ^ 23) in *. set (s := 2 ^ 31 <=? b).
  destruct (Z.eqb_spec e 255); [by destruct (m =? 0)|].
  unfold valid_binary, bounded, canonical_mantissa, fexp, emin. destruct (Z.eqb_spec e 0).
  - destruct m as [|p|p]; [done| |lia]. apply andb_true_intro.
    assert (Zpos (digits2_pos p) ≤ 23) by (apply digits2_le; lia). split; [apply Z.eqb_eq; lia|done].
  - destruct (m + 2 ^ 23) as [|p|p] eqn:Ep; [lia| |lia]. apply andb_true_intro.
    assert (Zpos (digits2_pos p) ≤ 24) by (apply digits2_le; lia).
    assert (23 < Zpos (digits2_pos p)) by (apply digits2_ge; lia). split; [apply Z.eqb_eq|apply Z.leb_le]; lia.
Qed.

(** Widening to [f64] loses nothing. *)
Lemma f32_f64_roundtrip x : f32_valid x → f32_of_f64 (f64_of_f32 x) = x.
Proof.
  intros Hv. destruct x as [s|s| |s m e]; [done..|].
  unfold f32_of_f64, f64_of_f32. cbn [float_convert].
  set (k := Z.to_nat (53 - Zpos (digits2_pos m))).
  assert (1 ≤ Zpos (digits2_pos m) ≤ 24 ∧ -149 ≤ e ≤ 104) as [Hd He].
  { destruct (f32_finite_bounds s m e Hv) as [[Hm He]|[Hm ->]]; (split; [split; [lia|apply digits2_le; lia]|lia]). }
  assert (bounded 53 1024 (shl m k) (e - Z.of_nat k) = true) as Hb.
  { unfold bounded, canonical_mantissa, fexp, emin, k. rewrite digits_shl, Z2Nat.id by lia. apply andb_true_intro.
    split; [apply Z.eqb_eq|apply Z.leb_le]; lia. }
  replace e with (e - Z.of_nat k + Z.of_nat k) at 1 by lia. rewrite round_exact_up by done.
  cbn [float_convert]. by apply round_exact_down.
Qed.
Lemma f32_bytes_roundtrip x : f32_valid x → f32_from_be_bytes (f32_to_be_bytes x) = x.
Proof.
  intros Hv. unfold f32_from_be_bytes, f32_to_be_bytes. rewrite from_be_to_be, Z.mod_small by by apply f32_to_bits_range.
  by apply f32_bits_roundtrip.
Qed.

(** ** Arithmetic of integers *)
Lemma shl_add p j k : shl (shl p j) k = shl p (j + k).
Proof. unfold shl. by rewrite Nat.add_comm, Nat.iter_add. Qed.
Lemma Zpos_inj_shl p z k : Zpos p * 2 ^ Z.of_nat k = z → z = Zpos (shl p k).
Proof. by rewrite Zpos_shl. Qed.
Section arithmetic.
Context (prec emax : Z).
Hypotheses (Hprec : 0 < prec) (Hemax : prec ≤ emax) (H2 : 2 ≤ emax).
Abbreviation float_of_Z := (float_of_Z prec emax).

(** A number scaled up and back is rounded as it is. *)
Lemma round_scaled s p k : Zpos p < 2 ^ prec → binary_round prec emax s (shl p k) (- Z.of_nat k) = binary_round prec emax s p 0.
Proof.
  intros Hp. rewrite (round_integer prec emax Hprec Hemax H2 s p Hp). pose proof (spare_bounded prec emax Hprec Hemax H2 p Hp) as Hb.
  destruct (Nat.le_ge_cases (spare prec p) k) as [Hk|Hk].
  - rewrite <-(round_exact_down prec emax s _ _ (k - spare prec p) Hb), shl_add. do 2 f_equal; lia.
  - assert (shl (shl p k) (spare prec p - k) = shl p (spare prec p)) as Es by (rewrite shl_add; f_equal; lia).
    pose proof (round_exact_up prec emax s (shl p k) (- Z.of_nat (spare prec p)) (spare prec p - k)) as E. rewrite Es in E.
    rewrite <-E by done. f_equal. lia.
Qed.
Lemma shl_align_shl p j k : (j ≤ k)%nat → fst (shl_align (shl p j) (- Z.of_nat j) (- Z.of_nat k)) = shl p k.
Proof.
  intros Hk. unfold shl_align. replace (Z.sub (- Z.of_nat k) (- Z.of_nat j)) with (- Z.of_nat (k - j)) by lia.
  destruct (k - j)%nat as [|d] eqn:E.
  - cbn. by replace k with j by lia.
  - change (- Z.of_nat (S d)) with (Zneg (Pos.of_succ_nat d)). cbv iota beta. cbn [fst]. rewrite Pos_iter_xO, SuccNat2Pos.id_succ, shl_add. f_equal. lia.
Qed.
Lemma round_pos_eq z k : 0 ≤ z < 2 ^ prec → binary_normalize prec emax (z * 2 ^ Z.of_nat k) (- Z.of_nat k) false = float_of_Z z.
Proof.
  intros Hz. destruct z as [|p|p]; [done| |lia]. rewrite (Zpos_inj_shl p _ k eq_refl). unfold Float.float_of_Z. cbn [binary_normalize]. apply round_scaled. lia.
Qed.
Lemma float_add_integers a b : 0 ≤ a → 0 ≤ b → a + b < 2 ^ prec → SFadd prec emax (float_of_Z a) (float_of_Z b) = float_of_Z (a + b).
Proof.
  intros Ha Hb Hab. destruct a as [|p|p], b as [|q|q]; try lia; [done| | |]; unfold Float.float_of_Z; cbn [binary_normalize].
  - rewrite Z.add_0_l. cbn [binary_normalize]. by rewrite round_integer by (done || lia).
  - rewrite Z.add_0_r. cbn [binary_normalize]. by rewrite round_integer by (done || lia).
  - rewrite !round_integer by (done || lia). cbn [SFadd cond_Zopp]. cbv zeta.
    rewrite <-Z.opp_max_distr, <-Nat2Z.inj_max, !shl_align_shl, !Zpos_shl by lia. rewrite <-Z.mul_add_distr_r. by apply round_pos_eq.
Qed.
Lemma float_sub_integers a b : 0 ≤ b ≤ a → a < 2 ^ prec → SFsub prec emax (float_of_Z a) (float_of_Z b) = float_of_Z (a - b).
Proof.
  intros Hb Ha. destruct b as [|q|q]; [|destruct a as [|p|p]; try lia|lia].
  - rewrite Z.sub_0_r. destruct a as [|p|p]; [done| |lia]. unfold Float.float_of_Z. cbn [binary_normalize].
    by rewrite round_integer by (done || lia).
  - unfold Float.float_of_Z at 1 2. cbn [binary_normalize]. rewrite !round_integer by (done || lia). cbn [SFsub cond_Zopp]. cbv zeta.
    rewrite <-Z.opp_max_distr, <-Nat2Z.inj_max, !shl_align_shl, !Zpos_shl by lia. rewrite <-Z.mul_sub_distr_r. apply round_pos_eq. lia.
Qed.
Lemma digits_mul p q : Zpos (digits2_pos p) + Zpos (digits2_pos q) - 1 ≤ Zpos (digits2_pos (p * q)).
Proof.
  destruct (digits2_bound p) as [Hp _], (digits2_bound q) as [Hq _].
  assert (2 ^ (Zpos (digits2_pos p) - 1 + (Zpos (digits2_pos q) - 1)) ≤ Zpos (p * q)) as H%digits2_ge; [|lia].
  rewrite Z.pow_add_r by lia. rewrite Pos2Z.inj_mul. apply Z.mul_le_mono_nonneg; lia.
Qed.
Lemma float_mul_integers a b : 0 ≤ a → 0 ≤ b → a < 2 ^ prec → b < 2 ^ prec → a * b < 2 ^ prec →
  SFmul prec emax (float_of_Z a) (float_of_Z b) = float_of_Z (a * b).
Proof.
  intros Ha Hb Ha2 Hb2 Hab. destruct a as [|p|p], b as [|q|q]; try lia; [done| | |]; unfold Float.float_of_Z; cbn [binary_normalize Z.mul].
  - by rewrite round_integer by (done || lia).
  - by rewrite round_integer by (done || lia).
  - rewrite !round_integer by (done || lia). cbn [SFmul xorb].
    assert (Zpos (shl p (spare prec p) * shl q (spare prec q)) = Zpos (shl (p * q) (spare prec p + spare prec q))) as ->.
    { rewrite Pos2Z.inj_mul, !Zpos_shl, Pos2Z.inj_mul, Nat2Z.inj_add, Z.pow_add_r by lia. lia. }
    pose proof (digits_mul p q). apply digits2_le in Ha2, Hb2, Hab as Hd; [|lia..].
    assert (spare prec (p * q) ≤ spare prec p + spare prec q)%nat as Hs by (unfold spare; cbn in *; lia).
    change (binary_normalize prec emax (Zpos p * Zpos q) 0 false) with (binary_round prec emax false (p * q) 0).
    rewrite (round_integer prec emax Hprec Hemax H2 false (p * q) Hab). rewrite <-(round_aux_exact prec emax false _ _ (spare prec p + spare prec q - spare prec (p * q))
      (spare_bounded prec emax Hprec Hemax H2 (p * q) Hab)), shl_add.
    replace (spare prec (p * q) + (spare prec p + spare prec q - spare prec (p * q)))%nat with (spare prec p + spare prec q)%nat by lia.
    f_equal. lia.
Qed.
End arithmetic.

(** ** Comparing and reading integers *)
Section compare.
Context (prec emax : Z).
Hypotheses (Hprec : 0 < prec) (Hemax : prec ≤ emax) (H2 : 2 ≤ emax).

Lemma shl_compare p q k : (shl p k ?= shl q k)%positive = (p ?= q)%positive.
Proof. induction k as [|k IH]; [done|]. rewrite !shl_S. exact IH. Qed.
Lemma digits_compare p q : Zpos (digits2_pos p) < Zpos (digits2_pos q) → (p < q)%positive.
Proof.
  intros Hd. destruct (digits2_bound p) as [_ Hp], (digits2_bound q) as [Hq _].
  assert (2 ^ Zpos (digits2_pos p) ≤ 2 ^ (Zpos (digits2_pos q) - 1)) by (apply Z.pow_le_mono_r; lia). lia.
Qed.
(** Full mantissas compare as the integers they stand for. *)
Lemma normal_compare p q :
  Zpos p < 2 ^ prec → Zpos q < 2 ^ prec →
  match - Z.of_nat (spare prec p) ?= - Z.of_nat (spare prec q) with
  | Lt => Lt
  | Gt => Gt
  | Eq => Pos.compare_cont Eq (shl p (spare prec p)) (shl q (spare prec q))
  end = (p ?= q)%positive.
Proof.
  intros Hp Hq. apply digits2_le in Hp, Hq; [|lia..].
  assert (Z.of_nat (spare prec p) = prec - Zpos (digits2_pos p)) as Ep by (unfold spare; lia).
  assert (Z.of_nat (spare prec q) = prec - Zpos (digits2_pos q)) as Eq by (unfold spare; lia).
  destruct (Z.compare_spec (- Z.of_nat (spare prec p)) (- Z.of_nat (spare prec q))) as [E|E|E].
  - replace (spare prec q) with (spare prec p) by lia. apply shl_compare.
  - symmetry. apply Pos.compare_lt_iff, digits_compare. lia.
  - symmetry. apply Pos.compare_gt_iff, digits_compare. lia.
Qed.
Lemma float_of_Z_compare a b :
  Z.abs a < 2 ^ prec → Z.abs b < 2 ^ prec →
  SFcompare (float_of_Z prec emax a) (float_of_Z prec emax b) = Some (a ?= b).
Proof.
  intros Ha Hb. unfold float_of_Z. destruct a as [|p|p], b as [|q|q]; cbn [binary_normalize Z.abs] in *;
    rewrite ?round_integer by lia; try done; cbn [SFcompare].
  - by rewrite normal_compare by lia.
  - f_equal. change (Zneg p ?= Zneg q) with (CompOpp (p ?= q)%positive).
    rewrite <-(normal_compare p q) by lia. by destruct (_ ?= _).
Qed.
Lemma float_of_Z_ltb a b :
  Z.abs a < 2 ^ prec → Z.abs b < 2 ^ prec →
  SFltb (float_of_Z prec emax a) (float_of_Z prec emax b) = (a <? b).
Proof. intros Ha Hb. unfold SFltb. rewrite float_of_Z_compare by done. by destruct (a ?= b) eqn:E; unfold Z.ltb; rewrite E. Qed.
Lemma float_of_Z_eqb_refl a :
  Z.abs a < 2 ^ prec → SFeqb (float_of_Z prec emax a) (float_of_Z prec emax a) = true.
Proof. intros Ha. unfold SFeqb. by rewrite float_of_Z_compare, Z.compare_refl by done. Qed.
Lemma float_of_decimal_integer s p :
  float_of_decimal prec emax s (Zpos p) 0 = binary_round prec emax s p 0.
Proof. cbn. by rewrite Pos.mul_1_r. Qed.
End compare.

Lemma span_digits_all s : str_all is_digit s = true → span_digits s = (s, EmptyString).
Proof.
  induction s as [|c s IH]; [done|]. cbn [str_all span_digits]. intros [Hc Hs]%andb_prop.
  unfold is_digit in Hc. by rewrite Hc, IH.
Qed.
Lemma parse_unsigned_float_digits prec emax neg s n :
  str_all is_digit s = true → s ≠ EmptyString → digits_value ascii_digit 10 s 0 = Some n →
  parse_unsigned_float prec emax neg s = Some (float_of_decimal prec emax neg n 0).
Proof.
  intros Hd Hne Hv. unfold parse_unsigned_float. rewrite span_digits_all by done. cbv beta iota.
  rewrite append_nil_r. unfold number. destruct s as [|c s]; [done|]. rewrite Hv. done.
Qed.
(** The text of an integer reads back as that integer. *)
Lemma parse_float_dec prec emax z : parse_float prec emax (dec z) = Some (float_of_Z prec emax z).
Proof.
  destruct z as [|p|p]; [done|..].
  - destruct (dec_digits (Zpos p)) as [Hd Hne]; [lia|]. unfold parse_float.
    destruct (dec (Zpos p)) as [|c s] eqn:E; [done|]. pose proof Hd as Hd'. cbn [str_all] in Hd'.
    apply andb_prop in Hd' as [Hc _].
    replace (Ascii.eqb c "-") with false by (destruct (Ascii.eqb_spec c "-") as [->|]; done).
    replace (Ascii.eqb c "+") with false by (destruct (Ascii.eqb_spec c "+") as [->|]; done).
    rewrite (parse_unsigned_float_digits _ _ _ _ (Zpos p)); [|done|done|by rewrite <-E, dec_value].
    by rewrite float_of_decimal_integer.
  - rewrite dec_neg. cbn [parse_float]. change (Ascii.eqb "-" "-") with true. cbv iota.
    destruct (dec_digits (Zpos p)) as [Hd Hne]; [lia|].
    rewrite (parse_unsigned_float_digits _ _ _ _ (Zpos p)); [|done|done|by rewrite dec_value].
    by rewrite float_of_decimal_integer.
Qed.
