(* ===== verification/Queue.v ===== *)
(** The telegram queue ([src/src/transport/queue.rs]).

    The async mutex makes every critical section atomic.  A [dequeue_*] call
    is a loop of critical sections separated by a wait on a
    [tokio::sync::Notify]; [dequeue_outgoing_step] and [dequeue_incoming_step]
    are one iteration.  [BinaryHeap] is used through [push], [pop] (which
    removes a greatest element), [len] and [clear].

    The [u64] counters are unbounded.  [acquire_send_token] is the [acquire] of
    the rate limiter, which [Pacing] models. *)
From Stdlib Require Import Sorting.Sorted.
From stdpp Require Import relations.
From S2P Require Import Prelude Errors Address Telegram Text Float.

(** * Data *)
Record PriorityTelegram := MkPriorityTelegram {
  pt_telegram : Telegram;
  sequence : Z;
  enqueued_at : Z;
}.

(** [Ord for PriorityTelegram]. *)
Definition PriorityTelegram_cmp (self other : PriorityTelegram) : comparison :=
  match Priority_cmp (priority (pt_telegram other)) (priority (pt_telegram self)) with
  | Eq => Z.compare (sequence other) (sequence self)
  | c => c
  end.

Record QueueConfig := MkQueueConfig {
  max_size : nat;
  processing_timeout : Z;
  strict_incoming_order : bool;
  priority_processing : bool;
}.

Definition QueueConfig_default : QueueConfig :=
  {| max_size := 1000; processing_timeout := 30000000000; strict_incoming_order := true;
     priority_processing := true |}.

Record QueueStats := MkQueueStats {
  total_enqueued : Z;
  total_dequeued : Z;
  current_size : nat;
  peak_size : nat;
  dropped_count : Z;
  avg_processing_time : Z;
  sequence_counter : Z;
}.

Record QueueState := MkQueueState {
  outgoing : list PriorityTelegram;
  incoming : list Telegram;
  queue_stats : QueueStats;
  closed : bool;
}.

Definition QueueState_new : QueueState :=
  {| outgoing := []; incoming := []; queue_stats := MkQueueStats 0 0 0 0 0 0 0; closed := false |}.

(** [BinaryHeap::push] and [BinaryHeap::pop]. *)
Definition heap_push (x : PriorityTelegram) (h : list PriorityTelegram) := h ++ [x].
Fixpoint heap_pop (h : list PriorityTelegram) : option (PriorityTelegram * list PriorityTelegram) :=
  match h with
  | [] => None
  | x :: h =>
      match heap_pop h with
      | None => Some (x, [])
      | Some (m, rest) =>
          match PriorityTelegram_cmp x m with
          | Lt => Some (m, x :: rest)
          | _ => Some (x, h)
          end
      end
  end.

(** * Operations *)
Section operations.
Context (config : QueueConfig).

(** The average with its weight of a tenth for the new sample, in milliseconds. *)
Definition moving_average (new_millis current_millis : Z) : Z :=
  let alpha := f64_lit 1 1 in
  float_as_u64 (f64_add (f64_mul alpha (f64_of_Z new_millis))
                        (f64_mul (f64_sub (f64_of_Z 1) alpha) (f64_of_Z current_millis))).
Definition update_avg_processing_time (s : QueueStats) (new_time : Z) : QueueStats :=
  {| total_enqueued := total_enqueued s; total_dequeued := total_dequeued s;
     current_size := current_size s; peak_size := peak_size s; dropped_count := dropped_count s;
     avg_processing_time :=
       if total_dequeued s =? 1 then new_time
       else moving_average (new_time / 1000000) (avg_processing_time s / 1000000) * 1000000;
     sequence_counter := sequence_counter s |}.

Definition drop_one (q : QueueState) : QueueState :=
  let s := queue_stats q in
  {| outgoing := outgoing q; incoming := incoming q; closed := closed q;
     queue_stats := MkQueueStats (total_enqueued s) (total_dequeued s) (current_size s)
       (peak_size s) (dropped_count s + 1) (avg_processing_time s) (sequence_counter s) |}.

Definition enqueue_outgoing (now : Z) (t : Telegram) (q : QueueState) : result unit * QueueState :=
  if closed q then (terr QueueClosed, q)
  else if (max_size config <=? length (outgoing q))%nat then (terr QueueFull, drop_one q)
  else
    let s := queue_stats q in
    let pt := MkPriorityTelegram t (sequence_counter s) now in
    let out := if priority_processing config then heap_push pt (outgoing q)
               else heap_push pt (outgoing q) in
    let size := (length out + length (incoming q))%nat in
    (Ok tt,
     {| outgoing := out; incoming := incoming q; closed := closed q;
        queue_stats := MkQueueStats (total_enqueued s + 1) (total_dequeued s) size
          (if (peak_size s <? size)%nat then size else peak_size s)
          (dropped_count s) (avg_processing_time s) (sequence_counter s + 1) |}).

Definition enqueue_incoming (t : Telegram) (q : QueueState) : result unit * QueueState :=
  if closed q then (terr QueueClosed, q)
  else if (max_size config <=? length (incoming q))%nat then (terr QueueFull, drop_one q)
  else
    let s := queue_stats q in
    let inc := incoming q ++ [t] in
    let size := (length (outgoing q) + length inc)%nat in
    (Ok tt,
     {| outgoing := outgoing q; incoming := inc; closed := closed q;
        queue_stats := MkQueueStats (total_enqueued s + 1) (total_dequeued s) size
          (if (peak_size s <? size)%nat then size else peak_size s)
          (dropped_count s) (avg_processing_time s) (sequence_counter s) |}).

(** One pass of a dequeue loop: a telegram, the end, or a wait. *)
Inductive dequeued := Got (t : Telegram) | Ended | Wait.

Definition dequeue_outgoing_step (now : Z) (q : QueueState) : dequeued * QueueState :=
  match heap_pop (outgoing q) with
  | Some (pt, out) =>
      let s := queue_stats q in
      let s := MkQueueStats (total_enqueued s) (total_dequeued s + 1)
                 (length out + length (incoming q)) (peak_size s) (dropped_count s)
                 (avg_processing_time s) (sequence_counter s) in
      (Got (pt_telegram pt),
       {| outgoing := out; incoming := incoming q; closed := closed q;
          queue_stats := update_avg_processing_time s (Z.max 0 (now - enqueued_at pt)) |})
  | None => (if closed q then Ended else Wait, q)
  end.

Definition dequeue_incoming_step (q : QueueState) : dequeued * QueueState :=
  match incoming q with
  | t :: inc =>
      let s := queue_stats q in
      (Got t,
       {| outgoing := outgoing q; incoming := inc; closed := closed q;
          queue_stats := MkQueueStats (total_enqueued s) (total_dequeued s + 1)
            (length (outgoing q) + length inc) (peak_size s) (dropped_count s)
            (avg_processing_time s) (sequence_counter s) |})
  | [] => (if closed q then Ended else Wait, q)
  end.

Definition queue_is_empty (q : QueueState) : bool :=
  match outgoing q, incoming q with [], [] => true | _, _ => false end.
Definition queue_len (q : QueueState) : nat := length (outgoing q) + length (incoming q).

Definition queue_close (q : QueueState) : QueueState :=
  {| outgoing := outgoing q; incoming := incoming q; queue_stats := queue_stats q; closed := true |}.

Definition queue_clear (q : QueueState) : QueueState :=
  let s := queue_stats q in
  {| outgoing := []; incoming := []; closed := closed q;
     queue_stats := MkQueueStats (total_enqueued s) (total_dequeued s) 0 (peak_size s)
       (dropped_count s) (avg_processing_time s) (sequence_counter s) |}.

(** * Executions *)
Inductive queue_op :=
| EnqueueOutgoing (now : Z) (t : Telegram)
| EnqueueIncoming (t : Telegram)
| DequeueOutgoing (now : Z)
| DequeueIncoming
| Close
| Clear.

Inductive queue_answer := Enqueued (r : result unit) | Dequeued (d : dequeued) | Done.

Definition queue_step (op : queue_op) (q : QueueState) : queue_answer * QueueState :=
  match op with
  | EnqueueOutgoing now t => let '(r, q) := enqueue_outgoing now t q in (Enqueued r, q)
  | EnqueueIncoming t => let '(r, q) := enqueue_incoming t q in (Enqueued r, q)
  | DequeueOutgoing now => let '(d, q) := dequeue_outgoing_step now q in (Dequeued d, q)
  | DequeueIncoming => let '(d, q) := dequeue_incoming_step q in (Dequeued d, q)
  | Close => (Done, queue_close q)
  | Clear => (Done, queue_clear q)
  end.

Fixpoint queue_run (ops : list queue_op) (q : QueueState) : list queue_answer * QueueState :=
  match ops with
  | [] => ([], q)
  | op :: ops =>
      let '(a, q) := queue_step op q in
      let '(answers, q) := queue_run ops q in
      (a :: answers, q)
  end.
End operations.

(** * The abstract queue

    One first-in first-out lane per priority for outgoing telegrams, served
    strictly by urgency, and one lane for incoming telegrams.  No sequence
    numbers, no heap, no statistics. *)
Record lanes := MkLanes {
  lane_system : list Telegram;
  lane_urgent : list Telegram;
  lane_normal : list Telegram;
  lane_low : list Telegram;
  lane_incoming : list Telegram;
  lanes_closed : bool;
}.

Definition lanes_new : lanes := MkLanes [] [] [] [] [] false.
Definition lanes_outgoing_size (l : lanes) : nat :=
  length (lane_system l) + length (lane_urgent l) + length (lane_normal l) + length (lane_low l).

Definition lanes_push (t : Telegram) (l : lanes) : lanes :=
  let 'MkLanes s u n w i c := l in
  match priority t with
  | System => MkLanes (s ++ [t]) u n w i c
  | Urgent => MkLanes s (u ++ [t]) n w i c
  | Normal => MkLanes s u (n ++ [t]) w i c
  | Low => MkLanes s u n (w ++ [t]) i c
  end.

Definition lanes_pop (l : lanes) : option (Telegram * lanes) :=
  match l with
  | MkLanes (t :: s) u n w i c => Some (t, MkLanes s u n w i c)
  | MkLanes [] (t :: u) n w i c => Some (t, MkLanes [] u n w i c)
  | MkLanes [] [] (t :: n) w i c => Some (t, MkLanes [] [] n w i c)
  | MkLanes [] [] [] (t :: w) i c => Some (t, MkLanes [] [] [] w i c)
  | MkLanes [] [] [] [] _ _ => None
  end.

Definition lanes_step (max : nat) (op : queue_op) (l : lanes) : queue_answer * lanes :=
  let 'MkLanes s u n w i c := l in
  match op with
  | EnqueueOutgoing _ t =>
      if c then (Enqueued (terr QueueClosed), l)
      else if (max <=? lanes_outgoing_size l)%nat then (Enqueued (terr QueueFull), l)
      else (Enqueued (Ok tt), lanes_push t l)
  | EnqueueIncoming t =>
      if c then (Enqueued (terr QueueClosed), l)
      else if (max <=? length i)%nat then (Enqueued (terr QueueFull), l)
      else (Enqueued (Ok tt), MkLanes s u n w (i ++ [t]) c)
  | DequeueOutgoing _ =>
      match lanes_pop l with
      | Some (t, l) => (Dequeued (Got t), l)
      | None => (Dequeued (if c then Ended else Wait), l)
      end
  | DequeueIncoming =>
      match i with
      | t :: i => (Dequeued (Got t), MkLanes s u n w i c)
      | [] => (Dequeued (if c then Ended else Wait), l)
      end
  | Close => (Done, MkLanes s u n w i true)
  | Clear => (Done, MkLanes [] [] [] [] [] c)
  end.

Fixpoint lanes_run (max : nat) (ops : list queue_op) (l : lanes) : list queue_answer * lanes :=
  match ops with
  | [] => ([], l)
  | op :: ops =>
      let '(a, l) := lanes_step max op l in
      let '(answers, l) := lanes_run max ops l in
      (a :: answers, l)
  end.

(** * Refinement *)

(** The telegrams of one priority, in heap-insertion order. *)
Definition lane (p : Priority) (h : list PriorityTelegram) : list Telegram :=
  pt_telegram <$> filter (λ pt, priority (pt_telegram pt) = p) h.

Definition abstraction (q : QueueState) : lanes :=
  MkLanes (lane System (outgoing q)) (lane Urgent (outgoing q)) (lane Normal (outgoing q))
    (lane Low (outgoing q)) (incoming q) (closed q).

(** Sequence numbers grow in insertion order and stay below the counter. *)
Definition by_sequence (a b : PriorityTelegram) : Prop := sequence a < sequence b.
Record queue_inv (config : QueueConfig) (q : QueueState) : Prop := {
  inv_sorted : StronglySorted by_sequence (outgoing q);
  inv_below : Forall (λ pt, sequence pt < sequence_counter (queue_stats q)) (outgoing q);
  inv_out_bound : (length (outgoing q) ≤ max_size config)%nat;
  inv_in_bound : (length (incoming q) ≤ max_size config)%nat;
  inv_size : current_size (queue_stats q) = queue_len q;
  inv_peak : (current_size (queue_stats q) ≤ peak_size (queue_stats q))%nat;
}.

Section heap.
Implicit Types (h rest : list PriorityTelegram) (x m : PriorityTelegram).

Lemma lane_cons p x h :
  lane p (x :: h) =
    if decide (priority (pt_telegram x) = p) then pt_telegram x :: lane p h else lane p h.
Proof. unfold lane. rewrite filter_cons. by destruct (decide _). Qed.
Lemma lane_app p h rest : lane p (h ++ rest) = lane p h ++ lane p rest.
Proof. unfold lane. by rewrite filter_app, fmap_app. Qed.

Lemma cmp_later x m :
  sequence x < sequence m →
  PriorityTelegram_cmp x m = Lt ↔
  priority_rank (priority (pt_telegram m)) < priority_rank (priority (pt_telegram x)).
Proof.
  intros Hs. unfold PriorityTelegram_cmp, Priority_cmp.
  destruct (Z.compare_spec (priority_rank (priority (pt_telegram m)))
    (priority_rank (priority (pt_telegram x)))) as [E|E|E].
  - rewrite Z.compare_lt_iff. lia.
  - by split.
  - split; [done|lia].
Qed.

Lemma heap_pop_None h : heap_pop h = None ↔ h = [].
Proof.
  split; [|by intros ->]. destruct h as [|x h]; [done|]. cbn.
  destruct (heap_pop h) as [[m rest]|]; [|done]. by destruct (PriorityTelegram_cmp x m).
Qed.

Lemma heap_pop_perm h m rest : heap_pop h = Some (m, rest) → h ≡ₚ m :: rest.
Proof.
  revert m rest. induction h as [|x h IH]; intros m rest; [done|]. cbn.
  destruct (heap_pop h) as [[m' rest']|] eqn:E.
  - specialize (IH _ _ eq_refl). destruct (PriorityTelegram_cmp x m'); intros [= <- <-]; [done| |done].
    rewrite IH. apply Permutation_swap.
  - apply heap_pop_None in E as ->. by intros [= <- <-].
Qed.

(** What [pop] does to the lanes: it takes the head of the most urgent
    non-empty lane and leaves the others alone. *)
Lemma heap_pop_lanes h m rest :
  StronglySorted by_sequence h → heap_pop h = Some (m, rest) →
  let p := priority (pt_telegram m) in
  lane p h = pt_telegram m :: lane p rest ∧
  (∀ p', p' ≠ p → lane p' h = lane p' rest) ∧
  (∀ p', lane p' h ≠ [] → priority_rank p ≤ priority_rank p').
Proof.
  revert m rest. induction h as [|x h IH]; intros m rest; [done|].
  intros [Hs Hx]%StronglySorted_inv. cbn [heap_pop].
  destruct (heap_pop h) as [[m' rest']|] eqn:E.
  - destruct (IH _ _ Hs eq_refl) as (IH1 & IH2 & IH3).
    assert (sequence x < sequence m') as Hxm.
    { rewrite Forall_forall in Hx. apply Hx. rewrite (heap_pop_perm _ _ _ E). set_solver. }
    pose proof (cmp_later x m' Hxm) as Hc.
    destruct (PriorityTelegram_cmp x m') eqn:Ec; intros [= <- <-]; cbn zeta.
    2: { apply proj1 in Hc. specialize (Hc eq_refl).
      assert (priority (pt_telegram x) ≠ priority (pt_telegram m')) as Hne by (intros Heq; rewrite Heq in Hc; lia).
      rewrite lane_cons, decide_False by done. split_and!.
      + by rewrite lane_cons, decide_False.
      + intros p' Hp'. by rewrite !lane_cons, (IH2 p').
      + intros p'. rewrite lane_cons. destruct (decide _) as [<-|]; [lia|auto]. }
    all: assert (¬ priority_rank (priority (pt_telegram m')) < priority_rank (priority (pt_telegram x)))
           as Hge by (intros Hlt; apply Hc in Hlt; congruence);
      rewrite lane_cons, decide_True by done; split_and!; [done| |];
      [intros p' Hp'; by rewrite lane_cons, decide_False by congruence|];
      intros p'; rewrite lane_cons; destruct (decide _) as [<-|]; [lia|];
      intros Hl%IH3; lia.
  - apply heap_pop_None in E as ->. intros [= <- <-]. cbn zeta.
    rewrite lane_cons, decide_True by done. split_and!; [done| |].
    + intros p' Hp'. by rewrite lane_cons, decide_False by congruence.
    + intros p'. rewrite lane_cons. destruct (decide _) as [<-|]; [lia|done].
Qed.

Lemma heap_pop_sorted h m rest :
  StronglySorted by_sequence h → heap_pop h = Some (m, rest) → StronglySorted by_sequence rest.
Proof.
  revert m rest. induction h as [|x h IH]; intros m rest; [done|].
  intros [Hs Hx]%StronglySorted_inv. cbn [heap_pop].
  destruct (heap_pop h) as [[m' rest']|] eqn:E; [|intros [= <- <-]; constructor].
  destruct (PriorityTelegram_cmp x m'); intros [= <- <-]; [done| |done].
  constructor; [by eapply IH|]. rewrite (heap_pop_perm _ _ _ E) in Hx.
  by apply Forall_cons in Hx as [_ ?].
Qed.

Lemma lanes_length h :
  length h = (length (lane System h) + length (lane Urgent h) + length (lane Normal h)
              + length (lane Low h))%nat.
Proof.
  induction h as [|x h IH]; [done|]. rewrite !lane_cons.
  destruct (priority (pt_telegram x)); repeat (destruct (decide _); [try done|try done]);
    cbn [length]; lia.
Qed.

Lemma lanes_pop_abstraction q pt out :
  StronglySorted by_sequence (outgoing q) → heap_pop (outgoing q) = Some (pt, out) →
  lanes_pop (abstraction q) =
    Some (pt_telegram pt,
          MkLanes (lane System out) (lane Urgent out) (lane Normal out) (lane Low out)
            (incoming q) (closed q)).
Proof.
  intros Hs Hp. destruct (heap_pop_lanes _ _ _ Hs Hp) as (H1 & H2 & H3). unfold abstraction.
  assert (∀ p, priority_rank p < priority_rank (priority (pt_telegram pt)) →
    lane p (outgoing q) = [] ∧ lane p out = []) as Hempty.
  { intros p Hr. assert (lane p (outgoing q) = []) as He.
    { destruct (lane p (outgoing q)) eqn:El; [done|]. specialize (H3 p). rewrite El in H3.
      specialize (H3 ltac:(done)). lia. }
    split; [done|]. rewrite <-He. symmetry. apply H2. intros ->. lia. }
  destruct (priority (pt_telegram pt)); cbn in Hempty;
    rewrite H1, ?(H2 System), ?(H2 Urgent), ?(H2 Normal), ?(H2 Low) by done;
    repeat match goal with
    | |- context [lane ?p out] =>
        let H := fresh in
        destruct (Hempty p ltac:(cbn; lia)) as [_ H]; rewrite H; clear H
    end; done.
Qed.
End heap.

Section refinement.
Context (config : QueueConfig).
Implicit Types (q : QueueState) (op : queue_op).

Lemma queue_inv_new : queue_inv config QueueState_new.
Proof. split; cbn; try done; try lia; constructor. Qed.

Lemma StronglySorted_push q now t :
  queue_inv config q →
  StronglySorted by_sequence
    (heap_push (MkPriorityTelegram t (sequence_counter (queue_stats q)) now) (outgoing q)).
Proof.
  intros [Hs Hb _ _ _ _]. unfold heap_push. revert Hs Hb. generalize (outgoing q).
  induction 1 as [|x h Hs IH Hx]; intros Hb; [repeat constructor|].
  apply Forall_cons in Hb as [Hbx Hb]. cbn. constructor; [by apply IH|].
  apply Forall_app. split; [done|]. by repeat constructor.
Qed.

Lemma queue_step_inv op q : queue_inv config q → queue_inv config (queue_step config op q).2.
Proof.
  intros Hinv. pose proof Hinv as [Hs Hb Ho Hi Hsz Hpk].
  destruct op as [now t|t|now| | |]; cbn [queue_step].
  - unfold enqueue_outgoing. destruct (closed q); [done|].
    destruct (Nat.leb_spec (max_size config) (length (outgoing q))); [by split|].
    pose proof (StronglySorted_push q now t Hinv) as Hpush.
    destruct (priority_processing config); split; cbn; try done; unfold queue_len, heap_push; cbn;
      rewrite ?length_app; cbn; try lia; try (case_match eqn:E; [|apply Nat.ltb_ge in E]; lia);
      (apply Forall_app; split; [eapply Forall_impl; [done|cbn; lia]|repeat constructor; cbn; lia]).
  - unfold enqueue_incoming. destruct (closed q); [done|].
    destruct (Nat.leb_spec (max_size config) (length (incoming q))); [by split|].
    split; cbn; try done; unfold queue_len; cbn; rewrite ?length_app; cbn; try lia.
    case_match eqn:E; [|apply Nat.ltb_ge in E]; lia.
  - unfold dequeue_outgoing_step. destruct (heap_pop (outgoing q)) as [[pt out]|] eqn:E; [|done].
    pose proof (heap_pop_perm _ _ _ E) as Hp. pose proof (heap_pop_sorted _ _ _ Hs E).
    rewrite Hp in Hb. apply Forall_cons in Hb as [_ Hb]. apply Permutation_length in Hp.
    cbn in Hp. unfold queue_len in *. split; cbn; try done; lia.
  - unfold dequeue_incoming_step. destruct (incoming q) as [|t inc] eqn:E; [done|].
    unfold queue_len in *. rewrite E in *. split; cbn in *; try done; lia.
  - by split.
  - split; cbn; try constructor; try done; lia.
Qed.

Lemma queue_run_inv ops q : queue_inv config q → queue_inv config (queue_run config ops q).2.
Proof.
  revert q. induction ops as [|op ops IH]; intros q Hq; [done|]. cbn.
  pose proof (queue_step_inv op q Hq) as Hs. destruct (queue_step config op q) as [a q'].
  specialize (IH q' Hs). by destruct (queue_run config ops q').
Qed.

Lemma lanes_push_abstraction q s t now inc c :
  MkLanes (lane System (heap_push (MkPriorityTelegram t s now) (outgoing q)))
    (lane Urgent (heap_push (MkPriorityTelegram t s now) (outgoing q)))
    (lane Normal (heap_push (MkPriorityTelegram t s now) (outgoing q)))
    (lane Low (heap_push (MkPriorityTelegram t s now) (outgoing q))) inc c =
  lanes_push t (MkLanes (lane System (outgoing q)) (lane Urgent (outgoing q))
    (lane Normal (outgoing q)) (lane Low (outgoing q)) inc c).
Proof.
  unfold heap_push, lanes_push. rewrite !lane_app, !lane_cons. cbn [pt_telegram].
  destruct (priority t); cbn; by rewrite !app_nil_r.
Qed.

(** One step of the queue is the same step of the abstract queue. *)
Lemma queue_step_refines op q :
  queue_inv config q →
  lanes_step (max_size config) op (abstraction q) =
    ((queue_step config op q).1, abstraction (queue_step config op q).2).
Proof.
  intros [Hs _ _ _ _ _]. unfold abstraction at 1. destruct op as [now t|t|now| | |];
    cbn [queue_step lanes_step].
  - unfold enqueue_outgoing, lanes_outgoing_size. cbn [lane_system lane_urgent lane_normal lane_low].
    rewrite <-lanes_length. destruct (closed q) eqn:Ec; [cbn; unfold abstraction; by rewrite Ec|].
    destruct (Nat.leb_spec (max_size config) (length (outgoing q)));
      [cbn; unfold abstraction; cbn; by rewrite Ec|].
    unfold abstraction. destruct (priority_processing config); cbn [fst snd outgoing incoming closed];
      by rewrite lanes_push_abstraction.
  - unfold enqueue_incoming. destruct (closed q) eqn:Ec; [cbn; unfold abstraction; by rewrite Ec|].
    destruct (Nat.leb_spec (max_size config) (length (incoming q)));
      cbn; unfold abstraction; cbn; by rewrite ?Ec.
  - unfold dequeue_outgoing_step. destruct (heap_pop (outgoing q)) as [[pt out]|] eqn:E.
    + pose proof (lanes_pop_abstraction q pt out Hs E) as Hp. unfold abstraction in Hp.
      rewrite Hp. done.
    + apply heap_pop_None in E. rewrite E. cbn. unfold abstraction. rewrite E. done.
  - unfold dequeue_incoming_step. destruct (incoming q) as [|t inc] eqn:E; cbn;
      unfold abstraction; cbn; by rewrite ?E.
  - done.
  - done.
Qed.

(** C7: The queue refines its specification.  Over any sequence of enqueues,
    dequeue attempts, close and clear, the heap with sequence numbers gives
    exactly the answers of four first-in first-out lanes served strictly by
    urgency (System, Urgent, Normal, Low) plus one incoming lane: nothing is
    lost, duplicated or reordered within a priority, and the full and closed
    errors appear at the same operations.  This holds with [priority_processing]
    on and off alike: switching it off does not make one first-in first-out queue
    of the lanes, as the comment in [enqueue_outgoing] has it. *)
Theorem queue_refines_lanes (ops : list queue_op) :
  (queue_run config ops QueueState_new).1 = (lanes_run (max_size config) ops lanes_new).1.
Proof.
  assert (∀ q, queue_inv config q →
    (queue_run config ops q).1 = (lanes_run (max_size config) ops (abstraction q)).1) as Hgen.
  { induction ops as [|op ops IH]; intros q Hq; [done|]. cbn [queue_run lanes_run].
    rewrite (queue_step_refines op q Hq). pose proof (queue_step_inv op q Hq) as Hq'.
    destruct (queue_step config op q) as [a q']. cbn [fst snd] in *. specialize (IH q' Hq').
    destruct (queue_run config ops q'), (lanes_run (max_size config) ops (abstraction q')).
    cbn in *. by rewrite IH. }
  apply (Hgen QueueState_new), queue_inv_new.
Qed.

(** Bounds and statistics.  After any sequence of operations each side of
    the queue holds at most [max_size] telegrams, [current_size] is the number
    of telegrams held and [peak_size] is at least that. *)
Theorem queue_bounded (ops : list queue_op) :
  let q := (queue_run config ops QueueState_new).2 in
  (length (outgoing q) ≤ max_size config)%nat ∧ (length (incoming q) ≤ max_size config)%nat ∧
  current_size (queue_stats q) = queue_len q ∧ (queue_len q ≤ peak_size (queue_stats q))%nat.
Proof.
  intros q. destruct (queue_run_inv ops QueueState_new queue_inv_new) as [_ _ ? ? Hs Hp].
  rewrite Hs in Hp. done.
Qed.
End refinement.

(** * A consumer and producers on several threads

    [dequeue_outgoing] checks the queue under the lock, releases the lock, and
    only then creates the [Notified] future; [Notify::notify_waiters] wakes the
    futures that exist when it runs and leaves no permit behind. *)
Section interleaving.
Context (config : QueueConfig).

Inductive consumer := Checking | Unlocked | Waiting | Returned (t : option Telegram).
Record system := MkSystem {
  queue : QueueState;
  pc : consumer;
  notifications : nat;   (** producers between [drop(state)] and [notify_waiters] *)
}.

Inductive system_step : system → system → Prop :=
| step_check now q n d q' :
    dequeue_outgoing_step now q = (d, q') →
    system_step (MkSystem q Checking n)
      (MkSystem q' (match d with Got t => Returned (Some t) | Ended => Returned None
                               | Wait => Unlocked end) n)
| step_register q n : system_step (MkSystem q Unlocked n) (MkSystem q Waiting n)
| step_enqueue now t q c n q' :
    enqueue_outgoing config now t q = (Ok tt, q') →
    system_step (MkSystem q c n) (MkSystem q' c (S n))
| step_close q c n : system_step (MkSystem q c n) (MkSystem (queue_close q) c (S n))
| step_notify q c n :
    system_step (MkSystem q c (S n))
      (MkSystem q (match c with Waiting => Checking | c => c end) n).

(** The consumer sleeps although a telegram is queued, and no notification is
    on its way. *)
Definition missed (s : system) : Prop :=
  pc s = Waiting ∧ outgoing (queue s) ≠ [] ∧ notifications s = 0%nat.

(** Lost wake-up.  The wait of [dequeue_outgoing] is not atomic with its
    emptiness check: an execution exists in which a telegram is enqueued and
    its notification sent between the two, after which the consumer sleeps
    with the telegram in the queue until some later operation notifies. *)
Theorem queue_lost_wakeup (now : Z) (t : Telegram) :
  (0 < max_size config)%nat →
  ∃ s, rtc system_step (MkSystem QueueState_new Checking 0) s ∧ missed s.
Proof.
  intros Hmax. destruct (enqueue_outgoing config now t QueueState_new) as [r q] eqn:E.
  assert (r = Ok tt ∧ outgoing q ≠ []) as [-> Hq].
  { unfold enqueue_outgoing in E. cbn in E. rewrite (proj2 (Nat.leb_gt _ _)) in E by lia.
    injection E as <- <-. by destruct (priority_processing config). }
  exists (MkSystem q Waiting 0). split; [|done].
  eapply rtc_l; [by apply (step_check now)|]. cbn.
  eapply rtc_l; [by apply (step_enqueue now t)|].
  eapply rtc_l; [apply step_notify|]. eapply rtc_l; [apply step_register|]. done.
Qed.
End interleaving.

Lemma queue_lost_wakeup_witness :
  ∃ s, rtc (system_step QueueConfig_default)
         (MkSystem QueueState_new Checking 0) s ∧ missed s.
Proof.
  apply (queue_lost_wakeup QueueConfig_default 0
    (Telegram_group_write 0 (MkGroupAddress 1) [1])). cbn. lia.
Defined.
