(* ===== verification/TunnelCore.v ===== *)
(** The tunnel object ([src/src/transport/tunnel.rs]): its fields, sending and
    receiving frames, acknowledgements and sequence numbers.  Connecting and
    disconnecting are in [Tunnel.v], the address probe in [AddressProbe.v].

    The model is of the build without the [secure] feature, where frames pass
    unencrypted.  Locks are never poisoned.  The tunnel's [FrameRouter] is
    the component of [Router.v].  An operation reads the clock once, from
    [clock]; the [u64] statistics are unbounded. *)
From S2P Require Import Prelude Errors Address KnxIp FrameTransport Heartbeat Connection.
From S2P Require Import AddressRegistry.

Inductive SequenceValidationResult :=
| Valid
| Duplicate
| Invalid (expected received : Z).

Record Tunnel {T : Type} := MkTunnel {
  kind : TransportKind;
  transport : option T;
  gateway_addr : SocketAddr;
  local_addr : option SocketAddr;
  local_hpai : Hpai;
  tunnel_channel_id : Z;
  sequence_counter : Z;
  expected_sequence_number : Z;
  state : ConnectionState;
  stats : ConnectionStats;
  connection_timeout : Z;
  established_at : option Z;
  heartbeat : option HeartbeatMonitor;
  use_heartbeat : bool;
  send_acks : bool;
  configured_address : option IndividualAddress;
  address_registry : bool;   (** whether a handle to the shared registry is set *)
  tunnel_individual_address : option IndividualAddress;
}.
Arguments Tunnel T : clear implicits.

Definition Tunnel_build {T} (k : TransportKind) (gateway : SocketAddr) (hpai : Hpai)
    (timeout_ms : Z) (heartbeat_on acks : bool) : Tunnel T :=
  {| kind := k; transport := None; gateway_addr := gateway; local_addr := None;
     local_hpai := hpai; tunnel_channel_id := 0; sequence_counter := 0;
     expected_sequence_number := 0; state := Disconnected; stats := ConnectionStats_default;
     connection_timeout := timeout_ms; established_at := None; heartbeat := None;
     use_heartbeat := heartbeat_on; send_acks := acks; configured_address := None;
     address_registry := false; tunnel_individual_address := None |}.

Definition Tunnel_new_udp_with_timeout {T} (gateway : SocketAddr) (timeout_ms : Z) : Tunnel T :=
  Tunnel_build Udp gateway Hpai_route_back timeout_ms true true.
Definition Tunnel_new_udp {T} (gateway : SocketAddr) : Tunnel T :=
  Tunnel_new_udp_with_timeout gateway 5000.
Definition Tunnel_new_tcp_with_timeout {T} (gateway : SocketAddr) (timeout_ms : Z) : Tunnel T :=
  Tunnel_build Tcp gateway Hpai_new_tcp_route_back timeout_ms true false.
Definition Tunnel_new_tcp {T} (gateway : SocketAddr) : Tunnel T :=
  Tunnel_new_tcp_with_timeout gateway 5000.

(** ** Field updates *)
Section updates.
Context {T : Type}.
Implicit Types t : Tunnel T.

Definition set_transport (tr : option T) (la : option SocketAddr) t : Tunnel T :=
  MkTunnel _ (kind t) tr (gateway_addr t) la (local_hpai t) (tunnel_channel_id t)
    (sequence_counter t) (expected_sequence_number t) (state t) (stats t) (connection_timeout t)
    (established_at t) (heartbeat t) (use_heartbeat t) (send_acks t) (configured_address t)
    (address_registry t) (tunnel_individual_address t).
Definition set_state (s : ConnectionState) t : Tunnel T :=
  MkTunnel _ (kind t) (transport t) (gateway_addr t) (local_addr t) (local_hpai t)
    (tunnel_channel_id t) (sequence_counter t) (expected_sequence_number t) s (stats t)
    (connection_timeout t) (established_at t) (heartbeat t) (use_heartbeat t) (send_acks t)
    (configured_address t) (address_registry t) (tunnel_individual_address t).
Definition set_stats (s : ConnectionStats) t : Tunnel T :=
  MkTunnel _ (kind t) (transport t) (gateway_addr t) (local_addr t) (local_hpai t)
    (tunnel_channel_id t) (sequence_counter t) (expected_sequence_number t) (state t) s
    (connection_timeout t) (established_at t) (heartbeat t) (use_heartbeat t) (send_acks t)
    (configured_address t) (address_registry t) (tunnel_individual_address t).
Definition set_channel (c : Z) (since : option Z) t : Tunnel T :=
  MkTunnel _ (kind t) (transport t) (gateway_addr t) (local_addr t) (local_hpai t) c
    (sequence_counter t) (expected_sequence_number t) (state t) (stats t) (connection_timeout t)
    since (heartbeat t) (use_heartbeat t) (send_acks t) (configured_address t)
    (address_registry t) (tunnel_individual_address t).
Definition set_sequences (next expected : Z) t : Tunnel T :=
  MkTunnel _ (kind t) (transport t) (gateway_addr t) (local_addr t) (local_hpai t)
    (tunnel_channel_id t) next expected (state t) (stats t) (connection_timeout t)
    (established_at t) (heartbeat t) (use_heartbeat t) (send_acks t) (configured_address t)
    (address_registry t) (tunnel_individual_address t).
Definition set_address (a : option IndividualAddress) t : Tunnel T :=
  MkTunnel _ (kind t) (transport t) (gateway_addr t) (local_addr t) (local_hpai t)
    (tunnel_channel_id t) (sequence_counter t) (expected_sequence_number t) (state t) (stats t)
    (connection_timeout t) (established_at t) (heartbeat t) (use_heartbeat t) (send_acks t)
    (configured_address t) (address_registry t) a.

Definition Tunnel_set_address_management (configured : option IndividualAddress) t : Tunnel T :=
  MkTunnel _ (kind t) (transport t) (gateway_addr t) (local_addr t) (local_hpai t)
    (tunnel_channel_id t) (sequence_counter t) (expected_sequence_number t) (state t) (stats t)
    (connection_timeout t) (established_at t) (heartbeat t) (use_heartbeat t) (send_acks t)
    configured true (tunnel_individual_address t).

Definition Tunnel_local_addr t : SocketAddr := default (MkSocketAddr (V4 0 0 0 0) 0) (local_addr t).
Definition Tunnel_is_connected t : bool := bool_decide (state t = Connected).
Definition Tunnel_is_tunnel_lost t : bool :=
  match heartbeat t with Some m => HeartbeatMonitor_is_tunnel_lost m | None => false end.
End updates.

(** ** Sequence numbers *)
Section sequences.
Context {T : Type}.

(** [fetch_add] on an [AtomicU8]. *)
Definition Tunnel_next_sequence (t : Tunnel T) : Z * Tunnel T :=
  (sequence_counter t,
   set_sequences (as_u8 (sequence_counter t + 1)) (expected_sequence_number t) t).

Definition Tunnel_reset_sequence (t : Tunnel T) : Tunnel T := set_sequences 0 0 t.

Definition Tunnel_validate_sequence_number (received : Z) (t : Tunnel T)
    : SequenceValidationResult * Tunnel T :=
  let expected := expected_sequence_number t in
  if received =? expected
  then (Valid, set_sequences (sequence_counter t) (as_u8 (expected + 1)) t)
  else if received =? as_u8 (expected - 1) then (Duplicate, t)
  else (Invalid expected received, t).
End sequences.

(** * Operations on a tunnel, the shared registry and the clock *)
Record world {T : Type} := MkWorld {
  tunnel : Tunnel T;
  registry : AddressRegistry;
  clock : Z;
}.
Arguments world T : clear implicits.
Arguments MkWorld {T} _ _ _.

Section operations.
Context {T : Type} `{FrameTransport T} `{Profile}.
(** [Display] of a socket address. *)
Context (show_addr : SocketAddr → string).

Abbreviation M := (eff (world T) KnxError).

Definition on_tunnel (f : Tunnel T → Tunnel T) : M unit :=
  modify (λ w, MkWorld (f (tunnel w)) (registry w) (clock w)).
Definition on_stats (f : Z → ConnectionStats → ConnectionStats) : M unit :=
  modify (λ w, MkWorld (set_stats (f (clock w) (stats (tunnel w))) (tunnel w)) (registry w) (clock w)).

(** [self.transport()?]. *)
Definition Tunnel_transport : M T :=
  tr ← gets (λ w, transport (tunnel w));
  lift (ok_or tr (Transport ConnectionClosed)).

(** [transport.send_frame(..)] on the tunnel's own transport. *)
Definition transport_send (frame : list Z) : M unit :=
  tr ← Tunnel_transport;
  let '(r, tr) := send_frame frame tr in
  _ ← on_tunnel (λ t, set_transport (Some tr) (local_addr t) t);
  lift r.

(** [transport.recv_frame()] under a deadline; [None] when it passes. *)
Definition transport_recv : M (option (list Z)) :=
  tr ← Tunnel_transport;
  let '(r, tr) := recv_frame tr in
  _ ← on_tunnel (λ t, set_transport (Some tr) (local_addr t) t);
  match r with
  | None => mret None
  | Some r => d ← lift r; mret (Some d)
  end.

Definition Tunnel_send_frame (frame : list Z) : M unit :=
  r ← attempt (transport_send frame);
  match r with
  | inl _ => on_stats (λ _, count_sent)
  | inr e =>
      _ ← on_stats (λ now, ConnectionStats_record_send_error now (KnxError_display e));
      throw e
  end.

Definition Tunnel_recv_frame : M (option (list Z)) :=
  r ← attempt transport_recv;
  match r with
  | inl None => mret None
  | inl (Some data) => _ ← on_stats (λ _, count_received); mret (Some data)
  | inr e =>
      _ ← on_stats (λ now, ConnectionStats_record_receive_error now (KnxError_display e));
      throw e
  end.

(** The [Connection] trait's [send] and [recv]. *)
Definition Tunnel_Connection_send (frame : list Z) : M unit :=
  connected ← gets (λ w, Tunnel_is_connected (tunnel w));
  if connected : bool then Tunnel_send_frame frame
  else
    _ ← on_stats (λ now, ConnectionStats_record_send_error now
                           (KnxError_display (Transport ConnectionClosed)));
    throw (Transport ConnectionClosed).
Definition Tunnel_Connection_recv : M (option (list Z)) :=
  connected ← gets (λ w, Tunnel_is_connected (tunnel w));
  if connected : bool then Tunnel_recv_frame
  else
    _ ← on_stats (λ now, ConnectionStats_record_receive_error now
                           (KnxError_display (Transport ConnectionClosed)));
    throw (Transport ConnectionClosed).

Definition Tunnel_send_tunnelling_ack (channel sequence status : Z) : M unit :=
  frame ← lift (KnxIpFrame_new ServiceType.TunnellingAck
                  (TunnellingAck_serialize (TunnellingAck_new channel sequence status)));
  transport_send (KnxIpFrame_serialize frame).

Definition Tunnel_send_connectionstate_request : M unit :=
  t ← gets tunnel;
  frame ← lift (KnxIpFrame_new ServiceType.ConnectionstateRequest
                  (ConnectionstateRequest_serialize
                     (ConnectionstateRequest_new (tunnel_channel_id t) (local_hpai t))));
  transport_send (KnxIpFrame_serialize frame).

(** [Tunnel::stats] fills in the uptime. *)
Definition Tunnel_stats : M ConnectionStats :=
  gets (λ w, match established_at (tunnel w) with
             | Some start => with_uptime (Z.max 0 (clock w - start) / 1000000000) (stats (tunnel w))
             | None => stats (tunnel w)
             end).
End operations.

(** * What input and output leave alone

    [quiet w w']: the registry, the clock and every field of the tunnel except
    the transport, the statistics and the sequence counters are the same. *)
Section quiet.
Context {T : Type} `{FrameTransport T} `{Profile}.

Definition erase (t : Tunnel T) : Tunnel T :=
  set_sequences 0 0 (set_stats ConnectionStats_default (set_transport None (local_addr t) t)).
Definition quiet (w w' : world T) : Prop :=
  registry w' = registry w ∧ clock w' = clock w ∧ erase (tunnel w') = erase (tunnel w).
#[global] Instance quiet_preorder : PreOrder quiet.
Proof. split; [done|]. intros w1 w2 w3 (E1 & E2 & E3) (F1 & F2 & F3). unfold quiet. by rewrite F1, F2, F3. Qed.

Lemma quiet_stats f : preserves quiet (on_stats f).
Proof. done. Qed.
Lemma quiet_on_transport tr : preserves quiet (on_tunnel (λ t, set_transport tr (local_addr t) t)).
Proof. done. Qed.
End quiet.
#[export] Hint Resolve quiet_stats quiet_on_transport : preserves.

Section quiet_operations.
Context {T : Type} `{FrameTransport T} `{Profile}.

Lemma transport_send_quiet d : preserves (quiet (T:=T)) (transport_send d).
Proof. unfold transport_send, Tunnel_transport. repeat preserves_step. Qed.
Lemma transport_recv_quiet : preserves (quiet (T:=T)) transport_recv.
Proof. unfold transport_recv, Tunnel_transport. repeat preserves_step. Qed.
#[local] Hint Resolve transport_send_quiet transport_recv_quiet : preserves.
Lemma Tunnel_send_frame_quiet d : preserves (quiet (T:=T)) (Tunnel_send_frame d).
Proof. unfold Tunnel_send_frame. repeat preserves_step. Qed.
Lemma Tunnel_recv_frame_quiet : preserves (quiet (T:=T)) Tunnel_recv_frame.
Proof. unfold Tunnel_recv_frame. repeat preserves_step. Qed.
Lemma Tunnel_send_tunnelling_ack_quiet c s st :
  preserves (quiet (T:=T)) (Tunnel_send_tunnelling_ack c s st).
Proof. unfold Tunnel_send_tunnelling_ack. repeat preserves_step. Qed.

(** The transport operations, computed. *)
Lemma transport_send_eq d (w : world T) :
  transport_send d w =
    match transport (tunnel w) with
    | None => (Err (Transport ConnectionClosed), w)
    | Some tr =>
        let '(r, tr) := send_frame d tr in
        (r, MkWorld (set_transport (Some tr) (local_addr (tunnel w)) (tunnel w))
              (registry w) (clock w))
    end.
Proof.
  unfold transport_send, Tunnel_transport, mbind, eff_bind, gets, lift. cbn.
  destruct (transport (tunnel w)) as [tr|]; cbn; [|done].
  by destruct (send_frame d tr) as [r tr'].
Qed.
Lemma transport_recv_eq (w : world T) :
  transport_recv w =
    match transport (tunnel w) with
    | None => (Err (Transport ConnectionClosed), w)
    | Some tr =>
        let '(r, tr) := recv_frame tr in
        (match r with None => Ok None | Some r => Some <$> r end,
         MkWorld (set_transport (Some tr) (local_addr (tunnel w)) (tunnel w))
           (registry w) (clock w))
    end.
Proof.
  unfold transport_recv, Tunnel_transport, mbind, eff_bind, gets, lift. cbn.
  destruct (transport (tunnel w)) as [tr|]; cbn; [|done].
  destruct (recv_frame tr) as [[[d|e|]|] tr']; done.
Qed.
End quiet_operations.
#[export] Hint Resolve transport_send_quiet transport_recv_quiet Tunnel_send_frame_quiet
  Tunnel_recv_frame_quiet Tunnel_send_tunnelling_ack_quiet : preserves.

(** * Sequence numbers: properties *)
Section sequence_properties.
Context {T : Type}.
Implicit Types t : Tunnel T.

(** The verdicts on a sequence of received numbers, with the numbers. *)
Fixpoint validate_all (received : list Z) (t : Tunnel T) : list (Z * SequenceValidationResult) :=
  match received with
  | [] => []
  | r :: received =>
      let '(v, t) := Tunnel_validate_sequence_number r t in
      (r, v) :: validate_all received t
  end.

Fixpoint next_all (n : nat) (t : Tunnel T) : list Z :=
  match n with
  | O => []
  | S n => let '(s, t) := Tunnel_next_sequence t in s :: next_all n t
  end.

Definition is_valid (v : SequenceValidationResult) : bool :=
  match v with Valid => true | _ => false end.

Lemma validate_valid_inv r t t' :
  Tunnel_validate_sequence_number r t = (Valid, t') →
  r = expected_sequence_number t ∧
  expected_sequence_number t' = as_u8 (expected_sequence_number t + 1).
Proof.
  unfold Tunnel_validate_sequence_number. destruct (Z.eqb_spec r (expected_sequence_number t)) as [->|].
  - by intros [= <-].
  - by destruct (_ =? _).
Qed.
Lemma validate_other_keeps r t v t' :
  Tunnel_validate_sequence_number r t = (v, t') → is_valid v = false → t' = t.
Proof.
  unfold Tunnel_validate_sequence_number. destruct (_ =? _); [by intros [= <- <-]|].
  destruct (_ =? _); by intros [= <- <-].
Qed.

Lemma as_u8_succ a : as_u8 (as_u8 a + 1) = as_u8 (a + 1).
Proof. unfold as_u8. by rewrite Zplus_mod_idemp_l. Qed.
Lemma as_u8_pred_succ e : u8_ok e → as_u8 (as_u8 (e + 1) - 1) = e.
Proof.
  intros He. unfold as_u8. rewrite Zminus_mod_idemp_l. replace (e + 1 - 1) with e by lia.
  by apply Z.mod_small.
Qed.
Lemma as_u8_add_of_succ e k : as_u8 (as_u8 (e + 1) + Z.of_nat k) = as_u8 (e + Z.of_nat (S k)).
Proof. unfold as_u8. rewrite Zplus_mod_idemp_l. f_equal. lia. Qed.

Lemma next_all_spec n t :
  u8_ok (sequence_counter t) →
  next_all n t = (λ i, as_u8 (sequence_counter t + Z.of_nat i)) <$> seq 0 n.
Proof.
  revert t. induction n as [|n IH]; intros t Ht; [done|].
  cbn [next_all Tunnel_next_sequence seq fmap list_fmap].
  rewrite Z.add_0_r, (as_u8_small (sequence_counter t)) by done. f_equal.
  rewrite IH by apply as_u8_ok. cbn [sequence_counter set_sequences].
  rewrite <-seq_shift, <-list_fmap_compose. apply list_fmap_ext. intros _ i _. cbn.
  apply as_u8_add_of_succ.
Qed.

(** [n] repetitions of the number just accepted are all duplicates. *)
Lemma validate_repeats n e rest t :
  u8_ok e → expected_sequence_number t = as_u8 (e + 1) →
  validate_all (replicate n e ++ rest) t =
    replicate n (e, Duplicate) ++ validate_all rest t.
Proof.
  intros He Ht. induction n as [|n IH]; [done|].
  cbn [replicate app validate_all]. unfold Tunnel_validate_sequence_number at 1. rewrite Ht.
  rewrite (proj2 (Z.eqb_neq _ _)).
  - rewrite as_u8_pred_succ, Z.eqb_refl by done. by rewrite IH.
  - intros Heq. unfold as_u8, u8_ok in *. zlia.
Qed.

(** What a sender that repeats each request some number of times puts on the
    wire, starting at sequence number [e], and the verdicts it deserves. *)
Fixpoint retransmissions (e : Z) (repeats : list nat) : list Z :=
  match repeats with
  | [] => []
  | n :: repeats => e :: replicate n e ++ retransmissions (as_u8 (e + 1)) repeats
  end.
Fixpoint exactly_once (e : Z) (repeats : list nat) : list (Z * SequenceValidationResult) :=
  match repeats with
  | [] => []
  | n :: repeats => (e, Valid) :: replicate n (e, Duplicate) ++ exactly_once (as_u8 (e + 1)) repeats
  end.

(** Exactly-once processing under retransmission.  A sender that numbers its
    requests in order, wrapping after 255, and repeats each one any number of
    times has each request accepted exactly once, at its first arrival; every
    repetition is reported as a duplicate, never as a new request or an
    error. *)
Theorem sequence_exactly_once (repeats : list nat) (t : Tunnel T) :
  u8_ok (expected_sequence_number t) →
  validate_all (retransmissions (expected_sequence_number t) repeats) t =
    exactly_once (expected_sequence_number t) repeats.
Proof.
  revert t. induction repeats as [|n repeats IH]; intros t Ht; [done|].
  cbn [retransmissions exactly_once validate_all].
  unfold Tunnel_validate_sequence_number at 1. rewrite Z.eqb_refl. f_equal.
  rewrite validate_repeats by done. f_equal. apply (IH (set_sequences _ _ t)), as_u8_ok.
Qed.

(** Whatever numbers arrive, the accepted ones are consecutive: the [k]-th
    accepted request carries the [k]-th number after the expected one, modulo
    256.  No gap is ever accepted. *)
Theorem sequence_accepted_consecutive (received : list Z) (t : Tunnel T) (k : nat) (r : Z)
    (v : SequenceValidationResult) :
  u8_ok (expected_sequence_number t) →
  filter (λ p, is_valid p.2 = true) (validate_all received t) !! k = Some (r, v) →
  r = as_u8 (expected_sequence_number t + Z.of_nat k).
Proof.
  revert t k. induction received as [|x received IH]; intros t k Ht; [done|].
  cbn [validate_all]. destruct (Tunnel_validate_sequence_number x t) as [w t'] eqn:E.
  rewrite filter_cons. destruct (is_valid w) eqn:Ew.
  - destruct w; try done. apply validate_valid_inv in E as [-> E].
    rewrite decide_True by done. destruct k as [|k]; cbn [lookup list_lookup].
    + intros [= <- <-]. by rewrite Z.add_0_r, as_u8_small.
    + intros Hk. rewrite <-as_u8_add_of_succ, <-E. eapply IH; [|exact Hk]. rewrite E. apply as_u8_ok.
  - rewrite decide_False by (cbn; congruence). apply validate_other_keeps in E as ->; [|done].
    by apply IH.
Qed.

(** The sender side issues every byte value once per round: the numbers
    [next_sequence] returns count up modulo 256, so two requests share a
    number only when at least 256 requests apart. *)
Theorem next_sequence_distinct (n i j : nat) (t : Tunnel T) (s : Z) :
  u8_ok (sequence_counter t) →
  next_all n t !! i = Some s → next_all n t !! j = Some s → (i < j)%nat →
  ∃ rounds, Z.of_nat j = Z.of_nat i + 256 * rounds ∧ 1 ≤ rounds.
Proof.
  intros Ht. rewrite !next_all_spec by done. rewrite !list_lookup_fmap.
  intros (a & Ha & Hi)%fmap_Some (b & Hb & Hj)%fmap_Some Hij.
  apply lookup_seq in Ha as [-> _], Hb as [-> _]. rewrite Hi in Hj. unfold as_u8 in Hj.
  cbn in Hj. exists ((Z.of_nat j - Z.of_nat i) / 256). zlia.
Qed.
End sequence_properties.

Section witnesses.
Abbreviation sample_tunnel := (Tunnel_new_udp (T:=UdpFrameTransport) (MkSocketAddr (V4 10 0 0 1) 3671)).

Lemma sequence_exactly_once_witness :
  validate_all (retransmissions 0 [0; 2; 1]%nat) sample_tunnel = exactly_once 0 [0; 2; 1]%nat.
Proof. apply (sequence_exactly_once [0; 2; 1]%nat sample_tunnel). unfold u8_ok. cbn. lia. Defined.

Lemma sequence_accepted_consecutive_witness : 1 = as_u8 (0 + Z.of_nat 1).
Proof.
  apply (sequence_accepted_consecutive [0; 5; 0; 1] sample_tunnel 1 1 Valid).
  - unfold u8_ok. cbn. lia.
  - reflexivity.
Defined.

Lemma next_sequence_distinct_witness :
  ∃ rounds, Z.of_nat 256 = Z.of_nat 0 + 256 * rounds ∧ 1 ≤ rounds.
Proof.
  apply (next_sequence_distinct 257 0 256 sample_tunnel 0).
  - unfold u8_ok. cbn. lia.
  - vm_compute. reflexivity.
  - vm_compute. reflexivity.
  - lia.
Defined.
End witnesses.
