(* ===== verification/AddressProbe.v ===== *)
(** The bus probe and address auto-selection
    ([src/src/transport/address_probe.rs]).  The probe's receive loop runs
    until its deadline; here it runs on [fuel], and [probe_address] gives it
    one more pass than the transport has input for, which is enough
    ([recv_until_signal_enough]). *)
From S2P Require Import Prelude Errors Address Apdu Cemi KnxIp FrameTransport Heartbeat Connection.
From S2P Require Import AddressRegistry TunnelCore.

Definition MC_L_DATA_REQ : Z := 0x11.
Definition CTRL1_STD_NORMAL : Z := 0xB4.
Definition CTRL2_INDIVIDUAL_HOP6 : Z := 0x60.
Definition AUTO_SELECT_FIRST_DEVICE : Z := 240.
Definition AUTO_SELECT_LAST_DEVICE : Z := 254.

Inductive ProbeSignal := Occupied | Other.
#[global] Instance ProbeSignal_eq_dec : EqDecision ProbeSignal.
Proof. solve_decision. Defined.

(** * Frames *)
Definition build_ldata_req_cemi (src dst : IndividualAddress) (t : Z) (apci : list Z) : list Z :=
  [MC_L_DATA_REQ; 0x00; CTRL1_STD_NORMAL; CTRL2_INDIVIDUAL_HOP6]
  ++ to_be16 (ia_raw src) ++ to_be16 (ia_raw dst) ++ [len_u8 apci; t] ++ apci.

Definition build_tconnect_cemi (src dst : IndividualAddress) : list Z :=
  build_ldata_req_cemi src dst (TpciFrame_encode Apdu.Connect) [].
Definition build_tdisconnect_cemi (src dst : IndividualAddress) : list Z :=
  build_ldata_req_cemi src dst (TpciFrame_encode Apdu.Disconnect) [].

(** [ddr[0]] and [&ddr[1..]] of the two-byte encoding. *)
Definition build_ddr_cemi (src dst : IndividualAddress) : result (list Z) :=
  let ddr := DeviceDescriptorRead_encode (MkDeviceDescriptorRead 0) in
  d0 ← idx ddr 0;
  rest ← slice_from ddr 1;
  Ok (build_ldata_req_cemi src dst
        (Z.lor (TpciFrame_encode (DataConnected 0)) (Z.land d0 0x03)) rest).

Definition parse_probe_cemi (raw : list Z) : result CemiFrame :=
  frame ← CemiFrame_parse raw;
  if (data_length frame =? 0) && (tpci frame =? 0) then
    ai ← idx raw 1;
    let ext := match extended_control_field frame with Some _ => 1%nat | None => 0%nat end in
    let npdu_len_idx := (2 + usize ai + 2 + ext + 4)%nat in
    let tpci_idx := (npdu_len_idx + 1)%nat in
    if (tpci_idx <? length raw)%nat then
      t ← idx raw tpci_idx;
      Ok {| message_code := message_code frame; additional_info := additional_info frame;
            control_field := control_field frame;
            extended_control_field := extended_control_field frame;
            source_addr := source_addr frame; dest_addr := dest_addr frame;
            data_length := data_length frame; tpci := t; apci_data := apci_data frame |}
    else Ok frame
  else Ok frame.

Definition classify_cemi (frame : CemiFrame) : ProbeSignal :=
  if (Z.land (tpci frame) 0x03 =? 0x03)
     && match head (apci_data frame) with Some b => Z.land b 0xC0 =? 0x40 | None => false end
  then Occupied
  else if bool_decide (TpciFrame_decode (tpci frame) = Apdu.Disconnect) then Occupied
  else Other.

(** * The probe *)
Section probe.
Context {T : Type} `{FiniteInput T} `{Profile}.
Abbreviation M := (eff (world T) KnxError).

(** [wrap_cemi] takes the next sequence number. *)
Definition wrap_cemi (cemi : list Z) : M (list Z) :=
  t ← gets tunnel;
  let '(s, t') := Tunnel_next_sequence t in
  _ ← on_tunnel (λ _, t');
  frame ← lift (KnxIpFrame_new ServiceType.TunnellingRequest
                  (TunnellingRequest_serialize
                     (TunnellingRequest_new (tunnel_channel_id t) s cemi)));
  mret (KnxIpFrame_serialize frame).

(** [Some true] when a signal arrived, [None] when the deadline passed. *)
Fixpoint recv_until_signal (fuel : nat) : M (option bool) :=
  match fuel with
  | O => lift Panic
  | S fuel =>
      data ← Tunnel_recv_frame;
      match data with
      | None => mret None
      | Some data =>
          match KnxIpFrame_parse data with
          | Err _ => recv_until_signal fuel
          | Panic => lift Panic
          | Ok frame =>
              if negb (bool_decide (service_type (header frame) = ServiceType.TunnellingRequest))
              then recv_until_signal fuel
              else
                match TunnellingRequest_parse (body frame) with
                | Err _ => recv_until_signal fuel
                | Panic => lift Panic
                | Ok request =>
                    acks ← gets (λ w, send_acks (tunnel w));
                    _ ← (if acks : bool
                         then (_ ← attempt (Tunnel_send_tunnelling_ack (treq_channel_id request)
                                              (treq_sequence_counter request) 0); mret tt)
                         else mret tt);
                    match parse_probe_cemi (raw_cemi request) with
                    | Err _ => recv_until_signal fuel
                    | Panic => lift Panic
                    | Ok cemi =>
                        if bool_decide (classify_cemi cemi = Occupied) then mret (Some true)
                        else recv_until_signal fuel
                    end
                end
          end
      end
  end.

Definition world_pending (w : world T) : nat :=
  match transport (tunnel w) with Some tr => pending_input tr | None => 0 end.

Definition probe_address (addr : IndividualAddress) : M bool :=
  let src := IndividualAddress_broadcast in
  f1 ← wrap_cemi (build_tconnect_cemi src addr);
  _ ← Tunnel_send_frame f1;
  ddr ← lift (build_ddr_cemi src addr);
  f2 ← wrap_cemi ddr;
  _ ← Tunnel_send_frame f2;
  n ← gets world_pending;
  r ← recv_until_signal (S n);
  let occupied := default false r in
  f3 ← wrap_cemi (build_tdisconnect_cemi src addr);
  _ ← attempt (Tunnel_send_frame f3);
  mret occupied.

(** The [for] loop over the candidates' device numbers. *)
Fixpoint auto_select_loop (area line : Z) (devices : list Z) (probed : nat) : M IndividualAddress :=
  match devices with
  | [] =>
      throw (Transport (TransportInvalidConfiguration
        ("No free individual address available in range " +:+ dec area +:+ "." +:+ dec line
         +:+ "." +:+ dec AUTO_SELECT_FIRST_DEVICE +:+ "..=" +:+ dec area +:+ "." +:+ dec line
         +:+ "." +:+ dec AUTO_SELECT_LAST_DEVICE +:+ " (probed " +:+ dec_nat probed
         +:+ " candidates)")))
  | device :: devices =>
      addr ← lift (IndividualAddress_new area line device);
      available ← gets (λ w, AddressRegistry_is_available addr (registry w));
      if negb available then auto_select_loop area line devices probed
      else
        occupied ← probe_address addr;
        if occupied : bool then auto_select_loop area line devices (S probed)
        else mret addr
  end.

(** [AUTO_SELECT_FIRST_DEVICE..=AUTO_SELECT_LAST_DEVICE]. *)
Definition candidate_devices : list Z :=
  (λ i, AUTO_SELECT_FIRST_DEVICE + Z.of_nat i) <$> seq 0 15.

Definition auto_select_address (area line : Z) : M IndividualAddress :=
  auto_select_loop area line candidate_devices 0.
End probe.

(** * The probe leaves the tunnel and the registry alone *)
Section probe_quiet.
Context {T : Type} `{FiniteInput T} `{Profile}.

Lemma wrap_cemi_quiet c : preserves (quiet (T:=T)) (wrap_cemi c).
Proof.
  intros w. unfold wrap_cemi, mbind, eff_bind, gets, lift. cbn. by destruct (KnxIpFrame_new _ _).
Qed.
#[local] Hint Resolve wrap_cemi_quiet : preserves.

Lemma recv_until_signal_quiet fuel : preserves (quiet (T:=T)) (recv_until_signal fuel).
Proof.
  induction fuel as [|fuel IH]; cbn [recv_until_signal]; repeat preserves_step.
Qed.
#[local] Hint Resolve recv_until_signal_quiet : preserves.

Lemma probe_address_quiet a : preserves (quiet (T:=T)) (probe_address a).
Proof. unfold probe_address. cbn zeta. repeat preserves_step. Qed.
#[local] Hint Resolve probe_address_quiet : preserves.

Lemma auto_select_loop_quiet area line ds n :
  preserves (quiet (T:=T)) (auto_select_loop area line ds n).
Proof.
  revert n. induction ds as [|d ds IH]; intros n; cbn [auto_select_loop]; repeat preserves_step.
Qed.
End probe_quiet.

(** * The receive loop of the probe *)
Section probe_loop.
Context {T : Type} `{FiniteInput T} `{Profile}.
Implicit Types w : world T.

Lemma recv_frame_consumes w d w' :
  Tunnel_recv_frame w = (Ok (Some d), w') → (world_pending w' < world_pending w)%nat.
Proof.
  unfold Tunnel_recv_frame, attempt, mbind, eff_bind. rewrite transport_recv_eq.
  unfold world_pending. destruct (transport (tunnel w)) as [tr|]; [|done].
  destruct (recv_frame tr) as [[[x|e|]|] tr'] eqn:E; cbn; intros [=]. subst.
  cbn. by eapply recv_consumes.
Qed.

Lemma ack_keeps_pending c s st w :
  world_pending (attempt (Tunnel_send_tunnelling_ack (T:=T) c s st) w).2 = world_pending w.
Proof.
  unfold attempt, Tunnel_send_tunnelling_ack, mbind, eff_bind, lift.
  destruct (KnxIpFrame_new _ _) as [f|e|]; [|done..]. rewrite transport_send_eq.
  unfold world_pending. destruct (transport (tunnel w)) as [tr|] eqn:E; [|cbn; by rewrite ?E].
  pose proof (send_keeps (KnxIpFrame_serialize f) tr) as Hk.
  destruct (send_frame (KnxIpFrame_serialize f) tr) as [[] tr']; exact Hk.
Qed.

(** With more passes than the transport has input, the loop does not depend on
    the number of passes. *)
Lemma recv_until_signal_enough n m w :
  (world_pending w < n)%nat → (world_pending w < m)%nat →
  recv_until_signal n w = recv_until_signal m w.
Proof.
  revert m w. induction n as [|n IH]; intros [|m] w Hn Hm; [lia..|].
  cbn [recv_until_signal]. unfold mbind, eff_bind, gets.
  destruct (Tunnel_recv_frame w) as [[[d|]|e|] w'] eqn:E; [|done..].
  apply recv_frame_consumes in E.
  assert (∀ w2, (world_pending w2 ≤ world_pending w')%nat →
    recv_until_signal n w2 = recv_until_signal m w2) as IHle by (intros; apply IH; lia).
  destruct (KnxIpFrame_parse d) as [f|e|]; [|by apply IHle|done].
  destruct (negb _); [by apply IHle|].
  destruct (TunnellingRequest_parse (body f)) as [r|e|]; [|by apply IHle|done].
  destruct (send_acks (tunnel w')).
  - pose proof (ack_keeps_pending (treq_channel_id r) (treq_sequence_counter r) 0 w') as Hk.
    destruct (attempt _ w') as [[a|e|] w2]; [|done..]. cbn in Hk |- *.
    destruct (parse_probe_cemi (raw_cemi r)) as [c|e|]; [|apply IHle; lia|done].
    destruct (bool_decide _); [done|]. apply IHle. lia.
  - cbn. destruct (parse_probe_cemi (raw_cemi r)) as [c|e|]; [|by apply IHle|done].
    destruct (bool_decide _); [done|]. by apply IHle.
Qed.
End probe_loop.

(** * Probe frames *)
Section probe_frames.

(** The frame [build_ldata_req_cemi] spells out byte by byte. *)
Definition ldata_req (src dst : IndividualAddress) (t : Z) (apci : list Z) : CemiFrame :=
  let f := CemiFrame_new LDataReq src (Individual dst) apci in
  {| message_code := message_code f; additional_info := additional_info f;
     control_field := control_field f; extended_control_field := extended_control_field f;
     source_addr := source_addr f; dest_addr := dest_addr f; data_length := data_length f;
     tpci := t; apci_data := apci_data f |}.

Lemma build_nonempty src dst t apci :
  0 < len_u8 apci → build_ldata_req_cemi src dst t apci = CemiFrame_serialize (ldata_req src dst t apci).
Proof.
  intros Hl. unfold CemiFrame_serialize. cbn [data_length ldata_req CemiFrame_new].
  by rewrite (proj2 (Z.ltb_lt _ _)) by done.
Qed.
Lemma build_empty src dst t :
  build_ldata_req_cemi src dst t [] =
    CemiFrame_serialize (CemiFrame_new LDataReq src (Individual dst) []) ++ [t].
Proof. done. Qed.

Lemma parse_probe_cemi_no_panic raw : parse_probe_cemi raw ≠ Panic.
Proof.
  unfold parse_probe_cemi.
  assert (∀ f, CemiFrame_parse raw = Ok f → (2 ≤ length raw)%nat) as Hlen.
  { intros f. unfold CemiFrame_parse. destruct (_ =? 0)%nat; [done|].
    destruct (Nat.ltb_spec (length raw) 2); [done|lia]. }
  apply outcome_bind_no_panic; [apply CemiFrame_parse_total|]. intros f Hf%Hlen. no_panic.
Qed.

(** The probe reads back what it writes, including the bare transport-layer
    frames that the CEMI parser alone cannot represent: for any TPCI octet,
    with or without data, [parse_probe_cemi] recovers the octet and the data.
    In particular a [T_Disconnect] is recognised as a sign of life and a
    [T_Connect] is not. *)
Theorem probe_frames_roundtrip (src dst : IndividualAddress) (t : Z) (apci : list Z) :
  IndividualAddress_valid src → IndividualAddress_valid dst → u8_ok t → bytes_ok apci →
  Z.of_nat (length apci) < 256 →
  parse_probe_cemi (build_ldata_req_cemi src dst t apci) = Ok (ldata_req src dst t apci) ∧
  classify_cemi (ldata_req src dst (TpciFrame_encode Apdu.Disconnect) []) = Occupied ∧
  classify_cemi (ldata_req src dst (TpciFrame_encode Apdu.Connect) []) = Other.
Proof.
  intros Hs Hd Ht Hb Hl. split; [|by vm_compute].
  assert (cemi_wf (CemiFrame_new LDataReq src (Individual dst) apci)) as Hwf
    by by apply CemiFrame_new_wf.
  unfold parse_probe_cemi. destruct apci as [|x apci].
  - rewrite build_empty, CemiFrame_parse_serialized by done. done.
  - assert (0 < len_u8 (x :: apci)) as Hpos by (rewrite len_u8_small by done; cbn; lia).
    rewrite build_nonempty by done.
    rewrite <-(app_nil_r (CemiFrame_serialize _)), CemiFrame_parse_serialized.
    + cbn [mbind outcome_bind]. cbn [data_length ldata_req CemiFrame_new].
      by rewrite (proj2 (Z.eqb_neq _ _)) by lia.
    + destruct Hwf. constructor; try done. split; [done|].
      cbn [data_length ldata_req CemiFrame_new]. lia.
Qed.
End probe_frames.

(** * What the probe decides *)

(** A datagram that proves the probed address occupied. *)
Definition occupies (d : list Z) : bool :=
  match KnxIpFrame_parse d with
  | Ok f =>
      bool_decide (service_type (header f) = ServiceType.TunnellingRequest) &&
      match TunnellingRequest_parse (body f) with
      | Ok r =>
          match parse_probe_cemi (raw_cemi r) with
          | Ok c => bool_decide (classify_cemi c = Occupied)
          | _ => false
          end
      | _ => false
      end
  | _ => false
  end.

Section probe_udp.
Context `{Profile}.
Implicit Types w : world UdpFrameTransport.

Definition udp_script (reads : list io_event) w : Prop :=
  ∃ u, transport (tunnel w) = Some u ∧ udp_reads u = reads.

Lemma udp_recv d reads w :
  udp_script (Data d :: reads) w → (length d ≤ 1024)%nat →
  ∃ w', Tunnel_recv_frame w = (Ok (Some d), w') ∧ udp_script reads w'.
Proof.
  intros (u & Hu & Hr) Hl. unfold Tunnel_recv_frame, attempt, mbind, eff_bind.
  rewrite transport_recv_eq, Hu. cbn. unfold UdpFrameTransport_recv_frame. rewrite Hr.
  rewrite take_ge by done. cbn. eexists. split; [done|]. by eexists.
Qed.
Lemma udp_stall reads w :
  udp_script (Stall :: reads) w →
  ∃ w', Tunnel_recv_frame w = (Ok None, w').
Proof.
  intros (u & Hu & Hr). unfold Tunnel_recv_frame, attempt, mbind, eff_bind.
  rewrite transport_recv_eq, Hu. cbn. unfold UdpFrameTransport_recv_frame. rewrite Hr. by eexists.
Qed.
Lemma udp_ack reads c s st w :
  udp_script reads w →
  ∃ r w', attempt (Tunnel_send_tunnelling_ack c s st) w = (Ok r, w') ∧ udp_script reads w'.
Proof.
  intros (u & Hu & Hr). unfold attempt, Tunnel_send_tunnelling_ack, mbind, eff_bind, lift.
  rewrite KnxIpFrame_new_Ok by (cbn; lia). rewrite transport_send_eq, Hu.
  cbn [send_frame Udp_transport]. unfold UdpFrameTransport_send_frame.
  destruct (pop_write (udp_writes u)) as [[] ws]; eexists _, _; (split; [done|]); by eexists.
Qed.

(** The probe's verdict is right.  Over UDP, when the datagrams [ds] arrive
    before the deadline (any of them may be garbage, as long as none has the
    malformed length on which the frame parser panics), the receive loop
    reports the address occupied exactly when one of them carries a descriptor
    response or a disconnect, and otherwise waits out the deadline; losing
    acknowledgements does not matter. *)
Theorem probe_verdict (ds : list (list Z)) (rest : list io_event) (fuel : nat)
    (w : world UdpFrameTransport) :
  udp_script ((Data <$> ds) ++ Stall :: rest) w → (length ds < fuel)%nat →
  Forall (λ d, (length d ≤ 1024)%nat ∧ KnxIpFrame_parse d ≠ Panic) ds →
  (recv_until_signal fuel w).1 = Ok (if existsb occupies ds then Some true else None).
Proof.
  revert w fuel. induction ds as [|d ds IH]; intros w [|fuel] Hw Hf Hds; [cbn in *; lia| |cbn in *; lia|].
  - apply udp_stall in Hw as [w' E]. cbn [recv_until_signal]. unfold mbind, eff_bind. by rewrite E.
  - apply Forall_cons in Hds as [[Hl Hp] Hds]. cbn [length] in Hf. cbn [fmap list_fmap app] in Hw.
    apply udp_recv in Hw as (w' & E & Hw'); [|done]. cbn [recv_until_signal existsb].
    unfold mbind, eff_bind, gets. rewrite E. unfold occupies at 1.
    destruct (KnxIpFrame_parse d) as [f|e|]; [|apply IH; done || lia|done].
    case_bool_decide as Hsvc; cbn [negb andb]; [|apply IH; done || lia].
    pose proof (TunnellingRequest_parse_no_panic (body f)) as Hnp.
    destruct (TunnellingRequest_parse (body f)) as [r|e|]; [|apply IH; done || lia|done]. clear Hnp.
    assert (∃ w2, (if send_acks (tunnel w')
      then (_ ← attempt (Tunnel_send_tunnelling_ack (treq_channel_id r) (treq_sequence_counter r) 0); mret tt)
      else mret tt) w' = (Ok tt, w2) ∧ udp_script ((Data <$> ds) ++ Stall :: rest) w2)
      as (w2 & E2 & Hw2).
    { destruct (send_acks (tunnel w')); [|by exists w'].
      destruct (udp_ack _ (treq_channel_id r) (treq_sequence_counter r) 0 _ Hw') as (a & w2 & Ea & Hw2).
      exists w2. split; [|done]. unfold mbind, eff_bind. by rewrite Ea. }
    unfold mbind, eff_bind in E2. rewrite E2.
    pose proof (parse_probe_cemi_no_panic (raw_cemi r)) as Hnp.
    destruct (parse_probe_cemi (raw_cemi r)) as [c|e|]; [|apply IH; done || lia|done].
    case_bool_decide; [done|]. apply IH; done || lia.
Qed.
End probe_udp.

(** * Auto-selection *)
Section auto_select.
Context {T : Type} `{FiniteInput T} `{Profile}.
Implicit Types w : world T.

Lemma auto_select_loop_Ok area line ds n w a w' :
  auto_select_loop area line ds n w = (Ok a, w') →
  registry w' = registry w ∧ AddressRegistry_is_available a (registry w) = true ∧
  ∃ device, device ∈ ds ∧ IndividualAddress_new (E:=KnxError) area line device = Ok a.
Proof.
  intros Hrun. pose proof (auto_select_loop_quiet (T:=T) area line ds n w) as (Hreg & _ & _).
  rewrite Hrun in Hreg. cbn in Hreg. split; [done|]. clear Hreg. revert n w Hrun.
  induction ds as [|d ds IH]; intros n w; cbn [auto_select_loop]; [done|].
  unfold mbind, eff_bind, lift, gets.
  destruct (IndividualAddress_new area line d) as [b|e|] eqn:Ed; [|done..].
  destruct (AddressRegistry_is_available b (registry w)) eqn:Eav; cbn [negb].
  - pose proof (probe_address_quiet (T:=T) b w) as (Hreg & _ & _).
    destruct (probe_address b w) as [[[]|e|] w2]; [| |done..]; cbn in Hreg.
    + intros Hrun. apply IH in Hrun as (Ha & dev & Hin & Hdev). rewrite Hreg in Ha.
      split; [done|]. exists dev. split; [set_solver|done].
    + intros [= -> _]. split; [done|]. exists d. split; [set_solver|done].
  - intros Hrun. apply IH in Hrun as (Ha & dev & Hin & Hdev). split; [done|].
    exists dev. split; [set_solver|done].
Qed.

Lemma candidate_devices_range d : d ∈ candidate_devices → 240 ≤ d ≤ 254.
Proof.
  unfold candidate_devices, AUTO_SELECT_FIRST_DEVICE. intros (i & -> & Hi)%list_elem_of_fmap.
  apply elem_of_seq in Hi. lia.
Qed.

(** Auto-selection only returns an address that the registry considers
    available, in the reserved range [area.line.240 ..= area.line.254], and it
    does not touch the registry, so claiming the returned address right after
    succeeds. *)
Theorem auto_select_sound (area line : Z) (w w' : world T) (a : IndividualAddress) :
  auto_select_address area line w = (Ok a, w') →
  registry w' = registry w ∧ AddressRegistry_is_available a (registry w') = true ∧
  is_ok (AddressRegistry_claim a (registry w')).1 = true ∧
  ∃ device, 240 ≤ device ≤ 254 ∧ IndividualAddress_new (E:=KnxError) area line device = Ok a.
Proof.
  intros (Hr & Ha & d & Hd & Hn)%auto_select_loop_Ok. rewrite Hr.
  split_and!; [done|done| |].
  - apply claim_is_ok. by apply is_available_spec in Ha as [? _].
  - exists d. split; [by apply candidate_devices_range|done].
Qed.

(** The probe's receive loop terminates: it makes at most one pass more than
    the transport has input, so giving it more passes changes nothing. *)
Theorem probe_loop_terminates (extra : nat) (w : world T) :
  recv_until_signal (S (world_pending w) + extra) w = recv_until_signal (S (world_pending w)) w.
Proof. apply recv_until_signal_enough; lia. Qed.
End auto_select.

Section witnesses.
#[local] Instance probe_release : Profile := {| debug_build := false |}.

Definition probing (reads : list io_event) : world UdpFrameTransport :=
  MkWorld (set_transport (Some (MkUdp reads [] [])) None
             (Tunnel_new_udp (MkSocketAddr (V4 10 0 0 1) 3671))) AddressRegistry_new 0.
(** A tunnelling request carrying a [T_Disconnect]. *)
Definition disconnect_datagram : list Z :=
  [6; 0x10; 4; 0x20; 0; 20; 4; 1; 0; 0]
  ++ build_tdisconnect_cemi (MkIndividualAddress 0x11F0) (MkIndividualAddress 0).

Lemma probe_frames_roundtrip_witness :
  parse_probe_cemi (build_ldata_req_cemi (MkIndividualAddress 0) (MkIndividualAddress 0x11F0) 0x81 [])
    = Ok (ldata_req (MkIndividualAddress 0) (MkIndividualAddress 0x11F0) 0x81 []) ∧
  classify_cemi (ldata_req (MkIndividualAddress 0) (MkIndividualAddress 0x11F0)
                   (TpciFrame_encode Apdu.Disconnect) []) = Occupied ∧
  classify_cemi (ldata_req (MkIndividualAddress 0) (MkIndividualAddress 0x11F0)
                   (TpciFrame_encode Apdu.Connect) []) = Other.
Proof.
  apply probe_frames_roundtrip.
  - by apply (bool_decide_unpack (u16_ok _)).
  - by apply (bool_decide_unpack (u16_ok _)).
  - by apply (bool_decide_unpack (u8_ok _)).
  - constructor.
  - done.
Defined.

Lemma probe_verdict_witness :
  (recv_until_signal 3 (probing [Data [1; 2; 3]; Data disconnect_datagram; Stall])).1 = Ok (Some true).
Proof.
  apply (probe_verdict [[1; 2; 3]; disconnect_datagram] [] 3).
  - by eexists.
  - cbn. lia.
  - repeat constructor; try (cbn; lia); vm_compute; discriminate.
Defined.

Lemma auto_select_sound_witness :
  let w := probing [Stall] in
  let w' := (auto_select_address 1 1 w).2 in
  registry w' = registry w ∧
  AddressRegistry_is_available (MkIndividualAddress 0x11F0) (registry w') = true ∧
  is_ok (AddressRegistry_claim (MkIndividualAddress 0x11F0) (registry w')).1 = true ∧
  ∃ device, 240 ≤ device ≤ 254 ∧
    IndividualAddress_new (E:=KnxError) 1 1 device = Ok (MkIndividualAddress 0x11F0).
Proof. intros w w'. apply (auto_select_sound 1 1 w). vm_compute. reflexivity. Defined.
End witnesses.
