(* ===== verification/Tunnel.v ===== *)
(** Connecting and disconnecting a tunnel ([src/src/transport/tunnel.rs]):
    the handshake, address management through the shared registry, and the
    graceful disconnect.  As in [TunnelCore.v], the build is the one without
    the [secure] feature. *)
From stdpp Require Import relations.
From S2P Require Import Prelude Errors Address Cemi KnxIp FrameTransport Heartbeat Connection.
From S2P Require Import AddressRegistry TunnelCore AddressProbe.

Section connect.
Context {T : Type} `{FiniteInput T} `{Profile}.
Context (show_addr : SocketAddr → string).
Abbreviation M := (eff (world T) KnxError).

(** [dial] is what [UdpFrameTransport::connect] or
    [TcpFrameTransport::connect] returned. *)
Definition Tunnel_establish_transport (dial : result (T * SocketAddr)) : M unit :=
  '(tr, local) ← lift dial;
  on_tunnel (set_transport (Some tr) (Some local)).

Definition Tunnel_send_connect_request : M (Z * option IndividualAddress) :=
  t ← gets tunnel;
  let req := match kind t with
             | Udp => ConnectRequest_new_route_back
             | Tcp => ConnectRequest_new_tcp_route_back
             end in
  req ← match configured_address t with
        | None => mret req
        | Some addr =>
            available ← gets (λ w, AddressRegistry_is_available addr (registry w));
            if address_registry t && negb available
            then throw (Transport (TransportInvalidConfiguration
                   ("Configured individual address " +:+ IndividualAddress_display addr
                    +:+ " is not available (already claimed or known-occupied)")))
            else mret (MkConnectRequest (creq_control_endpoint req) (creq_data_endpoint req)
                         (MkConnectionRequestInfo (connection_type (cri req)) (knx_layer (cri req))
                            (reserved (cri req)) (Some addr)))
        end;
  frame ← lift (KnxIpFrame_new ServiceType.ConnectRequest (ConnectRequest_serialize req));
  _ ← Tunnel_send_frame (KnxIpFrame_serialize frame);
  data ← Tunnel_recv_frame;
  match data with
  | None => throw (Transport (Timeout (connection_timeout t)))
  | Some data =>
      response_frame ← lift (KnxIpFrame_parse data);
      if negb (bool_decide (service_type (header response_frame) = ServiceType.ConnectResponse))
      then throw (Transport (TransportInvalidConfiguration
             ("Expected ConnectResponse, got "
              +:+ ServiceType_debug (service_type (header response_frame)))))
      else
        response ← lift (ConnectResponse_parse (body response_frame));
        if negb (ConnectResponse_is_success response)
        then
          let msg := default ("Gateway rejected connection: 0x" +:+ hex02 (cresp_status response))
                       (ConnectResponse_error_message response) in
          throw (Transport (ConnectionFailed (show_addr (gateway_addr t))
                              (IoError ConnectionRefused msg)))
        else mret (channel_id response, assigned_address response)
  end.

(** [registry.claim(addr)?]. *)
Definition claim_address (addr : IndividualAddress) : M unit :=
  λ w, let '(r, reg) := AddressRegistry_claim addr (registry w) in
       (r, MkWorld (tunnel w) reg (clock w)).

Definition Tunnel_finish_connect (channel : Z) (assigned : option IndividualAddress) : M unit :=
  now ← gets clock;
  _ ← on_tunnel (λ t, set_state Connected (set_channel channel (Some now) t));
  t ← gets tunnel;
  if address_registry t then
    addr ← match configured_address t with
           | Some cfg => mret cfg
           | None =>
               match assigned with
               | Some a => mret a
               | None => auto_select_address 0 0
               end
           end;
    _ ← claim_address addr;
    on_tunnel (set_address (Some addr))
  else mret tt.

Definition Tunnel_connect (dial : result (T * SocketAddr)) : M unit :=
  _ ← on_tunnel (set_state Connecting);
  r ← attempt (_ ← Tunnel_establish_transport dial; Tunnel_send_connect_request);
  match r with
  | inl (channel, assigned) => Tunnel_finish_connect channel assigned
  | inr e =>
      _ ← on_tunnel (set_state Failed);
      _ ← on_stats (λ now, ConnectionStats_record_connection_error now (KnxError_display e));
      throw e
  end.

(** The [while let Ok(Ok(data))] loop of [send_disconnect_request]. *)
Fixpoint disconnect_wait (fuel : nat) : M unit :=
  match fuel with
  | O => lift Panic
  | S fuel =>
      r ← attempt transport_recv;
      match r with
      | inl (Some data) =>
          match KnxIpFrame_parse data with
          | Panic => lift Panic
          | Err _ => disconnect_wait fuel
          | Ok f =>
              if bool_decide (service_type (header f) = ServiceType.DisconnectResponse) then
                match DisconnectResponse_parse (body f) with
                | Panic => lift Panic
                | Ok resp =>
                    if negb (DisconnectResponse_is_success resp)
                    then throw (Protocol (InvalidFrame
                           ("disconnect rejected: status 0x" +:+ hex02 (dresp_status resp))))
                    else mret tt
                | Err _ => mret tt
                end
              else disconnect_wait fuel
          end
      | _ => mret tt
      end
  end.

Definition Tunnel_send_disconnect_request : M unit :=
  _ ← Tunnel_transport;
  t ← gets tunnel;
  frame ← lift (KnxIpFrame_new ServiceType.DisconnectRequest
                  (DisconnectRequest_serialize
                     (DisconnectRequest_new (tunnel_channel_id t) (local_hpai t))));
  _ ← transport_send (KnxIpFrame_serialize frame);
  n ← gets world_pending;
  disconnect_wait (S n).

Definition Tunnel_send_disconnect : M unit :=
  t ← gets tunnel;
  if tunnel_channel_id t =? 0 then mret tt else Tunnel_send_disconnect_request.

(** [close] of the [Connection] trait. *)
Definition Tunnel_Connection_close : M unit := Tunnel_send_disconnect.

(** Releases the address the tunnel holds, when address management is on. *)
Definition release_address : M unit :=
  t ← gets tunnel;
  if address_registry t then
    _ ← on_tunnel (set_address None);
    match tunnel_individual_address t with
    | Some addr => modify (λ w, MkWorld (tunnel w) (AddressRegistry_release addr (registry w)) (clock w))
    | None => mret tt
    end
  else mret tt.

(** The request of [disconnect], whose failure is only logged. *)
Definition try_send_disconnect (channel : Z) : M unit :=
  if negb (channel =? 0)
  then (_ ← attempt Tunnel_send_disconnect_request; mret tt) else mret tt.

Definition Tunnel_disconnect : M unit :=
  _ ← on_tunnel (set_state Disconnecting);
  t ← gets tunnel;
  _ ← try_send_disconnect (tunnel_channel_id t);
  _ ← on_tunnel (λ t, set_channel 0 None (set_state Disconnected t));
  release_address.
End connect.

(** * Address management *)
Section addresses.
Context {T : Type} `{FiniteInput T} `{Profile}.
Context (show_addr : SocketAddr → string).
Implicit Types w : world T.

(** The registry, the held address and the address configuration are kept. *)
Definition keeps_address (w w' : world T) : Prop :=
  registry w' = registry w ∧
  tunnel_individual_address (tunnel w') = tunnel_individual_address (tunnel w) ∧
  address_registry (tunnel w') = address_registry (tunnel w) ∧
  configured_address (tunnel w') = configured_address (tunnel w).
#[global] Instance keeps_address_preorder : PreOrder keeps_address.
Proof.
  split; [done|]. intros w1 w2 w3 (? & ? & ? & ?) (? & ? & ? & ?).
  unfold keeps_address. intuition congruence.
Qed.

Lemma quiet_keeps w w' : quiet w w' → keeps_address w w'.
Proof.
  intros (Hr & _ & He). split; [done|].
  split_and!; [exact (f_equal tunnel_individual_address He)|exact (f_equal address_registry He)
              |exact (f_equal configured_address He)].
Qed.
(** Being quiet also keeps the state and the channel. *)
Lemma quiet_state w w' :
  quiet w w' →
  state (tunnel w') = state (tunnel w) ∧ tunnel_channel_id (tunnel w') = tunnel_channel_id (tunnel w).
Proof.
  intros (_ & _ & He). split; [exact (f_equal state He)|exact (f_equal tunnel_channel_id He)].
Qed.
Lemma keeps_of_quiet {A} (m : eff (world T) KnxError A) :
  preserves quiet m → preserves keeps_address m.
Proof. apply preserves_mono, quiet_keeps. Qed.
Lemma keeps_set_state s : preserves keeps_address (on_tunnel (T:=T) (set_state s)).
Proof. done. Qed.
Lemma keeps_stats f : preserves keeps_address (on_stats (T:=T) f).
Proof. done. Qed.
Lemma keeps_establish dial : preserves keeps_address (Tunnel_establish_transport (T:=T) dial).
Proof. intros w. unfold Tunnel_establish_transport, mbind, eff_bind, lift. by destruct dial as [[]| |]. Qed.
#[local] Hint Resolve keeps_set_state keeps_stats keeps_establish : preserves.

Lemma send_connect_request_quiet :
  preserves (quiet (T:=T)) (Tunnel_send_connect_request show_addr).
Proof. unfold Tunnel_send_connect_request. repeat preserves_step. Qed.
#[local] Hint Resolve send_connect_request_quiet : preserves.

(** The handshake of [connect], before its result is applied. *)
Lemma handshake_keeps dial :
  preserves keeps_address
    (attempt (_ ← Tunnel_establish_transport dial; Tunnel_send_connect_request show_addr)).
Proof.
  apply preserves_attempt, preserves_bind; [apply _|auto with preserves|].
  intros _. apply keeps_of_quiet, send_connect_request_quiet.
Qed.

(** Applying a successful handshake: either an address was claimed and is now
    held, or nothing about addresses changed. *)
Lemma finish_connect_address channel assigned w :
  let '(r, w') := Tunnel_finish_connect channel assigned w in
  match r with
  | Ok _ =>
      if address_registry (tunnel w) then
        ∃ a, tunnel_individual_address (tunnel w') = Some a ∧ (a ∉ claimed (registry w)) ∧
             registry w' = MkAddressRegistry ({[a]} ∪ claimed (registry w)) (known_occupied (registry w))
      else keeps_address w w'
  | _ => keeps_address w w'
  end ∧ state (tunnel w') = Connected ∧ tunnel_channel_id (tunnel w') = channel ∧
  address_registry (tunnel w') = address_registry (tunnel w) ∧
  configured_address (tunnel w') = configured_address (tunnel w).
Proof.
  unfold Tunnel_finish_connect, mbind, eff_bind, gets, on_tunnel, modify. cbn [fst snd tunnel].
  set (w1 := MkWorld (set_state Connected (set_channel channel (Some (clock w)) (tunnel w))) _ _).
  cbn [address_registry configured_address set_state set_channel].
  destruct (address_registry (tunnel w)) eqn:Er; [|done].
  assert (∀ (m : eff (world T) KnxError IndividualAddress), preserves quiet m →
    let '(r, w') := (match m w1 with
      | (Ok addr, s) => match claim_address addr s with
          | (Ok _, s) => (Ok tt, MkWorld (set_address (Some addr) (tunnel s)) (registry s) (clock s))
          | (Err e, s) => (Err e, s) | (Panic, s) => (Panic, s) end
      | (Err e, s) => (Err e, s) | (Panic, s) => (Panic, s) end) in
    match r with
    | Ok _ => ∃ a, tunnel_individual_address (tunnel w') = Some a ∧ (a ∉ claimed (registry w)) ∧
        registry w' = MkAddressRegistry ({[a]} ∪ claimed (registry w)) (known_occupied (registry w))
    | _ => keeps_address w w'
    end ∧ state (tunnel w') = Connected ∧ tunnel_channel_id (tunnel w') = channel ∧
    address_registry (tunnel w') = true ∧
    configured_address (tunnel w') = configured_address (tunnel w)) as Hclaim.
  { intros m Hm. specialize (Hm w1). destruct (m w1) as [r s].
    pose proof (quiet_keeps _ _ Hm) as (Hr & Hi & Har & Hc). pose proof (quiet_state _ _ Hm) as [Hst Hch].
    cbn in Hr, Hi, Har, Hc, Hst, Hch. rewrite Er in Har.
    assert (keeps_address w s) as Hks by (unfold keeps_address; by rewrite Er).
    destruct r as [addr|e|]; [|done..]. unfold claim_address, AddressRegistry_claim. rewrite Hr.
    case_decide as Hin; cbn; [|split; [by exists addr|done]].
    split; [|done]. unfold keeps_address. cbn. rewrite Er. done. }
  destruct (configured_address (tunnel w)) as [cfg|] eqn:Ecfg; [exact (Hclaim (mret cfg) ltac:(done))|].
  destruct assigned as [a|]; [exact (Hclaim (mret a) ltac:(done))|].
  apply (Hclaim (auto_select_address 0 0)), auto_select_loop_quiet.
Qed.

(** What [connect] does to addresses, in every case. *)
Lemma connect_effect dial w :
  let '(r, w') := Tunnel_connect show_addr dial w in
  match r with
  | Ok _ =>
      state (tunnel w') = Connected ∧
      if address_registry (tunnel w) then
        ∃ a, tunnel_individual_address (tunnel w') = Some a ∧ (a ∉ claimed (registry w)) ∧
             claimed (registry w') = {[a]} ∪ claimed (registry w)
      else keeps_address w w'
  | _ => keeps_address w w'
  end.
Proof.
  unfold Tunnel_connect, mbind, eff_bind, on_tunnel, modify. cbn [fst snd].
  set (w1 := MkWorld (set_state Connecting (tunnel w)) (registry w) (clock w)).
  pose proof (handshake_keeps dial w1) as Hk. unfold mbind, eff_bind in Hk.
  assert (keeps_address w w1) as Hk1 by done.
  destruct (attempt _ w1) as [[[[channel assigned]|e]|e|] w2]; cbn in Hk; [|by apply (transitivity Hk1 Hk)..].
  pose proof (finish_connect_address channel assigned w2) as Hf.
  pose proof Hk as (Hr & _ & Har & _). cbn in Hr, Har.
  destruct (Tunnel_finish_connect channel assigned w2) as [[[]|e|] w3].
  - destruct Hf as (Ha & Hst & _). split; [done|]. rewrite Har in Ha.
    destruct (address_registry (tunnel w)); [|exact (transitivity Hk1 (transitivity Hk Ha))].
    destruct Ha as (a & Ha & Hn & Hreg). rewrite Hr in Hn, Hreg. exists a.
    split_and!; [done..|]. by rewrite Hreg.
  - destruct Hf as [Ha _]. exact (transitivity Hk1 (transitivity Hk Ha)).
  - destruct Hf as [Ha _]. exact (transitivity Hk1 (transitivity Hk Ha)).
Qed.

(** C31: The outcome of [connect].  Success means the tunnel is connected and,
    with address management on, holds an address that nobody had claimed and
    that is now claimed.  Any failure (transport, timeout, rejection, address
    collision, exhausted auto-selection) leaves the registry and the held
    address exactly as they were: a failed connect never leaks a claim. *)
Theorem tunnel_connect_outcome (dial : result (T * SocketAddr)) (w : world T) :
  let '(r, w') := Tunnel_connect show_addr dial w in
  match r with
  | Ok _ =>
      state (tunnel w') = Connected ∧
      if address_registry (tunnel w) then
        ∃ a, tunnel_individual_address (tunnel w') = Some a ∧ (a ∉ claimed (registry w)) ∧
             claimed (registry w') = {[a]} ∪ claimed (registry w)
      else registry w' = registry w
  | _ =>
      registry w' = registry w ∧
      tunnel_individual_address (tunnel w') = tunnel_individual_address (tunnel w)
  end.
Proof.
  pose proof (connect_effect dial w) as He.
  destruct (Tunnel_connect show_addr dial w) as [[[]|e|] w'].
  - destruct He as [? He]. split; [done|]. destruct (address_registry (tunnel w)); [done|apply He].
  - by destruct He as (? & ? & _).
  - by destruct He as (? & ? & _).
Qed.

(** A collision is detected too late: when the gateway assigns an address
    that is already claimed in this process, [connect] reports the collision
    error but leaves the tunnel in state [Connected] on the gateway's channel
    (and the statistics without a connection error), instead of failed. *)
Theorem finish_connect_collision_stays_connected (w : world T) (channel : Z) (a : IndividualAddress) :
  address_registry (tunnel w) = true → configured_address (tunnel w) = None →
  a ∈ claimed (registry w) →
  let '(r, w') := Tunnel_finish_connect channel (Some a) w in
  r = terr (TransportInvalidConfiguration
        ("Address " +:+ IndividualAddress_display a +:+ " already claimed")) ∧
  Tunnel_is_connected (tunnel w') = true ∧ tunnel_channel_id (tunnel w') = channel ∧
  stats (tunnel w') = stats (tunnel w).
Proof.
  intros Har Hc Ha. unfold Tunnel_finish_connect, mbind, eff_bind, gets, on_tunnel, modify.
  cbn [fst snd tunnel address_registry configured_address set_state set_channel]. rewrite Har, Hc.
  cbn. unfold claim_address, AddressRegistry_claim. cbn. by rewrite decide_True.
Qed.

Lemma disconnect_wait_quiet fuel : preserves (quiet (T:=T)) (disconnect_wait fuel).
Proof. induction fuel as [|fuel IH]; cbn [disconnect_wait]; repeat preserves_step. Qed.
Lemma tunnel_transport_quiet : preserves (quiet (T:=T)) Tunnel_transport.
Proof. unfold Tunnel_transport. repeat preserves_step. Qed.
#[local] Hint Resolve disconnect_wait_quiet tunnel_transport_quiet : preserves.
Lemma send_disconnect_request_quiet : preserves (quiet (T:=T)) Tunnel_send_disconnect_request.
Proof. unfold Tunnel_send_disconnect_request. repeat preserves_step. Qed.

(** The part of [disconnect] before the local tear-down never fails. *)
Lemma disconnect_request_attempt channel w :
  let '(r, w') := try_send_disconnect channel w in (r = Ok tt ∨ r = Panic) ∧ quiet w w'.
Proof.
  unfold try_send_disconnect. destruct (negb _); [|split; [by left|reflexivity]].
  pose proof (send_disconnect_request_quiet w) as Hq. unfold mbind, eff_bind, attempt.
  destruct (Tunnel_send_disconnect_request w) as [[]]; cbn; split; auto.
Qed.

(** What [disconnect] does, in every case. *)
Lemma disconnect_effect w :
  let '(r, w') := Tunnel_disconnect w in
  (r = Panic ∧ keeps_address w w') ∨
  (r = Ok tt ∧ state (tunnel w') = Disconnected ∧ tunnel_channel_id (tunnel w') = 0 ∧
   established_at (tunnel w') = None ∧
   if address_registry (tunnel w) then
     tunnel_individual_address (tunnel w') = None ∧
     claimed (registry w') =
       claimed (registry w) ∖ match tunnel_individual_address (tunnel w) with
                              | Some a => {[a]} | None => ∅ end
   else keeps_address w w').
Proof.
  set (w1 := MkWorld (set_state Disconnecting (tunnel w)) (registry w) (clock w)).
  unfold Tunnel_disconnect. rewrite eff_bind_run.
  change (on_tunnel (set_state Disconnecting) w) with (Ok (E:=KnxError) tt, w1). cbv iota beta.
  rewrite eff_bind_run. change (gets tunnel w1) with (Ok (E:=KnxError) (tunnel w1), w1).
  cbv iota beta. rewrite eff_bind_run. pose proof (disconnect_request_attempt (tunnel_channel_id (tunnel w1)) w1) as Hd.
  destruct (try_send_disconnect _ w1) as [r w2]. destruct Hd as [[Hd|Hd] Hq]; subst r;
    [|left; split; [done|]; by apply quiet_keeps in Hq].
  pose proof (quiet_keeps _ _ Hq) as (Hr & Hi & Har & _). cbn in Hr, Hi, Har.
  unfold release_address, mbind, eff_bind, gets, on_tunnel, modify.
  cbn [tunnel registry clock address_registry tunnel_individual_address set_channel set_state].
  rewrite Har, Hi. destruct (address_registry (tunnel w)).
  - destruct (tunnel_individual_address (tunnel w)); right; cbn; rewrite Hr; split_and!; try done. set_solver.
  - right. split_and!; try done. exact (quiet_keeps _ _ Hq).
Qed.

(** ** No panic on safe input *)
Context `{!SafeInput T}.
Definition tunnel_input_safe (w : world T) : Prop :=
  ∀ tr, transport (tunnel w) = Some tr → input_safe tr.

Lemma disconnect_wait_safe fuel w :
  (world_pending w < fuel)%nat → tunnel_input_safe w → (disconnect_wait fuel w).1 ≠ Panic.
Proof.
  revert w. induction fuel as [|fuel IH]; intros w Hp Hs; [lia|]. cbn [disconnect_wait].
  rewrite eff_bind_run. unfold attempt. rewrite transport_recv_eq.
  unfold world_pending, tunnel_input_safe in *.
  destruct (transport (tunnel w)) as [tr|]; [|done]. destruct (recv_safe tr (Hs tr eq_refl)) as (Hs' & Hnp & Hf).
  pose proof (recv_consumes tr) as Hc.
  destruct (recv_frame tr) as [[[d|e|]|] tr']; cbn [fst snd fmap outcome_fmap] in *; try done.
  specialize (Hf d eq_refl). specialize (Hc d tr' eq_refl). cbv iota beta.
  assert (∀ t, transport t = Some tr' →
    (disconnect_wait fuel (MkWorld t (registry w) (clock w))).1 ≠ Panic) as Hrec.
  { intros t Ht. apply IH; cbn [tunnel]; rewrite Ht; [lia|]. by intros ? [= <-]. }
  destruct (KnxIpFrame_parse d) as [f|e|]; [|by apply Hrec|done].
  case_bool_decide; [|by apply Hrec].
  pose proof (DisconnectResponse_parse_no_panic (body f)) as Hd.
  destruct (DisconnectResponse_parse (body f)) as [resp|e|]; [|done..]. by destruct (negb _).
Qed.

Lemma try_disconnect_safe channel w :
  tunnel_input_safe w → (try_send_disconnect channel w).1 = Ok tt.
Proof.
  intros Hs. unfold try_send_disconnect. destruct (negb _); [|done].
  assert ((Tunnel_send_disconnect_request w).1 ≠ Panic) as Hnp;
    [|rewrite eff_bind_run; unfold attempt; by destruct (Tunnel_send_disconnect_request w) as [[]]].
  unfold Tunnel_send_disconnect_request, Tunnel_transport. rewrite !eff_bind_run. cbn [gets].
  unfold tunnel_input_safe in Hs. destruct (transport (tunnel w)) as [tr|] eqn:Etr; [|done].
  cbn [ok_or lift]. rewrite eff_bind_run. cbn [gets]. rewrite eff_bind_run.
  rewrite KnxIpFrame_new_Ok by (unfold DisconnectRequest_serialize; rewrite !length_app, length_Hpai_serialize; simpl; lia).
  cbn [lift]. rewrite eff_bind_run, transport_send_eq, Etr.
  match goal with |- context [send_frame ?d tr] =>
    destruct (send_safe d tr (Hs tr eq_refl)) as [Hs' Hn]; destruct (send_frame d tr) as [[[]|e|] tr'] end;
    [|done..].
  rewrite eff_bind_run. cbn [gets]. apply disconnect_wait_safe; [lia|]. by intros ? [= <-].
Qed.

Lemma disconnect_safe w : tunnel_input_safe w → (Tunnel_disconnect w).1 ≠ Panic.
Proof.
  intros Hs. unfold Tunnel_disconnect. rewrite eff_bind_run. cbn [on_tunnel modify].
  rewrite eff_bind_run. cbn [gets]. rewrite eff_bind_run.
  pose proof (try_disconnect_safe (tunnel_channel_id (tunnel w))
    (MkWorld (set_state Disconnecting (tunnel w)) (registry w) (clock w)) Hs) as Ht.
  cbn [tunnel set_state tunnel_channel_id].
  destruct (try_send_disconnect _ _) as [r w2]. cbn in Ht. subst r.
  unfold release_address, mbind, eff_bind, gets, on_tunnel, modify. by repeat case_match.
Qed.

(** [disconnect] always tears the tunnel down.  Whatever a gateway does
    (over TCP, or over UDP without the datagrams on which the frame parser
    panics), it returns, without an error, in state [Disconnected] with no
    channel; with address management on, the held address is given up and is
    claimable again, and no other claim changes. *)
Theorem tunnel_disconnect_outcome (w : world T) :
  tunnel_input_safe w →
  let '(r, w') := Tunnel_disconnect w in
  r = Ok tt ∧ state (tunnel w') = Disconnected ∧ tunnel_channel_id (tunnel w') = 0 ∧
  established_at (tunnel w') = None ∧
  if address_registry (tunnel w) then
    tunnel_individual_address (tunnel w') = None ∧
    claimed (registry w') =
      claimed (registry w) ∖ match tunnel_individual_address (tunnel w) with
                             | Some a => {[a]} | None => ∅ end
  else registry w' = registry w.
Proof.
  intros Hs. pose proof (disconnect_effect w) as He. pose proof (disconnect_safe w Hs) as Hnp.
  destruct (Tunnel_disconnect w) as [r w'].
  destruct He as [[-> _]|(-> & ? & ? & ? & He)]; [done|]. split_and!; [done..|].
  destruct (address_registry (tunnel w)); [done|apply He].
Qed.
End addresses.

(** * Several tunnels over one registry

    Tunnels of one process share the registry.  A step connects or disconnects
    one of them, lets one do any input or output, or marks an address
    occupied. *)
Section fleet.
Context {T : Type} `{FiniteInput T} `{Profile}.
Context (show_addr : SocketAddr → string).

Abbreviation fleet := (list (Tunnel T) * AddressRegistry)%type.

Inductive fleet_step : fleet → fleet → Prop :=
| fleet_connect ts reg i t dial now r w' :
    ts !! i = Some t → Tunnel_connect show_addr dial (MkWorld t reg now) = (r, w') →
    fleet_step (ts, reg) (<[i := tunnel w']> ts, registry w')
| fleet_disconnect ts reg i t now r w' :
    ts !! i = Some t → Tunnel_disconnect (MkWorld t reg now) = (r, w') →
    fleet_step (ts, reg) (<[i := tunnel w']> ts, registry w')
| fleet_io ts reg i t t' now :
    ts !! i = Some t → quiet (MkWorld t reg now) (MkWorld t' reg now) →
    fleet_step (ts, reg) (<[i := t']> ts, reg)
| fleet_occupied ts reg a :
    fleet_step (ts, reg) (ts, AddressRegistry_add_known_occupied a reg).

(** The address tunnel [i] holds. *)
Definition holds (f : fleet) (i : nat) (a : IndividualAddress) : Prop :=
  ∃ t, f.1 !! i = Some t ∧ tunnel_individual_address t = Some a.

Record fleet_inv (f : fleet) : Prop := {
  inv_claimed : ∀ i a, holds f i a → a ∈ claimed f.2;
  inv_distinct : ∀ i j a, holds f i a → holds f j a → i = j;
}.

(** Replacing tunnel [i] by one that holds [new]. *)
Lemma holds_insert ts reg i t reg' j a :
  (i < length ts)%nat →
  holds (<[i := t]> ts, reg') j a →
  (j = i ∧ tunnel_individual_address t = Some a) ∨ (j ≠ i ∧ holds (ts, reg) j a).
Proof.
  intros Hi (u & Hu & Ha). cbn in Hu.
  apply list_lookup_insert_Some in Hu as [(-> & -> & _)|[Hne Hu]]; [by left|].
  right. split; [done|]. by exists u.
Qed.

(** A tunnel that keeps its address under a registry that grows. *)
Lemma fleet_inv_keep ts reg reg' i t t' :
  ts !! i = Some t → tunnel_individual_address t' = tunnel_individual_address t →
  claimed reg ⊆ claimed reg' → fleet_inv (ts, reg) → fleet_inv (<[i := t']> ts, reg').
Proof.
  intros Hi Ha Hsub [Hc Hd]. pose proof (lookup_lt_Some _ _ _ Hi) as Hlt.
  assert (∀ j a, holds (<[i := t']> ts, reg') j a → holds (ts, reg) j a) as Hback.
  { intros j a [[-> Hj]|[_ Hj]]%(holds_insert ts reg i t' reg' j a Hlt); [|done].
    exists t. split; [done|congruence]. }
  split; cbn; [|eauto]. intros j a Hj. apply Hsub, (Hc j). by apply Hback.
Qed.

(** A tunnel that takes a fresh address. *)
Lemma fleet_inv_take ts reg reg' i t t' a :
  ts !! i = Some t → tunnel_individual_address t' = Some a → a ∉ claimed reg →
  claimed reg' = {[a]} ∪ claimed reg → fleet_inv (ts, reg) → fleet_inv (<[i := t']> ts, reg').
Proof.
  intros Hi Ha Hn Hreg [Hc Hd]. pose proof (lookup_lt_Some _ _ _ Hi) as Hlt.
  assert (∀ j b, holds (<[i := t']> ts, reg') j b →
    (j = i ∧ b = a) ∨ (j ≠ i ∧ holds (ts, reg) j b ∧ b ≠ a)) as Hback.
  { intros j b [[-> Hj]|[Hne Hj]]%(holds_insert ts reg i t' reg' j b Hlt); [left; split; congruence|].
    right. split_and!; [done..|]. intros ->. by apply Hn, (Hc j). }
  split; cbn.
  - rewrite Hreg. intros j b [[-> ->]|(_ & Hj & _)]%Hback; [set_solver|]. apply Hc in Hj. set_solver.
  - intros j k b Hj%Hback Hk%Hback. naive_solver.
Qed.

(** A tunnel that gives its address up. *)
Lemma fleet_inv_drop ts reg reg' i t t' :
  ts !! i = Some t → tunnel_individual_address t' = None →
  claimed reg' = claimed reg ∖ match tunnel_individual_address t with
                               | Some a => {[a]} | None => ∅ end →
  fleet_inv (ts, reg) → fleet_inv (<[i := t']> ts, reg').
Proof.
  intros Hi Ha Hreg [Hc Hd]. pose proof (lookup_lt_Some _ _ _ Hi) as Hlt.
  assert (∀ j b, holds (<[i := t']> ts, reg') j b → j ≠ i ∧ holds (ts, reg) j b) as Hback.
  { intros j b [[-> Hj]|[Hne Hj]]%(holds_insert ts reg i t' reg' j b Hlt); [congruence|done]. }
  split; cbn.
  - intros j b [Hne Hj]%Hback. rewrite Hreg. apply elem_of_difference. split; [by apply (Hc j)|].
    destruct (tunnel_individual_address t) as [a|] eqn:Et; [|set_solver].
    apply not_elem_of_singleton. intros ->. apply Hne, (Hd j i a Hj). by exists t.
  - intros j k b [_ Hj]%Hback [_ Hk]%Hback. eauto.
Qed.

Lemma fleet_step_inv f f' : fleet_step f f' → fleet_inv f → fleet_inv f'.
Proof.
  intros [ts reg i t dial now r w' Hi Hr|ts reg i t now r w' Hi Hr|ts reg i t t' now Hi Hq|ts reg a] Hf.
  - pose proof (connect_effect show_addr dial (MkWorld t reg now)) as He. rewrite Hr in He. cbn in He.
    assert (keeps_address (MkWorld t reg now) w' → fleet_inv (<[i := tunnel w']> ts, registry w')) as Hk.
    { intros (Hreg & Ha & _). cbn in Hreg, Ha. eapply fleet_inv_keep; [done..|by rewrite Hreg|done]. }
    destruct r as [[]|e|]; [|by apply Hk..]. destruct He as [_ He].
    destruct (address_registry t); [|by apply Hk]. destruct He as (a & Ha & Hn & Hreg).
    by eapply fleet_inv_take.
  - pose proof (disconnect_effect (MkWorld t reg now)) as He. rewrite Hr in He. cbn in He.
    assert (keeps_address (MkWorld t reg now) w' → fleet_inv (<[i := tunnel w']> ts, registry w')) as Hk.
    { intros (Hreg & Ha & _). cbn in Hreg, Ha. eapply fleet_inv_keep; [done..|by rewrite Hreg|done]. }
    destruct He as [[_ He]|(_ & _ & _ & _ & He)]; [by apply Hk|].
    destruct (address_registry t); [|by apply Hk]. destruct He as [Ha Hreg].
    by eapply fleet_inv_drop.
  - apply quiet_keeps in Hq as (_ & Ha & _). cbn in Ha. by eapply fleet_inv_keep.
  - destruct Hf as [Hc Hd]. split; [exact Hc|exact Hd].
Qed.

(** C8: Two tunnels never use the same individual address.  In every execution
    in which tunnels sharing one registry connect, fail, exchange frames and
    disconnect in any order, each address in use is claimed and is held by one
    tunnel only. *)
Theorem fleet_addresses_exclusive (ts : list (Tunnel T)) (reg : AddressRegistry) (f : fleet) :
  Forall (λ t, tunnel_individual_address t = None) ts →
  rtc fleet_step (ts, reg) f →
  (∀ i a, holds f i a → a ∈ claimed f.2) ∧ (∀ i j a, holds f i a → holds f j a → i = j).
Proof.
  intros Hnone Hrun. assert (fleet_inv (ts, reg)) as Hinv.
  { rewrite Forall_forall in Hnone. split; cbn.
    - intros i a (t & Ht & Ha). rewrite Hnone in Ha by by eapply list_elem_of_lookup_2. done.
    - intros i j a (t & Ht & Ha). rewrite Hnone in Ha by by eapply list_elem_of_lookup_2. done. }
  assert (fleet_inv f) as [? ?]; [|done].
  induction Hrun as [|f1 f2 f3 Hs Hrun IH]; [done|]. eauto using fleet_step_inv.
Qed.
End fleet.

(** * The expected sequence number across [connect] *)
Section expected_sequence.
Context {T : Type} `{FiniteInput T} `{Profile}.
Context (show_addr : SocketAddr → string).

Definition same_expected (w w' : world T) : Prop :=
  expected_sequence_number (tunnel w') = expected_sequence_number (tunnel w).
#[local] Instance same_expected_preorder : PreOrder same_expected.
Proof. split; [done|]. intros w1 w2 w3 E1 E2. unfold same_expected in *. congruence. Qed.

Lemma expected_on_tunnel f :
  (∀ t : Tunnel T, expected_sequence_number (f t) = expected_sequence_number t) →
  preserves same_expected (on_tunnel f).
Proof. intros Hf w. apply Hf. Qed.
Lemma expected_stats f : preserves same_expected (on_stats f).
Proof. done. Qed.
#[local] Hint Extern 1 (preserves same_expected (on_tunnel _)) =>
  (apply expected_on_tunnel; done) : preserves.
#[local] Hint Resolve expected_stats : preserves.

Lemma expected_send d : preserves same_expected (transport_send d).
Proof. unfold transport_send, Tunnel_transport. repeat preserves_step. Qed.
Lemma expected_recv : preserves same_expected transport_recv.
Proof. unfold transport_recv, Tunnel_transport. repeat preserves_step. Qed.
#[local] Hint Resolve expected_send expected_recv : preserves.
Lemma expected_send_frame d : preserves same_expected (Tunnel_send_frame d).
Proof. unfold Tunnel_send_frame. repeat preserves_step. Qed.
Lemma expected_recv_frame : preserves same_expected Tunnel_recv_frame.
Proof. unfold Tunnel_recv_frame. repeat preserves_step. Qed.
Lemma expected_ack c s st : preserves same_expected (Tunnel_send_tunnelling_ack c s st).
Proof. unfold Tunnel_send_tunnelling_ack. repeat preserves_step. Qed.
Lemma expected_wrap c : preserves same_expected (wrap_cemi c).
Proof.
  intros w. unfold wrap_cemi, mbind, eff_bind, gets, lift. cbn. by destruct (KnxIpFrame_new _ _).
Qed.
#[local] Hint Resolve expected_send_frame expected_recv_frame expected_ack expected_wrap : preserves.
Lemma expected_signal fuel : preserves same_expected (recv_until_signal fuel).
Proof. induction fuel as [|fuel IH]; cbn [recv_until_signal]; repeat preserves_step. Qed.
#[local] Hint Resolve expected_signal : preserves.
Lemma expected_probe a : preserves same_expected (probe_address a).
Proof. unfold probe_address. cbn zeta. repeat preserves_step. Qed.
#[local] Hint Resolve expected_probe : preserves.
Lemma expected_auto_select area line ds n :
  preserves same_expected (auto_select_loop area line ds n).
Proof. revert n. induction ds as [|d ds IH]; intros n; cbn [auto_select_loop]; repeat preserves_step. Qed.
Lemma expected_claim a : preserves same_expected (claim_address a).
Proof. intros w. unfold claim_address. by destruct (AddressRegistry_claim a (registry w)). Qed.
#[local] Hint Resolve expected_auto_select expected_claim : preserves.

(** [connect] neither resets nor advances the expected sequence number, in
    any outcome.  In particular the address probe it may run acknowledges the
    requests that arrive meanwhile without counting them, so the first request
    after the probe is judged against a stale number. *)
Theorem connect_keeps_expected_sequence (dial : result (T * SocketAddr)) (w : world T) :
  expected_sequence_number (tunnel (Tunnel_connect show_addr dial w).2) =
  expected_sequence_number (tunnel w).
Proof.
  assert (preserves same_expected (Tunnel_connect show_addr dial)) as Hp; [|exact (Hp w)].
  unfold Tunnel_connect, Tunnel_establish_transport, Tunnel_send_connect_request,
    Tunnel_finish_connect, auto_select_address. cbn zeta. repeat preserves_step.
Qed.
End expected_sequence.

Section witnesses.
#[local] Instance tunnel_release : Profile := {| debug_build := false |}.

Definition sample_addr : SocketAddr := MkSocketAddr (V4 10 0 0 1) 3671.
Definition managed_tunnel : Tunnel UdpFrameTransport :=
  Tunnel_set_address_management None (Tunnel_new_udp sample_addr).
Definition taken : IndividualAddress := MkIndividualAddress 0x1101.

Lemma finish_connect_collision_stays_connected_witness :
  let w := MkWorld managed_tunnel (MkAddressRegistry {[taken]} ∅) 0 in
  let '(r, w') := Tunnel_finish_connect 7 (Some taken) w in
  r = terr (TransportInvalidConfiguration
        ("Address " +:+ IndividualAddress_display taken +:+ " already claimed")) ∧
  Tunnel_is_connected (tunnel w') = true ∧ tunnel_channel_id (tunnel w') = 7 ∧
  stats (tunnel w') = stats (tunnel w).
Proof.
  apply (finish_connect_collision_stays_connected
    (MkWorld managed_tunnel (MkAddressRegistry {[taken]} ∅) 0) 7 taken).
  - reflexivity.
  - reflexivity.
  - cbn. set_solver.
Defined.

(** A gateway that accepts the connection and assigns 1.1.1. *)
Definition connect_response_datagram : list Z :=
  [6; 0x10; 2; 6; 0; 20; 5; 0; 8; 1; 10; 0; 0; 1; 0x0E; 0x57; 4; 4; 0x11; 1].

Lemma fleet_addresses_exclusive_witness :
  let dial := Ok (MkUdp [Data connect_response_datagram] [] [], sample_addr) in
  let w' := (Tunnel_connect (λ _, "10.0.0.1:3671") dial
               (MkWorld managed_tunnel AddressRegistry_new 0)).2 in
  let f := (<[0%nat := tunnel w']> [managed_tunnel; managed_tunnel], registry w') in
  (∀ i a, holds f i a → a ∈ claimed f.2) ∧ (∀ i j a, holds f i a → holds f j a → i = j).
Proof.
  intros dial w' f.
  apply (fleet_addresses_exclusive (λ _, "10.0.0.1:3671") [managed_tunnel; managed_tunnel]
    AddressRegistry_new f).
  - by repeat constructor.
  - eapply rtc_l; [|apply rtc_refl].
    eapply (fleet_connect _ _ _ 0 managed_tunnel dial 0); [done|].
    exact (surjective_pairing (Tunnel_connect (λ _, "10.0.0.1:3671") dial
               (MkWorld managed_tunnel AddressRegistry_new 0))).
Defined.

(** Connected on channel 5 with an address; the gateway answers the disconnect
    with a garbled datagram and then falls silent. *)
Definition connected_world : world UdpFrameTransport :=
  MkWorld (set_transport (Some (MkUdp [Data [1; 2; 3]; Stall] [] [])) (Some sample_addr)
             (set_address (Some taken) (set_channel 5 (Some 0) (set_state Connected managed_tunnel))))
    (MkAddressRegistry {[taken]} ∅) 0.
Lemma tunnel_disconnect_outcome_witness :
  let '(r, w') := Tunnel_disconnect connected_world in
  r = Ok tt ∧ state (tunnel w') = Disconnected ∧ tunnel_channel_id (tunnel w') = 0 ∧
  established_at (tunnel w') = None ∧
  tunnel_individual_address (tunnel w') = None ∧ claimed (registry w') = {[taken]} ∖ {[taken]}.
Proof.
  apply (tunnel_disconnect_outcome connected_world). intros tr [= <-].
  repeat constructor. vm_compute. discriminate.
Defined.

(** The run of that witness does claim the address. *)
Example connect_claims :
  let '(r, w) := Tunnel_connect (λ _, "10.0.0.1:3671")
    (Ok (MkUdp [Data connect_response_datagram] [] [], sample_addr))
    (MkWorld managed_tunnel AddressRegistry_new 0) in
  r = Ok tt ∧ tunnel_channel_id (tunnel w) = 5 ∧
  AddressRegistry_is_claimed taken (registry w) = true.
Proof. vm_compute. done. Qed.
End witnesses.
