(* ===== verification/Server.v ===== *)
(** The tunnelling server ([src/src/transport/server.rs]), in the build without
    the [secure] feature.

    [TunnelServer] is the server's shared state together with what the world
    sees of it: the frames sent, the telegrams published to subscribers and
    the script [send_faults] of which sends fail.  Each handler is the whole
    handler of the source in the [eff] monad.  Handlers, the clean-up of a TCP
    task, an eviction and a send run one at a time ([server_step] of
    [ServerBehaviour]); what the one-shot channels of a send yield within the
    timeout is an argument of the send. *)
From stdpp Require Import relations.
From S2P Require Import Prelude Errors Address Apdu Telegram Cemi KnxIp TunnelCore.

Definition CLIENT_TIMEOUT : Z := 120000000000.
Definition ACK_TIMEOUT_MS : Z := 1000.

(** How to reach a client: the shared UDP socket, or its own TCP stream
    (named by the number of the accepted connection). *)
Inductive ClientLink :=
| UdpLink (peer_addr : SocketAddr)
| TcpLink (stream : nat) (peer_addr : SocketAddr).
#[global] Instance ClientLink_eq_dec : EqDecision ClientLink.
Proof. solve_decision. Defined.

Definition ClientLink_peer_addr (l : ClientLink) : SocketAddr :=
  match l with UdpLink a | TcpLink _ a => a end.

Record ClientSession := MkClientSession {
  session_channel_id : Z;
  link : ClientLink;
  send_seq : Z;
  recv_seq : Z;
  last_heartbeat : Z;
  pending_ack : option nat;   (** the one-shot channel of the send in flight *)
}.

Record TunnelServer := MkTunnelServer {
  server_addr : SocketAddr;
  server_individual_address : IndividualAddress;
  sessions : gmap Z ClientSession;
  shutdown : bool;
  server_clock : Z;
  next_oneshot : nat;
  acks : gmap nat TunnellingAck;          (** what the one-shot channels delivered *)
  published : list Telegram;              (** telegrams given to the broadcast channel *)
  sent : list (ClientLink * list Z);
  send_faults : list (option io_error);   (** outcome of the next sends *)
}.

(** ** State updates *)
Definition set_sessions (m : gmap Z ClientSession) (s : TunnelServer) : TunnelServer :=
  MkTunnelServer (server_addr s) (server_individual_address s) m (shutdown s) (server_clock s)
    (next_oneshot s) (acks s) (published s) (sent s) (send_faults s).
Definition set_oneshot (n : nat) (a : gmap nat TunnellingAck) (s : TunnelServer) : TunnelServer :=
  MkTunnelServer (server_addr s) (server_individual_address s) (sessions s) (shutdown s)
    (server_clock s) n a (published s) (sent s) (send_faults s).
Definition publish (t : Telegram) (s : TunnelServer) : TunnelServer :=
  MkTunnelServer (server_addr s) (server_individual_address s) (sessions s) (shutdown s)
    (server_clock s) (next_oneshot s) (acks s) (published s ++ [t]) (sent s) (send_faults s).
Definition log_sent (l : ClientLink) (f : list Z) (s : TunnelServer) : TunnelServer :=
  MkTunnelServer (server_addr s) (server_individual_address s) (sessions s) (shutdown s)
    (server_clock s) (next_oneshot s) (acks s) (published s) (sent s ++ [(l, f)]) (send_faults s).
Definition set_faults (fs : list (option io_error)) (s : TunnelServer) : TunnelServer :=
  MkTunnelServer (server_addr s) (server_individual_address s) (sessions s) (shutdown s)
    (server_clock s) (next_oneshot s) (acks s) (published s) (sent s) fs.
Definition set_session (id : Z) (c : ClientSession) (s : TunnelServer) : TunnelServer :=
  set_sessions (<[id := c]> (sessions s)) s.
Definition remove_session (id : Z) (s : TunnelServer) : TunnelServer :=
  set_sessions (delete id (sessions s)) s.

Definition TunnelServer_new (addr : SocketAddr) (ia : IndividualAddress) (now : Z)
    (faults : list (option io_error)) : TunnelServer :=
  MkTunnelServer addr ia ∅ false now 0 ∅ [] [] faults.

(** * Client sessions *)
Definition ClientSession_new (now : Z) (id : Z) (l : ClientLink) : ClientSession :=
  MkClientSession id l 0 0 now None.

Definition ClientSession_validate_recv_seq (received : Z) (c : ClientSession)
    : SequenceValidationResult * ClientSession :=
  let expected := recv_seq c in
  if received =? expected
  then (Valid, MkClientSession (session_channel_id c) (link c) (send_seq c) (as_u8 (expected + 1))
                 (last_heartbeat c) (pending_ack c))
  else if received =? as_u8 (expected - 1) then (Duplicate, c)
  else (Invalid expected received, c).

Definition ClientSession_touch (now : Z) (c : ClientSession) : ClientSession :=
  MkClientSession (session_channel_id c) (link c) (send_seq c) (recv_seq c) now (pending_ack c).
Definition ClientSession_is_stale (now : Z) (c : ClientSession) : bool :=
  CLIENT_TIMEOUT <? Z.max 0 (now - last_heartbeat c).
Definition set_pending (p : option nat) (c : ClientSession) : ClientSession :=
  MkClientSession (session_channel_id c) (link c) (send_seq c) (recv_seq c) (last_heartbeat c) p.
Definition set_send_seq (n : Z) (c : ClientSession) : ClientSession :=
  MkClientSession (session_channel_id c) (link c) n (recv_seq c) (last_heartbeat c) (pending_ack c).

(** * Frames *)
Definition build_tunnel_crd (addr : IndividualAddress) : list Z :=
  [4; TUNNEL_CONNECTION] ++ to_be16 (ia_raw addr).

Definition build_tunnelling_frame_with_code `{Profile} (t : Telegram) (channel seq : Z)
    (code : MessageCode) : result (list Z) :=
  let group_service := match payload t with [] => Read | p => Write p end in
  let cemi := CemiFrame_new code (source t) (destination t) (GroupValueService_encode group_service) in
  frame ← KnxIpFrame_new ServiceType.TunnellingRequest
            (TunnellingRequest_serialize (TunnellingRequest_new channel seq (CemiFrame_serialize cemi)));
  Ok (KnxIpFrame_serialize frame).

Definition telegram_priority (p : CemiPriority) : Priority :=
  match p with
  | CemiSystem => System | CemiNormal => Normal | CemiUrgent => Urgent | CemiLow => Low
  end.

Definition parse_cemi_to_telegram (now : Z) (cemi_data : list Z) : result Telegram :=
  f ← CemiFrame_parse cemi_data;
  let service := result_ok (GroupValueService_decode (tpci f) (apci_data f)) in
  Ok {| source := source_addr f;
        destination := dest_addr f;
        payload := default (apci_data f) (service ≫= GroupValueService_payload);
        priority := telegram_priority (cf_priority (control_field f));
        direction := Incoming;
        telegram_type := match service with
                         | Some Read => GroupValueRead
                         | Some (Response _) => GroupValueResponse
                         | Some (Write _) | None => GroupValueWrite
                         end;
        timestamp := now |}.

(** * Handlers *)
Section handlers.
Context `{Profile}.
Abbreviation M := (eff TunnelServer KnxError).

(** [ClientLink::send_frame]; flushing a TCP stream does nothing in tokio. *)
Definition ClientLink_send_frame (l : ClientLink) (frame : list Z) : M unit :=
  faults ← gets send_faults;
  _ ← modify (set_faults (tail faults));
  match default None (head faults) with
  | Some e =>
      throw (Transport (SocketError (match l with UdpLink _ => "send_to" | TcpLink _ _ => "tcp_write" end) e))
  | None => modify (log_sent l frame)
  end.

Definition send_reply (service : ServiceType.ServiceType) (b : list Z) (l : ClientLink) : M unit :=
  frame ← lift (KnxIpFrame_new service b);
  ClientLink_send_frame l (KnxIpFrame_serialize frame).

Definition resolve_link (hpai : Hpai) (l : ClientLink) : ClientLink :=
  match l with
  | UdpLink peer => UdpLink (if hpai_port hpai =? 0 then peer else Hpai_socket_addr hpai)
  | TcpLink _ _ => l
  end.

Definition channel_ids : list Z := (λ i, Z.of_nat i) <$> seq 1 255.
Definition allocate_channel_id (m : gmap Z ClientSession) : option Z :=
  List.find (λ id, bool_decide (m !! id = None)) channel_ids.

Definition handle_connect_request (b : list Z) (l : ClientLink) : M (option Z) :=
  request ← lift (ConnectRequest_parse b);
  let l := resolve_link (creq_data_endpoint request) l in
  srv ← gets id;
  match allocate_channel_id (sessions srv) with
  | Some ch =>
      _ ← modify (set_session ch (ClientSession_new (server_clock srv) ch l));
      _ ← send_reply ServiceType.ConnectResponse
            (ConnectResponse_serialize
               (MkConnectResponse ch CONNECT_STATUS_OK (Hpai_new (server_addr srv))
                  (build_tunnel_crd (server_individual_address srv))
                  (Some (server_individual_address srv)))) l;
      mret (Some ch)
  | None =>
      _ ← send_reply ServiceType.ConnectResponse
            (ConnectResponse_serialize
               (MkConnectResponse 0 STATUS_ERROR_NO_MORE_CONNECTIONS (Hpai_new (server_addr srv))
                  [] None)) l;
      mret None
  end.

Definition handle_tunnelling_request (b : list Z) (l : ClientLink) : M unit :=
  request ← lift (TunnellingRequest_parse b);
  srv ← gets id;
  match sessions srv !! treq_channel_id request with
  | None => mret tt
  | Some session =>
      let '(verdict, session) :=
        ClientSession_validate_recv_seq (treq_sequence_counter request)
          (ClientSession_touch (server_clock srv) session) in
      _ ← modify (set_session (treq_channel_id request) session);
      let reply ack := send_reply ServiceType.TunnellingAck (TunnellingAck_serialize ack) (link session) in
      match verdict with
      | Valid =>
          _ ← reply (TunnellingAck_new_ok (treq_channel_id request) (treq_sequence_counter request));
          match parse_cemi_to_telegram (server_clock srv) (raw_cemi request) with
          | Ok t => modify (publish t)
          | Err _ => mret tt
          | Panic => lift Panic
          end
      | Duplicate =>
          reply (TunnellingAck_new_ok (treq_channel_id request) (treq_sequence_counter request))
      | Invalid _ _ =>
          reply (TunnellingAck_new_sequence_error (treq_channel_id request)
                   (treq_sequence_counter request))
      end
  end.

Definition handle_tunnelling_ack (b : list Z) : M unit :=
  ack ← lift (TunnellingAck_parse b);
  srv ← gets id;
  match sessions srv !! ack_channel_id ack with
  | Some session =>
      match pending_ack session with
      | Some tx =>
          modify (λ s, set_oneshot (next_oneshot s) (<[tx := ack]> (acks s))
                         (set_session (ack_channel_id ack) (set_pending None session) s))
      | None => mret tt
      end
  | None => mret tt
  end.

Definition STATUS_ERROR_CONNECTION_ID : Z := 0x21.

Definition handle_connectionstate_request (b : list Z) (l : ClientLink) : M unit :=
  request ← lift (ConnectionstateRequest_parse b);
  srv ← gets id;
  '(status, reply_link) ←
    match sessions srv !! csreq_channel_id request with
    | Some session =>
        _ ← modify (set_session (csreq_channel_id request)
                      (ClientSession_touch (server_clock srv) session));
        mret (CONNECTIONSTATE_STATUS_OK, link session)
    | None => mret (STATUS_ERROR_CONNECTION_ID, l)
    end;
  send_reply ServiceType.ConnectionstateResponse
    (ConnectionstateResponse_serialize (ConnectionstateResponse_new (csreq_channel_id request) status))
    reply_link.

Definition handle_disconnect_request (b : list Z) (l : ClientLink) : M unit :=
  request ← lift (DisconnectRequest_parse b);
  srv ← gets id;
  let reply_link := match sessions srv !! dreq_channel_id request with
                    | Some session => link session
                    | None => l
                    end in
  _ ← modify (remove_session (dreq_channel_id request));
  send_reply ServiceType.DisconnectResponse
    (DisconnectResponse_serialize (DisconnectResponse_new (dreq_channel_id request) DISCONNECT_STATUS_OK))
    reply_link.

Definition dispatch_plain_frame (frame : KnxIpFrame) (l : ClientLink) : M (option Z) :=
  match service_type (header frame) with
  | ServiceType.ConnectRequest => handle_connect_request (body frame) l
  | ServiceType.TunnellingRequest => _ ← handle_tunnelling_request (body frame) l; mret None
  | ServiceType.TunnellingAck => _ ← handle_tunnelling_ack (body frame); mret None
  | ServiceType.ConnectionstateRequest =>
      _ ← handle_connectionstate_request (body frame) l; mret None
  | ServiceType.DisconnectRequest => _ ← handle_disconnect_request (body frame) l; mret None
  | _ => mret None
  end.

Definition handle_frame (data : list Z) (l : ClientLink) : M (option Z) :=
  frame ← lift (KnxIpFrame_parse data);
  dispatch_plain_frame frame l.

(** * Loops *)

(** The UDP dispatch loop on the datagrams it receives: errors are logged, a
    panic ends the task. *)
Fixpoint udp_dispatch_loop (packets : list (SocketAddr * list Z)) : M unit :=
  match packets with
  | [] => mret tt
  | (peer, d) :: packets =>
      stop ← gets shutdown;
      if stop : bool then mret tt
      else
        _ ← attempt (handle_frame (take 1024 d) (UdpLink peer));
        udp_dispatch_loop packets
  end.

(** The task of one accepted TCP stream: its frames until the stream ends, then
    the clean-up of the channel it was assigned last. *)
Fixpoint tcp_client_loop (l : ClientLink) (frames : list (list Z)) (assigned : option Z)
    : M (option Z) :=
  match frames with
  | [] => mret assigned
  | d :: frames =>
      stop ← gets shutdown;
      if stop : bool then mret assigned
      else
        r ← attempt (handle_frame d l);
        tcp_client_loop l frames (match r with inl (Some ch) => Some ch | _ => assigned end)
  end.
Definition tcp_client (l : ClientLink) (frames : list (list Z)) : M unit :=
  assigned ← tcp_client_loop l frames None;
  match assigned with
  | Some ch => modify (remove_session ch)
  | None => mret tt
  end.

(** The sweeper reads the stale channels under one lock and removes them under
    another. *)
Definition stale_ids (s : TunnelServer) : list Z :=
  (map_to_list (filter (λ p, ClientSession_is_stale (server_clock s) p.2 = true) (sessions s))).*1.
Definition evict (ids : list Z) (s : TunnelServer) : TunnelServer := foldr remove_session s ids.

(** * Sending to clients *)

(** Updates the session of [ch], if it is still there. *)
Definition update_session (ch : Z) (f : ClientSession → ClientSession) : M unit :=
  modify (λ s, match sessions s !! ch with
               | Some c => set_session ch (f c) s
               | None => s
               end).

(** The [for attempt in 0..2] loop; [answers] are what the one-shot channel of
    each attempt yields within the timeout. *)
Fixpoint send_attempts (attempts : nat) (ch : Z) (l : ClientLink) (frame : list Z) (seq : Z)
    (answers : list (option TunnellingAck)) : M unit :=
  match attempts with
  | O => throw (Transport (Timeout ACK_TIMEOUT_MS))
  | S attempts =>
      tx ← gets next_oneshot;
      _ ← modify (λ s, set_oneshot (S tx) (acks s) s);
      _ ← update_session ch (set_pending (Some tx));
      _ ← ClientLink_send_frame l frame;
      match head answers with
      | Some (Some ack) =>
          _ ← update_session ch (set_pending None);
          if ack_status_code ack =? ACK_STATUS_OK
          then update_session ch (set_send_seq (as_u8 (seq + 1)))
          else throw (Transport (TransportInvalidConfiguration "client rejected TunnellingRequest"))
      | _ => send_attempts attempts ch l frame seq (tail answers)
      end
  end.

Definition send_to_session (c : ClientSession) (t : Telegram)
    (answers : list (option TunnellingAck)) : M unit :=
  frame ← lift (build_tunnelling_frame_with_code t (session_channel_id c) (send_seq c) LDataInd);
  send_attempts 2 (session_channel_id c) (link c) frame (send_seq c) answers.

(** [TunnelServer::send] over the sessions it saw when it started. *)
Fixpoint send_to_all (cs : list ClientSession) (t : Telegram)
    (answers : Z → list (option TunnellingAck)) : M unit :=
  match cs with
  | [] => mret tt
  | c :: cs =>
      r ← attempt (send_to_session c t (answers (session_channel_id c)));
      _ ← match r with
          | inl _ => mret tt
          | inr _ => modify (remove_session (session_channel_id c))
          end;
      send_to_all cs t answers
  end.
Definition TunnelServer_send (t : Telegram) (answers : Z → list (option TunnellingAck)) : M unit :=
  srv ← gets id;
  send_to_all ((map_to_list (sessions srv)).*2) t answers.

Definition TunnelServer_shutdown (s : TunnelServer) : TunnelServer :=
  MkTunnelServer (server_addr s) (server_individual_address s) (sessions s) true (server_clock s)
    (next_oneshot s) (acks s) (published s) (sent s) (send_faults s).
Definition client_count (s : TunnelServer) : nat := size (sessions s).
End handlers.

(** * The invariant *)

(** Every session sits under its own channel number, a number from 1 to 255,
    and its sequence counters are bytes. *)
Definition session_ok (ch : Z) (c : ClientSession) : Prop :=
  session_channel_id c = ch ∧ 1 ≤ ch ≤ 255 ∧ u8_ok (send_seq c) ∧ u8_ok (recv_seq c).
Definition server_inv (s : TunnelServer) : Prop := map_Forall session_ok (sessions s).

Definition keeps_inv (s s' : TunnelServer) : Prop := server_inv s → server_inv s'.
#[global] Instance keeps_inv_preorder : PreOrder keeps_inv.
Proof. split; [intros s Hs; exact Hs|]. intros s1 s2 s3 H12 H23 H. auto. Qed.

Section invariant.
Context `{Profile}.
Abbreviation M := (eff TunnelServer KnxError).

Lemma keeps_modify f :
  (∀ s, server_inv s → server_inv (f s)) → preserves keeps_inv (modify f : M unit).
Proof. intros Hf s Hs. exact (Hf s Hs). Qed.
Lemma keeps_same_sessions f :
  (∀ s, sessions (f s) = sessions s) → preserves keeps_inv (modify f : M unit).
Proof. intros Hf. apply keeps_modify. intros s Hs. unfold server_inv. by rewrite Hf. Qed.
Lemma inv_set_session ch c s : session_ok ch c → server_inv s → server_inv (set_session ch c s).
Proof. intros Hc Hs. by apply map_Forall_insert_2. Qed.
Lemma inv_remove_session ch s : server_inv s → server_inv (remove_session ch s).
Proof. intros Hs. by apply map_Forall_delete. Qed.
Lemma inv_lookup ch c s : server_inv s → sessions s !! ch = Some c → session_ok ch c.
Proof. intros Hs Hl. by apply (Hs ch). Qed.

#[local] Hint Extern 1 (preserves keeps_inv (modify (set_faults _))) =>
  (apply keeps_same_sessions; done) : preserves.
#[local] Hint Extern 1 (preserves keeps_inv (modify (log_sent _ _))) =>
  (apply keeps_same_sessions; done) : preserves.
#[local] Hint Extern 1 (preserves keeps_inv (modify (publish _))) =>
  (apply keeps_same_sessions; done) : preserves.
#[local] Hint Extern 1 (preserves keeps_inv (modify (remove_session _))) =>
  (apply keeps_modify; intros; by apply inv_remove_session) : preserves.

Lemma link_send_keeps l f : preserves keeps_inv (ClientLink_send_frame l f).
Proof. unfold ClientLink_send_frame. repeat preserves_step. Qed.
#[local] Hint Resolve link_send_keeps : preserves.
Lemma send_reply_keeps svc b l : preserves keeps_inv (send_reply svc b l).
Proof. unfold send_reply. repeat preserves_step. Qed.
#[local] Hint Resolve send_reply_keeps : preserves.

Lemma channel_ids_range id : id ∈ channel_ids ↔ 1 ≤ id ≤ 255.
Proof.
  unfold channel_ids. rewrite list_elem_of_fmap. split.
  - intros (i & -> & Hi%elem_of_seq). lia.
  - intros Hid. exists (Z.to_nat id). rewrite elem_of_seq. lia.
Qed.
Lemma allocate_Some m ch :
  allocate_channel_id m = Some ch → 1 ≤ ch ≤ 255 ∧ m !! ch = None.
Proof.
  unfold allocate_channel_id. intros Hf. apply List.find_some in Hf as [Hin Hn].
  apply bool_decide_eq_true_1 in Hn. split; [|done]. apply channel_ids_range.
  by apply list_elem_of_In.
Qed.
Lemma allocate_None m : allocate_channel_id m = None → ∀ id, 1 ≤ id ≤ 255 → is_Some (m !! id).
Proof.
  unfold allocate_channel_id. intros Hf id Hid. apply channel_ids_range in Hid.
  apply list_elem_of_In in Hid. pose proof (List.find_none _ _ Hf _ Hid) as Hn.
  apply bool_decide_eq_false_1 in Hn. by apply not_eq_None_Some.
Qed.

(** A computation that starts by reading the state may assume the invariant of
    what it read. *)
Lemma keeps_read {A} (f : TunnelServer → M A) :
  (∀ srv, server_inv srv → preserves keeps_inv (f srv)) → preserves keeps_inv (gets id ≫= f).
Proof. intros Hf s Hs. exact (Hf s Hs s Hs). Qed.
Lemma keeps_set_session ch c :
  session_ok ch c → preserves keeps_inv (modify (set_session ch c) : M unit).
Proof. intros Hc. apply keeps_modify. intros s. by apply inv_set_session. Qed.

Lemma session_ok_new now ch l : 1 ≤ ch ≤ 255 → session_ok ch (ClientSession_new now ch l).
Proof. intros Hch. unfold session_ok, u8_ok. cbn. lia. Qed.
Lemma session_ok_touch now ch c : session_ok ch c → session_ok ch (ClientSession_touch now c).
Proof. done. Qed.
Lemma session_ok_pending p ch c : session_ok ch c → session_ok ch (set_pending p c).
Proof. done. Qed.
Lemma session_ok_send_seq n ch c : session_ok ch c → session_ok ch (set_send_seq (as_u8 n) c).
Proof. intros (Hid & Hch & _ & Hr). repeat (split; [first [done|apply as_u8_ok]|]). done. Qed.
Lemma session_ok_validate r ch c :
  session_ok ch c → session_ok ch (ClientSession_validate_recv_seq r c).2.
Proof.
  intros Hc. unfold ClientSession_validate_recv_seq.
  destruct (_ =? _); [|by destruct (_ =? _)].
  destruct Hc as (Hid & Hch & Hs & _). by repeat (split; [done|]); apply as_u8_ok.
Qed.

Lemma connect_keeps b l : preserves keeps_inv (handle_connect_request b l).
Proof.
  unfold handle_connect_request. preserves_step; [by_preserves|]. cbn zeta.
  apply keeps_read. intros srv _.
  destruct (allocate_channel_id (sessions srv)) as [ch|] eqn:E; [|repeat preserves_step].
  apply allocate_Some in E as [Hch _].
  apply preserves_bind; [apply _|by apply keeps_set_session, session_ok_new|].
  intros _. repeat preserves_step.
Qed.
Lemma tunnelling_request_keeps b l : preserves keeps_inv (handle_tunnelling_request b l).
Proof.
  unfold handle_tunnelling_request. preserves_step; [by_preserves|].
  apply keeps_read. intros srv Hinv.
  destruct (sessions srv !! treq_channel_id a) as [c|] eqn:E; [|by_preserves].
  pose proof (session_ok_validate (treq_sequence_counter a) _ _
    (session_ok_touch (server_clock srv) _ _ (inv_lookup _ _ _ Hinv E))) as Hok.
  destruct (ClientSession_validate_recv_seq _ _) as [v c'].
  apply preserves_bind; [apply _|by apply keeps_set_session|].
  intros _. cbn zeta. repeat preserves_step.
Qed.
Lemma tunnelling_ack_keeps b : preserves keeps_inv (handle_tunnelling_ack b).
Proof.
  unfold handle_tunnelling_ack. preserves_step; [by_preserves|].
  apply keeps_read. intros srv Hinv.
  destruct (sessions srv !! ack_channel_id a) as [c|] eqn:E; [|by_preserves].
  destruct (pending_ack c); [|by_preserves]. apply keeps_modify. intros s Hs.
  apply (inv_set_session _ _ s); [|done]. by apply session_ok_pending, (inv_lookup _ _ srv).
Qed.
Lemma connectionstate_keeps b l : preserves keeps_inv (handle_connectionstate_request b l).
Proof.
  unfold handle_connectionstate_request. preserves_step; [by_preserves|].
  apply keeps_read. intros srv Hinv.
  apply preserves_bind; [apply _| |intros [st rl]; by_preserves].
  destruct (sessions srv !! csreq_channel_id a) as [c|] eqn:E; [|by_preserves].
  apply preserves_bind; [apply _| |intros _; by_preserves].
  apply keeps_set_session, session_ok_touch. by apply (inv_lookup _ _ srv).
Qed.
Lemma disconnect_keeps b l : preserves keeps_inv (handle_disconnect_request b l).
Proof. unfold handle_disconnect_request. cbn zeta. repeat preserves_step. Qed.
#[local] Hint Resolve connect_keeps tunnelling_request_keeps tunnelling_ack_keeps
  connectionstate_keeps disconnect_keeps : preserves.

Lemma handle_frame_keeps d l : preserves keeps_inv (handle_frame d l).
Proof. unfold handle_frame, dispatch_plain_frame. repeat preserves_step. Qed.
#[local] Hint Resolve handle_frame_keeps : preserves.
Lemma udp_loop_keeps ps : preserves keeps_inv (udp_dispatch_loop ps).
Proof. induction ps as [|[peer d] ps IH]; cbn [udp_dispatch_loop]; repeat preserves_step. Qed.
Lemma tcp_client_keeps l fs : preserves keeps_inv (tcp_client l fs).
Proof.
  unfold tcp_client. apply preserves_bind; [apply _| |intros ?; repeat preserves_step].
  generalize (@None Z). induction fs as [|d fs IH]; intros a; cbn [tcp_client_loop]; repeat preserves_step.
Qed.

Lemma update_session_keeps ch f :
  (∀ c, session_ok ch c → session_ok ch (f c)) → preserves keeps_inv (update_session ch f).
Proof.
  intros Hf. apply keeps_modify. intros s Hs. destruct (sessions s !! ch) as [c|] eqn:E; [|done].
  apply inv_set_session; [|done]. by apply Hf, (inv_lookup _ _ s).
Qed.
Lemma send_attempts_keeps n ch l f seq answers :
  preserves keeps_inv (send_attempts n ch l f seq answers).
Proof.
  revert answers. induction n as [|n IH]; intros answers; cbn [send_attempts]; [by_preserves|].
  preserves_step; [by_preserves|].
  apply preserves_bind; [apply _|by apply keeps_same_sessions|intros _].
  apply preserves_bind; [apply _|apply update_session_keeps; by intros; apply session_ok_pending|intros _].
  preserves_step; [by_preserves|].
  destruct (head answers) as [[ack|]|]; [|apply IH..].
  apply preserves_bind; [apply _|apply update_session_keeps; by intros; apply session_ok_pending|intros _].
  destruct (_ =? _); [|by_preserves].
  apply update_session_keeps. intros c. apply session_ok_send_seq.
Qed.
#[local] Hint Resolve send_attempts_keeps : preserves.
Lemma send_to_all_keeps cs t answers : preserves keeps_inv (send_to_all cs t answers).
Proof.
  induction cs as [|c cs IH]; cbn [send_to_all]; unfold send_to_session; repeat preserves_step.
Qed.
Lemma evict_inv ids s : server_inv s → server_inv (evict ids s).
Proof. intros Hs. induction ids as [|id ids IH]; [done|]. by apply inv_remove_session. Qed.
End invariant.

(** * A panic in the dispatch loop *)

(** One datagram from anyone stops the server's UDP side: a valid header
    that declares a total length below 6 makes the dispatch loop panic, and
    none of the datagrams after it is handled. *)
Theorem server_short_length_kills_dispatch `{Profile} peer d h packets s :
  bytes_ok d → (length d ≤ 1024)%nat → KnxIpHeader_parse d = Ok h → total_length h < 6 →
  shutdown s = false →
  udp_dispatch_loop ((peer, d) :: packets) s = (Panic, s).
Proof.
  intros Hb Hl Hh Ht Hsd. cbn [udp_dispatch_loop]. rewrite eff_bind_run. cbn [gets]. rewrite Hsd.
  rewrite take_ge by done. rewrite eff_bind_run. unfold attempt, handle_frame.
  rewrite eff_bind_run. cbn [lift]. by rewrite (short_length_panics d h).
Qed.
