(* ===== verification/ServerBehaviour.v ===== *)
(** The behaviour of the tunnelling server of [Server]: what each handler does
    on every branch, exactly-once delivery over the dispatch loop, sending and
    broadcasting with acknowledgements, eviction, and the invariant of every
    execution. *)
From stdpp Require Import relations.
From S2P Require Import Prelude Errors Address Apdu Telegram Cemi KnxIp TunnelCore Server.

(** * Executions *)
Definition advance_clock (dt : Z) (s : TunnelServer) : TunnelServer :=
  MkTunnelServer (server_addr s) (server_individual_address s) (sessions s) (shutdown s)
    (server_clock s + dt) (next_oneshot s) (acks s) (published s) (sent s) (send_faults s).

(** What the server's tasks do to its state: handle one received frame, drop
    the channel of a closed TCP stream, evict the channels an earlier sweep
    found stale, send a telegram, shut down; time passes. *)
Inductive server_step `{Profile} : TunnelServer → TunnelServer → Prop :=
| step_frame d l s : server_step s (handle_frame d l s).2
| step_close ch s : server_step s (remove_session ch s)
| step_evict ids s : server_step s (evict ids s)
| step_send t answers s : server_step s (TunnelServer_send t answers s).2
| step_shutdown s : server_step s (TunnelServer_shutdown s)
| step_time dt s : 0 ≤ dt → server_step s (advance_clock dt s).

(** * The behaviour of the handlers *)

(** The bytes of a frame, and the acknowledgement a verdict deserves. *)
Definition frame_bytes (svc : ServiceType.ServiceType) (b : list Z) : list Z :=
  KnxIpFrame_serialize (MkKnxIpFrame (MkKnxIpHeader 6 0x10 svc (6 + Z.of_nat (length b))) b).
Definition ack_for (v : SequenceValidationResult) (ch seq : Z) : TunnellingAck :=
  match v with
  | Valid | Duplicate => TunnellingAck_new_ok ch seq
  | Invalid _ _ => TunnellingAck_new_sequence_error ch seq
  end.
Definition deliver (v : SequenceValidationResult) (cemi : list Z) (s : TunnelServer) : TunnelServer :=
  match v, parse_cemi_to_telegram (server_clock s) cemi with
  | Valid, Ok t => publish t s
  | _, _ => s
  end.
(** The next send succeeds; every send succeeds. *)
Definition socket_ready (s : TunnelServer) : Prop := default None (head (send_faults s)) = None.
Definition sent_ok (l : ClientLink) (f : list Z) (s : TunnelServer) : TunnelServer :=
  log_sent l f (set_faults (tail (send_faults s)) s).

Section behaviour.
Context `{Profile}.
Implicit Types s : TunnelServer.

Lemma frame_bytes_parse svc b :
  Z.of_nat (length b) ≤ 65529 →
  ∃ f, KnxIpFrame_parse (frame_bytes svc b) = Ok f ∧ service_type (header f) = svc ∧ body f = b.
Proof.
  intros Hb. eexists. rewrite <-(app_nil_r (frame_bytes svc b)).
  split; [by apply KnxIpFrame_parse_serialized|done].
Qed.

Lemma send_frame_run l f s :
  socket_ready s → ClientLink_send_frame l f s = (Ok tt, sent_ok l f s).
Proof. intros Hs. unfold ClientLink_send_frame, gets, modify, mbind, eff_bind. by rewrite Hs. Qed.
Lemma send_frame_fault l f e s :
  head (send_faults s) = Some (Some e) →
  ∃ err, ClientLink_send_frame l f s = (Err err, set_faults (tail (send_faults s)) s).
Proof.
  intros Hs. eexists. unfold ClientLink_send_frame, gets, modify, mbind, eff_bind.
  by rewrite Hs.
Qed.
Lemma send_reply_run svc b l s :
  Z.of_nat (length b) ≤ 65529 → socket_ready s →
  send_reply svc b l s = (Ok tt, sent_ok l (frame_bytes svc b) s).
Proof.
  intros Hb Hs. unfold send_reply. rewrite KnxIpFrame_new_Ok by done. by apply send_frame_run.
Qed.
Lemma send_reply_fault svc b l e s :
  Z.of_nat (length b) ≤ 65529 → head (send_faults s) = Some (Some e) →
  ∃ err, send_reply svc b l s = (Err err, set_faults (tail (send_faults s)) s).
Proof.
  intros Hb Hs. unfold send_reply. rewrite KnxIpFrame_new_Ok by done.
  exact (send_frame_fault l _ e s Hs).
Qed.

(** Requests reach their handler. *)
Lemma handle_frame_run svc b l s :
  Z.of_nat (length b) ≤ 65529 →
  handle_frame (frame_bytes svc b) l s =
  dispatch_plain_frame (MkKnxIpFrame (MkKnxIpHeader 6 0x10 svc (6 + Z.of_nat (length b))) b) l s.
Proof.
  intros Hb. unfold handle_frame. rewrite <-(app_nil_r (frame_bytes svc b)).
  unfold frame_bytes. by rewrite KnxIpFrame_parse_serialized.
Qed.

Lemma find_least (m : gmap Z ClientSession) ch :
  allocate_channel_id m = Some ch → ∀ id, 1 ≤ id < ch → is_Some (m !! id).
Proof.
  unfold allocate_channel_id, channel_ids. intros Hf id Hid.
  assert (∀ i n, List.find (λ id, bool_decide (m !! id = None)) (Z.of_nat <$> seq i n) = Some ch →
    Z.of_nat i ≤ id → is_Some (m !! id)) as Hgen; [|apply (Hgen _ _ Hf); lia].
  clear Hf. intros i n. revert i. induction n as [|n IH]; intros i; [done|].
  cbn [seq fmap list_fmap List.find]. case_bool_decide as Hi; [intros [= <-]; lia|].
  intros Hf Hle. destruct (decide (id = Z.of_nat i)) as [->|]; [by apply not_eq_None_Some|].
  apply (IH _ Hf). lia.
Qed.

(** The valid branch and the others of a tunnelling request. *)
Lemma tunnelling_request_run b l req c v c' s :
  TunnellingRequest_parse b = Ok req → sessions s !! treq_channel_id req = Some c →
  ClientSession_validate_recv_seq (treq_sequence_counter req)
    (ClientSession_touch (server_clock s) c) = (v, c') →
  socket_ready s →
  handle_tunnelling_request b l s =
    (Ok tt, deliver v (raw_cemi req) (sent_ok (link c')
       (frame_bytes ServiceType.TunnellingAck (TunnellingAck_serialize
          (ack_for v (treq_channel_id req) (treq_sequence_counter req))))
       (set_session (treq_channel_id req) c' s))).
Proof.
  intros Hp Hs Hv Hr. unfold handle_tunnelling_request. rewrite Hp.
  rewrite eff_bind_run. cbn [lift]. rewrite eff_bind_run. cbn [gets id]. rewrite Hs, Hv.
  rewrite eff_bind_run. cbn [modify]. cbn zeta.
  destruct v; cbn [deliver ack_for];
    [rewrite eff_bind_run| |]; rewrite send_reply_run by (done || cbn; lia); [|done..].
  unfold deliver. cbn [server_clock sent_ok log_sent set_faults set_session set_sessions].
  pose proof (CemiFrame_parse_total (raw_cemi req)) as Hnp. unfold parse_cemi_to_telegram.
  by destruct (CemiFrame_parse (raw_cemi req)).
Qed.
Lemma tunnelling_request_fault b l req c c' e s :
  TunnellingRequest_parse b = Ok req → sessions s !! treq_channel_id req = Some c →
  ClientSession_validate_recv_seq (treq_sequence_counter req)
    (ClientSession_touch (server_clock s) c) = (Valid, c') →
  head (send_faults s) = Some (Some e) →
  ∃ err, handle_tunnelling_request b l s =
    (Err err, set_faults (tail (send_faults s)) (set_session (treq_channel_id req) c' s)).
Proof.
  intros Hp Hs Hv Hr. unfold handle_tunnelling_request. rewrite Hp.
  rewrite eff_bind_run. cbn [lift]. rewrite eff_bind_run. cbn [gets id]. rewrite Hs, Hv.
  rewrite eff_bind_run. cbn [modify]. cbn zeta. rewrite eff_bind_run.
  edestruct (send_reply_fault ServiceType.TunnellingAck (TunnellingAck_serialize
    (TunnellingAck_new_ok (treq_channel_id req) (treq_sequence_counter req))) (link c') e
    (set_session (treq_channel_id req) c' s)) as [err ->]; [cbn; lia|done|]. by exists err.
Qed.
End behaviour.

(** * Exactly-once delivery *)

(** The datagrams of a client that numbers its requests from [seq] and
    transmits each one [S n] times, and the acknowledgements they deserve. *)
Definition request_datagram (ch seq : Z) (cemi : list Z) : list Z :=
  frame_bytes ServiceType.TunnellingRequest (TunnellingRequest_serialize (TunnellingRequest_new ch seq cemi)).
Definition ok_ack (ch seq : Z) : list Z :=
  frame_bytes ServiceType.TunnellingAck (TunnellingAck_serialize (TunnellingAck_new_ok ch seq)).
Fixpoint client_datagrams (peer : SocketAddr) (ch seq : Z) (reqs : list (nat * list Z))
    : list (SocketAddr * list Z) :=
  match reqs with
  | [] => []
  | (n, cemi) :: reqs =>
      replicate (S n) (peer, request_datagram ch seq cemi)
      ++ client_datagrams peer ch (as_u8 (seq + 1)) reqs
  end.
Fixpoint client_acks (l : ClientLink) (ch seq : Z) (reqs : list (nat * list Z))
    : list (ClientLink * list Z) :=
  match reqs with
  | [] => []
  | (n, _) :: reqs => replicate (S n) (l, ok_ack ch seq) ++ client_acks l ch (as_u8 (seq + 1)) reqs
  end.
Definition telegrams (now : Z) (reqs : list (nat * list Z)) : list Telegram :=
  omap (λ p, result_ok (parse_cemi_to_telegram now p.2)) reqs.

(** Channel [ch] of a running server with a working socket expects [seq]. *)
Definition expects (ch : Z) (l : ClientLink) (seq : Z) (s : TunnelServer) : Prop :=
  (∃ c, sessions s !! ch = Some c ∧ link c = l ∧ recv_seq c = seq) ∧
  shutdown s = false ∧ send_faults s = [].

Section exactly_once.
Context `{Profile} (ch : Z) (l : ClientLink) (peer : SocketAddr).
Implicit Types s : TunnelServer.

Lemma length_request_datagram seq cemi :
  length (request_datagram ch seq cemi) = (10 + length cemi)%nat.
Proof. done. Qed.

Lemma loop_request seq n cemi rest s :
  expects ch l n s → Z.of_nat (length cemi) ≤ 1014 →
  ∃ c v c', sessions s !! ch = Some c ∧
    ClientSession_validate_recv_seq seq (ClientSession_touch (server_clock s) c) = (v, c') ∧
    udp_dispatch_loop ((peer, request_datagram ch seq cemi) :: rest) s =
    udp_dispatch_loop rest (deliver v cemi (sent_ok (link c')
      (frame_bytes ServiceType.TunnellingAck (TunnellingAck_serialize (ack_for v ch seq)))
      (set_session ch c' s))).
Proof.
  intros ((c & Hc & Hl & Hr) & Hsd & Hf) Hlen.
  destruct (ClientSession_validate_recv_seq seq (ClientSession_touch (server_clock s) c))
    as [v c'] eqn:Hv.
  exists c, v, c'. split_and!; [done..|]. cbn [udp_dispatch_loop].
  rewrite eff_bind_run. cbn [gets]. rewrite Hsd, eff_bind_run. unfold attempt.
  rewrite take_ge by (rewrite length_request_datagram; lia). unfold request_datagram.
  rewrite handle_frame_run by (simpl; lia).
  unfold dispatch_plain_frame. cbn [header service_type body]. rewrite eff_bind_run.
  erewrite (tunnelling_request_run _ _ (TunnellingRequest_new ch seq cemi));
    [done|by apply TunnellingRequest_roundtrip|exact Hc|exact Hv|].
  unfold socket_ready. by rewrite Hf.
Qed.

Lemma deliver_fields v cemi s :
  sessions (deliver v cemi s) = sessions s ∧ shutdown (deliver v cemi s) = shutdown s ∧
  send_faults (deliver v cemi s) = send_faults s ∧ sent (deliver v cemi s) = sent s ∧
  server_clock (deliver v cemi s) = server_clock s.
Proof. unfold deliver. destruct v; [|done..]. by destruct (parse_cemi_to_telegram _ _). Qed.

Lemma expects_step v cemi f n n' c' s :
  expects ch l n s → link c' = l → recv_seq c' = n' →
  expects ch l n' (deliver v cemi (sent_ok (link c') f (set_session ch c' s))).
Proof.
  intros (_ & Hsd & Hf) Hl Hn. destruct (deliver_fields v cemi (sent_ok (link c') f (set_session ch c' s)))
    as (Es & Esd & Ef & _). unfold expects. rewrite Es, Esd, Ef. cbn. rewrite Hf.
  split; [|done]. exists c'. by rewrite lookup_insert_eq.
Qed.

(** A new request is delivered, a repetition is acknowledged and dropped. *)
Lemma loop_new n cemi rest s :
  expects ch l n s → Z.of_nat (length cemi) ≤ 1014 →
  ∃ s', udp_dispatch_loop ((peer, request_datagram ch n cemi) :: rest) s = udp_dispatch_loop rest s' ∧
    expects ch l (as_u8 (n + 1)) s' ∧ sent s' = sent s ++ [(l, ok_ack ch n)] ∧
    published s' = published s ++ telegrams (server_clock s) [(0%nat, cemi)] ∧
    server_clock s' = server_clock s.
Proof.
  intros He Hlen. destruct (loop_request n n cemi rest s He Hlen) as (c & v & c' & Hc & Hv & ->).
  pose proof He as ((c0 & Hc0 & Hl & Hr) & _). rewrite Hc in Hc0. injection Hc0 as <-.
  unfold ClientSession_validate_recv_seq in Hv. cbn in Hv. rewrite Hr, Z.eqb_refl in Hv.
  injection Hv as <- <-. eexists. split; [done|].
  split; [by apply (expects_step _ _ _ _ _ _ _ He)|].
  unfold deliver, telegrams. cbn. rewrite Hl. destruct (parse_cemi_to_telegram _ _); cbn;
    by rewrite ?app_nil_r.
Qed.
Lemma loop_repeats n k cemi rest s :
  u8_ok n → expects ch l (as_u8 (n + 1)) s → Z.of_nat (length cemi) ≤ 1014 →
  ∃ s', udp_dispatch_loop (replicate k (peer, request_datagram ch n cemi) ++ rest) s =
      udp_dispatch_loop rest s' ∧
    expects ch l (as_u8 (n + 1)) s' ∧ sent s' = sent s ++ replicate k (l, ok_ack ch n) ∧
    published s' = published s ∧ server_clock s' = server_clock s.
Proof.
  intros Hn He Hlen. revert s He. induction k as [|k IH]; intros s He.
  { exists s. by rewrite app_nil_r. }
  cbn [replicate app]. destruct (loop_request n _ cemi (replicate k (peer, request_datagram ch n cemi) ++ rest) s He Hlen)
    as (c & v & c' & Hc & Hv & ->).
  pose proof He as ((c0 & Hc0 & Hl & Hr) & _). rewrite Hc in Hc0. injection Hc0 as <-.
  unfold ClientSession_validate_recv_seq in Hv. cbn in Hv. rewrite Hr in Hv.
  rewrite (proj2 (Z.eqb_neq _ _)) in Hv by (unfold as_u8, u8_ok in *; zlia).
  rewrite as_u8_pred_succ, Z.eqb_refl in Hv by done. injection Hv as <- <-.
  edestruct IH as (s' & -> & He' & Hs & Hp & Hk); [|exists s'; split; [done|]].
  - by apply (expects_step Duplicate cemi _ _ _ _ _ He).
  - split; [done|]. rewrite Hs, Hp, Hk. cbn. by rewrite Hl, <-app_assoc.
Qed.

Lemma loop_exactly_once n reqs s :
  u8_ok n → expects ch l n s → Forall (λ p, Z.of_nat (length p.2) ≤ 1014) reqs →
  ∃ s', udp_dispatch_loop (client_datagrams peer ch n reqs) s = (Ok tt, s') ∧
    published s' = published s ++ telegrams (server_clock s) reqs ∧
    sent s' = sent s ++ client_acks l ch n reqs.
Proof.
  revert n s. induction reqs as [|[k cemi] reqs IH]; intros n s Hn He Hr.
  { exists s. cbn. by rewrite !app_nil_r. }
  apply Forall_cons in Hr as [Hc Hr]. cbn [client_datagrams client_acks replicate].
  rewrite <-!app_comm_cons.
  destruct (loop_new n cemi (replicate k (peer, request_datagram ch n cemi)
    ++ client_datagrams peer ch (as_u8 (n + 1)) reqs) s He Hc) as (s1 & -> & He1 & Hs1 & Hp1 & Hk1).
  destruct (loop_repeats n k cemi (client_datagrams peer ch (as_u8 (n + 1)) reqs) s1 Hn He1 Hc)
    as (s2 & -> & He2 & Hs2 & Hp2 & Hk2).
  destruct (IH (as_u8 (n + 1)) s2 (as_u8_ok _) He2 Hr) as (s3 & -> & Hp3 & Hs3).
  exists s3. split; [done|]. split.
  - rewrite Hp3, Hp2, Hp1, Hk2, Hk1, <-app_assoc. f_equal. unfold telegrams. cbn.
    by destruct (result_ok _).
  - rewrite Hs3, Hs2, Hs1. by rewrite <-!app_assoc.
Qed.
End exactly_once.

(** * Sending *)

(** Whether the answers to at most two transmissions acknowledge the request,
    and how many transmissions that takes. *)
Definition acked (answers : list (option TunnellingAck)) : bool :=
  match answers with
  | Some a :: _ | None :: Some a :: _ => ack_status_code a =? ACK_STATUS_OK
  | _ => false
  end.
Definition transmissions (answers : list (option TunnellingAck)) : nat :=
  match answers with Some _ :: _ => 1 | _ => 2 end.
(** The payload fits the one-byte length of a CEMI frame. *)
Definition telegram_fits (t : Telegram) : Prop := Z.of_nat (length (payload t)) ≤ 254.

(** What [k] transmissions of [f] to [c] leave behind. *)
Definition after_sending (c c' : ClientSession) (f : list Z) (k : nat) (s s' : TunnelServer) : Prop :=
  sessions s' = <[session_channel_id c := c']> (sessions s) ∧
  sent s' = sent s ++ replicate k (link c, f) ∧ send_faults s' = [] ∧
  published s' = published s ∧ session_channel_id c' = session_channel_id c ∧ link c' = link c.

Section sending.
Context `{Profile}.
Implicit Types (s : TunnelServer) (c : ClientSession).

Lemma update_session_run ch f c s :
  sessions s !! ch = Some c → update_session ch f s = (Ok tt, set_session ch (f c) s).
Proof. intros Hc. unfold update_session, modify. by rewrite Hc. Qed.

(** One transmission, up to the point where its answer is known. *)
Lemma transmit_run n l f seq answers c s :
  sessions s !! session_channel_id c = Some c → send_faults s = [] →
  ∃ s1, sessions s1 !! session_channel_id c = Some (set_pending (Some (next_oneshot s)) c) ∧
    after_sending c (set_pending (Some (next_oneshot s)) c) f 1 s s1 ∧
    (l = link c →
    send_attempts (S n) (session_channel_id c) l f seq answers s =
    match head answers with
    | Some (Some ack) =>
        (_ ← update_session (session_channel_id c) (set_pending None);
         if ack_status_code ack =? ACK_STATUS_OK
         then update_session (session_channel_id c) (set_send_seq (as_u8 (seq + 1)))
         else throw (Transport (TransportInvalidConfiguration "client rejected TunnellingRequest"))) s1
    | _ => send_attempts n (session_channel_id c) l f seq (tail answers) s1
    end).
Proof.
  intros Hc Hf.
  set (s0 := set_session (session_channel_id c) (set_pending (Some (next_oneshot s)) c)
               (set_oneshot (S (next_oneshot s)) (acks s) s)).
  exists (sent_ok (link c) f s0). split_and!; [by apply lookup_insert_eq| |].
  - unfold after_sending. cbn. by rewrite Hf.
  - intros ->. cbn [send_attempts]. rewrite eff_bind_run. cbn [gets].
    rewrite eff_bind_run. cbn [modify]. rewrite eff_bind_run.
    rewrite (update_session_run _ _ c) by done. fold s0. rewrite eff_bind_run.
    rewrite send_frame_run by (unfold socket_ready, s0; cbn; by rewrite Hf).
    by destruct (head answers) as [[ack|]|].
Qed.

Lemma after_sending_trans c c1 c2 f j k s s1 s2 :
  after_sending c c1 f j s s1 → after_sending c1 c2 f k s1 s2 → after_sending c c2 f (j + k) s s2.
Proof.
  intros (Hs1 & Ht1 & _ & Hp1 & Hi1 & Hl1) (Hs2 & Ht2 & Hf2 & Hp2 & Hi2 & Hl2).
  unfold after_sending. rewrite Hs2, Hs1, Ht2, Ht1, Hp2, Hp1, Hi2, Hi1, Hl2, Hl1.
  rewrite insert_insert_eq, replicate_add, app_assoc. done.
Qed.
Lemma after_set c c' f s :
  session_channel_id c' = session_channel_id c → link c' = link c → send_faults s = [] →
  after_sending c c' f 0 s (set_session (session_channel_id c) c' s).
Proof. intros Hi Hl Hf. unfold after_sending. cbn. by rewrite app_nil_r. Qed.

(** The end of a send that left [c] as [c']. *)
Definition send_result (ok : bool) (seq : Z) (c c' : ClientSession) (r : outcome KnxError unit) : Prop :=
  recv_seq c' = recv_seq c ∧
  if ok then r = Ok tt ∧ send_seq c' = as_u8 (seq + 1)
  else (∃ e, r = Err e) ∧ send_seq c' = send_seq c.

Lemma answered_run f seq ack c s :
  sessions s !! session_channel_id c = Some c → send_faults s = [] →
  ∃ r c' s', (_ ← update_session (session_channel_id c) (set_pending None);
     if ack_status_code ack =? ACK_STATUS_OK
     then update_session (session_channel_id c) (set_send_seq (as_u8 (seq + 1)))
     else throw (Transport (TransportInvalidConfiguration "client rejected TunnellingRequest"))) s
      = (r, s') ∧
    after_sending c c' f 0 s s' ∧ send_result (ack_status_code ack =? ACK_STATUS_OK) seq c c' r.
Proof.
  intros Hc Hf. rewrite eff_bind_run, (update_session_run _ _ c) by done.
  set (c1 := set_pending None c). set (s1 := set_session (session_channel_id c) c1 s).
  assert (after_sending c c1 f 0 s s1) as Ha by by apply after_set.
  assert (sessions s1 !! session_channel_id c1 = Some c1) as H1 by apply lookup_insert_eq.
  destruct (_ =? _).
  - change (session_channel_id c) with (session_channel_id c1).
    rewrite (update_session_run _ _ c1) by done.
    eexists _, (set_send_seq (as_u8 (seq + 1)) c1), _. split; [done|]. split; [|done].
    eapply (after_sending_trans _ _ _ _ 0 0); [exact Ha|]. by apply after_set.
  - eexists _, c1, s1. split; [done|]. split; [done|]. split; [done|]. split; [by eexists|done].
Qed.

Lemma send_attempts_run f seq answers c s :
  sessions s !! session_channel_id c = Some c → send_faults s = [] →
  ∃ r c' s', send_attempts 2 (session_channel_id c) (link c) f seq answers s = (r, s') ∧
    after_sending c c' f (transmissions answers) s s' ∧ send_result (acked answers) seq c c' r.
Proof.
  intros Hc Hf. destruct (transmit_run 1 (link c) f seq answers c s Hc Hf) as (s1 & Hc1 & Ha1 & E1).
  rewrite E1 by done. set (c1 := set_pending _ c) in *. pose proof Ha1 as (_ & _ & Hf1 & _).
  destruct answers as [|[a|] answers]; cbn [head tail hd_error tl].
  2: { destruct (answered_run f seq a c1 s1 Hc1 Hf1) as (r & c' & s' & Er & Ha & Hr).
       exists r, c', s'. split; [exact Er|]. split; [|exact Hr].
       exact (after_sending_trans c c1 c' f 1 0 s s1 s' Ha1 Ha). }
  all: match goal with |- context [send_attempts 1 _ _ _ _ ?ans] =>
    destruct (transmit_run 0 (link c) f seq ans c1 s1 Hc1 Hf1) as (s2 & Hc2 & Ha2 & E2) end.
  all: change (session_channel_id c1) with (session_channel_id c) in E2; rewrite E2 by done.
  all: pose proof Ha2 as (_ & _ & Hf2 & _);
    pose proof (after_sending_trans c c1 _ f 1 1 s s1 s2 Ha1 Ha2) as Ha.
  - eexists _, _, _. split; [done|]. split; [exact Ha|]. split; [done|]. split; [by eexists|done].
  - destruct answers as [|[a|] answers]; cbn [head tail hd_error tl].
    2: { destruct (answered_run f seq a (set_pending (Some (next_oneshot s1)) c1) s2 Hc2 Hf2) as (r & c' & s' & Er & Ha' & Hr).
         exists r, c', s'. split; [exact Er|]. split; [|exact Hr].
         exact (after_sending_trans _ _ c' f 2 0 s s2 s' Ha Ha'). }
    all: eexists _, _, _; split; [done|]; split; [exact Ha|]; split; [done|]; split; [by eexists|done].
Qed.

(** The service and the CEMI frame [TunnelServer::send] makes of a telegram. *)
Definition sent_service (t : Telegram) : GroupValueService :=
  match payload t with [] => Read | p => Write p end.
Definition sent_cemi (t : Telegram) (code : MessageCode) : list Z :=
  CemiFrame_serialize (CemiFrame_new code (source t) (destination t)
    (GroupValueService_encode (sent_service t))).

Lemma sent_cemi_length t code : telegram_fits t → Z.of_nat (length (sent_cemi t code)) ≤ 265.
Proof.
  unfold telegram_fits, sent_cemi, sent_service. intros Ht.
  cbn -[GroupValueService_encode]. destruct (0 <? _); [|simpl; lia].
  destruct (payload t) as [|b p]; [simpl; lia|]. cbn [GroupValueService_encode].
  unfold encode_payload. destruct (_ <=? _)%nat; simpl in *; lia.
Qed.
Lemma length_request ch seq cemi :
  length (TunnellingRequest_serialize (TunnellingRequest_new ch seq cemi)) = (4 + length cemi)%nat.
Proof. done. Qed.
Lemma build_frame_bytes t ch seq code :
  telegram_fits t →
  build_tunnelling_frame_with_code t ch seq code = Ok (request_datagram ch seq (sent_cemi t code)).
Proof.
  intros Ht%(sent_cemi_length t code). unfold build_tunnelling_frame_with_code.
  fold (sent_service t). cbn zeta. fold (sent_cemi t code).
  rewrite KnxIpFrame_new_Ok; [done|]. rewrite length_request. lia.
Qed.

Lemma send_to_session_run t answers c s :
  sessions s !! session_channel_id c = Some c → send_faults s = [] → telegram_fits t →
  ∃ f r c' s', build_tunnelling_frame_with_code t (session_channel_id c) (send_seq c) LDataInd = Ok f ∧
    send_to_session c t answers s = (r, s') ∧
    after_sending c c' f (transmissions answers) s s' ∧ send_result (acked answers) (send_seq c) c c' r.
Proof.
  intros Hc Hf Ht. pose proof (build_frame_bytes t (session_channel_id c) (send_seq c) LDataInd Ht) as Ef.
  set (f := request_datagram _ _ _) in Ef.
  destruct (send_attempts_run f (send_seq c) answers c s Hc Hf) as (r & c' & s' & Er & Ha & Hr).
  exists f, r, c', s'. split; [done|]. split; [|done]. unfold send_to_session. rewrite Ef. exact Er.
Qed.
End sending.

(** * Broadcasting and eviction *)
Section broadcast.
Context `{Profile} (t : Telegram) (answers : Z → list (option TunnellingAck)).
Implicit Types (s : TunnelServer) (c : ClientSession).

(** What a broadcast leaves of a session it sent to. *)
Definition broadcast_fate (c : ClientSession) (r : option ClientSession) : Prop :=
  if acked (answers (session_channel_id c))
  then ∃ c', r = Some c' ∧ send_seq c' = as_u8 (send_seq c + 1) ∧ recv_seq c' = recv_seq c ∧
             link c' = link c
  else r = None.

(** One session of a broadcast: every other one keeps its entry. *)
Lemma broadcast_one c cs s :
  sessions s !! session_channel_id c = Some c → send_faults s = [] → telegram_fits t →
  ∃ s', send_to_all (c :: cs) t answers s = send_to_all cs t answers s' ∧ send_faults s' = [] ∧
    broadcast_fate c (sessions s' !! session_channel_id c) ∧
    ∀ ch, ch ≠ session_channel_id c → sessions s' !! ch = sessions s !! ch.
Proof.
  intros Hc Hf Ht. cbn [send_to_all]. rewrite eff_bind_run. unfold attempt.
  destruct (send_to_session_run t (answers (session_channel_id c)) c s Hc Hf Ht)
    as (f & r & c' & s' & _ & -> & (Hs & _ & Hf' & _ & _ & Hl) & Hrecv & Hres).
  unfold broadcast_fate. destruct (acked _).
  - destruct Hres as [-> Hseq]. rewrite eff_bind_run. cbn. exists s'. rewrite Hs.
    split_and!; [done..| |].
    + exists c'. by rewrite lookup_insert_eq.
    + intros ch Hch. by rewrite lookup_insert_ne.
  - destruct Hres as [[e ->] _]. rewrite eff_bind_run. cbn [modify].
    exists (remove_session (session_channel_id c) s'). cbn. rewrite Hs.
    split_and!; [done..| |].
    + by rewrite lookup_delete_eq.
    + intros ch Hch. by rewrite lookup_delete_ne, lookup_insert_ne.
Qed.

Lemma broadcast_run cs s :
  NoDup (session_channel_id <$> cs) → (∀ c, c ∈ cs → sessions s !! session_channel_id c = Some c) →
  send_faults s = [] → telegram_fits t →
  ∃ s', send_to_all cs t answers s = (Ok tt, s') ∧
    (∀ c, c ∈ cs → broadcast_fate c (sessions s' !! session_channel_id c)) ∧
    (∀ ch, ch ∉ session_channel_id <$> cs → sessions s' !! ch = sessions s !! ch).
Proof.
  intros Hnd Hcs Hf Ht. revert s Hcs Hf. induction cs as [|c cs IH]; intros s Hcs Hf.
  { exists s. split; [done|]. split; [|done]. intros c Hc. by apply elem_of_nil in Hc. }
  cbn in Hnd. apply NoDup_cons in Hnd as [Hnin Hnd].
  destruct (broadcast_one c cs s (Hcs c (list_elem_of_here _ _)) Hf Ht) as (s1 & -> & Hf1 & Hfate & Hrest).
  destruct (IH Hnd s1) as (s2 & -> & Hin & Hout); [|done|].
  { intros c1 Hc1. rewrite Hrest; [by apply Hcs, list_elem_of_further|].
    intros Heq. apply Hnin. rewrite <-Heq. by apply list_elem_of_fmap_2. }
  exists s2. split; [done|]. split.
  - intros c1 [->|Hc1]%elem_of_cons; [|by apply Hin]. by rewrite (Hout _ Hnin).
  - cbn. intros ch [Hne Hni]%not_elem_of_cons. by rewrite Hout, Hrest.
Qed.
End broadcast.

(** Under the invariant the sessions listed by [values()] have distinct
    channel numbers and each is the one under its number. *)
Lemma sessions_values s :
  server_inv s →
  session_channel_id <$> (map_to_list (sessions s)).*2 = (map_to_list (sessions s)).*1 ∧
  ∀ c, c ∈ (map_to_list (sessions s)).*2 ↔ sessions s !! session_channel_id c = Some c.
Proof.
  intros Hinv. split.
  - rewrite <-list_fmap_compose. apply list_fmap_ext. intros i [ch c] Hi. cbn.
    apply list_elem_of_lookup_2, elem_of_map_to_list in Hi. by apply Hinv.
  - intros c. rewrite list_elem_of_fmap. split.
    + intros ([ch c'] & -> & Hc%elem_of_map_to_list). cbn. by rewrite (proj1 (Hinv _ _ Hc)).
    + intros Hc. exists (session_channel_id c, c). split; [done|]. by apply elem_of_map_to_list.
Qed.

Lemma evict_lookup ids ch s :
  sessions (evict ids s) !! ch = if decide (ch ∈ ids) then None else sessions s !! ch.
Proof.
  induction ids as [|id ids IH]; cbn [evict foldr]; [by rewrite decide_False by apply not_elem_of_nil|].
  cbn. destruct (decide (ch = id)) as [->|Hne].
  - rewrite lookup_delete_eq, decide_True by apply list_elem_of_here. done.
  - rewrite lookup_delete_ne by done. unfold evict in IH. rewrite IH.
    apply decide_ext. rewrite elem_of_cons. naive_solver.
Qed.
Lemma stale_ids_spec ch s :
  ch ∈ stale_ids s ↔
  ∃ c, sessions s !! ch = Some c ∧ ClientSession_is_stale (server_clock s) c = true.
Proof.
  unfold stale_ids. rewrite list_elem_of_fmap. split.
  - intros ([ch' c] & -> & Hc%elem_of_map_to_list). apply map_lookup_filter_Some in Hc as [Hc Hst].
    by exists c.
  - intros (c & Hc & Hst). exists (ch, c). split; [done|].
    apply elem_of_map_to_list, map_lookup_filter_Some. done.
Qed.

(** * Properties *)
Section properties.
Context `{Profile}.
Implicit Types (s : TunnelServer) (c : ClientSession).

Lemma server_step_inv s s' : server_step s s' → server_inv s → server_inv s'.
Proof.
  intros [d l s0|ch s0|ids s0|t answers s0|s0|dt s0 _]; try done.
  - exact (handle_frame_keeps d l s0).
  - apply inv_remove_session.
  - apply evict_inv.
  - exact (send_to_all_keeps _ t answers s0).
Qed.
Lemma server_inv_count s : server_inv s → (client_count s ≤ 255)%nat.
Proof.
  intros Hinv. unfold client_count. rewrite <-size_dom.
  transitivity (size (list_to_set channel_ids : gset Z)); [|vm_compute; lia].
  apply subseteq_size. intros ch [c Hc]%elem_of_dom.
  apply elem_of_list_to_set, channel_ids_range. by apply (Hinv ch c Hc).
Qed.

Lemma full_allocates_none s :
  server_inv s → client_count s = 255%nat → allocate_channel_id (sessions s) = None.
Proof.
  intros Hinv Hcount. destruct (allocate_channel_id (sessions s)) as [ch|] eqn:E; [|done].
  apply allocate_Some in E as [Hch Hn]. exfalso.
  assert (client_count (set_session ch (ClientSession_new 0 ch (UdpLink (server_addr s))) s) = 256%nat) as Hc.
  { unfold client_count in *. cbn. rewrite map_size_insert_None by done. by rewrite Hcount. }
  pose proof (server_inv_count _ (inv_set_session ch _ s (session_ok_new 0 ch (UdpLink (server_addr s)) Hch) Hinv)).
  lia.
Qed.
Lemma length_connect_response r : length (ConnectResponse_serialize r) = (10 + length (crd r))%nat.
Proof. unfold ConnectResponse_serialize. rewrite !length_app, length_Hpai_serialize. done. Qed.

(** The answer to a connect request that is granted, and the request's run. *)
Definition granted (ch : Z) (s : TunnelServer) : ConnectResponse :=
  MkConnectResponse ch CONNECT_STATUS_OK (Hpai_new (server_addr s))
    (build_tunnel_crd (server_individual_address s)) (Some (server_individual_address s)).
Lemma granted_run b l req ch s :
  ConnectRequest_parse b = Ok req → allocate_channel_id (sessions s) = Some ch → socket_ready s →
  let l' := resolve_link (creq_data_endpoint req) l in
  handle_connect_request b l s =
    (Ok (Some ch), sent_ok l' (frame_bytes ServiceType.ConnectResponse (ConnectResponse_serialize (granted ch s)))
                     (set_session ch (ClientSession_new (server_clock s) ch l') s)).
Proof.
  intros Hp Ha Hr l'. unfold handle_connect_request. rewrite Hp, eff_bind_run. cbn [lift]. cbn zeta. fold l'.
  rewrite eff_bind_run. cbn [gets id]. rewrite Ha, eff_bind_run. cbn [modify]. rewrite eff_bind_run.
  by rewrite send_reply_run by (done || (rewrite length_connect_response; simpl; lia)).
Qed.

Lemma granted_roundtrip ch s : Hpai_wf (Hpai_new (server_addr s)) →
  ConnectResponse_parse (ConnectResponse_serialize (granted ch s)) = Ok (granted ch s).
Proof.
  intros Hh. apply ConnectResponse_roundtrip. split_and!; [done| |done]. cbn. unfold IndividualAddress_from_raw. rewrite from_to_be16.
  by destruct (server_individual_address s).
Qed.

(** C21: In every execution of the server, whatever frames arrive, whoever sends
    them and whichever sends fail, each session sits under its own channel
    number, a number from 1 to 255, with byte-sized sequence counters; there
    are never more than 255 clients. *)
Theorem server_sessions_consistent addr ia now faults s :
  rtc server_step (TunnelServer_new addr ia now faults) s →
  (∀ ch c, sessions s !! ch = Some c →
     session_channel_id c = ch ∧ 1 ≤ ch ≤ 255 ∧ u8_ok (send_seq c) ∧ u8_ok (recv_seq c)) ∧
  (client_count s ≤ 255)%nat.
Proof.
  intros Hr. assert (server_inv s) as Hs; [|split; [exact Hs|by apply server_inv_count]].
  cut (server_inv (TunnelServer_new addr ia now faults)); [|apply map_Forall_empty].
  induction Hr as [|s1 s2 s3 H12 _ IH]; [done|]. intros Hinv.
  by apply IH, (server_step_inv s1).
Qed.

(** A connect request on a server with a free channel opens a session on
    the least free channel number, with both sequence counters at zero, leaves
    every other session alone, and answers with one frame from which the
    client reads that channel, status OK and the server's individual
    address. *)
Theorem server_connect_assigns b l req ch s :
  ConnectRequest_parse b = Ok req → allocate_channel_id (sessions s) = Some ch →
  Hpai_wf (Hpai_new (server_addr s)) → socket_ready s →
  let l' := resolve_link (creq_data_endpoint req) l in
  ∃ s' f g, handle_connect_request b l s = (Ok (Some ch), s') ∧
    sessions s !! ch = None ∧ 1 ≤ ch ≤ 255 ∧ (∀ id, 1 ≤ id < ch → is_Some (sessions s !! id)) ∧
    sessions s' = <[ch := ClientSession_new (server_clock s) ch l']> (sessions s) ∧
    sent s' = sent s ++ [(l', f)] ∧ KnxIpFrame_parse f = Ok g ∧
    service_type (header g) = ServiceType.ConnectResponse ∧
    ConnectResponse_parse (body g) =
      Ok (MkConnectResponse ch CONNECT_STATUS_OK (Hpai_new (server_addr s))
            (build_tunnel_crd (server_individual_address s)) (Some (server_individual_address s))).
Proof.
  intros Hp Ha Hh Hr l'. pose proof (allocate_Some _ _ Ha) as [Hch Hfree].
  pose proof (find_least _ _ Ha) as Hleast.
  set (resp := MkConnectResponse ch CONNECT_STATUS_OK (Hpai_new (server_addr s))
    (build_tunnel_crd (server_individual_address s)) (Some (server_individual_address s))).
  destruct (frame_bytes_parse ServiceType.ConnectResponse (ConnectResponse_serialize resp))
    as (g & Hg & Hsvc & Hbody); [rewrite length_connect_response; simpl; lia|].
  eexists _, _, g. split.
  - by apply granted_run.
  - split_and!; try first [exact Hleast|done|lia]. rewrite Hbody. by apply granted_roundtrip.
Qed.

(** When all 255 channels are taken a connect request is refused: no
    session changes, and the client reads channel 0 with status 0x24 (no more
    connections). *)
Theorem server_full_rejects b l req s :
  ConnectRequest_parse b = Ok req → server_inv s → client_count s = 255%nat → socket_ready s →
  let l' := resolve_link (creq_data_endpoint req) l in
  ∃ s' f g, handle_connect_request b l s = (Ok None, s') ∧ sessions s' = sessions s ∧
    sent s' = sent s ++ [(l', f)] ∧ KnxIpFrame_parse f = Ok g ∧
    service_type (header g) = ServiceType.ConnectResponse ∧
    ConnectResponse_parse (body g) =
      Ok (MkConnectResponse 0 STATUS_ERROR_NO_MORE_CONNECTIONS Hpai_route_back [] None).
Proof.
  intros Hp Hinv Hcount Hr l'.
  set (resp := MkConnectResponse 0 STATUS_ERROR_NO_MORE_CONNECTIONS (Hpai_new (server_addr s)) [] None).
  destruct (frame_bytes_parse ServiceType.ConnectResponse (ConnectResponse_serialize resp))
    as (g & Hg & Hsvc & Hbody); [rewrite length_connect_response; simpl; lia|].
  eexists _, _, g. split.
  - unfold handle_connect_request. rewrite Hp, eff_bind_run. cbn [lift]. cbn zeta. fold l'.
    rewrite eff_bind_run. cbn [gets id]. rewrite full_allocates_none by done. rewrite eff_bind_run.
    fold resp. rewrite send_reply_run by (done || (rewrite length_connect_response; simpl; lia)). done.
  - split_and!; try done. rewrite Hbody. done.
Qed.

(** C1: Exactly-once delivery over the UDP dispatch loop.  A client that
    numbers its requests from the number its channel expects, wrapping after
    255, and transmits each of them any number of times has every transmission
    acknowledged with status OK, and each request's telegram is published to
    the subscribers exactly once and in order. *)
Theorem server_exactly_once ch l peer n reqs s :
  u8_ok n → expects ch l n s → Forall (λ p, Z.of_nat (length p.2) ≤ 1014) reqs →
  ∃ s', udp_dispatch_loop (client_datagrams peer ch n reqs) s = (Ok tt, s') ∧
    published s' = published s ++ telegrams (server_clock s) reqs ∧
    sent s' = sent s ++ client_acks l ch n reqs.
Proof. apply loop_exactly_once. Qed.

(** A request whose acknowledgement cannot be sent is lost for good: the
    counter has already moved, the handler returns before publishing, and the
    client's retransmission is acknowledged as a duplicate without being
    published either. *)
Theorem server_ack_failure_loses_telegram b l req c e faults s :
  TunnellingRequest_parse b = Ok req → sessions s !! treq_channel_id req = Some c →
  u8_ok (recv_seq c) → treq_sequence_counter req = recv_seq c →
  send_faults s = Some e :: faults → default None (head faults) = None →
  ∃ err s1 s2, handle_tunnelling_request b l s = (Err err, s1) ∧
    handle_tunnelling_request b l s1 = (Ok tt, s2) ∧ published s2 = published s ∧
    sent s2 = sent s ++ [(link c, ok_ack (treq_channel_id req) (treq_sequence_counter req))].
Proof.
  intros Hp Hc Hu Hseq Hf Hf'.
  destruct (ClientSession_validate_recv_seq (treq_sequence_counter req)
    (ClientSession_touch (server_clock s) c)) as [v c'] eqn:Hv.
  pose proof Hv as Hv1. unfold ClientSession_validate_recv_seq in Hv1. cbn in Hv1.
  rewrite Hseq, Z.eqb_refl in Hv1. injection Hv1 as <- Hc'.
  destruct (tunnelling_request_fault b l req c c' e s Hp Hc Hv) as [err Herr]; [by rewrite Hf|].
  exists err. eexists _, _. split; [exact Herr|]. split.
  - eapply (tunnelling_request_run b l req c' Duplicate (ClientSession_touch (server_clock s) c'));
      [done|by apply lookup_insert_eq| |unfold socket_ready; cbn; by rewrite Hf].
    unfold ClientSession_validate_recv_seq. rewrite <-Hc', Hseq. cbn.
    rewrite (proj2 (Z.eqb_neq _ _)) by (unfold as_u8, u8_ok in *; zlia).
    by rewrite as_u8_pred_succ, Z.eqb_refl.
  - split; [done|]. cbn. by rewrite <-Hc'.
Qed.

(** A disconnect request closes exactly the named channel and is always
    answered with status OK: to the session's own link if it was open, to the
    sender otherwise. *)
Theorem server_disconnect b l req s :
  DisconnectRequest_parse b = Ok req → socket_ready s →
  ∃ s', handle_disconnect_request b l s = (Ok tt, s') ∧
    sessions s' !! dreq_channel_id req = None ∧
    (∀ id, id ≠ dreq_channel_id req → sessions s' !! id = sessions s !! id) ∧
    published s' = published s ∧
    sent s' = sent s ++ [(from_option link l (sessions s !! dreq_channel_id req),
      frame_bytes ServiceType.DisconnectResponse (DisconnectResponse_serialize
        (DisconnectResponse_new (dreq_channel_id req) DISCONNECT_STATUS_OK)))].
Proof.
  intros Hp Hr. unfold handle_disconnect_request. rewrite Hp, eff_bind_run. cbn [lift].
  rewrite eff_bind_run. cbn [gets id]. cbn zeta. rewrite eff_bind_run. cbn [modify].
  eexists. split; [apply send_reply_run; [simpl; lia|exact Hr]|]. cbn. split_and!.
  - by rewrite lookup_delete_eq.
  - intros id Hid. by rewrite lookup_delete_ne.
  - done.
  - by destruct (sessions s !! dreq_channel_id req).
Qed.

(** The sweeper finds the stale sessions in one state and removes them in a
    later one. *)
Lemma sweep_lookup ch c s s' :
  sessions (evict (stale_ids s) s') !! ch = Some c ↔
  sessions s' !! ch = Some c ∧
  (∀ c0, sessions s !! ch = Some c0 → server_clock s - last_heartbeat c0 ≤ 120 * 1000000000).
Proof.
  rewrite evict_lookup. assert (∀ c0, ClientSession_is_stale (server_clock s) c0 = false ↔
    server_clock s - last_heartbeat c0 ≤ 120 * 1000000000) as Hst.
  { intros c0. unfold ClientSession_is_stale, CLIENT_TIMEOUT. rewrite Z.ltb_ge. lia. }
  destruct (decide (ch ∈ stale_ids s)) as [Hin|Hout].
  - apply stale_ids_spec in Hin as (c' & Hc' & Hs). split; [done|]. intros [_ Hle].
    specialize (Hle c' Hc'). apply Hst in Hle. congruence.
  - split; [|by intros [? _]]. intros Hc. split; [done|]. intros c0 Hc0. apply Hst.
    apply not_true_iff_false. intros Ht. apply Hout, stale_ids_spec. by exists c0.
Qed.

(** A telegram sent to one client is transmitted at most twice, as the
    same frame with the same sequence number, the second time only when the
    first went unanswered; the outgoing counter advances by one, modulo 256,
    exactly when the client acknowledged with status OK, and the send fails
    otherwise. *)
Theorem server_send_to_session t answers c s :
  sessions s !! session_channel_id c = Some c → send_faults s = [] → telegram_fits t →
  ∃ f r c' s', build_tunnelling_frame_with_code t (session_channel_id c) (send_seq c) LDataInd = Ok f ∧
    send_to_session c t answers s = (r, s') ∧
    sent s' = sent s ++ replicate (transmissions answers) (link c, f) ∧
    sessions s' = <[session_channel_id c := c']> (sessions s) ∧
    if acked answers then r = Ok tt ∧ send_seq c' = as_u8 (send_seq c + 1)
    else (∃ e, r = Err e) ∧ send_seq c' = send_seq c.
Proof.
  intros Hc Hf Ht.
  destruct (send_to_session_run t answers c s Hc Hf Ht) as (f & r & c' & s' & Ef & Er & Ha & Hres).
  exists f, r, c', s'. destruct Ha as (Hs & Hsent & _). split_and!; [done..|apply Hres].
Qed.

(** A broadcast always returns [Ok]; afterwards a session is open exactly
    if it was open before and acknowledged the telegram, with its outgoing
    counter one further; one client's failure never disturbs another's
    session. *)
Theorem server_broadcast t answers s :
  server_inv s → send_faults s = [] → telegram_fits t →
  ∃ s', TunnelServer_send t answers s = (Ok tt, s') ∧
    (∀ ch c, sessions s !! ch = Some c →
       if acked (answers ch)
       then ∃ c', sessions s' !! ch = Some c' ∧ send_seq c' = as_u8 (send_seq c + 1) ∧
                  recv_seq c' = recv_seq c ∧ link c' = link c
       else sessions s' !! ch = None) ∧
    (∀ ch, sessions s !! ch = None → sessions s' !! ch = None).
Proof.
  intros Hinv Hf Ht. destruct (sessions_values s Hinv) as [Hids Hval].
  destruct (broadcast_run t answers ((map_to_list (sessions s)).*2) s) as (s' & Hrun & Hin & Hout);
    [rewrite Hids; apply NoDup_fst_map_to_list|intros c; apply Hval|done|done|].
  exists s'. split; [exact Hrun|]. split.
  - intros ch c Hc. pose proof (proj1 (Hinv _ _ Hc)) as <-. by apply Hin, Hval.
  - intros ch Hch. rewrite Hout; [done|]. rewrite Hids. intros ([ch' c] & -> & Hc)%list_elem_of_fmap.
    apply elem_of_map_to_list in Hc. cbn in Hch. congruence.
Qed.

(** What a receiver's subscribers get from a group service. *)
Definition service_telegram (now : Z) (src : IndividualAddress) (dst : Address)
    (g : GroupValueService) : Telegram :=
  {| source := src; destination := dst;
     payload := default [0] (GroupValueService_payload g);
     priority := Normal; direction := Incoming;
     telegram_type := match g with
                      | Read => GroupValueRead
                      | Response _ => GroupValueResponse
                      | Write _ => GroupValueWrite
                      end;
     timestamp := now |}.
(** A group service between valid addresses that a CEMI frame can carry. *)
Definition sendable (src : IndividualAddress) (dst : Address) (g : GroupValueService) : Prop :=
  IndividualAddress_valid src ∧ Address_valid dst ∧ service_wire_safe g ∧
  Z.of_nat (length (default [] (GroupValueService_payload g))) ≤ 254.

Lemma parse_service_frame now code src dst g :
  sendable src dst g →
  parse_cemi_to_telegram now
    (CemiFrame_serialize (CemiFrame_new code src dst (GroupValueService_encode g))) =
  Ok (service_telegram now src dst g).
Proof.
  intros (Hs & Hd & Hg & Hl). destruct (encode_wire g Hg) as [Hb Hlen].
  unfold parse_cemi_to_telegram. rewrite <-(app_nil_r (CemiFrame_serialize _)).
  rewrite CemiFrame_parse_serialized by (apply CemiFrame_new_wf; [done..|lia]).
  cbn [mbind outcome_bind CemiFrame_new tpci apci_data]. rewrite group_service_wire by done.
  by destruct g.
Qed.

(** A telegram that can be sent: between valid addresses, with a payload of bytes
    that a frame has room for. *)
Definition telegram_sendable (t : Telegram) : Prop :=
  IndividualAddress_valid (source t) ∧ Address_valid (destination t) ∧ bytes_ok (payload t) ∧ telegram_fits t.
(** The telegram as it arrives: without its priority, a read (with the payload
    [0]) if it had no payload and a write if it had one, whatever its type was,
    and a payload of one byte modulo 64. *)
Definition arrived (at_ : Z) (t : Telegram) : Telegram :=
  {| source := source t; destination := destination t;
     payload := match payload t with [] => [0] | p => on_the_wire p end;
     priority := Normal; direction := Incoming;
     telegram_type := match payload t with [] => GroupValueRead | _ => GroupValueWrite end;
     timestamp := at_ |}.
Lemma arrived_payload at_ t : payload t ≠ [] → payload (arrived at_ t) = on_the_wire (payload t).
Proof. unfold arrived. cbn. by destruct (payload t). Qed.
Lemma parse_sent at_ t code : telegram_sendable t → parse_cemi_to_telegram at_ (sent_cemi t code) = Ok (arrived at_ t).
Proof.
  intros (Hs & Hd & Hb & Hf). unfold sent_cemi, sent_service, arrived, telegram_fits in *. destruct (payload t) as [|b p] eqn:E.
  - rewrite parse_service_frame; [done|]. by split_and!.
  - rewrite <-on_the_wire_encode, parse_service_frame; [done|].
    split_and!; [done|done|by apply on_the_wire_safe|]. change (Z.of_nat (length (on_the_wire (b :: p))) ≤ 254). by rewrite length_on_the_wire.
Qed.

(** The frame [TunnelServer::send] builds, as the client reads it. *)
Definition client_reads (now : Z) (f : list Z) (ch seq : Z) (t : Telegram) : Prop :=
  ∃ k r, KnxIpFrame_parse f = Ok k ∧ service_type (header k) = ServiceType.TunnellingRequest ∧
    TunnellingRequest_parse (body k) = Ok r ∧ treq_channel_id r = ch ∧
    treq_sequence_counter r = seq ∧ parse_cemi_to_telegram now (raw_cemi r) = Ok t.
Lemma build_frame_read now t ch seq code :
  telegram_sendable t →
  ∃ f, build_tunnelling_frame_with_code t ch seq code = Ok f ∧ client_reads now f ch seq (arrived now t).
Proof.
  intros Hg. pose proof Hg as (_ & _ & _ & Ht).
  exists (request_datagram ch seq (sent_cemi t code)). split; [by apply build_frame_bytes|].
  pose proof (sent_cemi_length t code Ht) as Hl.
  destruct (frame_bytes_parse ServiceType.TunnellingRequest (TunnellingRequest_serialize
    (TunnellingRequest_new ch seq (sent_cemi t code)))) as (k & Hk & Hsvc & Hb);
    [rewrite length_request; lia|].
  exists k, (TunnellingRequest_new ch seq (sent_cemi t code)). split_and!; try done.
  - rewrite Hb. by apply TunnellingRequest_roundtrip.
  - by apply parse_sent.
Qed.

(** A telegram with a payload sent to a client arrives: the frame the server
    builds carries the session's channel and sequence number, and decodes to a
    group write with the same source, destination and payload, a payload of one
    byte modulo 64. *)
Theorem server_delivers_write now t ch seq :
  payload t ≠ [] → telegram_sendable t →
  ∃ f, build_tunnelling_frame_with_code t ch seq LDataInd = Ok f ∧
    client_reads now f ch seq
      {| source := source t; destination := destination t; payload := on_the_wire (payload t);
         priority := Normal; direction := Incoming; telegram_type := GroupValueWrite;
         timestamp := now |}.
Proof.
  intros Hne Hs. destruct (build_frame_read now t ch seq LDataInd Hs) as (f & Hf & Hr).
  exists f. split; [done|]. unfold arrived in Hr. by destruct (payload t).
Qed.

(** Relaying loses the service.  A telegram the server received from one
    client and sends on to another arrives as a group write whatever it was: a
    read as a write of the byte 0, a response as a write of its payload. *)
Theorem server_relay_forgets_service now code src dst g ch seq :
  sendable src dst g →
  ∃ t f, parse_cemi_to_telegram now
           (CemiFrame_serialize (CemiFrame_new code src dst (GroupValueService_encode g))) = Ok t ∧
    build_tunnelling_frame_with_code t ch seq LDataInd = Ok f ∧
    client_reads now f ch seq
      (service_telegram now src dst (Write (default [0] (GroupValueService_payload g)))).
Proof.
  intros Hg. pose proof Hg as (Hs & Hd & Hw & Hl). exists (service_telegram now src dst g).
  assert (telegram_sendable (service_telegram now src dst g) ∧
    arrived now (service_telegram now src dst g) =
      service_telegram now src dst (Write (default [0] (GroupValueService_payload g)))) as [Ht <-].
  { unfold telegram_sendable, telegram_fits, arrived. destruct g as [|p|p]; cbn in Hw, Hl |- *;
      [split; [split_and!; [done|done|apply Forall_singleton; by unfold u8_ok|lia]|done]|..];
      destruct Hw as (Hb & Hne & H1); (split; [by split_and!|]);
      (destruct p as [|z p]; [done|]); rewrite on_the_wire_small; [done|done| |done|done|];
      (destruct (decide (length (z :: p) = 1%nat)); [right; auto|by left]). }
  destruct (build_frame_read now (service_telegram now src dst g) ch seq LDataInd Ht) as (f & Hf & Hr).
  exists f. split; [by apply parse_service_frame|]. by split.
Qed.

(** The acknowledgement of any sequence number completes the send in
    flight: the handler passes it on without comparing its number with the
    one that was sent. *)
Theorem server_ack_unchecked b ack c tx s :
  TunnellingAck_parse b = Ok ack → sessions s !! ack_channel_id ack = Some c →
  pending_ack c = Some tx →
  ∃ s', handle_tunnelling_ack b s = (Ok tt, s') ∧ acks s' !! tx = Some ack ∧
    sessions s' !! ack_channel_id ack = Some (set_pending None c).
Proof.
  intros Hp Hc Htx. eexists. unfold handle_tunnelling_ack. rewrite Hp, eff_bind_run. cbn [lift].
  rewrite eff_bind_run. cbn [gets id]. rewrite Hc, Htx. split; [done|].
  cbn. by rewrite !lookup_insert_eq.
Qed.

End properties.

(** * Witnesses *)
Section witnesses.
#[local] Instance server_release : Profile := {| debug_build := false |}.

Definition sample_addr : SocketAddr := MkSocketAddr (V4 10 0 0 1) 3671.
Definition sample_peer : SocketAddr := MkSocketAddr (V4 10 0 0 7) 50000.
Definition sample_server : TunnelServer :=
  TunnelServer_new sample_addr (MkIndividualAddress 0x1105) 0 [].
(** A connect request with route-back endpoints. *)
Definition sample_connect : list Z :=
  [8; 1; 0; 0; 0; 0; 0; 0] ++ [8; 1; 0; 0; 0; 0; 0; 0] ++ [4; 4; 2; 0].
Definition sample_session : ClientSession := ClientSession_new 0 1 (UdpLink sample_peer).
Definition one_client : TunnelServer := set_session 1 sample_session sample_server.

Definition full_sessions : gmap Z ClientSession :=
  list_to_map ((λ ch, (ch, ClientSession_new 0 ch (UdpLink sample_peer))) <$> channel_ids).
Definition full_server : TunnelServer := set_sessions full_sessions sample_server.

(** A client silent for 200 seconds whose heartbeat arrives while a sweep is
    under way. *)
Definition late_client : TunnelServer := advance_clock 200000000000 one_client.
Definition late_heartbeat : list Z :=
  frame_bytes ServiceType.ConnectionstateRequest
    (ConnectionstateRequest_serialize (ConnectionstateRequest_new 1 Hpai_route_back)).

(** Sweeping.  A sweep done at once evicts exactly the sessions that have
    been silent for more than 120 seconds and keeps the others unchanged.  But
    the sweeper gives up its lock between finding the stale sessions and
    removing them: in some execution a session whose heartbeat was answered in
    between, and which is not stale any more, is evicted. *)
Theorem server_sweep :
  (∀ ch c s, sessions (evict (stale_ids s) s) !! ch = Some c ↔
     sessions s !! ch = Some c ∧ server_clock s - last_heartbeat c ≤ 120 * 1000000000) ∧
  (∃ s s' ch c, rtc server_step s s' ∧ sessions s' !! ch = Some c ∧
     last_heartbeat c = server_clock s' ∧ sessions (evict (stale_ids s) s') !! ch = None).
Proof.
  split.
  - intros ch c s. rewrite sweep_lookup. split; intros [Hc Hh]; split; auto. intros c0 Hc0. by simplify_eq.
  - exists late_client, (handle_frame late_heartbeat (UdpLink sample_peer) late_client).2, 1,
      (ClientSession_touch 200000000000 sample_session).
    split; [apply rtc_once; constructor|]. vm_compute. done.
Qed.

Lemma server_sessions_consistent_witness :
  sessions (handle_frame (frame_bytes ServiceType.ConnectRequest sample_connect)
              (UdpLink sample_peer) sample_server).2 !! 1 = Some sample_session ∧
  session_channel_id sample_session = 1 ∧ 1 ≤ 1 ≤ 255 ∧ u8_ok 0 ∧ u8_ok 0.
Proof.
  assert (sessions (handle_frame (frame_bytes ServiceType.ConnectRequest sample_connect)
            (UdpLink sample_peer) sample_server).2 !! 1 = Some sample_session) as Hs
    by (vm_compute; reflexivity).
  split; [exact Hs|].
  exact (proj1 (server_sessions_consistent sample_addr (MkIndividualAddress 0x1105) 0 [] _
    (rtc_once _ _ (step_frame _ _ sample_server))) 1 sample_session Hs).
Defined.

Lemma server_connect_assigns_witness :
  ∃ s' f g, handle_connect_request sample_connect (UdpLink sample_peer) sample_server =
      (Ok (Some 1), s') ∧
    sessions sample_server !! 1 = None ∧ 1 ≤ 1 ≤ 255 ∧
    (∀ id, 1 ≤ id < 1 → is_Some (sessions sample_server !! id)) ∧
    sessions s' = <[1 := ClientSession_new (server_clock sample_server) 1 (UdpLink sample_peer)]>
                    (sessions sample_server) ∧
    sent s' = sent sample_server ++ [(UdpLink sample_peer, f)] ∧ KnxIpFrame_parse f = Ok g ∧
    service_type (header g) = ServiceType.ConnectResponse ∧
    ConnectResponse_parse (body g) =
      Ok (MkConnectResponse 1 CONNECT_STATUS_OK (Hpai_new (server_addr sample_server))
            (build_tunnel_crd (server_individual_address sample_server))
            (Some (server_individual_address sample_server))).
Proof.
  refine (server_connect_assigns sample_connect (UdpLink sample_peer)
    (MkConnectRequest Hpai_route_back Hpai_route_back (MkConnectionRequestInfo 4 2 0 None))
    1 sample_server _ _ _ _); vm_compute; done.
Defined.

Lemma server_full_rejects_witness :
  ∃ s' f g, handle_connect_request sample_connect (UdpLink sample_peer) full_server = (Ok None, s') ∧
    sessions s' = sessions full_server ∧
    sent s' = sent full_server ++ [(UdpLink sample_peer, f)] ∧ KnxIpFrame_parse f = Ok g ∧
    service_type (header g) = ServiceType.ConnectResponse ∧
    ConnectResponse_parse (body g) =
      Ok (MkConnectResponse 0 STATUS_ERROR_NO_MORE_CONNECTIONS Hpai_route_back [] None).
Proof.
  refine (server_full_rejects sample_connect (UdpLink sample_peer)
    (MkConnectRequest Hpai_route_back Hpai_route_back (MkConnectionRequestInfo 4 2 0 None))
    full_server _ _ _ _); [vm_compute; reflexivity| |vm_compute; reflexivity|done].
  intros ch c Hc. apply elem_of_list_to_map_2, list_elem_of_fmap in Hc as (ch' & [= -> ->] & Hin).
  by apply session_ok_new, channel_ids_range.
Defined.

Lemma server_exactly_once_witness :
  let reqs := [(1%nat, [0x11; 0; 0xBC; 0xE0; 0; 0; 0x0A; 3; 1; 0; 0x81]); (0%nat, [0x11; 0])] in
  ∃ s', udp_dispatch_loop (client_datagrams sample_peer 1 0 reqs) one_client = (Ok tt, s') ∧
    published s' = published one_client ++ telegrams (server_clock one_client) reqs ∧
    sent s' = sent one_client ++ client_acks (UdpLink sample_peer) 1 0 reqs.
Proof.
  refine (server_exactly_once 1 (UdpLink sample_peer) sample_peer 0 _ one_client _ _ _).
  - unfold u8_ok. lia.
  - split; [|done]. exists sample_session. by vm_compute.
  - by repeat constructor.
Defined.

Definition sample_request : list Z := [4; 1; 0; 0; 0x11; 0; 0xBC; 0xE0; 0; 0; 0x0A; 3; 1; 0; 0x81].
Definition unreachable : io_error := IoError (OtherKind 101) "Network is unreachable".
Definition broken_socket : TunnelServer := set_faults [Some unreachable; None] one_client.
Lemma server_ack_failure_loses_telegram_witness :
  ∃ err s1 s2, handle_tunnelling_request sample_request (UdpLink sample_peer) broken_socket = (Err err, s1) ∧
    handle_tunnelling_request sample_request (UdpLink sample_peer) s1 = (Ok tt, s2) ∧
    published s2 = published broken_socket ∧
    sent s2 = sent broken_socket ++ [(UdpLink sample_peer, ok_ack 1 0)].
Proof.
  refine (server_ack_failure_loses_telegram sample_request (UdpLink sample_peer)
    (MkTunnellingRequest 1 0 [0x11; 0; 0xBC; 0xE0; 0; 0; 0x0A; 3; 1; 0; 0x81]) sample_session
    unreachable [None] broken_socket _ _ _ _ _ _); try (vm_compute; reflexivity).
  unfold u8_ok. cbn. lia.
Defined.

Lemma server_disconnect_witness :
  ∃ s', handle_disconnect_request ([1; 0] ++ Hpai_serialize Hpai_route_back) (UdpLink sample_addr) one_client =
      (Ok tt, s') ∧
    sessions s' !! 1 = None ∧ (∀ id, id ≠ 1 → sessions s' !! id = sessions one_client !! id) ∧
    published s' = published one_client ∧
    sent s' = sent one_client ++ [(UdpLink sample_peer,
      frame_bytes ServiceType.DisconnectResponse (DisconnectResponse_serialize
        (DisconnectResponse_new 1 DISCONNECT_STATUS_OK)))].
Proof.
  by refine (server_disconnect ([1; 0] ++ Hpai_serialize Hpai_route_back) (UdpLink sample_addr)
    (MkDisconnectRequest 1 Hpai_route_back) one_client _ _).
Defined.

Definition sample_telegram : Telegram :=
  {| source := MkIndividualAddress 0x1101; destination := Group (MkGroupAddress 0x0A03);
     payload := [1]; priority := Low; direction := Outgoing; telegram_type := GroupValueWrite;
     timestamp := 0 |}.
Definition lost_then_acked : list (option TunnellingAck) := [None; Some (TunnellingAck_new_ok 1 0)].

Lemma server_send_to_session_witness :
  ∃ f r c' s', build_tunnelling_frame_with_code sample_telegram 1 0 LDataInd = Ok f ∧
    send_to_session sample_session sample_telegram lost_then_acked one_client = (r, s') ∧
    sent s' = sent one_client ++ replicate 2 (UdpLink sample_peer, f) ∧
    sessions s' = <[1 := c']> (sessions one_client) ∧ r = Ok tt ∧ send_seq c' = as_u8 (0 + 1).
Proof. by apply (server_send_to_session sample_telegram lost_then_acked sample_session one_client). Defined.

Lemma server_broadcast_witness :
  ∃ s', TunnelServer_send sample_telegram (λ _, []) one_client = (Ok tt, s') ∧
    (∀ ch c, sessions one_client !! ch = Some c → sessions s' !! ch = None) ∧
    (∀ ch, sessions one_client !! ch = None → sessions s' !! ch = None).
Proof.
  apply (server_broadcast sample_telegram (λ _, []) one_client); [|done..].
  apply inv_set_session; [by apply session_ok_new|apply map_Forall_empty].
Defined.

Lemma sample_sendable g :
  service_wire_safe g → Z.of_nat (length (default [] (GroupValueService_payload g))) ≤ 254 →
  sendable (MkIndividualAddress 0x1101) (Group (MkGroupAddress 0x0A03)) g.
Proof.
  intros Hg Hl. split_and!; [by unfold IndividualAddress_valid, u16_ok| |done|done].
  by unfold Address_valid, GroupAddress_valid.
Qed.

Lemma server_delivers_write_witness :
  ∃ f, build_tunnelling_frame_with_code sample_telegram 1 0 LDataInd = Ok f ∧
    client_reads 5 f 1 0
      {| source := MkIndividualAddress 0x1101; destination := Group (MkGroupAddress 0x0A03);
         payload := [1]; priority := Normal; direction := Incoming;
         telegram_type := GroupValueWrite; timestamp := 5 |}.
Proof.
  apply (server_delivers_write 5 sample_telegram 1 0); [done|].
  split_and!; [by unfold IndividualAddress_valid, u16_ok|by unfold Address_valid, GroupAddress_valid|by repeat constructor|done].
Defined.

Lemma server_relay_forgets_service_witness :
  ∃ t f, parse_cemi_to_telegram 5 (CemiFrame_serialize (CemiFrame_new LDataReq
           (MkIndividualAddress 0x1101) (Group (MkGroupAddress 0x0A03)) (GroupValueService_encode Read))) = Ok t ∧
    build_tunnelling_frame_with_code t 1 0 LDataInd = Ok f ∧
    client_reads 5 f 1 0 (service_telegram 5 (MkIndividualAddress 0x1101)
      (Group (MkGroupAddress 0x0A03)) (Write [0])).
Proof. apply (server_relay_forgets_service 5 LDataReq _ _ Read 1 0). by apply sample_sendable. Defined.

Lemma server_ack_unchecked_witness :
  let s := set_session 1 (set_pending (Some 4%nat) sample_session) sample_server in
  ∃ s', handle_tunnelling_ack [4; 1; 77; 0] s = (Ok tt, s') ∧
    acks s' !! 4%nat = Some (MkTunnellingAck 1 77 0) ∧
    sessions s' !! 1 = Some (set_pending None (set_pending (Some 4%nat) sample_session)).
Proof.
  exact (server_ack_unchecked [4; 1; 77; 0] (MkTunnellingAck 1 77 0)
    (set_pending (Some 4%nat) sample_session) 4
    (set_session 1 (set_pending (Some 4%nat) sample_session) sample_server)
    eq_refl (lookup_insert_eq _ _ _) eq_refl).
Defined.

Lemma server_short_length_kills_dispatch_witness :
  udp_dispatch_loop [(sample_peer, [6; 0x10; 4; 0x20; 0; 0]);
    (sample_peer, frame_bytes ServiceType.ConnectRequest sample_connect)] one_client =
  (Panic, one_client).
Proof.
  refine (server_short_length_kills_dispatch sample_peer _
    (MkKnxIpHeader 6 0x10 ServiceType.TunnellingRequest 0) _ one_client _ _ _ _ _); try done.
  - by apply (bool_decide_unpack (bytes_ok _)).
  - simpl. lia.
Defined.
End witnesses.
