(* ===== verification/SecureServer.v ===== *)
(** The tunnelling server with the [secure] feature ([src/src/transport/server.rs]):
    the handshake, the wrappers and the encryption of what is sent.

    The state is that of [Server] with the fields the feature adds.  The handlers
    are those of the source, which reply through [maybe_encrypt]; those that send
    nothing are the ones of [Server].  [random] is the secret from which the server
    generates its key pair should it need one for the frame it handles. *)
From stdpp Require Import relations.
From S2P Require Import Prelude Errors Address Apdu Telegram Cemi KnxIp Crypto SecureSession TunnelCore Server ServerBehaviour.

Record SecureSessionEntry := MkEntry {
  entry_session : SecureSession;
  client_public_key : list Z;
}.
Record SecureServer := MkSecureServer {
  plain : TunnelServer;
  secure_config : option SessionConfig;
  secure_sessions : gmap SocketAddr SecureSessionEntry;
  next_secure_session_id : Z;
}.
Definition set_plain (p : TunnelServer) (s : SecureServer) : SecureServer :=
  MkSecureServer p (secure_config s) (secure_sessions s) (next_secure_session_id s).
Definition set_entries (m : gmap SocketAddr SecureSessionEntry) (s : SecureServer) : SecureServer :=
  MkSecureServer (plain s) (secure_config s) m (next_secure_session_id s).
Definition set_next_id (n : Z) (s : SecureServer) : SecureServer :=
  MkSecureServer (plain s) (secure_config s) (secure_sessions s) n.

(** [bind] and [bind_secure], once the sockets are bound. *)
Definition bind_with_security (p : TunnelServer) (security : option SessionConfig) : SecureServer :=
  MkSecureServer p security ∅ 1.

Section handlers.
Context {crypto : CryptoOps} `{Profile}.
Abbreviation M := (eff SecureServer KnxError).

Definition on_plain {A} (m : eff TunnelServer KnxError A) : M A := λ s,
  let '(r, p) := m (plain s) in (r, set_plain p s).
(** A call on the session of the entry of a peer. *)
Definition on_session {A} (peer : SocketAddr) (entry : SecureSessionEntry) (m : eff SecureSession KnxError A) : M A := λ s,
  let '(r, session) := m (entry_session entry) in
  (r, set_entries (<[peer := MkEntry session (client_public_key entry)]> (secure_sessions s)) s).

Definition maybe_encrypt (frame : list Z) (peer : SocketAddr) : M (list Z) :=
  entries ← gets secure_sessions;
  match entries !! peer with
  | Some entry => on_session peer entry (encrypt_frame frame)
  | None => mret frame
  end.
Definition secure_send_reply (service : ServiceType.ServiceType) (b : list Z) (l : ClientLink) : M unit :=
  frame ← lift (KnxIpFrame_new service b);
  frame ← maybe_encrypt (KnxIpFrame_serialize frame) (ClientLink_peer_addr l);
  on_plain (ClientLink_send_frame l frame).

(** * The handshake *)
Definition handle_session_request (random b : list Z) (l : ClientLink) : M unit :=
  config ← gets secure_config;
  match config with
  | None => mret tt
  | Some security =>
      request ← lift (SessionRequest_parse b);
      let '(key, session) := SecureSession_initialize random (SecureSession_new security) in
      server_public_key ← lift key;
      _ ← (if (length server_public_key =? 32)%nat then mret tt
           else throw (Transport (TransportInvalidConfiguration "ECDH public key was not 32 bytes")));
      session_id ← gets next_secure_session_id;
      _ ← modify (set_next_id (as_u16 (session_id + 1)));
      let '(mac, session) := process_session_request (sreq_public_key request) session_id session in
      mac ← lift mac;
      _ ← (if (length mac =? 16)%nat then mret tt else lift Panic);
      frame ← lift (KnxIpFrame_new ServiceType.SessionResponse
                      (SessionResponse_serialize (MkSessionResponse session_id server_public_key mac)));
      _ ← on_plain (ClientLink_send_frame l (KnxIpFrame_serialize frame));
      modify (λ s, set_entries (<[ClientLink_peer_addr l := MkEntry session (sreq_public_key request)]> (secure_sessions s)) s)
  end.

Definition handle_session_authenticate (b : list Z) (l : ClientLink) : M unit :=
  auth ← lift (SessionAuthenticate_parse b);
  let peer := ClientLink_peer_addr l in
  entries ← gets secure_sessions;
  match entries !! peer with
  | None => mret tt
  | Some entry =>
      ok ← on_session peer entry (verify_authenticate_mac (client_public_key entry) (user_id auth) (sauth_mac auth));
      let status := if ok : bool then SESSION_STATUS_OK else STATUS_AUTH_FAILED in
      frame ← lift (KnxIpFrame_new ServiceType.SessionStatus (SessionStatus_serialize (MkSessionStatus status)));
      _ ← on_plain (ClientLink_send_frame l (KnxIpFrame_serialize frame));
      if ok : bool then mret tt else modify (λ s, set_entries (delete peer (secure_sessions s)) s)
  end.

(** * Tunnelling frames *)
Definition secure_handle_connect_request (b : list Z) (l : ClientLink) : M (option Z) :=
  request ← lift (ConnectRequest_parse b);
  let l := resolve_link (creq_data_endpoint request) l in
  srv ← gets plain;
  match allocate_channel_id (sessions srv) with
  | Some ch =>
      _ ← on_plain (modify (set_session ch (ClientSession_new (server_clock srv) ch l)));
      _ ← secure_send_reply ServiceType.ConnectResponse
            (ConnectResponse_serialize
               (MkConnectResponse ch CONNECT_STATUS_OK (Hpai_new (server_addr srv))
                  (build_tunnel_crd (server_individual_address srv))
                  (Some (server_individual_address srv)))) l;
      mret (Some ch)
  | None =>
      _ ← secure_send_reply ServiceType.ConnectResponse
            (ConnectResponse_serialize
               (MkConnectResponse 0 STATUS_ERROR_NO_MORE_CONNECTIONS (Hpai_new (server_addr srv))
                  [] None)) l;
      mret None
  end.

Definition secure_handle_tunnelling_request (b : list Z) (l : ClientLink) : M unit :=
  request ← lift (TunnellingRequest_parse b);
  srv ← gets plain;
  match sessions srv !! treq_channel_id request with
  | None => mret tt
  | Some session =>
      let '(verdict, session) :=
        ClientSession_validate_recv_seq (treq_sequence_counter request)
          (ClientSession_touch (server_clock srv) session) in
      _ ← on_plain (modify (set_session (treq_channel_id request) session));
      let reply ack := secure_send_reply ServiceType.TunnellingAck (TunnellingAck_serialize ack) (link session) in
      match verdict with
      | Valid =>
          _ ← reply (TunnellingAck_new_ok (treq_channel_id request) (treq_sequence_counter request));
          match parse_cemi_to_telegram (server_clock srv) (raw_cemi request) with
          | Ok t => on_plain (modify (publish t))
          | Err _ => mret tt
          | Panic => lift Panic
          end
      | Duplicate =>
          reply (TunnellingAck_new_ok (treq_channel_id request) (treq_sequence_counter request))
      | Invalid _ _ =>
          reply (TunnellingAck_new_sequence_error (treq_channel_id request)
                   (treq_sequence_counter request))
      end
  end.

Definition secure_handle_connectionstate_request (b : list Z) (l : ClientLink) : M unit :=
  request ← lift (ConnectionstateRequest_parse b);
  srv ← gets plain;
  '(status, reply_link) ←
    match sessions srv !! csreq_channel_id request with
    | Some session =>
        _ ← on_plain (modify (set_session (csreq_channel_id request)
                               (ClientSession_touch (server_clock srv) session)));
        mret (CONNECTIONSTATE_STATUS_OK, link session)
    | None => mret (STATUS_ERROR_CONNECTION_ID, l)
    end;
  secure_send_reply ServiceType.ConnectionstateResponse
    (ConnectionstateResponse_serialize (ConnectionstateResponse_new (csreq_channel_id request) status))
    reply_link.

Definition secure_handle_disconnect_request (b : list Z) (l : ClientLink) : M unit :=
  request ← lift (DisconnectRequest_parse b);
  srv ← gets plain;
  let reply_link := match sessions srv !! dreq_channel_id request with
                    | Some session => link session
                    | None => l
                    end in
  _ ← on_plain (modify (remove_session (dreq_channel_id request)));
  _ ← modify (λ s, set_entries (delete (ClientLink_peer_addr reply_link) (secure_sessions s)) s);
  secure_send_reply ServiceType.DisconnectResponse
    (DisconnectResponse_serialize (DisconnectResponse_new (dreq_channel_id request) DISCONNECT_STATUS_OK))
    reply_link.

Definition secure_dispatch_plain_frame (frame : KnxIpFrame) (l : ClientLink) (was_encrypted : bool) : M (option Z) :=
  config ← gets secure_config;
  if bool_decide (is_Some config) && negb was_encrypted then mret None
  else
    match service_type (header frame) with
    | ServiceType.ConnectRequest => secure_handle_connect_request (body frame) l
    | ServiceType.TunnellingRequest => _ ← secure_handle_tunnelling_request (body frame) l; mret None
    | ServiceType.TunnellingAck => _ ← on_plain (handle_tunnelling_ack (body frame)); mret None
    | ServiceType.ConnectionstateRequest =>
        _ ← secure_handle_connectionstate_request (body frame) l; mret None
    | ServiceType.DisconnectRequest => _ ← secure_handle_disconnect_request (body frame) l; mret None
    | _ => mret None
    end.

Definition secure_handle_frame (random data : list Z) (l : ClientLink) : M (option Z) :=
  frame ← lift (KnxIpFrame_parse data);
  match service_type (header frame) with
  | ServiceType.SessionRequest => _ ← handle_session_request random (body frame) l; mret None
  | ServiceType.SessionAuthenticate => _ ← handle_session_authenticate (body frame) l; mret None
  | ServiceType.SecureWrapper =>
      let peer := ClientLink_peer_addr l in
      entries ← gets secure_sessions;
      match entries !! peer with
      | None => mret None
      | Some entry =>
          if negb (is_authenticated (entry_session entry)) then mret None
          else
            decrypted ← on_session peer entry (decrypt_frame data);
            inner ← lift (KnxIpFrame_parse decrypted);
            secure_dispatch_plain_frame inner l true
      end
  | _ => secure_dispatch_plain_frame frame l false
  end.

(** * Loops and sending *)
Fixpoint secure_udp_dispatch_loop (packets : list (list Z * SocketAddr * list Z)) : M unit :=
  match packets with
  | [] => mret tt
  | (random, peer, d) :: packets =>
      stop ← gets (shutdown ∘ plain);
      if stop : bool then mret tt
      else
        _ ← attempt (secure_handle_frame random (take 1024 d) (UdpLink peer));
        secure_udp_dispatch_loop packets
  end.

Fixpoint secure_tcp_client_loop (l : ClientLink) (frames : list (list Z * list Z)) (assigned : option Z) : M (option Z) :=
  match frames with
  | [] => mret assigned
  | (random, d) :: frames =>
      stop ← gets (shutdown ∘ plain);
      if stop : bool then mret assigned
      else
        r ← attempt (secure_handle_frame random d l);
        secure_tcp_client_loop l frames (match r with inl (Some ch) => Some ch | _ => assigned end)
  end.
Definition secure_tcp_client (l : ClientLink) (frames : list (list Z * list Z)) : M unit :=
  assigned ← secure_tcp_client_loop l frames None;
  _ ← match assigned with
      | Some ch => on_plain (modify (remove_session ch))
      | None => mret tt
      end;
  modify (λ s, set_entries (delete (ClientLink_peer_addr l) (secure_sessions s)) s).

Definition secure_send_to_session (c : ClientSession) (t : Telegram) (answers : list (option TunnellingAck)) : M unit :=
  frame ← lift (build_tunnelling_frame_with_code t (session_channel_id c) (send_seq c) LDataInd);
  frame ← maybe_encrypt frame (ClientLink_peer_addr (link c));
  on_plain (send_attempts 2 (session_channel_id c) (link c) frame (send_seq c) answers).
Fixpoint secure_send_to_all (cs : list ClientSession) (t : Telegram) (answers : Z → list (option TunnellingAck)) : M unit :=
  match cs with
  | [] => mret tt
  | c :: cs =>
      r ← attempt (secure_send_to_session c t (answers (session_channel_id c)));
      _ ← match r with
          | inl _ => mret tt
          | inr _ => on_plain (modify (remove_session (session_channel_id c)))
          end;
      secure_send_to_all cs t answers
  end.
Definition secure_TunnelServer_send (t : Telegram) (answers : Z → list (option TunnellingAck)) : M unit :=
  srv ← gets plain;
  secure_send_to_all ((map_to_list (sessions srv)).*2) t answers.
End handlers.
