(* ===== verification/SecureServerBehaviour.v ===== *)
(** The behaviour of the secure server of [SecureServer]: without a
    configuration it is the plain server; through an authenticated session it does
    what the plain server does; nobody is authenticated without the password; and
    what it does in the clear although it should not. *)
From stdpp Require Import relations.
From S2P Require Import Prelude Errors Address Apdu Telegram Cemi KnxIp Crypto SecureSession TunnelCore Server ServerBehaviour SecureServer.

Create HintDb as_plain discriminated.

(** * Without a configuration

    A computation of the secure server that acts as one of the plain server does
    as long as there is no secure session. *)
Section conservative.
Context {crypto : CryptoOps} `{Profile}.
Abbreviation M := (eff SecureServer KnxError).

Definition as_plain {A} (m' : M A) (m : eff TunnelServer KnxError A) : Prop :=
  ∀ s, secure_sessions s = ∅ → m' s = on_plain m s.

Lemma as_plain_on {A} (m : eff TunnelServer KnxError A) : as_plain (on_plain m) m.
Proof. done. Qed.
Lemma as_plain_lift {A} (r : outcome KnxError A) : as_plain (lift r) (lift r).
Proof. by intros []. Qed.
Lemma as_plain_ret {A} (a : A) : as_plain (mret a) (mret a).
Proof. by intros []. Qed.
Lemma as_plain_gets {A} (f : TunnelServer → A) : as_plain (gets (f ∘ plain)) (gets f).
Proof. by intros []. Qed.
Lemma as_plain_bind {A B} (m' : M A) m (f' : A → M B) f :
  as_plain m' m → (∀ a, as_plain (f' a) (f a)) → as_plain (m' ≫= f') (m ≫= f).
Proof.
  intros Hm Hf s Hs. rewrite eff_bind_run, Hm by done.
  unfold on_plain. rewrite eff_bind_run. destruct (m (plain s)) as [[a|e|] p]; [|done..].
  rewrite Hf by done. unfold on_plain. cbn [plain set_plain]. by destruct (f a p).
Qed.
Lemma as_plain_attempt {A} (m' : M A) m : as_plain m' m → as_plain (attempt m') (attempt m).
Proof. intros Hm s Hs. unfold attempt, on_plain. rewrite Hm by done. unfold on_plain. by destruct (m _) as [[]]. Qed.
Lemma as_plain_forget {A} peer (m' : M A) m : as_plain m' m →
  as_plain (_ ← modify (λ s, set_entries (delete peer (secure_sessions s)) s); m') m.
Proof.
  intros Hm s Hs. rewrite eff_bind_run. unfold modify. rewrite Hs, delete_empty, <-Hs.
  destruct s as [p c m0 i]. by apply Hm.
Qed.

Lemma as_plain_reply svc b l : as_plain (secure_send_reply svc b l) (send_reply svc b l).
Proof.
  unfold secure_send_reply, send_reply. apply as_plain_bind; [apply as_plain_lift|]. intros f s Hs.
  rewrite eff_bind_run. unfold maybe_encrypt. rewrite eff_bind_run. cbn [gets]. by rewrite Hs, lookup_empty.
Qed.
End conservative.

#[local] Hint Resolve as_plain_on as_plain_lift as_plain_ret as_plain_reply as_plain_attempt : as_plain.
#[local] Hint Extern 2 (as_plain (gets plain) (gets id)) => apply (as_plain_gets id) : as_plain.
#[local] Hint Extern 2 (as_plain (gets (shutdown ∘ plain)) (gets shutdown)) => apply (as_plain_gets shutdown) : as_plain.
Ltac as_plain :=
  repeat first
    [ progress cbv zeta
    | solve [auto with as_plain]
    | match goal with |- as_plain (modify _ ≫= _) (send_reply _ _ _) => apply as_plain_forget end
    | apply as_plain_bind; [|intros ?]
    | match goal with
      | |- as_plain (match ?x with _ => _ end) _ => destruct x eqn:?
      | |- as_plain _ (match ?x with _ => _ end) => destruct x eqn:?
      end ].

Section conservative_handlers.
Context {crypto : CryptoOps} `{Profile}.
Lemma as_plain_connect b l : as_plain (secure_handle_connect_request b l) (handle_connect_request b l).
Proof. unfold secure_handle_connect_request, handle_connect_request. as_plain. Qed.
Lemma as_plain_tunnelling b l : as_plain (secure_handle_tunnelling_request b l) (handle_tunnelling_request b l).
Proof. unfold secure_handle_tunnelling_request, handle_tunnelling_request. as_plain. Qed.
Lemma as_plain_connectionstate b l :
  as_plain (secure_handle_connectionstate_request b l) (handle_connectionstate_request b l).
Proof. unfold secure_handle_connectionstate_request, handle_connectionstate_request. as_plain. Qed.
Lemma as_plain_disconnect b l : as_plain (secure_handle_disconnect_request b l) (handle_disconnect_request b l).
Proof. unfold secure_handle_disconnect_request, handle_disconnect_request. as_plain. Qed.
#[local] Hint Resolve as_plain_connect as_plain_tunnelling as_plain_connectionstate as_plain_disconnect : as_plain.

Lemma as_plain_dispatch f l s : secure_config s = None → secure_sessions s = ∅ →
  secure_dispatch_plain_frame f l false s = on_plain (dispatch_plain_frame f l) s.
Proof.
  intros Hc Hs. unfold secure_dispatch_plain_frame. rewrite eff_bind_run. cbn [gets]. rewrite Hc.
  rewrite bool_decide_eq_false_2 by (by intros [? ?]). cbn [andb]. revert s Hc Hs.
  assert (∀ m' m, as_plain (A:=option Z) m' m → ∀ s, secure_config s = None → secure_sessions s = ∅ → m' s = on_plain m s) as Hgo by auto.
  apply Hgo. unfold dispatch_plain_frame. destruct (service_type (header f)); as_plain.
Qed.
End conservative_handlers.

Section unsecured.
Context {crypto : CryptoOps} `{Profile}.
(** Without a configuration a frame has the effect and the answer it has on the
    plain server, except that a malformed authentication is an error. *)
Lemma unsecured_frame random d l s : secure_config s = None → secure_sessions s = ∅ →
  let '(r, p) := handle_frame d l (plain s) in
  ∃ r', secure_handle_frame random d l s = (r', set_plain p s) ∧ (r' = r ∨ r = Ok None ∧ ∃ e, r' = Err e).
Proof.
  intros Hc Hs. pose proof (λ f, as_plain_dispatch f l s Hc Hs) as Hd.
  unfold secure_handle_frame, handle_frame. rewrite !eff_bind_run. cbn [lift].
  destruct (KnxIpFrame_parse d) as [f|e|]; [|by (destruct s; eexists; split; [done|by left])..].
  destruct (service_type (header f)) eqn:Ef.
  all: try (specialize (Hd f); rewrite Hd; unfold on_plain; destruct (dispatch_plain_frame f l (plain s)); eexists; split; [done|by left]).
  all: unfold dispatch_plain_frame; rewrite Ef; cbv [mret eff_ret].
  - rewrite eff_bind_run. cbn [gets]. rewrite Hs, lookup_empty. destruct s. eexists. split; [done|by left].
  - rewrite eff_bind_run. unfold handle_session_request. rewrite eff_bind_run. cbn [gets]. rewrite Hc.
    destruct s. eexists. split; [done|by left].
  - rewrite eff_bind_run. unfold handle_session_authenticate. rewrite eff_bind_run. cbn [lift].
    pose proof (SessionAuthenticate_parse_no_panic (body f)) as Hn.
    destruct (SessionAuthenticate_parse (body f)) as [auth|e|]; [| |done].
    + cbv zeta. rewrite eff_bind_run. cbn [gets]. rewrite Hs, lookup_empty. destruct s. eexists. split; [done|by left].
    + destruct s. eexists. split; [done|]. right. split; [done|]. by eexists.
Qed.

Lemma unsecured_udp packets s : secure_config s = None → secure_sessions s = ∅ →
  secure_udp_dispatch_loop packets s = on_plain (udp_dispatch_loop ((λ x, (x.1.2, x.2)) <$> packets)) s.
Proof.
  revert s. induction packets as [|[[random peer] d] packets IH]; intros s Hc Hs; [by destruct s|].
  rewrite fmap_cons. cbn [secure_udp_dispatch_loop udp_dispatch_loop fst snd]. unfold on_plain. rewrite !eff_bind_run.
  cbn [gets compose]. destruct (shutdown (plain s)) eqn:Esh; [by destruct s|]. rewrite !eff_bind_run. unfold attempt.
  pose proof (unsecured_frame random (take 1024 d) (UdpLink peer) s Hc Hs) as Hf.
  destruct (handle_frame (take 1024 d) (UdpLink peer) (plain s)) as [r p]. destruct Hf as (r' & -> & Hr).
  destruct Hr as [->|[-> [e ->]]]; [destruct r as [a|e|]; [| |done]|]; by rewrite IH.
Qed.
Lemma unsecured_tcp_loop l frames assigned s : secure_config s = None → secure_sessions s = ∅ →
  secure_tcp_client_loop l frames assigned s = on_plain (tcp_client_loop l (snd <$> frames) assigned) s.
Proof.
  revert assigned s. induction frames as [|[random d] frames IH]; intros assigned s Hc Hs; [by destruct s|].
  rewrite fmap_cons. cbn [secure_tcp_client_loop tcp_client_loop snd]. unfold on_plain. rewrite !eff_bind_run.
  cbn [gets compose]. destruct (shutdown (plain s)) eqn:Esh; [by destruct s|]. rewrite !eff_bind_run. unfold attempt.
  pose proof (unsecured_frame random d l s Hc Hs) as Hf.
  destruct (handle_frame d l (plain s)) as [r p]. destruct Hf as (r' & -> & Hr).
  destruct Hr as [->|[-> [e ->]]]; [destruct r as [a|e|]; [| |done]|]; by rewrite IH.
Qed.
End unsecured.

(** * Through a secure session

    [mirror s p]: but for the frames sent, the secure server [s] is in the state
    of the plain server [p]. *)
Definition with_sent (x : list (ClientLink * list Z)) (p : TunnelServer) : TunnelServer :=
  MkTunnelServer (server_addr p) (server_individual_address p) (sessions p) (shutdown p) (server_clock p)
    (next_oneshot p) (acks p) (published p) x (send_faults p).
Definition mirror (s : SecureServer) (p : TunnelServer) : Prop := with_sent [] (plain s) = with_sent [] p.

(** What is sent in place of a frame, given the secure sessions. *)
Definition secure_copy `{CryptoOps} (m : gmap SocketAddr SecureSessionEntry) (x : ClientLink * list Z) : ClientLink * list Z :=
  (x.1, match m !! ClientLink_peer_addr x.1 with
        | Some e => encrypted (entry_session e) x.2
        | None => x.2
        end).
Definition entries_ready (m : gmap SocketAddr SecureSessionEntry) : Prop :=
  map_Forall (λ _ e, session_ready (entry_session e)) m.

Section mirroring.
Context {crypto : CryptoOps} {laws : CryptoLaws} `{Profile}.
Context (m : gmap SocketAddr SecureSessionEntry) (x y : list (ClientLink * list Z)).
Abbreviation M := (eff SecureServer KnxError).

(** Before and after the one reply of a handler. *)
Definition before (s : SecureServer) (p : TunnelServer) : Prop :=
  mirror s p ∧ secure_sessions s = m ∧ sent (plain s) = x ∧ sent p = y.
Definition after (s : SecureServer) (p : TunnelServer) : Prop :=
  mirror s p ∧ ∃ outs, (length outs ≤ 1)%nat ∧ sent p = y ++ outs ∧ sent (plain s) = x ++ (secure_copy m <$> outs).
Lemma before_after s p : before s p → after s p.
Proof. intros (Hm & _ & Hx & Hy). split; [done|]. exists []. cbn. rewrite !app_nil_r. split_and!; [lia|done..]. Qed.

Definition simulates (P Q : SecureServer → TunnelServer → Prop) {A} (m' : M A) (m0 : eff TunnelServer KnxError A) : Prop :=
  ∀ s p, P s p → (m' s).1 = (m0 p).1 ∧ Q (m' s).2 (m0 p).2.

Lemma sim_bind (P Q F : SecureServer → TunnelServer → Prop) {A B} (m' : M A) m0 (f' : A → M B) f :
  simulates P Q m' m0 → (∀ s p, Q s p → F s p) → (∀ a, simulates Q F (f' a) (f a)) → simulates P F (m' ≫= f') (m0 ≫= f).
Proof.
  intros Hm HF Hf s p HP. destruct (Hm s p HP) as [E HQ]. rewrite !eff_bind_run.
  destruct (m' s) as [r s'], (m0 p) as [r0 p']. cbn [fst snd] in *. subst r0. destruct r as [a|e|]; [by apply Hf|by auto..].
Qed.
Lemma sim_weaken (P Q : SecureServer → TunnelServer → Prop) {A} (m' : M A) m0 :
  (∀ s p, P s p → Q s p) → simulates P P m' m0 → simulates P Q m' m0.
Proof. intros HPQ Hm s p HP. destruct (Hm s p HP). auto. Qed.
Lemma sim_lift P {A} (r : outcome KnxError A) : simulates P P (lift r) (lift r).
Proof. by intros s p. Qed.
Lemma sim_ret P {A} (a : A) : simulates P P (mret a) (mret a).
Proof. by intros s p. Qed.

(** A step that neither reads nor changes what was sent. *)
Definition silent (f : TunnelServer → TunnelServer) : Prop := ∀ z p, f (with_sent z p) = with_sent z (f p).
Lemma silent_sent f p : silent f → sent (f p) = sent p.
Proof.
  intros Hf. pose proof (Hf (sent p) p) as E. replace (with_sent (sent p) p) with p in E by (by destruct p).
  by rewrite E at 1.
Qed.
Lemma silent_mirror f s p : silent f → mirror s p → mirror (set_plain (f (plain s)) s) (f p).
Proof. intros Hf Hm. unfold mirror in *. cbn [plain set_plain]. by rewrite <-!Hf, Hm. Qed.
Lemma sim_before_modify f : silent f → simulates before before (on_plain (modify f)) (modify f).
Proof.
  intros Hf s p (Hm & He & Hx & Hy). cbn. split; [done|]. split_and!; [by apply silent_mirror|done|..]; cbn [plain set_plain snd]; by rewrite silent_sent.
Qed.
Lemma sim_after_modify f : silent f → simulates after after (on_plain (modify f)) (modify f).
Proof.
  intros Hf s p (Hm & outs & Ho & Hy & Hx). cbn. split; [done|]. split; [by apply silent_mirror|]. exists outs.
  split_and!; [done|..]; cbn [plain set_plain snd]; by rewrite silent_sent.
Qed.
Lemma silent_session ch c : silent (set_session ch c).
Proof. by intros z []. Qed.
Lemma silent_remove ch : silent (remove_session ch).
Proof. by intros z []. Qed.
Lemma silent_publish t : silent (publish t).
Proof. by intros z []. Qed.

Lemma sim_read {A} (f' : TunnelServer → M A) f F :
  (∀ z srv, simulates before F (f' (with_sent z srv)) (f srv)) → simulates before F (gets plain ≫= f') (gets id ≫= f).
Proof.
  intros Hf s p Hb. rewrite !eff_bind_run. cbn [gets id]. destruct Hb as (Hm & Hb).
  replace (f' (plain s)) with (f' (with_sent (sent (plain s)) p)); [apply Hf; by split|].
  f_equal. apply (f_equal (with_sent (sent (plain s)))) in Hm. by destruct (plain s), p.
Qed.

Lemma sim_send l f f' : (secure_copy m (l, f)).2 = f' → ∀ s p,
  mirror s p → sent (plain s) = x → sent p = y →
  (on_plain (ClientLink_send_frame l f') s).1 = (ClientLink_send_frame l f p).1 ∧
  after (on_plain (ClientLink_send_frame l f') s).2 (ClientLink_send_frame l f p).2.
Proof.
  intros Hf s p Hm Hx Hy. assert (send_faults (plain s) = send_faults p) as Ef by (by apply (f_equal send_faults) in Hm).
  unfold on_plain, ClientLink_send_frame. rewrite !eff_bind_run. cbn [gets]. rewrite Ef, !eff_bind_run. cbn [modify].
  assert (mirror (set_plain (set_faults (tail (send_faults p)) (plain s)) s) (set_faults (tail (send_faults p)) p)) as Hm'
    by (apply silent_mirror; [by intros z []|done]).
  destruct (default None (head (send_faults p))) as [e|]; cbn [throw modify fst snd]; (split; [done|]).
  - split; [done|]. exists []. cbn. rewrite !app_nil_r. split_and!; [lia|done..].
  - split; [exact Hm'|]. exists [(l, f)]. cbn [log_sent set_faults sent plain set_plain length fmap list_fmap].
    split_and!; [lia|by rewrite Hy|]. rewrite Hx. by rewrite <-Hf.
Qed.

Hypothesis Hready : entries_ready m.
Lemma sim_reply svc b l : simulates before after (secure_send_reply svc b l) (send_reply svc b l).
Proof.
  intros s p Hb. unfold secure_send_reply, send_reply. rewrite !eff_bind_run. cbn [lift].
  destruct (KnxIpFrame_new svc b) as [f|e|]; [|split; [done|by apply before_after]..].
  destruct Hb as (Hm & He & Hx & Hy). rewrite eff_bind_run. unfold maybe_encrypt. rewrite eff_bind_run. cbn [gets]. rewrite He.
  destruct (m !! ClientLink_peer_addr l) as [e|] eqn:El.
  - unfold on_session. rewrite encrypt_frame_run by (apply (Hready _ _ El)). cbv beta iota.
    apply sim_send; [|done..]. unfold secure_copy. cbn [fst snd]. by rewrite El.
  - cbn [mret eff_ret]. apply sim_send; [|done..]. unfold secure_copy. cbn [fst snd]. by rewrite El.
Qed.
End mirroring.

Create HintDb mirror discriminated.
#[local] Hint Resolve sim_lift sim_ret sim_reply sim_before_modify sim_after_modify
  silent_session silent_remove silent_publish before_after : mirror.
#[local] Hint Extern 2 (simulates (before _ _ _) (after _ _ _) _ _) => (apply sim_weaken; [apply before_after|]) : mirror.
Ltac mirroring :=
  repeat first
    [ progress (cbv zeta; cbn [sessions server_clock server_addr server_individual_address with_sent])
    | solve [eauto with mirror]
    | apply sim_read; intros ? ?
    | eapply sim_bind; [solve [eauto with mirror]|solve [auto with mirror]|intros ?]
    | match goal with
      | |- simulates _ _ (match ?a with _ => _ end) _ => destruct a eqn:?
      end ].

Section mirror_handlers.
Context {crypto : CryptoOps} {laws : CryptoLaws} `{Profile}.
Context (m : gmap SocketAddr SecureSessionEntry) (x y : list (ClientLink * list Z)) (Hready : entries_ready m).

Lemma mirror_connect b l :
  simulates (before m x y) (after m x y) (secure_handle_connect_request b l) (handle_connect_request b l).
Proof. unfold secure_handle_connect_request, handle_connect_request. mirroring. Qed.
Lemma mirror_tunnelling b l :
  simulates (before m x y) (after m x y) (secure_handle_tunnelling_request b l) (handle_tunnelling_request b l).
Proof. unfold secure_handle_tunnelling_request, handle_tunnelling_request. mirroring. Qed.
Lemma mirror_connectionstate b l :
  simulates (before m x y) (after m x y) (secure_handle_connectionstate_request b l) (handle_connectionstate_request b l).
Proof.
  unfold secure_handle_connectionstate_request, handle_connectionstate_request. mirroring.
  apply (sim_bind _ (before m x y)); [|auto with mirror|intros [status reply_link]; mirroring]. mirroring.
Qed.

(** An acknowledgement sends nothing. *)
Lemma mirror_ack b : simulates (before m x y) (before m x y) (on_plain (handle_tunnelling_ack b)) (handle_tunnelling_ack b).
Proof.
  destruct (TunnellingAck_parse b) as [ack|e|] eqn:Eb; cycle 1.
  1,2: intros s p Hb; unfold on_plain, handle_tunnelling_ack; rewrite !eff_bind_run; cbn [lift]; rewrite Eb; by destruct s.
  assert (∃ f, silent f ∧ ∀ p, handle_tunnelling_ack b p = (Ok tt, f p)) as (f & Hf & E).
  { exists (λ p, match sessions p !! ack_channel_id ack ≫= λ c, (c,.) <$> pending_ack c with
                 | Some (c, tx) => set_oneshot (next_oneshot p) (<[tx := ack]> (acks p)) (set_session (ack_channel_id ack) (set_pending None c) p)
                 | None => p
                 end).
    split.
    - intros z p. cbn [sessions with_sent]. by destruct (sessions p !! _ ≫= _) as [[c tx]|].
    - intros p. unfold handle_tunnelling_ack. rewrite eff_bind_run. cbn [lift]. rewrite Eb, eff_bind_run. cbn [gets id].
      destruct (sessions p !! ack_channel_id ack) as [c|]; [|done]. cbn. by destruct (pending_ack c). }
  intros s p Hb. pose proof (sim_before_modify m x y f Hf s p Hb) as [_ Hs]. unfold on_plain in *. rewrite !E. done.
Qed.
End mirror_handlers.

(** The dispatch of every frame but a disconnect, and the wrapper around it. *)
Definition no_disconnect (f : list Z) : Prop :=
  ∀ k, KnxIpFrame_parse f = Ok k → service_type (header k) ≠ ServiceType.DisconnectRequest.

Section wrapped.
Context {crypto : CryptoOps} {laws : CryptoLaws} `{Profile}.

Lemma mirror_dispatch m x y k l : entries_ready m → service_type (header k) ≠ ServiceType.DisconnectRequest →
  simulates (before m x y) (after m x y) (secure_dispatch_plain_frame k l true) (dispatch_plain_frame k l).
Proof.
  intros Hm Hd. intros s p Hb. unfold secure_dispatch_plain_frame. rewrite eff_bind_run. cbn [gets negb]. rewrite andb_false_r.
  revert s p Hb. unfold dispatch_plain_frame.
  assert (∀ (m' : eff SecureServer KnxError (option Z)) m0, simulates (before m x y) (after m x y) m' m0 →
    ∀ s p, before m x y s p → (m' s).1 = (m0 p).1 ∧ after m x y (m' s).2 (m0 p).2) as Hgo by auto. apply Hgo. clear Hgo.
  destruct (service_type (header k)); try done.
  all: try (apply sim_weaken; [apply before_after|apply sim_ret]).
  - by apply mirror_connect.
  - apply (sim_bind _ (after m x y)); [by apply mirror_connectionstate|done|intros _; apply sim_ret].
  - apply (sim_bind _ (after m x y)); [by apply mirror_tunnelling|done|intros _; apply sim_ret].
  - apply (sim_bind _ (before m x y)); [by apply mirror_ack|apply before_after|intros _; apply sim_weaken; [apply before_after|apply sim_ret]].
Qed.

Lemma length_encrypted_mac key add p sq : length key = 16%nat → length sq = 6%nat →
  length (default [] (result_ok (calculate_mac_cbc key add p
    (frame_block_0 sq DEVICE_SERIAL_NUMBER MESSAGE_TAG_TUNNELLING (length p))))) = 16%nat.
Proof.
  intros Hk Hs. destruct (mac_Ok key add p (frame_block_0 sq DEVICE_SERIAL_NUMBER MESSAGE_TAG_TUNNELLING (length p)))
    as (mac & -> & Hm); [done|by apply length_block_0|done].
Qed.
Lemma encrypted_frame c f : session_ready c → Z.of_nat (length f) ≤ 65497 →
  ∃ b, encrypted c f = frame_bytes ServiceType.SecureWrapper b ∧ length b = (32 + length f)%nat.
Proof.
  intros (Hi & Hk & Hid) Hf. unfold encrypted. cbv zeta. set (mac := default [] _).
  assert (length mac = 16%nat) as Hm by (apply length_encrypted_mac; [done|apply length_to_be]).
  set (d := apply_keystream _ _ 16 f). set (t := apply_keystream _ _ 0 mac).
  assert (length d = length f) as Hd by apply length_apply_keystream.
  assert (length t = 16%nat) as Ht by (unfold t; by rewrite length_apply_keystream).
  exists (to_be16 (ss_session_id c) ++ to_be 6 (ss_sequence_number c) ++ DEVICE_SERIAL_NUMBER ++ MESSAGE_TAG_TUNNELLING ++ d ++ t).
  assert (∀ b, length b = (32 + length f)%nat →
    frame_bytes ServiceType.SecureWrapper b = ([0x06; 0x10; 0x09; 0x50] ++ to_be16 (as_u16 (Z.of_nat (38 + length f)))) ++ b) as E.
  { intros b Hb. unfold frame_bytes, KnxIpFrame_serialize, KnxIpHeader_serialize. cbn [header body header_length protocol_version service_type total_length].
    rewrite as_u16_small by (unfold u16_ok; lia). rewrite Hb. replace (6 + Z.of_nat (32 + length f)) with (Z.of_nat (38 + length f)) by lia. done. }
  assert (length (to_be16 (ss_session_id c) ++ to_be 6 (ss_sequence_number c) ++ DEVICE_SERIAL_NUMBER ++ MESSAGE_TAG_TUNNELLING ++ d ++ t)
    = (32 + length f)%nat) as Hb by (rewrite !length_app, length_to_be, Hd, Ht; cbn; lia).
  split; [|done]. rewrite E by done. done.
Qed.
Lemma parse_encrypted c f : session_ready c → Z.of_nat (length f) ≤ 65497 →
  ∃ k, KnxIpFrame_parse (encrypted c f) = Ok k ∧ service_type (header k) = ServiceType.SecureWrapper.
Proof.
  intros Hc Hf. destruct (encrypted_frame c f Hc Hf) as (b & -> & Hb).
  destruct (frame_bytes_parse ServiceType.SecureWrapper b) as (k & E & Es & _); [lia|]. by exists k.
Qed.

Lemma entries_ready_insert m peer e : entries_ready m → session_ready (entry_session e) → entries_ready (<[peer := e]> m).
Proof. intros Hm He. by apply map_Forall_insert_2. Qed.

(** The entry of a peer after a frame with a number was accepted. *)
Definition received_entry (n : Z) (e : SecureSessionEntry) : SecureSessionEntry :=
  MkEntry (set_received n (entry_session e)) (client_public_key e).

Lemma wrapped_frame random f l e c s p :
  secure_sessions s !! ClientLink_peer_addr l = Some e → is_authenticated (entry_session e) = true →
  paired c (entry_session e) → 0 ≤ ss_sequence_number c < 2 ^ 48 →
  fresh (ss_sequence_number c) (ss_sequence_number_received (entry_session e)) → Z.of_nat (length f) ≤ 65497 →
  entries_ready (secure_sessions s) → mirror s p → no_disconnect f →
  ∃ s', secure_handle_frame random (encrypted c f) l s = ((handle_frame f l p).1, s') ∧
    after (<[ClientLink_peer_addr l := received_entry (ss_sequence_number c) e]> (secure_sessions s)) (sent (plain s)) (sent p)
      s' (handle_frame f l p).2.
Proof.
  intros He Ha Hp Hn Hfr Hf Hm Hmir Hnd. destruct (parse_encrypted c f (proj1 Hp) Hf) as (k & Ek & Es).
  set (m := <[_ := _]> _).
  assert (before m (sent (plain s)) (sent p) (set_entries m s) p) as Hb by done.
  assert (entries_ready m) as Hr by (apply entries_ready_insert; [done|exact (Hm _ _ He)]).
  unfold secure_handle_frame. rewrite eff_bind_run. cbn [lift]. rewrite Ek, Es. cbv zeta. rewrite eff_bind_run. cbn [gets].
  rewrite He, Ha. cbn [negb]. rewrite eff_bind_run. unfold on_session. rewrite decrypt_encrypted by done. cbv beta iota.
  rewrite eff_bind_run. cbn [lift]. unfold handle_frame. rewrite eff_bind_run. cbn [lift].
  destruct (KnxIpFrame_parse f) as [k'|err|] eqn:Ef; [|by (eexists; split; [done|by apply before_after])..].
  destruct (mirror_dispatch m _ _ k' l Hr (Hnd k' Ef) _ _ Hb) as [E Haf].
  rewrite <-E. eexists. split; [apply surjective_pairing|exact Haf].
Qed.
End wrapped.

(** ** What replies change in the secure sessions *)
Definition recounted (s s' : SecureSession) : Prop := ∃ n, s' = set_sequence n s.
Definition recounted_entry (e e' : SecureSessionEntry) : Prop :=
  recounted (entry_session e) (entry_session e') ∧ client_public_key e' = client_public_key e.
(** Only counters of sent frames differ. *)
Definition counted (s s' : SecureServer) : Prop :=
  ∀ peer, option_Forall2 recounted_entry (secure_sessions s !! peer) (secure_sessions s' !! peer).

#[global] Instance recounted_preorder : PreOrder recounted.
Proof.
  split; [intros s; exists (ss_sequence_number s); by destruct s|]. intros s1 s2 s3 [n ->] [k ->]. by exists k.
Qed.
#[global] Instance recounted_entry_preorder : PreOrder recounted_entry.
Proof. split; [by intros e|]. intros e1 e2 e3 [H1 E1] [H2 E2]. split; [by etrans|congruence]. Qed.
#[global] Instance counted_preorder : PreOrder counted.
Proof. split; [by intros s peer|]. intros s1 s2 s3 H1 H2 peer. etrans; [apply H1|apply H2]. Qed.

Section counting.
Context {crypto : CryptoOps} `{Profile}.

Lemma encrypt_frame_recounted f : preserves recounted (encrypt_frame f).
Proof.
  assert (∀ n, preserves recounted (modify (set_sequence n) : eff SecureSession KnxError unit)) as Hset by (intros n s; by exists n).
  unfold encrypt_frame, get_next_sequence_number. cbv zeta.
  repeat (preserves_step || match goal with |- preserves _ (let '(_, _) := ?a in _) => destruct a end || apply Hset).
Qed.
Lemma on_plain_counted {A} (m : eff TunnelServer KnxError A) : preserves counted (on_plain m).
Proof. intros s peer. unfold on_plain. by destruct (m _). Qed.
Lemma maybe_encrypt_counted f peer : preserves counted (maybe_encrypt f peer).
Proof.
  intros s. unfold maybe_encrypt. rewrite eff_bind_run. cbn [gets].
  destruct (secure_sessions s !! peer) as [e|] eqn:Ee; [|by apply counted_preorder].
  unfold on_session. pose proof (encrypt_frame_recounted f (entry_session e)) as He. destruct (encrypt_frame f _) as [r s'].
  intros k. cbn. destruct (decide (k = peer)) as [->|]; [|by rewrite lookup_insert_ne].
  rewrite lookup_insert_eq, Ee. by constructor.
Qed.
#[local] Hint Resolve on_plain_counted maybe_encrypt_counted : preserves.
Lemma secure_send_reply_counted svc b l : preserves counted (secure_send_reply svc b l).
Proof. unfold secure_send_reply. repeat preserves_step. Qed.
#[local] Hint Resolve secure_send_reply_counted : preserves.
Lemma secure_dispatch_counted k l enc : service_type (header k) ≠ ServiceType.DisconnectRequest →
  preserves counted (secure_dispatch_plain_frame k l enc).
Proof.
  intros Hd. unfold secure_dispatch_plain_frame, secure_handle_connect_request, secure_handle_tunnelling_request,
    secure_handle_connectionstate_request.
  destruct (service_type (header k)); cbv zeta; try done; repeat preserves_step.
Qed.
End counting.

(** * Streams of frames through a secure session *)
Definition same_keys (e e' : SecureSessionEntry) : Prop :=
  ss_session_key (entry_session e') = ss_session_key (entry_session e) ∧
  ss_session_id (entry_session e') = ss_session_id (entry_session e).
(** What was sent is what the plain server sent, encrypted for the peers with a
    secure session under some number. *)
Definition carried `{CryptoOps} (m : gmap SocketAddr SecureSessionEntry) (o' o : ClientLink * list Z) : Prop :=
  o'.1 = o.1 ∧ match m !! ClientLink_peer_addr o.1 with
               | Some e => ∃ n, o'.2 = encrypted (set_sequence n (entry_session e)) o.2
               | None => o'.2 = o.2
               end.

Section stream.
Context {crypto : CryptoOps} {laws : CryptoLaws} `{Profile}.
Context (m0 : gmap SocketAddr SecureSessionEntry) (l : ClientLink).
Abbreviation peer := (ClientLink_peer_addr l).

Record stream_at (c : SecureSession) (s : SecureServer) (p : TunnelServer) : Prop := {
  st_mirror : mirror s p;
  st_ready : entries_ready (secure_sessions s);
  st_keys : ∀ k, option_Forall2 same_keys (m0 !! k) (secure_sessions s !! k);
  st_entry : ∃ e, secure_sessions s !! peer = Some e ∧ is_authenticated (entry_session e) = true ∧ paired c (entry_session e) ∧
    fresh (ss_sequence_number c) (ss_sequence_number_received (entry_session e));
}.

Lemma encrypted_ext s s' f : ss_session_key s' = ss_session_key s → ss_session_id s' = ss_session_id s →
  encrypted s' f = encrypted (set_sequence (ss_sequence_number s') s) f.
Proof. intros Hk Hi. unfold encrypted. cbn [ss_session_key ss_session_id ss_sequence_number set_sequence]. by rewrite Hk, Hi. Qed.
Lemma carried_copy (m : gmap SocketAddr SecureSessionEntry) o : (∀ k, option_Forall2 same_keys (m0 !! k) (m !! k)) → carried m0 (secure_copy m o) o.
Proof.
  intros Hm. split; [done|]. unfold secure_copy. cbn [snd]. specialize (Hm (ClientLink_peer_addr o.1)).
  destruct Hm as [e e' [Hk Hi]|]; [|done]. exists (ss_sequence_number (entry_session e')). by apply encrypted_ext.
Qed.

Lemma keys_received (m : gmap SocketAddr SecureSessionEntry) e n : (∀ k, option_Forall2 same_keys (m0 !! k) (m !! k)) → m !! peer = Some e →
  ∀ k, option_Forall2 same_keys (m0 !! k) (<[peer := received_entry n e]> m !! k).
Proof.
  intros Hm He k. specialize (Hm k). destruct (decide (k = peer)) as [->|]; [|by rewrite lookup_insert_ne].
  rewrite lookup_insert_eq. rewrite He in Hm. inversion Hm; subst. by constructor.
Qed.
(** What follows the acceptance of a frame only moves counters. *)
Lemma wrapped_counted random f c e s : session_ready c → Z.of_nat (length f) ≤ 65497 → secure_sessions s !! peer = Some e →
  is_authenticated (entry_session e) = true → paired c (entry_session e) → 0 ≤ ss_sequence_number c < 2 ^ 48 →
  fresh (ss_sequence_number c) (ss_sequence_number_received (entry_session e)) → no_disconnect f →
  counted (set_entries (<[peer := received_entry (ss_sequence_number c) e]> (secure_sessions s)) s)
    (secure_handle_frame random (encrypted c f) l s).2.
Proof.
  intros Hc Hf He Ha Hp Hn Hfr Hnd. destruct (parse_encrypted c f Hc Hf) as (k & Ek & Es).
  unfold secure_handle_frame. rewrite eff_bind_run. cbn [lift]. rewrite Ek, Es. cbv zeta. rewrite eff_bind_run. cbn [gets].
  rewrite He, Ha. cbn [negb]. rewrite eff_bind_run. unfold on_session. rewrite decrypt_encrypted by done. cbv beta iota.
  rewrite eff_bind_run. cbn [lift]. destruct (KnxIpFrame_parse f) as [k'|err|] eqn:Ef; [|by apply counted_preorder..].
  by apply secure_dispatch_counted, Hnd.
Qed.

Lemma stream_step random f c s p : stream_at c s p → 0 ≤ ss_sequence_number c < 2 ^ 48 → Z.of_nat (length f) ≤ 65497 →
  no_disconnect f →
  ∃ s' outs' outs, secure_handle_frame random (encrypted c f) l s = ((handle_frame f l p).1, s') ∧
    stream_at (set_sequence (ss_sequence_number c + 1) c) s' (handle_frame f l p).2 ∧
    sent (handle_frame f l p).2 = sent p ++ outs ∧ sent (plain s') = sent (plain s) ++ outs' ∧ Forall2 (carried m0) outs' outs.
Proof.
  intros [Hm Hr Hk (e & He & Ha & Hp & Hfr)] Hn Hf Hnd.
  destruct (wrapped_frame random f l e c s p) as (s' & E & Hm' & outs & _ & Hy & Hx); [done..|].
  pose proof (wrapped_counted random f c e s (proj1 Hp) Hf He Ha Hp Hn Hfr Hnd) as Hc. rewrite E in Hc. cbn [snd] in Hc.
  set (m := <[peer := received_entry (ss_sequence_number c) e]> (secure_sessions s)) in *.
  assert (∀ k, option_Forall2 same_keys (m0 !! k) (m !! k)) as Hkm by (by apply keys_received).
  assert (entries_ready m) as Hrm by (apply entries_ready_insert; [done|exact (Hr _ _ He)]).
  eexists s', _, outs. split_and!; [done| |done|done|]; cycle 1.
  { apply Forall2_fmap_l, Forall_Forall2_diag, Forall_forall. intros o _. by apply carried_copy. }
  split; [done| | |].
  - intros k e' He'. specialize (Hc k). rewrite He' in Hc. cbn [secure_sessions set_entries] in Hc.
    inversion Hc as [e1 e2 [[n Hs] _] E1|]; subst. rewrite Hs. exact (Hrm k e1 (eq_sym E1)).
  - intros k. specialize (Hc k). specialize (Hkm k). cbn [secure_sessions set_entries] in Hc.
    destruct Hc as [e1 e2 [[n Hs] _]|]; inversion Hkm as [e3 e4 [H1 H2]|]; subst; constructor. unfold same_keys. by rewrite Hs.
  - specialize (Hc peer). cbn [secure_sessions set_entries] in Hc. unfold m in Hc. rewrite lookup_insert_eq in Hc.
    inversion Hc as [e1 e2 [[n Hs] _] E1 E2|]; subst. exists e2. split; [done|]. rewrite Hs. split_and!; [done|done|].
    left. cbn. lia.
Qed.

(** The packets of a client whose payloads are [fs], with the secrets the server
    would draw for each. *)
Definition wrapped_packets (c : SecureSession) (randoms fs : list (list Z)) : list (list Z * SocketAddr * list Z) :=
  zip_with (λ random f, (random, peer, f)) randoms (encrypted_all c fs).
Lemma wrapped_packets_cons c random randoms f fs :
  wrapped_packets c (random :: randoms) (f :: fs) =
  (random, peer, encrypted c f) :: wrapped_packets (set_sequence (ss_sequence_number c + 1) c) randoms fs.
Proof. unfold wrapped_packets. by rewrite encrypted_all_cons. Qed.
Lemma length_encrypted c f : session_ready c → Z.of_nat (length f) ≤ 65497 → length (encrypted c f) = (38 + length f)%nat.
Proof. intros Hc Hf. destruct (encrypted_frame c f Hc Hf) as (b & -> & Hb). cbn. rewrite Hb. lia. Qed.

Lemma stream_loop fs : ∀ randoms c s p, l = UdpLink peer → stream_at c s p → length randoms = length fs →
  0 ≤ ss_sequence_number c → ss_sequence_number c + Z.of_nat (length fs) ≤ 2 ^ 48 →
  Forall (λ f, Z.of_nat (length f) ≤ 986 ∧ no_disconnect f) fs →
  let '(r, p') := udp_dispatch_loop ((peer,.) <$> fs) p in
  ∃ s' outs' outs, secure_udp_dispatch_loop (wrapped_packets c randoms fs) s = (r, s') ∧ mirror s' p' ∧
    sent p' = sent p ++ outs ∧ sent (plain s') = sent (plain s) ++ outs' ∧ Forall2 (carried m0) outs' outs.
Proof.
  induction fs as [|f fs IH]; intros [|random randoms] c s p Hl Hs Hr H0 Hn Hfs; try done.
  { exists s, [], []. rewrite !app_nil_r. split_and!; [done|apply Hs|done..|constructor]. }
  apply Forall_cons in Hfs as [[Hf Hnd] Hfs]. rewrite wrapped_packets_cons, fmap_cons. cbn [length] in *.
  cbn [secure_udp_dispatch_loop udp_dispatch_loop]. rewrite !eff_bind_run. cbn [gets compose].
  assert (shutdown (plain s) = shutdown p) as -> by (by apply (f_equal shutdown (st_mirror _ _ _ Hs))).
  destruct (shutdown p) eqn:Esh.
  { exists s, [], []. rewrite !app_nil_r. split_and!; [done|apply Hs|done..|constructor]. }
  rewrite !eff_bind_run. unfold attempt. pose proof (st_entry _ _ _ Hs) as (e & _ & _ & Hp & _).
  rewrite (take_ge (encrypted c f)) by (rewrite length_encrypted by (apply Hp || lia); lia). rewrite take_ge by lia.
  rewrite <-!Hl. destruct (stream_step random f c s p Hs) as (s1 & outs1' & outs1 & E & Hs1 & Hy1 & Hx1 & Ho1); [lia..|done|].
  rewrite E. destruct (handle_frame f l p) as [r p1]. cbn [fst snd] in *.
  destruct r as [a|err|]; [| |exists s1, outs1', outs1; split_and!; [done|apply Hs1|done..]].
  all: specialize (IH randoms _ s1 p1 Hl Hs1 ltac:(lia)); cbn [ss_sequence_number set_sequence] in IH;
    specialize (IH ltac:(lia) ltac:(lia) Hfs); destruct (udp_dispatch_loop _ p1) as [r2 p2];
    destruct IH as (s2 & outs2' & outs2 & E2 & Hm2 & Hy2 & Hx2 & Ho2);
    exists s2, (outs1' ++ outs2'), (outs1 ++ outs2); rewrite E2, Hy2, Hx2, Hy1, Hx1, <-!app_assoc;
    split_and!; [done..|by apply Forall2_app].
Qed.
End stream.

(** * The handshake *)
Section handshake.
Context {crypto : CryptoOps} {laws : CryptoLaws} `{Profile}.
Implicit Types cfg : SessionConfig.

Definition keys_with (b pk : list Z) : list Z := zip_with Z.lxor (x25519_public b) pk.
Lemma keys_with_run b pk : length pk = 32%nat → bytes_xor (x25519_public b) pk = Ok (keys_with b pk).
Proof. intros Hk. apply bytes_xor_Ok. by rewrite x25519_public_length. Qed.

(** The code by which a client with a public key shows a server with a secret
    that it has the password. *)
Definition password_code cfg (b pk : list Z) : list Z :=
  handshake_code (derive_user_password (cfg_user_password cfg)) (authenticate_data (cfg_user_id cfg) (keys_with b pk)).

(** A session the server opened with the secret [b], and what it goes through. *)
Record opened cfg (b : list Z) (s : SecureSession) : Prop := {
  op_pair : ss_key_pair s = Some (EcdhKeyPair_generate b);
  op_password : ss_user_password s = derive_user_password (cfg_user_password cfg);
  op_user : ss_user_id s = cfg_user_id cfg;
  op_ready : session_ready s;
}.
Lemma opened_sequence cfg b n s : opened cfg b s → opened cfg b (set_sequence n s).
Proof. by intros []. Qed.
Lemma opened_received cfg b n s : opened cfg b s → opened cfg b (set_received n s).
Proof. by intros []. Qed.
Lemma opened_state cfg b st s : opened cfg b s → opened cfg b (set_session_state st s).
Proof. by intros []. Qed.

Lemma verify_opened cfg b pk u mac s : opened cfg b s → length pk = 32%nat →
  verify_authenticate_mac pk u mac s =
  if bool_decide (u = cfg_user_id cfg ∧ mac = password_code cfg b pk)
  then (Ok true, set_session_state Authenticated s) else (Ok false, s).
Proof.
  intros [Hp Hw Hu _] Hk. unfold verify_authenticate_mac. rewrite eff_bind_run. cbn [gets id]. rewrite Hu.
  destruct (u =? cfg_user_id cfg) eqn:Eu; to_arith; cbn [negb]; [|by rewrite bool_decide_eq_false_2 by naive_solver].
  subst u. rewrite Hp, Hw. rewrite eff_bind_run. cbn [lift ok_or]. rewrite eff_bind_run.
  cbn [public_key EcdhKeyPair_generate lift]. rewrite keys_with_run by done. rewrite eff_bind_run. cbn [lift].
  rewrite handshake_mac_run by apply pbkdf2_length. rewrite eff_bind_run. cbn [lift].
  rewrite handshake_decrypt by apply pbkdf2_length. case_decide as E.
  - rewrite bool_decide_eq_true_2; [done|]. split; [done|]. by apply handshake_code_spec.
  - rewrite bool_decide_eq_false_2; [done|]. intros [_ Em]. by apply E, handshake_code_spec.
Qed.

(** Opening a session with any public key of the right length. *)
Lemma request_opened cfg b pk id : length pk = 32%nat → u16_ok id →
  ∃ mac s, process_session_request pk id (started cfg b) = (Ok mac, s) ∧ length mac = 16%nat ∧ opened cfg b s ∧
    is_authenticated s = false ∧ ss_session_id s = id.
Proof.
  intros Hk Hid. unfold process_session_request. rewrite eff_bind_run. cbn [gets Datatypes.id]. rewrite eff_bind_run.
  cbn [lift ok_or ss_key_pair started set_session_state set_key_pair]. rewrite eff_bind_run. cbn [modify].
  rewrite eff_bind_run. unfold install_key, EcdhKeyPair_exchange, sha256_hash. rewrite eff_bind_run. cbn [private_key EcdhKeyPair_generate lift].
  set (h := sha256 _). assert (length h = 32%nat) as Hh by apply sha256_length.
  rewrite (proj2 (slice_Ok h 0 16 (take 16 h))) by (rewrite Hh; split; [lia|done]). cbn [modify].
  set (s := set_session_key _ _). assert (opened cfg b s) as Hs.
  { split; [done..|]. split_and!; [done| |done]. cbn. rewrite length_take, Hh. done. }
  unfold started, SecureSession_new. cbn [ss_device_auth_code set_session_state set_key_pair].
  destruct (cfg_device_auth_password cfg) as [p|]; cbn [fmap option_fmap option_map].
  - rewrite eff_bind_run. cbn [public_key EcdhKeyPair_generate lift]. rewrite keys_with_run by done.
    rewrite eff_bind_run. cbn [lift]. rewrite handshake_mac_run by apply pbkdf2_length. rewrite eff_bind_run. cbn [lift].
    rewrite handshake_encrypt by apply pbkdf2_length. eexists _, s. split_and!; [done| |done..].
    unfold handshake_code. rewrite length_apply_keystream. unfold handshake_mac.
    edestruct (mac_Ok (derive_device_authentication_password p)) as (m & -> & Hm); [apply pbkdf2_length|done|done].
  - by eexists _, s.
Qed.

(** A session request with a key of the right length, whoever sends it. *)
Lemma session_request_key b req : SessionRequest_parse b = Ok req → length (sreq_public_key req) = 32%nat.
Proof.
  intros Hb. unfold SessionRequest_parse, SessionRequest_LENGTH, Hpai_LENGTH in Hb. destruct (Nat.ltb _ _) eqn:El; [done|]. inv_binds. subst. cbn.
  match goal with Hs : slice _ _ _ = Ok _ |- _ => apply slice_Ok in Hs as [? ->] end. rewrite length_take, length_drop. lia.
Qed.
Definition insert_entry (peer : SocketAddr) (e : SecureSessionEntry) (s : SecureServer) : SecureServer :=
  set_entries (<[peer := e]> (secure_sessions s)) s.
Definition session_response (id : Z) (random mac : list Z) : list Z :=
  frame_bytes ServiceType.SessionResponse (SessionResponse_serialize (MkSessionResponse id (x25519_public random) mac)).
Lemma session_request_run cfg random b l req s : secure_config s = Some cfg → SessionRequest_parse b = Ok req →
  u16_ok (next_secure_session_id s) →
  ∃ mac session, opened cfg random session ∧ is_authenticated session = false ∧ length mac = 16%nat ∧
    process_session_request (sreq_public_key req) (next_secure_session_id s) (started cfg random) = (Ok mac, session) ∧
    handle_session_request random b l s =
      (_ ← on_plain (ClientLink_send_frame l (session_response (next_secure_session_id s) random mac));
       modify (insert_entry (ClientLink_peer_addr l) (MkEntry session (sreq_public_key req))))
      (set_next_id (as_u16 (next_secure_session_id s + 1)) s).
Proof.
  intros Hc Hb Hid. pose proof (session_request_key b req Hb) as Hk.
  destruct (request_opened cfg random _ _ Hk Hid) as (mac & session & E & Hm & Ho & Ha & _).
  exists mac, session. split_and!; [done..|]. unfold handle_session_request. rewrite eff_bind_run. cbn [gets]. rewrite Hc.
  rewrite eff_bind_run. cbn [lift]. rewrite Hb. rewrite initialize_run. rewrite eff_bind_run. cbn [lift].
  rewrite x25519_public_length, Nat.eqb_refl. rewrite eff_bind_run. cbv [mret eff_ret]. cbv beta iota.
  rewrite eff_bind_run. cbn [gets]. rewrite eff_bind_run. unfold modify at 1. rewrite E, eff_bind_run. cbn [lift].
  rewrite Hm, Nat.eqb_refl. rewrite eff_bind_run. cbv beta iota. rewrite eff_bind_run. cbn [lift].
  assert (length (SessionResponse_serialize (MkSessionResponse (next_secure_session_id s) (x25519_public random) mac)) = 50%nat) as Hlen
    by (unfold SessionResponse_serialize; rewrite !length_app; cbn; rewrite x25519_public_length, Hm; done).
  rewrite KnxIpFrame_new_Ok by (rewrite Hlen; lia). done.
Qed.

(** An authentication, for a peer with a session of the server. *)
Definition session_status (ok : bool) : list Z :=
  frame_bytes ServiceType.SessionStatus (SessionStatus_serialize (MkSessionStatus (if ok then SESSION_STATUS_OK else STATUS_AUTH_FAILED))).
Definition authenticated_entry (e : SecureSessionEntry) : SecureSessionEntry :=
  MkEntry (set_session_state Authenticated (entry_session e)) (client_public_key e).
Lemma session_authenticate_run cfg b body l auth e s : SessionAuthenticate_parse body = Ok auth →
  secure_sessions s !! ClientLink_peer_addr l = Some e → opened cfg b (entry_session e) → length (client_public_key e) = 32%nat →
  let ok := bool_decide (user_id auth = cfg_user_id cfg ∧ sauth_mac auth = password_code cfg b (client_public_key e)) in
  handle_session_authenticate body l s =
    (_ ← on_plain (ClientLink_send_frame l (session_status ok));
     if ok then mret tt else modify (λ s, set_entries (delete (ClientLink_peer_addr l) (secure_sessions s)) s))
    (insert_entry (ClientLink_peer_addr l) (if ok then authenticated_entry e else e) s).
Proof.
  intros Hb He Ho Hk ok. unfold handle_session_authenticate. rewrite eff_bind_run. cbn [lift]. rewrite Hb. cbv zeta.
  rewrite eff_bind_run. cbn [gets]. rewrite He, eff_bind_run. unfold on_session. rewrite (verify_opened cfg b) by done. fold ok.
  destruct e as [es ek]. destruct ok; cbv beta iota; rewrite eff_bind_run; cbn [lift]; by rewrite KnxIpFrame_new_Ok by (cbn; lia).
Qed.
End handshake.

(** ** The frames of the handshake *)
Section handshake_frames.
Context {crypto : CryptoOps} {laws : CryptoLaws} `{Profile}.

Definition request_frame (hpai : Hpai) (pk : list Z) : list Z :=
  frame_bytes ServiceType.SessionRequest (SessionRequest_serialize (MkSessionRequest hpai pk)).
Definition authenticate_frame (user : Z) (code : list Z) : list Z :=
  frame_bytes ServiceType.SessionAuthenticate (SessionAuthenticate_serialize (MkSessionAuthenticate user code)).

Lemma keyed_opened cs a b id : u16_ok id → opened cs b (server_keyed cs a b id).
Proof. intros Hid. split; [done..|]. split_and!; [done|apply (agreed_key_length b a)|done]. Qed.
Lemma keyed_code cs a b : password_code cs b (x25519_public a) = authenticate_code a b cs.
Proof. unfold password_code, authenticate_code, keys_with, keys_xor. by rewrite public_xor_comm. Qed.

Lemma length_authenticate_code a b cs : length (authenticate_code a b cs) = 16%nat.
Proof.
  unfold authenticate_code, handshake_code. rewrite length_apply_keystream. unfold handshake_mac.
  edestruct (mac_Ok (derive_user_password (cfg_user_password cs))) as (m & -> & Hm); [apply pbkdf2_length|done|done].
Qed.
Lemma request_frame_run cs a b hpai l s : secure_config s = Some cs → u16_ok (next_secure_session_id s) →
  socket_ready (plain s) → Hpai_wf hpai →
  let id := next_secure_session_id s in
  secure_handle_frame b (request_frame hpai (x25519_public a)) l s =
    (Ok None, insert_entry (ClientLink_peer_addr l) (MkEntry (server_keyed cs a b id) (x25519_public a))
       (MkSecureServer (sent_ok l (session_response id b (response_code cs a b id)) (plain s)) (secure_config s)
          (secure_sessions s) (as_u16 (id + 1)))).
Proof.
  intros Hc Hid Hs Hh id. set (r := MkSessionRequest hpai (x25519_public a)).
  assert (SessionRequest_parse (SessionRequest_serialize r) = Ok r) as Ep by (apply SessionRequest_roundtrip; [done|apply x25519_public_length]).
  assert (length (SessionRequest_serialize r) = 40%nat) as Hl
    by (unfold SessionRequest_serialize, r; cbn [sreq_control_endpoint sreq_public_key]; by rewrite length_app, length_Hpai_serialize, x25519_public_length).
  destruct (frame_bytes_parse ServiceType.SessionRequest (SessionRequest_serialize r)) as (k & Ek & Es & Eb); [rewrite Hl; lia|].
  unfold secure_handle_frame, request_frame. rewrite eff_bind_run. cbn [lift]. fold r. rewrite Ek, Es, Eb, eff_bind_run.
  destruct (session_request_run cs b _ l _ s Hc Ep Hid) as (mac & session & _ & _ & _ & Er & ->).
  cbn [sreq_public_key r] in Er. rewrite (request_run cs a b (next_secure_session_id s)) in Er. injection Er as <- <-.
  rewrite eff_bind_run. unfold on_plain. by rewrite send_frame_run.
Qed.

Lemma authenticate_frame_run cfg b random code l e s : secure_sessions s !! ClientLink_peer_addr l = Some e →
  opened cfg b (entry_session e) → length (client_public_key e) = 32%nat → socket_ready (plain s) → length code = 16%nat →
  let ok := bool_decide (code = password_code cfg b (client_public_key e)) in
  secure_handle_frame random (authenticate_frame (cfg_user_id cfg) code) l s =
    (Ok None, set_entries (if ok then <[ClientLink_peer_addr l := authenticated_entry e]> (secure_sessions s)
                           else delete (ClientLink_peer_addr l) (secure_sessions s))
                (set_plain (sent_ok l (session_status ok) (plain s)) s)).
Proof.
  intros He Ho Hk Hs Hcode ok. set (r := MkSessionAuthenticate (cfg_user_id cfg) code).
  assert (SessionAuthenticate_parse (SessionAuthenticate_serialize r) = Ok r) as Ep by (by apply SessionAuthenticate_roundtrip).
  assert (length (SessionAuthenticate_serialize r) = 18%nat) as Hl by (unfold SessionAuthenticate_serialize; cbn; by rewrite Hcode).
  destruct (frame_bytes_parse ServiceType.SessionAuthenticate (SessionAuthenticate_serialize r)) as (k & Ek & Es & Eb); [rewrite Hl; lia|].
  unfold secure_handle_frame, authenticate_frame. rewrite eff_bind_run. cbn [lift]. fold r. rewrite Ek, Es, Eb, eff_bind_run.
  rewrite (session_authenticate_run cfg b _ l _ e s Ep He Ho Hk). cbn [user_id sauth_mac r].
  replace (bool_decide (_ ∧ _)) with ok by (apply bool_decide_ext; naive_solver).
  rewrite eff_bind_run. unfold on_plain. rewrite send_frame_run by done.
  destruct ok; cbn; [done|]. unfold set_entries. cbn. by rewrite delete_insert_eq.
Qed.
End handshake_frames.

(** * Executions

    What happens to a secure server: a frame arrives, a TCP stream ends, stale
    channels are evicted, a telegram is sent, it shuts down, time passes. *)
Inductive secure_op :=
| OpFrame (random data : list Z) (l : ClientLink)
| OpStreamEnds (l : ClientLink) (assigned : option Z)
| OpEvict (ids : list Z)
| OpSend (t : Telegram) (answers : Z → list (option TunnellingAck))
| OpShutdown
| OpTime (dt : Z).

Section executions.
Context {crypto : CryptoOps} {laws : CryptoLaws} `{Profile}.
Abbreviation M := (eff SecureServer KnxError).

Definition secure_exec (op : secure_op) (s : SecureServer) : SecureServer :=
  match op with
  | OpFrame random data l => (secure_handle_frame random data l s).2
  | OpStreamEnds l assigned =>
      set_entries (delete (ClientLink_peer_addr l) (secure_sessions s))
        (set_plain (match assigned with Some ch => remove_session ch (plain s) | None => plain s end) s)
  | OpEvict ids => set_plain (evict ids (plain s)) s
  | OpSend t answers => (secure_TunnelServer_send t answers s).2
  | OpShutdown => set_plain (TunnelServer_shutdown (plain s)) s
  | OpTime dt => set_plain (advance_clock dt (plain s)) s
  end.
Definition secure_run (ops : list secure_op) (s : SecureServer) : SecureServer := foldl (λ s op, secure_exec op s) s ops.

(** The server requires the password, and its secure sessions are its own. *)
Definition entry_ok (cfg : SessionConfig) (e : SecureSessionEntry) : Prop :=
  (∃ b, opened cfg b (entry_session e)) ∧ length (client_public_key e) = 32%nat.
Record guarded (cfg : SessionConfig) (s : SecureServer) : Prop := {
  g_config : secure_config s = Some cfg;
  g_id : u16_ok (next_secure_session_id s);
  g_entries : map_Forall (λ _ e, entry_ok cfg e) (secure_sessions s);
}.
Definition keeps_guard (cfg : SessionConfig) (s s' : SecureServer) : Prop := guarded cfg s → guarded cfg s'.
#[global] Instance keeps_guard_preorder cfg : PreOrder (keeps_guard cfg).
Proof. split; [by intros s Hs|]. intros s1 s2 s3 H1 H2 Hs. auto. Qed.

Section guard.
Context (cfg : SessionConfig).

Lemma keeps_on_plain {A} (m : eff TunnelServer KnxError A) : preserves (keeps_guard cfg) (on_plain m).
Proof. intros s []. unfold on_plain. by destruct (m _). Qed.
Lemma keeps_forget peer : preserves (keeps_guard cfg) (modify (λ s, set_entries (delete peer (secure_sessions s)) s) : M unit).
Proof. intros s [Hc Hi He]. split; [done..|]. by apply map_Forall_delete. Qed.
Lemma keeps_session {A} peer e (m : eff SecureSession KnxError A) :
  (∀ b s, opened cfg b s → opened cfg b (m s).2) → entry_ok cfg e → preserves (keeps_guard cfg) (on_session peer e m).
Proof.
  intros Hm [[b Hb] Hk] s [Hc Hi He]. unfold on_session. specialize (Hm b _ Hb). destruct (m (entry_session e)) as [r s'].
  split; [done..|]. apply map_Forall_insert_2; [|done]. split; [by exists b|done].
Qed.
(** A computation that looks an entry up may use that it is one of the server's. *)
Lemma keeps_lookup {A} (f : gmap SocketAddr SecureSessionEntry → M A) :
  (∀ m, map_Forall (λ _ e, entry_ok cfg e) m → preserves (keeps_guard cfg) (f m)) →
  preserves (keeps_guard cfg) (gets secure_sessions ≫= f).
Proof. intros Hf s Hs. exact (Hf _ (g_entries _ _ Hs) s Hs). Qed.

Lemma opened_encrypt f b s : opened cfg b s → opened cfg b (encrypt_frame f s).2.
Proof. intros Hs. destruct (encrypt_frame_recounted f s) as [n ->]. by apply opened_sequence. Qed.
Lemma opened_decrypt f b s : opened cfg b s → opened cfg b (decrypt_frame f s).2.
Proof.
  intros Hs. pose proof (decrypt_frame_clean f s) as Hc. pose proof (decrypt_frame_accepts f s) as Ha.
  destruct (decrypt_frame f s) as [[p|e|] s']; cbn in *; [|by rewrite Hc..].
  destruct (Ha p s' eq_refl) as [-> _]. by apply opened_received.
Qed.

Lemma keeps_maybe_encrypt f peer : preserves (keeps_guard cfg) (maybe_encrypt f peer).
Proof.
  unfold maybe_encrypt. apply keeps_lookup. intros m Hm. destruct (m !! peer) as [e|] eqn:Ee; [|by_preserves].
  apply keeps_session; [intros; by apply opened_encrypt|exact (Hm _ _ Ee)].
Qed.
#[local] Hint Resolve keeps_on_plain keeps_forget keeps_maybe_encrypt : preserves.
Lemma keeps_reply svc b l : preserves (keeps_guard cfg) (secure_send_reply svc b l).
Proof. unfold secure_send_reply. repeat preserves_step. Qed.
#[local] Hint Resolve keeps_reply : preserves.
Lemma keeps_dispatch k l enc : preserves (keeps_guard cfg) (secure_dispatch_plain_frame k l enc).
Proof.
  unfold secure_dispatch_plain_frame, secure_handle_connect_request, secure_handle_tunnelling_request,
    secure_handle_connectionstate_request, secure_handle_disconnect_request.
  destruct (service_type (header k)); cbv zeta; repeat preserves_step.
Qed.

Lemma keeps_session_request random b l : preserves (keeps_guard cfg) (handle_session_request random b l).
Proof.
  intros s Hs. destruct Hs as [Hc Hi He]. destruct (SessionRequest_parse b) as [req|err|] eqn:Eb; cycle 1.
  1,2: unfold handle_session_request; rewrite eff_bind_run; cbn [gets]; rewrite Hc, eff_bind_run; cbn [lift]; by rewrite Eb.
  destruct (session_request_run cfg random b l req s Hc Eb Hi) as (mac & session & Ho & _ & _ & _ & ->).
  pose proof (keeps_on_plain (ClientLink_send_frame l (session_response (next_secure_session_id s) random mac))
    (set_next_id (as_u16 (next_secure_session_id s + 1)) s)) as Hg.
  rewrite eff_bind_run. destruct (on_plain _ _) as [[u|err|] s']; cbn [snd] in Hg.
  2,3: apply Hg; split; [done|apply as_u16_ok|done].
  destruct Hg as [Hc' Hi' He']; [split; [done|apply as_u16_ok|done]|]. split; [done..|].
  apply map_Forall_insert_2; [|done]. split; [by exists random|by apply session_request_key in Eb].
Qed.
Lemma opened_verify pk u mac b s : length pk = 32%nat → opened cfg b s → opened cfg b (verify_authenticate_mac pk u mac s).2.
Proof. intros Hk Hs. rewrite (verify_opened cfg b) by done. case_bool_decide; [by apply opened_state|done]. Qed.
Lemma keeps_session_authenticate b l : preserves (keeps_guard cfg) (handle_session_authenticate b l).
Proof.
  unfold handle_session_authenticate. preserves_step; [by_preserves|]. cbv zeta. apply keeps_lookup. intros m Hm.
  destruct (m !! _) as [e|] eqn:Ee; [|by_preserves]. apply preserves_bind; [apply _| |intros ok; repeat preserves_step].
  apply keeps_session; [|exact (Hm _ _ Ee)]. intros b' s. apply opened_verify. apply (Hm _ _ Ee).
Qed.
#[local] Hint Resolve keeps_dispatch keeps_session_request keeps_session_authenticate : preserves.
Lemma keeps_frame random d l : preserves (keeps_guard cfg) (secure_handle_frame random d l).
Proof.
  unfold secure_handle_frame. preserves_step; [by_preserves|]. destruct (service_type (header a)); try solve [repeat preserves_step].
  cbv zeta. apply keeps_lookup. intros m Hm. destruct (m !! _) as [e|] eqn:Ee; [|by_preserves]. preserves_step; [by_preserves|].
  apply preserves_bind; [apply _| |intros d'; repeat preserves_step].
  apply keeps_session; [intros; by apply opened_decrypt|exact (Hm _ _ Ee)].
Qed.
Lemma keeps_send t answers : preserves (keeps_guard cfg) (secure_TunnelServer_send t answers).
Proof.
  unfold secure_TunnelServer_send. preserves_step; [by_preserves|]. generalize (map_to_list (sessions a)).*2 as cs.
  induction cs as [|c cs IH]; cbn [secure_send_to_all]; [by_preserves|]. unfold secure_send_to_session. repeat preserves_step.
Qed.
Lemma keeps_exec op s : guarded cfg s → guarded cfg (secure_exec op s).
Proof.
  destruct op; cbn [secure_exec].
  - apply keeps_frame.
  - intros [Hc Hi He]. split; [done..|]. by apply map_Forall_delete.
  - by intros [].
  - apply keeps_send.
  - by intros [].
  - by intros [].
Qed.
End guard.

(** An operation that shows knowledge of the password: an authentication from a
    peer with a session, with the code of that password and those keys. *)
Definition proves (cfg : SessionConfig) (s : SecureServer) (op : secure_op) : Prop :=
  ∃ random data l k auth e b, op = OpFrame random data l ∧ KnxIpFrame_parse data = Ok k ∧
    service_type (header k) = ServiceType.SessionAuthenticate ∧ SessionAuthenticate_parse (body k) = Ok auth ∧
    secure_sessions s !! ClientLink_peer_addr l = Some e ∧ ss_key_pair (entry_session e) = Some (EcdhKeyPair_generate b) ∧
    user_id auth = cfg_user_id cfg ∧ sauth_mac auth = password_code cfg b (client_public_key e).

(** Nobody has been let in. *)
Record shut (s : SecureServer) : Prop := {
  shut_sessions : sessions (plain s) = ∅;
  shut_published : published (plain s) = [];
  shut_acks : acks (plain s) = ∅;
  shut_entries : map_Forall (λ _ e, is_authenticated (entry_session e) = false) (secure_sessions s);
}.

Lemma shut_send l f (g : M unit) s : shut s → (∀ s', shut s' → shut (g s').2) →
  shut ((_ ← on_plain (ClientLink_send_frame l f); g) s).2.
Proof.
  intros Hs Hg. rewrite eff_bind_run. unfold on_plain, ClientLink_send_frame. rewrite eff_bind_run. cbn [gets].
  rewrite eff_bind_run. cbn [modify]. destruct (default None _) as [e|]; cbn [throw modify snd].
  - by destruct Hs.
  - apply Hg. by destruct Hs.
Qed.
Lemma shut_insert peer e s : shut s → is_authenticated (entry_session e) = false → shut (insert_entry peer e s).
Proof. intros [? ? ? He] Ha. split; [done..|]. by apply map_Forall_insert_2. Qed.
Lemma shut_forget peer s : shut s → shut (set_entries (delete peer (secure_sessions s)) s).
Proof. intros [? ? ? He]. split; [done..|]. by apply map_Forall_delete. Qed.
Lemma shut_remove ch s : shut s → shut (set_plain (remove_session ch (plain s)) s).
Proof. intros [Hs ? ? ?]. split; [|done..]. cbn. by rewrite Hs, delete_empty. Qed.
Lemma shut_evict ids s : shut s → shut (set_plain (evict ids (plain s)) s).
Proof.
  intros Hs. induction ids as [|id ids IH]; [by destruct s|]. exact (shut_remove id _ IH).
Qed.

Lemma shut_frame cfg random d l s : guarded cfg s → shut s → ¬ proves cfg s (OpFrame random d l) →
  shut (secure_handle_frame random d l s).2.
Proof.
  intros Hg Hs Hn. pose proof Hg as [Hc Hi He]. unfold secure_handle_frame. rewrite eff_bind_run. cbn [lift].
  destruct (KnxIpFrame_parse d) as [k|err|] eqn:Ek; [|done..].
  assert (shut (secure_dispatch_plain_frame k l false s).2) as Hplain.
  { unfold secure_dispatch_plain_frame. rewrite eff_bind_run. cbn [gets]. by rewrite Hc. }
  destruct (service_type (header k)) eqn:Es; try done; cbv zeta; rewrite eff_bind_run.
  - cbn [gets]. destruct (secure_sessions s !! _) as [e|] eqn:Ee; [|done]. by rewrite (shut_entries _ Hs _ _ Ee).
  - assert (shut (handle_session_request random (body k) l s).2) as Hr; [|by destruct (handle_session_request _ _ _ _) as [[] ?]].
    destruct (SessionRequest_parse (body k)) as [req|err|] eqn:Eb; cycle 1.
    1,2: unfold handle_session_request; rewrite eff_bind_run; cbn [gets]; rewrite Hc, eff_bind_run; cbn [lift]; by rewrite Eb.
    destruct (session_request_run cfg random (body k) l req s Hc Eb Hi) as (mac & session & _ & Ha & _ & _ & ->).
    apply shut_send; [by destruct Hs|]. intros s' Hs'. by apply shut_insert.
  - assert (shut (handle_session_authenticate (body k) l s).2) as Hr; [|by destruct (handle_session_authenticate _ _ _) as [[] ?]].
    destruct (SessionAuthenticate_parse (body k)) as [auth|err|] eqn:Eb; cycle 1.
    1,2: unfold handle_session_authenticate; rewrite eff_bind_run; cbn [lift]; by rewrite Eb.
    destruct (secure_sessions s !! ClientLink_peer_addr l) as [e|] eqn:Ee; cycle 1.
    { unfold handle_session_authenticate. rewrite eff_bind_run. cbn [lift]. rewrite Eb. cbv zeta. rewrite eff_bind_run. cbn [gets]. by rewrite Ee. }
    destruct (He _ _ Ee) as [[b Hb] Hk]. rewrite (session_authenticate_run cfg b (body k) l auth e s Eb Ee Hb Hk).
    rewrite bool_decide_eq_false_2; cycle 1.
    { intros [Hu Hm]. apply Hn. exists random, d, l, k, auth, e, b. split_and!; try done. apply Hb. }
    apply shut_send; [|intros s' Hs'; by apply shut_forget]. apply shut_insert; [done|exact (shut_entries _ Hs _ _ Ee)].
Qed.

Lemma shut_exec cfg op s : guarded cfg s → shut s → ¬ proves cfg s op → shut (secure_exec op s).
Proof.
  intros Hg Hs Hn. destruct op as [random d l|l assigned|ids|t answers| |dt]; cbn [secure_exec].
  - by apply (shut_frame cfg).
  - destruct assigned as [ch|]; [exact (shut_forget _ _ (shut_remove ch s Hs))|by apply (shut_forget _ s)].
  - by apply shut_evict.
  - unfold secure_TunnelServer_send. rewrite eff_bind_run. cbn [gets]. rewrite (shut_sessions _ Hs), map_to_list_empty. done.
  - by destruct Hs.
  - by destruct Hs.
Qed.
Lemma secure_run_snoc ops op s : secure_run (ops ++ [op]) s = secure_exec op (secure_run ops s).
Proof. unfold secure_run. by rewrite foldl_app. Qed.
Lemma run_guarded cfg ops s : guarded cfg s → guarded cfg (secure_run ops s).
Proof. intros Hs. induction ops as [|op ops IH] using rev_ind; [done|]. rewrite secure_run_snoc. by apply keeps_exec. Qed.
Lemma run_shut cfg ops s : guarded cfg s → shut s →
  (∀ before op, before ++ [op] `prefix_of` ops → ¬ proves cfg (secure_run before s) op) → shut (secure_run ops s).
Proof.
  intros Hg Hs. induction ops as [|op ops IH] using rev_ind; intros Hn; [done|]. rewrite secure_run_snoc.
  apply (shut_exec cfg); [by apply run_guarded|apply IH|by apply Hn].
  intros before op' Hp. apply Hn. by apply prefix_app_r.
Qed.
End executions.

(** The client and the server after the handshake. *)
Section established.
Context {crypto : CryptoOps} {laws : CryptoLaws} `{Profile}.
Context (cs cc : SessionConfig) (a b : list Z) (l : ClientLink) (s : SecureServer).
Abbreviation id := (next_secure_session_id s).
Definition opening_entry : SecureSessionEntry := MkEntry (server_keyed cs a b id) (x25519_public a).
Definition after_request : SecureServer :=
  insert_entry (ClientLink_peer_addr l) opening_entry
    (MkSecureServer (sent_ok l (session_response id b (response_code cs a b id)) (plain s)) (secure_config s) (secure_sessions s) (as_u16 (id + 1))).
Definition after_authentication (ok : bool) : SecureServer :=
  set_entries (if ok then <[ClientLink_peer_addr l := authenticated_entry opening_entry]> (secure_sessions after_request)
               else delete (ClientLink_peer_addr l) (secure_sessions after_request))
    (set_plain (sent_ok l (session_status ok) (plain after_request)) after_request).
Definition client_session : SecureSession := set_session_state Authenticated (client_keyed cc a b id).

Lemma authentication_run random code : u16_ok id → send_faults (plain s) = [] → cfg_user_id cc = cfg_user_id cs → length code = 16%nat →
  secure_handle_frame random (authenticate_frame (cfg_user_id cc) code) l after_request =
    (Ok None, after_authentication (bool_decide (code = authenticate_code a b cs))).
Proof.
  intros Hid Hf Hu Hl. rewrite Hu, <-keyed_code. apply (authenticate_frame_run cs b random code l opening_entry after_request).
  - cbn. apply lookup_insert_eq.
  - by apply keyed_opened.
  - apply x25519_public_length.
  - unfold socket_ready. cbn. by rewrite Hf.
  - done.
Qed.
Lemma client_code : cfg_user_id cc = cfg_user_id cs → cfg_user_password cc = cfg_user_password cs →
  authenticate_code a b cc = authenticate_code a b cs.
Proof. intros Hu Hw. unfold authenticate_code. by rewrite Hu, Hw. Qed.
Lemma established_paired : u16_ok id →
  paired client_session (entry_session (authenticated_entry opening_entry)) ∧ paired (entry_session (authenticated_entry opening_entry)) client_session.
Proof.
  intros Hid. split.
  - split; [split_and!; [done|apply (agreed_key_length a b)|done]|]. split; [apply (agreed_key_comm b a)|done].
  - split; [split_and!; [done|apply (agreed_key_length b a)|done]|]. split; [apply (agreed_key_comm a b)|done].
Qed.
End established.

Section clear.
Context {crypto : CryptoOps} `{Profile}.
Lemma clear_ignored random svc b l cfg s : secure_config s = Some cfg → Z.of_nat (length b) ≤ 65529 →
  svc ∈ [ServiceType.TunnellingAck; ServiceType.ConnectionstateRequest; ServiceType.DisconnectRequest;
         ServiceType.ConnectRequest; ServiceType.TunnellingRequest] →
  secure_handle_frame random (frame_bytes svc b) l s = (Ok None, s).
Proof.
  intros Hc Hb Hsvc. destruct (frame_bytes_parse svc b Hb) as (k & Ek & Es & _).
  unfold secure_handle_frame. rewrite eff_bind_run. cbn [lift]. rewrite Ek, Es.
  assert (secure_dispatch_plain_frame k l false s = (Ok None, s)) as Hd
    by (unfold secure_dispatch_plain_frame; rewrite eff_bind_run; cbn [gets]; by rewrite Hc).
  repeat (apply elem_of_cons in Hsvc as [->|Hsvc]; [exact Hd|]). by apply elem_of_nil in Hsvc.
Qed.
End clear.

(** * Properties *)
Section properties.
Context {crypto : CryptoOps} {laws : CryptoLaws} `{Profile}.

(** A server that is not configured for security behaves as the plain one: over
    any packets its dispatch loop and its TCP tasks do what those of the build
    without the feature do, and end with what they end with. *)
Theorem unsecured_server_is_plain packets l frames s : secure_config s = None → secure_sessions s = ∅ →
  secure_udp_dispatch_loop packets s = on_plain (udp_dispatch_loop ((λ x, (x.1.2, x.2)) <$> packets)) s ∧
  secure_tcp_client l frames s = on_plain (tcp_client l (snd <$> frames)) s.
Proof.
  intros Hc Hs. split; [by apply unsecured_udp|]. unfold secure_tcp_client, tcp_client. rewrite eff_bind_run.
  rewrite unsecured_tcp_loop by done. unfold on_plain. rewrite eff_bind_run.
  destruct (tcp_client_loop _ _ _ _) as [[assigned|e|] p]; [|done..]. rewrite eff_bind_run.
  destruct assigned as [ch|]; cbn; unfold modify, set_entries; cbn; by rewrite Hs, delete_empty, <-Hs.
Qed.

(** C11: Nobody is let in without the password.  Whatever frames arrive at a secure
    server, as long as none of them is an authentication from a peer with the code
    that the password and the keys of its session give, no channel is opened, no
    telegram published and no session authenticated. *)
Theorem secure_requires_password cfg addr ia now faults ops :
  let s0 := bind_with_security (TunnelServer_new addr ia now faults) (Some cfg) in
  (∀ before op, before ++ [op] `prefix_of` ops → ¬ proves cfg (secure_run before s0) op) →
  let s := secure_run ops s0 in
  sessions (plain s) = ∅ ∧ published (plain s) = [] ∧
  ∀ peer e, secure_sessions s !! peer = Some e → is_authenticated (entry_session e) = false.
Proof.
  intros s0 Hn s. destruct (run_shut cfg ops s0) as [Hs Hp _ He]; [..|done|by split_and!].
  - split; [done|cbn; unfold u16_ok; lia|apply map_Forall_empty].
  - split; [done..|apply map_Forall_empty].
Qed.

(** C12: Through an authenticated session a frame does what it does on the plain
    server: the same answer, the same channels, telegrams and acknowledgements.
    Its reply goes to the same place, encrypted if that is a peer with a session,
    and the client decrypts it to the reply of the plain server. *)
Theorem secure_frames_as_plain random f l e c s :
  secure_sessions s !! ClientLink_peer_addr l = Some e → is_authenticated (entry_session e) = true →
  paired c (entry_session e) → 0 ≤ ss_sequence_number c < 2 ^ 48 →
  fresh (ss_sequence_number c) (ss_sequence_number_received (entry_session e)) → Z.of_nat (length f) ≤ 65497 →
  entries_ready (secure_sessions s) → no_disconnect f →
  let '(r, p) := handle_frame f l (plain s) in
  ∃ s' outs, secure_handle_frame random (encrypted c f) l s = (r, s') ∧ mirror s' p ∧ (length outs ≤ 1)%nat ∧
    sent p = sent (plain s) ++ outs ∧ sent (plain s') = sent (plain s) ++ (secure_copy (secure_sessions s) <$> outs) ∧
    (paired (entry_session e) c → 0 ≤ ss_sequence_number (entry_session e) < 2 ^ 48 →
     fresh (ss_sequence_number (entry_session e)) (ss_sequence_number_received c) →
     Forall (λ o, ClientLink_peer_addr o.1 = ClientLink_peer_addr l →
       (decrypt_frame (secure_copy (secure_sessions s) o).2 c).1 = Ok o.2) outs).
Proof.
  intros He Ha Hp Hn Hfr Hf Hr Hnd.
  destruct (wrapped_frame random f l e c s (plain s)) as (s' & E & Hm & outs & Hl & Hy & Hx); [done..|].
  destruct (handle_frame f l (plain s)) as [r p]. cbn [fst snd] in *. exists s', outs.
  assert (∀ o, secure_copy (<[ClientLink_peer_addr l := received_entry (ss_sequence_number c) e]> (secure_sessions s)) o =
    secure_copy (secure_sessions s) o) as Ec.
  { intros o. unfold secure_copy. destruct (decide (ClientLink_peer_addr o.1 = ClientLink_peer_addr l)) as [->|];
      [by rewrite lookup_insert_eq, He|by rewrite lookup_insert_ne]. }
  split_and!; [done..| |].
  - rewrite Hx. f_equal. by apply list_fmap_ext.
  - intros Hp' Hn' Hfr'. apply Forall_forall. intros o _ Ho. unfold secure_copy. rewrite Ho, He. cbn [snd].
    by rewrite decrypt_encrypted.
Qed.

(** C13: Exactly-once delivery through a secure session: of a client that numbers its
    requests from the number its channel expects and transmits each any number of
    times, every transmission encrypted anew, each telegram is published exactly
    once and in order, and every transmission is acknowledged, encrypted. *)
Theorem secure_exactly_once ch l n reqs randoms e c s :
  l = UdpLink (ClientLink_peer_addr l) → u8_ok n → expects ch l n (plain s) →
  Forall (λ x, Z.of_nat (length x.2) ≤ 976) reqs →
  secure_sessions s !! ClientLink_peer_addr l = Some e → is_authenticated (entry_session e) = true →
  paired c (entry_session e) → fresh (ss_sequence_number c) (ss_sequence_number_received (entry_session e)) →
  entries_ready (secure_sessions s) → 0 ≤ ss_sequence_number c →
  let fs := (client_datagrams (ClientLink_peer_addr l) ch n reqs).*2 in
  length randoms = length fs → ss_sequence_number c + Z.of_nat (length fs) ≤ 2 ^ 48 →
  ∃ s' outs, secure_udp_dispatch_loop (wrapped_packets l c randoms fs) s = (Ok tt, s') ∧
    published (plain s') = published (plain s) ++ telegrams (server_clock (plain s)) reqs ∧
    sent (plain s') = sent (plain s) ++ outs ∧ Forall2 (carried (secure_sessions s)) outs (client_acks l ch n reqs).
Proof.
  intros Hl Hn He Hlen Hs Ha Hp Hfr Hr H0 fs Hrs Hb.
  assert (((ClientLink_peer_addr l,.) <$> fs) = client_datagrams (ClientLink_peer_addr l) ch n reqs) as Efs.
  { subst fs. clear. generalize n. induction reqs as [|[k cemi] reqs IH]; intros n0; [done|].
    cbn [client_datagrams]. rewrite !fmap_app, IH. f_equal. by rewrite !fmap_replicate. }
  assert (Forall (λ f, Z.of_nat (length f) ≤ 986 ∧ no_disconnect f) fs) as Hfs.
  { subst fs. clear -Hlen. revert n. induction Hlen as [|[k cemi] reqs Hc _ IH]; intros n; [constructor|].
    cbn [client_datagrams]. rewrite fmap_app, fmap_replicate. apply Forall_app. split; [|done].
    apply Forall_replicate. cbn [snd] in *. split; [rewrite length_request_datagram; lia|]. intros k' Ek.
    destruct (frame_bytes_parse ServiceType.TunnellingRequest (TunnellingRequest_serialize (TunnellingRequest_new ch n cemi)))
      as (g & Eg & Es & _); [cbn; lia|]. unfold request_datagram in Ek. rewrite Eg in Ek. injection Ek as <-. by rewrite Es. }
  destruct (loop_exactly_once ch l (ClientLink_peer_addr l) n reqs (plain s) Hn He) as (p & E & Hpub & Hsent).
  { eapply Forall_impl; [exact Hlen|]. cbn. lia. }
  assert (stream_at (secure_sessions s) l c s (plain s)) as Hst.
  { split; [done|done| |by exists e]. intros k. destruct (secure_sessions s !! k); by constructor. }
  pose proof (stream_loop (secure_sessions s) l fs randoms c s (plain s) Hl Hst Hrs H0 Hb Hfs) as Hloop.
  rewrite Efs, E in Hloop. destruct Hloop as (s' & outs' & outs & E' & Hm & Hy & Hx & Ho). exists s', outs'.
  split_and!; [done| |done|].
  - rewrite <-Hpub. by apply (f_equal published Hm).
  - rewrite Hsent in Hy. apply app_inv_head in Hy. by rewrite Hy.
Qed.

(** The handshake over frames.  A client with the password (and the device code
    where it checks it) that sends its session request, takes the response and
    sends the code it computes is answered with status OK; from then on its
    session and the one the server keeps for its address have the same key and
    number, with fresh counters.  Any other code is answered with a failure and the
    session is dropped. *)
Theorem secure_session_established cs cc a b random hpai l s :
  secure_config s = Some cs → u16_ok (next_secure_session_id s) → send_faults (plain s) = [] →
  cfg_user_id cc = cfg_user_id cs → cfg_user_password cc = cfg_user_password cs →
  cfg_device_auth_password cc = None ∨ cfg_device_auth_password cc = cfg_device_auth_password cs → Hpai_wf hpai →
  let id := next_secure_session_id s in
  ∃ mac s1 code c1 c2 s2 e,
    secure_handle_frame b (request_frame hpai (x25519_public a)) l s = (Ok None, s1) ∧
    sent (plain s1) = sent (plain s) ++ [(l, session_response id b mac)] ∧
    process_session_response id (x25519_public b) mac (started cc a) = (Ok code, c1) ∧
    secure_handle_frame random (authenticate_frame (cfg_user_id cc) code) l s1 = (Ok None, s2) ∧
    sent (plain s2) = sent (plain s1) ++ [(l, session_status true)] ∧
    complete_authentication 0 c1 = (Ok tt, c2) ∧
    secure_sessions s2 !! ClientLink_peer_addr l = Some e ∧ is_authenticated (entry_session e) = true ∧
    paired c2 (entry_session e) ∧ paired (entry_session e) c2 ∧
    ss_sequence_number c2 = 0 ∧ ss_sequence_number_received c2 = 0 ∧
    ss_sequence_number (entry_session e) = 0 ∧ ss_sequence_number_received (entry_session e) = 0 ∧
    ∀ other, length other = 16%nat → other ≠ code → ∃ s3,
      secure_handle_frame random (authenticate_frame (cfg_user_id cc) other) l s1 = (Ok None, s3) ∧
      sent (plain s3) = sent (plain s1) ++ [(l, session_status false)] ∧ secure_sessions s3 !! ClientLink_peer_addr l = None.
Proof.
  intros Hc Hid Hf Hu Hw Hd Hh id. pose proof (client_code cs cc a b Hu Hw) as Hcode.
  destruct (established_paired cs cc a b s Hid) as [Hp1 Hp2].
  eexists _, (after_request cs a b l s), (authenticate_code a b cs), (client_keyed cc a b id), _, (after_authentication cs a b l s true),
    (authenticated_entry (opening_entry cs a b s)).
  split_and!; [apply request_frame_run; [done..|unfold socket_ready; by rewrite Hf|done]|done|rewrite <-Hcode; by apply response_run|..]; try done.
  - rewrite authentication_run by (done || apply length_authenticate_code). by rewrite bool_decide_eq_true_2.
  - apply lookup_insert_eq.
  - intros other Hl Hne. eexists. rewrite authentication_run by done. rewrite bool_decide_eq_false_2 by done.
    split_and!; [done..|apply lookup_delete_eq].
Qed.

(** A secure server ignores every frame in the clear but those of the handshake:
    it answers nothing and nothing changes.  Among them are the acknowledgements,
    the heartbeats and the disconnect requests of this library's own client, which
    sends these three without encrypting them. *)
Theorem secure_server_ignores_clear random svc b l cfg s : secure_config s = Some cfg → Z.of_nat (length b) ≤ 65529 →
  svc ∈ [ServiceType.TunnellingAck; ServiceType.ConnectionstateRequest; ServiceType.DisconnectRequest;
         ServiceType.ConnectRequest; ServiceType.TunnellingRequest] →
  secure_handle_frame random (frame_bytes svc b) l s = (Ok None, s).
Proof. apply clear_ignored. Qed.

(** A secure server answers in the clear when a client names an endpoint for its
    data that is not where it sends from.  The secure sessions are looked up by the
    address a reply goes to: the response to the connect request, and every telegram
    sent on the channel from then on, leave as they would without security. *)
Theorem secure_replies_in_clear random req l e c ch s : (∃ a, l = UdpLink a) →
  secure_sessions s !! ClientLink_peer_addr l = Some e → is_authenticated (entry_session e) = true →
  paired c (entry_session e) → 0 ≤ ss_sequence_number c < 2 ^ 48 →
  fresh (ss_sequence_number c) (ss_sequence_number_received (entry_session e)) → entries_ready (secure_sessions s) →
  ConnectRequest_parse (ConnectRequest_serialize req) = Ok req → Z.of_nat (length (ConnectRequest_serialize req)) ≤ 1000 →
  hpai_port (creq_data_endpoint req) ≠ 0 → let advertised := Hpai_socket_addr (creq_data_endpoint req) in
  advertised ≠ ClientLink_peer_addr l → secure_sessions s !! advertised = None →
  allocate_channel_id (sessions (plain s)) = Some ch → socket_ready (plain s) →
  ∃ s', secure_handle_frame random (encrypted c (frame_bytes ServiceType.ConnectRequest (ConnectRequest_serialize req))) l s = (Ok (Some ch), s') ∧
    sent (plain s') = sent (plain s) ++
      [(UdpLink advertised, frame_bytes ServiceType.ConnectResponse (ConnectResponse_serialize (granted ch (plain s))))] ∧
    ∃ session, sessions (plain s') !! ch = Some session ∧
      ∀ t answers, secure_send_to_session session t answers s' = on_plain (send_to_session session t answers) s'.
Proof.
  intros [a Hl] He Ha Hp Hn Hfr Hr Hreq Hlen Hport advertised Hadv Hnone Hch Hs. set (f := frame_bytes _ _).
  destruct (frame_bytes_parse ServiceType.ConnectRequest (ConnectRequest_serialize req)) as (k & Ek & Es & Eb); [lia|].
  assert (no_disconnect f) as Hnd by (intros k' Ek'; unfold f in Ek'; rewrite Ek in Ek'; injection Ek' as <-; by rewrite Es).
  assert (length f = (6 + length (ConnectRequest_serialize req))%nat) as Hlf by done.
  pose proof (granted_run _ l req ch (plain s) Hreq Hch Hs) as E. cbv zeta in E.
  assert (resolve_link (creq_data_endpoint req) l = UdpLink advertised) as El
    by (rewrite Hl; cbn; by rewrite (proj2 (Z.eqb_neq _ _))).
  rewrite El in E. set (p := sent_ok _ _ _) in E.
  assert (handle_frame f l (plain s) = (Ok (Some ch), p)) as Ef
    by (unfold f; rewrite handle_frame_run by lia; exact E).
  destruct (wrapped_frame random f l e c s (plain s)) as (s' & E' & Hm & outs & _ & Hy & Hx); [done..|lia|done|done|done|].
  rewrite Ef in E', Hm, Hy. cbn [fst snd] in E', Hm, Hy.
  assert (outs = [(UdpLink advertised, frame_bytes ServiceType.ConnectResponse (ConnectResponse_serialize (granted ch (plain s))))]) as ->
    by (apply (app_inv_head (sent (plain s))); by rewrite <-Hy).
  set (m := <[ClientLink_peer_addr l := _]> _) in Hx.
  assert (m !! advertised = None) as Hm0 by (unfold m; by rewrite lookup_insert_ne).
  exists s'. split; [done|]. split.
  { rewrite Hx. cbn [fmap list_fmap]. unfold secure_copy. cbn [fst snd ClientLink_peer_addr]. by rewrite Hm0. }
  exists (ClientSession_new (server_clock (plain s)) ch (UdpLink advertised)). split.
  { change (sessions (plain s')) with (sessions (with_sent [] (plain s'))). rewrite Hm. cbn. apply lookup_insert_eq. }
  pose proof (wrapped_counted l random f c e s (proj1 Hp) ltac:(lia) He Ha Hp Hn Hfr Hnd advertised) as Hc.
  rewrite E' in Hc. cbn [snd secure_sessions set_entries] in Hc. fold m in Hc. rewrite Hm0 in Hc.
  assert (secure_sessions s' !! advertised = None) as Hs' by (by inversion Hc).
  intros t answers. unfold secure_send_to_session, send_to_session. unfold on_plain. rewrite !eff_bind_run. cbn [lift].
  destruct (build_tunnelling_frame_with_code _ _ _ _) as [fr|err|]; [|by destruct s'..].
  rewrite eff_bind_run. unfold maybe_encrypt. rewrite eff_bind_run. cbn [gets link ClientSession_new ClientLink_peer_addr]. by rewrite Hs'.
Qed.

(** Anybody who can send from the address of a client ends its secure session: a
    session request replaces whatever session there is by a new one that is not
    authenticated, and what the client encrypts is then ignored. *)
Theorem session_request_displaces cs a b random hpai l c f s : secure_config s = Some cs → u16_ok (next_secure_session_id s) →
  socket_ready (plain s) → Hpai_wf hpai → session_ready c → Z.of_nat (length f) ≤ 65497 →
  ∃ s', secure_handle_frame b (request_frame hpai (x25519_public a)) l s = (Ok None, s') ∧
    secure_handle_frame random (encrypted c f) l s' = (Ok None, s').
Proof.
  intros Hc Hid Hs Hh Hr Hf. rewrite (request_frame_run cs) by done. eexists. split; [done|].
  destruct (parse_encrypted c f Hr Hf) as (k & Ek & Es). unfold secure_handle_frame. rewrite eff_bind_run. cbn [lift].
  rewrite Ek, Es. cbv zeta. rewrite eff_bind_run. cbn [gets insert_entry secure_sessions set_entries]. by rewrite lookup_insert_eq.
Qed.
End properties.

(** ** Witnesses *)
Section witnesses.
Existing Instances toy_crypto toy_crypto_laws.
#[local] Instance secure_release : Profile := {| debug_build := false |}.
Definition some_config : SessionConfig := MkSessionConfig 1 [65; 66] (Some [67]) 60.
Definition sample_link : ClientLink := UdpLink sample_peer.
(** A server with one client, on channel 1, with an authenticated session. *)
Definition sample_entry : SecureSessionEntry := MkEntry toy_session (replicate 32 0).
Definition one_secure_client : SecureServer := MkSecureServer one_client (Some some_config) {[sample_peer := sample_entry]} 2.
Lemma one_secure_ready : entries_ready (secure_sessions one_secure_client).
Proof. apply map_Forall_singleton, toy_paired. Qed.
Lemma one_secure_entry : secure_sessions one_secure_client !! ClientLink_peer_addr sample_link = Some sample_entry.
Proof. reflexivity. Qed.
Lemma not_disconnect svc b : Z.of_nat (length b) ≤ 65529 → svc ≠ ServiceType.DisconnectRequest → no_disconnect (frame_bytes svc b).
Proof.
  intros Hb Hs k Ek. destruct (frame_bytes_parse svc b Hb) as (g & Eg & Es & _). rewrite Eg in Ek. injection Ek as <-. by rewrite Es.
Qed.

Lemma unsecured_server_is_plain_witness :
  let s := bind_with_security sample_server None in
  secure_udp_dispatch_loop [([], sample_peer, frame_bytes ServiceType.ConnectRequest sample_connect)] s =
    on_plain (udp_dispatch_loop [(sample_peer, frame_bytes ServiceType.ConnectRequest sample_connect)]) s.
Proof.
  apply (unsecured_server_is_plain [([], sample_peer, frame_bytes ServiceType.ConnectRequest sample_connect)] sample_link []); reflexivity.
Defined.

Lemma secure_requires_password_witness :
  let ops := [OpFrame [5] (frame_bytes ServiceType.ConnectRequest sample_connect) sample_link; OpTime 3] in
  published (plain (secure_run ops (bind_with_security (TunnelServer_new sample_addr (MkIndividualAddress 0x1105) 0 []) (Some some_config)))) = [].
Proof.
  refine (proj1 (proj2 (secure_requires_password some_config sample_addr (MkIndividualAddress 0x1105) 0 []
    [OpFrame [5] (frame_bytes ServiceType.ConnectRequest sample_connect) sample_link; OpTime 3] _))).
  intros before op [rest E] (random & data & l & k & auth & e & b & -> & Ek & Es & _).
  destruct before as [|x [|y before]]; [injection E as <- <- <- _|injection E as _ ?; discriminate|].
  - vm_compute in Ek. injection Ek as <-. discriminate Es.
  - apply (f_equal length) in E. cbn in E. rewrite !length_app in E. cbn in E. lia.
Defined.

Lemma secure_frames_as_plain_witness :
  let f := frame_bytes ServiceType.TunnellingRequest sample_request in
  ∃ s' outs, secure_handle_frame [] (encrypted toy_session f) sample_link one_secure_client =
    ((handle_frame f sample_link one_client).1, s') ∧ mirror s' (handle_frame f sample_link one_client).2 ∧
    sent (plain s') = sent one_client ++ (secure_copy (secure_sessions one_secure_client) <$> outs).
Proof.
  cbv zeta. pose proof (secure_frames_as_plain [] (frame_bytes ServiceType.TunnellingRequest sample_request) sample_link sample_entry
    toy_session one_secure_client one_secure_entry eq_refl toy_paired) as Hw.
  specialize (Hw ltac:(cbn; lia) ltac:(by right) ltac:(cbn; lia) one_secure_ready ltac:(apply not_disconnect; [cbn; lia|done])).
  change (plain one_secure_client) with one_client in Hw.
  destruct (handle_frame (frame_bytes ServiceType.TunnellingRequest sample_request) sample_link one_client) as [r p].
  destruct Hw as (s' & outs & H1 & H2 & _ & _ & H3 & _). exists s', outs. exact (conj H1 (conj H2 H3)).
Defined.

Lemma secure_exactly_once_witness :
  ∃ s', secure_udp_dispatch_loop (wrapped_packets sample_link toy_session [[]; []; []]
      (client_datagrams sample_peer 1 0 [(1%nat, drop 4 sample_request); (0%nat, drop 4 sample_request)]).*2) one_secure_client = (Ok tt, s') ∧
    length (published (plain s')) = 2%nat.
Proof.
  destruct (secure_exactly_once 1 sample_link 0 [(1%nat, drop 4 sample_request); (0%nat, drop 4 sample_request)] [[]; []; []]
    sample_entry toy_session one_secure_client) as (s' & outs & E & Hp & _).
  1,2: first [reflexivity|vm_compute; split; congruence].
  - split; [|done]. by exists sample_session.
  - repeat constructor; vm_compute; congruence.
  - exact one_secure_entry.
  - reflexivity.
  - exact toy_paired.
  - by right.
  - exact one_secure_ready.
  - vm_compute. congruence.
  - reflexivity.
  - vm_compute. congruence.
  - exists s'. split; [exact E|]. rewrite Hp. reflexivity.
Defined.

Lemma secure_session_established_witness :
  ∃ s1 s2 code, let s := bind_with_security sample_server (Some some_config) in
    secure_handle_frame [5] (request_frame Hpai_route_back (x25519_public [3])) sample_link s = (Ok None, s1) ∧
    secure_handle_frame [] (authenticate_frame 1 code) sample_link s1 = (Ok None, s2) ∧
    sent (plain s2) = sent (plain s1) ++ [(sample_link, session_status true)].
Proof.
  destruct (secure_session_established some_config some_config [3] [5] [] Hpai_route_back sample_link
    (bind_with_security sample_server (Some some_config))) as (mac & s1 & code & c1 & c2 & s2 & e & H1 & _ & _ & H4 & H5 & _).
  - reflexivity.
  - vm_compute. split; congruence.
  - reflexivity.
  - reflexivity.
  - reflexivity.
  - right. reflexivity.
  - vm_compute. by repeat split.
  - exists s1, s2, code. exact (conj H1 (conj H4 H5)).
Defined.

Lemma secure_server_ignores_clear_witness :
  secure_handle_frame [] (ok_ack 1 0) sample_link one_secure_client = (Ok None, one_secure_client).
Proof.
  apply (secure_server_ignores_clear [] ServiceType.TunnellingAck (TunnellingAck_serialize (TunnellingAck_new_ok 1 0))
    sample_link some_config one_secure_client); [reflexivity|vm_compute; congruence|by left].
Defined.

(** The client names the port 50001 for its data. *)
Definition data_elsewhere : ConnectRequest :=
  MkConnectRequest Hpai_route_back (MkHpai PROTOCOL_UDP (V4 10 0 0 7) 50001) (MkConnectionRequestInfo 4 2 0 None).
Lemma secure_replies_in_clear_witness :
  ∃ s', secure_handle_frame [] (encrypted toy_session
      (frame_bytes ServiceType.ConnectRequest (ConnectRequest_serialize data_elsewhere))) sample_link one_secure_client = (Ok (Some 2), s') ∧
    sent (plain s') = [(UdpLink (MkSocketAddr (V4 10 0 0 7) 50001),
      frame_bytes ServiceType.ConnectResponse (ConnectResponse_serialize (granted 2 one_client)))].
Proof.
  destruct (secure_replies_in_clear [] data_elsewhere sample_link sample_entry toy_session 2 one_secure_client) as (s' & E & Hs & _).
  - by exists sample_peer.
  - exact one_secure_entry.
  - reflexivity.
  - exact toy_paired.
  - vm_compute. split; congruence.
  - by right.
  - exact one_secure_ready.
  - reflexivity.
  - vm_compute. congruence.
  - vm_compute. congruence.
  - vm_compute. congruence.
  - reflexivity.
  - reflexivity.
  - reflexivity.
  - exists s'. exact (conj E Hs).
Defined.

Lemma session_request_displaces_witness :
  ∃ s', secure_handle_frame [5] (request_frame Hpai_route_back (x25519_public [3])) sample_link one_secure_client = (Ok None, s') ∧
    secure_handle_frame [] (encrypted toy_session sample_request) sample_link s' = (Ok None, s').
Proof.
  apply (session_request_displaces some_config [3] [5] [] Hpai_route_back sample_link toy_session sample_request one_secure_client).
  - reflexivity.
  - vm_compute. split; congruence.
  - reflexivity.
  - vm_compute. by repeat split.
  - apply toy_paired.
  - vm_compute. congruence.
Defined.
End witnesses.
