(* ===== verification/Dpt.v ===== *)
(** Datapoint types ([src/src/protocol/dpt/mod.rs]): the [DptValue] trait as a
    class, the contract every datapoint keeps ([DptLaws]), the validating
    wrapper [Dpt] and the aliases the macro [dpt_alias!] declares.  The [f64] of
    [value_range] is in [DptRegistry]. *)
From S2P Require Import Prelude Errors.

(** * The [DptValue] trait *)
Class DptValue (A : Type) := {
  dpt_number : string;
  value_type : string;
  unit_text : option string;
  ha_device_class : option string;
  byte_length : nat;
  from_bytes : list Z → result A;
  as_bytes : A → list Z;
  validate : A → result unit;
}.

(** The default methods. *)
Definition DptValue_decode {A} `{DptValue A} (bytes : list Z) : result A := from_bytes bytes.
Definition DptValue_encode {A} `{DptValue A} (a : A) : result (list Z) := Ok (as_bytes a).

(** The error every [from_bytes] reports on a wrong length, and its guard. *)
Definition invalid_length {A} (number : string) (expected got : nat) : result A :=
  perr (DptError number ("Invalid length: expected " +:+ dec_nat expected +:+ ", got " +:+ dec_nat got)).
Definition with_length {A} (number : string) (n : nat) (bytes : list Z) (k : result A) : result A :=
  if negb (length bytes =? n)%nat then invalid_length number n (length bytes) else k.

(** What every datapoint promises: decoding never panics; a payload of the
    wrong length is refused with the length error; whatever it decodes passes
    its own validation and encodes to the declared length; a well-formed value
    decodes from its own encoding; and the encoding of a decoded value is
    stable: it decodes to a well-formed value with the same encoding.  (Types
    with fields that can be marked absent decode such a field to whatever its
    bytes were, so a decoded value need not be well-formed itself.) *)
Class DptLaws (A : Type) `{DptValue A} := {
  dpt_wf : A → Prop;
  from_bytes_total : ∀ bytes, from_bytes bytes ≠ Panic;
  from_bytes_length : ∀ bytes, length bytes ≠ byte_length →
    ∃ number, from_bytes bytes = invalid_length number byte_length (length bytes);
  from_bytes_valid : ∀ bytes a, bytes_ok bytes → from_bytes bytes = Ok a → validate a = Ok tt;
  from_bytes_stable : ∀ bytes a, bytes_ok bytes → from_bytes bytes = Ok a →
    ∃ a', dpt_wf a' ∧ as_bytes a' = as_bytes a;
  as_bytes_wf : ∀ a, dpt_wf a → length (as_bytes a) = byte_length ∧ bytes_ok (as_bytes a);
  dpt_roundtrip : ∀ a, dpt_wf a → from_bytes (as_bytes a) = Ok a;
}.

(** * The validating wrapper [Dpt<T>] *)
Record Dpt (A : Type) := MkDpt { dpt_value : A }.
Arguments MkDpt {A} _.
Arguments dpt_value {A} _.
Definition Dpt_new {A} `{DptValue A} (a : A) : result (Dpt A) := _ ← validate a; Ok (MkDpt a).
Definition Dpt_encode {A} `{DptValue A} (d : Dpt A) : result (list Z) := Ok (as_bytes (dpt_value d)).
Definition Dpt_as_bytes {A} `{DptValue A} (d : Dpt A) : list Z := as_bytes (dpt_value d).
Definition Dpt_decode {A} `{DptValue A} (bytes : list Z) : result (Dpt A) :=
  a ← DptValue_decode bytes; Dpt_new a.

Section received.
Context {A : Type} `{DptLaws A}.
Implicit Types (bytes : list Z) (a : A).

Lemma Dpt_decode_valid bytes : bytes_ok bytes →
  Dpt_decode (A:=A) bytes = (a ← from_bytes bytes; Ok (MkDpt a)).
Proof.
  intros Hb. unfold Dpt_decode, DptValue_decode.
  destruct (from_bytes bytes) as [a|e|] eqn:E; [|done..]. cbn [mbind outcome_bind].
  unfold Dpt_new. by rewrite (from_bytes_valid bytes a).
Qed.

(** The wrapper, whatever bytes arrive and whatever datapoint it wraps:
    it returns a value or an error and never panics; a payload of any other
    length than the declared one is refused with the length error; and an
    accepted payload is re-encoded to one of the declared length that the
    wrapper accepts again, with the same encoding. *)
Theorem dpt_decode_stable bytes : bytes_ok bytes →
  Dpt_decode (A:=A) bytes ≠ Panic ∧
  (length bytes ≠ byte_length → ∃ number,
     Dpt_decode (A:=A) bytes = invalid_length number byte_length (length bytes)) ∧
  (∀ d : Dpt A, Dpt_decode bytes = Ok d →
     length (Dpt_as_bytes d) = byte_length ∧
     ∃ d' : Dpt A, Dpt_decode (Dpt_as_bytes d) = Ok d' ∧ Dpt_as_bytes d' = Dpt_as_bytes d).
Proof.
  intros Hb. rewrite Dpt_decode_valid by done. split_and!.
  - by apply outcome_bind_no_panic; [apply from_bytes_total|].
  - intros (n & E)%from_bytes_length. exists n. by rewrite E.
  - intros d (a & Ha & [= <-])%outcome_bind_Ok.
    destruct (from_bytes_stable bytes a Hb Ha) as (a' & Hw & E). unfold Dpt_as_bytes. cbn.
    destruct (as_bytes_wf a' Hw) as [Hl Hb']. rewrite <-E. split; [done|]. exists (MkDpt a').
    by rewrite Dpt_decode_valid, dpt_roundtrip.
Qed.
End received.

(** * Aliases

    [dpt_alias!] declares a new type around a base datapoint with its own
    number, value type, unit and device class, and delegates the rest. *)
Class DptInnerType (A I : Type) := {
  inner_new : I → result A;
  into_inner : A → I;
}.
Record dpt_alias (number vt : string) (u ha : option string) (B : Type) := MkAlias { alias_base : B }.
Arguments MkAlias {number vt u ha B} _.
Arguments alias_base {number vt u ha B} _.

Section alias.
Context {number vt : string} {u ha : option string} {B : Type} `{DptValue B}.
Abbreviation A := (dpt_alias number vt u ha B).

Definition alias_new {I} `{DptInnerType B I} (i : I) : result A := b ← inner_new i; Ok (MkAlias b).
Definition alias_value {I} `{DptInnerType B I} (a : A) : I := into_inner (alias_base a).

#[global] Instance alias_DptValue : DptValue A := {
  dpt_number := number;
  value_type := vt;
  unit_text := u;
  ha_device_class := ha;
  byte_length := @byte_length B _;
  from_bytes bytes := (b ← from_bytes bytes; Ok (MkAlias b));
  as_bytes a := as_bytes (alias_base a);
  validate a := validate (alias_base a);
}.

#[global] Program Instance alias_laws `{!DptLaws B} : DptLaws A := { dpt_wf a := dpt_wf (alias_base a) }.
Next Obligation.
  intros L bytes. cbn. apply outcome_bind_no_panic; [apply from_bytes_total|done].
Qed.
Next Obligation.
  intros L bytes Hl. destruct (from_bytes_length (A:=B) bytes Hl) as [n E]. exists n. cbn. by rewrite E.
Qed.
Next Obligation.
  intros L bytes a Hb (b & Hd & [= <-])%outcome_bind_Ok. by apply (from_bytes_valid (A:=B) bytes).
Qed.
Next Obligation.
  intros L bytes a Hb (b & Hd & [= <-])%outcome_bind_Ok.
  destruct (from_bytes_stable (A:=B) bytes b Hb Hd) as (b' & Hw & E). by exists (MkAlias b').
Qed.
Next Obligation. intros L [b] Hb. by apply (as_bytes_wf (A:=B)). Qed.
Next Obligation. intros L [b] Hb. cbn in *. by rewrite (dpt_roundtrip (A:=B)). Qed.
End alias.

(** * Shared lemmas *)
Lemma with_length_total {A} number n bytes (k : result A) :
  (length bytes = n → k ≠ Panic) → with_length number n bytes k ≠ Panic.
Proof.
  intros Hk. unfold with_length. destruct (Nat.eqb_spec (length bytes) n); cbn; [by apply Hk|done].
Qed.
Lemma with_length_wrong {A} number n bytes (k : result A) :
  length bytes ≠ n → with_length number n bytes k = invalid_length number n (length bytes).
Proof. intros Hn. unfold with_length. by rewrite (proj2 (Nat.eqb_neq _ _) Hn). Qed.
Lemma with_length_Ok {A} number n bytes (k : result A) a :
  with_length number n bytes k = Ok a → length bytes = n ∧ k = Ok a.
Proof. unfold with_length. by destruct (Nat.eqb_spec (length bytes) n). Qed.
Lemma with_length_right {A} number n bytes (k : result A) :
  length bytes = n → with_length number n bytes k = k.
Proof. intros <-. unfold with_length. by rewrite Nat.eqb_refl. Qed.

(** A datapoint keeps its contract when its decoder, behind the length guard,
    does. *)
Section intro.
Context {A : Type} `{DptValue A} (number : string) (wf : A → Prop).

Section any_length.
Context (decode : list Z → result A).
Hypothesis Hfrom : ∀ bytes, from_bytes bytes = with_length number byte_length bytes (decode bytes).
Hypothesis Htotal : ∀ bytes, length bytes = byte_length → decode bytes ≠ Panic.
Hypothesis Hbytes : ∀ a, wf a →
  length (as_bytes a) = byte_length ∧ bytes_ok (as_bytes a) ∧ decode (as_bytes a) = Ok a.

Lemma intro_total bytes : from_bytes bytes ≠ Panic.
Proof. rewrite Hfrom. by apply with_length_total, Htotal. Qed.
Lemma intro_length bytes : length bytes ≠ byte_length →
  ∃ number, from_bytes bytes = invalid_length (A:=A) number byte_length (length bytes).
Proof. intros Hl. exists number. rewrite Hfrom. by apply with_length_wrong. Qed.
Lemma intro_as_bytes a : wf a → length (as_bytes a) = byte_length ∧ bytes_ok (as_bytes a).
Proof. intros (Hl & Hb & _)%Hbytes. done. Qed.
Lemma intro_roundtrip a : wf a → from_bytes (as_bytes a) = Ok a.
Proof. intros (Hl & _ & Hd)%Hbytes. by rewrite Hfrom, with_length_right. Qed.

(** Decoded values are valid and encode like a well-formed one. *)
Hypothesis Hdecoded : ∀ bytes a, length bytes = byte_length → bytes_ok bytes → decode bytes = Ok a →
  validate a = Ok tt ∧ ∃ a', wf a' ∧ as_bytes a' = as_bytes a.
Lemma intro_valid bytes a : bytes_ok bytes → from_bytes bytes = Ok a → validate a = Ok tt.
Proof. rewrite Hfrom. intros Hb [Hl Ha]%with_length_Ok. by apply (Hdecoded bytes). Qed.
Lemma intro_stable bytes a :
  bytes_ok bytes → from_bytes bytes = Ok a → ∃ a', wf a' ∧ as_bytes a' = as_bytes a.
Proof. rewrite Hfrom. intros Hb [Hl Ha]%with_length_Ok. by apply (Hdecoded bytes). Qed.

Definition dpt_laws_intro : DptLaws A := {|
  dpt_wf := wf;
  from_bytes_total := intro_total;
  from_bytes_length := intro_length;
  from_bytes_valid := intro_valid;
  from_bytes_stable := intro_stable;
  as_bytes_wf := intro_as_bytes;
  dpt_roundtrip := intro_roundtrip |}.
End any_length.

Section strict.
(** Decoded values are well-formed themselves. *)
Context (decode : list Z → result A).
Hypothesis Hstrict : ∀ bytes a, length bytes = byte_length → bytes_ok bytes → decode bytes = Ok a →
  wf a ∧ validate a = Ok tt.
Lemma strict_decoded bytes a :
  length bytes = byte_length → bytes_ok bytes → decode bytes = Ok a →
  validate a = Ok tt ∧ ∃ a', wf a' ∧ as_bytes a' = as_bytes a.
Proof. intros Hl Hb Ha. destruct (Hstrict bytes a Hl Hb Ha) as [Hw Hv]. split; [done|]. by exists a. Qed.
End strict.

(** One byte. *)
Lemma length_1 (bytes : list Z) : length bytes = 1%nat → ∃ b, bytes = [b].
Proof. destruct bytes as [|b [|? ?]]; [done| |done]. intros _. by exists b. Qed.

Context (decode : Z → result A).
Hypothesis Hfrom : ∀ bytes,
  from_bytes bytes = with_length number byte_length bytes (b ← idx bytes 0; decode b).
Hypothesis Hone : byte_length = 1%nat.
Hypothesis Htotal : ∀ b, decode b ≠ Panic.
Hypothesis Hwf : ∀ b a, u8_ok b → decode b = Ok a → wf a ∧ validate a = Ok tt.
Hypothesis Hbytes : ∀ a, wf a → ∃ b, as_bytes a = [b] ∧ u8_ok b ∧ decode b = Ok a.

Lemma byte_total bytes : length bytes = byte_length → (b ← idx bytes 0; decode b) ≠ Panic.
Proof. rewrite Hone. intros [b ->]%length_1. apply Htotal. Qed.
Lemma byte_wf bytes a : length bytes = byte_length → bytes_ok bytes →
  (b ← idx bytes 0; decode b) = Ok a → wf a ∧ validate a = Ok tt.
Proof. rewrite Hone. intros [b ->]%length_1 [Hb _]%Forall_cons. by apply Hwf. Qed.
Lemma byte_as_bytes a : wf a →
  length (as_bytes a) = byte_length ∧ bytes_ok (as_bytes a) ∧ (b ← idx (as_bytes a) 0; decode b) = Ok a.
Proof.
  intros (b & -> & Hb & Hd)%Hbytes. rewrite Hone. split_and!; [done| |exact Hd]. by repeat constructor; apply Hb.
Qed.
Definition byte_laws_intro : DptLaws A :=
  dpt_laws_intro (λ bytes, b ← idx bytes 0; decode b) Hfrom byte_total byte_as_bytes
    (strict_decoded _ byte_wf).
End intro.
