(* ===== verification/DptNumeric.v ===== *)
(** The one-field datapoints: booleans and controls ([dpt1.rs], [dpt2.rs],
    [dpt3.rs]), integers of 8 to 64 bits ([dpt5.rs] to [dpt8.rs], [dpt12.rs],
    [dpt13.rs], [dpt29.rs]), scenes ([dpt17.rs], [dpt18.rs]) and HVAC modes
    ([dpt20.rs]).  A one-byte array is its byte, a longer one the list of its
    bytes. *)
From S2P Require Import Prelude Errors Dpt.

(** * DPT 1 and 2 *)
Record Switch := MkSwitch { switch_0 : Z }.
Definition Switch_new (value : bool) : Switch := MkSwitch (bool_u8 value).
Definition Switch_value (s : Switch) : bool := bit_set (switch_0 s) 0x01.
Definition Switch_validate (s : Switch) : result unit :=
  if 1 <? switch_0 s
  then perr (DptError "1.001" ("Invalid binary value: expected 0 or 1, got " +:+ dec (switch_0 s)))
  else Ok tt.
Definition Switch_from_bytes (bytes : list Z) : result Switch :=
  with_length "1.001" 1 bytes (b ← idx bytes 0; _ ← Switch_validate (MkSwitch b); Ok (MkSwitch b)).
#[global] Instance Switch_DptValue : DptValue Switch := {
  dpt_number := "1.001"; value_type := "switch"; unit_text := None; ha_device_class := None;
  byte_length := 1; from_bytes := Switch_from_bytes; as_bytes s := [switch_0 s];
  validate := Switch_validate }.
#[global] Instance Switch_inner : DptInnerType Switch bool := {
  inner_new v := Ok (Switch_new v); into_inner := Switch_value }.

Record BinaryControl := MkBinaryControl { binary_control_0 : Z }.
Definition BinaryControl_new (control value : bool) : BinaryControl :=
  MkBinaryControl (Z.lor (shl8 (bool_u8 control) 1) (bool_u8 value)).
Definition BinaryControl_control (s : BinaryControl) : bool := bit_set (binary_control_0 s) 0x02.
Definition BinaryControl_value (s : BinaryControl) : bool := bit_set (binary_control_0 s) 0x01.
Definition BinaryControl_validate (s : BinaryControl) : result unit :=
  if 3 <? binary_control_0 s
  then perr (DptError "2.001"
         ("Invalid 2-bit control value: expected 0-3, got " +:+ dec (binary_control_0 s)))
  else Ok tt.
Definition BinaryControl_from_bytes (bytes : list Z) : result BinaryControl :=
  with_length "2.001" 1 bytes
    (b ← idx bytes 0; _ ← BinaryControl_validate (MkBinaryControl b); Ok (MkBinaryControl b)).
#[global] Instance BinaryControl_DptValue : DptValue BinaryControl := {
  dpt_number := "2.001"; value_type := "switch_control"; unit_text := None; ha_device_class := None;
  byte_length := 1; from_bytes := BinaryControl_from_bytes; as_bytes s := [binary_control_0 s];
  validate := BinaryControl_validate }.
#[global] Instance BinaryControl_inner : DptInnerType BinaryControl (bool * bool) := {
  inner_new v := Ok (BinaryControl_new v.1 v.2);
  into_inner s := (BinaryControl_control s, BinaryControl_value s) }.

(** * DPT 3 *)
Definition control_byte (number : string) (control : bool) (step_code : Z) : result Z :=
  if 7 <? step_code
  then perr (DptError number ("Step code " +:+ dec step_code +:+ " out of range [0-7]"))
  else Ok (Z.lor (if control then 0x08 else 0x00) (Z.land step_code 0x07)).

Record ControlDimming := MkControlDimming { control_dimming_data : Z }.
Definition ControlDimming_new (control : bool) (step_code : Z) : result ControlDimming :=
  b ← control_byte "3.007" control step_code; Ok (MkControlDimming b).
Definition ControlDimming_control (c : ControlDimming) : bool := bit_set (control_dimming_data c) 0x08.
Definition ControlDimming_step_code (c : ControlDimming) : Z := Z.land (control_dimming_data c) 0x07.
Definition ControlDimming_from_bytes (bytes : list Z) : result ControlDimming :=
  with_length "3.007" 1 bytes (b ← idx bytes 0; Ok (MkControlDimming b)).
#[global] Instance ControlDimming_DptValue : DptValue ControlDimming := {
  dpt_number := "3.007"; value_type := "control_dimming"; unit_text := None; ha_device_class := None;
  byte_length := 1; from_bytes := ControlDimming_from_bytes;
  as_bytes c := [control_dimming_data c]; validate _ := Ok tt }.

Record ControlBlinds := MkControlBlinds { control_blinds_data : Z }.
Definition ControlBlinds_new (control : bool) (step_code : Z) : result ControlBlinds :=
  b ← control_byte "3.008" control step_code; Ok (MkControlBlinds b).
Definition ControlBlinds_control (c : ControlBlinds) : bool := bit_set (control_blinds_data c) 0x08.
Definition ControlBlinds_step_code (c : ControlBlinds) : Z := Z.land (control_blinds_data c) 0x07.
Definition ControlBlinds_from_bytes (bytes : list Z) : result ControlBlinds :=
  with_length "3.008" 1 bytes (b ← idx bytes 0; Ok (MkControlBlinds b)).
#[global] Instance ControlBlinds_DptValue : DptValue ControlBlinds := {
  dpt_number := "3.008"; value_type := "control_blinds"; unit_text := None; ha_device_class := None;
  byte_length := 1; from_bytes := ControlBlinds_from_bytes;
  as_bytes c := [control_blinds_data c]; validate _ := Ok tt }.

(** * DPT 5 and 6 *)
Record Scaling := MkScaling { scaling_data : Z }.
Definition Scaling_new (value : Z) : Scaling := MkScaling value.
Definition Scaling_value (s : Scaling) : Z := scaling_data s.
Definition Scaling_from_bytes (bytes : list Z) : result Scaling :=
  with_length "5.001" 1 bytes (b ← idx bytes 0; Ok (MkScaling b)).
#[global] Instance Scaling_DptValue : DptValue Scaling := {
  dpt_number := "5.001"; value_type := "scaling"; unit_text := Some "%"; ha_device_class := None;
  byte_length := 1; from_bytes := Scaling_from_bytes; as_bytes s := [scaling_data s];
  validate _ := Ok tt }.
#[global] Instance Scaling_inner : DptInnerType Scaling Z := {
  inner_new v := Ok (Scaling_new v); into_inner := Scaling_value }.

(** [value as u8] of an [i8] and back. *)
Record PercentV8 := MkPercentV8 { percent_v8_data : Z }.
Definition PercentV8_new (value : Z) : PercentV8 := MkPercentV8 (as_u8 value).
Definition PercentV8_value (p : PercentV8) : Z := as_signed 8 (percent_v8_data p).
Definition PercentV8_from_bytes (bytes : list Z) : result PercentV8 :=
  with_length "6.001" 1 bytes (b ← idx bytes 0; Ok (MkPercentV8 b)).
#[global] Instance PercentV8_DptValue : DptValue PercentV8 := {
  dpt_number := "6.001"; value_type := "percentV8"; unit_text := Some "%"; ha_device_class := None;
  byte_length := 1; from_bytes := PercentV8_from_bytes; as_bytes p := [percent_v8_data p];
  validate _ := Ok tt }.
#[global] Instance PercentV8_inner : DptInnerType PercentV8 Z := {
  inner_new v := Ok (PercentV8_new v); into_inner := PercentV8_value }.

Record Value1Count := MkValue1Count { value1_count_data : Z }.
Definition Value1Count_new (value : Z) : Value1Count := MkValue1Count (as_u8 value).
Definition Value1Count_value (p : Value1Count) : Z := as_signed 8 (value1_count_data p).
Definition Value1Count_from_bytes (bytes : list Z) : result Value1Count :=
  with_length "6.010" 1 bytes (b ← idx bytes 0; Ok (MkValue1Count b)).
#[global] Instance Value1Count_DptValue : DptValue Value1Count := {
  dpt_number := "6.010"; value_type := "counter_pulses"; unit_text := None; ha_device_class := None;
  byte_length := 1; from_bytes := Value1Count_from_bytes; as_bytes p := [value1_count_data p];
  validate _ := Ok tt }.
#[global] Instance Value1Count_inner : DptInnerType Value1Count Z := {
  inner_new v := Ok (Value1Count_new v); into_inner := Value1Count_value }.

(** * DPT 7, 8, 12, 13 and 29 *)

(** [[bytes[0], ..., bytes[n - 1]]]. *)
Fixpoint first_bytes (n : nat) (bytes : list Z) : result (list Z) :=
  match n with
  | O => Ok []
  | S n => l ← first_bytes n bytes; b ← idx bytes n; Ok (l ++ [b])
  end.

Record Value2ByteUnsigned := MkValue2ByteUnsigned { value2u_data : list Z }.
Definition Value2ByteUnsigned_new (value : Z) : Value2ByteUnsigned := MkValue2ByteUnsigned (to_be 2 value).
Definition Value2ByteUnsigned_value (v : Value2ByteUnsigned) : Z := from_be (value2u_data v).
Definition Value2ByteUnsigned_from_bytes (bytes : list Z) : result Value2ByteUnsigned :=
  with_length "7.001" 2 bytes (d ← first_bytes 2 bytes; Ok (MkValue2ByteUnsigned d)).
#[global] Instance Value2ByteUnsigned_DptValue : DptValue Value2ByteUnsigned := {
  dpt_number := "7.001"; value_type := "value_2_byte_unsigned"; unit_text := None;
  ha_device_class := None; byte_length := 2; from_bytes := Value2ByteUnsigned_from_bytes;
  as_bytes := value2u_data; validate _ := Ok tt }.
#[global] Instance Value2ByteUnsigned_inner : DptInnerType Value2ByteUnsigned Z := {
  inner_new v := Ok (Value2ByteUnsigned_new v); into_inner := Value2ByteUnsigned_value }.

Record Brightness := MkBrightness { brightness_data : list Z }.
Definition Brightness_new (value : Z) : Brightness := MkBrightness (to_be 2 value).
Definition Brightness_value (v : Brightness) : Z := from_be (brightness_data v).
Definition Brightness_from_bytes (bytes : list Z) : result Brightness :=
  with_length "7.013" 2 bytes (d ← first_bytes 2 bytes; Ok (MkBrightness d)).
#[global] Instance Brightness_DptValue : DptValue Brightness := {
  dpt_number := "7.013"; value_type := "brightness"; unit_text := Some "lux";
  ha_device_class := Some "illuminance"; byte_length := 2; from_bytes := Brightness_from_bytes;
  as_bytes := brightness_data; validate _ := Ok tt }.
#[global] Instance Brightness_inner : DptInnerType Brightness Z := {
  inner_new v := Ok (Brightness_new v); into_inner := Brightness_value }.

Record Value2ByteSigned := MkValue2ByteSigned { value2s_data : list Z }.
Definition Value2ByteSigned_new (value : Z) : Value2ByteSigned := MkValue2ByteSigned (to_be 2 value).
Definition Value2ByteSigned_value (v : Value2ByteSigned) : Z := as_signed 16 (from_be (value2s_data v)).
Definition Value2ByteSigned_from_bytes (bytes : list Z) : result Value2ByteSigned :=
  with_length "8.001" 2 bytes (d ← first_bytes 2 bytes; Ok (MkValue2ByteSigned d)).
#[global] Instance Value2ByteSigned_DptValue : DptValue Value2ByteSigned := {
  dpt_number := "8.001"; value_type := "value_2_byte_signed"; unit_text := None;
  ha_device_class := None; byte_length := 2; from_bytes := Value2ByteSigned_from_bytes;
  as_bytes := value2s_data; validate _ := Ok tt }.
#[global] Instance Value2ByteSigned_inner : DptInnerType Value2ByteSigned Z := {
  inner_new v := Ok (Value2ByteSigned_new v); into_inner := Value2ByteSigned_value }.

Record Value4ByteUnsigned := MkValue4ByteUnsigned { value4u_data : list Z }.
Definition Value4ByteUnsigned_new (value : Z) : Value4ByteUnsigned := MkValue4ByteUnsigned (to_be 4 value).
Definition Value4ByteUnsigned_value (v : Value4ByteUnsigned) : Z := from_be (value4u_data v).
Definition Value4ByteUnsigned_from_bytes (bytes : list Z) : result Value4ByteUnsigned :=
  with_length "12.001" 4 bytes (d ← first_bytes 4 bytes; Ok (MkValue4ByteUnsigned d)).
#[global] Instance Value4ByteUnsigned_DptValue : DptValue Value4ByteUnsigned := {
  dpt_number := "12.001"; value_type := "value_4_byte_unsigned"; unit_text := None;
  ha_device_class := None; byte_length := 4; from_bytes := Value4ByteUnsigned_from_bytes;
  as_bytes := value4u_data; validate _ := Ok tt }.
#[global] Instance Value4ByteUnsigned_inner : DptInnerType Value4ByteUnsigned Z := {
  inner_new v := Ok (Value4ByteUnsigned_new v); into_inner := Value4ByteUnsigned_value }.

Record Value4ByteSigned := MkValue4ByteSigned { value4s_data : list Z }.
Definition Value4ByteSigned_new (value : Z) : Value4ByteSigned := MkValue4ByteSigned (to_be 4 value).
Definition Value4ByteSigned_value (v : Value4ByteSigned) : Z := as_signed 32 (from_be (value4s_data v)).
Definition Value4ByteSigned_from_bytes (bytes : list Z) : result Value4ByteSigned :=
  with_length "13.001" 4 bytes (d ← first_bytes 4 bytes; Ok (MkValue4ByteSigned d)).
#[global] Instance Value4ByteSigned_DptValue : DptValue Value4ByteSigned := {
  dpt_number := "13.001"; value_type := "value_4_byte_signed"; unit_text := None;
  ha_device_class := None; byte_length := 4; from_bytes := Value4ByteSigned_from_bytes;
  as_bytes := value4s_data; validate _ := Ok tt }.
#[global] Instance Value4ByteSigned_inner : DptInnerType Value4ByteSigned Z := {
  inner_new v := Ok (Value4ByteSigned_new v); into_inner := Value4ByteSigned_value }.

Record ActiveEnergy := MkActiveEnergy { active_energy_data : list Z }.
Definition ActiveEnergy_new (value : Z) : ActiveEnergy := MkActiveEnergy (to_be 4 value).
Definition ActiveEnergy_value (v : ActiveEnergy) : Z := as_signed 32 (from_be (active_energy_data v)).
Definition ActiveEnergy_from_bytes (bytes : list Z) : result ActiveEnergy :=
  with_length "13.010" 4 bytes (d ← first_bytes 4 bytes; Ok (MkActiveEnergy d)).
#[global] Instance ActiveEnergy_DptValue : DptValue ActiveEnergy := {
  dpt_number := "13.010"; value_type := "active_energy"; unit_text := Some "Wh";
  ha_device_class := Some "energy"; byte_length := 4; from_bytes := ActiveEnergy_from_bytes;
  as_bytes := active_energy_data; validate _ := Ok tt }.
#[global] Instance ActiveEnergy_inner : DptInnerType ActiveEnergy Z := {
  inner_new v := Ok (ActiveEnergy_new v); into_inner := ActiveEnergy_value }.

Record ActiveEnergy8Byte := MkActiveEnergy8Byte { energy8_value : Z; energy8_data : list Z }.
Definition ActiveEnergy8Byte_new (value : Z) : ActiveEnergy8Byte := MkActiveEnergy8Byte value (to_be 8 value).
Definition ActiveEnergy8Byte_decode (bytes : list Z) : result ActiveEnergy8Byte :=
  with_length "29.010" 8 bytes
    (d ← first_bytes 8 bytes; Ok (ActiveEnergy8Byte_new (as_signed 64 (from_be d)))).
#[global] Instance ActiveEnergy8Byte_DptValue : DptValue ActiveEnergy8Byte := {
  dpt_number := "29.010"; value_type := "active_energy_8byte"; unit_text := Some "Wh";
  ha_device_class := Some "energy"; byte_length := 8; from_bytes := ActiveEnergy8Byte_decode;
  as_bytes := energy8_data; validate _ := Ok tt }.
#[global] Instance ActiveEnergy8Byte_inner : DptInnerType ActiveEnergy8Byte Z := {
  inner_new v := Ok (ActiveEnergy8Byte_new v); into_inner := energy8_value }.

(** * DPT 17, 18 and 20 *)
Definition in_range (lo hi z : Z) : bool := (lo <=? z) && (z <=? hi).

Record SceneNumber := MkSceneNumber { scene_number : Z; scene_number_data : Z }.
Definition SceneNumber_new (n : Z) : result SceneNumber :=
  if negb (in_range 1 64 n)
  then perr (DptError "17.001" ("Scene number " +:+ dec n +:+ " out of range [1-64]"))
  else Ok (MkSceneNumber n (n - 1)).
Definition SceneNumber_decode (bytes : list Z) : result SceneNumber :=
  with_length "17.001" 1 bytes
    (b ← idx bytes 0;
     let n := Z.land b 0x3F + 1 in
     Ok (MkSceneNumber n (n - 1))).
Definition SceneNumber_validate (s : SceneNumber) : result unit :=
  if negb (in_range 1 64 (scene_number s))
  then perr (DptError "17.001" ("Scene number " +:+ dec (scene_number s) +:+ " out of range [1-64]"))
  else Ok tt.
#[global] Instance SceneNumber_DptValue : DptValue SceneNumber := {
  dpt_number := "17.001"; value_type := "scene_number"; unit_text := None; ha_device_class := None;
  byte_length := 1; from_bytes := SceneNumber_decode; as_bytes s := [scene_number_data s];
  validate := SceneNumber_validate }.
(** [new(value).unwrap()]. *)
Definition unwrap {A} (r : result A) : result A := match r with Ok a => Ok a | _ => Panic end.
#[global] Instance SceneNumber_inner : DptInnerType SceneNumber Z := {
  inner_new v := unwrap (SceneNumber_new v); into_inner := scene_number }.

Record SceneControl := MkSceneControl {
  scene_control_number : Z; learn : bool; scene_control_data : Z }.
Definition SceneControl_new (n : Z) (l : bool) : result SceneControl :=
  if negb (in_range 1 64 n)
  then perr (DptError "18.001" ("Scene number " +:+ dec n +:+ " out of range [1-64]"))
  else
    let byte := n - 1 in
    let byte := if l then Z.lor byte 0x80 else byte in
    Ok (MkSceneControl n l byte).
Definition SceneControl_decode (bytes : list Z) : result SceneControl :=
  with_length "18.001" 1 bytes
    (byte ← idx bytes 0;
     Ok (MkSceneControl (Z.land byte 0x3F + 1) (bit_set byte 0x80) byte)).
Definition SceneControl_validate (s : SceneControl) : result unit :=
  if negb (in_range 1 64 (scene_control_number s))
  then perr (DptError "18.001"
         ("Scene number " +:+ dec (scene_control_number s) +:+ " out of range [1-64]"))
  else Ok tt.
#[global] Instance SceneControl_DptValue : DptValue SceneControl := {
  dpt_number := "18.001"; value_type := "scene_control"; unit_text := None; ha_device_class := None;
  byte_length := 1; from_bytes := SceneControl_decode; as_bytes s := [scene_control_data s];
  validate := SceneControl_validate }.

Record HVACMode := MkHVACMode { hvac_value : Z; hvac_data : Z }.
Definition HVACMode_new (value : Z) : result HVACMode :=
  if 4 <? value
  then perr (DptError "20.102" ("HVAC mode " +:+ dec value +:+ " out of range [0-4]"))
  else Ok (MkHVACMode value value).
Definition HVACMode_decode (bytes : list Z) : result HVACMode :=
  with_length "20.102" 1 bytes (b ← idx bytes 0; HVACMode_new b).
Definition HVACMode_validate (m : HVACMode) : result unit :=
  if 4 <? hvac_value m
  then perr (DptError "20.102" ("HVAC mode " +:+ dec (hvac_value m) +:+ " out of range [0-4]"))
  else Ok tt.
#[global] Instance HVACMode_DptValue : DptValue HVACMode := {
  dpt_number := "20.102"; value_type := "hvac_mode"; unit_text := None; ha_device_class := None;
  byte_length := 1; from_bytes := HVACMode_decode; as_bytes m := [hvac_data m];
  validate := HVACMode_validate }.
#[global] Instance HVACMode_inner : DptInnerType HVACMode Z := {
  inner_new v := unwrap (HVACMode_new v); into_inner := hvac_value }.

Record HVACControllerMode := MkHVACControllerMode { hvac_contr_value : Z; hvac_contr_data : Z }.
Definition HVACControllerMode_new (value : Z) : result HVACControllerMode :=
  if (17 <? value) && negb (value =? 20)
  then perr (DptError "20.105"
         ("HVAC controller mode " +:+ dec value +:+ " out of Python-compatible range [0-17, 20]"))
  else Ok (MkHVACControllerMode value value).
Definition HVACControllerMode_decode (bytes : list Z) : result HVACControllerMode :=
  with_length "20.105" 1 bytes (b ← idx bytes 0; HVACControllerMode_new b).
Definition HVACControllerMode_validate (m : HVACControllerMode) : result unit :=
  if (17 <? hvac_contr_value m) && negb (hvac_contr_value m =? 20)
  then perr (DptError "20.105" ("HVAC controller mode " +:+ dec (hvac_contr_value m)
         +:+ " out of Python-compatible range [0-17, 20]"))
  else Ok tt.
#[global] Instance HVACControllerMode_DptValue : DptValue HVACControllerMode := {
  dpt_number := "20.105"; value_type := "hvac_controller_mode"; unit_text := None;
  ha_device_class := None; byte_length := 1; from_bytes := HVACControllerMode_decode;
  as_bytes m := [hvac_contr_data m]; validate := HVACControllerMode_validate }.
#[global] Instance HVACControllerMode_inner : DptInnerType HVACControllerMode Z := {
  inner_new v := unwrap (HVACControllerMode_new v); into_inner := hvac_contr_value }.

(** * The contracts *)
Lemma first_bytes_all n bytes : (n ≤ length bytes)%nat → first_bytes n bytes = Ok (take n bytes).
Proof.
  induction n as [|n IH]; intros Hn; [done|]. cbn [first_bytes]. rewrite IH by lia.
  destruct (idx_lt (E:=KnxError) bytes n) as (b & Hb & ->); [lia|].
  cbn [mbind outcome_bind]. by rewrite (take_S_r _ _ _ Hb).
Qed.
Lemma first_bytes_exact n bytes : length bytes = n → first_bytes n bytes = Ok bytes.
Proof. intros Hn. rewrite first_bytes_all by lia. by rewrite take_ge by lia. Qed.

Ltac decoder_total :=
  unfold Switch_validate, BinaryControl_validate, HVACMode_new, HVACControllerMode_new;
  by repeat case_match.
Tactic Notation "byte_laws" constr(number) uconstr(wf) uconstr(decode) :=
  refine (byte_laws_intro number wf decode _ _ _ _ _);
  [done|done|intros; cbn; decoder_total|..].
Tactic Notation "bytes_laws" constr(number) uconstr(wf) uconstr(decode) :=
  refine (dpt_laws_intro number wf decode _ _ _ (strict_decoded wf decode _)); [done|..].

(** Plain bytes: any payload of the right length is a value. *)
Ltac plain_byte := first [intros b a Hb [= <-]; done | intros [b] Hb; by exists b].
Ltac plain_bytes :=
  first [ intros bytes Hl; by rewrite first_bytes_exact
        | intros bytes a Hl Hb; rewrite first_bytes_exact by done; intros [= <-]; done
        | intros [d] [Hl Hb]; rewrite first_bytes_exact by done; done ].

#[global] Instance ControlDimming_laws : DptLaws ControlDimming.
Proof. byte_laws "3.007" (λ c, u8_ok (control_dimming_data c)) (λ b, Ok (MkControlDimming b)); plain_byte. Defined.
#[global] Instance ControlBlinds_laws : DptLaws ControlBlinds.
Proof. byte_laws "3.008" (λ c, u8_ok (control_blinds_data c)) (λ b, Ok (MkControlBlinds b)); plain_byte. Defined.
#[global] Instance Scaling_laws : DptLaws Scaling.
Proof. byte_laws "5.001" (λ s, u8_ok (scaling_data s)) (λ b, Ok (MkScaling b)); plain_byte. Defined.
#[global] Instance PercentV8_laws : DptLaws PercentV8.
Proof. byte_laws "6.001" (λ p, u8_ok (percent_v8_data p)) (λ b, Ok (MkPercentV8 b)); plain_byte. Defined.
#[global] Instance Value1Count_laws : DptLaws Value1Count.
Proof. byte_laws "6.010" (λ p, u8_ok (value1_count_data p)) (λ b, Ok (MkValue1Count b)); plain_byte. Defined.

#[global] Instance Value2ByteUnsigned_laws : DptLaws Value2ByteUnsigned.
Proof.
  bytes_laws "7.001" (λ v, length (value2u_data v) = 2%nat ∧ bytes_ok (value2u_data v))
    (λ bytes, d ← first_bytes 2 bytes; Ok (MkValue2ByteUnsigned d)); plain_bytes.
Defined.
#[global] Instance Brightness_laws : DptLaws Brightness.
Proof.
  bytes_laws "7.013" (λ v, length (brightness_data v) = 2%nat ∧ bytes_ok (brightness_data v))
    (λ bytes, d ← first_bytes 2 bytes; Ok (MkBrightness d)); plain_bytes.
Defined.
#[global] Instance Value2ByteSigned_laws : DptLaws Value2ByteSigned.
Proof.
  bytes_laws "8.001" (λ v, length (value2s_data v) = 2%nat ∧ bytes_ok (value2s_data v))
    (λ bytes, d ← first_bytes 2 bytes; Ok (MkValue2ByteSigned d)); plain_bytes.
Defined.
#[global] Instance Value4ByteUnsigned_laws : DptLaws Value4ByteUnsigned.
Proof.
  bytes_laws "12.001" (λ v, length (value4u_data v) = 4%nat ∧ bytes_ok (value4u_data v))
    (λ bytes, d ← first_bytes 4 bytes; Ok (MkValue4ByteUnsigned d)); plain_bytes.
Defined.
#[global] Instance Value4ByteSigned_laws : DptLaws Value4ByteSigned.
Proof.
  bytes_laws "13.001" (λ v, length (value4s_data v) = 4%nat ∧ bytes_ok (value4s_data v))
    (λ bytes, d ← first_bytes 4 bytes; Ok (MkValue4ByteSigned d)); plain_bytes.
Defined.
#[global] Instance ActiveEnergy_laws : DptLaws ActiveEnergy.
Proof.
  bytes_laws "13.010" (λ v, length (active_energy_data v) = 4%nat ∧ bytes_ok (active_energy_data v))
    (λ bytes, d ← first_bytes 4 bytes; Ok (MkActiveEnergy d)); plain_bytes.
Defined.

(** Booleans and controls: the bits the type has, no others. *)
#[global] Instance Switch_laws : DptLaws Switch.
Proof.
  byte_laws "1.001" (λ s, 0 ≤ switch_0 s ≤ 1)
    (λ b, _ ← Switch_validate (MkSwitch b); Ok (MkSwitch b)).
  - intros b a Hb (u & Hv & [= <-])%outcome_bind_Ok. destruct u. split; [|exact Hv].
    unfold Switch_validate, u8_ok in *. cbn in *. destruct (Z.ltb_spec 1 b); [done|lia].
  - intros [b] Hb. cbn in Hb. exists b. split_and!; [done|unfold u8_ok; lia|].
    unfold Switch_validate. cbn. by rewrite (proj2 (Z.ltb_ge _ _)) by lia.
Defined.
#[global] Instance BinaryControl_laws : DptLaws BinaryControl.
Proof.
  byte_laws "2.001" (λ s, 0 ≤ binary_control_0 s ≤ 3)
    (λ b, _ ← BinaryControl_validate (MkBinaryControl b); Ok (MkBinaryControl b)).
  - intros b a Hb (u & Hv & [= <-])%outcome_bind_Ok. destruct u. split; [|exact Hv].
    unfold BinaryControl_validate, u8_ok in *. cbn in *. destruct (Z.ltb_spec 3 b); [done|lia].
  - intros [b] Hb. cbn in Hb. exists b. split_and!; [done|unfold u8_ok; lia|].
    unfold BinaryControl_validate. cbn. by rewrite (proj2 (Z.ltb_ge _ _)) by lia.
Defined.

(** Scenes and modes: the decoded field determines the byte. *)
Lemma in_range_spec lo hi z : in_range lo hi z = true ↔ lo ≤ z ≤ hi.
Proof. unfold in_range. rewrite andb_true_iff, !Z.leb_le. done. Qed.
#[global] Instance SceneNumber_laws : DptLaws SceneNumber.
Proof.
  byte_laws "17.001" (λ s, 1 ≤ scene_number s ≤ 64 ∧ scene_number_data s = scene_number s - 1)
    (λ b, Ok (MkSceneNumber (Z.land b 0x3F + 1) (Z.land b 0x3F + 1 - 1))).
  - intros b a Hb [= <-]. cbn. rewrite land_63. assert (0 ≤ b mod 64 < 64) by by apply Z.mod_pos_bound.
    split; [split; [lia|done]|]. unfold SceneNumber_validate. cbn [scene_number].
    by rewrite (proj2 (in_range_spec _ _ _)) by lia.
  - intros [n d] [Hn Hd]. cbn in Hn, Hd. subst d. exists (n - 1).
    split_and!; [done|unfold u8_ok; lia|]. rewrite land_63, Z.mod_small by lia. do 2 f_equal; lia.
Defined.
#[global] Instance SceneControl_laws : DptLaws SceneControl.
Proof.
  byte_laws "18.001" (λ s, u8_ok (scene_control_data s) ∧
      scene_control_number s = Z.land (scene_control_data s) 0x3F + 1 ∧
      learn s = bit_set (scene_control_data s) 0x80)
    (λ b, Ok (MkSceneControl (Z.land b 0x3F + 1) (bit_set b 0x80) b)).
  - intros b a Hb [= <-]. split; [done|].
    cbn [validate SceneControl_DptValue]. unfold SceneControl_validate. cbn [scene_control_number].
    rewrite land_63. assert (0 ≤ b mod 64 < 64) by by apply Z.mod_pos_bound.
    by rewrite (proj2 (in_range_spec _ _ _)) by lia.
  - intros [n l d] (Hd & Hn & Hl). cbn in *. subst. by exists d.
Defined.
#[global] Instance HVACMode_laws : DptLaws HVACMode.
Proof.
  byte_laws "20.102" (λ m, 0 ≤ hvac_value m ≤ 4 ∧ hvac_data m = hvac_value m) HVACMode_new.
  - intros b a Hb. unfold HVACMode_new. destruct (4 <? b) eqn:E; intros [= <-].
    cbn [validate HVACMode_DptValue]. unfold HVACMode_validate, u8_ok in *.
    cbn [hvac_value hvac_data]. rewrite E. to_arith. split; [lia|done].
  - intros [v d] [Hv Hd]. cbn in *. subst d. exists v. split_and!; [done|unfold u8_ok; lia|].
    unfold HVACMode_new. by rewrite (proj2 (Z.ltb_ge _ _)) by lia.
Defined.
#[global] Instance HVACControllerMode_laws : DptLaws HVACControllerMode.
Proof.
  byte_laws "20.105" (λ m, (0 ≤ hvac_contr_value m ≤ 17 ∨ hvac_contr_value m = 20) ∧
      hvac_contr_data m = hvac_contr_value m) HVACControllerMode_new.
  - intros b a Hb. unfold HVACControllerMode_new.
    destruct ((17 <? b) && negb (b =? 20)) eqn:E; intros [= <-].
    cbn [validate HVACControllerMode_DptValue]. unfold HVACControllerMode_validate, u8_ok in *.
    cbn [hvac_contr_value hvac_contr_data]. rewrite E. split; [|done].
    destruct (Z.ltb_spec 17 b), (Z.eqb_spec b 20); done || (split; [lia|done]).
  - intros [v d] [Hv Hd]. cbn in *. subst d. exists v. split_and!; [done|unfold u8_ok; lia|].
    unfold HVACControllerMode_new. destruct (Z.ltb_spec 17 v), (Z.eqb_spec v 20); done || lia.
Defined.

#[global] Instance ActiveEnergy8Byte_laws : DptLaws ActiveEnergy8Byte.
Proof.
  bytes_laws "29.010" (λ v, - 2 ^ 63 ≤ energy8_value v < 2 ^ 63 ∧ energy8_data v = to_be 8 (energy8_value v))
    (λ bytes, d ← first_bytes 8 bytes; Ok (ActiveEnergy8Byte_new (as_signed 64 (from_be d)))).
  - intros bytes Hl. by rewrite first_bytes_exact.
  - intros [v d] [Hv Hd]. cbn [energy8_value energy8_data] in *. subst d.
    split_and!; [by apply length_to_be|apply to_be_bytes|].
    rewrite first_bytes_exact by apply length_to_be. cbn [mbind outcome_bind].
    change (as_bytes _) with (to_be 8 v). rewrite from_be_to_be.
    change (256 ^ Z.of_nat 8) with (2 ^ 64). by rewrite as_signed_mod.
  - intros bytes a Hl Hb. rewrite first_bytes_exact by done. intros [= <-]. split; [|done].
    split; [|done]. cbn [energy8_value ActiveEnergy8Byte_new].
    pose proof (from_be_bound bytes Hb) as Hf. rewrite Hl in Hf.
    change (256 ^ Z.of_nat (@byte_length ActiveEnergy8Byte _)) with (2 ^ 64) in Hf.
    by apply (as_signed_bound 64).
Defined.

(** * Values *)

(** The constructors make well-formed values that read back as given. *)
Lemma unsigned_value n z : 0 ≤ z < 256 ^ Z.of_nat n → from_be (to_be n z) = z.
Proof. intros Hz. rewrite from_be_to_be. by apply Z.mod_small. Qed.
Lemma signed_value n bits z :
  256 ^ Z.of_nat n = 2 ^ bits → 1 ≤ bits → - 2 ^ (bits - 1) ≤ z < 2 ^ (bits - 1) →
  as_signed bits (from_be (to_be n z)) = z.
Proof. intros E Hb Hz. rewrite from_be_to_be, E. by apply as_signed_mod. Qed.
