(* ===== verification/DptComposite.v ===== *)
(** The structured datapoints: time, date and both ([dpt10.rs], [dpt11.rs],
    [dpt19.rs]), colours ([dpt232.rs], [dpt242.rs], [dpt251.rs]), tariff energy
    ([dpt235.rs]) and text ([dpt16.rs]).  A Rust [String] is the list of its
    code points. *)
From S2P Require Import Prelude Errors Dpt DptNumeric.

(** * DPT 10: time of day *)
Record TimeOfDay := MkTimeOfDay { tod_day : Z; tod_hour : Z; tod_minute : Z; tod_second : Z; tod_data : list Z }.
Definition TimeOfDay_validate (t : TimeOfDay) : result unit :=
  if 7 <? tod_day t
  then perr (DptError "10.001" ("Day " +:+ dec (tod_day t) +:+ " out of range [0-7]"))
  else if 23 <? tod_hour t
  then perr (DptError "10.001" ("Hour " +:+ dec (tod_hour t) +:+ " out of range [0-23]"))
  else if 59 <? tod_minute t
  then perr (DptError "10.001" ("Minute " +:+ dec (tod_minute t) +:+ " out of range [0-59]"))
  else if 59 <? tod_second t
  then perr (DptError "10.001" ("Second " +:+ dec (tod_second t) +:+ " out of range [0-59]"))
  else Ok tt.
Definition TimeOfDay_new (day hour minute second : Z) : result TimeOfDay :=
  let value := MkTimeOfDay day hour minute second [Z.lor (shl8 day 5) hour; minute; second] in
  _ ← TimeOfDay_validate value; Ok value.
Definition TimeOfDay_decode (bytes : list Z) : result TimeOfDay :=
  with_length "10.001" 3 bytes
    (b0 ← idx bytes 0; b1 ← idx bytes 1; b2 ← idx bytes 2;
     TimeOfDay_new (Z.land (Z.shiftr b0 5) 0x07) (Z.land b0 0x1F) (Z.land b1 0x3F) (Z.land b2 0x3F)).
#[global] Instance TimeOfDay_DptValue : DptValue TimeOfDay := {
  dpt_number := "10.001"; value_type := "time"; unit_text := None; ha_device_class := None;
  byte_length := 3; from_bytes := TimeOfDay_decode; as_bytes := tod_data;
  validate := TimeOfDay_validate }.

(** * DPT 11: date *)
Record Date := MkDate { date_day : Z; date_month : Z; date_year : Z; date_data : list Z }.
Definition Date_validate (d : Date) : result unit :=
  if (date_day d =? 0) || (31 <? date_day d)
  then perr (DptError "11.001" ("Day " +:+ dec (date_day d) +:+ " out of range [1-31]"))
  else if (date_month d =? 0) || (12 <? date_month d)
  then perr (DptError "11.001" ("Month " +:+ dec (date_month d) +:+ " out of range [1-12]"))
  else if 99 <? date_year d
  then perr (DptError "11.001" ("Year " +:+ dec (date_year d) +:+ " out of range [0-99]"))
  else Ok tt.
Definition Date_new (day month year : Z) : result Date :=
  let value := MkDate day month year [day; month; year] in
  _ ← Date_validate value; Ok value.
Definition Date_decode (bytes : list Z) : result Date :=
  with_length "11.001" 3 bytes
    (b0 ← idx bytes 0; b1 ← idx bytes 1; b2 ← idx bytes 2;
     Date_new (Z.land b0 0x1F) (Z.land b1 0x0F) (Z.land b2 0x7F)).
#[global] Instance Date_DptValue : DptValue Date := {
  dpt_number := "11.001"; value_type := "date"; unit_text := None; ha_device_class := None;
  byte_length := 3; from_bytes := Date_decode; as_bytes := date_data; validate := Date_validate }.

(** * DPT 19: date and time *)
Record DateTimeParts := MkDateTimeParts {
  p_year : Z; p_month : Z; p_day : Z; p_day_of_week : Z; p_hour : Z; p_minute : Z; p_second : Z }.
Record DateTimeFlags := MkDateTimeFlags {
  fault : bool; working_day : bool; no_wd : bool; no_year : bool; no_date : bool; no_dow : bool;
  no_time : bool; suti : bool; external_sync : bool; source_reliable : bool }.
Definition DateTimeFlags_default : DateTimeFlags :=
  MkDateTimeFlags false false false false false false false false false false.

(** The fields of [DateTime], grouped as its constructor takes them. *)
Record DateTime := MkDateTime { dt_parts : DateTimeParts; dt_flags : DateTimeFlags; dt_data : list Z }.

Definition DateTime_validate (t : DateTime) : result unit :=
  let p := dt_parts t in
  let f := dt_flags t in
  if negb (no_date f) && ((p_month p =? 0) || (12 <? p_month p))
  then perr (DptError "19.001" ("Month " +:+ dec (p_month p) +:+ " out of range [1-12]"))
  else if negb (no_date f) && ((p_day p =? 0) || (31 <? p_day p))
  then perr (DptError "19.001" ("Day " +:+ dec (p_day p) +:+ " out of range [1-31]"))
  else if negb (no_dow f) && (7 <? p_day_of_week p)
  then perr (DptError "19.001" ("Day of week " +:+ dec (p_day_of_week p) +:+ " out of range [0-7]"))
  else if negb (no_time f) && (24 <? p_hour p)
  then perr (DptError "19.001" ("Hour " +:+ dec (p_hour p) +:+ " out of range [0-24]"))
  else if negb (no_time f) && (59 <? p_minute p)
  then perr (DptError "19.001" ("Minute " +:+ dec (p_minute p) +:+ " out of range [0-59]"))
  else if negb (no_time f) && (59 <? p_second p)
  then perr (DptError "19.001" ("Second " +:+ dec (p_second p) +:+ " out of range [0-59]"))
  else if negb (no_time f) && (p_hour p =? 24) && (negb (p_minute p =? 0) || negb (p_second p =? 0))
  then perr (DptError "19.001" "When hour is 24, minute and second must be 0")
  else Ok tt.

Definition DateTime_encode_data (p : DateTimeParts) (f : DateTimeFlags) : list Z :=
  let year := if no_year f then 0 else p_year p in
  let month := if no_date f then 0 else p_month p in
  let day := if no_date f then 0 else p_day p in
  let day_of_week := if no_dow f then 0 else p_day_of_week p in
  let hour := if no_time f then 0 else p_hour p in
  let minute := if no_time f then 0 else p_minute p in
  let second := if no_time f then 0 else p_second p in
  [year; month; day; Z.lor (shl8 day_of_week 5) hour; minute; second;
   Z.lor (Z.lor (Z.lor (Z.lor (Z.lor (Z.lor (Z.lor
     (shl8 (bool_u8 (fault f)) 7) (shl8 (bool_u8 (working_day f)) 6)) (shl8 (bool_u8 (no_wd f)) 5))
     (shl8 (bool_u8 (no_year f)) 4)) (shl8 (bool_u8 (no_date f)) 3)) (shl8 (bool_u8 (no_dow f)) 2))
     (shl8 (bool_u8 (no_time f)) 1)) (bool_u8 (suti f));
   Z.lor (shl8 (bool_u8 (external_sync f)) 7) (shl8 (bool_u8 (source_reliable f)) 6)].

Definition DateTime_new_with_flags (p : DateTimeParts) (f : DateTimeFlags) : result DateTime :=
  _ ← DateTime_validate (MkDateTime p f (replicate 8 0));
  Ok (MkDateTime p f (DateTime_encode_data p f)).
Definition DateTime_new (year month day day_of_week hour minute second : Z) : result DateTime :=
  DateTime_new_with_flags (MkDateTimeParts year month day day_of_week hour minute second)
    DateTimeFlags_default.

Definition flags_of_bytes (b6 b7 : Z) : DateTimeFlags :=
  MkDateTimeFlags (bit_set b6 0x80) (bit_set b6 0x40) (bit_set b6 0x20) (bit_set b6 0x10)
    (bit_set b6 0x08) (bit_set b6 0x04) (bit_set b6 0x02) (bit_set b6 0x01)
    (bit_set b7 0x80) (bit_set b7 0x40).
Definition DateTime_decode (bytes : list Z) : result DateTime :=
  with_length "19.001" 8 bytes
    (b0 ← idx bytes 0; b1 ← idx bytes 1; b2 ← idx bytes 2; b3 ← idx bytes 3;
     b4 ← idx bytes 4; b5 ← idx bytes 5; b6 ← idx bytes 6; b7 ← idx bytes 7;
     let p := MkDateTimeParts b0 (Z.land b1 0x0F) (Z.land b2 0x1F) (Z.land (Z.shiftr b3 5) 0x07)
                (Z.land b3 0x1F) (Z.land b4 0x3F) (Z.land b5 0x3F) in
     let f := flags_of_bytes b6 b7 in
     _ ← DateTime_validate (MkDateTime p f (replicate 8 0));
     Ok (MkDateTime p f (DateTime_encode_data p f))).
#[global] Instance DateTime_DptValue : DptValue DateTime := {
  dpt_number := "19.001"; value_type := "datetime"; unit_text := None; ha_device_class := None;
  byte_length := 8; from_bytes := DateTime_decode; as_bytes := dt_data; validate := DateTime_validate }.

(** * DPT 232, 242 and 251: colours *)
Record ColorRGB := MkColorRGB { rgb_red : Z; rgb_green : Z; rgb_blue : Z; rgb_data : list Z }.
Definition ColorRGB_new (red green blue : Z) : ColorRGB :=
  MkColorRGB red green blue [red; green; blue].
Definition ColorRGB_decode (bytes : list Z) : result ColorRGB :=
  with_length "232.600" 3 bytes
    (b0 ← idx bytes 0; b1 ← idx bytes 1; b2 ← idx bytes 2; Ok (ColorRGB_new b0 b1 b2)).
#[global] Instance ColorRGB_DptValue : DptValue ColorRGB := {
  dpt_number := "232.600"; value_type := "color_rgb"; unit_text := None; ha_device_class := None;
  byte_length := 3; from_bytes := ColorRGB_decode; as_bytes := rgb_data; validate _ := Ok tt }.

Record ColorXYY := MkColorXYY {
  xyy_x : Z; xyy_y : Z; xyy_brightness : Z; color_valid : bool; brightness_valid : bool;
  xyy_data : list Z }.
Definition ColorXYY_new_with_validity (x y brightness : Z) (cv bv : bool) : ColorXYY :=
  let x_bytes := if cv then to_be 2 x else [0; 0] in
  let y_bytes := if cv then to_be 2 y else [0; 0] in
  let encoded_brightness := if bv then brightness else 0 in
  MkColorXYY x y brightness cv bv
    (x_bytes ++ y_bytes ++ [encoded_brightness; Z.lor (shl8 (bool_u8 cv) 1) (bool_u8 bv)]).
Definition ColorXYY_new (x y brightness : Z) : ColorXYY :=
  ColorXYY_new_with_validity x y brightness true true.
Definition ColorXYY_decode (bytes : list Z) : result ColorXYY :=
  with_length "242.600" 6 bytes
    (b0 ← idx bytes 0; b1 ← idx bytes 1; b2 ← idx bytes 2; b3 ← idx bytes 3;
     b4 ← idx bytes 4; b5 ← idx bytes 5;
     Ok (ColorXYY_new_with_validity (from_be [b0; b1]) (from_be [b2; b3]) b4
           (negb (Z.land (Z.shiftr b5 1) 0x01 =? 0)) (negb (Z.land b5 0x01 =? 0)))).
#[global] Instance ColorXYY_DptValue : DptValue ColorXYY := {
  dpt_number := "242.600"; value_type := "color_xyy"; unit_text := None; ha_device_class := None;
  byte_length := 6; from_bytes := ColorXYY_decode; as_bytes := xyy_data; validate _ := Ok tt }.

Record ColorRGBWValidity := MkColorRGBWValidity {
  v_red : bool; v_green : bool; v_blue : bool; v_white : bool }.
Record ColorRGBW := MkColorRGBW {
  rgbw_red : Z; rgbw_green : Z; rgbw_blue : Z; rgbw_white : Z;
  red_valid : bool; green_valid : bool; blue_valid : bool; white_valid : bool;
  rgbw_data : list Z }.
Definition ColorRGBW_new_with_validity (red green blue white : Z) (v : ColorRGBWValidity) : ColorRGBW :=
  MkColorRGBW red green blue white (v_red v) (v_green v) (v_blue v) (v_white v)
    [(if v_red v then red else 0); (if v_green v then green else 0);
     (if v_blue v then blue else 0); (if v_white v then white else 0); 0;
     Z.lor (Z.lor (Z.lor (shl8 (bool_u8 (v_red v)) 3) (shl8 (bool_u8 (v_green v)) 2))
       (shl8 (bool_u8 (v_blue v)) 1)) (bool_u8 (v_white v))].
Definition ColorRGBW_new (red green blue white : Z) : ColorRGBW :=
  ColorRGBW_new_with_validity red green blue white (MkColorRGBWValidity true true true true).
Definition ColorRGBW_decode (bytes : list Z) : result ColorRGBW :=
  with_length "251.600" 6 bytes
    (b0 ← idx bytes 0; b1 ← idx bytes 1; b2 ← idx bytes 2; b3 ← idx bytes 3; b5 ← idx bytes 5;
     Ok (ColorRGBW_new_with_validity b0 b1 b2 b3
           (MkColorRGBWValidity
              (negb (Z.land (Z.shiftr b5 3) 0x01 =? 0)) (negb (Z.land (Z.shiftr b5 2) 0x01 =? 0))
              (negb (Z.land (Z.shiftr b5 1) 0x01 =? 0)) (negb (Z.land b5 0x01 =? 0))))).
#[global] Instance ColorRGBW_DptValue : DptValue ColorRGBW := {
  dpt_number := "251.600"; value_type := "color_rgbw"; unit_text := None; ha_device_class := None;
  byte_length := 6; from_bytes := ColorRGBW_decode; as_bytes := rgbw_data; validate _ := Ok tt }.

(** * DPT 235: tariff active energy *)
Record TariffActiveEnergy := MkTariffActiveEnergy {
  tariff : Z; energy : Z; tariff_valid : bool; energy_valid : bool; tariff_data : list Z }.
Definition TariffActiveEnergy_new_with_validity (e t : Z) (ev tv : bool) : TariffActiveEnergy :=
  let energy_bytes := if ev then to_be 4 e else [0; 0; 0; 0] in
  let encoded_tariff := if tv then t else 0 in
  MkTariffActiveEnergy t e tv ev
    (energy_bytes ++ [encoded_tariff; Z.lor (shl8 (bool_u8 (negb ev)) 1) (bool_u8 (negb tv))]).
Definition TariffActiveEnergy_new (e t : Z) : TariffActiveEnergy :=
  TariffActiveEnergy_new_with_validity e t true true.
Definition TariffActiveEnergy_decode (bytes : list Z) : result TariffActiveEnergy :=
  with_length "235.001" 6 bytes
    (b0 ← idx bytes 0; b1 ← idx bytes 1; b2 ← idx bytes 2; b3 ← idx bytes 3;
     b4 ← idx bytes 4; b5 ← idx bytes 5;
     Ok (TariffActiveEnergy_new_with_validity (as_signed 32 (from_be [b0; b1; b2; b3])) b4
           (Z.land (Z.shiftr b5 1) 0x01 =? 0) (Z.land b5 0x01 =? 0))).
#[global] Instance TariffActiveEnergy_DptValue : DptValue TariffActiveEnergy := {
  dpt_number := "235.001"; value_type := "tariff_active_energy"; unit_text := Some "Wh";
  ha_device_class := Some "energy"; byte_length := 6; from_bytes := TariffActiveEnergy_decode;
  as_bytes := tariff_data; validate _ := Ok tt }.

(** * DPT 16: text *)
Definition QUESTION_MARK : Z := 63.
Definition REPLACEMENT : Z := 0xFFFD.

Definition validate_string_length (value : list Z) (dpt_type : string) : result unit :=
  if (14 <? length value)%nat
  then perr (DptError dpt_type ("String too long: " +:+ dec_nat (length value) +:+ " > " +:+ dec_nat 14))
  else Ok tt.
(** The loops write the characters over an array of 14 zeros. *)
Definition encode_payload_with (encode : Z → Z) (value : list Z) : list Z :=
  (encode <$> value) ++ replicate (14 - length value) 0.
Definition encode_ascii_payload (value : list Z) : result (list Z) :=
  _ ← validate_string_length value "16.000";
  Ok (encode_payload_with (λ c, if c <? 128 then c else QUESTION_MARK) value).
Definition encode_latin1_payload (value : list Z) : result (list Z) :=
  _ ← validate_string_length value "16.001";
  Ok (encode_payload_with (λ c, if c <=? 0xFF then c else QUESTION_MARK) value).
Definition decode_ascii_value (bytes : list Z) : list Z :=
  (λ b, if b <? 128 then b else REPLACEMENT) <$> filter (λ b, b ≠ 0) bytes.
Definition decode_latin1_value (bytes : list Z) : list Z := filter (λ b, b ≠ 0) bytes.

Record StringAscii := MkStringAscii { ascii_value : list Z; ascii_payload : list Z }.
Definition StringAscii_new (value : list Z) : result StringAscii :=
  p ← encode_ascii_payload value; Ok (MkStringAscii value p).
Definition StringAscii_decode (bytes : list Z) : result StringAscii :=
  with_length "16.000" 14 bytes (Ok (MkStringAscii (decode_ascii_value bytes) bytes)).
#[global] Instance StringAscii_DptValue : DptValue StringAscii := {
  dpt_number := "16.000"; value_type := "string"; unit_text := None; ha_device_class := None;
  byte_length := 14; from_bytes := StringAscii_decode; as_bytes := ascii_payload;
  validate s := validate_string_length (ascii_value s) "16.000" }.

Record StringLatin1 := MkStringLatin1 { latin1_value : list Z; latin1_payload : list Z }.
Definition StringLatin1_new (value : list Z) : result StringLatin1 :=
  p ← encode_latin1_payload value; Ok (MkStringLatin1 value p).
Definition StringLatin1_decode (bytes : list Z) : result StringLatin1 :=
  with_length "16.001" 14 bytes (Ok (MkStringLatin1 (decode_latin1_value bytes) bytes)).
#[global] Instance StringLatin1_DptValue : DptValue StringLatin1 := {
  dpt_number := "16.001"; value_type := "latin_1"; unit_text := None; ha_device_class := None;
  byte_length := 14; from_bytes := StringLatin1_decode; as_bytes := latin1_payload;
  validate s := validate_string_length (latin1_value s) "16.001" }.

(** * The contracts *)

(** A datapoint whose decoder is its body behind the length guard. *)
Tactic Notation "composite_laws" constr(number) uconstr(wf) :=
  eapply (dpt_laws_intro number wf); [intros; reflexivity|..]; cbv beta.
(** Introduces a payload of [n] bytes as its bytes. *)
Tactic Notation "payload" integer(n) :=
  let bytes := fresh "bytes" in
  intros bytes; do n (destruct bytes as [|? bytes]; [done|]); destruct bytes; [|done].
Ltac split_bytes :=
  repeat match goal with
  | H : bytes_ok (_ :: _) |- _ => apply Forall_cons in H as [? H]
  | H : Forall u8_ok (_ :: _) |- _ => apply Forall_cons in H as [? H]
  end.
Tactic Notation "each_byte" tactic(t) := repeat (apply Forall_cons_2; [t|]); apply Forall_nil_2.

(** The day in the top three bits of the hour byte. *)
Lemma day_hour d h :
  0 ≤ d ≤ 7 → 0 ≤ h < 32 →
  u8_ok (Z.lor (shl8 d 5) h) ∧
  Z.land (Z.shiftr (Z.lor (shl8 d 5) h) 5) 0x07 = d ∧ Z.land (Z.lor (shl8 d 5) h) 0x1F = h.
Proof.
  intros Hd Hh. assert (shl8 d 5 = Z.shiftl d 5) as ->.
  { unfold shl8, as_u8. rewrite Z.shiftl_mul_pow2 by lia. apply Z.mod_small. lia. }
  rewrite lor_shiftl_add, land_7, land_31, Z.shiftr_div_pow2 by lia.
  unfold u8_ok. change (2 ^ 5) with 32. split_and!; [lia|lia|zlia|zlia].
Qed.

(** Times and dates are well formed when the constructor accepts their fields. *)
Definition time_wf (t : TimeOfDay) : Prop :=
  (0 ≤ tod_day t ∧ 0 ≤ tod_hour t ∧ 0 ≤ tod_minute t ∧ 0 ≤ tod_second t) ∧
  TimeOfDay_new (tod_day t) (tod_hour t) (tod_minute t) (tod_second t) = Ok t.
Lemma TimeOfDay_validate_Ok t : TimeOfDay_validate t = Ok tt →
  tod_day t ≤ 7 ∧ tod_hour t ≤ 23 ∧ tod_minute t ≤ 59 ∧ tod_second t ≤ 59.
Proof. unfold TimeOfDay_validate. repeat split_if; intros; try done. to_arith. lia. Qed.
#[global] Instance TimeOfDay_laws : DptLaws TimeOfDay.
Proof.
  composite_laws "10.001" time_wf.
  - payload 3. intros _. cbn. unfold TimeOfDay_new, TimeOfDay_validate. by repeat case_match.
  - intros [d h m s l] [(Hd & Hh & Hm & Hs) E]. cbn in *.
    unfold TimeOfDay_new in E. apply outcome_bind_Ok in E as ([] & Hv & E). 
    pose proof (TimeOfDay_validate_Ok _ Hv) as Hr. cbn in Hr. injection E as <-.
    destruct (day_hour d h) as (Hb & E1 & E2); [lia..|]. split_and!; [done| |].
    + each_byte (unfold u8_ok in *; lia).
    + cbn. rewrite E1, E2, !land_63, !Z.mod_small by lia. unfold TimeOfDay_new. by rewrite Hv.
  - apply strict_decoded. payload 3. intros a _ Hb. split_bytes. cbn. intros E.
    pose proof E as E'. unfold TimeOfDay_new in E'. apply outcome_bind_Ok in E' as ([] & Hv & E').
    injection E' as <-. split; [|done]. split; [|exact E]. cbn. unfold u8_ok in *.
    rewrite land_7, land_31, !land_63. zlia.
Defined.

Definition date_wf (d : Date) : Prop :=
  (0 ≤ date_day d ∧ 0 ≤ date_month d ∧ 0 ≤ date_year d) ∧
  Date_new (date_day d) (date_month d) (date_year d) = Ok d.
Lemma Date_validate_Ok d : Date_validate d = Ok tt →
  date_day d ≤ 31 ∧ date_month d ≤ 12 ∧ date_year d ≤ 99.
Proof.
  unfold Date_validate. repeat split_if; intros; try done.
  repeat match goal with H : _ || _ = false |- _ => apply orb_false_elim in H as [? ?] end. to_arith. lia.
Qed.
#[global] Instance Date_laws : DptLaws Date.
Proof.
  composite_laws "11.001" date_wf.
  - payload 3. intros _. cbn. unfold Date_new, Date_validate. by repeat case_match.
  - intros [d m y l] [(Hd & Hm & Hy) E]. cbn in *.
    unfold Date_new in E. apply outcome_bind_Ok in E as ([] & Hv & E).
    pose proof (Date_validate_Ok _ Hv) as Hr. cbn in Hr. injection E as <-. split_and!; [done| |].
    + each_byte (unfold u8_ok in *; lia).
    + cbn. rewrite land_31, land_15, land_127, !Z.mod_small by lia. unfold Date_new. by rewrite Hv.
  - apply strict_decoded. payload 3. intros a _ Hb. split_bytes. cbn. intros E.
    pose proof E as E'. unfold Date_new in E'. apply outcome_bind_Ok in E' as ([] & Hv & E').
    injection E' as <-. split; [|done]. split; [|exact E]. cbn. unfold u8_ok in *.
    rewrite land_31, land_15, land_127. zlia.
Defined.

(** Colours and tariffs: a field marked absent is written as zero, so the
    well-formed values have zero there; a decoded value encodes like the one
    with its absent fields zeroed. *)
#[global] Instance ColorRGB_laws : DptLaws ColorRGB.
Proof.
  composite_laws "232.600" (λ c, bytes_ok [rgb_red c; rgb_green c; rgb_blue c] ∧
    c = ColorRGB_new (rgb_red c) (rgb_green c) (rgb_blue c)).
  - payload 3. done.
  - intros c [Hb ->]. done.
  - apply strict_decoded. payload 3. intros a _ Hb [= <-]. done.
Defined.

Lemma validity_bits (a b : bool) :
  let flags := Z.lor (shl8 (bool_u8 a) 1) (bool_u8 b) in
  u8_ok flags ∧ negb (Z.land (Z.shiftr flags 1) 0x01 =? 0) = a ∧ negb (Z.land flags 0x01 =? 0) = b.
Proof. by destruct a, b. Qed.
Lemma absence_bits (a b : bool) :
  let flags := Z.lor (shl8 (bool_u8 (negb a)) 1) (bool_u8 (negb b)) in
  u8_ok flags ∧ (Z.land (Z.shiftr flags 1) 0x01 =? 0) = a ∧ (Z.land flags 0x01 =? 0) = b.
Proof. by destruct a, b. Qed.
Lemma rgbw_bits (r g b w : bool) :
  let flags := Z.lor (Z.lor (Z.lor (shl8 (bool_u8 r) 3) (shl8 (bool_u8 g) 2)) (shl8 (bool_u8 b) 1)) (bool_u8 w) in
  u8_ok flags ∧
  MkColorRGBWValidity
    (negb (Z.land (Z.shiftr flags 3) 0x01 =? 0)) (negb (Z.land (Z.shiftr flags 2) 0x01 =? 0))
    (negb (Z.land (Z.shiftr flags 1) 0x01 =? 0)) (negb (Z.land flags 0x01 =? 0))
  = MkColorRGBWValidity r g b w.
Proof. by destruct r, g, b, w. Qed.
Definition absent_zero (present : bool) (z : Z) : Prop := present = false → z = 0.
Lemma absent_zero_if (present : bool) z : absent_zero present (if present then z else 0).
Proof. by destruct present. Qed.
Lemma present_u8 (present : bool) z : u8_ok z → u8_ok (if present then z else 0).
Proof. by destruct present. Qed.
Lemma present_if (present : bool) z : absent_zero present z → (if present then z else 0) = z.
Proof. destruct present; [done|]. by intros ->. Qed.
Lemma present_to_be (present : bool) n z : absent_zero present z →
  (if present then to_be n z else to_be n 0) = to_be n z.
Proof. destruct present; [done|]. by intros ->. Qed.

#[global] Instance ColorRGBW_laws : DptLaws ColorRGBW.
Proof.
  composite_laws "251.600" (λ c,
    bytes_ok [rgbw_red c; rgbw_green c; rgbw_blue c; rgbw_white c] ∧
    (absent_zero (red_valid c) (rgbw_red c) ∧ absent_zero (green_valid c) (rgbw_green c) ∧
     absent_zero (blue_valid c) (rgbw_blue c) ∧ absent_zero (white_valid c) (rgbw_white c)) ∧
    c = ColorRGBW_new_with_validity (rgbw_red c) (rgbw_green c) (rgbw_blue c) (rgbw_white c)
          (MkColorRGBWValidity (red_valid c) (green_valid c) (blue_valid c) (white_valid c))).
  - payload 6. done.
  - intros c (Hb & (Hr & Hg & Hbl & Hw) & ->). split_bytes. 
    destruct (rgbw_bits (red_valid c) (green_valid c) (blue_valid c) (white_valid c)) as [Hf E].
    cbn -[Z.lor Z.land Z.shiftr] in *. rewrite !present_if in * by done.
    split_and!; [done|each_byte done|]. by rewrite E.
  - payload 6. intros a _ Hb [= <-]. split; [done|]. split_bytes.
    match goal with |- context [ColorRGBW_new_with_validity ?r ?g ?b ?w ?v] => 
      exists (ColorRGBW_new_with_validity (if v_red v then r else 0) (if v_green v then g else 0)
        (if v_blue v then b else 0) (if v_white v then w else 0) v) end.
    split_and!; cbn -[Z.lor]; try apply absent_zero_if; [|done|].
    + each_byte (by apply present_u8).
    + by rewrite !(present_if _ _ (absent_zero_if _ _)).
Defined.

#[global] Instance ColorXYY_laws : DptLaws ColorXYY.
Proof.
  composite_laws "242.600" (λ c,
    (0 ≤ xyy_x c < 65536 ∧ 0 ≤ xyy_y c < 65536 ∧ u8_ok (xyy_brightness c)) ∧
    (absent_zero (color_valid c) (xyy_x c) ∧ absent_zero (color_valid c) (xyy_y c) ∧
     absent_zero (brightness_valid c) (xyy_brightness c)) ∧
    c = ColorXYY_new_with_validity (xyy_x c) (xyy_y c) (xyy_brightness c) (color_valid c) (brightness_valid c)).
  - payload 6. done.
  - intros c ((Hx & Hy & Hb) & (Hzx & Hzy & Hzb) & ->).
    destruct (validity_bits (color_valid c) (brightness_valid c)) as (Hf & E1 & E2).
    cbn -[Z.lor Z.land Z.shiftr to_be from_be] in *. change [0; 0] with (to_be 2 0).
    rewrite !present_to_be, present_if by done.
    split_and!; [done| |].
    + apply bytes_ok_app. split; [apply to_be_bytes|]. apply bytes_ok_app. split; [apply to_be_bytes|].
      each_byte done.
    + change (Ok (ColorXYY_new_with_validity (from_be (to_be 2 (xyy_x c))) (from_be (to_be 2 (xyy_y c)))
        (xyy_brightness c)
        (negb (Z.land (Z.shiftr (Z.lor (shl8 (bool_u8 (color_valid c)) 1) (bool_u8 (brightness_valid c))) 1) 0x01 =? 0))
        (negb (Z.land (Z.lor (shl8 (bool_u8 (color_valid c)) 1) (bool_u8 (brightness_valid c))) 0x01 =? 0)))
        = Ok (E:=KnxError) (ColorXYY_new_with_validity (xyy_x c) (xyy_y c) (xyy_brightness c) (color_valid c) (brightness_valid c))).
      by rewrite E1, E2, !unsigned_value.
  - payload 6. intros a _ Hb [= <-]. split; [done|]. split_bytes.
    match goal with |- context [ColorXYY_new_with_validity ?x ?y ?b ?cv ?bv] =>
      assert (0 ≤ x < 65536 ∧ 0 ≤ y < 65536) as [? ?]
        by (split; [refine (from_be_bound _ _)..]; each_byte done);
      generalize cv, bv; intros c v;
      exists (ColorXYY_new_with_validity (if c then x else 0) (if c then y else 0) (if v then b else 0) c v) end.
    split_and!; cbn -[Z.lor from_be to_be]; try apply absent_zero_if; try (by apply present_u8);
      try done; try (case_match; lia). by destruct c, v.
Defined.

#[global] Instance TariffActiveEnergy_laws : DptLaws TariffActiveEnergy.
Proof.
  composite_laws "235.001" (λ t,
    (- 2 ^ 31 ≤ energy t < 2 ^ 31 ∧ u8_ok (tariff t)) ∧
    (absent_zero (energy_valid t) (energy t) ∧ absent_zero (tariff_valid t) (tariff t)) ∧
    t = TariffActiveEnergy_new_with_validity (energy t) (tariff t) (energy_valid t) (tariff_valid t)).
  - payload 6. done.
  - intros t ((He & Ht) & (Hze & Hzt) & ->).
    destruct (absence_bits (energy_valid t) (tariff_valid t)) as (Hf & E1 & E2).
    cbn -[Z.lor Z.land Z.shiftr to_be from_be] in *. change [0; 0; 0; 0] with (to_be 4 0).
    rewrite present_to_be, present_if by done.
    split_and!; [done| |].
    + apply bytes_ok_app. split; [apply to_be_bytes|]. each_byte done.
    + match goal with |- _ = ?r => change (Ok (TariffActiveEnergy_new_with_validity
        (as_signed 32 (from_be (to_be 4 (energy t)))) (tariff t)
        (Z.land (Z.shiftr (Z.lor (shl8 (bool_u8 (negb (energy_valid t))) 1) (bool_u8 (negb (tariff_valid t)))) 1) 0x01 =? 0)
        (Z.land (Z.lor (shl8 (bool_u8 (negb (energy_valid t))) 1) (bool_u8 (negb (tariff_valid t)))) 0x01 =? 0)) = r) end.
      by rewrite E1, E2, (signed_value 4 32).
  - payload 6. intros a _ Hb [= <-]. split; [done|]. split_bytes.
    match goal with |- context [TariffActiveEnergy_new_with_validity ?e ?t ?ev ?tv] =>
      assert (- 2 ^ 31 ≤ e < 2 ^ 31) as ?
        by (apply (as_signed_bound 32); [lia|]; refine (from_be_bound _ _); each_byte done);
      generalize ev, tv; intros c v;
      exists (TariffActiveEnergy_new_with_validity (if c then e else 0) (if v then t else 0) c v) end.
    split_and!; cbn -[Z.lor from_be to_be as_signed]; try apply absent_zero_if; try (by apply present_u8);
      try done; try (case_match; lia). by destruct c, v.
Defined.

(** Text: the payload is kept as received, the text is read off it. *)
Lemma filter_le (bytes : list Z) : (length (filter (λ b : Z, b ≠ 0%Z) bytes) ≤ length bytes)%nat.
Proof. apply sublist_length, sublist_filter. Qed.
Lemma validate_string_Ok value number : (length value ≤ 14)%nat → validate_string_length value number = Ok tt.
Proof. intros Hl. unfold validate_string_length. by rewrite (proj2 (Nat.ltb_ge _ _)). Qed.
#[global] Instance StringAscii_laws : DptLaws StringAscii.
Proof.
  composite_laws "16.000" (λ s, (length (ascii_payload s) = 14%nat ∧ bytes_ok (ascii_payload s)) ∧
    ascii_value s = decode_ascii_value (ascii_payload s)).
  - done.
  - intros [v p] [[Hl Hb] E]. cbn in *. by subst v.
  - apply strict_decoded. intros bytes a Hl Hb [= <-]. split; [done|].
    apply validate_string_Ok. cbn. unfold decode_ascii_value. rewrite length_fmap.
    pose proof (filter_le bytes). rewrite Hl in *. done.
Defined.
#[global] Instance StringLatin1_laws : DptLaws StringLatin1.
Proof.
  composite_laws "16.001" (λ s, (length (latin1_payload s) = 14%nat ∧ bytes_ok (latin1_payload s)) ∧
    latin1_value s = decode_latin1_value (latin1_payload s)).
  - done.
  - intros [v p] [[Hl Hb] E]. cbn in *. by subst v.
  - apply strict_decoded. intros bytes a Hl Hb [= <-]. split; [done|].
    apply validate_string_Ok. cbn. unfold decode_latin1_value.
    pose proof (filter_le bytes). rewrite Hl in *. done.
Defined.

(** What a text of characters the encoding has becomes on the wire. *)
Section text.
Context (lim : Z) (value : list Z).
Hypothesis (Hlim : lim ≤ 256) (Hlen : (length value ≤ 14)%nat).
Hypothesis Hchars : Forall (λ c, 0 < c < lim) value.

Lemma payload_plain (encode : Z → Z) : (∀ c, 0 < c < lim → encode c = c) →
  encode_payload_with encode value = value ++ replicate (14 - length value) 0.
Proof.
  intros He. unfold encode_payload_with. f_equal. clear Hlen.
  induction Hchars as [|c l Hc Hl IH]; [done|]. cbn. by rewrite He, IH.
Qed.
Lemma plain_length : length (value ++ replicate (14 - length value) 0) = 14%nat.
Proof. rewrite length_app, length_replicate. lia. Qed.
Lemma plain_bytes_ok : bytes_ok (value ++ replicate (14 - length value) 0).
Proof.
  apply bytes_ok_app. split; [|by apply Forall_replicate].
  eapply Forall_impl; [done|]. intros c Hc. cbn in Hc. unfold u8_ok. lia.
Qed.
Lemma plain_filter : filter (λ b, b ≠ 0) (value ++ replicate (14 - length value) 0) = value.
Proof.
  rewrite filter_app.
  assert (∀ n, filter (λ b, b ≠ 0) (replicate n 0) = []) as -> by (by induction n).
  rewrite app_nil_r. clear Hlen.
  induction Hchars as [|c l Hc Hl IH]; [done|]. rewrite filter_cons_True by (cbn in *; lia). by rewrite IH.
Qed.
End text.
Lemma ascii_text value : (length value ≤ 14)%nat → Forall (λ c, 0 < c < 128) value →
  ∃ s, StringAscii_new value = Ok s ∧ ascii_value s = value ∧ dpt_wf s.
Proof.
  intros Hl Hc. unfold StringAscii_new, encode_ascii_payload. rewrite validate_string_Ok by done.
  eexists. split; [done|]. split; [done|]. cbn [ascii_payload ascii_value dpt_wf StringAscii_laws dpt_laws_intro].
  rewrite (payload_plain 128) by (try done; intros c ?; destruct (Z.ltb_spec c 128); lia).
  split; [split; [by apply plain_length|by apply (plain_bytes_ok 128)]|].
  unfold decode_ascii_value. rewrite (plain_filter 128) by done. clear Hl.
  induction Hc as [|c l Hc Hl IH]; [done|]. cbn. rewrite <-IH. by destruct (Z.ltb_spec c 128); [|lia].
Qed.
Lemma latin1_text value : (length value ≤ 14)%nat → Forall (λ c, 0 < c < 256) value →
  ∃ s, StringLatin1_new value = Ok s ∧ latin1_value s = value ∧ dpt_wf s.
Proof.
  intros Hl Hc. unfold StringLatin1_new, encode_latin1_payload. rewrite validate_string_Ok by done.
  eexists. split; [done|]. split; [done|]. cbn [latin1_payload latin1_value dpt_wf StringLatin1_laws dpt_laws_intro].
  rewrite (payload_plain 256) by (try done; intros c ?; destruct (Z.leb_spec c 0xFF); lia).
  split; [split; [by apply plain_length|by apply (plain_bytes_ok 256)]|].
  unfold decode_latin1_value. by rewrite (plain_filter 256).
Qed.

(** Date and time. *)
Definition parts_ok (p : DateTimeParts) : Prop :=
  (u8_ok (p_year p) ∧ 0 ≤ p_month p < 16 ∧ 0 ≤ p_day p < 32) ∧
  (0 ≤ p_day_of_week p < 8 ∧ 0 ≤ p_hour p < 32 ∧ 0 ≤ p_minute p < 64 ∧ 0 ≤ p_second p < 64).
Definition absent_parts (p : DateTimeParts) (f : DateTimeFlags) : DateTimeParts :=
  MkDateTimeParts (if no_year f then 0 else p_year p) (if no_date f then 0 else p_month p)
    (if no_date f then 0 else p_day p) (if no_dow f then 0 else p_day_of_week p)
    (if no_time f then 0 else p_hour p) (if no_time f then 0 else p_minute p)
    (if no_time f then 0 else p_second p).
Definition datetime_wf (t : DateTime) : Prop :=
  parts_ok (dt_parts t) ∧ absent_parts (dt_parts t) (dt_flags t) = dt_parts t ∧
  DateTime_new_with_flags (dt_parts t) (dt_flags t) = Ok t.

Definition flag_bytes (f : DateTimeFlags) : Z * Z :=
  (Z.lor (Z.lor (Z.lor (Z.lor (Z.lor (Z.lor (Z.lor
     (shl8 (bool_u8 (fault f)) 7) (shl8 (bool_u8 (working_day f)) 6)) (shl8 (bool_u8 (no_wd f)) 5))
     (shl8 (bool_u8 (no_year f)) 4)) (shl8 (bool_u8 (no_date f)) 3)) (shl8 (bool_u8 (no_dow f)) 2))
     (shl8 (bool_u8 (no_time f)) 1)) (bool_u8 (suti f)),
   Z.lor (shl8 (bool_u8 (external_sync f)) 7) (shl8 (bool_u8 (source_reliable f)) 6)).
Lemma encode_data_parts p f : DateTime_encode_data p f =
  let q := absent_parts p f in
  [p_year q; p_month q; p_day q; Z.lor (shl8 (p_day_of_week q) 5) (p_hour q); p_minute q; p_second q;
   (flag_bytes f).1; (flag_bytes f).2].
Proof. done. Qed.
Lemma flags_roundtrip f :
  u8_ok (flag_bytes f).1 ∧ u8_ok (flag_bytes f).2 ∧ flags_of_bytes (flag_bytes f).1 (flag_bytes f).2 = f.
Proof. destruct f as [[] [] [] [] [] [] [] [] [] []]; vm_compute; split_and!; congruence. Qed.
Lemma absent_parts_idem p f : absent_parts (absent_parts p f) f = absent_parts p f.
Proof. unfold absent_parts. cbn. by destruct (no_year f), (no_date f), (no_dow f), (no_time f). Qed.
Lemma absent_parts_ok p f : parts_ok p → parts_ok (absent_parts p f).
Proof.
  unfold parts_ok, absent_parts, u8_ok. cbn. intros H.
  destruct (no_year f), (no_date f), (no_dow f), (no_time f); lia.
Qed.
(** Validation looks only at the fields that are present. *)
Lemma validate_absent p f d d' :
  DateTime_validate (MkDateTime (absent_parts p f) f d) = Ok tt ↔ DateTime_validate (MkDateTime p f d') = Ok tt.
Proof.
  unfold DateTime_validate, absent_parts. cbn.
  destruct (no_date f), (no_dow f), (no_time f); cbn; by repeat case_match.
Qed.
Lemma DateTime_new_Ok p f t : DateTime_new_with_flags p f = Ok t ↔
  DateTime_validate (MkDateTime p f (replicate 8 0)) = Ok tt ∧ t = MkDateTime p f (DateTime_encode_data p f).
Proof.
  unfold DateTime_new_with_flags. split.
  - by intros ([] & Hv & [= <-])%outcome_bind_Ok.
  - by intros [-> ->].
Qed.
Lemma datetime_decoded p f d t :
  DateTime_validate (MkDateTime p f d) = Ok tt →
  Ok (E:=KnxError) (MkDateTime p f (DateTime_encode_data p f)) = Ok t → parts_ok p →
  DateTime_validate t = Ok tt ∧ ∃ t', datetime_wf t' ∧ dt_data t' = dt_data t.
Proof.
  intros Hv [= <-] Hp. split; [exact Hv|].
  exists (MkDateTime (absent_parts p f) f (DateTime_encode_data (absent_parts p f) f)). split.
  - split_and!; [by apply absent_parts_ok|apply absent_parts_idem|].
    apply DateTime_new_Ok. split; [|done]. by apply (validate_absent p f _ d).
  - cbn [dt_data]. by rewrite !encode_data_parts, absent_parts_idem.
Qed.
#[global] Instance DateTime_laws : DptLaws DateTime.
Proof.
  composite_laws "19.001" datetime_wf.
  - payload 8. intros _. cbn. apply outcome_bind_no_panic; [|done].
    unfold DateTime_validate. by repeat case_match.
  - intros [p f l] (Hp & Ha & [Hv [= ->]]%DateTime_new_Ok). cbn [dt_parts dt_flags] in *.
    destruct (flags_roundtrip f) as (Hf1 & Hf2 & Hf). pose proof Hp as Hp'. 
    destruct Hp as ((H1 & H2 & H3) & H4 & H5 & H6 & H7).
    destruct (day_hour (p_day_of_week p) (p_hour p)) as (Hb & E1 & E2); [lia..|].
    cbn [as_bytes DateTime_DptValue dt_data]. rewrite encode_data_parts. cbn zeta. rewrite Ha.
    split_and!; [done|each_byte (done || (unfold u8_ok in *; lia))|].
    cbn -[flag_bytes flags_of_bytes Z.land Z.lor DateTime_validate DateTime_encode_data].
    rewrite E1, E2, Hf, land_15, land_31, !land_63, !Z.mod_small by lia.
    assert (MkDateTimeParts (p_year p) (p_month p) (p_day p) (p_day_of_week p) (p_hour p) (p_minute p) (p_second p) = p) as -> by by destruct p.
    cbn [replicate] in Hv. rewrite Hv. cbn [mbind outcome_bind]. by rewrite encode_data_parts; cbn zeta; rewrite Ha.
  - payload 8. intros a _ Hb. split_bytes.
    cbn -[flags_of_bytes Z.land Z.shiftr DateTime_validate DateTime_encode_data]. intros ([] & Hv & E)%outcome_bind_Ok.
    apply (datetime_decoded _ _ _ _ Hv E). unfold parts_ok, u8_ok in *. cbn.
    rewrite land_15, !land_31, land_7, !land_63. repeat split; zlia.
Defined.
