(* ===== verification/Datapoints.v ===== *)
(** Datapoint values across the bus: a value written by the server and decoded
    by a client, the text types, and the constructors of aliases. *)
From S2P Require Import Prelude Errors Address Apdu Telegram Cemi KnxIp Server ServerBehaviour Dpt DptNumeric DptComposite.

(** * Values on the bus *)

Section delivery.
Context `{Profile} {A : Type} `{DptLaws A}.

(** A datapoint value written to a group reaches the client: the telegram
    [Telegram::group_write] makes of its bytes is sent as one frame, which the
    client reads as a group write to the same group, and the payload decodes
    to the value, provided a one-byte value is below 64 (a one-byte payload
    arrives modulo 64). *)
Theorem datapoint_delivery now dest (a : A) ch seq :
  dpt_wf a → GroupAddress_valid dest → (1 ≤ byte_length (A:=A) ≤ 254)%nat →
  ∃ f t', build_tunnelling_frame_with_code (Telegram_group_write now dest (as_bytes a)) ch seq LDataInd = Ok f ∧
    client_reads now f ch seq t' ∧
    destination t' = Group dest ∧ telegram_type t' = GroupValueWrite ∧
    payload t' = on_the_wire (as_bytes a) ∧
    (byte_length (A:=A) ≠ 1%nat ∨ Forall (λ b, b < 64) (as_bytes a) → from_bytes (payload t') = Ok a).
Proof.
  intros Hw Hd Hn. destruct (as_bytes_wf a Hw) as [Hl Hb].
  assert (as_bytes a ≠ []) as Hne by (intros E; rewrite E in Hl; cbn in Hl; lia).
  destruct (build_frame_read now (Telegram_group_write now dest (as_bytes a)) ch seq LDataInd) as (f & Hf & Hr).
  { split_and!; [by unfold IndividualAddress_valid, u16_ok|done|done|]. unfold telegram_fits. cbn. lia. }
  eexists f, _. split_and!; [exact Hf|exact Hr|done| |by apply arrived_payload|].
  - unfold arrived. cbn. by destruct (as_bytes a).
  - intros Hs. rewrite arrived_payload by done. cbn [payload Telegram_group_write].
    rewrite on_the_wire_small; [by apply dpt_roundtrip|done|by rewrite Hl].
Qed.
End delivery.

(** * Text *)

(** A text of at most 14 characters the encoding has (none of them NUL)
    is accepted, sent as 14 bytes and read back as the same text, in ASCII and
    in Latin-1; a longer one is refused. *)
Theorem text_roundtrip value :
  ((length value ≤ 14)%nat → Forall (λ c, 0 < c < 128) value →
     ∃ s, StringAscii_new value = Ok s ∧ length (as_bytes s) = 14%nat ∧
       ∃ s', from_bytes (as_bytes s) = Ok s' ∧ ascii_value s' = value) ∧
  ((length value ≤ 14)%nat → Forall (λ c, 0 < c < 256) value →
     ∃ s, StringLatin1_new value = Ok s ∧ length (as_bytes s) = 14%nat ∧
       ∃ s', from_bytes (as_bytes s) = Ok s' ∧ latin1_value s' = value) ∧
  ((14 < length value)%nat →
     (∃ e, StringAscii_new value = Err e) ∧ (∃ e, StringLatin1_new value = Err e)).
Proof.
  split_and!.
  - intros Hl Hc. destruct (ascii_text value Hl Hc) as (s & Hs & Hv & Hw). exists s.
    split_and!; [done|exact (proj1 (as_bytes_wf s Hw))|]. exists s. by rewrite dpt_roundtrip.
  - intros Hl Hc. destruct (latin1_text value Hl Hc) as (s & Hs & Hv & Hw). exists s.
    split_and!; [done|exact (proj1 (as_bytes_wf s Hw))|]. exists s. by rewrite dpt_roundtrip.
  - intros Hl. unfold StringAscii_new, StringLatin1_new, encode_ascii_payload, encode_latin1_payload,
      validate_string_length. rewrite (proj2 (Nat.ltb_lt _ _) Hl). split; by eexists.
Qed.

(** * Aliases *)

(** The infallible constructors of the scene and HVAC aliases unwrap the
    fallible ones of their base types: outside the range they panic, and inside
    it they make a value that reads back as given. *)
Theorem alias_constructors_panic number vt u ha v :
  (alias_new (B:=SceneNumber) v = (Panic : result (dpt_alias number vt u ha SceneNumber)) ↔ ¬ 1 ≤ v ≤ 64) ∧
  (alias_new (B:=HVACMode) v = (Panic : result (dpt_alias number vt u ha HVACMode)) ↔ 4 < v) ∧
  (alias_new (B:=HVACControllerMode) v = (Panic : result (dpt_alias number vt u ha HVACControllerMode)) ↔
     17 < v ∧ v ≠ 20).
Proof.
  split_and!.
  - unfold alias_new. cbn [inner_new SceneNumber_inner]. unfold SceneNumber_new.
    pose proof (in_range_spec 1 64 v). destruct (in_range 1 64 v); cbn; naive_solver.
  - unfold alias_new. cbn [inner_new HVACMode_inner]. unfold HVACMode_new.
    destruct (Z.ltb_spec 4 v); cbn; split; intros; done || lia.
  - unfold alias_new. cbn [inner_new HVACControllerMode_inner]. unfold HVACControllerMode_new.
    destruct (Z.ltb_spec 17 v), (Z.eqb_spec v 20); cbn; split; intros; done || lia.
Qed.

(** * Examples *)

(** A date and time received with its year and day of week marked absent: the
    year and weekday bytes it carried are dropped by the re-encoding. *)
Definition sample_received : list Z := [99; 6; 15; 0xAC; 30; 0; 0x14; 0x80].
Lemma dpt_decode_stable_witness :
  Dpt_decode (A:=DateTime) sample_received ≠ Panic ∧
  (length sample_received ≠ 8%nat → ∃ number,
     Dpt_decode (A:=DateTime) sample_received = invalid_length number 8 (length sample_received)) ∧
  (∀ d : Dpt DateTime, Dpt_decode sample_received = Ok d →
     length (Dpt_as_bytes d) = 8%nat ∧
     ∃ d' : Dpt DateTime, Dpt_decode (Dpt_as_bytes d) = Ok d' ∧ Dpt_as_bytes d' = Dpt_as_bytes d) ∧
  (Dpt_as_bytes <$> result_ok (Dpt_decode (A:=DateTime) sample_received)) =
    Some [0; 6; 15; 12; 30; 0; 0x14; 0x80].
Proof.
  destruct (dpt_decode_stable (A:=DateTime) sample_received) as (H1 & H2 & H3).
  - by apply (bool_decide_unpack (bytes_ok _)).
  - exact (conj H1 (conj H2 (conj H3 eq_refl))).
Defined.

(** Monday 12:30:15, three bytes, and what a client reads. *)
Definition sample_time : TimeOfDay := MkTimeOfDay 1 12 30 15 [0x2C; 30; 15].
#[local] Instance datapoint_release : Profile := {| debug_build := false |}.
Lemma datapoint_delivery_witness :
  ∃ f t', build_tunnelling_frame_with_code
      (Telegram_group_write 5 (MkGroupAddress 0x0A03) (as_bytes sample_time)) 1 0 LDataInd = Ok f ∧
    client_reads 5 f 1 0 t' ∧
    destination t' = Group (MkGroupAddress 0x0A03) ∧ telegram_type t' = GroupValueWrite ∧
    payload t' = on_the_wire (as_bytes sample_time) ∧
    (byte_length (A:=TimeOfDay) ≠ 1%nat ∨ Forall (λ b, b < 64) (as_bytes sample_time) →
       from_bytes (payload t') = Ok sample_time).
Proof.
  apply (datapoint_delivery 5 (MkGroupAddress 0x0A03) sample_time 1 0).
  - split; [cbn; lia|done].
  - by unfold GroupAddress_valid.
  - cbn. lia.
Defined.

Lemma text_roundtrip_witness :
  ∃ s, StringAscii_new [72; 105] = Ok s ∧ length (as_bytes s) = 14%nat ∧
    ∃ s', from_bytes (as_bytes s) = Ok s' ∧ ascii_value s' = [72; 105].
Proof. apply (text_roundtrip [72; 105]); [cbn; lia|]. by repeat constructor. Defined.
