(* ===== verification/DptTypes.v ===== *)
(** Runtime datapoint types ([src/src/protocol/dpt/dpt_type.rs]) and the units
    of measurement ([src/src/protocol/dpt/unit.rs]): the two enumerations, their
    numbering and the tables between them.  The modules keep the source's
    constructor names apart from one another's. *)
From S2P Require Import Prelude Errors Text.

(** * Units *)
Module Unit.
Inductive Unit :=
(* Electrical *)
| Ampere | Milliampere | Millivolt | Volt | VoltPerKelvin | VoltPerMeter | VoltAmpere
| VoltAmpereHour | VoltAmpereReactiveHour | Watt | WattPerSquareMeter | WattPerMeterKelvin
| WattHour | Kilowatt | KilowattHour | KilovoltAmpereHour | KilovoltAmpereReactiveHour
| MegawattHour | Ohm | OhmMeter | Siemens | SiemensPerMeter | Weber | Tesla | Henry | Farad
(* Thermal / Temperature *)
| DegreeCelsius | DegreeFahrenheit | Kelvin | KelvinPerPercent | KelvinPerHour
(* Mechanical / Force / Pressure *)
| Newton | NewtonPerMeter | NewtonPerSecond | NewtonMeter | Pascal | Joule | JoulePerKelvin
| JoulePerMol | JouleSecond
(* Motion / Speed *)
| MeterPerSecond | MeterPerSecondSquared | KilometerPerHour | RadianPerSecond
| RadianPerSecondSquared
(* Length / Area / Volume *)
| Meter | Millimeter | SquareMeter | SquareMeterPerNewton | CubicMeter | CubicMeterPerHour
| CubicMeterPerSecond | Liter | LiterPerHour | LiterPerSquareMeter | LiterPerSecond
(* Mass / Density *)
| Kilogram | KilogramPerCubicMeter | KilogramPerSecond | GramPerCubicMeter
| MicrogramPerCubicMeter
(* Light *)
| Lux | Lumen | LumenSecond | Candela | CandelaPerSquareMeter
(* Time *)
| Second | Millisecond | Minute | Hour
(* Frequency *)
| Hertz | InverseSecond
(* Angular *)
| Degree | Radian | Steradian
(* Magnetic *)
| AmperePerMeter | AmperePerSquareMeter | AmpereSquareMeter
(* Electric field / Charge *)
| Coulomb | CoulombPerSquareMeter | CoulombPerCubicMeter | CoulombMeter
(* Chemical / Environmental *)
| Mol | PartsPerMillion | Percent
(* Misc / Dimensionless *)
| SpeedOfLight | CounterPulses | Pulses.
#[global] Instance Unit_eq_dec : EqDecision Unit.
Proof. solve_decision. Defined.

Definition symbol (u : Unit) : string :=
  match u with
  | Percent => "%" | Ampere => "A" | AmperePerMeter => "A/m" | AmperePerSquareMeter => "A/m²"
  | AmpereSquareMeter => "A m²" | Coulomb => "C" | CoulombPerSquareMeter => "C/m²"
  | CoulombPerCubicMeter => "C/m³" | CoulombMeter => "C m" | Farad => "F" | Henry => "H"
  | Hertz => "Hz" | Joule => "J" | JoulePerKelvin => "J/K" | JoulePerMol => "J/mol"
  | JouleSecond => "J s" | Kelvin => "K" | KelvinPerPercent => "K/%" | KelvinPerHour => "K/h"
  | Liter => "L" | LiterPerHour => "L/h" | LiterPerSquareMeter => "L/m²"
  | LiterPerSecond => "L/s" | MegawattHour => "MWh" | Newton => "N" | NewtonPerMeter => "N/m"
  | NewtonPerSecond => "N/s" | NewtonMeter => "Nm" | Pascal => "Pa" | Siemens => "S"
  | SiemensPerMeter => "S/m" | Tesla => "T" | Volt => "V" | VoltPerKelvin => "V/K"
  | VoltPerMeter => "V/m" | VoltAmpere => "VA" | VoltAmpereHour => "VAh"
  | VoltAmpereReactiveHour => "VARh" | Watt => "W" | WattPerSquareMeter => "W/m²"
  | WattPerMeterKelvin => "W/mK" | Weber => "Wb" | WattHour => "Wh" | SpeedOfLight => "c"
  | Candela => "cd" | CandelaPerSquareMeter => "cd/m²" | CounterPulses => "counter pulses"
  | GramPerCubicMeter => "g/m³" | Hour => "h" | KilovoltAmpereHour => "kVAh"
  | KilovoltAmpereReactiveHour => "kVARh" | Kilowatt => "kW" | KilowattHour => "kWh"
  | Kilogram => "kg" | KilogramPerCubicMeter => "kg/m³" | KilogramPerSecond => "kg/s"
  | KilometerPerHour => "km/h" | Lumen => "lm" | LumenSecond => "lm s" | Lux => "lx"
  | Meter => "m" | MeterPerSecond => "m/s" | MeterPerSecondSquared => "m/s²"
  | Milliampere => "mA" | Millivolt => "mV" | Minute => "min" | Millimeter => "mm"
  | Mol => "mol" | Millisecond => "ms" | SquareMeter => "m²" | SquareMeterPerNewton => "m²/N"
  | CubicMeter => "m³" | CubicMeterPerHour => "m³/h" | CubicMeterPerSecond => "m³/s"
  | PartsPerMillion => "ppm" | Pulses => "pulses" | Radian => "rad"
  | RadianPerSecond => "rad/s" | RadianPerSecondSquared => "rad/s²" | Second => "s"
  | Steradian => "sr" | InverseSecond => "s⁻¹" | Degree => "°" | DegreeCelsius => "°C"
  | DegreeFahrenheit => "°F" | Ohm => "Ω" | OhmMeter => "Ωm"
  | MicrogramPerCubicMeter => "μg/m³"
  end.

Definition unit_id (u : Unit) : string :=
  match u with
  | Percent => "percent" | Ampere => "ampere" | AmperePerMeter => "ampere_per_meter"
  | AmperePerSquareMeter => "ampere_per_square_meter"
  | AmpereSquareMeter => "ampere_square_meter" | Coulomb => "coulomb"
  | CoulombPerSquareMeter => "coulomb_per_square_meter"
  | CoulombPerCubicMeter => "coulomb_per_cubic_meter" | CoulombMeter => "coulomb_meter"
  | Farad => "farad" | Henry => "henry" | Hertz => "hertz" | Joule => "joule"
  | JoulePerKelvin => "joule_per_kelvin" | JoulePerMol => "joule_per_mol"
  | JouleSecond => "joule_second" | Kelvin => "kelvin"
  | KelvinPerPercent => "kelvin_per_percent" | KelvinPerHour => "kelvin_per_hour"
  | Liter => "liter" | LiterPerHour => "liter_per_hour"
  | LiterPerSquareMeter => "liter_per_square_meter" | LiterPerSecond => "liter_per_second"
  | MegawattHour => "megawatt_hour" | Newton => "newton" | NewtonPerMeter => "newton_per_meter"
  | NewtonPerSecond => "newton_per_second" | NewtonMeter => "newton_meter" | Pascal => "pascal"
  | Siemens => "siemens" | SiemensPerMeter => "siemens_per_meter" | Tesla => "tesla"
  | Volt => "volt" | VoltPerKelvin => "volt_per_kelvin" | VoltPerMeter => "volt_per_meter"
  | VoltAmpere => "volt_ampere" | VoltAmpereHour => "volt_ampere_hour"
  | VoltAmpereReactiveHour => "volt_ampere_reactive_hour" | Watt => "watt"
  | WattPerSquareMeter => "watt_per_square_meter"
  | WattPerMeterKelvin => "watt_per_meter_kelvin" | Weber => "weber" | WattHour => "watt_hour"
  | SpeedOfLight => "speed_of_light" | Candela => "candela"
  | CandelaPerSquareMeter => "candela_per_square_meter" | CounterPulses => "counter_pulses"
  | GramPerCubicMeter => "gram_per_cubic_meter" | Hour => "hour"
  | KilovoltAmpereHour => "kilovolt_ampere_hour"
  | KilovoltAmpereReactiveHour => "kilovolt_ampere_reactive_hour" | Kilowatt => "kilowatt"
  | KilowattHour => "kilowatt_hour" | Kilogram => "kilogram"
  | KilogramPerCubicMeter => "kilogram_per_cubic_meter"
  | KilogramPerSecond => "kilogram_per_second" | KilometerPerHour => "kilometer_per_hour"
  | Lumen => "lumen" | LumenSecond => "lumen_second" | Lux => "lux" | Meter => "meter"
  | MeterPerSecond => "meter_per_second" | MeterPerSecondSquared => "meter_per_second_squared"
  | Milliampere => "milliampere" | Millivolt => "millivolt" | Minute => "minute"
  | Millimeter => "millimeter" | Mol => "mol" | Millisecond => "millisecond"
  | SquareMeter => "square_meter" | SquareMeterPerNewton => "square_meter_per_newton"
  | CubicMeter => "cubic_meter" | CubicMeterPerHour => "cubic_meter_per_hour"
  | CubicMeterPerSecond => "cubic_meter_per_second" | PartsPerMillion => "parts_per_million"
  | Pulses => "pulses" | Radian => "radian" | RadianPerSecond => "radian_per_second"
  | RadianPerSecondSquared => "radian_per_second_squared" | Second => "second"
  | Steradian => "steradian" | InverseSecond => "inverse_second" | Degree => "degree"
  | DegreeCelsius => "degree_celsius" | DegreeFahrenheit => "degree_fahrenheit" | Ohm => "ohm"
  | OhmMeter => "ohm_meter" | MicrogramPerCubicMeter => "microgram_per_cubic_meter"
  end.

Definition from_symbol_table : list (string * Unit) :=
  [("%", Percent); ("A", Ampere); ("A/m", AmperePerMeter); ("A/m²", AmperePerSquareMeter);
   ("A m²", AmpereSquareMeter); ("C", Coulomb); ("C/m²", CoulombPerSquareMeter);
   ("C/m³", CoulombPerCubicMeter); ("C m", CoulombMeter); ("F", Farad); ("H", Henry);
   ("Hz", Hertz); ("J", Joule); ("J/K", JoulePerKelvin); ("J/mol", JoulePerMol);
   ("J s", JouleSecond); ("K", Kelvin); ("K/%", KelvinPerPercent); ("K/h", KelvinPerHour);
   ("L", Liter); ("L/h", LiterPerHour); ("L/m²", LiterPerSquareMeter); ("L/s", LiterPerSecond);
   ("MWh", MegawattHour); ("N", Newton); ("N/m", NewtonPerMeter); ("N/s", NewtonPerSecond);
   ("Nm", NewtonMeter); ("Pa", Pascal); ("S", Siemens); ("S/m", SiemensPerMeter); ("T", Tesla);
   ("V", Volt); ("V/K", VoltPerKelvin); ("V/m", VoltPerMeter); ("VA", VoltAmpere);
   ("VAh", VoltAmpereHour); ("VARh", VoltAmpereReactiveHour); ("W", Watt);
   ("W/m²", WattPerSquareMeter); ("W/mK", WattPerMeterKelvin); ("Wb", Weber); ("Wh", WattHour);
   ("c", SpeedOfLight); ("cd", Candela); ("cd/m²", CandelaPerSquareMeter);
   ("counter pulses", CounterPulses); ("g/m³", GramPerCubicMeter); ("h", Hour);
   ("kVAh", KilovoltAmpereHour); ("kVARh", KilovoltAmpereReactiveHour); ("kW", Kilowatt);
   ("kWh", KilowattHour); ("kg", Kilogram); ("kg/m³", KilogramPerCubicMeter);
   ("kg/s", KilogramPerSecond); ("km/h", KilometerPerHour); ("lm", Lumen);
   ("lm s", LumenSecond); ("lx", Lux); ("m", Meter); ("m/s", MeterPerSecond);
   ("m/s²", MeterPerSecondSquared); ("mA", Milliampere); ("mV", Millivolt); ("min", Minute);
   ("mm", Millimeter); ("mol", Mol); ("ms", Millisecond); ("m²", SquareMeter);
   ("m²/N", SquareMeterPerNewton); ("m³", CubicMeter); ("m³/h", CubicMeterPerHour);
   ("m³/s", CubicMeterPerSecond); ("ppm", PartsPerMillion); ("pulses", Pulses);
   ("rad", Radian); ("rad/s", RadianPerSecond); ("rad/s²", RadianPerSecondSquared);
   ("s", Second); ("sr", Steradian); ("s⁻¹", InverseSecond); ("°", Degree);
   ("°C", DegreeCelsius); ("°F", DegreeFahrenheit); ("Ω", Ohm); ("Ωm", OhmMeter);
   ("μg/m³", MicrogramPerCubicMeter)].
(** A [match] on string literals tries them in turn. *)
Fixpoint match_str {A} (arms : list (string * A)) (s : string) : option A :=
  match arms with
  | [] => None
  | (k, a) :: arms => if String.eqb s k then Some a else match_str arms s
  end.
Definition from_symbol (s : string) : option Unit := match_str from_symbol_table s.

Definition all_units : list Unit :=
  [Ampere; Milliampere; Millivolt; Volt; VoltPerKelvin; VoltPerMeter; VoltAmpere;
   VoltAmpereHour; VoltAmpereReactiveHour; Watt; WattPerSquareMeter; WattPerMeterKelvin;
   WattHour; Kilowatt; KilowattHour; KilovoltAmpereHour; KilovoltAmpereReactiveHour;
   MegawattHour; Ohm; OhmMeter; Siemens; SiemensPerMeter; Weber; Tesla; Henry; Farad;
   DegreeCelsius; DegreeFahrenheit; Kelvin; KelvinPerPercent; KelvinPerHour; Newton;
   NewtonPerMeter; NewtonPerSecond; NewtonMeter; Pascal; Joule; JoulePerKelvin; JoulePerMol;
   JouleSecond; MeterPerSecond; MeterPerSecondSquared; KilometerPerHour; RadianPerSecond;
   RadianPerSecondSquared; Meter; Millimeter; SquareMeter; SquareMeterPerNewton; CubicMeter;
   CubicMeterPerHour; CubicMeterPerSecond; Liter; LiterPerHour; LiterPerSquareMeter;
   LiterPerSecond; Kilogram; KilogramPerCubicMeter; KilogramPerSecond; GramPerCubicMeter;
   MicrogramPerCubicMeter; Lux; Lumen; LumenSecond; Candela; CandelaPerSquareMeter; Second;
   Millisecond; Minute; Hour; Hertz; InverseSecond; Degree; Radian; Steradian; AmperePerMeter;
   AmperePerSquareMeter; AmpereSquareMeter; Coulomb; CoulombPerSquareMeter;
   CoulombPerCubicMeter; CoulombMeter; Mol; PartsPerMillion; Percent; SpeedOfLight;
   CounterPulses; Pulses].
End Unit.
Abbreviation Unit := Unit.Unit.

(** * Datapoint types *)
Module DptType.
Inductive DptType :=
(* DPT 1.xxx - Boolean *)
| Switch | Bool | Enable | Ramp | Alarm | BinaryValue | Step | UpDown | OpenClose | Start
| State | Invert | DimSendStyle | InputSource | Reset | Ack | Trigger | Occupancy | WindowDoor
| LogicalFunction | SceneAB | ShutterBlindsMode | DayNight | HeatCool | ConsumerProducer
| EnergyDirection
(* DPT 2.xxx - 2-bit control (control bit + value bit) *)
| SwitchControl | BoolControl | EnableControl | RampControl | AlarmControl | BinaryValueControl
| StepControl | Direction1Control | Direction2Control | StartControl | StateControl
| InvertControl
(* DPT 3.xxx - Control *)
| ControlDimming | ControlBlinds
(* DPT 5.xxx - Unsigned 8-bit *)
| Scaling | Angle | PercentU8 | DecimalFactor | Tariff | Value1Ucount
(* DPT 6.xxx - Signed 8-bit *)
| PercentV8 | Value1Count
(* DPT 7.xxx - Unsigned 16-bit *)
| Value2Ucount | TimePeriodMsec | TimePeriod10Msec | TimePeriod100Msec | TimePeriodSec
| TimePeriodMin | TimePeriodHrs | PropDataType | LengthMm | UElCurrentmA | Brightness
| ColorTemperature
(* DPT 8.xxx - Signed 16-bit *)
| Value2Count | DeltaTimeMsec | DeltaTime10Msec | DeltaTime100Msec | DeltaTimeSec
| DeltaTimeMin | DeltaTimeHrs | PercentV16 | RotationAngle | LengthM
(* DPT 9.xxx - 2-byte float *)
| Temperature | TemperatureDifference2Byte | TemperatureA | Lux | Wsp | Pressure2Byte
| Humidity | PartsPerMillion | AirFlow | Time1 | Time2 | Voltage | Current | PowerDensity
| KelvinPerPercent | Power2Byte | VolumeFlow | RainAmount | TemperatureF | WspKmh
| AbsoluteHumidity | ConcentrationUGM3 | Enthalpy
(* DPT 10.xxx - Time *)
| TimeOfDay
(* DPT 11.xxx - Date *)
| Date
(* DPT 12.xxx - Unsigned 32-bit *)
| Value4Ucount | LongTimePeriodSec | LongTimePeriodMin | LongTimePeriodHrs | VolumeLiquidLitre
| VolumeM3
(* DPT 13.xxx - Signed 32-bit *)
| Value4Count | FlowRateM3H | ActiveEnergy | ApparantEnergy | ReactiveEnergy | ActiveEnergykWh
| ApparantEnergykVAh | ReactiveEnergykVARh | ActiveEnergyMWh | LongDeltaTimeSec
| DeltaVolumeLiquidLitre | DeltaVolumeM3
(* DPT 14.xxx - 4-byte float *)
| Acceleration | AccelerationAngular | ActivationEnergy | Activity | Mol | Amplitude | AngleRad
| AngleDeg | AngularMomentum | AngularVelocity | Area | Capacitance | ChargeDensitySurface
| ChargeDensityVolume | Compressibility | Conductance | ElectricalConductivity | Density
| ElectricCharge | ElectricCurrent | ElectricCurrentDensity | ElectricDipoleMoment
| ElectricDisplacement | ElectricFieldStrength | ElectricFlux | ElectricFluxDensity
| ElectricPolarization | ElectricPotential | ElectricPotentialDifference
| ElectromagneticMoment | ElectromotiveForce | Energy | Force | Frequency | AngularFrequency
| HeatCapacity | HeatFlowRate | HeatQuantity | Impedance | Length | LightQuantity | Luminance
| LuminousFlux | LuminousIntensity | MagneticFieldStrength | MagneticFlux | MagneticFluxDensity
| MagneticMoment | MagneticPolarization | Magnetization | MagnetomotiveForce | Mass | MassFlux
| Momentum | PhaseAngleRad | PhaseAngleDeg | Power | PowerFactor | Pressure | Reactance
| Resistance | Resistivity | SelfInductance | SolidAngle | SoundIntensity | Speed | Stress
| SurfaceTension | CommonTemperature | AbsoluteTemperature | TemperatureDifference
| ThermalCapacity | ThermalConductivity | ThermoelectricPower | TimeSeconds | Torque | Volume
| VolumeFlux | Weight | Work | ApparentPower | VolumeFluxMeter | VolumeFluxLs
(* DPT 16.xxx - String *)
| StringAscii | StringLatin1
(* DPT 17.xxx - Scene Number *)
| SceneNumber
(* DPT 18.xxx - Scene Control *)
| SceneControl
(* DPT 19.xxx - Date and Time *)
| DateTime
(* DPT 20.xxx - HVAC *)
| HVACMode | HVACContrMode
(* DPT 29.xxx - Signed 64-bit *)
| ActiveEnergy8Byte | ApparantEnergy8Byte | ReactiveEnergy8Byte
(* DPT 232.xxx - RGB Color *)
| ColorRGB
(* DPT 235.xxx - Tariff Active Energy *)
| TariffActiveEnergy
(* DPT 242.xxx - XYY Color *)
| ColorXYY
(* DPT 251.xxx - RGBW Color *)
| ColorRGBW.

(** [as u32]. *)
Definition discriminant (t : DptType) : Z :=
  match t with
  | Switch => 100001 | Bool => 100002 | Enable => 100003 | Ramp => 100004 | Alarm => 100005
  | BinaryValue => 100006 | Step => 100007 | UpDown => 100008 | OpenClose => 100009
  | Start => 100010 | State => 100011 | Invert => 100012 | DimSendStyle => 100013
  | InputSource => 100014 | Reset => 100015 | Ack => 100016 | Trigger => 100017
  | Occupancy => 100018 | WindowDoor => 100019 | LogicalFunction => 100021 | SceneAB => 100022
  | ShutterBlindsMode => 100023 | DayNight => 100024 | HeatCool => 100100
  | ConsumerProducer => 101200 | EnergyDirection => 101201
  | SwitchControl => 200001 | BoolControl => 200002 | EnableControl => 200003
  | RampControl => 200004 | AlarmControl => 200005 | BinaryValueControl => 200006
  | StepControl => 200007 | Direction1Control => 200008 | Direction2Control => 200009
  | StartControl => 200010 | StateControl => 200011 | InvertControl => 200012
  | ControlDimming => 300007 | ControlBlinds => 300008
  | Scaling => 500001 | Angle => 500003 | PercentU8 => 500004 | DecimalFactor => 500005
  | Tariff => 500006 | Value1Ucount => 500010
  | PercentV8 => 600001 | Value1Count => 600010
  | Value2Ucount => 700001 | TimePeriodMsec => 700002 | TimePeriod10Msec => 700003
  | TimePeriod100Msec => 700004 | TimePeriodSec => 700005 | TimePeriodMin => 700006
  | TimePeriodHrs => 700007 | PropDataType => 700010 | LengthMm => 700011
  | UElCurrentmA => 700012 | Brightness => 700013 | ColorTemperature => 700600
  | Value2Count => 800001 | DeltaTimeMsec => 800002 | DeltaTime10Msec => 800003
  | DeltaTime100Msec => 800004 | DeltaTimeSec => 800005 | DeltaTimeMin => 800006
  | DeltaTimeHrs => 800007 | PercentV16 => 800010 | RotationAngle => 800011 | LengthM => 800012
  | Temperature => 900001 | TemperatureDifference2Byte => 900002 | TemperatureA => 900003
  | Lux => 900004 | Wsp => 900005 | Pressure2Byte => 900006 | Humidity => 900007
  | PartsPerMillion => 900008 | AirFlow => 900009 | Time1 => 900010 | Time2 => 900011
  | Voltage => 900020 | Current => 900021 | PowerDensity => 900022 | KelvinPerPercent => 900023
  | Power2Byte => 900024 | VolumeFlow => 900025 | RainAmount => 900026 | TemperatureF => 900027
  | WspKmh => 900028 | AbsoluteHumidity => 900029 | ConcentrationUGM3 => 900030
  | Enthalpy => 960000
  | TimeOfDay => 1000001
  | Date => 1100001
  | Value4Ucount => 1200001 | LongTimePeriodSec => 1200100 | LongTimePeriodMin => 1200101
  | LongTimePeriodHrs => 1200102 | VolumeLiquidLitre => 1201200 | VolumeM3 => 1201201
  | Value4Count => 1300001 | FlowRateM3H => 1300002 | ActiveEnergy => 1300010
  | ApparantEnergy => 1300011 | ReactiveEnergy => 1300012 | ActiveEnergykWh => 1300013
  | ApparantEnergykVAh => 1300014 | ReactiveEnergykVARh => 1300015 | ActiveEnergyMWh => 1300016
  | LongDeltaTimeSec => 1300100 | DeltaVolumeLiquidLitre => 1301200 | DeltaVolumeM3 => 1301201
  | Acceleration => 1400000 | AccelerationAngular => 1400001 | ActivationEnergy => 1400002
  | Activity => 1400003 | Mol => 1400004 | Amplitude => 1400005 | AngleRad => 1400006
  | AngleDeg => 1400007 | AngularMomentum => 1400008 | AngularVelocity => 1400009
  | Area => 1400010 | Capacitance => 1400011 | ChargeDensitySurface => 1400012
  | ChargeDensityVolume => 1400013 | Compressibility => 1400014 | Conductance => 1400015
  | ElectricalConductivity => 1400016 | Density => 1400017 | ElectricCharge => 1400018
  | ElectricCurrent => 1400019 | ElectricCurrentDensity => 1400020
  | ElectricDipoleMoment => 1400021 | ElectricDisplacement => 1400022
  | ElectricFieldStrength => 1400023 | ElectricFlux => 1400024 | ElectricFluxDensity => 1400025
  | ElectricPolarization => 1400026 | ElectricPotential => 1400027
  | ElectricPotentialDifference => 1400028 | ElectromagneticMoment => 1400029
  | ElectromotiveForce => 1400030 | Energy => 1400031 | Force => 1400032 | Frequency => 1400033
  | AngularFrequency => 1400034 | HeatCapacity => 1400035 | HeatFlowRate => 1400036
  | HeatQuantity => 1400037 | Impedance => 1400038 | Length => 1400039
  | LightQuantity => 1400040 | Luminance => 1400041 | LuminousFlux => 1400042
  | LuminousIntensity => 1400043 | MagneticFieldStrength => 1400044 | MagneticFlux => 1400045
  | MagneticFluxDensity => 1400046 | MagneticMoment => 1400047
  | MagneticPolarization => 1400048 | Magnetization => 1400049 | MagnetomotiveForce => 1400050
  | Mass => 1400051 | MassFlux => 1400052 | Momentum => 1400053 | PhaseAngleRad => 1400054
  | PhaseAngleDeg => 1400055 | Power => 1400056 | PowerFactor => 1400057 | Pressure => 1400058
  | Reactance => 1400059 | Resistance => 1400060 | Resistivity => 1400061
  | SelfInductance => 1400062 | SolidAngle => 1400063 | SoundIntensity => 1400064
  | Speed => 1400065 | Stress => 1400066 | SurfaceTension => 1400067
  | CommonTemperature => 1400068 | AbsoluteTemperature => 1400069
  | TemperatureDifference => 1400070 | ThermalCapacity => 1400071
  | ThermalConductivity => 1400072 | ThermoelectricPower => 1400073 | TimeSeconds => 1400074
  | Torque => 1400075 | Volume => 1400076 | VolumeFlux => 1400077 | Weight => 1400078
  | Work => 1400079 | ApparentPower => 1400080 | VolumeFluxMeter => 1401200
  | VolumeFluxLs => 1401201
  | StringAscii => 1600000 | StringLatin1 => 1600001
  | SceneNumber => 1700001
  | SceneControl => 1800001
  | DateTime => 1900001
  | HVACMode => 2000102 | HVACContrMode => 2000105
  | ActiveEnergy8Byte => 2900010 | ApparantEnergy8Byte => 2900011
  | ReactiveEnergy8Byte => 2900012
  | ColorRGB => 23200600
  | TariffActiveEnergy => 23500001
  | ColorXYY => 24200600
  | ColorRGBW => 25100600
  end.

Definition all_types : list DptType :=
  [Switch; Bool; Enable; Ramp; Alarm; BinaryValue; Step; UpDown; OpenClose; Start; State;
   Invert; DimSendStyle; InputSource; Reset; Ack; Trigger; Occupancy; WindowDoor;
   LogicalFunction; SceneAB; ShutterBlindsMode; DayNight; HeatCool; ConsumerProducer;
   EnergyDirection; SwitchControl; BoolControl; EnableControl; RampControl; AlarmControl;
   BinaryValueControl; StepControl; Direction1Control; Direction2Control; StartControl;
   StateControl; InvertControl; ControlDimming; ControlBlinds; Scaling; Angle; PercentU8;
   DecimalFactor; Tariff; Value1Ucount; PercentV8; Value1Count; Value2Ucount; TimePeriodMsec;
   TimePeriod10Msec; TimePeriod100Msec; TimePeriodSec; TimePeriodMin; TimePeriodHrs;
   PropDataType; LengthMm; UElCurrentmA; Brightness; ColorTemperature; Value2Count;
   DeltaTimeMsec; DeltaTime10Msec; DeltaTime100Msec; DeltaTimeSec; DeltaTimeMin; DeltaTimeHrs;
   PercentV16; RotationAngle; LengthM; Temperature; TemperatureDifference2Byte; TemperatureA;
   Lux; Wsp; Pressure2Byte; Humidity; PartsPerMillion; AirFlow; Time1; Time2; Voltage; Current;
   PowerDensity; KelvinPerPercent; Power2Byte; VolumeFlow; RainAmount; TemperatureF; WspKmh;
   AbsoluteHumidity; ConcentrationUGM3; Enthalpy; TimeOfDay; Date; Value4Ucount;
   LongTimePeriodSec; LongTimePeriodMin; LongTimePeriodHrs; VolumeLiquidLitre; VolumeM3;
   Value4Count; FlowRateM3H; ActiveEnergy; ApparantEnergy; ReactiveEnergy; ActiveEnergykWh;
   ApparantEnergykVAh; ReactiveEnergykVARh; ActiveEnergyMWh; LongDeltaTimeSec;
   DeltaVolumeLiquidLitre; DeltaVolumeM3; Acceleration; AccelerationAngular; ActivationEnergy;
   Activity; Mol; Amplitude; AngleRad; AngleDeg; AngularMomentum; AngularVelocity; Area;
   Capacitance; ChargeDensitySurface; ChargeDensityVolume; Compressibility; Conductance;
   ElectricalConductivity; Density; ElectricCharge; ElectricCurrent; ElectricCurrentDensity;
   ElectricDipoleMoment; ElectricDisplacement; ElectricFieldStrength; ElectricFlux;
   ElectricFluxDensity; ElectricPolarization; ElectricPotential; ElectricPotentialDifference;
   ElectromagneticMoment; ElectromotiveForce; Energy; Force; Frequency; AngularFrequency;
   HeatCapacity; HeatFlowRate; HeatQuantity; Impedance; Length; LightQuantity; Luminance;
   LuminousFlux; LuminousIntensity; MagneticFieldStrength; MagneticFlux; MagneticFluxDensity;
   MagneticMoment; MagneticPolarization; Magnetization; MagnetomotiveForce; Mass; MassFlux;
   Momentum; PhaseAngleRad; PhaseAngleDeg; Power; PowerFactor; Pressure; Reactance; Resistance;
   Resistivity; SelfInductance; SolidAngle; SoundIntensity; Speed; Stress; SurfaceTension;
   CommonTemperature; AbsoluteTemperature; TemperatureDifference; ThermalCapacity;
   ThermalConductivity; ThermoelectricPower; TimeSeconds; Torque; Volume; VolumeFlux; Weight;
   Work; ApparentPower; VolumeFluxMeter; VolumeFluxLs; StringAscii; StringLatin1; SceneNumber;
   SceneControl; DateTime; HVACMode; HVACContrMode; ActiveEnergy8Byte; ApparantEnergy8Byte;
   ReactiveEnergy8Byte; ColorRGB; TariffActiveEnergy; ColorXYY; ColorRGBW].

(** The function [strum::FromRepr] derives from the discriminants. *)
Definition from_repr_in (ts : list DptType) (n : Z) : option DptType :=
  list_find (λ t, discriminant t = n) ts ≫= λ '(_, t), Some t.
Definition from_repr (n : Z) : option DptType := from_repr_in all_types n.

Definition unit (t : DptType) : option Unit :=
  match t with
  | Scaling | PercentU8 => Some Unit.Percent
  | Angle | AngleDeg | PhaseAngleDeg | RotationAngle => Some Unit.Degree
  | TimePeriodMsec | TimePeriod10Msec | TimePeriod100Msec => Some Unit.Millisecond
  | TimePeriodSec => Some Unit.Second
  | TimePeriodMin => Some Unit.Minute
  | TimePeriodHrs => Some Unit.Hour
  | LengthMm => Some Unit.Millimeter
  | UElCurrentmA => Some Unit.Milliampere
  | Brightness => Some Unit.Lux
  | ColorTemperature => Some Unit.Kelvin
  | DeltaTimeMsec | DeltaTime10Msec | DeltaTime100Msec => Some Unit.Millisecond
  | DeltaTimeSec => Some Unit.Second
  | DeltaTimeMin => Some Unit.Minute
  | DeltaTimeHrs => Some Unit.Hour
  | PercentV16 | PercentV8 => Some Unit.Percent
  | LengthM => Some Unit.Meter
  | Temperature | CommonTemperature => Some Unit.DegreeCelsius
  | TemperatureDifference2Byte | AbsoluteTemperature | TemperatureDifference => Some Unit.Kelvin
  | TemperatureA => Some Unit.KelvinPerHour
  | Lux => Some Unit.Lux
  | Wsp | Speed => Some Unit.MeterPerSecond
  | Pressure2Byte | Pressure | Stress => Some Unit.Pascal
  | Humidity => Some Unit.Percent
  | PartsPerMillion => Some Unit.PartsPerMillion
  | AirFlow | VolumeFluxMeter => Some Unit.CubicMeterPerHour
  | Time1 | TimeSeconds | LongDeltaTimeSec | LongTimePeriodSec => Some Unit.Second
  | Time2 => Some Unit.Millisecond
  | Voltage | ElectricPotential | ElectricPotentialDifference | ElectromotiveForce => Some Unit.Volt
  | Current => Some Unit.Milliampere
  | PowerDensity | SoundIntensity => Some Unit.WattPerSquareMeter
  | KelvinPerPercent => Some Unit.KelvinPerPercent
  | Power2Byte => Some Unit.Kilowatt
  | VolumeFlow => Some Unit.LiterPerHour
  | RainAmount => Some Unit.LiterPerSquareMeter
  | TemperatureF => Some Unit.DegreeFahrenheit
  | WspKmh => Some Unit.KilometerPerHour
  | AbsoluteHumidity => Some Unit.GramPerCubicMeter
  | ConcentrationUGM3 => Some Unit.MicrogramPerCubicMeter
  | LongTimePeriodMin => Some Unit.Minute
  | LongTimePeriodHrs => Some Unit.Hour
  | VolumeLiquidLitre | DeltaVolumeLiquidLitre => Some Unit.Liter
  | VolumeM3 | DeltaVolumeM3 | Volume => Some Unit.CubicMeter
  | FlowRateM3H => Some Unit.CubicMeterPerHour
  | ActiveEnergy | ActiveEnergy8Byte => Some Unit.WattHour
  | ApparantEnergy | ApparantEnergy8Byte => Some Unit.VoltAmpereHour
  | ReactiveEnergy | ReactiveEnergy8Byte => Some Unit.VoltAmpereReactiveHour
  | ActiveEnergykWh => Some Unit.KilowattHour
  | ApparantEnergykVAh => Some Unit.KilovoltAmpereHour
  | ReactiveEnergykVARh => Some Unit.KilovoltAmpereReactiveHour
  | ActiveEnergyMWh => Some Unit.MegawattHour
  | Acceleration => Some Unit.MeterPerSecondSquared
  | AccelerationAngular => Some Unit.RadianPerSecondSquared
  | ActivationEnergy => Some Unit.JoulePerMol
  | Activity => Some Unit.InverseSecond
  | Mol => Some Unit.Mol
  | AngleRad | PhaseAngleRad => Some Unit.Radian
  | AngularMomentum => Some Unit.JouleSecond
  | AngularVelocity | AngularFrequency => Some Unit.RadianPerSecond
  | Area => Some Unit.SquareMeter
  | Capacitance => Some Unit.Farad
  | ChargeDensitySurface | ElectricFluxDensity | ElectricPolarization | ElectricDisplacement => Some Unit.CoulombPerSquareMeter
  | ChargeDensityVolume => Some Unit.CoulombPerCubicMeter
  | Compressibility => Some Unit.SquareMeterPerNewton
  | Conductance => Some Unit.Siemens
  | ElectricalConductivity => Some Unit.SiemensPerMeter
  | Density => Some Unit.KilogramPerCubicMeter
  | ElectricCharge | ElectricFlux => Some Unit.Coulomb
  | ElectricCurrent | MagnetomotiveForce => Some Unit.Ampere
  | ElectricCurrentDensity => Some Unit.AmperePerSquareMeter
  | ElectricDipoleMoment => Some Unit.CoulombMeter
  | ElectricFieldStrength => Some Unit.VoltPerMeter
  | ElectromagneticMoment | MagneticMoment => Some Unit.AmpereSquareMeter
  | Energy | HeatQuantity | Work => Some Unit.Joule
  | Force | Weight => Some Unit.Newton
  | Frequency => Some Unit.Hertz
  | HeatCapacity | ThermalCapacity => Some Unit.JoulePerKelvin
  | HeatFlowRate | Power | ApparentPower => Some Unit.Watt
  | Impedance | Reactance | Resistance => Some Unit.Ohm
  | Length => Some Unit.Meter
  | LightQuantity => Some Unit.LumenSecond
  | Luminance => Some Unit.CandelaPerSquareMeter
  | LuminousFlux => Some Unit.Lumen
  | LuminousIntensity => Some Unit.Candela
  | MagneticFieldStrength | Magnetization => Some Unit.AmperePerMeter
  | MagneticFlux => Some Unit.Weber
  | MagneticFluxDensity | MagneticPolarization => Some Unit.Tesla
  | Mass => Some Unit.Kilogram
  | MassFlux => Some Unit.KilogramPerSecond
  | Momentum => Some Unit.NewtonPerSecond
  | PowerFactor => None
  | Resistivity => Some Unit.OhmMeter
  | SelfInductance => Some Unit.Henry
  | SolidAngle => Some Unit.Steradian
  | SurfaceTension => Some Unit.NewtonPerMeter
  | ThermalConductivity => Some Unit.WattPerMeterKelvin
  | ThermoelectricPower => Some Unit.VoltPerKelvin
  | Torque => Some Unit.NewtonMeter
  | VolumeFlux => Some Unit.CubicMeterPerSecond
  | VolumeFluxLs => Some Unit.LiterPerSecond
  | TariffActiveEnergy => Some Unit.WattHour
  | _ => None
  end.

Definition main (t : DptType) : Z := as_u16 (discriminant t / 100000).
Definition sub (t : DptType) : Z := as_u16 (discriminant t mod 100000).
Definition number_str (t : DptType) : string := dec (main t) +:+ "." +:+ pad0 3 (sub t).
(** In [u32], which the main numbers from 42950 on overflow. *)
Definition from_number `{Profile} (main sub : Z) : result (option DptType) :=
  base ← checked32 (main * 100000);
  number ← checked32 (base + sub);
  Ok (from_repr number).
(** The two halves of a number string, as [u16]. *)
Definition number_parts (s : string) : option (Z * Z) :=
  '(main_s, sub_s) ← split_once "." s;
  main ← parse_uint 65535 main_s;
  sub ← parse_uint 65535 sub_s;
  Some (main, sub).
Definition from_str `{Profile} (s : string) : result (option DptType) :=
  match number_parts s with Some (main, sub) => from_number main sub | None => Ok None end.
Definition byte_length (t : DptType) : nat :=
  let m := main t in
  if bool_decide (m ∈ [1; 2; 3; 5; 6; 17; 18; 20]) then 1
  else if (7 <=? m) && (m <=? 9) then 2
  else if bool_decide (m ∈ [10; 11; 232]) then 3
  else if (12 <=? m) && (m <=? 14) then 4
  else if m =? 16 then 14
  else if bool_decide (m ∈ [19; 29]) then 8
  else if bool_decide (m ∈ [235; 242; 251]) then 6
  else 0.
End DptType.
Abbreviation DptType := DptType.DptType.

(** * Lemmas *)
Import DptType.

(** Where the lists hold each constructor. *)
Lemma all_types_lookup t :
  all_types !! default 0%nat (fst <$> list_find (λ u, discriminant u = discriminant t) all_types) = Some t.
Proof. destruct t; vm_compute; reflexivity. Qed.
Lemma all_units_lookup u :
  Unit.all_units !! default 0%nat (fst <$> list_find (λ v, v = u) Unit.all_units) = Some u.
Proof. destruct u; vm_compute; reflexivity. Qed.
Lemma all_types_complete t : t ∈ all_types.
Proof. eapply list_elem_of_lookup_2, all_types_lookup. Qed.
Lemma all_units_complete u : u ∈ Unit.all_units.
Proof. eapply list_elem_of_lookup_2, all_units_lookup. Qed.

(** A property of every type, or unit, by evaluation over the list of them. *)
Lemma all_types_forall (P : DptType → bool) : forallb P all_types = true → ∀ t, P t = true.
Proof. intros HP t. by eapply forallb_forall, list_elem_of_In, all_types_complete. Qed.
Lemma all_units_forall (P : Unit → bool) : forallb P Unit.all_units = true → ∀ u, P u = true.
Proof. intros HP u. by eapply forallb_forall, list_elem_of_In, all_units_complete. Qed.

Lemma from_repr_discriminant t : from_repr (discriminant t) = Some t.
Proof. destruct t; vm_compute; reflexivity. Qed.
#[global] Instance discriminant_inj : Inj (=) (=) discriminant.
Proof.
  intros t u E. pose proof (from_repr_discriminant t) as Ht.
  rewrite E, from_repr_discriminant in Ht. congruence.
Qed.
#[global] Instance DptType_eq_dec : EqDecision DptType.
Proof.
  intros t u. refine (cast_if (decide (discriminant t = discriminant u))); [by apply (inj discriminant)|congruence].
Defined.
Lemma from_repr_spec n t : from_repr n = Some t ↔ discriminant t = n.
Proof.
  split; [|intros <-; apply from_repr_discriminant]. unfold from_repr, from_repr_in. intros Hf.
  destruct (list_find _ _) as [[i u]|] eqn:El; [|done]. apply list_find_Some in El as (_ & ? & _).
  by injection Hf as <-.
Qed.

Lemma numbers_in_range t : 0 ≤ main t < 65536 ∧ 0 ≤ sub t < 65536 ∧ discriminant t = main t * 100000 + sub t.
Proof.
  assert ((0 <=? discriminant t) && (discriminant t <? 6553600000) && (discriminant t mod 100000 <? 65536) = true) as E
    by (revert t; apply all_types_forall; vm_compute; reflexivity).
  repeat apply andb_prop in E as [E ?]. to_arith. unfold main, sub, as_u16.
  assert (0 ≤ discriminant t / 100000 < 65536) by (split; [apply Z.div_pos|apply Z.div_lt_upper_bound]; lia).
  assert (0 ≤ discriminant t mod 100000) by (apply Z.mod_pos_bound; lia).
  rewrite (Z.mod_small (_ / _)), (Z.mod_small (_ mod _)) by lia.
  split_and!; try lia. pose proof (Z.div_mod (discriminant t) 100000). lia.
Qed.
Lemma checked32_small `{Profile} {E} z : z < 2 ^ 32 → checked32 (E:=E) z = Ok z.
Proof. intros Hz. unfold checked32. by rewrite (proj2 (Z.leb_gt _ _)). Qed.
Lemma from_number_small `{Profile} m s : 0 ≤ m ≤ 42949 → 0 ≤ s < 65536 → from_number m s = Ok (from_repr (m * 100000 + s)).
Proof. intros Hm Hs. unfold from_number. rewrite checked32_small by lia. cbn [mbind outcome_bind]. by rewrite checked32_small by lia. Qed.
Lemma from_number_large `{Profile} m s : 42950 ≤ m < 65536 → 0 ≤ s < 65536 →
  from_number m s = if debug_build then Panic else Ok (from_repr ((m * 100000 + s) mod 2 ^ 32)).
Proof.
  intros Hm Hs. unfold from_number.
  assert (checked32 (m * 100000) = if debug_build then Panic else Ok ((m * 100000) mod 2 ^ 32) :> result Z) as ->.
  { unfold checked32. by rewrite (proj2 (Z.leb_le _ _)) by lia. }
  destruct debug_build; [done|]. cbn [mbind outcome_bind].
  assert (∀ z, 2 ^ 32 ≤ z < 2 * 2 ^ 32 → z mod 2 ^ 32 = z - 2 ^ 32) as Hw.
  { intros z Hz. symmetry. apply (Z.mod_unique_pos _ _ 1); lia. }
  rewrite (Hw (m * 100000)), (Hw (m * 100000 + s)), checked32_small by lia. cbn. by replace (m * 100000 - _ + s) with (m * 100000 + s - 2 ^ 32) by lia.
Qed.
Lemma main_small t : main t ≤ 251.
Proof. apply Z.leb_le. revert t. apply all_types_forall. vm_compute. reflexivity. Qed.
Lemma from_repr_number m s t : 0 ≤ m < 65536 → 0 ≤ s < 65536 → from_repr (m * 100000 + s) = Some t ↔ main t = m ∧ sub t = s.
Proof. intros Hm Hs. rewrite from_repr_spec. destruct (numbers_in_range t) as (? & ? & ->). lia. Qed.
Lemma from_number_spec `{Profile} m s t : 0 ≤ m ≤ 42949 → 0 ≤ s < 65536 →
  from_number m s = Ok (Some t) ↔ main t = m ∧ sub t = s.
Proof.
  intros Hm Hs. rewrite from_number_small, <-from_repr_number by lia. split; [by intros [= ->]|by intros ->].
Qed.
Lemma from_own_number `{Profile} t : from_number (main t) (sub t) = Ok (Some t).
Proof. destruct (numbers_in_range t) as (? & ? & _). pose proof (main_small t). apply from_number_spec; [lia..|done]. Qed.
Lemma number_parts_range s m n : number_parts s = Some (m, n) → 0 ≤ m < 65536 ∧ 0 ≤ n < 65536.
Proof.
  intros ([a b] & _ & (m' & Hm & (n' & Hn & [= <- <-])%bind_Some)%bind_Some)%bind_Some.
  apply parse_uint_range in Hm. apply parse_uint_range in Hn. lia.
Qed.
Lemma parts_of_number t : number_parts (number_str t) = Some (main t, sub t).
Proof.
  destruct (numbers_in_range t) as (Hm & Hs & _). unfold number_parts.
  change (number_str t) with (dec (main t) +:+ String "." (pad0 3 (sub t))). rewrite split_once_app.
  - cbn. rewrite parse_uint_dec by lia. cbn. by rewrite parse_uint_pad0 by lia.
  - destruct (dec_digits (main t)) as [Hd _]; [lia|]. eapply str_all_impl; [|exact Hd]. by apply digit_not.
Qed.
Lemma from_own_str `{Profile} t : from_str (number_str t) = Ok (Some t).
Proof. unfold from_str. rewrite parts_of_number. apply from_own_number. Qed.

(** * Properties *)

(** C33: The numbers of the runtime types identify them: [from_repr] inverts the
    discriminant and the text of a number parses back to its type.  What
    [from_str] answers for any text: nothing, unless its halves around the first
    point are two 16-bit numbers; for main numbers up to 42949 the one type that
    has these two numbers, if there is one.  A main number from 42950 on
    overflows the [u32] the numbers are combined in: a debug build panics, and a
    release build takes the number that is left, so that 42959.27296 is taken
    for an enthalpy. *)
Theorem dpt_numbers_identify `{Profile} :
  (∀ n t, from_repr n = Some t ↔ discriminant t = n) ∧
  (∀ t, from_str (number_str t) = Ok (Some t)) ∧
  (∀ s, number_parts s = None → from_str s = Ok None) ∧
  (∀ s m n, number_parts s = Some (m, n) → m ≤ 42949 →
     ∃ o, from_str s = Ok o ∧ ∀ t, o = Some t ↔ main t = m ∧ sub t = n) ∧
  (∀ s m n, number_parts s = Some (m, n) → 42950 ≤ m →
     from_str s = if debug_build then Panic else Ok (from_repr ((m * 100000 + n) mod 2 ^ 32))) ∧
  from_str "42959.27296" = (if debug_build then Panic else Ok (Some Enthalpy)).
Proof.
  split_and!.
  - apply from_repr_spec.
  - apply from_own_str.
  - intros s Hs. unfold from_str. by rewrite Hs.
  - intros s m n Hs Hm. pose proof (number_parts_range _ _ _ Hs). unfold from_str. rewrite Hs, from_number_small by lia.
    eexists. split; [done|]. intros t. apply from_repr_number; lia.
  - intros s m n Hs Hm. pose proof (number_parts_range _ _ _ Hs). unfold from_str. rewrite Hs. apply from_number_large; lia.
  - unfold from_str. assert (number_parts "42959.27296" = Some (42959, 27296)) as -> by (vm_compute; reflexivity).
    rewrite from_number_large by lia. destruct debug_build; [done|vm_compute; reflexivity].
Qed.

(** Units are identified by their symbols and by their ids: [from_symbol]
    inverts [symbol] and accepts nothing else, and no two units share an id. *)
Theorem units_identify :
  (∀ s u, Unit.from_symbol s = Some u ↔ Unit.symbol u = s) ∧
  (∀ u v, Unit.unit_id u = Unit.unit_id v ↔ u = v).
Proof.
  assert (∀ u, Unit.from_symbol (Unit.symbol u) = Some u) as Hsym by (intros u; destruct u; vm_compute; reflexivity).
  split.
  - intros s u. split; [|intros <-; apply Hsym]. unfold Unit.from_symbol.
    assert (Forall (λ '(k, v), Unit.symbol v = k) Unit.from_symbol_table) as Hall
      by (apply (bool_decide_unpack (Forall (λ '(k, v), Unit.symbol v = k) Unit.from_symbol_table)); vm_compute; exact I).
    induction Hall as [|[k v] tbl Hk Hall IH]; cbn [Unit.match_str]; [done|].
    destruct (String.eqb_spec s k) as [->|]; [by intros [= <-]|done].
  - intros u v. split; [|by intros ->]. intros E.
    assert (forallb (λ u, forallb (λ v, negb (String.eqb (Unit.unit_id u) (Unit.unit_id v)) || bool_decide (u = v))
      Unit.all_units) Unit.all_units = true) as Hall by (vm_compute; reflexivity).
    pose proof (all_units_forall _ Hall u) as Hu. cbn beta in Hu. pose proof (all_units_forall _ Hu v) as Hv.
    cbn beta in Hv. rewrite E, String.eqb_refl in Hv. by apply bool_decide_eq_true in Hv.
Qed.
