(* ===== verification/DptViews.v ===== *)
(** Runtime decoding and encoding of datapoints: the views over received bytes
    ([src/src/protocol/dpt/view.rs]), owned payloads
    ([src/src/protocol/dpt/payload.rs]), [DptType::decode_ref] and
    [DptType::encode] ([src/src/protocol/dpt/dpt_type.rs]) and decoded telegrams
    ([src/src/protocol/dpt/decode.rs]).  A view is a wrapper around the bytes it
    borrows; an accessor indexes them, and would panic on too few. *)
From S2P Require Import Prelude Errors Address Telegram Text Float DptTypes.

(** * Views *)
Definition BoolView : Type := list Z.
Definition BoolView_value (v : BoolView) : result bool := b ← idx v 0; Ok (bit_set b 0x01).
Definition ControlView : Type := list Z.
Definition ControlView_step (v : ControlView) : result bool := b ← idx v 0; Ok (bit_set b 0x08).
Definition ControlView_step_code (v : ControlView) : result Z := b ← idx v 0; Ok (Z.land b 0x07).
Definition Control2View : Type := list Z.
Definition Control2View_control (v : Control2View) : result bool := b ← idx v 0; Ok (bit_set b 0x02).
Definition Control2View_value (v : Control2View) : result bool := b ← idx v 0; Ok (bit_set b 0x01).

Definition U8View : Type := list Z.
Definition U8View_value (v : U8View) : result Z := idx v 0.
Definition U8View_as_f64 (v : U8View) : result float := b ← idx v 0; Ok (f64_of_Z b).
Definition U8View_scaled_percent (v : U8View) : result float :=
  b ← idx v 0; Ok (f64_div (f64_mul (f64_of_Z b) (f64_of_Z 100)) (f64_of_Z 255)).
Definition I8View : Type := list Z.
Definition I8View_value (v : I8View) : result Z := b ← idx v 0; Ok (as_signed 8 b).
Definition I8View_as_f64 (v : I8View) : result float := z ← I8View_value v; Ok (f64_of_Z z).

(** The first [n] bytes as a big-endian number. *)
Definition be_value (n : nat) (v : list Z) : result Z :=
  bytes ← mapM (idx v) (seq 0 n); Ok (from_be bytes).
Definition U16View : Type := list Z.
Definition U16View_value (v : U16View) : result Z := be_value 2 v.
Definition U16View_as_f64 (v : U16View) : result float := z ← U16View_value v; Ok (f64_of_Z z).
Definition I16View : Type := list Z.
Definition I16View_value (v : I16View) : result Z := z ← be_value 2 v; Ok (as_signed 16 z).
Definition I16View_as_f64 (v : I16View) : result float := z ← I16View_value v; Ok (f64_of_Z z).
Definition U32View : Type := list Z.
Definition U32View_value (v : U32View) : result Z := be_value 4 v.
Definition U32View_as_f64 (v : U32View) : result float := z ← U32View_value v; Ok (f64_of_Z z).
Definition I32View : Type := list Z.
Definition I32View_value (v : I32View) : result Z := z ← be_value 4 v; Ok (as_signed 32 z).
Definition I32View_as_f64 (v : I32View) : result float := z ← I32View_value v; Ok (f64_of_Z z).
Definition I64View : Type := list Z.
Definition I64View_value (v : I64View) : result Z := z ← be_value 8 v; Ok (as_signed 64 z).
Definition I64View_as_f64 (v : I64View) : result float := z ← I64View_value v; Ok (f64_of_Z z).

Definition Float2ByteView : Type := list Z.
Definition Float2ByteView_as_f64 (v : Float2ByteView) : result float :=
  b0 ← idx v 0;
  b1 ← idx v 1;
  let raw := Z.lor (as_u16 (Z.shiftl b0 8)) b1 in
  let m := Z.land raw 0x07FF in
  let m := if bit_set raw 0x8000 then m - 2048 else m in
  let e := Z.land (Z.shiftr raw 11) 0x0F in
  Ok (f64_mul (f64_mul (f64_lit 1 2) (f64_of_Z m)) (f64_of_Z (2 ^ e))).
Definition Float4ByteView : Type := list Z.
Definition Float4ByteView_as_f64 (v : Float4ByteView) : result float :=
  bytes ← mapM (idx v) (seq 0 4); Ok (f64_of_f32 (f32_from_be_bytes bytes)).

(** Up to the first NUL; nothing when that is not UTF-8. *)
Fixpoint until_nul (l : list Z) : list Z :=
  match l with
  | [] => []
  | b :: l => if b =? 0 then [] else b :: until_nul l
  end.
Definition StrView : Type := list Z.
Definition StrView_as_str (v : StrView) : string :=
  let text := until_nul v in if utf8_valid text then utf8 text else EmptyString.

Definition TimeView : Type := list Z.
Definition TimeView_day (v : TimeView) : result Z := b ← idx v 0; Ok (Z.land (Z.shiftr b 5) 0x07).
Definition TimeView_hour (v : TimeView) : result Z := b ← idx v 0; Ok (Z.land b 0x1F).
Definition TimeView_minute (v : TimeView) : result Z := b ← idx v 1; Ok (Z.land b 0x3F).
Definition TimeView_second (v : TimeView) : result Z := b ← idx v 2; Ok (Z.land b 0x3F).
Definition DateView : Type := list Z.
Definition DateView_day (v : DateView) : result Z := b ← idx v 0; Ok (Z.land b 0x1F).
Definition DateView_month (v : DateView) : result Z := b ← idx v 1; Ok (Z.land b 0x0F).
Definition DateView_year (v : DateView) : result Z :=
  b ← idx v 2; let y := Z.land b 0x7F in Ok (if 90 <=? y then 1900 + y else 2000 + y).
Definition DateTimeView : Type := list Z.
Definition DateTimeView_year (v : DateTimeView) : result Z := b ← idx v 0; Ok (b + 1900).
Definition DateTimeView_month (v : DateTimeView) : result Z := b ← idx v 1; Ok (Z.land b 0x0F).
Definition DateTimeView_day (v : DateTimeView) : result Z := b ← idx v 2; Ok (Z.land b 0x1F).
Definition DateTimeView_day_of_week (v : DateTimeView) : result Z :=
  b ← idx v 3; Ok (Z.land (Z.shiftr b 5) 0x07).
Definition DateTimeView_hour (v : DateTimeView) : result Z := b ← idx v 3; Ok (Z.land b 0x1F).
Definition DateTimeView_minute (v : DateTimeView) : result Z := b ← idx v 4; Ok (Z.land b 0x3F).
Definition DateTimeView_second (v : DateTimeView) : result Z := b ← idx v 5; Ok (Z.land b 0x3F).
Definition SceneView : Type := list Z.
Definition SceneView_scene_number (v : SceneView) : result Z := b ← idx v 0; Ok (Z.land b 0x3F + 1).
Definition SceneView_learn (v : SceneView) : result bool := b ← idx v 0; Ok (bit_set b 0x80).
Definition EnumView : Type := list Z.
Definition EnumView_value (v : EnumView) : result Z := idx v 0.
Definition RgbView : Type := list Z.
Definition RgbView_r (v : RgbView) : result Z := idx v 0.
Definition RgbView_g (v : RgbView) : result Z := idx v 1.
Definition RgbView_b (v : RgbView) : result Z := idx v 2.
Definition RgbwView : Type := list Z.
Definition RgbwView_r (v : RgbwView) : result Z := idx v 0.
Definition RgbwView_g (v : RgbwView) : result Z := idx v 1.
Definition RgbwView_b (v : RgbwView) : result Z := idx v 2.
Definition RgbwView_w (v : RgbwView) : result Z := idx v 3.
Definition XyyView : Type := list Z.
Definition xyy_coordinate (hi lo : Z) : float := f32_div (f32_of_Z (from_be16 hi lo)) (f32_of_Z 65535).
Definition XyyView_x (v : XyyView) : result float := a ← idx v 0; b ← idx v 1; Ok (xyy_coordinate a b).
Definition XyyView_y (v : XyyView) : result float := a ← idx v 2; b ← idx v 3; Ok (xyy_coordinate a b).
Definition XyyView_brightness (v : XyyView) : result Z := idx v 4.

Module DptView.
Inductive DptView :=
| Bool (v : BoolView) | Control2 (v : Control2View) | Control (v : ControlView)
| U8 (v : U8View) | I8 (v : I8View) | U16 (v : U16View) | I16 (v : I16View)
| Float2Byte (v : Float2ByteView) | U32 (v : U32View) | I32 (v : I32View)
| Float4Byte (v : Float4ByteView) | I64 (v : I64View) | Str (v : StrView)
| Time (v : TimeView) | Date (v : DateView) | DateTime (v : DateTimeView)
| Scene (v : SceneView) | Enum (v : EnumView)
| Rgb (v : RgbView) | Rgbw (v : RgbwView) | Xyy (v : XyyView).
End DptView.
Abbreviation DptView := DptView.DptView.

Definition some {A} (m : result A) : result (option A) := a ← m; Ok (Some a).
Definition DptView_as_f64 (v : DptView) : result (option float) :=
  match v with
  | DptView.Bool v => some (b ← BoolView_value v; Ok (f64_of_Z (if (b : bool) then 1 else 0)))
  | DptView.U8 v => some (U8View_as_f64 v)
  | DptView.I8 v => some (I8View_as_f64 v)
  | DptView.U16 v => some (U16View_as_f64 v)
  | DptView.I16 v => some (I16View_as_f64 v)
  | DptView.Float2Byte v => some (Float2ByteView_as_f64 v)
  | DptView.U32 v => some (U32View_as_f64 v)
  | DptView.I32 v => some (I32View_as_f64 v)
  | DptView.Float4Byte v => some (Float4ByteView_as_f64 v)
  | DptView.I64 v => some (I64View_as_f64 v)
  | DptView.Scene v => some (n ← SceneView_scene_number v; Ok (f64_of_Z n))
  | DptView.Enum v => some (n ← EnumView_value v; Ok (f64_of_Z n))
  | _ => Ok None
  end.
Definition DptView_as_bool (v : DptView) : result (option bool) :=
  match v with DptView.Bool v => some (BoolView_value v) | _ => Ok None end.
Definition DptView_raw (v : DptView) : list Z :=
  match v with
  | DptView.Bool v | DptView.Control2 v | DptView.Control v | DptView.U8 v | DptView.I8 v
  | DptView.U16 v | DptView.I16 v | DptView.Float2Byte v | DptView.U32 v | DptView.I32 v
  | DptView.Float4Byte v | DptView.I64 v | DptView.Str v | DptView.Time v | DptView.Date v
  | DptView.DateTime v | DptView.Scene v | DptView.Enum v | DptView.Rgb v | DptView.Rgbw v
  | DptView.Xyy v => v
  end.

(** * Payloads *)
Module DptPayload.
Inductive DptPayload :=
| Bool (v : bool)
| BinaryControl (control value : bool)
| Control (step : bool) (step_code : Z)
| UnsignedInt (v : Z)
| SignedInt (v : Z)
| Float (v : float)
| String (s : string)
| Time (day hour minute second : Z)
| Date (day month year : Z)
| DateTime (year month day day_of_week hour minute second : Z)
| Scene (n : Z)
| SceneControl (scene : Z) (learn : bool)
| Enum (v : Z)
| ColorRGB (r g b : Z)
| ColorRGBW (r g b w : Z)
| ColorXYY (x y : float) (brightness : Z).
End DptPayload.
Abbreviation DptPayload := DptPayload.DptPayload.

Definition DptPayload_as_f64 (p : DptPayload) : option float :=
  match p with
  | DptPayload.Bool v => Some (f64_of_Z (if v then 1 else 0))
  | DptPayload.UnsignedInt v | DptPayload.SignedInt v => Some (f64_of_Z v)
  | DptPayload.Float v => Some v
  | DptPayload.Scene v | DptPayload.Enum v => Some (f64_of_Z v)
  | _ => None
  end.
Definition DptPayload_as_bool (p : DptPayload) : option bool :=
  match p with DptPayload.Bool v => Some v | _ => None end.
(** [From<DptView>]. *)
Definition DptPayload_from (v : DptView) : result DptPayload :=
  match v with
  | DptView.Bool v => b ← BoolView_value v; Ok (DptPayload.Bool b)
  | DptView.Control2 v =>
      c ← Control2View_control v; b ← Control2View_value v; Ok (DptPayload.BinaryControl c b)
  | DptView.Control v =>
      s ← ControlView_step v; c ← ControlView_step_code v; Ok (DptPayload.Control s c)
  | DptView.U8 v => z ← U8View_value v; Ok (DptPayload.UnsignedInt z)
  | DptView.I8 v => z ← I8View_value v; Ok (DptPayload.SignedInt z)
  | DptView.U16 v => z ← U16View_value v; Ok (DptPayload.UnsignedInt z)
  | DptView.I16 v => z ← I16View_value v; Ok (DptPayload.SignedInt z)
  | DptView.Float2Byte v => x ← Float2ByteView_as_f64 v; Ok (DptPayload.Float x)
  | DptView.U32 v => z ← U32View_value v; Ok (DptPayload.UnsignedInt z)
  | DptView.I32 v => z ← I32View_value v; Ok (DptPayload.SignedInt z)
  | DptView.Float4Byte v => x ← Float4ByteView_as_f64 v; Ok (DptPayload.Float x)
  | DptView.I64 v => z ← I64View_value v; Ok (DptPayload.SignedInt z)
  | DptView.Str v => Ok (DptPayload.String (StrView_as_str v))
  | DptView.Time v =>
      d ← TimeView_day v; h ← TimeView_hour v; m ← TimeView_minute v; s ← TimeView_second v;
      Ok (DptPayload.Time d h m s)
  | DptView.Date v =>
      d ← DateView_day v; m ← DateView_month v; y ← DateView_year v; Ok (DptPayload.Date d m y)
  | DptView.DateTime v =>
      y ← DateTimeView_year v; mo ← DateTimeView_month v; d ← DateTimeView_day v;
      w ← DateTimeView_day_of_week v; h ← DateTimeView_hour v; mi ← DateTimeView_minute v;
      s ← DateTimeView_second v; Ok (DptPayload.DateTime y mo d w h mi s)
  | DptView.Scene v => n ← SceneView_scene_number v; Ok (DptPayload.Scene n)
  | DptView.Enum v => n ← EnumView_value v; Ok (DptPayload.Enum n)
  | DptView.Rgb v => r ← RgbView_r v; g ← RgbView_g v; b ← RgbView_b v; Ok (DptPayload.ColorRGB r g b)
  | DptView.Rgbw v =>
      r ← RgbwView_r v; g ← RgbwView_g v; b ← RgbwView_b v; w ← RgbwView_w v;
      Ok (DptPayload.ColorRGBW r g b w)
  | DptView.Xyy v =>
      x ← XyyView_x v; y ← XyyView_y v; b ← XyyView_brightness v; Ok (DptPayload.ColorXYY x y b)
  end.

(** * Decoding *)
Definition dpt_error {A} (t : DptType) (details : string) : result A :=
  perr (DptError (DptType.number_str t) details).

(** What is indexed for the log alone lies inside the checked length. *)
Definition DptType_decode_ref (t : DptType) (bytes : list Z) : result DptView :=
  let expected_len := DptType.byte_length t in
  if (0 <? expected_len)%nat && negb (length bytes =? expected_len)%nat
  then dpt_error t ("expected " +:+ dec_nat expected_len +:+ " bytes, got " +:+ dec_nat (length bytes))
  else
    match DptType.main t with
    | 1 => Ok (DptView.Bool bytes)
    | 2 => Ok (DptView.Control2 bytes)
    | 3 => Ok (DptView.Control bytes)
    | 5 => Ok (DptView.U8 bytes)
    | 6 => Ok (DptView.I8 bytes)
    | 7 => Ok (DptView.U16 bytes)
    | 8 => Ok (DptView.I16 bytes)
    | 9 => Ok (DptView.Float2Byte bytes)
    | 10 => Ok (DptView.Time bytes)
    | 11 => Ok (DptView.Date bytes)
    | 12 => Ok (DptView.U32 bytes)
    | 13 => Ok (DptView.I32 bytes)
    | 14 => Ok (DptView.Float4Byte bytes)
    | 16 => Ok (DptView.Str bytes)
    | 17 => Ok (DptView.Scene bytes)
    | 18 => Ok (DptView.Scene bytes)
    | 19 => Ok (DptView.DateTime bytes)
    | 20 => Ok (DptView.Enum bytes)
    | 29 => Ok (DptView.I64 bytes)
    | 232 => Ok (DptView.Rgb bytes)
    | 235 =>
        if (8 <=? length bytes)%nat then (v ← slice bytes 0 8; Ok (DptView.I64 v))
        else dpt_error t "insufficient bytes for DPT 235"
    | 242 => Ok (DptView.Xyy bytes)
    | 251 => Ok (DptView.Rgbw bytes)
    | _ => dpt_error t "unsupported DPT main number"
    end.

(** * Encoding *)

(** [m.abs()] of an [i32]: the least one has no absolute value, which a debug
    build reports and a release build leaves as it is. *)
Definition abs_i32 `{Profile} (m : Z) : result Z :=
  if m =? - 2 ^ 31 then (if debug_build then Panic else Ok m) else Ok (Z.abs m).
(** [while m.abs() > 2047 { m >>= 1; e += 1 }]. *)
Fixpoint shift_mantissa `{Profile} (fuel : nat) (m e : Z) : result (Z * Z) :=
  a ← abs_i32 m;
  if 2047 <? a then
    match fuel with
    | O => Panic
    | S fuel => shift_mantissa fuel (Z.shiftr m 1) (e + 1)
    end
  else Ok (m, e).
(** The 21 shifts that bring any [i32] below 2048 are the most there are. *)
Definition SHIFT_FUEL : nat := 21.
Definition encode_float2 `{Profile} (v : float) : result (list Z) :=
  '(m, e) ← shift_mantissa SHIFT_FUEL (as_i32 (f64_mul v (f64_of_Z 100))) 0;
  let sign := if m <? 0 then 0x8000 else 0 in
  let m := if m <? 0 then Z.lor (as_u16 (Z.land (m + 2048) 0x07FF)) 0x8000 else as_u16 (Z.land m 0x07FF) in
  let raw := Z.lor (Z.lor sign (as_u16 (Z.shiftl (Z.land (as_u16 e) 0x0F) 11))) (Z.land m 0x07FF) in
  Ok (to_be 2 raw).
Definition saturating_pred (n : Z) : Z := 0 `max` (n - 1).
(** The position of a variant, which [Discriminant] prints. *)
Definition DptPayload_variant (p : DptPayload) : Z :=
  match p with
  | DptPayload.Bool _ => 0 | DptPayload.BinaryControl _ _ => 1 | DptPayload.Control _ _ => 2
  | DptPayload.UnsignedInt _ => 3 | DptPayload.SignedInt _ => 4 | DptPayload.Float _ => 5
  | DptPayload.String _ => 6 | DptPayload.Time _ _ _ _ => 7 | DptPayload.Date _ _ _ => 8
  | DptPayload.DateTime _ _ _ _ _ _ _ => 9 | DptPayload.Scene _ => 10 | DptPayload.SceneControl _ _ => 11
  | DptPayload.Enum _ => 12 | DptPayload.ColorRGB _ _ _ => 13 | DptPayload.ColorRGBW _ _ _ _ => 14
  | DptPayload.ColorXYY _ _ _ => 15
  end.

Definition DptType_encode `{Profile} (t : DptType) (payload : DptPayload) : result (list Z) :=
  match DptType.main t, payload with
  | 1, DptPayload.Bool v => Ok [bool_u8 v]
  | 2, DptPayload.BinaryControl control value =>
      Ok [Z.lor (if control then 0x02 else 0) (bool_u8 value)]
  | 3, DptPayload.Control step step_code => Ok [Z.lor (if step then 0x08 else 0) (Z.land step_code 0x07)]
  | 5, DptPayload.UnsignedInt v => Ok [as_u8 v]
  | 6, DptPayload.SignedInt v => Ok [as_u8 v]
  | 7, DptPayload.UnsignedInt v => Ok (to_be 2 v)
  | 8, DptPayload.SignedInt v => Ok (to_be 2 v)
  | 9, DptPayload.Float v => encode_float2 v
  | 10, DptPayload.Time day hour minute second =>
      Ok [Z.lor (as_u8 (Z.shiftl day 5)) (Z.land hour 0x1F); Z.land minute 0x3F; Z.land second 0x3F]
  | 11, DptPayload.Date day month year =>
      if (1990 <=? year) && (year <=? 2089) then
        let y := if 2000 <=? year then as_u8 (year - 2000) else as_u8 (year - 1900) in
        Ok [Z.land day 0x1F; Z.land month 0x0F; Z.land y 0x7F]
      else dpt_error t ("year " +:+ dec year +:+ " out of range 1990-2089 for DPT 11")
  | 19, DptPayload.DateTime year month day day_of_week hour minute second =>
      if (1900 <=? year) && (year <=? 2155) then
        Ok [as_u8 (year - 1900); Z.land month 0x0F; Z.land day 0x1F;
            Z.lor (as_u8 (Z.shiftl (Z.land day_of_week 0x07) 5)) (Z.land hour 0x1F);
            Z.land minute 0x3F; Z.land second 0x3F; 0x00; 0x00]
      else dpt_error t ("year " +:+ dec year +:+ " out of range 1900-2155 for DPT 19")
  | 12, DptPayload.UnsignedInt v => Ok (to_be 4 v)
  | 13, DptPayload.SignedInt v => Ok (to_be 4 v)
  | 14, DptPayload.Float v => Ok (f32_to_be_bytes (f32_of_f64 v))
  | 16, DptPayload.String s =>
      let text := take 14 (str_bytes s) in Ok (text ++ replicate (14 - length text) 0)
  | 17, DptPayload.Scene n => Ok [Z.land (saturating_pred n) 0x3F]
  | 18, DptPayload.SceneControl scene learn =>
      Ok [Z.lor (if learn then 0x80 else 0) (Z.land (saturating_pred scene) 0x3F)]
  | 20, DptPayload.Enum v => Ok [v]
  | 29, DptPayload.SignedInt v => Ok (to_be 8 v)
  | 232, DptPayload.ColorRGB r g b => Ok [r; g; b]
  | 242, DptPayload.ColorXYY x y brightness =>
      let xr := float_as_u16 (f32_mul x (f32_of_Z 65535)) in
      let yr := float_as_u16 (f32_mul y (f32_of_Z 65535)) in
      Ok (to_be16 xr ++ to_be16 yr ++ [brightness; 0x03])
  | 251, DptPayload.ColorRGBW r g b w => Ok [r; g; b; w; 0x00; 0x0F]
  | _, _ =>
      dpt_error t ("cannot encode Discriminant(" +:+ dec (DptPayload_variant payload) +:+ ") for DPT "
        +:+ DptType.number_str t)
  end.

(** * Decoded telegrams *)
Record DecodedTelegram := MkDecodedTelegram {
  dec_source : IndividualAddress;
  dec_destination : GroupAddress;
  dec_telegram_type : TelegramType;
  dec_dpt : DptType;
  dec_view : DptView;
  dec_group_name : option string;
}.
Definition DecodedTelegram_raw (d : DecodedTelegram) : list Z := DptView_raw (dec_view d).
Definition DecodedTelegram_numeric (d : DecodedTelegram) : result (option float) := DptView_as_f64 (dec_view d).
Definition DecodedTelegram_unit (d : DecodedTelegram) : option Unit := DptType.unit (dec_dpt d).
Definition DecodedTelegram_to_owned_payload (d : DecodedTelegram) : result DptPayload :=
  DptPayload_from (dec_view d).
Definition DecodedTelegram_is_write (d : DecodedTelegram) : bool :=
  bool_decide (dec_telegram_type d = GroupValueWrite).
Definition DecodedTelegram_is_response (d : DecodedTelegram) : bool :=
  bool_decide (dec_telegram_type d = GroupValueResponse).
Definition DecodedTelegram_is_read (d : DecodedTelegram) : bool :=
  bool_decide (dec_telegram_type d = GroupValueRead).
Definition decode_telegram (telegram : Telegram) (dpt : DptType) (group_name : option string)
    : result DecodedTelegram :=
  match destination telegram with
  | Group destination =>
      view ← DptType_decode_ref dpt (payload telegram);
      Ok (MkDecodedTelegram (source telegram) destination (telegram_type telegram) dpt view group_name)
  | _ => dpt_error dpt "telegram destination is not a group address"
  end.

(** * Lemmas *)

(** The payload a client gets of received bytes. *)
Definition runtime_decode (t : DptType) (bytes : list Z) : result DptPayload :=
  v ← DptType_decode_ref t bytes; DptPayload_from v.

(** The main numbers of the types, and the length each has. *)
Definition MAINS : list Z := [1; 2; 3; 5; 6; 7; 8; 9; 10; 11; 12; 13; 14; 16; 17; 18; 19; 20; 29; 232; 235; 242; 251].
Definition main_length (m : Z) : nat :=
  match m with
  | 1 | 2 | 3 | 5 | 6 | 17 | 18 | 20 => 1
  | 7 | 8 | 9 => 2
  | 10 | 11 | 232 => 3
  | 12 | 13 | 14 => 4
  | 16 => 14
  | 19 | 29 => 8
  | _ => 6
  end.
Lemma main_cases t : DptType.main t ∈ MAINS ∧ DptType.byte_length t = main_length (DptType.main t).
Proof.
  assert (bool_decide (DptType.main t ∈ MAINS) && (DptType.byte_length t =? main_length (DptType.main t))%nat = true)
    as [Hm Hl]%andb_prop by (revert t; apply all_types_forall; vm_compute; reflexivity).
  split; [by apply bool_decide_eq_true in Hm|by apply Nat.eqb_eq in Hl].
Qed.

(** Splits on the main number of a type, and on the bytes of its length. *)
Ltac main_split Hm :=
  unfold MAINS in Hm; rewrite ?elem_of_cons, ?elem_of_nil in Hm;
  repeat (destruct Hm as [Hm|Hm]); [..|done]; rewrite Hm in *.
Lemma length_S {A} (l : list A) n : length l = S n → ∃ x k, l = x :: k ∧ length k = n.
Proof. destruct l as [|x k]; [done|]. intros [= <-]. by exists x, k. Qed.
Ltac bytes_split Hl :=
  repeat (apply length_S in Hl as (? & ? & -> & Hl)); apply nil_length_inv in Hl as ->.

Lemma decode_ref_ok t bytes :
  length bytes = DptType.byte_length t → DptType.main t ≠ 235 →
  ∃ v p, DptType_decode_ref t bytes = Ok v ∧ DptView_raw v = bytes ∧ DptPayload_from v = Ok p.
Proof.
  intros Hl Hne. destruct (main_cases t) as [Hm El]. unfold DptType_decode_ref. rewrite Hl, Nat.eqb_refl, andb_false_r.
  rewrite El in Hl. clear El. main_split Hm; cbn [main_length] in Hl; bytes_split Hl; try done; by eexists _, _.
Qed.
Lemma decode_ref_refuses t bytes :
  length bytes ≠ DptType.byte_length t ∨ DptType.main t = 235 →
  ∃ details, DptType_decode_ref t bytes = dpt_error t details.
Proof.
  intros Hl. destruct (main_cases t) as [Hm El]. unfold DptType_decode_ref.
  destruct (Nat.eqb_spec (length bytes) (DptType.byte_length t)) as [E|E]; cycle 1.
  { rewrite El. eexists. rewrite (proj2 (Nat.ltb_lt _ _)); [done|]. main_split Hm; cbn; lia. }
  destruct Hl as [|Hl]; [done|]. rewrite El, Hl in E. rewrite Hl, andb_false_r. cbn in E. rewrite E. by eexists.
Qed.

Lemma land_idem a m : Z.land (Z.land a m) m = Z.land a m.
Proof. by rewrite <-Z.land_assoc, Z.land_diag. Qed.
Lemma first_bytes_run n (v : list Z) : length v = n → mapM (idx (E:=KnxError) v) (seq 0 n) = Ok v.
Proof.
  intros <-. assert (∀ l, mapM (idx (E:=KnxError) (l ++ v)) (seq (length l) (length v)) = Ok v) as E; [|apply (E [])].
  induction v as [|b v IH]; intros l; [done|]. cbn [length seq mapM]. rewrite idx_app_0. cbn [mbind outcome_bind].
  specialize (IH (l ++ [b])). rewrite <-app_assoc, length_app, Nat.add_1_r in IH. cbn [app] in IH. by rewrite IH.
Qed.
Lemma be_value_run n v : length v = n → be_value n v = Ok (from_be v).
Proof. intros Hl. unfold be_value. by rewrite first_bytes_run. Qed.
Lemma to_be_as_signed n bits z : 256 ^ Z.of_nat n = 2 ^ bits → to_be n (as_signed bits z) = to_be n z.
Proof.
  intros E. unfold as_signed. case_match; [done|]. rewrite <-E.
  replace (z - 256 ^ Z.of_nat n) with (z + -1 * 256 ^ Z.of_nat n) by lia. by apply to_be_add.
Qed.
Lemma be_bytes n v : length v = n → bytes_ok v → to_be n (from_be v) = v.
Proof. intros <- Hv. by apply to_be_from_be. Qed.

(** The view of a type with a main number. *)
Definition view_of (m : Z) (bytes : list Z) : DptView :=
  match m with
  | 1 => DptView.Bool bytes | 2 => DptView.Control2 bytes | 3 => DptView.Control bytes
  | 5 => DptView.U8 bytes | 6 => DptView.I8 bytes | 7 => DptView.U16 bytes | 8 => DptView.I16 bytes
  | 9 => DptView.Float2Byte bytes | 10 => DptView.Time bytes | 11 => DptView.Date bytes
  | 12 => DptView.U32 bytes | 13 => DptView.I32 bytes | 14 => DptView.Float4Byte bytes
  | 16 => DptView.Str bytes | 17 | 18 => DptView.Scene bytes | 19 => DptView.DateTime bytes
  | 20 => DptView.Enum bytes | 29 => DptView.I64 bytes | 232 => DptView.Rgb bytes
  | 242 => DptView.Xyy bytes | _ => DptView.Rgbw bytes
  end.
Lemma runtime_decode_view t bytes :
  length bytes = main_length (DptType.main t) → DptType.main t ≠ 235 →
  DptType_decode_ref t bytes = Ok (view_of (DptType.main t) bytes) ∧
  runtime_decode t bytes = DptPayload_from (view_of (DptType.main t) bytes).
Proof.
  intros Hl Hne. assert (DptType_decode_ref t bytes = Ok (view_of (DptType.main t) bytes)) as E.
  { destruct (main_cases t) as [Hm El]. unfold DptType_decode_ref. rewrite El, Hl, Nat.eqb_refl, andb_false_r.
    main_split Hm; done. }
  split; [done|]. unfold runtime_decode. by rewrite E.
Qed.
Lemma runtime_decode_length t bytes p :
  runtime_decode t bytes = Ok p → length bytes = main_length (DptType.main t) ∧ DptType.main t ≠ 235.
Proof.
  intros Hd. destruct (main_cases t) as [_ El]. rewrite <-El.
  destruct (decide (length bytes = DptType.byte_length t ∧ DptType.main t ≠ 235)) as [|Hn]; [done|].
  destruct (decode_ref_refuses t bytes) as [d E].
  { destruct (decide (length bytes = DptType.byte_length t)); [right|by left].
    destruct (decide (DptType.main t = 235)); [done|tauto]. }
  unfold runtime_decode in Hd. by rewrite E in Hd.
Qed.

(** ** Encoding what was decoded *)
Lemma until_nul_le l : (length (until_nul l) ≤ length l)%nat.
Proof. induction l as [|b l IH]; cbn; [lia|]. case_match; cbn; lia. Qed.
Lemma until_nul_ok l : bytes_ok l → bytes_ok (until_nul l).
Proof. induction 1 as [|b l Hb _ IH]; cbn; [constructor|]. case_match; by constructor. Qed.
Lemma until_nul_zeros l k : until_nul (until_nul l ++ replicate k 0) = until_nul l.
Proof.
  induction l as [|b l IH]; cbn; [by destruct k|]. destruct (b =? 0) eqn:E; [by destruct k|].
  cbn. by rewrite E, IH.
Qed.
Lemma as_str_stable v :
  bytes_ok v → (length v ≤ 14)%nat →
  let text := take 14 (str_bytes (StrView_as_str v)) in
  StrView_as_str (text ++ replicate (14 - length text) 0) = StrView_as_str v ∧
  length (text ++ replicate (14 - length text) 0) = 14%nat.
Proof.
  intros Hv Hl. cbv zeta. split; [|rewrite length_app, length_replicate, length_take; lia].
  unfold StrView_as_str at 2 3 4. destruct (utf8_valid (until_nul v)) eqn:E; [|done].
  rewrite str_bytes_utf8 by by apply until_nul_ok. pose proof (until_nul_le v).
  rewrite take_ge by lia. unfold StrView_as_str. by rewrite until_nul_zeros, E.
Qed.

Section encode.
Context `{Profile}.
Implicit Types (t : DptType) (p : DptPayload) (bytes : list Z).

(** [bytes'] encodes what [bytes] decode to, and decodes to it. *)
Definition recodes t bytes bytes' : Prop :=
  ∃ p, runtime_decode t bytes = Ok p ∧ DptType_encode t p = Ok bytes' ∧ runtime_decode t bytes' = Ok p.
Lemma recodes_intro t bytes bytes' p :
  length bytes = main_length (DptType.main t) → length bytes' = main_length (DptType.main t) →
  DptType.main t ≠ 235 → DptPayload_from (view_of (DptType.main t) bytes) = Ok p →
  DptType_encode t p = Ok bytes' → DptPayload_from (view_of (DptType.main t) bytes') = Ok p →
  recodes t bytes bytes'.
Proof.
  intros Hl Hl' Hne Hp He Hp'. exists p. destruct (runtime_decode_view t bytes Hl Hne) as [_ ->].
  by destruct (runtime_decode_view t bytes' Hl' Hne) as [_ ->].
Qed.

(** The fields of a masked byte, by evaluation. *)
Lemma control_byte b : u8_ok b →
  let c := Z.lor (if bit_set b 0x08 then 0x08 else 0) (Z.land (Z.land b 0x07) 0x07) in
  bit_set c 0x08 = bit_set b 0x08 ∧ Z.land c 0x07 = Z.land b 0x07.
Proof.
  intros Hb. exhaust 256%positive (λ b, let c := Z.lor (if bit_set b 0x08 then 0x08 else 0) (Z.land (Z.land b 0x07) 0x07) in
    bit_set c 0x08 = bit_set b 0x08 ∧ Z.land c 0x07 = Z.land b 0x07) b Hb.
Qed.
Lemma signed_byte b : u8_ok b → as_u8 (as_signed 8 b) = b.
Proof. intros Hb. exhaust 256%positive (λ b, as_u8 (as_signed 8 b) = b) b Hb. Qed.
Lemma scene_byte b : u8_ok b → Z.land (saturating_pred (Z.land b 0x3F + 1)) 0x3F = Z.land b 0x3F.
Proof. intros Hb. exhaust 256%positive (λ b, Z.land (saturating_pred (Z.land b 0x3F + 1)) 0x3F = Z.land b 0x3F) b Hb. Qed.
Lemma day_hour_byte b : u8_ok b →
  Z.lor (as_u8 (Z.shiftl (Z.land (Z.shiftr b 5) 0x07) 5)) (Z.land (Z.land b 0x1F) 0x1F) = b.
Proof.
  intros Hb. exhaust 256%positive (λ b,
    Z.lor (as_u8 (Z.shiftl (Z.land (Z.shiftr b 5) 0x07) 5)) (Z.land (Z.land b 0x1F) 0x1F) = b) b Hb.
Qed.
Definition view_year (b : Z) : Z := let y := Z.land b 0x7F in if 90 <=? y then 1900 + y else 2000 + y.
Definition year_byte (year : Z) : Z :=
  Z.land (if 2000 <=? year then as_u8 (year - 2000) else as_u8 (year - 1900)) 0x7F.
Lemma year_recodes b : u8_ok b →
  (1990 <=? view_year b) && (view_year b <=? 2089) = true ∧ view_year (year_byte (view_year b)) = view_year b.
Proof.
  intros Hb. exhaust 256%positive (λ b, (1990 <=? view_year b) && (view_year b <=? 2089) = true ∧
    view_year (year_byte (view_year b)) = view_year b) b Hb.
Qed.

(** Types whose decoded payload can be encoded again, and those of them whose
    every bit is part of the value. *)
Definition LOSSLESS : list Z := [5; 6; 7; 8; 12; 13; 20; 29; 232].
Definition NOT_RECODED : list Z := [9; 18; 235; 242].

(** Leaves the encoding, the decoding of the result and the lossless case. *)
Ltac recode_as Hm b :=
  exists b; split;
  [eapply recodes_intro; rewrite ?Hm; [done|try done|done|reflexivity|unfold DptType_encode; rewrite Hm|]|].
Ltac lossy := intros Hin; exfalso; revert Hin; apply (bool_decide_unpack _); exact I.
Section numbers.
Context (t : DptType) (bytes : list Z) (Hb : bytes_ok bytes).

Lemma recode_same p :
  length bytes = main_length (DptType.main t) → DptType.main t ≠ 235 →
  DptPayload_from (view_of (DptType.main t) bytes) = Ok p → DptType_encode t p = Ok bytes →
  ∃ bytes', recodes t bytes bytes' ∧ (DptType.main t ∈ LOSSLESS → bytes' = bytes).
Proof. intros Hl Hne Hp He. exists bytes. split; [by eapply recodes_intro|done]. Qed.

Lemma recode_unsigned m n : DptType.main t = m → (m, n) ∈ [(7, 2%nat); (12, 4%nat)] → length bytes = n →
  ∃ bytes', recodes t bytes bytes' ∧ (m ∈ LOSSLESS → bytes' = bytes).
Proof.
  intros <- Hin Hl. apply (recode_same (DptPayload.UnsignedInt (from_be bytes))); unfold DptType_encode;
    rewrite !elem_of_cons, elem_of_nil in Hin; destruct Hin as [[= -> ->]|[[= -> ->]|[]]]; try done.
  all: try (cbn [view_of DptPayload_from]; unfold U16View_value, U32View_value; by rewrite be_value_run).
  all: by rewrite be_bytes.
Qed.
Lemma recode_signed m n bits : DptType.main t = m → (m, n, bits) ∈ [(8, 2%nat, 16); (13, 4%nat, 32); (29, 8%nat, 64)] →
  length bytes = n → ∃ bytes', recodes t bytes bytes' ∧ (m ∈ LOSSLESS → bytes' = bytes).
Proof.
  intros <- Hin Hl. apply (recode_same (DptPayload.SignedInt (as_signed bits (from_be bytes)))); unfold DptType_encode;
    rewrite !elem_of_cons, elem_of_nil in Hin; destruct Hin as [[= -> -> ->]|[[= -> -> ->]|[[= -> -> ->]|[]]]]; try done.
  all: try (cbn [view_of DptPayload_from]; unfold I16View_value, I32View_value, I64View_value; by rewrite be_value_run).
  all: by rewrite to_be_as_signed, be_bytes.
Qed.
End numbers.

Lemma recode_one t b : u8_ok b → DptType.main t ∈ [1; 2; 3; 5; 6; 17; 20] →
  ∃ bytes', recodes t [b] bytes' ∧ (DptType.main t ∈ LOSSLESS → bytes' = [b]).
Proof.
  intros Hb Hm. main_split Hm.
  - recode_as Hm [bool_u8 (bit_set b 0x01)]; [done|by destruct (bit_set b 0x01)|lossy].
  - recode_as Hm [Z.lor (if bit_set b 0x02 then 0x02 else 0) (bool_u8 (bit_set b 0x01))];
      [done|by destruct (bit_set b 0x02), (bit_set b 0x01)|lossy].
  - destruct (control_byte b Hb) as [E1 E2].
    recode_as Hm [Z.lor (if bit_set b 0x08 then 0x08 else 0) (Z.land (Z.land b 0x07) 0x07)]; [done| |lossy].
    cbn [view_of DptPayload_from]. unfold ControlView_step, ControlView_step_code. cbn [idx lookup list_lookup mbind outcome_bind].
    by rewrite E1, E2.
  - recode_as Hm [b]; [by rewrite as_u8_small|done|done].
  - recode_as Hm [b]; [by rewrite signed_byte|done|done].
  - recode_as Hm [Z.land b 0x3F]; [by rewrite scene_byte| |lossy].
    cbn [view_of DptPayload_from]. unfold SceneView_scene_number. cbn [idx lookup list_lookup mbind outcome_bind].
    by rewrite land_idem.
  - recode_as Hm [b]; done.
Qed.

Ltac reads := cbn [view_of DptPayload_from]; cbv [TimeView_day TimeView_hour TimeView_minute TimeView_second
    DateView_day DateView_month DateView_year DateTimeView_year DateTimeView_month DateTimeView_day
    DateTimeView_day_of_week DateTimeView_hour DateTimeView_minute DateTimeView_second];
  cbn [idx lookup list_lookup mbind outcome_bind].
Lemma recode_time t b0 b1 b2 : DptType.main t = 10 → bytes_ok [b0; b1; b2] →
  recodes t [b0; b1; b2] [b0; Z.land b1 0x3F; Z.land b2 0x3F].
Proof.
  intros Hm [H0 _]%Forall_cons. eapply recodes_intro; rewrite ?Hm; [done|done|done|reflexivity| |].
  - unfold DptType_encode. rewrite Hm. by rewrite day_hour_byte, !land_idem by done.
  - reads. by rewrite !land_idem.
Qed.
Lemma recode_date t b0 b1 b2 : DptType.main t = 11 → bytes_ok [b0; b1; b2] →
  recodes t [b0; b1; b2] [Z.land b0 0x1F; Z.land b1 0x0F; year_byte (view_year b2)].
Proof.
  intros Hm [H0 [H1 [H2 _]%Forall_cons]%Forall_cons]%Forall_cons. destruct (year_recodes b2 H2) as [Er Ey].
  eapply recodes_intro; rewrite ?Hm; [done|done|done|reflexivity| |].
  - unfold DptType_encode. rewrite Hm. fold (view_year b2). rewrite Er, !land_idem. done.
  - reads. fold (view_year b2). fold (view_year (year_byte (view_year b2))). by rewrite Ey, !land_idem.
Qed.
Lemma recode_datetime t b0 b1 b2 b3 b4 b5 b6 b7 : DptType.main t = 19 → bytes_ok [b0; b1; b2; b3; b4; b5; b6; b7] →
  recodes t [b0; b1; b2; b3; b4; b5; b6; b7]
    [b0; Z.land b1 0x0F; Z.land b2 0x1F; b3; Z.land b4 0x3F; Z.land b5 0x3F; 0; 0].
Proof.
  intros Hm Hb. assert (u8_ok b0 ∧ u8_ok b3) as [H0 H3].
  { repeat match goal with H : bytes_ok _ |- _ => apply Forall_cons in H as [? H] | H : Forall _ (_ :: _) |- _ =>
      apply Forall_cons in H as [? H] end. done. }
  eapply recodes_intro; rewrite ?Hm; [done|done|done|reflexivity| |].
  - unfold DptType_encode. rewrite Hm. unfold u8_ok in H0.
    rewrite (proj2 (Z.leb_le 1900 (b0 + 1900))), (proj2 (Z.leb_le (b0 + 1900) 2155)) by lia. cbn [andb].
    rewrite !land_idem. replace (b0 + 1900 - 1900) with b0 by lia. rewrite as_u8_small by done.
    pose proof (day_hour_byte b3 H3) as E. rewrite land_idem in E. by rewrite E.
  - reads. by rewrite !land_idem.
Qed.
Lemma recode_float4 t bytes : DptType.main t = 14 → length bytes = 4%nat →
  recodes t bytes (f32_to_be_bytes (f32_from_be_bytes bytes)).
Proof.
  intros Hm Hl. set (x := f32_from_be_bytes bytes).
  assert (f32_valid x) as Hv by apply f32_from_bits_valid.
  assert (∀ v, length v = 4%nat → DptPayload_from (DptView.Float4Byte v) = Ok (DptPayload.Float (f64_of_f32 (f32_from_be_bytes v))))
    as Hd by (intros v Hv4; cbn [DptPayload_from]; unfold Float4ByteView_as_f64; by rewrite first_bytes_run).
  eapply recodes_intro; rewrite ?Hm; [done|apply length_to_be|done|by apply Hd| |].
  - unfold DptType_encode. rewrite Hm. by rewrite f32_f64_roundtrip.
  - cbn [view_of]. rewrite Hd by apply length_to_be. by rewrite f32_bytes_roundtrip.
Qed.
Lemma recode_text t bytes : DptType.main t = 16 → length bytes = 14%nat → bytes_ok bytes →
  recodes t bytes (let text := take 14 (str_bytes (StrView_as_str bytes)) in text ++ replicate (14 - length text) 0).
Proof.
  intros Hm Hl Hb. destruct (as_str_stable bytes Hb) as [E El]; [lia|].
  eapply recodes_intro; rewrite ?Hm; [done|exact El|done|reflexivity|by unfold DptType_encode; rewrite Hm|].
  cbn [view_of DptPayload_from]. by rewrite E.
Qed.

Lemma recode t bytes :
  bytes_ok bytes → length bytes = main_length (DptType.main t) → DptType.main t ∉ NOT_RECODED →
  ∃ bytes', recodes t bytes bytes' ∧ (DptType.main t ∈ LOSSLESS → bytes' = bytes).
Proof.
  intros Hb Hl Hn. destruct (main_cases t) as [Hm _].
  assert (∀ b, bytes = [b] → DptType.main t ∈ [1; 2; 3; 5; 6; 17; 20] →
    ∃ bytes', recodes t bytes bytes' ∧ (DptType.main t ∈ LOSSLESS → bytes' = bytes)) as H1
    by (intros b ->; apply Forall_cons in Hb as [Hb _]; by apply recode_one).
  main_split Hm; try (by destruct Hn; apply (bool_decide_unpack _)); cbn [main_length] in Hl.
  all: try (pose proof Hl as Hl'; bytes_split Hl'; eapply H1; [done|by apply (bool_decide_unpack _)]).
  - apply (recode_unsigned t bytes Hb 7 2); [done|by apply (bool_decide_unpack _)|done].
  - apply (recode_signed t bytes Hb 8 2 16); [done|by apply (bool_decide_unpack _)|done].
  - bytes_split Hl. eexists. split; [by apply recode_time|lossy].
  - bytes_split Hl. eexists. split; [by apply recode_date|lossy].
  - apply (recode_unsigned t bytes Hb 12 4); [done|by apply (bool_decide_unpack _)|done].
  - apply (recode_signed t bytes Hb 13 4 32); [done|by apply (bool_decide_unpack _)|done].
  - eexists. split; [by apply recode_float4|lossy].
  - eexists. split; [by apply recode_text|lossy].
  - bytes_split Hl. eexists. split; [by apply recode_datetime|lossy].
  - apply (recode_signed t bytes Hb 29 8 64); [done|by apply (bool_decide_unpack _)|done].
  - bytes_split Hl. match goal with |- ∃ _, recodes _ ?bs _ ∧ _ => recode_as Hm bs end; done.
  - bytes_split Hl. match goal with |- ∃ _, recodes _ [?r; ?g; ?b; ?w; _; _] _ ∧ _ =>
      recode_as Hm [r; g; b; w; 0; 0x0F] end; [done|done|lossy].
Qed.
End encode.

(** ** The 2-byte float *)

(** A word of DPT 9: sign, exponent and the low eleven bits of the mantissa;
    and what it stands for, in units of 0.01. *)
Definition float2_word (s e m : Z) : Z := s * 0x8000 + e * 0x800 + m.
Definition word_mantissa (raw : Z) : Z :=
  let m := Z.land raw 0x07FF in if bit_set raw 0x8000 then m - 2048 else m.
Definition word_exponent (raw : Z) : Z := Z.land (Z.shiftr raw 11) 0x0F.

Lemma land_2047 x : Z.land x 0x07FF = x mod 2048.
Proof. by apply (land_low x 11). Qed.
Lemma float2_pack s e m : s = 0 ∨ s = 1 → 0 ≤ e < 16 → 0 ≤ m < 2048 →
  Z.lor (Z.lor (s * 0x8000) (Z.shiftl e 11)) m = float2_word s e m.
Proof.
  intros Hs He Hm. replace (s * 0x8000) with (Z.shiftl (s * 16) 11) by by destruct Hs as [-> | ->].
  rewrite <-Z.shiftl_lor, lor_shiftl_add by lia.
  assert (∀ e, 0 ≤ e < 16 → Z.lor (1 * 16) e = 16 + e) as E
    by (intros e' He'; exhaust 16%positive (λ e, Z.lor (1 * 16) e = 16 + e) e' He').
  unfold float2_word. change (2 ^ 11) with 2048.
  destruct Hs as [-> | ->]; [change (0 * 16) with 0; rewrite Z.lor_0_l|rewrite E by done]; lia.
Qed.
Lemma float2_word_fields s e m : s = 0 ∨ s = 1 → 0 ≤ e < 16 → 0 ≤ m < 2048 →
  word_exponent (float2_word s e m) = e ∧
  word_mantissa (float2_word s e m) = (if s =? 1 then m - 2048 else m) ∧ 0 ≤ float2_word s e m < 65536.
Proof.
  intros Hs He Hm. unfold word_exponent, word_mantissa, bit_set.
  rewrite land_2047, land_15, shiftr_11.
  replace (Z.land (float2_word s e m) 32768 =? 0) with (negb (s =? 1)).
  - split_and!; unfold float2_word; destruct Hs as [-> | ->]; cbn [Z.eqb Pos.eqb negb]; zlia.
  - change 32768 with (2 ^ 15). symmetry.
    assert (Z.testbit (float2_word s e m) 15 = (s =? 1)) as Ht.
    { rewrite Z.testbit_eqb by done. unfold float2_word.
      destruct Hs as [-> | ->]; cbn [Z.eqb Pos.eqb]; [apply Z.eqb_neq|apply Z.eqb_eq]; zlia. }
    rewrite <-Ht. destruct (Z.testbit (float2_word s e m) 15) eqn:E; cbn [negb].
    + apply Z.eqb_neq. intros Hz. apply (f_equal (λ z, Z.testbit z 15)) in Hz.
      rewrite Z.land_spec, E, Z.pow2_bits_true, Z.bits_0 in Hz; [done|lia].
    + apply Z.eqb_eq, Z.bits_inj'. intros i Hi. rewrite Z.land_spec, Z.bits_0, Z.pow2_bits_eqb by done.
      destruct (Z.eqb_spec 15 i) as [<-|]; [by rewrite E|apply andb_false_r].
Qed.

Section float2.
Context `{Profile}.

Lemma abs_i32_run m : m ≠ - 2 ^ 31 → abs_i32 m = Ok (Z.abs m).
Proof. intros Hm. unfold abs_i32. by rewrite (proj2 (Z.eqb_neq _ _)). Qed.
(** The loop ends after the least number of shifts that is enough. *)
Lemma shift_mantissa_run fuel m e :
  - 2 ^ 31 < m → - 2 ^ (Z.of_nat fuel + 10) ≤ m < 2 ^ (Z.of_nat fuel + 11) →
  ∃ k : Z, 0 ≤ k ≤ Z.of_nat fuel ∧ shift_mantissa fuel m e = Ok (Z.shiftr m k, e + k) ∧
    Z.abs (Z.shiftr m k) ≤ 2047 ∧ ∀ j, 0 ≤ j < k → 2047 < Z.abs (Z.shiftr m j).
Proof.
  revert m e. induction fuel as [|fuel IH]; intros m e H0 Hm; cbn [shift_mantissa]; rewrite abs_i32_run by lia;
    cbn [mbind outcome_bind]; destruct (Z.ltb_spec 2047 (Z.abs m)) as [Hl|Hl].
  - cbn in Hm. lia.
  - exists 0. rewrite Z.shiftr_0_r, Z.add_0_r. split_and!; [lia|lia|done|lia|lia].
  - rewrite Nat2Z.inj_succ, !Z.add_succ_l, !Z.pow_succ_r in Hm by lia.
    assert (Z.shiftr m 1 = m / 2) as E by by apply Z.shiftr_div_pow2.
    destruct (IH (Z.shiftr m 1) (e + 1)) as (k & Hk & Hr & Ha & Hj); [rewrite E; zlia..|].
    exists (k + 1). rewrite Z.shiftr_shiftr in Hr, Ha by lia. rewrite (Z.add_comm k 1), Hr.
    split_and!; [lia|lia|by rewrite Z.add_assoc|done|]. intros j Hj'.
    destruct (decide (j = 0)) as [->|Hne]; [by rewrite Z.shiftr_0_r|].
    specialize (Hj (j - 1)). rewrite Z.shiftr_shiftr in Hj by lia. replace (1 + (j - 1)) with j in Hj by lia.
    apply Hj. lia.
  - exists 0. rewrite Z.shiftr_0_r, Z.add_0_r. split_and!; [lia|lia|done|lia|lia].
Qed.
Lemma as_i32_range x : - 2 ^ 31 ≤ as_i32 x < 2 ^ 31.
Proof. unfold as_i32, float_as_int. destruct x as [[]|[]| |]; lia. Qed.
Lemma encode_float2_word v m k :
  shift_mantissa SHIFT_FUEL (as_i32 (f64_mul v (f64_of_Z 100))) 0 = Ok (m, k) → 0 ≤ k → Z.abs m ≤ 2047 →
  ∃ raw, encode_float2 v = Ok (to_be 2 raw) ∧ word_mantissa raw = m ∧ word_exponent raw = k mod 16.
Proof.
  intros Hr Hk Hm. unfold encode_float2. rewrite Hr. cbn [mbind outcome_bind].
  assert (0 ≤ k mod 16 < 16) as He by by apply Z.mod_pos_bound.
  assert (as_u16 (Z.shiftl (Z.land (as_u16 k) 0x0F) 11) = Z.shiftl (k mod 16) 11) as Ee.
  { rewrite land_15. unfold as_u16. rewrite Z.mod_mod_divide by by exists 4096.
    rewrite Z.shiftl_mul_pow2 by done. apply Z.mod_small. lia. }
  rewrite Ee. destruct (Z.ltb_spec m 0) as [Hn|Hn].
  - assert (Z.land (Z.lor (as_u16 (Z.land (m + 2048) 0x07FF)) 0x8000) 0x07FF = m + 2048) as Em.
    { rewrite (land_2047 (m + 2048)), (Z.mod_small (m + 2048)) by lia. unfold as_u16. rewrite Z.mod_small by lia.
      rewrite Z.land_lor_distr_l, land_2047, Z.mod_small by lia. apply Z.lor_0_r. }
    rewrite Em. change 0x8000 with (1 * 0x8000). rewrite float2_pack by lia. eexists. split; [done|].
    destruct (float2_word_fields 1 (k mod 16) (m + 2048)) as (-> & -> & _); [lia..|]. cbn. lia.
  - assert (Z.land (as_u16 (Z.land m 0x07FF)) 0x07FF = m) as Em.
    { rewrite !land_2047. unfold as_u16. by rewrite !(Z.mod_small m) by lia. }
    rewrite Em. change 0 with (0 * 0x8000). rewrite float2_pack by lia. eexists. split; [done|].
    destruct (float2_word_fields 0 (k mod 16) m) as (-> & -> & _); [lia..|]. cbn. lia.
Qed.
End float2.

(** * Properties *)

(** C35: Runtime decoding of any bytes: exactly the payloads of the type's length
    decode, to a view of those bytes from which every accessor reads; any other
    is refused with an error that names the type.  DPT 235 is refused whatever
    the length. *)
Theorem decode_ref_exact t bytes :
  (length bytes = DptType.byte_length t ∧ DptType.main t ≠ 235 ∧
     ∃ v p, DptType_decode_ref t bytes = Ok v ∧ DptView_raw v = bytes ∧ DptPayload_from v = Ok p) ∨
  ((length bytes ≠ DptType.byte_length t ∨ DptType.main t = 235) ∧
     ∃ details, DptType_decode_ref t bytes = perr (DptError (DptType.number_str t) details)).
Proof.
  destruct (decide (length bytes = DptType.byte_length t)) as [Hl|Hl];
    [destruct (decide (DptType.main t = 235)) as [Hm|Hm]|].
  - right. split; [by right|]. apply decode_ref_refuses. by right.
  - left. split_and!; [done|done|]. by apply decode_ref_ok.
  - right. split; [by left|]. apply decode_ref_refuses. by left.
Qed.

(** C34: Decoding and encoding again: for every type but those of DPT 9, 18, 235
    and 242, what bytes of the right length decode to is encoded, to bytes that
    decode to the same payload; and to the same bytes where every bit belongs to
    the value. *)
Theorem runtime_recode `{Profile} t bytes :
  bytes_ok bytes → length bytes = DptType.byte_length t → DptType.main t ∉ NOT_RECODED →
  ∃ p bytes', runtime_decode t bytes = Ok p ∧ DptType_encode t p = Ok bytes' ∧
    runtime_decode t bytes' = Ok p ∧ (DptType.main t ∈ LOSSLESS → bytes' = bytes).
Proof.
  intros Hb Hl Hn. destruct (main_cases t) as [_ El]. rewrite El in Hl.
  destruct (recode t bytes Hb Hl Hn) as (bytes' & (p & Hd & He & Hd') & Hs). by exists p, bytes'.
Qed.

(** The loop of the 2-byte float encoder terminates: from every [i32] but the
    least one it ends within 21 shifts, after as few as bring the mantissa to
    eleven bits and a sign, and the word carries that mantissa and the number
    of shifts modulo 16.  On the least [i32] (values up to -21474836.48) a debug
    build panics and a release build writes the word of -20.48. *)
Theorem encode_float2_terminates `{Profile} v :
  let m := as_i32 (f64_mul v (f64_of_Z 100)) in
  (m = - 2 ^ 31 → encode_float2 v = if debug_build then Panic else Ok [0x80; 0x00]) ∧
  (m ≠ - 2 ^ 31 → ∃ k raw, 0 ≤ k ≤ 21 ∧ Z.abs (Z.shiftr m k) ≤ 2047 ∧
     (∀ j, 0 ≤ j < k → 2047 < Z.abs (Z.shiftr m j)) ∧
     encode_float2 v = Ok (to_be 2 raw) ∧ word_mantissa raw = Z.shiftr m k ∧ word_exponent raw = k mod 16).
Proof.
  cbv zeta. pose proof (as_i32_range (f64_mul v (f64_of_Z 100))) as Hr. split.
  - intros E. unfold encode_float2. rewrite E. unfold SHIFT_FUEL. cbn [shift_mantissa]. unfold abs_i32.
    rewrite Z.eqb_refl. by destruct debug_build.
  - intros Hne. destruct (shift_mantissa_run SHIFT_FUEL (as_i32 (f64_mul v (f64_of_Z 100))) 0) as (k & Hk & Hs & Ha & Hj);
      [lia|change (Z.of_nat SHIFT_FUEL) with 21; lia|].
    rewrite Z.add_0_l in Hs. destruct (encode_float2_word v _ k Hs) as (raw & He & Hm & Hx); [lia|done|].
    exists k, raw. split; [unfold SHIFT_FUEL in Hk; lia|]. by split_and!.
Qed.

(** What the runtime encoder does to values the decoder reads: the word of
    0.29 becomes the word of 0.28, the word of -671088.64, the least value of
    the range, becomes that of -10.24, and no payload of DPT 18 is encoded. *)
Theorem runtime_encode_differs `{Profile} :
  (∃ p, runtime_decode DptType.Temperature [0x00; 0x1D] = Ok p ∧
        DptType_encode DptType.Temperature p = Ok [0x00; 0x1C]) ∧
  (∃ p, runtime_decode DptType.Temperature [0xF8; 0x00] = Ok p ∧
        DptType_encode DptType.Temperature p = Ok [0x84; 0x00]) ∧
  (∀ bytes p, runtime_decode DptType.SceneControl bytes = Ok p →
     ∃ details, DptType_encode DptType.SceneControl p = perr (DptError "18.001" details)).
Proof.
  split_and!.
  - exists (DptPayload.Float (S754_finite false 5224175567749775 (-54))). split; vm_compute; reflexivity.
  - exists (DptPayload.Float (S754_finite true 5764607523034235 (-33))). split; vm_compute; reflexivity.
  - intros bytes p Hd. destruct (runtime_decode_length _ _ _ Hd) as [Hl _]. cbn in Hl. bytes_split Hl.
    cbn in Hd. injection Hd as <-. by eexists.
Qed.

(** ** Witnesses *)
#[local] Instance views_release : Profile := {| debug_build := false |}.
Lemma runtime_recode_witness : ∃ p bytes',
  runtime_decode DptType.TimeOfDay [0x2C; 0xDE; 15] = Ok p ∧
  DptType_encode DptType.TimeOfDay p = Ok bytes' ∧ runtime_decode DptType.TimeOfDay bytes' = Ok p.
Proof.
  destruct (runtime_recode DptType.TimeOfDay [0x2C; 0xDE; 15]) as (p & bytes' & H1 & H2 & H3 & _).
  - by apply (bool_decide_unpack (Forall (λ b, 0 ≤ b < 256) [0x2C; 0xDE; 15])).
  - reflexivity.
  - by apply (bool_decide_unpack (DptType.main DptType.TimeOfDay ∉ NOT_RECODED)).
  - exists p, bytes'. exact (conj H1 (conj H2 H3)).
Defined.
Lemma encode_float2_terminates_witness : ∃ k raw, 0 ≤ k ≤ 21 ∧
  encode_float2 (f64_lit 215 1) = Ok (to_be 2 raw) ∧ word_mantissa raw = Z.shiftr 2150 k.
Proof.
  destruct (encode_float2_terminates (f64_lit 215 1)) as [_ Ht].
  destruct Ht as (k & raw & Hk & _ & _ & He & Hm & _); [vm_compute; congruence|].
  exists k, raw. split; [exact Hk|]. split; [exact He|exact Hm].
Defined.
Lemma runtime_encode_differs_witness : ∃ details,
  DptType_encode DptType.SceneControl (DptPayload.Scene 6) = perr (DptError "18.001" details).
Proof. destruct runtime_encode_differs as (_ & _ & Hs). exact (Hs [0x85] (DptPayload.Scene 6) eq_refl). Defined.
