(* ===== verification/DptText.v ===== *)
(** Datapoint values as text ([src/src/protocol/dpt/view.rs],
    [src/src/protocol/dpt/payload.rs]): [formatted] of views and payloads, and
    [DptType::parse], which reads such texts back. *)
From S2P Require Import Prelude Errors Text Float DptTypes DptViews.

(** The [Debug] text of a string, whose escapes depend on the Unicode tables;
    error texts quote the input with it. *)
Class DebugText := { str_debug : string → string }.

(** A double quote. *)
Definition QUOTE : string := String (ascii_of_nat 34) EmptyString.

(** * Formatting *)
Definition bool_label (value : bool) (dpt : DptType) : string :=
  match dpt with
  | DptType.Switch => if value then "On" else "Off"
  | DptType.Enable => if value then "Enable" else "Disable"
  | DptType.Ramp => if value then "Ramp" else "No Ramp"
  | DptType.Alarm => if value then "Alarm" else "No Alarm"
  | DptType.BinaryValue => if value then "High" else "Low"
  | DptType.Step => if value then "Increase" else "Decrease"
  | DptType.UpDown => if value then "Down" else "Up"
  | DptType.OpenClose | DptType.WindowDoor => if value then "Open" else "Closed"
  | DptType.Start => if value then "Start" else "Stop"
  | DptType.State => if value then "Active" else "Inactive"
  | DptType.Invert => if value then "Inverted" else "Not Inverted"
  | DptType.DimSendStyle => if value then "Cyclically" else "Start/Stop"
  | DptType.InputSource => if value then "Calculated" else "Fixed"
  | DptType.Reset => if value then "Reset" else "No Action"
  | DptType.Ack => if value then "Acknowledge" else "No Action"
  | DptType.Trigger => if value then "Trigger" else "Trigger 0"
  | DptType.Occupancy => if value then "Occupied" else "Not Occupied"
  | DptType.LogicalFunction => if value then "And" else "Or"
  | DptType.SceneAB => if value then "Scene B" else "Scene A"
  | DptType.ShutterBlindsMode => if value then "Step/Stop Mode" else "Up/Down Mode"
  | DptType.DayNight => if value then "Night" else "Day"
  | DptType.HeatCool => if value then "Heat" else "Cool"
  | DptType.ConsumerProducer => if value then "Producer" else "Consumer"
  | DptType.EnergyDirection => if value then "Negative" else "Positive"
  | _ => if value then "True" else "False"
  end.
Definition control2_underlying (dpt : DptType) : DptType :=
  match dpt with
  | DptType.SwitchControl => DptType.Switch
  | DptType.EnableControl => DptType.Enable
  | DptType.RampControl => DptType.Ramp
  | DptType.AlarmControl => DptType.Alarm
  | DptType.BinaryValueControl => DptType.BinaryValue
  | DptType.StepControl => DptType.Step
  | DptType.Direction1Control | DptType.Direction2Control => DptType.UpDown
  | DptType.StartControl => DptType.Start
  | DptType.StateControl => DptType.State
  | DptType.InvertControl => DptType.Invert
  | _ => DptType.Bool
  end.
Definition format_enum (value : Z) (dpt : DptType) : string :=
  match dpt with
  | DptType.HVACMode =>
      match value with
      | 0 => "Auto" | 1 => "Comfort" | 2 => "Standby" | 3 => "Economy"
      | 4 => "Building Protection"
      | _ => "HVAC Mode " +:+ dec value
      end
  | DptType.HVACContrMode =>
      match value with
      | 0 => "Auto" | 1 => "Heat" | 2 => "Morning Warmup" | 3 => "Cool" | 4 => "Night Purge"
      | 5 => "Precool" | 6 => "Off" | 7 => "Test" | 8 => "Emergency Heat" | 9 => "Fan Only"
      | 10 => "Free Cool" | 11 => "Ice" | 12 => "Maximum Heating Mode"
      | 13 => "Economic Heat/Cool Mode" | 14 => "Dehumidification" | 15 => "Calibration Mode"
      | 16 => "Emergency Cool Mode" | 17 => "Emergency Steam Mode" | 20 => "No Demand"
      | _ => "HVAC Controller Mode " +:+ dec value
      end
  | _ => "Enum(" +:+ dec value +:+ ")"
  end.

Definition format_bool (value : bool) (dpt : DptType) : string := bool_label value dpt.
Definition format_control2 (value : bool) (dpt : DptType) : string := bool_label value (control2_underlying dpt).
Definition format_numeric (value : float) (dpt : DptType) : string :=
  let whole := SFeqb value (f64_floor value) in
  let text := if whole then dec (as_i64 value) else float_fixed 1 value in
  match DptType.unit dpt with
  | Some unit => text +:+ " " +:+ Unit.symbol unit
  | None => text
  end.
Definition weekday_name (day : Z) : option string :=
  match day with
  | 1 => Some "Monday" | 2 => Some "Tuesday" | 3 => Some "Wednesday" | 4 => Some "Thursday"
  | 5 => Some "Friday" | 6 => Some "Saturday" | 7 => Some "Sunday" | _ => None
  end.
Definition with_weekday (base : string) (day : Z) : string :=
  match weekday_name day with Some name => base +:+ " (" +:+ name +:+ ")" | None => base end.
Definition bool_text (b : bool) : string := if b then "true" else "false".
Definition date_text (year month day : Z) : string := pad0 4 year +:+ "-" +:+ pad0 2 month +:+ "-" +:+ pad0 2 day.
Definition time_text (hour minute second : Z) : string :=
  pad0 2 hour +:+ ":" +:+ pad0 2 minute +:+ ":" +:+ pad0 2 second.

Definition DptView_formatted (v : DptView) (dpt : DptType) : result string :=
  let numeric (m : result float) := x ← m; Ok (format_numeric x dpt) in
  match v with
  | DptView.Bool v => b ← BoolView_value v; Ok (format_bool b dpt)
  | DptView.Control2 v =>
      c ← Control2View_control v; b ← Control2View_value v;
      Ok ("Control(" +:+ bool_text c +:+ ", " +:+ format_control2 b dpt +:+ ")")
  | DptView.Control v =>
      s ← ControlView_step v; c ← ControlView_step_code v;
      Ok ("Control(" +:+ (if (s : bool) then "increase" else "decrease") +:+ ", step=" +:+ dec c +:+ ")")
  | DptView.U8 v => numeric (U8View_as_f64 v)
  | DptView.I8 v => numeric (I8View_as_f64 v)
  | DptView.U16 v => numeric (U16View_as_f64 v)
  | DptView.I16 v => numeric (I16View_as_f64 v)
  | DptView.Float2Byte v => numeric (Float2ByteView_as_f64 v)
  | DptView.U32 v => numeric (U32View_as_f64 v)
  | DptView.I32 v => numeric (I32View_as_f64 v)
  | DptView.Float4Byte v => numeric (Float4ByteView_as_f64 v)
  | DptView.I64 v => numeric (I64View_as_f64 v)
  | DptView.Str v => Ok (StrView_as_str v)
  | DptView.Time v =>
      h ← TimeView_hour v; m ← TimeView_minute v; s ← TimeView_second v; d ← TimeView_day v;
      Ok (with_weekday (time_text h m s) d)
  | DptView.Date v =>
      y ← DateView_year v; m ← DateView_month v; d ← DateView_day v; Ok (date_text y m d)
  | DptView.DateTime v =>
      y ← DateTimeView_year v; mo ← DateTimeView_month v; d ← DateTimeView_day v;
      h ← DateTimeView_hour v; mi ← DateTimeView_minute v; s ← DateTimeView_second v;
      w ← DateTimeView_day_of_week v;
      Ok (with_weekday (date_text y mo d +:+ " " +:+ time_text h mi s) w)
  | DptView.Scene v =>
      n ← SceneView_scene_number v;
      match dpt with
      | DptType.SceneControl =>
          l ← SceneView_learn v;
          Ok ("Scene " +:+ dec n +:+ " (" +:+ (if (l : bool) then "learn" else "activate") +:+ ")")
      | _ => Ok ("Scene " +:+ dec n)
      end
  | DptView.Enum v => n ← EnumView_value v; Ok (format_enum n dpt)
  | DptView.Rgb v =>
      r ← RgbView_r v; g ← RgbView_g v; b ← RgbView_b v;
      Ok ("RGB(" +:+ dec r +:+ ", " +:+ dec g +:+ ", " +:+ dec b +:+ ")")
  | DptView.Rgbw v =>
      r ← RgbwView_r v; g ← RgbwView_g v; b ← RgbwView_b v; w ← RgbwView_w v;
      Ok ("RGBW(" +:+ dec r +:+ ", " +:+ dec g +:+ ", " +:+ dec b +:+ ", " +:+ dec w +:+ ")")
  | DptView.Xyy v =>
      x ← XyyView_x v; y ← XyyView_y v; b ← XyyView_brightness v;
      Ok ("XYY(" +:+ float_fixed 3 x +:+ ", " +:+ float_fixed 3 y +:+ ", " +:+ dec b +:+ ")")
  end.

Definition DptPayload_formatted (p : DptPayload) (unit : option Unit) : string :=
  let unit_str := match unit with Some u => Unit.symbol u | None => EmptyString end in
  let with_unit (text : string) := if String.eqb unit_str EmptyString then text else text +:+ " " +:+ unit_str in
  match p with
  | DptPayload.Bool true => "On"
  | DptPayload.Bool false => "Off"
  | DptPayload.Float v => with_unit (float_fixed 1 v)
  | DptPayload.UnsignedInt v | DptPayload.SignedInt v => with_unit (dec v)
  | DptPayload.String s => s
  | DptPayload.Scene n => "Scene " +:+ dec n
  | DptPayload.SceneControl scene learn =>
      "Scene " +:+ dec scene +:+ " (" +:+ (if learn then "learn" else "activate") +:+ ")"
  | DptPayload.Enum v => "Enum(" +:+ dec v +:+ ")"
  | DptPayload.BinaryControl control value =>
      "Control(" +:+ (if control then "active" else "inactive") +:+ ", " +:+ dec (bool_u8 value) +:+ ")"
  | DptPayload.Control step step_code =>
      "Control(" +:+ (if step then "increase" else "decrease") +:+ ", " +:+ dec step_code +:+ ")"
  | DptPayload.Time day hour minute second => time_text hour minute second +:+ " (day " +:+ dec day +:+ ")"
  | DptPayload.Date day month year => date_text year month day
  | DptPayload.DateTime year month day _ hour minute second =>
      date_text year month day +:+ " " +:+ time_text hour minute second
  | DptPayload.ColorRGB r g b => "RGB(" +:+ dec r +:+ ", " +:+ dec g +:+ ", " +:+ dec b +:+ ")"
  | DptPayload.ColorRGBW r g b w =>
      "RGBW(" +:+ dec r +:+ ", " +:+ dec g +:+ ", " +:+ dec b +:+ ", " +:+ dec w +:+ ")"
  | DptPayload.ColorXYY x y brightness =>
      "XYY(" +:+ float_fixed 3 x +:+ ", " +:+ float_fixed 3 y +:+ ", " +:+ dec brightness +:+ ")"
  end.
Definition DptPayload_display (p : DptPayload) : string := DptPayload_formatted p None.
Definition DecodedTelegram_formatted (d : DecodedTelegram) : result string :=
  p ← DptPayload_from (dec_view d); Ok (DptPayload_formatted p (DptType.unit (dec_dpt d))).

(** * Parsing *)
Definition parse_u8_text := parse_uint 255.
Definition parse_bool (s : string) (dpt : DptType) : option bool :=
  let lower := to_ascii_lowercase s in
  if String.eqb lower (to_ascii_lowercase (bool_label true dpt)) then Some true
  else if String.eqb lower (to_ascii_lowercase (bool_label false dpt)) then Some false
  else Unit.match_str [("true", true); ("1", true); ("on", true); ("yes", true);
                       ("false", false); ("0", false); ("off", false); ("no", false)] lower.
Definition parse_control3 (s : string) : option DptPayload :=
  let lower := to_ascii_lowercase (trim s) in
  if String.eqb lower "stop" || String.eqb lower "break" then Some (DptPayload.Control false 0)
  else
    match split_once_whitespace lower with
    | Some (word, rest) =>
        step ← Unit.match_str [("increase", true); ("up", true); ("decrease", false); ("down", false)] word;
        step_code ← parse_u8_text (trim rest);
        guard (step_code ≤ 7);; Some (DptPayload.Control step step_code)
    | None =>
        n ← parse_int (-128) 127 lower;
        let step_code := Z.abs n in
        guard (step_code ≤ 7);; Some (DptPayload.Control (0 <=? n) step_code)
    end.
(** [f64::MAX]. *)
Definition F64_MAX : float := S754_finite false (2 ^ 53 - 1) 971.
Definition int_range (main : Z) : float * float :=
  let range lo hi := (f64_of_Z lo, f64_of_Z hi) in
  match main with
  | 5 => range 0 255
  | 6 => range (-128) 127
  | 7 => range 0 65535
  | 8 => range (-32768) 32767
  | 12 => range 0 4294967295
  | 13 => range (-2147483648) 2147483647
  | _ => (SFopp F64_MAX, F64_MAX)
  end.
Definition parse_number (s : string) (dpt : DptType) : option float :=
  let s := match DptType.unit dpt with
           | Some unit => match strip_suffix (Unit.symbol unit) s with Some t => trim t | None => s end
           | None => s
           end in
  parse_f64 (trim s).
Definition weekday_number (name : string) : option Z :=
  snd <$> list_find (λ d, weekday_name d = Some name) [1; 2; 3; 4; 5; 6; 7].
Definition split_weekday_suffix (s : string) : string * Z :=
  match rfind "(" s with
  | Some open =>
      match find ")" (str_drop open s) with
      | Some close_offset =>
          let name := trim (str_take (close_offset - 1) (str_drop (open + 1) s)) in
          match weekday_number name with
          | Some day => (trim (str_take open s), day)
          | None => (trim s, 0)
          end
      | None => (trim s, 0)
      end
  | None => (trim s, 0)
  end.
(** Hours, minutes and seconds. *)
Definition parse_clock (s : string) : option (Z * Z * Z) :=
  match splitn3 ":" s with
  | [h; m; sec] =>
      hour ← parse_u8_text (trim h);
      minute ← parse_u8_text (trim m);
      second ← parse_u8_text (trim sec);
      guard (¬ (23 < hour ∨ 59 < minute ∨ 59 < second));; Some (hour, minute, second)
  | _ => None
  end.
Definition parse_time (s : string) : option DptPayload :=
  let '(time_part, day) := split_weekday_suffix s in
  '(hour, minute, second) ← parse_clock time_part;
  Some (DptPayload.Time day hour minute second).
(** The fields of a [DptPayload::Date]. *)
Definition parse_date_parts (s : string) : option (Z * Z * Z) :=
  match splitn3 "-" (trim s) with
  | [y; m; d] =>
      year ← parse_uint 65535 y;
      month ← parse_u8_text m;
      day ← parse_u8_text d;
      guard (1 ≤ month ≤ 12 ∧ 1 ≤ day ≤ 31);; Some (day, month, year)
  | _ => None
  end.
Definition parse_date (s : string) : option DptPayload :=
  '(day, month, year) ← parse_date_parts s; Some (DptPayload.Date day month year).
Definition parse_datetime (s : string) : option DptPayload :=
  let '(main_part, day_of_week) := split_weekday_suffix s in
  '(date_part, time_part) ← split_once " " main_part;
  '(day, month, year) ← parse_date_parts date_part;
  '(hour, minute, second) ← parse_clock (trim time_part);
  Some (DptPayload.DateTime year month day day_of_week hour minute second).
Definition parse_scene_number (s : string) : option Z :=
  let s := trim s in
  let digits := match strip_prefix "Scene " s with
                | Some t => t
                | None => match strip_prefix "scene " s with Some t => t | None => s end
                end in
  n ← parse_u8_text (trim digits);
  guard (1 ≤ n ≤ 64);; Some n.
Definition parse_scene_control (s : string) : option DptPayload :=
  let s := trim s in
  let split := t ← strip_suffix ")" s; i ← rfind "(" t;
               Some (str_take i t, to_ascii_lowercase (trim (str_drop (i + 1) t))) in
  let '(num_part, learn) := match split with
                            | Some (num_part, mode) => (trim num_part, String.eqb mode "learn")
                            | None => (s, false)
                            end in
  scene ← parse_scene_number num_part;
  Some (DptPayload.SceneControl scene learn).
Definition HVAC_MODES : list (string * Z) :=
  [("auto", 0); ("comfort", 1); ("standby", 2); ("economy", 3); ("building protection", 4)].
Definition HVAC_CONTR_MODES : list (string * Z) :=
  [("auto", 0); ("heat", 1); ("morning warmup", 2); ("cool", 3); ("night purge", 4);
   ("precool", 5); ("off", 6); ("test", 7); ("emergency heat", 8); ("fan only", 9);
   ("free cool", 10); ("ice", 11); ("maximum heating mode", 12); ("economic heat/cool mode", 13);
   ("dehumidification", 14); ("calibration mode", 15); ("emergency cool mode", 16);
   ("emergency steam mode", 17); ("no demand", 20)].
Definition parse_enum (s : string) (dpt : DptType) : option Z :=
  match parse_u8_text (trim s) with
  | Some n => Some n
  | None =>
      let lower := to_ascii_lowercase (trim s) in
      match dpt with
      | DptType.HVACMode => Unit.match_str HVAC_MODES lower
      | DptType.HVACContrMode => Unit.match_str HVAC_CONTR_MODES lower
      | _ => None
      end
  end.
Definition strip_wrapper (s prefix : string) : string :=
  let s := trim s in
  default s (t ← strip_prefix prefix s; strip_suffix ")" t).
(** [hex.get(a..a + 2)], which does not parse where it cuts a character. *)
Definition hex_pair (hex : string) (a : nat) : option Z :=
  guard (a + 2 ≤ String.length hex)%nat;; parse_hex 255 (str_take 2 (str_drop a hex)).
Definition comma_parts (s : string) : list string := trim <$> str_split "," s.
Definition parse_rgb (s : string) : option DptPayload :=
  let inner := strip_wrapper s "RGB(" in
  match strip_prefix "#" inner with
  | Some hex =>
      r ← hex_pair hex 0; g ← hex_pair hex 2; b ← hex_pair hex 4; Some (DptPayload.ColorRGB r g b)
  | None =>
      match comma_parts inner with
      | [r; g; b] =>
          r ← parse_u8_text r; g ← parse_u8_text g; b ← parse_u8_text b; Some (DptPayload.ColorRGB r g b)
      | _ => None
      end
  end.
Definition parse_rgbw (input : string) : option DptPayload :=
  let inner := strip_wrapper input "RGBW(" in
  match strip_prefix "#" inner with
  | Some hex =>
      red ← hex_pair hex 0; green ← hex_pair hex 2; blue ← hex_pair hex 4; white ← hex_pair hex 6;
      Some (DptPayload.ColorRGBW red green blue white)
  | None =>
      match comma_parts inner with
      | [red; green; blue; white] =>
          r ← parse_u8_text red; g ← parse_u8_text green; b ← parse_u8_text blue; w ← parse_u8_text white;
          Some (DptPayload.ColorRGBW r g b w)
      | _ => None
      end
  end.
Definition parse_xyy (s : string) : option DptPayload :=
  let inner := strip_wrapper s "XYY(" in
  match comma_parts inner with
  | [x; y; brightness] =>
      x ← parse_f32 x; y ← parse_f32 y; b ← parse_u8_text brightness; Some (DptPayload.ColorXYY x y b)
  | _ => None
  end.

Section parse.
Context `{DebugText}.

Definition cannot_parse (s what : string) : string := "cannot parse " +:+ str_debug s +:+ " as " +:+ what.
Definition DptType_parse_payload (t : DptType) (s : string) : result DptPayload :=
  let bad (details : string) := Protocol (DptError (DptType.number_str t) details) in
  let or_bad (o : option DptPayload) (what : string) := ok_or o (bad (cannot_parse s what)) in
  match DptType.main t with
  | 1 => or_bad (DptPayload.Bool <$> parse_bool s t) "a boolean"
  | 2 =>
      value ← ok_or (parse_bool s (control2_underlying t)) (bad (cannot_parse s "a boolean"));
      Ok (DptPayload.BinaryControl true value)
  | 3 => or_bad (parse_control3 s)
           ("a control step (try " +:+ QUOTE +:+ "increase 3" +:+ QUOTE +:+ ", " +:+ QUOTE +:+ "decrease 3"
             +:+ QUOTE +:+ ", or " +:+ QUOTE +:+ "stop" +:+ QUOTE +:+ ")")
  | 5 | 6 | 7 | 8 | 12 | 13 =>
      value ← ok_or (parse_number s t) (bad (cannot_parse s "a number"));
      let '(min, max) := int_range (DptType.main t) in
      if SFltb value min || SFltb max value
      then Err (bad (f64_display value +:+ " out of range " +:+ f64_display min +:+ "..=" +:+ f64_display max))
      else if bool_decide (DptType.main t ∈ [6; 8; 13])
      then Ok (DptPayload.SignedInt (as_i64 value))
      else Ok (DptPayload.UnsignedInt (float_as_u64 value))
  | 9 =>
      let min := f64_lit (-67108864) 2 in
      let max := f64_lit 67076096 2 in
      value ← ok_or (parse_number s t) (bad (cannot_parse s "a number"));
      if negb (contains min max value)
      then Err (bad (f64_display value +:+ " out of range " +:+ f64_display min +:+ "..=" +:+ f64_display max))
      else Ok (DptPayload.Float value)
  | 14 =>
      value ← ok_or (parse_number s t) (bad (cannot_parse s "a number"));
      if is_finite value && negb (is_finite (f32_of_f64 value))
      then Err (bad (f64_display value +:+ " out of range for a 4-byte float"))
      else Ok (DptPayload.Float value)
  | 29 => or_bad (DptPayload.SignedInt <$> parse_int (- 2 ^ 63) (2 ^ 63 - 1) s) "an integer"
  | 10 => or_bad (parse_time s) ("a time (expected " +:+ QUOTE +:+ "HH:MM:SS" +:+ QUOTE +:+ ")")
  | 11 => or_bad (parse_date s) ("a date (expected " +:+ QUOTE +:+ "YYYY-MM-DD" +:+ QUOTE +:+ ")")
  | 19 => or_bad (parse_datetime s)
            ("a date/time (expected " +:+ QUOTE +:+ "YYYY-MM-DD HH:MM:SS" +:+ QUOTE +:+ ")")
  | 16 =>
      if (14 <? String.length s)%nat
      then Err (bad ("string too long for DPT 16 (max 14 bytes, got " +:+ dec_nat (String.length s) +:+ ")"))
      else Ok (DptPayload.String s)
  | 17 => or_bad (DptPayload.Scene <$> parse_scene_number s) "a scene number (1-64)"
  | 18 => or_bad (parse_scene_control s) "a scene control value"
  | 20 => or_bad (DptPayload.Enum <$> parse_enum s t) "an enum value"
  | 232 => or_bad (parse_rgb s)
             ("RGB (try " +:+ QUOTE +:+ "RGB(r, g, b)" +:+ QUOTE +:+ " or " +:+ QUOTE +:+ "#RRGGBB" +:+ QUOTE +:+ ")")
  | 242 => or_bad (parse_xyy s) ("XYY (try " +:+ QUOTE +:+ "XYY(x, y, brightness)" +:+ QUOTE +:+ ")")
  | 251 => or_bad (parse_rgbw s)
             ("RGBW (try " +:+ QUOTE +:+ "RGBW(r, g, b, w)" +:+ QUOTE +:+ " or " +:+ QUOTE +:+ "#RRGGBBWW"
               +:+ QUOTE +:+ ")")
  | _ => Err (bad "unsupported DPT main number")
  end.
Definition DptType_parse `{Profile} (t : DptType) (input : string) : result (list Z) :=
  payload ← DptType_parse_payload t (trim input);
  DptType_encode t payload.
End parse.

(** * Lemmas *)

(** ** Numbers with units *)
Definition unit_suffix (t : DptType) : string :=
  match DptType.unit t with Some u => " " +:+ Unit.symbol u | None => EmptyString end.
Lemma symbol_clean u acc : strip_any WHITESPACE_REV (rev_append (Unit.symbol u) acc) = None.
Proof. destruct u; vm_compute; reflexivity. Qed.
Lemma format_integer z t : Z.abs z < 2 ^ 53 → format_numeric (f64_of_Z z) t = dec z +:+ unit_suffix t.
Proof.
  intros Hz. unfold format_numeric, f64_of_Z, f64_floor, as_i64. rewrite float_of_Z_floor, float_of_Z_eqb_refl by done.
  rewrite float_of_Z_cast by (done || lia). unfold unit_suffix. destruct (DptType.unit t); [done|by rewrite append_nil_r].
Qed.
Lemma number_text_trim z t : trim (dec z +:+ unit_suffix t) = dec z +:+ unit_suffix t.
Proof.
  destruct (dec_clean z) as [Hs He]. apply trim_clean; [apply Hs|]. unfold unit_suffix.
  destruct (DptType.unit t) as [u|]; [|by rewrite append_nil_r; apply (He EmptyString)].
  unfold ends_clean, rev_string. rewrite rev_append_app. change (" " +:+ Unit.symbol u) with (String " " (Unit.symbol u)).
  apply symbol_clean.
Qed.
Lemma parse_number_text z t : parse_number (dec z +:+ unit_suffix t) t = Some (f64_of_Z z).
Proof.
  destruct (dec_clean z) as [Hs He]. unfold parse_number, unit_suffix. destruct (DptType.unit t) as [u|].
  - rewrite <-append_assoc, strip_suffix_app, trim_space by (apply Hs || exact (He EmptyString)).
    rewrite trim_dec. apply parse_float_dec.
  - rewrite append_nil_r, trim_dec. apply parse_float_dec.
Qed.

Section roundtrip.
Context {dbg : DebugText} {prof : Profile}.

(** The integer types of one, two and four bytes, their ranges and payloads. *)
Definition integer_range (m : Z) : Z * Z :=
  match m with
  | 5 => (0, 255) | 6 => (-128, 127) | 7 => (0, 65535) | 8 => (-32768, 32767)
  | 12 => (0, 4294967295) | _ => (-2147483648, 2147483647)
  end.
Definition integer_payload (m z : Z) : DptPayload :=
  if bool_decide (m ∈ [6; 8; 13]) then DptPayload.SignedInt z else DptPayload.UnsignedInt z.
Lemma parse_integer t z :
  DptType.main t ∈ [5; 6; 7; 8; 12; 13] →
  (integer_range (DptType.main t)).1 ≤ z ≤ (integer_range (DptType.main t)).2 →
  DptType_parse t (dec z +:+ unit_suffix t) = DptType_encode t (integer_payload (DptType.main t) z).
Proof.
  intros Hm Hz. unfold DptType_parse, DptType_parse_payload, integer_payload. rewrite number_text_trim, parse_number_text.
  main_split Hm; cbn [integer_range fst snd] in Hz; cbn [ok_or mbind outcome_bind int_range];
    unfold f64_of_Z; rewrite !float_of_Z_ltb by (done || lia);
    rewrite (proj2 (Z.ltb_ge z _)), (proj2 (Z.ltb_ge _ z)) by lia; cbn [orb];
    repeat match goal with |- context [bool_decide (?x ∈ ?l)] =>
      let b := eval vm_compute in (bool_decide (x ∈ l)) in change (bool_decide (x ∈ l)) with b end;
    unfold as_i64, float_as_u64; rewrite float_of_Z_cast by (done || lia); reflexivity.
Qed.

(** ** Clocks and dates *)
Lemma parse_clock_text h m s :
  0 ≤ h ≤ 23 → 0 ≤ m ≤ 59 → 0 ≤ s ≤ 59 → parse_clock (time_text h m s) = Some (h, m, s).
Proof.
  intros Hh Hm Hs. unfold parse_clock, time_text.
  rewrite !append_lit, splitn3_three by (apply pad0_free; lia || done). unfold parse_u8_text.
  rewrite !trim_pad0, !parse_uint_pad0 by lia. cbn [mbind option_bind]. by rewrite option_guard_True by lia.
Qed.
Lemma parse_date_text y m d :
  0 ≤ y ≤ 65535 → 1 ≤ m ≤ 12 → 1 ≤ d ≤ 31 → parse_date_parts (date_text y m d) = Some (d, m, y).
Proof.
  intros Hy Hm Hd. unfold parse_date_parts.
  assert (trim (date_text y m d) = date_text y m d) as ->.
  { unfold date_text. destruct (pad0_clean 4 y) as [Hs _]; [lia|]. apply trim_clean; [apply Hs|].
    destruct (pad0_clean 2 d) as [_ He]; [lia|]. rewrite <-!append_assoc. apply He. }
  unfold date_text. rewrite !append_lit, splitn3_three by (apply pad0_free; lia || done). unfold parse_u8_text.
  rewrite !parse_uint_pad0 by lia. cbn [mbind option_bind]. by rewrite option_guard_True by lia.
Qed.

(** ** Weekdays *)
Lemma weekday_split base d :
  (∀ t, starts_clean (base +:+ t)) → ends_clean base → free_of "(" base = true → 0 ≤ d ≤ 7 →
  split_weekday_suffix (with_weekday base d) = (base, d).
Proof.
  intros Hs He Hf Hd.
  assert (trim base = base) as Hb by (apply trim_clean; [by apply starts_clean_nil|done]).
  destruct (decide (d = 0)) as [->|Hne].
  { unfold split_weekday_suffix, with_weekday. cbn [weekday_name]. by rewrite rfind_none, Hb. }
  assert (∀ name, weekday_name d = Some name → trim name = name → weekday_number name = Some d →
    free_of "(" (name +:+ ")") = true → find ")" (String "(" (name +:+ ")")) = Some (S (String.length name)) →
    split_weekday_suffix (with_weekday base d) = (base, d)) as Hname.
  { intros name En Et Ew Ef Ec. unfold split_weekday_suffix, with_weekday. rewrite En.
    replace (base +:+ " (" +:+ name +:+ ")") with ((base +:+ " ") +:+ String "(" (name +:+ ")"))
      by by rewrite append_assoc.
    rewrite rfind_app by done. rewrite str_drop_app, Ec. rewrite str_drop_app_S, str_take_app.
    replace (S (String.length name) - 1)%nat with (String.length name) by lia.
    rewrite str_take_app, Et, Ew. by rewrite trim_space by (apply Hs || done). }
  assert (d = 1 ∨ d = 2 ∨ d = 3 ∨ d = 4 ∨ d = 5 ∨ d = 6 ∨ d = 7) as Hc by lia.
  destruct Hc as [->|[->|[->|[->|[->|[->| ->]]]]]]; eapply Hname; vm_compute; reflexivity.
Qed.
Lemma weekday_clean base d :
  (∀ t, starts_clean (base +:+ t)) → ends_clean base → trim (with_weekday base d) = with_weekday base d.
Proof.
  intros Hs He. unfold with_weekday. destruct (weekday_name d) as [name|].
  - apply trim_clean; [apply Hs|]. rewrite <-!append_assoc. by apply ends_clean_graphic.
  - apply trim_clean; [by apply starts_clean_nil|done].
Qed.
Lemma time_text_clean h m s : 0 ≤ h → 0 ≤ m → 0 ≤ s →
  (∀ t, starts_clean (time_text h m s +:+ t)) ∧ (∀ t, ends_clean (t +:+ time_text h m s)) ∧
  free_of "(" (time_text h m s) = true.
Proof.
  intros Hh Hm Hs. unfold time_text. destruct (pad0_clean 2 h Hh) as [H1 _], (pad0_clean 2 s Hs) as [_ H2]. split_and!.
  - intros t. rewrite append_assoc. apply H1.
  - intros t. rewrite <-!append_assoc. apply H2.
  - rewrite !free_of_app, !pad0_free by (lia || done). done.
Qed.

(** ** Booleans, scenes and modes *)
Lemma bool_label_facts b t :
  trim (bool_label b t) = bool_label b t ∧ parse_bool (bool_label b t) t = Some b.
Proof.
  assert ((String.eqb (trim (bool_label true t)) (bool_label true t)
    && String.eqb (trim (bool_label false t)) (bool_label false t)
    && negb (String.eqb (to_ascii_lowercase (bool_label false t)) (to_ascii_lowercase (bool_label true t)))) = true)
    as [[Ht Hf]%andb_prop Hd%negb_true_iff]%andb_prop by (revert t; apply all_types_forall; vm_compute; reflexivity).
  apply String.eqb_eq in Ht, Hf. split; [by destruct b|]. unfold parse_bool.
  destruct b; [by rewrite String.eqb_refl|]. by rewrite Hd, String.eqb_refl.
Qed.
Definition scene_text (b : Z) : string := "Scene " +:+ dec (Z.land b 0x3F + 1).
Definition scene_control_text (b : Z) : string :=
  scene_text b +:+ " (" +:+ (if bit_set b 0x80 then "learn" else "activate") +:+ ")".
Lemma scene_text_facts b : u8_ok b →
  trim (scene_text b) = scene_text b ∧ parse_scene_number (scene_text b) = Some (Z.land b 0x3F + 1).
Proof.
  intros Hb. exhaust 256%positive (λ b, trim (scene_text b) = scene_text b ∧
    parse_scene_number (scene_text b) = Some (Z.land b 0x3F + 1)) b Hb.
Qed.
Lemma scene_control_text_facts b : u8_ok b →
  parse_scene_control (trim (scene_control_text b)) = Some (DptPayload.SceneControl (Z.land b 0x3F + 1) (bit_set b 0x80)).
Proof.
  intros Hb. pose (f p := match p with Some (DptPayload.SceneControl n l) => Some (n, l) | _ => None end).
  assert (f (parse_scene_control (trim (scene_control_text b))) = Some (Z.land b 0x3F + 1, bit_set b 0x80)) as E.
  { subst f. exhaust 256%positive (λ b,
      match parse_scene_control (trim (scene_control_text b)) with Some (DptPayload.SceneControl n l) => Some (n, l) | _ => None end
      = Some (Z.land b 0x3F + 1, bit_set b 0x80)) b Hb. }
  subst f. cbn beta in E. repeat case_match; by simplify_eq.
Qed.
(** The values of the modes that have a name. *)
Definition named_mode (t : DptType) (b : Z) : bool :=
  match t with
  | DptType.HVACMode => b <=? 4
  | DptType.HVACContrMode => (b <=? 17) || (b =? 20)
  | _ => false
  end.
Lemma mode_text_facts t b : u8_ok b → named_mode t b = true →
  parse_enum (trim (format_enum b t)) t = Some b.
Proof.
  intros Hb Hn. destruct t; try done.
  - assert (named_mode DptType.HVACMode b = true → parse_enum (trim (format_enum b DptType.HVACMode)) DptType.HVACMode = Some b) as E
      by exhaust 256%positive (λ b, named_mode DptType.HVACMode b = true →
        parse_enum (trim (format_enum b DptType.HVACMode)) DptType.HVACMode = Some b) b Hb.
    by apply E.
  - assert (named_mode DptType.HVACContrMode b = true → parse_enum (trim (format_enum b DptType.HVACContrMode)) DptType.HVACContrMode = Some b) as E
      by exhaust 256%positive (λ b, named_mode DptType.HVACContrMode b = true →
        parse_enum (trim (format_enum b DptType.HVACContrMode)) DptType.HVACContrMode = Some b) b Hb.
    by apply E.
Qed.

(** ** Colours *)
Lemma trim_comma n : 0 ≤ n → trim (" " +:+ dec n) = dec n.
Proof.
  intros Hn. destruct (dec_clean n) as [Hs He]. rewrite append_lit. apply trim_lead; [by apply starts_clean_nil|].
  rewrite <-append_lit. apply He.
Qed.
Lemma comma_free n : 0 ≤ n → free_of "," (" " +:+ dec n) = true.
Proof. intros Hn. rewrite free_of_app. by rewrite dec_free. Qed.
Lemma strip_hash n t : 0 ≤ n → strip_prefix "#" (dec n +:+ t) = None.
Proof.
  intros Hn. destruct (dec_digits n Hn) as [Hd Hne]. destruct (dec n) as [|c s]; [done|].
  rewrite append_cons. cbn [str_all strip_prefix] in *. apply andb_prop in Hd as [Hd _].
  destruct (Ascii.eqb_spec "#" c) as [<-|]; done.
Qed.
Lemma wrapped prefix inner :
  (∀ t, starts_clean (prefix +:+ t)) →
  trim (prefix +:+ inner +:+ ")") = prefix +:+ inner +:+ ")" ∧ strip_wrapper (prefix +:+ inner +:+ ")") prefix = inner.
Proof.
  intros Hs. assert (trim (prefix +:+ inner +:+ ")") = prefix +:+ inner +:+ ")") as E
    by (apply trim_clean; [apply Hs|rewrite <-append_assoc; by apply ends_clean_graphic]).
  split; [done|]. unfold strip_wrapper. rewrite E, strip_prefix_app. cbn [mbind option_bind].
  by rewrite strip_suffix_app.
Qed.
Lemma rgb_text r g b :
  u8_ok r → u8_ok g → u8_ok b →
  let text := "RGB(" +:+ dec r +:+ ", " +:+ dec g +:+ ", " +:+ dec b +:+ ")" in
  parse_rgb (trim text) = Some (DptPayload.ColorRGB r g b).
Proof.
  unfold u8_ok. intros Hr Hg Hb. cbv zeta.
  replace ("RGB(" +:+ dec r +:+ ", " +:+ dec g +:+ ", " +:+ dec b +:+ ")")
    with ("RGB(" +:+ (dec r +:+ String "," (" " +:+ dec g +:+ String "," (" " +:+ dec b))) +:+ ")")
    by (rewrite !append_assoc, !append_cons, !append_assoc; done).
  destruct (wrapped "RGB(" (dec r +:+ String "," (" " +:+ dec g +:+ String "," (" " +:+ dec b)))) as [-> Ew];
    [intros t; by apply starts_clean_app|].
  unfold parse_rgb. rewrite Ew, strip_hash by lia. unfold comma_parts.
  rewrite str_split_sep by (apply dec_free; lia || done). rewrite <-append_assoc.
  rewrite str_split_sep by (apply comma_free; lia). rewrite str_split_free by (apply comma_free; lia).
  cbn [fmap list_fmap]. rewrite trim_dec, !trim_comma by lia. unfold parse_u8_text.
  rewrite !parse_uint_dec by lia. done.
Qed.
Lemma rgbw_text r g b w :
  u8_ok r → u8_ok g → u8_ok b → u8_ok w →
  let text := "RGBW(" +:+ dec r +:+ ", " +:+ dec g +:+ ", " +:+ dec b +:+ ", " +:+ dec w +:+ ")" in
  parse_rgbw (trim text) = Some (DptPayload.ColorRGBW r g b w).
Proof.
  unfold u8_ok. intros Hr Hg Hb Hw. cbv zeta.
  replace ("RGBW(" +:+ dec r +:+ ", " +:+ dec g +:+ ", " +:+ dec b +:+ ", " +:+ dec w +:+ ")")
    with ("RGBW(" +:+ (dec r +:+ String "," (" " +:+ dec g +:+ String "," (" " +:+ dec b +:+ String "," (" " +:+ dec w)))) +:+ ")")
    by (rewrite !append_assoc, !append_cons, !append_assoc, !append_cons, !append_assoc; done).
  destruct (wrapped "RGBW(" (dec r +:+ String "," (" " +:+ dec g +:+ String "," (" " +:+ dec b +:+ String "," (" " +:+ dec w))))) as [-> Ew];
    [intros t; by apply starts_clean_app|].
  unfold parse_rgbw. rewrite Ew, strip_hash by lia. unfold comma_parts.
  rewrite str_split_sep by (apply dec_free; lia || done). rewrite <-(append_assoc " " (dec g)).
  rewrite str_split_sep by (apply comma_free; lia). rewrite <-(append_assoc " " (dec b)).
  rewrite str_split_sep by (apply comma_free; lia). rewrite str_split_free by (apply comma_free; lia).
  cbn [fmap list_fmap]. rewrite trim_dec, !trim_comma by lia. unfold parse_u8_text.
  rewrite !parse_uint_dec by lia. done.
Qed.

(** ** Every type whose text is read back *)
Definition formatted_text (t : DptType) (bytes : list Z) : result string :=
  v ← DptType_decode_ref t bytes; DptView_formatted v t.
(** Payloads within the ranges the parser accepts, of the types it reads. *)
Definition text_parses (t : DptType) (p : DptPayload) : Prop :=
  match p with
  | DptPayload.Time _ h m s => h ≤ 23 ∧ m ≤ 59 ∧ s ≤ 59
  | DptPayload.Date d m _ => 1 ≤ m ≤ 12 ∧ 1 ≤ d
  | DptPayload.DateTime _ mo d _ h mi s => 1 ≤ mo ≤ 12 ∧ 1 ≤ d ∧ h ≤ 23 ∧ mi ≤ 59 ∧ s ≤ 59
  | DptPayload.Enum v => named_mode t v = true
  | _ => DptType.main t ∈ [1; 5; 6; 7; 8; 12; 13; 17; 232; 251]
  end.
(** [text] is what the view of [bytes] shows and is parsed to their encoding. *)
Definition reads_back (t : DptType) (bytes : list Z) : Prop :=
  ∃ text p, formatted_text t bytes = Ok text ∧ runtime_decode t bytes = Ok p ∧
    DptType_parse t text = DptType_encode t p.
Lemma reads_back_intro t bytes text p :
  length bytes = main_length (DptType.main t) → DptType.main t ≠ 235 →
  DptView_formatted (view_of (DptType.main t) bytes) t = Ok text →
  DptPayload_from (view_of (DptType.main t) bytes) = Ok p →
  DptType_parse t text = DptType_encode t p → reads_back t bytes.
Proof.
  intros Hl Hne Hf Hp Hr. destruct (runtime_decode_view t bytes Hl Hne) as [Ev Ed]. exists text, p.
  unfold formatted_text. by rewrite Ev, Ed.
Qed.
(** Parsing a payload from the trimmed text is enough. *)
Lemma parse_payload_text t text p :
  DptType_parse_payload t (trim text) = Ok p → DptType_parse t text = DptType_encode t p.
Proof. intros E. unfold DptType_parse. by rewrite E. Qed.

Lemma reads_back_integer t bytes :
  bytes_ok bytes → length bytes = main_length (DptType.main t) → DptType.main t ∈ [5; 6; 7; 8; 12; 13] → reads_back t bytes.
Proof.
  intros Hb Hl Hm.
  assert (∃ z, DptView_formatted (view_of (DptType.main t) bytes) t = Ok (format_numeric (f64_of_Z z) t) ∧
    DptPayload_from (view_of (DptType.main t) bytes) = Ok (integer_payload (DptType.main t) z) ∧
    (integer_range (DptType.main t)).1 ≤ z ≤ (integer_range (DptType.main t)).2 ∧ Z.abs z < 2 ^ 53) as (z & Hf & Hp & Hr & Hz).
  { pose proof (from_be_bound bytes Hb) as Hbe. rewrite Hl in Hbe.
    pose proof (as_signed_bound 8 (from_be bytes)). pose proof (as_signed_bound 16 (from_be bytes)).
    pose proof (as_signed_bound 32 (from_be bytes)).
    main_split Hm; cbn [main_length] in *; change (256 ^ Z.of_nat 1) with 256 in *; change (256 ^ Z.of_nat 2) with 65536 in *;
      change (256 ^ Z.of_nat 4) with 4294967296 in *; cbn [view_of DptView_formatted DptPayload_from integer_range fst snd].
    - destruct bytes as [|b [|? ?]]; [done| |done]. exists b. change (from_be [b]) with b in *. split_and!; try done; lia.
    - destruct bytes as [|b [|? ?]]; [done| |done]. exists (as_signed 8 b). change (from_be [b]) with b in *. split_and!; try done; lia.
    - exists (from_be bytes). unfold U16View_as_f64, U16View_value. rewrite be_value_run by done. split_and!; try done; lia.
    - exists (as_signed 16 (from_be bytes)). unfold I16View_as_f64, I16View_value. rewrite be_value_run by done.
      split_and!; try done; lia.
    - exists (from_be bytes). unfold U32View_as_f64, U32View_value. rewrite be_value_run by done. split_and!; try done; lia.
    - exists (as_signed 32 (from_be bytes)). unfold I32View_as_f64, I32View_value. rewrite be_value_run by done.
      split_and!; try done; lia. }
  rewrite format_integer in Hf by done.
  eapply reads_back_intro; [done| |exact Hf|exact Hp|by apply parse_integer].
  intros E. rewrite E in Hm. revert Hm. apply (bool_decide_unpack _). exact I.
Qed.

Lemma land_range b m : 0 ≤ m → 0 ≤ Z.land b m ≤ m.
Proof.
  intros Hm. split; [apply Z.land_nonneg; by right|]. rewrite Z.land_comm. destruct (Z.eq_dec m 0) as [->|]; [done|].
  apply Z.ldiff_le; [lia|]. apply Z.bits_inj'. intros i Hi. rewrite Z.ldiff_spec, Z.land_spec, Z.bits_0.
  by destruct (Z.testbit m i), (Z.testbit b i).
Qed.
Lemma day_range b : 0 ≤ Z.land (Z.shiftr b 5) 0x07 ≤ 7.
Proof. by apply land_range. Qed.
Lemma reads_back_time t b0 b1 b2 :
  DptType.main t = 10 → Z.land b0 0x1F ≤ 23 → Z.land b1 0x3F ≤ 59 → Z.land b2 0x3F ≤ 59 → reads_back t [b0; b1; b2].
Proof.
  intros Hm Hh Hi Hs. pose proof (land_range b0 0x1F). pose proof (land_range b1 0x3F). pose proof (land_range b2 0x3F).
  eapply reads_back_intro; rewrite ?Hm; [done|done|reflexivity|reflexivity|]. apply parse_payload_text.
  destruct (time_text_clean (Z.land b0 0x1F) (Z.land b1 0x3F) (Z.land b2 0x3F)) as (Hc & He & Hf); [lia..|].
  rewrite weekday_clean by (done || exact (He EmptyString)).
  unfold DptType_parse_payload. rewrite Hm. unfold parse_time.
  rewrite weekday_split by (done || exact (He EmptyString) || apply day_range).
  by rewrite parse_clock_text by lia.
Qed.
Lemma date_text_clean y m d : 0 ≤ y → 0 ≤ m → 0 ≤ d →
  (∀ t, starts_clean (date_text y m d +:+ t)) ∧ (∀ t, ends_clean (t +:+ date_text y m d)) ∧
  ∀ c, is_digit c = false → Ascii.eqb "-" c = false → free_of c (date_text y m d) = true.
Proof.
  intros Hy Hm Hd. unfold date_text. destruct (pad0_clean 4 y Hy) as [H1 _], (pad0_clean 2 d Hd) as [_ H2]. split_and!.
  - intros t. rewrite append_assoc. apply H1.
  - intros t. rewrite <-!append_assoc. apply H2.
  - intros c Hc Hn. rewrite !free_of_app, !pad0_free by (lia || done).
    unfold free_of. cbn [str_all]. by rewrite Hn.
Qed.
Lemma reads_back_date t b0 b1 b2 :
  DptType.main t = 11 → u8_ok b2 → 1 ≤ Z.land b1 0x0F ≤ 12 → 1 ≤ Z.land b0 0x1F → reads_back t [b0; b1; b2].
Proof.
  intros Hm H2 Hmo Hd. pose proof (land_range b0 0x1F). pose proof (land_range b1 0x0F).
  destruct (year_recodes b2 H2) as [[Hy1%Z.leb_le Hy2%Z.leb_le]%andb_prop _].
  eapply reads_back_intro; rewrite ?Hm; [done|done|reflexivity|reflexivity|]. apply parse_payload_text.
  fold (view_year b2).
  destruct (date_text_clean (view_year b2) (Z.land b1 0x0F) (Z.land b0 0x1F)) as (Hc & He & _); [lia..|].
  rewrite trim_clean by (exact (He EmptyString) || by apply starts_clean_nil).
  unfold DptType_parse_payload. rewrite Hm. unfold parse_date. by rewrite parse_date_text by lia.
Qed.
Lemma reads_back_datetime t b0 b1 b2 b3 b4 b5 b6 b7 :
  DptType.main t = 19 → u8_ok b0 → 1 ≤ Z.land b1 0x0F ≤ 12 → 1 ≤ Z.land b2 0x1F → Z.land b3 0x1F ≤ 23 →
  Z.land b4 0x3F ≤ 59 → Z.land b5 0x3F ≤ 59 → reads_back t [b0; b1; b2; b3; b4; b5; b6; b7].
Proof.
  unfold u8_ok. intros Hm H0 Hmo Hd Hh Hi Hs. pose proof (land_range b2 0x1F). pose proof (land_range b3 0x1F).
  pose proof (land_range b4 0x3F). pose proof (land_range b5 0x3F).
  eapply reads_back_intro; rewrite ?Hm; [done|done|reflexivity|reflexivity|]. apply parse_payload_text.
  destruct (date_text_clean (b0 + 1900) (Z.land b1 0x0F) (Z.land b2 0x1F)) as (Hc & He & Hf); [lia..|].
  destruct (time_text_clean (Z.land b3 0x1F) (Z.land b4 0x3F) (Z.land b5 0x3F)) as (Hc' & He' & Hf'); [lia..|].
  set (base := date_text _ _ _ +:+ _).
  assert (∀ u, starts_clean (base +:+ u)) as Hb1 by (intros u; unfold base; rewrite append_assoc; apply Hc).
  assert (ends_clean base) as Hb2 by (unfold base; rewrite <-append_assoc; apply He').
  assert (free_of "(" base = true) as Hb3 by (unfold base; rewrite !free_of_app, Hf, Hf' by done; done).
  rewrite weekday_clean by done. unfold DptType_parse_payload. rewrite Hm. unfold parse_datetime.
  rewrite weekday_split by (done || apply day_range). unfold base. rewrite append_lit.
  rewrite split_once_app by by apply Hf. cbn [mbind option_bind]. rewrite parse_date_text by lia. cbn [mbind option_bind].
  rewrite trim_clean by (exact (He' EmptyString) || by apply starts_clean_nil).
  by rewrite parse_clock_text by lia.
Qed.
Lemma scene_types t :
  (DptType.main t = 17 → t = DptType.SceneNumber) ∧ (DptType.main t = 18 → t = DptType.SceneControl).
Proof.
  assert ((negb (DptType.main t =? 17) || bool_decide (t = DptType.SceneNumber))
    && (negb (DptType.main t =? 18) || bool_decide (t = DptType.SceneControl)) = true) as [H17 H18]%andb_prop
    by (revert t; apply all_types_forall; vm_compute; reflexivity).
  split; intros E; rewrite E in *; [by apply bool_decide_eq_true in H17|by apply bool_decide_eq_true in H18].
Qed.
Lemma reads_back_scene b : u8_ok b → reads_back DptType.SceneNumber [b].
Proof.
  intros Hb. destruct (scene_text_facts b Hb) as [E1 E2].
  apply (reads_back_intro DptType.SceneNumber [b] (scene_text b) (DptPayload.Scene (Z.land b 0x3F + 1))); try done.
  apply parse_payload_text. rewrite E1. unfold DptType_parse_payload. change (DptType.main DptType.SceneNumber) with 17.
  cbv iota beta. by rewrite E2.
Qed.
Lemma reads_back_bool t b : DptType.main t = 1 → reads_back t [b].
Proof.
  intros Hm. eapply reads_back_intro; rewrite ?Hm; [done|done|reflexivity|reflexivity|]. apply parse_payload_text.
  unfold DptType_parse_payload, format_bool. rewrite Hm. by destruct (bool_label_facts (bit_set b 0x01) t) as [-> ->].
Qed.
Lemma reads_back_mode t b : DptType.main t = 20 → u8_ok b → named_mode t b = true → reads_back t [b].
Proof.
  intros Hm Hb Hn. eapply reads_back_intro; rewrite ?Hm; [done|done|reflexivity|reflexivity|]. apply parse_payload_text.
  unfold DptType_parse_payload. rewrite Hm. by rewrite mode_text_facts.
Qed.
Lemma reads_back_colour t bytes :
  bytes_ok bytes → length bytes = main_length (DptType.main t) → DptType.main t ∈ [232; 251] → reads_back t bytes.
Proof.
  intros Hb Hl Hm. main_split Hm; cbn [main_length] in Hl; bytes_split Hl;
    repeat match goal with H : bytes_ok (_ :: _) |- _ => apply Forall_cons in H as [? H]
      | H : Forall u8_ok (_ :: _) |- _ => apply Forall_cons in H as [? H] end;
    (eapply reads_back_intro; rewrite ?Hm; [done|done|reflexivity|reflexivity|]); apply parse_payload_text;
    unfold DptType_parse_payload; rewrite Hm; [by rewrite rgb_text|by rewrite rgbw_text].
Qed.

Lemma elem_false (x : Z) (l : list Z) : bool_decide (x ∈ l) = false → x ∈ l → False.
Proof. intros E%bool_decide_eq_false. exact E. Qed.
Lemma reads_back_all t bytes p :
  bytes_ok bytes → runtime_decode t bytes = Ok p → text_parses t p → reads_back t bytes.
Proof.
  intros Hb Hd Ht. destruct (runtime_decode_length t bytes p Hd) as [Hl Hne].
  destruct (runtime_decode_view t bytes Hl Hne) as [_ E]. rewrite E in Hd. clear E.
  destruct (decide (DptType.main t ∈ [5; 6; 7; 8; 12; 13])) as [Hi|Hi]; [by apply reads_back_integer|].
  destruct (decide (DptType.main t ∈ [232; 251])) as [Hc|Hc]; [by apply reads_back_colour|].
  destruct (main_cases t) as [Hm _].
  main_split Hm; try (by destruct Hi; apply (bool_decide_unpack _)); try (by destruct Hc; apply (bool_decide_unpack _));
    try done; cbn [main_length] in Hl; bytes_split Hl; injection Hd as <-;
    cbn [text_parses] in Ht; rewrite ?Hm in Ht; try (exfalso; solve [refine (elem_false _ _ _ Ht); vm_compute; reflexivity]).
  all: repeat match goal with H : bytes_ok (_ :: _) |- _ => apply Forall_cons in H as [? H]
      | H : Forall u8_ok (_ :: _) |- _ => apply Forall_cons in H as [? H] end.
  - by apply reads_back_bool.
  - destruct Ht as (? & ? & ?). by apply reads_back_time.
  - destruct Ht as [? ?]. by apply reads_back_date.
  - destruct (scene_types t) as [H17 _]. rewrite H17 by done. by apply reads_back_scene.
  - destruct Ht as (? & ? & ? & ? & ?). by apply reads_back_datetime.
  - by apply reads_back_mode.
Qed.
End roundtrip.

(** Texts [formatted] shows that [parse] refuses: every value of DPT 2.001,
    every value of DPT 3.007 and, of the 8-byte energies, 5 Wh; and DPT 5.010
    accepts [NaN], as 0. *)
Lemma formatted_refused `{DebugText} `{Profile} :
  (∀ b text, formatted_text DptType.SwitchControl [b] = Ok text →
     ∃ details, DptType_parse DptType.SwitchControl text = perr (DptError "2.001" details)) ∧
  (∀ b text, u8_ok b → formatted_text DptType.ControlDimming [b] = Ok text →
     ∃ details, DptType_parse DptType.ControlDimming text = perr (DptError "3.007" details)) ∧
  (∃ text details, formatted_text DptType.ActiveEnergy8Byte [0; 0; 0; 0; 0; 0; 0; 5] = Ok text ∧
     DptType_parse DptType.ActiveEnergy8Byte text = perr (DptError "29.010" details)) ∧
  DptType_parse DptType.Value1Ucount "NaN" = Ok [0].
Proof.
  split_and!.
  - intros b text [= <-]. destruct (bit_set b 0x02), (bit_set b 0x01); by eexists.
  - intros b text Hb [= <-].
    assert (parse_control3 (trim ("Control(" +:+ (if bit_set b 0x08 then "increase" else "decrease") +:+ ", step="
      +:+ dec (Z.land b 0x07) +:+ ")")) = None) as E; [|unfold DptType_parse, DptType_parse_payload;
        change (DptType.main DptType.ControlDimming) with 3; cbv iota beta; rewrite E; by eexists].
    assert (match parse_control3 (trim ("Control(" +:+ (if bit_set b 0x08 then "increase" else "decrease") +:+ ", step="
      +:+ dec (Z.land b 0x07) +:+ ")")) with None => true | _ => false end = true) as E
      by exhaust 256%positive (λ b, match parse_control3 (trim ("Control(" +:+ (if bit_set b 0x08 then "increase" else "decrease")
        +:+ ", step=" +:+ dec (Z.land b 0x07) +:+ ")")) with None => true | _ => false end = true) b Hb.
    by case_match.
  - exists "5 Wh", (cannot_parse "5 Wh" "an integer"). split; vm_compute; reflexivity.
  - vm_compute. reflexivity.
Qed.

(** * Properties *)

(** C32: [DptType::parse] and [DptView::formatted].  The text of a decoded value
    parses to the encoding of that value for DPT 1, the integers of one, two and
    four bytes with their units (DPT 5, 6, 7, 8, 12, 13), scene numbers (DPT 17),
    the named values of the modes, RGB and RGBW colours (DPT 232, 251), and times
    and dates within the ranges the parser accepts.  It is refused for every value
    of DPT 2.001 and 3.007, and for 5 Wh of the 8-byte energies, although [parse]
    is documented as the reverse of [formatted]; and DPT 5.010 accepts [NaN], as 0. *)
Theorem parse_formatted `{DebugText} `{Profile} :
  (∀ t bytes p, bytes_ok bytes → runtime_decode t bytes = Ok p → text_parses t p →
     ∃ text, formatted_text t bytes = Ok text ∧ DptType_parse t text = DptType_encode t p) ∧
  (∀ b text, formatted_text DptType.SwitchControl [b] = Ok text →
     ∃ details, DptType_parse DptType.SwitchControl text = perr (DptError "2.001" details)) ∧
  (∀ b text, u8_ok b → formatted_text DptType.ControlDimming [b] = Ok text →
     ∃ details, DptType_parse DptType.ControlDimming text = perr (DptError "3.007" details)) ∧
  (∃ text details, formatted_text DptType.ActiveEnergy8Byte [0; 0; 0; 0; 0; 0; 0; 5] = Ok text ∧
     DptType_parse DptType.ActiveEnergy8Byte text = perr (DptError "29.010" details)) ∧
  DptType_parse DptType.Value1Ucount "NaN" = Ok [0].
Proof.
  split; [|apply formatted_refused].
  intros t bytes p Hb Hd Ht. destruct (reads_back_all t bytes p Hb Hd Ht) as (text & p' & Hf & Hd' & Hp).
  rewrite Hd in Hd'. injection Hd' as <-. by exists text.
Qed.

(** A scene control keeps its learn bit through its text, which decoding to a
    payload loses. *)
Theorem scene_control_text_roundtrip `{DebugText} `{Profile} b :
  u8_ok b →
  formatted_text DptType.SceneControl [b] = Ok (scene_control_text b) ∧
  DptType_parse DptType.SceneControl (scene_control_text b) = Ok [Z.land b 0xBF] ∧
  runtime_decode DptType.SceneControl [b] = Ok (DptPayload.Scene (Z.land b 0x3F + 1)).
Proof.
  intros Hb. split_and!; [done| |done]. unfold DptType_parse, DptType_parse_payload.
  change (DptType.main DptType.SceneControl) with 18. cbv iota beta.
  rewrite scene_control_text_facts by done. cbn [ok_or mbind outcome_bind]. unfold DptType_encode.
  change (DptType.main DptType.SceneControl) with 18. cbv iota. f_equal. f_equal.
  exhaust 256%positive (λ b, Z.lor (if bit_set b 0x80 then 0x80 else 0) (Z.land (saturating_pred (Z.land b 0x3F + 1)) 0x3F)
    = Z.land b 0xBF) b Hb.
Qed.

(** ** Witnesses *)
#[local] Instance text_release : Profile := {| debug_build := false |}.
#[local] Instance text_debug : DebugText := {| str_debug s := QUOTE +:+ s +:+ QUOTE |}.
Lemma parse_formatted_witness : ∃ text,
  formatted_text DptType.DateTime [126; 6; 15; 0x2C; 30; 5; 0; 0] = Ok text ∧
  DptType_parse DptType.DateTime text
  = DptType_encode DptType.DateTime (DptPayload.DateTime 2026 6 15 1 12 30 5).
Proof.
  apply (proj1 parse_formatted DptType.DateTime [126; 6; 15; 0x2C; 30; 5; 0; 0]).
  - by apply (bool_decide_unpack (Forall (λ b, 0 ≤ b < 256) [126; 6; 15; 0x2C; 30; 5; 0; 0])).
  - reflexivity.
  - cbn. lia.
Defined.
Lemma scene_control_text_roundtrip_witness :
  DptType_parse DptType.SceneControl "Scene 6 (learn)" = Ok [0x85].
Proof. apply (scene_control_text_roundtrip 0x85). vm_compute. split; congruence. Defined.
