(* ===== verification/DptFloat.v ===== *)
(** The floating-point datapoints: the 2-byte float of DPT 9
    ([src/src/protocol/dpt/dpt9.rs]), the percentage of DPT 8.010
    ([src/src/protocol/dpt/dpt8.rs]) and the 4-byte float of DPT 14
    ([src/src/protocol/dpt/dpt14.rs]). *)
From S2P Require Import Prelude Errors Text Float Dpt DptNumeric DptViews.

(** * DPT 9: the 2-byte float *)
Record Temperature := MkTemperature { temperature_0 : list Z }.

Definition must_be_finite (number : string) : KnxError := Protocol (DptError number "Value must be finite").
Definition too_large : KnxError := Protocol (DptError "9.xxx" "Value too large to encode").
Definition in_mantissa (x : float) : bool := contains (f32_of_Z (-2048)) (f32_of_Z 2047) x.
(** [while !(-2048.0..=2047.0).contains(&knx_value) && exponent < 15]. *)
Fixpoint halve (fuel : nat) (knx_value : float) (exponent : Z) : float * Z :=
  match fuel with
  | O => (knx_value, exponent)
  | S fuel =>
      if negb (in_mantissa knx_value) && (exponent <? 15)
      then halve fuel (f32_div knx_value (f32_of_Z 2)) (exponent + 1)
      else (knx_value, exponent)
  end.
Definition HALVE_FUEL : nat := 15.
Definition encode_2byte_float_to_bytes (value : float) : result (list Z) :=
  if negb (is_finite value) then Err (must_be_finite "9.xxx")
  else
    let knx_value := f32_mul value (f32_of_Z 100) in
    if SFeqb (f32_round knx_value) (f32_of_Z 0) then Ok [0; 0]
    else
      let '(knx_value, exponent) := halve HALVE_FUEL knx_value 0 in
      if negb (in_mantissa knx_value) then Err too_large
      else
        let mantissa := as_i16 (f32_round knx_value) in
        if negb ((-2048 <=? mantissa) && (mantissa <=? 2047)) then Err too_large
        else
          let sign := bool_u8 (mantissa <? 0) in
          let encoded := Z.lor (Z.lor (as_u16 (Z.shiftl sign 15)) (as_u16 (Z.shiftl exponent 11)))
                           (Z.land (as_u16 mantissa) 0x07FF) in
          Ok (to_be 2 encoded).
Definition decode_2byte_float_from_bytes (bytes : list Z) : float :=
  let raw := from_be bytes in
  let sign := Z.land (Z.shiftr raw 15) 1 in
  let exponent := Z.land (Z.shiftr raw 11) 0x0F in
  let mantissa := Z.land raw 0x07FF in
  let mantissa := if sign =? 1 then mantissa - 2048 else mantissa in
  f32_div (f32_of_Z (Z.shiftl mantissa exponent)) (f32_of_Z 100).

Definition Temperature_new (value : float) : result Temperature :=
  bytes ← encode_2byte_float_to_bytes value; Ok (MkTemperature bytes).
Definition Temperature_value (t : Temperature) : float := decode_2byte_float_from_bytes (temperature_0 t).
Definition Temperature_from_bytes (bytes : list Z) : result Temperature :=
  with_length "9.001" 2 bytes (b0 ← idx bytes 0; b1 ← idx bytes 1; Ok (MkTemperature [b0; b1])).
Definition Temperature_validate (t : Temperature) : result unit :=
  let value := Temperature_value t in
  if negb (contains (f32_of_Z (-273)) (f32_of_Z 670760) value)
  then perr (DptError "9.001" ("Temperature " +:+ f32_display value +:+ " out of range [-273.0, 670760.0]"))
  else Ok tt.
#[global] Instance Temperature_DptValue : DptValue Temperature := {
  dpt_number := "9.001"; value_type := "temperature"; unit_text := Some "°C";
  ha_device_class := Some "temperature"; byte_length := 2;
  from_bytes := Temperature_from_bytes; as_bytes := temperature_0; validate := Temperature_validate }.
(** [new(value).unwrap_or(Temperature([0, 0]))]. *)
#[global] Instance Temperature_inner : DptInnerType Temperature float := {
  inner_new value := Ok (match Temperature_new value with Ok t => t | _ => MkTemperature [0; 0] end);
  into_inner := Temperature_value }.

(** * DPT 8.010: hundredths of a percent *)
Record DPTPercentV16 := MkDPTPercentV16 { percent_v16_data : list Z }.
Definition DPTPercentV16_new (value : float) : result DPTPercentV16 :=
  if negb (is_finite value) then Err (must_be_finite "8.010")
  else
    let raw := as_i32 (f64_div value (f64_lit 1 2)) in
    if negb ((-32768 <=? raw) && (raw <=? 32767))
    then perr (DptError "8.010" ("Percent V16 " +:+ f64_display value +:+ " out of range [-327.68, 327.67]"))
    else Ok (MkDPTPercentV16 (to_be 2 raw)).
Definition DPTPercentV16_value (p : DPTPercentV16) : float :=
  f64_mul (f64_of_Z (as_signed 16 (from_be (percent_v16_data p)))) (f64_lit 1 2).
Definition DPTPercentV16_from_bytes (bytes : list Z) : result DPTPercentV16 :=
  with_length "8.010" 2 bytes (b0 ← idx bytes 0; b1 ← idx bytes 1; Ok (MkDPTPercentV16 [b0; b1])).
#[global] Instance DPTPercentV16_DptValue : DptValue DPTPercentV16 := {
  dpt_number := "8.010"; value_type := "percentV16"; unit_text := Some "%"; ha_device_class := None;
  byte_length := 2; from_bytes := DPTPercentV16_from_bytes; as_bytes := percent_v16_data;
  validate _ := Ok tt }.

(** * DPT 14: the 4-byte float *)
Record Dpt14Float := MkDpt14Float { dpt14_data : list Z }.
Definition Dpt14Float_new (value : float) : result Dpt14Float :=
  if negb (is_finite value) then Err (must_be_finite "14.000") else Ok (MkDpt14Float (f32_to_be_bytes value)).
Definition Dpt14Float_value (d : Dpt14Float) : float := f32_from_be_bytes (dpt14_data d).
Definition Dpt14Float_from_bytes (bytes : list Z) : result Dpt14Float :=
  with_length "14.000" 4 bytes
    (b0 ← idx bytes 0; b1 ← idx bytes 1; b2 ← idx bytes 2; b3 ← idx bytes 3; Ok (MkDpt14Float [b0; b1; b2; b3])).
Definition Dpt14Float_validate (d : Dpt14Float) : result unit :=
  if negb (is_finite (Dpt14Float_value d)) then Err (must_be_finite "14.000") else Ok tt.
#[global] Instance Dpt14Float_DptValue : DptValue Dpt14Float := {
  dpt_number := "14.000"; value_type := "acceleration"; unit_text := Some "m/s²"; ha_device_class := None;
  byte_length := 4; from_bytes := Dpt14Float_from_bytes; as_bytes := dpt14_data; validate := Dpt14Float_validate }.
#[global] Instance Dpt14Float_inner : DptInnerType Dpt14Float float := {
  inner_new value := Ok (MkDpt14Float (f32_to_be_bytes value)); into_inner := Dpt14Float_value }.

(** * Lemmas *)

(** [x] divided by two [n] times. *)
Fixpoint halved (n : nat) (x : float) : float :=
  match n with O => x | S n => halved n (f32_div x (f32_of_Z 2)) end.
Lemma halve_run fuel x e :
  e + Z.of_nat fuel = 15 →
  ∃ n, (n ≤ fuel)%nat ∧ halve fuel x e = (halved n x, e + Z.of_nat n) ∧
    (n = fuel ∨ in_mantissa (halved n x) = true) ∧ ∀ j, (j < n)%nat → in_mantissa (halved j x) = false.
Proof.
  revert x e. induction fuel as [|fuel IH]; intros x e He; cbn [halve].
  { exists 0%nat. cbn [halved]. split_and!; [lia|f_equal; lia|by left|lia]. }
  destruct (in_mantissa x) eqn:Ex; cbn [negb andb].
  - exists 0%nat. cbn [halved]. split_and!; [lia|f_equal; lia|by right|lia].
  - rewrite (proj2 (Z.ltb_lt e 15)) by lia.
    destruct (IH (f32_div x (f32_of_Z 2)) (e + 1)) as (n & Hn & Hh & Hs & Hj); [lia|].
    exists (S n). cbn [halved]. rewrite Hh. split_and!; [lia|f_equal; lia|destruct Hs; [left; lia|by right]|].
    intros [|j] Hlt; [done|]. apply Hj. lia.
Qed.
Lemma shiftr_15 x : Z.shiftr x 15 = x / 32768.
Proof. by apply Z.shiftr_div_pow2. Qed.
(** Both readings of a word agree. *)
Lemma decode_fields raw : 0 ≤ raw < 65536 →
  decode_2byte_float_from_bytes (to_be 2 raw) =
  f32_div (f32_of_Z (Z.shiftl (word_mantissa raw) (word_exponent raw))) (f32_of_Z 100).
Proof.
  intros Hr. unfold decode_2byte_float_from_bytes. rewrite from_be_to_be, Z.mod_small by done.
  unfold word_mantissa, word_exponent. replace (bit_set raw 0x8000) with (Z.land (Z.shiftr raw 15) 1 =? 1); [done|].
  unfold bit_set. change 0x8000 with (2 ^ 15). rewrite (land_low _ 1), Z.shiftr_div_pow2 by done.
  change (2 ^ 1) with 2. rewrite <-Z.bit0_eqb, <-Z.shiftr_div_pow2, Z.shiftr_spec by done. change (0 + 15) with 15.
  destruct (Z.testbit raw 15) eqn:E; symmetry.
  - apply negb_true_iff, Z.eqb_neq. intros Hz. apply (f_equal (λ z, Z.testbit z 15)) in Hz.
    by rewrite Z.land_spec, E, Z.pow2_bits_true, Z.bits_0 in Hz.
  - apply negb_false_iff, Z.eqb_eq, Z.bits_inj'. intros i Hi. rewrite Z.land_spec, Z.bits_0, Z.pow2_bits_eqb by done.
    destruct (Z.eqb_spec 15 i) as [<-|]; [by rewrite E|apply andb_false_r].
Qed.
Lemma static_pack m e : -2048 ≤ m ≤ 2047 → 0 ≤ e < 16 →
  ∃ raw, Z.lor (Z.lor (as_u16 (Z.shiftl (bool_u8 (m <? 0)) 15)) (as_u16 (Z.shiftl e 11))) (Z.land (as_u16 m) 0x07FF) = raw ∧
    word_mantissa raw = m ∧ word_exponent raw = e ∧ 0 ≤ raw < 65536.
Proof.
  intros Hm He. eexists. split; [done|].
  assert (Z.land (as_u16 m) 0x07FF = m mod 2048) as ->.
  { rewrite land_2047. unfold as_u16. by rewrite Z.mod_mod_divide by by exists 32. }
  assert (as_u16 (Z.shiftl e 11) = Z.shiftl e 11) as ->
    by (unfold as_u16; apply Z.mod_small; rewrite Z.shiftl_mul_pow2 by done; lia).
  assert (0 ≤ m mod 2048 < 2048) by by apply Z.mod_pos_bound.
  destruct (Z.ltb_spec m 0) as [Hn|Hn]; cbn [bool_u8].
  - change (as_u16 (Z.shiftl 1 15)) with (1 * 0x8000). rewrite float2_pack by lia.
    destruct (float2_word_fields 1 e (m mod 2048)) as (-> & -> & ?); [lia..|]. cbn [Z.eqb Pos.eqb].
    split_and!; [|done|lia|lia]. rewrite <-(Z.mod_add m 1), Z.mod_small by lia. lia.
  - change (as_u16 (Z.shiftl 0 15)) with (0 * 0x8000). rewrite float2_pack by lia.
    destruct (float2_word_fields 0 e (m mod 2048)) as (-> & -> & ?); [lia..|]. cbn [Z.eqb].
    split_and!; [by rewrite Z.mod_small by lia|done|lia|lia].
Qed.

(** A word that reads back to its own value, and that all of two ranges do. *)
#[global] Instance float_eq_dec : EqDecision float.
Proof. solve_decision. Defined.
Definition word_survives (raw : Z) : bool :=
  let x := decode_2byte_float_from_bytes (to_be 2 raw) in
  match encode_2byte_float_to_bytes x with
  | Ok b => bool_decide (decode_2byte_float_from_bytes b = x)
  | _ => false
  end.
Lemma low_words : check_below 4096 word_survives = true.
Proof. vm_compute. reflexivity. Qed.
Lemma high_words : check_below 4096 (λ w, word_survives (w + 32768)) = true.
Proof. vm_compute. reflexivity. Qed.

(** * Properties *)

(** [Temperature::new]: a value that is not finite is refused; one whose
    hundredfold rounds to 0 is the zero word; any other is halved as often as
    needed, and at most 15 times, to fit eleven bits and a sign, and the word
    carries the rounded result with the number of halvings; it is refused when
    15 are not enough.  The value read back is that mantissa shifted by the
    exponent, over 100. *)
Theorem temperature_new_exact v :
  let k := f32_mul v (f32_of_Z 100) in
  (is_finite v = false ∧ Temperature_new v = Err (must_be_finite "9.xxx")) ∨
  (is_finite v = true ∧ SFeqb (f32_round k) (f32_of_Z 0) = true ∧ Temperature_new v = Ok (MkTemperature [0; 0])) ∨
  ∃ n, (n ≤ 15)%nat ∧ (∀ j, (j < n)%nat → in_mantissa (halved j k) = false) ∧
    let m := as_i16 (f32_round (halved n k)) in
    (in_mantissa (halved n k) = true ∧ -2048 ≤ m ≤ 2047 ∧
       ∃ raw, Temperature_new v = Ok (MkTemperature (to_be 2 raw)) ∧
         word_mantissa raw = m ∧ word_exponent raw = Z.of_nat n ∧
         Temperature_value (MkTemperature (to_be 2 raw)) = f32_div (f32_of_Z (Z.shiftl m (Z.of_nat n))) (f32_of_Z 100)) ∨
    ((n = 15%nat ∧ in_mantissa (halved n k) = false ∨ ¬ -2048 ≤ m ≤ 2047) ∧ Temperature_new v = Err too_large).
Proof.
  cbv zeta. unfold Temperature_new, encode_2byte_float_to_bytes.
  destruct (is_finite v); cbn [negb]; [|by left]. right.
  destruct (SFeqb _ _); [by left|]. right.
  destruct (halve_run HALVE_FUEL (f32_mul v (f32_of_Z 100)) 0) as (n & Hn & Hh & Hs & Hj); [done|].
  exists n. rewrite Hh, Z.add_0_l. split_and!; [done|done|].
  destruct (in_mantissa (halved n _)) eqn:Ei; cbn [negb]; cycle 1.
  { right. split; [left; split; [by destruct Hs|done]|done]. }
  set (m := as_i16 _). destruct ((-2048 <=? m) && (m <=? 2047)) eqn:Em; cbn [negb].
  - left. apply andb_prop in Em as [Em1%Z.leb_le Em2%Z.leb_le]. split_and!; [done|lia|lia|].
    destruct (static_pack m (Z.of_nat n)) as (raw & -> & Hm & He & Hr); [lia|unfold HALVE_FUEL in Hn; lia|].
    exists raw. split_and!; [done..|]. unfold Temperature_value. cbn [temperature_0].
    rewrite decode_fields by done. by rewrite Hm, He.
  - right. apply andb_false_iff in Em. rewrite !Z.leb_gt in Em. split; [right; lia|done].
Qed.

(** Every word of exponent 0 or 1, the hundredths from -20.48 to 20.47 and the
    fiftieths from -40.96 to 40.94, survives reading its value and making a
    temperature of it: the new word has the same value. *)
Theorem temperature_word_roundtrip raw :
  0 ≤ raw < 65536 → word_exponent raw ≤ 1 →
  ∃ t, Temperature_new (Temperature_value (MkTemperature (to_be 2 raw))) = Ok t ∧
    Temperature_value t = Temperature_value (MkTemperature (to_be 2 raw)).
Proof.
  intros Hr He. assert (0 ≤ raw < 4096 ∨ 0 ≤ raw - 32768 < 4096) as Hw.
  { unfold word_exponent in He. rewrite land_15, shiftr_11 in He. zlia. }
  assert (word_survives raw = true) as Hs.
  { destruct Hw as [Hw|Hw]; [by apply (check_below_sound 4096 word_survives low_words)|].
    replace raw with (raw - 32768 + 32768) by lia.
    by apply (check_below_sound 4096 (λ w, word_survives (w + 32768)) high_words). }
  unfold word_survives, Temperature_new in *. unfold Temperature_value in *. cbn [temperature_0].
  destruct (encode_2byte_float_to_bytes _) as [b| |]; [|done..]. cbn [mbind outcome_bind].
  eexists. split; [done|]. by apply bool_decide_eq_true in Hs.
Qed.

(** [Dpt14Float]: exactly the finite values are accepted, and a value of the
    format reads back as it was, from its four bytes too. *)
Theorem dpt14_new_exact v :
  f32_valid v →
  (is_finite v = false → Dpt14Float_new v = Err (must_be_finite "14.000")) ∧
  (is_finite v = true → ∃ d, Dpt14Float_new v = Ok d ∧ Dpt14Float_value d = v ∧ Dpt14Float_validate d = Ok tt ∧
     Dpt14Float_from_bytes (as_bytes d) = Ok d).
Proof.
  intros Hv. unfold Dpt14Float_new. split; intros Hf; rewrite Hf; [done|]. cbn [negb].
  eexists. split; [done|]. unfold Dpt14Float_validate, Dpt14Float_value. cbn [dpt14_data].
  rewrite f32_bytes_roundtrip by done. by rewrite Hf.
Qed.

(** [DPTPercentV16::new] refuses what is not finite; what it makes reads back
    from its bytes and holds the truncation of the hundredths, so that 0.29 is
    stored as 0.28. *)
Theorem percent_v16_new v :
  (is_finite v = false → DPTPercentV16_new v = Err (must_be_finite "8.010")) ∧
  (∀ p, DPTPercentV16_new v = Ok p →
     DPTPercentV16_value p = f64_mul (f64_of_Z (as_i32 (f64_div v (f64_lit 1 2)))) (f64_lit 1 2) ∧
     DPTPercentV16_from_bytes (as_bytes p) = Ok p) ∧
  DPTPercentV16_new (f64_lit 29 2) = Ok (MkDPTPercentV16 [0; 28]).
Proof.
  split_and!.
  - intros Hf. unfold DPTPercentV16_new. by rewrite Hf.
  - intros p. unfold DPTPercentV16_new. destruct (is_finite v); cbn [negb]; [|done].
    set (raw := as_i32 _). destruct ((-32768 <=? raw) && (raw <=? 32767)) eqn:E; cbn [negb]; [|done].
    intros Hp. assert (p = MkDPTPercentV16 (to_be 2 raw)) as -> by congruence.
    apply andb_prop in E as [E1%Z.leb_le E2%Z.leb_le]. split; [|done]. unfold DPTPercentV16_value.
    cbn [percent_v16_data]. by rewrite (signed_value 2 16) by (done || lia).
  - vm_compute. reflexivity.
Qed.

(** ** Witnesses *)
Lemma temperature_word_roundtrip_witness : ∃ t,
  Temperature_new (Temperature_value (MkTemperature (to_be 2 0x0866))) = Ok t ∧
  Temperature_value t = Temperature_value (MkTemperature (to_be 2 0x0866)).
Proof. apply (temperature_word_roundtrip 0x0866); [lia|vm_compute; congruence]. Defined.
Lemma dpt14_new_exact_witness : ∃ d, Dpt14Float_new (f32_lit 215 1) = Ok d ∧ Dpt14Float_value d = f32_lit 215 1.
Proof.
  destruct (dpt14_new_exact (f32_lit 215 1)) as [_ Hn]; [vm_compute; reflexivity|].
  destruct Hn as (d & H1 & H2 & _); [vm_compute; reflexivity|]. exists d. exact (conj H1 H2).
Defined.
Lemma percent_v16_new_witness : DPTPercentV16_new S754_nan = Err (must_be_finite "8.010").
Proof. apply (percent_v16_new S754_nan). reflexivity. Defined.
