(* ===== verification/Aliases.v ===== *)
(** The datapoint aliases ([dpt_alias!] in [src/src/protocol/dpt/dpt1.rs] to
    [dpt29.rs]): each invocation of the macro declares a type, which is what it
    is here; and the catalogue of them, compared with the runtime types of
    [src/src/protocol/dpt/dpt_type.rs] that have the same numbers. *)
From S2P Require Import Prelude Errors Text Float DptTypes DptViews Dpt DptNumeric DptComposite DptFloat.

(** * DPT 1 *)
Definition DPTSwitch : Type := dpt_alias "1.001" "switch" None None Switch.
Definition DPTBool : Type := dpt_alias "1.002" "bool" None None Switch.
Definition DPTEnable : Type := dpt_alias "1.003" "enable" None None Switch.
Definition DPTRamp : Type := dpt_alias "1.004" "ramp" None None Switch.
Definition DPTAlarm : Type := dpt_alias "1.005" "alarm" None None Switch.
Definition DPTBinaryValue : Type := dpt_alias "1.006" "binary_value" None None Switch.
Definition DPTStep : Type := dpt_alias "1.007" "step" None None Switch.
Definition DPTUpDown : Type := dpt_alias "1.008" "up_down" None None Switch.
Definition DPTOpenClose : Type := dpt_alias "1.009" "open_close" None None Switch.
Definition DPTStart : Type := dpt_alias "1.010" "start" None None Switch.
Definition DPTState : Type := dpt_alias "1.011" "state" None None Switch.
Definition DPTInvert : Type := dpt_alias "1.012" "invert" None None Switch.
Definition DPTDimSendStyle : Type := dpt_alias "1.013" "dim_send_style" None None Switch.
Definition DPTInputSource : Type := dpt_alias "1.014" "input_source" None None Switch.
Definition DPTReset : Type := dpt_alias "1.015" "reset" None None Switch.
Definition DPTAck : Type := dpt_alias "1.016" "ack" None None Switch.
Definition DPTTrigger : Type := dpt_alias "1.017" "trigger" None None Switch.
Definition DPTOccupancy : Type := dpt_alias "1.018" "occupancy" None None Switch.
Definition DPTWindowDoor : Type := dpt_alias "1.019" "window_door" None None Switch.
Definition DPTLogicalFunction : Type := dpt_alias "1.021" "logical_function" None None Switch.
Definition DPTSceneAB : Type := dpt_alias "1.022" "scene_ab" None None Switch.
Definition DPTShutterBlindsMode : Type := dpt_alias "1.023" "shutter_blinds_mode" None None Switch.
Definition DPTDayNight : Type := dpt_alias "1.024" "day_night" None None Switch.
Definition DPTHeatCool : Type := dpt_alias "1.100" "heat_cool" None None Switch.
Definition DPTConsumerProducer : Type := dpt_alias "1.1200" "consumer_producer" None None Switch.
Definition DPTEnergyDirection : Type := dpt_alias "1.1201" "energy_direction" None None Switch.
(** * DPT 2 *)
Definition DPTSwitchControl : Type := dpt_alias "2.001" "switch_control" None None BinaryControl.
Definition DPTBoolControl : Type := dpt_alias "2.002" "bool_control" None None BinaryControl.
Definition DPTEnableControl : Type := dpt_alias "2.003" "enable_control" None None BinaryControl.
Definition DPTRampControl : Type := dpt_alias "2.004" "ramp_control" None None BinaryControl.
Definition DPTAlarmControl : Type := dpt_alias "2.005" "alarm_control" None None BinaryControl.
Definition DPTBinaryValueControl : Type := dpt_alias "2.006" "binary_value_control" None None BinaryControl.
Definition DPTStepControl : Type := dpt_alias "2.007" "step_control" None None BinaryControl.
Definition DPTDirection1Control : Type := dpt_alias "2.008" "direction1_control" None None BinaryControl.
Definition DPTDirection2Control : Type := dpt_alias "2.009" "direction2_control" None None BinaryControl.
Definition DPTStartControl : Type := dpt_alias "2.010" "start_control" None None BinaryControl.
Definition DPTStateControl : Type := dpt_alias "2.011" "state_control" None None BinaryControl.
Definition DPTInvertControl : Type := dpt_alias "2.012" "invert_control" None None BinaryControl.
(** * DPT 5 *)
Definition DPTScaling : Type := dpt_alias "5.001" "percent" (Some "%") None Scaling.
Definition DPTAngle : Type := dpt_alias "5.003" "angle" (Some "°") None Scaling.
Definition DPTPercentU8 : Type := dpt_alias "5.004" "percentU8" (Some "%") None Scaling.
Definition DPTDecimalFactor : Type := dpt_alias "5.005" "decimal_factor" None None Scaling.
Definition DPTTariff : Type := dpt_alias "5.006" "tariff" None None Scaling.
Definition DPTValue1Ucount : Type := dpt_alias "5.010" "pulse" None None Scaling.
(** * DPT 6 *)
Definition DPTPercentV8 : Type := dpt_alias "6.001" "percentV8" (Some "%") None PercentV8.
Definition DPTValue1Count : Type := dpt_alias "6.010" "counter_pulses" (Some "counter pulses") None Value1Count.
(** * DPT 7 *)
Definition DPT2Ucount : Type := dpt_alias "7.001" "pulse_2byte" None None Value2ByteUnsigned.
Definition DPTTimePeriodMsec : Type := dpt_alias "7.002" "time_period_msec" (Some "ms") None Value2ByteUnsigned.
Definition DPTTimePeriod10Msec : Type := dpt_alias "7.003" "time_period_10msec" (Some "ms") None Value2ByteUnsigned.
Definition DPTTimePeriod100Msec : Type := dpt_alias "7.004" "time_period_100msec" (Some "ms") None Value2ByteUnsigned.
Definition DPTTimePeriodSec : Type := dpt_alias "7.005" "time_period_sec" (Some "s") None Value2ByteUnsigned.
Definition DPTTimePeriodMin : Type := dpt_alias "7.006" "time_period_min" (Some "min") None Value2ByteUnsigned.
Definition DPTTimePeriodHrs : Type := dpt_alias "7.007" "time_period_hrs" (Some "h") None Value2ByteUnsigned.
Definition DPTPropDataType : Type := dpt_alias "7.010" "prop_data_type" None None Value2ByteUnsigned.
Definition DPTLengthMm : Type := dpt_alias "7.011" "length_mm" (Some "mm") None Value2ByteUnsigned.
Definition DPTUElCurrentmA : Type := dpt_alias "7.012" "current" (Some "mA") None Value2ByteUnsigned.
Definition DPTBrightness : Type := dpt_alias "7.013" "brightness" (Some "lux") (Some "illuminance") Brightness.
Definition DPTColorTemperature : Type := dpt_alias "7.600" "color_temperature" (Some "K") None Value2ByteUnsigned.
(** * DPT 8 *)
Definition DPTValue2Count : Type := dpt_alias "8.001" "pulse_2byte_signed" None None Value2ByteSigned.
Definition DPTDeltaTimeMsec : Type := dpt_alias "8.002" "delta_time_ms" (Some "ms") None Value2ByteSigned.
Definition DPTDeltaTime10Msec : Type := dpt_alias "8.003" "delta_time_10ms" (Some "ms") None Value2ByteSigned.
Definition DPTDeltaTime100Msec : Type := dpt_alias "8.004" "delta_time_100ms" (Some "ms") None Value2ByteSigned.
Definition DPTDeltaTimeSec : Type := dpt_alias "8.005" "delta_time_sec" (Some "s") None Value2ByteSigned.
Definition DPTDeltaTimeMin : Type := dpt_alias "8.006" "delta_time_min" (Some "min") None Value2ByteSigned.
Definition DPTDeltaTimeHrs : Type := dpt_alias "8.007" "delta_time_hrs" (Some "h") None Value2ByteSigned.
Definition DPTRotationAngle : Type := dpt_alias "8.011" "rotation_angle" (Some "°") None Value2ByteSigned.
Definition DPTLengthM : Type := dpt_alias "8.012" "length_m" (Some "m") None Value2ByteSigned.
(** * DPT 9 *)
Definition DPTTemperature : Type := dpt_alias "9.001" "temperature" (Some "°C") (Some "temperature") Temperature.
Definition DPTTemperatureDifference2Byte : Type := dpt_alias "9.002" "temperature_difference_2byte" (Some "K") (Some "temperature") Temperature.
Definition DPTTemperatureA : Type := dpt_alias "9.003" "temperature_a" (Some "K/h") None Temperature.
Definition DPTLux : Type := dpt_alias "9.004" "illuminance" (Some "lx") (Some "illuminance") Temperature.
Definition DPTWsp : Type := dpt_alias "9.005" "wind_speed_ms" (Some "m/s") (Some "wind_speed") Temperature.
Definition DPTPressure2Byte : Type := dpt_alias "9.006" "pressure_2byte" (Some "Pa") (Some "pressure") Temperature.
Definition DPTHumidity : Type := dpt_alias "9.007" "humidity" (Some "%") (Some "humidity") Temperature.
Definition DPTPartsPerMillion : Type := dpt_alias "9.008" "ppm" (Some "ppm") None Temperature.
Definition DPTAirFlow : Type := dpt_alias "9.009" "air_flow" (Some "m³/h") None Temperature.
Definition DPTTime1 : Type := dpt_alias "9.010" "time_1" (Some "s") None Temperature.
Definition DPTTime2 : Type := dpt_alias "9.011" "time_2" (Some "ms") None Temperature.
Definition DPTVoltage : Type := dpt_alias "9.020" "voltage" (Some "mV") (Some "voltage") Temperature.
Definition DPTCurrent : Type := dpt_alias "9.021" "curr" (Some "mA") (Some "current") Temperature.
Definition DPTPowerDensity : Type := dpt_alias "9.022" "power_density" (Some "W/m²") None Temperature.
Definition DPTKelvinPerPercent : Type := dpt_alias "9.023" "kelvin_per_percent" (Some "K/%") None Temperature.
Definition DPTPower2Byte : Type := dpt_alias "9.024" "power_2byte" (Some "kW") (Some "power") Temperature.
Definition DPTVolumeFlow : Type := dpt_alias "9.025" "volume_flow" (Some "L/h") None Temperature.
Definition DPTRainAmount : Type := dpt_alias "9.026" "rain_amount" (Some "L/m²") None Temperature.
Definition DPTTemperatureF : Type := dpt_alias "9.027" "temperature_f" (Some "°F") (Some "temperature") Temperature.
Definition DPTWspKmh : Type := dpt_alias "9.028" "wind_speed_kmh" (Some "km/h") (Some "wind_speed") Temperature.
Definition DPTAbsoluteHumidity : Type := dpt_alias "9.029" "absolute_humidity" (Some "g/m³") None Temperature.
Definition DPTConcentrationUGM3 : Type := dpt_alias "9.030" "concentration_ugm3" (Some "μg/m³") None Temperature.
Definition DPTEnthalpy : Type := dpt_alias "9.60000" "enthalpy" (Some "H") None Temperature.
(** * DPT 12 *)
Definition DPTValue4Ucount : Type := dpt_alias "12.001" "pulse_4_ucount" (Some "counter pulses") None Value4ByteUnsigned.
Definition DPTLongTimePeriodSec : Type := dpt_alias "12.100" "long_time_period_sec" (Some "s") None Value4ByteUnsigned.
Definition DPTLongTimePeriodMin : Type := dpt_alias "12.101" "long_time_period_min" (Some "min") None Value4ByteUnsigned.
Definition DPTLongTimePeriodHrs : Type := dpt_alias "12.102" "long_time_period_hrs" (Some "h") None Value4ByteUnsigned.
Definition DPTVolumeLiquidLitre : Type := dpt_alias "12.1200" "volume_liquid_litre" (Some "L") None Value4ByteUnsigned.
Definition DPTVolumeM3 : Type := dpt_alias "12.1201" "volume_m3" (Some "m³") None Value4ByteUnsigned.
(** * DPT 13 *)
Definition DPTValue4Count : Type := dpt_alias "13.001" "pulse_4byte" (Some "counter pulses") None Value4ByteSigned.
Definition DPTFlowRateM3H : Type := dpt_alias "13.002" "flow_rate_m3h" (Some "m³/h") None Value4ByteSigned.
Definition DPTActiveEnergy : Type := dpt_alias "13.010" "active_energy" (Some "Wh") (Some "energy") ActiveEnergy.
Definition DPTApparantEnergy : Type := dpt_alias "13.011" "apparant_energy" (Some "VAh") None Value4ByteSigned.
Definition DPTReactiveEnergy : Type := dpt_alias "13.012" "reactive_energy" (Some "VARh") None Value4ByteSigned.
Definition DPTActiveEnergykWh : Type := dpt_alias "13.013" "active_energy_kwh" (Some "kWh") (Some "energy") Value4ByteSigned.
Definition DPTApparantEnergykVAh : Type := dpt_alias "13.014" "apparant_energy_kvah" (Some "kVAh") None Value4ByteSigned.
Definition DPTReactiveEnergykVARh : Type := dpt_alias "13.015" "reactive_energy_kvarh" (Some "kVARh") None Value4ByteSigned.
Definition DPTActiveEnergyMWh : Type := dpt_alias "13.016" "active_energy_mwh" (Some "MWh") (Some "energy") Value4ByteSigned.
Definition DPTLongDeltaTimeSec : Type := dpt_alias "13.100" "long_delta_timesec" (Some "s") None Value4ByteSigned.
Definition DPTDeltaVolumeLiquidLitre : Type := dpt_alias "13.1200" "delta_volume_liquid_litre" (Some "L") None Value4ByteSigned.
Definition DPTDeltaVolumeM3 : Type := dpt_alias "13.1201" "delta_volume_m3" (Some "m³") None Value4ByteSigned.
(** * DPT 14 *)
Definition DPTAcceleration : Type := dpt_alias "14.000" "acceleration" (Some "m/s²") None Dpt14Float.
Definition DPTAccelerationAngular : Type := dpt_alias "14.001" "acceleration_angular" (Some "rad/s²") None Dpt14Float.
Definition DPTActivationEnergy : Type := dpt_alias "14.002" "activation_energy" (Some "J/mol") None Dpt14Float.
Definition DPTActivity : Type := dpt_alias "14.003" "activity" (Some "s⁻¹") None Dpt14Float.
Definition DPTMol : Type := dpt_alias "14.004" "mol" (Some "mol") None Dpt14Float.
Definition DPTAmplitude : Type := dpt_alias "14.005" "amplitude" None None Dpt14Float.
Definition DPTAngleRad : Type := dpt_alias "14.006" "angle_rad" (Some "rad") None Dpt14Float.
Definition DPTAngleDeg : Type := dpt_alias "14.007" "angle_deg" (Some "°") None Dpt14Float.
Definition DPTAngularMomentum : Type := dpt_alias "14.008" "angular_momentum" (Some "J s") None Dpt14Float.
Definition DPTAngularVelocity : Type := dpt_alias "14.009" "angular_velocity" (Some "rad/s") None Dpt14Float.
Definition DPTArea : Type := dpt_alias "14.010" "area" (Some "m²") None Dpt14Float.
Definition DPTCapacitance : Type := dpt_alias "14.011" "capacitance" (Some "F") None Dpt14Float.
Definition DPTChargeDensitySurface : Type := dpt_alias "14.012" "charge_density_surface" (Some "C/m²") None Dpt14Float.
Definition DPTChargeDensityVolume : Type := dpt_alias "14.013" "charge_density_volume" (Some "C/m³") None Dpt14Float.
Definition DPTCompressibility : Type := dpt_alias "14.014" "compressibility" (Some "m²/N") None Dpt14Float.
Definition DPTConductance : Type := dpt_alias "14.015" "conductance" (Some "S") None Dpt14Float.
Definition DPTElectricalConductivity : Type := dpt_alias "14.016" "electrical_conductivity" (Some "S/m") None Dpt14Float.
Definition DPTDensity : Type := dpt_alias "14.017" "density" (Some "kg/m³") None Dpt14Float.
Definition DPTElectricCharge : Type := dpt_alias "14.018" "electric_charge" (Some "C") None Dpt14Float.
Definition DPTElectricCurrent : Type := dpt_alias "14.019" "electric_current" (Some "A") (Some "current") Dpt14Float.
Definition DPTElectricCurrentDensity : Type := dpt_alias "14.020" "electric_current_density" (Some "A/m²") None Dpt14Float.
Definition DPTElectricDipoleMoment : Type := dpt_alias "14.021" "electric_dipole_moment" (Some "C m") None Dpt14Float.
Definition DPTElectricDisplacement : Type := dpt_alias "14.022" "electric_displacement" (Some "C/m²") None Dpt14Float.
Definition DPTElectricFieldStrength : Type := dpt_alias "14.023" "electric_field_strength" (Some "V/m") None Dpt14Float.
Definition DPTElectricFlux : Type := dpt_alias "14.024" "electric_flux" (Some "c") None Dpt14Float.
Definition DPTElectricFluxDensity : Type := dpt_alias "14.025" "electric_flux_density" (Some "C/m²") None Dpt14Float.
Definition DPTElectricPolarization : Type := dpt_alias "14.026" "electric_polarization" (Some "C/m²") None Dpt14Float.
Definition DPTElectricPotential : Type := dpt_alias "14.027" "electric_potential" (Some "V") None Dpt14Float.
Definition DPTElectricPotentialDifference : Type := dpt_alias "14.028" "electric_potential_difference" (Some "V") None Dpt14Float.
Definition DPTElectromagneticMoment : Type := dpt_alias "14.029" "electromagnetic_moment" (Some "A m²") None Dpt14Float.
Definition DPTElectromotiveForce : Type := dpt_alias "14.030" "electromotive_force" (Some "V") None Dpt14Float.
Definition DPTEnergy : Type := dpt_alias "14.031" "energy" (Some "J") None Dpt14Float.
Definition DPTForce : Type := dpt_alias "14.032" "force" (Some "N") None Dpt14Float.
Definition DPTFrequency : Type := dpt_alias "14.033" "frequency" (Some "Hz") (Some "frequency") Dpt14Float.
Definition DPTAngularFrequency : Type := dpt_alias "14.034" "angular_frequency" (Some "rad/s") None Dpt14Float.
Definition DPTHeatCapacity : Type := dpt_alias "14.035" "heatcapacity" (Some "J/K") None Dpt14Float.
Definition DPTHeatFlowRate : Type := dpt_alias "14.036" "heatflowrate" (Some "W") None Dpt14Float.
Definition DPTHeatQuantity : Type := dpt_alias "14.037" "heat_quantity" (Some "J") None Dpt14Float.
Definition DPTImpedance : Type := dpt_alias "14.038" "impedance" (Some "Ω") None Dpt14Float.
Definition DPTLength : Type := dpt_alias "14.039" "length" (Some "m") (Some "distance") Dpt14Float.
Definition DPTLightQuantity : Type := dpt_alias "14.040" "light_quantity" (Some "lm s") None Dpt14Float.
Definition DPTLuminance : Type := dpt_alias "14.041" "luminance" (Some "cd/m²") None Dpt14Float.
Definition DPTLuminousFlux : Type := dpt_alias "14.042" "luminous_flux" (Some "lm") None Dpt14Float.
Definition DPTLuminousIntensity : Type := dpt_alias "14.043" "luminous_intensity" (Some "cd") None Dpt14Float.
Definition DPTMagneticFieldStrength : Type := dpt_alias "14.044" "magnetic_field_strength" (Some "A/m") None Dpt14Float.
Definition DPTMagneticFlux : Type := dpt_alias "14.045" "magnetic_flux" (Some "Wb") None Dpt14Float.
Definition DPTMagneticFluxDensity : Type := dpt_alias "14.046" "magnetic_flux_density" (Some "T") None Dpt14Float.
Definition DPTMagneticMoment : Type := dpt_alias "14.047" "magnetic_moment" (Some "A m²") None Dpt14Float.
Definition DPTMagneticPolarization : Type := dpt_alias "14.048" "magnetic_polarization" (Some "T") None Dpt14Float.
Definition DPTMagnetization : Type := dpt_alias "14.049" "magnetization" (Some "A/m") None Dpt14Float.
Definition DPTMagnetomotiveForce : Type := dpt_alias "14.050" "magnetomotive_force" (Some "A") None Dpt14Float.
Definition DPTMass : Type := dpt_alias "14.051" "mass" (Some "kg") (Some "weight") Dpt14Float.
Definition DPTMassFlux : Type := dpt_alias "14.052" "mass_flux" (Some "kg/s") None Dpt14Float.
Definition DPTMomentum : Type := dpt_alias "14.053" "momentum" (Some "N/s") None Dpt14Float.
Definition DPTPhaseAngleRad : Type := dpt_alias "14.054" "phaseanglerad" (Some "rad") None Dpt14Float.
Definition DPTPhaseAngleDeg : Type := dpt_alias "14.055" "phaseangledeg" (Some "°") None Dpt14Float.
Definition DPTPower : Type := dpt_alias "14.056" "power" (Some "W") (Some "power") Dpt14Float.
Definition DPTPowerFactor : Type := dpt_alias "14.057" "powerfactor" None (Some "power_factor") Dpt14Float.
Definition DPTPressure : Type := dpt_alias "14.058" "pressure" (Some "Pa") (Some "pressure") Dpt14Float.
Definition DPTReactance : Type := dpt_alias "14.059" "reactance" (Some "Ω") None Dpt14Float.
Definition DPTResistance : Type := dpt_alias "14.060" "resistance" (Some "Ω") None Dpt14Float.
Definition DPTResistivity : Type := dpt_alias "14.061" "resistivity" (Some "Ωm") None Dpt14Float.
Definition DPTSelfInductance : Type := dpt_alias "14.062" "self_inductance" (Some "H") None Dpt14Float.
Definition DPTSolidAngle : Type := dpt_alias "14.063" "solid_angle" (Some "sr") None Dpt14Float.
Definition DPTSoundIntensity : Type := dpt_alias "14.064" "sound_intensity" (Some "W/m²") None Dpt14Float.
Definition DPTSpeed : Type := dpt_alias "14.065" "speed" (Some "m/s") (Some "speed") Dpt14Float.
Definition DPTStress : Type := dpt_alias "14.066" "stress" (Some "Pa") None Dpt14Float.
Definition DPTSurfaceTension : Type := dpt_alias "14.067" "surface_tension" (Some "N/m") None Dpt14Float.
Definition DPTCommonTemperature : Type := dpt_alias "14.068" "common_temperature" (Some "°C") None Dpt14Float.
Definition DPTAbsoluteTemperature : Type := dpt_alias "14.069" "absolute_temperature" (Some "K") None Dpt14Float.
Definition DPTTemperatureDifference : Type := dpt_alias "14.070" "temperature_difference" (Some "K") None Dpt14Float.
Definition DPTThermalCapacity : Type := dpt_alias "14.071" "thermal_capacity" (Some "J/K") None Dpt14Float.
Definition DPTThermalConductivity : Type := dpt_alias "14.072" "thermal_conductivity" (Some "W/mK") None Dpt14Float.
Definition DPTThermoelectricPower : Type := dpt_alias "14.073" "thermoelectric_power" (Some "V/K") None Dpt14Float.
Definition DPTTimeSeconds : Type := dpt_alias "14.074" "time_seconds" (Some "s") None Dpt14Float.
Definition DPTTorque : Type := dpt_alias "14.075" "torque" (Some "Nm") None Dpt14Float.
Definition DPTVolume : Type := dpt_alias "14.076" "volume" (Some "m³") None Dpt14Float.
Definition DPTVolumeFlux : Type := dpt_alias "14.077" "volume_flux" (Some "m³/s") None Dpt14Float.
Definition DPTWeight : Type := dpt_alias "14.078" "weight" (Some "N") None Dpt14Float.
Definition DPTWork : Type := dpt_alias "14.079" "work" (Some "J") None Dpt14Float.
Definition DPTApparentPower : Type := dpt_alias "14.080" "apparent_power" (Some "VA") (Some "apparent_power") Dpt14Float.
Definition DPTVolumeFluxMeter : Type := dpt_alias "14.1200" "volume_flux_meter" (Some "m³/h") None Dpt14Float.
Definition DPTVolumeFluxLs : Type := dpt_alias "14.1201" "volume_flux_ls" (Some "L/s") None Dpt14Float.
(** * DPT 17 *)
Definition DPTSceneNumber : Type := dpt_alias "17.001" "scene_number" None None SceneNumber.
(** * DPT 20 *)
Definition DPTHVACMode : Type := dpt_alias "20.102" "hvac_mode" None None HVACMode.
Definition DPTHVACContrMode : Type := dpt_alias "20.105" "hvac_controller_mode" None None HVACControllerMode.
(** * DPT 29 *)
Definition DPTActiveEnergy8Byte : Type := dpt_alias "29.010" "active_energy_8byte" (Some "Wh") (Some "energy") ActiveEnergy8Byte.
Definition DPTApparantEnergy8Byte : Type := dpt_alias "29.011" "apparant_energy_8byte" (Some "VAh") None ActiveEnergy8Byte.
Definition DPTReactiveEnergy8Byte : Type := dpt_alias "29.012" "reactive_energy_8byte" (Some "VARh") None ActiveEnergy8Byte.

(** * The catalogue *)

(** What the constants of a datapoint type say. *)
Record DptInfo := MkDptInfo {
  info_number : string; info_value_type : string; info_unit : option string;
  info_class : option string; info_length : nat }.
Definition info_of (A : Type) `{DptValue A} : DptInfo :=
  MkDptInfo (dpt_number (A:=A)) (value_type (A:=A)) (unit_text (A:=A)) (ha_device_class (A:=A)) (byte_length (A:=A)).

Definition catalogue : list DptInfo :=
  [info_of DPTSwitch; info_of DPTBool; info_of DPTEnable; info_of DPTRamp; info_of DPTAlarm;
   info_of DPTBinaryValue; info_of DPTStep; info_of DPTUpDown; info_of DPTOpenClose;
   info_of DPTStart; info_of DPTState; info_of DPTInvert; info_of DPTDimSendStyle;
   info_of DPTInputSource; info_of DPTReset; info_of DPTAck; info_of DPTTrigger;
   info_of DPTOccupancy; info_of DPTWindowDoor; info_of DPTLogicalFunction; info_of DPTSceneAB;
   info_of DPTShutterBlindsMode; info_of DPTDayNight; info_of DPTHeatCool;
   info_of DPTConsumerProducer; info_of DPTEnergyDirection; info_of DPTSwitchControl;
   info_of DPTBoolControl; info_of DPTEnableControl; info_of DPTRampControl;
   info_of DPTAlarmControl; info_of DPTBinaryValueControl; info_of DPTStepControl;
   info_of DPTDirection1Control; info_of DPTDirection2Control; info_of DPTStartControl;
   info_of DPTStateControl; info_of DPTInvertControl; info_of DPTScaling; info_of DPTAngle;
   info_of DPTPercentU8; info_of DPTDecimalFactor; info_of DPTTariff; info_of DPTValue1Ucount;
   info_of DPTPercentV8; info_of DPTValue1Count; info_of DPT2Ucount; info_of DPTTimePeriodMsec;
   info_of DPTTimePeriod10Msec; info_of DPTTimePeriod100Msec; info_of DPTTimePeriodSec;
   info_of DPTTimePeriodMin; info_of DPTTimePeriodHrs; info_of DPTPropDataType;
   info_of DPTLengthMm; info_of DPTUElCurrentmA; info_of DPTBrightness;
   info_of DPTColorTemperature; info_of DPTValue2Count; info_of DPTDeltaTimeMsec;
   info_of DPTDeltaTime10Msec; info_of DPTDeltaTime100Msec; info_of DPTDeltaTimeSec;
   info_of DPTDeltaTimeMin; info_of DPTDeltaTimeHrs; info_of DPTRotationAngle; info_of DPTLengthM;
   info_of DPTTemperature; info_of DPTTemperatureDifference2Byte; info_of DPTTemperatureA;
   info_of DPTLux; info_of DPTWsp; info_of DPTPressure2Byte; info_of DPTHumidity;
   info_of DPTPartsPerMillion; info_of DPTAirFlow; info_of DPTTime1; info_of DPTTime2;
   info_of DPTVoltage; info_of DPTCurrent; info_of DPTPowerDensity; info_of DPTKelvinPerPercent;
   info_of DPTPower2Byte; info_of DPTVolumeFlow; info_of DPTRainAmount; info_of DPTTemperatureF;
   info_of DPTWspKmh; info_of DPTAbsoluteHumidity; info_of DPTConcentrationUGM3;
   info_of DPTEnthalpy; info_of DPTValue4Ucount; info_of DPTLongTimePeriodSec;
   info_of DPTLongTimePeriodMin; info_of DPTLongTimePeriodHrs; info_of DPTVolumeLiquidLitre;
   info_of DPTVolumeM3; info_of DPTValue4Count; info_of DPTFlowRateM3H; info_of DPTActiveEnergy;
   info_of DPTApparantEnergy; info_of DPTReactiveEnergy; info_of DPTActiveEnergykWh;
   info_of DPTApparantEnergykVAh; info_of DPTReactiveEnergykVARh; info_of DPTActiveEnergyMWh;
   info_of DPTLongDeltaTimeSec; info_of DPTDeltaVolumeLiquidLitre; info_of DPTDeltaVolumeM3;
   info_of DPTAcceleration; info_of DPTAccelerationAngular; info_of DPTActivationEnergy;
   info_of DPTActivity; info_of DPTMol; info_of DPTAmplitude; info_of DPTAngleRad;
   info_of DPTAngleDeg; info_of DPTAngularMomentum; info_of DPTAngularVelocity; info_of DPTArea;
   info_of DPTCapacitance; info_of DPTChargeDensitySurface; info_of DPTChargeDensityVolume;
   info_of DPTCompressibility; info_of DPTConductance; info_of DPTElectricalConductivity;
   info_of DPTDensity; info_of DPTElectricCharge; info_of DPTElectricCurrent;
   info_of DPTElectricCurrentDensity; info_of DPTElectricDipoleMoment;
   info_of DPTElectricDisplacement; info_of DPTElectricFieldStrength; info_of DPTElectricFlux;
   info_of DPTElectricFluxDensity; info_of DPTElectricPolarization; info_of DPTElectricPotential;
   info_of DPTElectricPotentialDifference; info_of DPTElectromagneticMoment;
   info_of DPTElectromotiveForce; info_of DPTEnergy; info_of DPTForce; info_of DPTFrequency;
   info_of DPTAngularFrequency; info_of DPTHeatCapacity; info_of DPTHeatFlowRate;
   info_of DPTHeatQuantity; info_of DPTImpedance; info_of DPTLength; info_of DPTLightQuantity;
   info_of DPTLuminance; info_of DPTLuminousFlux; info_of DPTLuminousIntensity;
   info_of DPTMagneticFieldStrength; info_of DPTMagneticFlux; info_of DPTMagneticFluxDensity;
   info_of DPTMagneticMoment; info_of DPTMagneticPolarization; info_of DPTMagnetization;
   info_of DPTMagnetomotiveForce; info_of DPTMass; info_of DPTMassFlux; info_of DPTMomentum;
   info_of DPTPhaseAngleRad; info_of DPTPhaseAngleDeg; info_of DPTPower; info_of DPTPowerFactor;
   info_of DPTPressure; info_of DPTReactance; info_of DPTResistance; info_of DPTResistivity;
   info_of DPTSelfInductance; info_of DPTSolidAngle; info_of DPTSoundIntensity; info_of DPTSpeed;
   info_of DPTStress; info_of DPTSurfaceTension; info_of DPTCommonTemperature;
   info_of DPTAbsoluteTemperature; info_of DPTTemperatureDifference; info_of DPTThermalCapacity;
   info_of DPTThermalConductivity; info_of DPTThermoelectricPower; info_of DPTTimeSeconds;
   info_of DPTTorque; info_of DPTVolume; info_of DPTVolumeFlux; info_of DPTWeight;
   info_of DPTWork; info_of DPTApparentPower; info_of DPTVolumeFluxMeter; info_of DPTVolumeFluxLs;
   info_of DPTSceneNumber; info_of DPTHVACMode; info_of DPTHVACContrMode;
   info_of DPTActiveEnergy8Byte; info_of DPTApparantEnergy8Byte; info_of DPTReactiveEnergy8Byte].

(** * Properties *)

(** The runtime unit of a type as text. *)
Definition runtime_unit (t : DptType) : option string := Unit.symbol <$> DptType.unit t.
(** The numbers of aliases whose unit differs from the runtime type's. *)
Definition UNIT_DIFFERS : list string :=
  ["6.010"; "7.013"; "9.020"; "9.60000"; "12.001"; "13.001"; "14.024"; "14.080"].

Definition info_agrees `{Profile} (i : DptInfo) : bool :=
  match DptType.from_str (info_number i) with
  | Ok (Some t) =>
      (info_length i =? DptType.byte_length t)%nat && negb (DptType.main t =? 235) &&
      Bool.eqb (bool_decide (info_unit i = runtime_unit t)) (bool_decide (info_number i ∉ UNIT_DIFFERS))
  | _ => false
  end.
Lemma catalogue_agrees `{Profile} : forallb info_agrees catalogue = true.
Proof. vm_compute. reflexivity. Qed.

(** The static aliases against the runtime types: every alias has the number
    of a runtime type and that type's length, and no two share a number; and
    both name the same unit, except for eight numbers, for which they differ. *)
Theorem aliases_match_runtime `{Profile} :
  NoDup (info_number <$> catalogue) ∧
  ∀ i, i ∈ catalogue → ∃ t, DptType.from_str (info_number i) = Ok (Some t) ∧
    info_length i = DptType.byte_length t ∧
    (info_unit i = runtime_unit t ↔ info_number i ∉ UNIT_DIFFERS).
Proof.
  split; [apply (bool_decide_unpack (NoDup (info_number <$> catalogue))); vm_compute; exact I|].
  intros i Hi. pose proof catalogue_agrees as Ha. rewrite forallb_forall in Ha.
  specialize (Ha i (proj1 (list_elem_of_In _ _) Hi)). unfold info_agrees in Ha.
  destruct (DptType.from_str (info_number i)) as [[t|]|e|]; [|done..]. exists t.
  apply andb_prop in Ha as [[Hl%Nat.eqb_eq _]%andb_prop He%eqb_prop]. split_and!; [done|done|].
  by rewrite <-(bool_decide_eq_true (info_unit i = _)), <-(bool_decide_eq_true (info_number i ∉ _)), He.
Qed.

#[local] Instance alias_release : Profile := {| debug_build := false |}.
Lemma aliases_match_runtime_witness : ∃ t,
  info_of DPTScaling ∈ catalogue ∧ DptType.from_str "5.001" = Ok (Some t) ∧ runtime_unit t = Some "%".
Proof.
  assert (info_of DPTScaling ∈ catalogue) as Hin by (apply (list_elem_of_lookup_2 catalogue 38); reflexivity).
  destruct (proj2 aliases_match_runtime (info_of DPTScaling) Hin) as (t & Ht & _ & Hu). exists t.
  split; [exact Hin|]. split; [exact Ht|]. symmetry. apply Hu. apply (bool_decide_unpack _). vm_compute. exact I.
Defined.
