(* ===== verification/DptRegistry.v ===== *)
(** The datapoint registry ([DptRegistry] of [src/src/protocol/dpt/mod.rs]): the
    type-erased decoders, the registration of the 210 datapoint types, and looking
    a datapoint up by its number or its value type; and the value ranges the
    datapoints declare.

    A [dyn Any] value is a [TypeId] with a value of the type it stands for; a
    downcast succeeds exactly when the identities are equal.  The types of a
    program are the registered ones and any others it has. *)
From stdpp Require Import fin vector finite.
From S2P Require Import Prelude Errors Text Float DptTypes Dpt DptNumeric DptComposite DptFloat Aliases.

(** * Metadata *)
Record DptMetadata := MkDptMetadata {
  metadata_number : string;
  metadata_value_type : string;
  metadata_unit : option string;
  metadata_class : option string;
  metadata_length : nat;
}.
Definition DptValue_metadata (A : Type) `{DptValue A} : DptMetadata :=
  MkDptMetadata (dpt_number (A:=A)) (value_type (A:=A)) (unit_text (A:=A)) (ha_device_class (A:=A))
    (byte_length (A:=A)).

(** * The registry over the types of a program *)
Section registry.
Context {TypeId : Type} `{EqDecision TypeId} (El : TypeId → Type).

Record Any := MkAny { any_type : TypeId; any_value : El any_type }.
Definition downcast_ref (T : TypeId) (v : Any) : option (El T) :=
  match decide (any_type v = T) with
  | left e => Some (eq_rect _ El (any_value v) _ e)
  | right _ => None
  end.

Record DptDecoder := MkDptDecoder {
  decode_bytes : list Z → result Any;
  encode_any : Any → result (list Z);
  decoder_number : string;
  decoder_metadata : DptMetadata;
}.
Definition GenericDptDecoder_decode_bytes (T : TypeId) `{DptValue (El T)} (data : list Z) : result Any :=
  value ← DptValue_decode data; Ok (MkAny T value).
Definition GenericDptDecoder_encode_any (T : TypeId) `{DptValue (El T)} (value : Any) : result (list Z) :=
  typed_value ← match downcast_ref T value with
                | Some v => Ok v
                | None => perr (DptError (dpt_number (A:=El T)) "Type mismatch in encoding")
                end;
  Ok (as_bytes typed_value).
Definition GenericDptDecoder_new (T : TypeId) `{DptValue (El T)} : DptDecoder :=
  MkDptDecoder (GenericDptDecoder_decode_bytes T) (GenericDptDecoder_encode_any T)
    (dpt_number (A:=El T)) (DptValue_metadata (El T)).

Record DptRegistry := MkDptRegistry {
  decoders : gmap string DptDecoder;
  value_types : gmap string string;
}.
Definition DptRegistry_empty : DptRegistry := MkDptRegistry ∅ ∅.
Definition DptRegistry_register (T : TypeId) `{DptValue (El T)} (r : DptRegistry) : DptRegistry :=
  MkDptRegistry (<[dpt_number (A:=El T) := GenericDptDecoder_new T]> (decoders r))
    (<[value_type (A:=El T) := dpt_number (A:=El T)]> (value_types r)).

Definition dpt_number_for_value_type (r : DptRegistry) (vt : string) : result string :=
  match value_types r !! vt with
  | Some n => Ok n
  | None => perr (DptError vt "Unknown DPT value type")
  end.
Definition decoder_for (r : DptRegistry) (dpt : string) : result DptDecoder :=
  match decoders r !! dpt with
  | Some d => Ok d
  | None => perr (DptError dpt "Unknown DPT type")
  end.
Definition DptRegistry_metadata (r : DptRegistry) (dpt : string) : result DptMetadata :=
  d ← decoder_for r dpt; Ok (decoder_metadata d).
Definition DptRegistry_decode (r : DptRegistry) (dpt : string) (data : list Z) : result Any :=
  d ← decoder_for r dpt; decode_bytes d data.
Definition DptRegistry_encode (r : DptRegistry) (dpt : string) (value : Any) : result (list Z) :=
  d ← decoder_for r dpt; encode_any d value.

(** Registering types in a row. *)
Section types.
Context {I : Type} (ty : I → TypeId) `{impl : ∀ i, DptValue (El (ty i))}.
Definition register_all (l : list I) (r : DptRegistry) : DptRegistry :=
  foldl (λ r i, DptRegistry_register (ty i) r) r l.
End types.
End registry.
Arguments MkAny {TypeId El} any_type any_value.
Arguments any_type {TypeId El} _.
Arguments any_value {TypeId El} _.
Arguments MkDptRegistry {TypeId El} _ _.
Arguments decoders {TypeId El} _.
Arguments value_types {TypeId El} _.
Arguments dpt_number_for_value_type {TypeId El} _ _.
Arguments decoder_for {TypeId El} _ _.
Arguments DptRegistry_metadata {TypeId El} _ _.
Arguments DptRegistry_decode {TypeId El} _ _ _.
Arguments DptRegistry_encode {TypeId El} _ _ _.
Arguments DptRegistry_empty {TypeId} El.

(** * The registered types *)
Record DptClass := MkDptClass { class_type : Type; class_impl : DptValue class_type }.
#[global] Existing Instance class_impl.
Abbreviation dpt A := (MkDptClass A _).

Definition dpt1_types : list DptClass :=
  [dpt DPTSwitch; dpt DPTBool; dpt DPTEnable; dpt DPTRamp; dpt DPTAlarm; dpt DPTBinaryValue; dpt
   DPTStep; dpt DPTUpDown; dpt DPTOpenClose; dpt DPTStart; dpt DPTState; dpt DPTInvert; dpt
   DPTDimSendStyle; dpt DPTInputSource; dpt DPTReset; dpt DPTAck; dpt DPTTrigger; dpt DPTOccupancy;
   dpt DPTWindowDoor; dpt DPTLogicalFunction; dpt DPTSceneAB; dpt DPTShutterBlindsMode; dpt
   DPTDayNight; dpt DPTHeatCool; dpt DPTConsumerProducer; dpt DPTEnergyDirection].
Definition dpt2_types : list DptClass :=
  [dpt DPTSwitchControl; dpt DPTBoolControl; dpt DPTEnableControl; dpt DPTRampControl; dpt
   DPTAlarmControl; dpt DPTBinaryValueControl; dpt DPTStepControl; dpt DPTDirection1Control; dpt
   DPTDirection2Control; dpt DPTStartControl; dpt DPTStateControl; dpt DPTInvertControl].
Definition dpt3_types : list DptClass :=
  [dpt ControlDimming; dpt ControlBlinds].
Definition dpt5_types : list DptClass :=
  [dpt DPTScaling; dpt DPTAngle; dpt DPTPercentU8; dpt DPTDecimalFactor; dpt DPTTariff; dpt
   DPTValue1Ucount].
Definition dpt6_types : list DptClass :=
  [dpt DPTPercentV8; dpt DPTValue1Count].
Definition dpt7_types : list DptClass :=
  [dpt DPT2Ucount; dpt DPTTimePeriodMsec; dpt DPTTimePeriod10Msec; dpt DPTTimePeriod100Msec; dpt
   DPTTimePeriodSec; dpt DPTTimePeriodMin; dpt DPTTimePeriodHrs; dpt DPTPropDataType; dpt
   DPTLengthMm; dpt DPTUElCurrentmA; dpt DPTBrightness; dpt DPTColorTemperature].
Definition dpt8_types : list DptClass :=
  [dpt DPTValue2Count; dpt DPTDeltaTimeMsec; dpt DPTDeltaTime10Msec; dpt DPTDeltaTime100Msec; dpt
   DPTDeltaTimeSec; dpt DPTDeltaTimeMin; dpt DPTDeltaTimeHrs; dpt DPTPercentV16; dpt
   DPTRotationAngle; dpt DPTLengthM].
Definition dpt9_types : list DptClass :=
  [dpt DPTTemperature; dpt DPTTemperatureDifference2Byte; dpt DPTTemperatureA; dpt DPTLux; dpt
   DPTWsp; dpt DPTPressure2Byte; dpt DPTHumidity; dpt DPTPartsPerMillion; dpt DPTAirFlow; dpt
   DPTTime1; dpt DPTTime2; dpt DPTVoltage; dpt DPTCurrent; dpt DPTPowerDensity; dpt
   DPTKelvinPerPercent; dpt DPTPower2Byte; dpt DPTVolumeFlow; dpt DPTRainAmount; dpt
   DPTTemperatureF; dpt DPTWspKmh; dpt DPTAbsoluteHumidity; dpt DPTConcentrationUGM3; dpt
   DPTEnthalpy].
Definition dpt12_types : list DptClass :=
  [dpt DPTValue4Ucount; dpt DPTLongTimePeriodSec; dpt DPTLongTimePeriodMin; dpt
   DPTLongTimePeriodHrs; dpt DPTVolumeLiquidLitre; dpt DPTVolumeM3].
Definition dpt13_types : list DptClass :=
  [dpt DPTValue4Count; dpt DPTFlowRateM3H; dpt DPTActiveEnergy; dpt DPTApparantEnergy; dpt
   DPTReactiveEnergy; dpt DPTActiveEnergykWh; dpt DPTApparantEnergykVAh; dpt DPTReactiveEnergykVARh;
   dpt DPTActiveEnergyMWh; dpt DPTLongDeltaTimeSec; dpt DPTDeltaVolumeLiquidLitre; dpt
   DPTDeltaVolumeM3].
Definition dpt14_types : list DptClass :=
  [dpt DPTAcceleration; dpt DPTAccelerationAngular; dpt DPTActivationEnergy; dpt DPTActivity; dpt
   DPTMol; dpt DPTAmplitude; dpt DPTAngleRad; dpt DPTAngleDeg; dpt DPTAngularMomentum; dpt
   DPTAngularVelocity; dpt DPTArea; dpt DPTCapacitance; dpt DPTChargeDensitySurface; dpt
   DPTChargeDensityVolume; dpt DPTCompressibility; dpt DPTConductance; dpt
   DPTElectricalConductivity; dpt DPTDensity; dpt DPTElectricCharge; dpt DPTElectricCurrent; dpt
   DPTElectricCurrentDensity; dpt DPTElectricDipoleMoment; dpt DPTElectricDisplacement; dpt
   DPTElectricFieldStrength; dpt DPTElectricFlux; dpt DPTElectricFluxDensity; dpt
   DPTElectricPolarization; dpt DPTElectricPotential; dpt DPTElectricPotentialDifference; dpt
   DPTElectromagneticMoment; dpt DPTElectromotiveForce; dpt DPTEnergy; dpt DPTForce; dpt
   DPTFrequency; dpt DPTAngularFrequency; dpt DPTHeatCapacity; dpt DPTHeatFlowRate; dpt
   DPTHeatQuantity; dpt DPTImpedance; dpt DPTLength; dpt DPTLightQuantity; dpt DPTLuminance; dpt
   DPTLuminousFlux; dpt DPTLuminousIntensity; dpt DPTMagneticFieldStrength; dpt DPTMagneticFlux; dpt
   DPTMagneticFluxDensity; dpt DPTMagneticMoment; dpt DPTMagneticPolarization; dpt DPTMagnetization;
   dpt DPTMagnetomotiveForce; dpt DPTMass; dpt DPTMassFlux; dpt DPTMomentum; dpt DPTPhaseAngleRad;
   dpt DPTPhaseAngleDeg; dpt DPTPower; dpt DPTPowerFactor; dpt DPTPressure; dpt DPTReactance; dpt
   DPTResistance; dpt DPTResistivity; dpt DPTSelfInductance; dpt DPTSolidAngle; dpt
   DPTSoundIntensity; dpt DPTSpeed; dpt DPTStress; dpt DPTSurfaceTension; dpt DPTCommonTemperature;
   dpt DPTAbsoluteTemperature; dpt DPTTemperatureDifference; dpt DPTThermalCapacity; dpt
   DPTThermalConductivity; dpt DPTThermoelectricPower; dpt DPTTimeSeconds; dpt DPTTorque; dpt
   DPTVolume; dpt DPTVolumeFlux; dpt DPTWeight; dpt DPTWork; dpt DPTApparentPower; dpt
   DPTVolumeFluxMeter; dpt DPTVolumeFluxLs].
Definition other_types : list DptClass :=
  [dpt TimeOfDay; dpt Date; dpt StringAscii; dpt StringLatin1; dpt DPTSceneNumber; dpt SceneControl;
   dpt DateTime; dpt DPTHVACMode; dpt DPTHVACContrMode; dpt DPTActiveEnergy8Byte; dpt
   DPTApparantEnergy8Byte; dpt DPTReactiveEnergy8Byte; dpt ColorRGB; dpt TariffActiveEnergy; dpt
   ColorXYY; dpt ColorRGBW].
Definition registered : list DptClass :=
  dpt1_types ++ dpt2_types ++ dpt3_types ++ dpt5_types ++ dpt6_types ++ dpt7_types ++
  dpt8_types ++ dpt9_types ++ dpt12_types ++ dpt13_types ++ dpt14_types ++ other_types.

Section new.
(** The types of the program that are not registered. *)
Context {Other : Type} `{EqDecision Other} (ElOther : Other → Type).
Abbreviation N := (length registered).
Definition TypeId : Type := fin N + Other.
Definition class_of (i : fin N) : DptClass := list_to_vec registered !!! i.
Definition El (T : TypeId) : Type :=
  match T with inl i => class_type (class_of i) | inr o => ElOther o end.
#[global] Instance El_impl (i : fin N) : DptValue (El (inl i)) := class_impl (class_of i).
Definition DptRegistry_new : DptRegistry El :=
  register_all El inl (enum (fin N)) (DptRegistry_empty El).
End new.

(** * Value ranges *)
Class DptRange (A : Type) := value_range : float * float.
Arguments value_range A {_}.
Definition int_range (lo hi : Z) : float * float := (f64_of_Z lo, f64_of_Z hi).
#[global] Instance Switch_range : DptRange Switch := int_range 0 1.
#[global] Instance BinaryControl_range : DptRange BinaryControl := int_range 0 3.
#[global] Instance ControlDimming_range : DptRange ControlDimming := int_range 0 15.
#[global] Instance ControlBlinds_range : DptRange ControlBlinds := int_range 0 15.
#[global] Instance Scaling_range : DptRange Scaling := int_range 0 255.
#[global] Instance PercentV8_range : DptRange PercentV8 := int_range (-128) 127.
#[global] Instance Value1Count_range : DptRange Value1Count := int_range (-128) 127.
#[global] Instance Value2ByteUnsigned_range : DptRange Value2ByteUnsigned := int_range 0 65535.
#[global] Instance Brightness_range : DptRange Brightness := int_range 0 65535.
#[global] Instance Value2ByteSigned_range : DptRange Value2ByteSigned := int_range (-32768) 32767.
#[global] Instance DPTPercentV16_range : DptRange DPTPercentV16 := (f64_lit (-32768) 2, f64_lit 32767 2).
#[global] Instance Temperature_range : DptRange Temperature := int_range (-273) 670760.
#[global] Instance TimeOfDay_range : DptRange TimeOfDay := int_range 0 16777215.
#[global] Instance Date_range : DptRange Date := int_range 0 16777215.
#[global] Instance Value4ByteUnsigned_range : DptRange Value4ByteUnsigned := int_range 0 4294967295.
#[global] Instance Value4ByteSigned_range : DptRange Value4ByteSigned := int_range (-2147483648) 2147483647.
#[global] Instance ActiveEnergy_range : DptRange ActiveEnergy := int_range (-2147483648) 2147483647.
(** [f32::MIN] and [f32::MAX] are the finite floats of the greatest magnitude. *)
Definition f32_MAX : float := S754_finite false 16777215 104.
Definition f32_MIN : float := S754_finite true 16777215 104.
#[global] Instance Dpt14Float_range : DptRange Dpt14Float := (f64_of_f32 f32_MIN, f64_of_f32 f32_MAX).
#[global] Instance StringAscii_range : DptRange StringAscii := int_range 0 0.
#[global] Instance StringLatin1_range : DptRange StringLatin1 := int_range 0 0.
#[global] Instance SceneNumber_range : DptRange SceneNumber := int_range 1 64.
#[global] Instance SceneControl_range : DptRange SceneControl := int_range 1 64.
#[global] Instance DateTime_range : DptRange DateTime := int_range 0 0.
#[global] Instance HVACMode_range : DptRange HVACMode := int_range 0 4.
#[global] Instance HVACControllerMode_range : DptRange HVACControllerMode := int_range 0 20.
#[global] Instance ActiveEnergy8Byte_range : DptRange ActiveEnergy8Byte := int_range (- 2 ^ 63) (2 ^ 63 - 1).
#[global] Instance ColorRGB_range : DptRange ColorRGB := int_range 0 16777215.
#[global] Instance TariffActiveEnergy_range : DptRange TariffActiveEnergy := int_range (- 2 ^ 31) (2 ^ 31 - 1).
#[global] Instance ColorXYY_range : DptRange ColorXYY := int_range 0 16777215.
#[global] Instance ColorRGBW_range : DptRange ColorRGBW := int_range 0 4294967295.
#[global] Instance alias_range {number vt u ha B} `{DptRange B} : DptRange (dpt_alias number vt u ha B) :=
  value_range B.

(** * Lemmas on the registry *)
Section lemmas.
Context {TypeId : Type} `{EqDecision TypeId} {El : TypeId → Type}.
Implicit Types (r : DptRegistry El) (n : string).

Lemma downcast_same T (a : El T) : downcast_ref El T (MkAny T a) = Some a.
Proof.
  unfold downcast_ref. cbn. destruct (decide (T = T)) as [e|]; [|done].
  by rewrite (proof_irrel e eq_refl).
Qed.
Lemma downcast_other T (v : Any El) : any_type v ≠ T → downcast_ref El T v = None.
Proof. intros Hne. unfold downcast_ref. by destruct (decide _). Qed.

Context {I : Type} (ty : I → TypeId) `{impl : ∀ i, DptValue (El (ty i))}.
Definition number (i : I) : string := dpt_number (A:=El (ty i)).
Definition vtype (i : I) : string := value_type (A:=El (ty i)).

(** Texts under which nothing is registered are answered as before; what is
    registered under its own number and value type is found there. *)
Lemma register_all_other l r n :
  (n ∉ number <$> l → decoders (register_all El ty l r) !! n = decoders r !! n) ∧
  (n ∉ vtype <$> l → value_types (register_all El ty l r) !! n = value_types r !! n).
Proof.
  revert r. induction l as [|i l IH]; intros r; [done|]. cbn [register_all foldl].
  destruct (IH (DptRegistry_register El (ty i) r)) as [Hd Hv]. rewrite !fmap_cons, !not_elem_of_cons.
  split; intros [Hne Hn]; [etrans; [by apply Hd|]|etrans; [by apply Hv|]]; cbn; by rewrite lookup_insert_ne.
Qed.
Lemma register_all_found l r i : i ∈ l →
  (NoDup (number <$> l) →
   decoders (register_all El ty l r) !! number i = Some (GenericDptDecoder_new El (ty i))) ∧
  (NoDup (vtype <$> l) → value_types (register_all El ty l r) !! vtype i = Some (number i)).
Proof.
  revert r. induction l as [|j l IH]; intros r; [by intros ?%not_elem_of_nil|].
  cbn [register_all foldl]. rewrite !fmap_cons, !NoDup_cons.
  intros [->|Hi]%elem_of_cons; [|split; intros [_ Hn]; by apply (IH _ Hi)].
  pose proof (register_all_other l (DptRegistry_register El (ty j) r)) as Ho.
  split; intros [Hn _]; [etrans; [by apply Ho|]|etrans; [by apply Ho|]]; cbn; by rewrite lookup_insert_eq.
Qed.
End lemmas.

(** * What a registered datapoint promises *)

(** Decoding does not panic and refuses a wrong length; what was decoded is
    encoded to the declared length, and that reads back with the same encoding.
    (The floating-point datapoints promise this, but decode values their own
    validation refuses.) *)
Class Recodes (A : Type) `{DptValue A} : Prop := {
  recodes_total : ∀ bytes, from_bytes bytes ≠ Panic;
  recodes_length : ∀ bytes, length bytes ≠ byte_length →
    ∃ n, from_bytes bytes = invalid_length n byte_length (length bytes);
  recodes_stable : ∀ bytes a, bytes_ok bytes → from_bytes bytes = Ok a →
    length (as_bytes a) = byte_length ∧ ∃ a', from_bytes (as_bytes a) = Ok a' ∧ as_bytes a' = as_bytes a;
}.
#[global] Instance laws_recodes `{DptLaws A} : Recodes A.
Proof.
  split; [apply from_bytes_total|apply from_bytes_length|]. intros bytes a Hb Ha.
  destruct (from_bytes_stable bytes a Hb Ha) as (a' & Hw & <-). split; [by apply as_bytes_wf|].
  exists a'. split; [by apply dpt_roundtrip|done].
Qed.
#[global] Instance alias_recodes {n vt u ha B} `{Recodes B} : Recodes (dpt_alias n vt u ha B).
Proof.
  split.
  - intros bytes. cbn. apply outcome_bind_no_panic; [apply recodes_total|done].
  - intros bytes Hl. destruct (recodes_length (A:=B) bytes Hl) as [m E]. exists m. cbn. by rewrite E.
  - intros bytes a Hb (b & Hd & [= <-])%outcome_bind_Ok. destruct (recodes_stable (A:=B) bytes b Hb Hd) as (Hl & b' & Hf & E).
    split; [done|]. exists (MkAlias b'). split; [cbn; by rewrite Hf|done].
Qed.
(** A datapoint that keeps the bytes of the right length as they are. *)
Lemma keeps_bytes_recodes `{DptValue A} (n : string) (mk : list Z → A) :
  (∀ bytes, from_bytes bytes = if (length bytes =? byte_length)%nat then Ok (mk bytes)
            else invalid_length n byte_length (length bytes)) →
  (∀ bytes, as_bytes (mk bytes) = bytes) → Recodes A.
Proof.
  intros Hf Hm. split; intros bytes; rewrite ?Hf.
  - by destruct (_ =? _)%nat.
  - intros Hl. exists n. by rewrite (proj2 (Nat.eqb_neq _ _) Hl).
  - intros a _. destruct (Nat.eqb_spec (length bytes) byte_length) as [Hl|]; [|done]. intros [= <-].
    rewrite Hm. split; [done|]. exists (mk bytes). by rewrite Hf, Hl, Nat.eqb_refl.
Qed.
#[global] Instance Temperature_recodes : Recodes Temperature.
Proof. apply (keeps_bytes_recodes "9.001" MkTemperature); [|done]. by intros [|? [|? [|]]]. Qed.
#[global] Instance DPTPercentV16_recodes : Recodes DPTPercentV16.
Proof. apply (keeps_bytes_recodes "8.010" MkDPTPercentV16); [|done]. by intros [|? [|? [|]]]. Qed.
#[global] Instance Dpt14Float_recodes : Recodes Dpt14Float.
Proof. apply (keeps_bytes_recodes "14.000" MkDpt14Float); [|done]. by intros [|? [|? [|? [|? [|]]]]]. Qed.

Lemma registered_recodes : Forall (λ c, Recodes (class_type c)) registered.
Proof.
  unfold registered. rewrite !Forall_app. split_and!;
  repeat first [apply Forall_nil_2 | apply Forall_cons_2; [cbn [class_type class_impl]; apply _|]].
Qed.

(** Every number and every value type is registered once. *)
Definition class_number (c : DptClass) : string := dpt_number (A:=class_type c).
Definition class_value_type (c : DptClass) : string := value_type (A:=class_type c).
Lemma registered_nodup : NoDup (class_number <$> registered) ∧ NoDup (class_value_type <$> registered).
Proof.
  apply (bool_decide_unpack (NoDup (class_number <$> registered) ∧ NoDup (class_value_type <$> registered))).
  vm_compute. exact I.
Qed.
Lemma vec_enum {A n} (v : vec A n) : (v !!!.) <$> enum (fin n) = vec_to_list v.
Proof.
  induction v as [|x n v IH]; [done|]. cbn [vec_to_list]. rewrite <-IH. unfold enum. cbn.
  f_equal. by rewrite <-list_fmap_compose.
Qed.
Lemma class_of_enum : class_of <$> enum (fin (length registered)) = registered.
Proof. etrans; [apply (vec_enum (list_to_vec registered))|apply vec_to_list_to_vec]. Qed.
Lemma class_of_registered i : class_of i ∈ registered.
Proof. rewrite <-class_of_enum. apply list_elem_of_fmap_2, elem_of_enum. Qed.
#[global] Instance class_recodes i : Recodes (class_type (class_of i)).
Proof. apply (proj1 (Forall_forall _ _) registered_recodes), class_of_registered. Qed.

Section found.
Context {Other : Type} `{EqDecision Other} (ElOther : Other → Type).
Abbreviation R := (DptRegistry_new ElOther).
Abbreviation El := (El ElOther).
Abbreviation num i := (class_number (class_of i)).

Lemma new_found i :
  decoders R !! num i = Some (GenericDptDecoder_new El (inl i)) ∧
  value_types R !! class_value_type (class_of i) = Some (num i).
Proof.
  destruct (register_all_found (El:=El) inl (enum (fin (length registered))) (DptRegistry_empty El) i)
    as [Hd Hv]; [apply elem_of_enum|].
  destruct registered_nodup as [Hn Hvn]. rewrite <-class_of_enum in Hn, Hvn.
  rewrite <-list_fmap_compose in Hn, Hvn. split; [by apply Hd|by apply Hv].
Qed.
Lemma new_unknown n :
  (n ∉ class_number <$> registered → decoders R !! n = None) ∧
  (n ∉ class_value_type <$> registered → value_types R !! n = None).
Proof.
  destruct (register_all_other (El:=El) inl (enum (fin (length registered))) (DptRegistry_empty El) n) as [Hd Hv].
  rewrite <-class_of_enum, <-!list_fmap_compose. split; intros Hn; [by etrans; [apply Hd|]|by etrans; [apply Hv|]].
Qed.
End found.

(** The registered and the runtime types have the same numbers and lengths. *)
Lemma runtime_registered t : ∃ i, class_number (class_of i) = DptType.number_str t ∧
  byte_length (A:=class_type (class_of i)) = DptType.byte_length t.
Proof.
  assert (existsb (λ c, String.eqb (class_number c) (DptType.number_str t) &&
    (byte_length (A:=class_type c) =? DptType.byte_length t)%nat) registered = true) as Hex
    by (revert t; apply all_types_forall; vm_compute; reflexivity).
  apply existsb_exists in Hex as (c & Hc & [Hn%String.eqb_eq Hl%Nat.eqb_eq]%andb_prop).
  rewrite <-list_elem_of_In, <-class_of_enum in Hc. apply list_elem_of_fmap in Hc as (i & -> & _). by exists i.
Qed.
Lemma registered_runtime `{Profile} c : c ∈ registered →
  ∃ t, DptType.from_str (class_number c) = Ok (Some t) ∧ class_number c = DptType.number_str t.
Proof.
  assert (forallb (λ c, match DptType.from_str (class_number c) with
    | Ok (Some t) => String.eqb (class_number c) (DptType.number_str t) | _ => false end) registered = true) as Hall
    by (vm_compute; reflexivity).
  intros Hc. rewrite forallb_forall in Hall. specialize (Hall c (proj1 (list_elem_of_In _ _) Hc)).
  destruct (DptType.from_str _) as [[t|]|e|]; [|done..]. exists t. by apply String.eqb_eq in Hall.
Qed.

(** * Properties *)
Section properties.
Context {Other : Type} `{EqDecision Other} (ElOther : Other → Type).
Abbreviation R := (DptRegistry_new ElOther).

(** The registry by number and value type.  Under the number of a registered
    type it decodes with that type and gives a value of that type; it encodes
    values of exactly that type and refuses any other; it answers with the
    metadata of the type, and finds the number by the value type.  Any other
    number or value type is unknown to every operation. *)
Theorem dpt_registry_exact :
  (∀ i, let n := class_number (class_of i) in
    (∀ data, DptRegistry_decode R n data = (a ← from_bytes data; Ok (MkAny (inl i) a))) ∧
    (∀ a, DptRegistry_encode R n (MkAny (inl i) a) = Ok (as_bytes a)) ∧
    (∀ v, any_type v ≠ inl i → DptRegistry_encode R n v = perr (DptError n "Type mismatch in encoding")) ∧
    DptRegistry_metadata R n = Ok (DptValue_metadata (class_type (class_of i))) ∧
    dpt_number_for_value_type R (class_value_type (class_of i)) = Ok n) ∧
  (∀ n, n ∉ class_number <$> registered →
    (∀ data, DptRegistry_decode R n data = perr (DptError n "Unknown DPT type")) ∧
    (∀ v, DptRegistry_encode R n v = perr (DptError n "Unknown DPT type")) ∧
    DptRegistry_metadata R n = perr (DptError n "Unknown DPT type")) ∧
  (∀ vt, vt ∉ class_value_type <$> registered →
    dpt_number_for_value_type R vt = perr (DptError vt "Unknown DPT value type")).
Proof.
  unfold DptRegistry_decode, DptRegistry_encode, DptRegistry_metadata, decoder_for, dpt_number_for_value_type.
  split_and!.
  - intros i. destruct (new_found ElOther i) as [Hd Hv]. cbv zeta. rewrite Hd, Hv. split_and!; [done|..|done|done].
    + intros a. cbn. unfold GenericDptDecoder_encode_any. by rewrite downcast_same.
    + intros v Hne. cbn. unfold GenericDptDecoder_encode_any. by rewrite downcast_other.
  - intros n Hn. by rewrite (proj1 (new_unknown ElOther n) Hn).
  - intros vt Hn. by rewrite (proj2 (new_unknown ElOther vt) Hn).
Qed.

Lemma decoder_class n d : decoder_for R n = Ok d →
  ∃ i, n = class_number (class_of i) ∧ d = GenericDptDecoder_new _ (inl i).
Proof.
  unfold decoder_for. intros Hd. destruct (decide (n ∈ class_number <$> registered)) as [Hin|Hn].
  - rewrite <-class_of_enum, <-list_fmap_compose in Hin. apply list_elem_of_fmap in Hin as (i & -> & _).
    exists i. split; [done|]. unfold compose in Hd. rewrite (proj1 (new_found ElOther i)) in Hd. by injection Hd as <-.
  - by rewrite (proj1 (new_unknown ElOther n) Hn) in Hd.
Qed.
Lemma decoder_recodes i data v :
  bytes_ok data → GenericDptDecoder_decode_bytes (El ElOther) (inl i) data = Ok v →
  length data = byte_length (A:=class_type (class_of i)) ∧
  ∃ out, length out = length data ∧ GenericDptDecoder_encode_any (El ElOther) (inl i) v = Ok out ∧
  ∃ v', GenericDptDecoder_decode_bytes (El ElOther) (inl i) out = Ok v' ∧
        GenericDptDecoder_encode_any (El ElOther) (inl i) v' = Ok out.
Proof.
  intros Hb (a & Ha & [= <-])%outcome_bind_Ok. change (from_bytes (A:=class_type (class_of i)) data = Ok a) in Ha.
  destruct (recodes_stable (A:=class_type (class_of i)) data a Hb Ha) as (Hl & a' & Hf & E).
  destruct (decide (length data = byte_length (A:=class_type (class_of i)))) as [Hd|Hd].
  2: { destruct (recodes_length (A:=class_type (class_of i)) data Hd) as [m Em]. by rewrite Em in Ha. }
  split; [done|]. exists (as_bytes a). split; [exact (eq_trans Hl (eq_sym Hd))|]. unfold GenericDptDecoder_encode_any.
  rewrite downcast_same. split; [done|]. exists (MkAny (inl i) a'). split.
  - exact (f_equal (λ x, b ← x; Ok (MkAny (El:=El ElOther) (inl i) b)) Hf).
  - rewrite downcast_same. exact (f_equal Ok E).
Qed.

(** C24: Decoding and encoding through the registry.  No payload makes the decoder
    of any number panic.  A payload that is decoded has the length the metadata
    declare; the value is encoded again under the same number to as many bytes,
    and those decode to a value with the same encoding. *)
Theorem dpt_registry_recodes n data :
  DptRegistry_decode R n data ≠ Panic ∧
  (bytes_ok data → ∀ v, DptRegistry_decode R n data = Ok v →
   ∃ m out v', DptRegistry_metadata R n = Ok m ∧ metadata_length m = length data ∧
     DptRegistry_encode R n v = Ok out ∧ length out = length data ∧
     DptRegistry_decode R n out = Ok v' ∧ DptRegistry_encode R n v' = Ok out).
Proof.
  unfold DptRegistry_decode, DptRegistry_metadata, DptRegistry_encode. split.
  - destruct (decoder_for R n) as [d|e|] eqn:Hd; [|done|].
    + destruct (decoder_class n d Hd) as (i & _ & ->). cbn.
      apply outcome_bind_no_panic; [|done]. apply (recodes_total (A:=class_type (class_of i))).
    + revert Hd. unfold decoder_for. by destruct (_ !! _).
  - intros Hb v (d & Hd & Hv)%outcome_bind_Ok. rewrite Hd. cbn [mbind outcome_bind].
    destruct (decoder_class n d Hd) as (i & _ & ->).
    destruct (decoder_recodes i data v Hb Hv) as (Hl & out & Ho & He & v' & Hv' & He').
    exists (DptValue_metadata (class_type (class_of i))), out, v'. by split_and!.
Qed.

(** The registry and the runtime types name the same datapoints: the known
    numbers are exactly those of the runtime types, with the same lengths. *)
Theorem dpt_registry_is_runtime `{Profile} :
  (∀ t, ∃ m, DptRegistry_metadata R (DptType.number_str t) = Ok m ∧
    metadata_number m = DptType.number_str t ∧ metadata_length m = DptType.byte_length t) ∧
  (∀ n m, DptRegistry_metadata R n = Ok m → ∃ t, DptType.from_str n = Ok (Some t) ∧ n = DptType.number_str t).
Proof.
  split.
  - intros t. destruct (runtime_registered t) as (i & Hn & Hl).
    exists (DptValue_metadata (class_type (class_of i))). rewrite <-Hn. unfold DptRegistry_metadata, decoder_for.
    by rewrite (proj1 (new_found ElOther i)).
  - intros n m (d & Hd & _)%outcome_bind_Ok. destruct (decoder_class n d Hd) as (i & -> & _).
    apply registered_runtime, class_of_registered.
Qed.
End properties.

(** A closed program with no other types. *)
Definition no_others (e : Empty_set) : Type := match e with end.
Lemma dpt_registry_recodes_witness : ∃ v out,
  DptRegistry_decode (DptRegistry_new no_others) "5.001" [200] = Ok v ∧
  DptRegistry_encode (DptRegistry_new no_others) "5.001" v = Ok out ∧ length out = 1%nat.
Proof.
  destruct (dpt_registry_recodes no_others "5.001" [200]) as [_ Hr].
  assert (match DptRegistry_decode (DptRegistry_new no_others) "5.001" [200] with Ok _ => true | _ => false end = true)
    as Hok by (vm_compute; reflexivity).
  destruct (DptRegistry_decode (DptRegistry_new no_others) "5.001" [200]) as [v|e|]; [|discriminate Hok..].
  destruct (Hr ltac:(by repeat constructor) v eq_refl) as (m & out & v' & _ & _ & He & Hl & _).
  exists v, out. split; [reflexivity|]. split; [exact He|exact Hl].
Defined.

(** * Properties of the value ranges *)

(** Whatever [A] decodes has its value, read with [value], in the range. *)
Definition in_value_range (A : Type) `{DptValue A, DptRange A} (value : A → Z) : Prop :=
  ∀ bytes a, bytes_ok bytes → from_bytes bytes = Ok a →
    contains (value_range A).1 (value_range A).2 (f64_of_Z (value a)) = true.

Lemma int_range_contains lo hi z :
  Z.abs lo < 2 ^ 53 → Z.abs hi < 2 ^ 53 → lo ≤ z ≤ hi →
  contains (int_range lo hi).1 (int_range lo hi).2 (f64_of_Z z) = true.
Proof.
  intros Hlo Hhi Hz. unfold contains, SFleb, int_range, f64_of_Z. cbn [fst snd].
  rewrite !float_of_Z_compare by lia.
  destruct (Z.compare_spec lo z); [..|lia]; destruct (Z.compare_spec z hi); (done || lia).
Qed.

Section ranges.
Context {A : Type} `{DptValue A, DptRange A} (n : string) (value : A → Z).
(** The two shapes of a decoder: one byte, and all the bytes. *)
Lemma byte_in_range (decode : Z → result A) lo hi :
  (∀ bytes, from_bytes bytes = with_length n 1 bytes (b ← idx bytes 0; decode b)) →
  value_range A = int_range lo hi → Z.abs lo < 2 ^ 53 → Z.abs hi < 2 ^ 53 →
  (∀ b a, u8_ok b → decode b = Ok a → lo ≤ value a ≤ hi) → in_value_range A value.
Proof.
  intros Hf Hr Hlo Hhi Hd bytes a Hb. rewrite Hf, Hr. intros [Hl Ha]%with_length_Ok.
  apply length_1 in Hl as [b ->]. apply Forall_cons in Hb as [Hb _]. apply int_range_contains; [done..|].
  by apply (Hd b a).
Qed.
Lemma bytes_in_range (mk : list Z → A) k lo hi :
  (∀ bytes, from_bytes bytes = with_length n k bytes (d ← first_bytes k bytes; Ok (mk d))) →
  value_range A = int_range lo hi → Z.abs lo < 2 ^ 53 → Z.abs hi < 2 ^ 53 →
  (∀ d, length d = k → bytes_ok d → lo ≤ value (mk d) ≤ hi) → in_value_range A value.
Proof.
  intros Hf Hr Hlo Hhi Hd bytes a Hb. rewrite Hf, Hr. intros [Hl Ha]%with_length_Ok.
  rewrite first_bytes_exact in Ha by done. injection Ha as <-. apply int_range_contains; [done..|]. by apply Hd.
Qed.
End ranges.
Lemma alias_in_range {nu vt u ha B} `{DptValue B, DptRange B} (value : B → Z) :
  in_value_range B value → in_value_range (dpt_alias nu vt u ha B) (value ∘ alias_base).
Proof. intros Hv bytes a Hb (b & Hd & [= <-])%outcome_bind_Ok. by apply (Hv bytes). Qed.

Tactic Notation "byte_range" constr(number) uconstr(decode) constr(lo) constr(hi) :=
  refine (byte_in_range number _ decode lo hi _ _ _ _ _); [done|done|done|done|].
Tactic Notation "bytes_range" constr(number) uconstr(mk) constr(k) constr(lo) constr(hi) :=
  refine (bytes_in_range number _ mk k lo hi _ _ _ _ _); [done|done|done|done|].
Lemma u8_bounds b : u8_ok b → 0 ≤ b ≤ 255.
Proof. unfold u8_ok. lia. Qed.
Lemma word_bounds k d : length d = k → bytes_ok d → 0 ≤ from_be d ≤ 256 ^ Z.of_nat k - 1.
Proof. intros <- Hd. pose proof (from_be_bound d Hd). lia. Qed.
Lemma signed_bounds k d : (0 < k)%nat → length d = k → bytes_ok d →
  - 2 ^ (8 * Z.of_nat k - 1) ≤ as_signed (8 * Z.of_nat k) (from_be d) ≤ 2 ^ (8 * Z.of_nat k - 1) - 1.
Proof.
  intros Hk <- Hd. pose proof (from_be_bound d Hd) as Hb. change 256 with (2 ^ 8) in Hb.
  rewrite <-Z.pow_mul_r in Hb by lia. pose proof (as_signed_bound (8 * Z.of_nat (length d)) (from_be d)). lia.
Qed.

(** The declared ranges hold: whatever bytes an integer datapoint, a scene or a
    mode decodes, its value lies in the range [value_range] gives, in [f64]; so
    does the value of every alias. *)
Theorem value_ranges_hold :
  in_value_range Switch (λ s, bool_u8 (Switch_value s)) ∧ in_value_range BinaryControl binary_control_0 ∧
  in_value_range Scaling Scaling_value ∧ in_value_range PercentV8 PercentV8_value ∧
  in_value_range Value1Count Value1Count_value ∧ in_value_range Value2ByteUnsigned Value2ByteUnsigned_value ∧
  in_value_range Brightness Brightness_value ∧ in_value_range Value2ByteSigned Value2ByteSigned_value ∧
  in_value_range Value4ByteUnsigned Value4ByteUnsigned_value ∧
  in_value_range Value4ByteSigned Value4ByteSigned_value ∧ in_value_range ActiveEnergy ActiveEnergy_value ∧
  in_value_range SceneNumber scene_number ∧ in_value_range SceneControl scene_control_number ∧
  in_value_range HVACMode hvac_value ∧ in_value_range HVACControllerMode hvac_contr_value ∧
  (∀ nu vt u ha B `(DptValue B, DptRange B) (value : B → Z), in_value_range B value →
    in_value_range (dpt_alias nu vt u ha B) (value ∘ alias_base)).
Proof.
  split_and!; [..|intros; by apply alias_in_range].
  - byte_range "1.001" (λ b, _ ← Switch_validate (MkSwitch b); Ok (MkSwitch b)) 0 1.
    intros b a _ _. destruct (Switch_value a); cbn; lia.
  - byte_range "2.001" (λ b, _ ← BinaryControl_validate (MkBinaryControl b); Ok (MkBinaryControl b)) 0 3.
    intros b a Hb%u8_bounds. unfold BinaryControl_validate. cbn. destruct (Z.ltb_spec 3 b); [done|].
    intros [= <-]. cbn. lia.
  - byte_range "5.001" (λ b, Ok (MkScaling b)) 0 255. intros b a Hb [= <-]. by apply u8_bounds.
  - byte_range "6.001" (λ b, Ok (MkPercentV8 b)) (-128) 127. intros b a Hb [= <-].
    pose proof (as_signed_bound 8 b). apply u8_bounds in Hb. unfold PercentV8_value. cbn [percent_v8_data]. lia.
  - byte_range "6.010" (λ b, Ok (MkValue1Count b)) (-128) 127. intros b a Hb [= <-].
    pose proof (as_signed_bound 8 b). apply u8_bounds in Hb. unfold Value1Count_value. cbn [value1_count_data]. lia.
  - bytes_range "7.001" MkValue2ByteUnsigned 2%nat 0 65535. apply (word_bounds 2).
  - bytes_range "7.013" MkBrightness 2%nat 0 65535. apply (word_bounds 2).
  - bytes_range "8.001" MkValue2ByteSigned 2%nat (-32768) 32767. intros d. apply (signed_bounds 2). lia.
  - bytes_range "12.001" MkValue4ByteUnsigned 4%nat 0 4294967295. apply (word_bounds 4).
  - bytes_range "13.001" MkValue4ByteSigned 4%nat (-2147483648) 2147483647. intros d. apply (signed_bounds 4). lia.
  - bytes_range "13.010" MkActiveEnergy 4%nat (-2147483648) 2147483647. intros d. apply (signed_bounds 4). lia.
  - byte_range "17.001" (λ b, let n := Z.land b 0x3F + 1 in Ok (MkSceneNumber n (n - 1))) 1 64.
    intros b a _ [= <-]. cbn. rewrite land_63. pose proof (Z.mod_pos_bound b 64). lia.
  - byte_range "18.001" (λ b, Ok (MkSceneControl (Z.land b 0x3F + 1) (bit_set b 0x80) b)) 1 64.
    intros b a _ [= <-]. cbn. rewrite land_63. pose proof (Z.mod_pos_bound b 64). lia.
  - byte_range "20.102" HVACMode_new 0 4. intros b a Hb%u8_bounds. unfold HVACMode_new.
    destruct (Z.ltb_spec 4 b); [done|]. intros [= <-]. cbn. lia.
  - byte_range "20.105" HVACControllerMode_new 0 20. intros b a Hb%u8_bounds. unfold HVACControllerMode_new.
    destruct (Z.ltb_spec 17 b), (Z.eqb_spec b 20); try done; intros [= <-]; cbn; lia.
Qed.
