(* ===== verification/DptEquivalence.v ===== *)
(** The two decoders of a payload: the static datapoints
    ([src/src/protocol/dpt/dpt1.rs] to [dpt251.rs], chosen by the type of the
    program) and the runtime types ([src/src/protocol/dpt/dpt_type.rs] with
    [view.rs] and [payload.rs], chosen by a number).  They are written
    independently of each other; here they are compared. *)
From S2P Require Import Prelude Errors Text Float DptTypes DptViews Dpt DptNumeric DptComposite DptFloat.

(** What [A] decodes, every runtime type with the main number [m] decodes too,
    to the payload [f] gives. *)
Definition agrees (A : Type) `{DptValue A} (m : Z) (f : A → DptPayload) : Prop :=
  ∀ t bytes a, DptType.main t = m → from_bytes bytes = Ok a → runtime_decode t bytes = Ok (f a).

Section agrees.
Context (A : Type) `{DptValue A} (m : Z) (f : A → DptPayload).
Lemma agrees_intro number (body : list Z → result A) :
  m ≠ 235 →
  (∀ bytes, from_bytes bytes = with_length number (main_length m) bytes (body bytes)) →
  (∀ bytes a, length bytes = main_length m → body bytes = Ok a → DptPayload_from (view_of m bytes) = Ok (f a)) →
  agrees A m f.
Proof.
  intros Hm Hf Hd t bytes a Ht Ha. rewrite Hf in Ha. apply with_length_Ok in Ha as [Hl Ha]. subst m.
  rewrite (proj2 (runtime_decode_view t bytes Hl Hm)). by apply Hd.
Qed.
(** The aliases delegate to their base. *)
Lemma agrees_alias number vt u ha : agrees A m f → agrees (dpt_alias number vt u ha A) m (f ∘ alias_base).
Proof. intros Hb t bytes a Ht (b & Hf & [= <-])%outcome_bind_Ok. by apply Hb. Qed.
End agrees.

(** Opens the decoder of a static datapoint at a payload of its length. *)
Tactic Notation "static_decoder" ident(Hl) ident(Ha) :=
  eapply agrees_intro; [done|intros; reflexivity|];
  let bytes := fresh "bytes" in let a := fresh "a" in intros bytes a Hl Ha; cbn [main_length] in Hl; cbv beta in Ha.
Ltac bytes_agree :=
  let Hl := fresh in let Ha := fresh in static_decoder Hl Ha; bytes_split Hl; injection Ha as <-; reflexivity.
Ltac word_agree :=
  let Hl := fresh in let Ha := fresh in static_decoder Hl Ha;
  rewrite first_bytes_exact in Ha by done; injection Ha as <-;
  cbn [view_of DptPayload_from];
  cbv [U16View_value I16View_value U32View_value I32View_value I64View_value];
  by rewrite (be_value_run _ _ Hl).
Ltac checked_agree :=
  let Hl := fresh in let Ha := fresh in static_decoder Hl Ha;
  bytes_split Hl; cbn [idx lookup list_lookup mbind outcome_bind] in Ha;
  apply outcome_bind_Ok in Ha as (? & _ & [= <-]); reflexivity.

Definition two_control (c : BinaryControl) : DptPayload :=
  DptPayload.BinaryControl (BinaryControl_control c) (BinaryControl_value c).
Definition dimming (c : ControlDimming) : DptPayload :=
  DptPayload.Control (ControlDimming_control c) (ControlDimming_step_code c).
Definition blinds (c : ControlBlinds) : DptPayload :=
  DptPayload.Control (ControlBlinds_control c) (ControlBlinds_step_code c).
Definition time_of_day (t : TimeOfDay) : DptPayload :=
  DptPayload.Time (tod_day t) (tod_hour t) (tod_minute t) (tod_second t).
(** [Date] keeps the year as transmitted, the view widens it. *)
Definition full_date (d : Date) : DptPayload :=
  DptPayload.Date (date_day d) (date_month d)
    (if 90 <=? date_year d then 1900 + date_year d else 2000 + date_year d).
Definition date_time (d : DateTime) : DptPayload :=
  let p := dt_parts d in
  DptPayload.DateTime (p_year p + 1900) (p_month p) (p_day p) (p_day_of_week p) (p_hour p) (p_minute p) (p_second p).
Definition rgb (c : ColorRGB) : DptPayload := DptPayload.ColorRGB (rgb_red c) (rgb_green c) (rgb_blue c).
Definition rgbw (c : ColorRGBW) : DptPayload :=
  DptPayload.ColorRGBW (rgbw_red c) (rgbw_green c) (rgbw_blue c) (rgbw_white c).
(** [ColorXYY] keeps the coordinates as 16-bit words, the view divides them. *)
Definition coordinate (z : Z) : float := f32_div (f32_of_Z z) (f32_of_Z 65535).
Definition xyy (c : ColorXYY) : DptPayload :=
  DptPayload.ColorXYY (coordinate (xyy_x c)) (coordinate (xyy_y c)) (xyy_brightness c).

(** [DPTPercentV16] reads its word as hundredths of a percent, the runtime type
    gives the word. *)
Definition hundredths (p : DPTPercentV16) : Z := as_signed 16 (from_be (percent_v16_data p)).
Lemma booleans_agree : agrees Switch 1 (λ s, DptPayload.Bool (Switch_value s)) ∧ agrees BinaryControl 2 two_control.
Proof. split; checked_agree. Qed.
Lemma controls_agree : agrees ControlDimming 3 dimming ∧ agrees ControlBlinds 3 blinds.
Proof. split; bytes_agree. Qed.
Lemma small_integers_agree :
  agrees Scaling 5 (λ s, DptPayload.UnsignedInt (Scaling_value s)) ∧
  agrees PercentV8 6 (λ p, DptPayload.SignedInt (PercentV8_value p)) ∧
  agrees Value1Count 6 (λ p, DptPayload.SignedInt (Value1Count_value p)).
Proof. split_and!; bytes_agree. Qed.
Lemma words_agree :
  agrees Value2ByteUnsigned 7 (λ v, DptPayload.UnsignedInt (Value2ByteUnsigned_value v)) ∧
  agrees Brightness 7 (λ v, DptPayload.UnsignedInt (Brightness_value v)) ∧
  agrees Value2ByteSigned 8 (λ v, DptPayload.SignedInt (Value2ByteSigned_value v)) ∧
  agrees Value4ByteUnsigned 12 (λ v, DptPayload.UnsignedInt (Value4ByteUnsigned_value v)) ∧
  agrees Value4ByteSigned 13 (λ v, DptPayload.SignedInt (Value4ByteSigned_value v)) ∧
  agrees ActiveEnergy 13 (λ v, DptPayload.SignedInt (ActiveEnergy_value v)) ∧
  agrees ActiveEnergy8Byte 29 (λ v, DptPayload.SignedInt (energy8_value v)).
Proof. split_and!; word_agree. Qed.
Lemma scenes_agree :
  agrees SceneNumber 17 (λ s, DptPayload.Scene (scene_number s)) ∧
  agrees SceneControl 18 (λ s, DptPayload.Scene (scene_control_number s)).
Proof. split; bytes_agree. Qed.
Lemma hvac_agree :
  agrees HVACMode 20 (λ m, DptPayload.Enum (hvac_value m)) ∧
  agrees HVACControllerMode 20 (λ m, DptPayload.Enum (hvac_contr_value m)).
Proof.
  split; static_decoder Hl Ha; bytes_split Hl; cbn [idx lookup list_lookup mbind outcome_bind] in Ha;
    revert Ha; unfold HVACMode_new, HVACControllerMode_new; case_match; intros [= <-]; reflexivity.
Qed.
Lemma calendar_agree : agrees TimeOfDay 10 time_of_day ∧ agrees Date 11 full_date ∧ agrees DateTime 19 date_time.
Proof. split_and!; checked_agree. Qed.
Lemma from_be_pair hi lo : from_be [hi; lo] = from_be16 hi lo.
Proof. reflexivity. Qed.
Lemma colours_agree : agrees ColorRGB 232 rgb ∧ agrees ColorRGBW 251 rgbw ∧ agrees ColorXYY 242 xyy.
Proof.
  split_and!; [bytes_agree..|]. static_decoder Hl Ha; bytes_split Hl; injection Ha as <-.
  cbn [view_of DptPayload_from]. unfold XyyView_x, XyyView_y, XyyView_brightness.
  cbn [idx lookup list_lookup mbind outcome_bind]. unfold xyy, ColorXYY_new_with_validity. cbn [xyy_x xyy_y xyy_brightness].
  unfold xyy_coordinate, coordinate. by rewrite !from_be_pair.
Qed.
Lemma floats_agree : agrees Dpt14Float 14 (λ d, DptPayload.Float (f64_of_f32 (Dpt14Float_value d))).
Proof. bytes_agree. Qed.

Lemma hundredths_agree : agrees DPTPercentV16 8 (λ p, DptPayload.SignedInt (hundredths p)).
Proof. bytes_agree. Qed.

(** The datapoints compared, each with its main number and what the runtime types
    make of its value: the base types, and the aliases of those. *)
Inductive covered : ∀ A : Type, DptValue A → Z → (A → DptPayload) → Prop :=
| covers_switch : covered Switch _ 1 (λ s, DptPayload.Bool (Switch_value s))
| covers_control : covered BinaryControl _ 2 two_control
| covers_dimming : covered ControlDimming _ 3 dimming
| covers_blinds : covered ControlBlinds _ 3 blinds
| covers_scaling : covered Scaling _ 5 (λ s, DptPayload.UnsignedInt (Scaling_value s))
| covers_percent : covered PercentV8 _ 6 (λ p, DptPayload.SignedInt (PercentV8_value p))
| covers_count : covered Value1Count _ 6 (λ p, DptPayload.SignedInt (Value1Count_value p))
| covers_u16 : covered Value2ByteUnsigned _ 7 (λ v, DptPayload.UnsignedInt (Value2ByteUnsigned_value v))
| covers_brightness : covered Brightness _ 7 (λ v, DptPayload.UnsignedInt (Brightness_value v))
| covers_i16 : covered Value2ByteSigned _ 8 (λ v, DptPayload.SignedInt (Value2ByteSigned_value v))
| covers_hundredths : covered DPTPercentV16 _ 8 (λ p, DptPayload.SignedInt (hundredths p))
| covers_u32 : covered Value4ByteUnsigned _ 12 (λ v, DptPayload.UnsignedInt (Value4ByteUnsigned_value v))
| covers_i32 : covered Value4ByteSigned _ 13 (λ v, DptPayload.SignedInt (Value4ByteSigned_value v))
| covers_energy : covered ActiveEnergy _ 13 (λ v, DptPayload.SignedInt (ActiveEnergy_value v))
| covers_energy8 : covered ActiveEnergy8Byte _ 29 (λ v, DptPayload.SignedInt (energy8_value v))
| covers_time : covered TimeOfDay _ 10 time_of_day
| covers_date : covered Date _ 11 full_date
| covers_datetime : covered DateTime _ 19 date_time
| covers_float4 : covered Dpt14Float _ 14 (λ d, DptPayload.Float (f64_of_f32 (Dpt14Float_value d)))
| covers_scene : covered SceneNumber _ 17 (λ s, DptPayload.Scene (scene_number s))
| covers_scene_control : covered SceneControl _ 18 (λ s, DptPayload.Scene (scene_control_number s))
| covers_mode : covered HVACMode _ 20 (λ m, DptPayload.Enum (hvac_value m))
| covers_controller : covered HVACControllerMode _ 20 (λ m, DptPayload.Enum (hvac_contr_value m))
| covers_rgb : covered ColorRGB _ 232 rgb
| covers_rgbw : covered ColorRGBW _ 251 rgbw
| covers_xyy : covered ColorXYY _ 242 xyy
| covers_alias A (D : DptValue A) m f number vt u ha :
    covered A D m f → covered (dpt_alias number vt u ha A) _ m (f ∘ alias_base).
Lemma covered_agrees A D m f : covered A D m f → agrees A m f.
Proof.
  induction 1; try by apply agrees_alias.
  all: first [apply booleans_agree|apply controls_agree|apply small_integers_agree|apply words_agree|apply hundredths_agree
             |apply calendar_agree|apply floats_agree|apply scenes_agree|apply hvac_agree|apply colours_agree].
Qed.

(** * Properties *)


#[local] Instance equivalence_release : Profile := {| debug_build := false |}.
