(* ===== verification/GroupRegistry.v ===== *)
(** The group address registry ([src/src/protocol/dpt/group_registry.rs]) and
    the task that refreshes stale values ([start_group_refresh_task] in
    [src/src/application/knx.rs]).

    The map of bindings is a [gmap]; what the order of a [HashMap] leaves open
    is an [iteration], any enumeration of the entries.  Instants and durations
    are nanoseconds.  Each method holds the lock of the map throughout, so it
    is one step; [next_stale] reads the bindings one by one under that lock and
    is taken as one step too. *)
From Stdlib Require Import Sorting.Sorted.
From S2P Require Import Prelude Errors Address Telegram DptTypes.

Record Binding := MkBinding {
  b_dpt : DptType;
  b_ttl : option Z;
  b_last_seen : option Z;
  b_last_seen_value : option (list Z);
  b_last_tried : option Z;
}.
Record GroupAddressState := MkGroupAddressState {
  st_dpt : DptType;
  st_ttl : option Z;
  st_last_seen : option Z;
  st_last_seen_value : option (list Z);
  st_last_tried : option Z;
}.
Definition GroupAddressState_from (b : Binding) : GroupAddressState :=
  MkGroupAddressState (b_dpt b) (b_ttl b) (b_last_seen b) (b_last_seen_value b) (b_last_tried b).

Abbreviation GroupAddressRegistry := (gmap GroupAddress Binding).
Definition GroupAddressRegistry_new : GroupAddressRegistry := ∅.
Abbreviation RegM := (eff GroupAddressRegistry KnxError).

(** An enumeration of the entries of a map. *)
Record iteration := MkIteration {
  iterate :> GroupAddressRegistry → list (GroupAddress * Binding);
  iterate_perm : ∀ r, iterate r ≡ₚ map_to_list r;
}.

(** * Operations *)
Definition already_registered (address : GroupAddress) (bound dpt : DptType) : KnxError :=
  Protocol (DptError (DptType.number_str dpt)
    ("group address " +:+ GroupAddress_display address +:+ " is already registered as DPT "
     +:+ DptType.number_str bound +:+ " (cannot rebind to DPT " +:+ DptType.number_str dpt +:+ ")")).
Definition GroupAddressRegistry_register (address : GroupAddress) (dpt : DptType) : RegM unit :=
  entries ← gets id;
  match entries !! address with
  | Some existing =>
      if decide (b_dpt existing = dpt) then mret tt else throw (already_registered address (b_dpt existing) dpt)
  | None => modify (<[address := MkBinding dpt None None None None]>)
  end.
Definition GroupAddressRegistry_get (r : GroupAddressRegistry) (address : GroupAddress) : option DptType :=
  b_dpt <$> r !! address.
Definition GroupAddressRegistry_unregister (address : GroupAddress) : RegM (option DptType) :=
  entries ← gets id;
  _ ← modify (delete address);
  mret (b_dpt <$> entries !! address).
Definition GroupAddressRegistry_entries (it : iteration) (r : GroupAddressRegistry) : list (GroupAddress * DptType) :=
  prod_map id b_dpt <$> it r.
Definition GroupAddressRegistry_len (r : GroupAddressRegistry) : nat := size r.
Definition GroupAddressRegistry_is_empty (r : GroupAddressRegistry) : bool :=
  (GroupAddressRegistry_len r =? 0)%nat.

Definition not_registered (address : GroupAddress) : KnxError :=
  Protocol (DptError ""
    ("group address " +:+ GroupAddress_display address
     +:+ " is not registered; register it before configuring a refresh TTL")).
Definition set_ttl (ttl : option Z) (b : Binding) : Binding :=
  MkBinding (b_dpt b) ttl (b_last_seen b) (b_last_seen_value b) (b_last_tried b).
Definition GroupAddressRegistry_set_refresh_ttl (address : GroupAddress) (ttl : option Z) : RegM unit :=
  entries ← gets id;
  match entries !! address with
  | Some binding => modify (<[address := set_ttl ttl binding]>)
  | None => throw (not_registered address)
  end.
Definition set_seen (now : Z) (value : list Z) (b : Binding) : Binding :=
  MkBinding (b_dpt b) (b_ttl b) (Some now) (Some value) (b_last_tried b).
Definition GroupAddressRegistry_record_seen (now : Z) (address : GroupAddress) (value : list Z)
    (r : GroupAddressRegistry) : GroupAddressRegistry := alter (set_seen now value) address r.
Definition set_tried (now : Z) (b : Binding) : Binding :=
  MkBinding (b_dpt b) (b_ttl b) (b_last_seen b) (b_last_seen_value b) (Some now).
Definition GroupAddressRegistry_record_tried (now : Z) (address : GroupAddress)
    (r : GroupAddressRegistry) : GroupAddressRegistry := alter (set_tried now) address r.

Definition is_stale (now : Z) (b : Binding) : bool :=
  match b_ttl b with
  | None => false
  | Some ttl =>
      match b_last_seen b with Some last_seen => ttl <=? 0 `max` (now - last_seen) | None => true end
  end.
Definition tried_cmp (a b : option Z) : comparison :=
  match a, b with
  | None, None => Eq
  | None, Some _ => Lt
  | Some _, None => Gt
  | Some x, Some y => Z.compare x y
  end.
(** [Iterator::min_by]: the first of the least elements. *)
Definition min_by {A} (cmp : A → A → comparison) (l : list A) : option A :=
  match l with
  | [] => None
  | x :: l => Some (foldl (λ x y, match cmp x y with Gt => y | _ => x end) x l)
  end.
Definition GroupAddressRegistry_next_stale (it : iteration) (now : Z) (r : GroupAddressRegistry)
    : option GroupAddress :=
  fst <$> min_by (λ a b, tried_cmp (b_last_tried a.2) (b_last_tried b.2))
            (filter (λ e, is_stale now e.2 = true) (it r)).
Definition GroupAddressRegistry_state (r : GroupAddressRegistry) (address : GroupAddress)
    : option GroupAddressState := GroupAddressState_from <$> r !! address.

(** * The refresh task

    One pass of its loop after the sleep, at [now]: [sends] is whether the
    queue takes the telegram, which it does at [tried_at]. *)
Definition set_priority (p : Priority) (t : Telegram) : Telegram :=
  MkTelegram (source t) (destination t) (payload t) p (direction t) (telegram_type t) (timestamp t).
Definition refresh_pass (it : iteration) (now : Z) (sends : Telegram → bool) (tried_at : Z)
    (r : GroupAddressRegistry) : option Telegram * GroupAddressRegistry :=
  match GroupAddressRegistry_next_stale it now r with
  | None => (None, r)
  | Some address =>
      let read_telegram := set_priority Low (Telegram_group_read now address) in
      if sends read_telegram then (Some read_telegram, GroupAddressRegistry_record_tried tried_at address r)
      else (None, r)
  end.

(** * What the registry promises

    A partial map from addresses to datapoint types in which an address keeps
    its type until it is unregistered. *)
Inductive registry_op :=
| Register (a : GroupAddress) (d : DptType)
| Unregister (a : GroupAddress)
| Get (a : GroupAddress)
| Len
| SetRefreshTtl (a : GroupAddress) (ttl : option Z)
| RecordSeen (now : Z) (a : GroupAddress) (value : list Z)
| RecordTried (now : Z) (a : GroupAddress)
| RefreshPass (it : iteration) (now : Z) (sends : Telegram → bool) (tried_at : Z).
Inductive registry_answer :=
| Answer (res : result unit)
| Type_ (d : option DptType)
| Count (n : nat)
| Silent.

Definition registry_step (op : registry_op) (r : GroupAddressRegistry) : registry_answer * GroupAddressRegistry :=
  match op with
  | Register a d => prod_map Answer id (GroupAddressRegistry_register a d r)
  | Unregister a =>
      let '(d, r) := GroupAddressRegistry_unregister a r in (Type_ (default None (result_ok d)), r)
  | Get a => (Type_ (GroupAddressRegistry_get r a), r)
  | Len => (Count (GroupAddressRegistry_len r), r)
  | SetRefreshTtl a ttl => prod_map Answer id (GroupAddressRegistry_set_refresh_ttl a ttl r)
  | RecordSeen now a value => (Silent, GroupAddressRegistry_record_seen now a value r)
  | RecordTried now a => (Silent, GroupAddressRegistry_record_tried now a r)
  | RefreshPass it now sends tried_at => (Silent, (refresh_pass it now sends tried_at r).2)
  end.
Abbreviation bindings := (gmap GroupAddress DptType).
Definition bindings_step (op : registry_op) (m : bindings) : registry_answer * bindings :=
  match op with
  | Register a d =>
      match m !! a with
      | None => (Answer (Ok tt), <[a := d]> m)
      | Some d' => (Answer (if decide (d' = d) then Ok tt else Err (already_registered a d' d)), m)
      end
  | Unregister a => (Type_ (m !! a), delete a m)
  | Get a => (Type_ (m !! a), m)
  | Len => (Count (size m), m)
  | SetRefreshTtl a _ => (Answer (if m !! a is Some _ then Ok tt else Err (not_registered a)), m)
  | RecordSeen _ _ _ | RecordTried _ _ | RefreshPass _ _ _ _ => (Silent, m)
  end.
Fixpoint run {S} (step : registry_op → S → registry_answer * S) (ops : list registry_op) (s : S)
    : list registry_answer * S :=
  match ops with
  | [] => ([], s)
  | op :: ops => let '(x, s) := step op s in prod_map (cons x) id (run step ops s)
  end.

(** * Lemmas *)
Definition types (r : GroupAddressRegistry) : bindings := b_dpt <$> r.
Lemma types_lookup r a : types r !! a = b_dpt <$> r !! a.
Proof. apply lookup_fmap. Qed.
Lemma types_insert r a b : types (<[a := b]> r) = <[a := b_dpt b]> (types r).
Proof. apply fmap_insert. Qed.
(** An update that keeps the type. *)
Lemma types_update r a b b' : r !! a = Some b → b_dpt b' = b_dpt b → types (<[a := b']> r) = types r.
Proof. intros Ha E. rewrite types_insert, E. apply insert_id. by rewrite types_lookup, Ha. Qed.
Lemma types_alter r a f : (∀ b, b_dpt (f b) = b_dpt b) → types (alter f a r) = types r.
Proof.
  intros Hf. apply map_eq. intros i. rewrite !types_lookup. destruct (decide (a = i)) as [<-|Hne].
  - rewrite lookup_alter_eq. destruct (r !! a); cbn; [by rewrite Hf|done].
  - by rewrite lookup_alter_ne.
Qed.
Lemma refresh_pass_types it now sends tried_at r : types (refresh_pass it now sends tried_at r).2 = types r.
Proof. unfold refresh_pass. repeat case_match; [by apply types_alter|done..]. Qed.

Lemma registry_unregister_run a r : GroupAddressRegistry_unregister a r = (Ok (b_dpt <$> r !! a), delete a r).
Proof. reflexivity. Qed.
Lemma set_ttl_run a ttl r :
  GroupAddressRegistry_set_refresh_ttl a ttl r =
  match r !! a with
  | Some b => (Ok tt, <[a := set_ttl ttl b]> r)
  | None => (Err (not_registered a), r)
  end.
Proof. unfold GroupAddressRegistry_set_refresh_ttl. rewrite eff_bind_run. cbn [gets id]. by destruct (r !! a). Qed.
Lemma register_run a d r :
  GroupAddressRegistry_register a d r =
  match r !! a with
  | Some b => (if decide (b_dpt b = d) then Ok tt else Err (already_registered a (b_dpt b) d), r)
  | None => (Ok tt, <[a := MkBinding d None None None None]> r)
  end.
Proof.
  unfold GroupAddressRegistry_register. rewrite eff_bind_run. cbn [gets id].
  destruct (r !! a) as [b|]; [by destruct (decide (b_dpt b = d))|done].
Qed.

Lemma registry_step_refines op r :
  bindings_step op (types r) = prod_map id types (registry_step op r).
Proof.
  destruct op; cbn [bindings_step registry_step]; rewrite ?types_lookup, ?register_run, ?registry_unregister_run, ?set_ttl_run.
  - destruct (r !! a) as [b|]; cbn [fmap option_fmap option_map prod_map fst snd id]; [done|by rewrite types_insert].
  - cbn [prod_map fst snd]. unfold types. by rewrite fmap_delete.
  - done.
  - cbn. unfold types. by rewrite map_size_fmap.
  - destruct (r !! a) as [b|] eqn:Ha; cbn [fmap option_fmap option_map prod_map fst snd id]; [|done].
    by rewrite (types_update r a b).
  - cbn [prod_map fst snd id]. unfold GroupAddressRegistry_record_seen. by rewrite types_alter.
  - cbn [prod_map fst snd id]. unfold GroupAddressRegistry_record_tried. by rewrite types_alter.
  - cbn [prod_map fst snd id]. by rewrite refresh_pass_types.
Qed.
Lemma registry_run_refines ops r : run bindings_step ops (types r) = prod_map id types (run registry_step ops r).
Proof.
  revert r. induction ops as [|op ops IH]; intros r; [done|]. cbn [run].
  rewrite registry_step_refines. destruct (registry_step op r) as [x r']. cbn. rewrite IH. by destruct (run _ _ _).
Qed.

(** ** The order of refreshes *)
Definition tried_le (a b : option Z) : Prop := tried_cmp a b ≠ Gt.
#[global] Instance tried_le_dec a b : Decision (tried_le a b).
Proof. unfold tried_le. apply _. Defined.
Lemma tried_le_total a b : tried_cmp a b = Gt → tried_le b a.
Proof. destruct a, b; try done. unfold tried_le. cbn. rewrite Z.compare_gt_iff, Z.compare_gt_iff. lia. Qed.
#[global] Instance tried_le_preorder : PreOrder tried_le.
Proof.
  unfold tried_le. split.
  - intros [x|]; [|done]. cbn. by rewrite Z.compare_refl.
  - intros [x|] [y|] [z|]; try done. cbn. rewrite !Z.compare_gt_iff. lia.
Qed.
Lemma min_by_least {A} (key : A → option Z) l m :
  min_by (λ a b, tried_cmp (key a) (key b)) l = Some m → m ∈ l ∧ ∀ x, x ∈ l → tried_le (key m) (key x).
Proof.
  destruct l as [|x l]; [done|]. cbn. intros [= <-]. revert x. induction l as [|y l IH]; intros x; cbn.
  - split; [set_solver|]. by intros ? ->%list_elem_of_singleton.
  - assert (∃ z o, (z = x ∨ z = y) ∧ (o = x ∨ o = y) ∧ (x = z ∨ x = o) ∧ (y = z ∨ y = o) ∧ tried_le (key z) (key o) ∧
      match tried_cmp (key x) (key y) with Gt => y | _ => x end = z) as (z & o & Hz & Ho & Hx & Hy & Hzo & ->).
    { destruct (tried_cmp (key x) (key y)) eqn:E; [exists x, y|exists x, y|exists y, x]; split_and!; auto;
        [unfold tried_le; by rewrite E..|by apply tried_le_total]. }
    destruct (IH z) as [Hin Hle]. split; [set_solver|]. intros w Hw.
    assert (w = o ∨ w ∈ z :: l) as [->|?] by set_solver; [|by apply Hle].
    trans (key z); [apply Hle; set_solver|done].
Qed.

Lemma next_stale_spec it now r a :
  GroupAddressRegistry_next_stale it now r = Some a →
  ∃ b, r !! a = Some b ∧ is_stale now b = true ∧
    ∀ a' b', r !! a' = Some b' → is_stale now b' = true → tried_le (b_last_tried b) (b_last_tried b').
Proof.
  unfold GroupAddressRegistry_next_stale. intros ([a0 b] & Hm & E)%fmap_Some. cbn in E. subst a0.
  apply (min_by_least (λ e : GroupAddress * Binding, b_last_tried e.2)) in Hm as [Hin Hle].
  apply list_elem_of_filter in Hin as [Hs Hin]. rewrite iterate_perm, elem_of_map_to_list in Hin.
  exists b. split_and!; [done|done|]. intros a' b' Ha' Hs'. apply (Hle (a', b')).
  apply list_elem_of_filter. split; [done|]. by rewrite iterate_perm, elem_of_map_to_list.
Qed.
Lemma next_stale_exists it now r a b :
  r !! a = Some b → is_stale now b = true → is_Some (GroupAddressRegistry_next_stale it now r).
Proof.
  intros Ha Hs. unfold GroupAddressRegistry_next_stale. apply fmap_is_Some.
  assert ((a, b) ∈ filter (λ e : GroupAddress * Binding, is_stale now e.2 = true) (it r)) as Hin.
  { apply list_elem_of_filter. split; [done|]. by rewrite iterate_perm, elem_of_map_to_list. }
  destruct (filter _ (it r)) as [|x l]; [by apply not_elem_of_nil in Hin|]. by eexists.
Qed.

(** The passes of the refresh task, with other things the bus does in
    between: values seen and intervals changed. *)
Inductive refresh_event :=
| Pass (it : iteration) (now : Z)
| Seen (now : Z) (a : GroupAddress) (value : list Z)
| Ttl (a : GroupAddress) (ttl : option Z).
Definition refresh_step (e : refresh_event) (r : GroupAddressRegistry) : list GroupAddress * GroupAddressRegistry :=
  match e with
  | Pass it now =>
      let '(t, r) := refresh_pass it now (λ _, true) now r in
      (match t with Some t => match destination t with Group a => [a] | _ => [] end | None => [] end, r)
  | Seen now a value => ([], GroupAddressRegistry_record_seen now a value r)
  | Ttl a ttl => ([], (GroupAddressRegistry_set_refresh_ttl a ttl r).2)
  end.
(** The addresses refreshed, in order. *)
Fixpoint refreshed (es : list refresh_event) (r : GroupAddressRegistry) : list GroupAddress :=
  match es with
  | [] => []
  | e :: es => let '(l, r) := refresh_step e r in l ++ refreshed es r
  end.
Definition passes (es : list refresh_event) : list Z :=
  omap (λ e, match e with Pass _ now => Some now | _ => None end) es.
(** [a] is left alone and stale at every pass. *)
Definition waits (a : GroupAddress) (b : Binding) (e : refresh_event) : Prop :=
  match e with
  | Pass _ now => is_stale now b = true
  | Seen _ a' _ | Ttl a' _ => a' ≠ a
  end.

(** The addresses that go before [a]. *)
Definition ahead (a : GroupAddress) (tried : option Z) (r : GroupAddressRegistry) : gset GroupAddress :=
  dom (filter (λ e, e.1 ≠ a ∧ tried_le (b_last_tried e.2) tried) r).
Lemma elem_of_ahead a tried r x :
  x ∈ ahead a tried r ↔ x ≠ a ∧ ∃ b, r !! x = Some b ∧ tried_le (b_last_tried b) tried.
Proof.
  unfold ahead. rewrite elem_of_dom. split.
  - intros [b [Hx [Hne Hle]]%map_lookup_filter_Some]. eauto.
  - intros (Hne & b & Hx & Hle). exists b. by apply map_lookup_filter_Some.
Qed.
(** All attempts lie before [now]. *)
Definition tried_before (now : Z) (r : GroupAddressRegistry) : Prop :=
  ∀ a b t, r !! a = Some b → b_last_tried b = Some t → t < now.

Lemma alter_at f (r : GroupAddressRegistry) x b : r !! x = Some b → alter f x r = <[x := f b]> r.
Proof. intros Hx. by rewrite <-(insert_id r x b) at 1; rewrite ?alter_insert_eq. Qed.
Lemma pass_effect it now r a b :
  r !! a = Some b → is_stale now b = true →
  ∃ x bx, r !! x = Some bx ∧ tried_le (b_last_tried bx) (b_last_tried b) ∧
    refresh_step (Pass it now) r = ([x], <[x := set_tried now bx]> r).
Proof.
  intros Ha Hs. destruct (next_stale_exists it now r a b Ha Hs) as [x Hx].
  destruct (next_stale_spec _ _ _ _ Hx) as (bx & Hbx & _ & Hle). exists x, bx. split_and!; [done|by eapply Hle|].
  cbn [refresh_step]. unfold refresh_pass. rewrite Hx. cbn. f_equal.
  unfold GroupAddressRegistry_record_tried. by apply alter_at.
Qed.

(** What does not touch the attempts keeps the order. *)
Definition same_attempts (r r' : GroupAddressRegistry) : Prop :=
  ∀ x, b_last_tried <$> r' !! x = b_last_tried <$> r !! x.
Lemma same_attempts_alter f x r : (∀ b, b_last_tried (f b) = b_last_tried b) → same_attempts r (alter f x r).
Proof.
  intros Hf y. destruct (decide (x = y)) as [<-|Hne]; [|by rewrite lookup_alter_ne].
  rewrite lookup_alter_eq. destruct (r !! x); cbn; [by rewrite Hf|done].
Qed.
Lemma same_attempts_ahead a tried r r' : same_attempts r r' → ahead a tried r' = ahead a tried r.
Proof.
  intros Hs. apply set_eq. intros x. rewrite !elem_of_ahead. specialize (Hs x).
  destruct (r !! x) as [b|], (r' !! x) as [b'|]; [injection Hs as Hs|done..|].
  - split; intros (Hne & b0 & [= <-] & Hle); (split; [done|]); eexists; (split; [done|]); congruence.
  - by split; intros (? & ? & ? & ?).
Qed.
Lemma same_attempts_before now r r' : same_attempts r r' → tried_before now r → tried_before now r'.
Proof.
  intros Hs Hb x b t Hx Ht. specialize (Hs x). rewrite Hx in Hs. cbn in Hs.
  destruct (r !! x) as [b0|] eqn:E; [|done]. injection Hs as Hs. eapply Hb; [done|]. by rewrite <-Hs.
Qed.

Lemma ahead_passed a b x bx now r :
  r !! a = Some b → x ≠ a → r !! x = Some bx → tried_le (b_last_tried bx) (b_last_tried b) → tried_before now r →
  (size (ahead a (b_last_tried b) (<[x := set_tried now bx]> r)) < size (ahead a (b_last_tried b) r))%nat.
Proof.
  intros Ha Hne Hx Hle Hb. apply subset_size. split.
  - intros y. rewrite !elem_of_ahead. intros (? & by' & Hy & ?). split; [done|].
    apply lookup_insert_Some in Hy as [[<- _]|[_ Hy]]; eauto.
  - intros Hsub. assert (x ∈ ahead a (b_last_tried b) r) as Hin by (apply elem_of_ahead; eauto).
    apply Hsub, elem_of_ahead in Hin as (_ & by' & Hy & Hle'). rewrite lookup_insert_eq in Hy. injection Hy as <-.
    revert Hle'. unfold tried_le. cbn. destruct (b_last_tried b) as [t|] eqn:Et; [|done].
    rewrite Z.compare_gt_iff. specialize (Hb a b t Ha Et). lia.
Qed.

Lemma refresh_progress a b es r :
  r !! a = Some b → Forall (waits a b) es → StronglySorted Z.lt (passes es) →
  Forall (λ now, tried_before now r) (passes es) →
  (size (ahead a (b_last_tried b) r) < length (passes es))%nat → a ∈ refreshed es r.
Proof.
  revert r. induction es as [|e es IH]; intros r Ha Hw Hs Hb Hn; [by apply Nat.nlt_0_r in Hn|].
  apply Forall_cons in Hw as [He Hw]. destruct e as [it now|now x value|x ttl].
  - change (passes (Pass it now :: es)) with (now :: passes es) in *. cbn [length] in Hn. apply StronglySorted_inv in Hs as [Hs Hnow]. apply Forall_cons in Hb as [Hbn Hb].
    destruct (pass_effect it now r a b Ha He) as (x & bx & Hx & Hle & E). cbn [refreshed]. rewrite E. cbn [app].
    destruct (decide (x = a)) as [->|Hne]; [by left|]. right. apply IH; [by rewrite lookup_insert_ne|done|done| |].
    + apply Forall_forall. intros later Hl. rewrite Forall_forall in Hnow, Hb.
      intros y by' t [[<- <-]|[_ Hy]]%lookup_insert_Some Ht; [|by eapply Hb].
      cbn in Ht. injection Ht as <-. by apply Hnow.
    + pose proof (ahead_passed a b x bx now r Ha Hne Hx Hle Hbn). lia.
  - cbn [refreshed refresh_step app]. unfold GroupAddressRegistry_record_seen.
    assert (same_attempts r (alter (set_seen now value) x r)) as Hsame by by apply same_attempts_alter.
    apply IH; [by rewrite lookup_alter_ne|done|done|eapply Forall_impl; [exact Hb|]; intros; by eapply same_attempts_before|].
    by rewrite (same_attempts_ahead _ _ r).
  - cbn [refreshed refresh_step app]. rewrite set_ttl_run.
    destruct (r !! x) as [bx|] eqn:Hx; [|by apply IH]. cbn [snd].
    assert (same_attempts r (<[x := set_ttl ttl bx]> r)) as Hsame
      by (rewrite <-(alter_at (set_ttl ttl) r x bx Hx); by apply same_attempts_alter).
    apply IH; [by rewrite lookup_insert_ne|done|done|eapply Forall_impl; [exact Hb|]; intros; by eapply same_attempts_before|].
    by rewrite (same_attempts_ahead _ _ r).
Qed.

(** * Properties *)

(** C15: The registry keeps its contract: over any sequence of operations and
    refresh passes it answers as a map from addresses to datapoint types does
    in which registering a bound address under another type is refused with
    the error that names both, and in which only unregistering removes one. *)
Theorem registry_refines_bindings ops r :
  (run registry_step ops r).1 = (run bindings_step ops (types r)).1 ∧
  types (run registry_step ops r).2 = (run bindings_step ops (types r)).2.
Proof. by rewrite registry_run_refines. Qed.

(** C16: No stale address starves: with at most [size r] addresses registered, an
    address that stays stale is refreshed within [size r] passes of the task,
    whatever else is seen or configured meanwhile, in whatever order the map is
    iterated, and although the addresses before it may never answer. *)
Theorem refresh_fair a b es r :
  r !! a = Some b → Forall (waits a b) es → StronglySorted Z.lt (passes es) →
  Forall (λ now, tried_before now r) (passes es) →
  (size r ≤ length (passes es))%nat → a ∈ refreshed es r.
Proof.
  intros Ha Hw Hs Hb Hn. apply (refresh_progress a b); [done..|]. eapply Nat.lt_le_trans; [|exact Hn].
  rewrite <-size_dom. apply subset_size. split.
  - intros x (_ & b' & Hx & _)%elem_of_ahead. by apply elem_of_dom.
  - intros Hsub. assert (a ∈ dom r) as Hin by (by apply elem_of_dom). by apply Hsub, elem_of_ahead in Hin as [].
Qed.

(** ** Witness *)
Definition list_order : iteration := MkIteration map_to_list (λ r, reflexivity _).
Definition sample_binding : Binding := MkBinding DptType.Switch (Some 5) None None None.
Definition sample_registry : GroupAddressRegistry :=
  <[MkGroupAddress 0x0A03 := sample_binding]> (<[MkGroupAddress 0x0A04 := sample_binding]> ∅).
Lemma refresh_fair_witness :
  MkGroupAddress 0x0A04 ∈
    refreshed [Pass list_order 10; Seen 11 (MkGroupAddress 0x0A03) [1]; Pass list_order 20] sample_registry.
Proof.
  assert (∀ now, tried_before now sample_registry) as Hb.
  { intros now x b t Hx Ht. unfold sample_registry in Hx.
    apply lookup_insert_Some in Hx as [[_ <-]|[_ Hx]]; [done|].
    apply lookup_insert_Some in Hx as [[_ <-]|[_ Hx]]; [done|]. by rewrite lookup_empty in Hx. }
  apply (refresh_fair (MkGroupAddress 0x0A04) sample_binding); [reflexivity| | | |vm_compute; lia].
  - repeat constructor; discriminate.
  - repeat constructor.
  - repeat constructor; apply Hb.
Defined.
