(* ===== verification/Callbacks.v ===== *)
(** The event handler ([src/src/application/callbacks.rs]): callbacks for
    telegrams and for connection states, their handles and filters.

    A callback is what one call of it does to the world around the handler, and
    how the call ends: it returns, it is cut off by the timeout, or it panics.
    [notify_*] holds the read lock of its list throughout, so the list does not
    change under it.  What the [log] macros of the notifications record, which
    callback was called and how the call ended, is the list they return. *)
From Stdlib Require Import Sorting.Sorted.
From S2P Require Import Prelude Errors Address Telegram.

Record CallbackHandle := MkCallbackHandle { handle_0 : Z }.
#[global] Instance CallbackHandle_eq_dec : EqDecision CallbackHandle.
Proof. solve_decision. Defined.
Definition CallbackHandle_new (id : Z) : CallbackHandle := MkCallbackHandle id.
Definition CallbackHandle_id (h : CallbackHandle) : Z := handle_0 h.
Definition CallbackHandle_display (h : CallbackHandle) : string := "CallbackHandle(" +:+ dec (handle_0 h) +:+ ")".

Inductive TelegramFilter :=
| GroupAddresses (addresses : list GroupAddress)
| AddressRange (start end_ : GroupAddress)
| Custom (filter_fn : Telegram → bool)
| All.
Definition TelegramFilter_default : TelegramFilter := All.
Definition TelegramFilter_matches (f : TelegramFilter) (telegram : Telegram) : bool :=
  match f with
  | GroupAddresses addresses =>
      match destination telegram with Group group_addr => bool_decide (group_addr ∈ addresses) | _ => false end
  | AddressRange start end_ =>
      match destination telegram with
      | Group group_addr =>
          (ga_raw start <=? ga_raw group_addr) &&
          (ga_raw group_addr <=? ga_raw end_)
      | _ => false
      end
  | Custom filter_fn => filter_fn telegram
  | All => true
  end.

(** The [ConnectionState] of the callbacks, apart from that of [Connection]. *)
Module ConnectionState.
Inductive CallbackState := Disconnected | Connecting | Connected | Disconnecting | Error.
Definition CallbackState_display (s : CallbackState) : string :=
  match s with
  | Disconnected => "disconnected" | Connecting => "connecting" | Connected => "connected"
  | Disconnecting => "disconnecting" | Error => "error"
  end.
End ConnectionState.
Abbreviation ConnectionState := ConnectionState.CallbackState.

(** How a call of a callback ends. *)
Inductive call_end := Returns | TimesOut | Panics.

Section handler.
(** The world the callbacks act on. *)
Context {W : Type}.

Definition TelegramCallbackFn : Type := Telegram → W → call_end * W.
Definition ConnectionCallbackFn : Type := ConnectionState → W → call_end * W.

Record TelegramCallbackEntry := MkTelegramCallbackEntry {
  te_id : CallbackHandle;
  te_callback : TelegramCallbackFn;
  te_filter : TelegramFilter;
  te_include_outgoing : bool;
}.
Record ConnectionCallbackEntry := MkConnectionCallbackEntry {
  ce_id : CallbackHandle;
  ce_callback : ConnectionCallbackFn;
}.
Record EventHandler := MkEventHandler {
  telegram_callbacks : list TelegramCallbackEntry;
  connection_callbacks : list ConnectionCallbackEntry;
  next_id : Z;
}.
Definition EventHandler_new : EventHandler := MkEventHandler [] [] 1.

Abbreviation H := (eff EventHandler KnxError).
(** [fetch_add] on an [AtomicU64]. *)
Definition generate_handle : H CallbackHandle := λ h,
  (Ok (CallbackHandle_new (next_id h)),
   MkEventHandler (telegram_callbacks h) (connection_callbacks h) ((next_id h + 1) mod 2 ^ 64)).
Definition push_telegram (e : TelegramCallbackEntry) (h : EventHandler) : EventHandler :=
  MkEventHandler (telegram_callbacks h ++ [e]) (connection_callbacks h) (next_id h).
Definition push_connection (e : ConnectionCallbackEntry) (h : EventHandler) : EventHandler :=
  MkEventHandler (telegram_callbacks h) (connection_callbacks h ++ [e]) (next_id h).

Definition register_telegram_callback_filtered (callback : TelegramCallbackFn) (filter : TelegramFilter)
    (include_outgoing : bool) : H CallbackHandle :=
  handle ← generate_handle;
  _ ← modify (push_telegram (MkTelegramCallbackEntry handle callback filter include_outgoing));
  mret handle.
Definition register_telegram_callback (callback : TelegramCallbackFn) : H CallbackHandle :=
  register_telegram_callback_filtered callback All false.
Definition register_connection_callback (callback : ConnectionCallbackFn) : H CallbackHandle :=
  handle ← generate_handle;
  _ ← modify (push_connection (MkConnectionCallbackEntry handle callback));
  mret handle.

(** Plain functions as callbacks: they return or panic, and are never cut off,
    since they do not wait.  The [bool] is whether the function returns. *)
Definition SyncTelegramCb (f : Telegram → W → bool * W) : TelegramCallbackFn := λ telegram w,
  let '(ok, w) := f telegram w in (if ok then Returns else Panics, w).
Definition SyncConnectionCb (f : ConnectionState → W → bool * W) : ConnectionCallbackFn := λ state w,
  let '(ok, w) := f state w in (if ok then Returns else Panics, w).
Definition register_telegram_callback_sync (f : Telegram → W → bool * W) : H CallbackHandle :=
  register_telegram_callback_filtered (SyncTelegramCb f) All false.
Definition register_telegram_callback_sync_filtered (f : Telegram → W → bool * W) (filter : TelegramFilter)
    (include_outgoing : bool) : H CallbackHandle :=
  register_telegram_callback_filtered (SyncTelegramCb f) filter include_outgoing.
Definition register_connection_callback_sync (f : ConnectionState → W → bool * W) : H CallbackHandle :=
  register_connection_callback (SyncConnectionCb f).
Definition register_telegram_callback_boxed (callback : TelegramCallbackFn) (filter : TelegramFilter)
    (include_outgoing : bool) : H CallbackHandle :=
  handle ← generate_handle;
  _ ← modify (push_telegram (MkTelegramCallbackEntry handle callback filter include_outgoing));
  mret handle.
Definition register_connection_callback_boxed (callback : ConnectionCallbackFn) : H CallbackHandle :=
  handle ← generate_handle;
  _ ← modify (push_connection (MkConnectionCallbackEntry handle callback));
  mret handle.

(** [position] and [remove]: the first entry with the handle. *)
Fixpoint remove_first {E} (id : E → CallbackHandle) (handle : CallbackHandle) (l : list E) : bool * list E :=
  match l with
  | [] => (false, [])
  | e :: l => if decide (id e = handle) then (true, l) else prod_map (λ b, b) (cons e) (remove_first id handle l)
  end.
Definition unregister_telegram_callback (handle : CallbackHandle) : H bool := λ h,
  let '(found, l) := remove_first te_id handle (telegram_callbacks h) in
  (Ok found, MkEventHandler l (connection_callbacks h) (next_id h)).
Definition unregister_connection_callback (handle : CallbackHandle) : H bool := λ h,
  let '(found, l) := remove_first ce_id handle (connection_callbacks h) in
  (Ok found, MkEventHandler (telegram_callbacks h) l (next_id h)).
Definition unregister_callback (handle : CallbackHandle) : H bool :=
  telegram_removed ← unregister_telegram_callback handle;
  connection_removed ← unregister_connection_callback handle;
  mret (telegram_removed || connection_removed).
Definition clear_all_callbacks (h : EventHandler) : EventHandler := MkEventHandler [] [] (next_id h).

Definition telegram_callback_count (h : EventHandler) : nat := length (telegram_callbacks h).
Definition connection_callback_count (h : EventHandler) : nat := length (connection_callbacks h).
Definition total_callback_count (h : EventHandler) : nat :=
  telegram_callback_count h + connection_callback_count h.

(** A telegram an entry is not called with. *)
Definition skips (e : TelegramCallbackEntry) (telegram : Telegram) : bool :=
  (negb (te_include_outgoing e) && bool_decide (direction telegram = Outgoing)) ||
  negb (TelegramFilter_matches (te_filter e) telegram).
Fixpoint notify_telegram_entries (entries : list TelegramCallbackEntry) (telegram : Telegram)
    : eff W KnxError (list (CallbackHandle * call_end)) :=
  match entries with
  | [] => mret []
  | e :: entries =>
      if skips e telegram then notify_telegram_entries entries telegram
      else λ w,
        let '(ended, w) := te_callback e telegram w in
        match ended with
        | Panics => (Panic, w)
        | _ => (l ← notify_telegram_entries entries telegram; mret ((te_id e, ended) :: l)) w
        end
  end.
Definition notify_telegram_received (h : EventHandler) (telegram : Telegram)
    : eff W KnxError (list (CallbackHandle * call_end)) :=
  notify_telegram_entries (telegram_callbacks h) telegram.
Fixpoint notify_connection_entries (entries : list ConnectionCallbackEntry) (state : ConnectionState)
    : eff W KnxError (list (CallbackHandle * call_end)) :=
  match entries with
  | [] => mret []
  | e :: entries => λ w,
      let '(ended, w) := ce_callback e state w in
      match ended with
      | Panics => (Panic, w)
      | _ => (l ← notify_connection_entries entries state; mret ((ce_id e, ended) :: l)) w
      end
  end.
Definition notify_connection_state_changed (h : EventHandler) (state : ConnectionState)
    : eff W KnxError (list (CallbackHandle * call_end)) :=
  notify_connection_entries (connection_callbacks h) state.
End handler.
#[global] Arguments TelegramCallbackFn : clear implicits.
#[global] Arguments ConnectionCallbackFn : clear implicits.
#[global] Arguments TelegramCallbackEntry : clear implicits.
#[global] Arguments ConnectionCallbackEntry : clear implicits.
#[global] Arguments EventHandler : clear implicits.

(** * The handler under concurrent callers

    A registration takes a handle and then, under the lock, adds its entry; in
    between other callers may run.  [pending] holds the registrations that have
    a handle and no entry yet. *)
Section concurrent.
Context {W : Type}.
Abbreviation entry := (TelegramCallbackEntry W + ConnectionCallbackEntry W)%type.
Definition entry_id (e : entry) : CallbackHandle :=
  match e with inl e => te_id e | inr e => ce_id e end.
Definition push (e : entry) (h : EventHandler W) : EventHandler W :=
  match e with inl e => push_telegram e h | inr e => push_connection e h end.
(** What the caller registers, waiting for its handle. *)
Inductive handler_step : EventHandler W * list entry → EventHandler W * list entry → Prop :=
| step_take h pending (mk : CallbackHandle → entry) id h' :
    (∀ id, entry_id (mk id) = id) → generate_handle h = (Ok id, h') →
    handler_step (h, pending) (h', pending ++ [mk id])
| step_push h p1 e p2 : handler_step (h, p1 ++ e :: p2) (push e h, p1 ++ p2)
| step_unregister_telegram h pending id :
    handler_step (h, pending) ((unregister_telegram_callback id h).2, pending)
| step_unregister_connection h pending id :
    handler_step (h, pending) ((unregister_connection_callback id h).2, pending)
| step_clear h pending : handler_step (h, pending) (clear_all_callbacks h, pending).

(** Every handle in use. *)
Definition handles (s : EventHandler W * list entry) : list CallbackHandle :=
  (te_id <$> telegram_callbacks s.1) ++ (ce_id <$> connection_callbacks s.1) ++ (entry_id <$> s.2).
Definition handles_ok (s : EventHandler W * list entry) : Prop :=
  NoDup (handles s) ∧ Forall (λ x, handle_0 x < next_id s.1) (handles s) ∧ 0 < next_id s.1.

(** ** Removing *)
Lemma filter_keep {E} (P : E → Prop) `{∀ x, Decision (P x)} (l : list E) : (∀ x, x ∈ l → P x) → filter P l = l.
Proof.
  induction l as [|x l IH]; [done|]. intros Hp. rewrite filter_cons, decide_True by (apply Hp; by left).
  f_equal. apply IH. intros y Hy. apply Hp. by right.
Qed.
Lemma Forall_sub {E} (P : E → Prop) (l k : list E) : sublist l k → Forall P k → Forall P l.
Proof.
  rewrite !Forall_forall. intros Hs Hk x Hx. apply Hk. eapply elem_of_submseteq; [done|by apply sublist_submseteq].
Qed.
Lemma remove_first_spec {E} (id : E → CallbackHandle) x (l : list E) :
  NoDup (id <$> l) →
  remove_first id x l = (bool_decide (x ∈ id <$> l), filter (λ e, id e ≠ x) l).
Proof.
  induction l as [|e l IH]; cbn [fmap list_fmap remove_first]; [done|]. intros [Hn Hd]%NoDup_cons.
  rewrite filter_cons. destruct (decide (id e = x)) as [<-|Hne].
  - rewrite decide_False by auto. rewrite bool_decide_true by set_solver. f_equal. symmetry. apply filter_keep.
    intros y Hy Ey. apply Hn. rewrite <-Ey. by apply list_elem_of_fmap_2.
  - rewrite decide_True by done. rewrite IH by done. cbn. f_equal. apply bool_decide_ext. set_solver.
Qed.
Lemma remove_first_sublist {E} (id : E → CallbackHandle) x (l : list E) : sublist (remove_first id x l).2 l.
Proof.
  induction l as [|e l IH]; cbn; [done|]. case_decide; [by apply sublist_cons|].
  destruct (remove_first id x l). by apply sublist_skip.
Qed.
Lemma handles_ok_shrink h h' (pending : list entry) :
  sublist (te_id <$> telegram_callbacks h') (te_id <$> telegram_callbacks h) →
  sublist (ce_id <$> connection_callbacks h') (ce_id <$> connection_callbacks h) →
  next_id h' = next_id h → handles_ok (h, pending) → handles_ok (h', pending).
Proof.
  intros Ht Hc En (Hd & Hf & Hp). assert (sublist (handles (h', pending)) (handles (h, pending))) as Hs
    by (unfold handles; cbn; by repeat apply sublist_app).
  split; [by eapply sublist_NoDup|]. cbn [fst]. rewrite En. split; [by eapply Forall_sub|done].
Qed.
Lemma handles_perm h p e :
  handles (push e h, p) ≡ₚ entry_id e :: handles (h, p).
Proof. destruct e; unfold handles; cbn; rewrite fmap_app; cbn; solve_Permutation. Qed.
Lemma handles_pending h p1 (e : entry) p2 : handles (h, p1 ++ e :: p2) ≡ₚ entry_id e :: handles (h, p1 ++ p2).
Proof. unfold handles. cbn. rewrite !fmap_app. cbn. solve_Permutation. Qed.
Lemma handles_ok_perm s s' :
  handles s' ≡ₚ handles s → next_id s'.1 = next_id s.1 → handles_ok s → handles_ok s'.
Proof. intros Hp En (Hd & Hf & Hn). split_and!; rewrite ?Hp, ?En; done. Qed.

Lemma step_handles_ok s s' :
  handler_step s s' → next_id s.1 + 1 < 2 ^ 64 → handles_ok s →
  handles_ok s' ∧ next_id s.1 ≤ next_id s'.1 ≤ next_id s.1 + 1.
Proof.
  intros Hs Hb Hok. destruct Hs as [h p mk id h' Hmk Hg|h p1 e p2|h p id|h p id|h p]; cbn [fst] in *.
  - destruct Hok as (Hd & Hf & Hn). cbn [fst] in *. injection Hg as <- <-. cbn [next_id]. rewrite Z.mod_small by lia.
    split; [|lia]. set (h' := MkEventHandler _ _ _).
    assert (handles (h', p ++ [mk (CallbackHandle_new (next_id h))]) ≡ₚ CallbackHandle_new (next_id h) :: handles (h, p)) as Hp.
    { rewrite handles_pending, Hmk, app_nil_r. done. }
    split_and!; rewrite ?Hp.
    + apply NoDup_cons. split; [|done]. intros Hin. rewrite Forall_forall in Hf. apply Hf in Hin. cbn in Hin. lia.
    + apply Forall_cons. split; [cbn; lia|]. eapply Forall_impl; [exact Hf|]. cbn. lia.
    + cbn. lia.
  - assert (next_id (push e h) = next_id h) as En by (by destruct e). rewrite En. split; [|lia].
    apply (handles_ok_perm (h, p1 ++ e :: p2)); [|exact En|exact Hok]. by rewrite handles_perm, handles_pending.
  - unfold unregister_telegram_callback. pose proof (remove_first_sublist te_id id (telegram_callbacks h)) as Hsub.
    destruct (remove_first te_id id (telegram_callbacks h)) as [b l]. cbn in Hsub |- *. split; [|lia].
    eapply handles_ok_shrink; [..|exact Hok]; cbn; [by apply fmap_sublist|done|done].
  - unfold unregister_connection_callback. pose proof (remove_first_sublist ce_id id (connection_callbacks h)) as Hsub.
    destruct (remove_first ce_id id (connection_callbacks h)) as [b l]. cbn in Hsub |- *. split; [|lia].
    eapply handles_ok_shrink; [..|exact Hok]; cbn; [done|by apply fmap_sublist|done].
  - split; [|cbn; lia]. apply (handles_ok_shrink h); [apply sublist_nil_l|apply sublist_nil_l|done|done].
Qed.

(** Runs of at most [n] steps. *)
Lemma steps_handles_ok n s s' :
  nsteps handler_step n s s' → next_id s.1 + Z.of_nat n < 2 ^ 64 → handles_ok s →
  handles_ok s' ∧ next_id s'.1 ≤ next_id s.1 + Z.of_nat n.
Proof.
  intros Hs. induction Hs as [s|n s1 s2 s3 H1 Hs IH]; intros Hb Hok; [split; [done|lia]|].
  destruct (step_handles_ok _ _ H1) as [Hok2 Hn2]; [lia|done|]. destruct IH as [? ?]; [lia|done|]. split; [done|lia].
Qed.
Lemma new_handles_ok : handles_ok (EventHandler_new, []).
Proof. split_and!; [constructor|constructor|done]. Qed.

Lemma unregister_run x (h : EventHandler W) :
  NoDup (handles (h, [])) →
  unregister_callback x h =
    (Ok (bool_decide (x ∈ handles (h, []))),
     MkEventHandler (filter (λ e, te_id e ≠ x) (telegram_callbacks h))
       (filter (λ e, ce_id e ≠ x) (connection_callbacks h)) (next_id h)).
Proof.
  unfold handles. cbn. rewrite app_nil_r. intros (Ht & _ & Hc)%NoDup_app.
  unfold unregister_callback. rewrite eff_bind_run. unfold unregister_telegram_callback at 1.
  rewrite remove_first_spec by done. rewrite eff_bind_run. unfold unregister_connection_callback at 1. cbn [connection_callbacks].
  rewrite remove_first_spec by done. cbn. rewrite <-bool_decide_or.
  by rewrite (bool_decide_ext _ (x ∈ (te_id <$> telegram_callbacks h) ++ (ce_id <$> connection_callbacks h))) by set_solver.
Qed.
End concurrent.

(** * Sequences of calls *)
Section history.
Context {W : Type}.
Inductive callback_op :=
| OnTelegram (cb : TelegramCallbackFn W) (f : TelegramFilter) (include_outgoing : bool)
| OnConnection (cb : ConnectionCallbackFn W)
| Remove (x : CallbackHandle)
| Clear.
Definition callback_step (h : EventHandler W) (op : callback_op) : EventHandler W :=
  match op with
  | OnTelegram cb f out => (register_telegram_callback_filtered cb f out h).2
  | OnConnection cb => (register_connection_callback cb h).2
  | Remove x => (unregister_callback x h).2
  | Clear => clear_all_callbacks h
  end.
Definition after (ops : list callback_op) : EventHandler W := foldl callback_step EventHandler_new ops.
Definition is_registration (op : callback_op) : option unit :=
  match op with OnTelegram _ _ _ | OnConnection _ => Some tt | _ => None end.
(** The handle of the next registration after [ops]. *)
Definition handle_after (ops : list callback_op) : CallbackHandle :=
  MkCallbackHandle (1 + Z.of_nat (length (omap is_registration ops))).
(** [e] was registered by one of [ops] and neither removed nor cleared since. *)
Definition registered (ops : list callback_op) (e : TelegramCallbackEntry W) : Prop :=
  ∃ ops1 ops2, ops = ops1 ++ OnTelegram (te_callback e) (te_filter e) (te_include_outgoing e) :: ops2 ∧
    te_id e = handle_after ops1 ∧ (Remove (te_id e) ∉ ops2) ∧ (Clear ∉ ops2).

Lemma after_snoc ops op : after (ops ++ [op]) = callback_step (after ops) op.
Proof. unfold after. by rewrite foldl_app. Qed.
Lemma registered_snoc ops op e :
  registered (ops ++ [op]) e ↔
  (registered ops e ∧ op ≠ Remove (te_id e) ∧ op ≠ Clear) ∨
  (op = OnTelegram (te_callback e) (te_filter e) (te_include_outgoing e) ∧ te_id e = handle_after ops).
Proof.
  split.
  - intros (ops1 & ops2 & E & Hid & Hr & Hc). destruct ops2 as [|op' ops2 _] using rev_ind.
    + apply app_inj_tail in E as [-> ->]. by right.
    + rewrite app_comm_cons, app_assoc in E. apply app_inj_tail in E as [-> ->].
      left. split; [exists ops1, ops2; set_solver|]. set_solver.
  - intros [[(ops1 & ops2 & -> & Hid & Hr & Hc) [Hr' Hc']]|[-> Hid]].
    + exists ops1, (ops2 ++ [op]). rewrite <-app_assoc. set_solver.
    + exists ops, []. set_solver.
Qed.

(** What the handler holds after [ops]. *)
Definition history_ok (ops : list callback_op) : Prop :=
  handles_ok (after ops, []) ∧ next_id (after ops) = handle_0 (handle_after ops) ∧
  StronglySorted Z.lt ((λ e, handle_0 (te_id e)) <$> telegram_callbacks (after ops)) ∧
  ∀ e, e ∈ telegram_callbacks (after ops) ↔ registered ops e.
Lemma handle_after_snoc ops op :
  handle_0 (handle_after (ops ++ [op])) =
  handle_0 (handle_after ops) + match is_registration op with Some _ => 1 | None => 0 end.
Proof. cbn. rewrite omap_app, length_app. cbn. destruct (is_registration op); cbn; lia. Qed.
Lemma telegram_step h cb f out :
  callback_step h (OnTelegram cb f out) =
  MkEventHandler (telegram_callbacks h ++ [MkTelegramCallbackEntry (MkCallbackHandle (next_id h)) cb f out])
    (connection_callbacks h) ((next_id h + 1) mod 2 ^ 64).
Proof. reflexivity. Qed.
Lemma connection_step h cb :
  callback_step h (OnConnection cb) =
  MkEventHandler (telegram_callbacks h)
    (connection_callbacks h ++ [MkConnectionCallbackEntry (MkCallbackHandle (next_id h)) cb]) ((next_id h + 1) mod 2 ^ 64).
Proof. reflexivity. Qed.
(** A registration run without interruption is two steps of the system. *)
Lemma register_handles_ok (h : EventHandler W) (mk : CallbackHandle → TelegramCallbackEntry W + ConnectionCallbackEntry W) :
  (∀ id, entry_id (mk id) = id) → next_id h + 1 < 2 ^ 64 → handles_ok (h, []) →
  handles_ok (push (mk (MkCallbackHandle (next_id h)))
    (MkEventHandler (telegram_callbacks h) (connection_callbacks h) ((next_id h + 1) mod 2 ^ 64)), []).
Proof.
  intros Hmk Hb Hok. assert (0 < next_id h) as Hpos by apply Hok.
  assert (handles_ok (MkEventHandler (telegram_callbacks h) (connection_callbacks h) ((next_id h + 1) mod 2 ^ 64),
    [mk (MkCallbackHandle (next_id h))])) as Hok1.
  { apply (step_handles_ok (h, [])); [|done|done]. by apply (step_take h [] mk). }
  eapply (handles_ok_perm _ _); [| |exact Hok1]; [|by destruct (mk _)].
  rewrite handles_perm. symmetry. apply (handles_pending _ []).
Qed.
Lemma sorted_snoc (l : list Z) x : StronglySorted Z.lt l → Forall (λ y, y < x) l → StronglySorted Z.lt (l ++ [x]).
Proof.
  induction 1 as [|y l Hs IH Hf]; intros Hx; cbn; [repeat constructor|]. apply Forall_cons in Hx as [Hy Hx].
  constructor; [by apply IH|]. apply Forall_app. by repeat constructor.
Qed.
Lemma sorted_filter (f : TelegramCallbackEntry W → Z) (P : TelegramCallbackEntry W → Prop) `{∀ x, Decision (P x)} l :
  StronglySorted Z.lt (f <$> l) → StronglySorted Z.lt (f <$> filter P l).
Proof.
  induction l as [|x l IH]; [done|]. rewrite fmap_cons. intros [Hs Hf]%StronglySorted_inv. rewrite filter_cons.
  case_decide; [|by apply IH]. cbn. constructor; [by apply IH|].
  rewrite Forall_forall in Hf |- *. intros y (e & -> & [_ Hy]%list_elem_of_filter)%list_elem_of_fmap.
  by apply Hf, list_elem_of_fmap_2.
Qed.

Lemma history_snoc ops op :
  history_ok ops → handle_0 (handle_after ops) + 1 < 2 ^ 64 → history_ok (ops ++ [op]).
Proof.
  intros (Hok & En & Hs & He) Hb. unfold history_ok. rewrite handle_after_snoc, after_snoc.
  assert (0 < next_id (after ops)) as Hpos by apply Hok.
  destruct op as [cb f out|cb|x|]; cbn [is_registration].
  - rewrite telegram_step. split_and!.
    + apply (register_handles_ok (after ops) (λ id, inl (MkTelegramCallbackEntry id cb f out))); [done|lia|done].
    + cbn [next_id]. rewrite Z.mod_small by lia. lia.
    + cbn [telegram_callbacks]. rewrite fmap_app. cbn. apply sorted_snoc; [done|].
      destruct Hok as (_ & Hf & _). unfold handles in Hf. cbn [fst snd] in Hf. apply Forall_app in Hf as [Hf _].
      rewrite Forall_forall in Hf. apply Forall_forall. intros y (e & -> & Hy)%list_elem_of_fmap. by apply Hf, list_elem_of_fmap_2.
    + intros e. cbn [telegram_callbacks]. rewrite registered_snoc, elem_of_app, He, list_elem_of_singleton.
      split; [intros [?| ->]; [left; done|]|intros [[? _]|[[= -> -> ->] Hid]]; [by left|]].
      * right. split; [done|]. cbn [te_id]. rewrite En. reflexivity.
      * right. destruct e as [id cb' f' out']. cbn [te_id te_callback te_filter te_include_outgoing] in *.
        rewrite Hid, En. reflexivity.
  - rewrite connection_step. split_and!.
    + apply (register_handles_ok (after ops) (λ id, inr (MkConnectionCallbackEntry id cb))); [done|lia|done].
    + cbn [next_id]. rewrite Z.mod_small by lia. lia.
    + done.
    + intros e. cbn [telegram_callbacks]. rewrite registered_snoc, He. naive_solver.
  - cbn [callback_step]. rewrite unregister_run by apply Hok. cbn [snd]. split_and!.
    + apply (handles_ok_shrink (after ops)); [..|done|done]; apply fmap_sublist, sublist_filter.
    + cbn [next_id]. lia.
    + by apply sorted_filter.
    + intros e. cbn [telegram_callbacks]. rewrite registered_snoc, list_elem_of_filter, He. naive_solver.
  - cbn [callback_step]. unfold clear_all_callbacks. split_and!.
    + apply (handles_ok_shrink (after ops)); [apply sublist_nil_l|apply sublist_nil_l|done|done].
    + cbn [next_id]. lia.
    + constructor.
    + intros e. cbn [telegram_callbacks]. rewrite registered_snoc, elem_of_nil. naive_solver.
Qed.
Lemma registrations_le ops : (length (omap is_registration ops) ≤ length ops)%nat.
Proof. induction ops as [|op ops IH]; [done|]. cbn. destruct (is_registration op); cbn; lia. Qed.
Lemma history_all ops : Z.of_nat (length ops) + 1 < 2 ^ 64 → history_ok ops.
Proof.
  induction ops as [|op ops IH] using rev_ind; intros Hn.
  - split_and!; [apply new_handles_ok|done|constructor|]. intros e. cbn. rewrite elem_of_nil. split; [done|].
    intros (ops1 & ops2 & E & _). by destruct ops1.
  - rewrite length_app in Hn. cbn in Hn. apply history_snoc; [apply IH; lia|].
    cbn. pose proof (registrations_le ops). lia.
Qed.

Lemma notify_entries_run (t : Telegram) (es : list (TelegramCallbackEntry W)) w :
  (∀ e, e ∈ es → ∀ w, (te_callback e t w).1 ≠ Panics) →
  ∃ calls w', notify_telegram_entries es t w = (Ok calls, w') ∧ calls.*1 = te_id <$> filter (λ e, skips e t = false) es.
Proof.
  revert w. induction es as [|e es IH]; intros w Hp; [by eexists _, _|]. cbn [notify_telegram_entries]. rewrite filter_cons.
  destruct (skips e t) eqn:Hs.
  - rewrite decide_False by done. apply IH. intros e' He'. apply Hp. by right.
  - rewrite decide_True by done. pose proof (Hp e (list_elem_of_here _ _) w) as He.
    destruct (te_callback e t w) as [ended w1]. cbn in He.
    destruct (IH w1) as (calls & w' & E & Ec); [intros e' He'; apply Hp; by right|].
    exists ((te_id e, ended) :: calls), w'. cbn. rewrite Ec. split; [|done].
    destruct ended; [..|done]; rewrite eff_bind_run, E; reflexivity.
Qed.
End history.
#[global] Arguments callback_op : clear implicits.

(** * Properties *)

(** Handles are unique: in every interleaving of registrations, which take
    their handle before they hold the lock, of removals and of clearing, no two
    callbacks, registered or about to be, have the same handle, as long as fewer
    than 2^64 - 1 steps are taken. *)
Theorem handles_unique {W} n (s : EventHandler W * list (TelegramCallbackEntry W + ConnectionCallbackEntry W)) :
  nsteps handler_step n (EventHandler_new, []) s → Z.of_nat n + 1 < 2 ^ 64 → NoDup (handles s).
Proof.
  intros Hs Hn. destruct (steps_handles_ok n _ s Hs) as [[Hd _] _]; [cbn; lia|apply new_handles_ok|done].
Qed.

(** C17: A telegram is handed to exactly the callbacks that were registered and
    neither removed nor cleared since, whose filter matches it and that take
    outgoing telegrams if it is one; to each once, in the order of registration,
    and although some of them run into the timeout. *)
Theorem notify_exact {W} (ops : list (callback_op W)) (t : Telegram) (w : W) :
  Z.of_nat (length ops) + 1 < 2 ^ 64 →
  (∀ e, registered ops e → ∀ w, (te_callback e t w).1 ≠ Panics) →
  ∃ calls w', notify_telegram_received (after ops) t w = (Ok calls, w') ∧
    StronglySorted Z.lt (handle_0 <$> calls.*1) ∧
    ∀ x, x ∈ calls.*1 ↔ ∃ e, registered ops e ∧ te_id e = x ∧ TelegramFilter_matches (te_filter e) t = true ∧
                          (direction t = Outgoing → te_include_outgoing e = true).
Proof.
  intros Hn Hp. destruct (history_all ops Hn) as (_ & _ & Hs & He).
  destruct (notify_entries_run t (telegram_callbacks (after ops)) w) as (calls & w' & E & Ec).
  { intros e Hin. apply Hp. by apply He. }
  exists calls, w'. split_and!; [done| |].
  - rewrite Ec, <-list_fmap_compose. by apply sorted_filter.
  - intros x. rewrite Ec, list_elem_of_fmap.
    assert (∀ e : TelegramCallbackEntry W, skips e t = false ↔ TelegramFilter_matches (te_filter e) t = true ∧
      (direction t = Outgoing → te_include_outgoing e = true)) as Hk.
    { intros e. unfold skips. destruct (te_include_outgoing e), (TelegramFilter_matches _ t), (direction t); cbn; naive_solver. }
    split.
    + intros (e & -> & [Hsk Hin]%list_elem_of_filter). exists e. apply Hk in Hsk as [Hm Ho].
      split_and!; [by apply He|done|done|done].
    + intros (e & Hr & <- & Hm & Ho). exists e. split; [done|]. apply list_elem_of_filter. split; [by apply Hk|by apply He].
Qed.

(** ** Witnesses

    Two callbacks that count, one of which always times out, and one that is
    removed. *)
Definition counts (ended : call_end) : TelegramCallbackFn nat := λ _ n, (ended, S n).
Definition sample_history : list (callback_op nat) :=
  [OnTelegram (counts TimesOut) All false; OnTelegram (counts Returns) All false;
   OnTelegram (counts Returns) (GroupAddresses [MkGroupAddress 0x0A03]) false; Remove (MkCallbackHandle 2)].
Definition sample_incoming : Telegram :=
  Telegram_received 0 (MkIndividualAddress 0x1101) (MkGroupAddress 0x0A03) GroupValueWrite [1].
Lemma notify_exact_witness : ∃ calls w',
  notify_telegram_received (after sample_history) sample_incoming 0%nat = (Ok calls, w') ∧
  MkCallbackHandle 3 ∈ calls.*1.
Proof.
  destruct (notify_exact sample_history sample_incoming 0%nat) as (calls & w' & E & _ & Hx).
  - vm_compute. reflexivity.
  - intros e (ops1 & ops2 & Eo & _) w.
    assert (OnTelegram (te_callback e) (te_filter e) (te_include_outgoing e) ∈ sample_history) as Hin by (rewrite Eo; set_solver).
    unfold sample_history in Hin. rewrite !elem_of_cons, elem_of_nil in Hin. by destruct Hin as [[= -> _ _]|[[= -> _ _]|[[= -> _ _]|[Hin|Hin]]]].
  - exists calls, w'. split; [exact E|]. apply Hx.
    exists (MkTelegramCallbackEntry (MkCallbackHandle 3) (counts Returns) (GroupAddresses [MkGroupAddress 0x0A03]) false).
    split; [|split; [reflexivity|split; [reflexivity|discriminate]]].
    exists (take 2 sample_history), [Remove (MkCallbackHandle 2)]. split; [reflexivity|]. split; [reflexivity|].
    split; intros Hin%list_elem_of_singleton; discriminate Hin.
Defined.
Lemma handles_unique_witness :
  NoDup (handles (W:=nat) ((register_telegram_callback (counts Returns) EventHandler_new).2, [])).
Proof.
  apply (handles_unique 2); [|lia].
  set (mk id := inl (MkTelegramCallbackEntry id (counts Returns) All false) : TelegramCallbackEntry nat + ConnectionCallbackEntry nat).
  eapply nsteps_l; [|eapply nsteps_l; [|apply nsteps_O]].
  - apply (step_take EventHandler_new [] mk); reflexivity.
  - apply (step_push _ [] (mk (MkCallbackHandle 1)) []).
Defined.
