(* ===== verification/Client.v ===== *)
(** The data path of the application object ([src/src/application/knx.rs]):
    handling received frames, the receiving task, and building and sending
    outgoing frames, over the tunnel of [TunnelCore], the queue of [Queue] and
    the limiter of [ReceiveLimiter].

    A connection is a tunnel over any transport, or another one (routing), of
    which these functions use nothing but that it is not a tunnel.  The control
    channel is what was sent on it and whether its receiver is gone; a send that
    waits for room is one that has it.  The limiter is always there in a client
    that [new_with_options] makes, and a task of its own drains what it lets
    through into the queue.  Logging and performance counters are left out. *)
From Stdlib Require Import Sorting.Sorted.
From S2P Require Import Prelude Errors Address Apdu Telegram Cemi KnxIp FrameTransport Connection.
From S2P Require Import ReceiveLimiter Queue TunnelCore Server ServerBehaviour.

Inductive ConnectionControlEvent :=
| TunnelLost (channel_id : Z) (reason : string)
| SendDisconnectResponse (channel_id : Z).

Inductive connection {T : Type} := TunnelConnection (w : world T) | OtherConnection.
Arguments connection T : clear implicits.

(** What the tasks share. *)
Record client {T : Type} := MkClient {
  conn : connection T;
  telegram_queue : QueueState;
  receive_limiter : option ReceiveRateLimiter;
  control : list ConnectionControlEvent;
  control_closed : bool;
  current_channel_id : option Z;
  now : Z;
}.
Arguments client T : clear implicits.
Arguments MkClient {T} _ _ _ _ _ _ _.

Section updates.
Context {T : Type}.
Definition set_conn (x : connection T) (c : client T) : client T :=
  MkClient x (telegram_queue c) (receive_limiter c) (control c) (control_closed c) (current_channel_id c) (now c).
Definition set_queue (q : QueueState) (c : client T) : client T :=
  MkClient (conn c) q (receive_limiter c) (control c) (control_closed c) (current_channel_id c) (now c).
Definition set_limiter (l : option ReceiveRateLimiter) (c : client T) : client T :=
  MkClient (conn c) (telegram_queue c) l (control c) (control_closed c) (current_channel_id c) (now c).
Definition set_control (l : list ConnectionControlEvent) (c : client T) : client T :=
  MkClient (conn c) (telegram_queue c) (receive_limiter c) l (control_closed c) (current_channel_id c) (now c).
Definition set_now (time : Z) (c : client T) : client T :=
  MkClient (conn c) (telegram_queue c) (receive_limiter c) (control c) (control_closed c) (current_channel_id c) time.
End updates.

(** * Telegrams of received frames *)
Definition Knx_telegram_priority (p : CemiPriority) : Priority :=
  match p with
  | CemiSystem => System | CemiNormal => Normal | CemiUrgent => Urgent | CemiLow => Low
  end.
Definition Knx_parse_cemi_to_telegram (now : Z) (cemi_data : list Z) : result Telegram :=
  cemi_frame ← CemiFrame_parse cemi_data;
  let service := result_ok (GroupValueService_decode (tpci cemi_frame) (apci_data cemi_frame)) in
  let pl := default (apci_data cemi_frame) (service ≫= GroupValueService_payload) in
  let ty := match service with
            | Some Read => GroupValueRead
            | Some (Response _) => GroupValueResponse
            | Some (Write _) | None => GroupValueWrite
            end in
  Ok {| source := source_addr cemi_frame; destination := dest_addr cemi_frame; payload := pl;
        priority := Knx_telegram_priority (cf_priority (control_field cemi_frame));
        direction := Incoming; telegram_type := ty; timestamp := now |}.

Section handlers.
Context {T : Type} `{FrameTransport T} `{Profile}.
Context (config : QueueConfig).
Abbreviation M := (eff (client T) KnxError).

(** [connection.as_any().downcast_ref::<Tunnel>()]. *)
Definition on_tunnel_connection {A} (m : eff (world T) KnxError A) (otherwise : A) : M A := λ c,
  match conn c with
  | TunnelConnection w => let '(r, w) := m w in (r, set_conn (TunnelConnection w) c)
  | OtherConnection => (Ok otherwise, c)
  end.
Definition validate_sequence_number (received : Z) : eff (world T) KnxError SequenceValidationResult := λ w,
  let '(v, t) := Tunnel_validate_sequence_number received (tunnel w) in
  (Ok v, MkWorld t (registry w) (clock w)).
(** An acknowledgement that cannot be sent is only logged. *)
Definition acknowledge (channel sequence status : Z) : M unit :=
  on_tunnel_connection (_ ← attempt (Tunnel_send_tunnelling_ack channel sequence status); mret tt) tt.

(** Through the limiter if there is one; what is dropped is only logged. *)
Definition accept_telegram (telegram : Telegram) : M unit := λ c,
  match receive_limiter c with
  | Some limiter =>
      let '(_, limiter) := ReceiveRateLimiter_try_send (now c) telegram limiter in
      (Ok tt, set_limiter (Some limiter) c)
  | None =>
      let '(_, q) := enqueue_incoming config telegram (telegram_queue c) in (Ok tt, set_queue q c)
  end.

Definition Knx_handle_tunnelling_request (knx_frame : KnxIpFrame) : M unit :=
  tunnelling_request ← lift (TunnellingRequest_parse (body knx_frame));
  let channel := treq_channel_id tunnelling_request in
  let sequence := treq_sequence_counter tunnelling_request in
  sequence_result ← on_tunnel_connection (validate_sequence_number sequence) Valid;
  match sequence_result with
  | Valid =>
      _ ← acknowledge channel sequence ACK_STATUS_OK;
      time ← gets now;
      telegram ← lift (Knx_parse_cemi_to_telegram time (raw_cemi tunnelling_request));
      accept_telegram telegram
  | Duplicate => acknowledge channel sequence ACK_STATUS_OK
  | Invalid _ _ => acknowledge channel sequence ACK_STATUS_ERROR_SEQUENCE_NUMBER
  end.

Definition Knx_handle_routing_indication (knx_frame : KnxIpFrame) : M unit :=
  time ← gets now;
  telegram ← lift (Knx_parse_cemi_to_telegram time (body knx_frame));
  accept_telegram telegram.

(** [control_tx.send]; an error is only logged. *)
Definition send_control (e : ConnectionControlEvent) : M unit :=
  modify (λ c, if control_closed c then c else set_control (control c ++ [e]) c).
Definition Knx_handle_disconnect_request (knx_frame : KnxIpFrame) : M unit :=
  if (length (body knx_frame) <? DisconnectRequest_LENGTH)%nat then mret tt
  else
    disconnect_request ← lift (DisconnectRequest_parse (body knx_frame));
    current ← gets current_channel_id;
    let channel := dreq_channel_id disconnect_request in
    let is_our_channel := match current with None => true | Some id => id =? channel end in
    if is_our_channel
    then _ ← send_control (SendDisconnectResponse channel);
         send_control (TunnelLost channel "DisconnectRequest received from server")
    else mret tt.
Definition Knx_handle_disconnect_response (knx_frame : KnxIpFrame) : M unit :=
  if (length (body knx_frame) <? 2)%nat then mret tt
  else _ ← lift (DisconnectResponse_parse (body knx_frame)); mret tt.
Definition Knx_handle_connectionstate_request (knx_frame : KnxIpFrame) : M unit :=
  _ ← lift (ConnectionstateRequest_parse (body knx_frame)); mret tt.
Definition Knx_handle_connectionstate_response (knx_frame : KnxIpFrame) : M unit :=
  _ ← lift (ConnectionstateResponse_parse (body knx_frame)); mret tt.

Definition Knx_handle_incoming_frame (frame_data : list Z) : M bool :=
  knx_frame ← lift (KnxIpFrame_parse frame_data);
  match service_type (header knx_frame) with
  | ServiceType.TunnellingRequest => _ ← Knx_handle_tunnelling_request knx_frame; mret true
  | ServiceType.RoutingIndication => _ ← Knx_handle_routing_indication knx_frame; mret true
  | ServiceType.DisconnectRequest => _ ← Knx_handle_disconnect_request knx_frame; mret true
  | ServiceType.DisconnectResponse => _ ← Knx_handle_disconnect_response knx_frame; mret true
  | ServiceType.ConnectionstateRequest => _ ← Knx_handle_connectionstate_request knx_frame; mret true
  | ServiceType.ConnectionstateResponse => _ ← Knx_handle_connectionstate_response knx_frame; mret true
  | ServiceType.ConnectRequest | ServiceType.ConnectResponse => mret true
  | _ => mret false
  end.

(** * The receiving task

    One pass of its loop: [shutdown] is what it reads of the flag and
    [memory_ok] whether the monitor allows the frame.  What is received on a
    connection other than a tunnel is not modelled.  The task has run for as
    many passes as the list has, each at its time; it closes the queue when it
    leaves the loop. *)
Inductive pass_end := Continue | Break.
Definition receiving_pass (shutdown memory_ok : bool) : M pass_end :=
  if shutdown then mret Break
  else
    result ← attempt (on_tunnel_connection Tunnel_Connection_recv None);
    match result with
    | inl (Some frame_data) =>
        if memory_ok then _ ← attempt (Knx_handle_incoming_frame frame_data); mret Continue else mret Continue
    | inl None => mret Continue
    | inr _ => mret Break
    end.
Fixpoint receiving_task (passes : list (Z * bool * bool)) : M unit :=
  match passes with
  | [] => mret tt
  | (time, shutdown, memory_ok) :: passes =>
      _ ← modify (set_now time);
      e ← receiving_pass shutdown memory_ok;
      match e with
      | Continue => receiving_task passes
      | Break => modify (λ c, set_queue (queue_close (telegram_queue c)) c)
      end
  end.

(** One pass of the task that drains the channel of the limiter into the queue;
    with an empty channel it waits. *)
Definition drain_pass : M unit := λ c,
  match receive_limiter c with
  | Some limiter =>
      match mpsc_recv (tx limiter) with
      | (Some telegram, rx) =>
          let '(_, q) := enqueue_incoming config telegram (telegram_queue c) in
          (Ok tt, set_queue q (set_limiter (Some (MkReceiveRateLimiter (limit_config limiter) rx (per_address limiter) (receive_stats limiter))) c))
      | (None, _) => (Ok tt, c)
      end
  | None => (Ok tt, c)
  end.

(** * Sending *)
Definition set_source (a : IndividualAddress) (t : Telegram) : Telegram :=
  MkTelegram a (destination t) (payload t) (priority t) (direction t) (telegram_type t) (timestamp t).
Definition Knx_send_telegram (individual_address : IndividualAddress) (telegram : Telegram) : M unit := λ c,
  let '(r, q) := enqueue_outgoing config (now c) (set_source individual_address telegram) (telegram_queue c) in
  (r, set_queue q c).

Definition next_sequence : eff (world T) KnxError (option (Z * Z)) := λ w,
  let '(n, t) := Tunnel_next_sequence (tunnel w) in
  (Ok (Some (tunnel_channel_id t, n)), MkWorld t (registry w) (clock w)).
Definition build_outgoing_frame_for_connection (telegram : Telegram) : M (list Z) :=
  let group_service := match payload telegram with [] => Read | p => Write p end in
  let cemi := CemiFrame_new LDataReq (source telegram) (destination telegram) (GroupValueService_encode group_service) in
  let cemi := CemiFrame_serialize cemi in
  tunneling_conn ← on_tunnel_connection next_sequence None;
  frame ← lift (match tunneling_conn with
                | Some (channel, sequence) =>
                    KnxIpFrame_new ServiceType.TunnellingRequest
                      (TunnellingRequest_serialize (TunnellingRequest_new channel sequence cemi))
                | None => KnxIpFrame_new ServiceType.RoutingIndication cemi
                end);
  mret (KnxIpFrame_serialize frame).

(** One pass of the sending task; the rate limiter only delays it.  The answer
    is whether it ends or waits for the queue. *)
Definition sending_pass (shutdown : bool) : M dequeued :=
  c ← gets id;
  if shutdown && queue_is_empty (telegram_queue c) then mret Ended
  else
    let '(d, q) := dequeue_outgoing_step (now c) (telegram_queue c) in
    _ ← modify (set_queue q);
    match d with
    | Got telegram =>
        frame_data ← build_outgoing_frame_for_connection telegram;
        _ ← attempt (on_tunnel_connection (Tunnel_Connection_send frame_data) tt);
        mret d
    | _ => mret d
    end.
End handlers.

(** * Lemmas *)
Lemma knx_parse_is_server_parse now cemi : Knx_parse_cemi_to_telegram now cemi = parse_cemi_to_telegram now cemi.
Proof. reflexivity. Qed.

(** ** A gateway's transmissions

    Its requests, numbered one after the other and each transmitted when first
    sent and any number of times again; with the times they are received at. *)
Inductive transmission := First (time : Z) (cemi : list Z) | Again (time : Z).
Definition received_at (x : transmission) : Z := match x with First time _ | Again time => time end.
(** Their datagrams: [seq] is the number of the next request, [last] the frame of
    the request before it. *)
Fixpoint datagrams (ch seq : Z) (last : list Z) (l : list transmission) : list (list Z) :=
  match l with
  | [] => []
  | First _ cemi :: l => request_datagram ch seq cemi :: datagrams ch (as_u8 (seq + 1)) cemi l
  | Again _ :: l => request_datagram ch (as_u8 (seq - 1)) last :: datagrams ch seq last l
  end.
(** The acknowledgements they deserve, the number after them, and the telegrams
    of the requests, with the time each was received first. *)
Fixpoint acks (ch seq : Z) (l : list transmission) : list (list Z) :=
  match l with
  | [] => []
  | First _ _ :: l => ok_ack ch seq :: acks ch (as_u8 (seq + 1)) l
  | Again _ :: l => ok_ack ch (as_u8 (seq - 1)) :: acks ch seq l
  end.
Fixpoint next_number (seq : Z) (l : list transmission) : Z :=
  match l with
  | [] => seq
  | First _ _ :: l => next_number (as_u8 (seq + 1)) l
  | Again _ :: l => next_number seq l
  end.
Definition told_once (x : transmission) : option (Z * Telegram) :=
  match x with
  | First time cemi => t ← result_ok (parse_cemi_to_telegram time cemi); Some (time, t)
  | Again _ => None
  end.
Abbreviation offers l := (omap told_once l).
Definition fits_datagram (cemi : list Z) : Prop := Z.of_nat (length cemi) ≤ 1014.
Definition transmission_fits (x : transmission) : Prop := match x with First _ cemi => fits_datagram cemi | Again _ => True end.
Definition passes (l : list transmission) : list (Z * bool * bool) := (λ x, (received_at x, false, true)) <$> l.

Section udp.
Context `{Profile} (config : QueueConfig).
Implicit Types c : client UdpFrameTransport.

(** A connected UDP tunnel: what its socket will read, what was sent on it, the
    sequence number it expects; the queue is open. *)
Record udp_client (reads : list io_event) (sent : list (list Z)) (n : Z) (q : list Telegram) (l : ReceiveRateLimiter) c : Prop := {
  uc_tunnel : ∃ w, conn c = TunnelConnection w ∧ Tunnel_is_connected (tunnel w) = true ∧
    transport (tunnel w) = Some (MkUdp reads [] sent) ∧ expected_sequence_number (tunnel w) = n;
  uc_limiter : receive_limiter c = Some l;
  uc_closed : closed (telegram_queue c) = false;
  uc_incoming : incoming (telegram_queue c) = q;
}.
Lemma udp_client_now time reads sent n q l c : udp_client reads sent n q l c → udp_client reads sent n q l (set_now time c).
Proof. intros [Ht Hl Hq Hi]. by split. Qed.

(** The receive of one pass. *)
Lemma recv_run d reads sent n q l c :
  udp_client (Data d :: reads) sent n q l c → (length d ≤ 1024)%nat →
  ∃ c', on_tunnel_connection Tunnel_Connection_recv None c = (Ok (Some d), c') ∧
    udp_client reads sent n q l c' ∧ now c' = now c.
Proof.
  intros [(w & Hw & Hc & Ht & Hn) Hl Hq Hi] Hd. unfold on_tunnel_connection. rewrite Hw.
  unfold Tunnel_Connection_recv. rewrite eff_bind_run. cbn [gets]. rewrite Hc.
  unfold Tunnel_recv_frame, attempt, mbind, eff_bind. rewrite transport_recv_eq, Ht. cbn.
  rewrite take_ge by done. cbn. eexists. split; [done|]. split; [|done]. split; try done.
  eexists. split; [done|]. split_and!; done.
Qed.
(** An acknowledgement on a tunnel that expects [n] by then. *)
Lemma acknowledge_run ch sq reads sent n q l c :
  udp_client reads sent n q l c →
  ∃ c', acknowledge ch sq ACK_STATUS_OK c = (Ok tt, c') ∧
    udp_client reads (sent ++ [ok_ack ch sq]) n q l c' ∧ now c' = now c.
Proof.
  intros [(w & Hw & Hc & Ht & Hn) Hl Hq Hi]. unfold acknowledge, on_tunnel_connection. rewrite Hw.
  unfold Tunnel_send_tunnelling_ack, attempt, mbind, eff_bind, lift. rewrite KnxIpFrame_new_Ok by (cbn; lia).
  rewrite transport_send_eq, Ht. cbn. eexists. split; [done|]. split; [|done]. split; try done.
  eexists. split; [done|]. split_and!; done.
Qed.
(** The number a tunnel validates. *)
Lemma validate_run sq reads sent n q l c :
  udp_client reads sent n q l c → u8_ok n →
  ∃ c' v n', on_tunnel_connection (validate_sequence_number sq) Valid c = (Ok v, c') ∧
    udp_client reads sent n' q l c' ∧ now c' = now c ∧
    (sq = n → v = Valid ∧ n' = as_u8 (n + 1)) ∧
    (sq = as_u8 (n - 1) → v = Duplicate ∧ n' = n).
Proof.
  intros [(w & Hw & Hc & Ht & Hn) Hl Hq Hi] Hu. unfold on_tunnel_connection. rewrite Hw.
  unfold validate_sequence_number, Tunnel_validate_sequence_number. rewrite Hn.
  destruct (Z.eqb_spec sq n) as [->|Hne].
  - eexists _, _, (as_u8 (n + 1)). split; [done|]. split; [|split; [done|split; [done|]]].
    2: { unfold as_u8, u8_ok in *. intros E. exfalso. revert E. zlia. }
    split; try done. eexists. split; [done|]. split_and!; done.
  - destruct (Z.eqb_spec sq (as_u8 (n - 1))) as [E|E]; eexists _, _, n;
      (split; [done|]; split; [|split; [done|split; [done|]]]).
    1, 3: split; try done; eexists; (split; [done|]); by split_and!.
    + done.
    + done.
Qed.
Lemma accept_run t reads sent n q l c :
  udp_client reads sent n q l c →
  ∃ c', accept_telegram config t c = (Ok tt, c') ∧
    udp_client reads sent n q (ReceiveRateLimiter_try_send (now c) t l).2 c'.
Proof.
  intros [Ht Hl Hq Hi]. unfold accept_telegram. rewrite Hl. destruct (ReceiveRateLimiter_try_send (now c) t l) as [r l'].
  eexists. split; [done|]. by split.
Qed.

(** The pass that receives a transmission. *)
Lemma transmission_pass ch last x xs reads sent n q l c :
  udp_client ((Data <$> datagrams ch n last (x :: xs)) ++ reads) sent n q l c → u8_ok n → fits_datagram last → transmission_fits x →
  ∃ c' ack n' last', (_ ← modify (set_now (received_at x)); receiving_pass config false true) c = (Ok Continue, c') ∧
    u8_ok n' ∧ fits_datagram last' ∧
    udp_client ((Data <$> datagrams ch n' last' xs) ++ reads) (sent ++ [ack]) n' q (offer_all (offers [x]) l) c' ∧
    acks ch n (x :: xs) = ack :: acks ch n' xs ∧ next_number n (x :: xs) = next_number n' xs.
Proof.
  intros Hc Hn Hlast Hx. set (y := match x with First _ cemi => (n, cemi) | Again _ => (as_u8 (n - 1), last) end).
  assert (∃ rest, (Data <$> datagrams ch n last (x :: xs)) ++ reads = Data (request_datagram ch y.1 y.2) :: rest ∧
    rest = (Data <$> datagrams ch (match x with First _ _ => as_u8 (n + 1) | Again _ => n end) y.2 xs) ++ reads) as (rest & Er & Erest)
    by (destruct x; by eexists). rewrite Er in Hc.
  assert (Z.of_nat (length y.2) ≤ 1014) as Hl by by destruct x.
  rewrite eff_bind_run. unfold modify at 1. apply (udp_client_now (received_at x)) in Hc.
  unfold receiving_pass. rewrite eff_bind_run. unfold attempt at 1.
  destruct (recv_run _ _ _ _ _ _ _ Hc) as (c1 & -> & Hc1 & N1); [rewrite length_request_datagram; lia|].
  rewrite eff_bind_run. unfold attempt. unfold Knx_handle_incoming_frame. rewrite eff_bind_run.
  destruct (frame_bytes_parse ServiceType.TunnellingRequest (TunnellingRequest_serialize (TunnellingRequest_new ch y.1 y.2)))
    as (f & Ef & Esvc & Eb); [rewrite length_request; lia|].
  unfold request_datagram. rewrite Ef. cbn [lift]. rewrite Esvc, eff_bind_run.
  unfold Knx_handle_tunnelling_request. rewrite eff_bind_run, Eb, TunnellingRequest_roundtrip. cbn [lift].
  rewrite eff_bind_run. cbn [treq_sequence_counter treq_channel_id TunnellingRequest_new].
  destruct (validate_run y.1 _ _ _ _ _ _ Hc1 Hn) as (c2 & v & n' & -> & Hc2 & N2 & Hval & Hdup).
  destruct (acknowledge_run ch y.1 _ _ _ _ _ _ Hc2) as (c3 & Eack & Hc3 & N3). rewrite Erest in Hc3.
  destruct x as [time cemi|time]; cbn [y fst snd] in *.
  - destruct Hval as [-> ->]; [done|]. rewrite eff_bind_run, Eack, eff_bind_run. cbn [gets raw_cemi TunnellingRequest_new].
    rewrite eff_bind_run, knx_parse_is_server_parse. cbn [lift]. rewrite N3, N2, N1. cbn [now set_now received_at told_once omap list_omap].
    destruct (parse_cemi_to_telegram time cemi) as [t|e|] eqn:Et; cbn [result_ok mbind option_bind].
    + destruct (accept_run t _ _ _ _ _ _ Hc3) as (c4 & -> & Hc4). rewrite N3, N2, N1 in Hc4.
      eexists _, _, _, cemi. split; [done|]. by split_and!; [apply as_u8_ok|..].
    + eexists _, _, _, cemi. split; [done|]. by split_and!; [apply as_u8_ok|..].
    + exfalso. revert Et. unfold parse_cemi_to_telegram. pose proof (CemiFrame_parse_total cemi). by destruct (CemiFrame_parse cemi).
  - destruct Hdup as [-> ->]; [done|]. rewrite Eack. eexists _, _, _, last. split; [done|]. by split_and!.
Qed.
Lemma offer_all_app a b l : offer_all (a ++ b) l = offer_all b (offer_all a l).
Proof. apply foldl_app. Qed.
Lemma transmissions_run ch last l reads sent n q lim c :
  udp_client ((Data <$> datagrams ch n last l) ++ reads) sent n q lim c → u8_ok n → fits_datagram last → Forall transmission_fits l →
  ∃ c', receiving_task config (passes l) c = (Ok tt, c') ∧
    udp_client reads (sent ++ acks ch n l) (next_number n l) q (offer_all (offers l) lim) c'.
Proof.
  revert last sent n lim c. induction l as [|x l IH]; intros last sent n lim c Hc Hn Hlast Hl.
  { exists c. by rewrite app_nil_r. }
  apply Forall_cons in Hl as [Hx Hl].
  destruct (transmission_pass _ _ _ _ _ _ _ _ _ _ Hc Hn Hlast Hx) as (c1 & ack & n1 & last1 & E & Hn1 & Hlast1 & Hc1 & Ea & En).
  destruct (IH _ _ _ _ _ Hc1 Hn1 Hlast1 Hl) as (c2 & E2 & Hc2). exists c2. split.
  - change (receiving_task config (passes (x :: l)) c) with
      ((_ ← modify (set_now (received_at x)); e ← receiving_pass config false true;
        match e with Continue => receiving_task config (passes l) | Break => modify (λ c, set_queue (queue_close (telegram_queue c)) c) end) c).
    change (receiving_pass config false true (set_now (received_at x) c) = (Ok Continue, c1)) in E.
    rewrite eff_bind_run. unfold modify at 1. rewrite eff_bind_run, E. exact E2.
  - rewrite Ea, En. rewrite <-app_assoc in Hc2. cbn [app] in Hc2.
    replace (offer_all (offers (x :: l)) lim) with (offer_all (offers l) (offer_all (offers [x]) lim)); [done|].
    rewrite <-offer_all_app, <-omap_app. done.
Qed.
End udp.

(** The frame a client builds on a tunnel is the one the server builds, with
    the client's message code and its next number. *)
Lemma build_outgoing_run `{Profile} {T} (t : Telegram) (w : world T) (c : client T) :
  telegram_fits t → conn c = TunnelConnection w →
  build_outgoing_frame_for_connection t c =
    (Ok (request_datagram (tunnel_channel_id (tunnel w)) (TunnelCore.sequence_counter (tunnel w)) (sent_cemi t LDataReq)),
     set_conn (TunnelConnection (MkWorld (Tunnel_next_sequence (tunnel w)).2 (registry w) (clock w))) c).
Proof.
  intros Ht Hw. unfold build_outgoing_frame_for_connection. cbn zeta. fold (sent_service t). fold (sent_cemi t LDataReq).
  rewrite eff_bind_run. unfold on_tunnel_connection. rewrite Hw. cbn [next_sequence Tunnel_next_sequence snd].
  rewrite eff_bind_run. cbn [tunnel_channel_id set_sequences]. pose proof (sent_cemi_length t LDataReq Ht).
  rewrite KnxIpFrame_new_Ok by (rewrite length_request; lia). done.
Qed.

(** * Properties *)

(** C6: Exactly-once reception.  A client on a UDP tunnel whose gateway numbers
    its requests from the expected number, wrapping after 255, and transmits each
    any number of times before the next: the receiving task acknowledges every
    transmission with status OK and offers the telegram of each request to the
    limiter exactly once, in order, at the time it was first received; what the
    CEMI parser refuses is acknowledged and dropped.  While its channel has room,
    the limiter passes on what its throttle lets through, which is every one of
    the telegrams if no group address gets more than the limit (10) within a
    second and no window is left from before. *)
Theorem client_exactly_once `{Profile} config ch n last l reads sent q lim (c : client UdpFrameTransport) :
  udp_client ((Data <$> datagrams ch n last l) ++ reads) sent n q lim c → u8_ok n → fits_datagram last → Forall transmission_fits l →
  (∃ c', receiving_task config (passes l) c = (Ok tt, c') ∧
     udp_client reads (sent ++ acks ch n l) (next_number n l) q (offer_all (offers l) lim) c') ∧
  (rx_closed (tx lim) = false → (length (buffer (tx lim)) + length (offers l) ≤ capacity (tx lim))%nat →
     buffer (tx (offer_all (offers l) lim)) = buffer (tx lim) ++ let_through (limit lim) (per_address lim) (offers l)) ∧
  (expired lim (offers l) → StronglySorted Z.le (offers l).*1 → slow (limit lim) (offers l) →
     let_through (limit lim) (per_address lim) (offers l) = (offers l).*2).
Proof.
  intros Hc Hn Hlast Hl. split; [by eapply transmissions_run|]. split; [|apply slow_let_through].
  intros Hr Hcap. by rewrite offer_all_run.
Qed.

(** What a client sends.  A telegram taken from the queue leaves in one frame
    with the tunnel's channel and next sequence number, from which the server
    reads the same source, destination and payload (a single byte modulo 64); as a
    read if it has no payload and as a write if it has one, whatever service its
    type names, so a group response arrives as a group write. *)
Theorem client_sends `{Profile} {T} at_ (t : Telegram) (w : world T) (c : client T) :
  telegram_sendable t → conn c = TunnelConnection w →
  ∃ f w', build_outgoing_frame_for_connection t c = (Ok f, set_conn (TunnelConnection w') c) ∧
    TunnelCore.sequence_counter (tunnel w') = as_u8 (TunnelCore.sequence_counter (tunnel w) + 1) ∧
    client_reads at_ f (tunnel_channel_id (tunnel w)) (TunnelCore.sequence_counter (tunnel w)) (arrived at_ t).
Proof.
  intros Hg Hw. pose proof Hg as (_ & _ & _ & Ht).
  rewrite (build_outgoing_run t w c Ht Hw). eexists _, _. split; [done|]. split; [done|].
  destruct (build_frame_read at_ t (tunnel_channel_id (tunnel w)) (TunnelCore.sequence_counter (tunnel w)) LDataReq Hg)
    as (f & Hf & Hr). rewrite build_frame_bytes in Hf by done. by injection Hf as <-.
Qed.

(** A disconnect request for the client's channel, or any channel when it
    knows none, makes the control task answer it and then handle the loss of
    the tunnel; one for another channel does nothing. *)
Theorem client_disconnect_request `{Profile} {T} `{FrameTransport T} config r (c : client T) :
  Hpai_wf (dreq_control_endpoint r) → control_closed c = false →
  Knx_handle_incoming_frame config
    (frame_bytes ServiceType.DisconnectRequest (DisconnectRequest_serialize r)) c =
    (Ok true,
     if bool_decide (current_channel_id c = None ∨ current_channel_id c = Some (dreq_channel_id r))
     then set_control (control c ++ [SendDisconnectResponse (dreq_channel_id r);
            TunnelLost (dreq_channel_id r) "DisconnectRequest received from server"]) c
     else c).
Proof.
  intros Hw Hcc. assert (length (DisconnectRequest_serialize r) = 10%nat) as Hl by (cbn; f_equal; f_equal; apply length_Hpai_serialize).
  destruct (frame_bytes_parse ServiceType.DisconnectRequest (DisconnectRequest_serialize r)) as (f & Ef & Esvc & Eb); [lia|].
  unfold Knx_handle_incoming_frame. rewrite eff_bind_run, Ef. cbn [lift]. rewrite Esvc, eff_bind_run.
  unfold Knx_handle_disconnect_request. rewrite Eb, Hl. cbn [Nat.ltb Nat.leb DisconnectRequest_LENGTH].
  rewrite eff_bind_run, DisconnectRequest_roundtrip by done. cbn [lift]. rewrite eff_bind_run. cbn [gets].
  assert (∀ id, (_ ← send_control (SendDisconnectResponse id);
    send_control (TunnelLost id "DisconnectRequest received from server")) c =
    (Ok tt, set_control (control c ++ [SendDisconnectResponse id; TunnelLost id "DisconnectRequest received from server"]) c)) as Hs.
  { intros id. rewrite eff_bind_run. unfold send_control. unfold modify. rewrite Hcc. cbn [control_closed set_control]. rewrite Hcc. cbn. by rewrite <-app_assoc. }
  destruct (current_channel_id c) as [id|].
  - destruct (Z.eqb_spec id (dreq_channel_id r)) as [->|Hne].
    + rewrite bool_decide_true by auto. by rewrite Hs.
    + rewrite bool_decide_false by naive_solver. done.
  - rewrite bool_decide_true by auto. by rewrite Hs.
Qed.

(** The datagram that stops the server's dispatch loop stops a client's
    receiving task as well: it panics on a valid header that declares fewer
    than six bytes, without closing the queue. *)
Theorem client_short_length_kills_receiving `{Profile} config d h reads sent n q lim time passes (c : client UdpFrameTransport) :
  bytes_ok d → (length d ≤ 1024)%nat → KnxIpHeader_parse d = Ok h → total_length h < 6 →
  udp_client (Data d :: reads) sent n q lim c →
  (receiving_task config ((time, false, true) :: passes) c).1 = Panic.
Proof.
  intros Hb Hl Hh Ht Hc. apply (udp_client_now time) in Hc. destruct (recv_run _ _ _ _ _ _ _ Hc Hl) as (c1 & E & _). cbn [receiving_task].
  rewrite eff_bind_run. unfold modify at 1. rewrite eff_bind_run. unfold receiving_pass. rewrite eff_bind_run. unfold attempt at 1. rewrite E, eff_bind_run.
  unfold attempt, Knx_handle_incoming_frame. rewrite eff_bind_run. by rewrite (short_length_panics d h).
Qed.

(** ** Witnesses *)
#[local] Instance client_release : Profile := {| debug_build := false |}.
Definition sample_world (reads : list io_event) : world UdpFrameTransport :=
  MkWorld (set_state Connected (set_transport (Some (MkUdp reads [] [])) None
    (Tunnel_new_udp (MkSocketAddr (V4 192 168 1 2) 3671)))) (AddressRegistry.AddressRegistry_new) 0.
(** The limiter of a new client. *)
Definition new_limiter : ReceiveRateLimiter :=
  MkReceiveRateLimiter ReceiveLimitConfig_default (MkMpsc [] 1000 false) ∅ (MkReceiveStats 0 0 0 0).
Lemma new_limiter_is_new : ReceiveRateLimiter_new ReceiveLimitConfig_default = Ok new_limiter.
Proof. reflexivity. Qed.
Definition sample_client (reads : list io_event) : client UdpFrameTransport :=
  MkClient (TunnelConnection (sample_world reads)) QueueState_new (Some new_limiter) [] false (Some 7) 0.
Definition sample_cemi_bytes : list Z :=
  CemiFrame_serialize (CemiFrame_new LDataInd (MkIndividualAddress 0x1101) (Group (MkGroupAddress 0x0A03))
    (GroupValueService_encode (Write [1]))).
Lemma sample_udp_client reads : udp_client reads [] 0 [] new_limiter (sample_client reads).
Proof. split; try reflexivity. exists (sample_world reads). by split_and!. Defined.

(** A request received twice and another one half a second later. *)
Definition sample_transmissions : list transmission := [First 0 sample_cemi_bytes; Again 1000; First 500000000 sample_cemi_bytes].
Lemma sample_slow : expired new_limiter (offers sample_transmissions) ∧ StronglySorted Z.le (offers sample_transmissions).*1 ∧
  slow 10 (offers sample_transmissions).
Proof.
  assert (∃ t1 t2, offers sample_transmissions = [(0, t1); (500000000, t2)]) as (t1 & t2 & ->) by (vm_compute; by do 2 eexists).
  split; [|split].
  - intros ga st Hst. vm_compute in Hst. discriminate Hst.
  - cbn. repeat constructor; lia.
  - intros pre at_ t post ga E _. apply (f_equal length) in E. rewrite length_app in E. cbn in E.
    pose proof (length_filter (λ o : Z * Telegram, destination o.2 = Group ga ∧ at_ - NANOS < o.1) (pre ++ [(at_, t)])) as Hf.
    rewrite length_app in Hf. unfold offered_to. cbn in Hf. lia.
Qed.
Lemma client_exactly_once_witness : ∃ c',
  receiving_task QueueConfig_default (passes sample_transmissions) (sample_client (Data <$> datagrams 7 0 [] sample_transmissions)) = (Ok tt, c') ∧
  udp_client [] [ok_ack 7 0; ok_ack 7 0; ok_ack 7 1] 2 [] (offer_all (offers sample_transmissions) new_limiter) c' ∧
  buffer (tx (offer_all (offers sample_transmissions) new_limiter)) = (offers sample_transmissions).*2.
Proof.
  destruct (client_exactly_once QueueConfig_default 7 0 [] sample_transmissions [] [] [] new_limiter
    (sample_client (Data <$> datagrams 7 0 [] sample_transmissions))) as ((c' & E & Hc) & Hb & Hs).
  - rewrite app_nil_r. apply sample_udp_client.
  - vm_compute; split; congruence.
  - vm_compute. discriminate.
  - repeat constructor; vm_compute; discriminate.
  - exists c'. split; [exact E|]. split; [exact Hc|]. destruct sample_slow as (H1 & H2 & H3). rewrite Hb, (Hs H1 H2 H3); [done|done|vm_compute; lia].
Defined.
Lemma client_sends_witness : ∃ f w',
  build_outgoing_frame_for_connection (Telegram_group_write 0 (MkGroupAddress 0x0A03) [1]) (sample_client []) =
    (Ok f, set_conn (TunnelConnection w') (sample_client [])).
Proof.
  destruct (client_sends 0 (Telegram_group_write 0 (MkGroupAddress 0x0A03) [1]) (sample_world []) (sample_client []))
    as (f & w' & E & _); [|reflexivity|by exists f, w'].
  split; [vm_compute; split; congruence|]. split; [vm_compute; split; congruence|]. split; [|vm_compute; congruence].
  repeat constructor; vm_compute; congruence.
Defined.
Lemma client_disconnect_request_witness :
  (Knx_handle_incoming_frame QueueConfig_default (frame_bytes ServiceType.DisconnectRequest
     (DisconnectRequest_serialize (DisconnectRequest_new 7 Hpai_route_back))) (sample_client [])).1 = Ok true.
Proof.
  rewrite (client_disconnect_request QueueConfig_default (DisconnectRequest_new 7 Hpai_route_back)); [reflexivity| |reflexivity].
  vm_compute. repeat split; congruence.
Defined.
Lemma client_short_length_kills_receiving_witness :
  (receiving_task QueueConfig_default [(0, false, true)] (sample_client [Data [6; 0x10; 4; 0x20; 0; 0]])).1 = Panic.
Proof.
  apply (client_short_length_kills_receiving QueueConfig_default [6; 0x10; 4; 0x20; 0; 0]
    (MkKnxIpHeader 6 0x10 ServiceType.TunnellingRequest 0) [] [] 0 [] new_limiter 0 []);
    [by apply (bool_decide_unpack (bytes_ok _))|cbn; lia|reflexivity|reflexivity|apply sample_udp_client].
Defined.
