(* ===== verification/HeartbeatTask.v ===== *)
(** The heartbeat of a tunnel as it runs ([Tunnel::start_heartbeat] and
    [HeartbeatHandle] of [src/src/transport/tunnel.rs]): the task over the tunnel,
    its frame router and the monitor; its handle; and its meeting with the
    tunnelling server.

    A [tokio::sync::Notify] is who waits and who was woken: [notify_waiters] wakes
    those waiting and leaves nothing to later ones.  The monitor is shared with
    the tunnel, in whose field it is; a tunnel has one heartbeat.  A pass of the
    loop is given what the caller's receive loop hands to the router during the
    sleep and the wait, and the instants read in it. *)
From S2P Require Import Prelude Errors Address Apdu Telegram Cemi KnxIp ReceiveLimiter Queue Server ServerBehaviour Client.
From S2P Require Import Router AddressRegistry Heartbeat Connection FrameTransport TunnelCore.

(** * Waiting for the loss *)
Record Notify := MkNotify { waiting : list nat; woken : list nat }.
Definition Notify_new : Notify := MkNotify [] [].
Definition notified (who : nat) (n : Notify) : Notify := MkNotify (waiting n ++ [who]) (woken n).
Definition notify_waiters (n : Notify) : Notify := MkNotify [] (woken n ++ waiting n).

(** * The handle and what the task works on *)
Inductive task_state := NotSpawned | Running | Finished.
#[global] Instance task_state_eq_dec : EqDecision task_state.
Proof. solve_decision. Defined.
Record HeartbeatHandle := MkHeartbeatHandle {
  lost : Notify;
  events : list HeartbeatEvent;
  task : task_state;
}.
Record heartbeat_world {T : Type} := MkHeartbeatWorld {
  hb_world : world T;
  router : FrameRouter;
  oneshots : channels;
  handle : HeartbeatHandle;
}.
Arguments heartbeat_world T : clear implicits.
Arguments MkHeartbeatWorld {T} _ _ _ _.

(** One pass: the frames routed while the task sleeps, the instant it sends, the
    frames routed before the response timeout, the instant after. *)
Record heartbeat_pass := MkPass {
  while_asleep : list KnxIpFrame;
  sent_at : Z;
  while_waiting : list KnxIpFrame;
  seen_at : Z;
}.
(** [t0.elapsed().as_millis() as u64]. *)
Definition latency (p : heartbeat_pass) : Z := Z.max 0 (seen_at p - sent_at p) / 1000000 mod 2 ^ 64.

Section task.
Context {T : Type} `{FrameTransport T} `{Profile}.
Abbreviation HW := (heartbeat_world T).
Abbreviation M := (eff HW KnxError).

Definition set_monitor (m : option HeartbeatMonitor) (t : Tunnel T) : Tunnel T :=
  MkTunnel _ (kind t) (transport t) (gateway_addr t) (local_addr t) (local_hpai t)
    (tunnel_channel_id t) (sequence_counter t) (expected_sequence_number t) (state t) (stats t)
    (connection_timeout t) (established_at t) m (use_heartbeat t) (send_acks t)
    (configured_address t) (address_registry t) (tunnel_individual_address t).
Definition put_monitor (m : HeartbeatMonitor) (h : HW) : HW :=
  let w := hb_world h in
  MkHeartbeatWorld (MkWorld (set_monitor (Some m) (tunnel w)) (registry w) (clock w))
    (router h) (oneshots h) (handle h).
Definition put_router (r : FrameRouter) (ch : channels) (h : HW) : HW :=
  MkHeartbeatWorld (hb_world h) r ch (handle h).
Definition put_handle (x : HeartbeatHandle) (h : HW) : HW :=
  MkHeartbeatWorld (hb_world h) (router h) (oneshots h) x.
Definition on_hb_world {A} (m : eff (world T) KnxError A) : M A := λ h,
  let '(r, w) := m (hb_world h) in (r, MkHeartbeatWorld w (router h) (oneshots h) (handle h)).

Definition emit (e : HeartbeatEvent) : M unit :=
  modify (λ h, put_handle (MkHeartbeatHandle (lost (handle h)) (events (handle h) ++ [e]) (task (handle h))) h).
Definition declare_lost : M unit :=
  modify (λ h, put_handle (MkHeartbeatHandle (notify_waiters (lost (handle h))) (events (handle h)) (task (handle h))) h).
Definition finish : M unit :=
  modify (λ h, put_handle (MkHeartbeatHandle (lost (handle h)) (events (handle h)) Finished) h).

(** The monitor the task was started with; it is in the tunnel. *)
Definition monitor : M HeartbeatMonitor :=
  m ← gets (λ h, heartbeat (tunnel (hb_world h)));
  lift (match m with Some m => Ok m | None => Panic end).
Definition record_failure : M bool :=
  m ← monitor;
  '(dead, m) ← lift (HeartbeatMonitor_record_failure m);
  _ ← modify (put_monitor m);
  mret dead.
Definition record_success (now : Z) : M unit :=
  m ← monitor; modify (put_monitor (HeartbeatMonitor_record_success now m)).

Definition register (s : ServiceType.ServiceType) : M nat := λ h,
  let '(rx, r, ch) := FrameRouter_register (router h) (oneshots h) s in (Ok rx, put_router r ch h).
Definition forget (rx : nat) : M unit := modify (λ h, put_router (router h) (drop_rx rx (oneshots h)) h).
Definition route (f : KnxIpFrame) : M unit := modify (λ h,
  let '(_, r, ch) := FrameRouter_dispatch (router h) (oneshots h) f in put_router r ch h).
Definition route_all (l : list KnxIpFrame) : M unit := foldr (λ f m, _ ← route f; m) (mret tt) l.

(** [timeout(response_timeout, rx).await] while the receive loop routes [l]. *)
Fixpoint await_response (rx : nat) (l : list KnxIpFrame) : M (option KnxIpFrame) :=
  match l with
  | [] => mret None
  | f :: l =>
      _ ← route f;
      d ← gets (λ h, delivered (oneshots h) !! rx);
      match d with Some f => mret (Some f) | None => await_response rx l end
  end.

Definition is_ok_response (f : KnxIpFrame) : bool :=
  match ConnectionstateResponse_parse (body f) with
  | Ok r => csresp_status r =? CONNECTIONSTATE_STATUS_OK
  | _ => false
  end.

(** The body of the loop after the sleep; whether it breaks. *)
Definition heartbeat_cycle (p : heartbeat_pass) : M bool :=
  rx ← register ServiceType.ConnectionstateResponse;
  r ← attempt (on_hb_world Tunnel_send_connectionstate_request);
  match r with
  | inr _ =>
      _ ← emit (MkHeartbeatEvent false None);
      dead ← record_failure;
      _ ← forget rx;
      if dead : bool then _ ← declare_lost; mret true else mret false
  | inl _ =>
      response ← await_response rx (while_waiting p);
      _ ← forget rx;
      if match response with Some f => is_ok_response f | None => false end then
        _ ← record_success (seen_at p);
        _ ← emit (MkHeartbeatEvent true (Some (latency p)));
        mret false
      else
        dead ← record_failure;
        _ ← emit (MkHeartbeatEvent false None);
        if dead : bool then _ ← declare_lost; mret true else mret false
  end.

Fixpoint heartbeat_task (passes : list heartbeat_pass) : M unit :=
  match passes with
  | [] => mret tt
  | p :: passes =>
      _ ← route_all (while_asleep p);
      stop ← heartbeat_cycle p;
      if stop : bool then finish else heartbeat_task passes
  end.

(** * The handle *)
Definition start_heartbeat (label : string) (w : world T) : HeartbeatHandle * world T :=
  if negb (use_heartbeat (tunnel w)) then (MkHeartbeatHandle Notify_new [] NotSpawned, w)
  else
    let monitor := HeartbeatMonitor_new HeartbeatConfig_default (tunnel_channel_id (tunnel w)) label in
    (MkHeartbeatHandle Notify_new [] Running,
     MkWorld (set_monitor (Some monitor) (tunnel w)) (registry w) (clock w)).

(** [events.recv()]: [None] while it waits; the channel is closed once the task
    has ended, or none was spawned. *)
Definition HeartbeatHandle_recv_event (x : HeartbeatHandle) : option (option HeartbeatEvent) * HeartbeatHandle :=
  match events x with
  | e :: l => (Some (Some e), MkHeartbeatHandle (lost x) l (task x))
  | [] => (match task x with Running => None | _ => Some None end, x)
  end.
(** [notify_waiters] also wakes the task in its sleep, which then ends; the task is
    aborted anyway. *)
Definition HeartbeatHandle_stop (x : HeartbeatHandle) : HeartbeatHandle :=
  MkHeartbeatHandle (notify_waiters (lost x)) (events x)
    (match task x with Running => Finished | s => s end).
End task.

(** * The router during a heartbeat *)
Section routing.
Abbreviation CSR := ServiceType.ConnectionstateResponse.
Implicit Types (r : FrameRouter) (ch : channels) (f : KnxIpFrame).

Definition queue_of r (s : ServiceType.ServiceType) : list nat := default [] (waiters r !! ServiceType_as_u16 s).
(** Channels not created yet are in no queue and have received nothing. *)
Record bounded r ch : Prop := {
  b_queue : ∀ s tx, tx ∈ queue_of r s → (tx < next_chan ch)%nat;
  b_fresh : ∀ x, (next_chan ch ≤ x)%nat → delivered ch !! x = None;
}.
(** Nobody waits for a heartbeat response; or only [rx], which has not got it. *)
Record quiet r ch : Prop := {
  q_bounded : bounded r ch;
  q_dead : Forall (λ x, x ∉ rx_live ch) (queue_of r CSR);
}.
Record awaiting (rx : nat) r ch : Prop := {
  a_bounded : bounded r ch;
  a_queue : ∃ dead, queue_of r CSR = dead ++ [rx] ∧ Forall (λ x, x ∉ rx_live ch) dead;
  a_live : rx ∈ rx_live ch;
  a_other : ∀ s, s ≠ CSR → rx ∉ queue_of r s;
  a_none : delivered ch !! rx = None;
}.

Lemma queue_of_insert r s s' q :
  queue_of (MkFrameRouter (<[ServiceType_as_u16 s := q]> (waiters r))) s' = if decide (s = s') then q else queue_of r s'.
Proof.
  unfold queue_of. cbn. case_decide as E; [subst; by rewrite lookup_insert_eq|].
  rewrite lookup_insert_ne; [done|]. by intros ?%ServiceType_as_u16_inj.
Qed.
Lemma queue_of_delete r s s' :
  queue_of (MkFrameRouter (delete (ServiceType_as_u16 s) (waiters r))) s' = if decide (s = s') then [] else queue_of r s'.
Proof.
  unfold queue_of. cbn. case_decide as E; [subst; by rewrite lookup_delete_eq|].
  rewrite lookup_delete_ne; [done|]. by intros ?%ServiceType_as_u16_inj.
Qed.
(** A dispatch in terms of the queues. *)
Lemma dispatch_queues r ch f :
  let s := service_type (header f) in
  (∃ dead w rest res r', queue_of r s = dead ++ w :: rest ∧ Forall (λ x, x ∉ rx_live ch) dead ∧ w ∈ rx_live ch ∧
     FrameRouter_dispatch r ch f = (res, r', MkChannels (next_chan ch) (rx_live ch) (<[w := f]> (delivered ch))) ∧
     ∀ s', queue_of r' s' = if decide (s = s') then rest else queue_of r s') ∨
  (∃ res r', Forall (λ x, x ∉ rx_live ch) (queue_of r s) ∧ FrameRouter_dispatch r ch f = (res, r', ch) ∧
     ∀ s', queue_of r' s' = if decide (s = s') then [] else queue_of r s').
Proof.
  cbv zeta. destruct (dispatch_spec r ch f) as [(dead & w & rest & Hq & Hd & Hw & ->)|[Hd ->]].
  - left. eexists dead, w, rest, _, _. split_and!; [done..|]. intros s'.
    destruct rest; [apply queue_of_delete|apply queue_of_insert].
  - right. eexists _, _. split_and!; [done..|]. apply queue_of_delete.
Qed.
Lemma bounded_dispatch r ch f res r' ch' : bounded r ch → FrameRouter_dispatch r ch f = (res, r', ch') → bounded r' ch'.
Proof.
  intros [Hb Hf]. destruct (dispatch_queues r ch f) as [(dead & w & rest & x & r1 & Hq & _ & _ & -> & Hq')|(x & r1 & _ & -> & Hq')];
    intros [= <- <- <-].
  - split; cbn.
    + intros s tx. rewrite Hq'. case_decide as E; [|apply Hb]. intros Hin. apply (Hb (service_type (header f))). rewrite Hq. set_solver.
    + intros y Hy. rewrite lookup_insert_ne; [by apply Hf|]. assert (w < next_chan ch)%nat; [|lia].
      apply (Hb (service_type (header f))). rewrite Hq. set_solver.
  - split; [|done]. intros s tx. rewrite Hq'. case_decide; [set_solver|apply Hb].
Qed.

Lemma quiet_dispatch r ch f res r' ch' : quiet r ch → FrameRouter_dispatch r ch f = (res, r', ch') → quiet r' ch'.
Proof.
  intros [Hb Hd] E. split; [by eapply bounded_dispatch|]. revert E.
  destruct (dispatch_queues r ch f) as [(dead & w & rest & x & r1 & Hq & _ & Hw & -> & Hq')|(x & r1 & _ & -> & Hq')];
    intros [= <- <- <-]; rewrite Hq'; case_decide as E; [|done|done|done].
  rewrite <-E, Hq in Hd. by decompose_Forall.
Qed.
Lemma register_awaiting r ch rx r' ch' : quiet r ch → FrameRouter_register r ch CSR = (rx, r', ch') → awaiting rx r' ch'.
Proof.
  intros [[Hb Hf] Hd]. unfold FrameRouter_register, oneshot_channel.
  change (default [] (waiters r !! ServiceType_as_u16 CSR)) with (queue_of r CSR).
  intros [[<- <-]%pair_eq <-]%pair_eq.
  assert (∀ s tx, tx ∈ queue_of (MkFrameRouter (<[ServiceType_as_u16 CSR := queue_of r CSR ++ [next_chan ch]]> (waiters r))) s →
    (tx ≤ next_chan ch)%nat ∧ (s ≠ CSR → tx < next_chan ch)%nat) as Hall.
  { intros s tx. rewrite queue_of_insert. case_decide as E.
    - subst. rewrite elem_of_app, list_elem_of_singleton. intros [Hin| ->]; [|done]. apply Hb in Hin. split; [lia|done].
    - intros Hin%Hb. lia. }
  split; cbn [rx_live next_chan delivered].
  - split; cbn [rx_live next_chan delivered]; [intros s tx Hin%Hall; lia|]. intros x Hx. apply Hf. lia.
  - exists (queue_of r CSR). split; [by rewrite queue_of_insert, decide_True|].
    rewrite Forall_forall in Hd |- *. intros x Hx. pose proof (Hb _ _ Hx). specialize (Hd x Hx).
    rewrite not_elem_of_union, not_elem_of_singleton. split; [lia|done].
  - set_solver.
  - intros s Hs [_ Hin]%Hall. by apply Hin in Hs; lia.
  - by apply Hf.
Qed.
Lemma awaiting_forget rx r ch : awaiting rx r ch → quiet r (drop_rx rx ch).
Proof.
  intros [[Hb Hf] (dead & Hq & Hd) _ _ _]. split; [by split|]. rewrite Hq. apply Forall_app. split.
  - eapply Forall_impl; [exact Hd|]. cbn. set_solver.
  - constructor; [cbn; set_solver|done].
Qed.
(** A response is delivered to the waiter; other frames leave it waiting. *)
Lemma awaiting_dispatch rx r ch f res r' ch' : awaiting rx r ch → FrameRouter_dispatch r ch f = (res, r', ch') →
  if decide (service_type (header f) = CSR) then delivered ch' !! rx = Some f ∧ quiet r' ch'
  else awaiting rx r' ch'.
Proof.
  intros [Hb (dead & Hq & Hd) Hl Ho Hn] E. pose proof (bounded_dispatch _ _ _ _ _ _ Hb E) as Hb'. revert E.
  destruct (dispatch_queues r ch f) as [(dead' & w & rest & x & r1 & Hq0 & Hd' & Hw & -> & Hq')|(x & r1 & Hd' & -> & Hq')];
    intros [= <- <- <-]; case_decide as E.
  - rewrite E, Hq in Hq0. assert (dead' = dead ∧ w = rx ∧ rest = []) as (-> & -> & ->).
    { apply app_eq_app in Hq0 as [k [[-> Hk]|[-> Hk]]]; destruct k as [|y k]; cbn in Hk; simplify_eq.
      - by rewrite app_nil_r.
      - decompose_Forall. done.
      - by rewrite app_nil_r.
      - destruct k; simplify_eq. }
    cbn. rewrite lookup_insert_eq. split; [done|]. split; [done|]. rewrite Hq', E, decide_True by done. constructor.
  - split; [done| |done| |].
    + exists dead. by rewrite Hq', decide_False.
    + intros s Hs. rewrite Hq'. case_decide; [|by apply Ho]. intros Hin. apply (Ho (service_type (header f)) E). rewrite Hq0. set_solver.
    + cbn. rewrite lookup_insert_ne; [done|]. intros ->. apply (Ho (service_type (header f)) E). rewrite Hq0. set_solver.
  - rewrite E, Hq in Hd'. decompose_Forall. done.
  - split; [done| |done| |done].
    + exists dead. by rewrite Hq', decide_False.
    + intros s Hs. rewrite Hq'. case_decide; [set_solver|by apply Ho].
Qed.
End routing.

(** * What a pass amounts to *)
Definition response_in (l : list KnxIpFrame) : option KnxIpFrame :=
  head (filter (λ f, service_type (header f) = ServiceType.ConnectionstateResponse) l).
Definition pass_cycle (sent : bool) (p : heartbeat_pass) : cycle :=
  if sent then
    match response_in (while_waiting p) with
    | Some f => if is_ok_response f then Answered (seen_at p) (latency p) else NoResponse
    | None => NoResponse
    end
  else SendFailed.

Section outcomes.
Context {T : Type} `{FrameTransport T} `{Profile}.
Implicit Types (h : heartbeat_world T) (p : heartbeat_pass) (m : HeartbeatMonitor).

(** The request of a tunnel, sent on its transport if it has one. *)
Definition state_request (t : Tunnel T) : list Z :=
  frame_bytes ServiceType.ConnectionstateRequest
    (ConnectionstateRequest_serialize (ConnectionstateRequest_new (tunnel_channel_id t) (local_hpai t))).
Definition try_send (req : list Z) (tr : option T) : bool * option T :=
  match tr with
  | None => (false, None)
  | Some tr => let '(r, tr) := send_frame req tr in (match r with Ok _ => true | _ => false end, Some tr)
  end.
Fixpoint cycles (req : list Z) (passes : list heartbeat_pass) (tr : option T) : list cycle :=
  match passes with
  | [] => []
  | p :: passes => let '(sent, tr) := try_send req tr in pass_cycle sent p :: cycles req passes tr
  end.

Definition transport_of h : option T := transport (tunnel (hb_world h)).
Definition monitor_of h : option HeartbeatMonitor := heartbeat (tunnel (hb_world h)).
Definition request_of h : list Z := state_request (tunnel (hb_world h)).

Lemma route_run f h : ∃ res r ch, FrameRouter_dispatch (router h) (oneshots h) f = (res, r, ch) ∧
  route f h = (Ok tt, put_router r ch h).
Proof.
  unfold route, modify. destruct (FrameRouter_dispatch (router h) (oneshots h) f) as [[res r] ch]. by exists res, r, ch.
Qed.
Lemma route_all_run l h : quiet (router h) (oneshots h) →
  ∃ r ch, route_all l h = (Ok tt, put_router r ch h) ∧ quiet r ch.
Proof.
  revert h. induction l as [|f l IH]; intros h Hq; cbn [route_all foldr].
  { exists (router h), (oneshots h). by destruct h. }
  rewrite eff_bind_run. destruct (route_run f h) as (res & r & ch & E & ->).
  destruct (IH (put_router r ch h)) as (r' & ch' & E' & Hq'); [by eapply quiet_dispatch|].
  exists r', ch'. split; [exact E'|done].
Qed.
Lemma await_run rx l h : awaiting rx (router h) (oneshots h) →
  ∃ r ch, await_response rx l h = (Ok (response_in l), put_router r ch h) ∧ quiet r (drop_rx rx ch).
Proof.
  revert h. induction l as [|f l IH]; intros h Ha; cbn [await_response].
  { exists (router h), (oneshots h). split; [by destruct h|by apply awaiting_forget]. }
  rewrite eff_bind_run. destruct (route_run f h) as (res & r & ch & E & ->).
  pose proof (awaiting_dispatch _ _ _ _ _ _ _ Ha E) as Hd. rewrite eff_bind_run. cbn [gets put_router oneshots].
  unfold response_in. rewrite filter_cons. case_decide as Es.
  - destruct Hd as [-> [[Hb Hf] Hq]]. exists r, ch. split; [done|]. split; [by split|].
    eapply Forall_impl; [exact Hq|]. cbn. set_solver.
  - rewrite (a_none _ _ _ Hd). destruct (IH (put_router r ch h) Hd) as (r' & ch' & -> & Hq').
    exists r', ch'. by split.
Qed.

Definition put_transport (tr : option T) h : heartbeat_world T :=
  let w := hb_world h in
  MkHeartbeatWorld (MkWorld (set_transport tr (local_addr (tunnel w)) (tunnel w)) (registry w) (clock w))
    (router h) (oneshots h) (handle h).
Lemma task_send_run h sent tr :
  (∀ tr0, transport_of h = Some tr0 → (send_frame (request_of h) tr0).1 ≠ Panic) →
  try_send (request_of h) (transport_of h) = (sent, tr) →
  ∃ r, attempt (on_hb_world Tunnel_send_connectionstate_request) h = (Ok r, put_transport tr h) ∧
    sent = match r with inl _ => true | inr _ => false end.
Proof.
  unfold transport_of, request_of, attempt, on_hb_world, Tunnel_send_connectionstate_request. intros Hp.
  rewrite !eff_bind_run. cbn [gets lift].
  rewrite KnxIpFrame_new_Ok by (unfold ConnectionstateRequest_serialize; rewrite length_app, length_Hpai_serialize; cbn; lia).
  rewrite eff_bind_run. cbn [lift]. change (KnxIpFrame_serialize _) with (state_request (tunnel (hb_world h))).
  rewrite transport_send_eq. unfold try_send. destruct (transport (tunnel (hb_world h))) as [tr0|] eqn:Et.
  - specialize (Hp tr0 eq_refl). destruct (send_frame _ tr0) as [[[]|e|] tr1]; [..|done]; intros [= <- <-]; by eexists.
  - intros [= <- <-]. eexists (inr _). split; [|done]. cbn. f_equal. unfold put_transport. destruct h as [[[] ? ?] ? ? ?]. cbn in Et |- *. by subst.
Qed.

(** The loop of the monitor one cycle at a time. *)
Lemma loop_cons c cs m : heartbeat_loop (c :: cs) m =
  '(lost, ev, m) ← heartbeat_loop [c] m;
  if lost : bool then Ok (true, ev, m) else '(lost, ev', m) ← heartbeat_loop cs m; Ok (lost, ev ++ ev', m).
Proof.
  destruct c; cbn [heartbeat_loop]; [destruct (HeartbeatMonitor_record_failure m) as [[[] m']|e|]; cbn; try done;
    by destruct (heartbeat_loop cs m') as [[[? ?] ?]| |]..|].
  cbn. by destruct (heartbeat_loop cs _) as [[[? ?] ?]| |].
Qed.

Lemma failed_loop c m dead ev m' : heartbeat_loop [c] m = Ok (dead, ev, m') → failed c = true →
  HeartbeatMonitor_record_failure m = Ok (dead, m') ∧ ev = [MkHeartbeatEvent false None].
Proof.
  destruct c; [..|done]; cbn [heartbeat_loop]; destruct (HeartbeatMonitor_record_failure m) as [[[] m1]|e|];
    cbn; intros; by simplify_eq.
Qed.
Lemma monitor_run h m : monitor_of h = Some m → monitor h = (Ok m, h).
Proof. unfold monitor_of, monitor. intros Hm. rewrite eff_bind_run. cbn [gets]. by rewrite Hm. Qed.
Lemma record_failure_run h m dead m' : monitor_of h = Some m →
  HeartbeatMonitor_record_failure m = Ok (dead, m') → record_failure h = (Ok dead, put_monitor m' h).
Proof. intros Hm E. unfold record_failure. rewrite eff_bind_run, (monitor_run h m), eff_bind_run by done. cbn [lift]. by rewrite E. Qed.

(** What a cycle leaves: the monitor, the transport, the router, the events and,
    if the tunnel is lost, everybody who waits for that woken. *)
Definition after_cycle (dead : bool) (ev : list HeartbeatEvent) m (tr : option T) (r : FrameRouter) (ch : channels) h
    : heartbeat_world T :=
  put_handle (MkHeartbeatHandle (if dead then notify_waiters (lost (handle h)) else lost (handle h))
                (events (handle h) ++ ev) (task (handle h)))
    (put_router r ch (put_monitor m (put_transport tr h))).

Lemma cycle_run p h m sent tr dead ev m' :
  quiet (router h) (oneshots h) → monitor_of h = Some m →
  (∀ tr0, transport_of h = Some tr0 → (send_frame (request_of h) tr0).1 ≠ Panic) →
  try_send (request_of h) (transport_of h) = (sent, tr) →
  heartbeat_loop [pass_cycle sent p] m = Ok (dead, ev, m') →
  ∃ r ch, heartbeat_cycle p h = (Ok dead, after_cycle dead ev m' tr r ch h) ∧ quiet r ch.
Proof.
  intros Hq Hm Hp Ht Hl. unfold heartbeat_cycle. rewrite eff_bind_run. unfold register at 1.
  destruct (FrameRouter_register _ _ _) as [[rx r1] ch1] eqn:Er. pose proof (register_awaiting _ _ _ _ _ Hq Er) as Ha.
  destruct (task_send_run (put_router r1 ch1 h) sent tr Hp Ht) as (res & Es & ->). rewrite eff_bind_run, Es.
  destruct res as [[]|e]; cbn [pass_cycle] in Hl.
  - destruct (await_run rx (while_waiting p) (put_transport tr (put_router r1 ch1 h)) Ha) as (r & ch & Ew & Hq').
    rewrite eff_bind_run, Ew, eff_bind_run. unfold forget at 1, modify at 1. exists r, (drop_rx rx ch). split; [|done].
    destruct (match response_in (while_waiting p) with Some f => is_ok_response f | None => false end) eqn:Eo.
    + assert (ev = [MkHeartbeatEvent true (Some (latency p))] ∧ m' = HeartbeatMonitor_record_success (seen_at p) m ∧ dead = false) as (-> & -> & ->).
      { destruct (response_in _) as [f|]; [|done]. rewrite Eo in Hl. by injection Hl as <- <- <-. }
      rewrite eff_bind_run. unfold record_success. by rewrite eff_bind_run, (monitor_run _ m).
    + assert (HeartbeatMonitor_record_failure m = Ok (dead, m') ∧ ev = [MkHeartbeatEvent false None]) as [Ef ->].
      { apply (failed_loop _ _ _ _ _ Hl). by destruct (response_in _) as [f|]; [rewrite Eo|]. }
      rewrite eff_bind_run, (record_failure_run _ m dead m') by done. by destruct dead.
  - apply failed_loop in Hl as [Ef ->]; [|done]. rewrite eff_bind_run. unfold emit at 1, modify at 1.
    rewrite eff_bind_run, (record_failure_run _ m dead m') by done. exists r1, (drop_rx rx ch1).
    split; [by destruct dead|by apply awaiting_forget].
Qed.

(** A monitor that counts below its limit of [n] failures. *)
Record counting (n : nat) m : Prop := {
  c_max : max_failures (config m) = Z.of_nat n;
  c_limit : (1 ≤ n ≤ 255)%nat;
  c_count : 0 ≤ consecutive_failures m < Z.of_nat n;
}.
Lemma loop_one n c m : counting n m →
  ∃ dead ev m', heartbeat_loop [c] m = Ok (dead, ev, m') ∧ (dead = false → counting n m').
Proof.
  intros [Hm Hn Hc]. destruct c as [| |now lat]; cbn [heartbeat_loop].
  3: { eexists _, _, _. split; [done|]. intros _. split; cbn; [done|done|lia]. }
  all: rewrite record_failure_Ok by lia; cbn [mbind outcome_bind]; rewrite Hm;
    destruct (Z.leb_spec (Z.of_nat n) (consecutive_failures m + 1)); eexists _, _, _; (split; [done|]);
    [done|]; intros _; split; cbn; lia.
Qed.

Context `{!SafeInput T}.
Definition ready h : Prop := ∀ tr, transport_of h = Some tr → input_safe tr.
Lemma ready_send h sent tr : ready h → try_send (request_of h) (transport_of h) = (sent, tr) →
  (∀ tr0, transport_of h = Some tr0 → (send_frame (request_of h) tr0).1 ≠ Panic) ∧ ∀ tr1, tr = Some tr1 → input_safe tr1.
Proof.
  unfold ready, try_send. intros Hs. destruct (transport_of h) as [tr0|]; [|intros [= <- <-]; by split].
  destruct (send_safe (request_of h) tr0 (Hs tr0 eq_refl)) as [H1 H2].
  destruct (send_frame _ tr0) as [r tr1] eqn:E. cbn in H1, H2. intros [= <- <-]. split; [|by intros ? [= <-]].
  intros ? [= <-]. by rewrite E.
Qed.

(** The task does what the loop of the monitor does on the cycles its passes
    amount to. *)
Lemma task_run n passes h m :
  quiet (router h) (oneshots h) → monitor_of h = Some m → counting n m → ready h →
  ∃ dead ev m' h', heartbeat_loop (cycles (request_of h) passes (transport_of h)) m = Ok (dead, ev, m') ∧
    heartbeat_task passes h = (Ok tt, h') ∧ quiet (router h') (oneshots h') ∧ monitor_of h' = Some m' ∧
    handle h' = MkHeartbeatHandle (if dead then notify_waiters (lost (handle h)) else lost (handle h))
      (events (handle h) ++ ev) (if dead then Finished else task (handle h)).
Proof.
  revert h m. induction passes as [|p passes IH]; intros h m Hq Hm Hc Hr; cbn [heartbeat_task cycles].
  { exists false, [], m, h. rewrite app_nil_r. split_and!; try done. by destruct h as [? ? ? []]. }
  destruct (route_all_run (while_asleep p) h Hq) as (r & ch & E & Hq1). rewrite eff_bind_run, E.
  destruct (try_send (request_of h) (transport_of h)) as [sent tr] eqn:Et.
  destruct (loop_one n (pass_cycle sent p) m Hc) as (dead & ev & m1 & El & Hc1).
  destruct (ready_send h sent tr Hr Et) as [Hp Hs].
  destruct (cycle_run p (put_router r ch h) m sent tr dead ev m1 Hq1 Hm Hp Et El) as (r' & ch' & Ecy & Hq2).
  rewrite eff_bind_run, Ecy, loop_cons, El. cbn [mbind outcome_bind]. destruct dead.
  - eexists _, _, _, _. split_and!; done.
  - destruct (IH (after_cycle false ev m1 tr r' ch' (put_router r ch h)) m1 Hq2 eq_refl (Hc1 eq_refl) Hs)
      as (dead & ev' & m' & h' & El' & Et' & Hq' & Hm' & Hh').
    change (request_of (after_cycle _ _ _ _ _ _ _)) with (request_of h) in El'.
    change (transport_of (after_cycle _ _ _ _ _ _ _)) with tr in El'. rewrite El'.
    eexists _, _, m', h'. split_and!; [done|done|done|done|]. rewrite Hh'. cbn. by rewrite app_assoc.
Qed.
End outcomes.

(** * Properties *)
Section properties.
Context `{Profile}.

(** C19: The heartbeat of a tunnel from its start.  The task never panics and ends
    exactly when three passes in a row failed, a pass failing if its request
    could not be sent or the first response routed before the timeout is missing
    or not OK; then the tunnel reports the loss and everybody who waits for it
    is woken.  Otherwise it goes on, and nobody is woken.  The events are the
    outcomes of the passes, in order, up to that point. *)
Theorem heartbeat_task_lost_iff {T} `{SafeInput T} label (w : world T) r ch n passes :
  use_heartbeat (tunnel w) = true → quiet r ch → (∀ tr, transport (tunnel w) = Some tr → input_safe tr) →
  let '(x, w1) := start_heartbeat label w in
  let cs := cycles (state_request (tunnel w)) passes (transport (tunnel w)) in
  ∃ h dead ev m, heartbeat_task passes (MkHeartbeatWorld w1 r ch (MkHeartbeatHandle n (events x) (task x))) = (Ok tt, h) ∧
    (dead = true ↔ failure_run 3 (failed <$> cs)) ∧
    Tunnel_is_tunnel_lost (tunnel (hb_world h)) = dead ∧
    handle h = MkHeartbeatHandle (if dead : bool then notify_waiters n else n) ev (if dead then Finished else Running) ∧
    heartbeat_loop cs (HeartbeatMonitor_new HeartbeatConfig_default (tunnel_channel_id (tunnel w)) label) = Ok (dead, ev, m).
Proof.
  intros Hu Hq Hs. unfold start_heartbeat. rewrite Hu. cbn [negb].
  set (m := HeartbeatMonitor_new HeartbeatConfig_default (tunnel_channel_id (tunnel w)) label).
  set (w1 := MkWorld _ _ _). cbn [events task]. cbv zeta.
  destruct (task_run 3 passes (MkHeartbeatWorld w1 r ch (MkHeartbeatHandle n [] Running)) m Hq eq_refl) as (dead & ev & m' & h & El & Et & _ & Hm & Hh);
    [split; cbn; lia|exact Hs|].
  change (request_of _) with (state_request (tunnel w)) in El. change (transport_of _) with (transport (tunnel w)) in El.
  exists h, dead, ev, m'. destruct (heartbeat_loop_spec (cycles (state_request (tunnel w)) passes (transport (tunnel w))) m 3)
    as (ev1 & m1 & El1 & Hl1); [cbn; lia..|].
  rewrite El in El1. injection El1 as -> <- <-. split_and!; [exact Et|apply (lost_spec_run 3 0); lia| |exact Hh|exact El].
  unfold Tunnel_is_tunnel_lost. unfold monitor_of in Hm. rewrite Hm. exact Hl1.
Qed.

(** The handle: without a heartbeat no task is spawned, the tunnel is not
    touched, and waiting for an event ends at once; events come out in the order
    they were emitted, and after the last one of an ended task none is waited
    for; stopping ends the task and wakes whoever waits for the loss, and a task
    that has ended stays so. *)
Theorem heartbeat_handle {T} `{FrameTransport T} label (w : world T) x e l :
  (use_heartbeat (tunnel w) = false → start_heartbeat label w = (MkHeartbeatHandle Notify_new [] NotSpawned, w) ∧
    (HeartbeatHandle_recv_event (start_heartbeat label w).1).1 = Some None) ∧
  (events x = e :: l → HeartbeatHandle_recv_event x = (Some (Some e), MkHeartbeatHandle (lost x) l (task x))) ∧
  (events x = [] → (HeartbeatHandle_recv_event x).1 = (if bool_decide (task x = Running) then None else Some None)) ∧
  task (HeartbeatHandle_stop x) ≠ Running ∧ woken (lost (HeartbeatHandle_stop x)) = woken (lost x) ++ waiting (lost x) ∧
  (task x ≠ Running → task (HeartbeatHandle_stop x) = task x).
Proof.
  split_and!.
  - intros Hu. unfold start_heartbeat. by rewrite Hu.
  - intros E. unfold HeartbeatHandle_recv_event. by rewrite E.
  - intros E. unfold HeartbeatHandle_recv_event. rewrite E. by destruct (task x).
  - cbn. by destruct (task x).
  - done.
  - cbn. by destruct (task x).
Qed.

(** * Client and server *)

(** The answer to a heartbeat: the session it is for and the reply. *)
Definition state_response (ch status : Z) : list Z :=
  frame_bytes ServiceType.ConnectionstateResponse
    (ConnectionstateResponse_serialize (ConnectionstateResponse_new ch status)).
Lemma length_state_request {T} (t : Tunnel T) :
  Z.of_nat (length (ConnectionstateRequest_serialize (ConnectionstateRequest_new (tunnel_channel_id t) (local_hpai t)))) ≤ 65529.
Proof. unfold ConnectionstateRequest_serialize. rewrite length_app, length_Hpai_serialize. cbn. lia. Qed.
Lemma server_answers {T} (t : Tunnel T) l s : Hpai_wf (local_hpai t) → socket_ready s →
  handle_frame (state_request t) l s =
    match sessions s !! tunnel_channel_id t with
    | Some c => (Ok None, sent_ok (link c) (state_response (tunnel_channel_id t) CONNECTIONSTATE_STATUS_OK)
                   (set_session (tunnel_channel_id t) (ClientSession_touch (server_clock s) c) s))
    | None => (Ok None, sent_ok l (state_response (tunnel_channel_id t) STATUS_ERROR_CONNECTION_ID) s)
    end.
Proof.
  intros Hh Hs. unfold handle_frame. rewrite eff_bind_run.
  destruct (frame_bytes_parse ServiceType.ConnectionstateRequest _ (length_state_request t)) as (f & Ef & Es & Eb).
  unfold state_request. rewrite Ef. cbn [lift]. unfold dispatch_plain_frame. rewrite Es, eff_bind_run, Eb.
  unfold handle_connectionstate_request. rewrite !eff_bind_run, ConnectionstateRequest_roundtrip by exact Hh. cbn [lift gets].
  rewrite !eff_bind_run. cbn [gets id csreq_channel_id ConnectionstateRequest_new].
  destruct (sessions s !! tunnel_channel_id t) as [c|]; rewrite ?eff_bind_run; cbn [modify mret eff_ret];
    by rewrite send_reply_run by (cbn; lia || done).
Qed.
Lemma response_frame ch status : ∃ f, KnxIpFrame_parse (state_response ch status) = Ok f ∧
  service_type (header f) = ServiceType.ConnectionstateResponse ∧ is_ok_response f = (status =? CONNECTIONSTATE_STATUS_OK).
Proof.
  destruct (frame_bytes_parse ServiceType.ConnectionstateResponse
    (ConnectionstateResponse_serialize (ConnectionstateResponse_new ch status))) as (f & Ef & Es & Eb); [cbn; lia|].
  exists f. split_and!; [done|done|]. unfold is_ok_response. by rewrite Eb.
Qed.

Lemma evict_fields ids s : server_clock (evict ids s) = server_clock s ∧ sent (evict ids s) = sent s ∧
  send_faults (evict ids s) = send_faults s ∧ published (evict ids s) = published s.
Proof. induction ids as [|id ids IH]; [done|exact IH]. Qed.

(** One round between a client and a server: after [dt] the server sweeps, the
    client's request is handled, and what the server sends to the client's
    address is routed to the heartbeat before its timeout. *)
Definition round {T} `{FrameTransport T} (l : ClientLink) (x : Z * Z * Z) (hs : heartbeat_world T * TunnelServer)
    : heartbeat_world T * TunnelServer :=
  let '(dt, a, b) := x in
  let '(h, s) := hs in
  let s := evict (stale_ids (advance_clock dt s)) (advance_clock dt s) in
  let s' := (handle_frame (request_of h) l s).2 in
  let replies := filter (λ r, r.1 = l) (drop (length (sent s)) (sent s')) in
  let frames := omap (λ r, result_ok (KnxIpFrame_parse r.2)) replies in
  ((heartbeat_task [MkPass [] a frames b] h).2, s').
Definition rounds {T} `{FrameTransport T} (l : ClientLink) (xs : list (Z * Z * Z)) (hs : heartbeat_world T * TunnelServer)
    : heartbeat_world T * TunnelServer := foldl (flip (round l)) hs xs.

(** A client with its session at the server. *)
Record alive (l : ClientLink) (h : heartbeat_world UdpFrameTransport) s : Prop := {
  al_session : ∃ c, sessions s !! tunnel_channel_id (tunnel (hb_world h)) = Some c ∧ link c = l ∧
    server_clock s - last_heartbeat c ≤ 0;
  al_socket : send_faults s = [];
  al_quiet : quiet (router h) (oneshots h);
  al_monitor : ∃ m, monitor_of h = Some m ∧ counting 3 m ∧ tunnel_lost m = false;
  al_transport : ∃ reads out, transport_of h = Some (MkUdp reads [] out);
  al_hpai : Hpai_wf (local_hpai (tunnel (hb_world h)));
}.
Lemma round_alive l dt a b h s : alive l h s → 0 ≤ dt ≤ 120 * 1000000000 →
  let '(h', s') := round l (dt, a, b) (h, s) in
  alive l h' s' ∧ server_clock s' = server_clock s + dt ∧ lost (handle h') = lost (handle h) ∧ task (handle h') = task (handle h) ∧
  events (handle h') = events (handle h) ++ [MkHeartbeatEvent true (Some (latency (MkPass [] a [] b)))].
Proof.
  intros [(c & Hc & Hl & Hcl) Hf Hq (m & Hm & Hcm & Hlm) (reads & out & Ht) Hh] Hdt. unfold round.
  set (s1 := advance_clock dt s). set (s2 := evict _ s1). set (ch := tunnel_channel_id (tunnel (hb_world h))) in *.
  destruct (evict_fields (stale_ids s1) s1) as (Eclk & Esent & Efl & _). fold s2 in Eclk, Esent, Efl.
  assert (sessions s2 !! ch = Some c) as Hc2 by (apply sweep_lookup; split; [done|]; intros c0 Hc0; cbn in Hc0 |- *; simplify_eq; lia).
  unfold request_of. rewrite server_answers; [|done|unfold socket_ready; by rewrite Efl; cbn; rewrite Hf]. fold ch. rewrite Hc2. cbn [snd].
  set (s3 := sent_ok _ _ _). assert (sent s3 = sent s2 ++ [(l, state_response ch CONNECTIONSTATE_STATUS_OK)]) as E3 by (cbn; by rewrite Hl).
  rewrite E3, drop_app_length. destruct (response_frame ch CONNECTIONSTATE_STATUS_OK) as (f & Ef & Es & Eo).
  rewrite filter_cons_True, filter_nil by done. cbn [omap list_omap snd]. rewrite Ef. cbn [result_ok].
  assert (heartbeat_loop [pass_cycle true (MkPass [] a [f] b)] m =
    Ok (false, [MkHeartbeatEvent true (Some (latency (MkPass [] a [] b)))], HeartbeatMonitor_record_success b m)) as Eloop.
  { unfold pass_cycle, response_in. cbn [while_waiting]. rewrite filter_cons_True, filter_nil by done. cbn [hd_error]. by rewrite Eo. }
  destruct (cycle_run (MkPass [] a [f] b) h m true (Some (MkUdp reads [] (out ++ [request_of h])))
    _ _ _ Hq Hm ltac:(by rewrite Ht; intros ? [= <-]) ltac:(by rewrite Ht) Eloop) as (r & ch' & Ec & Hq').
  cbn [heartbeat_task while_asleep route_all foldr]. rewrite eff_bind_run. cbn [mret eff_ret]. rewrite eff_bind_run, Ec. cbn [snd].
  split; [|by split_and!; [cbn; rewrite Eclk|..]]. split.
  - eexists. split; [apply lookup_insert_eq|]. split; [done|]. cbn. lia.
  - cbn. by rewrite Efl; cbn; rewrite Hf.
  - done.
  - eexists. split; [done|]. split; [|done]. destruct Hcm as [? ? ?]. split; cbn; [done|done|lia].
  - by eexists _, _.
  - exact Hh.
Qed.

(** C20: A heartbeat keeps its session alive.  A client whose requests reach the server
    at most 120 seconds apart, and whose answers come back in time, keeps its
    session through every sweep, however many rounds there are; the tunnel is
    never declared lost and every event reports success with its latency. *)
Theorem heartbeat_keeps_alive l xs h s :
  alive l h s → Forall (λ x, 0 ≤ x.1.1 ≤ 120 * 1000000000) xs →
  let '(h', s') := rounds l xs (h, s) in
  (∃ c, sessions s' !! tunnel_channel_id (tunnel (hb_world h')) = Some c ∧ link c = l) ∧
  Tunnel_is_tunnel_lost (tunnel (hb_world h')) = false ∧ task (handle h') = task (handle h) ∧ lost (handle h') = lost (handle h) ∧
  events (handle h') = events (handle h) ++
    ((λ x, MkHeartbeatEvent true (Some (latency (MkPass [] x.1.2 [] x.2)))) <$> xs).
Proof.
  revert h s. induction xs as [|[[dt a] b] xs IH]; intros h s Ha Hx; cbn [rounds foldl].
  - destruct Ha as [(c & Hc & Hl & _) _ _ (m & Hm & _ & Hlm) _ _]. split_and!; [by exists c| |done|done|by rewrite app_nil_r].
    unfold Tunnel_is_tunnel_lost. unfold monitor_of in Hm. by rewrite Hm.
  - apply Forall_cons in Hx as [Hdt Hx]. pose proof (round_alive l dt a b h s Ha Hdt) as Hr. cbn [flip].
    destruct (round l (dt, a, b) (h, s)) as [h1 s1]. destruct Hr as (Ha1 & _ & Elost & Etask & Eev).
    specialize (IH h1 s1 Ha1 Hx). unfold rounds in IH. destruct (foldl _ (h1, s1) xs) as [h2 s2].
    destruct IH as (Hc & Hl & Et & Elo & Ee). split_and!; [done|done|congruence|congruence|].
    rewrite Ee, Eev, <-app_assoc. done.
Qed.

(** * The client of the application has no heartbeat *)

(** A pass of the receiving task that hears nothing. *)
Lemma stall_pass config reads out n q lim (c : client UdpFrameTransport) : udp_client (Stall :: reads) out n q lim c →
  ∃ c', receiving_pass config false true c = (Ok Continue, c') ∧ udp_client reads out n q lim c' ∧ telegram_queue c' = telegram_queue c.
Proof.
  intros [(w & Hw & Hc & Ht & Hn) Hl Hq Hi]. unfold receiving_pass. rewrite eff_bind_run.
  unfold attempt, on_tunnel_connection. rewrite Hw. unfold Tunnel_Connection_recv. rewrite eff_bind_run. cbn [gets]. rewrite Hc.
  unfold Tunnel_recv_frame, attempt, mbind, eff_bind. rewrite transport_recv_eq, Ht. cbn.
  eexists. split; [done|]. split; [|done]. split; try done. eexists. split; [done|]. by split_and!.
Qed.
Lemma stall_run config times reads out n q lim (c : client UdpFrameTransport) :
  udp_client (((λ _, Stall) <$> times) ++ reads) out n q lim c →
  ∃ c', receiving_task config ((λ time, (time, false, true)) <$> times) c = (Ok tt, c') ∧ udp_client reads out n q lim c' ∧
    telegram_queue c' = telegram_queue c.
Proof.
  revert c. induction times as [|time times IH]; intros c Hc; [by exists c|]. cbn [fmap list_fmap receiving_task app] in *.
  rewrite eff_bind_run. unfold modify at 1. apply (udp_client_now time) in Hc.
  destruct (stall_pass config _ _ _ _ _ _ Hc) as (c1 & E & Hc1 & Hq1). rewrite eff_bind_run, E.
  destruct (IH c1 Hc1) as (c2 & E2 & Hc2 & Hq2). exists c2. split_and!; [done|done|etrans; [exact Hq2|exact Hq1]].
Qed.

(** The application starts no heartbeat, so an idle client loses its session.  A
    client that hears nothing and has nothing to send writes nothing on its
    tunnel, however long its tasks run, and stays connected.  A server that has
    heard nothing of a client for more than 120 seconds evicts it at the next
    sweep and tells nobody; whatever the client then sends on its channel is
    dropped without an answer. *)
Theorem idle_client_evicted config times reads out n q lim (c : client UdpFrameTransport) ch ses sq cemi l s :
  udp_client (((λ _, Stall) <$> times) ++ reads) out n q lim c → outgoing (telegram_queue c) = [] →
  sessions s !! ch = Some ses → server_clock s - last_heartbeat ses > 120 * 1000000000 → Z.of_nat (length cemi) ≤ 65525 →
  (∃ c', receiving_task config ((λ time, (time, false, true)) <$> times) c = (Ok tt, c') ∧ udp_client reads out n q lim c' ∧
     sending_pass false c' = (Ok Wait, c')) ∧
  (let s' := evict (stale_ids s) s in
   sessions s' !! ch = None ∧ sent s' = sent s ∧ handle_frame (request_datagram ch sq cemi) l s' = (Ok None, s')).
Proof.
  intros Hc Ho Hs Hold Hlen. split.
  - destruct (stall_run config times reads out n q lim c Hc) as (c' & E & Hc' & Eq). exists c'. split_and!; [done|done|].
    unfold sending_pass. rewrite eff_bind_run. cbn [gets id andb]. unfold dequeue_outgoing_step. rewrite Eq, Ho. cbn [heap_pop].
    destruct Hc' as [_ _ Hcl _]. rewrite Eq in Hcl. rewrite Hcl, <-Eq. by destruct c'.
  - cbv zeta. assert (sessions (evict (stale_ids s) s) !! ch = None) as Hn.
    { destruct (sessions (evict (stale_ids s) s) !! ch) as [c0|] eqn:E; [|done].
      apply sweep_lookup in E as [_ E]. specialize (E ses Hs). lia. }
    split_and!; [done|apply evict_fields|].
    unfold handle_frame. rewrite eff_bind_run.
    destruct (frame_bytes_parse ServiceType.TunnellingRequest (TunnellingRequest_serialize (TunnellingRequest_new ch sq cemi)))
      as (f & Ef & Es & Eb); [rewrite length_request; lia|].
    unfold request_datagram. rewrite Ef. cbn [lift]. unfold dispatch_plain_frame. rewrite Es, eff_bind_run, Eb.
    unfold handle_tunnelling_request. rewrite eff_bind_run, TunnellingRequest_roundtrip. cbn [lift]. rewrite eff_bind_run.
    cbn [gets id treq_channel_id TunnellingRequest_new]. by rewrite Hn.
Qed.
End properties.

(** * Witnesses *)
Section witnesses.
#[local] Instance heartbeat_task_release : Profile := {| debug_build := false |}.
Definition no_channels : channels := MkChannels 0 ∅ ∅.
Lemma quiet_start : quiet FrameRouter_new no_channels.
Proof. split; [split|]; [intros s tx Hin; by apply not_elem_of_nil in Hin|intros x _; apply lookup_empty|constructor]. Defined.
Definition beating : world UdpFrameTransport := (start_heartbeat "t" (sample_world [])).2.

(** Three silent minutes. *)
Lemma heartbeat_task_lost_iff_witness : ∃ h,
  heartbeat_task (replicate 3 (MkPass [] 0 [] 10000000000))
    (MkHeartbeatWorld beating FrameRouter_new no_channels (MkHeartbeatHandle (MkNotify [7%nat] []) [] Running)) = (Ok tt, h) ∧
  Tunnel_is_tunnel_lost (tunnel (hb_world h)) = true ∧ woken (lost (handle h)) = [7%nat] ∧ task (handle h) = Finished.
Proof.
  destruct (heartbeat_task_lost_iff "t" (sample_world []) FrameRouter_new no_channels (MkNotify [7%nat] [])
    (replicate 3 (MkPass [] 0 [] 10000000000)) eq_refl quiet_start ltac:(intros tr [= <-]; constructor))
    as (h & dead & ev & m & E & [_ Hd] & Hl & Hh & _).
  rewrite Hd in Hl, Hh by (exists [], []; reflexivity). exists h. rewrite Hh. split; [exact E|]. split; [exact Hl|]. split; reflexivity.
Defined.

Lemma heartbeat_keeps_alive_witness : ∃ h s c,
  rounds (UdpLink sample_peer) [(60000000000, 0, 5000000)]
    (MkHeartbeatWorld beating FrameRouter_new no_channels (MkHeartbeatHandle Notify_new [] Running),
     set_session 0 (ClientSession_new 0 0 (UdpLink sample_peer)) sample_server) = (h, s) ∧
  sessions s !! 0 = Some c ∧ events (handle h) = [MkHeartbeatEvent true (Some 5)].
Proof.
  set (h0 := MkHeartbeatWorld beating FrameRouter_new no_channels (MkHeartbeatHandle Notify_new [] Running)).
  set (s0 := set_session 0 (ClientSession_new 0 0 (UdpLink sample_peer)) sample_server).
  assert (alive (UdpLink sample_peer) h0 s0) as Ha.
  { split; [eexists; split; [reflexivity|split; [reflexivity|cbn; lia]]|reflexivity|exact quiet_start| |by eexists _, _|vm_compute; intuition congruence].
    eexists. split; [reflexivity|]. split; [split; cbn; lia|reflexivity]. }
  pose proof (heartbeat_keeps_alive (UdpLink sample_peer) [(60000000000, 0, 5000000)] h0 s0 Ha ltac:(constructor; [cbn; lia|constructor])) as Hr.
  destruct (rounds (UdpLink sample_peer) [(60000000000, 0, 5000000)] (h0, s0)) as [h s] eqn:E.
  destruct Hr as ((c & Hc & _) & _ & _ & _ & Ev). exists h, s, c. split; [reflexivity|]. split; [|exact Ev].
  assert (tunnel_channel_id (tunnel (hb_world h)) = 0) as <-; [|exact Hc].
  apply (f_equal (λ x, tunnel_channel_id (tunnel (hb_world x.1)))) in E. etrans; [symmetry; exact E|vm_compute; reflexivity].
Defined.

Lemma idle_client_evicted_witness :
  (∃ c', receiving_task QueueConfig_default [(0, false, true); (1000, false, true)] (sample_client [Stall; Stall]) = (Ok tt, c') ∧
     udp_client [] [] 0 [] new_limiter c' ∧ sending_pass false c' = (Ok Wait, c')) ∧
  sessions (evict (stale_ids late_client) late_client) !! 1 = None.
Proof.
  destruct (idle_client_evicted QueueConfig_default [0; 1000] [] [] 0 [] new_limiter (sample_client [Stall; Stall]) 1 sample_session 0 sample_cemi_bytes
    (UdpLink sample_peer) late_client (sample_udp_client _) eq_refl eq_refl ltac:(reflexivity) ltac:(vm_compute; congruence)) as [Hc [Hs _]].
  split; [exact Hc|exact Hs].
Defined.
End witnesses.
