(* ===== verification/Delivery.v ===== *)
(** From one application to another: the sending task of a client
    ([src/src/application/knx.rs]) composed with its queue ([Queue]), its tunnel
    ([TunnelCore]) and the dispatch loop of the server ([Server]).

    The application calls [send_telegram], the sending task drains the queue
    into datagrams, and the server publishes what it accepts of them. *)
From Stdlib Require Import Sorting.Sorted.
From S2P Require Import Prelude Errors Address Apdu Telegram Cemi KnxIp FrameTransport Connection.
From S2P Require Import ReceiveLimiter Queue TunnelCore Server ServerBehaviour Client.

(** * The sending task

    The loop of [start_telegram_sending_task], for as many passes as the list
    has; each says what is read of the shutdown flag.  The flag is read before a
    dequeue begins and not while it waits. *)
Section task.
Context {T : Type} `{FrameTransport T} `{Profile}.
Abbreviation M := (eff (client T) KnxError).

Fixpoint sending_task (waiting : bool) (passes : list bool) : M unit :=
  match passes with
  | [] => mret tt
  | shutdown :: passes =>
      d ← sending_pass (shutdown && negb waiting);
      match d with
      | Ended => mret tt
      | Got _ => sending_task false passes
      | Wait => sending_task true passes
      end
  end.

(** The calls of the application, one [send_telegram] after the other. *)
Fixpoint send_telegrams (config : QueueConfig) (address : IndividualAddress) (ts : list Telegram) : M unit :=
  match ts with
  | [] => mret tt
  | t :: ts => _ ← Knx_send_telegram config address t; send_telegrams config address ts
  end.
End task.

(** * Specification *)

(** Telegrams in the order they leave: by urgency, and as they came within one. *)
Definition of_priority (p : Priority) (ts : list Telegram) : list Telegram := filter (λ t, priority t = p) ts.
Definition by_urgency (ts : list Telegram) : list Telegram :=
  of_priority System ts ++ of_priority Urgent ts ++ of_priority Normal ts ++ of_priority Low ts.
Definition in_order (l : lanes) : list Telegram := lane_system l ++ lane_urgent l ++ lane_normal l ++ lane_low l.

(** The datagrams that carry telegrams, numbered from [seq]. *)
Fixpoint numbered (ch seq : Z) (ts : list Telegram) : list (list Z) :=
  match ts with
  | [] => []
  | t :: ts => request_datagram ch seq (sent_cemi t LDataReq) :: numbered ch (as_u8 (seq + 1)) ts
  end.
(** Every datagram arrives, the [i]th one [S (ks !! i)] times. *)
Definition copies {A} (ks : list nat) (ds : list A) : list A :=
  concat (zip_with (λ k d, replicate (S k) d) ks ds).

(** A client whose tunnel [ch] is up over UDP, has sent [out] and numbers its
    next request [n]. *)
Record udp_sender (ch n : Z) (out : list (list Z)) (c : client UdpFrameTransport) : Prop := {
  us_tunnel : ∃ w reads, conn c = TunnelConnection w ∧ Tunnel_is_connected (tunnel w) = true ∧
    transport (tunnel w) = Some (MkUdp reads [] out) ∧ tunnel_channel_id (tunnel w) = ch ∧
    TunnelCore.sequence_counter (tunnel w) = n;
}.

(** * Lemmas *)
Lemma in_order_pop l :
  match lanes_pop l with
  | Some (t, l') => in_order l = t :: in_order l'
  | None => in_order l = []
  end.
Proof. destruct l as [[|] [|] [|] [|] ? ?]; done. Qed.
Lemma lanes_dequeue max at_ l t l' : lanes_pop l = Some (t, l') →
  lanes_step max (DequeueOutgoing at_) l = (Dequeued (Got t), l').
Proof. destruct l. cbn [lanes_step]. by intros ->. Qed.
Lemma lanes_pop_closed l t l' : lanes_pop l = Some (t, l') → lanes_closed l' = lanes_closed l.
Proof. destruct l as [[|] [|] [|] [|] ? ?]; cbn; by intros [= <- <-]. Qed.
Lemma lane_of_priority p h : lane p h = of_priority p (pt_telegram <$> h).
Proof.
  unfold lane, of_priority. induction h as [|x h IH]; [done|]. rewrite filter_cons, fmap_cons, filter_cons.
  destruct (decide _); cbn; by rewrite IH.
Qed.
Lemma in_order_abstraction q : in_order (abstraction q) = by_urgency (pt_telegram <$> outgoing q).
Proof. unfold in_order, abstraction, by_urgency. cbn. by rewrite !lane_of_priority. Qed.
Lemma lane_outgoing q : in_order (abstraction q) = [] → outgoing q = [].
Proof.
  unfold in_order, abstraction. cbn. intros E. apply nil_length_inv. rewrite lanes_length.
  apply (f_equal length) in E. rewrite !length_app in E. cbn in E. lia.
Qed.
Lemma sendable_fits t : telegram_sendable t → telegram_fits t.
Proof. by intros (_ & _ & _ & Hl). Qed.

(** The application's calls all succeed while the queue has room. *)
Lemma send_telegrams_run {T} config a ts (c : client T) :
  queue_inv config (telegram_queue c) → closed (telegram_queue c) = false →
  (length (outgoing (telegram_queue c)) + length ts ≤ max_size config)%nat →
  ∃ q, send_telegrams config a ts c = (Ok tt, set_queue q c) ∧ queue_inv config q ∧ closed q = false ∧
    pt_telegram <$> outgoing q = (pt_telegram <$> outgoing (telegram_queue c)) ++ (set_source a <$> ts).
Proof.
  revert c. induction ts as [|t ts IH]; intros c Hi Hc Hl.
  { exists (telegram_queue c). split; [by destruct c|]. by rewrite app_nil_r. }
  cbn [send_telegrams length] in *. rewrite eff_bind_run. unfold Knx_send_telegram at 1.
  pose proof (queue_step_inv config (EnqueueOutgoing (now c) (set_source a t)) _ Hi) as Hi'. cbn [queue_step] in Hi'.
  destruct (enqueue_outgoing _ _ _ _) as [r q] eqn:E. unfold enqueue_outgoing in E. rewrite Hc in E.
  destruct (Nat.leb_spec (max_size config) (length (outgoing (telegram_queue c)))); [lia|].
  cbn [fst snd] in Hi'.
  assert (r = Ok tt ∧ closed q = false ∧ pt_telegram <$> outgoing q = (pt_telegram <$> outgoing (telegram_queue c)) ++ [set_source a t]) as (-> & Hq & Ho).
  { destruct (priority_processing config); injection E as <- <-; (split; [done|]); (split; [done|]); unfold heap_push; cbn [outgoing]; by rewrite fmap_app. }
  destruct (IH (set_queue q c)) as (q' & Es & ? & ? & Ho'); [done|done| |].
  { cbn [telegram_queue set_queue]. rewrite <-(length_fmap pt_telegram), Ho, length_app, length_fmap. cbn. lia. }
  exists q'. rewrite Es. split; [done|]. split_and!; [done|done|]. rewrite Ho'. cbn [telegram_queue set_queue].
  by rewrite Ho, <-app_assoc.
Qed.

Section sending.
Context `{Profile} (config : QueueConfig) (ch : Z).
Implicit Types c : client UdpFrameTransport.

(** A frame leaves an open tunnel. *)
Lemma send_frame_leaves f n out c : udp_sender ch n out c →
  ∃ c', attempt (on_tunnel_connection (Tunnel_Connection_send f) tt) c = (Ok (inl tt), c') ∧
    udp_sender ch n (out ++ [f]) c' ∧ telegram_queue c' = telegram_queue c.
Proof.
  intros [(w & reads & Hw & Hc & Ht & Hch & Hn)]. unfold attempt, on_tunnel_connection. rewrite Hw.
  unfold Tunnel_Connection_send. rewrite eff_bind_run. cbn [gets]. rewrite Hc.
  unfold Tunnel_send_frame, attempt, mbind, eff_bind. rewrite transport_send_eq, Ht. cbn.
  eexists. split; [done|]. split; [|done]. split. eexists _, reads. split; [done|]. by split_and!.
Qed.

(** One pass takes the most urgent telegram and sends it under the next number. *)
Lemma pass_sends t l n out c :
  udp_sender ch n out c → queue_inv config (telegram_queue c) →
  lanes_pop (abstraction (telegram_queue c)) = Some (t, l) → telegram_fits t →
  ∃ c', sending_pass false c = (Ok (Got t), c') ∧ queue_inv config (telegram_queue c') ∧ abstraction (telegram_queue c') = l ∧
    udp_sender ch (as_u8 (n + 1)) (out ++ [request_datagram ch n (sent_cemi t LDataReq)]) c'.
Proof.
  intros Hs Hi Hp Ht. unfold sending_pass. rewrite eff_bind_run. cbn [gets id andb].
  pose proof (queue_step_inv config (DequeueOutgoing (now c)) _ Hi) as Hi'.
  pose proof (queue_step_refines config (DequeueOutgoing (now c)) _ Hi) as Hr. rewrite (lanes_dequeue _ _ _ t l Hp) in Hr.
  cbn [queue_step] in Hi', Hr.
  destruct (dequeue_outgoing_step (now c) (telegram_queue c)) as [d q]. cbn [fst snd] in Hi', Hr.
  injection Hr as <- Hq.
  rewrite eff_bind_run. unfold modify at 1. destruct Hs as [(w & reads & Hw & Hc & Htr & Hch & Hn)].
  rewrite eff_bind_run, (build_outgoing_run t w (set_queue q c) Ht Hw), eff_bind_run, Hch, Hn.
  match goal with |- context [attempt _ ?c1] => destruct (send_frame_leaves (request_datagram ch n (sent_cemi t LDataReq)) (as_u8 (n + 1)) out c1) as (c2 & -> & Hs2 & Hq2) end.
  - split. eexists _, reads. split; [done|]. cbn. by rewrite Hn.
  - exists c2. split; [done|]. rewrite Hq2. by split_and!.
Qed.
Lemma pass_waits c : queue_inv config (telegram_queue c) → lanes_pop (abstraction (telegram_queue c)) = None →
  closed (telegram_queue c) = false → sending_pass false c = (Ok Wait, c).
Proof.
  intros Hi Hp Hc. unfold sending_pass. rewrite eff_bind_run. cbn [gets id andb]. unfold dequeue_outgoing_step.
  destruct (heap_pop (outgoing (telegram_queue c))) as [[pt o]|] eqn:E.
  { destruct Hi as [Hs _ _ _ _ _]. by rewrite (lanes_pop_abstraction _ _ _ Hs E) in Hp. }
  rewrite Hc, eff_bind_run. unfold modify at 1. by destruct c.
Qed.

(** The sending task drains the queue, most urgent telegrams first. *)
Lemma sending_task_drains k wait n out c :
  udp_sender ch n out c → queue_inv config (telegram_queue c) → closed (telegram_queue c) = false →
  Forall telegram_fits (in_order (abstraction (telegram_queue c))) →
  (length (in_order (abstraction (telegram_queue c))) ≤ k)%nat →
  ∃ c' n', sending_task wait (replicate k false) c = (Ok tt, c') ∧ outgoing (telegram_queue c') = [] ∧
    udp_sender ch n' (out ++ numbered ch n (in_order (abstraction (telegram_queue c)))) c'.
Proof.
  revert wait n out c. induction k as [|k IH]; intros wait n out c Hs Hi Hc Hf Hk.
  all: pose proof (in_order_pop (abstraction (telegram_queue c))) as Ho; pose proof (lane_outgoing (telegram_queue c)) as Hl;
    destruct (lanes_pop (abstraction (telegram_queue c))) as [[t l]|] eqn:Ep; rewrite Ho in *.
  - cbn in Hk. lia.
  - exists c, n. split_and!; [done|by apply Hl|]. by rewrite app_nil_r.
  - apply Forall_cons in Hf as [Ht Hf]. destruct (pass_sends t l n out c Hs Hi Ep Ht) as (c1 & E1 & Hi1 & Ha & Hs1).
    cbn [replicate sending_task andb]. rewrite eff_bind_run, E1.
    destruct (IH false _ _ c1 Hs1 Hi1) as (c2 & n2 & E2 & Ho2 & Hs2); rewrite ?Ha; [|done|cbn in Hk; lia|].
    + change (lanes_closed (abstraction (telegram_queue c1)) = false). by rewrite Ha, (lanes_pop_closed _ _ _ Ep).
    + exists c2, n2. split_and!; [done|done|]. rewrite Ha, <-app_assoc in Hs2. done.
  - cbn [replicate sending_task andb]. rewrite eff_bind_run, (pass_waits c Hi Ep Hc).
    destruct (IH true n out c Hs Hi Hc) as (c2 & n2 & E2 & H2); rewrite ?Ho; [constructor|cbn; lia|]. rewrite Ho in H2. eauto.
Qed.
End sending.

(** * Arrival at the server *)
Section arrival.
Context `{Profile} (ch : Z) (l : ClientLink) (peer : SocketAddr).
Implicit Types s : TunnelServer.

Lemma by_urgency_elem ts t : t ∈ by_urgency ts → t ∈ ts.
Proof. unfold by_urgency, of_priority. rewrite !elem_of_app, !list_elem_of_filter. naive_solver. Qed.
Lemma copies_datagrams n ks ts : length ks = length ts →
  (peer,.) <$> copies ks (numbered ch n ts) = client_datagrams peer ch n (zip ks ((λ t, sent_cemi t LDataReq) <$> ts)).
Proof.
  revert n ks. induction ts as [|t ts IH]; intros n [|k ks] Hk; try done. cbn [numbered].
  unfold copies in *. cbn [zip_with concat fmap list_fmap zip client_datagrams]. rewrite fmap_app, IH by (cbn in Hk; lia).
  by rewrite fmap_replicate.
Qed.
Lemma telegrams_arrived at_ ks ts : length ks = length ts → Forall telegram_sendable ts →
  telegrams at_ (zip ks ((λ t, sent_cemi t LDataReq) <$> ts)) = arrived at_ <$> ts.
Proof.
  revert ks. induction ts as [|t ts IH]; intros [|k ks] Hk Hs; try done. apply Forall_cons in Hs as [Ht Hs].
  unfold telegrams in *. cbn [zip_with fmap list_fmap omap list_omap snd].
  rewrite parse_sent by done. cbn. by rewrite IH by (done || cbn in Hk; lia).
Qed.
Lemma requests_short ks ts : Forall telegram_sendable ts →
  Forall (λ p : nat * list Z, Z.of_nat (length p.2) ≤ 1014) (zip ks ((λ t, sent_cemi t LDataReq) <$> ts)).
Proof.
  intros Hs. revert ks. induction Hs as [|t ts Ht Hs IH]; intros [|k ks]; try constructor; [|apply IH].
  cbn [snd]. pose proof (sent_cemi_length t LDataReq (sendable_fits t Ht)). lia.
Qed.

(** A request numbered neither as expected nor one less is refused. *)
Definition error_ack (seq : Z) : list Z :=
  frame_bytes ServiceType.TunnellingAck (TunnellingAck_serialize (TunnellingAck_new_sequence_error ch seq)).
(** The answer to the [i]th request after the expected one, which got lost. *)
Definition answer_after_loss (n i : Z) : ClientLink * list Z :=
  (l, if i =? 255 then ok_ack ch (as_u8 (n + i)) else error_ack (as_u8 (n + i))).
Lemma loop_not_next n i cemi rest s :
  u8_ok n → expects ch l n s → Z.of_nat (length cemi) ≤ 1014 → 1 ≤ i ≤ 255 →
  ∃ s', udp_dispatch_loop ((peer, request_datagram ch (as_u8 (n + i)) cemi) :: rest) s = udp_dispatch_loop rest s' ∧
    expects ch l n s' ∧ sent s' = sent s ++ [answer_after_loss n i] ∧ published s' = published s.
Proof.
  intros Hn He Hlen Hi. destruct (loop_request ch l peer (as_u8 (n + i)) n cemi rest s He Hlen) as (c & v & c' & Hc & Hv & ->).
  pose proof He as ((c0 & Hc0 & Hl & Hr) & _). rewrite Hc in Hc0. injection Hc0 as <-.
  unfold ClientSession_validate_recv_seq in Hv. cbn in Hv. rewrite Hr in Hv.
  rewrite (proj2 (Z.eqb_neq _ _)) in Hv by (unfold as_u8, u8_ok in *; zlia). unfold answer_after_loss.
  destruct (Z.eqb_spec i 255) as [->|Hne].
  - rewrite (proj2 (Z.eqb_eq _ _)) in Hv by (unfold as_u8, u8_ok in *; zlia). injection Hv as <- <-.
    eexists. split; [done|]. split; [by apply (expects_step ch l Duplicate cemi _ _ _ _ _ He)|]. cbn. by rewrite Hl.
  - rewrite (proj2 (Z.eqb_neq _ _)) in Hv by (unfold as_u8, u8_ok in *; zlia). injection Hv as <- <-.
    eexists. split; [done|]. split; [by apply (expects_step ch l (Invalid _ _) cemi _ _ _ _ _ He)|]. cbn. by rewrite Hl.
Qed.
Lemma loop_after_loss n i ts s :
  u8_ok n → expects ch l n s → Forall telegram_sendable ts → 1 ≤ i → i + Z.of_nat (length ts) ≤ 256 →
  ∃ s', udp_dispatch_loop ((peer,.) <$> numbered ch (as_u8 (n + i)) ts) s = (Ok tt, s') ∧ published s' = published s ∧
    sent s' = sent s ++ (answer_after_loss n <$> seqZ i (Z.of_nat (length ts))).
Proof.
  intros Hn He Hs. revert i s He. induction Hs as [|t ts Ht Hs IH]; intros i s He Hi Hl.
  { exists s. cbn. by rewrite app_nil_r. }
  cbn [numbered fmap list_fmap length] in *. pose proof (sent_cemi_length t LDataReq (sendable_fits t Ht)).
  edestruct (loop_not_next n i (sent_cemi t LDataReq)) as (s1 & -> & He1 & Hs1 & Hp1); [done|done|lia|lia|].
  replace (as_u8 (as_u8 (n + i) + 1)) with (as_u8 (n + (i + 1))) by (unfold as_u8; zlia).
  destruct (IH (i + 1) s1 He1) as (s2 & -> & Hp2 & Hs2); [lia|lia|]. exists s2. split; [done|]. split; [congruence|].
  rewrite Hs2, Hs1, <-app_assoc. rewrite (seqZ_cons i) by lia. cbn [fmap list_fmap app]. repeat f_equal; lia.
Qed.
End arrival.

(** * Properties *)
Section delivery.
Context `{Profile} (config : QueueConfig) (a : IndividualAddress) (ch n : Z) (l : ClientLink) (peer : SocketAddr).
Implicit Types (c : client UdpFrameTransport) (s : TunnelServer) (ts : list Telegram).

(** A client with an empty open queue and a tunnel whose next number is [n]. *)
Record idle_sender c : Prop := {
  is_sender : udp_sender ch n [] c;
  is_queue : queue_inv config (telegram_queue c);
  is_open : closed (telegram_queue c) = false;
  is_empty : outgoing (telegram_queue c) = [];
}.
(** What [send_telegram] for [ts] and then the sending task leave: an empty
    queue, and the telegrams by urgency in one numbered datagram each. *)
Definition sends ts k c c' : Prop :=
  ∃ c1 n', send_telegrams config a ts c = (Ok tt, c1) ∧ sending_task false (replicate k false) c1 = (Ok tt, c') ∧
    outgoing (telegram_queue c') = [] ∧ udp_sender ch n' (numbered ch n (by_urgency (set_source a <$> ts))) c'.

Lemma sendable_by_urgency ts : Forall (λ t, telegram_sendable (set_source a t)) ts →
  Forall telegram_sendable (by_urgency (set_source a <$> ts)).
Proof.
  intros Hs. apply Forall_forall. intros t Ht%by_urgency_elem. apply list_elem_of_fmap in Ht as (t' & -> & Ht).
  rewrite Forall_forall in Hs. by apply Hs.
Qed.
Lemma length_by_urgency ts : length (by_urgency ts) = length ts.
Proof.
  pose proof (lanes_length ((λ t, MkPriorityTelegram t 0 0) <$> ts)) as E. rewrite !lane_of_priority, length_fmap in E.
  rewrite <-list_fmap_compose, (list_fmap_ext _ id), list_fmap_id in E by done.
  unfold by_urgency. rewrite !length_app. lia.
Qed.
Lemma sends_run ts k c : idle_sender c → Forall (λ t, telegram_sendable (set_source a t)) ts →
  (length ts ≤ max_size config)%nat → (length ts ≤ k)%nat → ∃ c', sends ts k c c'.
Proof.
  intros [Hs Hi Hc He] Hts Hm Hk. destruct (send_telegrams_run config a ts c Hi Hc) as (q & E & Hq & Hcq & Ho); [by rewrite He|].
  rewrite He in Ho. cbn in Ho. pose proof (in_order_abstraction q) as Hab. rewrite Ho in Hab.
  destruct (sending_task_drains config ch k false n [] (set_queue q c)) as (c2 & n2 & E2 & Ho2 & Hs2).
  - by destruct Hs; split.
  - done.
  - done.
  - cbn [telegram_queue set_queue]. rewrite Hab. eapply Forall_impl; [by apply sendable_by_urgency|apply sendable_fits].
  - cbn [telegram_queue set_queue]. by rewrite Hab, length_by_urgency, length_fmap.
  - cbn [telegram_queue set_queue app] in Hs2. rewrite Hab in Hs2. by exists c2, (set_queue q c), n2.
Qed.

(** An acknowledgement changes nothing for the client, whatever its status. *)
Lemma acks_ignored ack c : Knx_handle_incoming_frame config
  (frame_bytes ServiceType.TunnellingAck (TunnellingAck_serialize ack)) c = (Ok false, c).
Proof.
  unfold Knx_handle_incoming_frame. rewrite eff_bind_run. unfold lift at 1.
  destruct (frame_bytes_parse ServiceType.TunnellingAck (TunnellingAck_serialize ack)) as (f & -> & -> & _); [cbn; lia|done].
Qed.

(** C2: Delivery from application to server.  For any telegrams between valid
    addresses, with payloads of at most 254 bytes and no more of them than the
    queue holds, the sending task of an idle client empties the queue into one
    datagram per telegram, the most urgent first and in the order of the calls
    within one priority, also when [priority_processing] is off; if every datagram
    arrives in order, each any number of times, the server the tunnel leads to
    publishes each telegram exactly once, in that order, with its destination and
    the source the client has on the bus.  A telegram without a payload arrives as
    a read, whose payload is [0]; every other, a response too, as a write of its
    payload, of a single byte modulo 64; the priority is not carried. *)
Theorem telegrams_arrive ts ks k c s :
  idle_sender c → u8_ok n → Forall (λ t, telegram_sendable (set_source a t)) ts →
  (length ts ≤ max_size config)%nat → (length ts ≤ k)%nat → length ks = length ts → expects ch l n s →
  ∃ c' n' out s', sends ts k c c' ∧ udp_sender ch n' out c' ∧
    udp_dispatch_loop ((peer,.) <$> copies ks out) s = (Ok tt, s') ∧
    published s' = published s ++ (arrived (server_clock s) <$> by_urgency (set_source a <$> ts)).
Proof.
  intros Hc Hn Hts Hm Hk Hks He. destruct (sends_run ts k c Hc Hts Hm Hk) as (c' & Hs). pose proof Hs as (c1 & n' & _ & _ & _ & Hu).
  apply sendable_by_urgency in Hts. assert (length ks = length (by_urgency (set_source a <$> ts))) as Hl by (by rewrite length_by_urgency, length_fmap).
  edestruct (loop_exactly_once ch l peer n) as (s' & E & Hp & _); [done|exact He|by apply (requests_short ks)|].
  rewrite <-copies_datagrams in E by done. rewrite telegrams_arrived in Hp by done.
  by exists c', n', (numbered ch n (by_urgency (set_source a <$> ts))), s'.
Qed.

(** One lost datagram.  If the first of up to 256 datagrams is lost and the
    rest arrive, the server publishes none of them: it answers each with a
    sequence error, but the 255th after the lost one with OK, and the client,
    which ignores acknowledgements whatever their status and never transmits
    again, keeps counting. *)
Theorem lost_datagram_deafens ts k c s :
  idle_sender c → u8_ok n → Forall (λ t, telegram_sendable (set_source a t)) ts →
  (length ts ≤ max_size config)%nat → (1 ≤ length ts ≤ k)%nat → (length ts ≤ 256)%nat → expects ch l n s →
  ∃ c' n' lost out s', sends ts k c c' ∧ udp_sender ch n' (lost :: out) c' ∧
    udp_dispatch_loop ((peer,.) <$> out) s = (Ok tt, s') ∧ published s' = published s ∧
    sent s' = sent s ++ (answer_after_loss ch l n <$> seqZ 1 (Z.of_nat (length ts) - 1)) ∧
    Forall (λ i, Knx_handle_incoming_frame config (answer_after_loss ch l n i).2 c' = (Ok false, c')) (seqZ 1 (Z.of_nat (length ts) - 1)).
Proof.
  intros Hc Hn Hts Hm [Hk1 Hk] H256 He. destruct (sends_run ts k c Hc Hts Hm Hk) as (c' & Hs). pose proof Hs as (c1 & n' & _ & _ & _ & Hu).
  apply sendable_by_urgency in Hts. pose proof (length_by_urgency (set_source a <$> ts)) as Hl. rewrite length_fmap in Hl.
  destruct (by_urgency (set_source a <$> ts)) as [|t rest]; cbn [length] in Hl; [lia|]. apply Forall_cons in Hts as [_ Hts].
  destruct (loop_after_loss ch l peer n 1 rest s Hn He Hts) as (s' & E & Hp & Hsent); [lia|lia|].
  replace (Z.of_nat (length rest)) with (Z.of_nat (length ts) - 1) in Hsent by lia.
  eexists c', n', _, _, s'. split_and!; [done|exact Hu|exact E|done|done|].
  apply Forall_forall. intros i _. unfold answer_after_loss. cbn [snd]. destruct (i =? 255); apply acks_ignored.
Qed.
End delivery.

(** ** Witnesses *)
#[local] Instance delivery_release : Profile := {| debug_build := false |}.
Definition sending_world : world UdpFrameTransport :=
  let w := sample_world [] in MkWorld (set_channel 1 None (tunnel w)) (registry w) (clock w).
Definition sending_client : client UdpFrameTransport := set_conn (TunnelConnection sending_world) (sample_client []).
Definition bus_address : IndividualAddress := MkIndividualAddress 0x1101.
Definition normal_telegram : Telegram := Telegram_group_write 0 (MkGroupAddress 0x0A03) [1].
Definition urgent_telegram : Telegram :=
  MkTelegram IndividualAddress_default (Group (MkGroupAddress 0x0A03)) [0; 7] Urgent Outgoing GroupValueWrite 0.

Lemma sending_client_idle : idle_sender QueueConfig_default 1 0 sending_client.
Proof. split; [|apply queue_inv_new|done|done]. split. exists sending_world, []. by split_and!. Qed.
Lemma sample_telegrams_sendable :
  Forall (λ t, telegram_sendable (set_source bus_address t)) [normal_telegram; urgent_telegram].
Proof.
  repeat constructor; try (vm_compute; congruence); cbn; try done; unfold u8_ok; lia.
Qed.
Lemma one_client_expects : expects 1 (UdpLink sample_peer) 0 one_client.
Proof. split; [|done]. exists sample_session. by vm_compute. Qed.

Lemma telegrams_arrive_witness : ∃ c' n' out s',
  sends QueueConfig_default bus_address 1 0 [normal_telegram; urgent_telegram] 2 sending_client c' ∧ udp_sender 1 n' out c' ∧
  udp_dispatch_loop ((sample_peer,.) <$> copies [1%nat; 0%nat] out) one_client = (Ok tt, s') ∧
  published s' = [arrived 0 (set_source bus_address urgent_telegram); arrived 0 (set_source bus_address normal_telegram)].
Proof.
  apply (telegrams_arrive QueueConfig_default bus_address 1 0 (UdpLink sample_peer) sample_peer
    [normal_telegram; urgent_telegram] [1%nat; 0%nat] 2 sending_client one_client sending_client_idle).
  - unfold u8_ok. lia.
  - exact sample_telegrams_sendable.
  - cbn. lia.
  - cbn. lia.
  - reflexivity.
  - exact one_client_expects.
Defined.
Lemma lost_datagram_deafens_witness : ∃ c' n' lost out s',
  sends QueueConfig_default bus_address 1 0 [normal_telegram; urgent_telegram] 2 sending_client c' ∧ udp_sender 1 n' (lost :: out) c' ∧
  udp_dispatch_loop ((sample_peer,.) <$> out) one_client = (Ok tt, s') ∧ published s' = [] ∧
  sent s' = [(UdpLink sample_peer, error_ack 1 1)] ∧ Knx_handle_incoming_frame QueueConfig_default (error_ack 1 1) c' = (Ok false, c').
Proof.
  destruct (lost_datagram_deafens QueueConfig_default bus_address 1 0 (UdpLink sample_peer) sample_peer
    [normal_telegram; urgent_telegram] 2 sending_client one_client sending_client_idle)
    as (c' & n' & lost & out & s' & H1 & H2 & H3 & H4 & H5 & H6).
  - unfold u8_ok. lia.
  - exact sample_telegrams_sendable.
  - cbn. lia.
  - cbn. lia.
  - cbn. lia.
  - exact one_client_expects.
  - exists c', n', lost, out, s'. split_and!; [exact H1|exact H2|exact H3|exact H4|exact H5|].
    apply Forall_cons in H6 as [H6 _]. exact H6.
Defined.
