(* ===== verification/GroupValues.v ===== *)
(** Group values in the application: values written by type or by text
    ([WriteValue] in [src/src/protocol/dpt/mod.rs], [group_write_value] in
    [src/src/protocol/telegram.rs]), typed group addresses, reading a value and
    processing received telegrams ([src/src/application/knx.rs]), over the
    registry of [GroupRegistry] and the event handler of [Callbacks]. *)
From S2P Require Import Prelude Errors Address Apdu Telegram Cemi Server ServerBehaviour Client Text Float DptTypes DptViews DptText.
From S2P Require Import Dpt DptNumeric DptComposite DptFloat DptEquivalence Queue GroupRegistry Callbacks.

(** * Values to write *)
Class WriteValue (V A : Type) := { resolve : V → DptType → result A }.
#[global] Instance WriteValue_self {A} `{DptValue A} : WriteValue A A := { resolve v _ := Ok v }.
#[global] Instance WriteValue_str {A} `{DptValue A} `{DebugText} `{Profile} : WriteValue string A := {
  resolve s dpt := bytes ← DptType_parse dpt s; DptValue_decode bytes }.
(** Generated by [dpt_alias!]. *)
#[global] Instance WriteValue_inner {number vt u ha B I} `{DptValue B} `{DptInnerType B I}
  : WriteValue I (dpt_alias number vt u ha B) := { resolve i _ := alias_new i }.

(** A group address bound to the datapoint [A]. *)
Record TypedGroupAddress {A : Type} := MkTypedGroupAddress { ta_address : GroupAddress; ta_dpt : DptType }.
Arguments TypedGroupAddress A : clear implicits.
Arguments MkTypedGroupAddress {A} _ _.

Section values.
Context {A : Type} `{DptValue A} `{Profile}.
Definition DptValue_dpt_type : result DptType :=
  dpt ← DptType.from_str (dpt_number (A:=A));
  ok_or dpt
    (Protocol (DptError (dpt_number (A:=A)) "no runtime DptType registered for this DPT number")).
Definition Telegram_group_write_value {V} `{WriteValue V A} (now : Z) (dest : GroupAddress) (value : V)
    : result Telegram :=
  dpt ← DptValue_dpt_type;
  value ← resolve (A:=A) value dpt;
  _ ← validate value;
  bytes ← DptValue_encode value;
  Ok (Telegram_group_write now dest bytes).
Definition set_type (ty : TelegramType) (t : Telegram) : Telegram :=
  MkTelegram (source t) (destination t) (payload t) (priority t) (direction t) ty (timestamp t).
Definition Telegram_group_response_value {V} `{WriteValue V A} (now : Z) (dest : GroupAddress) (value : V)
    : result Telegram :=
  telegram ← Telegram_group_write_value now dest value; Ok (set_type GroupValueResponse telegram).

(** * Typed group addresses *)
Definition Knx_register_group_address_dyn := GroupAddressRegistry_register.
Definition Knx_group_address (address : GroupAddress) : eff GroupAddressRegistry KnxError (TypedGroupAddress A) :=
  dpt ← lift DptValue_dpt_type;
  _ ← Knx_register_group_address_dyn address dpt;
  mret (MkTypedGroupAddress address dpt).

Definition rebound (address : GroupAddress) (dpt bound : DptType) : KnxError :=
  Protocol (DptError (DptType.number_str bound)
    ("group address " +:+ GroupAddress_display address +:+ " was rebound to DPT " +:+ DptType.number_str dpt
     +:+ " after this handle was created for DPT " +:+ DptType.number_str bound)).
Definition unbound (address : GroupAddress) (bound : DptType) : KnxError :=
  Protocol (DptError (DptType.number_str bound)
    ("group address " +:+ GroupAddress_display address +:+ " is no longer registered (was DPT "
     +:+ DptType.number_str bound +:+ ")")).
Definition check_dpt_current (h : TypedGroupAddress A) (r : GroupAddressRegistry) : result unit :=
  match GroupAddressRegistry_get r (ta_address h) with
  | Some dpt => if decide (dpt = ta_dpt h) then Ok tt else Err (rebound (ta_address h) dpt (ta_dpt h))
  | None => Err (unbound (ta_address h) (ta_dpt h))
  end.
(** [send] is [Knx::send_telegram]. *)
Definition TypedGroupAddress_write {V S} `{WriteValue V A} (h : TypedGroupAddress A) (r : GroupAddressRegistry) (now : Z)
    (send : Telegram → eff S KnxError unit) (value : V) : eff S KnxError unit :=
  _ ← lift (check_dpt_current h r);
  telegram ← lift (Telegram_group_write_value now (ta_address h) value);
  send telegram.
(** [read_value] is [Knx::read_group_value]. *)
Definition TypedGroupAddress_read {S} (h : TypedGroupAddress A) (r : GroupAddressRegistry)
    (read_value : GroupAddress → eff S KnxError (list Z)) : eff S KnxError A :=
  _ ← lift (check_dpt_current h r);
  bytes ← read_value (ta_address h);
  lift (DptValue_decode bytes).
Definition TypedGroupAddress_decode (h : TypedGroupAddress A) (r : GroupAddressRegistry) (telegram : Telegram)
    : option (result A) :=
  if negb (bool_decide (destination telegram = Group (ta_address h))) then None
  else if bool_decide (telegram_type telegram = GroupValueRead) then None
  else match check_dpt_current h r with
       | Ok _ => Some (DptValue_decode (payload telegram))
       | Err e => Some (Err e)
       | Panic => Some Panic
       end.
End values.

(** The decoder for any registered address. *)
Definition Knx_decode_group_value (r : GroupAddressRegistry) (telegram : Telegram) : option (result DptView) :=
  match destination telegram with
  | Group address =>
      if bool_decide (telegram_type telegram = GroupValueRead) then None
      else dpt ← GroupAddressRegistry_get r address; Some (DptType_decode_ref dpt (payload telegram))
  | Individual _ => None
  end.

(** * Processing received telegrams *)
Definition record_group_value_if_present (now : Z) (telegram : Telegram) (r : GroupAddressRegistry) : GroupAddressRegistry :=
  match destination telegram, telegram_type telegram with
  | Group addr, (GroupValueWrite | GroupValueResponse) => GroupAddressRegistry_record_seen now addr (payload telegram) r
  | _, _ => r
  end.
Definition Knx_set_group_address_refresh (address : GroupAddress) (ttl : Z) := GroupAddressRegistry_set_refresh_ttl address (Some ttl).
Definition Knx_clear_group_address_refresh (address : GroupAddress) := GroupAddressRegistry_set_refresh_ttl address None.

(** One pass of the processing task, on the queue, the registry and the world
    of the callbacks; the answer is whether the loop goes on. *)
Definition processing_pass {W} (now : Z) (shutdown : bool) (h : EventHandler W)
    : eff (QueueState * GroupAddressRegistry * W) KnxError dequeued := λ '(q, r, w),
  if shutdown && queue_is_empty q then (Ok Ended, (q, r, w))
  else
    let '(d, q) := dequeue_incoming_step q in
    match d with
    | Got telegram =>
        let r := record_group_value_if_present now telegram r in
        let '(o, w) := notify_telegram_received h telegram w in
        (match o with Ok _ => Ok d | Err e => Err e | Panic => Panic end, (q, r, w))
    | _ => (Ok d, (q, r, w))
    end.

(** * Reading a value

    The callback of a read has a channel for one payload, the first component of
    the world here; the rest is what the other callbacks act on. *)
Section reading.
Context {W : Type}.
Abbreviation world := (option (list Z) * W)%type.
(** [try_send] on a channel of capacity 1. *)
Definition GroupValueReadCallback (address : GroupAddress) : TelegramCallbackFn world := λ telegram w,
  if bool_decide (destination telegram = Group address) && negb (telegram_is_empty telegram)
  then (Returns, (match w.1 with None => Some (payload telegram) | Some p => Some p end, w.2))
  else (Returns, w).

(** What the processing task hands to the callbacks while the reader waits; it
    ends when the channel has a payload, or with the task when a callback
    panics. *)
Fixpoint while_waiting (h : EventHandler world) (telegrams : list Telegram) (w : world) : world :=
  match telegrams with
  | [] => w
  | t :: telegrams =>
      let '(o, w) := notify_telegram_received h t w in
      match w.1, o with
      | None, Ok _ => while_waiting h telegrams w
      | _, _ => w
      end
  end.
Definition communication_timeout (address : GroupAddress) (timeout : Z) : KnxError :=
  Device (CommunicationTimeout ("group address " +:+ GroupAddress_display address) (timeout / 1000000 mod 2 ^ 64)).
(** [send] is [Knx::send_telegram] with its queue; [telegrams] are the ones
    processed before the timeout. *)
Definition Knx_read_group_value {S} (now timeout : Z) (send : Telegram → S → result unit * S)
    (telegrams : list Telegram) (address : GroupAddress)
    : eff (EventHandler world * world * S) KnxError (list Z) := λ '(h, w, s),
  let w := (None, w.2) in
  match register_telegram_callback (GroupValueReadCallback address) h with
  | (Ok handle, h) =>
      let '(sent, s) := send (Telegram_group_read now address) s in
      match sent with
      | Ok _ =>
          let w := while_waiting h telegrams w in
          let h := (unregister_callback handle h).2 in
          (match w.1 with Some payload => Ok payload | None => Err (communication_timeout address timeout) end, (h, w, s))
      | Err e => (Err e, ((unregister_callback handle h).2, w, s))
      | Panic => (Panic, (h, w, s))
      end
  | (Err e, h) => (Err e, (h, w, s))
  | (Panic, h) => (Panic, (h, w, s))
  end.

(** * Lemmas *)

(** A callback that is not the read's. *)
Definition quiet (t : Telegram) (e : TelegramCallbackEntry world) : Prop :=
  ∀ w, (te_callback e t w).1 ≠ Panics ∧ (te_callback e t w).2.1 = w.1.
Definition answers (address : GroupAddress) (t : Telegram) : bool :=
  bool_decide (direction t = Incoming) && bool_decide (destination t = Group address) && negb (telegram_is_empty t).

Lemma quiet_run t (es : list (TelegramCallbackEntry world)) w :
  Forall (quiet t) es → ∃ l w', notify_telegram_entries es t w = (Ok l, (w.1, w')).
Proof.
  intros Hq. revert w. induction Hq as [|e es He Hes IH]; intros w; [destruct w; by eexists _, _|].
  cbn [notify_telegram_entries]. destruct (skips e t); [apply IH|].
  destruct (He w) as [Hp Hw]. destruct (te_callback e t w) as [ended w1]. cbn in Hp, Hw.
  destruct (IH w1) as (l & w' & E). rewrite Hw in E.
  destruct ended; [..|done]; rewrite eff_bind_run, E; by eexists _, _.
Qed.
Lemma notify_app (es1 es2 : list (TelegramCallbackEntry world)) t w l w1 :
  notify_telegram_entries es1 t w = (Ok l, w1) →
  ∃ l', notify_telegram_entries (es1 ++ es2) t w =
    let '(o, w2) := notify_telegram_entries es2 t w1 in
    (match o with Ok l2 => Ok (l' ++ l2) | Err e => Err e | Panic => Panic end, w2).
Proof.
  revert w l. induction es1 as [|e es1 IH]; intros w l; cbn [app notify_telegram_entries].
  - intros [= <- <-]. exists []. by destruct (notify_telegram_entries es2 t w) as [[]].
  - destruct (skips e t); [apply IH|]. destruct (te_callback e t w) as [ended w0]. intros E.
    assert (∃ l0, notify_telegram_entries es1 t w0 = (Ok l0, w1)) as [l0 E0].
    { destruct ended; [..|done]; rewrite eff_bind_run in E; destruct (notify_telegram_entries es1 t w0) as [[l0|e0|] w2];
        try done; injection E as _ <-; by exists l0. }
    destruct (IH w0 l0 E0) as [l' E'].
    exists ((te_id e, ended) :: l'). destruct ended; [..|done]; rewrite eff_bind_run, E';
      by destruct (notify_telegram_entries es2 t w1) as [[]].
Qed.
(** The handler of a read: the other callbacks, then the read's. *)
Definition read_entry (h : EventHandler world) (address : GroupAddress) : TelegramCallbackEntry world :=
  MkTelegramCallbackEntry (MkCallbackHandle (next_id h)) (GroupValueReadCallback address) All false.
Definition reading (h : EventHandler world) (address : GroupAddress) : EventHandler world :=
  MkEventHandler (telegram_callbacks h ++ [read_entry h address]) (connection_callbacks h) ((next_id h + 1) mod 2 ^ 64).
Lemma register_read h address :
  register_telegram_callback (GroupValueReadCallback address) h =
  (Ok (MkCallbackHandle (next_id h)), reading h address).
Proof. reflexivity. Qed.

Lemma reading_notify h address t w :
  Forall (quiet t) (telegram_callbacks h) →
  ∃ l w', notify_telegram_received (reading h address) t (None, w) =
    (Ok l, (if answers address t then Some (payload t) else None, w')).
Proof.
  intros Hq. unfold notify_telegram_received, reading. cbn [telegram_callbacks].
  destruct (quiet_run t (telegram_callbacks h) (None, w) Hq) as (l & w' & E).
  destruct (notify_app _ [read_entry h address] t _ _ _ E) as [l' ->]. cbn [notify_telegram_entries].
  unfold skips, answers. cbn [te_include_outgoing te_filter read_entry TelegramFilter_matches negb].
  destruct (direction t); [|by eexists _, _].
  rewrite (bool_decide_false (Incoming = Outgoing)), (bool_decide_true (Incoming = Incoming)) by done. cbn [andb orb].
  unfold read_entry, te_callback, GroupValueReadCallback.
  destruct (bool_decide (destination t = Group address) && negb (telegram_is_empty t)); by eexists _, _.
Qed.
Lemma waiting_run h address ts w :
  Forall (λ t, Forall (quiet t) (telegram_callbacks h)) ts →
  ∃ w', while_waiting (reading h address) ts (None, w) =
    (payload <$> head (filter (λ t, answers address t = true) ts), w').
Proof.
  intros Hq. revert w. induction Hq as [|t ts Ht Hts IH]; intros w; [by eexists|].
  cbn [while_waiting]. destruct (reading_notify h address t w Ht) as (l & w' & ->). cbn [fst]. rewrite filter_cons.
  destruct (answers address t) eqn:Ea.
  - rewrite decide_True by done. by eexists.
  - rewrite decide_False by done. apply IH.
Qed.

Lemma reading_handles h address :
  handles_ok (h, []) → next_id h + 1 < 2 ^ 64 → handles_ok (reading h address, []).
Proof.
  intros Hok Hn. apply (register_handles_ok h (λ id, inl (MkTelegramCallbackEntry id (GroupValueReadCallback address) All false)));
    [done|done|done].
Qed.
Lemma unregister_read h address :
  handles_ok (h, []) → next_id h + 1 < 2 ^ 64 →
  ∃ h', (unregister_callback (MkCallbackHandle (next_id h)) (reading h address)).2 = h' ∧
    telegram_callbacks h' = telegram_callbacks h ∧ connection_callbacks h' = connection_callbacks h.
Proof.
  intros Hok Hn. eexists. split; [done|]. rewrite unregister_run by by apply reading_handles.
  cbn [snd telegram_callbacks connection_callbacks reading]. destruct Hok as (_ & Hf & _).
  unfold handles in Hf. cbn [fst snd] in Hf. apply Forall_app in Hf as [Ht [Hc _]%Forall_app].
  rewrite Forall_forall in Ht. rewrite Forall_forall in Hc.
  assert (∀ n, n < next_id h → MkCallbackHandle n ≠ MkCallbackHandle (next_id h)) as Hne by (intros n Hlt [= ->]; lia).
  split.
  - rewrite filter_app, filter_cons, decide_False by (cbn; auto). rewrite app_nil_r. apply filter_keep.
    intros e He E. specialize (Ht (te_id e) (list_elem_of_fmap_2 _ _ _ He)). rewrite E in Ht. cbn in Ht. lia.
  - apply filter_keep. intros e He E. specialize (Hc (ce_id e) (list_elem_of_fmap_2 _ _ _ He)). rewrite E in Hc. cbn in Hc. lia.
Qed.
Lemma read_run {S} now timeout (send : Telegram → S → result unit * S) ts address h w s :
  handles_ok (h, []) → next_id h + 1 < 2 ^ 64 → Forall (λ t, Forall (quiet t) (telegram_callbacks h)) ts →
  (send (Telegram_group_read now address) s).1 = Ok tt →
  ∃ h' w', Knx_read_group_value now timeout send ts address (h, w, s) =
      (match head (filter (λ t, answers address t = true) ts) with
       | Some t => Ok (payload t)
       | None => Err (communication_timeout address timeout)
       end, (h', w', (send (Telegram_group_read now address) s).2)) ∧
    telegram_callbacks h' = telegram_callbacks h ∧ connection_callbacks h' = connection_callbacks h.
Proof.
  intros Hok Hn Hq Hs. unfold Knx_read_group_value. rewrite register_read.
  destruct (send (Telegram_group_read now address) s) as [o s']. cbn in Hs. subst o.
  destruct (waiting_run h address ts w.2 Hq) as [w' ->]. cbn [fst snd].
  destruct (unregister_read h address Hok Hn) as (h' & -> & Ht & Hc). exists h', (payload <$> head (filter (λ t, answers address t = true) ts), w').
  split; [|done]. by destruct (head (filter _ ts)).
Qed.
End reading.

Lemma alter_missing f (r : GroupAddressRegistry) a : r !! a = None → alter f a r = r.
Proof.
  intros Ha. apply map_eq. intros x. destruct (decide (x = a)) as [->|Hx].
  - by rewrite lookup_alter_eq, Ha.
  - by rewrite lookup_alter_ne.
Qed.

(** * Properties *)

(** Reading a group value: among other callbacks that mind their own business,
    the read returns the payload of the first telegram processed in time that
    comes from the bus, is addressed to the group and has a payload, and fails
    with the timeout error if there is none; either way its own callback is gone
    afterwards and all others are still registered. *)
Theorem read_group_value_result {W S} now timeout (send : Telegram → S → result unit * S) ts address
    (h : EventHandler (option (list Z) * W)) w s :
  handles_ok (h, []) → next_id h + 1 < 2 ^ 64 → Forall (λ t, Forall (quiet t) (telegram_callbacks h)) ts →
  (send (Telegram_group_read now address) s).1 = Ok tt →
  ∃ h' w', Knx_read_group_value now timeout send ts address (h, w, s) =
      (match head (filter (λ t, answers address t = true) ts) with
       | Some t => Ok (payload t)
       | None => Err (communication_timeout address timeout)
       end, (h', w', (send (Telegram_group_read now address) s).2)) ∧
    telegram_callbacks h' = telegram_callbacks h ∧ connection_callbacks h' = connection_callbacks h.
Proof. apply read_run. Qed.

(** The read of another device answers a read: a received GroupValueRead has
    the payload [0], the byte of its service code, so when one for the same
    group is processed first, that is the value the read returns. *)
Theorem read_answered_by_read {W S} now timeout (send : Telegram → S → result unit * S) at_ code src t ts address
    (h : EventHandler (option (list Z) * W)) w s :
  handles_ok (h, []) → next_id h + 1 < 2 ^ 64 → Forall (λ t, Forall (quiet t) (telegram_callbacks h)) (t :: ts) →
  (send (Telegram_group_read now address) s).1 = Ok tt →
  IndividualAddress_valid src → GroupAddress_valid address →
  Knx_parse_cemi_to_telegram at_ (CemiFrame_serialize (CemiFrame_new code src (Group address)
    (GroupValueService_encode Read))) = Ok t →
  telegram_type t = GroupValueRead ∧
  (Knx_read_group_value now timeout send (t :: ts) address (h, w, s)).1 = Ok [0].
Proof.
  intros Hok Hn Hq Hs Hsrc Ha Hp.
  assert (t = service_telegram at_ src (Group address) Read) as Et.
  { rewrite knx_parse_is_server_parse, parse_service_frame in Hp; [by injection Hp as <-|].
    split_and!; [done|done|done|cbn; lia]. }
  split; [by rewrite Et|]. destruct (read_run now timeout send (t :: ts) address h w s Hok Hn Hq Hs) as (h' & w' & -> & _).
  assert (answers address t = true) as Hans by (rewrite Et; unfold answers; cbn; by rewrite !bool_decide_true by done).
  rewrite filter_cons, decide_True by done. cbn [fst head]. by rewrite Et.
Qed.

(** Processing a telegram keeps the last known value.  A write or response to
    a registered group is its last value, seen now, and leaves type, interval
    and attempts alone, so the address is not stale before the interval has
    passed; any other telegram leaves the registry as it is. *)
Theorem processed_value_known {W} now shutdown (h : EventHandler W) q r w t inc d q' r' w' :
  incoming q = t :: inc → processing_pass now shutdown h (q, r, w) = (Ok d, (q', r', w')) →
  d = Got t ∧ incoming q' = inc ∧
  (∀ a b, destination t = Group a → telegram_type t ≠ GroupValueRead → r !! a = Some b →
     r' = <[a := MkBinding (b_dpt b) (b_ttl b) (Some now) (Some (payload t)) (b_last_tried b)]> r ∧
     ∀ ttl later, b_ttl b = Some ttl → now ≤ later →
       GroupAddressRegistry_state r' a ≠ None ∧
       (is_stale later (MkBinding (b_dpt b) (b_ttl b) (Some now) (Some (payload t)) (b_last_tried b)) = true ↔ ttl ≤ later - now)) ∧
  ((telegram_type t = GroupValueRead ∨ ∀ a, destination t = Group a → r !! a = None) → r' = r).
Proof.
  intros Hq. unfold processing_pass.
  assert (shutdown && queue_is_empty q = false) as -> by (unfold queue_is_empty; rewrite Hq; destruct (outgoing q), shutdown; done).
  unfold dequeue_incoming_step. rewrite Hq.
  destruct (notify_telegram_received h t w) as [o w1]. intros E. destruct o as [calls| |]; [|done..]. injection E as <- <- <- _.
  split_and!; [done|done| |].
  - intros a b Hd Ht Hb. assert (record_group_value_if_present now t r = alter (set_seen now (payload t)) a r) as ->
      by (unfold record_group_value_if_present; rewrite Hd; by destruct (telegram_type t)).
    rewrite (alter_at _ r a b Hb). split; [done|]. intros ttl later Httl Hle. unfold GroupAddressRegistry_state. rewrite lookup_insert_eq.
    split; [done|]. unfold is_stale. cbn. rewrite Httl, Z.leb_le. lia.
  - intros Hno. unfold record_group_value_if_present. destruct (destination t) as [a|] eqn:Hd; [|done].
    destruct Hno as [->|Hno]; [done|]. specialize (Hno a eq_refl). destruct (telegram_type t); [done|..];
      unfold GroupAddressRegistry_record_seen; by apply alter_missing.
Qed.


(** ** Witnesses

    A handler with another callback, which counts the telegrams, and telegrams
    for group 0x0A03 from device 0x1101. *)
Definition count_telegrams : TelegramCallbackFn (option (list Z) * nat) := λ _ w, (Returns, (w.1, S w.2)).
Definition counting : EventHandler (option (list Z) * nat) :=
  (register_telegram_callback count_telegrams EventHandler_new).2.
Definition sample_group : GroupAddress := MkGroupAddress 0x0A03.
Definition from_device (dest : GroupAddress) (pl : list Z) : Telegram :=
  Telegram_received 0 (MkIndividualAddress 0x1101) dest GroupValueWrite pl.
Lemma counting_ok : handles_ok (counting, []).
Proof. split; [|split]; vm_compute; [repeat constructor; set_solver|by repeat constructor|done]. Qed.
Lemma counting_quiet t : Forall (quiet t) (telegram_callbacks counting).
Proof. by repeat constructor. Qed.

Lemma read_group_value_result_witness : ∃ h' w',
  Knx_read_group_value 0 2000000000 (λ _ (s : nat), (Ok tt, S s))
    [from_device (MkGroupAddress 1) [5]; from_device sample_group [7]] sample_group (counting, (None, 0%nat), 0%nat) =
  (Ok [7], (h', w', 1%nat)) ∧ telegram_callbacks h' = telegram_callbacks counting ∧ connection_callbacks h' = [].
Proof.
  apply (read_group_value_result 0 2000000000 (λ _ (s : nat), (Ok tt, S s))
    [from_device (MkGroupAddress 1) [5]; from_device sample_group [7]] sample_group counting (None, 0%nat) 0%nat).
  - apply counting_ok.
  - vm_compute. reflexivity.
  - apply Forall_forall; intros; apply counting_quiet.
  - reflexivity.
Defined.
Lemma read_answered_by_read_witness : ∃ t,
  telegram_type t = GroupValueRead ∧
  (Knx_read_group_value 0 2000000000 (λ _ (s : nat), (Ok tt, s)) [t; from_device sample_group [7]] sample_group
    (counting, (None, 0%nat), 0%nat)).1 = Ok [0].
Proof.
  eexists (service_telegram 0 (MkIndividualAddress 0x1101) (Group sample_group) Read).
  apply (read_answered_by_read 0 2000000000 (λ _ (s : nat), (Ok tt, s)) 0 LDataInd (MkIndividualAddress 0x1101)).
  - apply counting_ok.
  - vm_compute. reflexivity.
  - apply Forall_forall; intros; apply counting_quiet.
  - reflexivity.
  - vm_compute. split; congruence.
  - vm_compute. split; congruence.
  - vm_compute. reflexivity.
Defined.
Definition queue_with (t : Telegram) : QueueState :=
  MkQueueState [] [t] (queue_stats QueueState_new) false.
Lemma processed_value_known_witness : ∃ q' r' w',
  processing_pass 9 false counting (queue_with (from_device sample_group [7]),
    {[sample_group := MkBinding DptType.Switch (Some 60) None None None]}, (None, 0%nat)) =
  (Ok (Got (from_device sample_group [7])), (q', r', w')) ∧
  r' = <[sample_group := MkBinding DptType.Switch (Some 60) (Some 9) (Some [7]) None]>
         {[sample_group := MkBinding DptType.Switch (Some 60) None None None]}.
Proof.
  eexists _, _, _. split; [reflexivity|].
  refine (proj1 (proj1 (proj2 (proj2 (processed_value_known 9 false counting
    (queue_with (from_device sample_group [7])) {[sample_group := MkBinding DptType.Switch (Some 60) None None None]}
    (None, 0%nat) (from_device sample_group [7]) [] _ _ _ _ eq_refl eq_refl))) sample_group
    (MkBinding DptType.Switch (Some 60) None None None) eq_refl _ _)); [discriminate|reflexivity].
Defined.
#[local] Instance values_release : Profile := {| debug_build := false |}.
