(* ===== verification/Reception.v ===== *)
(** From the gateway to the application: the receiving task of a client and the
    one that drains its limiter ([Client]), its processing task
    ([src/src/application/knx.rs]), the callbacks of [Callbacks] and the last known
    values of [GroupRegistry], composed, under any interleaving of the tasks. *)
From Stdlib Require Import Sorting.Sorted.
From S2P Require Import Prelude Errors Address Apdu Telegram Cemi KnxIp FrameTransport Connection.
From S2P Require Import ReceiveLimiter Queue TunnelCore Server ServerBehaviour Client.
From S2P Require Import GroupRegistry Callbacks GroupValues.

(** * The processing task

    The loop of [start_telegram_processing_task] for as many passes as the list
    has; each says the time and what is read of the shutdown flag, which is not
    read while a dequeue waits.  The callbacks registered do not change
    meanwhile. *)
Section task.
Context {W : Type} (h : EventHandler W).
Fixpoint processing_task (waiting : bool) (passes : list (Z * bool))
    : eff (QueueState * GroupAddressRegistry * W) KnxError unit :=
  match passes with
  | [] => mret tt
  | (now, shutdown) :: passes =>
      d ← processing_pass now (shutdown && negb waiting) h;
      match d with
      | Ended => mret tt
      | Got _ => processing_task false passes
      | Wait => processing_task true passes
      end
  end.
End task.

(** * The tasks together

    One pass of the receiving task, of the draining task or of the processing
    task; any list of them is an interleaving. *)
Inductive task_pass := Receives (time : Z) | Drains | Processes (time : Z).
Section together.
Context {W : Type} `{Profile} (config : QueueConfig) (h : EventHandler W).
Definition task_step (p : task_pass) : eff (client UdpFrameTransport * GroupAddressRegistry * W) KnxError unit := λ '(c, r, w),
  match p with
  | Receives time => let '(o, c) := receiving_task config [(time, false, true)] c in (o, (c, r, w))
  | Drains => let '(o, c) := drain_pass config c in (o, (c, r, w))
  | Processes time =>
      let '(o, (q, r, w)) := processing_task h false [(time, false)] (telegram_queue c, r, w) in (o, (set_queue q c, r, w))
  end.
Fixpoint tasks_run (ps : list task_pass) : eff (client UdpFrameTransport * GroupAddressRegistry * W) KnxError unit :=
  match ps with [] => mret tt | p :: ps => _ ← task_step p; tasks_run ps end.
End together.
(** The times at which an interleaving receives. *)
Definition receives_at (p : task_pass) : option Z := match p with Receives time => Some time | _ => None end.

(** * Specification *)

(** The value a telegram tells of an address, and the last of several. *)
Definition told (a : GroupAddress) (t : Telegram) : option (list Z) :=
  match destination t, telegram_type t with
  | Group b, (GroupValueWrite | GroupValueResponse) => if decide (b = a) then Some (payload t) else None
  | _, _ => None
  end.
Definition last_told (a : GroupAddress) (ts : list Telegram) : option (list Z) := last (omap (told a) ts).
(** The values known of every address after [ts] are processed. *)
Definition knows (r r' : GroupAddressRegistry) (ts : list Telegram) : Prop :=
  ∀ a, (b_dpt <$> r' !! a) = (b_dpt <$> r !! a) ∧
    (b_last_seen_value <$> r' !! a) =
      (λ b, match last_told a ts with Some v => Some v | None => b_last_seen_value b end) <$> r !! a.
(** Every telegram handed to the callbacks in turn. *)
Definition notified_of {W} (h : EventHandler W) (ts : list Telegram) (w : W) : W :=
  foldl (λ w t, (notify_telegram_received h t w).2) w ts.
Definition calm {W} (h : EventHandler W) : Prop :=
  ∀ e, e ∈ telegram_callbacks h → ∀ t w, (te_callback e t w).1 ≠ Panics.

(** An application that keeps the telegrams its one callback is called with. *)
Definition keeping : TelegramCallbackFn (list Telegram) := λ t seen, (Returns, seen ++ [t]).
Definition listener (f : TelegramFilter) : EventHandler (list Telegram) :=
  (register_telegram_callback_filtered keeping f false EventHandler_new).2.

(** * Lemmas *)
Lemma record_knows now t r : knows r (record_group_value_if_present now t r) [t].
Proof.
  intros a. unfold record_group_value_if_present, last_told, told. cbn.
  destruct (destination t) as [b|b]; [|by destruct (r !! a)].
  destruct (telegram_type t); [by destruct (r !! a)|..]; unfold GroupAddressRegistry_record_seen;
    (destruct (decide (b = a)) as [->|Hne]; [rewrite lookup_alter_eq|rewrite lookup_alter_ne by done]; by destruct (r !! a)).
Qed.
Lemma notify_calm {W} (h : EventHandler W) t w : calm h → ∃ calls, (notify_telegram_received h t w).1 = Ok calls.
Proof. intros Hc. destruct (notify_entries_run t (telegram_callbacks h) w) as (calls & w' & E & _); [by intros e He; apply Hc|]. exists calls. unfold notify_telegram_received. by rewrite E. Qed.

Lemma knows_nil r : knows r r [].
Proof. intros a. by destruct (r !! a). Qed.
Lemma knows_app r1 r2 r3 ts us : knows r1 r2 ts → knows r2 r3 us → knows r1 r3 (ts ++ us).
Proof.
  intros H1 H2 a. destruct (H1 a) as [D1 V1], (H2 a) as [D2 V2]. split; [congruence|]. rewrite V2.
  unfold last_told in *. rewrite omap_app, last_app.
  destruct (r1 !! a) as [b1|], (r2 !! a) as [b2|]; try done. cbn in V1. injection V1 as V1. cbn. f_equal.
  destruct (last (omap (told a) us)); [done|]. by rewrite V1.
Qed.

Section interleaving.
Context {W : Type} `{Profile} (config : QueueConfig) (h : EventHandler W).
Implicit Types c : client UdpFrameTransport.

(** What waits between the receiving and the processing task. *)
Definition waiting (q : list Telegram) (l : ReceiveRateLimiter) : list Telegram := q ++ buffer (tx l).
Definition has_room (k : nat) (q : list Telegram) (l : ReceiveRateLimiter) : Prop :=
  rx_closed (tx l) = false ∧ (length (waiting q l) + k ≤ capacity (tx l))%nat ∧ (length (waiting q l) + k ≤ max_size config)%nat.

Lemma drain_step reads sent n q l c r w : udp_client reads sent n q l c → has_room 0 q l →
  ∃ c' q' l', task_step config h Drains (c, r, w) = (Ok tt, (c', r, w)) ∧ udp_client reads sent n q' l' c' ∧
    waiting q' l' = waiting q l ∧ per_address l' = per_address l ∧ limit_config l' = limit_config l ∧
    rx_closed (tx l') = rx_closed (tx l) ∧ capacity (tx l') = capacity (tx l) ∧ length (buffer (tx l')) = pred (length (buffer (tx l))).
Proof.
  intros [Ht Hl Hq Hi] (Ho & Hcap & Hmax). unfold task_step, drain_pass. rewrite Hl. unfold mpsc_recv, waiting in *.
  destruct (buffer (tx l)) as [|t b] eqn:Eb.
  { exists c, q, l. split; [done|]. split; [by split|]. by rewrite Eb. }
  rewrite length_app in Hmax. cbn [length] in Hmax. unfold enqueue_incoming. rewrite Hq, Hi, (proj2 (Nat.leb_gt _ _)) by lia.
  eexists _, (q ++ [t]), _. split; [done|]. split; [by split|]. cbn. by rewrite <-app_assoc.
Qed.
Lemma process_step reads sent n q l c r w time : calm h → udp_client reads sent n q l c →
  ∃ c' r', task_step config h (Processes time) (c, r, w) = (Ok tt, (c', r', notified_of h (take 1 q) w)) ∧
    udp_client reads sent n (drop 1 q) l c' ∧ knows r r' (take 1 q).
Proof.
  intros Hc [Ht Hl Hq Hi]. unfold task_step. cbn [processing_task andb]. rewrite eff_bind_run. unfold processing_pass. cbn [andb].
  unfold dequeue_incoming_step. rewrite Hi. destruct q as [|t q].
  { rewrite Hq. cbn. exists c, r. split; [by destruct c|]. split; [by split|apply knows_nil]. }
  destruct (notify_calm h t w Hc) as (calls & En). destruct (notify_telegram_received h t w) as [o w1] eqn:E1. cbn in En. subst o.
  cbn [take drop notified_of foldl]. rewrite take_0. unfold notified_of. cbn [foldl]. rewrite E1.
  eexists _, _. split; [done|]. split; [by split|apply record_knows].
Qed.
Lemma receive_step ch last x xs reads sent n q l c r w :
  udp_client ((Data <$> datagrams ch n last (x :: xs)) ++ reads) sent n q l c → u8_ok n → fits_datagram last → transmission_fits x →
  ∃ c' ack n' last', task_step config h (Receives (received_at x)) (c, r, w) = (Ok tt, (c', r, w)) ∧
    u8_ok n' ∧ fits_datagram last' ∧
    udp_client ((Data <$> datagrams ch n' last' xs) ++ reads) (sent ++ [ack]) n' q (offer_all (offers [x]) l) c' ∧
    acks ch n (x :: xs) = ack :: acks ch n' xs ∧ next_number n (x :: xs) = next_number n' xs.
Proof.
  intros Hc Hn Hlast Hx.
  destruct (transmission_pass config ch last x xs reads sent n q l c Hc Hn Hlast Hx) as (c' & ack & n' & last' & E & Hrest).
  exists c', ack, n', last'. split; [|exact Hrest]. unfold task_step. cbn [receiving_task]. rewrite eff_bind_run. unfold modify at 1.
  change (receiving_pass config false true (set_now (received_at x) c) = (Ok Continue, c')) in E. by rewrite eff_bind_run, E.
Qed.
(** A transmission offers one telegram or none. *)
Lemma offer_one x l xs : rx_closed (tx l) = false → (length (buffer (tx l)) + length (offers (x :: xs)) ≤ capacity (tx l))%nat →
  let l' := offer_all (offers [x]) l in
  ∃ out, tx l' = MkMpsc (buffer (tx l) ++ out) (capacity (tx l)) false ∧ limit_config l' = limit_config l ∧
    (length out + length (offers xs) ≤ length (offers (x :: xs)))%nat ∧
    let_through (limit l) (per_address l) (offers (x :: xs)) = out ++ let_through (limit l') (per_address l') (offers xs).
Proof.
  intros Ho Hcap. cbv zeta. cbn [omap list_omap] in *. destruct (told_once x) as [[at_ t]|].
  - cbn [length] in Hcap. destruct (offer_run at_ t l Ho) as (Et & Ec & Hle & Hr); [lia|]. unfold offer_all. cbn [foldl fst snd length].
    eexists. split; [exact Et|]. split; [exact Ec|]. split; [lia|]. rewrite Ec. apply Hr.
  - change (offer_all [] l) with l. exists []. rewrite app_nil_r, <-Ho. split; [by destruct (tx l)|]. done.
Qed.
(** Any interleaving: what was processed and what still waits is, in order, what
    waited before and what the limiter let through of the transmissions. *)
Lemma interleaving_run ch ps last l reads sent n q lim c r w : calm h →
  udp_client ((Data <$> datagrams ch n last l) ++ reads) sent n q lim c → u8_ok n → fits_datagram last → Forall transmission_fits l →
  omap receives_at ps = received_at <$> l → has_room (length (offers l)) q lim →
  ∃ c' r' ts q' lim', tasks_run config h ps (c, r, w) = (Ok tt, (c', r', notified_of h ts w)) ∧ knows r r' ts ∧
    udp_client reads (sent ++ acks ch n l) (next_number n l) q' lim' c' ∧ has_room 0 q' lim' ∧
    ts ++ waiting q' lim' = waiting q lim ++ let_through (limit lim) (per_address lim) (offers l).
Proof.
  intros Hcalm. revert last l sent n q lim c r w. induction ps as [|p ps IH]; intros last l sent n q lim c r w Hc Hn Hlast Hl Hp Hroom.
  { destruct l as [|x l]; [|done]. exists c, r, [], q, lim. rewrite !app_nil_r. split; [done|]. split; [apply knows_nil|].
    split; [done|]. split; [|done]. done. }
  cbn [tasks_run]. rewrite eff_bind_run. destruct p as [time| |time]; cbn [omap list_omap receives_at] in Hp.
  - destruct l as [|x l]; [done|]. injection Hp as -> Hp. apply Forall_cons in Hl as [Hx Hl].
    destruct (receive_step ch last x l reads sent n q lim c r w Hc Hn Hlast Hx) as (c1 & ack & n1 & last1 & -> & Hn1 & Hlast1 & Hc1 & Ea & En).
    destruct Hroom as (Ho & Hcap & Hmax). unfold waiting in Hcap, Hmax. rewrite length_app in Hcap, Hmax.
    destruct (offer_one x lim l Ho ltac:(lia)) as (out & Et & Ec & Hle & Eout). cbv zeta in Et, Ec.
    destruct (IH last1 l (sent ++ [ack]) n1 q (offer_all (offers [x]) lim) c1 r w Hc1 Hn1 Hlast1 Hl Hp) as (c' & r' & ts & q' & lim' & E & Hk & Hc' & Hr' & Hw).
    { unfold has_room, waiting. rewrite Et. cbn [buffer rx_closed capacity]. rewrite !length_app. split; [done|lia]. }
    exists c', r', ts, q', lim'. split; [exact E|]. split; [done|]. rewrite Ea, En. rewrite <-app_assoc in Hc'. split; [done|]. split; [done|].
    rewrite Hw, Eout. unfold waiting. rewrite Et. cbn [buffer]. by rewrite <-!app_assoc.
  - destruct Hroom as (Ho & Hcap & Hmax).
    destruct (drain_step _ _ _ _ _ _ r w Hc) as (c1 & q1 & l1 & -> & Hc1 & Hw1 & Hm & Hlim & Hrx & Hcp & _); [split_and!; [done|lia|lia]|].
    destruct (IH last l sent n q1 l1 c1 r w Hc1 Hn Hlast Hl Hp) as (c' & r' & ts & q' & lim' & E & Hk & Hc' & Hr' & Hw).
    { unfold has_room. by rewrite Hw1, Hrx, Hcp. }
    exists c', r', ts, q', lim'. split; [exact E|]. split_and!; [done|done|done|]. by rewrite Hw, Hw1, Hm, Hlim.
  - destruct (process_step _ _ _ _ _ _ r w time Hcalm Hc) as (c1 & r1 & -> & Hc1 & Hk1).
    assert (waiting q lim = take 1 q ++ waiting (drop 1 q) lim) as Eq by (unfold waiting; by rewrite app_assoc, take_drop).
    destruct Hroom as (Ho & Hcap & Hmax). rewrite Eq, length_app in Hcap, Hmax.
    destruct (IH last l sent n (drop 1 q) lim c1 r1 (notified_of h (take 1 q) w) Hc1 Hn Hlast Hl Hp) as (c' & r' & ts & q' & lim' & E & Hk & Hc' & Hr' & Hw).
    { split_and!; [done|lia|lia]. }
    exists c', r', (take 1 q ++ ts), q', lim'. split_and!; [|by eapply knows_app|done|done|].
    + etrans; [exact E|]. unfold notified_of. by rewrite foldl_app.
    + by rewrite <-app_assoc, Hw, app_assoc, <-Eq.
Qed.
(** Enough passes of the two tasks behind the limiter leave nothing waiting. *)
Lemma drain_all k reads sent n q l c r w : udp_client reads sent n q l c → has_room 0 q l → (length (buffer (tx l)) ≤ k)%nat →
  ∃ c' l', tasks_run config h (replicate k Drains) (c, r, w) = (Ok tt, (c', r, w)) ∧
    udp_client reads sent n (waiting q l) l' c' ∧ buffer (tx l') = [].
Proof.
  revert q l c. induction k as [|k IH]; intros q l c Hc Hroom Hk.
  { exists c, l. unfold waiting. destruct (buffer (tx l)) eqn:E; [|cbn in Hk; lia]. by rewrite app_nil_r. }
  cbn [replicate tasks_run]. rewrite eff_bind_run.
  destruct (drain_step _ _ _ _ _ _ r w Hc Hroom) as (c1 & q1 & l1 & -> & Hc1 & Hw1 & Hm & Hlim & Hrx & Hcp & Hb). rewrite <-Hw1.
  apply IH; [done| |lia]. unfold has_room in *. by rewrite Hw1, Hrx, Hcp.
Qed.
Lemma process_all ats reads sent n q l c r w : calm h → udp_client reads sent n q l c → (length q ≤ length ats)%nat →
  ∃ c' r', tasks_run config h (Processes <$> ats) (c, r, w) = (Ok tt, (c', r', notified_of h q w)) ∧
    udp_client reads sent n [] l c' ∧ knows r r' q.
Proof.
  intros Hcalm. revert q c r w. induction ats as [|time ats IH]; intros q c r w Hc Hl.
  { destruct q; [|cbn in Hl; lia]. exists c, r. split; [done|]. split; [done|apply knows_nil]. }
  cbn [fmap list_fmap tasks_run]. rewrite eff_bind_run. destruct (process_step _ _ _ _ _ _ r w time Hcalm Hc) as (c1 & r1 & -> & Hc1 & Hk1).
  destruct (IH (drop 1 q) c1 r1 (notified_of h (take 1 q) w) Hc1) as (c' & r' & E & Hc' & Hk'); [rewrite length_drop; cbn in Hl; lia|].
  exists c', r'. split; [|split; [done|]].
  - etrans; [exact E|]. rewrite <-(take_drop 1 q) at 3. unfold notified_of. by rewrite foldl_app.
  - rewrite <-(take_drop 1 q). by eapply knows_app.
Qed.
Lemma tasks_run_app ps ps' s : tasks_run config h (ps ++ ps') s = (_ ← tasks_run config h ps; tasks_run config h ps') s.
Proof.
  revert s. induction ps as [|p ps IH]; intros s; [done|]. cbn [app tasks_run]. rewrite !eff_bind_run.
  destruct (task_step config h p s) as [[] s']; [apply IH|done..].
Qed.
End interleaving.
Lemma listener_hears f ts seen : Forall (λ t, direction t = Incoming) ts →
  notified_of (listener f) ts seen = seen ++ filter (λ t, TelegramFilter_matches f t = true) ts.
Proof.
  intros Hd. revert seen. induction Hd as [|t ts Ht Hd IH]; intros seen; [by rewrite app_nil_r|].
  unfold notified_of in *. cbn [foldl]. rewrite IH, filter_cons.
  assert ((notify_telegram_received (listener f) t seen).2 = if TelegramFilter_matches f t then seen ++ [t] else seen) as ->.
  { change (notify_telegram_received (listener f) t seen) with
      (notify_telegram_entries [MkTelegramCallbackEntry (CallbackHandle_new 1) keeping f false] t seen).
    cbn [notify_telegram_entries]. unfold skips. cbn [te_include_outgoing te_filter]. rewrite Ht, bool_decide_false by done.
    by destruct (TelegramFilter_matches f t). }
  destruct (TelegramFilter_matches f t); cbn; by rewrite <-?app_assoc.
Qed.
Lemma listener_calm f : calm (listener f).
Proof. intros e He t w. apply list_elem_of_singleton in He as ->. done. Qed.
Lemma offers_incoming l : Forall (λ o, direction o.2 = Incoming) (offers l).
Proof.
  apply Forall_forall. intros o (x & _ & Hx)%list_elem_of_omap. destruct x as [time cemi|]; [|done]. cbn [told_once] in Hx.
  unfold parse_cemi_to_telegram in Hx. destruct (CemiFrame_parse cemi) as [f| |]; [|done..]. cbn in Hx. by injection Hx as <-.
Qed.
Lemma let_through_incoming max m os : Forall (λ o, direction o.2 = Incoming) os → Forall (λ t, direction t = Incoming) (let_through max m os).
Proof.
  intros Ho. revert m. induction Ho as [|[at_ t] os Ht Ho IH]; intros m; [constructor|]. cbn [let_through].
  destruct (destination t); [destruct (is_throttled _ _ _ _) as [[] ?]|]; cbn; auto.
Qed.
Lemma let_through_count max m os : (length (let_through max m os) ≤ length os)%nat.
Proof.
  revert m. induction os as [|[at_ t] os IH]; intros m; [done|]. cbn [let_through].
  destruct (destination t); [destruct (is_throttled _ _ _ _) as [[] m']; specialize (IH m')|specialize (IH m)]; cbn; lia.
Qed.

(** * Properties *)

(** C3: Reception from gateway to application.  For any requests that a gateway
    numbers and transmits any number of times each, and any interleaving of the
    receiving task, the task that drains the limiter and the processing task:
    once the first has read them all and the other two ran often enough, every
    transmission is acknowledged, the callback of the application was called with
    exactly the telegrams that passed the limiter and match its filter, once each
    and in the order of the gateway, nothing waits any more, and for every
    registered group address the registry knows the value the last of those
    telegrams told, or what it knew before.  The limiter of a client that was
    idle for a second lets everything pass of which no group address gets more
    than its limit (10) within a second.  At most as many telegrams as channel and
    queue hold may be under way. *)
Theorem received_reach_application `{Profile} config f ch n last l reads sent lim (c : client UdpFrameTransport) ps k ats r seen :
  udp_client ((Data <$> datagrams ch n last l) ++ reads) sent n [] lim c → u8_ok n → fits_datagram last → Forall transmission_fits l →
  buffer (tx lim) = [] → rx_closed (tx lim) = false →
  (length (offers l) ≤ capacity (tx lim))%nat → (length (offers l) ≤ max_size config)%nat →
  omap receives_at ps = received_at <$> l → (length (offers l) ≤ k)%nat → (length (offers l) ≤ length ats)%nat →
  let passed := let_through (limit lim) (per_address lim) (offers l) in
  (∃ c' r' lim', tasks_run config (listener f) (ps ++ replicate k Drains ++ (Processes <$> ats)) (c, r, seen) =
      (Ok tt, (c', r', seen ++ filter (λ t, TelegramFilter_matches f t = true) passed)) ∧
    udp_client reads (sent ++ acks ch n l) (next_number n l) [] lim' c' ∧ buffer (tx lim') = [] ∧ knows r r' passed) ∧
  (expired lim (offers l) → StronglySorted Z.le (offers l).*1 → slow (limit lim) (offers l) → passed = (offers l).*2).
Proof.
  intros Hc Hn Hlast Hl Hb Ho Hcap Hmax Hp Hk Ha. cbv zeta. split; [|apply slow_let_through].
  pose proof (let_through_count (limit lim) (per_address lim) (offers l)) as Hcount.
  destruct (interleaving_run config (listener f) ch ps last l reads sent n [] lim c r seen (listener_calm f) Hc Hn Hlast Hl Hp)
    as (c1 & r1 & ts & q1 & lim1 & E1 & Hk1 & Hc1 & Hr1 & Hw1).
  { unfold has_room, waiting. rewrite Hb. cbn [app length]. split; [done|lia]. }
  unfold waiting at 2 in Hw1. rewrite Hb in Hw1. cbn [app] in Hw1.
  assert (length ts + length (waiting q1 lim1) ≤ length (offers l))%nat as Hlen by (rewrite <-length_app, Hw1; done).
  destruct (drain_all config (listener f) k _ _ _ _ _ _ r1 (notified_of (listener f) ts seen) Hc1 Hr1) as (c2 & lim2 & E2 & Hc2 & Hb2).
  { unfold waiting in Hlen. rewrite length_app in Hlen. lia. }
  destruct (process_all config (listener f) ats _ _ _ _ _ _ r1 (notified_of (listener f) ts seen) (listener_calm f) Hc2) as (c3 & r3 & E3 & Hc3 & Hk3); [lia|].
  exists c3, r3, lim2. split; [|split; [done|split; [done|]]].
  - rewrite tasks_run_app, eff_bind_run, E1, tasks_run_app, eff_bind_run, E2, E3. do 2 f_equal.
    rewrite <-listener_hears by apply let_through_incoming, offers_incoming. rewrite <-Hw1. unfold notified_of. by rewrite foldl_app.
  - rewrite <-Hw1. by eapply knows_app.
Qed.

(** ** Witnesses *)
#[local] Instance reception_release : Profile := {| debug_build := false |}.
(** The three transmissions of [sample_transmissions], with the other tasks in between. *)
Definition sample_passes : list task_pass := [Receives 0; Drains; Receives 1000; Processes 2000; Receives 500000000].
Lemma received_reach_application_witness : ∃ c' r',
  tasks_run QueueConfig_default (listener All) (sample_passes ++ replicate 2 Drains ++ (Processes <$> [600000000; 600000001]))
    (sample_client (Data <$> datagrams 7 0 [] sample_transmissions), ∅, []) = (Ok tt, (c', r', (offers sample_transmissions).*2)).
Proof.
  destruct (received_reach_application QueueConfig_default All 7 0 [] sample_transmissions [] [] new_limiter
    (sample_client (Data <$> datagrams 7 0 [] sample_transmissions)) sample_passes 2 [600000000; 600000001] ∅ []) as [(c' & r' & l' & E & _) Hs].
  - rewrite app_nil_r. apply sample_udp_client.
  - vm_compute; split; congruence.
  - vm_compute. discriminate.
  - repeat constructor; vm_compute; discriminate.
  - reflexivity.
  - reflexivity.
  - vm_compute. lia.
  - vm_compute. lia.
  - reflexivity.
  - vm_compute. lia.
  - vm_compute. lia.
  - destruct sample_slow as (H1 & H2 & H3). cbv zeta in Hs, E. rewrite (Hs H1 H2 H3) in E. exists c', r'. exact E.
Defined.
