(* ===== verification/Keyring.v ===== *)
(** Keyring files: the XML reader and writer of [.knxkeys] files
    ([src/src/config/keyring.rs]) with the escaping of attribute values
    ([src/src/config/mod.rs]). *)
From S2P Require Import Prelude Errors Address Text Crypto DataSecure.

(** * Texts *)
Definition DQ : ascii := ascii_of_nat 34.
Definition quote : string := String DQ EmptyString.
Definition NEWLINE : string := String (ascii_of_nat 10) EmptyString.
(** [str::starts_with], [str::find] of a text and [str::replace]. *)
Definition starts_with (p s : string) : bool := match strip_prefix p s with Some _ => true | None => false end.
Fixpoint find_str (p s : string) : option nat :=
  if starts_with p s then Some O
  else match s with EmptyString => None | String _ t => S <$> find_str p t end.
(** [skip] characters belong to the occurrence just replaced. *)
Fixpoint replace_from (p r : string) (skip : nat) (s : string) : string :=
  match s with
  | EmptyString => EmptyString
  | String c t =>
      match skip with
      | S skip => replace_from p r skip t
      | O => if starts_with p s then r +:+ replace_from p r (String.length p - 1) t
             else String c (replace_from p r 0 t)
      end
  end.
Definition replace (p r s : string) : string := replace_from p r 0 s.
(** [Result::ok]. *)
Definition to_ok {E A} (m : outcome E A) : option A := match m with Ok a => Some a | _ => None end.

(** * Escaping *)
Definition escape_char (c : ascii) : string :=
  if Ascii.eqb c "&" then "&amp;"
  else if Ascii.eqb c "<" then "&lt;"
  else if Ascii.eqb c ">" then "&gt;"
  else if Ascii.eqb c DQ then "&quot;"
  else if Ascii.eqb c "'" then "&apos;"
  else String c EmptyString.
Definition is_special (c : ascii) : bool :=
  Ascii.eqb c "&" || Ascii.eqb c "<" || Ascii.eqb c ">" || Ascii.eqb c DQ || Ascii.eqb c "'".
Fixpoint escape_chars (s : string) : string :=
  match s with EmptyString => EmptyString | String c s => escape_char c +:+ escape_chars s end.
Definition escape_xml (s : string) : string :=
  if str_all (negb ∘ is_special) s then s else escape_chars s.
Definition unescape_xml (s : string) : string :=
  if negb (str_contains "&" s) then s
  else replace "&amp;" "&" (replace "&apos;" "'" (replace "&quot;" quote (replace "&gt;" ">" (replace "&lt;" "<" s)))).

(** * Data *)
Record KeyringMetadata := MkKeyringMetadata {
  created : option string;
  creator : option string;
  project : option string;
  signature : option (list Z);
}.
Record KeyringInterface := MkKeyringInterface {
  ki_individual_address : IndividualAddress;
  ki_interface_type : string;
  ki_host : string;
  ki_user_id : Z;
  ki_user_password : SecurityKey;
  ki_device_authentication : option SecurityKey;
  ki_backbone_key : option SecurityKey;
}.
Record KeyringDevice := MkKeyringDevice {
  kd_individual_address : IndividualAddress;
  kd_serial_number : option string;
  kd_tool_key : option SecurityKey;
  kd_management_password : option SecurityKey;
  kd_authentication_code : option SecurityKey;
}.
Record KeyringGroupAddress := MkKeyringGroupAddress {
  kg_address : GroupAddress;
  kg_key : SecurityKey;
  kg_description : option string;
}.
Record KeyringConfig := MkKeyringConfig {
  kc_metadata : KeyringMetadata;
  kc_interfaces : list KeyringInterface;
  kc_devices : list KeyringDevice;
  kc_group_addresses : list KeyringGroupAddress;
}.

(** The crate [hex]: [decode], with its error's text, and [encode], which
    writes two lower-case digits a byte. *)
Class HexCrate := {
  hex_decode : string → outcome string (list Z);
  hex_encode : list Z → string;
}.
Class HexLaws `{HexCrate} := {
  hex_decode_encode : ∀ l, bytes_ok l → hex_decode (hex_encode l) = Ok l;
  hex_encode_digits : ∀ l, str_all (λ c, bool_decide (is_Some (hex_value c))) (hex_encode l) = true;
}.

Section keyring.
Context {hex : HexCrate}.

(** * Reading *)
Definition parse_error (file reason : string) : KnxError := Configuration (ConfigurationParseError file reason).

Definition extract_xml_attribute (xml attr_name : string) : option string :=
  let pattern := attr_name +:+ "=" +:+ quote in
  start ← find_str pattern xml;
  let rest := str_drop (start + String.length pattern) xml in
  stop ← find DQ rest;
  Some (unescape_xml (str_take stop rest)).

(** The loop the three element readers share; [rest] is the text from the
    current position on. *)
Fixpoint parse_elements {A} (tag close : string) (parse : string → result A) (fuel : nat) (rest : string) : list A :=
  match fuel with
  | O => []
  | S fuel =>
      let one (from : string) (stop : nat) :=
        option_list (to_ok (parse (str_take stop from))) ++ parse_elements tag close parse fuel (str_drop stop from) in
      match find_str tag rest with
      | None => []
      | Some start =>
          let from := str_drop start rest in
          match find_str " />" from with
          | Some stop => one from (stop + 3)%nat
          | None =>
              match find_str close from with
              | Some stop => one from (stop + String.length close)%nat
              | None => []
              end
          end
      end
  end.
Definition elements {A} (tag close : string) (parse : string → result A) (xml : string) : list A :=
  parse_elements tag close parse (S (String.length xml)) xml.

Definition key_attribute (xml name : string) : option SecurityKey :=
  v ← extract_xml_attribute xml name; to_ok (SecurityKey_from_hex hex_decode v).

Definition parse_single_interface (xml : string) : result KeyringInterface :=
  individual_address ← ok_or (a ← extract_xml_attribute xml "IndividualAddress"; to_ok (IndividualAddress_from_str a))
    (parse_error "interface XML" "Missing or invalid IndividualAddress in interface");
  let interface_type := default "Unknown" (extract_xml_attribute xml "Type") in
  let host := default "0.0.0.0" (extract_xml_attribute xml "Host") in
  let user_id := default 1 (id ← extract_xml_attribute xml "UserID"; parse_u8 id) in
  let user_password := default (SecurityKey_new (replicate 16 0)) (key_attribute xml "UserPassword") in
  let device_authentication := key_attribute xml "DeviceAuthentication" in
  let backbone_key := key_attribute xml "BackboneKey" in
  Ok (MkKeyringInterface individual_address interface_type host user_id user_password device_authentication backbone_key).
Definition parse_xml_interfaces (xml : string) : list KeyringInterface :=
  elements "<Interface" "</Interface>" parse_single_interface xml.

Definition parse_single_device (xml : string) : result KeyringDevice :=
  individual_address ← ok_or (a ← extract_xml_attribute xml "IndividualAddress"; to_ok (IndividualAddress_from_str a))
    (parse_error "device XML" "Missing or invalid IndividualAddress in device");
  let serial_number := extract_xml_attribute xml "SerialNumber" in
  let tool_key := key_attribute xml "ToolKey" in
  let management_password := key_attribute xml "ManagementPassword" in
  let authentication_code := key_attribute xml "AuthenticationCode" in
  Ok (MkKeyringDevice individual_address serial_number tool_key management_password authentication_code).
Definition parse_xml_devices (xml : string) : list KeyringDevice :=
  elements "<Device" "</Device>" parse_single_device xml.

Definition parse_single_group_address (xml : string) : result KeyringGroupAddress :=
  address ← ok_or (a ← extract_xml_attribute xml "Address"; to_ok (GroupAddress_from_str a))
    (parse_error "group address XML" "Missing or invalid Address in group address");
  key ← ok_or (key_attribute xml "Key") (parse_error "group address XML" "Missing or invalid Key in group address");
  let description := extract_xml_attribute xml "Description" in
  Ok (MkKeyringGroupAddress address key description).
Definition parse_xml_group_addresses (xml : string) : list KeyringGroupAddress :=
  elements "<GroupAddress" "</GroupAddress>" parse_single_group_address xml.

Definition parse_metadata (xml_str : string) : KeyringMetadata :=
  let none := MkKeyringMetadata None None None None in
  match find_str "<Keyring" xml_str with
  | None => none
  | Some keyring_start =>
      let from := str_drop keyring_start xml_str in
      match find ">" from with
      | None => none
      | Some keyring_end =>
          let keyring_tag := str_take (keyring_end + 1) from in
          MkKeyringMetadata (extract_xml_attribute keyring_tag "Created") (extract_xml_attribute keyring_tag "CreatedBy")
            (extract_xml_attribute keyring_tag "Project") None
      end
  end.
(** [utf8_error] is the text of a [Utf8Error]. *)
Context (utf8_error : list Z → string).
Definition parse_xml_keyring (data : list Z) : result KeyringConfig :=
  if utf8_valid data then
    let xml_str := utf8 data in
    Ok (MkKeyringConfig (parse_metadata xml_str) (parse_xml_interfaces xml_str) (parse_xml_devices xml_str)
          (parse_xml_group_addresses xml_str))
  else Err (parse_error "keyring XML" ("Invalid UTF-8 in keyring XML: " +:+ utf8_error data)).
Definition parse_binary_keyring (data : list Z) : result KeyringConfig :=
  if (length data <? 16)%nat then Err (parse_error "binary keyring" "Binary keyring too short")
  else
    magic ← slice data 0 4;
    if negb (bool_decide (magic = str_bytes "KNXK"))
    then Err (parse_error "binary keyring" "Invalid binary keyring magic bytes")
    else Err (parse_error "binary keyring" "binary .knxkeys parsing is not implemented; export the keyring as XML").
Definition KeyringParser_parse_bytes (data : list Z) : result KeyringConfig :=
  match parse_xml_keyring data with
  | Ok config => Ok config
  | Panic => Panic
  | Err _ =>
      match parse_binary_keyring data with
      | Ok config => Ok config
      | Panic => Panic
      | Err _ => Err (parse_error "keyring data" "Unable to parse keyring data as XML or binary format")
      end
  end.

(** * Writing *)
Definition attribute (name value : string) : string := " " +:+ name +:+ "=" +:+ quote +:+ value +:+ quote.
Definition attribute_if (name : string) (value : option string) : string :=
  match value with Some v => attribute name v | None => EmptyString end.
Definition hex_of (k : SecurityKey) : string := hex_encode (SecurityKey_as_bytes k).

Definition serialize_interface (i : KeyringInterface) : string :=
  "  <Interface" +:+ attribute "IndividualAddress" (IndividualAddress_display (ki_individual_address i))
  +:+ attribute "Type" (ki_interface_type i) +:+ attribute "Host" (escape_xml (ki_host i))
  +:+ attribute "UserID" (dec (ki_user_id i)) +:+ attribute "UserPassword" (hex_of (ki_user_password i))
  +:+ attribute_if "DeviceAuthentication" (hex_of <$> ki_device_authentication i)
  +:+ attribute_if "BackboneKey" (hex_of <$> ki_backbone_key i) +:+ " />" +:+ NEWLINE.
Definition serialize_device (d : KeyringDevice) : string :=
  "  <Device" +:+ attribute "IndividualAddress" (IndividualAddress_display (kd_individual_address d))
  +:+ attribute_if "SerialNumber" (escape_xml <$> kd_serial_number d)
  +:+ attribute_if "ToolKey" (hex_of <$> kd_tool_key d)
  +:+ attribute_if "ManagementPassword" (hex_of <$> kd_management_password d)
  +:+ attribute_if "AuthenticationCode" (hex_of <$> kd_authentication_code d) +:+ " />" +:+ NEWLINE.
Definition serialize_group_address (g : KeyringGroupAddress) : string :=
  "  <GroupAddress" +:+ attribute "Address" (GroupAddress_display (kg_address g))
  +:+ attribute "Key" (hex_of (kg_key g)) +:+ attribute_if "Description" (escape_xml <$> kg_description g)
  +:+ " />" +:+ NEWLINE.
Definition each {A} (f : A → string) (l : list A) : string := foldr (λ a s, f a +:+ s) EmptyString l.
Definition serialize_metadata (m : KeyringMetadata) : string :=
  attribute_if "Created" (escape_xml <$> created m) +:+ attribute_if "CreatedBy" (escape_xml <$> creator m)
  +:+ attribute_if "Project" (escape_xml <$> project m).
Definition serialize_text (config : KeyringConfig) : string :=
  "<?xml version=" +:+ quote +:+ "1.0" +:+ quote +:+ " encoding=" +:+ quote +:+ "utf-8" +:+ quote +:+ "?>" +:+ NEWLINE
  +:+ "<Keyring" +:+ serialize_metadata (kc_metadata config) +:+ ">" +:+ NEWLINE
  +:+ each serialize_interface (kc_interfaces config) +:+ each serialize_device (kc_devices config)
  +:+ each serialize_group_address (kc_group_addresses config) +:+ "</Keyring>" +:+ NEWLINE.
Definition KeyringParser_serialize (config : KeyringConfig) : list Z := str_bytes (serialize_text config).
End keyring.

(** * Lemmas *)

(** ** Searching *)
Lemma starts_with_app p s : starts_with p (p +:+ s) = true.
Proof. unfold starts_with. by rewrite strip_prefix_app. Qed.
Lemma find_here p s : find_str p (p +:+ s) = Some O.
Proof. destruct (p +:+ s) eqn:E; cbn [find_str]; by rewrite <-E, starts_with_app. Qed.
Lemma length_append a b : String.length (a +:+ b) = (String.length a + String.length b)%nat.
Proof. induction a as [|c a IH]; [done|]. rewrite append_cons. cbn. by rewrite IH. Qed.
Lemma length_str_drop n s : String.length (str_drop n s) = (String.length s - n)%nat.
Proof. revert n. induction s as [|c s IH]; intros [|n]; cbn; [done..|]. by rewrite IH. Qed.
Lemma str_drop_add n m s : str_drop (n + m) s = str_drop m (str_drop n s).
Proof. revert n. induction s as [|c s IH]; intros [|n]; cbn; [done|by destruct m|done|apply IH]. Qed.
Lemma starts_with_cons c p d s : starts_with (String c p) (String d s) = Ascii.eqb c d && starts_with p s.
Proof. unfold starts_with. cbn. by destruct (Ascii.eqb c d). Qed.
Lemma find_str_bound c p s n : find_str (String c p) s = Some n → (n < String.length s)%nat.
Proof.
  revert n. induction s as [|d s IH]; intros n; cbn [find_str]; [done|].
  destruct (starts_with _ _); [intros [= <-]; cbn; lia|]. destruct (find_str _ s) as [k|]; [|done].
  intros [= <-]. specialize (IH k eq_refl). cbn. lia.
Qed.

(** The search for [tag] never stops inside [pre]. *)
Definition passes_over (tag pre : string) : Prop :=
  ∀ t, find_str tag (pre +:+ t) = (λ n, (String.length pre + n)%nat) <$> find_str tag t.
Lemma passes_nil tag : passes_over tag EmptyString.
Proof. intros t. rewrite append_nil. by destruct (find_str tag t). Qed.
Lemma passes_app tag a b : passes_over tag a → passes_over tag b → passes_over tag (a +:+ b).
Proof.
  intros Ha Hb t. rewrite append_assoc, Ha, Hb. destruct (find_str tag t); cbn; [|done]. f_equal. rewrite length_append. lia.
Qed.
Lemma passes_free q p s : free_of q s = true → passes_over (String q p) s.
Proof.
  intros Hs t. induction s as [|c s IH].
  { rewrite append_nil. by destruct (find_str _ t). }
  cbn [free_of str_all] in Hs. apply andb_prop in Hs as [Hc%negb_true_iff Hs].
  rewrite append_cons. cbn [find_str]. rewrite starts_with_cons.
  replace (Ascii.eqb q c) with false by (rewrite Ascii.eqb_sym; done). cbn [andb]. rewrite IH by done.
  by destruct (find_str _ t).
Qed.
(** Another tag: the texts differ before either ends. *)
Fixpoint differ (p s : string) : bool :=
  match p, s with
  | String a p, String b s => negb (Ascii.eqb a b) || differ p s
  | _, _ => false
  end.
Lemma differ_starts p s t : differ p s = true → starts_with p (s +:+ t) = false.
Proof.
  revert s. induction p as [|a p IH]; intros [|b s]; try done. rewrite append_cons, starts_with_cons. cbn.
  destruct (Ascii.eqb a b); cbn; [apply IH|done].
Qed.
Lemma passes_tag q p s : differ (String q p) (String q s) = true → free_of q s = true → passes_over (String q p) (String q s).
Proof.
  intros Hd Hs t. rewrite append_cons. cbn [find_str]. rewrite <-append_cons, differ_starts by done.
  rewrite (passes_free q p s Hs). by destruct (find_str _ t).
Qed.

Lemma find_close a b : free_of ">" a = true → find_str " />" (a +:+ " />" +:+ b) = Some (String.length a).
Proof.
  induction a as [|c a IH]; intros Ha; [apply (find_here " />")|].
  cbn [free_of str_all] in Ha. apply andb_prop in Ha as [Hc Ha]. rewrite append_cons. cbn [find_str].
  replace (starts_with _ _) with false; [by rewrite IH|]. symmetry. rewrite starts_with_cons.
  destruct (Ascii.eqb " " c); [cbn [andb]|done]. destruct a as [|d a]; [done|]. rewrite append_cons, starts_with_cons.
  destruct (Ascii.eqb "/" d); [cbn [andb]|done]. destruct a as [|e a]; [done|]. rewrite append_cons, starts_with_cons.
  cbn [str_all] in Ha. apply andb_prop in Ha as [_ [He _]%andb_prop]. apply negb_true_iff in He.
  rewrite Ascii.eqb_sym in He. by rewrite He.
Qed.
Lemma find_char_app c a b : free_of c a = true → find c (a +:+ String c b) = Some (String.length a).
Proof.
  induction a as [|d a IH]; intros Ha.
  - rewrite append_nil. cbn. by rewrite Ascii.eqb_refl.
  - rewrite append_cons. cbn in *. apply andb_prop in Ha as [Hd%negb_true_iff Ha]. by rewrite Hd, IH.
Qed.

Lemma str_take_app_S a c b : str_take (String.length a + 1) (a +:+ String c b) = a +:+ String c EmptyString.
Proof. induction a as [|d a IH]; [by destruct b|]. rewrite !append_cons. cbn. f_equal. exact IH. Qed.

(** ** Attributes *)
Fixpoint ends_with (m a : string) : bool :=
  String.eqb m a || match a with EmptyString => false | String _ a => ends_with m a end.
(** What follows the first occurrence. *)
Definition after (p s : string) : option string := n ← find_str p s; Some (str_drop (n + String.length p) s).
Lemma after_step p c s : starts_with p (String c s) = false → after p (String c s) = after p s.
Proof. intros Hs. unfold after. cbn [find_str]. rewrite Hs. by destruct (find_str p s). Qed.
Lemma after_here p s : after p (p +:+ s) = Some s.
Proof. unfold after. rewrite find_here. cbn. by rewrite str_drop_app. Qed.
Lemma starts_with_until q m a b : free_of q m = true → free_of q a = true →
  starts_with (m +:+ String q EmptyString) (a +:+ String q b) = String.eqb m a.
Proof.
  revert a. induction m as [|c m IH]; intros [|d a] Hm Ha; rewrite ?append_cons, ?append_nil, ?starts_with_cons.
  - by rewrite Ascii.eqb_refl.
  - cbn in Ha. apply andb_prop in Ha as [Hd%negb_true_iff _]. rewrite Ascii.eqb_sym, Hd. done.
  - cbn in Hm. apply andb_prop in Hm as [Hc%negb_true_iff _]. by rewrite Hc.
  - cbn in Hm, Ha. apply andb_prop in Hm as [_ Hm]. apply andb_prop in Ha as [_ Ha].
    rewrite IH by done. cbn. by destruct (Ascii.eqb c d).
Qed.
(** The first [q] decides: it ends an occurrence of [m] and [q] or none before
    it does. *)
Lemma after_until q m a b : free_of q m = true → free_of q a = true →
  after (m +:+ String q EmptyString) (a +:+ String q b) =
  if ends_with m a then Some b else after (m +:+ String q EmptyString) b.
Proof.
  intros Hm. induction a as [|c a IH]; intros Ha.
  - rewrite append_nil. cbn [ends_with]. rewrite orb_false_r. destruct (String.eqb_spec m EmptyString) as [->|Hne].
    + apply (after_here (String q EmptyString)).
    + apply after_step. rewrite <-(append_nil (String q b)), starts_with_until by done. by apply String.eqb_neq.
  - cbn [ends_with]. pose proof (starts_with_until q m (String c a) b Hm Ha) as Hs. rewrite append_cons in Hs |- *.
    destruct (String.eqb_spec m (String c a)) as [->|Hne]; cbn [orb].
    + rewrite <-!append_cons, <-(append_lit q b), <-append_assoc. apply after_here.
    + rewrite after_step by done. apply IH. cbn in Ha. by apply andb_prop in Ha as [].
Qed.
Lemma after_none q m s : free_of q s = true → after (m +:+ String q EmptyString) s = None.
Proof.
  intros Hs. unfold after. replace (find_str _ s) with (@None nat); [done|]. symmetry. revert Hs.
  assert (∀ s, free_of q s = true → starts_with (m +:+ String q EmptyString) s = false) as Hn.
  { clear s. induction m as [|c m IH]; intros [|d s] Hs; try done; rewrite ?append_nil, ?append_cons, starts_with_cons;
      cbn in Hs; apply andb_prop in Hs as [Hd%negb_true_iff Hs].
    - by rewrite Ascii.eqb_sym, Hd.
    - rewrite IH by done. by destruct (Ascii.eqb c d). }
  induction s as [|c s IH]; intros Hs; cbn [find_str]; rewrite Hn by done; [done|].
  cbn in Hs. apply andb_prop in Hs as [_ Hs]. by rewrite IH.
Qed.
Lemma ends_with_skip c m a s : free_of c m = true → ends_with m (a +:+ String c s) = ends_with m s.
Proof.
  intros Hm. induction a as [|d a IH].
  - rewrite append_nil. cbn [ends_with]. destruct (String.eqb_spec m (String c s)) as [->|]; [|done].
    cbn in Hm. by rewrite Ascii.eqb_refl in Hm.
  - rewrite append_cons. cbn [ends_with]. rewrite IH. destruct (String.eqb_spec m (String d (a +:+ String c s))) as [->|]; [|done].
    rewrite <-append_cons, free_of_app in Hm. cbn in Hm. by rewrite Ascii.eqb_refl, andb_false_r in Hm.
Qed.
Lemma ends_with_self a b : ends_with b (a +:+ b) = true.
Proof.
  induction a as [|c a IH]; [rewrite append_nil|rewrite append_cons; cbn; rewrite IH; apply orb_true_r].
  destruct b; cbn; [done|]. by rewrite Ascii.eqb_refl, String.eqb_refl.
Qed.
(** A value that does not end with [=] ends no [name=]. *)
Lemma ends_with_last n e v : ends_with e v = false → ends_with (n +:+ e) v = false.
Proof.
  intros Hv. apply not_true_iff_false. intros E. apply not_true_iff_false in Hv. apply Hv. clear Hv.
  induction v as [|c v IH]; cbn [ends_with] in *.
  - rewrite orb_false_r in E. apply String.eqb_eq in E. destruct n, e; try done.
  - apply orb_prop in E as [E|E]; [|by rewrite IH, orb_true_r]. apply String.eqb_eq in E.
    pose proof (ends_with_self n e) as Hs. by rewrite E in Hs.
Qed.

(** An element as its list of attributes. *)
Abbreviation attributes := (list (string * string)).
Definition attributes_text (l : attributes) : string := foldr (λ a s, attribute a.1 a.2 +:+ s) EmptyString l.
Fixpoint attribute_of (name : string) (l : attributes) : option string :=
  match l with [] => None | (n, v) :: l => if String.eqb n name then Some v else attribute_of name l end.
Definition value_ok (v : string) : Prop :=
  free_of DQ v = true ∧ free_of "<" v = true ∧ free_of ">" v = true ∧ ends_with "=" v = false.
(** No attribute but [name] itself ends with [name]. *)
Definition apart (name n : string) : bool :=
  free_of DQ n && free_of "=" n && Bool.eqb (ends_with (name +:+ "=") (n +:+ "=")) (String.eqb n name).
Lemma extract_after xml name :
  extract_xml_attribute xml name =
  (rest ← after (name +:+ "=" +:+ quote) xml; stop ← find DQ rest; Some (unescape_xml (str_take stop rest))).
Proof. unfold extract_xml_attribute, after. by destruct (find_str _ xml). Qed.
Lemma extract_attributes name pre l post :
  free_of " " name = true → free_of DQ name = true → free_of DQ pre = true → free_of DQ post = true →
  Forall (λ a, apart name a.1 = true ∧ value_ok a.2) l →
  extract_xml_attribute (pre +:+ attributes_text l +:+ post) name = unescape_xml <$> attribute_of name l.
Proof.
  intros Hsp Hn Hpre Hpost Hl. rewrite extract_after, <-(append_assoc name "=" quote). 
  assert (free_of DQ (name +:+ "=") = true) as Hm by by rewrite free_of_app, Hn.
  pose proof (λ a b, after_until DQ (name +:+ "=") a b Hm) as Hu. pose proof (after_none DQ (name +:+ "=")) as H0.
  fold quote in Hu, H0. set (pat := (name +:+ "=") +:+ quote) in *. clearbody pat. revert pre Hpre.
  assert (free_of " " (name +:+ "=") = true) as Hm' by by rewrite free_of_app, Hsp.
  induction Hl as [|[n v] l [Hap Hv] Hl IH]; intros pre Hpre; cbn [attributes_text foldr attribute_of fst snd] in *.
  { rewrite append_nil, H0; [done|]. by rewrite free_of_app, Hpre. }
  apply andb_prop in Hap as [[Hnq _]%andb_prop Hap]. apply eqb_prop in Hap. destruct Hv as (Hvq & _ & _ & Hve).
  unfold attribute. rewrite !append_assoc.
  replace (pre +:+ " " +:+ n +:+ "=" +:+ quote +:+ v +:+ quote +:+ foldr _ _ l +:+ post)
    with ((pre +:+ String " " (n +:+ "=")) +:+ String DQ (v +:+ String DQ (attributes_text l +:+ post)))
    by (rewrite !append_assoc, append_cons, append_assoc; done).
  rewrite Hu; cycle 1.
  { rewrite free_of_app, Hpre. change (free_of DQ (n +:+ "=") = true). by rewrite free_of_app, Hnq. }
  rewrite ends_with_skip by done. rewrite Hap. destruct (String.eqb n name) eqn:En.
  - cbn. rewrite find_char_app by done. cbn. by rewrite str_take_app.
  - rewrite Hu by done. rewrite (ends_with_last name "=" v Hve). apply (IH EmptyString). done.
Qed.

(** ** The element loop *)
Section elements.
Context {A : Type} (t close : string) (parse : string → result A).
Abbreviation tag := (String "<" t).
Lemma parse_elements_enough f1 f2 X :
  close ≠ EmptyString → (String.length X < f1)%nat → (String.length X < f2)%nat →
  parse_elements tag close parse f1 X = parse_elements tag close parse f2 X.
Proof.
  intros Hc. revert f2 X. induction f1 as [|f1 IH]; intros [|f2] X H1 H2; [lia..|]. cbn [parse_elements].
  destruct (find_str tag X) as [start|] eqn:Et; [|done].
  pose proof (length_str_drop start X) as Hl. set (from := str_drop start X) in *. clearbody from.
  assert (∀ c p stop k, find_str (String c p) from = Some stop → (0 < k)%nat →
    parse_elements tag close parse f1 (str_drop (stop + k) from) = parse_elements tag close parse f2 (str_drop (stop + k) from)) as Hstep.
  { intros c p stop k Hf Hk. pose proof (find_str_bound _ _ _ _ Hf). apply IH; rewrite length_str_drop; lia. }
  destruct (find_str " />" from) as [stop|] eqn:E1.
  - f_equal. eapply Hstep; [exact E1|lia].
  - destruct (find_str close from) as [stop|] eqn:E2; [|done]. f_equal. destruct close as [|c p]; [done|].
    eapply Hstep; [exact E2|cbn; lia].
Qed.
Context (Hclose : close ≠ EmptyString).
Lemma elements_skip pre X : passes_over tag pre → elements tag close parse (pre +:+ X) = elements tag close parse X.
Proof.
  intros Hp. unfold elements. rewrite (parse_elements_enough (S (String.length X)) (S (String.length (pre +:+ X)))) by
    (try done; rewrite ?length_append; lia).
  cbn [parse_elements]. rewrite (Hp X). destruct (find_str tag X) as [n|]; cbn; [|done].
  by rewrite str_drop_add, str_drop_app.
Qed.
Lemma elements_one body X :
  free_of ">" (tag +:+ body) = true →
  elements tag close parse (tag +:+ body +:+ " />" +:+ X) =
  option_list (to_ok (parse (tag +:+ body +:+ " />"))) ++ elements tag close parse X.
Proof.
  intros Hb. set (Y := tag +:+ body +:+ " />" +:+ X).
  assert (find_str tag Y = Some O) as E0 by apply find_here.
  assert (find_str " />" Y = Some (String.length (tag +:+ body))) as E1.
  { unfold Y. rewrite <-append_assoc. by apply find_close. }
  assert (String.length (tag +:+ body) + 3 = String.length (tag +:+ body +:+ " />"))%nat as EL.
  { by rewrite <-append_assoc, (length_append (tag +:+ body)). }
  assert (Y = (tag +:+ body +:+ " />") +:+ X) as EY by (unfold Y; by rewrite !append_assoc).
  unfold elements at 1. cbn [parse_elements]. rewrite E0. change (str_drop 0 Y) with Y. rewrite E1, EL.
  clearbody Y. rewrite EY, str_take_app, str_drop_app. f_equal.
  apply parse_elements_enough; [done| |lia]. rewrite length_append. cbn. lia.
Qed.
Lemma elements_nil : elements tag close parse EmptyString = [].
Proof. done. Qed.
End elements.

(** ** Escaping *)
Definition flat (f : ascii → string) : string → string :=
  fix go s := match s with EmptyString => EmptyString | String c s => f c +:+ go s end.
Lemma replace_skip p r a b : replace_from p r (String.length a) (a +:+ b) = replace_from p r 0 b.
Proof. induction a as [|c a IH]; [done|]. rewrite append_cons. exact IH. Qed.
Lemma replace_free q p r e t :
  free_of q e = true → replace_from (String q p) r 0 (e +:+ t) = e +:+ replace_from (String q p) r 0 t.
Proof.
  induction e as [|c e IH]; intros He; [by rewrite !append_nil|]. rewrite !append_cons. cbn [replace_from]. rewrite starts_with_cons.
  cbn in He. apply andb_prop in He as [Hc%negb_true_iff He]. rewrite Ascii.eqb_sym, Hc. cbn [andb]. by rewrite IH.
Qed.
Lemma replace_here c p r t :
  replace_from (String c p) r 0 (String c p +:+ t) = r +:+ replace_from (String c p) r 0 t.
Proof.
  rewrite append_cons. cbn [replace_from]. rewrite <-append_cons, starts_with_app. f_equal.
  cbn [String.length]. replace (S (String.length p) - 1)%nat with (String.length p) by lia. apply replace_skip.
Qed.
(** A replacement decodes the characters encoded by [ent] and no others. *)
Definition decodes (ent r : string) (f g : ascii → string) (c : ascii) : bool :=
  (String.eqb (f c) ent && String.eqb (g c) r)
  || (String.eqb (g c) (f c) &&
      (free_of "&" (f c)
       || match f c with String d e => Ascii.eqb d "&" && free_of "&" e && differ ent (f c) | _ => false end)).
Lemma replace_decodes p r f g s :
  (∀ c, decodes (String "&" p) r f g c = true) → replace (String "&" p) r (flat f s) = flat g s.
Proof.
  intros Hd. unfold replace. induction s as [|c s IH]; [done|]. cbn [flat]. fold (flat f s) (flat g s). specialize (Hd c).
  apply orb_prop in Hd as [[->%String.eqb_eq ->%String.eqb_eq]%andb_prop|[->%String.eqb_eq [Hf|Hf]%orb_prop]%andb_prop].
  - by rewrite replace_here, IH.
  - by rewrite replace_free, IH.
  - destruct (f c) as [|d e]; [done|]. apply andb_prop in Hf as [[->%Ascii.eqb_eq He]%andb_prop Hdf].
    rewrite !append_cons. cbn [replace_from]. rewrite <-append_cons, differ_starts by done. by rewrite replace_free, IH.
Qed.
Lemma flat_id s : flat (λ c, String c EmptyString) s = s.
Proof. induction s as [|c s IH]; [done|]. cbn [flat]. fold (flat (λ c, String c EmptyString) s). by rewrite append_lit, IH. Qed.
Lemma flat_all (p : ascii → bool) f s : (∀ c, str_all p (f c) = true) → str_all p (flat f s) = true.
Proof. intros Hf. induction s as [|c s IH]; [done|]. cbn [flat]. by rewrite str_all_app, Hf. Qed.
Lemma contains_free c s : str_contains c s = negb (free_of c s).
Proof. induction s as [|d s IH]; [done|]. cbn in *. rewrite IH. by destruct (Ascii.eqb d c). Qed.
Lemma escape_flat s : escape_xml s = flat escape_char s.
Proof.
  assert (escape_chars s = flat escape_char s) as E by (induction s as [|c s IH]; [done|]; cbn; by rewrite IH).
  unfold escape_xml. destruct (str_all _ s) eqn:Hs; [|done]. clear E. induction s as [|c s IH]; [done|].
  cbn in Hs. apply andb_prop in Hs as [Hc Hs]. cbn [flat]. fold (flat escape_char s). rewrite <-IH by done.
  replace (escape_char c) with (String c EmptyString); [done|].
  unfold is_special in Hc. apply negb_true_iff in Hc. unfold escape_char.
  by repeat (apply orb_false_iff in Hc as [Hc ->]); rewrite Hc.
Qed.
Lemma unescape_free s : free_of "&" s = true → unescape_xml s = s.
Proof. intros Hs. unfold unescape_xml. by rewrite contains_free, Hs. Qed.
Lemma replace_id p r s : free_of "&" s = true → replace (String "&" p) r s = s.
Proof.
  intros Hs. unfold replace. rewrite <-(append_nil_r s), replace_free by done. cbn. by rewrite !append_nil_r.
Qed.
(** The characters still encoded after each replacement. *)
Definition encoded (rest : list ascii) (c : ascii) : string :=
  if existsb (Ascii.eqb c) rest then escape_char c else String c EmptyString.
Lemma encoded_id s : flat (encoded []) s = s.
Proof. apply flat_id. Qed.
Lemma unescape_escape s : unescape_xml (escape_xml s) = s.
Proof.
  assert (∀ t, unescape_xml t = replace "&amp;" "&" (replace "&apos;" "'" (replace "&quot;" quote (replace "&gt;" ">" (replace "&lt;" "<" t))))) as Hc.
  { intros t. destruct (free_of "&" t) eqn:Ht.
    - rewrite unescape_free by done. by do 5 rewrite (replace_id _ _ t Ht).
    - unfold unescape_xml. by rewrite contains_free, Ht. }
  rewrite Hc, escape_flat.
  rewrite (replace_decodes "lt;" "<" escape_char (encoded ["&"; ">"; DQ; "'"]%char)) by (apply ascii_decide; vm_compute; done).
  rewrite (replace_decodes "gt;" ">" _ (encoded ["&"; DQ; "'"]%char)) by (apply ascii_decide; vm_compute; done).
  rewrite (replace_decodes "quot;" quote _ (encoded ["&"; "'"]%char)) by (apply ascii_decide; vm_compute; done).
  rewrite (replace_decodes "apos;" "'" _ (encoded ["&"]%char)) by (apply ascii_decide; vm_compute; done).
  rewrite (replace_decodes "amp;" "&" _ (encoded [])) by (apply ascii_decide; vm_compute; done).
  apply encoded_id.
Qed.

(** ** UTF-8 *)

(** A valid text starts with one character, of one byte below 128 or of several
    from 128 on. *)
Lemma utf8_first l : utf8_valid l = true → l = [] ∨
  ∃ ch rest, l = ch ++ rest ∧ ch ≠ [] ∧ utf8_valid rest = true ∧ (∀ r, utf8_valid (ch ++ r) = utf8_valid r) ∧
    ((∃ b, ch = [b] ∧ b ≤ 127) ∨ Forall (λ b, 128 ≤ b) ch).
Proof.
  destruct l as [|b l]; [by left|]. intros Hv. right. cbn [utf8_valid] in Hv.
  destruct (b <=? 0x7F) eqn:E1.
  { exists [b], l. split_and!; [done..| |left; exists b; split; [done|lia]]. intros r. cbn [app utf8_valid]. by rewrite E1. }
  destruct ((0xC2 <=? b) && (b <=? 0xDF)) eqn:E2.
  { destruct l as [|c l]; [done|]. apply andb_prop in Hv as [Hc Hv]. exists [b; c], l. split_and!; [done..| |right].
    - intros r. cbn [app utf8_valid]. by rewrite E1, E2, Hc.
    - apply andb_prop in Hc as [? ?]. repeat constructor; lia. }
  destruct ((0xE0 <=? b) && (b <=? 0xEF)) eqn:E3.
  { destruct l as [|c [|d l]]; [done..|]. apply andb_prop in Hv as [Hc Hv]. exists [b; c; d], l. split_and!; [done..| |right].
    - intros r. cbn [app utf8_valid]. rewrite E1, E2, E3. by rewrite Hc.
    - apply andb_prop in Hc as [[Hc ?]%andb_prop [? ?]%andb_prop]. destruct (b =? 0xE0); repeat constructor; lia. }
  destruct ((0xF0 <=? b) && (b <=? 0xF4)) eqn:E4; [|done].
  destruct l as [|c [|d [|e l]]]; [done..|]. apply andb_prop in Hv as [Hc Hv]. exists [b; c; d; e], l. split_and!; [done..| |right].
  - intros r. cbn [app utf8_valid]. rewrite E1, E2, E3, E4. by rewrite Hc.
  - apply andb_prop in Hc as [[[Hc ?]%andb_prop [? ?]%andb_prop]%andb_prop [? ?]%andb_prop].
    destruct (b =? 0xF0); repeat constructor; lia.
Qed.
Lemma utf8_ind (P : list Z → Prop) :
  P [] →
  (∀ ch rest, ch ≠ [] → utf8_valid rest = true → (∀ r, utf8_valid (ch ++ r) = utf8_valid r) →
     (∃ b, ch = [b] ∧ b ≤ 127) ∨ Forall (λ b, 128 ≤ b) ch → P rest → P (ch ++ rest)) →
  ∀ l, utf8_valid l = true → P l.
Proof.
  intros H0 Hs l. remember (length l) as n eqn:En. revert l En.
  induction n as [n IH] using lt_wf_ind. intros l -> Hv.
  destruct (utf8_first l Hv) as [->|(ch & rest & -> & Hne & Hr & Hp & Hc)]; [done|].
  apply Hs; [done..|]. eapply IH; [|done|done]. rewrite length_app. destruct ch; [done|cbn; lia].
Qed.
Lemma utf8_app a b : utf8_valid a = true → utf8_valid b = true → utf8_valid (a ++ b) = true.
Proof.
  intros Ha Hb. revert a Ha. apply utf8_ind; [done|]. intros ch rest _ _ Hp _ IH. by rewrite <-app_assoc, Hp.
Qed.
Lemma utf8_ascii l : Forall (λ b, b ≤ 127) l → utf8_valid l = true.
Proof. induction 1 as [|b l Hb _ IH]; [done|]. cbn [utf8_valid]. by rewrite (proj2 (Z.leb_le b 127) Hb). Qed.
Lemma str_bytes_app a b : str_bytes (a +:+ b) = str_bytes a ++ str_bytes b.
Proof. induction a as [|c a IH]; [done|]. rewrite append_cons. cbn. by rewrite IH. Qed.
Definition valid_text (s : string) : Prop := utf8_valid (str_bytes s) = true.
Lemma valid_app a b : valid_text a → valid_text b → valid_text (a +:+ b).
Proof. unfold valid_text. rewrite str_bytes_app. apply utf8_app. Qed.
Definition is_ascii (c : ascii) : bool := (nat_of_ascii c <? 128)%nat.
Lemma valid_ascii s : str_all is_ascii s = true → valid_text s.
Proof.
  intros Hs. apply utf8_ascii. induction s as [|c s IH]; cbn [str_all str_bytes] in *; constructor;
    apply andb_prop in Hs as [Hc Hs]; [|by apply IH]. unfold is_ascii in Hc. apply Nat.ltb_lt in Hc. lia.
Qed.
(** Escaping replaces characters of one byte by texts of such characters. *)
Lemma valid_escape s : valid_text s → valid_text (escape_xml s).
Proof.
  rewrite escape_flat. unfold valid_text. rewrite <-(utf8_str_bytes s) at 2.
  assert (∀ a b, flat escape_char (a +:+ b) = flat escape_char a +:+ flat escape_char b) as Ha.
  { intros a b. induction a as [|c a IH]; [done|]. rewrite append_cons. cbn [flat].
    fold (flat escape_char (a +:+ b)) (flat escape_char a). by rewrite IH, append_assoc. }
  assert (∀ l k, utf8 (l ++ k) = utf8 l +:+ utf8 k) as Hu.
  { intros l k. induction l as [|b l IH]; [done|]. cbn [app utf8 foldr]. fold (utf8 (l ++ k)) (utf8 l). by rewrite IH, append_cons. }
  pose proof (str_bytes_ok s) as Hb. revert Hb. generalize (str_bytes s). intros l Hb Hv. revert l Hv Hb.
  apply (utf8_ind (λ l, bytes_ok l → utf8_valid (str_bytes (flat escape_char (utf8 l))) = true)); [done|].
  intros ch rest _ _ Hp Hc IH [Hb1 Hb2]%bytes_ok_app. rewrite Hu, Ha, str_bytes_app.
  destruct Hc as [(b & -> & Hb)|Hc].
  - apply utf8_app; [|by apply IH]. cbn [utf8 foldr flat]. rewrite append_nil_r. apply valid_ascii.
    assert (is_ascii (ascii_of_nat (Z.to_nat b)) = true) as Has.
    { unfold is_ascii. apply Nat.ltb_lt. inversion Hb1; subst. unfold u8_ok in *. rewrite nat_ascii_embedding; lia. }
    revert Has. generalize (ascii_of_nat (Z.to_nat b)). intros c Hc.
    assert (∀ c, implb (is_ascii c) (str_all is_ascii (escape_char c)) = true) as Hx by (apply ascii_decide; vm_compute; done).
    specialize (Hx c). by rewrite Hc in Hx.
  - replace (flat escape_char (utf8 ch)) with (utf8 ch).
    + rewrite str_bytes_utf8, Hp by done. by apply IH.
    + clear -Hc Hb1. induction Hc as [|b ch Hb Hc IH]; [done|]. inversion Hb1; subst. cbn [utf8 foldr flat].
      fold (utf8 ch). rewrite <-IH by done. replace (escape_char _) with (String (ascii_of_nat (Z.to_nat b)) EmptyString); [done|].
      assert (is_ascii (ascii_of_nat (Z.to_nat b)) = false) as Has.
      { unfold is_ascii. apply Nat.ltb_ge. unfold u8_ok in *. rewrite nat_ascii_embedding; lia. }
      revert Has. generalize (ascii_of_nat (Z.to_nat b)). intros c Hca. apply String.eqb_eq.
      assert (∀ c, is_ascii c || String.eqb (String c EmptyString) (escape_char c) = true) as Hx by (apply ascii_decide; vm_compute; done).
      specialize (Hx c). by rewrite Hca in Hx.
Qed.

(** ** Values *)
Lemma ends_with_char_app q a b :
  b ≠ EmptyString → ends_with (String q EmptyString) (a +:+ b) = ends_with (String q EmptyString) b.
Proof.
  intros Hb. induction a as [|c a IH]; [by rewrite append_nil|]. rewrite append_cons. cbn [ends_with]. rewrite IH.
  replace (String.eqb _ _) with false; [done|]. symmetry. apply String.eqb_neq. by destruct a, b.
Qed.
Lemma ends_with_char_free q s : free_of q s = true → ends_with (String q EmptyString) s = false.
Proof.
  induction s as [|c s IH]; [done|]. cbn [free_of str_all ends_with String.eqb]. intros [Hc%negb_true_iff Hs]%andb_prop.
  rewrite Ascii.eqb_sym, Hc. by apply IH.
Qed.
Lemma escape_ends s : ends_with "=" (escape_xml s) = ends_with "=" s.
Proof.
  rewrite escape_flat. induction s as [|c s IH]; [done|]. cbn [flat]. fold (flat escape_char s). destruct s as [|d s].
  - cbn [flat]. rewrite append_nil_r. apply eqb_prop. revert c. apply ascii_decide. vm_compute. done.
  - rewrite ends_with_char_app; [|cbn [flat]; fold (flat escape_char s)].
    + rewrite IH. cbn [ends_with]. replace (String.eqb "=" (String c (String d s))) with false; [done|].
      symmetry. by apply String.eqb_neq.
    + destruct (escape_char d) eqn:Ed; [|done]. exfalso. revert Ed. unfold escape_char. by repeat case_match.
Qed.
Lemma escaped_value s : ends_with "=" s = false → value_ok (escape_xml s).
Proof.
  intros Hs. split_and!; [rewrite escape_flat; apply flat_all, ascii_decide; vm_compute; done..|by rewrite escape_ends].
Qed.
(** A text without special characters. *)
Definition plain (s : string) : Prop := str_all (negb ∘ is_special) s = true ∧ ends_with "=" s = false.
Lemma plain_free c s : is_special c = true → plain s → free_of c s = true.
Proof.
  intros Hc [Hs _]. eapply str_all_impl; [|exact Hs]. intros d. cbn. destruct (Ascii.eqb_spec d c) as [->|]; [|done].
  by rewrite Hc.
Qed.
Lemma plain_value s : plain s → value_ok s ∧ unescape_xml s = s.
Proof. intros Hs. split; [split_and!; [by apply plain_free..|apply Hs]|by apply unescape_free, plain_free]. Qed.
Lemma plain_of (p : ascii → bool) s :
  forallb (λ n, implb (p (ascii_of_nat n)) (negb (is_special (ascii_of_nat n)) && negb (Ascii.eqb (ascii_of_nat n) "="))) (seq 0 256) = true →
  str_all p s = true → plain s.
Proof.
  intros Hp Hs. pose proof (ascii_decide (λ c, implb (p c) (negb (is_special c) && negb (Ascii.eqb c "="))) Hp) as Hc.
  split; [|apply ends_with_char_free]; (eapply str_all_impl; [|exact Hs]); intros c Hpc; specialize (Hc c);
    cbn beta in Hc; rewrite Hpc in Hc; by apply andb_prop in Hc as [].
Qed.
Definition address_char (c : ascii) : bool := is_digit c || Ascii.eqb c "." || Ascii.eqb c "/".
Lemma digits_address n : 0 ≤ n → str_all address_char (dec n) = true.
Proof. intros Hn. eapply str_all_impl; [|apply (dec_digits n Hn)]. intros c Hc. unfold address_char. by rewrite Hc. Qed.
Lemma plain_address s : str_all address_char s = true → plain s.
Proof. apply plain_of. vm_compute. done. Qed.
Lemma individual_chars a : str_all address_char (IndividualAddress_display a) = true.
Proof.
  destruct (individual_component_ok a) as (? & ? & ?). unfold u8_ok in *. unfold IndividualAddress_display.
  by rewrite !str_all_app, !digits_address by lia.
Qed.
Lemma group_chars a : str_all address_char (GroupAddress_display a) = true.
Proof.
  destruct (group_component_ok a) as (? & ? & ?). unfold u8_ok in *. unfold GroupAddress_display.
  by rewrite !str_all_app, !digits_address by lia.
Qed.
Lemma plain_individual a : plain (IndividualAddress_display a).
Proof. apply plain_address, individual_chars. Qed.
Lemma plain_group a : plain (GroupAddress_display a).
Proof. apply plain_address, group_chars. Qed.
Lemma plain_dec n : 0 ≤ n → plain (dec n).
Proof. intros Hn. by apply plain_address, digits_address. Qed.

(** ** Elements *)
Definition names_apart (N : list string) : bool :=
  forallb (λ name, free_of " " name && free_of DQ name && forallb (apart name) N) N.
Definition fits (N : list string) (l : attributes) : Prop := Forall (λ a, a.1 ∈ N ∧ value_ok a.2) l.
Lemma extract_element N name pre l post :
  names_apart N = true → name ∈ N → fits N l → free_of DQ pre = true → free_of DQ post = true →
  extract_xml_attribute (pre +:+ attributes_text l +:+ post) name = unescape_xml <$> attribute_of name l.
Proof.
  unfold names_apart. rewrite forallb_forall. intros HN Hn%list_elem_of_In Hl Hpre Hpost.
  apply HN in Hn as [[Hsp Hq]%andb_prop Hap]%andb_prop. rewrite forallb_forall in Hap.
  apply extract_attributes; [done..|]. eapply Forall_impl; [exact Hl|]. intros a [Ha%list_elem_of_In Hv]. split; [|done]. by apply Hap.
Qed.
Lemma attributes_free c N l :
  negb (Ascii.eqb " " c || Ascii.eqb "=" c || Ascii.eqb DQ c) && forallb (free_of c) N = true →
  (∀ v, value_ok v → free_of c v = true) → fits N l → free_of c (attributes_text l) = true.
Proof.
  intros [Hc HN]%andb_prop Hv. induction 1 as [|a l [Ha Hva] Hl IH]; [done|]. cbn [attributes_text foldr]. fold (attributes_text l).
  rewrite free_of_app, IH. unfold attribute. rewrite !free_of_app, (Hv _ Hva). rewrite forallb_forall in HN.
  rewrite (HN a.1) by (by apply list_elem_of_In). apply negb_true_iff in Hc. unfold quote. cbn [free_of str_all].
  apply orb_false_iff in Hc as [[H1 H2]%orb_false_iff H3]. by rewrite H1, H2, H3.
Qed.

Create HintDb keyring.
Section roundtrip.
Context `{HexLaws}.
Definition key_ok (k : SecurityKey) : Prop := bytes_ok (key_bytes k).
Lemma plain_hex k : plain (hex_of k).
Proof. eapply plain_of; [|apply hex_encode_digits]. vm_compute. done. Qed.
Lemma key_from_hex k : key_ok k → SecurityKey_from_hex hex_decode (hex_of k) = Ok k.
Proof.
  intros Hk. unfold SecurityKey_from_hex. replace (strip_separators (hex_of k)) with (hex_of k).
  - unfold hex_of, SecurityKey_as_bytes. rewrite hex_decode_encode by done. by destruct k.
  - pose proof (hex_encode_digits (key_bytes k)) as Hd. unfold hex_of, SecurityKey_as_bytes.
    induction (hex_encode (key_bytes k)) as [|c s IH]; [done|]. cbn [str_all] in Hd. apply andb_prop in Hd as [Hc Hd].
    cbn [strip_separators]. destruct ((c =? " ")%char) eqn:E1; [by apply Ascii.eqb_eq in E1 as ->|].
    destruct ((c =? ":")%char) eqn:E2; [by apply Ascii.eqb_eq in E2 as ->|]. cbn [orb]. f_equal. by apply IH.
Qed.

Definition optional (name : string) (v : option string) : attributes :=
  match v with Some v => [(name, v)] | None => [] end.
Definition INTERFACE_NAMES : list string :=
  ["IndividualAddress"; "Type"; "Host"; "UserID"; "UserPassword"; "DeviceAuthentication"; "BackboneKey"].
Definition interface_attributes (i : KeyringInterface) : attributes :=
  [("IndividualAddress", IndividualAddress_display (ki_individual_address i)); ("Type", ki_interface_type i);
   ("Host", escape_xml (ki_host i)); ("UserID", dec (ki_user_id i)); ("UserPassword", hex_of (ki_user_password i))]
  ++ optional "DeviceAuthentication" (hex_of <$> ki_device_authentication i)
  ++ optional "BackboneKey" (hex_of <$> ki_backbone_key i).
Definition DEVICE_NAMES : list string :=
  ["IndividualAddress"; "SerialNumber"; "ToolKey"; "ManagementPassword"; "AuthenticationCode"].
Definition device_attributes (d : KeyringDevice) : attributes :=
  [("IndividualAddress", IndividualAddress_display (kd_individual_address d))]
  ++ optional "SerialNumber" (escape_xml <$> kd_serial_number d)
  ++ optional "ToolKey" (hex_of <$> kd_tool_key d)
  ++ optional "ManagementPassword" (hex_of <$> kd_management_password d)
  ++ optional "AuthenticationCode" (hex_of <$> kd_authentication_code d).
Definition GROUP_NAMES : list string := ["Address"; "Key"; "Description"].
Definition group_attributes (g : KeyringGroupAddress) : attributes :=
  [("Address", GroupAddress_display (kg_address g)); ("Key", hex_of (kg_key g))]
  ++ optional "Description" (escape_xml <$> kg_description g).
Definition META_NAMES : list string := ["Created"; "CreatedBy"; "Project"].
Definition meta_attributes (m : KeyringMetadata) : attributes :=
  optional "Created" (escape_xml <$> created m) ++ optional "CreatedBy" (escape_xml <$> creator m)
  ++ optional "Project" (escape_xml <$> project m).

Lemma attributes_app l k : attributes_text (l ++ k) = attributes_text l +:+ attributes_text k.
Proof. induction l as [|a l IH]; [done|]. cbn. fold (attributes_text (l ++ k)) (attributes_text l). by rewrite IH, append_assoc. Qed.
Lemma attributes_optional name v : attributes_text (optional name v) = attribute_if name v.
Proof. destruct v; [|done]. cbn. apply append_nil_r. Qed.

(** What can be written and read back: texts are UTF-8, as every [String] is,
    no free text ends with [=], and the type of an interface, which is not
    escaped, has no special characters. *)
Definition text_ok (s : string) : Prop := valid_text s ∧ ends_with "=" s = false.
Record interface_ok (i : KeyringInterface) : Prop := {
  interface_address_ok : IndividualAddress_valid (ki_individual_address i);
  interface_type_ok : plain (ki_interface_type i);
  interface_type_valid : valid_text (ki_interface_type i);
  interface_host_ok : text_ok (ki_host i);
  interface_user_ok : u8_ok (ki_user_id i);
  interface_password_ok : key_ok (ki_user_password i);
  interface_device_ok : from_option key_ok True (ki_device_authentication i);
  interface_backbone_ok : from_option key_ok True (ki_backbone_key i);
}.
Record device_ok (d : KeyringDevice) : Prop := {
  device_address_ok : IndividualAddress_valid (kd_individual_address d);
  device_serial_ok : from_option text_ok True (kd_serial_number d);
  device_tool_ok : from_option key_ok True (kd_tool_key d);
  device_password_ok : from_option key_ok True (kd_management_password d);
  device_code_ok : from_option key_ok True (kd_authentication_code d);
}.
Record group_ok (g : KeyringGroupAddress) : Prop := {
  group_address_ok : GroupAddress_valid (kg_address g);
  group_key_ok : key_ok (kg_key g);
  group_description_ok : from_option text_ok True (kg_description g);
}.
Record metadata_ok (m : KeyringMetadata) : Prop := {
  metadata_created_ok : from_option text_ok True (created m);
  metadata_creator_ok : from_option text_ok True (creator m);
  metadata_project_ok : from_option text_ok True (project m);
}.

Lemma fits_app N l k : fits N l → fits N k → fits N (l ++ k).
Proof. apply Forall_app_2. Qed.
Lemma fits_one N n v l : bool_decide (n ∈ N) = true → value_ok v → fits N l → fits N ((n, v) :: l).
Proof. intros Hn%bool_decide_eq_true Hv Hl. by constructor. Qed.
Lemma fits_optional N n v : bool_decide (n ∈ N) = true → from_option value_ok True v → fits N (optional n v).
Proof. intros Hn Hv. destruct v; [|constructor]. apply fits_one; [done..|constructor]. Qed.
Lemma escaped_text s : text_ok s → value_ok (escape_xml s).
Proof. intros [_ Hs]. by apply escaped_value. Qed.
Lemma escaped_optional v : from_option text_ok True v → from_option value_ok True (escape_xml <$> v).
Proof. destruct v; [apply escaped_text|done]. Qed.
Lemma hex_optional v : from_option value_ok True (hex_of <$> v).
Proof. destruct v; [apply plain_value, plain_hex|done]. Qed.
Lemma key_optional v :
  from_option key_ok True v →
  (x ← unescape_xml <$> (hex_of <$> v); to_ok (SecurityKey_from_hex hex_decode x)) = v.
Proof.
  destruct v as [k|]; [|done]. cbn. intros Hk. by rewrite (proj2 (plain_value _ (plain_hex k))), key_from_hex.
Qed.
Lemma text_optional (v : option string) : unescape_xml <$> (escape_xml <$> v) = v.
Proof. destruct v; [|done]. cbn. by rewrite unescape_escape. Qed.
#[local] Hint Resolve escaped_optional hex_optional escaped_value : keyring.
#[local] Hint Resolve plain_individual plain_group plain_dec plain_hex : keyring.
Ltac fits :=
  repeat match goal with
  | |- fits _ [] => constructor
  | |- fits _ ((_, _) :: _) => apply fits_one; [reflexivity| |]
  | |- fits _ (_ ++ _) => apply fits_app
  | |- fits _ (optional _ _) => apply fits_optional; [reflexivity|]
  | |- value_ok (escape_xml _) => apply escaped_text
  | |- value_ok _ => apply plain_value
  end; auto with keyring lia.

Lemma interface_text i : serialize_interface i =
  "  " +:+ "<Interface" +:+ attributes_text (interface_attributes i) +:+ " />" +:+ NEWLINE.
Proof.
  unfold serialize_interface, interface_attributes. rewrite !attributes_app, !attributes_optional.
  cbn [attributes_text foldr fst snd]. by rewrite !append_assoc, append_nil.
Qed.
Lemma device_text d : serialize_device d =
  "  " +:+ "<Device" +:+ attributes_text (device_attributes d) +:+ " />" +:+ NEWLINE.
Proof.
  unfold serialize_device, device_attributes. rewrite !attributes_app, !attributes_optional.
  cbn [attributes_text foldr fst snd]. by rewrite !append_assoc, append_nil.
Qed.
Lemma group_text g : serialize_group_address g =
  "  " +:+ "<GroupAddress" +:+ attributes_text (group_attributes g) +:+ " />" +:+ NEWLINE.
Proof.
  unfold serialize_group_address, group_attributes. rewrite !attributes_app, !attributes_optional.
  cbn [attributes_text foldr fst snd]. by rewrite !append_assoc, append_nil.
Qed.
Lemma metadata_text m : serialize_metadata m = attributes_text (meta_attributes m).
Proof. unfold serialize_metadata, meta_attributes. by rewrite !attributes_app, !attributes_optional. Qed.

Lemma interface_fits i : interface_ok i → fits INTERFACE_NAMES (interface_attributes i).
Proof. intros []. unfold interface_attributes, u8_ok in *. fits. Qed.
Lemma device_fits d : device_ok d → fits DEVICE_NAMES (device_attributes d).
Proof. intros []. unfold device_attributes. fits. Qed.
Lemma group_fits g : group_ok g → fits GROUP_NAMES (group_attributes g).
Proof. intros []. unfold group_attributes. fits. Qed.
Lemma metadata_fits m : metadata_ok m → fits META_NAMES (meta_attributes m).
Proof. intros []. unfold meta_attributes. fits. Qed.

Lemma unescape_plain s : plain s → unescape_xml s = s.
Proof. intros Hs. by apply plain_value. Qed.
(** The attributes of a written element, by name. *)
Ltac read_attributes N :=
  unfold key_attribute;
  repeat (rewrite (extract_element N) by (done || by apply (bool_decide_unpack _)));
  rewrite ?key_optional, ?text_optional by done.

Lemma interface_parses i : interface_ok i →
  parse_single_interface ("<Interface" +:+ attributes_text (interface_attributes i) +:+ " />") = Ok i.
Proof.
  intros Hi. pose proof (interface_fits i Hi) as Hf. destruct Hi as [Ha Ht _ Hh Hu Hp Hd Hb].
  unfold parse_single_interface. read_attributes INTERFACE_NAMES.
  replace (attribute_of "IndividualAddress" _) with (Some (IndividualAddress_display (ki_individual_address i))) by done.
  replace (attribute_of "Type" _) with (Some (ki_interface_type i)) by done.
  replace (attribute_of "Host" _) with (escape_xml <$> Some (ki_host i)) by done.
  replace (attribute_of "UserID" _) with (Some (dec (ki_user_id i))) by done.
  replace (attribute_of "UserPassword" _) with (hex_of <$> Some (ki_user_password i)) by done.
  replace (attribute_of "DeviceAuthentication" _) with (hex_of <$> ki_device_authentication i)
    by (unfold interface_attributes; by destruct (ki_device_authentication i), (ki_backbone_key i)).
  replace (attribute_of "BackboneKey" _) with (hex_of <$> ki_backbone_key i)
    by (unfold interface_attributes; by destruct (ki_device_authentication i), (ki_backbone_key i)).
  rewrite !key_optional, text_optional by done. cbn [fmap option_fmap option_map mbind option_bind default].
  unfold u8_ok in Hu. rewrite !unescape_plain by auto with keyring lia.
  cbn. rewrite individual_text_roundtrip, parse_u8_dec by done. by destruct i.
Qed.
Lemma device_parses d : device_ok d →
  parse_single_device ("<Device" +:+ attributes_text (device_attributes d) +:+ " />") = Ok d.
Proof.
  intros Hd. pose proof (device_fits d Hd) as Hf. destruct Hd as [Ha Hs Ht Hp Hc].
  unfold parse_single_device. read_attributes DEVICE_NAMES.
  replace (attribute_of "IndividualAddress" _) with (Some (IndividualAddress_display (kd_individual_address d))) by done.
  replace (attribute_of "SerialNumber" _) with (escape_xml <$> kd_serial_number d) by (destruct d as [? [] [] [] []]; done).
  replace (attribute_of "ToolKey" _) with (hex_of <$> kd_tool_key d) by (destruct d as [? [] [] [] []]; done).
  replace (attribute_of "ManagementPassword" _) with (hex_of <$> kd_management_password d) by (destruct d as [? [] [] [] []]; done).
  replace (attribute_of "AuthenticationCode" _) with (hex_of <$> kd_authentication_code d) by (destruct d as [? [] [] [] []]; done).
  rewrite !key_optional, text_optional by done. cbn [fmap option_fmap option_map mbind option_bind].
  rewrite unescape_plain by auto with keyring. cbn. rewrite individual_text_roundtrip by done. by destruct d.
Qed.
Lemma group_parses g : group_ok g →
  parse_single_group_address ("<GroupAddress" +:+ attributes_text (group_attributes g) +:+ " />") = Ok g.
Proof.
  intros Hg. pose proof (group_fits g Hg) as Hf. destruct Hg as [Ha Hk Hd].
  unfold parse_single_group_address. read_attributes GROUP_NAMES.
  replace (attribute_of "Address" _) with (Some (GroupAddress_display (kg_address g))) by done.
  replace (attribute_of "Key" _) with (hex_of <$> Some (kg_key g)) by done.
  replace (attribute_of "Description" _) with (escape_xml <$> kg_description g) by (destruct g as [? ? []]; done).
  rewrite key_optional, text_optional by done. cbn [fmap option_fmap option_map mbind option_bind].
  rewrite unescape_plain by auto with keyring. cbn. rewrite group_text_roundtrip by done. by destruct g.
Qed.
Lemma metadata_parses m : metadata_ok m →
  free_of ">" ("<Keyring" +:+ attributes_text (meta_attributes m)) = true ∧
  ∀ name, name ∈ META_NAMES →
    extract_xml_attribute ("<Keyring" +:+ attributes_text (meta_attributes m) +:+ ">") name =
    unescape_xml <$> attribute_of name (meta_attributes m).
Proof.
  intros Hm%metadata_fits. split.
  - rewrite free_of_app. by rewrite (attributes_free ">" META_NAMES) by (done || by intros v (_ & _ & ? & _)).
  - intros name Hn. by apply (extract_element META_NAMES).
Qed.

(** ** The file *)
Lemma fits_free N l :
  forallb (free_of "<") N && forallb (free_of ">") N = true → fits N l →
  free_of "<" (attributes_text l) = true ∧ free_of ">" (attributes_text l) = true.
Proof.
  intros [H1 H2]%andb_prop Hl. split; (apply (attributes_free _ N); [by rewrite ?H1, ?H2| |done]); by intros v (? & ? & ? & ?).
Qed.
(** The list of one kind of element is read by its own reader, and passed over
    by the others. *)
Definition element (t body : string) : string := "  " +:+ String "<" t +:+ body +:+ " />" +:+ NEWLINE.
Lemma elements_each {B} t close (parse : string → result B) (ser body : B → string) l X :
  close ≠ EmptyString → free_of ">" t = true →
  Forall (λ b, ser b = element t (body b) ∧ free_of ">" (body b) = true ∧
    parse (String "<" t +:+ body b +:+ " />") = Ok b) l →
  elements (String "<" t) close parse (each ser l +:+ X) = l ++ elements (String "<" t) close parse X.
Proof.
  intros Hc Ht. induction 1 as [|b l (Es & Hb & Hp) Hl IH]; [done|]. cbn [each foldr]. fold (each ser l).
  rewrite Es. unfold element. rewrite !append_assoc, elements_skip by (done || by apply passes_free).
  rewrite elements_one, Hp; [|done|].
  - cbn [to_ok option_list app]. rewrite elements_skip by (done || by apply passes_free). by rewrite IH.
  - rewrite append_cons. change (free_of ">" (t +:+ body b) = true). by rewrite free_of_app, Ht, Hb.
Qed.
Lemma passes_each {B} t t' (ser body : B → string) l :
  differ (String "<" t) (String "<" t') = true → free_of "<" t' = true →
  Forall (λ b, ser b = element t' (body b) ∧ free_of "<" (body b) = true) l →
  passes_over (String "<" t) (each ser l).
Proof.
  intros Hd Ht. induction 1 as [|b l [Es Hb] Hl IH]; [apply passes_nil|]. cbn [each foldr]. fold (each ser l).
  rewrite Es. unfold element. repeat apply passes_app; try by apply passes_free. - by apply passes_tag. - done.
Qed.

Definition keyring_ok (k : KeyringConfig) : Prop :=
  metadata_ok (kc_metadata k) ∧ Forall interface_ok (kc_interfaces k) ∧
  Forall device_ok (kc_devices k) ∧ Forall group_ok (kc_group_addresses k).
Definition XML_HEADER : string :=
  "<?xml version=" +:+ quote +:+ "1.0" +:+ quote +:+ " encoding=" +:+ quote +:+ "utf-8" +:+ quote +:+ "?>" +:+ NEWLINE.
Definition file_start (k : KeyringConfig) : string :=
  XML_HEADER +:+ "<Keyring" +:+ attributes_text (meta_attributes (kc_metadata k)) +:+ ">" +:+ NEWLINE.
Definition file_end : string := "</Keyring>" +:+ NEWLINE.
Lemma text_parts k : serialize_text k =
  file_start k +:+ each serialize_interface (kc_interfaces k) +:+ each serialize_device (kc_devices k)
  +:+ each serialize_group_address (kc_group_addresses k) +:+ file_end.
Proof. unfold serialize_text, file_start, XML_HEADER. rewrite metadata_text. by rewrite !append_assoc. Qed.

Section parts.
Context (k : KeyringConfig) (Hk : keyring_ok k).
Lemma interfaces_elements : Forall (λ i, serialize_interface i = element "Interface" (attributes_text (interface_attributes i)) ∧
  free_of "<" (attributes_text (interface_attributes i)) = true ∧ free_of ">" (attributes_text (interface_attributes i)) = true ∧
  parse_single_interface ("<Interface" +:+ attributes_text (interface_attributes i) +:+ " />") = Ok i) (kc_interfaces k).
Proof.
  destruct Hk as (_ & Hi & _). eapply Forall_impl; [exact Hi|]. intros i Hio.
  destruct (fits_free INTERFACE_NAMES (interface_attributes i)) as [? ?]; [done|by apply interface_fits|].
  split_and!; [apply interface_text|done..|by apply interface_parses].
Qed.
Lemma devices_elements : Forall (λ d, serialize_device d = element "Device" (attributes_text (device_attributes d)) ∧
  free_of "<" (attributes_text (device_attributes d)) = true ∧ free_of ">" (attributes_text (device_attributes d)) = true ∧
  parse_single_device ("<Device" +:+ attributes_text (device_attributes d) +:+ " />") = Ok d) (kc_devices k).
Proof.
  destruct Hk as (_ & _ & Hd & _). eapply Forall_impl; [exact Hd|]. intros d Hdo.
  destruct (fits_free DEVICE_NAMES (device_attributes d)) as [? ?]; [done|by apply device_fits|].
  split_and!; [apply device_text|done..|by apply device_parses].
Qed.
Lemma groups_elements : Forall (λ g, serialize_group_address g = element "GroupAddress" (attributes_text (group_attributes g)) ∧
  free_of "<" (attributes_text (group_attributes g)) = true ∧ free_of ">" (attributes_text (group_attributes g)) = true ∧
  parse_single_group_address ("<GroupAddress" +:+ attributes_text (group_attributes g) +:+ " />") = Ok g) (kc_group_addresses k).
Proof.
  destruct Hk as (_ & _ & _ & Hg). eapply Forall_impl; [exact Hg|]. intros g Hgo.
  destruct (fits_free GROUP_NAMES (group_attributes g)) as [? ?]; [done|by apply group_fits|].
  split_and!; [apply group_text|done..|by apply group_parses].
Qed.
Lemma passes_prefix t : differ (String "<" t) "<?xml version=" = true → differ (String "<" t) "<Keyring" = true →
  passes_over (String "<" t) (file_start k).
Proof.
  intros H1 H2. destruct Hk as (Hm & _). destruct (fits_free META_NAMES _ eq_refl (metadata_fits _ Hm)) as [Hf _].
  unfold file_start, XML_HEADER. repeat apply passes_app; try by apply passes_free. - by apply passes_tag. - by apply passes_tag.
Qed.
Lemma elements_end {A} t close (parse : string → result A) :
  close ≠ EmptyString → differ (String "<" t) "</Keyring>" = true → elements (String "<" t) close parse file_end = [].
Proof.
  intros Hc Hd. unfold file_end. rewrite elements_skip by (done || by apply passes_tag).
  by rewrite <-(append_nil_r NEWLINE), elements_skip by (done || by apply passes_free).
Qed.
Ltac each_element := eapply Forall_impl; [eassumption|]; intros ? (? & ? & ? & ?); done.
Lemma pass_interfaces t : differ (String "<" t) "<Interface" = true → passes_over (String "<" t) (each serialize_interface (kc_interfaces k)).
Proof.
  pose proof interfaces_elements. intros Hd.
  apply (passes_each _ "Interface" _ (λ i, attributes_text (interface_attributes i))); [done..|each_element].
Qed.
Lemma pass_devices t : differ (String "<" t) "<Device" = true → passes_over (String "<" t) (each serialize_device (kc_devices k)).
Proof.
  pose proof devices_elements. intros Hd.
  apply (passes_each _ "Device" _ (λ d, attributes_text (device_attributes d))); [done..|each_element].
Qed.
Lemma pass_groups t :
  differ (String "<" t) "<GroupAddress" = true → passes_over (String "<" t) (each serialize_group_address (kc_group_addresses k)).
Proof.
  pose proof groups_elements. intros Hd.
  apply (passes_each _ "GroupAddress" _ (λ g, attributes_text (group_attributes g))); [done..|each_element].
Qed.
#[local] Hint Resolve passes_prefix pass_interfaces pass_devices pass_groups : keyring.
Ltac pass := repeat (rewrite elements_skip by (done || by auto with keyring)).
Lemma read_interfaces : parse_xml_interfaces (serialize_text k) = kc_interfaces k.
Proof.
  pose proof interfaces_elements. rewrite text_parts. unfold parse_xml_interfaces. pass.
  rewrite (elements_each "Interface" _ _ _ (λ i, attributes_text (interface_attributes i))) by (done || each_element).
  pass. by rewrite elements_end, app_nil_r.
Qed.
Lemma read_devices : parse_xml_devices (serialize_text k) = kc_devices k.
Proof.
  pose proof devices_elements. rewrite text_parts. unfold parse_xml_devices. pass.
  rewrite (elements_each "Device" _ _ _ (λ d, attributes_text (device_attributes d))) by (done || each_element).
  pass. by rewrite elements_end, app_nil_r.
Qed.
Lemma read_groups : parse_xml_group_addresses (serialize_text k) = kc_group_addresses k.
Proof.
  pose proof groups_elements. rewrite text_parts. unfold parse_xml_group_addresses. pass.
  rewrite (elements_each "GroupAddress" _ _ _ (λ g, attributes_text (group_attributes g))) by (done || each_element).
  by rewrite elements_end, app_nil_r.
Qed.
Definition unsigned (m : KeyringMetadata) : KeyringMetadata := MkKeyringMetadata (created m) (creator m) (project m) None.
Lemma read_metadata : parse_metadata (serialize_text k) = unsigned (kc_metadata k).
Proof.
  destruct Hk as (Hm & _). destruct (metadata_parses _ Hm) as [Hf Hx]. set (l := attributes_text (meta_attributes (kc_metadata k))) in *.
  assert (∃ rest, serialize_text k = XML_HEADER +:+ ("<Keyring" +:+ l) +:+ String ">" rest) as [rest ->].
  { eexists. rewrite text_parts. unfold file_start. fold l. rewrite !append_assoc. reflexivity. }
  unfold parse_metadata.
  assert (passes_over "<Keyring" XML_HEADER) as Hp.
  { unfold XML_HEADER. repeat apply passes_app; try by apply passes_free. by apply passes_tag. }
  rewrite Hp, append_assoc, find_here. cbn [fmap option_fmap option_map]. rewrite Nat.add_0_r, str_drop_app.
  rewrite <-append_assoc, find_char_app by done. rewrite str_take_app_S, append_assoc.
  rewrite !Hx by by apply (bool_decide_unpack _).
  assert (attribute_of "Created" (meta_attributes (kc_metadata k)) = escape_xml <$> created (kc_metadata k)
    ∧ attribute_of "CreatedBy" (meta_attributes (kc_metadata k)) = escape_xml <$> creator (kc_metadata k)
    ∧ attribute_of "Project" (meta_attributes (kc_metadata k)) = escape_xml <$> project (kc_metadata k)) as (-> & -> & ->).
  { by destruct (kc_metadata k) as [[] [] [] ?]. }
  by rewrite !text_optional.
Qed.
End parts.

Lemma valid_hex v : valid_text (hex_of v).
Proof.
  apply valid_ascii. eapply str_all_impl; [|apply hex_encode_digits].
  assert (∀ c, implb (bool_decide (is_Some (hex_value c))) (is_ascii c) = true) as Hx by (apply ascii_decide; vm_compute; done).
  intros c Hc. specialize (Hx c). by rewrite Hc in Hx.
Qed.
Lemma valid_address s : str_all address_char s = true → valid_text s.
Proof.
  intros Hs. apply valid_ascii. eapply str_all_impl; [|exact Hs].
  assert (∀ c, implb (address_char c) (is_ascii c) = true) as Hx by (apply ascii_decide; vm_compute; done).
  intros c Hc. specialize (Hx c). by rewrite Hc in Hx.
Qed.
Lemma valid_attribute name v : str_all is_ascii name = true → valid_text v → valid_text (attribute name v).
Proof. intros Hn Hv. unfold attribute. by repeat first [apply valid_app|apply valid_ascii; done]. Qed.
Lemma valid_optional name v : str_all is_ascii name = true → from_option valid_text True v → valid_text (attribute_if name v).
Proof. intros Hn Hv. destruct v; [by apply valid_attribute|done]. Qed.
Lemma valid_each {B} (P : B → Prop) ser l : (∀ b, P b → valid_text (ser b)) → Forall P l → valid_text (each ser l).
Proof. intros Hs. induction 1 as [|b l Hb Hl IH]; [done|]. apply valid_app; [by apply Hs|done]. Qed.
Lemma valid_escaped (v : option string) : from_option text_ok True v → from_option valid_text True (escape_xml <$> v).
Proof. destruct v; [intros [Hv _]; by apply valid_escape|done]. Qed.
Lemma valid_hexes v : from_option valid_text True (hex_of <$> v).
Proof. destruct v; [apply valid_hex|done]. Qed.
#[local] Hint Resolve valid_attribute valid_optional valid_hex valid_hexes valid_escaped valid_escape valid_address
  individual_chars group_chars digits_address : keyring.
Ltac valid_parts := repeat match goal with |- valid_text (_ +:+ _) => apply valid_app | |- _ => by apply valid_ascii end.
Ltac valid := valid_parts; auto with keyring lia.
Lemma valid_serialized k : keyring_ok k → valid_text (serialize_text k).
Proof.
  intros (Hm & Hi & Hd & Hg). rewrite text_parts. unfold file_start, XML_HEADER, file_end. rewrite <-metadata_text.
  valid_parts.
  - destruct Hm. unfold serialize_metadata. valid.
  - eapply valid_each; [|exact Hi]. intros i [? ? ? [? _] Hu ? ? ?]. unfold serialize_interface, u8_ok in *. valid.
  - eapply valid_each; [|exact Hd]. intros d []. unfold serialize_device. valid.
  - eapply valid_each; [|exact Hg]. intros g []. unfold serialize_group_address. valid.
Qed.
Lemma serialized_reads_back utf8_error k : keyring_ok k →
  KeyringParser_parse_bytes utf8_error (KeyringParser_serialize k) =
  Ok (MkKeyringConfig (unsigned (kc_metadata k)) (kc_interfaces k) (kc_devices k) (kc_group_addresses k)).
Proof.
  intros Hk. unfold KeyringParser_parse_bytes, parse_xml_keyring, KeyringParser_serialize.
  rewrite (valid_serialized k Hk), utf8_str_bytes.
  by rewrite read_metadata, read_interfaces, read_devices, read_groups.
Qed.
End roundtrip.

(** * Properties *)

(** C23: Reading back what was written.  A keyring whose texts do not end with [=]
    and whose interface types have no special characters, written as XML and
    parsed, is the same keyring, with every interface, device and group address
    in order and every key and text, less the signature, which is not written. *)
Theorem keyring_roundtrip `{HexLaws} utf8_error k : keyring_ok k →
  KeyringParser_parse_bytes utf8_error (KeyringParser_serialize k) =
  Ok (MkKeyringConfig (unsigned (kc_metadata k)) (kc_interfaces k) (kc_devices k) (kc_group_addresses k)).
Proof. apply serialized_reads_back. Qed.

(** The loops of the reader end: as many passes as the text has characters are
    enough, whatever the text, since every pass moves past a tag. *)
Theorem keyring_reader_terminates `{HexCrate} fuel xml : (String.length xml < fuel)%nat →
  parse_elements "<Interface" "</Interface>" parse_single_interface fuel xml = parse_xml_interfaces xml ∧
  parse_elements "<Device" "</Device>" parse_single_device fuel xml = parse_xml_devices xml ∧
  parse_elements "<GroupAddress" "</GroupAddress>" parse_single_group_address fuel xml = parse_xml_group_addresses xml.
Proof. intros Hf. split_and!; (apply parse_elements_enough; [done|done|lia]). Qed.

(** Any bytes at all are a keyring, an empty one if nothing is recognised, as
    soon as they are UTF-8; otherwise the reader fails, never having read the
    binary format it falls back to. *)
Theorem keyring_parse_total `{HexCrate} utf8_error data :
  (utf8_valid data = true ∧ ∃ k, KeyringParser_parse_bytes utf8_error data = Ok k ∧ signature (kc_metadata k) = None) ∨
  (utf8_valid data = false ∧ KeyringParser_parse_bytes utf8_error data =
     Err (parse_error "keyring data" "Unable to parse keyring data as XML or binary format")).
Proof.
  unfold KeyringParser_parse_bytes, parse_xml_keyring. destruct (utf8_valid data); [left|right]; (split; [done|]).
  - eexists. split; [done|]. cbn. unfold parse_metadata. by repeat case_match.
  - unfold parse_binary_keyring. destruct (length data <? 16)%nat eqn:El; [done|]. apply Nat.ltb_ge in El.
    destruct (slice data 0 4) as [m|e|] eqn:Es; cbn; [by destruct (bool_decide _)| |].
    + unfold slice in Es. by repeat case_match.
    + exfalso. by apply (slice_no_panic (E:=KnxError) data 0 4); [lia..|].
Qed.

(** A text that ends with [=] can hide the attribute after it: the creator
    ends with the name of the project attribute, whose pattern is then found at
    the creator's closing quote, so the project reads back as something else.
    And the type of an interface is written as it is: a quote in it ends it. *)
Theorem keyring_text_captured `{HexCrate} utf8_error :
  let k c p l := MkKeyringConfig (MkKeyringMetadata None (Some c) (Some p) None) l [] [] in
  let i := MkKeyringInterface (MkIndividualAddress 0x1101) ("a" +:+ quote +:+ "b") EmptyString 1 in
  (∃ config, KeyringParser_parse_bytes utf8_error (KeyringParser_serialize (k "Project=" "House" [])) = Ok config ∧
     project (kc_metadata config) = Some " Project=") ∧
  ∀ key, hex_encode (key_bytes key) = EmptyString →
    ∃ config, KeyringParser_parse_bytes utf8_error (KeyringParser_serialize (k "c" "p" [i key None None])) = Ok config ∧
      ki_interface_type <$> kc_interfaces config = ["a"].
Proof.
  cbv zeta. split; [by eexists|]. intros key Hk. eexists. split.
  - unfold KeyringParser_serialize, serialize_text, serialize_interface, hex_of, SecurityKey_as_bytes.
    cbn [kc_interfaces each foldr ki_user_password]. rewrite Hk. reflexivity.
  - reflexivity.
Qed.

(** ** Witnesses

    An implementation of the crate. *)
Definition hex_digit (n : Z) : ascii := ascii_of_nat (Z.to_nat (if n <? 10 then n + 48 else n + 87)).
Fixpoint toy_encode (l : list Z) : string :=
  match l with [] => EmptyString | b :: l => String (hex_digit (b mod 256 / 16)) (String (hex_digit (b mod 16)) (toy_encode l)) end.
Fixpoint toy_decode (s : string) : outcome string (list Z) :=
  match s with
  | EmptyString => Ok []
  | String a (String b s) =>
      match hex_value a, hex_value b with
      | Some x, Some y => l ← toy_decode s; Ok (x * 16 + y :: l)
      | _, _ => Err "Invalid character"
      end
  | _ => Err "Odd number of digits"
  end.
#[global] Instance toy_hex : HexCrate := {| hex_decode := toy_decode; hex_encode := toy_encode |}.
Lemma toy_digits b : u8_ok b →
  hex_value (hex_digit (b mod 256 / 16)) = Some (b / 16) ∧ hex_value (hex_digit (b mod 16)) = Some (b mod 16).
Proof.
  intros Hb. exhaust 256%positive (λ b, hex_value (hex_digit (b mod 256 / 16)) = Some (b / 16) ∧
    hex_value (hex_digit (b mod 16)) = Some (b mod 16)) b Hb.
Qed.
#[global] Instance toy_hex_laws : HexLaws.
Proof.
  split; cbn.
  - induction 1 as [|b l Hb Hl IH]; [done|]. cbn [toy_encode toy_decode]. destruct (toy_digits b Hb) as [-> ->].
    rewrite IH. cbn. f_equal. f_equal. rewrite Z.mul_comm. symmetry. apply Z.div_mod. lia.
  - induction l as [|b l IH]; [done|]. cbn [toy_encode str_all]. rewrite IH.
    destruct (toy_digits (b mod 256)) as [H1 H2]; [unfold u8_ok; pose proof (Z.mod_pos_bound b 256); lia|].
    rewrite Z.mod_mod in H1 by lia. rewrite H1.
    rewrite Z.mod_mod_divide in H2 by by exists 16.
    by rewrite H2, !bool_decide_true.
Qed.
Definition sample_keyring : KeyringConfig :=
  MkKeyringConfig (MkKeyringMetadata (Some "2024-01-01") (Some "A & B") (Some "<House>") (Some [1]))
    [MkKeyringInterface (MkIndividualAddress 0x1101) "Tunneling" "10.0.0.1" 5 (MkSecurityKey [0xDE; 0xAD]) None (Some (MkSecurityKey []))]
    [MkKeyringDevice (MkIndividualAddress 0x1102) (Some "00FA") None None (Some (MkSecurityKey [7]))]
    [MkKeyringGroupAddress (MkGroupAddress 0x0A03) (MkSecurityKey [1; 2; 3]) (Some "hall 'lamp'")].
Lemma sample_keyring_ok : keyring_ok sample_keyring.
Proof.
  repeat first [split|constructor]; cbn; try done; try by apply (bool_decide_unpack _).
Qed.
Lemma keyring_roundtrip_witness : KeyringParser_parse_bytes (λ _, EmptyString) (KeyringParser_serialize sample_keyring) =
  Ok (MkKeyringConfig (unsigned (kc_metadata sample_keyring)) (kc_interfaces sample_keyring)
    (kc_devices sample_keyring) (kc_group_addresses sample_keyring)).
Proof. apply (keyring_roundtrip (λ _, EmptyString) sample_keyring). apply sample_keyring_ok. Defined.
Lemma keyring_reader_terminates_witness :
  parse_elements "<Interface" "</Interface>" parse_single_interface 20 "<Interface /><Inter" = parse_xml_interfaces "<Interface /><Inter".
Proof. apply (keyring_reader_terminates 20 "<Interface /><Inter"). cbn. lia. Defined.
