(* ===== verification/Config.v ===== *)
(** Configurations and their validation ([src/src/config/mod.rs],
    [src/src/config/validation.rs]). *)
From stdpp Require Import gmap.
From S2P Require Import Prelude Errors Address Text Crypto DataSecure Keyring.

(** * Validation results *)
Inductive ValidationCategory := Addressing | SecurityCategory | GroupAddressCategory.
(** [ValidationError] and [ValidationWarning] have the same fields. *)
Record ValidationIssue := MkValidationIssue {
  vi_category : ValidationCategory;
  vi_message : string;
  vi_context : option string;
}.
Record ValidationResult := MkValidationResult {
  is_valid : bool;
  errors : list ValidationIssue;
  warnings : list ValidationIssue;
}.
Definition ValidationResult_is_ok (r : ValidationResult) : bool := is_valid r.
Definition ValidationResult_error_count (r : ValidationResult) : nat := length (errors r).
Definition ValidationResult_warning_count (r : ValidationResult) : nat := length (warnings r).
Definition ValidationResult_error_messages (r : ValidationResult) : list string := vi_message <$> errors r.
Definition ValidationResult_warning_messages (r : ValidationResult) : list string := vi_message <$> warnings r.

(** [result.errors.push], [result.warnings.push]. *)
Definition push_error_if (b : bool) (e : ValidationIssue) (r : ValidationResult) : ValidationResult :=
  if b then MkValidationResult (is_valid r) (errors r ++ [e]) (warnings r) else r.
Definition push_warning_if (b : bool) (e : ValidationIssue) (r : ValidationResult) : ValidationResult :=
  if b then MkValidationResult (is_valid r) (errors r) (warnings r ++ [e]) else r.

(** * The validator *)
Definition on_interface (i : KeyringInterface) : option string := Some ("Interface: " +:+ ki_host i).
Definition validate_interface (s : gset IndividualAddress * ValidationResult) (i : KeyringInterface)
    : gset IndividualAddress * ValidationResult :=
  let '(individual_addresses, result) := s in
  let duplicate := bool_decide (ki_individual_address i ∈ individual_addresses) in
  let result := push_error_if duplicate (MkValidationIssue Addressing
    ("Duplicate individual address " +:+ IndividualAddress_display (ki_individual_address i) +:+ " in interfaces")
    (on_interface i)) result in
  let result := push_error_if ((ki_user_id i =? 0) || (127 <? ki_user_id i)) (MkValidationIssue SecurityCategory
    ("Invalid user ID " +:+ dec (ki_user_id i) +:+ " (must be 1-127)") (on_interface i)) result in
  let result := push_error_if (SecurityKey_is_empty (ki_user_password i))
    (MkValidationIssue SecurityCategory "Empty user password" (on_interface i)) result in
  ({[ki_individual_address i]} ∪ individual_addresses, result).
Definition validate_device (s : gset IndividualAddress * ValidationResult) (d : KeyringDevice)
    : gset IndividualAddress * ValidationResult :=
  let '(individual_addresses, result) := s in
  ({[kd_individual_address d]} ∪ individual_addresses,
   push_error_if (bool_decide (kd_individual_address d ∈ individual_addresses)) (MkValidationIssue Addressing
     ("Duplicate individual address " +:+ IndividualAddress_display (kd_individual_address d) +:+ " in devices")
     (kd_serial_number d)) result).
Definition validate_group (s : gset GroupAddress * ValidationResult) (g : KeyringGroupAddress)
    : gset GroupAddress * ValidationResult :=
  let '(group_addresses, result) := s in
  let result := push_warning_if (bool_decide (kg_address g ∈ group_addresses)) (MkValidationIssue GroupAddressCategory
    ("Duplicate group address " +:+ GroupAddress_display (kg_address g)) (kg_description g)) result in
  let result := push_error_if (SecurityKey_is_empty (kg_key g)) (MkValidationIssue SecurityCategory
    ("Empty security key for group address " +:+ GroupAddress_display (kg_address g)) (kg_description g)) result in
  ({[kg_address g]} ∪ group_addresses, result).
Definition validate_keyring (keyring : KeyringConfig) (result : ValidationResult) : ValidationResult :=
  let '(individual_addresses, result) := foldl validate_interface (∅, result) (kc_interfaces keyring) in
  let '(_, result) := foldl validate_device (individual_addresses, result) (kc_devices keyring) in
  let '(_, result) := foldl validate_group (∅, result) (kc_group_addresses keyring) in
  result.

(** * Configurations *)
Inductive ConfigFormat := Unknown | KeyringFormat.
Record ConfigMetadata := MkConfigMetadata {
  source_path : option string;
  format : ConfigFormat;
  parsed_at : option Z;
}.
Record ConfigurationData := MkConfiguration {
  keyring : option KeyringConfig;
  metadata : ConfigMetadata;
}.
Definition ConfigMetadata_default : ConfigMetadata := MkConfigMetadata None Unknown None.
Definition Configuration_new : ConfigurationData := MkConfiguration None ConfigMetadata_default.
Definition validation_error (details : string) : KnxError := Configuration (ValidationError details).
Definition Configuration_from_bytes `{HexCrate} (utf8_error : list Z → string) (now : Z) (data : list Z)
    (fmt : ConfigFormat) : result ConfigurationData :=
  match fmt with
  | KeyringFormat =>
      k ← KeyringParser_parse_bytes utf8_error data;
      Ok (MkConfiguration (Some k) (MkConfigMetadata None fmt (Some now)))
  | Unknown => Err (validation_error "Cannot parse configuration with unknown format")
  end.
Definition Configuration_to_bytes `{HexCrate} (c : ConfigurationData) (fmt : ConfigFormat) : result (list Z) :=
  match fmt with
  | KeyringFormat =>
      match keyring c with
      | Some k => Ok (KeyringParser_serialize k)
      | None => Err (validation_error "No keyring data to serialize")
      end
  | Unknown => Err (validation_error "Cannot serialize configuration with unknown format")
  end.
Definition ConfigValidator_validate (config : ConfigurationData) : ValidationResult :=
  let result := MkValidationResult true [] [] in
  let result := match keyring config with Some k => validate_keyring k result | None => result end in
  MkValidationResult (bool_decide (errors result = [])) (errors result) (warnings result).
Definition Configuration_validate (c : ConfigurationData) : ValidationResult := ConfigValidator_validate c.

(** * Specification *)

(** The issues of a list of entries, each looked at with the entries before it. *)
Fixpoint issues_from {A} (f : list A → A → list ValidationIssue) (earlier l : list A) : list ValidationIssue :=
  match l with [] => [] | x :: l => f earlier x ++ issues_from f (earlier ++ [x]) l end.
Definition issue_if {P} `{Decision P} (e : ValidationIssue) : list ValidationIssue := if decide P then [e] else [].
Arguments issue_if P {_} e.

Definition bad_user (i : KeyringInterface) : Prop := ki_user_id i = 0 ∨ 127 < ki_user_id i.
#[global] Instance bad_user_dec i : Decision (bad_user i).
Proof. unfold bad_user. apply _. Defined.
Definition interface_faults (i : KeyringInterface) : list ValidationIssue :=
  issue_if (bad_user i) (MkValidationIssue SecurityCategory
    ("Invalid user ID " +:+ dec (ki_user_id i) +:+ " (must be 1-127)") (Some ("Interface: " +:+ ki_host i))) ++
  issue_if (key_bytes (ki_user_password i) = []) (MkValidationIssue SecurityCategory "Empty user password" (Some ("Interface: " +:+ ki_host i))).
Definition interface_issues (earlier : list KeyringInterface) (i : KeyringInterface) : list ValidationIssue :=
  issue_if (ki_individual_address i ∈ ki_individual_address <$> earlier) (MkValidationIssue Addressing
    ("Duplicate individual address " +:+ IndividualAddress_display (ki_individual_address i) +:+ " in interfaces")
    (Some ("Interface: " +:+ ki_host i))) ++ interface_faults i.
Definition device_issues (interfaces : list KeyringInterface) (earlier : list KeyringDevice) (d : KeyringDevice) : list ValidationIssue :=
  issue_if (kd_individual_address d ∈ (ki_individual_address <$> interfaces) ++ (kd_individual_address <$> earlier)) (MkValidationIssue Addressing
    ("Duplicate individual address " +:+ IndividualAddress_display (kd_individual_address d) +:+ " in devices") (kd_serial_number d)).
Definition group_errors (_ : list KeyringGroupAddress) (g : KeyringGroupAddress) : list ValidationIssue :=
  issue_if (key_bytes (kg_key g) = []) (MkValidationIssue SecurityCategory
    ("Empty security key for group address " +:+ GroupAddress_display (kg_address g)) (kg_description g)).
Definition group_warnings (earlier : list KeyringGroupAddress) (g : KeyringGroupAddress) : list ValidationIssue :=
  issue_if (kg_address g ∈ kg_address <$> earlier) (MkValidationIssue GroupAddressCategory
    ("Duplicate group address " +:+ GroupAddress_display (kg_address g)) (kg_description g)).

(** * Lemmas *)
Lemma issue_if_nil P `{Decision P} e : issue_if P e = [] ↔ ¬ P.
Proof. unfold issue_if. by destruct (decide P). Qed.
Lemma push_error_issue P `{Decision P} b e r : b = bool_decide P →
  push_error_if b e r = MkValidationResult (is_valid r) (errors r ++ issue_if P e) (warnings r).
Proof. intros ->. unfold push_error_if, issue_if. case_bool_decide; [by rewrite decide_True|]. rewrite decide_False, app_nil_r by done. by destruct r. Qed.
Lemma push_warning_issue P `{Decision P} b e r : b = bool_decide P →
  push_warning_if b e r = MkValidationResult (is_valid r) (errors r) (warnings r ++ issue_if P e).
Proof. intros ->. unfold push_warning_if, issue_if. case_bool_decide; [by rewrite decide_True|]. rewrite decide_False, app_nil_r by done. by destruct r. Qed.
Lemma bad_user_test i : (ki_user_id i =? 0) || (127 <? ki_user_id i) = bool_decide (bad_user i).
Proof. apply eq_true_iff_eq. rewrite bool_decide_eq_true, orb_true_iff, Z.eqb_eq, Z.ltb_lt. done. Qed.
Lemma empty_key_test k : SecurityKey_is_empty k = bool_decide (key_bytes k = []).
Proof. unfold SecurityKey_is_empty. destruct k as [[|b l]]; [done|]. by rewrite bool_decide_false. Qed.
Lemma seen_test {A B} `{Countable B} (key : A → B) (before : list B) (earlier : list A) x :
  bool_decide (x ∈@{gset B} list_to_set (before ++ (key <$> earlier))) = bool_decide (x ∈ before ++ (key <$> earlier)).
Proof. apply bool_decide_ext. by rewrite elem_of_list_to_set. Qed.
Lemma seen_step {A B} `{Countable B} (key : A → B) (before : list B) (earlier : list A) x :
  {[key x]} ∪ list_to_set (before ++ (key <$> earlier)) =@{gset B} list_to_set (before ++ (key <$> earlier ++ [x])).
Proof. set_solver. Qed.

Lemma interfaces_run earlier l r :
  foldl validate_interface (list_to_set ([] ++ (ki_individual_address <$> earlier)), r) l =
  (list_to_set (ki_individual_address <$> earlier ++ l),
   MkValidationResult (is_valid r) (errors r ++ issues_from interface_issues earlier l) (warnings r)).
Proof.
  revert earlier r. induction l as [|i l IH]; intros earlier r; cbn [foldl issues_from].
  { rewrite !app_nil_r. by destruct r. }
  unfold validate_interface at 2. cbv zeta.
  rewrite (push_error_issue _ _ _ _ (seen_test ki_individual_address [] earlier _)), (push_error_issue _ _ _ _ (bad_user_test i)),
    (push_error_issue _ _ _ _ (empty_key_test _)), seen_step, IH.
  cbn [is_valid errors warnings]. unfold interface_issues at 2, interface_faults. by rewrite <-!app_assoc.
Qed.
Lemma devices_run interfaces earlier l r :
  (foldl validate_device (list_to_set ((ki_individual_address <$> interfaces) ++ (kd_individual_address <$> earlier)), r) l).2 =
  MkValidationResult (is_valid r) (errors r ++ issues_from (device_issues interfaces) earlier l) (warnings r).
Proof.
  revert earlier r. induction l as [|d l IH]; intros earlier r; cbn [foldl issues_from].
  { rewrite !app_nil_r. by destruct r. }
  unfold validate_device at 2. rewrite (push_error_issue _ _ _ _ (seen_test kd_individual_address _ earlier _)), seen_step, IH.
  cbn [is_valid errors warnings]. by rewrite <-!app_assoc.
Qed.
Lemma groups_run earlier l r :
  (foldl validate_group (list_to_set ([] ++ (kg_address <$> earlier)), r) l).2 =
  MkValidationResult (is_valid r) (errors r ++ issues_from group_errors earlier l) (warnings r ++ issues_from group_warnings earlier l).
Proof.
  revert earlier r. induction l as [|g l IH]; intros earlier r; cbn [foldl issues_from].
  { rewrite !app_nil_r. by destruct r. }
  unfold validate_group at 2. cbv zeta.
  rewrite (push_warning_issue _ _ _ _ (seen_test kg_address [] earlier _)), (push_error_issue _ _ _ _ (empty_key_test _)), seen_step, IH.
  cbn [is_valid errors warnings]. by rewrite <-!app_assoc.
Qed.
Lemma validate_keyring_run k r :
  validate_keyring k r = MkValidationResult (is_valid r)
    (errors r ++ issues_from interface_issues [] (kc_interfaces k) ++
      issues_from (device_issues (kc_interfaces k)) [] (kc_devices k) ++ issues_from group_errors [] (kc_group_addresses k))
    (warnings r ++ issues_from group_warnings [] (kc_group_addresses k)).
Proof.
  unfold validate_keyring. pose proof (interfaces_run [] (kc_interfaces k) r) as Hi. cbn [fmap list_fmap app list_to_set] in Hi. rewrite Hi.
  pose proof (devices_run (kc_interfaces k) [] (kc_devices k)
    (MkValidationResult (is_valid r) (errors r ++ issues_from interface_issues [] (kc_interfaces k)) (warnings r))) as Hd.
  cbn [fmap list_fmap] in Hd. rewrite app_nil_r in Hd. destruct (foldl validate_device _ _) as [S2 r2]. cbn [snd] in Hd. subst r2.
  match goal with |- context [foldl validate_group (∅, ?r2) ?l] => pose proof (groups_run [] l r2) as Hg end.
  cbn [fmap list_fmap app list_to_set] in Hg. destruct (foldl validate_group _ _) as [S3 r3]. cbn [snd] in Hg. subst r3.
  cbn [is_valid errors warnings]. by rewrite <-!app_assoc.
Qed.

(** When a list of entries has no issue. *)
Lemma no_issues {A B} `{EqDecision B} (key : A → B) (before : list B) (dup : A → ValidationIssue) (faults : A → list ValidationIssue) f earlier l :
  (∀ earlier x, f earlier x = issue_if (key x ∈ before ++ (key <$> earlier)) (dup x) ++ faults x) →
  issues_from f earlier l = [] ↔
  NoDup (key <$> l) ∧ (∀ x, x ∈ l → key x ∉ before ++ (key <$> earlier)) ∧ Forall (λ x, faults x = []) l.
Proof.
  intros Hf. revert earlier. induction l as [|x l IH]; intros earlier; cbn [issues_from fmap list_fmap].
  { split; [|done]. intros _. split_and!; [constructor|by intros x Hx%elem_of_nil|done]. }
  rewrite Hf, app_nil, app_nil, issue_if_nil, IH, NoDup_cons, Forall_cons, fmap_app. cbn [fmap list_fmap].
  set_unfold. naive_solver.
Qed.
Lemma no_group_errors earlier l : issues_from group_errors earlier l = [] ↔ Forall (λ g, key_bytes (kg_key g) ≠ []) l.
Proof.
  revert earlier. induction l as [|g l IH]; intros earlier; cbn [issues_from]; [by split|].
  rewrite app_nil, IH, Forall_cons. unfold group_errors at 1. by rewrite issue_if_nil.
Qed.
Lemma no_interface_faults l : Forall (λ i, interface_faults i = []) l ↔
  Forall (λ i, ki_user_id i ≠ 0 ∧ ki_user_id i ≤ 127) l ∧ Forall (λ i, key_bytes (ki_user_password i) ≠ []) l.
Proof.
  rewrite <-Forall_and. apply Forall_iff. intros i. unfold interface_faults. rewrite app_nil, !issue_if_nil. unfold bad_user. naive_solver lia.
Qed.

(** * Properties *)

(** C27: What the validator finds.  Its errors are, in order: for each interface
    the repetition of the address of an earlier one, a user number outside 1 to
    127 and an empty password; for each device the repetition of the address of
    an interface or an earlier device; for each group address an empty key; every
    one with its category and a message and context that name the entry.  Its
    warnings are the group addresses that repeat an earlier one, in order.  So a
    keyring is valid exactly if no individual address occurs twice among its
    interfaces and devices, every user number is between 1 and 127, and no user
    password and no group key is empty. *)
Theorem validate_exact k m :
  let r := ConfigValidator_validate (MkConfiguration (Some k) m) in
  errors r = issues_from interface_issues [] (kc_interfaces k) ++
    issues_from (device_issues (kc_interfaces k)) [] (kc_devices k) ++ issues_from group_errors [] (kc_group_addresses k) ∧
  warnings r = issues_from group_warnings [] (kc_group_addresses k) ∧
  (is_valid r = true ↔
     NoDup ((ki_individual_address <$> kc_interfaces k) ++ (kd_individual_address <$> kc_devices k)) ∧
     Forall (λ i, ki_user_id i ≠ 0 ∧ ki_user_id i ≤ 127) (kc_interfaces k) ∧
     Forall (λ i, key_bytes (ki_user_password i) ≠ []) (kc_interfaces k) ∧
     Forall (λ g, key_bytes (kg_key g) ≠ []) (kc_group_addresses k)).
Proof.
  cbv zeta. unfold ConfigValidator_validate. cbn [keyring]. rewrite validate_keyring_run. cbn [is_valid errors warnings app].
  split; [done|]. split; [done|]. rewrite bool_decide_eq_true, !app_nil, no_group_errors.
  rewrite (no_issues ki_individual_address [] _ interface_faults interface_issues), no_interface_faults by done.
  rewrite (no_issues kd_individual_address (ki_individual_address <$> kc_interfaces k) _ (λ _, []) (device_issues (kc_interfaces k)))
    by (intros; by rewrite app_nil_r).
  rewrite NoDup_app. cbn [fmap list_fmap app]. rewrite app_nil_r.
  assert (Forall (λ _ : KeyringDevice, [] =@{list ValidationIssue} []) (kc_devices k)) by (by apply Forall_true).
  set_solver.
Qed.

(** A missing password does not count as an empty one: the reader puts sixteen
    zero bytes in its place, which the validator accepts. *)
Theorem missing_password_accepted `{HexCrate} xml i :
  parse_single_interface xml = Ok i → key_attribute xml "UserPassword" = None →
  key_bytes (ki_user_password i) = replicate 16 0 ∧ SecurityKey_is_empty (ki_user_password i) = false.
Proof.
  unfold parse_single_interface. intros Hi Hp. rewrite Hp in Hi.
  destruct (ok_or _ _) as [a|e|] eqn:Ea; [|done..]. cbn in Hi. injection Hi as <-. done.
Qed.

(** ** Witnesses *)
Lemma missing_password_accepted_witness : ∃ i : KeyringInterface,
  key_bytes (ki_user_password i) = replicate 16 0 ∧ SecurityKey_is_empty (ki_user_password i) = false.
Proof.
  exists (MkKeyringInterface (MkIndividualAddress 0x1101) "Unknown" "0.0.0.0" 1 (MkSecurityKey (replicate 16 0)) None None).
  apply (missing_password_accepted ("<Interface" +:+ attribute "IndividualAddress" "1.1.1" +:+ " />")); reflexivity.
Defined.
