(* ===== verification/ConfigFile.v ===== *)
(** Configuration files ([Configuration::from_file] of [src/src/config/mod.rs] and
    [KeyringParser::parse_file] of [src/src/config/keyring.rs]).

    A path is its text, on a system that separates with slashes; the file system
    is a function from paths to contents or an error. *)
From S2P Require Import Prelude Errors Address Text Crypto DataSecure Keyring Config.

(** * Paths *)

(** [Path::file_name]: the last component, unless that is [..]; empty components
    and [.] are none. *)
Definition is_component (x : string) : bool := negb (String.eqb x EmptyString) && negb (String.eqb x ".").
Definition file_name (path : string) : option string :=
  match last (filter (λ x, is_component x = true) (str_split "/"%char path)) with
  | Some x => if String.eqb x ".." then None else Some x
  | None => None
  end.
(** Cutting at the last occurrence. *)
Fixpoint rsplit_once (c : ascii) (s : string) : option (string * string) :=
  match s with
  | EmptyString => None
  | String a t =>
      match rsplit_once c t with
      | Some (x, y) => Some (String a x, y)
      | None => if Ascii.eqb a c then Some (EmptyString, t) else None
      end
  end.
(** [Path::extension]: what follows the last dot of the name, unless the name
    begins with that dot. *)
Definition extension (path : string) : option string :=
  name ← file_name path;
  '(before, after) ← rsplit_once "."%char name;
  if String.eqb before EmptyString then None else Some after.

(** [str::to_lowercase] on texts compared with ASCII letters: besides the ASCII
    capitals only the Kelvin sign (E2 84 AA) becomes such a letter, a k. *)
Fixpoint lower_kelvin (s : string) : string :=
  match s with
  | EmptyString => EmptyString
  | String a t =>
      match t with
      | String b (String c u) =>
          if (nat_of_ascii a =? 0xE2)%nat && (nat_of_ascii b =? 0x84)%nat && (nat_of_ascii c =? 0xAA)%nat
          then String "k" (lower_kelvin u) else String a (lower_kelvin t)
      | _ => String a (lower_kelvin t)
      end
  end.
Definition to_lowercase (s : string) : string := to_ascii_lowercase (lower_kelvin s).

(** * Reading *)
Section files.
Context `{HexCrate} (utf8_error : list Z → string).
(** [tokio::fs::read]. *)
Context (read : string → io_error + list Z).

Definition KeyringParser_parse_file (path : string) : result KeyringConfig :=
  data ← match read path with
         | inr data => Ok data
         | inl e => Err (parse_error "keyring file" ("Failed to read keyring file: " +:+ io_text e))
         end;
  KeyringParser_parse_bytes utf8_error data.

Definition Configuration_from_file (now : Z) (path : string) : result ConfigurationData :=
  let ext := default EmptyString (extension path) in
  if String.eqb (to_lowercase ext) "knxkeys" then
    keyring ← KeyringParser_parse_file path;
    Ok (MkConfiguration (Some keyring) (MkConfigMetadata (Some path) KeyringFormat (Some now)))
  else Err (parse_error path ("Unsupported configuration file format: " +:+ ext)).
End files.

(** * Lemmas *)
Lemma str_split_middle c d q : str_split c (d +:+ (String c EmptyString +:+ q)) = str_split c d ++ str_split c q.
Proof.
  induction d as [|a d IH].
  - rewrite append_nil, append_lit. cbn [str_split]. by rewrite Ascii.eqb_refl.
  - rewrite append_cons. cbn [str_split]. rewrite IH. destruct (Ascii.eqb a c); [done|]. pose proof (str_split_nonempty c d). by destruct (str_split c d).
Qed.
Lemma rsplit_once_last c x y : str_contains c y = false → rsplit_once c (x +:+ (String c EmptyString +:+ y)) = Some (x, y).
Proof.
  intros Hy. assert (rsplit_once c y = None) as Hn.
  { revert Hy. induction y as [|a y IH]; cbn; [done|]. intros [Ha Hy]%orb_false_elim. by rewrite IH, Ha. }
  induction x as [|a x IH].
  - rewrite append_nil, append_lit. cbn [rsplit_once]. by rewrite Hn, Ascii.eqb_refl.
  - rewrite append_cons. cbn [rsplit_once]. by rewrite IH.
Qed.

(** A directory: nothing, or a text that ends with a slash. *)
Definition directory (dir : string) : Prop := dir = EmptyString ∨ ∃ d, dir = d +:+ String "/" EmptyString.
Lemma file_name_in dir base :
  directory dir → str_contains "/" base = false → is_component base = true → base ≠ ".." → file_name (dir +:+ base) = Some base.
Proof.
  intros Hd Hs Hc Hne. unfold file_name.
  assert (last (filter (λ x, is_component x = true) (str_split "/"%char (dir +:+ base))) = Some base) as ->.
  { destruct Hd as [->|[d ->]].
    - rewrite append_nil, str_split_none, filter_cons_True by done. done.
    - rewrite append_assoc, str_split_middle, (str_split_none _ base) by done.
      rewrite filter_app, filter_cons_True, filter_nil by done. apply last_snoc. }
  by rewrite (proj2 (String.eqb_neq _ _) Hne).
Qed.
Lemma named_base name ext x : name ≠ EmptyString → ext ≠ EmptyString → (String.length x ≤ 2)%nat →
  name +:+ (String "." EmptyString +:+ ext) ≠ x.
Proof.
  intros Hn He Hx <-. destruct name as [|a name]; [done|]. destruct ext as [|b ext]; [done|].
  rewrite append_cons, append_lit in Hx. cbn in Hx. rewrite length_append in Hx. cbn in Hx. lia.
Qed.
Lemma extension_in dir name ext :
  directory dir → str_contains "/" name = false → str_contains "/" ext = false → str_contains "." ext = false → name ≠ EmptyString →
  ext ≠ EmptyString → extension (dir +:+ (name +:+ (String "." EmptyString +:+ ext))) = Some ext.
Proof.
  intros Hd Hn He Hdot Hne Hee. unfold extension. rewrite file_name_in; [|done| | |apply named_base; [done..|cbn; lia]].
  - cbn [mbind option_bind]. rewrite rsplit_once_last by done. cbn. by rewrite (proj2 (String.eqb_neq _ _) Hne).
  - by rewrite !str_contains_app, Hn, He.
  - unfold is_component. rewrite !(proj2 (String.eqb_neq _ _)); [done|apply named_base; [done..|cbn; lia]..].
Qed.

(** * Properties *)

(** A keyring through a file.  Whatever the directory and the name, a keyring
    written to a file whose extension is knxkeys, in letters of any case, is read
    back as the configuration with that keyring, the path it came from and the
    time; a file that cannot be read is reported as such; and a path with no
    extension, such as the bare name .knxkeys, or with another one is refused
    without reading. *)
Theorem keyring_file_roundtrip `{HexLaws} utf8_error read now dir name ext k :
  keyring_ok k → directory dir → name ≠ EmptyString → str_contains "/" name = false →
  str_contains "/" ext = false → str_contains "." ext = false → to_lowercase ext = "knxkeys" →
  let path := dir +:+ (name +:+ (String "." EmptyString +:+ ext)) in
  (read path = inr (KeyringParser_serialize k) →
   Configuration_from_file utf8_error read now path =
     Ok (MkConfiguration (Some (MkKeyringConfig (unsigned (kc_metadata k)) (kc_interfaces k) (kc_devices k) (kc_group_addresses k)))
           (MkConfigMetadata (Some path) KeyringFormat (Some now)))) ∧
  (∀ e, read path = inl e → Configuration_from_file utf8_error read now path =
     Err (parse_error "keyring file" ("Failed to read keyring file: " +:+ io_text e))) ∧
  (∀ p, to_lowercase (default EmptyString (extension p)) ≠ "knxkeys" → Configuration_from_file utf8_error read now p =
     Err (parse_error p ("Unsupported configuration file format: " +:+ default EmptyString (extension p)))) ∧
  extension (dir +:+ (String "." EmptyString +:+ ext)) = None.
Proof.
  intros Hk Hd Hn Hns Hes Hed Hl path. assert (ext ≠ EmptyString) as Hne by (by intros ->).
  assert (default EmptyString (extension path) = ext) as Hx by (unfold path; by rewrite extension_in).
  unfold Configuration_from_file, KeyringParser_parse_file. rewrite Hx, Hl. split_and!.
  - intros Hr. rewrite Hr. cbn [String.eqb mbind outcome_bind]. by rewrite serialized_reads_back.
  - intros e Hr. by rewrite Hr.
  - intros p Hp. by rewrite (proj2 (String.eqb_neq _ _) Hp).
  - unfold extension. rewrite file_name_in.
    + cbn [mbind option_bind]. by rewrite <-(append_nil (String "." EmptyString +:+ ext)), rsplit_once_last.
    + done.
    + rewrite str_contains_app, Hes. done.
    + unfold is_component. rewrite append_lit. destruct ext; [done|]. done.
    + intros E. rewrite append_lit in E. injection E as ->. done.
Qed.

(** ** Witnesses *)
Lemma keyring_file_roundtrip_witness : ∃ c,
  Configuration_from_file (λ _, EmptyString) (λ _, inr (KeyringParser_serialize sample_keyring)) 7 "keys/house.KnxKeys" = Ok c ∧
  source_path (metadata c) = Some "keys/house.KnxKeys".
Proof.
  destruct (keyring_file_roundtrip (λ _, EmptyString) (λ _, inr (KeyringParser_serialize sample_keyring)) 7 "keys/" "house" "KnxKeys"
    sample_keyring sample_keyring_ok ltac:(right; exists "keys"; reflexivity) ltac:(discriminate) ltac:(reflexivity)
    ltac:(reflexivity) ltac:(reflexivity) ltac:(reflexivity)) as [Hr _].
  eexists. split; [exact (Hr eq_refl)|reflexivity].
Defined.
