(* ===== verification/EtsCsv.v ===== *)
(** Group addresses from an ETS export ([src/src/config/ets_csv.rs]) and their
    registration ([register_group_addresses_from_ets] in
    [src/src/application/knx.rs]). *)
From S2P Require Import Prelude Errors Address Telegram Text DptTypes GroupRegistry.

(** * Texts *)
Definition DOUBLE_QUOTE : ascii := ascii_of_nat 34.
Definition TAB : ascii := ascii_of_nat 9.
Definition LF : ascii := ascii_of_nat 10.
Definition CR : ascii := ascii_of_nat 13.
Definition BOM : string := utf8 [0xEF; 0xBB; 0xBF].
(** [str::lines]: a line ends with a line feed, and loses a carriage return
    before it; the last one may go without. *)
Definition strip_cr (s : string) : string := default s (strip_suffix (String CR EmptyString) s).
Fixpoint lines_of (parts : list string) : list string :=
  match parts with
  | [] => []
  | [last] => match last with EmptyString => [] | _ => [last] end
  | line :: parts => strip_cr line :: lines_of parts
  end.
Definition lines (s : string) : list string := lines_of (str_split LF s).
(** [str::trim_matches] of double quotes. *)
Definition trim_quotes (s : string) : string :=
  let q := [String DOUBLE_QUOTE EmptyString] in
  let s := trim_while q (String.length s) s in
  rev_string (trim_while q (String.length s) (rev_string s)).
Definition eq_ignore_ascii_case (a b : string) : bool := String.eqb (to_ascii_lowercase a) (to_ascii_lowercase b).

(** * The parser *)
Record GroupAddressConfig := MkGroupAddressConfig {
  ga_dpt : DptType;
  ga_name : string;
  ga_description : option string;
}.

(** A cell without its quotes and the space around it. *)
Definition cell (s : string) : string := trim (trim_quotes s).
Fixpoint position_from (name : string) (i : nat) (columns : list string) : option nat :=
  match columns with
  | [] => None
  | col :: columns => if eq_ignore_ascii_case (cell col) name then Some i else position_from name (S i) columns
  end.
Fixpoint find_column (columns names : list string) : option nat :=
  match names with
  | [] => None
  | name :: names => match position_from name 0 columns with Some i => Some i | None => find_column columns names end
  end.

Definition parse_group_address (s : string) : option GroupAddress :=
  match str_split "/" s with
  | [p0; p1; p2] =>
      main ← parse_u8 p0; middle ← parse_u8 p1; sub ← parse_u8 p2;
      match GroupAddress_from_parts main middle sub with Ok a => Some a | _ => None end
  | _ => None
  end.
Definition parse_u16 : string → option Z := parse_uint 65535.
Definition parse_dpt_string `{Profile} (s : string) : result (option DptType) :=
  match s with
  | EmptyString => Ok None
  | _ =>
      match strip_prefix "DPST-" s with
      | Some rest =>
          let parts := str_split "-" rest in
          match p ← head parts; parse_u16 p with
          | Some main =>
              let sub := default 1 (p ← parts !! 1%nat; parse_u16 p) in
              DptType.from_number main sub
          | None => Ok None
          end
      | None =>
          match strip_prefix "DPT-" s with
          | Some rest => match parse_u16 rest with Some main => DptType.from_number main 1 | None => Ok None end
          | None => DptType.from_str s
          end
      end
  end.

Definition ets_error (reason : string) : KnxError := Configuration (ConfigurationParseError "ETS CSV" reason).
Record ets_columns := MkEtsColumns { name_col : option nat; addr_col : nat; dpt_col : option nat; desc_col : option nat }.
Definition ets_header (delimiter : ascii) (header : string) : result ets_columns :=
  let columns := str_split delimiter header in
  let name_col := find_column columns ["Group name"; "Name"; "Gruppenname"; "Sub"] in
  let addr_col := find_column columns ["Address"; "Adresse"; "Group Address"] in
  let dpt_col := find_column columns ["DatapointType"; "Datapoint Type"; "DPT"; "Datenpunkttyp"] in
  let desc_col := find_column columns ["Description"; "Beschreibung"] in
  addr_col ← ok_or addr_col (ets_error "no Address column found");
  Ok (MkEtsColumns name_col addr_col dpt_col desc_col).
(** One line after the header; [None] when it is skipped. *)
Definition ets_row `{Profile} (delimiter : ascii) (columns : ets_columns) (line : string)
    : result (option (GroupAddress * GroupAddressConfig)) :=
  let line := trim_end line in
  if String.eqb line EmptyString then Ok None
  else
    let cols := str_split delimiter line in
    let at_col (i : option nat) := i ← i; cols !! i in
    match parse_group_address (default EmptyString (cell <$> cols !! addr_col columns)) with
    | None => Ok None
    | Some address =>
        let name := default EmptyString (cell <$> at_col (name_col columns)) in
        dpt ← parse_dpt_string (default EmptyString (cell <$> at_col (dpt_col columns)));
        match dpt with
        | None => Ok None
        | Some dpt =>
            let description :=
              s ← cell <$> at_col (desc_col columns); if String.eqb s EmptyString then None else Some s in
            Ok (Some (address, MkGroupAddressConfig dpt name description))
        end
    end.
Fixpoint ets_rows `{Profile} (delimiter : ascii) (columns : ets_columns) (lines : list string)
    (map : gmap GroupAddress GroupAddressConfig) : result (gmap GroupAddress GroupAddressConfig) :=
  match lines with
  | [] => Ok map
  | line :: lines =>
      row ← ets_row delimiter columns line;
      ets_rows delimiter columns lines (match row with Some (a, c) => <[a := c]> map | None => map end)
  end.
Definition parse_ets_csv `{Profile} (data : string) : result (gmap GroupAddress GroupAddressConfig) :=
  let data := default data (strip_prefix BOM data) in
  match lines data with
  | [] => Err (ets_error "empty file")
  | header :: rows =>
      let delimiter := if str_contains TAB header then TAB else ";"%char in
      columns ← ets_header delimiter header;
      ets_rows delimiter columns rows ∅
  end.

(** Registering them: the map is iterated in an order of its own. *)
Fixpoint register_ets_entries (entries : list (GroupAddress * GroupAddressConfig)) : eff GroupAddressRegistry KnxError unit :=
  match entries with
  | [] => mret tt
  | (address, config) :: entries =>
      _ ← GroupAddressRegistry_register address (ga_dpt config); register_ets_entries entries
  end.
Definition Knx_register_group_addresses_from_ets
    (iterate : gmap GroupAddress GroupAddressConfig → list (GroupAddress * GroupAddressConfig))
    (configs : gmap GroupAddress GroupAddressConfig) : eff GroupAddressRegistry KnxError unit :=
  register_ets_entries (iterate configs).

(** * What an export looks like

    A header, a line for each group; with either delimiter, either end of line,
    with or without a byte order mark, and with or without quotes around each
    cell.  The header has one of the accepted names for each of the four
    columns. *)
Record ets_format := MkEtsFormat {
  tab_delimited : bool; crlf : bool; with_bom : bool;
  name_header : string; address_header : string; description_header : string; type_header : string;
  header_quotes : bool * bool * bool * bool;
}.
Definition format_ok (f : ets_format) : Prop :=
  name_header f ∈ ["Group name"; "Name"; "Gruppenname"; "Sub"] ∧
  address_header f ∈ ["Address"; "Adresse"; "Group Address"] ∧
  description_header f ∈ ["Description"; "Beschreibung"] ∧
  type_header f ∈ ["DatapointType"; "Datapoint Type"; "DPT"; "Datenpunkttyp"].
Definition delimiter_of (f : ets_format) : ascii := if tab_delimited f then TAB else ";"%char.
Definition eol (f : ets_format) : string := if crlf f then String CR (String LF EmptyString) else String LF EmptyString.
Definition quoted (s : string) : string := String DOUBLE_QUOTE (s +:+ String DOUBLE_QUOTE EmptyString).
Definition written (q : bool) (s : string) : string := if q then quoted s else s.
Definition four (d : ascii) (q : bool * bool * bool * bool) (a b c e : string) : string :=
  let '(qa, qb, qc, qe) := q in
  written qa a +:+ String d (written qb b +:+ String d (written qc c +:+ String d (written qe e))).
Definition header_line (f : ets_format) : string :=
  four (delimiter_of f) (header_quotes f) (name_header f) (address_header f) (description_header f) (type_header f).

(** The spellings of a datapoint type, and what names none. *)
Definition dpst (t : DptType) : string := "DPST-" +:+ dec (DptType.main t) +:+ "-" +:+ dec (DptType.sub t).
Inductive type_text : string → option DptType → Prop :=
| type_dpst t : type_text (dpst t) (Some t)
| type_dpt t : DptType.sub t = 1 → type_text ("DPT-" +:+ dec (DptType.main t)) (Some t)
| type_number t : type_text (DptType.number_str t) (Some t)
| type_plain t : type_text (dec (DptType.main t) +:+ "." +:+ dec (DptType.sub t)) (Some t)
| type_empty : type_text EmptyString None
| type_unknown m n : 0 ≤ m ≤ 42949 → 0 ≤ n < 65536 → (∀ t, ¬ (DptType.main t = m ∧ DptType.sub t = n)) →
    type_text (dec m +:+ "." +:+ dec n) None.

(** A line: the group, the text in the column of the type and the type it names. *)
Record ets_line := MkEtsLine {
  l_address : GroupAddress;
  l_name : string;
  l_description : option string;
  l_type : string;
  l_dpt : option DptType;
  l_quotes : bool * bool * bool * bool;
}.
Definition row_line (d : ascii) (r : ets_line) : string :=
  four d (l_quotes r) (l_name r) (GroupAddress_display (l_address r)) (default EmptyString (l_description r)) (l_type r).
Definition ets_file (f : ets_format) (rows : list ets_line) : string :=
  (if with_bom f then BOM else EmptyString) +:+ header_line f +:+ eol f
  +:+ foldr (λ r s, row_line (delimiter_of f) r +:+ eol f +:+ s) EmptyString rows.
(** The entries of an export: its lines with a known type, later ones first. *)
Definition entry_of (r : ets_line) : option (GroupAddress * GroupAddressConfig) :=
  (λ t, (l_address r, MkGroupAddressConfig t (l_name r) (l_description r))) <$> l_dpt r.
Definition entries (rows : list ets_line) : gmap GroupAddress GroupAddressConfig :=
  foldl (λ m e, <[e.1 := e.2]> m) ∅ (omap entry_of rows).
(** A text without quotes, ends of line and the delimiter, and without white
    space at its ends. *)
Definition cell_ok (d : ascii) (s : string) : Prop :=
  free_of DOUBLE_QUOTE s = true ∧ free_of LF s = true ∧ free_of d s = true ∧ starts_clean s ∧ ends_clean s.
Definition row_ok (d : ascii) (r : ets_line) : Prop :=
  GroupAddress_valid (l_address r) ∧ cell_ok d (l_name r) ∧
  match l_description r with Some s => cell_ok d s ∧ s ≠ EmptyString | None => True end ∧
  type_text (l_type r) (l_dpt r).

(** * Lemmas *)
Abbreviation strip_q := (strip_any [String DOUBLE_QUOTE EmptyString]).
Lemma strip_quote s : strip_q (String DOUBLE_QUOTE s) = Some s.
Proof. by destruct s. Qed.
Lemma strip_no_quote s : free_of DOUBLE_QUOTE s = true → strip_q s = None.
Proof.
  destruct s as [|c s]; [done|]. cbn [free_of str_all]. intros [Hc%negb_true_iff _]%andb_prop. cbn [strip_any strip_prefix].
  by rewrite Ascii.eqb_sym, Hc.
Qed.
Lemma free_rev c s : free_of c (rev_string s) = free_of c s.
Proof.
  induction s as [|d s IH]; [done|]. change (String d s) with (String d EmptyString +:+ s).
  rewrite rev_string_app, !free_of_app, IH. apply andb_comm.
Qed.
Lemma trim_quotes_quoted s : free_of DOUBLE_QUOTE s = true → trim_quotes (quoted s) = s.
Proof.
  intros Hs. destruct s as [|c s]; [reflexivity|]. set (u := String c s) in *. unfold trim_quotes, quoted.
  assert (String.length (String DOUBLE_QUOTE (u +:+ String DOUBLE_QUOTE EmptyString)) = S (String.length (u +:+ String DOUBLE_QUOTE EmptyString))) as -> by done.
  cbn [trim_while]. rewrite strip_quote.
  rewrite (trim_while_clean _ _ (u +:+ String DOUBLE_QUOTE EmptyString)); cycle 1.
  { unfold u in *. cbn [free_of str_all] in Hs. apply andb_prop in Hs as [Hc%negb_true_iff _]. rewrite append_cons.
    cbn [strip_any strip_prefix]. by rewrite Ascii.eqb_sym, Hc. }
  rewrite rev_string_app. change (rev_string (String DOUBLE_QUOTE EmptyString) +:+ rev_string u) with (String DOUBLE_QUOTE (rev_string u)).
  replace (String.length (u +:+ String DOUBLE_QUOTE EmptyString)) with (S (String.length s + 1)).
  - cbn [trim_while]. rewrite strip_quote, trim_while_clean; [apply rev_string_involutive|].
    apply strip_no_quote. by rewrite free_rev.
  - unfold u. rewrite append_cons. cbn. f_equal. clear. induction s as [|d s IH]; [done|]. rewrite append_cons. cbn. by rewrite <-IH.
Qed.
Lemma trim_quotes_free s : free_of DOUBLE_QUOTE s = true → trim_quotes s = s.
Proof.
  intros Hs. unfold trim_quotes. cbv zeta. rewrite !(trim_while_clean _ _ s) by by apply strip_no_quote.
  rewrite trim_while_clean; [apply rev_string_involutive|]. apply strip_no_quote. by rewrite free_rev.
Qed.
Lemma cell_written d q s : cell_ok d s → cell (written q s) = s.
Proof.
  intros (Hq & _ & _ & Hs & He). unfold cell, written. destruct q; rewrite ?trim_quotes_quoted, ?trim_quotes_free by done; by apply trim_clean.
Qed.
Lemma free_written c q s : Ascii.eqb DOUBLE_QUOTE c = false → free_of c s = true → free_of c (written q s) = true.
Proof.
  intros Hc Hs. destruct q; [|done]. unfold written, quoted. cbn [free_of str_all]. rewrite Hc. cbn [negb andb].
  change (free_of c (s +:+ String DOUBLE_QUOTE EmptyString) = true). rewrite free_of_app, Hs. cbn. by rewrite Hc.
Qed.
Lemma free_cons c d s : free_of c (String d s) = negb (Ascii.eqb d c) && free_of c s.
Proof. done. Qed.
Lemma split_four d q a b c e : Ascii.eqb DOUBLE_QUOTE d = false →
  free_of d a = true → free_of d b = true → free_of d c = true → free_of d e = true →
  str_split d (four d q a b c e) = let '(qa, qb, qc, qe) := q in [written qa a; written qb b; written qc c; written qe e].
Proof.
  intros Hd Ha Hb Hc He. destruct q as [[[qa qb] qc] qe]. unfold four. rewrite !str_split_sep by by apply free_written.
  by rewrite str_split_free by by apply free_written.
Qed.
Lemma free_four x d q a b c e : Ascii.eqb DOUBLE_QUOTE x = false → Ascii.eqb d x = false →
  free_of x a = true → free_of x b = true → free_of x c = true → free_of x e = true → free_of x (four d q a b c e) = true.
Proof.
  intros Hx Hd Ha Hb Hc He. destruct q as [[[qa qb] qc] qe]. unfold four.
  rewrite !free_of_app, !free_cons, !free_of_app, !free_cons, !free_of_app, !free_cons. rewrite !free_written by done. by rewrite Hd.
Qed.
(** A line that does not end with white space. *)
Lemma four_ends d q a b c e : (∀ t, ends_clean (t +:+ e)) → ends_clean (four d q a b c e).
Proof.
  intros He. destruct q as [[[qa qb] qc] qe]. unfold four, written at 4.
  assert (∀ x y z w, x +:+ String d (y +:+ String d (z +:+ String d w)) = (x +:+ String d (y +:+ String d (z +:+ String d EmptyString))) +:+ w) as Hassoc.
  { intros. by rewrite !append_assoc, !append_cons, !append_assoc, !append_cons, !append_assoc, !append_cons, append_nil. }
  rewrite Hassoc. destruct qe; [|apply He]. unfold quoted.
  change (String DOUBLE_QUOTE (e +:+ String DOUBLE_QUOTE EmptyString)) with ((String DOUBLE_QUOTE e) +:+ String DOUBLE_QUOTE EmptyString).
  rewrite <-append_assoc. by apply ends_clean_graphic.
Qed.
Lemma trim_end_clean s : ends_clean s → trim_end s = s.
Proof. intros He. unfold trim_end. rewrite trim_while_clean by exact He. apply rev_string_involutive. Qed.
Lemma strip_cr_clean s : ends_clean s → strip_cr s = s.
Proof.
  intros He. unfold strip_cr, strip_suffix. unfold ends_clean in He. destruct (rev_string s) as [|c u]; [done|].
  assert (Ascii.eqb c CR = false) as Hc.
  { destruct (Ascii.eqb_spec c CR) as [->|]; [|done]. exfalso. revert He. by destruct u. }
  change (rev_string (String CR EmptyString)) with (String CR EmptyString). cbn [strip_prefix]. by rewrite Ascii.eqb_sym, Hc.
Qed.
Lemma lines_cons f a rest : free_of LF a = true → strip_cr a = a → lines (a +:+ eol f +:+ rest) = a :: lines rest.
Proof.
  intros Ha Hcr. unfold lines, eol. pose proof (str_split_nonempty LF rest) as Hne. destruct (crlf f).
  - replace (a +:+ String CR (String LF EmptyString) +:+ rest) with ((a +:+ String CR EmptyString) +:+ String LF rest)
      by (by rewrite append_assoc).
    rewrite str_split_sep by (rewrite free_of_app, Ha; done). cbn [lines_of]. destruct (str_split LF rest) as [|p ps] eqn:E; [done|].
    unfold strip_cr at 1. by rewrite strip_suffix_app.
  - rewrite append_cons, append_nil. rewrite str_split_sep by done. cbn [lines_of].
    destruct (str_split LF rest) as [|p ps] eqn:E; [done|]. by rewrite Hcr.
Qed.

(** ** A line cut at its end has no more cells *)
Lemma trim_while_suffix ps fuel s : ∃ y, s = y +:+ trim_while ps fuel s.
Proof.
  revert s. induction fuel as [|fuel IH]; intros s; [by exists EmptyString|]. cbn [trim_while].
  destruct (strip_any ps s) as [t|] eqn:E; [|by exists EmptyString]. destruct (IH t) as [y Hy].
  assert (∃ x, s = x +:+ t) as [x ->].
  { clear -E. induction ps as [|p ps IH]; [done|]. cbn in E. destruct (strip_prefix p s) as [u|] eqn:Ep; [|by apply IH].
    injection E as ->. exists p. clear IH. revert s Ep. induction p as [|c p IHp]; intros s Ep; [by injection Ep as ->|].
    destruct s as [|d s]; [done|]. cbn in Ep. destruct (Ascii.eqb_spec c d) as [->|]; [|done]. by rewrite (IHp s Ep) at 1. }
  exists (x +:+ y). by rewrite append_assoc, <-Hy.
Qed.
Lemma trim_end_prefix s : ∃ y, s = trim_end s +:+ y.
Proof.
  unfold trim_end. destruct (trim_while_suffix WHITESPACE_REV (String.length s) (rev_string s)) as [y Hy].
  exists (rev_string y). rewrite <-rev_string_app, <-Hy. by rewrite rev_string_involutive.
Qed.
Lemma split_prefix c a b : (length (str_split c a) ≤ length (str_split c (a +:+ b)))%nat.
Proof.
  induction a as [|d a IH]; [rewrite append_nil; pose proof (str_split_nonempty c b); destruct (str_split c b); cbn; [done|lia]|].
  rewrite append_cons. cbn [str_split]. destruct (Ascii.eqb d c); [cbn; lia|].
  pose proof (str_split_nonempty c a). pose proof (str_split_nonempty c (a +:+ b)).
  destruct (str_split c a), (str_split c (a +:+ b)); try done; cbn in *; lia.
Qed.
Lemma trim_end_tab s : trim_end (s +:+ String TAB EmptyString) = trim_end s.
Proof.
  unfold trim_end. rewrite rev_string_app. change (rev_string (String TAB EmptyString) +:+ rev_string s) with (String TAB (rev_string s)).
  assert (String.length (s +:+ String TAB EmptyString) = S (String.length s)) as ->.
  { induction s as [|c s IH]; [done|]. rewrite append_cons. cbn. by rewrite IH. }
  cbn [trim_while]. assert (strip_any WHITESPACE_REV (String TAB (rev_string s)) = Some (rev_string s)) as -> by by destruct (rev_string s). done.
Qed.

(** ** Cells *)
Definition a_delimiter (d : ascii) : Prop := d = TAB ∨ d = ";"%char.
Lemma delimiter_facts d : a_delimiter d →
  Ascii.eqb DOUBLE_QUOTE d = false ∧ Ascii.eqb d LF = false ∧ is_digit d = false ∧ Ascii.eqb "." d = false ∧ Ascii.eqb "-" d = false ∧
  Ascii.eqb "/" d = false ∧ free_of d "DPST-" = true ∧ free_of d "DPT-" = true.
Proof. by intros [-> | ->]. Qed.
Lemma parse_displayed_group a : GroupAddress_valid a → parse_group_address (GroupAddress_display a) = Some a.
Proof.
  intros Ha. destruct (group_component_ok a) as (? & ? & ?). unfold parse_group_address, GroupAddress_from_parts.
  rewrite group_display_split, !parse_u8_dec by done. cbn. by rewrite group_reparse.
Qed.
Lemma group_cell d a : a_delimiter d → cell_ok d (GroupAddress_display a).
Proof.
  intros Hd. destruct (group_component_ok a) as (H1 & H2 & H3). unfold u8_ok in *. unfold GroupAddress_display.
  assert (∀ c, is_digit c = false → Ascii.eqb "/" c = false → free_of c (dec (GroupAddress_main a) +:+ "/" +:+ dec (GroupAddress_middle a) +:+ "/"
    +:+ dec (GroupAddress_sub a)) = true) as Hf.
  { intros c Hc Hs. rewrite !free_of_app, !dec_free by (done || lia). cbn [free_of str_all]. by rewrite Hs. }
  split_and!; [by apply Hf|by apply Hf|apply Hf; by destruct Hd as [-> | ->]| |].
  - apply dec_clean.
  - rewrite <-!append_assoc. apply dec_clean.
Qed.
Lemma empty_cell d : cell_ok d EmptyString.
Proof. done. Qed.
(** Two numbers with a character in between, after a prefix. *)
Lemma numbers_cell d p x m s : a_delimiter d → free_of DOUBLE_QUOTE p = true → free_of LF p = true → free_of d p = true →
  0 ≤ m → is_digit x = false → Ascii.eqb x d = false → Ascii.eqb x LF = false → Ascii.eqb x DOUBLE_QUOTE = false →
  (∀ t, starts_clean (p +:+ dec m +:+ t)) → (str_all is_digit s = true ∧ s ≠ EmptyString) →
  cell_ok d (p +:+ dec m +:+ String x s) ∧ ∀ t, ends_clean (t +:+ (p +:+ dec m +:+ String x s)).
Proof.
  intros Hd Hq Hl Hpd Hm Hx Hxd Hxl Hxq Hc [Hs Hne]. destruct (delimiter_facts d Hd) as (_ & _ & Hdd & _).
  assert (∀ c, is_digit c = false → free_of c s = true) as Hfs by (intros c Hcd; eapply str_all_impl; [by apply digit_not|done]).
  assert (∀ t, ends_clean (t +:+ (p +:+ dec m +:+ String x s))) as He.
  { intros t. change (String x s) with (String x EmptyString +:+ s). rewrite <-!append_assoc. by apply digits_clean. }
  split; [|exact He]. split_and!; [..|exact (He EmptyString)]; try apply Hc;
    rewrite !free_of_app, free_cons, dec_free, Hfs by done; rewrite ?Hq, ?Hl, ?Hpd, ?Hxd, ?Hxl, ?Hxq; done.
Qed.
Lemma digit_start m t : 0 ≤ m → strip_prefix "DPST-" (dec m +:+ t) = None ∧ strip_prefix "DPT-" (dec m +:+ t) = None ∧ dec m +:+ t ≠ EmptyString.
Proof.
  intros Hm. destruct (dec_digits m Hm) as [Hd Hne]. destruct (dec m) as [|c u]; [done|]. cbn in Hd. apply andb_prop in Hd as [Hc _].
  rewrite append_cons. assert (Ascii.eqb "D" c = false) as Hn by (destruct (Ascii.eqb_spec "D" c) as [<-|]; done).
  cbn [strip_prefix]. by rewrite Hn.
Qed.
Lemma parse_own_number `{Profile} t s : parse_uint 65535 s = Some (DptType.sub t) →
  parse_dpt_string (dec (DptType.main t) +:+ String "." s) = Ok (Some t).
Proof.
  intros Hs. destruct (numbers_in_range t) as (Hm & _ & _). destruct (digit_start (DptType.main t) (String "." s)) as (E1 & E2 & Hne); [lia|].
  unfold parse_dpt_string. rewrite E1, E2. destruct (dec (DptType.main t) +:+ String "." s) as [|c u] eqn:E; [done|]. rewrite <-E.
  unfold DptType.from_str, DptType.number_parts. rewrite split_once_app by (apply dec_free; [lia|done]). cbn.
  rewrite parse_uint_dec by lia. cbn. rewrite Hs. cbn. apply from_own_number.
Qed.
Lemma parse_type `{Profile} s o : type_text s o → parse_dpt_string s = Ok o.
Proof.
  destruct 1 as [t|t H1|t|t| |m n Hm Hn Hno]; [| | | |done|].
  - destruct (numbers_in_range t) as (Hm & Hs & _). unfold dpst. set (rest := dec (DptType.main t) +:+ "-" +:+ dec (DptType.sub t)).
    assert (str_split "-" rest = [dec (DptType.main t); dec (DptType.sub t)]) as Er.
    { unfold rest. rewrite append_lit, str_split_sep, str_split_free by (apply dec_free; [lia|done]). done. }
    pose proof (strip_prefix_app "DPST-" rest) as Ep. clearbody rest. unfold parse_dpt_string. rewrite Ep. cbv zeta. rewrite Er.
    unfold parse_u16. cbn [head mbind option_bind lookup list_lookup]. rewrite !parse_uint_dec by lia. cbn. apply from_own_number.
  - destruct (numbers_in_range t) as (Hm & Hs & _). pose proof (strip_prefix_app "DPT-" (dec (DptType.main t))) as Ep.
    unfold parse_dpt_string. rewrite Ep. change (strip_prefix "DPST-" ("DPT-" +:+ dec (DptType.main t))) with (@None string).
    unfold parse_u16. rewrite parse_uint_dec by lia. rewrite <-H1. apply from_own_number.
  - destruct (numbers_in_range t) as (Hm & Hs & _). apply parse_own_number. by apply parse_uint_pad0; lia.
  - destruct (numbers_in_range t) as (Hm & Hs & _). apply parse_own_number. by apply parse_uint_dec; lia.
  - destruct (digit_start m (String "." (dec n))) as (E1 & E2 & Hne); [lia|].
    change (dec m +:+ "." +:+ dec n) with (dec m +:+ String "." (dec n)).
    unfold parse_dpt_string. rewrite E1, E2. destruct (dec m +:+ String "." (dec n)) as [|c u] eqn:E; [done|]. rewrite <-E.
    unfold DptType.from_str, DptType.number_parts. rewrite split_once_app by (apply dec_free; [lia|done]). cbn.
    rewrite !parse_uint_dec by lia. cbn. rewrite from_number_small by lia. f_equal.
    destruct (DptType.from_repr (m * 100000 + n)) as [t|] eqn:Er; [|done]. apply from_repr_number in Er; [|lia..]. by destruct (Hno t).
Qed.
Lemma type_cell d s o : a_delimiter d → type_text s o →
  cell_ok d s ∧ (s = EmptyString ∧ o = None ∨ ∀ t, ends_clean (t +:+ s)).
Proof.
  intros Hd. destruct (delimiter_facts d Hd) as (_ & _ & _ & Hdot & Hdash & _ & Hp1 & Hp2).
  destruct 1 as [t|t H1|t|t| |m n Hm Hn _].
  - destruct (numbers_in_range t) as (Hm & Hs & _). destruct (numbers_cell d "DPST-" "-" (DptType.main t) (dec (DptType.sub t))); try done; [lia|by apply dec_digits; lia|].
    split; [done|by right].
  - destruct (numbers_in_range t) as (Hm & _ & _). pose proof (delimiter_facts d Hd) as (_ & _ & Hdd & _).
    assert (∀ u, ends_clean (u +:+ ("DPT-" +:+ dec (DptType.main t)))) as He by (intros u; rewrite <-append_assoc; apply dec_clean).
    split; [|by right]. split_and!; [| | |done|exact (He EmptyString)]; rewrite free_of_app, dec_free by (done || lia); [done|done|by rewrite Hp2].
  - destruct (numbers_in_range t) as (Hm & Hs & _). destruct (numbers_cell d EmptyString "." (DptType.main t) (pad0 3 (DptType.sub t))); try done;
      [lia|intros u; rewrite append_nil; apply dec_clean|by apply pad0_digits; lia|]. split; [done|by right].
  - destruct (numbers_in_range t) as (Hm & Hs & _). destruct (numbers_cell d EmptyString "." (DptType.main t) (dec (DptType.sub t))); try done;
      [lia|intros u; rewrite append_nil; apply dec_clean|by apply dec_digits; lia|]. split; [done|by right].
  - split; [apply empty_cell|by left].
  - destruct (numbers_cell d EmptyString "." m (dec n)); try done;
      [lia|intros u; rewrite append_nil; apply dec_clean|by apply dec_digits; lia|]. split; [done|by right].
Qed.
Definition standard_columns : ets_columns := MkEtsColumns (Some 0%nat) 1 (Some 3%nat) (Some 2%nat).
(** A line without a type and without quotes around it, which may lose its last
    delimiters with the white space. *)
Lemma row_no_type `{Profile} d qa qb qc a b c : a_delimiter d → free_of d a = true → free_of d b = true → free_of d c = true →
  ets_row d standard_columns (four d (qa, qb, qc, false) a b c EmptyString) = Ok None.
Proof.
  intros Hd Ha Hb Hc. destruct (delimiter_facts d Hd) as (Hq & _). unfold ets_row. cbv zeta.
  set (line := four _ _ _ _ _ _). assert (default EmptyString (cell <$> str_split d (trim_end line) !! 3%nat) = EmptyString) as E.
  { destruct Hd as [-> | ->].
    - set (x := written qa a +:+ String TAB (written qb b +:+ String TAB (written qc c))).
      assert (line = x +:+ String TAB EmptyString) as ->.
      { unfold line, x, four, written at 4. by rewrite !append_assoc, !append_cons, !append_assoc, !append_cons. }
      rewrite trim_end_tab. destruct (trim_end_prefix x) as [y Hy].
      assert (length (str_split TAB x) = 3%nat) as Hx by (unfold x; rewrite !str_split_sep, str_split_free by (by apply free_written); done).
      pose proof (split_prefix TAB (trim_end x) y) as Hp. rewrite <-Hy, Hx in Hp. by rewrite lookup_ge_None_2 by lia.
    - rewrite trim_end_clean.
      + unfold line. rewrite split_four by done. done.
      + unfold line, four, written at 4. rewrite <-(append_nil (String ";" EmptyString)). rewrite <-append_cons.
        replace (written qa a +:+ _) with ((written qa a +:+ String ";" (written qb b +:+ String ";" (written qc c))) +:+ String ";" EmptyString)
          by (by rewrite !append_assoc, !append_cons, !append_assoc, !append_cons).
        by apply ends_clean_graphic. }
  destruct (String.eqb _ _); [done|]. cbn [addr_col]. destruct (parse_group_address _); [|done].
  cbn [dpt_col standard_columns mbind option_bind]. rewrite E. done.
Qed.
Lemma row_read `{Profile} d r : a_delimiter d → row_ok d r → ets_row d standard_columns (row_line d r) = Ok (entry_of r).
Proof.
  intros Hd (Ha & Hn & Hdesc & Ht). destruct (delimiter_facts d Hd) as (Hq & _). destruct (type_cell d _ _ Hd Ht) as [Hc He].
  assert (cell_ok d (default EmptyString (l_description r))) as Hx by (destruct (l_description r); [apply Hdesc|apply empty_cell]).
  pose proof (group_cell d (l_address r) Hd) as Hg. unfold row_line.
  destruct (l_quotes r) as [[[qa qb] qc] qe] eqn:Eq.
  destruct (decide (l_type r = EmptyString ∧ qe = false)) as [[Et ->]|Hne].
  { assert (l_dpt r = None) as Ed by (rewrite Et in Ht; apply (parse_type (H:=H)) in Ht; cbn in Ht; by injection Ht).
    unfold entry_of. rewrite Et, Ed. apply row_no_type; [done|apply Hn|apply Hg|apply Hx]. }
  assert (ends_clean (four d (qa, qb, qc, qe) (l_name r) (GroupAddress_display (l_address r)) (default EmptyString (l_description r)) (l_type r))) as Hend.
  { destruct He as [[Et _]|He]; [|by apply four_ends]. destruct qe; [|by destruct Hne].
    rewrite Et. unfold four, written at 4, quoted. rewrite append_nil.
    match goal with |- ends_clean ?s => replace s with ((written qa (l_name r) +:+ String d (written qb (GroupAddress_display (l_address r)) +:+
      String d (written qc (default EmptyString (l_description r)) +:+ String d (String DOUBLE_QUOTE EmptyString)))) +:+ String DOUBLE_QUOTE EmptyString) end.
    - by apply ends_clean_graphic.
    - by rewrite !append_assoc, !append_cons, !append_assoc, !append_cons, !append_assoc, !append_cons. }
  unfold ets_row. cbv zeta. rewrite trim_end_clean by done.
  rewrite split_four; [|done|apply Hn|apply Hg|apply Hx|apply Hc].
  replace (String.eqb (four _ _ _ _ _ _) EmptyString) with false.
  2: { symmetry. apply String.eqb_neq. unfold four. destruct (written qa (l_name r)); done. }
  cbn [addr_col dpt_col name_col desc_col standard_columns lookup list_lookup fmap option_fmap option_map mbind option_bind default].
  rewrite (cell_written d qa _ Hn), (cell_written d qb _ Hg), (cell_written d qc _ Hx), (cell_written d qe _ Hc). unfold id. rewrite parse_displayed_group, (parse_type _ _ Ht) by done. cbn [mbind outcome_bind].
  unfold entry_of. destruct (l_dpt r) as [t|]; [|done]. cbn. destruct (l_description r) as [s|]; [|done]. cbn.
  destruct Hdesc as [_ Hs]. apply String.eqb_neq in Hs. by rewrite Hs.
Qed.

(** ** Files *)
Lemma delimiter_is f : a_delimiter (delimiter_of f).
Proof. unfold delimiter_of. destruct (tab_delimited f); [by left|by right]. Qed.
Lemma four_no_type d q a b c : ∃ x k, four d q a b c EmptyString = x +:+ String k EmptyString ∧ (k = d ∨ k = DOUBLE_QUOTE).
Proof.
  destruct q as [[[qa qb] qc] []]; unfold four, written at 4; [unfold quoted; rewrite append_nil|].
  - exists (written qa a +:+ String d (written qb b +:+ String d (written qc c +:+ String d (String DOUBLE_QUOTE EmptyString)))), DOUBLE_QUOTE.
    split; [|by right]. by rewrite !append_assoc, !append_cons, !append_assoc, !append_cons, !append_assoc, !append_cons.
  - exists (written qa a +:+ String d (written qb b +:+ String d (written qc c))), d.
    split; [|by left]. by rewrite !append_assoc, !append_cons, !append_assoc, !append_cons.
Qed.
Lemma row_line_lf d r : a_delimiter d → row_ok d r → free_of LF (row_line d r) = true ∧ strip_cr (row_line d r) = row_line d r.
Proof.
  intros Hd (_ & (_ & Hn & _) & Hdesc & Ht). destruct (type_cell d _ _ Hd Ht) as [(_ & Hl & _) He]. pose proof (group_cell d (l_address r) Hd) as (_ & Hg & _).
  assert (free_of LF (default EmptyString (l_description r)) = true) as Hx by (destruct (l_description r); [by destruct Hdesc as [(_ & ? & _) _]|done]).
  destruct (delimiter_facts d Hd) as (_ & Hdl & _). split; [by apply free_four|].
  destruct He as [[Et _]|He]; [|by apply strip_cr_clean, four_ends].
  unfold row_line. rewrite Et. destruct (four_no_type d (l_quotes r) (l_name r) (GroupAddress_display (l_address r)) (default EmptyString (l_description r)))
    as (x & k & -> & Hk). unfold strip_cr, strip_suffix. rewrite rev_string_app. by destruct Hk as [-> | ->]; [destruct Hd as [-> | ->]|].
Qed.
Lemma rows_read `{Profile} f rows m : Forall (row_ok (delimiter_of f)) rows →
  ets_rows (delimiter_of f) standard_columns
    (lines (foldr (λ r s, row_line (delimiter_of f) r +:+ eol f +:+ s) EmptyString rows)) m =
  Ok (foldl (λ m e, <[e.1 := e.2]> m) m (omap entry_of rows)).
Proof.
  intros Hr. pose proof (delimiter_is f) as Hd. revert m. induction Hr as [|r rows Hr Hrs IH]; intros m; [done|]. cbn [foldr].
  destruct (row_line_lf _ r Hd Hr) as [Hl Hc]. rewrite lines_cons by done. cbn [ets_rows]. rewrite row_read by done. cbn [mbind outcome_bind omap list_omap].
  rewrite IH. by destruct (entry_of r) as [[a c]|].
Qed.
(** Every header of the accepted names, by evaluation. *)
Definition BITS : list bool := [false; true].
Lemma bits_all b : b ∈ BITS.
Proof. destruct b; set_solver. Qed.
Definition header_check (d : ascii) (q : bool * bool * bool * bool) (a b c e : string) : bool :=
  match ets_header d (four d q a b c e) with Ok (MkEtsColumns (Some O) 1 (Some 3%nat) (Some 2%nat)) => true | _ => false end &&
  Bool.eqb (str_contains TAB (four d q a b c e)) (Ascii.eqb d TAB) && free_of LF (four d q a b c e) &&
  String.eqb (strip_cr (four d q a b c e)) (four d q a b c e).
Lemma headers_checked :
  forallb (λ d, forallb (λ q, forallb (λ a, forallb (λ b, forallb (λ c, forallb (λ e, header_check d q a b c e)
    ["DatapointType"; "Datapoint Type"; "DPT"; "Datenpunkttyp"]) ["Description"; "Beschreibung"]) ["Address"; "Adresse"; "Group Address"])
    ["Group name"; "Name"; "Gruppenname"; "Sub"])
    (q1 ← BITS; q2 ← BITS; q3 ← BITS; q4 ← BITS; [(q1, q2, q3, q4)])) [TAB; ";"%char] = true.
Proof. vm_compute. reflexivity. Qed.
Lemma header_read f : format_ok f →
  ets_header (delimiter_of f) (header_line f) = Ok standard_columns ∧
  (if str_contains TAB (header_line f) then TAB else ";"%char) = delimiter_of f ∧
  free_of LF (header_line f) = true ∧ strip_cr (header_line f) = header_line f.
Proof.
  intros (Hn & Ha & Hde & Ht). unfold header_line. destruct (header_quotes f) as [[[q1 q2] q3] q4].
  assert (header_check (delimiter_of f) (q1, q2, q3, q4) (name_header f) (address_header f) (description_header f) (type_header f) = true) as Hc.
  { assert (List.In (delimiter_of f) [TAB; ";"%char]) as Hd by (unfold delimiter_of; destruct (tab_delimited f); cbn; auto).
    pose proof headers_checked as Hall. rewrite forallb_forall in Hall. specialize (Hall _ Hd). rewrite forallb_forall in Hall.
    assert (List.In (q1, q2, q3, q4) (q1 ← BITS; q2 ← BITS; q3 ← BITS; q4 ← BITS; [(q1, q2, q3, q4)])) as Hq.
    { apply list_elem_of_In. apply (bool_decide_unpack _). destruct q1, q2, q3, q4; vm_compute; exact I. }
    specialize (Hall _ Hq).
    apply list_elem_of_In in Hn, Ha, Hde, Ht.
    rewrite forallb_forall in Hall. specialize (Hall _ Hn). rewrite forallb_forall in Hall. specialize (Hall _ Ha).
    rewrite forallb_forall in Hall. specialize (Hall _ Hde). rewrite forallb_forall in Hall. exact (Hall _ Ht). }
  unfold header_check in Hc. apply andb_prop in Hc as [[[Hh Hd%eqb_prop]%andb_prop Hl]%andb_prop Hs%String.eqb_eq].
  split_and!; [| |exact Hl|exact Hs].
  - destruct (ets_header _ _) as [[[[|]|] [|[|]] [[|[|[|[|]]]]|] [[|[|[|]]]|]]| |]; done.
  - rewrite Hd. unfold delimiter_of. by destruct (tab_delimited f).
Qed.

(** ** Registration *)
Lemma register_entries_run entries r :
  (∀ a c b, (a, c) ∈ entries → r !! a = Some b → b_dpt b = ga_dpt c) → NoDup entries.*1 →
  register_ets_entries entries r =
    (Ok tt, r ∪ list_to_map (prod_map id (λ c, MkBinding (ga_dpt c) None None None None) <$> entries)).
Proof.
  revert r. induction entries as [|[a c] entries IH]; intros r Hc Hn; cbn [register_ets_entries fmap list_fmap list_to_map foldr].
  { by rewrite map_union_empty. }
  apply NoDup_cons in Hn as [Ha Hn]. rewrite eff_bind_run. unfold GroupAddressRegistry_register.
  rewrite eff_bind_run. cbn [gets id]. destruct (r !! a) as [b|] eqn:Hb.
  - rewrite decide_True by (eapply Hc; [by left|done]). cbn. rewrite IH; [|intros; eapply Hc; [by right|done]|done].
    f_equal. apply map_eq. intros x. destruct (decide (x = a)) as [->|Hx].
    + by rewrite !(lookup_union_l' _ _ a) by (rewrite ?Hb; by eexists).
    + rewrite !lookup_union. by rewrite lookup_insert_ne.
  - unfold modify. rewrite IH; [| |done].
    + f_equal. cbn. by rewrite <-insert_union_l, insert_union_r by done.
    + intros x d b Hin. rewrite lookup_insert_ne; [intros; eapply Hc; [by right|done]|].
      intros ->. apply Ha. by apply (list_elem_of_fmap_2 fst _ (x, d)).
Qed.
Lemma entries_map entries (configs : gmap GroupAddress GroupAddressConfig) :
  NoDup entries.*1 → (∀ a c, (a, c) ∈ entries ↔ configs !! a = Some c) →
  list_to_map (prod_map id (λ c, MkBinding (ga_dpt c) None None None None) <$> entries)
  =@{GroupAddressRegistry} (λ c, MkBinding (ga_dpt c) None None None None) <$> configs.
Proof.
  intros Hn Hc. apply map_eq. intros a. apply option_eq. intros b. rewrite <-elem_of_list_to_map.
  - rewrite lookup_fmap, fmap_Some, list_elem_of_fmap. split.
    + intros ([x c] & [= -> ->] & Hin). exists c. by rewrite <-Hc.
    + intros (c & Ha & ->). exists (a, c). split; [done|by apply Hc].
  - rewrite <-list_fmap_compose. exact Hn.
Qed.
Lemma register_grows a t r : ∃ o r', GroupAddressRegistry_register a t r = (o, r') ∧ r ⊆ r' ∧
  (o = Ok tt ∨ ∃ e, o = Err e) ∧ ((∃ b, r !! a = Some b ∧ b_dpt b ≠ t) → ∃ e, o = Err e).
Proof.
  unfold GroupAddressRegistry_register. rewrite eff_bind_run. cbn [gets id]. destruct (r !! a) as [b|] eqn:Hb.
  - destruct (decide (b_dpt b = t)); eexists _, _; (split; [done|]); (split; [done|]); split; eauto. by intros (b' & [= <-] & ?).
  - eexists _, _. split; [done|]. split; [by apply insert_subseteq|]. split; [by left|]. by intros (? & ? & _).
Qed.
Lemma register_entries_conflict entries r a c b :
  (a, c) ∈ entries → r !! a = Some b → b_dpt b ≠ ga_dpt c →
  ∃ e r', register_ets_entries entries r = (Err e, r') ∧ r ⊆ r'.
Proof.
  intros Hin Hb Hne. revert r Hb. induction entries as [|[x d] entries IH]; intros r Hb; [by apply not_elem_of_nil in Hin|].
  cbn [register_ets_entries]. rewrite eff_bind_run. destruct (register_grows x (ga_dpt d) r) as (o & r1 & -> & Hs & Ho & He).
  apply elem_of_cons in Hin as [[= -> ->]|Hin].
  - destruct He as [e ->]; [by exists b|]. by exists e, r1.
  - destruct Ho as [->|[e ->]]; [|by exists e, r1].
    destruct (IH Hin r1) as (e & r' & -> & Hs'); [by eapply lookup_weaken|]. exists e, r'. split; [done|by etrans].
Qed.

(** * Properties *)


(** Importing an export into the registry: if no address is bound to another
    type, every address is registered under its type, whatever order the map is
    iterated in, and what was bound before stays as it was; otherwise the first
    conflict ends the import with an error. *)
Theorem ets_import iterate configs r :
  iterate configs ≡ₚ map_to_list configs →
  ((∀ a c b, configs !! a = Some c → r !! a = Some b → b_dpt b = ga_dpt c) →
     Knx_register_group_addresses_from_ets iterate configs r =
       (Ok tt, r ∪ ((λ c, MkBinding (ga_dpt c) None None None None) <$> configs))) ∧
  (∀ a c b, configs !! a = Some c → r !! a = Some b → b_dpt b ≠ ga_dpt c →
     ∃ e r', Knx_register_group_addresses_from_ets iterate configs r = (Err e, r') ∧ r ⊆ r').
Proof.
  intros Hp. unfold Knx_register_group_addresses_from_ets. split.
  - intros Hc. assert (NoDup (iterate configs).*1) as Hn by (rewrite Hp; apply NoDup_fst_map_to_list).
    rewrite register_entries_run; [|intros a c b Hin; apply Hc; by rewrite <-elem_of_map_to_list, <-Hp|done].
    f_equal. f_equal. apply entries_map; [done|]. intros a c. by rewrite Hp, elem_of_map_to_list.
  - intros a c b Ha Hb Hne. eapply register_entries_conflict; [|exact Hb|exact Hne]. by rewrite Hp, elem_of_map_to_list.
Qed.

(** Quotes do not protect the delimiter: a line whose quoted name contains a
    semicolon is cut there, its address is looked for in the rest of the name,
    and the line is skipped without an error. *)
Definition all_quoted : bool * bool * bool * bool := (true, true, true, true).
Definition plain_format : ets_format :=
  MkEtsFormat false false false "Group name" "Address" "Description" "DatapointType" all_quoted.
Theorem ets_quoted_delimiter `{Profile} :
  parse_ets_csv (ets_file plain_format
    [MkEtsLine (MkGroupAddress 0x0A03) "Hall; lamp" None (dpst DptType.Switch) (Some DptType.Switch) all_quoted]) = Ok ∅.
Proof. vm_compute. reflexivity. Qed.

(** ** Witnesses *)
#[local] Instance ets_release : Profile := {| debug_build := false |}.
Definition tab_format : ets_format :=
  MkEtsFormat true true true "Gruppenname" "Adresse" "Beschreibung" "Datenpunkttyp" (false, true, false, true).
Definition sample_rows : list ets_line :=
  [MkEtsLine (MkGroupAddress 0x0A03) "Hall lamp" None (dpst DptType.Switch) (Some DptType.Switch) all_quoted;
   MkEtsLine (MkGroupAddress 0x0A04) EmptyString (Some "first floor") (DptType.number_str DptType.Temperature) (Some DptType.Temperature)
     (false, false, false, false);
   MkEtsLine (MkGroupAddress 0x0A05) "Spare" None EmptyString None (false, false, false, false)].
Definition sample_configs : gmap GroupAddress GroupAddressConfig := entries sample_rows.
Lemma ets_import_witness :
  Knx_register_group_addresses_from_ets map_to_list sample_configs ∅ =
    (Ok tt, ∅ ∪ ((λ c, MkBinding (ga_dpt c) None None None None) <$> sample_configs)).
Proof.
  apply (proj1 (ets_import map_to_list sample_configs ∅ (reflexivity _))). intros a c b _ Hb. vm_compute in Hb. discriminate Hb.
Defined.
