(* ===== verification/Lifecycle.v ===== *)
(** The life cycle of the application object ([src/src/application/knx.rs]):
    building, connecting, starting, losing the tunnel, reconnecting, stopping;
    with the configuration of [src/src/transport/mod.rs].

    The class [Connections] is what the application needs of its connections:
    opening one of each kind (a tunnel with its handshake, a multicast socket),
    sending, closing, and the channel of a connection that is a tunnel.  [S] is
    the world outside.  Each operation is one step: the locks it takes one after
    another are not interleaved with other operations.  The model is of the
    build without the [secure] feature.  What is handed to
    [EventHandler::notify_connection_state_changed] (file [Callbacks]) is
    recorded in [notified]. *)
From stdpp Require Import relations.
From S2P Require Import Prelude Errors Address Telegram KnxIp Float Client Callbacks.

(** * Configuration *)
Inductive ConnectionType := Tunneling | TcpTunneling | Routing | SecureTunneling | SecureRouting.
#[global] Instance ConnectionType_eq_dec : EqDecision ConnectionType.
Proof. solve_decision. Defined.
Record SecurityConfig := MkSecurityConfig {
  device_auth_password : string;
  user_password : option string;
  keyring_path : option string;
  session_timeout : Z;
}.
Record BackoffConfig := MkBackoffConfig {
  initial_delay_ms : Z;
  max_delay_ms : Z;
  multiplier : float;
  max_attempts : Z;
}.
Definition BackoffConfig_default : BackoffConfig := MkBackoffConfig 1000 30000 (f64_of_Z 2) 10.
Record TcpConfig := MkTcpConfig {
  connect_timeout_ms : Z;
  read_timeout_ms : Z;
  write_timeout_ms : Z;
  keep_alive_enabled : bool;
  keep_alive_interval_ms : Z;
  tcp_nodelay : bool;
}.
Definition TcpConfig_default : TcpConfig := MkTcpConfig 5000 10000 5000 true 30000 true.
Record ConnectionConfig := MkConnectionConfig {
  connection_type : ConnectionType;
  gateway_ip : option IpAddr;
  gateway_port : option Z;
  local_ip : option IpAddr;
  individual_address : IndividualAddress;
  security : option SecurityConfig;
  timeout_ms : Z;
  auto_reconnect : bool;
  reconnect_backoff : BackoffConfig;
  tcp_config : TcpConfig;
}.
(** The components of 1.1.240 are in range. *)
Definition ConnectionConfig_default : ConnectionConfig :=
  MkConnectionConfig Tunneling None (Some 3671) None (IndividualAddress_from_parts_unchecked 1 1 240) None 5000 true
    BackoffConfig_default TcpConfig_default.

Definition config_error (e : ConfigurationError) : KnxError := Configuration e.
Definition Knx_validate_config (config : ConnectionConfig) : result unit :=
  _ ← match connection_type config with
      | Tunneling | TcpTunneling | SecureTunneling =>
          match gateway_ip config with
          | None => Err (config_error (MissingParameter "gateway_ip"))
          | Some _ => Ok tt
          end
      | Routing | SecureRouting => Ok tt
      end;
  if timeout_ms config =? 0
  then Err (config_error (InvalidValue "timeout_ms" (dec (timeout_ms config)) "Timeout must be greater than 0"))
  else Ok tt.

(** * States *)
Module KnxState.
Inductive KnxState := Disconnected | Connecting | Connected | Disconnecting | Error.
Definition KnxState_display (s : KnxState) : string :=
  match s with
  | Disconnected => "disconnected" | Connecting => "connecting" | Connected => "connected"
  | Disconnecting => "disconnecting" | Error => "error"
  end.
Definition into (s : KnxState) : ConnectionState :=
  match s with
  | Disconnected => ConnectionState.Disconnected
  | Connecting => ConnectionState.Connecting
  | Connected => ConnectionState.Connected
  | Disconnecting => ConnectionState.Disconnecting
  | Error => ConnectionState.Error
  end.
End KnxState.
Abbreviation KnxState := KnxState.KnxState.
#[global] Instance KnxState_eq_dec : EqDecision KnxState.
Proof. solve_decision. Defined.

(** * Connections *)
Class Connections (S C : Type) := {
  open_udp : SocketAddr → eff S KnxError C;
  open_tcp : SocketAddr → Z → eff S KnxError C;
  open_routing : option IpAddr → eff S KnxError C;
  connection_send : C → list Z → eff S KnxError unit;
  connection_close : C → eff S KnxError unit;
  tunnel_channel : C → option Z;
}.

(** The tasks, with the connection they were given. *)
Inductive task (C : Type) :=
| CleanupTask | ControlTask (c : C) | ReceivingTask (c : C) | ProcessingTask | SendingTask (c : C) | RefreshTask | ReconnectTask.
Arguments CleanupTask {C}.
Arguments ControlTask {C} _.
Arguments ReceivingTask {C} _.
Arguments ProcessingTask {C}.
Arguments SendingTask {C} _.
Arguments RefreshTask {C}.
Arguments ReconnectTask {C}.
(** Which slots hold a handle. *)
Record slots := MkSlots {
  processing_task : bool;
  receiving_slot : bool;
  control_task : bool;
  reconnect_task : bool;
  cleanup_task : bool;
  refresh_task : bool;
}.

Record Knx {S C : Type} := MkKnx {
  config : ConnectionConfig;
  connection : option C;
  state : KnxState;
  shutdown_flag : bool;
  task_slots : slots;
  control_rx : bool;
  channel_id : option Z;
  queue_closed : bool;
  notified : list ConnectionState;
  spawned : list (task C);
  outside : S;
}.
Arguments Knx S C : clear implicits.
Arguments MkKnx {S C} _ _ _ _ _ _ _ _ _ _ _.

Section operations.
Context {S C : Type} `{Connections S C}.
Definition set_connection (x : option C) (k : Knx S C) : Knx S C :=
  MkKnx (config k) x (state k) (shutdown_flag k) (task_slots k) (control_rx k) (channel_id k) (queue_closed k) (notified k) (spawned k) (outside k).
Definition set_state (x : KnxState) (k : Knx S C) : Knx S C :=
  MkKnx (config k) (connection k) x (shutdown_flag k) (task_slots k) (control_rx k) (channel_id k) (queue_closed k) (notified k) (spawned k) (outside k).
Definition set_shutdown (x : bool) (k : Knx S C) : Knx S C :=
  MkKnx (config k) (connection k) (state k) x (task_slots k) (control_rx k) (channel_id k) (queue_closed k) (notified k) (spawned k) (outside k).
Definition set_slots (x : slots) (k : Knx S C) : Knx S C :=
  MkKnx (config k) (connection k) (state k) (shutdown_flag k) x (control_rx k) (channel_id k) (queue_closed k) (notified k) (spawned k) (outside k).
Definition set_control_rx (x : bool) (k : Knx S C) : Knx S C :=
  MkKnx (config k) (connection k) (state k) (shutdown_flag k) (task_slots k) x (channel_id k) (queue_closed k) (notified k) (spawned k) (outside k).
Definition set_channel_id (x : option Z) (k : Knx S C) : Knx S C :=
  MkKnx (config k) (connection k) (state k) (shutdown_flag k) (task_slots k) (control_rx k) x (queue_closed k) (notified k) (spawned k) (outside k).
Definition set_queue_closed (x : bool) (k : Knx S C) : Knx S C :=
  MkKnx (config k) (connection k) (state k) (shutdown_flag k) (task_slots k) (control_rx k) (channel_id k) x (notified k) (spawned k) (outside k).
Definition set_notified (x : list ConnectionState) (k : Knx S C) : Knx S C :=
  MkKnx (config k) (connection k) (state k) (shutdown_flag k) (task_slots k) (control_rx k) (channel_id k) (queue_closed k) x (spawned k) (outside k).
Definition set_spawned (x : list (task C)) (k : Knx S C) : Knx S C :=
  MkKnx (config k) (connection k) (state k) (shutdown_flag k) (task_slots k) (control_rx k) (channel_id k) (queue_closed k) (notified k) x (outside k).
Definition set_outside (x : S) (k : Knx S C) : Knx S C :=
  MkKnx (config k) (connection k) (state k) (shutdown_flag k) (task_slots k) (control_rx k) (channel_id k) (queue_closed k) (notified k) (spawned k) x.
Abbreviation M := (eff (Knx S C) KnxError).
(** An operation on the world outside. *)
Definition on_outside {A} (m : eff S KnxError A) : M A := λ k,
  let '(r, s) := m (outside k) in (r, set_outside s k).
Definition enter (s : KnxState) : M unit :=
  modify (λ k, set_notified (notified k ++ [KnxState.into s]) (set_state s k)).
Definition spawn (t : task C) : M unit := modify (λ k, set_spawned (spawned k ++ [t]) k).

(** * Creating *)
Definition no_tasks : slots := MkSlots false false false false false false.
Definition with_slot (t : task C) (b : bool) (s : slots) : slots :=
  let '(MkSlots p r c n l f) := s in
  match t with
  | ProcessingTask => MkSlots b r c n l f
  | ReceivingTask _ => MkSlots p b c n l f
  | ControlTask _ => MkSlots p r b n l f
  | ReconnectTask => MkSlots p r c b l f
  | CleanupTask => MkSlots p r c n b f
  | RefreshTask => MkSlots p r c n l b
  | SendingTask _ => s
  end.
(** Spawning a task and storing its handle; that of the sending task is not
    stored. *)
Definition start_task (t : task C) : M unit :=
  _ ← spawn t; modify (λ k, set_slots (with_slot t true (task_slots k)) k).
Definition Knx_new_with_options (config : ConnectionConfig) (s : S) : result (Knx S C) :=
  _ ← Knx_validate_config config;
  let knx := MkKnx config None KnxState.Disconnected false no_tasks true None false [] [] s in
  match start_task CleanupTask knx with
  | (Ok _, knx) => Ok knx
  | (Err e, _) => Err e
  | (Panic, _) => Panic
  end.

(** * Connecting *)
Definition gateway_addr (config : ConnectionConfig) : result SocketAddr :=
  gateway_ip ← ok_or (gateway_ip config) (config_error (MissingParameter "gateway_ip"));
  Ok (MkSocketAddr gateway_ip (default 3671 (gateway_port config))).
Definition secure_tunneling_error : KnxError :=
  config_error (ValidationError "SecureTunneling requires the `secure` feature").
Definition secure_routing_error : KnxError :=
  config_error (ValidationError "SecureRouting (KNX IP Secure over multicast) is not yet implemented").

(** The first match of [connect]: the outer failure is an early return, the
    inner one the value of [connection_result]. *)
Definition connection_result : M (outcome KnxError C) :=
  k ← gets id;
  let config := config k in
  match connection_type config with
  | Tunneling | SecureTunneling =>
      addr ← lift (gateway_addr config);
      if decide (connection_type config = SecureTunneling) then throw secure_tunneling_error
      else
        tunneling_conn ← on_outside (open_udp addr);
        _ ← modify (set_channel_id (Some (default 0 (tunnel_channel tunneling_conn))));
        mret (Ok tunneling_conn)
  | TcpTunneling =>
      addr ← lift (gateway_addr config);
      tcp_conn ← on_outside (open_tcp addr (connect_timeout_ms (tcp_config config)));
      mret (Ok tcp_conn)
  | Routing =>
      r ← attempt (on_outside (open_routing (local_ip config)));
      mret (match r with inl c => Ok c | inr e => Err e end)
  | SecureRouting => mret (Err secure_routing_error)
  end.
Definition Knx_connect : M unit :=
  _ ← enter KnxState.Connecting;
  r ← connection_result;
  match r with
  | Ok connection => _ ← modify (set_connection (Some connection)); enter KnxState.Connected
  | Err e => _ ← enter KnxState.Error; throw e
  | Panic => lift Panic
  end.
Definition Knx_disconnect : M unit :=
  _ ← enter KnxState.Disconnecting;
  k ← gets id;
  _ ← modify (set_connection None);
  _ ← match connection k with Some c => on_outside (connection_close c) | None => mret tt end;
  enter KnxState.Disconnected.

(** * Starting and stopping *)
Definition not_connected : KnxError := config_error (ValidationError "Not connected to KNX network").
Definition receiver_taken : KnxError := config_error (ValidationError "Control receiver already taken").
Definition start_connection_control_task (c : C) : M unit :=
  rx ← (gets control_rx : M bool);
  _ ← modify (set_control_rx false);
  if (rx : bool) then start_task (ControlTask c) else throw receiver_taken.
Definition Knx_start : M unit :=
  connection ← (gets connection : M (option C));
  c ← lift (ok_or connection not_connected);
  _ ← start_connection_control_task c;
  _ ← start_task (ReceivingTask c);
  _ ← start_task ProcessingTask;
  _ ← start_task (SendingTask c);
  start_task RefreshTask.
(** The waits for the tasks end with them or after their timeouts. *)
Definition Knx_stop : M unit :=
  _ ← modify (set_shutdown true);
  _ ← modify (set_queue_closed true);
  _ ← modify (set_slots no_tasks);
  modify (set_shutdown false).
Definition Knx_shutdown : M unit := _ ← Knx_stop; Knx_disconnect.
(** [meanwhile] is what happens until the signal arrives. *)
Definition Knx_run_until (meanwhile : Knx S C → Knx S C) : M unit :=
  _ ← Knx_connect; _ ← Knx_start; _ ← modify meanwhile; Knx_shutdown.
(** [meanwhile] is what happens until [stop] wakes the waiter. *)
Definition Knx_run (meanwhile : Knx S C → Knx S C) : M unit :=
  _ ← Knx_connect; _ ← Knx_start; modify meanwhile.
Definition Knx_is_connected : M bool := k ← gets id; mret (bool_decide (state k = KnxState.Connected)).

(** * Losing the tunnel *)
Inductive loop_end := GoesOn | Ends.
(** One event of the control task, which holds the connection [c]. *)
Definition control_pass `{Profile} (c : C) (event : ConnectionControlEvent) : M loop_end :=
  match event with
  | SendDisconnectResponse ch =>
      frame ← lift (KnxIpFrame_new ServiceType.DisconnectResponse
                      (DisconnectResponse_serialize (DisconnectResponse_new ch DISCONNECT_STATUS_OK)));
      _ ← attempt (on_outside (connection_send c (KnxIpFrame_serialize frame)));
      _ ← modify (set_channel_id None);
      mret GoesOn
  | TunnelLost ch reason =>
      _ ← enter KnxState.Disconnected;
      k ← gets id;
      _ ← modify (set_connection None);
      _ ← match connection k with
          | Some x => _ ← attempt (on_outside (connection_close x)); mret tt
          | None => mret tt
          end;
      if auto_reconnect (config k) then
        (if reconnect_task (task_slots k) then mret GoesOn else _ ← start_task ReconnectTask; mret GoesOn)
      else mret Ends
  end.

(** * Reconnecting *)
Definition create_connection (config : ConnectionConfig) : eff S KnxError C :=
  match connection_type config with
  | Tunneling | SecureTunneling =>
      addr ← lift (gateway_addr config);
      if decide (connection_type config = SecureTunneling) then throw secure_tunneling_error else open_udp addr
  | TcpTunneling =>
      addr ← lift (gateway_addr config); open_tcp addr (connect_timeout_ms (tcp_config config))
  | Routing => open_routing (local_ip config)
  | SecureRouting => throw secure_routing_error
  end.
Definition establish_connection (connection : C) (config : ConnectionConfig) : option Z :=
  match connection_type config with
  | Tunneling | SecureTunneling | TcpTunneling => tunnel_channel connection
  | Routing | SecureRouting => None
  end.
Definition next_delay (b : BackoffConfig) (delay_ms : Z) : Z :=
  Z.min (float_as_u64 (f64_mul (f64_of_Z delay_ms) (multiplier b))) (max_delay_ms b).
Inductive reconnect_end := ShutDown | GivenUp | Reconnected | OutOfFuel.
(** The loop of the reconnection task from an attempt on; [shutdown] is what it
    reads of the flag in this pass and the following ones, [att] the [u32] number
    of the attempt, and the answer has the delays it slept. *)
Fixpoint reconnect_loop `{Profile} (shutdown : nat → bool) (fuel : nat) (att delay_ms : Z) : M (list Z * reconnect_end) :=
  match fuel with
  | O => mret ([], OutOfFuel)
  | Datatypes.S fuel =>
      k ← gets id;
      let backoff := reconnect_backoff (config k) in
      if shutdown 0%nat then mret ([], ShutDown)
      else if max_attempts backoff <? att then mret ([], GivenUp)
      else
        r ← attempt (on_outside (create_connection (config k)));
        match r with
        | inl new_connection =>
            _ ← modify (set_connection (Some new_connection));
            _ ← modify (set_state KnxState.Connected);
            _ ← match establish_connection new_connection (config k) with
                | Some id => modify (set_channel_id (Some id))
                | None => mret tt
                end;
            _ ← modify (λ k, set_notified (notified k ++ [ConnectionState.Connected]) k);
            mret ([], Reconnected)
        | inr _ =>
            att ← lift (checked32 (att + 1));
            '(delays, e) ← reconnect_loop (λ pass, shutdown (Datatypes.S pass)) fuel att (next_delay backoff delay_ms);
            mret (delay_ms :: delays, e)
        end
  end.
Definition reconnection_task `{Profile} (shutdown : nat → bool) : M (list Z * reconnect_end) :=
  k ← gets id;
  let backoff := reconnect_backoff (config k) in
  reconnect_loop shutdown (Z.to_nat (max_attempts backoff) + 1) 1 (initial_delay_ms backoff).
End operations.

(** * The builder *)
Definition MAX_BUILDER_CALLBACKS : nat := 1000.
Section builder.
Context {W : Type}.
Inductive StoredCallback :=
| StoredTelegram (callback : TelegramCallbackFn W) (filter : TelegramFilter) (include_outgoing : bool)
| StoredConnection (callback : ConnectionCallbackFn W).
Record KnxBuilder := MkKnxBuilder {
  b_config : ConnectionConfig;
  b_memory_limit_mb : Z;
  b_max_connections : Z;
  stored_callbacks : list StoredCallback;
}.
Definition KnxBuilder_new : KnxBuilder := MkKnxBuilder ConnectionConfig_default 64 10 [].
Definition with_config (f : ConnectionConfig → ConnectionConfig) (b : KnxBuilder) : KnxBuilder :=
  MkKnxBuilder (f (b_config b)) (b_memory_limit_mb b) (b_max_connections b) (stored_callbacks b).
Definition KnxBuilder_connection_type (t : ConnectionType) : KnxBuilder → KnxBuilder := with_config (λ c,
  MkConnectionConfig t (gateway_ip c) (gateway_port c) (local_ip c) (individual_address c) (security c) (timeout_ms c)
    (auto_reconnect c) (reconnect_backoff c) (tcp_config c)).
Definition KnxBuilder_gateway_ip (ip : IpAddr) : KnxBuilder → KnxBuilder := with_config (λ c,
  MkConnectionConfig (connection_type c) (Some ip) (gateway_port c) (local_ip c) (individual_address c) (security c)
    (timeout_ms c) (auto_reconnect c) (reconnect_backoff c) (tcp_config c)).
Definition KnxBuilder_gateway_port (port : Z) : KnxBuilder → KnxBuilder := with_config (λ c,
  MkConnectionConfig (connection_type c) (gateway_ip c) (Some port) (local_ip c) (individual_address c) (security c)
    (timeout_ms c) (auto_reconnect c) (reconnect_backoff c) (tcp_config c)).
Definition KnxBuilder_local_ip (ip : IpAddr) : KnxBuilder → KnxBuilder := with_config (λ c,
  MkConnectionConfig (connection_type c) (gateway_ip c) (gateway_port c) (Some ip) (individual_address c) (security c)
    (timeout_ms c) (auto_reconnect c) (reconnect_backoff c) (tcp_config c)).
Definition KnxBuilder_individual_address (a : IndividualAddress) : KnxBuilder → KnxBuilder := with_config (λ c,
  MkConnectionConfig (connection_type c) (gateway_ip c) (gateway_port c) (local_ip c) a (security c)
    (timeout_ms c) (auto_reconnect c) (reconnect_backoff c) (tcp_config c)).
Definition KnxBuilder_timeout_ms (t : Z) : KnxBuilder → KnxBuilder := with_config (λ c,
  MkConnectionConfig (connection_type c) (gateway_ip c) (gateway_port c) (local_ip c) (individual_address c) (security c)
    t (auto_reconnect c) (reconnect_backoff c) (tcp_config c)).
Definition KnxBuilder_auto_reconnect (enabled : bool) : KnxBuilder → KnxBuilder := with_config (λ c,
  MkConnectionConfig (connection_type c) (gateway_ip c) (gateway_port c) (local_ip c) (individual_address c) (security c)
    (timeout_ms c) enabled (reconnect_backoff c) (tcp_config c)).
Definition KnxBuilder_memory_limit_mb (limit : Z) (b : KnxBuilder) : KnxBuilder :=
  MkKnxBuilder (b_config b) limit (b_max_connections b) (stored_callbacks b).
Definition KnxBuilder_max_connections (max : Z) (b : KnxBuilder) : KnxBuilder :=
  MkKnxBuilder (b_config b) (b_memory_limit_mb b) max (stored_callbacks b).

Definition too_many_callbacks : KnxError :=
  config_error (ValidationError ("Maximum number of builder callbacks (" +:+ dec_nat MAX_BUILDER_CALLBACKS +:+ ") exceeded")).
(** The three registrations check the bound and push. *)
Definition store_callback (s : StoredCallback) (b : KnxBuilder) : result KnxBuilder :=
  if (MAX_BUILDER_CALLBACKS <=? length (stored_callbacks b))%nat then Err too_many_callbacks
  else Ok (MkKnxBuilder (b_config b) (b_memory_limit_mb b) (b_max_connections b) (stored_callbacks b ++ [s])).
Definition KnxBuilder_telegram_callback (f : TelegramCallbackFn W) : KnxBuilder → result KnxBuilder :=
  store_callback (StoredTelegram f All false).
Definition KnxBuilder_telegram_callback_filtered (f : TelegramCallbackFn W) (filter : TelegramFilter) (include_outgoing : bool)
    : KnxBuilder → result KnxBuilder := store_callback (StoredTelegram f filter include_outgoing).
Definition KnxBuilder_connection_callback (f : ConnectionCallbackFn W) : KnxBuilder → result KnxBuilder :=
  store_callback (StoredConnection f).

(** Transferring a stored callback to the event handler; the handle is
    dropped. *)
Definition transfer (s : StoredCallback) : eff (EventHandler W) KnxError CallbackHandle :=
  match s with
  | StoredTelegram f filter include_outgoing => register_telegram_callback_boxed f filter include_outgoing
  | StoredConnection f => register_connection_callback_boxed f
  end.
Definition transfer_all (h : EventHandler W) (l : list StoredCallback) : EventHandler W :=
  foldl (λ h s, (transfer s h).2) h l.
Definition KnxBuilder_build {S C} (b : KnxBuilder) (s : S) : result (Knx S C * EventHandler W) :=
  knx ← Knx_new_with_options (b_config b) s;
  Ok (knx, transfer_all EventHandler_new (stored_callbacks b)).
End builder.
#[global] Arguments StoredCallback : clear implicits.
#[global] Arguments KnxBuilder : clear implicits.

(** * Lemmas *)
Section lemmas.
Context {S C : Type} `{Connections S C}.
Implicit Types k : Knx S C.
Lemma on_outside_run {A} (m : eff S KnxError A) k :
  on_outside m k = ((m (outside k)).1, set_outside (m (outside k)).2 k).
Proof. unfold on_outside. by destruct (m (outside k)). Qed.
Lemma enter_run s k : enter s k = (Ok tt, set_notified (notified k ++ [KnxState.into s]) (set_state s k)).
Proof. done. Qed.
Lemma start_task_run t k : start_task t k =
  (Ok tt, set_slots (with_slot t true (task_slots k)) (set_spawned (spawned k ++ [t]) k)).
Proof. done. Qed.

(** Routing has its failures inspected, tunnelling returns early with them. *)
Definition reports_error (t : ConnectionType) : bool :=
  match t with Routing | SecureRouting => true | _ => false end.
Definition opened (c : C) k : Knx S C :=
  if decide (connection_type (config k) = Tunneling) then set_channel_id (Some (default 0 (tunnel_channel c))) k else k.
(** [connect] opens its connection as [create_connection] does. *)
Lemma connection_result_run k :
  connection_result k =
  let '(r, s) := create_connection (config k) (outside k) in
  match r with
  | Ok c => (Ok (Ok c), opened c (set_outside s k))
  | Err e => if reports_error (connection_type (config k)) then (Ok (Err e), set_outside s k) else (Err e, set_outside s k)
  | Panic => (Panic, set_outside s k)
  end.
Proof.
  assert (set_outside (outside k) k = k) as Eo by by destruct k.
  unfold connection_result, create_connection, opened. rewrite eff_bind_run. cbn [gets id].
  destruct (connection_type (config k)) eqn:Et; cbn [reports_error].
  - rewrite !eff_bind_run. cbn [lift]. destruct (gateway_addr (config k)); [|by rewrite Eo..].
    destruct (decide (Tunneling = SecureTunneling)) as [|_]; [done|]. rewrite eff_bind_run, on_outside_run.
    destruct (open_udp a (outside k)) as [[] s]; cbn; [|done..].
    by rewrite Et.
  - rewrite !eff_bind_run. cbn [lift]. destruct (gateway_addr (config k)); [|by rewrite Eo..].
    rewrite eff_bind_run, on_outside_run. destruct (open_tcp _ _ (outside k)) as [[] s]; cbn; [|done..].
    by rewrite Et.
  - rewrite eff_bind_run. unfold attempt. rewrite on_outside_run. destruct (open_routing _ (outside k)) as [[] s]; cbn; [|done..].
    by rewrite Et.
  - rewrite !eff_bind_run. cbn [lift]. destruct (gateway_addr (config k)); [|by rewrite Eo..].
    destruct (decide (SecureTunneling = SecureTunneling)) as [_|]; [|done]. cbn. by rewrite Eo.
  - cbn. by rewrite Eo.
Qed.
Lemma connect_run k :
  Knx_connect k =
  let '(r, s) := create_connection (config k) (outside k) in
  let k1 := set_outside s (set_notified (notified k ++ [ConnectionState.Connecting]) (set_state KnxState.Connecting k)) in
  match r with
  | Ok c => enter KnxState.Connected (set_connection (Some c) (opened c k1))
  | Err e => (Err e, if reports_error (connection_type (config k)) then (enter KnxState.Error k1).2 else k1)
  | Panic => (Panic, k1)
  end.
Proof.
  unfold Knx_connect. rewrite eff_bind_run, enter_run, eff_bind_run, connection_result_run. cbn [config outside set_notified set_state].
  destruct (create_connection (config k) (outside k)) as [[c|e|] s]; [done| |done].
  by destruct (reports_error (connection_type (config k))).
Qed.
Lemma disconnect_run k :
  Knx_disconnect k =
  let k1 := set_connection None (set_notified (notified k ++ [ConnectionState.Disconnecting]) (set_state KnxState.Disconnecting k)) in
  match connection k with
  | None => enter KnxState.Disconnected k1
  | Some c =>
      let '(r, s) := connection_close c (outside k) in
      match r with Ok _ => enter KnxState.Disconnected (set_outside s k1) | Err e => (Err e, set_outside s k1) | Panic => (Panic, set_outside s k1) end
  end.
Proof.
  unfold Knx_disconnect. rewrite eff_bind_run, enter_run, eff_bind_run. cbn [gets id].
  rewrite eff_bind_run. cbn [connection set_notified set_state]. destruct (connection k) as [c|]; [|done].
  unfold modify at 1. rewrite eff_bind_run, on_outside_run. cbn [outside set_connection set_notified set_state].
  by destruct (connection_close c (outside k)) as [[] s].
Qed.

(** ** Reconnecting *)
Fixpoint delay_sequence (b : BackoffConfig) (delay_ms : Z) (n : nat) : list Z :=
  match n with O => [] | Datatypes.S n => delay_ms :: delay_sequence b (next_delay b delay_ms) n end.
(** What an attempt that succeeds leaves behind. *)
Definition reconnected (c : C) (s : S) k : Knx S C :=
  let k := set_state KnxState.Connected (set_connection (Some c) (set_outside s k)) in
  let k := match establish_connection c (config k) with Some id => set_channel_id (Some id) k | None => k end in
  set_notified (notified k ++ [ConnectionState.Connected]) k.
(** The attempts from [att] on, [n] of which fail first. *)
Inductive attempts (cfg : ConnectionConfig) : (nat → bool) → Z → nat → S → S → Prop :=
| attempts_none shutdown att s : attempts cfg shutdown att 0 s s
| attempts_fail shutdown att n s e s1 s2 : shutdown 0%nat = false → att ≤ max_attempts (reconnect_backoff cfg) →
    create_connection cfg s = (Err e, s1) → attempts cfg (λ pass, shutdown (Datatypes.S pass)) (att + 1) n s1 s2 →
    attempts cfg shutdown att (Datatypes.S n) s s2.
(** One pass of the loop. *)
Lemma reconnect_pass `{Profile} shutdown fuel att delay k :
  let b := reconnect_backoff (config k) in
  reconnect_loop shutdown (Datatypes.S fuel) att delay k =
  if shutdown 0%nat then (Ok ([], ShutDown), k)
  else if max_attempts b <? att then (Ok ([], GivenUp), k)
  else match create_connection (config k) (outside k) with
       | (Ok c, s) => (Ok ([], Reconnected), reconnected c s k)
       | (Err _, s) =>
           match checked32 (att + 1) with
           | Ok att => let '(r, k') := reconnect_loop (λ pass, shutdown (Datatypes.S pass)) fuel att (next_delay b delay) (set_outside s k) in
               ('(delays, e) ← r; Ok (delay :: delays, e), k')
           | Err e => (Err e, set_outside s k)
           | Panic => (Panic, set_outside s k)
           end
       | (Panic, s) => (Panic, set_outside s k)
       end.
Proof.
  cbv zeta. cbn [reconnect_loop]. rewrite eff_bind_run. cbn [gets id]. destruct (shutdown 0%nat); [done|].
  destruct (max_attempts (reconnect_backoff (config k)) <? att); [done|]. rewrite eff_bind_run. unfold attempt. rewrite on_outside_run.
  destruct (create_connection (config k) (outside k)) as [[c|e|] s]; cbn [fst snd]; [| |done].
  - unfold reconnected. cbv zeta.
    change (config (set_state KnxState.Connected (set_connection (Some c) (set_outside s k)))) with (config k).
    by destruct (establish_connection c (config k)).
  - rewrite eff_bind_run. cbn [lift]. destruct (checked32 (att + 1)); [|done..]. rewrite eff_bind_run.
    by destruct (reconnect_loop _ _ _ _ _) as [[[]| |] ?].
Qed.
Lemma reconnect_loop_run `{Profile} shutdown fuel att delay k : max_attempts (reconnect_backoff (config k)) < 2 ^ 32 - 1 → ∃ n s,
  attempts (config k) shutdown att n (outside k) s ∧
  (reconnect_loop shutdown fuel att delay k =
     (Ok (delay_sequence (reconnect_backoff (config k)) delay n, OutOfFuel), set_outside s k) ∧ n = fuel ∨
   reconnect_loop shutdown fuel att delay k =
     (Ok (delay_sequence (reconnect_backoff (config k)) delay n, ShutDown), set_outside s k) ∧ shutdown n = true ∨
   reconnect_loop shutdown fuel att delay k =
     (Ok (delay_sequence (reconnect_backoff (config k)) delay n, GivenUp), set_outside s k) ∧
     max_attempts (reconnect_backoff (config k)) < att + Z.of_nat n ∨
   att + Z.of_nat n ≤ max_attempts (reconnect_backoff (config k)) ∧
     ((∃ c s', create_connection (config k) s = (Ok c, s') ∧ reconnect_loop shutdown fuel att delay k =
        (Ok (delay_sequence (reconnect_backoff (config k)) delay n, Reconnected), reconnected c s' k)) ∨
      (∃ s', create_connection (config k) s = (Panic, s') ∧ reconnect_loop shutdown fuel att delay k = (Panic, set_outside s' k)))).
Proof.
  assert (∀ k : Knx S C, set_outside (outside k) k = k) as Eo by by intros [].
  revert shutdown att delay k. induction fuel as [|fuel IH]; intros shutdown att delay k Hm.
  { exists 0%nat, (outside k). split; [constructor|]. left. by rewrite Eo. }
  rewrite reconnect_pass. cbv zeta. destruct (shutdown 0%nat) eqn:Es.
  { exists 0%nat, (outside k). split; [constructor|]. right. left. by rewrite Eo. }
  destruct (max_attempts (reconnect_backoff (config k)) <? att) eqn:Em.
  { exists 0%nat, (outside k). split; [constructor|]. right. right. left. rewrite Eo. split; [done|lia]. }
  destruct (create_connection (config k) (outside k)) as [[c|e|] s1] eqn:Ec.
  - exists 0%nat, (outside k). split; [constructor|]. right. right. right. split; [lia|]. left. by exists c, s1.
  - unfold checked32. rewrite (proj2 (Z.leb_gt _ _)) by lia.
    destruct (IH (λ pass, shutdown (Datatypes.S pass)) (att + 1) (next_delay (reconnect_backoff (config k)) delay) (set_outside s1 k) Hm)
      as (n & s & Ha & Hr).
    cbn [config outside set_outside] in Ha, Hr. exists (Datatypes.S n), s. split; [eapply attempts_fail; [done|lia|exact Ec|exact Ha]|].
    replace (att + Z.of_nat (Datatypes.S n)) with (att + 1 + Z.of_nat n) by lia. cbn [delay_sequence].
    destruct Hr as [[-> ->]|[[-> Hx]|[[-> Hx]|[Hx [(c & s' & Hc & ->)|(s' & Hc & ->)]]]]]; cbn.
    + by left.
    + right. by left.
    + right. right. by left.
    + right. right. right. split; [done|]. left. by exists c, s'.
    + right. right. right. split; [done|]. right. by exists s'.
  - exists 0%nat, (outside k). split; [constructor|]. right. right. right. split; [lia|]. right. by exists s1.
Qed.
(** With the largest number of attempts that can be configured, the number of
    the attempt overflows before it exceeds the bound. *)
Lemma reconnect_loop_unbounded `{Profile} shutdown fuel att delay k :
  max_attempts (reconnect_backoff (config k)) = 2 ^ 32 - 1 → 0 ≤ att < 2 ^ 32 → (∀ pass, shutdown pass = false) →
  (∀ s, ∃ e s', create_connection (config k) s = (Err e, s')) →
  ∃ s, reconnect_loop shutdown fuel att delay k =
    (if debug_build && (2 ^ 32 - att <=? Z.of_nat fuel) then Panic
     else Ok (delay_sequence (reconnect_backoff (config k)) delay fuel, OutOfFuel), set_outside s k).
Proof.
  intros Hm Ha Hs Hf. revert shutdown att delay k Hm Ha Hs Hf. induction fuel as [|fuel IH]; intros shutdown att delay k Hm Ha Hs Hf.
  { exists (outside k). rewrite (proj2 (Z.leb_gt _ _)) by lia. rewrite andb_false_r. by destruct k. }
  rewrite reconnect_pass. cbv zeta. rewrite Hs, (proj2 (Z.ltb_ge _ _)) by lia. destruct (Hf (outside k)) as (e & s & ->).
  unfold checked32. destruct (decide (att = 2 ^ 32 - 1)) as [->|Hne].
  - rewrite (proj2 (Z.leb_le _ (2 ^ 32 - 1 + 1))) by lia. rewrite (proj2 (Z.leb_le _ (Z.of_nat (Datatypes.S fuel)))) by lia.
    destruct debug_build eqn:Ed; [by exists s|].
    destruct (IH (λ pass, shutdown (Datatypes.S pass)) ((2 ^ 32 - 1 + 1) mod 2 ^ 32) (next_delay (reconnect_backoff (config k)) delay) (set_outside s k) Hm
      ltac:(by vm_compute) (λ pass, Hs (Datatypes.S pass)) Hf) as [s' ->].
    by exists s'.
  - rewrite (proj2 (Z.leb_gt _ _)) by lia.
    destruct (IH (λ pass, shutdown (Datatypes.S pass)) (att + 1) (next_delay (reconnect_backoff (config k)) delay) (set_outside s k) Hm
      ltac:(lia) (λ pass, Hs (Datatypes.S pass)) Hf) as [s' ->].
    exists s'. assert ((2 ^ 32 - (att + 1) <=? Z.of_nat fuel) = (2 ^ 32 - att <=? Z.of_nat (Datatypes.S fuel))) as ->
      by (apply eq_true_iff_eq; rewrite !Z.leb_le; lia).
    by destruct (debug_build && _).
Qed.
Lemma attempts_bound shutdown cfg att n s s' :
  attempts cfg shutdown att n s s' → n = O ∨ att + Z.of_nat n ≤ max_attempts (reconnect_backoff cfg) + 1.
Proof. induction 1 as [|shutdown att n s e s1 s2 _ Hm _ _ IH]; [by left|]. right. destruct IH as [->|IH]; lia. Qed.
Lemma delay_sequence_bound b d n : Forall (λ x, x ≤ max_delay_ms b) (tail (delay_sequence b d n)).
Proof.
  destruct n as [|n]; [constructor|]. cbn [delay_sequence tail].
  assert (next_delay b d ≤ max_delay_ms b) as Hd by apply Z.le_min_r. revert Hd. generalize (next_delay b d). clear d.
  induction n as [|n IH]; intros d Hd; [constructor|]. cbn. constructor; [done|]. apply IH, Z.le_min_r.
Qed.

(** ** The control task *)
Definition lost (s : S) k : Knx S C :=
  set_outside s (set_connection None (set_notified (notified k ++ [ConnectionState.Disconnected]) (set_state KnxState.Disconnected k))).
Lemma control_lost_run `{Profile} c ch reason k :
  control_pass c (TunnelLost ch reason) k =
  let '(r, s) := match connection k with Some x => connection_close x (outside k) | None => (Ok tt, outside k) end in
  match r with
  | Panic => (Panic, lost s k)
  | _ =>
      if auto_reconnect (config k)
      then (Ok GoesOn, if reconnect_task (task_slots k) then lost s k else (start_task ReconnectTask (lost s k)).2)
      else (Ok Ends, lost s k)
  end.
Proof.
  unfold control_pass. rewrite eff_bind_run, enter_run, eff_bind_run. cbn [gets id].
  rewrite eff_bind_run. unfold modify at 1. rewrite eff_bind_run.
  cbn [connection set_connection set_notified set_state config task_slots].
  destruct (connection k) as [x|].
  - rewrite eff_bind_run. unfold attempt. rewrite on_outside_run. cbn [outside set_connection set_notified set_state].
    destruct (connection_close x (outside k)) as [[|e|] s]; cbn [fst snd]; [..|done].
    all: by destruct (auto_reconnect (config k)), (reconnect_task (task_slots k)).
  - by destruct (auto_reconnect (config k)), (reconnect_task (task_slots k)).
Qed.
(** The answer to a disconnect request. *)
Definition disconnect_answer (ch : Z) : list Z :=
  KnxIpFrame_serialize (MkKnxIpFrame (MkKnxIpHeader 6 0x10 ServiceType.DisconnectResponse 8)
    (DisconnectResponse_serialize (DisconnectResponse_new ch DISCONNECT_STATUS_OK))).
Lemma control_answer_run `{Profile} c ch k :
  control_pass c (SendDisconnectResponse ch) k =
  let '(r, s) := connection_send c (disconnect_answer ch) (outside k) in
  match r with
  | Panic => (Panic, set_outside s k)
  | _ => (Ok GoesOn, set_channel_id None (set_outside s k))
  end.
Proof.
  unfold control_pass. rewrite eff_bind_run. rewrite KnxIpFrame_new_Ok by (cbn; lia). cbn [lift]. rewrite eff_bind_run.
  unfold attempt. rewrite on_outside_run.
  match goal with |- context [connection_send c ?b] => change b with (disconnect_answer ch) end.
  by destruct (connection_send c (disconnect_answer ch) (outside k)) as [[] s].
Qed.

(** ** Runs

    The calls of an application and the events its tasks handle, in any order. *)
Inductive life_op :=
| OpConnect | OpDisconnect | OpStart | OpStop
| OpEvent (c : C) (event : ConnectionControlEvent)
| OpReconnect (shutdown : nat → bool).
Definition life_step `{Profile} k (op : life_op) : Knx S C :=
  match op with
  | OpConnect => (Knx_connect k).2
  | OpDisconnect => (Knx_disconnect k).2
  | OpStart => (Knx_start k).2
  | OpStop => (Knx_stop k).2
  | OpEvent c event => (control_pass c event k).2
  | OpReconnect shutdown => (reconnection_task shutdown k).2
  end.
Definition life_run `{Profile} (ops : list life_op) k : Knx S C := foldl life_step k ops.
Lemma life_run_ind `{Profile} (P : Knx S C → Prop) ops k :
  (∀ k op, op ∈ ops → P k → P (life_step k op)) → P k → P (life_run ops k).
Proof.
  unfold life_run. revert k. induction ops as [|op ops IH]; intros k Hs Hk; [done|]. cbn. apply IH.
  - intros k' op' Hop. apply Hs. by right.
  - apply Hs; [by left|done].
Qed.

(** An operation that does not stop: what it does to the slots, the control
    receiver and the tasks. *)
Definition is_reconnect (t : task C) : bool := match t with ReconnectTask => true | _ => false end.
Definition reconnects k : nat := length (filter (λ t, is_reconnect t = true) (spawned k)).
Definition same_tasks k k' : Prop :=
  task_slots k' = task_slots k ∧ spawned k' = spawned k ∧ control_rx k' = control_rx k ∧ shutdown_flag k' = shutdown_flag k.
Lemma opened_same c k : same_tasks k (opened c k) ∧ state (opened c k) = state k ∧ notified (opened c k) = notified k.
Proof. unfold opened. by destruct (decide _). Qed.
Lemma connect_same k : same_tasks k (Knx_connect k).2.
Proof.
  rewrite connect_run. destruct (create_connection (config k) (outside k)) as [[c|e|] s]; [|by destruct (reports_error _)|done].
  cbv zeta. match goal with |- context [opened c ?k1] => destruct (opened_same c k1) as [(Ha & Hb & Hc & Hd) _] end.
  split_and!; cbn in *; congruence.
Qed.
Lemma disconnect_same k : same_tasks k (Knx_disconnect k).2.
Proof. rewrite disconnect_run. destruct (connection k) as [c|]; [|done]. by destruct (connection_close c (outside k)) as [[] s]. Qed.
Lemma reconnected_fields c s k :
  same_tasks k (reconnected c s k) ∧ config (reconnected c s k) = config k ∧ state (reconnected c s k) = KnxState.Connected ∧
  connection (reconnected c s k) = Some c ∧ notified (reconnected c s k) = notified k ++ [ConnectionState.Connected].
Proof. unfold reconnected. cbv zeta. by destruct (establish_connection c _). Qed.
Lemma reconnect_loop_cases `{Profile} shutdown fuel att delay k : ∃ s,
  (reconnect_loop shutdown fuel att delay k).2 = set_outside s k ∨ ∃ c, (reconnect_loop shutdown fuel att delay k).2 = reconnected c s k.
Proof.
  revert shutdown att delay k. induction fuel as [|fuel IH]; intros shutdown att delay k.
  { exists (outside k). left. by destruct k. }
  rewrite reconnect_pass. cbv zeta. destruct (shutdown 0%nat); [exists (outside k); left; by destruct k|].
  destruct (_ <? _); [exists (outside k); left; by destruct k|].
  destruct (create_connection (config k) (outside k)) as [[c|e|] s]; [exists s; right; by exists c| |exists s; by left].
  destruct (checked32 (att + 1)) as [x|e'|]; [|exists s; by left..].
  destruct (IH (λ pass, shutdown (Datatypes.S pass)) x (next_delay (reconnect_backoff (config k)) delay) (set_outside s k)) as [s' IHs].
  destruct (reconnect_loop _ _ _ _ _) as [r k']. cbn [snd] in IHs |- *. exists s'. destruct IHs as [->|[c ->]]; [by left|right; by exists c].
Qed.
Lemma reconnection_cases `{Profile} shutdown k : ∃ s,
  (reconnection_task shutdown k).2 = set_outside s k ∨ ∃ c, (reconnection_task shutdown k).2 = reconnected c s k.
Proof. unfold reconnection_task. rewrite eff_bind_run. cbn [gets id]. apply reconnect_loop_cases. Qed.
Lemma start_cases k :
  connection k = None ∧ Knx_start k = (Err not_connected, k) ∨
  (∃ c, connection k = Some c ∧ control_rx k = false ∧ Knx_start k = (Err receiver_taken, k)) ∨
  ∃ c, connection k = Some c ∧ control_rx k = true ∧ ∃ k', Knx_start k = (Ok tt, k') ∧ control_rx k' = false ∧
    spawned k' = spawned k ++ [ControlTask c; ReceivingTask c; ProcessingTask; SendingTask c; RefreshTask] ∧
    reconnect_task (task_slots k') = reconnect_task (task_slots k) ∧
    shutdown_flag k' = shutdown_flag k ∧ connection k' = connection k ∧ state k' = state k ∧ notified k' = notified k.
Proof.
  unfold Knx_start, start_connection_control_task. rewrite eff_bind_run. cbn [gets]. destruct (connection k) as [c|] eqn:Ec; [|by left].
  right. rewrite eff_bind_run. cbn [lift ok_or]. rewrite eff_bind_run, eff_bind_run. cbn [gets]. destruct (control_rx k) eqn:Er.
  - right. exists c. split; [done|]. split; [done|]. eexists. split; [reflexivity|]. cbn.
    destruct (task_slots k) as [? ? ? ? ? ?]. rewrite <-!app_assoc. by rewrite Ec.
  - left. exists c. split; [done|]. split; [done|]. cbn. f_equal. destruct k. cbn in *. by subst.
Qed.

(** A connected client has a connection, and the callbacks were last told the
    state the client is in. *)
Definition consistent k : Prop :=
  (state k = KnxState.Connected → is_Some (connection k)) ∧
  last (ConnectionState.Disconnected :: notified k) = Some (KnxState.into (state k)) ∧ shutdown_flag k = false.
Lemma last_notified l x : last (ConnectionState.Disconnected :: l ++ [x]) = Some x.
Proof. by rewrite app_comm_cons, last_snoc. Qed.
Ltac consistent_tac := split_and!; cbn in *; rewrite ?last_notified; done.
Lemma lost_consistent s k : shutdown_flag k = false → consistent (lost s k).
Proof. intros Hs. consistent_tac. Qed.
Lemma connect_consistent k : consistent k → consistent (Knx_connect k).2.
Proof.
  intros (_ & _ & Hf). rewrite connect_run.
  destruct (create_connection (config k) (outside k)) as [[c|e|] s]; cbv zeta; [|destruct (reports_error _); consistent_tac|consistent_tac].
  match goal with |- context [opened c ?k1] => destruct (opened_same c k1) as [(Ha & Hb & Hc & Hd) [He Hn]] end.
  cbn in *. split_and!; cbn; [by eexists|by rewrite last_notified|congruence].
Qed.
Lemma life_step_consistent `{Profile} k op : consistent k → consistent (life_step k op).
Proof.
  intros Hk. destruct op as [| | | |c ev|shutdown]; cbn [life_step].
  - by apply connect_consistent.
  - destruct Hk as (_ & _ & Hf). rewrite disconnect_run.
    destruct (connection k) as [c|]; [destruct (connection_close c (outside k)) as [[] s]|]; consistent_tac.
  - destruct Hk as (Hc & Hn & Hf). destruct (start_cases k) as [[_ ->]|[(c & _ & _ & ->)|(c & Ec & _ & k' & -> & _ & _ & _ & H1 & H2 & H3 & H4)]];
      [done..|]. unfold consistent. cbn [snd]. by rewrite H1, H2, H3, H4.
  - destruct Hk as (Hc & Hn & _). done.
  - destruct ev as [ch reason|ch].
    + destruct Hk as (_ & _ & Hf). rewrite control_lost_run.
      destruct (match connection k with Some x => _ | None => _ end) as [[] s]; [..|by apply lost_consistent];
        destruct (auto_reconnect (config k)), (reconnect_task (task_slots k)); by apply lost_consistent.
    + rewrite control_answer_run. by destruct (connection_send _ _ _) as [[] s].
  - destruct (reconnection_cases shutdown k) as [s [->|[c ->]]]; [done|]. destruct Hk as (_ & _ & Hf).
    destruct (reconnected_fields c s k) as ((_ & _ & _ & Hs) & _ & E1 & E2 & E3).
    split_and!; [rewrite E2; by eexists|by rewrite E1, E3, last_notified|by rewrite Hs].
Qed.

(** At most one reconnection task, while the slot is never emptied. *)
Definition one_reconnect k : Prop := reconnects k = if reconnect_task (task_slots k) then 1%nat else 0%nat.
Lemma same_tasks_reconnects k k' : same_tasks k k' → one_reconnect k → one_reconnect k'.
Proof. intros (Hs & Hp & _). unfold one_reconnect, reconnects. by rewrite Hs, Hp. Qed.
Lemma start_reconnect_one k : reconnect_task (task_slots k) = false → one_reconnect k → one_reconnect (start_task ReconnectTask k).2.
Proof.
  intros Hs. unfold one_reconnect, reconnects. rewrite Hs, start_task_run. cbn. rewrite filter_app, length_app. cbn.
  intros ->. by destruct (task_slots k).
Qed.
Lemma life_step_one_reconnect `{Profile} k op : op ≠ OpStop → one_reconnect k → one_reconnect (life_step k op).
Proof.
  intros Hop Hk. destruct op as [| | | |c ev|shutdown]; cbn [life_step]; [| | |done| |].
  - by eapply same_tasks_reconnects; [apply connect_same|].
  - by eapply same_tasks_reconnects; [apply disconnect_same|].
  - destruct (start_cases k) as [[_ ->]|[(c & _ & _ & ->)|(c & _ & _ & k' & -> & _ & Hp & Hr & _)]]; [done..|].
    unfold one_reconnect, reconnects in *. cbn [snd]. rewrite Hr, Hp, filter_app, length_app, Hk. apply Nat.add_0_r.
  - destruct ev as [ch reason|ch].
    + rewrite control_lost_run. destruct (match connection k with Some x => _ | None => _ end) as [[] s]; [..|done];
        destruct (auto_reconnect (config k)), (reconnect_task (task_slots k)) eqn:E; try done; by apply start_reconnect_one.
    + rewrite control_answer_run. by destruct (connection_send _ _ _) as [[] s].
  - destruct (reconnection_cases shutdown k) as [s [->|[c ->]]]; [done|].
    eapply same_tasks_reconnects; [apply reconnected_fields|done].
Qed.

(** Once the control receiver is taken, all tasks are those of the one start. *)
Definition holds (c : C) (t : task C) : Prop :=
  match t with ControlTask x | ReceivingTask x | SendingTask x => x = c | _ => True end.
Definition started (c : C) k : Prop := control_rx k = false ∧ Forall (holds c) (spawned k).
(** What a step adds to the tasks: those of a start, or the reconnection task. *)
Lemma life_step_tasks `{Profile} k op :
  (control_rx (life_step k op) = control_rx k ∧ ∃ l, spawned (life_step k op) = spawned k ++ l ∧ Forall (λ t, ∀ c, holds c t) l) ∨
  control_rx k = true ∧ control_rx (life_step k op) = false.
Proof.
  assert (∀ k', same_tasks k k' → control_rx k' = control_rx k ∧
    ∃ l, spawned k' = spawned k ++ l ∧ Forall (λ t, ∀ c, holds c t) l) as Hsame.
  { intros k' (_ & -> & -> & _). split; [done|]. exists []. by rewrite app_nil_r. }
  destruct op as [| | | |x ev|shutdown]; cbn [life_step].
  - left. apply Hsame, connect_same.
  - left. apply Hsame, disconnect_same.
  - destruct (start_cases k) as [[_ ->]|[(c & _ & _ & ->)|(c & _ & Hr & k' & -> & Hr' & _)]]; [by left; apply Hsame..|by right].
  - left. split; [done|]. exists []. by rewrite app_nil_r.
  - left. destruct ev as [ch reason|ch].
    + rewrite control_lost_run. destruct (match connection k with Some x => _ | None => _ end) as [[] s]; [..|by apply Hsame];
        destruct (auto_reconnect (config k)), (reconnect_task (task_slots k)); try (by apply Hsame);
        (split; [done|]); exists [ReconnectTask]; by split; [|repeat constructor].
    + rewrite control_answer_run. destruct (connection_send _ _ _) as [[] s]; by apply Hsame.
  - left. destruct (reconnection_cases shutdown k) as [s [->|[y ->]]]; [by apply Hsame|]. apply Hsame, reconnected_fields.
Qed.
Definition unstarted k : Prop := control_rx k = true → Forall (λ t, ∀ c, holds c t) (spawned k).
Lemma life_step_unstarted `{Profile} k op : unstarted k → unstarted (life_step k op).
Proof.
  intros Hk Hr. destruct (life_step_tasks k op) as [(E & l & -> & Hl)|[_ E]]; [|congruence].
  apply Forall_app. split; [|done]. apply Hk. congruence.
Qed.
Lemma life_step_started `{Profile} c k op : started c k → started c (life_step k op).
Proof.
  intros [Hr Hp]. destruct (life_step_tasks k op) as [(E & l & El & Hl)|[E _]]; [|congruence].
  split; [congruence|]. rewrite El. apply Forall_app. split; [done|]. eapply Forall_impl; [exact Hl|auto].
Qed.
Lemma new_run cfg s k : Knx_new_with_options cfg s = Ok k →
  config k = cfg ∧ consistent k ∧ one_reconnect k ∧ control_rx k = true ∧ spawned k = [CleanupTask] ∧ connection k = None ∧ outside k = s.
Proof.
  unfold Knx_new_with_options. destruct (Knx_validate_config cfg); [|done..]. cbn. intros [= <-]. done.
Qed.
End lemmas.
#[global] Arguments life_op : clear implicits.

(** ** The builder *)
Section builder_lemmas.
Context {W : Type}.
Implicit Types (b : KnxBuilder W) (h : EventHandler W).
Definition telegram_part (s : StoredCallback W) : option (TelegramCallbackFn W * TelegramFilter * bool) :=
  match s with StoredTelegram f filter o => Some (f, filter, o) | _ => None end.
Definition connection_part (s : StoredCallback W) : option (ConnectionCallbackFn W) :=
  match s with StoredConnection f => Some f | _ => None end.
Lemma transfer_run s h :
  telegram_callbacks (transfer s h).2 = telegram_callbacks h ++
    option_list ((λ p, MkTelegramCallbackEntry (MkCallbackHandle (next_id h)) p.1.1 p.1.2 p.2) <$> telegram_part s) ∧
  connection_callbacks (transfer s h).2 = connection_callbacks h ++
    option_list (MkConnectionCallbackEntry (MkCallbackHandle (next_id h)) <$> connection_part s) ∧
  next_id (transfer s h).2 = (next_id h + 1) mod 2 ^ 64.
Proof. destruct s; cbn; rewrite ?app_nil_r; done. Qed.
Lemma transfer_all_run l h :
  (λ e, (te_callback e, te_filter e, te_include_outgoing e)) <$> telegram_callbacks (transfer_all h l) =
    ((λ e, (te_callback e, te_filter e, te_include_outgoing e)) <$> telegram_callbacks h) ++ omap telegram_part l ∧
  ce_callback <$> connection_callbacks (transfer_all h l) = (ce_callback <$> connection_callbacks h) ++ omap connection_part l ∧
  (next_id h + Z.of_nat (length l) < 2 ^ 64 → 0 ≤ next_id h → next_id (transfer_all h l) = next_id h + Z.of_nat (length l)).
Proof.
  revert h. induction l as [|s l IH]; intros h; cbn [omap list_omap transfer_all foldl].
  { rewrite !app_nil_r. split_and!; [done..|]. cbn. lia. }
  destruct (IH (transfer s h).2) as (I1 & I2 & I3). unfold transfer_all in *. destruct (transfer_run s h) as (E1 & E2 & E3).
  rewrite I1, I2, E1, E2, !fmap_app, <-!app_assoc. split_and!.
  - destruct s; cbn; [|done]. done.
  - by destruct s.
  - cbn [length]. intros Hn Hp. rewrite I3, E3; rewrite ?E3; rewrite Z.mod_small; lia.
Qed.
Lemma store_run s b : store_callback s b = Err too_many_callbacks ∧ (MAX_BUILDER_CALLBACKS ≤ length (stored_callbacks b))%nat ∨
  ∃ b', store_callback s b = Ok b' ∧ b_config b' = b_config b ∧ stored_callbacks b' = stored_callbacks b ++ [s] ∧
    (length (stored_callbacks b) < MAX_BUILDER_CALLBACKS)%nat.
Proof.
  unfold store_callback. destruct (MAX_BUILDER_CALLBACKS <=? length (stored_callbacks b))%nat eqn:E.
  - left. split; [done|]. by apply Nat.leb_le.
  - right. eexists. split_and!; [done..|]. by apply Nat.leb_gt.
Qed.
(** A chain of registrations. *)
Fixpoint store_all (l : list (StoredCallback W)) b : result (KnxBuilder W) :=
  match l with [] => Ok b | s :: l => b ← store_callback s b; store_all l b end.
Lemma store_all_run l b :
  (store_all l b = Err too_many_callbacks ∧ l ≠ [] ∧ (MAX_BUILDER_CALLBACKS < length (stored_callbacks b) + length l)%nat) ∨
  ∃ b', store_all l b = Ok b' ∧ b_config b' = b_config b ∧ stored_callbacks b' = stored_callbacks b ++ l ∧
    (l = [] ∨ length (stored_callbacks b) + length l ≤ MAX_BUILDER_CALLBACKS)%nat.
Proof.
  revert b. induction l as [|s l IH]; intros b; cbn [store_all].
  { right. exists b. rewrite app_nil_r. split_and!; [done..|by left]. }
  destruct (store_run s b) as [[-> Hl]|(b1 & -> & Ec & Es & Hl)]; cbn [mbind outcome_bind].
  { left. cbn [length]. split_and!; [done..|lia]. }
  destruct (IH b1) as [(-> & _ & H2)|(b' & -> & E1 & E2 & H2)].
  - left. rewrite Es, length_app in H2. cbn in *. split_and!; [done..|lia].
  - right. exists b'. rewrite E1, E2, Es, Ec, <-app_assoc. split_and!; [done..|]. right.
    destruct H2 as [->|H2]; [cbn; lia|]. rewrite Es, length_app in H2. cbn in *. lia.
Qed.
End builder_lemmas.

(** * Properties *)
Section properties.
Context {S C : Type} `{Connections S C} `{Profile}.
Implicit Types k : Knx S C.

(** C22: Whatever an application calls and whatever its tasks handle, in any order,
    a client in the state connected has a connection, and the callbacks were last
    told the state the client is in. *)
Theorem lifecycle_consistent cfg s k ops : Knx_new_with_options cfg s = Ok k →
  let k' := life_run ops k in
  (state k' = KnxState.Connected → is_Some (connection k')) ∧
  last (ConnectionState.Disconnected :: notified k') = Some (KnxState.into (state k')).
Proof.
  intros Hk. destruct (new_run _ _ _ Hk) as (_ & Hc & _).
  destruct (life_run_ind consistent ops k (λ k op _, life_step_consistent k op) Hc) as (H1 & H2 & _). by split.
Qed.

(** Connecting.  On success the client is connected with the connection opened
    and the callbacks are told so; a UDP tunnel's channel is remembered, a TCP
    tunnel's is not.  When routing fails the client is in the error state; when
    a tunnel fails it stays in the state connecting, and no callback hears of
    the failure. *)
Theorem connect_outcome k :
  let '(r, s) := create_connection (config k) (outside k) in
  let '(r', k') := Knx_connect k in
  outside k' = s ∧ config k' = config k ∧
  match r with
  | Ok c => r' = Ok tt ∧ state k' = KnxState.Connected ∧ connection k' = Some c ∧
      notified k' = notified k ++ [ConnectionState.Connecting; ConnectionState.Connected] ∧
      channel_id k' = (if decide (connection_type (config k) = Tunneling) then Some (default 0 (tunnel_channel c)) else channel_id k)
  | Err e => r' = Err e ∧ connection k' = connection k ∧ channel_id k' = channel_id k ∧
      if reports_error (connection_type (config k))
      then state k' = KnxState.Error ∧ notified k' = notified k ++ [ConnectionState.Connecting; ConnectionState.Error]
      else state k' = KnxState.Connecting ∧ notified k' = notified k ++ [ConnectionState.Connecting]
  | Panic => r' = Panic
  end.
Proof.
  rewrite connect_run. destruct (create_connection (config k) (outside k)) as [[c|e|] s]; cbv zeta.
  - rewrite enter_run. unfold opened. cbn [config set_outside set_notified set_state].
    destruct (decide _); cbn; rewrite <-app_assoc; done.
  - destruct (reports_error _); cbn; rewrite <-?app_assoc; done.
  - done.
Qed.

(** Disconnecting always gives the connection up; if closing it fails, the
    error is returned and the client stays in the state disconnecting. *)
Theorem disconnect_outcome k :
  let '(r, k') := Knx_disconnect k in
  connection k' = None ∧ channel_id k' = channel_id k ∧
  match match connection k with Some c => (connection_close c (outside k)).1 | None => Ok tt end with
  | Ok _ => r = Ok tt ∧ state k' = KnxState.Disconnected ∧
      notified k' = notified k ++ [ConnectionState.Disconnecting; ConnectionState.Disconnected]
  | Err e => r = Err e ∧ state k' = KnxState.Disconnecting ∧ notified k' = notified k ++ [ConnectionState.Disconnecting]
  | Panic => r = Panic
  end.
Proof.
  rewrite disconnect_run. destruct (connection k) as [c|]; cbv zeta.
  - destruct (connection_close c (outside k)) as [[] s]; cbn; rewrite <-?app_assoc; done.
  - cbn. by rewrite <-app_assoc.
Qed.

(** A client that was started before connects but does not start. *)
Lemma restart_fails k : control_rx k = false → (Knx_connect k).1 = Ok tt →
  Knx_start (Knx_connect k).2 = (Err receiver_taken, (Knx_connect k).2) ∧ state (Knx_connect k).2 = KnxState.Connected.
Proof.
  intros Hr Hc. pose proof (connect_same k) as (_ & _ & Hrx & _).
  assert (∃ c, connection (Knx_connect k).2 = Some c ∧ state (Knx_connect k).2 = KnxState.Connected) as (c & Ec & Es).
  { rewrite connect_run in *. destruct (create_connection (config k) (outside k)) as [[c|e|] s]; [|done..]. by exists c. }
  split; [|done]. destruct (start_cases (Knx_connect k).2) as [[Hn _]|[(c' & _ & _ & ->)|(c' & _ & Hx & _)]]; [congruence|done|congruence].
Qed.

(** Running until a signal: when it succeeds the client is disconnected and gave
    its connection up.  A client that was started before cannot be run again, with or without a signal: the
    run fails although it connected, and leaves the client connected. *)
Theorem run_until_outcome meanwhile k :
  ((Knx_run_until meanwhile k).1 = Ok tt →
   connection (Knx_run_until meanwhile k).2 = None ∧ state (Knx_run_until meanwhile k).2 = KnxState.Disconnected) ∧
  (control_rx k = false → (Knx_connect k).1 = Ok tt →
   Knx_run_until meanwhile k = (Err receiver_taken, (Knx_connect k).2) ∧ Knx_run meanwhile k = (Err receiver_taken, (Knx_connect k).2) ∧
   state (Knx_connect k).2 = KnxState.Connected).
Proof.
  split.
  - unfold Knx_run_until. rewrite eff_bind_run. destruct (Knx_connect k) as [[u|e|] k1]; [|done..].
    rewrite eff_bind_run. destruct (Knx_start k1) as [[u1|e|] k2]; [|done..]. rewrite eff_bind_run. cbn [modify].
    unfold Knx_shutdown. rewrite eff_bind_run. set (k3 := (Knx_stop (meanwhile k2)).2).
    change (Knx_stop (meanwhile k2)) with (Ok tt : outcome KnxError unit, k3). cbv beta iota. rewrite disconnect_run.
    destruct (connection k3) as [c|]; cbv zeta; [|done]. by destruct (connection_close c (outside k3)) as [[] s].
  - intros Hr Hc. destruct (restart_fails k Hr Hc) as [Es Hs]. unfold Knx_run_until, Knx_run. rewrite !eff_bind_run.
    destruct (Knx_connect k) as [r k1]. cbn [fst snd] in *. subst r. by rewrite !eff_bind_run, !Es.
Qed.

(** C26: The reconnection task.  After every failed attempt it sleeps, the first
    time for the initial delay, whatever the maximal one is, and from then on never
    longer than the maximal one; with fewer than [u32::MAX] attempts configured it
    ends: reconnected with the first connection that opens, given up after exactly
    the configured number of failed attempts, or before an attempt at which the
    shutdown flag is set.  With [u32::MAX] attempts it never gives up: while no
    connection opens and the flag is not set, every number of passes leaves it
    running in a release build, and in a debug build the number of the attempt
    overflows and the task panics in pass [u32::MAX]. *)
Theorem reconnection_outcome `{Profile} shutdown k : 0 ≤ max_attempts (reconnect_backoff (config k)) < 2 ^ 32 →
  let b := reconnect_backoff (config k) in
  (max_attempts b < 2 ^ 32 - 1 → ∃ n s, attempts (config k) shutdown 1 n (outside k) s ∧ Z.of_nat n ≤ max_attempts b ∧
    (n = O ∨ head (delay_sequence b (initial_delay_ms b) n) = Some (initial_delay_ms b)) ∧
    Forall (λ d, d ≤ max_delay_ms b) (tail (delay_sequence b (initial_delay_ms b) n)) ∧
    (reconnection_task shutdown k = (Ok (delay_sequence b (initial_delay_ms b) n, ShutDown), set_outside s k) ∧
       shutdown n = true ∨
     reconnection_task shutdown k = (Ok (delay_sequence b (initial_delay_ms b) n, GivenUp), set_outside s k) ∧
       Z.of_nat n = max_attempts b ∨
     Z.of_nat n < max_attempts b ∧
       ((∃ c s', create_connection (config k) s = (Ok c, s') ∧
           reconnection_task shutdown k = (Ok (delay_sequence b (initial_delay_ms b) n, Reconnected), reconnected c s' k)) ∨
        ∃ s', create_connection (config k) s = (Panic, s') ∧ reconnection_task shutdown k = (Panic, set_outside s' k)))) ∧
  (max_attempts b = 2 ^ 32 - 1 → (∀ pass, shutdown pass = false) →
   (∀ s, ∃ e s', create_connection (config k) s = (Err e, s')) → ∀ passes, ∃ s,
   reconnect_loop shutdown passes 1 (initial_delay_ms b) k =
     (if debug_build && (2 ^ 32 - 1 <=? Z.of_nat passes) then Panic
      else Ok (delay_sequence b (initial_delay_ms b) passes, OutOfFuel), set_outside s k)).
Proof.
  intros Hm. cbv zeta. split.
  2: { intros Hx Hs Hf passes. by apply reconnect_loop_unbounded. }
  intros Hx. unfold reconnection_task. rewrite eff_bind_run. cbn [gets id]. cbv zeta.
  destruct (reconnect_loop_run shutdown (Z.to_nat (max_attempts (reconnect_backoff (config k))) + 1) 1
    (initial_delay_ms (reconnect_backoff (config k))) k Hx) as (n & s & Ha & Hr).
  pose proof (attempts_bound _ _ _ _ _ _ Ha) as Hn.
  exists n, s. split_and!; [done|lia|by destruct n; [left|right]|apply delay_sequence_bound|].
  destruct Hr as [[_ Hf]|[[-> Hy]|[[-> Hy]|[Hy Hr]]]].
  - exfalso. lia.
  - left. done.
  - right. left. split; [done|lia].
  - right. right. split; [lia|done].
Qed.

(** The reconnection of a client works once: without [stop], whatever happens,
    at most one reconnection task is ever started, because its slot is not
    emptied when it ends; from then on the loss of the tunnel leaves the client
    disconnected although reconnecting is switched on. *)
Theorem reconnects_once cfg s k ops : Knx_new_with_options cfg s = Ok k → OpStop ∉ ops →
  let k' := life_run ops k in
  (reconnects k' ≤ 1)%nat ∧
  (reconnects k' = 1%nat → ∀ c ch reason, spawned (life_step k' (OpEvent c (TunnelLost ch reason))) = spawned k' ∧
     state (life_step k' (OpEvent c (TunnelLost ch reason))) = KnxState.Disconnected ∧
     connection (life_step k' (OpEvent c (TunnelLost ch reason))) = None).
Proof.
  intros Hk Hops. destruct (new_run _ _ _ Hk) as (_ & _ & Ho & _). cbv zeta.
  assert (one_reconnect (life_run ops k)) as Hr.
  { apply life_run_ind; [|done]. intros k0 op Hop. apply life_step_one_reconnect. by intros ->. }
  unfold one_reconnect in Hr. split; [rewrite Hr; by destruct (reconnect_task _); lia|].
  intros H1 c ch reason. rewrite Hr in H1. cbn [life_step]. rewrite control_lost_run.
  destruct (reconnect_task (task_slots (life_run ops k))); [|done].
  destruct (match connection (life_run ops k) with Some x => _ | None => _ end) as [[] s']; [..|done];
    by destruct (auto_reconnect (config (life_run ops k))).
Qed.

(** A client is started once: after the first start that succeeds, whatever
    follows (stopping, disconnecting and connecting anew, reconnecting), every
    start is refused, and every task that was given a connection has the
    connection of that first start. *)
Theorem starts_once cfg s k ops ops' : Knx_new_with_options cfg s = Ok k →
  (Knx_start (life_run ops k)).1 = Ok tt →
  let k' := life_run ops' (Knx_start (life_run ops k)).2 in
  ∃ c, connection (life_run ops k) = Some c ∧ Forall (holds c) (spawned k') ∧
    (Knx_start k').1 = match connection k' with None => Err not_connected | Some _ => Err receiver_taken end.
Proof.
  intros Hk Hs. destruct (new_run _ _ _ Hk) as (_ & _ & _ & Hr & Hp & _). cbv zeta.
  assert (unstarted (life_run ops k)) as Hu.
  { apply life_run_ind; [intros; by apply life_step_unstarted|]. intros _. rewrite Hp. by repeat constructor. }
  destruct (start_cases (life_run ops k)) as [[_ E]|[(c & _ & _ & E)|(c & Ec & Er & k1 & E & Er1 & Ep & _)]];
    rewrite E in Hs |- *; [done..|]. cbn [snd]. exists c. split; [done|].
  assert (started c (life_run ops' k1)) as [Hr2 Hp2].
  { apply life_run_ind; [intros; by apply life_step_started|]. split; [done|]. rewrite Ep. apply Forall_app. split.
    - eapply Forall_impl; [exact (Hu Er)|auto].
    - by repeat constructor. }
  split; [done|].
  destruct (start_cases (life_run ops' k1)) as [[-> ->]|[(x & -> & _ & ->)|(x & _ & Hx & _)]]; [done..|]. congruence.
Qed.
End properties.

(** A builder keeps the callbacks it is given, in their order and up to its
    bound, and the client it builds has exactly them registered, connection
    callbacks and telegram callbacks apart, each with the filter and the
    direction it was stored with; one callback too many is refused. *)
Theorem builder_transfers {S C W} (b : KnxBuilder W) (l : list (StoredCallback W)) (s : S) : stored_callbacks b = [] →
  match store_all l b with
  | Ok b' => (length l ≤ MAX_BUILDER_CALLBACKS)%nat ∧
      match Knx_validate_config (b_config b) with
      | Ok _ => ∃ (k : Knx S C) h, KnxBuilder_build b' s = Ok (k, h) ∧ config k = b_config b ∧
          (λ e, (te_callback e, te_filter e, te_include_outgoing e)) <$> telegram_callbacks h = omap telegram_part l ∧
          ce_callback <$> connection_callbacks h = omap connection_part l
      | Err e => KnxBuilder_build b' s = @Err KnxError (Knx S C * EventHandler W) e
      | Panic => False
      end
  | Err e => e = too_many_callbacks ∧ (MAX_BUILDER_CALLBACKS < length l)%nat
  | Panic => False
  end.
Proof.
  intros Hb. destruct (store_all_run l b) as [(-> & _ & Hl)|(b' & -> & Ec & Es & Hl)].
  { split; [done|]. by rewrite Hb in Hl. }
  rewrite Hb in Es, Hl. cbn in Es, Hl. split; [destruct Hl as [->|Hl]; [cbn; lia|done]|].
  unfold KnxBuilder_build, Knx_new_with_options. rewrite Ec, Es.
  destruct (Knx_validate_config (b_config b)) as [[]|e|] eqn:Ev; [|done|].
  - do 2 eexists. split; [reflexivity|]. split; [done|]. destruct (transfer_all_run l EventHandler_new) as (E1 & E2 & _). by split.
  - unfold Knx_validate_config in Ev.
    by destruct (connection_type (b_config b)), (gateway_ip (b_config b)), (timeout_ms (b_config b) =? 0).
Qed.

(** * Witnesses

    A scripted world: the list of what the next attempts to open give. *)
Definition scripted_open : eff (list (option Z)) KnxError Z := λ s,
  match s with
  | Some c :: s => (Ok c, s)
  | None :: s => (Err not_connected, s)
  | [] => (Err not_connected, [])
  end.
Definition scripted : Connections (list (option Z)) Z :=
  {| open_udp := λ _, scripted_open; open_tcp := λ _ _, scripted_open; open_routing := λ _, scripted_open;
     connection_send := λ _ _, mret tt; connection_close := λ _, mret tt; tunnel_channel := Some |}.
Definition a_profile : Profile := {| debug_build := true |}.
Definition a_config : ConnectionConfig := b_config (KnxBuilder_gateway_ip (W := Z) (V4 192 168 1 10) KnxBuilder_new).
(** Connecting, starting, losing the tunnel twice. *)
Definition some_ops : list (life_op Z) :=
  [OpConnect; OpStart; OpEvent 7 (TunnelLost 7 "lost"); OpReconnect (λ _, false); OpEvent 7 (TunnelLost 7 "lost")].
Definition a_world : list (option Z) := [Some 7; None; None; Some 9; Some 11].
Definition a_client : Knx (list (option Z)) Z :=
  match Knx_new_with_options a_config a_world with Ok k => k | _ => MkKnx a_config None KnxState.Error false no_tasks false None false [] [] [] end.
Lemma a_client_new : Knx_new_with_options a_config a_world = Ok a_client.
Proof. reflexivity. Qed.

Lemma lifecycle_consistent_witness :
  let k := @life_run _ _ scripted a_profile (take 4 some_ops) a_client in
  state k = KnxState.Connected ∧ connection k = Some 9 ∧
  last (ConnectionState.Disconnected :: notified k) = Some (KnxState.into (state k)).
Proof.
  split; [vm_compute; reflexivity|]. split; [vm_compute; reflexivity|].
  apply (lifecycle_consistent (H := scripted) (H0 := a_profile) a_config a_world a_client (take 4 some_ops) a_client_new).
Defined.
Lemma reconnection_outcome_witness :
  let k := set_outside [None; None; Some 9] a_client in
  (reconnection_task (H := scripted) (H0 := a_profile) (λ _, false) k).1 = Ok ([1000; 2000], Reconnected) ∧
  ∃ n s, attempts (H := scripted) (config k) (λ _, false) 1 n (outside k) s.
Proof.
  split; [vm_compute; reflexivity|].
  destruct (proj1 (reconnection_outcome (H := scripted) (H1 := a_profile) (λ _, false) (set_outside [None; None; Some 9] a_client)
    ltac:(split; [vm_compute; discriminate|vm_compute; reflexivity])) ltac:(vm_compute; reflexivity)) as (n & s & Ha & _).
  by exists n, s.
Defined.
Lemma reconnects_once_witness :
  let k := @life_run _ _ scripted a_profile some_ops a_client in
  reconnects k = 1%nat ∧ auto_reconnect (config k) = true ∧ outside k = [Some 11] ∧ (reconnects k ≤ 1)%nat.
Proof.
  split; [vm_compute; reflexivity|]. split; [vm_compute; reflexivity|]. split; [vm_compute; reflexivity|].
  apply (reconnects_once (H := scripted) (H0 := a_profile) a_config a_world a_client some_ops a_client_new).
  intros Hin. by repeat (apply elem_of_cons in Hin as [Hin|Hin]; [discriminate|]); apply elem_of_nil in Hin.
Defined.
Lemma starts_once_witness :
  let k := @life_run _ _ scripted a_profile [OpStop; OpDisconnect; OpConnect; OpConnect; OpConnect]
    (Knx_start (@life_run _ _ scripted a_profile [OpConnect] a_client)).2 in
  state k = KnxState.Connected ∧ ∃ c, connection (@life_run _ _ scripted a_profile [OpConnect] a_client) = Some c ∧ Forall (holds c) (spawned k).
Proof.
  split.
  2: { destruct (starts_once (H := scripted) (H0 := a_profile) a_config a_world a_client [OpConnect]
         [OpStop; OpDisconnect; OpConnect; OpConnect; OpConnect] a_client_new ltac:(vm_compute; reflexivity)) as (c & Hc & Hf & _). by exists c. }
  vm_compute; reflexivity.
Defined.
Lemma builder_transfers_witness :
  let f : ConnectionCallbackFn Z := λ _ w, (Returns, w + 1) in
  let l := [StoredConnection f; StoredTelegram (λ _ w, (Returns, w)) All true] in
  let b := KnxBuilder_gateway_ip (V4 192 168 1 10) KnxBuilder_new in
  (length l ≤ MAX_BUILDER_CALLBACKS)%nat ∧
  match store_all l b with
  | Ok b' => ∃ (k : Knx Z Z) h, KnxBuilder_build b' 0 = Ok (k, h) ∧ ce_callback <$> connection_callbacks h = [f]
  | _ => False
  end.
Proof.
  cbv zeta. split; [vm_compute; lia|].
  destruct (builder_transfers (S := Z) (C := Z) (KnxBuilder_gateway_ip (V4 192 168 1 10) KnxBuilder_new)
    [StoredConnection (λ _ w, (Returns, w + 1)); StoredTelegram (λ _ w, (Returns, w)) All true] 0 eq_refl) as [_ (k & h & E & _ & _ & Ec)].
  exists k, h. split; [exact E|exact Ec].
Defined.
