(* ===== verification/SecureTunnel.v ===== *)
(** The tunnel with the [secure] feature ([src/src/transport/tunnel.rs]): the
    handshake of [connect_secure] and the encryption of what [send_frame] and
    [recv_frame] carry; and the client against the secure server.

    The state is that of [TunnelCore] with the session.  What goes through
    [Tunnel::send_frame] and [Tunnel::recv_frame] is encrypted: connecting and
    probing.  Acknowledgements, heartbeats and disconnect requests use the
    transport below and are the operations of [TunnelCore] and [Tunnel]. *)
From S2P Require Import Text Float DptViews Lifecycle.
From S2P Require Import Prelude Errors Address Apdu Telegram Cemi KnxIp Crypto SecureSession FrameTransport Heartbeat Connection.
From S2P Require Import AddressRegistry TunnelCore AddressProbe Tunnel Server ServerBehaviour SecureServer SecureServerBehaviour.

Record secure_world {T : Type} := MkSecureWorld {
  open_world : world T;
  secure_session : option SecureSession;
}.
Arguments secure_world T : clear implicits.
Arguments MkSecureWorld {T} _ _.

Section tunnel.
Context {crypto : CryptoOps} {T : Type} `{FiniteInput T} `{Profile}.
Context (show_addr : SocketAddr → string).
Abbreviation M := (eff (secure_world T) KnxError).

Definition on_world {A} (m : eff (world T) KnxError A) : M A := λ s,
  let '(r, w) := m (open_world s) in (r, MkSecureWorld w (secure_session s)).
(** A call on the session, if there is one. *)
Definition through_session (m : eff SecureSession KnxError (list Z)) (otherwise : list Z) : M (list Z) := λ s,
  match secure_session s with
  | None => (Ok otherwise, s)
  | Some session => let '(r, session) := m session in (r, MkSecureWorld (open_world s) (Some session))
  end.

Definition secure_send_frame (frame : list Z) : M unit :=
  r ← attempt (_ ← on_world Tunnel_transport;
               data ← through_session (encrypt_frame frame) frame;
               on_world (transport_send data));
  match r with
  | inl _ => on_world (on_stats (λ _, count_sent))
  | inr e =>
      _ ← on_world (on_stats (λ now, ConnectionStats_record_send_error now (KnxError_display e)));
      throw e
  end.
Definition secure_recv_frame : M (option (list Z)) :=
  r ← attempt (raw ← on_world transport_recv;
               match raw with
               | None => mret None
               | Some raw => data ← through_session (decrypt_frame raw) raw; mret (Some data)
               end);
  match r with
  | inl None => mret None
  | inl (Some data) => _ ← on_world (on_stats (λ _, count_received)); mret (Some data)
  | inr e =>
      _ ← on_world (on_stats (λ now, ConnectionStats_record_receive_error now (KnxError_display e)));
      throw e
  end.

(** * Connecting *)
Definition secure_send_connect_request : M (Z * option IndividualAddress) :=
  t ← gets (tunnel ∘ open_world);
  let req := match kind t with
             | Udp => ConnectRequest_new_route_back
             | Tcp => ConnectRequest_new_tcp_route_back
             end in
  req ← match configured_address t with
        | None => mret req
        | Some addr =>
            available ← gets (λ s, AddressRegistry_is_available addr (registry (open_world s)));
            if address_registry t && negb available
            then throw (Transport (TransportInvalidConfiguration
                   ("Configured individual address " +:+ IndividualAddress_display addr
                    +:+ " is not available (already claimed or known-occupied)")))
            else mret (MkConnectRequest (creq_control_endpoint req) (creq_data_endpoint req)
                         (MkConnectionRequestInfo (connection_type (cri req)) (knx_layer (cri req))
                            (reserved (cri req)) (Some addr)))
        end;
  frame ← lift (KnxIpFrame_new ServiceType.ConnectRequest (ConnectRequest_serialize req));
  _ ← secure_send_frame (KnxIpFrame_serialize frame);
  data ← secure_recv_frame;
  match data with
  | None => throw (Transport (Timeout (connection_timeout t)))
  | Some data =>
      response_frame ← lift (KnxIpFrame_parse data);
      if negb (bool_decide (service_type (header response_frame) = ServiceType.ConnectResponse))
      then throw (Transport (TransportInvalidConfiguration
             ("Expected ConnectResponse, got "
              +:+ ServiceType_debug (service_type (header response_frame)))))
      else
        response ← lift (ConnectResponse_parse (body response_frame));
        if negb (ConnectResponse_is_success response)
        then
          let msg := default ("Gateway rejected connection: 0x" +:+ hex02 (cresp_status response))
                       (ConnectResponse_error_message response) in
          throw (Transport (ConnectionFailed (show_addr (gateway_addr t))
                              (IoError ConnectionRefused msg)))
        else mret (channel_id response, assigned_address response)
  end.

(** The probe of [AddressProbe], through the session; it acknowledges what it
    reads in the clear. *)
Fixpoint secure_recv_until_signal (fuel : nat) : M (option bool) :=
  match fuel with
  | O => lift Panic
  | S fuel =>
      data ← secure_recv_frame;
      match data with
      | None => mret None
      | Some data =>
          match KnxIpFrame_parse data with
          | Err _ => secure_recv_until_signal fuel
          | Panic => lift Panic
          | Ok frame =>
              if negb (bool_decide (service_type (header frame) = ServiceType.TunnellingRequest))
              then secure_recv_until_signal fuel
              else
                match TunnellingRequest_parse (body frame) with
                | Err _ => secure_recv_until_signal fuel
                | Panic => lift Panic
                | Ok request =>
                    acks ← gets (λ s, send_acks (tunnel (open_world s)));
                    _ ← (if acks : bool
                         then (_ ← attempt (on_world (Tunnel_send_tunnelling_ack (treq_channel_id request)
                                              (treq_sequence_counter request) 0)); mret tt)
                         else mret tt);
                    match parse_probe_cemi (raw_cemi request) with
                    | Err _ => secure_recv_until_signal fuel
                    | Panic => lift Panic
                    | Ok cemi =>
                        if bool_decide (classify_cemi cemi = Occupied) then mret (Some true)
                        else secure_recv_until_signal fuel
                    end
                end
          end
      end
  end.
Definition secure_probe_address (addr : IndividualAddress) : M bool :=
  let src := IndividualAddress_broadcast in
  f1 ← on_world (wrap_cemi (build_tconnect_cemi src addr));
  _ ← secure_send_frame f1;
  ddr ← lift (build_ddr_cemi src addr);
  f2 ← on_world (wrap_cemi ddr);
  _ ← secure_send_frame f2;
  n ← gets (world_pending ∘ open_world);
  r ← secure_recv_until_signal (S n);
  let occupied := default false r in
  f3 ← on_world (wrap_cemi (build_tdisconnect_cemi src addr));
  _ ← attempt (secure_send_frame f3);
  mret occupied.
Fixpoint secure_auto_select_loop (area line : Z) (devices : list Z) (probed : nat) : M IndividualAddress :=
  match devices with
  | [] =>
      throw (Transport (TransportInvalidConfiguration
        ("No free individual address available in range " +:+ dec area +:+ "." +:+ dec line
         +:+ "." +:+ dec AUTO_SELECT_FIRST_DEVICE +:+ "..=" +:+ dec area +:+ "." +:+ dec line
         +:+ "." +:+ dec AUTO_SELECT_LAST_DEVICE +:+ " (probed " +:+ dec_nat probed
         +:+ " candidates)")))
  | device :: devices =>
      addr ← lift (IndividualAddress_new area line device);
      available ← gets (λ s, AddressRegistry_is_available addr (registry (open_world s)));
      if negb available then secure_auto_select_loop area line devices probed
      else
        occupied ← secure_probe_address addr;
        if occupied : bool then secure_auto_select_loop area line devices (S probed)
        else mret addr
  end.

Definition secure_finish_connect (channel : Z) (assigned : option IndividualAddress) : M unit :=
  now ← gets (clock ∘ open_world);
  _ ← on_world (on_tunnel (λ t, set_state Connected (set_channel channel (Some now) t)));
  t ← gets (tunnel ∘ open_world);
  if address_registry t then
    addr ← match configured_address t with
           | Some cfg => mret cfg
           | None =>
               match assigned with
               | Some a => mret a
               | None => secure_auto_select_loop 0 0 candidate_devices 0
               end
           end;
    _ ← on_world (claim_address addr);
    on_world (on_tunnel (set_address (Some addr)))
  else mret tt.

(** * The handshake *)
Definition session_config (security : SecurityConfig) : SessionConfig :=
  MkSessionConfig 1 (str_bytes (default EmptyString (user_password security)))
    (Some (str_bytes (device_auth_password security))) (session_timeout security).

(** The part of [connect_secure] that sets the session up; [random] is the secret
    of the client's key pair. *)
Definition establish_session (random : list Z) (security : SecurityConfig) : M SecureSession :=
  t ← gets (tunnel ∘ open_world);
  let config := session_config security in
  let '(key, session) := SecureSession_initialize random (SecureSession_new config) in
  public_key ← lift key;
  let request_frame := [0x06; 0x10; 0x09; 0x51; 0x00; 0x2E] ++ Hpai_serialize (local_hpai t) ++ public_key in
  _ ← on_world (transport_send request_frame);
  response ← on_world transport_recv;
  match response with
  | None => throw (Transport (Timeout (connection_timeout t)))
  | Some response_data =>
      if (length response_data <? 56)%nat
      then throw (Transport (TransportInvalidConfiguration "SessionResponse too short"))
      else
        i0 ← lift (idx response_data 6);
        i1 ← lift (idx response_data 7);
        server_public_key ← lift (slice response_data 8 40);
        server_mac ← lift (slice response_data 40 56);
        let '(mac, session) := process_session_response (from_be16 i0 i1) server_public_key server_mac session in
        auth_mac ← lift mac;
        let auth_frame := [0x06; 0x10; 0x09; 0x53; 0x00; 0x18] ++ [0x00] ++ [cfg_user_id config] ++ auth_mac in
        _ ← on_world (transport_send auth_frame);
        status ← on_world transport_recv;
        match status with
        | None => throw (Transport (Timeout (connection_timeout t)))
        | Some status_data =>
            if (length status_data <? 8)%nat
            then throw (Transport (TransportInvalidConfiguration "SessionStatus too short"))
            else
              code ← lift (idx status_data 7);
              let '(done, session) := complete_authentication code session in
              _ ← lift done;
              mret session
        end
  end.

Definition Tunnel_connect_secure (random : list Z) (security : SecurityConfig) (dial : result (T * SocketAddr)) : M unit :=
  _ ← on_world (Tunnel_establish_transport dial);
  session ← establish_session random security;
  _ ← modify (λ s, MkSecureWorld (open_world s) (Some session));
  _ ← on_world (on_tunnel (set_state Connecting));
  r ← attempt secure_send_connect_request;
  match r with
  | inl (channel, assigned) => secure_finish_connect channel assigned
  | inr e =>
      _ ← on_world (on_tunnel (set_state Failed));
      _ ← on_world (on_stats (λ now, ConnectionStats_record_connection_error now (KnxError_display e)));
      throw e
  end.
End tunnel.

(** * The client over UDP *)
Section udp.
Context {crypto : CryptoOps} {laws : CryptoLaws} `{Profile}.
Implicit Types w : world UdpFrameTransport.

Definition put (u : UdpFrameTransport) w : world UdpFrameTransport :=
  MkWorld (set_transport (Some u) (local_addr (tunnel w)) (tunnel w)) (registry w) (clock w).
Lemma udp_send_run f reads out w : transport (tunnel w) = Some (MkUdp reads [] out) →
  transport_send f w = (Ok tt, put (MkUdp reads [] (out ++ [f])) w).
Proof. intros Hw. by rewrite transport_send_eq, Hw. Qed.
Lemma udp_recv_run d reads out w : transport (tunnel w) = Some (MkUdp (Data d :: reads) [] out) → (length d ≤ 1024)%nat →
  transport_recv w = (Ok (Some d), put (MkUdp reads [] out) w).
Proof.
  intros Hw Hd. rewrite transport_recv_eq, Hw. cbn [recv_frame Udp_transport]. unfold UdpFrameTransport_recv_frame. cbn [udp_reads udp_writes udp_sent].
  by rewrite take_ge.
Qed.

(** The frames the client writes out are those of the handshake. *)
Lemma request_bytes hpai pk : length pk = 32%nat →
  [0x06; 0x10; 0x09; 0x51; 0x00; 0x2E] ++ Hpai_serialize hpai ++ pk = request_frame hpai pk.
Proof.
  intros Hk. unfold request_frame, frame_bytes, KnxIpFrame_serialize, KnxIpHeader_serialize, SessionRequest_serialize.
  cbn [header body header_length protocol_version service_type total_length sreq_control_endpoint sreq_public_key].
  rewrite length_app, length_Hpai_serialize, Hk. done.
Qed.
Lemma authenticate_bytes user code : length code = 16%nat →
  [0x06; 0x10; 0x09; 0x53; 0x00; 0x18] ++ [0x00] ++ [user] ++ code = authenticate_frame user code.
Proof.
  intros Hk. unfold authenticate_frame, frame_bytes, KnxIpFrame_serialize, KnxIpHeader_serialize, SessionAuthenticate_serialize.
  cbn [header body header_length protocol_version service_type total_length user_id sauth_mac app length]. rewrite Hk. done.
Qed.
(** What the client reads in a session response. *)
Lemma response_fields id b mac : length mac = 16%nat → let r := session_response id b mac in
  length r = 56%nat ∧ idx (E:=KnxError) r 6 = Ok (id / 256) ∧ idx (E:=KnxError) r 7 = Ok (id mod 256) ∧
  slice (E:=KnxError) r 8 40 = Ok (x25519_public b) ∧ slice (E:=KnxError) r 40 56 = Ok mac.
Proof.
  intros Hm r. pose proof (x25519_public_length b) as Hk.
  assert (∃ h, length h = 6%nat ∧ r = h ++ [id / 256; id mod 256] ++ x25519_public b ++ mac) as (h & Hh & ->) by (eexists; split; [|reflexivity]; done).
  split_and!.
  - rewrite !length_app, Hh, Hk, Hm. done.
  - pose proof (idx_app_0 (E:=KnxError) h (id / 256) (id mod 256 :: x25519_public b ++ mac)) as E. by rewrite Hh in E.
  - pose proof (idx_app_1 (E:=KnxError) h (id / 256) (id mod 256) (x25519_public b ++ mac)) as E. by rewrite Hh in E.
  - rewrite app_assoc. apply slice_app_at; rewrite length_app, Hh; [done|by rewrite Hk].
  - rewrite <-(app_nil_r mac) at 1. rewrite !app_assoc, <-(app_assoc _ mac []). apply slice_app_at; rewrite !length_app, Hh, Hk; [done|by rewrite Hm].
Qed.

Lemma establish_session_run security a b id mac code c1 reads out w o : let cc := session_config security in
  transport (tunnel w) = Some (MkUdp (Data (session_response id b mac) :: Data (session_status true) :: reads) [] out) →
  length mac = 16%nat → process_session_response id (x25519_public b) mac (started cc a) = (Ok code, c1) → length code = 16%nat →
  establish_session a security (MkSecureWorld w o) =
    (Ok (set_session_state Authenticated c1),
     MkSecureWorld (put (MkUdp reads [] (out ++ [request_frame (local_hpai (tunnel w)) (x25519_public a); authenticate_frame 1 code])) w) o).
Proof.
  intros cc Hw Hm Hr Hcode. destruct (response_fields id b mac Hm) as (Hl & E6 & E7 & Ek & Em).
  unfold establish_session. rewrite eff_bind_run. cbn [gets compose open_world]. rewrite initialize_run. fold cc. rewrite eff_bind_run. cbn [lift].
  cbv zeta. rewrite request_bytes by apply x25519_public_length. rewrite eff_bind_run. unfold on_world at 1. cbn [open_world secure_session].
  erewrite udp_send_run by exact Hw. rewrite eff_bind_run. unfold on_world at 1. cbn [open_world secure_session].
  erewrite udp_recv_run; [|reflexivity|rewrite Hl; lia]. rewrite Hl. cbn [Nat.ltb Nat.leb].
  rewrite eff_bind_run. cbn [lift]. rewrite E6, eff_bind_run. cbn [lift]. rewrite E7, eff_bind_run. cbn [lift]. rewrite Ek, eff_bind_run. cbn [lift].
  rewrite Em, from_to_be16, Hr, eff_bind_run. cbn [lift cfg_user_id cc session_config]. rewrite authenticate_bytes by done.
  rewrite eff_bind_run. unfold on_world at 1. cbn [open_world secure_session]. erewrite udp_send_run by reflexivity.
  rewrite eff_bind_run. unfold on_world at 1. cbn [open_world secure_session]. erewrite udp_recv_run; [|reflexivity|cbn; lia].
  change (length (session_status true)) with 8%nat. cbn [Nat.ltb Nat.leb]. rewrite eff_bind_run. cbn. by rewrite <-app_assoc.
Qed.

(** A frame sent and a frame received through the session. *)
Lemma secure_send_run f reads out w c : transport (tunnel w) = Some (MkUdp reads [] out) → session_ready c →
  ∃ w', secure_send_frame f (MkSecureWorld w (Some c)) = (Ok tt, MkSecureWorld w' (Some (set_sequence ((ss_sequence_number c + 1) mod 2 ^ 64) c))) ∧
    transport (tunnel w') = Some (MkUdp reads [] (out ++ [encrypted c f])) ∧ quiet w w'.
Proof.
  intros Hw Hc. unfold secure_send_frame. rewrite eff_bind_run. unfold attempt. rewrite eff_bind_run. unfold on_world at 1, Tunnel_transport.
  cbn [open_world]. rewrite eff_bind_run. cbn [gets lift]. rewrite Hw. cbn [ok_or]. rewrite eff_bind_run. unfold through_session.
  cbn [secure_session]. rewrite encrypt_frame_run by done. unfold on_world at 1. cbn [open_world]. erewrite udp_send_run by exact Hw.
  eexists. split; [reflexivity|]. done.
Qed.
Lemma secure_recv_run d f reads out w c : transport (tunnel w) = Some (MkUdp (Data d :: reads) [] out) → (length d ≤ 1024)%nat →
  (decrypt_frame d c).1 = Ok f →
  ∃ w', secure_recv_frame (MkSecureWorld w (Some c)) = (Ok (Some f), MkSecureWorld w' (Some (decrypt_frame d c).2)) ∧
    transport (tunnel w') = Some (MkUdp reads [] out) ∧ quiet w w'.
Proof.
  intros Hw Hd Hf. unfold secure_recv_frame. rewrite eff_bind_run. unfold attempt. rewrite eff_bind_run. unfold on_world at 1.
  cbn [open_world]. erewrite udp_recv_run by done. rewrite eff_bind_run. unfold through_session. cbn [secure_session].
  destruct (decrypt_frame d c) as [r c']. cbn [fst snd] in *. subst r. eexists. split; [reflexivity|]. done.
Qed.

(** The connect request through the session, for a tunnel without address
    management. *)
Lemma secure_connect_request_run show d f k r reads out w c : kind (tunnel w) = Udp → configured_address (tunnel w) = None →
  transport (tunnel w) = Some (MkUdp (Data d :: reads) [] out) → session_ready c → (length d ≤ 1024)%nat →
  let c1 := set_sequence ((ss_sequence_number c + 1) mod 2 ^ 64) c in
  (decrypt_frame d c1).1 = Ok f → KnxIpFrame_parse f = Ok k → service_type (header k) = ServiceType.ConnectResponse →
  ConnectResponse_parse (body k) = Ok r → ConnectResponse_is_success r = true →
  ∃ w', secure_send_connect_request show (MkSecureWorld w (Some c)) =
      (Ok (channel_id r, assigned_address r), MkSecureWorld w' (Some (decrypt_frame d c1).2)) ∧
    transport (tunnel w') = Some (MkUdp reads [] (out ++
      [encrypted c (frame_bytes ServiceType.ConnectRequest (ConnectRequest_serialize ConnectRequest_new_route_back))])) ∧ quiet w w'.
Proof.
  intros Hk Ha Hw Hc Hd c1 Hf Ek Es Er Hok. unfold secure_send_connect_request. rewrite eff_bind_run. cbn [gets compose open_world].
  rewrite Hk, Ha. cbv zeta. rewrite eff_bind_run. cbv [mret eff_ret]. cbv beta iota. rewrite eff_bind_run. cbn [lift].
  rewrite KnxIpFrame_new_Ok by (vm_compute; congruence). fold (frame_bytes ServiceType.ConnectRequest (ConnectRequest_serialize ConnectRequest_new_route_back)).
  rewrite eff_bind_run. edestruct (secure_send_run (frame_bytes ServiceType.ConnectRequest (ConnectRequest_serialize ConnectRequest_new_route_back)))
    as (w1 & E1 & Hw1 & Q1); [exact Hw|exact Hc|]. rewrite E1, eff_bind_run. fold c1.
  destruct (secure_recv_run d f reads _ w1 c1 Hw1 Hd Hf) as (w2 & E2 & Hw2 & Q2). rewrite E2, eff_bind_run. cbn [lift].
  rewrite Ek, Es. cbn [bool_decide]. rewrite bool_decide_eq_true_2 by done. cbn [negb]. rewrite eff_bind_run. cbn [lift]. rewrite Er, Hok. cbn [negb].
  exists w2. split; [done|]. split; [done|]. by etrans.
Qed.
End udp.

(** * The client and the server *)
Section together.
Context {crypto : CryptoOps} {laws : CryptoLaws} `{Profile}.
Abbreviation connect_frame := (frame_bytes ServiceType.ConnectRequest (ConnectRequest_serialize ConnectRequest_new_route_back)).

(** The server on the connect request of a client with an authenticated session. *)
Lemma server_grants random l e c ch s : l = UdpLink (ClientLink_peer_addr l) →
  secure_sessions s !! ClientLink_peer_addr l = Some e → is_authenticated (entry_session e) = true →
  paired c (entry_session e) → 0 ≤ ss_sequence_number c < 2 ^ 48 →
  fresh (ss_sequence_number c) (ss_sequence_number_received (entry_session e)) → entries_ready (secure_sessions s) →
  allocate_channel_id (sessions (plain s)) = Some ch → socket_ready (plain s) →
  ∃ s' e', secure_handle_frame random (encrypted c connect_frame) l s = (Ok (Some ch), s') ∧
    sent (plain s') = sent (plain s) ++
      [(l, encrypted (entry_session e) (frame_bytes ServiceType.ConnectResponse (ConnectResponse_serialize (granted ch (plain s)))))] ∧
    sessions (plain s') !! ch = Some (ClientSession_new (server_clock (plain s)) ch l) ∧
    secure_sessions s' !! ClientLink_peer_addr l = Some e' ∧
    recounted_entry (received_entry (ss_sequence_number c) e) e'.
Proof.
  intros Hl He Ha Hp Hn Hfr Hr Hch Hs.
  assert (Z.of_nat (length connect_frame) ≤ 65497) as Hlen by (vm_compute; congruence).
  assert (no_disconnect connect_frame) as Hnd.
  { intros k Ek. destruct (frame_bytes_parse ServiceType.ConnectRequest (ConnectRequest_serialize ConnectRequest_new_route_back))
      as (g & Eg & Es & _); [vm_compute; congruence|]. rewrite Eg in Ek. injection Ek as <-. by rewrite Es. }
  assert (ConnectRequest_parse (ConnectRequest_serialize ConnectRequest_new_route_back) = Ok ConnectRequest_new_route_back) as Ep by done.
  pose proof (granted_run _ l _ ch (plain s) Ep Hch Hs) as E. cbv zeta in E.
  replace (resolve_link (creq_data_endpoint ConnectRequest_new_route_back) l) with l in E by (rewrite Hl; done).
  set (p := sent_ok _ _ _) in E.
  assert (handle_frame connect_frame l (plain s) = (Ok (Some ch), p)) as Ef by (rewrite handle_frame_run by (vm_compute; congruence); exact E).
  destruct (wrapped_frame random connect_frame l e c s (plain s)) as (s' & E' & Hm & outs & _ & Hy & Hx); [done..|].
  pose proof (wrapped_counted l random connect_frame c e s (proj1 Hp) Hlen He Ha Hp Hn Hfr Hnd (ClientLink_peer_addr l)) as Hc.
  rewrite E' in Hc. cbn [snd secure_sessions set_entries] in Hc. rewrite lookup_insert_eq in Hc.
  inversion Hc as [e1 e' Hre E1 E2|]. subst e1. rewrite Ef in E', Hm, Hy. cbn [fst snd] in E', Hm, Hy.
  exists s', e'. split_and!; [done| | |done|done].
  - rewrite Hx. apply app_inv_head_iff. assert (outs = [(l, frame_bytes ServiceType.ConnectResponse (ConnectResponse_serialize (granted ch (plain s))))]) as ->
      by (apply (app_inv_head (sent (plain s))); by rewrite <-Hy).
    cbn [fmap list_fmap]. unfold secure_copy. cbn [fst snd]. by rewrite lookup_insert_eq.
  - change (sessions (plain s')) with (sessions (with_sent [] (plain s'))). rewrite Hm. cbn. apply lookup_insert_eq.
Qed.

Lemma length_response_code cs a b id : length (response_code cs a b id) = 16%nat.
Proof.
  unfold response_code. destruct (cfg_device_auth_password cs) as [p|]; [|done]. unfold handshake_code. rewrite length_apply_keystream. unfold handshake_mac.
  edestruct (mac_Ok (derive_device_authentication_password p)) as (m & -> & Hm); [apply pbkdf2_length|done|done].
Qed.
Lemma secure_finish_run (channel : Z) assigned (w : world UdpFrameTransport) c : address_registry (tunnel w) = false →
  secure_finish_connect channel assigned (MkSecureWorld w c) =
    (Ok tt, MkSecureWorld (MkWorld (set_state Connected (set_channel channel (Some (clock w)) (tunnel w))) (registry w) (clock w)) c).
Proof.
  intros Hr. unfold secure_finish_connect. rewrite eff_bind_run. cbn [gets compose open_world]. rewrite eff_bind_run.
  unfold on_world at 1, on_tunnel, modify. cbn [open_world secure_session]. rewrite eff_bind_run.
  cbn [gets compose open_world tunnel address_registry set_state set_channel]. rewrite Hr. reflexivity.
Qed.

Lemma secure_connect_run show security a b id mac code c1 d f k r la w o : let cc := session_config security in
  kind (tunnel w) = Udp → configured_address (tunnel w) = None → address_registry (tunnel w) = false →
  length mac = 16%nat → process_session_response id (x25519_public b) mac (started cc a) = (Ok code, c1) → length code = 16%nat →
  let c := set_session_state Authenticated c1 in
  let c' := set_sequence ((ss_sequence_number c + 1) mod 2 ^ 64) c in
  session_ready c → (length d ≤ 1024)%nat → (decrypt_frame d c').1 = Ok f → KnxIpFrame_parse f = Ok k →
  service_type (header k) = ServiceType.ConnectResponse → ConnectResponse_parse (body k) = Ok r → ConnectResponse_is_success r = true →
  ∃ w', Tunnel_connect_secure show a security (Ok (MkUdp [Data (session_response id b mac); Data (session_status true); Data d] [] [], la)) (MkSecureWorld w o) =
      (Ok tt, MkSecureWorld w' (Some (decrypt_frame d c').2)) ∧
    transport (tunnel w') = Some (MkUdp [] [] [request_frame (local_hpai (tunnel w)) (x25519_public a); authenticate_frame 1 code; encrypted c connect_frame]) ∧
    Tunnel_is_connected (tunnel w') = true ∧ tunnel_channel_id (tunnel w') = channel_id r.
Proof.
  intros cc Hk Ha Hr Hm Hp Hcode c c' Hc Hd Hf Ek Es Er Hok. unfold Tunnel_connect_secure. rewrite eff_bind_run.
  unfold on_world at 1, Tunnel_establish_transport. cbn [open_world secure_session]. rewrite eff_bind_run. cbn [lift]. unfold on_tunnel at 1, modify at 1. rewrite eff_bind_run.
  erewrite (establish_session_run security a b id mac code c1); [|reflexivity|done|exact Hp|done].
  rewrite eff_bind_run. unfold modify at 1. rewrite eff_bind_run. unfold on_world at 1, on_tunnel, modify. cbn [open_world secure_session].
  rewrite eff_bind_run. unfold attempt. fold c.
  edestruct (secure_connect_request_run show d f k r) as (w' & E & Hw' & Q); [..|rewrite E]; [done|done|reflexivity|done|done|done|done|done|done|done|].
  assert (address_registry (tunnel w') = false) as Hr' by (destruct Q as (_ & _ & Q); apply (f_equal address_registry) in Q; cbn in Q; by rewrite Q).
  rewrite secure_finish_run by done. eexists. split; [done|]. split; [|done]. cbn. rewrite Hw'. done.
Qed.

(** C10: A client and a server with the same passwords connect.  The three frames
    [connect_secure] sends (session request, authentication, encrypted connect
    request) are answered by the server with the three frames the client reads, and
    the client ends connected on the channel the server opened for it, with a
    session that is paired with the one the server keeps for its address. *)
Theorem secure_tunnel_connects show cs security a b random1 random2 la l ch s w o : l = UdpLink (ClientLink_peer_addr l) →
  secure_config s = Some cs → u16_ok (next_secure_session_id s) → send_faults (plain s) = [] → entries_ready (secure_sessions s) →
  allocate_channel_id (sessions (plain s)) = Some ch → Hpai_wf (Hpai_new (server_addr (plain s))) →
  let cc := session_config security in
  cfg_user_id cs = 1 → cfg_user_password cs = cfg_user_password cc → cfg_device_auth_password cs = cfg_device_auth_password cc →
  kind (tunnel w) = Udp → configured_address (tunnel w) = None → address_registry (tunnel w) = false → Hpai_wf (local_hpai (tunnel w)) →
  ∃ f1 r1 s1 f2 r2 s2 f3 r3 s3 w' c e,
    secure_handle_frame b f1 l s = (Ok None, s1) ∧ sent (plain s1) = sent (plain s) ++ [(l, r1)] ∧
    secure_handle_frame random1 f2 l s1 = (Ok None, s2) ∧ sent (plain s2) = sent (plain s1) ++ [(l, r2)] ∧
    secure_handle_frame random2 f3 l s2 = (Ok (Some ch), s3) ∧ sent (plain s3) = sent (plain s2) ++ [(l, r3)] ∧
    Tunnel_connect_secure show a security (Ok (MkUdp [Data r1; Data r2; Data r3] [] [], la)) (MkSecureWorld w o) =
      (Ok tt, MkSecureWorld w' (Some c)) ∧
    transport (tunnel w') = Some (MkUdp [] [] [f1; f2; f3]) ∧
    Tunnel_is_connected (tunnel w') = true ∧ tunnel_channel_id (tunnel w') = ch ∧
    sessions (plain s3) !! ch = Some (ClientSession_new (server_clock (plain s)) ch l) ∧
    secure_sessions s3 !! ClientLink_peer_addr l = Some e ∧ is_authenticated (entry_session e) = true ∧
    paired c (entry_session e) ∧ paired (entry_session e) c ∧
    fresh (ss_sequence_number c) (ss_sequence_number_received (entry_session e)).
Proof.
  intros Hl Hc Hid Hf Hr Hch Hh cc Hu Hw Hd Hk Ha Hreg Hlh.
  pose proof (client_code cs cc a b (eq_sym Hu) (eq_sym Hw)) as Hcode. destruct (established_paired cs cc a b s Hid) as [Hp1 Hp2].
  set (e0 := authenticated_entry (opening_entry cs a b s)) in *. set (c0 := client_session cc a b s) in *.
  set (s2 := after_authentication cs a b l s true).
  assert (secure_sessions s2 !! ClientLink_peer_addr l = Some e0) as He0 by apply lookup_insert_eq.
  assert (entries_ready (secure_sessions s2)) as Hr2 by (apply entries_ready_insert; [apply entries_ready_insert; [done|apply Hp2]|apply Hp2]).
  assert (socket_ready (plain s2)) as Hs2 by (unfold socket_ready; cbn; by rewrite Hf).
  destruct (server_grants random2 l e0 c0 ch s2 Hl He0 eq_refl Hp1 ltac:(cbn; lia) ltac:(by right) Hr2 Hch Hs2)
    as (s3 & e & E3 & Hs3 & Hses & He & [n Hn] & _).
  set (resp := frame_bytes ServiceType.ConnectResponse (ConnectResponse_serialize (granted ch (plain s2)))) in *.
  destruct (frame_bytes_parse ServiceType.ConnectResponse (ConnectResponse_serialize (granted ch (plain s2)))) as (k & Ek & Es & Eb);
    [rewrite length_connect_response; cbn; lia|].
  assert (Z.of_nat (length resp) ≤ 986) as Hresp by (unfold resp, frame_bytes, KnxIpFrame_serialize; cbn [body]; rewrite length_app, length_connect_response; cbn; lia).
  assert (decrypt_frame (encrypted (entry_session e0) resp) (set_sequence ((ss_sequence_number c0 + 1) mod 2 ^ 64) c0) =
    (Ok resp, set_received 0 (set_sequence 1 c0))) as Ed by (apply (decrypt_encrypted resp (entry_session e0)); [done|cbn; lia|by right]).
  destruct (secure_connect_run show security a b (next_secure_session_id s) (response_code cs a b (next_secure_session_id s)) (authenticate_code a b cs)
    (client_keyed cc a b (next_secure_session_id s)) (encrypted (entry_session e0) resp) resp k (granted ch (plain s2)) la w o)
    as (w' & E & Ht & Hcon & Hchan); [done|done|done|apply length_response_code|rewrite <-Hcode; apply response_run; right; by rewrite Hd
      |apply length_authenticate_code|apply Hp1|rewrite length_encrypted by (apply Hp2 || lia); lia| |done|done|rewrite Eb; by apply granted_roundtrip|done|].
  { change (set_session_state Authenticated _) with c0. by rewrite Ed. }
  change (set_session_state Authenticated _) with c0 in E, Ht. rewrite Ed in E. cbn [snd] in E.
  eexists _, _, (after_request cs a b l s), (authenticate_frame 1 (authenticate_code a b cs)), _, s2, _, _, s3, w', _, e. split_and!;
    [| |rewrite <-Hu| |exact E3|exact Hs3|exact E|exact Ht|done|done|exact Hses|exact He|rewrite Hn..].
  - apply request_frame_run; [done..|unfold socket_ready; by rewrite Hf|exact Hlh].
  - done.
  - pose proof (authentication_run cs cs a b l s random1 (authenticate_code a b cs) Hid Hf eq_refl (length_authenticate_code _ _ _)) as Er.
    by rewrite bool_decide_eq_true_2 in Er.
  - done.
  - done.
  - done.
  - done.
  - by right.
Qed.

(** The client acknowledges and beats its heart in the clear: with a session or
    without, the acknowledgement and the heartbeat leave unencrypted, and a secure
    server ignores them, so its sends are never acknowledged and it takes the client
    for dead. *)
Theorem secure_client_unheard random ch sq st reads out w c l cfg s : transport (tunnel w) = Some (MkUdp reads [] out) →
  secure_config s = Some cfg →
  (∃ w' f, on_world (Tunnel_send_tunnelling_ack ch sq st) (MkSecureWorld w c) = (Ok tt, MkSecureWorld w' c) ∧
     transport (tunnel w') = Some (MkUdp reads [] (out ++ [f])) ∧ secure_handle_frame random f l s = (Ok None, s)) ∧
  (∃ w' f, on_world Tunnel_send_connectionstate_request (MkSecureWorld w c) = (Ok tt, MkSecureWorld w' c) ∧
     transport (tunnel w') = Some (MkUdp reads [] (out ++ [f])) ∧ secure_handle_frame random f l s = (Ok None, s)).
Proof.
  intros Hw Hc. split.
  - eexists _, (frame_bytes ServiceType.TunnellingAck (TunnellingAck_serialize (TunnellingAck_new ch sq st))).
    unfold on_world, Tunnel_send_tunnelling_ack. rewrite eff_bind_run. cbn [lift open_world secure_session].
    rewrite KnxIpFrame_new_Ok by (cbn; lia). erewrite udp_send_run by exact Hw. split_and!; [done|done|].
    apply (clear_ignored _ _ _ _ cfg); [done|cbn; lia|set_solver].
  - set (b := ConnectionstateRequest_serialize (ConnectionstateRequest_new (tunnel_channel_id (tunnel w)) (local_hpai (tunnel w)))).
    assert (length b = 10%nat) as Hl by (unfold b, ConnectionstateRequest_serialize; by rewrite length_app, length_Hpai_serialize).
    eexists _, (frame_bytes ServiceType.ConnectionstateRequest b).
    unfold on_world, Tunnel_send_connectionstate_request. rewrite eff_bind_run. cbn [gets open_world secure_session]. rewrite eff_bind_run. cbn [lift].
    fold b. rewrite KnxIpFrame_new_Ok by lia. erewrite udp_send_run by exact Hw. split_and!; [done|done|].
    apply (clear_ignored _ _ _ _ cfg); [done|lia|set_solver].
Qed.
End together.

(** ** Witnesses *)
Section witnesses.
Existing Instances toy_crypto toy_crypto_laws.
#[local] Instance secure_tunnel_release : Profile := {| debug_build := false |}.
Definition some_security : SecurityConfig := MkSecurityConfig "C" (Some "AB") None 60.
Definition fresh_world : world UdpFrameTransport := MkWorld (Tunnel_new_udp sample_addr) AddressRegistry_new 0.
Definition secure_sample : SecureServer := bind_with_security sample_server (Some some_config).

Lemma secure_tunnel_connects_witness : ∃ r1 r2 r3 w' c,
  Tunnel_connect_secure (λ _, EmptyString) [3] some_security (Ok (MkUdp [Data r1; Data r2; Data r3] [] [], sample_peer)) (MkSecureWorld fresh_world None) =
    (Ok tt, MkSecureWorld w' (Some c)) ∧ Tunnel_is_connected (tunnel w') = true ∧ tunnel_channel_id (tunnel w') = 1.
Proof.
  destruct (secure_tunnel_connects (λ _, EmptyString) some_config some_security [3] [5] [] [] sample_peer sample_link 1 secure_sample fresh_world None)
    as (f1 & r1 & s1 & f2 & r2 & s2 & f3 & r3 & s3 & w' & c & e & _ & _ & _ & _ & _ & _ & E & _ & Hc & Hch & _).
  all: try reflexivity.
  - vm_compute. split; congruence.
  - apply map_Forall_empty.
  - exists r1, r2, r3, w', c. exact (conj E (conj Hc Hch)).
Defined.

Lemma secure_client_unheard_witness : ∃ f, secure_handle_frame [] f sample_link secure_sample = (Ok None, secure_sample).
Proof.
  destruct (secure_client_unheard [] 1 0 0 [] [] (put (MkUdp [] [] []) fresh_world) (Some toy_session) sample_link some_config secure_sample)
    as [(w' & f & _ & _ & E) _]; [reflexivity|reflexivity|]. exists f. exact E.
Defined.
End witnesses.
