(* ===== verification/Routing.v ===== *)
(** KNX/IP routing ([src/src/transport/routing.rs]): a connection over a
    multicast socket, alone and under the application's data path (file
    [Client]).

    The socket is a script, as in [FrameTransport]: what its reads and writes
    will meet, what was sent and where to, and the answer to leaving the group.
    [clock] is the time an operation starts at; sleeping moves it.  The locks are
    not poisoned: a panic is the end of the task it happens in. *)
From S2P Require Import Prelude Errors Address Apdu Telegram Cemi KnxIp FrameTransport Connection.
From S2P Require Import ReceiveLimiter Queue TunnelCore Server ServerBehaviour Client.

Record RoutingConnection := MkRouting {
  reads : list io_event;
  writes : list write_event;
  sent_to : list (SocketAddr * list Z);
  leave : option io_error;
  multicast_addr : SocketAddr;
  local_addr : SocketAddr;
  state : ConnectionState;
  stats : ConnectionStats;
  established_at : option Z;
  routing_busy_count : Z;
  lost_message_count : Z;
  clock : Z;
}.
Definition set_reads (x : list io_event) (r : RoutingConnection) : RoutingConnection :=
  MkRouting x (writes r) (sent_to r) (leave r) (multicast_addr r) (local_addr r) (state r) (stats r) (established_at r)
    (routing_busy_count r) (lost_message_count r) (clock r).
Definition set_sent (ws : list write_event) (x : list (SocketAddr * list Z)) (r : RoutingConnection) : RoutingConnection :=
  MkRouting (reads r) ws x (leave r) (multicast_addr r) (local_addr r) (state r) (stats r) (established_at r)
    (routing_busy_count r) (lost_message_count r) (clock r).
Definition set_state (x : ConnectionState) (r : RoutingConnection) : RoutingConnection :=
  MkRouting (reads r) (writes r) (sent_to r) (leave r) (multicast_addr r) (local_addr r) x (stats r) (established_at r)
    (routing_busy_count r) (lost_message_count r) (clock r).
Definition set_stats (x : ConnectionStats) (r : RoutingConnection) : RoutingConnection :=
  MkRouting (reads r) (writes r) (sent_to r) (leave r) (multicast_addr r) (local_addr r) (state r) x (established_at r)
    (routing_busy_count r) (lost_message_count r) (clock r).
Definition set_counts (busy lost : Z) (r : RoutingConnection) : RoutingConnection :=
  MkRouting (reads r) (writes r) (sent_to r) (leave r) (multicast_addr r) (local_addr r) (state r) (stats r) (established_at r)
    busy lost (clock r).
Definition set_clock (x : Z) (r : RoutingConnection) : RoutingConnection :=
  MkRouting (reads r) (writes r) (sent_to r) (leave r) (multicast_addr r) (local_addr r) (state r) (stats r) (established_at r)
    (routing_busy_count r) (lost_message_count r) x.
Abbreviation M := (eff RoutingConnection KnxError).

Definition MULTICAST_ADDR : IpAddr := V4 224 0 23 12.
Definition MULTICAST_PORT : Z := 3671.
Definition UNSPECIFIED : IpAddr := V4 0 0 0 0.

(** What the operating system answers. *)
Record socket_os := MkSocketOs {
  os_bind : SocketAddr → option io_error;
  os_local_addr : SocketAddr → SocketAddr + io_error;
  os_join : IpAddr → IpAddr → option io_error;
}.
(** [new] and [new_with_interface] differ in the address they bind to, the
    interface they join on and the name of a failed join. *)
Definition open_multicast (os : socket_os) (now : Z) (script : list io_event * list write_event * option io_error)
    (bind_addr : SocketAddr) (interface : IpAddr) (operation : string) : result RoutingConnection :=
  match os_bind os bind_addr with
  | Some e => terr (SocketError "bind" e)
  | None =>
      match os_local_addr os bind_addr with
      | inr e => terr (SocketError "get_local_addr" e)
      | inl actual_local_addr =>
          match os_join os MULTICAST_ADDR interface with
          | Some e => terr (SocketError operation e)
          | None =>
              let '(rs, ws, lv) := script in
              Ok (MkRouting rs ws [] lv (MkSocketAddr MULTICAST_ADDR MULTICAST_PORT) actual_local_addr Connected
                    ConnectionStats_default (Some now) 0 0 now)
          end
      end
  end.
Definition RoutingConnection_new (os : socket_os) (now : Z) (script : list io_event * list write_event * option io_error)
    (local : option IpAddr) : result RoutingConnection :=
  let bind_addr := match local with
                   | Some addr => MkSocketAddr addr MULTICAST_PORT
                   | None => MkSocketAddr UNSPECIFIED MULTICAST_PORT
                   end in
  open_multicast os now script bind_addr UNSPECIFIED "join_multicast".
Definition RoutingConnection_new_with_interface (os : socket_os) (now : Z)
    (script : list io_event * list write_event * option io_error) (interface_addr : IpAddr) : result RoutingConnection :=
  open_multicast os now script (MkSocketAddr interface_addr MULTICAST_PORT) interface_addr "join_multicast_with_interface".

Section operations.
Context `{Profile}.
(** [count += 1] on a [u32]. *)
Definition increment32 (n : Z) : result Z :=
  if 2 ^ 32 <=? n + 1 then (if debug_build then Panic else Ok ((n + 1) mod 2 ^ 32)) else Ok (n + 1).
Definition record_receive_error (text : string) : M unit :=
  modify (λ r, set_stats (ConnectionStats_record_receive_error (clock r) text (stats r)) r).
Definition handle_routing_lost_message (body : list Z) : M unit :=
  r ← gets id;
  count ← lift (increment32 (lost_message_count r));
  _ ← modify (set_counts (routing_busy_count r) count);
  record_receive_error "Routing lost message received".
Definition handle_routing_busy (body : list Z) : M unit :=
  device_state ← lift (if (2 <=? length body)%nat
    then b0 ← idx body 0; b1 ← idx body 1; Ok (from_be16 b0 b1) else Ok 0);
  wait_time ← lift (if (4 <=? length body)%nat
    then b2 ← idx body 2; b3 ← idx body 3; Ok (from_be16 b2 b3) else Ok 100);
  r ← gets id;
  count ← lift (increment32 (routing_busy_count r));
  _ ← modify (set_counts count (lost_message_count r));
  _ ← record_receive_error ("Routing busy: device_state=0x" +:+ hex04 device_state +:+ ", wait_time=" +:+ dec wait_time +:+ "ms");
  if 0 <? wait_time then modify (λ r, set_clock (clock r + wait_time * 1000000) r) else mret tt.
Definition process_routing_message (frame_data : list Z) : M (list Z) :=
  frame ← lift (map_err (λ e, Transport (TransportInvalidConfiguration ("Failed to parse routing frame: " +:+ KnxError_display e)))
                  (KnxIpFrame_parse frame_data));
  match service_type (header frame) with
  | ServiceType.RoutingIndication => mret (body frame)
  | ServiceType.RoutingLostMessage => _ ← handle_routing_lost_message (body frame); mret []
  | ServiceType.RoutingBusy => _ ← handle_routing_busy (body frame); mret []
  | _ => mret (body frame)
  end.
Definition send_routing_indication (cemi_data : list Z) : M unit :=
  frame ← lift (KnxIpFrame_new ServiceType.RoutingIndication cemi_data);
  let frame_data := KnxIpFrame_serialize frame in
  r ← gets id;
  let '(w, ws) := pop_write (writes r) in
  match w with
  | WOk =>
      _ ← modify (set_sent ws (sent_to r ++ [(multicast_addr r, frame_data)]));
      modify (λ r, set_stats (count_sent (stats r)) r)
  | WFault _ e =>
      _ ← modify (set_sent ws (sent_to r));
      _ ← modify (λ r, set_stats (ConnectionStats_record_send_error (clock r) (io_text e) (stats r)) r);
      throw (Transport (SocketError "send_routing_indication" e))
  end.

(** * The [Connection] trait *)
Definition RoutingConnection_is_connected (r : RoutingConnection) : bool := bool_decide (state r = Connected).
Definition RoutingConnection_send (frame : list Z) : M unit :=
  r ← gets id;
  if RoutingConnection_is_connected r then send_routing_indication frame else throw (Transport ConnectionClosed).
(** [None] is a receive that is still pending when the caller stops waiting. *)
Definition RoutingConnection_recv : M (option (list Z)) :=
  r ← gets id;
  if RoutingConnection_is_connected r then
    match reads r with
    | [] => mret None
    | Stall :: rs => _ ← modify (set_reads rs); mret None
    | Fault e :: rs =>
        _ ← modify (set_reads rs);
        _ ← record_receive_error (io_text e);
        throw (Transport (SocketError "recv_from" e))
    | Data d :: rs =>
        _ ← modify (set_reads rs);
        cemi_data ← process_routing_message (take 1024 d);
        _ ← match cemi_data with [] => mret tt | _ => modify (λ r, set_stats (count_received (stats r)) r) end;
        mret (Some cemi_data)
    end
  else throw (Transport ConnectionClosed).
Definition RoutingConnection_close : M unit :=
  _ ← modify (set_state Disconnecting);
  _ ← modify (set_state Disconnected);
  r ← gets id;
  match leave r with Some e => throw (Transport (SocketError "leave_multicast" e)) | None => mret tt end.
Definition RoutingConnection_uptime (now : Z) (r : RoutingConnection) : option Z := (λ start, now - start) <$> established_at r.
Definition RoutingConnection_stats (now : Z) (r : RoutingConnection) : ConnectionStats :=
  match RoutingConnection_uptime now r with Some u => with_uptime (u / 1000000000) (stats r) | None => stats r end.
End operations.

Record RoutingStats := MkRoutingStats { rs_busy_count : Z; rs_lost_count : Z; rs_uptime : option Z }.
Definition RoutingConnection_routing_stats (now : Z) (r : RoutingConnection) : RoutingStats :=
  MkRoutingStats (routing_busy_count r) (lost_message_count r) (RoutingConnection_uptime now r).

(** * Lemmas *)
Inductive routing_event := Indication (cemi : list Z) | LostMessage (b : list Z) | Busy (b : list Z).
Definition event_body (e : routing_event) : list Z := match e with Indication b | LostMessage b | Busy b => b end.
Definition event_service (e : routing_event) : ServiceType.ServiceType :=
  match e with
  | Indication _ => ServiceType.RoutingIndication | LostMessage _ => ServiceType.RoutingLostMessage | Busy _ => ServiceType.RoutingBusy
  end.
Definition event_bytes (e : routing_event) : list Z :=
  frame_bytes (event_service e) (event_body e).
Definition event_result (e : routing_event) : list Z := match e with Indication b => b | _ => [] end.
(** How long a busy message asks to wait, and what a receiver counts. *)
Definition busy_wait (b : list Z) : Z := match b with _ :: _ :: b2 :: b3 :: _ => from_be16 b2 b3 | _ => 100 end.
Definition event_wait (e : routing_event) : Z := match e with Busy b => Z.max 0 (busy_wait b) | _ => 0 end.
Definition is_busy (e : routing_event) : bool := match e with Busy _ => true | _ => false end.
Definition is_lost (e : routing_event) : bool := match e with LostMessage _ => true | _ => false end.
Definition is_data (e : routing_event) : bool := match e with Indication (_ :: _) => true | _ => false end.
Definition tally (p : routing_event → bool) (es : list routing_event) : Z := Z.of_nat (length (filter (λ e, p e = true) es)).

(** [r'] has handled [es] since [r]. *)
Record handled (es : list routing_event) (r r' : RoutingConnection) : Prop := {
  handled_state : state r' = state r;
  handled_busy : routing_busy_count r' = routing_busy_count r + tally is_busy es;
  handled_lost : lost_message_count r' = lost_message_count r + tally is_lost es;
  handled_received : frames_received (stats r') = frames_received (stats r) + tally is_data es;
  handled_errors : recv_errors (stats r') = recv_errors (stats r) + tally is_busy es + tally is_lost es;
  handled_clock : clock r' = clock r + foldr (λ e t, event_wait e * 1000000 + t) 0 es;
  handled_sent : sent_to r' = sent_to r ∧ frames_sent (stats r') = frames_sent (stats r);
}.
Lemma tally_cons p e es : tally p (e :: es) = (if p e then 1 else 0) + tally p es.
Proof. unfold tally. rewrite filter_cons. destruct (p e); [rewrite decide_True by done; cbn [length]; lia|by rewrite decide_False]. Qed.
Lemma tally_nil p : tally p [] = 0.
Proof. done. Qed.
Lemma tally_bound p es : 0 ≤ tally p es ≤ Z.of_nat (length es).
Proof. unfold tally. pose proof (length_filter (λ e, p e = true) es). lia. Qed.
Ltac tally := repeat rewrite tally_cons; repeat rewrite tally_nil.
(** The effect of one step, field by field. *)
Tactic Notation "handled_tac" := split; tally; cbn; first [lia|done].
Lemma handled_nil r : handled [] r r.
Proof. by split; cbn; rewrite ?Z.add_0_r. Qed.
Lemma handled_cons e es r r1 r2 : handled [e] r r1 → handled es r1 r2 → handled (e :: es) r r2.
Proof.
  intros [A1 A2 A3 A4 A5 A6 [A7 A8]] [B1 B2 B3 B4 B5 B6 [B7 B8]]. revert A2 A3 A4 A5. tally. intros. cbn [foldr] in A6.
  split; tally; cbn [foldr]; [congruence|lia..|split; congruence].
Qed.

Section lemmas.
Context `{Profile}.
Implicit Types r : RoutingConnection.
Lemma increment32_small n : 0 ≤ n < 2 ^ 32 - 1 → increment32 n = Ok (n + 1).
Proof. intros Hn. unfold increment32. by rewrite (proj2 (Z.leb_gt _ _)) by lia. Qed.
Lemma length_event_bytes e : length (event_bytes e) = (6 + length (event_body e))%nat.
Proof. done. Qed.
Lemma parse_event e : (length (event_body e) ≤ 1018)%nat →
  ∃ f, KnxIpFrame_parse (event_bytes e) = Ok f ∧ body f = event_body e ∧ service_type (header f) = event_service e.
Proof.
  intros Hl. unfold event_bytes, frame_bytes. rewrite <-(app_nil_r (KnxIpFrame_serialize _)), KnxIpFrame_parse_serialized by lia.
  eexists. split; [done|]. by destruct e.
Qed.
Lemma busy_run b r : 0 ≤ routing_busy_count r < 2 ^ 32 - 1 →
  ∃ r', handle_routing_busy b r = (Ok tt, r') ∧ handled [Busy b] r r' ∧ reads r' = reads r.
Proof.
  intros Hc. unfold handle_routing_busy. rewrite eff_bind_run.
  assert (∃ ds, (if (2 <=? length b)%nat then b0 ← idx b 0; b1 ← idx b 1; Ok (from_be16 b0 b1) else Ok 0 : result Z) = Ok ds) as [ds ->].
  { destruct b as [|b0 [|b1 b]]; cbn; by eexists. }
  cbn [lift]. rewrite eff_bind_run.
  assert ((if (4 <=? length b)%nat then b2 ← idx b 2; b3 ← idx b 3; Ok (from_be16 b2 b3) else Ok 100 : result Z) = Ok (busy_wait b)) as ->.
  { by destruct b as [|? [|? [|? [|? b]]]]. }
  cbn [lift]. rewrite eff_bind_run. cbn [gets id]. rewrite eff_bind_run, increment32_small by done. cbn [lift].
  rewrite eff_bind_run. unfold modify at 1. rewrite eff_bind_run. unfold record_receive_error. unfold modify at 1.
  destruct (0 <? busy_wait b) eqn:Ew; (eexists; split; [reflexivity|]); (split; [|done]); handled_tac.
Qed.
Lemma lost_run b r : 0 ≤ lost_message_count r < 2 ^ 32 - 1 →
  ∃ r', handle_routing_lost_message b r = (Ok tt, r') ∧ handled [LostMessage b] r r' ∧ reads r' = reads r.
Proof.
  intros Hc. unfold handle_routing_lost_message. rewrite eff_bind_run. cbn [gets id].
  rewrite eff_bind_run, increment32_small by done. eexists. split; [reflexivity|]. split; [|done]. handled_tac.
Qed.
Lemma recv_event e rs r : state r = Connected → reads r = Data (event_bytes e) :: rs → (length (event_body e) ≤ 1018)%nat →
  0 ≤ routing_busy_count r < 2 ^ 32 - 1 → 0 ≤ lost_message_count r < 2 ^ 32 - 1 →
  ∃ r', RoutingConnection_recv r = (Ok (Some (event_result e)), r') ∧ handled [e] r r' ∧ reads r' = rs.
Proof.
  intros Hs Hr Hl Hb Hc. unfold RoutingConnection_recv. rewrite eff_bind_run. cbn [gets id].
  unfold RoutingConnection_is_connected. rewrite bool_decide_true by done. rewrite Hr, eff_bind_run. unfold modify at 1.
  rewrite eff_bind_run. unfold process_routing_message. rewrite eff_bind_run.
  rewrite take_ge by (rewrite length_event_bytes; lia).
  destruct (parse_event e Hl) as (f & -> & Ef & Es). cbn [map_err lift]. rewrite Es. destruct e as [cemi|b|b]; cbn [event_body event_service] in *.
  - rewrite Ef. destruct cemi as [|x cemi]; (eexists; split; [reflexivity|]); (split; [|done]); handled_tac.
  - rewrite eff_bind_run. destruct (lost_run (body f) (set_reads rs r) Hc) as (r' & -> & Hh & Er).
    eexists. split; [reflexivity|]. rewrite Ef in Hh. split; [|done]. destruct Hh. by split.
  - rewrite eff_bind_run. destruct (busy_run (body f) (set_reads rs r) Hb) as (r' & -> & Hh & Er).
    eexists. split; [reflexivity|]. rewrite Ef in Hh. split; [|done]. destruct Hh. by split.
Qed.

(** [n] receives in a row. *)
Fixpoint recv_all (n : nat) : M (list (option (list Z))) :=
  match n with O => mret [] | S n => x ← RoutingConnection_recv; xs ← recv_all n; mret (x :: xs) end.
Lemma send_run cemi r : Z.of_nat (length cemi) ≤ 65529 → state r = Connected → (pop_write (writes r)).1 = WOk →
  RoutingConnection_send cemi r =
    (Ok tt, set_stats (count_sent (stats r)) (set_sent (pop_write (writes r)).2
       (sent_to r ++ [(multicast_addr r, event_bytes (Indication cemi))]) r)).
Proof.
  intros Hl Hs Hw. unfold RoutingConnection_send. rewrite eff_bind_run. cbn [gets id]. unfold RoutingConnection_is_connected.
  rewrite bool_decide_true by done. unfold send_routing_indication. rewrite eff_bind_run, KnxIpFrame_new_Ok by done. cbn [lift].
  rewrite eff_bind_run. cbn [gets id]. destruct (pop_write (writes r)) as [w ws]. cbn in Hw. by subst.
Qed.
Lemma recv_all_run es rs r : state r = Connected → reads r = (Data <$> (event_bytes <$> es)) ++ rs →
  Forall (λ e, length (event_body e) ≤ 1018)%nat es →
  0 ≤ routing_busy_count r → routing_busy_count r + Z.of_nat (length es) < 2 ^ 32 →
  0 ≤ lost_message_count r → lost_message_count r + Z.of_nat (length es) < 2 ^ 32 →
  ∃ r', recv_all (length es) r = (Ok (Some ∘ event_result <$> es), r') ∧ handled es r r' ∧ reads r' = rs.
Proof.
  revert r. induction es as [|e es IH]; intros r Hs Hr Hl Hb1 Hb2 Hc1 Hc2.
  { exists r. split; [done|]. split; [apply handled_nil|done]. }
  apply Forall_cons in Hl as [Hl1 Hl]. cbn [length] in *.
  rewrite !fmap_cons in Hr. destruct (recv_event e _ r Hs Hr Hl1 ltac:(lia) ltac:(lia)) as (r1 & E1 & H1 & R1).
  pose proof H1 as [S1 B1 C1 _ _ _ _]. revert B1 C1. tally. intros.
  destruct (IH r1) as (r2 & E2 & H2 & R2); [congruence|done|done|destruct (is_busy e), (is_lost e); lia..|].
  exists r2. split; [|split; [by eapply handled_cons|done]].
  cbn [recv_all]. rewrite eff_bind_run, E1, eff_bind_run, E2. done.
Qed.
Fixpoint send_all (cemis : list (list Z)) : M unit :=
  match cemis with [] => mret tt | c :: cs => _ ← RoutingConnection_send c; send_all cs end.
Lemma send_all_run cemis r : state r = Connected → writes r = [] → Forall (λ c, length c ≤ 1018)%nat cemis →
  ∃ r', send_all cemis r = (Ok tt, r') ∧
    sent_to r' = sent_to r ++ ((λ c, (multicast_addr r, event_bytes (Indication c))) <$> cemis) ∧
    frames_sent (stats r') = frames_sent (stats r) + Z.of_nat (length cemis).
Proof.
  revert r. induction cemis as [|c cs IH]; intros r Hs Hw Hl.
  { exists r. cbn. by rewrite app_nil_r, Z.add_0_r. }
  apply Forall_cons in Hl as [Hc Hl]. cbn [send_all]. rewrite eff_bind_run, send_run by (rewrite ?Hw; done || lia). rewrite Hw.
  match goal with |- context [send_all cs ?x] => destruct (IH x Hs eq_refl Hl) as (r' & -> & E1 & E2) end.
  exists r'. split; [done|]. rewrite E1, E2. cbn [sent_to stats frames_sent set_stats set_sent count_sent multicast_addr length].
  rewrite fmap_cons, <-app_assoc. split; [done|lia].
Qed.
End lemmas.

(** * Properties *)
Section properties.
Context `{Profile}.
Implicit Types r : RoutingConnection.

(** A connected routing connection that reads indications, lost-message and
    busy messages in any order returns the CEMI data of the indications and
    nothing for the others, counts each kind, and waits after every busy message
    for the time the message asks for, 100 ms if it names none. *)
Theorem routing_receives es rs r : state r = Connected → reads r = (Data <$> (event_bytes <$> es)) ++ rs →
  Forall (λ e, length (event_body e) ≤ 1018)%nat es →
  0 ≤ routing_busy_count r → routing_busy_count r + Z.of_nat (length es) < 2 ^ 32 →
  0 ≤ lost_message_count r → lost_message_count r + Z.of_nat (length es) < 2 ^ 32 →
  ∃ r', recv_all (length es) r = (Ok (Some ∘ event_result <$> es), r') ∧ handled es r r' ∧ reads r' = rs.
Proof. apply recv_all_run. Qed.

(** What is sent on one routing connection is received on another one, in
    order: every datagram goes to the multicast group, and reading those datagrams
    gives back the CEMI data. *)
Theorem routing_delivery cemis a b : state a = Connected → writes a = [] → sent_to a = [] →
  Forall (λ c, length c ≤ 1018)%nat cemis →
  ∃ a', send_all cemis a = (Ok tt, a') ∧ Forall (λ p, p.1 = multicast_addr a) (sent_to a') ∧
    (state b = Connected → reads b = Data <$> (snd <$> sent_to a') →
     0 ≤ routing_busy_count b → routing_busy_count b + Z.of_nat (length cemis) < 2 ^ 32 →
     0 ≤ lost_message_count b → lost_message_count b + Z.of_nat (length cemis) < 2 ^ 32 →
     ∃ b', recv_all (length cemis) b = (Ok (Some <$> cemis), b') ∧ reads b' = []).
Proof.
  intros Hs Hw H0 Hl. destruct (send_all_run cemis a Hs Hw Hl) as (a' & Ea & Es & _). rewrite H0 in Es. cbn in Es.
  exists a'. split; [done|]. rewrite Es. split; [by apply Forall_fmap, Forall_true|].
  intros Hb Hr H1 H2 H3 H4. destruct (recv_all_run (Indication <$> cemis) [] b) as (b' & Eb & _ & Rb).
  - done.
  - rewrite Hr, app_nil_r, <-!list_fmap_compose. done.
  - by apply Forall_fmap.
  - done.
  - by rewrite length_fmap.
  - done.
  - by rewrite length_fmap.
  - exists b'. rewrite length_fmap, <-list_fmap_compose in Eb. by split.
Qed.
(** ** Under the application

    What a client on a routing connection hands to [send] is already a KNX/IP
    frame. *)
Lemma build_routing_run {T} (t : Telegram) (c : client T) : telegram_fits t → conn c = OtherConnection →
  build_outgoing_frame_for_connection t c = (Ok (event_bytes (Indication (sent_cemi t LDataReq))), c).
Proof.
  intros Ht Hc. unfold build_outgoing_frame_for_connection. cbn zeta. fold (sent_service t). fold (sent_cemi t LDataReq).
  rewrite eff_bind_run. unfold on_tunnel_connection. rewrite Hc, eff_bind_run. pose proof (sent_cemi_length t LDataReq Ht).
  by rewrite KnxIpFrame_new_Ok by lia.
Qed.
Lemma header_first data h : KnxIpHeader_parse data = Ok h → data !! 0%nat = Some 6.
Proof.
  unfold KnxIpHeader_parse. destruct (_ <? _)%nat; [done|].
  destruct data as [|b0 data]; [done|]. cbn [idx lookup list_lookup mbind outcome_bind]. intros Hh.
  inv_binds. destruct (Z.eqb_spec b0 6) as [->|]; done.
Qed.
Lemma cemi_first data f : CemiFrame_parse data = Ok f → data !! 0%nat ≠ Some 6.
Proof.
  unfold CemiFrame_parse. destruct (_ =? _)%nat; [done|]. destruct (_ <? _)%nat; [done|].
  intros (b0 & Hb%idx_Ok & Hc)%outcome_bind_Ok. apply outcome_bind_Ok in Hc as (code & Hcode & _).
  rewrite Hb. intros [= ->]. done.
Qed.
Lemma sent_indication_length t : telegram_fits t → (length (event_bytes (Indication (sent_cemi t LDataReq))) ≤ 1018)%nat.
Proof. intros Ht. pose proof (sent_cemi_length t LDataReq Ht). rewrite length_event_bytes. cbn [event_body]. lia. Qed.

(** C38: Two clients of this library understand one another over routing: a
    telegram sent by one reaches the receive path of the other with the same
    source and destination; without a payload as a read, whose payload is [0] at
    the receiver, and otherwise as a write of the same payload, or of its value
    modulo 64 if it is a single byte.  Type and priority are not carried: a
    response arrives as a write and every telegram with normal priority. *)
Theorem routing_clients {T} `{FrameTransport T} config t (c c' : client T) a b rs :
  telegram_sendable t → conn c = OtherConnection →
  state a = Connected → (pop_write (writes a)).1 = WOk → state b = Connected →
  0 ≤ routing_busy_count b < 2 ^ 32 - 1 → 0 ≤ lost_message_count b < 2 ^ 32 - 1 →
  ∃ f a' d, build_outgoing_frame_for_connection t c = (Ok f, c) ∧ RoutingConnection_send f a = (Ok tt, a') ∧
    sent_to a' = sent_to a ++ [(multicast_addr a, d)] ∧
    (reads b = Data d :: rs → ∃ b', RoutingConnection_recv b = (Ok (Some f), b') ∧
       Knx_handle_incoming_frame config f c' = (Ok true, (accept_telegram config (arrived (now c') t) c').2)).
Proof.
  intros Hg Hc Ha Hw Hb Hb1 Hb2. pose proof Hg as (_ & _ & _ & Ht).
  pose proof (sent_cemi_length t LDataReq Ht) as Hl. pose proof (sent_indication_length t Ht) as Hl2.
  eexists _, _, _. split; [by apply build_routing_run|]. split; [apply send_run; [lia|done|done]|]. split; [done|].
  intros Hr. destruct (recv_event _ _ _ Hb Hr Hl2 Hb1 Hb2) as (b' & E & _). exists b'. split; [done|].
  unfold Knx_handle_incoming_frame. rewrite eff_bind_run.
  destruct (parse_event (Indication (sent_cemi t LDataReq))) as (f & Ef & Eb & Es); [cbn [event_body]; lia|].
  rewrite Ef. cbn [lift]. rewrite Es. cbn [event_service]. rewrite eff_bind_run. unfold Knx_handle_routing_indication.
  rewrite eff_bind_run. cbn [gets]. rewrite eff_bind_run, Eb. cbn [event_body lift]. rewrite knx_parse_is_server_parse, parse_sent by done.
  unfold accept_telegram.
  destruct (receive_limiter c') as [l|]; [by destruct (ReceiveRateLimiter_try_send _ _ _)|by destruct (enqueue_incoming _ _ _)].
Qed.

(** No other device understands them, nor they another device.  The datagram a
    client sends for a telegram holds a routing indication in a routing
    indication, whose body no CEMI parser accepts; and a datagram that holds a CEMI
    frame, as other devices send it, is received but then refused, because the
    client takes the CEMI frame for a KNX/IP frame. *)
Theorem routing_interoperates_not {T} `{FrameTransport T} config t (c : client T) a : telegram_fits t → conn c = OtherConnection →
  state a = Connected → (pop_write (writes a)).1 = WOk →
  (∃ f a' d k, build_outgoing_frame_for_connection t c = (Ok f, c) ∧ RoutingConnection_send f a = (Ok tt, a') ∧
     sent_to a' = sent_to a ++ [(multicast_addr a, d)] ∧ KnxIpFrame_parse d = Ok k ∧
     service_type (header k) = ServiceType.RoutingIndication ∧ ∀ g, CemiFrame_parse (body k) ≠ Ok g) ∧
  ∀ cemi g, CemiFrame_parse cemi = Ok g → ∃ e, Knx_handle_incoming_frame config cemi c = (Err e, c).
Proof.
  intros Ht Hc Ha Hw. pose proof (sent_cemi_length t LDataReq Ht) as Hl. pose proof (sent_indication_length t Ht) as Hl2. split.
  - destruct (parse_event (Indication (event_bytes (Indication (sent_cemi t LDataReq)))) Hl2) as (k & Ek & Eb & Es).
    eexists _, _, _, k. split; [by apply build_routing_run|]. split; [apply send_run; [lia|done|done]|].
    split; [done|]. split; [done|]. split; [done|]. intros g Hg. apply cemi_first in Hg. rewrite Eb in Hg. apply Hg. done.
  - intros cemi g Hg%cemi_first. unfold Knx_handle_incoming_frame. rewrite eff_bind_run. unfold KnxIpFrame_parse.
    pose proof (KnxIpHeader_parse_no_panic cemi). destruct (KnxIpHeader_parse cemi) as [h|e|] eqn:Eh; [|by eexists|done].
    by apply header_first in Eh.
Qed.
(** Once closed, also when the group cannot be left, a connection sends and
    receives nothing any more; its counters stay readable. *)
Theorem routing_closed frame r :
  let r' := (RoutingConnection_close r).2 in
  RoutingConnection_send frame r' = (Err (Transport ConnectionClosed), r') ∧
  RoutingConnection_recv r' = (Err (Transport ConnectionClosed), r') ∧
  (RoutingConnection_close r).1 = match leave r with Some e => terr (SocketError "leave_multicast" e) | None => Ok tt end ∧
  ∀ now, RoutingConnection_stats now r' = RoutingConnection_stats now r ∧
    RoutingConnection_routing_stats now r' = RoutingConnection_routing_stats now r.
Proof.
  assert (RoutingConnection_close r =
    (match leave r with Some e => terr (SocketError "leave_multicast" e) | None => Ok tt end, set_state Disconnected r)) as ->.
  { unfold RoutingConnection_close. rewrite eff_bind_run. unfold modify at 1. rewrite eff_bind_run. unfold modify at 1.
    rewrite eff_bind_run. cbn [gets id leave set_state]. by destruct (leave r). }
  done.
Qed.
End properties.

(** ** Witnesses *)
#[local] Instance routing_release : Profile := {| debug_build := false |}.
Definition sample_routing (rs : list io_event) : RoutingConnection :=
  MkRouting rs [] [] None (MkSocketAddr MULTICAST_ADDR MULTICAST_PORT) (MkSocketAddr (V4 192 168 1 5) 3671) Connected
    ConnectionStats_default (Some 0) 0 0 0.
Definition sample_events : list routing_event :=
  [Indication [0x29; 0; 0xBC]; Busy [0; 0; 0; 50]; LostMessage [4; 0; 0; 1]; Busy []].
Lemma routing_receives_witness : ∃ r',
  recv_all 4 (sample_routing (Data <$> (event_bytes <$> sample_events))) = (Ok [Some [0x29; 0; 0xBC]; Some []; Some []; Some []], r') ∧
  handled sample_events (sample_routing (Data <$> (event_bytes <$> sample_events))) r' ∧ clock r' = 150000000.
Proof.
  destruct (routing_receives sample_events [] (sample_routing (Data <$> (event_bytes <$> sample_events)))) as (r' & E & Hh & _).
  - reflexivity.
  - by rewrite app_nil_r.
  - repeat constructor; cbn; lia.
  - cbn; lia.
  - cbn; lia.
  - cbn; lia.
  - cbn; lia.
  - exists r'. split; [exact E|]. split; [exact Hh|]. by destruct Hh as [_ _ _ _ _ -> _].
Defined.
Lemma routing_delivery_witness : ∃ a',
  send_all [[0x29; 0; 0xBC]; [0x29; 0; 0xBD]] (sample_routing []) = (Ok tt, a') ∧
  ∃ b', recv_all 2 (sample_routing (Data <$> (snd <$> sent_to a'))) = (Ok [Some [0x29; 0; 0xBC]; Some [0x29; 0; 0xBD]], b').
Proof.
  destruct (send_all_run [[0x29; 0; 0xBC]; [0x29; 0; 0xBD]] (sample_routing []) eq_refl eq_refl) as (a' & E & Es & _).
  { repeat constructor; cbn; lia. }
  exists a'. split; [exact E|].
  destruct (routing_delivery [[0x29; 0; 0xBC]; [0x29; 0; 0xBD]] (sample_routing []) (sample_routing (Data <$> (snd <$> sent_to a'))))
    as (a2 & E2 & _ & Hb).
  - reflexivity.
  - reflexivity.
  - reflexivity.
  - repeat constructor; cbn; lia.
  - assert (a2 = a') as -> by congruence. destruct Hb as (b' & Eb & _); [reflexivity|reflexivity|cbn; lia..|]. by exists b'.
Defined.
Definition routing_client : client UdpFrameTransport := MkClient OtherConnection QueueState_new (Some new_limiter) [] false None 0.
Definition routing_telegram : Telegram := Telegram_group_write 0 (MkGroupAddress 0x0A03) [200].
Lemma routing_clients_witness : ∃ f a' d,
  build_outgoing_frame_for_connection routing_telegram routing_client = (Ok f, routing_client) ∧
  RoutingConnection_send f (sample_routing []) = (Ok tt, a') ∧
  sent_to a' = [(MkSocketAddr MULTICAST_ADDR MULTICAST_PORT, d)].
Proof.
  destruct (routing_clients QueueConfig_default routing_telegram routing_client routing_client (sample_routing []) (sample_routing []) [])
    as (f & a' & d & E1 & E2 & E3 & _).
  - split; [vm_compute; split; congruence|]. split; [vm_compute; split; congruence|]. split; [|vm_compute; congruence].
    repeat constructor; vm_compute; congruence.
  - reflexivity.
  - reflexivity.
  - reflexivity.
  - reflexivity.
  - cbn; lia.
  - cbn; lia.
  - exists f, a', d. by split_and!.
Defined.
Lemma routing_interoperates_not_witness :
  ∃ e, Knx_handle_incoming_frame QueueConfig_default sample_cemi_bytes routing_client = (Err e, routing_client).
Proof.
  destruct (routing_interoperates_not QueueConfig_default routing_telegram routing_client (sample_routing [])) as [_ Hr].
  - vm_compute. discriminate.
  - reflexivity.
  - reflexivity.
  - reflexivity.
  - eapply (Hr sample_cemi_bytes). vm_compute. reflexivity.
Defined.
