(* ===== verification/Discovery.v ===== *)
(** Discovery of gateways ([src/src/transport/discovery.rs]): the search
    request, the parser of search responses, and the collection of the responses
    of a scan.

    A scan is the script of what its socket receives until the timeout elapses:
    datagrams with their senders, or a fault.  The hash map of the gateways is a
    finite map with an arbitrary order of its values. *)
From stdpp Require Import gmap.
From S2P Require Import Prelude Errors KnxIp Text.

(** * Addresses as text ([std::net]) *)
Fixpoint hex_digits (fuel : nat) (n : Z) (acc : string) : string :=
  match fuel with
  | O => acc
  | S fuel =>
      let d := if n mod 16 <? 10 then 48 + n mod 16 else 87 + n mod 16 in
      let acc := String (ascii_of_nat (Z.to_nat d)) acc in
      if n / 16 =? 0 then acc else hex_digits fuel (n / 16) acc
  end.
(** [{:x}] of a [u16]. *)
Definition hex_lower (n : Z) : string := hex_digits 4 n EmptyString.
Fixpoint segments (l : list Z) : list Z :=
  match l with hi :: lo :: l => from_be16 hi lo :: segments l | _ => [] end.
Definition join_segments (l : list Z) : string := String.concat ":" (hex_lower <$> l).
(** The first longest run of zeros from [i] on: its start and length. *)
Fixpoint zero_runs (l : list Z) (i : nat) (current longest : nat * nat) : nat * nat :=
  match l with
  | [] => longest
  | x :: l =>
      if x =? 0 then
        let current := if (current.2 =? 0)%nat then (i, 1%nat) else (current.1, S current.2) in
        zero_runs l (S i) current (if (longest.2 <? current.2)%nat then current else longest)
      else zero_runs l (S i) (0%nat, 0%nat) longest
  end.
Definition v4_text (a b c d : Z) : string := dec a +:+ "." +:+ dec b +:+ "." +:+ dec c +:+ "." +:+ dec d.
Definition IpAddr_text (a : IpAddr) : string :=
  match a with
  | V4 a b c d => v4_text a b c d
  | V6 octets =>
      match octets with
      | [0; 0; 0; 0; 0; 0; 0; 0; 0; 0; 255; 255; a; b; c; d] => "::ffff:" +:+ v4_text a b c d
      | _ =>
          let ss := segments octets in
          let '(start, len) := zero_runs ss 0 (0%nat, 0%nat) (0%nat, 0%nat) in
          if (1 <? len)%nat
          then join_segments (take start ss) +:+ "::" +:+ join_segments (drop (start + len) ss)
          else join_segments ss
      end
  end.
Definition SocketAddr_text (s : SocketAddr) : string :=
  match ip s with
  | V4 _ _ _ _ => IpAddr_text (ip s) +:+ ":" +:+ dec (port s)
  | V6 _ => "[" +:+ IpAddr_text (ip s) +:+ "]:" +:+ dec (port s)
  end.

(** * Gateways *)
Module Service.
Inductive GatewayService :=
| Core | DeviceManagement | Tunneling | Routing | RemoteLogging | RemoteConfiguration | ObjectServer.
End Service.
#[global] Instance Service_eq_dec : EqDecision Service.GatewayService.
Proof. solve_decision. Defined.
Record GatewayCapabilities := MkGatewayCapabilities {
  supports_tunneling : bool;
  supports_routing : bool;
  supports_device_management : bool;
  max_tunneling_connections : Z;
}.
Record GatewayInfo := MkGatewayInfo {
  addr : SocketAddr;
  name : string;
  capabilities : GatewayCapabilities;
  supported_services : list Service.GatewayService;
  device_serial : string;
  mac_address : option string;
  multicast_addr : option SocketAddr;
}.

Definition build_discovery_request : list Z :=
  [0x06; 0x10; 0x02; 0x01; 0x00; 0x0E] ++ [0x08; 0x01; 0; 0; 0; 0; 0; 0].

(** * Search responses *)
Definition invalid_response (addr : SocketAddr) (reason : string) : KnxError :=
  Discovery (InvalidResponse (SocketAddr_text addr) reason).
(** What the loop over the device information blocks builds up. *)
Record found := MkFound {
  f_name : string;
  f_capabilities : GatewayCapabilities;
  f_services : list Service.GatewayService;
  f_serial : string;
}.
(** [{:08X}] of a length. *)
Definition hex08 (n : Z) : string := hex04 (n / 65536) +:+ hex04 (n mod 65536).
Definition initial_found (addr : SocketAddr) : found :=
  MkFound ("KNX Gateway " +:+ IpAddr_text (ip addr)) (MkGatewayCapabilities false false false 1) [Service.Core]
    ("SN" +:+ hex08 (Z.of_nat (String.length (IpAddr_text (ip addr))))).
Definition serial_text (l : list Z) : string := "SN" +:+ foldr (λ b s, hex02 b +:+ s) EmptyString l.
(** [position(|b| b == 0)] and the bytes before it. *)
Fixpoint before_nul (l : list Z) : option (list Z) :=
  match l with [] => None | b :: l => if b =? 0 then Some [] else cons b <$> before_nul l end.
Definition friendly_name (name_bytes : list Z) (otherwise : string) : string :=
  match before_nul name_bytes with
  | Some text => if utf8_valid text && negb (length text =? 0)%nat then utf8 text else otherwise
  | None => otherwise
  end.
Definition device_block (data : list Z) (offset dib_length : nat) (f : found) : result found :=
  if ((54 <=? dib_length) && (offset + 54 <=? length data))%nat then
    serial_bytes ← slice data (offset + 12) (offset + 18);
    name_bytes ← slice data (offset + 24) (offset + 54);
    Ok (MkFound (friendly_name name_bytes (f_name f)) (f_capabilities f) (f_services f) (serial_text serial_bytes))
  else Ok f.
Definition add_family (service_family : Z) (p : GatewayCapabilities * list Service.GatewayService)
    : GatewayCapabilities * list Service.GatewayService :=
  let '(c, services) := p in
  if service_family =? 0x03 then
    (MkGatewayCapabilities (supports_tunneling c) (supports_routing c) true (max_tunneling_connections c),
     services ++ [Service.DeviceManagement])
  else if service_family =? 0x04 then
    (MkGatewayCapabilities true (supports_routing c) (supports_device_management c) 4, services ++ [Service.Tunneling])
  else if service_family =? 0x05 then
    (MkGatewayCapabilities (supports_tunneling c) true (supports_device_management c) (max_tunneling_connections c),
     services ++ [Service.Routing])
  else (c, services).
Fixpoint services_loop (data : list Z) (fuel services_offset stop : nat) (p : GatewayCapabilities * list Service.GatewayService)
    : result (GatewayCapabilities * list Service.GatewayService) :=
  match fuel with
  | O => Ok p
  | S fuel =>
      if (services_offset + 2 <=? stop)%nat then
        service_family ← idx data services_offset;
        services_loop data fuel (services_offset + 2) stop (add_family service_family p)
      else Ok p
  end.
Definition services_block (data : list Z) (offset dib_length : nat) (f : found) : result found :=
  p ← services_loop data dib_length (offset + 2) (offset + dib_length) (f_capabilities f, [Service.Core]);
  Ok (MkFound (f_name f) p.1 p.2 (f_serial f)).
Fixpoint dib_loop (data : list Z) (fuel offset : nat) (f : found) : result found :=
  match fuel with
  | O => Ok f
  | S fuel =>
      if (offset <? length data)%nat then
        if (length data <? offset + 2)%nat then Ok f
        else
          b0 ← idx data offset;
          dib_type ← idx data (offset + 1);
          let dib_length := usize b0 in
          if ((dib_length <? 2) || (length data <? offset + dib_length))%nat then Ok f
          else
            f ← (if dib_type =? 0x01 then device_block data offset dib_length f
                 else if dib_type =? 0x02 then services_block data offset dib_length f
                 else Ok f);
            dib_loop data fuel (offset + dib_length) f
      else Ok f
  end.
(** The defaults when only the core service was found, and the result. *)
Definition gateway_of (addr : SocketAddr) (f : found) : GatewayInfo :=
  let '(c, services) :=
    if (length (f_services f) =? 1)%nat
    then (MkGatewayCapabilities true (supports_routing (f_capabilities f)) true 4,
          f_services f ++ [Service.DeviceManagement; Service.Tunneling])
    else (f_capabilities f, f_services f) in
  MkGatewayInfo addr (f_name f) c services (f_serial f) None
    (if supports_routing c then Some (MkSocketAddr (V4 224 0 23 12) 3671) else None).
Definition parse_discovery_response (data : list Z) (addr : SocketAddr) : result GatewayInfo :=
  if (length data <? 6)%nat then Err (invalid_response addr "Response too short")
  else
    b0 ← idx data 0; b1 ← idx data 1;
    if negb (b0 =? 0x06) || negb (b1 =? 0x10) then Err (invalid_response addr "Invalid KNX/IP header")
    else
      b2 ← idx data 2; b3 ← idx data 3;
      if negb (b2 =? 0x02) || negb (b3 =? 0x02) then Err (invalid_response addr "Not a search response")
      else
        b4 ← idx data 4; b5 ← idx data 5;
        let total_length := from_be16 b4 b5 in
        if (length data <? usize total_length)%nat
        then Err (invalid_response addr ("Frame length mismatch: expected " +:+ dec total_length +:+ ", got " +:+ dec_nat (length data)))
        else
          f ← dib_loop data (length data) 14 (initial_found addr);
          Ok (gateway_of addr f).

(** * Scanning *)
Inductive scan_event := Response (from : SocketAddr) (datagram : list Z) | ScanFault (e : io_error).
(** The loop that collects responses: the gateways, the last error, and whether
    the timeout elapsed. *)
Fixpoint collect (events : list scan_event) (gateways : gmap SocketAddr GatewayInfo) (last : option DiscoveryError)
    : outcome KnxError (gmap SocketAddr GatewayInfo * option DiscoveryError * bool) :=
  match events with
  | [] => Ok (gateways, last, true)
  | Response addr d :: events =>
      match parse_discovery_response (take 1024 d) addr with
      | Ok gateway_info => collect events (<[addr := gateway_info]> gateways) last
      | Err (Discovery disc_err) => collect events gateways (Some disc_err)
      | Err _ => collect events gateways last
      | Panic => Panic
      end
  | ScanFault e :: _ =>
      match io_kind e with
      | WouldBlock | TimedOut => Ok (gateways, last, false)
      | _ => Ok (gateways, Some (NetworkError e), false)
      end
  end.
Section scanning.
Context (order : gmap SocketAddr GatewayInfo → list GatewayInfo).
(** [send] is the outcome of broadcasting the request; the timeout is in
    nanoseconds. *)
Definition GatewayScanner_discover (discovery_timeout : Z) (send : option io_error) (events : list scan_event)
    : result (list GatewayInfo) :=
  match send with
  | Some e => Err (Discovery (NetworkError e))
  | None =>
      '(gateways, last_error, elapsed) ← collect events ∅ None;
      if (elapsed : bool) then
        if decide (gateways = ∅) then Err (Discovery (DiscoveryTimeout ((discovery_timeout / 1000000) mod 2 ^ 64)))
        else Ok (order gateways)
      else
        if decide (gateways = ∅) then
          match last_error with
          | Some err => Err (Discovery err)
          | None => Err (Discovery NoGatewaysFound)
          end
        else Ok (order gateways)
  end.
End scanning.
(** [GatewayScanner::new]: the outcomes of binding and of [set_broadcast]. *)
Definition GatewayScanner_new (bind set_broadcast : option io_error) : result unit :=
  match bind with
  | Some e => Err (Discovery (NetworkError e))
  | None => match set_broadcast with Some e => Err (Discovery (NetworkError e)) | None => Ok tt end
  end.

(** * Lemmas *)

(** ** Blocks *)
Inductive dib :=
| DeviceDib (status : list Z) (serial : list Z) (network : list Z) (name_bytes : list Z) (rest : list Z)
| ServicesDib (families : list (Z * Z))
| OtherDib (dib_type : Z) (payload : list Z).
Definition dib_payload (d : dib) : list Z :=
  match d with
  | DeviceDib status serial network name_bytes rest => status ++ serial ++ network ++ name_bytes ++ rest
  | ServicesDib families => concat ((λ p, [p.1; p.2]) <$> families)
  | OtherDib _ payload => payload
  end.
Definition dib_type (d : dib) : Z := match d with DeviceDib _ _ _ _ _ => 1 | ServicesDib _ => 2 | OtherDib t _ => t end.
Definition dib_bytes (d : dib) : list Z := Z.of_nat (2 + length (dib_payload d)) :: dib_type d :: dib_payload d.
Definition dib_ok (d : dib) : Prop :=
  (length (dib_payload d) ≤ 253)%nat ∧
  match d with
  | DeviceDib status serial network name_bytes _ =>
      length status = 10%nat ∧ length serial = 6%nat ∧ length network = 6%nat ∧ length name_bytes = 30%nat
  | ServicesDib _ => True
  | OtherDib t _ => t ≠ 1 ∧ t ≠ 2
  end.
(** What a block says. *)
Definition apply_dib (f : found) (d : dib) : found :=
  match d with
  | DeviceDib _ serial _ name_bytes _ =>
      MkFound (friendly_name name_bytes (f_name f)) (f_capabilities f) (f_services f) (serial_text serial)
  | ServicesDib families =>
      let p := foldl (λ p x, add_family x.1 p) (f_capabilities f, [Service.Core]) families in
      MkFound (f_name f) p.1 p.2 (f_serial f)
  | OtherDib _ _ => f
  end.
Definition search_response (control_endpoint : list Z) (ds : list dib) : list Z :=
  [0x06; 0x10; 0x02; 0x02] ++ to_be16 (14 + Z.of_nat (length (concat (dib_bytes <$> ds)))) ++ control_endpoint ++ concat (dib_bytes <$> ds).

Lemma services_loop_run pre fams post fuel p : (length fams ≤ fuel)%nat →
  services_loop (pre ++ concat ((λ p, [p.1; p.2]) <$> fams) ++ post) fuel (length pre) (length pre + 2 * length fams) p =
    Ok (foldl (λ p x, add_family x.1 p) p fams).
Proof.
  revert pre fuel p. induction fams as [|[a b] fams IH]; intros pre fuel p Hf.
  { destruct fuel; [done|]. cbn [services_loop length]. by rewrite (proj2 (Nat.leb_gt _ _)) by lia. }
  cbn [length] in *. destruct fuel as [|fuel]; [lia|]. cbn [services_loop]. rewrite (proj2 (Nat.leb_le _ _)) by lia.
  rewrite fmap_cons. cbn [concat fst snd app]. rewrite idx_app_0. cbn [mbind outcome_bind foldl].
  specialize (IH (pre ++ [a; b]) fuel (add_family a p) ltac:(lia)). rewrite <-app_assoc, length_app in IH. cbn [app length] in IH.
  replace (length pre + 2 * S (length fams))%nat with (length pre + 2 + 2 * length fams)%nat by lia. exact IH.
Qed.
Lemma length_pairs (fams : list (Z * Z)) : length (concat ((λ p, [p.1; p.2]) <$> fams)) = (2 * length fams)%nat.
Proof. induction fams as [|[a b] fams IH]; [done|]. rewrite fmap_cons. cbn [concat length app]. rewrite IH. lia. Qed.

Lemma dib_step pre d post f : dib_ok d →
  (if dib_type d =? 0x01 then device_block (pre ++ dib_bytes d ++ post) (length pre) (2 + length (dib_payload d)) f
   else if dib_type d =? 0x02 then services_block (pre ++ dib_bytes d ++ post) (length pre) (2 + length (dib_payload d)) f
   else Ok f) = Ok (apply_dib f d).
Proof.
  intros [Hl Hd]. destruct d as [st se ne na re|fams|t pl]; cbn [dib_type apply_dib].
  - destruct Hd as (H1 & H2 & H3 & H4). cbn [Z.eqb Pos.eqb]. unfold device_block.
    set (d := DeviceDib st se ne na re) in *. set (h := Z.of_nat (2 + length (dib_payload d))).
    assert (length (dib_payload d) = 52 + length re)%nat as El by (cbn [d dib_payload]; rewrite !length_app; lia).
    assert (pre ++ dib_bytes d ++ post = (pre ++ h :: 1 :: st) ++ se ++ (ne ++ na ++ re ++ post)) as E1
      by (unfold dib_bytes; cbn [d dib_payload dib_type]; rewrite <-!app_assoc; cbn [app]; by rewrite <-!app_assoc).
    assert (pre ++ dib_bytes d ++ post = (pre ++ h :: 1 :: st ++ se ++ ne) ++ na ++ (re ++ post)) as E2
      by (rewrite E1, <-!app_assoc; cbn [app]; by rewrite <-!app_assoc).
    assert (length pre + 54 ≤ length (pre ++ dib_bytes d ++ post))%nat as Hp by (rewrite !length_app; unfold dib_bytes; cbn [length]; lia).
    rewrite !(proj2 (Nat.leb_le _ _)) by lia. cbn [andb].
    assert (slice (E:=KnxError) (pre ++ dib_bytes d ++ post) (length pre + 12) (length pre + 18) = Ok se) as ->
      by (rewrite E1; apply slice_app_at; rewrite length_app; cbn [length]; lia).
    assert (slice (E:=KnxError) (pre ++ dib_bytes d ++ post) (length pre + 24) (length pre + 54) = Ok na) as ->
      by (rewrite E2; apply slice_app_at; rewrite length_app; cbn [length]; rewrite !length_app; lia).
    done.
  - cbn [Z.eqb Pos.eqb]. unfold services_block, dib_bytes. cbn [dib_payload]. rewrite length_pairs.
    set (h := Z.of_nat _). pose proof (services_loop_run (pre ++ [h; 2]) fams post (2 + 2 * length fams) (f_capabilities f, [Service.Core]) ltac:(lia)) as E.
    rewrite <-app_assoc, length_app in E. cbn [length app] in E.
    replace (length pre + (2 + 2 * length fams))%nat with (length pre + 2 + 2 * length fams)%nat by lia.
    cbn [dib_type app]. by rewrite E.
  - destruct Hd as [H1 H2]. by rewrite (proj2 (Z.eqb_neq _ _) H1), (proj2 (Z.eqb_neq _ _) H2).
Qed.
Lemma dib_loop_run pre ds fuel f : Forall dib_ok ds → (length ds < fuel)%nat →
  dib_loop (pre ++ concat (dib_bytes <$> ds)) fuel (length pre) f = Ok (foldl apply_dib f ds).
Proof.
  intros Hd. revert pre fuel f. induction Hd as [|d ds Hd Hds IH]; intros pre fuel f Hf.
  { destruct fuel as [|fuel]; [done|]. cbn [dib_loop fmap list_fmap concat foldl]. by rewrite app_nil_r, Nat.ltb_irrefl. }
  cbn [length] in Hf. destruct fuel as [|fuel]; [lia|]. rewrite fmap_cons. cbn [concat dib_loop foldl].
  pose proof Hd as [Hl _].
  assert (length (dib_bytes d) = 2 + length (dib_payload d))%nat as Eb by done.
  rewrite (proj2 (Nat.ltb_lt _ _)), (proj2 (Nat.ltb_ge _ _)) by (rewrite !length_app; lia).
  assert (idx (E:=KnxError) (pre ++ dib_bytes d ++ concat (dib_bytes <$> ds)) (length pre) = Ok (Z.of_nat (2 + length (dib_payload d)))) as ->
    by apply idx_app_0.
  assert (idx (E:=KnxError) (pre ++ dib_bytes d ++ concat (dib_bytes <$> ds)) (length pre + 1) = Ok (dib_type d)) as -> by apply idx_app_1.
  cbn [mbind outcome_bind]. cbv zeta.
  unfold usize. rewrite Nat2Z.id.
  rewrite (proj2 (Nat.ltb_ge _ 2)), (proj2 (Nat.ltb_ge _ _)) by (rewrite ?length_app; lia). cbn [orb].
  rewrite (dib_step pre d (concat (dib_bytes <$> ds)) f Hd). cbn [mbind outcome_bind].
  specialize (IH (pre ++ dib_bytes d) fuel (apply_dib f d) ltac:(lia)). by rewrite <-app_assoc, length_app, Eb in IH.
Qed.

(** ** What every accepted response satisfies *)
Definition agrees (c : GatewayCapabilities) (s : list Service.GatewayService) : Prop :=
  (Service.Tunneling ∈ s → supports_tunneling c = true) ∧ (Service.Routing ∈ s → supports_routing c = true) ∧
  (Service.DeviceManagement ∈ s → supports_device_management c = true) ∧
  max_tunneling_connections c = (if supports_tunneling c then 4 else 1) ∧ head s = Some Service.Core.
Lemma agrees_core c s : agrees c s → agrees c [Service.Core].
Proof. intros (_ & _ & _ & Hm & _). split_and!; try (by intros ?%list_elem_of_singleton); done. Qed.
Lemma add_family_agrees b c s : agrees c s → agrees (add_family b (c, s)).1 (add_family b (c, s)).2.
Proof.
  intros (H1 & H2 & H3 & Hm & Hh). unfold add_family. destruct s as [|x s]; [done|].
  destruct (b =? 3); [|destruct (b =? 4); [|destruct (b =? 5); [|by split_and!]]];
    (split_and!; [..|done]); cbn [supports_tunneling supports_routing supports_device_management max_tunneling_connections fst snd]; try done;
    by intros [?|?%list_elem_of_singleton]%elem_of_app; auto.
Qed.
Lemma services_loop_ok data fuel o stop c s : (stop ≤ length data)%nat → agrees c s →
  ∃ c' s', services_loop data fuel o stop (c, s) = Ok (c', s') ∧ agrees c' s'.
Proof.
  intros Hs. revert o c s. induction fuel as [|fuel IH]; intros o c s Ha; cbn [services_loop]; [by eexists _, _|].
  destruct (Nat.leb_spec (o + 2) stop) as [Ho|Ho]; [|by eexists _, _].
  destruct (idx_lt (E:=KnxError) data o ltac:(lia)) as (b & _ & ->). cbn [mbind outcome_bind].
  pose proof (add_family_agrees b c s Ha) as Ha'. destruct (add_family b (c, s)) as [c' s']. by apply IH.
Qed.
Lemma device_block_ok data o n f : ∃ f', device_block data o n f = Ok f' ∧ f_capabilities f' = f_capabilities f ∧ f_services f' = f_services f.
Proof.
  unfold device_block. destruct ((54 <=? n) && (o + 54 <=? length data))%nat eqn:E; [|by eexists].
  apply andb_true_iff in E as [_ E%Nat.leb_le].
  unfold slice. rewrite !(proj2 (Nat.leb_le _ _)) by lia. by eexists.
Qed.
Lemma dib_loop_ok data fuel o f : agrees (f_capabilities f) (f_services f) →
  ∃ f', dib_loop data fuel o f = Ok f' ∧ agrees (f_capabilities f') (f_services f').
Proof.
  revert o f. induction fuel as [|fuel IH]; intros o f Ha; cbn [dib_loop]; [by eexists|].
  destruct (Nat.ltb_spec o (length data)); [|by eexists].
  destruct (Nat.ltb_spec (length data) (o + 2)); [by eexists|].
  destruct (idx_lt (E:=KnxError) data o ltac:(lia)) as (b0 & _ & ->).
  destruct (idx_lt (E:=KnxError) data (o + 1) ltac:(lia)) as (b1 & _ & ->). cbn [mbind outcome_bind]. cbv zeta.
  destruct (Nat.ltb_spec (usize b0) 2); cbn [orb]; [by eexists|].
  destruct (Nat.ltb_spec (length data) (o + usize b0)); [by eexists|].
  destruct (b1 =? 1).
  { destruct (device_block_ok data o (usize b0) f) as (f' & -> & E1 & E2). cbn [mbind outcome_bind]. apply IH. by rewrite E1, E2. }
  destruct (b1 =? 2); [|by apply IH].
  unfold services_block.
  destruct (services_loop_ok data (usize b0) (o + 2) (o + usize b0) (f_capabilities f) [Service.Core]) as (c' & s' & -> & Ha');
    [lia|by eapply agrees_core|]. cbn [mbind outcome_bind]. by apply IH.
Qed.
(** A search response that declares no more than it has. *)
Definition search_header (data : list Z) : Prop :=
  ∃ b4 b5 rest, data = 0x06 :: 0x10 :: 0x02 :: 0x02 :: b4 :: b5 :: rest ∧ (usize (from_be16 b4 b5) ≤ length data)%nat.

Lemma parse_response_cases data addr_ :
  (∃ reason, parse_discovery_response data addr_ = Err (invalid_response addr_ reason) ∧ ¬ search_header data) ∨
  ∃ f, parse_discovery_response data addr_ = Ok (gateway_of addr_ f) ∧ search_header data ∧ agrees (f_capabilities f) (f_services f).
Proof.
  unfold parse_discovery_response. destruct (Nat.ltb_spec (length data) 6) as [Hl|Hl].
  { left. eexists. split; [done|]. intros (b4 & b5 & rest & -> & _). cbn in Hl. lia. }
  destruct data as [|b0 [|b1 [|b2 [|b3 [|b4 [|b5 rest]]]]]]; try (cbn in Hl; lia).
  cbn [idx lookup list_lookup mbind outcome_bind]. cbv zeta.
  destruct (negb (b0 =? 6) || negb (b1 =? 16)) eqn:E1.
  { left. eexists. split; [done|]. by intros (? & ? & ? & [= -> -> _] & _). }
  destruct (negb (b2 =? 2) || negb (b3 =? 2)) eqn:E2.
  { left. eexists. split; [done|]. by intros (? & ? & ? & [= _ _ -> -> _] & _). }
  destruct (Nat.ltb_spec (length (b0 :: b1 :: b2 :: b3 :: b4 :: b5 :: rest)) (usize (from_be16 b4 b5))) as [Ht|Ht].
  { left. eexists. split; [done|]. intros (? & ? & ? & [= _ _ _ _ -> -> ->] & Hx). cbn [length] in *. lia. }
  right. set (d := b0 :: _) in *.
  destruct (dib_loop_ok d (length d) 14 (initial_found addr_)) as (f & -> & Ha).
  { cbn. split_and!; try (by intros ?%list_elem_of_singleton); done. }
  exists f. split; [done|]. split; [|done]. exists b4, b5, rest. split; [|done]. unfold d. f_equal; [lia|]. f_equal; [lia|]. f_equal; [lia|]. f_equal. lia.
Qed.
Lemma gateway_of_agrees a f : agrees (f_capabilities f) (f_services f) →
  agrees (capabilities (gateway_of a f)) (supported_services (gateway_of a f)) ∧ (2 ≤ length (supported_services (gateway_of a f)))%nat.
Proof.
  intros Ha. unfold gateway_of. destruct (Nat.eqb_spec (length (f_services f)) 1) as [E|E].
  - destruct Ha as (_ & _ & _ & _ & Hh). destruct (f_services f) as [|x [|y s]]; [done| |done]. injection Hh as ->.
    split; [|cbn; lia]. unfold agrees. cbn. split_and!; [done| |done..]. intros Hr. exfalso. by repeat (apply elem_of_cons in Hr as [Hr|Hr]; [done|]); apply elem_of_nil in Hr.
  - split; [done|]. cbn. destruct Ha as (_ & _ & _ & _ & Hh). destruct (f_services f) as [|x [|y s]]; cbn in *; [done|lia|lia].
Qed.

(** ** Collecting *)
Fixpoint until_fault (events : list scan_event) : list (SocketAddr * list Z) * option io_error :=
  match events with
  | [] => ([], None)
  | Response a d :: events => let '(l, e) := until_fault events in ((a, d) :: l, e)
  | ScanFault e :: _ => ([], Some e)
  end.
Definition read_response (p : SocketAddr * list Z) : result GatewayInfo := parse_discovery_response (take 1024 p.2) p.1.
Definition add_response (m : gmap SocketAddr GatewayInfo) (p : SocketAddr * list Z) : gmap SocketAddr GatewayInfo :=
  match read_response p with Ok g => <[p.1 := g]> m | _ => m end.
Definition refusal (p : SocketAddr * list Z) : option DiscoveryError :=
  match read_response p with Err (Discovery e) => Some e | _ => None end.
Definition add_refusal (o : option DiscoveryError) (p : SocketAddr * list Z) : option DiscoveryError :=
  match refusal p with Some e => Some e | None => o end.
Definition only_waited (e : io_error) : bool := match io_kind e with WouldBlock | TimedOut => true | _ => false end.
Lemma read_response_cases p : (∃ e, read_response p = Err (Discovery e)) ∨ ∃ g, read_response p = Ok g ∧ addr g = p.1.
Proof.
  unfold read_response. destruct (parse_response_cases (take 1024 p.2) p.1) as [(reason & -> & _)|(f & -> & _)]; [by left; eexists|].
  right. eexists. split; [done|]. unfold gateway_of. by destruct (length _ =? 1)%nat.
Qed.
Lemma collect_run events gs last :
  let '(heard, fault) := until_fault events in
  collect events gs last = Ok (foldl add_response gs heard,
    match fault with Some e => if only_waited e then foldl add_refusal last heard else Some (NetworkError e) | None => foldl add_refusal last heard end,
    match fault with Some _ => false | None => true end).
Proof.
  revert gs last. induction events as [|[a d|e] events IH]; intros gs last; cbn [collect until_fault].
  - done.
  - destruct (until_fault events) as [heard fault].
    assert (collect (Response a d :: events) gs last = collect events (add_response gs (a, d)) (add_refusal last (a, d))) as E.
    { cbn [collect]. unfold add_response, add_refusal, refusal.
      change (parse_discovery_response (take 1024 d) a) with (read_response (a, d)).
      by destruct (read_response_cases (a, d)) as [[e ->]|(g & -> & _)]. }
    cbn [collect] in E. rewrite E, IH. done.
  - unfold only_waited. by destruct (io_kind e).
Qed.
(** The map after the responses [l] has, for each address, its last valid one. *)
Definition last_valid (l : list (SocketAddr * list Z)) (a : SocketAddr) (g : GatewayInfo) : Prop :=
  ∃ before d after, l = before ++ (a, d) :: after ∧ read_response (a, d) = Ok g ∧
    Forall (λ p, p.1 = a → is_err (read_response p) = true) after.
Lemma last_valid_skip l p a g : (p.1 = a → is_err (read_response p) = true) → last_valid (l ++ [p]) a g ↔ last_valid l a g.
Proof.
  intros Hp. split.
  - intros (bf & d1 & af & El & Er & Hf). destruct af as [|x af _] using rev_ind.
    { apply app_inj_tail in El as [_ ->]. rewrite Er in Hp. by specialize (Hp eq_refl). }
    rewrite app_comm_cons, app_assoc in El. apply app_inj_tail in El as [-> _]. apply Forall_app in Hf as [Hf _]. by exists bf, d1, af.
  - intros (bf & d1 & af & -> & Er & Hf). exists bf, d1, (af ++ [p]). rewrite <-app_assoc. split_and!; [done..|].
    apply Forall_app. split; [done|]. by constructor.
Qed.
Lemma last_valid_new l a d g g' : read_response (a, d) = Ok g → last_valid (l ++ [(a, d)]) a g' ↔ g' = g.
Proof.
  intros E. split; [|intros ->; by exists l, d, []].
  intros (bf & d1 & af & El & Er & Hf). destruct af as [|x af _] using rev_ind.
  { apply app_inj_tail in El as [_ [= ->]]. congruence. }
  rewrite app_comm_cons, app_assoc in El. apply app_inj_tail in El as [_ <-]. apply Forall_app in Hf as [_ Hf].
  apply Forall_inv in Hf. specialize (Hf eq_refl). cbn beta in Hf. by rewrite E in Hf.
Qed.
Lemma add_responses_lookup l a g : foldl add_response ∅ l !! a = Some g ↔ last_valid l a g.
Proof.
  induction l as [|[a' d] l IH] using rev_ind.
  { split; [cbn; by rewrite lookup_empty|]. by intros ([] & ? & ? & ? & _). }
  rewrite foldl_app. cbn [foldl]. set (m := foldl add_response ∅ l) in *. unfold add_response.
  destruct (read_response_cases (a', d)) as [[e E]|(g' & E & _)]; rewrite E.
  - rewrite IH, last_valid_skip; [done|]. by rewrite E.
  - cbn [fst]. destruct (decide (a = a')) as [->|Hne].
    + rewrite lookup_insert_eq, (last_valid_new _ _ _ _ _ E). naive_solver.
    + rewrite lookup_insert_ne by done. rewrite IH, last_valid_skip; [done|]. cbn. congruence.
Qed.

(** ** Families *)
Definition family_service (b : Z) : option Service.GatewayService :=
  if b =? 3 then Some Service.DeviceManagement else if b =? 4 then Some Service.Tunneling
  else if b =? 5 then Some Service.Routing else None.
Lemma families_run (fams : list (Z * Z)) c s :
  foldl (λ p x, add_family x.1 p) (c, s) fams =
  (MkGatewayCapabilities (supports_tunneling c || bool_decide (4 ∈ fams.*1)) (supports_routing c || bool_decide (5 ∈ fams.*1))
     (supports_device_management c || bool_decide (3 ∈ fams.*1))
     (if bool_decide (4 ∈ fams.*1) then 4 else max_tunneling_connections c), s ++ omap family_service fams.*1).
Proof.
  assert (∀ x b (l : list Z), bool_decide (x ∈ b :: l) = (b =? x) || bool_decide (x ∈ l)) as Hb.
  { intros x b l. rewrite (bool_decide_ext _ (b = x ∨ x ∈ l)) by (rewrite elem_of_cons; naive_solver).
    rewrite bool_decide_or. f_equal. by destruct (Z.eqb_spec b x); [apply bool_decide_true|apply bool_decide_false]. }
  revert c s. induction fams as [|[b v] fams IH]; intros c s.
  { cbn. rewrite app_nil_r, !orb_false_r. by destruct c. }
  cbn [foldl]. rewrite fmap_cons. cbn [omap list_omap fst]. rewrite !Hb. unfold add_family at 2, family_service at 1.
  destruct (Z.eqb_spec b 3) as [->|]; [|destruct (Z.eqb_spec b 4) as [->|]; [|destruct (Z.eqb_spec b 5) as [->|]]];
    rewrite IH; cbn [supports_tunneling supports_routing supports_device_management max_tunneling_connections Z.eqb Pos.eqb orb];
    rewrite <-?app_assoc, ?orb_true_r; cbn [orb app]; try done; f_equal; f_equal; by destruct (bool_decide _).
Qed.
Lemma before_nul_text text pad : 0 ∉ text → before_nul (text ++ 0 :: pad) = Some text.
Proof.
  induction text as [|b text IH]; [done|]. intros Hn. cbn [app before_nul].
  rewrite (proj2 (Z.eqb_neq b 0)) by (intros ->; apply Hn; by left). rewrite IH; [done|]. intros Hx. apply Hn. by right.
Qed.

Lemma discovery_blocks control_endpoint ds from : length control_endpoint = 8%nat → Forall dib_ok ds →
  Z.of_nat (length (concat (dib_bytes <$> ds))) ≤ 65521 →
  parse_discovery_response (search_response control_endpoint ds) from =
    Ok (gateway_of from (foldl apply_dib (initial_found from) ds)).
Proof.
  intros Hc Hd Hl. unfold parse_discovery_response, search_response. set (bs := concat (dib_bytes <$> ds)) in *.
  set (t := 14 + Z.of_nat (length bs)). cbn [to_be16 app].
  rewrite (proj2 (Nat.ltb_ge _ _)) by (cbn [length]; lia).
  cbn [idx lookup list_lookup mbind outcome_bind Z.eqb Pos.eqb negb orb]. cbv zeta. rewrite from_to_be16.
  rewrite (proj2 (Nat.ltb_ge _ _)) by (cbn [length]; rewrite length_app; unfold usize; lia).
  assert (length ds ≤ length bs)%nat as Hn.
  { unfold bs. clear. induction ds as [|d ds IH]; [done|]. rewrite fmap_cons. cbn [concat length]. rewrite length_app. unfold dib_bytes at 1. cbn [length]. lia. }
  pose proof (dib_loop_run (0x06 :: 0x10 :: 0x02 :: 0x02 :: t / 256 :: t mod 256 :: control_endpoint) ds
    (length (0x06 :: 0x10 :: 0x02 :: 0x02 :: t / 256 :: t mod 256 :: control_endpoint ++ bs)) (initial_found from) Hd) as E.
  cbn [length app] in E. rewrite Hc in E. fold bs in E. cbn [length].
  rewrite E; [done|]. rewrite length_app. lia.
Qed.
Lemma refusals_last l : foldl add_refusal None l = last (omap refusal l).
Proof.
  induction l as [|p l IH] using rev_ind; [done|]. rewrite foldl_app, omap_app, IH. cbn. unfold add_refusal.
  destruct (refusal p); [by rewrite last_snoc|by rewrite app_nil_r].
Qed.
Lemma no_gateways l : foldl add_response ∅ l = ∅ → Forall (λ p, is_err (read_response p) = true) l.
Proof.
  induction l as [|p l IH] using rev_ind; [done|]. rewrite foldl_app. cbn [foldl]. unfold add_response at 1.
  destruct (read_response_cases p) as [[e E]|(g & E & _)]; rewrite E.
  - intros Hl. apply Forall_app. split; [by apply IH|]. constructor; [by rewrite E|done].
  - intros Hi. by apply insert_non_empty in Hi.
Qed.
Section order.
Context (order : gmap SocketAddr GatewayInfo → list GatewayInfo) (Ho : ∀ m, order m ≡ₚ (map_to_list m).*2).
Lemma order_nonempty m : m ≠ ∅ → order m ≠ [].
Proof. intros Hm E. specialize (Ho m). rewrite E in Ho. apply Permutation_nil_l in Ho. symmetry in Ho. by apply fmap_nil_inv, map_to_list_empty_iff in Ho. Qed.
Lemma add_responses_addr l a g : foldl add_response ∅ l !! a = Some g → addr g = a.
Proof.
  rewrite add_responses_lookup. intros (bf & d & af & _ & E & _).
  destruct (read_response_cases (a, d)) as [[e E']|(g' & E' & Ha)]; [congruence|]. by assert (g = g') as -> by congruence.
Qed.
Lemma order_elem l g : g ∈ order (foldl add_response ∅ l) ↔ last_valid l (addr g) g.
Proof.
  rewrite Ho, list_elem_of_fmap. split.
  - intros ([a g'] & -> & Hg%elem_of_map_to_list). cbn. rewrite (add_responses_addr _ _ _ Hg). by apply add_responses_lookup.
  - intros Hg%add_responses_lookup. exists (addr g, g). split; [done|]. by apply elem_of_map_to_list.
Qed.
Lemma order_NoDup l : NoDup (addr <$> order (foldl add_response ∅ l)).
Proof.
  rewrite Ho, <-list_fmap_compose. set (m := foldl add_response ∅ l).
  assert (addr ∘ snd <$> map_to_list m = (map_to_list m).*1) as ->; [|apply NoDup_fst_map_to_list].
  apply list_fmap_ext. intros i [a g] Hi. cbn. apply list_elem_of_lookup_2, elem_of_map_to_list in Hi. by eapply add_responses_addr.
Qed.
End order.

(** * Properties *)

(** The parser of search responses never panics.  It refuses exactly the
    datagrams without the header of a search response or with fewer bytes than they
    declare, naming the sender; what it accepts gives a gateway whose capabilities
    cover its services, with a multicast address exactly if it routes. *)
Theorem discovery_parse_exact data from :
  match parse_discovery_response data from with
  | Ok g => search_header data ∧ addr g = from ∧ agrees (capabilities g) (supported_services g) ∧
      (2 ≤ length (supported_services g))%nat ∧
      multicast_addr g = (if supports_routing (capabilities g) then Some (MkSocketAddr (V4 224 0 23 12) 3671) else None)
  | Err e => (∃ reason, e = invalid_response from reason) ∧ ¬ search_header data
  | Panic => False
  end.
Proof.
  destruct (parse_response_cases data from) as [(reason & -> & Hn)|(f & -> & Hh & Ha)]; [split; [by eexists|done]|].
  destruct (gateway_of_agrees from f Ha) as [Ha' Hl]. split_and!; [done|unfold gateway_of; by destruct (_ =? 1)%nat|done|done|].
  unfold gateway_of. by destruct (_ =? 1)%nat.
Qed.


(** A response made of device information blocks is read block by block: the
    last device block gives name and serial number, the services blocks the
    services and capabilities, other blocks nothing. *)
Theorem discovery_reads_blocks control_endpoint ds from : length control_endpoint = 8%nat → Forall dib_ok ds →
  Z.of_nat (length (concat (dib_bytes <$> ds))) ≤ 65521 →
  parse_discovery_response (search_response control_endpoint ds) from =
    Ok (gateway_of from (foldl apply_dib (initial_found from) ds)).
Proof. apply discovery_blocks. Qed.

(** A gateway that sends its device block and a services block with at least
    one known family is described as it describes itself: name, serial number, and
    exactly the capabilities and services of its families. *)
Theorem discovery_describes control_endpoint status serial network text pad rest fams from :
  length control_endpoint = 8%nat → dib_ok (DeviceDib status serial network (text ++ 0 :: pad) rest) → dib_ok (ServicesDib fams) →
  text ≠ [] → 0 ∉ text → utf8_valid text = true → Exists (λ x, is_Some (family_service x.1)) fams →
  ∃ g, parse_discovery_response
      (search_response control_endpoint [DeviceDib status serial network (text ++ 0 :: pad) rest; ServicesDib fams]) from = Ok g ∧
    addr g = from ∧ name g = utf8 text ∧ device_serial g = serial_text serial ∧
    capabilities g = MkGatewayCapabilities (bool_decide (4 ∈ fams.*1)) (bool_decide (5 ∈ fams.*1)) (bool_decide (3 ∈ fams.*1))
      (if bool_decide (4 ∈ fams.*1) then 4 else 1) ∧
    supported_services g = Service.Core :: omap family_service fams.*1.
Proof.
  intros Hc Hd Hf Ht H0 Hu Hk.
  eexists. split.
  - apply discovery_blocks; [done|constructor; [done|by constructor; [|constructor]]|]. rewrite !fmap_cons. cbn [fmap list_fmap concat]. rewrite app_nil_r, length_app.
    destruct Hd as [Hd _], Hf as [Hf _]. unfold dib_bytes. cbn [length]. lia.
  - cbn [foldl apply_dib f_name f_capabilities f_services f_serial]. rewrite families_run. cbn [fst snd app].
    unfold gateway_of. cbn [f_services f_capabilities f_name f_serial length].
    assert (length (omap family_service fams.*1) ≠ 0)%nat as Hn.
    { clear -Hk. induction Hk as [[b v] fams [s Hs]|[b v] fams _ IH]; rewrite fmap_cons; cbn [omap list_omap fst] in *.
      - by rewrite Hs.
      - by destruct (family_service b). }
    rewrite (proj2 (Nat.eqb_neq _ _)) by lia. split_and!; [done| |done|done|done].
    cbn [name]. unfold friendly_name. rewrite before_nul_text, Hu by done. by destruct text.
Qed.

(** A name that fills its thirty bytes has no terminator and is dropped; and a
    gateway whose services block names no known family, though it says it offers
    nothing but the core, is reported to tunnel. *)
Theorem discovery_misreads name_bytes otherwise fams from f :
  (0 ∉ name_bytes → friendly_name name_bytes otherwise = otherwise) ∧
  (Forall (λ x, family_service x.1 = None) fams →
   supports_tunneling (capabilities (gateway_of from (apply_dib f (ServicesDib fams)))) = true).
Proof.
  split.
  - intros H0. unfold friendly_name. assert (before_nul name_bytes = None) as ->; [|done].
    induction name_bytes as [|b l IH]; [done|]. cbn [before_nul]. rewrite (proj2 (Z.eqb_neq b 0)) by (intros ->; apply H0; by left).
    rewrite IH; [done|]. intros Hx. apply H0. by right.
  - intros Hf. cbn [apply_dib]. rewrite families_run. unfold gateway_of. cbn [f_services f_capabilities fst snd].
    assert (omap family_service fams.*1 = []) as ->; [|done].
    induction Hf as [|[b v] l Hb Hl IH]; [done|]. rewrite fmap_cons. cbn [omap list_omap fst] in *. by rewrite Hb.
Qed.

(** C39: A scan returns one gateway for each address that sent a valid response
    before the scan ended, described by the last of them, also when the scan ended
    with a network error.  Without a valid response it fails: with a timeout if
    the time elapsed; if receiving failed, with that error, or, if the failure only
    says that nothing is waiting, with the last malformed response. *)
Theorem discover_finds order discovery_timeout events : (∀ m, order m ≡ₚ (map_to_list m).*2) →
  let '(heard, fault) := until_fault events in
  match GatewayScanner_discover order discovery_timeout None events with
  | Ok l => l ≠ [] ∧ NoDup (addr <$> l) ∧ ∀ g, g ∈ l ↔ last_valid heard (addr g) g
  | Err e => Forall (λ p, is_err (read_response p) = true) heard ∧
      e = Discovery match fault with
                    | None => DiscoveryTimeout ((discovery_timeout / 1000000) mod 2 ^ 64)
                    | Some err => if only_waited err then default NoGatewaysFound (last (omap refusal heard)) else NetworkError err
                    end
  | Panic => False
  end.
Proof.
  intros Ho. pose proof (collect_run events ∅ None) as Hc. destruct (until_fault events) as [heard fault].
  unfold GatewayScanner_discover. rewrite Hc. cbn [mbind outcome_bind]. set (m := foldl add_response ∅ heard) in *.
  destruct (decide (m = ∅)) as [Em|Em].
  - assert (Forall (λ p, is_err (read_response p) = true) heard) as Hf by by apply no_gateways.
    destruct fault as [err|]; [|done]. unfold only_waited. rewrite refusals_last.
    by destruct (io_kind err), (last (omap refusal heard)).
  - destruct fault as [err|]; (split_and!; [by apply order_nonempty|by apply order_NoDup|by apply order_elem]).
Qed.

(** ** Witnesses *)
Definition a_device : dib :=
  DeviceDib [2; 0; 0x11; 0x01; 0; 0; 0; 0; 0; 0] [0xC5; 1; 2; 3; 4; 5] [0; 0; 0; 0; 0; 0] ([75; 78; 88] ++ 0 :: replicate 26 0) [].
Definition a_gateway : SocketAddr := MkSocketAddr (V4 192 168 1 10) 3671.
Definition an_answer : list Z :=
  search_response [8; 1; 192; 168; 1; 10; 14; 87] [a_device; ServicesDib [(2, 1); (4, 1)]].
Definition values (m : gmap SocketAddr GatewayInfo) : list GatewayInfo := (map_to_list m).*2.
Lemma a_device_ok : dib_ok a_device.
Proof. split; [cbn; lia|by repeat split]. Defined.

Lemma discovery_reads_blocks_witness :
  parse_discovery_response an_answer a_gateway =
    Ok (gateway_of a_gateway (foldl apply_dib (initial_found a_gateway) [a_device; ServicesDib [(2, 1); (4, 1)]])).
Proof.
  apply (discovery_reads_blocks [8; 1; 192; 168; 1; 10; 14; 87] [a_device; ServicesDib [(2, 1); (4, 1)]] a_gateway).
  - reflexivity.
  - constructor; [apply a_device_ok|]. constructor; [split; [cbn; lia|done]|constructor].
  - vm_compute. discriminate.
Defined.
Lemma discovery_describes_witness : ∃ g, parse_discovery_response an_answer a_gateway = Ok g ∧ name g = "KNX" ∧
  device_serial g = "SNC50102030405" ∧ supports_tunneling (capabilities g) = true ∧ supports_routing (capabilities g) = false.
Proof.
  destruct (discovery_describes [8; 1; 192; 168; 1; 10; 14; 87] [2; 0; 0x11; 0x01; 0; 0; 0; 0; 0; 0] [0xC5; 1; 2; 3; 4; 5] [0; 0; 0; 0; 0; 0]
    [75; 78; 88] (replicate 26 0) [] [(2, 1); (4, 1)] a_gateway) as (g & E & _ & En & Es & Ec & _).
  - reflexivity.
  - apply a_device_ok.
  - split; [cbn; lia|done].
  - discriminate.
  - intros Hx. by repeat (apply elem_of_cons in Hx as [Hx|Hx]; [discriminate|]); apply elem_of_nil in Hx.
  - reflexivity.
  - apply Exists_cons_tl, Exists_cons_hd. vm_compute. by eexists.
  - exists g. split; [exact E|]. rewrite En, Es, Ec. by split_and!.
Defined.
Lemma discover_finds_witness : ∃ l,
  GatewayScanner_discover values 3000000000 None
    [Response a_gateway [6; 16]; Response a_gateway an_answer; ScanFault (IoError (OtherKind 101) "Network is unreachable")] = Ok l ∧
  l ≠ [] ∧ NoDup (addr <$> l).
Proof.
  pose proof (discover_finds values 3000000000
    [Response a_gateway [6; 16]; Response a_gateway an_answer; ScanFault (IoError (OtherKind 101) "Network is unreachable")]
    (λ m, reflexivity _)) as Hd.
  cbn [until_fault] in Hd. destruct (GatewayScanner_discover _ _ _ _) as [l|e|]; [|exfalso|done].
  - exists l. split; [done|]. destruct Hd as (Hl & Hn & _). by split.
  - destruct Hd as [Hf _]. apply Forall_inv_tail, Forall_inv in Hf. vm_compute in Hf. discriminate.
Defined.
