(* ===== verification/Memory.v ===== *)
(** Memory accounting, the connection pool and the statistics of hot paths
    ([src/src/memory.rs]).

    An operation of the monitor is one step, as is [get_connection]; a connection
    that is given back leaves the active list and enters the available one in two
    steps of their own, as the task that [Drop] spawns does.  Durations are
    nanoseconds, connections are known by their identity ([Arc::ptr_eq]). *)
From stdpp Require Import gmap strings sorting.
From S2P Require Import Prelude Errors Float Logging.

Inductive MemoryError :=
| LimitExceeded (current limit : Z)
| PoolExhausted (max_size current_size : Z)
| ConnectionCreationFailed (reason : string).
Definition MemoryError_display (e : MemoryError) : string :=
  match e with
  | LimitExceeded current limit => "Memory limit exceeded: current " +:+ dec current +:+ " bytes, limit " +:+ dec limit +:+ " bytes"
  | PoolExhausted max_size current_size =>
      "Connection pool exhausted: " +:+ dec current_size +:+ "/" +:+ dec max_size +:+ " connections"
  | ConnectionCreationFailed reason => "Failed to create connection: " +:+ reason
  end.

(** * The monitor *)
Record ComponentMemoryUsage := MkUsage {
  transport : Z;
  protocol : Z;
  device : Z;
  application : Z;
  security : Z;
}.
Definition ComponentMemoryUsage_default : ComponentMemoryUsage := MkUsage 0 0 0 0 0.
Record MemoryMonitor := MkMonitor {
  current_usage : Z;
  peak_usage : Z;
  memory_limit : Z;
  component_usage : ComponentMemoryUsage;
  last_cleanup : Z;
}.
Definition set_usage (x : Z) (m : MemoryMonitor) : MemoryMonitor :=
  MkMonitor x (peak_usage m) (memory_limit m) (component_usage m) (last_cleanup m).
Definition set_peak (x : Z) (m : MemoryMonitor) : MemoryMonitor :=
  MkMonitor (current_usage m) x (memory_limit m) (component_usage m) (last_cleanup m).
Definition set_component (x : ComponentMemoryUsage) (m : MemoryMonitor) : MemoryMonitor :=
  MkMonitor (current_usage m) (peak_usage m) (memory_limit m) x (last_cleanup m).
Definition set_last_cleanup (x : Z) (m : MemoryMonitor) : MemoryMonitor :=
  MkMonitor (current_usage m) (peak_usage m) (memory_limit m) (component_usage m) x.
Abbreviation M := (eff MemoryMonitor MemoryError).

(** [u64] arithmetic: a panic in a debug build, a wrap in a release build. *)
Definition checked64 `{Profile} {E} (z : Z) : outcome E Z :=
  if 2 ^ 64 <=? z then (if debug_build then Panic else Ok (z mod 2 ^ 64)) else Ok z.

Section monitor.
Context `{Profile}.
Definition MemoryMonitor_new (memory_limit_mb now : Z) : outcome MemoryError MemoryMonitor :=
  kb ← checked64 (memory_limit_mb * 1024);
  memory_limit ← checked64 (kb * 1024);
  Ok (MkMonitor 0 0 memory_limit ComponentMemoryUsage_default now).

(** Changing the usage of a component; some components are not tracked. *)
Definition on_component {E} (f : Z → outcome E Z) (c : Component) (u : ComponentMemoryUsage) : outcome E ComponentMemoryUsage :=
  match c with
  | Component.Transport => x ← f (transport u); Ok (MkUsage x (protocol u) (device u) (application u) (security u))
  | Component.Protocol => x ← f (protocol u); Ok (MkUsage (transport u) x (device u) (application u) (security u))
  | Component.Device => x ← f (device u); Ok (MkUsage (transport u) (protocol u) x (application u) (security u))
  | Component.Application => x ← f (application u); Ok (MkUsage (transport u) (protocol u) (device u) x (security u))
  | Component.Security => x ← f (security u); Ok (MkUsage (transport u) (protocol u) (device u) (application u) x)
  | _ => Ok u
  end.
Definition cleanup (now : Z) : M Z :=
  m ← gets id;
  let start_usage := current_usage m in
  _ ← modify (set_last_cleanup now);
  m ← gets id;
  let end_usage := current_usage m in
  mret (Z.max 0 (start_usage - end_usage)).
(** The loop that raises the peak ends with the larger of the two. *)
Definition allocate (now : Z) (component : Component) (size : Z) : M unit :=
  m ← gets id;
  _ ← modify (set_usage ((current_usage m + size) mod 2 ^ 64));
  new_usage ← lift (checked64 (current_usage m + size));
  _ ← modify (set_peak (Z.max (peak_usage m) new_usage));
  _ ← (if memory_limit m <? new_usage then
         _ ← cleanup now;
         m ← gets id;
         if memory_limit m <? current_usage m then throw (LimitExceeded (current_usage m) (memory_limit m)) else mret tt
       else mret tt);
  m ← gets id;
  usage ← lift (on_component (λ x, checked64 (x + size)) component (component_usage m));
  modify (set_component usage).
Definition deallocate (component : Component) (size : Z) : M unit :=
  _ ← modify (λ m, set_usage ((current_usage m - size) mod 2 ^ 64) m);
  m ← gets id;
  usage ← lift (on_component (λ x, Ok (Z.max 0 (x - size))) component (component_usage m));
  modify (set_component usage).
End monitor.

Record MemoryStats := MkMemoryStats {
  ms_current_usage : Z;
  ms_peak_usage : Z;
  active_connections : Z;
  cached_telegrams : Z;
  registered_devices : Z;
  ms_component_usage : ComponentMemoryUsage;
}.
Definition MemoryMonitor_get_stats (m : MemoryMonitor) : MemoryStats :=
  MkMemoryStats (current_usage m) (peak_usage m) 0 0 0 (component_usage m).
Definition is_within_bounds (m : MemoryMonitor) : bool := current_usage m <=? memory_limit m.
Definition usage_percentage (m : MemoryMonitor) : float :=
  f64_mul (f64_div (f64_of_Z (current_usage m)) (f64_of_Z (memory_limit m))) (f64_of_Z 100).
Definition should_cleanup (now : Z) (m : MemoryMonitor) : bool :=
  SFltb (f64_of_Z 80) (usage_percentage m) || (300 * 1000000000 <? now - last_cleanup m).

(** * Hot paths *)
Definition Duration_MAX : Z := (2 ^ 64 - 1) * 1000000000 + 999999999.
Record HotPathEntry := MkHotPathEntry {
  call_count : Z;
  total_duration : Z;
  avg_duration : Z;
  min_duration : Z;
  max_duration : Z;
}.
Definition HotPathEntry_default : HotPathEntry := MkHotPathEntry 0 0 0 Duration_MAX 0.
(** [Duration + Duration] and [Duration / u32] panic on overflow and on 0. *)
Definition add_duration {E} (a b : Z) : outcome E Z := if Duration_MAX <? a + b then Panic else Ok (a + b).
Definition div_duration {E} (a n : Z) : outcome E Z := if n =? 0 then Panic else Ok (a / n).
Abbreviation HotPathStats := (gmap string HotPathEntry).
Section hot_paths.
Context `{Profile}.
Definition record_entry {E} (duration : Z) (entry : HotPathEntry) : outcome E HotPathEntry :=
  count ← checked64 (call_count entry + 1);
  total ← add_duration (total_duration entry) duration;
  let min := Z.min (min_duration entry) duration in
  let max := Z.max (max_duration entry) duration in
  avg ← div_duration total (count mod 2 ^ 32);
  Ok (MkHotPathEntry count total avg min max).
Definition record_hot_path {E} (path : string) (duration : Z) (stats : HotPathStats) : outcome E HotPathStats :=
  entry ← record_entry duration (default HotPathEntry_default (stats !! path));
  Ok (<[path := entry]> stats).
(** Slow paths are only logged. *)
Definition optimize (now : Z) : M unit :=
  m ← gets id;
  if should_cleanup now m then _ ← cleanup now; mret tt else mret tt.
(** One pass of the cleanup task of the application, after its sleep. *)
Definition cleanup_pass (now : Z) : M unit :=
  m ← gets id;
  _ ← (if should_cleanup now m then _ ← cleanup now; mret tt else mret tt);
  optimize now.
End hot_paths.

(** * The connection pool *)
Section pool.
Context {C : Type} `{EqDecision C} `{Profile}.
(** [create_fn] by the number of the call. *)
Context (create_fn : nat → result C).
Record ConnectionPool := MkPool {
  available : list C;
  active : list C;
  max_size : nat;
  memory_monitor : MemoryMonitor;
  created : nat;
}.
Definition ConnectionPool_new (max_size : nat) (m : MemoryMonitor) : ConnectionPool := MkPool [] [] max_size m 0.
Abbreviation P := (eff ConnectionPool MemoryError).
Definition set_lists (av ac : list C) (p : ConnectionPool) : ConnectionPool :=
  MkPool av ac (max_size p) (memory_monitor p) (created p).
Definition call_create : P C := λ p,
  (map_err (λ e, ConnectionCreationFailed (KnxError_display e)) (create_fn (created p)),
   MkPool (available p) (active p) (max_size p) (memory_monitor p) (S (created p))).
Definition on_monitor {A} (m : M A) : P A := λ p,
  let '(r, x) := m (memory_monitor p) in (r, MkPool (available p) (active p) (max_size p) x (created p)).
Definition get_connection (now : Z) : P C :=
  p ← gets id;
  match last (available p) with
  | Some conn => _ ← modify (set_lists (removelast (available p)) (active p ++ [conn])); mret conn
  | None =>
      if (max_size p <=? length (active p))%nat
      then throw (PoolExhausted (Z.of_nat (max_size p)) (Z.of_nat (length (active p))))
      else
        conn ← call_create;
        _ ← on_monitor (allocate now Component.Transport 1024);
        _ ← modify (λ p, set_lists (available p) (active p ++ [conn]) p);
        mret conn
  end.
(** The two steps of the task that gives a connection back. *)
Definition leave_active (conn : C) (p : ConnectionPool) : ConnectionPool :=
  set_lists (available p) (filter (λ c, c ≠ conn) (active p)) p.
Definition enter_available (conn : C) (p : ConnectionPool) : ConnectionPool :=
  set_lists (available p ++ [conn]) (active p) p.
Definition ConnectionPool_cleanup : P Z := λ p,
  let initial_count := length (available p) in
  let keep_count := ((initial_count + 1) / 2)%nat in
  let av := take keep_count (available p) in
  (Ok (Z.of_nat (initial_count - length av)), set_lists av (active p) p).
Record PoolStats := MkPoolStats {
  ps_max_size : nat;
  ps_active : nat;
  ps_available : nat;
  ps_total : nat;
}.
Definition ConnectionPool_get_stats (p : ConnectionPool) : PoolStats :=
  MkPoolStats (max_size p) (length (active p)) (length (available p)) (length (active p) + length (available p)).
End pool.
#[global] Arguments ConnectionPool : clear implicits.

(** * Lemmas *)

(** ** The ledger the monitor stands for

    What is allocated and not yet given back, and what failed allocations left
    behind. *)
Record ledger := MkLedger { live : list (Component * Z); leaked : Z }.
Definition sizes (l : list (Component * Z)) : Z := foldr (λ p t, p.2 + t) 0 l.
Definition sizes_of (c : Component) (l : list (Component * Z)) : Z := sizes (filter (λ p, p.1 = c) l).
Definition usage_of (c : Component) (u : ComponentMemoryUsage) : option Z :=
  match c with
  | Component.Transport => Some (transport u) | Component.Protocol => Some (protocol u) | Component.Device => Some (device u)
  | Component.Application => Some (application u) | Component.Security => Some (security u) | _ => None
  end.
Record tracks (m : MemoryMonitor) (l : ledger) : Prop := {
  tracks_sizes : Forall (λ p, 0 ≤ p.2) (live l) ∧ 0 ≤ leaked l;
  tracks_usage : current_usage m = sizes (live l) + leaked l;
  tracks_component : ∀ c x, usage_of c (component_usage m) = Some x → x = sizes_of c (live l);
  tracks_peak : current_usage m ≤ peak_usage m;
}.
Lemma sizes_cons p l : sizes (p :: l) = p.2 + sizes l.
Proof. done. Qed.
Lemma sizes_app k l : sizes (k ++ l) = sizes k + sizes l.
Proof. induction k as [|p k IH]; [done|]. rewrite <-app_comm_cons, !sizes_cons, IH. lia. Qed.
Lemma sizes_nonneg l : Forall (λ p, 0 ≤ p.2) l → 0 ≤ sizes l.
Proof. induction 1; [done|]. rewrite sizes_cons. lia. Qed.
Lemma sizes_of_cons c p l : sizes_of c (p :: l) = (if decide (p.1 = c) then p.2 else 0) + sizes_of c l.
Proof. unfold sizes_of. rewrite filter_cons. by destruct (decide (p.1 = c)). Qed.
Lemma sizes_of_le c l : Forall (λ p, 0 ≤ p.2) l → 0 ≤ sizes_of c l ≤ sizes l.
Proof. induction 1 as [|p l Hp Hl IH]; [done|]. rewrite sizes_of_cons, sizes_cons. destruct (decide _); lia. Qed.
Lemma sizes_delete l i p : l !! i = Some p → sizes l = p.2 + sizes (delete i l).
Proof.
  revert i. induction l as [|q l IH]; intros i; [done|]. destruct i as [|i]; [by intros [= ->]|]. intros Hi%IH.
  change (delete (S i) (q :: l)) with (q :: delete i l). rewrite !sizes_cons, Hi. lia.
Qed.
Lemma sizes_of_delete c l i p : l !! i = Some p → sizes_of c l = (if decide (p.1 = c) then p.2 else 0) + sizes_of c (delete i l).
Proof.
  revert i. induction l as [|q l IH]; intros i; [done|]. destruct i as [|i].
  - intros [= ->]. by rewrite sizes_of_cons.
  - intros Hi%IH. change (delete (S i) (q :: l)) with (q :: delete i l). rewrite !sizes_of_cons, Hi. lia.
Qed.
Lemma sizes_of_snoc c l d n : sizes_of c (l ++ [(d, n)]) = sizes_of c l + (if decide (d = c) then n else 0).
Proof.
  unfold sizes_of. rewrite filter_app, sizes_app, filter_cons. cbn [fst]. destruct (decide (d = c)); cbn; lia.
Qed.

(** The fields of an updated monitor. *)
Ltac fields := cbn [live leaked current_usage component_usage peak_usage memory_limit set_component set_peak set_usage set_last_cleanup].
Section monitor_lemmas.
Context `{Profile}.
Lemma checked64_small {E} z : z < 2 ^ 64 → checked64 (E:=E) z = Ok z.
Proof. intros Hz. unfold checked64. by rewrite (proj2 (Z.leb_gt _ _)) by lia. Qed.
(** A change of one component's usage that cannot fail. *)
Lemma on_component_run {E} (f : Z → outcome E Z) (g : Z → Z) c u :
  (∀ x, usage_of c u = Some x → f x = Ok (g x)) →
  ∃ u', on_component f c u = Ok u' ∧ usage_of c u' = g <$> usage_of c u ∧ ∀ d, d ≠ c → usage_of d u' = usage_of d u.
Proof.
  intros Hf. destruct c; cbn [on_component usage_of] in *;
    try (rewrite (Hf _ eq_refl)); cbn [mbind outcome_bind]; (eexists; split; [done|]); (split; [done|]); intros d Hd; by destruct d.
Qed.
Lemma allocate_run now c size m l : tracks m l → 0 ≤ size → sizes (live l) + leaked l + size < 2 ^ 64 →
  let total := sizes (live l) + leaked l + size in
  if total <=? memory_limit m
  then ∃ m', allocate now c size m = (Ok tt, m') ∧ tracks m' (MkLedger (live l ++ [(c, size)]) (leaked l)) ∧ memory_limit m' = memory_limit m
  else ∃ m', allocate now c size m = (Err (LimitExceeded total (memory_limit m)), m') ∧
       tracks m' (MkLedger (live l) (leaked l + size)) ∧ memory_limit m' = memory_limit m.
Proof.
  intros [[Hs Hk] Hu Hc Hp] Hn Ht. cbv zeta. pose proof (sizes_nonneg _ Hs) as H0.
  destruct (sizes (live l) + leaked l + size <=? memory_limit m) eqn:El; unfold allocate; rewrite eff_bind_run; cbn [gets id];
    rewrite eff_bind_run; unfold modify at 1; rewrite eff_bind_run, checked64_small by lia; cbn [lift]; rewrite Hu, Z.mod_small by lia;
    rewrite eff_bind_run; unfold modify at 1; rewrite eff_bind_run;
    replace (memory_limit m <? sizes (live l) + leaked l + size) with (negb (sizes (live l) + leaked l + size <=? memory_limit m)) by lia;
    rewrite El; cbn [negb].
  - cbn [mret eff_ret]. rewrite eff_bind_run. cbn [gets id]. rewrite eff_bind_run. cbn [component_usage set_peak set_usage].
    destruct (on_component_run (E:=MemoryError) (λ x, checked64 (x + size)) (λ x, x + size) c (component_usage m)) as (u' & -> & Hx & Hy).
    { intros x Hx. apply Hc in Hx as ->. apply checked64_small. pose proof (sizes_of_le c _ Hs). lia. }
    eexists. split; [reflexivity|]. split; [|done]. split; fields.
    + split; [|done]. apply Forall_app. by split; [|repeat constructor].
    + rewrite sizes_app, sizes_cons. cbn. lia.
    + intros d x Hd. rewrite sizes_of_snoc. destruct (decide (c = d)) as [<-|Hne].
      * rewrite Hx in Hd. apply fmap_Some in Hd as (y & Hd & ->). apply Hc in Hd as ->. done.
      * rewrite Hy in Hd by done. apply Hc in Hd as ->. lia.
    + lia.
  - rewrite eff_bind_run. unfold cleanup. rewrite eff_bind_run. cbn [gets id]. cbv zeta. rewrite eff_bind_run. unfold modify at 1.
    rewrite eff_bind_run. cbn [gets id mret eff_ret]. rewrite eff_bind_run. cbn [gets id].
    cbn [memory_limit current_usage set_last_cleanup set_peak set_usage].
    rewrite (proj2 (Z.ltb_lt _ _)) by lia. eexists. split; [reflexivity|]. split; [|done].
    split; fields; [split; [done|lia]|lia|done|lia].
Qed.
Lemma deallocate_run c size i m l : tracks m l → live l !! i = Some (c, size) → sizes (live l) + leaked l < 2 ^ 64 →
  ∃ m', deallocate c size m = (Ok tt, m') ∧ tracks m' (MkLedger (delete i (live l)) (leaked l)) ∧ memory_limit m' = memory_limit m.
Proof.
  intros [[Hs Hk] Hu Hc Hp] Hi Ht. pose proof (sizes_delete _ _ _ Hi) as Ed. cbn [snd] in Ed.
  assert (0 ≤ size) as H0 by (eapply Forall_lookup_1 in Hi; [|exact Hs]; done).
  pose proof (Forall_delete _ _ i Hs) as Hs'. pose proof (sizes_nonneg _ Hs') as H1.
  unfold deallocate. rewrite eff_bind_run. unfold modify at 1. rewrite eff_bind_run. cbn [gets id]. rewrite eff_bind_run.
  cbn [component_usage set_usage].
  destruct (on_component_run (E:=MemoryError) (λ x, Ok (Z.max 0 (x - size))) (λ x, Z.max 0 (x - size)) c (component_usage m)) as (u' & -> & Hx & Hy);
    [done|].
  eexists. split; [reflexivity|]. split; [|done]. split; fields.
  - by split.
  - rewrite Hu, Z.mod_small by lia. lia.
  - intros d x Hd. pose proof (sizes_of_delete d _ _ _ Hi) as E. cbn [fst snd] in E.
    pose proof (sizes_of_le d _ Hs'). destruct (decide (c = d)) as [<-|Hne].
    + rewrite Hx in Hd. apply fmap_Some in Hd as (y & Hd & ->). apply Hc in Hd as ->. lia.
    + rewrite Hy in Hd by done. apply Hc in Hd as ->. lia.
  - rewrite Hu, Z.mod_small by lia. lia.
Qed.
Lemma cleanup_run now m l : tracks m l → ∃ m', cleanup now m = (Ok 0, m') ∧ tracks m' l ∧ memory_limit m' = memory_limit m.
Proof.
  intros [Hs Hu Hc Hp]. unfold cleanup. rewrite eff_bind_run. cbn [gets id]. cbv zeta. rewrite eff_bind_run. unfold modify at 1.
  exists (set_last_cleanup now m). split; [|split; [by split|done]].
  rewrite eff_bind_run. cbn [gets id]. unfold mret, eff_ret. fields. by rewrite Z.sub_diag.
Qed.

(** Operations: the blocks given back are among those allocated. *)
Inductive mem_op := OpAllocate (now : Z) (c : Component) (size : Z) | OpFree (i : nat) | OpCleanup (now : Z).
Definition mem_step (s : MemoryMonitor * ledger) (op : mem_op) : MemoryMonitor * ledger :=
  let '(m, l) := s in
  match op with
  | OpAllocate now c size =>
      match allocate now c size m with
      | (Ok _, m) => (m, MkLedger (live l ++ [(c, size)]) (leaked l))
      | (_, m) => (m, MkLedger (live l) (leaked l + size))
      end
  | OpFree i =>
      match live l !! i with
      | Some (c, size) => ((deallocate c size m).2, MkLedger (delete i (live l)) (leaked l))
      | None => s
      end
  | OpCleanup now => ((cleanup now m).2, l)
  end.
Definition op_size (op : mem_op) : Z := match op with OpAllocate _ _ size => size | _ => 0 end.
Definition requested (ops : list mem_op) : Z := foldr (λ op t, op_size op + t) 0 ops.
Lemma requested_nonneg ops : Forall (λ op, 0 ≤ op_size op) ops → 0 ≤ requested ops.
Proof. induction 1; cbn; unfold requested in *; lia. Qed.
Lemma mem_step_tracks op m l : tracks m l → 0 ≤ op_size op → sizes (live l) + leaked l + op_size op < 2 ^ 64 →
  let '(m', l') := mem_step (m, l) op in tracks m' l' ∧ memory_limit m' = memory_limit m ∧ leaked l ≤ leaked l' ∧
    sizes (live l') + leaked l' ≤ sizes (live l) + leaked l + op_size op.
Proof.
  intros Hm H0 Hn. destruct op as [now c size|i|now]; cbn [op_size mem_step] in *.
  - pose proof (allocate_run now c size m l Hm H0 Hn) as Ha. cbv zeta in Ha.
    destruct (_ <=? _); destruct Ha as (m' & -> & Hm' & ->); (split_and!; [done..| |]); fields; rewrite ?sizes_app, ?sizes_cons; cbn [snd]; change (sizes []) with 0; lia.
  - destruct (live l !! i) as [[c size]|] eqn:Ei; [|split_and!; [done..|lia|lia]].
    destruct (deallocate_run c size i m l Hm Ei ltac:(lia)) as (m' & -> & Hm' & El). cbn [snd]. split_and!; [done..|fields; lia|]. fields.
    rewrite (sizes_delete _ _ _ Ei). cbn [snd]. destruct Hm as [[Hs _] _ _ _]. eapply Forall_lookup_1 in Ei; [|exact Hs]. cbn in Ei. lia.
  - destruct (cleanup_run now m l Hm) as (m' & -> & Hm' & El). cbn [snd]. split_and!; [done..|lia|lia].
Qed.
Definition mem_run (ops : list mem_op) (s : MemoryMonitor * ledger) : MemoryMonitor * ledger := foldl mem_step s ops.
Lemma mem_run_tracks ops m l : tracks m l → Forall (λ op, 0 ≤ op_size op) ops → sizes (live l) + leaked l + requested ops < 2 ^ 64 →
  let '(m', l') := mem_run ops (m, l) in tracks m' l' ∧ memory_limit m' = memory_limit m ∧ leaked l ≤ leaked l' ∧
    sizes (live l') + leaked l' ≤ sizes (live l) + leaked l + requested ops.
Proof.
  revert m l. induction ops as [|op ops IH]; intros m l Hm Hops Hr.
  { cbn. split_and!; [done..|lia|lia]. }
  apply Forall_cons in Hops as [Hop Hops]. pose proof (requested_nonneg _ Hops).
  change (requested (op :: ops)) with (op_size op + requested ops) in *.
  pose proof (mem_step_tracks op m l Hm Hop ltac:(lia)) as Hs. cbn [mem_run foldl].
  destruct (mem_step (m, l) op) as [m1 l1]. destruct Hs as (Hm1 & El & Hk & Hb).
  specialize (IH m1 l1 Hm1 Hops ltac:(lia)). unfold mem_run in IH. destruct (foldl mem_step (m1, l1) ops) as [m2 l2].
  destruct IH as (Hm2 & El2 & Hk2 & Hb2). split_and!; [done|congruence|lia|lia].
Qed.
End monitor_lemmas.

(** ** Hot paths *)
Definition sum (ds : list Z) : Z := foldl Z.add 0 ds.
(** The entry after the durations [ds]. *)
Definition entry_of (ds : list Z) : HotPathEntry :=
  MkHotPathEntry (Z.of_nat (length ds)) (sum ds) (sum ds / Z.of_nat (length ds)) (foldl Z.min Duration_MAX ds) (foldl Z.max 0 ds).
Lemma sum_snoc ds d : sum (ds ++ [d]) = sum ds + d.
Proof. unfold sum. by rewrite foldl_app. Qed.
Lemma sum_nonneg ds : Forall (λ d, 0 ≤ d) ds → 0 ≤ sum ds.
Proof. induction ds as [|d ds IH] using rev_ind; [done|]. rewrite Forall_app, sum_snoc. intros [Hd ?%Forall_inv]. specialize (IH Hd). lia. Qed.
Lemma record_entry_run `{Profile} {E} ds d : Z.of_nat (length ds) + 1 < 2 ^ 32 → sum ds + d ≤ Duration_MAX →
  record_entry (E:=E) d (entry_of ds) = Ok (entry_of (ds ++ [d])).
Proof.
  intros Hn Hs. unfold record_entry, entry_of. cbn [call_count total_duration min_duration max_duration].
  rewrite checked64_small by lia. cbn [mbind outcome_bind]. unfold add_duration. rewrite (proj2 (Z.ltb_ge _ _)) by lia.
  cbn [mbind outcome_bind]. cbv zeta. rewrite Z.mod_small by lia. unfold div_duration. rewrite (proj2 (Z.eqb_neq _ _)) by lia.
  cbn [mbind outcome_bind]. rewrite sum_snoc, !foldl_app, length_app. cbn [length foldl].
  by replace (Z.of_nat (length ds + 1)) with (Z.of_nat (length ds) + 1) by lia.
Qed.
Fixpoint record_all `{Profile} {E} (path : string) (ds : list Z) (stats : HotPathStats) : outcome E HotPathStats :=
  match ds with [] => Ok stats | d :: ds => stats ← record_hot_path path d stats; record_all path ds stats end.
Lemma record_all_run `{Profile} {E} path ds ds' stats : default HotPathEntry_default (stats !! path) = entry_of ds →
  Z.of_nat (length ds + length ds') < 2 ^ 32 → Forall (λ d, 0 ≤ d) ds' → sum ds + sum ds' ≤ Duration_MAX → ds' ≠ [] →
  record_all (E:=E) path ds' stats = Ok (<[path := entry_of (ds ++ ds')]> stats).
Proof.
  revert ds stats. induction ds' as [|d ds' IH]; intros ds stats He Hn H0 Hs Hne; [done|].
  apply Forall_cons in H0 as [Hd H0]. assert (sum (d :: ds') = d + sum ds') as Ed.
  { clear. induction ds' as [|x l IH] using rev_ind; [cbn; lia|]. rewrite app_comm_cons, !sum_snoc. lia. }
  rewrite Ed in Hs. pose proof (sum_nonneg _ H0). cbn [length record_all] in *. unfold record_hot_path. rewrite He, record_entry_run by lia.
  cbn [mbind outcome_bind]. destruct ds' as [|d' ds']; [done|].
  rewrite (IH (ds ++ [d])); [|by rewrite lookup_insert_eq|rewrite length_app; cbn [length] in *; lia|done|rewrite sum_snoc; lia|done].
  by rewrite insert_insert_eq, <-app_assoc.
Qed.
Lemma entry_of_spec ds : ds ≠ [] → Forall (λ d, 0 ≤ d ≤ Duration_MAX) ds →
  let e := entry_of ds in
  Forall (λ d, min_duration e ≤ d ≤ max_duration e) ds ∧ min_duration e ∈ ds ∧ max_duration e ∈ ds ∧
  min_duration e * call_count e ≤ total_duration e ≤ max_duration e * call_count e.
Proof.
  intros Hne. cbv zeta. unfold entry_of. cbn. induction ds as [|d ds IH] using rev_ind; [done|].
  rewrite Forall_app. intros [Hf Hd%Forall_inv]. rewrite !foldl_app, length_app, sum_snoc. cbn [foldl length].
  destruct ds as [|x ds].
  { cbn. rewrite Z.min_r, Z.max_r by lia. split_and!; try (by left); [by repeat constructor; lia|lia..]. }
  destruct (IH ltac:(done) Hf) as (H1 & H2 & H3 & H4). set (n := Z.of_nat (length (x :: ds))) in *.
  assert (0 < n) by (unfold n; cbn [length]; lia).
  set (lo := foldl Z.min Duration_MAX (x :: ds)) in *. set (hi := foldl Z.max 0 (x :: ds)) in *. set (s := sum (x :: ds)) in *.
  replace (Z.of_nat (length (x :: ds) + 1)) with (n + 1) by (unfold n; lia). split_and!.
  - apply Forall_app. split; [|constructor; [lia|done]]. eapply Forall_impl; [exact H1|]. cbn. lia.
  - apply elem_of_app. destruct (Z.min_spec lo d) as [[_ ->]|[_ ->]]; [by left|right; by left].
  - apply elem_of_app. destruct (Z.max_spec hi d) as [[_ ->]|[_ ->]]; [right; by left|by left].
  - nia.
  - nia.
Qed.

(** ** The pool *)
Section pool_lemmas.
Context {C : Type} `{EqDecision C} `{Profile} (create_fn : nat → result C).
(** A pool in use: what is lent, and what the tasks that give connections back
    have still to take out of the active list or to put into the available one. *)
Record in_use := MkInUse {
  pool : ConnectionPool C;
  lent : list C;
  to_remove : list C;
  to_push : list C;
}.
Inductive pool_step : in_use → in_use → Prop :=
| step_get s now conn p : get_connection create_fn now (pool s) = (Ok conn, p) →
    pool_step s (MkInUse p (conn :: lent s) (to_remove s) (to_push s))
| step_get_fails s now e p : get_connection create_fn now (pool s) = (Err e, p) →
    pool_step s (MkInUse p (lent s) (to_remove s) (to_push s))
| step_drop s conn l : lent s ≡ₚ conn :: l → pool_step s (MkInUse (pool s) l (conn :: to_remove s) (to_push s))
| step_remove s conn l : to_remove s ≡ₚ conn :: l →
    pool_step s (MkInUse (leave_active conn (pool s)) (lent s) l (conn :: to_push s))
| step_push s conn l : to_push s ≡ₚ conn :: l → pool_step s (MkInUse (enter_available conn (pool s)) (lent s) (to_remove s) l)
| step_cleanup s : pool_step s (MkInUse (ConnectionPool_cleanup (pool s)).2 (lent s) (to_remove s) (to_push s)).
Definition unused (n : nat) (m : MemoryMonitor) : in_use := MkInUse (ConnectionPool_new n m) [] [] [].

(** What [get_connection] does to the lists. *)
Lemma get_connection_cases now p :
  (∃ av conn, available p = av ++ [conn] ∧ get_connection create_fn now p = (Ok conn, set_lists av (active p ++ [conn]) p)) ∨
  (∃ conn m, available p = [] ∧ (length (active p) < max_size p)%nat ∧ create_fn (created p) = Ok conn ∧
     get_connection create_fn now p = (Ok conn, MkPool [] (active p ++ [conn]) (max_size p) m (S (created p)))) ∨
  (∃ r m k, (∀ conn, r ≠ Ok conn) ∧ available p = [] ∧ (created p ≤ k)%nat ∧
     get_connection create_fn now p = (r, MkPool [] (active p) (max_size p) m k)).
Proof.
  unfold get_connection. rewrite eff_bind_run. cbn [gets id]. destruct (available p) as [|conn av _] eqn:Ea using rev_ind.
  - right. cbn [last]. destruct (Nat.leb_spec (max_size p) (length (active p))) as [Hl|Hl].
    { right. exists (Err (PoolExhausted (Z.of_nat (max_size p)) (Z.of_nat (length (active p))))), (memory_monitor p), (created p).
      split_and!; [done..|lia|]. cbn. destruct p. cbn in *. by subst. }
    rewrite eff_bind_run. unfold call_create. destruct (create_fn (created p)) as [conn|e|] eqn:Ec; cbn [map_err].
    + rewrite eff_bind_run. unfold on_monitor. cbn [memory_monitor]. destruct (allocate now Component.Transport 1024 (memory_monitor p)) as [[[]|e|] m].
      * left. exists conn, m. rewrite Ea. split_and!; done.
      * right. exists (Err e), m, (S (created p)). rewrite Ea. split_and!; [done..|lia|done].
      * right. exists Panic, m, (S (created p)). rewrite Ea. split_and!; [done..|lia|done].
    + right. eexists _, _, _. rewrite Ea. split; [|split; [done|split; [|reflexivity]]]; [done|lia].
    + right. eexists _, _, _. rewrite Ea. split; [|split; [done|split; [|reflexivity]]]; [done|lia].
  - left. exists av, conn. split; [done|]. rewrite last_snoc, removelast_last. done.
Qed.

(** Every connection is in one place. *)
Hypothesis create_fresh : ∀ i j conn, create_fn i = Ok conn → create_fn j = Ok conn → i = j.
Record pool_inv (s : in_use) : Prop := {
  inv_active : active (pool s) ≡ₚ lent s ++ to_remove s;
  inv_nodup : NoDup (active (pool s) ++ available (pool s) ++ to_push s);
  inv_created : ∀ conn, conn ∈ active (pool s) ++ available (pool s) ++ to_push s → ∃ i, (i < created (pool s))%nat ∧ create_fn i = Ok conn;
}.
Lemma filter_perm (l k : list C) conn : NoDup l → l ≡ₚ conn :: k → filter (λ x, x ≠ conn) l ≡ₚ k.
Proof.
  intros Hn Hp. pose proof Hn as Hn'. rewrite Hp in Hn'. apply NoDup_cons in Hn' as [Hc Hk].
  apply NoDup_Permutation; [by apply NoDup_filter|done|]. intros x. rewrite list_elem_of_filter, Hp, elem_of_cons.
  split; [naive_solver|]. intros Hx. split; [by intros ->|by right].
Qed.
Lemma pool_step_inv s s' : pool_step s s' → pool_inv s → pool_inv s'.
Proof.
  intros Hs [Ha Hn Hc]. destruct Hs as [s now conn p E|s now e p E|s conn l E|s conn l E|s conn l E|s]; cbn in *.
  - destruct (get_connection_cases now (pool s)) as [(av & x & Ev & E')|[(x & m & Ev & _ & Ex & E')|(r & m & k & Hr & _ & _ & E')]];
      rewrite E in E'; [injection E' as <- ->|injection E' as <- ->|injection E' as <- _; by destruct (Hr conn)].
    + rewrite Ev in Hn, Hc. assert (active (pool s) ++ (av ++ [conn]) ++ to_push s ≡ₚ (active (pool s) ++ [conn]) ++ av ++ to_push s) as Ep
        by solve_Permutation.
      split; cbn; [rewrite Ha; solve_Permutation|by rewrite <-Ep|]. intros x. rewrite <-Ep. apply Hc.
    + rewrite Ev in Hn, Hc. cbn [app] in *.
      assert ((active (pool s) ++ [conn]) ++ to_push s ≡ₚ conn :: (active (pool s) ++ to_push s)) as Ep by solve_Permutation.
      split; cbn; [rewrite Ha; solve_Permutation| |].
      * rewrite Ep. apply NoDup_cons. split; [|done]. intros (i & Hi & Ei)%Hc. pose proof (create_fresh _ _ _ Ei Ex). lia.
      * intros x. rewrite Ep, elem_of_cons. intros [->|(i & Hi & Ei)%Hc]; [exists (created (pool s))|exists i]; split; (done || lia).
  - destruct (get_connection_cases now (pool s)) as [(av & x & _ & E')|[(x & m & _ & _ & _ & E')|(r & m & k & _ & Ev & Hk & E')]];
      rewrite E in E'; [done..|]. injection E' as <- ->. rewrite Ev in Hn, Hc. split; cbn; [done..|].
    intros x (i & Hi & Ei)%Hc. exists i. split; [lia|done].
  - split; cbn; [rewrite Ha, E; solve_Permutation|done..].
  - assert (NoDup (active (pool s))) as Hna by (by apply NoDup_app in Hn as [? _]).
    assert (active (pool s) ≡ₚ conn :: lent s ++ l) as Ha' by (rewrite Ha, E; solve_Permutation).
    pose proof (filter_perm _ _ _ Hna Ha') as Hf.
    assert (active (pool s) ++ available (pool s) ++ to_push s ≡ₚ
      filter (λ x, x ≠ conn) (active (pool s)) ++ available (pool s) ++ conn :: to_push s) as Ep by (rewrite Hf, Ha'; solve_Permutation).
    split; cbn; [done|by rewrite <-Ep|]. intros x. rewrite <-Ep. apply Hc.
  - assert (active (pool s) ++ available (pool s) ++ to_push s ≡ₚ active (pool s) ++ (available (pool s) ++ [conn]) ++ l) as Ep
      by (rewrite E; solve_Permutation).
    split; cbn; [done|by rewrite <-Ep|]. intros x. rewrite <-Ep. apply Hc.
  - set (n := ((length (available (pool s)) + 1) / 2)%nat).
    assert (sublist (active (pool s) ++ take n (available (pool s)) ++ to_push s) (active (pool s) ++ available (pool s) ++ to_push s)) as Hsub.
    { apply sublist_app; [done|]. apply sublist_app; [apply sublist_take|done]. }
    split; cbn; [done|by eapply sublist_NoDup|]. intros x. rewrite !elem_of_app, elem_of_take. intros Hx. apply Hc. rewrite !elem_of_app.
    destruct Hx as [?|[(i & Hi%list_elem_of_lookup_2 & _)|?]]; auto.
Qed.
Lemma reachable_inv n m s : rtc pool_step (unused n m) s → pool_inv s.
Proof.
  intros Hr. remember (unused n m) as s0 eqn:E. assert (pool_inv s0) as Hi by (subst; by split; cbn; [|constructor|intros ? ?%elem_of_nil]).
  clear E. induction Hr as [|s0 s1 s2 Hs _ IH]; [done|]. by apply IH, (pool_step_inv s0).
Qed.
(** Giving back without interruption. *)
Inductive calm_step : ConnectionPool C → ConnectionPool C → Prop :=
| calm_get p now : calm_step p (get_connection create_fn now p).2
| calm_give p conn : conn ∈ active p → calm_step p (enter_available conn (leave_active conn p))
| calm_cleanup p : calm_step p (ConnectionPool_cleanup p).2.
Lemma calm_step_bound p p' : calm_step p p' →
  (length (active p) + length (available p) ≤ max_size p)%nat →
  max_size p' = max_size p ∧ (length (active p') + length (available p') ≤ max_size p')%nat.
Proof.
  intros Hs Hl. destruct Hs as [p now|p conn Hc|p].
  - destruct (get_connection_cases now p) as [(av & x & Ev & ->)|[(x & m & Ev & Hn & _ & ->)|(r & m & k & _ & Ev & _ & ->)]];
      cbn; rewrite ?length_app, Ev in *; rewrite ?length_app in *; cbn in *; (split; [done|lia]).
  - cbn. rewrite length_app. cbn. split; [done|].
    assert (length (filter (λ x, x ≠ conn) (active p)) < length (active p))%nat; [|lia].
    apply list_elem_of_split in Hc as (l1 & l2 & ->). rewrite filter_app, filter_cons_False by auto. rewrite !length_app. cbn.
    pose proof (length_filter (λ x, x ≠ conn) l1). pose proof (length_filter (λ x, x ≠ conn) l2). lia.
  - cbn. rewrite length_take. split; [done|lia].
Qed.
End pool_lemmas.

(** * Properties *)

(** C36: The monitor keeps its books: after any operations the usage is the size of
    what is allocated and not given back plus the size of every allocation that
    failed, each component's usage is the size of what is allocated for it, and the
    next allocation succeeds exactly if the usage with it stays within the limit. *)
Theorem memory_accounting `{Profile} mb now m ops : MemoryMonitor_new mb now = Ok m →
  Forall (λ op, 0 ≤ op_size op) ops → requested ops < 2 ^ 64 →
  let '(m', l) := mem_run ops (m, MkLedger [] 0) in
  tracks m' l ∧ memory_limit m' = memory_limit m ∧
  ∀ now c size, 0 ≤ size → requested ops + size < 2 ^ 64 →
    (allocate now c size m').1 =
      let total := sizes (live l) + leaked l + size in
      if total <=? memory_limit m then Ok tt else Err (LimitExceeded total (memory_limit m)).
Proof.
  intros Hm Hops Hr. assert (tracks m (MkLedger [] 0)) as Ht.
  { unfold MemoryMonitor_new in Hm. apply outcome_bind_Ok in Hm as (kb & _ & Hm). apply outcome_bind_Ok in Hm as (l & _ & [= <-]).
    split; cbn; [done..| |done]. intros c x. destruct c; cbn; by intros [= <-]. }
  pose proof (mem_run_tracks ops m _ Ht Hops) as Hrun. cbn [live leaked] in Hrun. change (sizes []) with 0 in Hrun. specialize (Hrun ltac:(lia)).
  destruct (mem_run ops (m, MkLedger [] 0)) as [m' l]. destruct Hrun as (Ht' & El & _ & Hb). split_and!; [done..|].
  intros now' c size H0 Hs. pose proof (allocate_run now' c size m' l Ht' H0 ltac:(lia)) as Ha. cbv zeta in *. rewrite El in Ha.
  destruct (_ <=? _); by destruct Ha as (x & -> & _).
Qed.

(** A failed allocation is never taken back: once the failed ones exceed the
    limit, every allocation fails for good, whatever is given back or cleaned up. *)
Theorem memory_limit_sticky `{Profile} m l ops now c size : tracks m l → memory_limit m < leaked l →
  Forall (λ op, 0 ≤ op_size op) ops → 0 ≤ size → sizes (live l) + leaked l + requested ops + size < 2 ^ 64 →
  ∃ e, (allocate now c size (mem_run ops (m, l)).1).1 = Err e.
Proof.
  intros Hm Hk Hops H0 Hs. pose proof (mem_run_tracks ops m l Hm Hops ltac:(lia)) as Hrun.
  destruct (mem_run ops (m, l)) as [m' l']. destruct Hrun as (Ht' & El & Hk' & Hb).
  pose proof (allocate_run now c size m' l' Ht' H0 ltac:(lia)) as Ha. cbv zeta in Ha.
  destruct Ht' as [[Hs' _] _ _ _]. pose proof (sizes_nonneg _ Hs').
  rewrite (proj2 (Z.leb_gt _ _)) in Ha by lia. destruct Ha as (x & E & _). cbn [fst]. rewrite E. by eexists.
Qed.

(** The statistics of a path are those of its durations: count, total, the
    average rounded down, and the smallest and the largest, with the average between
    them. *)
Theorem hot_path_statistics `{Profile} path ds (stats : HotPathStats) : stats !! path = None → ds ≠ [] →
  Z.of_nat (length ds) < 2 ^ 32 → Forall (λ d, 0 ≤ d) ds → sum ds ≤ Duration_MAX →
  let e := entry_of ds in
  record_all (E:=KnxError) path ds stats = Ok (<[path := e]> stats) ∧
  Forall (λ d, min_duration e ≤ d ≤ max_duration e) ds ∧ min_duration e ∈ ds ∧ max_duration e ∈ ds ∧
  min_duration e ≤ avg_duration e ≤ max_duration e.
Proof.
  intros Hp Hne Hn H0 Hs. cbv zeta. split.
  { rewrite (record_all_run path [] ds); [done|by rewrite Hp|cbn; lia|done|done|done]. }
  destruct (entry_of_spec ds Hne) as (H1 & H2 & H3 & H4).
  { apply Forall_lookup_2. intros i d Hi. eapply Forall_lookup_1 in H0 as Hd; [|exact Hi]. split; [done|].
    apply list_elem_of_lookup_2, list_elem_of_split in Hi as (l1 & l2 & ->). apply Forall_app in H0 as [Ha [_ Hb]%Forall_cons].
    assert (sum (l1 ++ d :: l2) = sum l1 + d + sum l2) as E.
    { clear. induction l2 as [|x l2 IH] using rev_ind; [rewrite sum_snoc; cbn; lia|].
      rewrite app_comm_cons, app_assoc, !sum_snoc, IH. lia. }
    pose proof (sum_nonneg _ Ha). pose proof (sum_nonneg _ Hb). lia. }
  split_and!; [done..| |]; unfold entry_of in *; cbn in *; destruct ds as [|d ds]; try done; set (n := Z.of_nat _) in *;
    assert (0 < n) by (unfold n; cbn; lia); [apply Z.div_le_lower_bound|apply Z.div_le_upper_bound]; lia.
Qed.

(** At the 2^32nd call of a path the count, cut to 32 bits, is 0: recording it
    divides by 0 and panics. *)
Theorem hot_path_panics `{Profile} path d (stats : HotPathStats) e : stats !! path = Some e → call_count e = 2 ^ 32 - 1 →
  record_hot_path (E:=KnxError) path d stats = Panic.
Proof.
  intros Hp Hc. unfold record_hot_path. rewrite Hp. change (default HotPathEntry_default (Some e)) with e. unfold record_entry. rewrite Hc, checked64_small by lia.
  cbn [mbind outcome_bind]. unfold add_duration. by destruct (_ <? _).
Qed.

(** C37: However the tasks that give connections back interleave with the rest, a
    connection is never lent twice at a time, nor lent while it is available. *)
Theorem pool_exclusive {C} `{EqDecision C} `{Profile} (create_fn : nat → result C) n m s :
  (∀ i j conn, create_fn i = Ok conn → create_fn j = Ok conn → i = j) → rtc (pool_step create_fn) (unused n m) s →
  NoDup (lent s) ∧ NoDup (available (pool s)) ∧ (∀ conn, conn ∈ lent s → conn ∉ available (pool s)) ∧
  ∀ conn, conn ∈ lent s → conn ∈ active (pool s).
Proof.
  intros Hf Hr. destruct (reachable_inv create_fn Hf n m s Hr) as [Ha Hn _].
  apply NoDup_app in Hn as (Hn1 & Hd & Hn2). pose proof Hn1 as Hn3. rewrite Ha in Hn3. apply NoDup_app in Hn3 as (Hl & _ & _).
  apply NoDup_app in Hn2 as (Hv & _ & _). split_and!; [done..| |].
  - intros conn Hc Hv'. apply (Hd conn); [rewrite Ha; apply elem_of_app; by left|apply elem_of_app; by left].
  - intros conn Hc. rewrite Ha. apply elem_of_app. by left.
Qed.

(** As long as every connection is given back without interruption, the pool
    holds no more connections than its size. *)
Theorem pool_bounded {C} `{EqDecision C} `{Profile} (create_fn : nat → result C) n m p :
  rtc (calm_step create_fn) (ConnectionPool_new n m) p → (ps_total (ConnectionPool_get_stats p) ≤ n)%nat.
Proof.
  intros Hr. remember (ConnectionPool_new n m) as p0 eqn:E.
  assert (max_size p0 = n ∧ (length (active p0) + length (available p0) ≤ max_size p0)%nat) as [Hm Hl] by (subst; cbn; split; [done|lia]).
  clear E. induction Hr as [p|p0 p1 p2 Hs _ IH]; [cbn; lia|].
  destruct (calm_step_bound create_fn _ _ Hs Hl) as [E Hl']. apply IH; [congruence|done].
Qed.

(** Otherwise it does not keep to its size: while a connection is on its way
    back, a new one is created in its place, and then both are lent. *)
Theorem pool_exceeds_max `{Profile} : ∃ m s,
  MemoryMonitor_new 64 0 = Ok m ∧ rtc (pool_step (λ i, Ok i)) (unused 1 m) s ∧ length (lent s) = 2%nat ∧ max_size (pool s) = 1%nat.
Proof.
  set (mem k := MkMonitor k k 67108864 (MkUsage k 0 0 0 0) 0). set (at_ av ac k := MkPool (C:=nat) av ac 1 (mem (1024 * Z.of_nat k)) k).
  exists (mem 0), (MkInUse (at_ [] [1; 0]%nat 2%nat) [0; 1]%nat [] []). split; [reflexivity|]. split; [|done].
  assert (∀ s s', pool_step (λ i, Ok i) s s' → rtc (pool_step (λ i, Ok i)) s s') as step by (intros; by apply rtc_once).
  etrans; [apply step, (step_get _ _ 0 0%nat (at_ [] [0]%nat 1%nat)); reflexivity|].
  etrans; [apply step, (step_drop _ _ 0%nat []); reflexivity|].
  etrans; [apply step, (step_remove _ _ 0%nat []); reflexivity|].
  etrans; [apply step, (step_get _ _ 0 1%nat (at_ [] [1]%nat 2%nat)); reflexivity|].
  etrans; [apply step, (step_push _ _ 0%nat []); reflexivity|].
  apply step, (step_get _ (MkInUse (at_ [0]%nat [1]%nat 2%nat) [1]%nat [] []) 0 0%nat (at_ [] [1; 0]%nat 2%nat)). reflexivity.
Qed.

(** ** Witnesses *)
#[local] Instance memory_release : Profile := {| debug_build := false |}.
Definition a_monitor : MemoryMonitor := MkMonitor 0 0 1048576 ComponentMemoryUsage_default 0.
Definition some_mem_ops : list mem_op :=
  [OpAllocate 1 Component.Protocol 1000; OpAllocate 2 Component.Transport 2000000; OpFree 0].
Lemma memory_accounting_witness :
  let '(m, l) := mem_run some_mem_ops (a_monitor, MkLedger [] 0) in
  current_usage m = 2000000 ∧ tracks m l ∧ (allocate 3 Component.Protocol 1 m).1 = Err (LimitExceeded 2000001 1048576).
Proof.
  pose proof (memory_accounting 1 0 a_monitor some_mem_ops eq_refl) as Hm. destruct Hm as (Ht & _ & Ha).
  - repeat constructor; vm_compute; discriminate.
  - vm_compute. reflexivity.
  - split; [vm_compute; reflexivity|]. split; [exact Ht|]. rewrite (Ha 3 Component.Protocol 1); [vm_compute; reflexivity|lia|vm_compute; reflexivity].
Defined.
Lemma memory_limit_sticky_witness : ∃ e,
  (allocate 3 Component.Protocol 1 (mem_run [OpFree 0; OpCleanup 2] (mem_run some_mem_ops (a_monitor, MkLedger [] 0))).1).1 = Err e.
Proof.
  pose proof (mem_run_tracks some_mem_ops a_monitor (MkLedger [] 0)) as Ht.
  destruct (mem_run some_mem_ops (a_monitor, MkLedger [] 0)) as [m l] eqn:E. destruct Ht as [Ht _].
  - split; cbn; [done..| |done]. intros c x. destruct c; cbn; by intros [= <-].
  - repeat constructor; vm_compute; discriminate.
  - vm_compute. reflexivity.
  - apply (memory_limit_sticky m l [OpFree 0; OpCleanup 2] 3 Component.Protocol 1 Ht).
    all: vm_compute in E; injection E as <- <-; first [lia | vm_compute; reflexivity | repeat constructor; vm_compute; discriminate].
Defined.
Lemma hot_path_statistics_witness : ∃ stats,
  record_all (E:=KnxError) "frame_handle" [3; 1; 7] ∅ = Ok stats ∧ stats !! "frame_handle" = Some (MkHotPathEntry 3 11 3 1 7).
Proof.
  destruct (hot_path_statistics "frame_handle" [3; 1; 7] ∅) as [E _].
  - reflexivity.
  - discriminate.
  - reflexivity.
  - repeat constructor; discriminate.
  - vm_compute. discriminate.
  - eexists. split; [exact E|]. by rewrite lookup_insert_eq.
Defined.
Lemma hot_path_panics_witness :
  record_hot_path (E:=KnxError) "frame_handle" 5 {[ "frame_handle" := MkHotPathEntry (2 ^ 32 - 1) (2 ^ 40) 256 1 1000 ]} = Panic.
Proof. eapply (hot_path_panics "frame_handle" 5); [by rewrite lookup_singleton_eq|reflexivity]. Defined.
Definition lent_one : in_use := MkInUse (get_connection (λ i, Ok i) 0 (ConnectionPool_new 2 a_monitor)).2 [0%nat] [] [].
Lemma pool_exclusive_witness : NoDup (lent lent_one) ∧ 0%nat ∈ active (pool lent_one).
Proof.
  destruct (pool_exclusive (λ i, Ok i) 2 a_monitor lent_one) as (Hl & _ & _ & Ha).
  - by intros i j conn [= ->] [= ->].
  - apply rtc_once. apply (step_get _ (unused 2 a_monitor) 0 0%nat). vm_compute. reflexivity.
  - split; [exact Hl|]. apply Ha. by left.
Defined.
Lemma pool_bounded_witness :
  (ps_total (ConnectionPool_get_stats (get_connection (λ i, Ok i) 0 (ConnectionPool_new 1 a_monitor)).2) ≤ 1)%nat.
Proof. apply (pool_bounded (λ i, Ok i) 1 a_monitor). apply rtc_once. apply (calm_get _ (ConnectionPool_new 1 a_monitor) 0). Defined.
