(* ===== verification/Services.v ===== *)
(** The parts of the application object ([src/src/application/knx.rs]) that its
    methods hand on to: callbacks, group addresses, memory, hot paths, queue and
    limiter, each behind an [Arc] of its own, and the answers about the
    connection.  The object's own life is in [Lifecycle]. *)
From S2P Require Import Prelude Errors Address Apdu Telegram FrameTransport Connection Float DptTypes.
From S2P Require Import ReceiveLimiter Queue TunnelCore Client GroupRegistry Callbacks GroupValues Memory.

Record services {W : Type} := MkServices {
  event_handler : EventHandler W;
  group_registry : GroupAddressRegistry;
  memory_monitor : MemoryMonitor;
  performance_optimizer : HotPathStats;
  service_queue : QueueState;
  service_limiter : option ReceiveRateLimiter;
}.
Arguments services W : clear implicits.
Arguments MkServices {W} _ _ _ _ _ _.

Section services.
Context {W : Type}.
Abbreviation K := (eff (services W) KnxError).
Implicit Types k : services W.

Definition set_handler (h : EventHandler W) k : services W :=
  MkServices h (group_registry k) (memory_monitor k) (performance_optimizer k) (service_queue k) (service_limiter k).
Definition set_registry (r : GroupAddressRegistry) k : services W :=
  MkServices (event_handler k) r (memory_monitor k) (performance_optimizer k) (service_queue k) (service_limiter k).
Definition set_monitor (m : MemoryMonitor) k : services W :=
  MkServices (event_handler k) (group_registry k) m (performance_optimizer k) (service_queue k) (service_limiter k).
Definition on_handler {A} (m : eff (EventHandler W) KnxError A) : K A := λ k,
  let '(r, h) := m (event_handler k) in (r, set_handler h k).
Definition on_registry {A} (m : eff GroupAddressRegistry KnxError A) : K A := λ k,
  let '(r, g) := m (group_registry k) in (r, set_registry g k).

(** * Callbacks *)
Definition Knx_register_telegram_callback (callback : TelegramCallbackFn W) : K CallbackHandle :=
  on_handler (register_telegram_callback callback).
Definition Knx_register_telegram_callback_filtered (callback : TelegramCallbackFn W) (filter : TelegramFilter)
    (include_outgoing : bool) : K CallbackHandle :=
  on_handler (register_telegram_callback_filtered callback filter include_outgoing).
Definition Knx_register_connection_callback (callback : ConnectionCallbackFn W) : K CallbackHandle :=
  on_handler (register_connection_callback callback).
Definition Knx_unregister_callback (handle : CallbackHandle) : K bool := on_handler (unregister_callback handle).
Definition Knx_clear_all_callbacks : K unit := modify (λ k, set_handler (clear_all_callbacks (event_handler k)) k).
Definition Knx_total_callback_count k : nat := total_callback_count (event_handler k).
Definition Knx_telegram_callback_count k : nat := telegram_callback_count (event_handler k).
Definition Knx_connection_callback_count k : nat := connection_callback_count (event_handler k).
Definition Knx_notify_connection_state_changed k (state : Callbacks.ConnectionState)
    : eff W KnxError (list (CallbackHandle * call_end)) :=
  notify_connection_state_changed (event_handler k) state.

(** * Group addresses *)
Definition Knx_group_address_dpt k (address : GroupAddress) : option DptType := GroupAddressRegistry_get (group_registry k) address.
Definition Knx_registered_group_addresses (it : iteration) k : list (GroupAddress * DptType) :=
  GroupAddressRegistry_entries it (group_registry k).
Definition Knx_group_address_state k (address : GroupAddress) : option GroupAddressState :=
  GroupAddressRegistry_state (group_registry k) address.
Definition Knx_unregister_group_address (address : GroupAddress) : K (option DptType) :=
  on_registry (GroupAddressRegistry_unregister address).

(** * Memory, hot paths, queue and limiter *)
Definition Knx_memory_stats k : MemoryStats := MemoryMonitor_get_stats (memory_monitor k).
Definition Knx_memory_within_bounds k : bool := is_within_bounds (memory_monitor k).
Definition Knx_memory_usage_percentage k : float := usage_percentage (memory_monitor k).
(** The bytes freed; [cleanup] does not fail. *)
Definition Knx_force_cleanup (at_ : Z) k : outcome MemoryError Z * services W :=
  let '(freed, m) := cleanup at_ (memory_monitor k) in (freed, set_monitor m k).
Definition Knx_performance_stats k : HotPathStats := performance_optimizer k.
Definition Knx_telegram_queue_stats k : QueueStats := queue_stats (service_queue k).
Definition Knx_telegram_queue_size k : nat := queue_len (service_queue k).
Definition Knx_telegram_queue_is_empty k : bool := queue_is_empty (service_queue k).
Definition Knx_receive_stats k : option ReceiveStats := receive_stats <$> service_limiter k.

(** * Sequences of calls *)
Inductive service_op :=
| Callback (op : callback_op W)
| GroupType (address : GroupAddress) (dpt : DptType)
| GroupRefresh (address : GroupAddress) (ttl : option Z)
| GroupUnregister (address : GroupAddress)
| ForceCleanup (at_ : Z).
Definition service_step k (op : service_op) : services W :=
  match op with
  | Callback (OnTelegram cb f out) => (Knx_register_telegram_callback_filtered cb f out k).2
  | Callback (OnConnection cb) => (Knx_register_connection_callback cb k).2
  | Callback (Remove x) => (Knx_unregister_callback x k).2
  | Callback Callbacks.Clear => (Knx_clear_all_callbacks k).2
  | GroupType a d => (on_registry (Knx_register_group_address_dyn a d) k).2
  | GroupRefresh a (Some ttl) => (on_registry (Knx_set_group_address_refresh a ttl) k).2
  | GroupRefresh a None => (on_registry (Knx_clear_group_address_refresh a) k).2
  | GroupUnregister a => (Knx_unregister_group_address a k).2
  | ForceCleanup at_ => (Knx_force_cleanup at_ k).2
  end.
Definition callback_part (op : service_op) : option (callback_op W) := match op with Callback op => Some op | _ => None end.
Definition registry_part (op : service_op) : option registry_op :=
  match op with
  | GroupType a d => Some (Register a d)
  | GroupRefresh a ttl => Some (SetRefreshTtl a ttl)
  | GroupUnregister a => Some (Unregister a)
  | _ => None
  end.
Definition cleanup_part (op : service_op) : option Z := match op with ForceCleanup at_ => Some at_ | _ => None end.

(** The parts are independent: whatever calls are made on the application
    object, each part is left as by the calls that concern it, on its own; the
    queue, the limiter and the hot paths are not touched. *)
Theorem services_independent (ops : list service_op) k :
  let k' := foldl service_step k ops in
  event_handler k' = foldl callback_step (event_handler k) (omap callback_part ops) ∧
  group_registry k' = foldl (λ r op, (registry_step op r).2) (group_registry k) (omap registry_part ops) ∧
  memory_monitor k' = foldl (λ m at_, set_last_cleanup at_ m) (memory_monitor k) (omap cleanup_part ops) ∧
  (service_queue k', service_limiter k', performance_optimizer k') = (service_queue k, service_limiter k, performance_optimizer k).
Proof.
  cbn zeta. revert k. induction ops as [|op ops IH]; intros k; [done|]. cbn [foldl]. destruct (IH (service_step k op)) as (-> & -> & -> & ->).
  destruct op as [[cb f out|cb|x|]|a d|a [ttl|]|a|at_]; cbn [omap list_omap callback_part registry_part cleanup_part foldl service_step];
    unfold Knx_register_telegram_callback_filtered, Knx_register_connection_callback, Knx_unregister_callback, Knx_unregister_group_address,
      Knx_set_group_address_refresh, Knx_clear_group_address_refresh, Knx_register_group_address_dyn, on_handler, on_registry, callback_step, registry_step;
    repeat case_match; simplify_eq/=; split_and!; congruence || done.
Qed.
End services.

(** * The connection, which is a tunnel here *)
Section connection.
Context {T : Type}.
Definition Tunnel_health (w : world T) : option ConnectionHealth :=
  ConnectionHealth_from_state_and_stats (clock w) (TunnelCore.state (tunnel w)) <$> result_ok (Tunnel_stats w).1.
Definition Knx_connection_stats (connection : option (world T)) : option ConnectionStats :=
  connection ≫= λ w, result_ok (Tunnel_stats w).1.
Definition Knx_connection_health (connection : option (world T)) : option ConnectionHealth := connection ≫= Tunnel_health.
End connection.
