(* ===== verification/Pacing.v ===== *)
(** Pacing: the token bucket of outgoing telegrams
    ([src/src/transport/rate_limit.rs]), the delays between reconnections
    ([src/src/transport/backoff.rs]) and the health score of a connection
    ([src/src/transport/health.rs]), all in [f64].

    Instants and durations are nanoseconds.  The power function of the backoff is
    a parameter, since its precision is left open; the random factor is an
    argument. *)
From S2P Require Import Prelude Errors Connection Float Lifecycle.

Definition f64_ge (a b : float) : bool := SFleb b a.
(** [f64::min] and [f64::max]: the other operand if one is not a number. *)
Definition f64_min (a b : float) : float := if is_nan a then b else if SFltb b a then b else a.
Definition f64_max (a b : float) : float := if is_nan a then b else if SFltb a b then b else a.
(** [Duration::as_secs_f64]. *)
Definition as_secs_f64 (ns : Z) : float :=
  f64_add (f64_of_Z (ns / 1000000000)) (f64_div (f64_of_Z (ns mod 1000000000)) (f64_of_Z 1000000000)).
(** [u32] addition. *)
Definition add32 `{Profile} {E} (a b : Z) : outcome E Z :=
  if 2 ^ 32 <=? a + b then (if debug_build then Panic else Ok ((a + b) mod 2 ^ 32)) else Ok (a + b).

(** * The rate limiter *)
Record RateLimitConfig := MkRateLimitConfig { max_per_second : Z; burst : Z }.
Definition RateLimitConfig_default : RateLimitConfig := MkRateLimitConfig 50 10.
Record RateLimiter := MkRateLimiter { rl_config : RateLimitConfig; tokens : float; last_refill : Z }.
Definition RateLimiter_new (config : RateLimitConfig) (now : Z) : RateLimiter :=
  MkRateLimiter config (f64_of_Z (burst config)) now.
Section limiter.
Context `{Profile}.
Abbreviation M := (eff RateLimiter KnxError).
Definition set_tokens (t : float) (l : RateLimiter) : RateLimiter := MkRateLimiter (rl_config l) t (last_refill l).
Definition RateLimiter_refill (now : Z) : M unit :=
  l ← gets id;
  let config := rl_config l in
  let elapsed := as_secs_f64 (now - last_refill l) in
  _ ← modify (set_tokens (f64_add (tokens l) (f64_mul elapsed (f64_of_Z (max_per_second config)))));
  max ← lift (add32 (max_per_second config) (burst config));
  let max_tokens := f64_of_Z max in
  _ ← modify (λ l, if SFltb max_tokens (tokens l) then set_tokens max_tokens l else l);
  modify (λ l, MkRateLimiter (rl_config l) (tokens l) now).
Definition RateLimiter_try_acquire (now : Z) : M bool :=
  _ ← RateLimiter_refill now;
  l ← gets id;
  if f64_ge (tokens l) (f64_of_Z 1)
  then _ ← modify (set_tokens (f64_sub (tokens l) (f64_of_Z 1))); mret true
  else mret false.
(** The loop of [acquire]; [wake] is the instant at which a sleep that starts at
    an instant and lasts that many milliseconds ends.  The answer is the instant at
    which the token is taken, [None] if it is not within the passes. *)
Fixpoint RateLimiter_acquire (wake : Z → Z → Z) (fuel : nat) (now : Z) : M (option Z) :=
  match fuel with
  | O => mret None
  | S fuel =>
      _ ← RateLimiter_refill now;
      l ← gets id;
      if f64_ge (tokens l) (f64_of_Z 1)
      then _ ← modify (set_tokens (f64_sub (tokens l) (f64_of_Z 1))); mret (Some now)
      else
        let wait_ms := float_as_u64 (f64_mul (f64_div (f64_sub (f64_of_Z 1) (tokens l)) (f64_of_Z (max_per_second (rl_config l)))) (f64_of_Z 1000)) in
        RateLimiter_acquire wake fuel (wake now (Z.max wait_ms 1))
  end.
End limiter.

(** * The backoff *)
Record JitteredBackoff := MkJitteredBackoff { bo_config : BackoffConfig; attempt : Z }.
Definition JitteredBackoff_new (config : BackoffConfig) : JitteredBackoff := MkJitteredBackoff config 0.
Section backoff.
Context `{Profile} (powi : float → Z → float).
(** [(self.attempt - 1) as i32]. *)
Definition JitteredBackoff_next_delay (jitter : float) : eff JitteredBackoff KnxError Z :=
  b ← gets id;
  n ← lift (add32 (attempt b) 1);
  _ ← modify (λ b, MkJitteredBackoff (bo_config b) n);
  let config := bo_config b in
  let base_ms := f64_mul (f64_of_Z (initial_delay_ms config)) (powi (multiplier config) (as_signed 32 (n - 1))) in
  let capped_ms := f64_min base_ms (f64_of_Z (max_delay_ms config)) in
  mret (float_as_u64 (f64_mul capped_ms jitter) * 1000000).
Definition JitteredBackoff_reset (b : JitteredBackoff) : JitteredBackoff := MkJitteredBackoff (bo_config b) 0.
Definition JitteredBackoff_is_exhausted (b : JitteredBackoff) : bool := max_attempts (bo_config b) <=? attempt b.
End backoff.

(** * The health score *)
Definition ConnectionHealth_score (h : ConnectionHealth) : float :=
  match health_state h with
  | Failed | Disconnecting | Disconnected => f64_of_Z 0
  | Connecting => f64_lit 1 1
  | Connected =>
      let errors := ConnectionHealth_total_errors h in
      let operations := saturating_add64 (saturating_add64 (health_frames_sent h) (health_frames_received h)) errors in
      if operations =? 0 then f64_of_Z 1
      else
        let error_ratio := f64_div (f64_of_Z errors) (f64_of_Z operations) in
        f64_max (f64_sub (f64_of_Z 1) (f64_mul error_ratio (f64_lit 9 1))) (f64_lit 1 1)
  end.

(** * Lemmas *)

(** ** Whole tokens and whole seconds *)
Lemma f64_add_integers a b : 0 ≤ a → 0 ≤ b → a + b < 2 ^ 53 → f64_add (f64_of_Z a) (f64_of_Z b) = f64_of_Z (a + b).
Proof. intros. by apply (float_add_integers 53 1024). Qed.
Lemma as_secs_whole s : 0 ≤ s < 2 ^ 53 → as_secs_f64 (s * 1000000000) = f64_of_Z s.
Proof.
  intros Hs. unfold as_secs_f64. rewrite Z.div_mul, Z.mod_mul by lia.
  assert (f64_div (f64_of_Z 0) (f64_of_Z 1000000000) = f64_of_Z 0) as -> by (vm_compute; reflexivity).
  rewrite f64_add_integers, Z.add_0_r by lia. done.
Qed.
(** The bucket as it is meant: the answers to calls that are [gaps] seconds
    apart, from [n] tokens on. *)
Fixpoint bucket (rate cap n : Z) (gaps : list Z) : list bool :=
  match gaps with
  | [] => []
  | gap :: gaps =>
      let n := Z.min (n + gap * rate) cap in
      if 1 <=? n then true :: bucket rate cap (n - 1) gaps else false :: bucket rate cap n gaps
  end.
Definition grants (l : list bool) : Z := Z.of_nat (length (filter (λ b, b = true) l)).
Definition seconds (gaps : list Z) : Z := foldr Z.add 0 gaps.
Lemma grants_cons b l : grants (b :: l) = (if b then 1 else 0) + grants l.
Proof. unfold grants. rewrite filter_cons. destruct b; [rewrite decide_True by done; cbn [length]; lia|by rewrite decide_False]. Qed.
Lemma bucket_bound rate cap n gaps : 0 ≤ rate → 0 ≤ n → 0 ≤ cap → Forall (λ g, 0 ≤ g) gaps →
  grants (bucket rate cap n gaps) ≤ n + rate * seconds gaps.
Proof.
  intros Hr Hn Hc Hg. revert n Hn. induction Hg as [|g gaps Hg Hgs IH]; intros n Hn; [change (0 ≤ n + rate * 0); lia|].
  cbn [bucket seconds foldr]. fold (seconds gaps). assert (0 ≤ n + g * rate) by nia. rewrite Z.mul_add_distr_l.
  destruct (Z.leb_spec 1 (Z.min (n + g * rate) cap)) as [H1|H1]; rewrite grants_cons.
  - specialize (IH (Z.min (n + g * rate) cap - 1) ltac:(lia)). lia.
  - specialize (IH (Z.min (n + g * rate) cap) ltac:(lia)). lia.
Qed.

Section limiter_lemmas.
Context `{Profile}.
Lemma refill_whole cfg n last s : 0 ≤ max_per_second cfg → 0 ≤ burst cfg → max_per_second cfg + burst cfg < 2 ^ 32 →
  0 ≤ n ≤ max_per_second cfg + burst cfg → 0 ≤ s ≤ 2 ^ 20 →
  RateLimiter_refill (last + s * 1000000000) (MkRateLimiter cfg (f64_of_Z n) last) =
    (Ok tt, MkRateLimiter cfg (f64_of_Z (Z.min (n + s * max_per_second cfg) (max_per_second cfg + burst cfg))) (last + s * 1000000000)).
Proof.
  intros Hr Hb Hm Hn Hs. unfold RateLimiter_refill. rewrite eff_bind_run. cbn [gets id]. cbv zeta. rewrite eff_bind_run. unfold modify at 1.
  cbn [rl_config tokens last_refill set_tokens]. replace (last + s * 1000000000 - last) with (s * 1000000000) by lia.
  assert (0 ≤ s * max_per_second cfg ≤ 2 ^ 52) by nia.
  rewrite as_secs_whole by lia.
  assert (f64_mul (f64_of_Z s) (f64_of_Z (max_per_second cfg)) = f64_of_Z (s * max_per_second cfg)) as ->
    by (apply (float_mul_integers 53 1024); lia).
  rewrite f64_add_integers by lia. rewrite eff_bind_run. unfold add32. rewrite (proj2 (Z.leb_gt _ _)) by lia. cbn [lift].
  rewrite eff_bind_run. unfold modify at 1. cbn [tokens set_tokens rl_config last_refill].
  assert (SFltb (f64_of_Z (max_per_second cfg + burst cfg)) (f64_of_Z (n + s * max_per_second cfg)) =
    (max_per_second cfg + burst cfg <? n + s * max_per_second cfg)) as -> by (apply (float_of_Z_ltb 53 1024); lia).
  destruct (Z.ltb_spec (max_per_second cfg + burst cfg) (n + s * max_per_second cfg)) as [Hlt|Hge].
  - rewrite Z.min_r by lia. done.
  - rewrite Z.min_l by lia. done.
Qed.
Lemma try_acquire_whole cfg n last s : 0 ≤ max_per_second cfg → 0 ≤ burst cfg → max_per_second cfg + burst cfg < 2 ^ 32 →
  0 ≤ n ≤ max_per_second cfg + burst cfg → 0 ≤ s ≤ 2 ^ 20 →
  let n' := Z.min (n + s * max_per_second cfg) (max_per_second cfg + burst cfg) in
  RateLimiter_try_acquire (last + s * 1000000000) (MkRateLimiter cfg (f64_of_Z n) last) =
    (Ok (1 <=? n'), MkRateLimiter cfg (f64_of_Z (if 1 <=? n' then n' - 1 else n')) (last + s * 1000000000)).
Proof.
  intros Hr Hb Hm Hn Hs. cbv zeta. unfold RateLimiter_try_acquire. rewrite eff_bind_run, refill_whole by done. rewrite eff_bind_run. cbn [gets id].
  cbn [tokens]. set (n' := Z.min _ _). assert (0 ≤ n' < 2 ^ 32) by nia.
  assert (f64_ge (f64_of_Z n') (f64_of_Z 1) = (1 <=? n')) as ->.
  { unfold f64_ge, SFleb, f64_of_Z. rewrite float_of_Z_compare by lia. unfold Z.leb. by destruct (1 ?= n'). }
  destruct (Z.leb_spec 1 n') as [H1|H1]; [|done]. rewrite eff_bind_run. unfold modify, set_tokens. cbn [rl_config last_refill].
  assert (f64_sub (f64_of_Z n') (f64_of_Z 1) = f64_of_Z (n' - 1)) as -> by (apply (float_sub_integers 53 1024); lia).
  done.
Qed.
(** Calls of [try_acquire], each the given number of seconds after the one
    before. *)
Fixpoint try_all (gaps : list Z) (now : Z) : eff RateLimiter KnxError (list bool) :=
  match gaps with
  | [] => mret []
  | gap :: gaps =>
      b ← RateLimiter_try_acquire (now + gap * 1000000000);
      bs ← try_all gaps (now + gap * 1000000000);
      mret (b :: bs)
  end.
Lemma try_all_run cfg gaps n last : 0 ≤ max_per_second cfg → 0 ≤ burst cfg → max_per_second cfg + burst cfg < 2 ^ 32 →
  0 ≤ n ≤ max_per_second cfg + burst cfg → Forall (λ g, 0 ≤ g ≤ 2 ^ 20) gaps →
  (try_all gaps last (MkRateLimiter cfg (f64_of_Z n) last)).1 = Ok (bucket (max_per_second cfg) (max_per_second cfg + burst cfg) n gaps).
Proof.
  intros Hr Hb Hm Hn Hg. revert n last Hn. induction Hg as [|g gaps Hg Hgs IH]; intros n last Hn; [done|]. cbn [try_all bucket].
  rewrite eff_bind_run, try_acquire_whole by done. cbv zeta. rewrite eff_bind_run.
  set (n' := Z.min _ _). assert (0 ≤ n' ≤ max_per_second cfg + burst cfg) by nia.
  destruct (Z.leb_spec 1 n') as [H1|H1].
  - specialize (IH (n' - 1) (last + g * 1000000000) ltac:(lia)). destruct (try_all gaps _ _) as [r l]. cbn [fst] in IH. by subst.
  - specialize (IH n' (last + g * 1000000000) ltac:(lia)). destruct (try_all gaps _ _) as [r l]. cbn [fst] in IH. by subst.
Qed.
End limiter_lemmas.
Fixpoint delays `{Profile} (powi : float → Z → float) (jitters : list float) : eff JitteredBackoff KnxError unit :=
  match jitters with [] => mret tt | j :: js => _ ← JitteredBackoff_next_delay powi j; delays powi js end.
Lemma delays_run `{Profile} powi js b : 0 ≤ attempt b → attempt b + Z.of_nat (length js) < 2 ^ 32 →
  delays powi js b = (Ok tt, MkJitteredBackoff (bo_config b) (attempt b + Z.of_nat (length js))).
Proof.
  revert b. induction js as [|j js IH]; intros b Hb Hl.
  { cbn. destruct b. by rewrite Z.add_0_r. }
  cbn [delays length] in *. rewrite eff_bind_run. unfold JitteredBackoff_next_delay at 1. rewrite eff_bind_run. cbn [gets id].
  rewrite eff_bind_run. unfold add32. rewrite (proj2 (Z.leb_gt _ _)) by lia. cbn [lift]. rewrite eff_bind_run. unfold modify at 1.
  cbv zeta. unfold mret at 1, eff_ret at 1. rewrite IH by (cbn; lia). cbn [bo_config attempt]. by replace (attempt b + 1 + Z.of_nat (length js)) with (attempt b + Z.of_nat (S (length js))) by lia.
Qed.

(** * Properties *)

(** C40: The limiter is a token bucket: for calls whole seconds apart (up to twelve
    days) its [f64] arithmetic is exact and its answers are those of the bucket on
    integers, which starts with the burst and holds at most the rate plus the
    burst; so over any time no more telegrams pass than the burst and the rate
    times the seconds allow. *)
Theorem rate_limiter_is_bucket `{Profile} cfg now gaps : 0 ≤ max_per_second cfg → 0 ≤ burst cfg → max_per_second cfg + burst cfg < 2 ^ 32 →
  Forall (λ g, 0 ≤ g ≤ 2 ^ 20) gaps →
  let answers := bucket (max_per_second cfg) (max_per_second cfg + burst cfg) (burst cfg) gaps in
  (try_all gaps now (RateLimiter_new cfg now)).1 = Ok answers ∧
  grants answers ≤ burst cfg + max_per_second cfg * seconds gaps.
Proof.
  intros Hr Hb Hm Hg. cbv zeta. split; [by apply try_all_run; try lia|].
  apply bucket_bound; [lia..|]. eapply Forall_impl; [exact Hg|]. cbn. lia.
Qed.

(** The sum of rate and burst is computed in 32 bits: when it does not fit, the
    first use of the limiter panics in a debug build. *)
Theorem rate_limiter_overflow `{Profile} cfg now t : debug_build = true → 2 ^ 32 ≤ max_per_second cfg + burst cfg →
  (RateLimiter_try_acquire t (RateLimiter_new cfg now)).1 = Panic.
Proof.
  intros Hd Hm. unfold RateLimiter_try_acquire. rewrite eff_bind_run. unfold RateLimiter_refill. rewrite eff_bind_run. cbn [gets id]. cbv zeta.
  rewrite eff_bind_run. unfold modify at 1. rewrite eff_bind_run. unfold add32, RateLimiter_new. cbn [rl_config].
  by rewrite (proj2 (Z.leb_le _ _)), Hd by lia.
Qed.

(** A backoff counts its delays and is exhausted exactly from the maximal number
    of attempts on; a reset starts over. *)
Theorem backoff_counts `{Profile} powi cfg js : Z.of_nat (length js) < 2 ^ 32 →
  ∃ b, delays powi js (JitteredBackoff_new cfg) = (Ok tt, b) ∧ attempt b = Z.of_nat (length js) ∧
    JitteredBackoff_is_exhausted b = (max_attempts cfg <=? Z.of_nat (length js)) ∧
    JitteredBackoff_reset b = JitteredBackoff_new cfg.
Proof. intros Hl. rewrite delays_run by (cbn; lia). eexists. split; [done|]. done. Qed.

(** The health score is 0 for a connection that cannot be used, 0.1 while it
    connects, 1 for a connected one without errors, and never below 0.1 for a
    connected one. *)
Theorem health_score h :
  match health_state h with
  | Failed | Disconnecting | Disconnected => ConnectionHealth_score h = f64_of_Z 0
  | Connecting => ConnectionHealth_score h = f64_lit 1 1
  | Connected => SFltb (ConnectionHealth_score h) (f64_lit 1 1) = false ∧
      (ConnectionHealth_total_errors h = 0 → 0 ≤ health_frames_sent h → 0 ≤ health_frames_received h →
       health_frames_sent h + health_frames_received h < 2 ^ 53 → ConnectionHealth_score h = f64_of_Z 1)
  end.
Proof.
  unfold ConnectionHealth_score. destruct (health_state h); try done. cbv zeta. set (e := ConnectionHealth_total_errors h).
  set (ops := saturating_add64 _ _). split.
  - destruct (ops =? 0); [vm_compute; reflexivity|]. unfold f64_max. set (x := f64_sub _ _).
    destruct (is_nan x); [vm_compute; reflexivity|]. destruct (SFltb x (f64_lit 1 1)) eqn:E; [vm_compute; reflexivity|done].
  - intros He Hs Hr Hl. destruct (Z.eqb_spec ops 0) as [|Ho]; [done|].
    assert (ops = health_frames_sent h + health_frames_received h) as Eo by (unfold ops, saturating_add64, u64_MAX; lia).
    assert (f64_div (f64_of_Z e) (f64_of_Z ops) = f64_of_Z 0) as ->; [|vm_compute; reflexivity].
    rewrite He. destruct ops as [|p|p]; [done| |lia]. unfold f64_div, f64_of_Z, float_of_Z. cbn [binary_normalize].
    by rewrite round_integer by lia.
Qed.

(** ** Witnesses *)
#[local] Instance pacing_debug : Profile := {| debug_build := true |}.
Lemma rate_limiter_is_bucket_witness :
  (try_all (replicate 12 0 ++ [1]) 0 (RateLimiter_new RateLimitConfig_default 0)).1 = Ok (replicate 10 true ++ [false; false; true]).
Proof.
  destruct (rate_limiter_is_bucket RateLimitConfig_default 0 (replicate 12 0 ++ [1])) as [E _].
  - cbn; lia.
  - cbn; lia.
  - cbn; lia.
  - repeat constructor; cbn; lia.
  - rewrite E. reflexivity.
Defined.
Lemma rate_limiter_overflow_witness :
  (RateLimiter_try_acquire 0 (RateLimiter_new (MkRateLimitConfig (2 ^ 32 - 1) 1) 0)).1 = Panic.
Proof. apply (rate_limiter_overflow (MkRateLimitConfig (2 ^ 32 - 1) 1) 0 0); [reflexivity|cbn; lia]. Defined.
Lemma backoff_counts_witness : ∃ b,
  delays (λ x _, x) (replicate 10 (f64_of_Z 1)) (JitteredBackoff_new BackoffConfig_default) = (Ok tt, b) ∧
  JitteredBackoff_is_exhausted b = true.
Proof.
  destruct (backoff_counts (λ x _, x) BackoffConfig_default (replicate 10 (f64_of_Z 1))) as (b & E & _ & Hx & _); [cbn; lia|].
  exists b. split; [exact E|]. rewrite Hx. reflexivity.
Defined.
(** From an empty bucket the default limiter waits for 20 ms. *)
Example acquire_waits :
  (RateLimiter_acquire (λ now ms, now + ms * 1000000) 3 0 (MkRateLimiter RateLimitConfig_default (f64_of_Z 0) 0)).1 = Ok (Some 20000000).
Proof. vm_compute. reflexivity. Qed.
